(* ===== verification/_CoqProject ===== *)
-Q . S2P
Prelude.v
Bgp.v
BgpPrefix.v
BgpTable.v
BgpTableFacts.v
BgpRoutes.v
CBuf.v
Jhash.v
BgpHash.v
BgpHashFacts.v
BgpInternFacts.v
Aspath.v
AspathFacts.v
Communities.v
CommunitiesFacts.v
BgpAttr.v
BgpAttrFacts.v
BgpRib.v
BgpRibFacts.v
BgpRouterFacts.v
BgpFlushFacts.v
BgpNlri.v
BgpNlriFacts.v
BgpUpdate.v
BgpAttrParseFacts.v
BgpUpdateFacts.v
BgpMsg.v
BgpMsgFacts.v
NfTemplate.v
NfTemplateFacts.v
Sav.v
SavFacts.v
Rpki.v
RpkiFacts.v
RpkiRtrFacts.v
CfgData.v
CfgHandlers.v
Cfg.v
CfgKeysFacts.v
CfgFacts.v
CfgTextFacts.v
PretagData.v
PretagMaskFacts.v
PretagMap.v
PretagMapFacts.v
PretagMatch.v
Pretag.v
PretagFacts.v
PretagLoad.v
PretagFindFacts.v
PretagLoadFacts.v
PretagLineFacts.v
Imt.v
ImtServer.v
ImtFacts.v
ImtPoolFacts.v
ImtInsertFacts.v
ImtCountFacts.v
ImtServerFacts.v
ImtExamples.v
NetAggr.v
NetFuncs.v
NetKeyFacts.v
NetSortFacts.v
NetTreeFacts.v
NetSearchFacts.v
NetLoadFacts.v
NetFuncsFacts.v
NetFacts.v
NetExamples.v
