(* ===== verification/Prelude.v ===== *)
(** * pmacct: a verification library

    pmacct is a set of network monitoring daemons written in C: nfacctd
    (NetFlow/IPFIX), sfacctd (sFlow), pmacctd (packet capture), and the route
    collectors pmbgpd and pmbmpd.  They turn what they receive into flows,
    tag and aggregate them with what they know of routing, and hand them to
    plugins (databases, brokers, files).  This library models the parts that
    keep state or decode what comes from the network, and proves them correct
    or shows how they are not.

    ** The parts, and how they interact

    A BGP session is a TCP stream; what is received is cut into messages
    ([BgpMsg]: bgp_parse_msg), an OPEN message is answered and sets the session
    up, an UPDATE ([BgpUpdate]: bgp_parse_update_msg) has path attributes and
    prefixes.  An AS path ([Aspath]) or a set of communities ([Communities])
    is interned: one object per value, counted, found through a hash table
    ([BgpHash], over [Jhash]).  Attributes that point to such objects are
    interned themselves ([BgpAttr]).  Each prefix ([BgpPrefix], read by
    [BgpNlri]: bgp_nlri_parse) is looked up in a routing table ([BgpTable], a
    Patricia trie with locks), and the route of the peer is added, replaced or
    removed there ([BgpRib]: bgp_process_update, bgp_process_withdraw), which
    takes and gives up references to attributes.  When a session ends, its
    routes are walked and removed (bgp_table_info_delete).  A route is
    validated against the ROAs that an RTR cache sends or a file holds
    ([Rpki]), kept in tables of the same kind.  nfacctd keeps the templates
    that say how data records are laid out ([NfTemplate]) and decodes the
    records of source address validation ([Sav]).

    A collector tags what it receives by maps, files of lines that say what to
    match and what to set: a map is read into a table of entries, each with an
    array of functions ([PretagMap]: one handler per key; [PretagLoad]:
    load_id_file), and a packet is looked up in it ([PretagMatch]: the
    functions that compare; [Pretag]: NF_find_id, SF_find_id, PM_find_id,
    BTA_find_id, pretag_entry_process).

    What is collected is counted by plugins.  The memory plugin keeps a table
    of buckets, with chains carved from pools of mapped memory ([Imt]:
    insert_accounting_structure, request_memory_pool), and answers the queries
    of clients from it ([ImtServer]: imt_plugin, process_query_data).

    Between the two, a networks file tells the networks, masks and ASes of the
    addresses: [NetAggr] (load_networks, binsearch) reads it and looks it up,
    [NetFuncs] (set_net_funcs and the functions it picks) applies it to the
    primitives of a packet.

    Every daemon starts with its configuration: the lines of a file and of the
    command line are checked ([Cfg]: sanitize_cfg), the plugins they name are
    put in a list ([Cfg]: parse_plugin_names), and each line is handed to the
    handler of its key ([CfgHandlers]), which writes a member of struct
    configuration ([CfgData]) in every plugin or in the one that is named.

    ** The files

    [Prelude] (this file): integers of fixed width, the error monad, lemmas and
    tactics all files share.  [CBuf]: octet buffers, reads at an offset,
    snprintf.  Of a model [X], the proofs are in [XFacts].

    - [Bgp]: src/bgp/bgp.h, what the BGP files share.
    - [BgpPrefix]: src/bgp/bgp_prefix.c and bgp_prefix.h.
    - [BgpTable], [BgpTableFacts]: src/bgp/bgp_table.c; nodes are a finite map
      from locations to records, the fields named as in struct bgp_node.
    - [BgpRoutes]: what a table means, a finite map from prefix and bucket to
      the list of routes; every operation of bgp_table.c is an operation on
      that map, and locks count routes and holders exactly ([exact_but]).
    - [Jhash]: src/jhash.h.  [BgpHash], [BgpHashFacts]: src/bgp/bgp_hash.c, and
      the intern and unintern functions of src/bgp/bgp_aspath.c and the three
      community files, which are alike; the class [Internable] says what a kind
      of object offers and [InternLaws] what it promises.  [BgpInternFacts]
      proves interning correct against that interface.
    - [Aspath], [AspathFacts]: src/bgp/bgp_aspath.c.
    - [Communities], [CommunitiesFacts]: src/bgp/bgp_community.c,
      bgp_ecommunity.c, bgp_lcommunity.c.
    - [BgpAttr], [BgpAttrFacts]: the attributes of src/bgp/bgp_util.c.
    - [BgpRib], [BgpRibFacts]: routes, src/bgp/bgp_msg.c and bgp_util.c.
      [BgpRouterFacts]: what several updates in a row leave in the table.
      [BgpFlushFacts]: the routes of a peer that goes.
    - [BgpNlri], [BgpNlriFacts]: bgp_nlri_parse of src/bgp/bgp_msg.c.
    - [BgpUpdate], [BgpAttrParseFacts], [BgpUpdateFacts]: the attributes and
      bgp_parse_update_msg of src/bgp/bgp_msg.c.
    - [BgpMsg], [BgpMsgFacts]: the messages and the session, src/bgp/bgp_msg.c.
    - [NfTemplate], [NfTemplateFacts]: src/nfv9_template.c and the loop over
      data records of src/nfacctd.c.
    - [Sav], [SavFacts]: src/sav_parser.c, with the JSON fields of
      src/plugin_cmn_json.c.
    - [Rpki], [RpkiFacts], [RpkiRtrFacts]: src/rpki/rpki.c, rpki_msg.c,
      rpki_util.c and rpki_lookup.c.
    - [CfgData]: struct configuration of src/cfg.h, a member being an entry of
      [configuration] with its C type, and a configuration the finite map of
      the members that were written; the functions on strings of src/util.c;
      the list of plugins (src/plugin_hooks.h).  [CfgHandlers]: one definition
      per function of src/cfg_handlers.c.  [Cfg]: src/cfg.c, the table
      dictionary and what reads the file.  [CfgKeysFacts] specifies each key,
      by the members it may write, in which plugins, and the values they may
      hold, and proves every handler against it; [CfgFacts] and
      [CfgTextFacts] build on that table.

    - [PretagData]: src/pretag.h, src/pretag-data.h, the addresses and masks of
      src/addr.c; an entry's keys are a finite map from the member of struct
      id_entry_key to its value, its functions the list of what is in the
      array before the first NULL.  [PretagMap]: the PT_map, BPAS_map,
      BITR_map and BTA_map handlers of src/pretag_handlers.c and the
      dictionaries.  [PretagMatch]: the pretag_, SF_pretag_, PM_pretag_ and
      BPAS_ functions of the same file.  [Pretag]: labels, the evaluation of an
      entry and the lookups of src/pretag.c, nfacctd.c and sfacctd.c.
      [PretagLoad]: load_id_file.  [PretagMapFacts]: every handler of every
      dictionary keeps an entry well formed.  [PretagMaskFacts]: networks.
      [PretagFacts]: labels, the comparing functions, the run over an array.
      [PretagFindFacts]: what a match writes, and the specification of a
      lookup, [lookup_path] and [lookup_fault].  [PretagLoadFacts]: the table that is built.
      [PretagLineFacts]: lines and their keys.

    - [Imt]: src/acct.c, src/memory.c, src/crc32.h and the structures of
      src/imt_plugin.h; mapped memory is a list of segments, with a finite map
      of the elements written since they were zeroed.  [ImtServer]:
      src/imt_plugin.c and the queries of src/server.c.  [ImtFacts]: keys,
      chains ([table_ok]); [ImtPoolFacts]: descriptors ([registered],
      [current_ok]); [ImtInsertFacts]: what an insertion does ([inserted]);
      [ImtCountFacts]: totals; [ImtServerFacts]: start, erasure, walks,
      replies; [ImtExamples]: a small table, and what goes wrong.

    - [NetAggr]: src/net_aggr.c up to the lookups and src/net_aggr.h, written
      once for both families over the class [net_family] (the functions of
      each family are its instances).  [NetFuncs]: the network functions of
      src/net_aggr.c.  [NetKeyFacts]: networks as intervals, and the class
      [net_family_ok] of what the families promise; [NetSortFacts]: the sort
      and the duplicates; [NetTreeFacts]: the tables inside tables as a forest;
      [NetSearchFacts]: binary search, the cache and the reference
      [longest_match]; [NetLoadFacts]: from the text to the table;
      [NetFuncsFacts]: the functions of one end; [NetFacts]: the claims;
      [NetExamples]: a file, and what goes wrong.

    ** How C is modelled

    A machine integer is a [Z], with [u8], [u16], [u32], [s32], ... written
    where the code's type wraps.  Memory that is shared is a finite map from
    locations to objects ([free] removes one, and a read of it is then an
    [Err]); a local object whose address is taken is an object of the map like
    any other.  A read or write outside a buffer, a division by zero, a failed
    assert and a NULL that is followed are values of [err]; a function that can
    meet one returns [res].  Theorems that say [= Ok _] say that none of that
    happens.  A loop that is not structural runs on fuel and ends in
    [Err OutOfFuel] when it has used it up; the functions give themselves
    enough (the theorems that they return [Ok] show it): 257 rounds for a walk
    down a trie, whose prefix lengths are octets that grow; the length of the
    buffer for loops that consume it (the tokens of a value, the plugins of a
    line, the lines of a file); one round per entry for a lookup in a map,
    as jumps go forward; one per element that was written for a chain of the
    in-memory table; one round per element for a merge sort, and two for each entry
    of a networks table for a search, which halves what is left or goes down to
    the table of a network.  Where the code does not terminate,
    that is a theorem for any amount of fuel ([bgp_parse_msg_zero_length],
    [data_loop_empty_template]).  malloc succeeds, as the code exits when it
    does not (in [NetAggr], where it goes on, its answers are
    arguments).  inet_pton, inet_ntop, the users of the system, the clock, hooks
    and the options of the build are parameters (for the configuration, those
    of the class [CfgData.host]).  A string is the list of its characters; a
    text that is cut in place while others still point to it (the labels of a
    filter) is passed on as it is left.

    ** What the theorems show

    - Routing table: the tree is well formed whatever is done to it; lookup,
      insertion and longest-prefix match are those of a finite map of prefixes
      ([bgp_node_get_spec], [bgp_node_match_longest]); locks keep exactly the
      nodes that are needed ([bgp_unlock_node_spec], [bgp_info_add_spec],
      [bgp_info_delete_spec]); traversal and destruction end and visit every
      node ([bgp_route_next_spec], [bgp_table_free_spec]).
    - Interning: a value has one object, whose count is the number of users,
      and goes when the count reaches zero ([intern_spec], [intern_canonical],
      [unintern_spec]); the same for attributes with all they point to
      ([bgp_attr_intern_spec], [bgp_attr_unintern_spec]).
    - Routes: an update or withdrawal changes the one route it is about, and
      the counts of attributes and locks agree again afterwards
      ([bgp_process_update_spec], [bgp_process_withdraw_spec]); when a peer
      goes, its routes and no others do ([bgp_table_info_delete_spec]); an
      UPDATE message, whatever its octets, is parsed without an access out of
      bounds that the theorem does not name, and leaves the tables as
      consistent as they were ([bgp_parse_update_msg_safe]).
    - Route validation: for prefixes, cache responses, resets, ends of data
      and serial notifies what a cache sends is what the tables hold, however
      the stream is cut, as long as the first two octets of a PDU arrive
      together ([rpki_rtr_stream]; [parse_peek_short] when they do not,
      [router_key_closes] and [error_report_overread] for the other kinds);
      a lookup gives the state of RFC 6811 ([rpki_prefix_lookup_rov]), and leaves a lock behind
      ([leak_but] counts them); the end of a session forgets its ROAs
      ([rpki_rtr_close_forgets]).
    - Configuration: whatever the file says, the plugins are well formed and
      every member holds a value of its type and range
      ([parse_configuration_file_ok]); a key writes its own members, in the
      plugins it addresses, and nothing else ([evaluate_line_frame]), so that
      lines with different members can be swapped ([lines_commute]) and the
      command line has the last word ([cmdline_has_last_word]); a line is read
      as it is written when its brackets pass the check, and ends the daemon
      when they do not ([sanitize_line_roundtrip]), and so are lists of plugins
      ([parse_plugin_names_roundtrip]); reading
      ends, within the buffers, for lines that fit them
      ([parse_configuration_file_safe]); the findings at the end of
      [CfgTextFacts] are lines that do not.
    - Maps: whatever a file holds, the table read from it is well formed, with
      jumps that go forward ([load_id_file_table]); a line is read as the
      assignments it was written from ([load_line_assignments]); a lookup in
      such a table takes, from each place it jumps to, the first entry that
      names the exporter and whose keys agree, and ends, or stops at the first
      entry whose evaluation faults ([NF_find_id_first_match]);
      what an entry sets, and nothing else, is set ([entry_sets_tag],
      [entry_joins_label]); an address is of a network when it has its prefix
      ([ipv4_network_members]; for IPv6 to a whole octet,
      [ipv6_network_members]).
    - Networks: after a load every lookup, in any sequence and through the
      cache, is the longest match among the rows of the file
      ([load_networks_longest_match]; [load_networks_default_route] for the
      default routes), a family without a row having the stand-in entry of the
      code ([no_networks6]); what is counted of a packet is its addresses under the
      masks, and the ASes, of their longest matches ([net_funcs_aggregate],
      when the file neither filters nor is a fallback).
    - In-memory table: packets are counted, each under its key and once, until
      there is no more room ([imt_counts_every_packet],
      [insert_accounting_structure_counts]); a key has one element
      ([insert_keeps_keys_apart]), which the query of a client finds
      ([search_accounting_structure_finds]; not with custom primitives,
      [custom_primitives_not_found]); a client is told of every element
      once ([want_stats_lists_table]); erasing always leaves an empty table with
      room ([imt_clear_empties]).  The hypotheses say what is needed for that:
      a size of the table that an int holds, packets that are not empty,
      counters that do not wrap; [ImtExamples] shows what happens without.
    - Decoding: what an encoder writes is what the parser reads
      ([assegments_parse_encode], [nlri_walk_encoded], [bgp_open_exchange],
      [bgp_notification_round_trip], [parse_sav_round_trip]); arbitrary octets
      are read within bounds, or by how much not ([assegments_parse_safe],
      [nlri_walk_safe], [nlri_walk_overreads],
      [parse_sav_sub_template_list_spec], [resolve_vlen_template_spec]).
    - AS paths and communities: sorting and normalisation agree with their
      mathematical definition ([assegment_normalise_canonical],
      [community_uniq_sort_spec], [community_parse_spec]); text
      ([aspath_make_str_spec], [aspath_str2aspath_text],
      [community_com2str_spec]); the merging of AS4_PATH
      ([aspath_reconcile_as4_spec]).
    - Session: messages are treated in order, each in its own place
      ([bgp_parse_msg_sequence]); routes change only in an established session
      ([bgp_parse_msg_no_routes_before_established]).
    - Templates: the offsets and lengths of a template, and the records read by
      it ([compose_template_spec], [compose_template_resolvable],
      [data_loop_fixed]), with the ways in which a malformed template escapes
      the checks ([handle_template_v2_spec]).

    ** What is not modelled

    Sockets, signals, brokers, databases and threads: their behaviour is that
    of the system, not of this code.  Of the modelled files: the looking
    glass, logging and dumping of BGP, black-holing, the link-state NLRI of
    src/bgp/bgp_ls.c; saving and loading templates as JSON; of the
    configuration, getopt, the log and the resolution of custom primitives.
    The per-field copies of src/pkt_handlers.c and src/plugin_cmn_json.c,
    plugin_cmn_avro.c have no state of their own.

    Of the memory plugin, the socket, poll and fork; the tables of classes and
    of custom primitives that a client may ask for; the network functions are
    arguments ([NetFuncs] works on the members of the primitives, [Imt] on their
    bytes).  The layout of structures is the
    compiler's, and an argument; a structure that is hashed and compared as a
    whole is the list of its bytes.

    Of src/pretag.c, the hash index that maps_index puts beside a table; the
    maps that fill a table of their own and belong to other components
    (custom primitives, tee receivers, BGP XCS, interfaces); the log.  A
    label that entries share by a copied pointer is a value of each of them:
    only freeing a table, which the model does not do, tells them apart.

    The other daemons and decoders are left out: BMP, sFlow, packet capture
    and link layers, flows and fragments, telemetry, the exporters.  They are parts of their own,
    and none of what is modelled here depends on them but through the fields
    of a packet, which are arguments.
*)

From stdpp Require Export base numbers list gmap sorting strings.
From Stdlib Require Export ZArith Lia.
From Stdlib Require Import Ascii.
#[global] Open Scope Z_scope.

(* ------------------------------------------------------------------ *)
(** ** Fixed-width unsigned integers, as integers with explicit wrap-around *)

Definition wrap (w x : Z) : Z := x mod 2 ^ w.
Definition u8 (x : Z) : Z := wrap 8 x.
Definition u16 (x : Z) : Z := wrap 16 x.
Definition u32 (x : Z) : Z := wrap 32 x.
Definition u64 (x : Z) : Z := wrap 64 x.

(** Conversion of an unsigned 32-bit value to the [int] of the same width. *)
Definition s32 (x : Z) : Z := wrap 32 (x + 2 ^ 31) - 2 ^ 31.

Definition in_u (w x : Z) : Prop := 0 <= x < 2 ^ w.
Abbreviation is_u8 x := (in_u 8 x).
Abbreviation is_u16 x := (in_u 16 x).
Abbreviation is_u32 x := (in_u 32 x).

(* ------------------------------------------------------------------ *)
(** ** Faults: what a C run can end in instead of a value *)

Inductive fault : Set :=
  | AssertFail      (* an [assert] of the source fails *)
  | NullDeref       (* a NULL or dangling pointer is dereferenced *)
  | OutOfBounds     (* an access outside the buffer that was allocated *)
  | Exited          (* the daemon gives up: [exit_gracefully] *)
  | OutOfFuel.      (* the model's loop bound was reached *)

Inductive res (A : Type) : Type :=
  | Ok (a : A)
  | Err (f : fault).
Arguments Ok {A} a.
Arguments Err {A} f.

#[export] Instance res_ret : MRet res := fun A a => Ok a.
#[export] Instance res_bind : MBind res :=
  fun A B k m => match m with Ok a => k a | Err f => Err f end.
#[export] Instance res_fmap : FMap res :=
  fun A B k m => match m with Ok a => Ok (k a) | Err f => Err f end.

(** A pointer lookup that faults when nothing is there. *)
Definition deref {A} (o : option A) : res A :=
  match o with Some a => Ok a | None => Err NullDeref end.

(** [assert (b)] of the source. *)
Definition c_assert (b : bool) : res unit :=
  if b then Ok tt else Err AssertFail.

Lemma bind_Ok_inv {A B} (m : res A) (k : A -> res B) b :
  (m ≫= k) = Ok b -> exists a, m = Ok a /\ k a = Ok b.
Proof. destruct m; simpl; [eauto | discriminate]. Qed.

Lemma bind_Ok {A B} (a : A) (k : A -> res B) : (Ok a ≫= k) = k a.
Proof. done. Qed.

Lemma c_assert_Ok b : c_assert b = Ok tt <-> b = true.
Proof. unfold c_assert. destruct b; split; congruence. Qed.

Lemma deref_Ok {A} (o : option A) a : deref o = Ok a <-> o = Some a.
Proof. unfold deref. destruct o; split; congruence. Qed.

(* ------------------------------------------------------------------ *)
(** ** Bytes *)

Definition byte_at (l : list Z) (i : Z) : Z := default 0 (l !! Z.to_nat i).

Definition bytes_ok (l : list Z) : Prop := Forall (in_u 8) l.

(** Network byte order. *)
Definition be16 (b0 b1 : Z) : Z := b0 * 256 + b1.
Definition be32 (b0 b1 b2 b3 : Z) : Z := ((b0 * 256 + b1) * 256 + b2) * 256 + b3.

(** [htonl]: the four bytes a 32-bit value has in memory in network order. *)
Definition htonl (v : Z) : list Z :=
  [v / 2 ^ 24 mod 256; v / 2 ^ 16 mod 256; v / 2 ^ 8 mod 256; v mod 256].
Definition ntohl (w : list Z) : Z :=
  be32 (byte_at w 0) (byte_at w 1) (byte_at w 2) (byte_at w 3).

(** [memcmp]: the sign of the first difference of two byte strings. *)
Fixpoint memcmp (a b : list Z) : Z :=
  match a, b with
  | x :: a', y :: b' => if x =? y then memcmp a' b' else if x <? y then -1 else 1
  | _, _ => 0
  end.

(* ------------------------------------------------------------------ *)
(** ** C strings: the bytes before the NUL *)

Definition chr (a : ascii) : Z := Z.of_N (N_of_ascii a).
Definition cstr (s : string) : list Z := map chr (String.list_ascii_of_string s).

Definition is_digit (c : Z) : bool := (48 <=? c) && (c <=? 57).
Definition is_space (c : Z) : bool := (c =? 32) || ((9 <=? c) && (c <=? 13)).

(** [printf]'s [%u]: decimal digits, most significant first; 20 digits are
    enough for 64 bits. *)
Fixpoint dec_aux (fuel : nat) (n : Z) (acc : list Z) : list Z :=
  match fuel with
  | O => acc
  | S f => if n <? 10 then (48 + n) :: acc
           else dec_aux f (n / 10) ((48 + n mod 10) :: acc)
  end.
Definition dec (n : Z) : list Z := dec_aux 20 n [].

(** Dotted quad, as [inet_ntoa] prints the four bytes of an address. *)
Definition inet_ntoa (b : list Z) : list Z :=
  dec (byte_at b 0) ++ cstr "." ++ dec (byte_at b 1) ++ cstr "."
    ++ dec (byte_at b 2) ++ cstr "." ++ dec (byte_at b 3).

Definition strlen (s : list Z) : Z := Z.of_nat (length s).

(** What reading the digits [ds] after the value [acc] computes. *)
Definition digits_from (acc : Z) (ds : list Z) : Z :=
  fold_left (fun v c => v * 10 + (c - 48)) ds acc.

(* ------------------------------------------------------------------ *)
(** ** Buffers: writes that fault outside the allocated bytes *)

Definition store (l : list Z) (i v : Z) : res (list Z) :=
  if (0 <=? i) && (i <? Z.of_nat (length l))
  then Ok (<[Z.to_nat i := v]> l) else Err OutOfBounds.

(** Bit [i] of a byte string, the most significant bit of byte 0 first. *)
Definition bit_of (l : list Z) (i : Z) : bool :=
  Z.testbit (byte_at l (i / 8)) (7 - i mod 8).

(** The first [n] bits. *)
Definition bits_of (l : list Z) (n : nat) : list bool :=
  map (fun i => bit_of l (Z.of_nat i)) (seq 0 n).

(* ------------------------------------------------------------------ *)
(** ** Numbers read from C strings *)

Fixpoint span_digits (s : list Z) : list Z * list Z :=
  match s with
  | c :: r => if is_digit c then let (d, t) := span_digits r in (c :: d, t) else ([], s)
  | [] => ([], [])
  end.

Fixpoint skip_spaces (s : list Z) : list Z :=
  match s with
  | c :: r => if is_space c then skip_spaces r else s
  | [] => []
  end.

(** [strtol (s, NULL, 10)] on a 64-bit [long], clamped as the standard says. *)
Definition strtol10 (s : list Z) : Z :=
  let s := skip_spaces s in
  let '(neg, s) := match s with
                   | 45 :: r => (true, r)
                   | 43 :: r => (false, r)
                   | _ => (false, s)
                   end in
  let v := digits_from 0 (fst (span_digits s)) in
  let v := if neg : bool then - v else v in
  Z.max (- 2 ^ 63) (Z.min (2 ^ 63 - 1) v).

Definition atoi (s : list Z) : Z := s32 (strtol10 s).

(** [strchr]: the string before the character and the one after it. *)
Fixpoint split_at (c : Z) (s : list Z) : option (list Z * list Z) :=
  match s with
  | [] => None
  | x :: r => if x =? c then Some ([], r)
              else match split_at c r with
                   | Some (a, b) => Some (x :: a, b)
                   | None => None
                   end
  end.

(* ------------------------------------------------------------------ *)
(** ** Integer lemmas *)

Lemma wrap_range w x : 0 <= w -> in_u w (wrap w x).
Proof. intros. apply Z.mod_pos_bound. lia. Qed.

Lemma wrap_small w x : in_u w x -> wrap w x = x.
Proof. intros [H1 H2]. apply Z.mod_small. split; assumption. Qed.

(** A value fits in [w] bits when masking it with [w] ones changes nothing;
    so the bitwise operators stay in range. *)
Lemma in_u_ones w x : 0 <= w -> in_u w x <-> Z.land x (Z.ones w) = x.
Proof.
  intros Hw. rewrite Z.land_ones by done. split.
  - intros H. by apply (wrap_small w x).
  - intros <-. by apply (wrap_range w x).
Qed.

Lemma in_u_land w a b : 0 <= w -> in_u w a -> in_u w (Z.land a b).
Proof.
  intros Hw. rewrite !in_u_ones by done. intros H.
  by rewrite <- Z.land_assoc, (Z.land_comm b), Z.land_assoc, H.
Qed.

Lemma in_u_lor w a b : 0 <= w -> in_u w a -> in_u w b -> in_u w (Z.lor a b).
Proof.
  intros Hw. rewrite !in_u_ones by done. intros H1 H2. by rewrite Z.land_lor_distr_l, H1, H2.
Qed.

Lemma in_u_lxor w a b : 0 <= w -> in_u w a -> in_u w b -> in_u w (Z.lxor a b).
Proof.
  intros Hw. rewrite !in_u_ones by done. intros H1 H2.
  rewrite <- H1 at 2. rewrite <- H2 at 2. apply Z.bits_inj'. intros k Hk.
  rewrite !Z.land_spec, !Z.lxor_spec, !Z.land_spec. by destruct (Z.testbit a k), (Z.testbit b k), (Z.testbit (Z.ones w) k).
Qed.

Lemma in_u_shiftr w a k : 0 <= k -> in_u w a -> in_u w (Z.shiftr a k).
Proof.
  intros Hk [H1 H2]. rewrite Z.shiftr_div_pow2 by done.
  assert (0 < 2 ^ k) by (apply Z.pow_pos_nonneg; lia).
  split; [apply Z.div_pos; lia |]. eapply Z.le_lt_trans; [| exact H2].
  apply Z.div_le_upper_bound; nia.
Qed.

Lemma u16_small x : 0 <= x < 65536 -> u16 x = x.
Proof. intros. apply Z.mod_small. lia. Qed.

Lemma u32_small x : 0 <= x < 2 ^ 32 -> u32 x = x.
Proof. intros. apply Z.mod_small. lia. Qed.

Lemma u64_small x : 0 <= x < 2 ^ 64 -> u64 x = x.
Proof. intros. apply Z.mod_small. lia. Qed.

Lemma u32_range x : is_u32 (u32 x).
Proof. apply wrap_range. lia. Qed.

Lemma u32_add_l a b : u32 (u32 a + b) = u32 (a + b).
Proof. apply Z.add_mod_idemp_l. lia. Qed.

Lemma u32_add_r a b : u32 (a + u32 b) = u32 (a + b).
Proof. apply Z.add_mod_idemp_r. lia. Qed.

Lemma be16_range b0 b1 : is_u8 b0 -> is_u8 b1 -> is_u16 (be16 b0 b1).
Proof. unfold in_u, be16. lia. Qed.

Lemma be32_range b0 b1 b2 b3 :
  is_u8 b0 -> is_u8 b1 -> is_u8 b2 -> is_u8 b3 -> is_u32 (be32 b0 b1 b2 b3).
Proof. unfold in_u, be32. lia. Qed.

Lemma htonl_length v : length (htonl v) = 4%nat.
Proof. reflexivity. Qed.

Lemma htonl_bytes v : bytes_ok (htonl v).
Proof.
  unfold bytes_ok, htonl, in_u.
  repeat constructor; try apply Z.mod_pos_bound; lia.
Qed.

Lemma ntohl_htonl v : is_u32 v -> ntohl (htonl v) = v.
Proof.
  intros H. change (ntohl (htonl v)) with
    (be32 (v / 16777216 mod 256) (v / 65536 mod 256) (v / 256 mod 256) (v mod 256)).
  unfold in_u in H. change (2 ^ 32) with 4294967296 in H. unfold be32.
  Z.div_mod_to_equations. lia.
Qed.

Lemma htonl_ntohl w : length w = 4%nat -> bytes_ok w -> htonl (ntohl w) = w.
Proof.
  intros Hl Hb. destruct w as [|b0 [|b1 [|b2 [|b3 [|]]]]]; try discriminate.
  unfold bytes_ok in Hb.
  repeat match goal with H : Forall _ (_ :: _) |- _ => apply Forall_cons_1 in H as [? H] end.
  change (ntohl [b0; b1; b2; b3]) with (be32 b0 b1 b2 b3). unfold in_u, htonl, be32 in *.
  change (2 ^ 24) with 16777216. change (2 ^ 16) with 65536. change (2 ^ 8) with 256 in *.
  repeat f_equal; Z.div_mod_to_equations; lia.
Qed.

Lemma ntohl_range w : bytes_ok w -> is_u32 (ntohl w).
Proof.
  intros Hb. assert (Hd : forall i, is_u8 (byte_at w i)).
  { intros i. unfold byte_at. destruct (w !! Z.to_nat i) eqn:E; cbn.
    - exact (proj1 (Forall_lookup _ _) Hb _ _ E).
    - unfold in_u; lia. }
  apply be32_range; apply Hd.
Qed.

Lemma byte_at_range l i : bytes_ok l -> is_u8 (byte_at l i).
Proof.
  intros Hb. unfold byte_at. destruct (l !! Z.to_nat i) eqn:E; cbn.
  - exact (proj1 (Forall_lookup _ _) Hb _ _ E).
  - unfold in_u; lia.
Qed.

(* ------------------------------------------------------------------ *)
(** ** [memcmp] orders the byte strings of one length *)

Lemma memcmp_refl a : memcmp a a = 0.
Proof. induction a; simpl; [done |]. by rewrite Z.eqb_refl. Qed.

Lemma memcmp_0 a b : length a = length b -> memcmp a b = 0 <-> a = b.
Proof.
  intros Hl. split; [| intros ->; apply memcmp_refl].
  revert b Hl. induction a as [|x a IH]; intros [|y b] Hl; simpl; try done.
  destruct (Z.eqb_spec x y) as [->|].
  - intros H. f_equal. apply IH; [simpl in Hl; lia | done].
  - destruct (x <? y); discriminate.
Qed.

Lemma memcmp_range a b : memcmp a b = 0 \/ memcmp a b = 1 \/ memcmp a b = -1.
Proof.
  revert b. induction a as [|x a IH]; intros [|y b]; simpl; auto.
  destruct (x =? y); [apply IH |]. destruct (x <? y); auto.
Qed.

Lemma memcmp_opp a b : memcmp b a = - memcmp a b.
Proof.
  revert b. induction a as [|x a IH]; intros [|y b]; simpl; try done.
  destruct (Z.eqb_spec x y), (Z.eqb_spec y x); try congruence; try done.
  destruct (Z.ltb_spec x y), (Z.ltb_spec y x); simpl; lia.
Qed.

Lemma memcmp_trans a b c :
  length a = length b -> length b = length c ->
  memcmp a b = -1 -> memcmp b c = -1 -> memcmp a c = -1.
Proof.
  revert b c. induction a as [|x a IH]; intros [|y b] [|z c] H1 H2; simpl; try done.
  destruct (Z.eqb_spec x y) as [->|Hxy]; destruct (Z.eqb_spec y z) as [->|Hyz].
  - rewrite ?Z.eqb_refl. apply IH; simpl in *; lia.
  - done.
  - destruct (Z.eqb_spec x z); done.
  - destruct (Z.ltb_spec x y), (Z.ltb_spec y z); try done. intros _ _.
    rewrite (proj2 (Z.eqb_neq x z)), (proj2 (Z.ltb_lt x z)) by lia. done.
Qed.

(* ------------------------------------------------------------------ *)
(** ** Decimal printing and reading *)

Lemma dec_aux_spec fuel n acc :
  0 <= n < 10 ^ Z.of_nat fuel ->
  exists ds, dec_aux fuel n acc = ds ++ acc /\ Forall (fun c => is_digit c = true) ds
    /\ (fuel <> 0%nat -> ds <> []) /\ digits_from 0 ds = n
    /\ (forall k, n < 10 ^ Z.of_nat (S k) -> (length ds <= S k)%nat).
Proof.
  revert n acc. induction fuel as [|f IH]; intros n acc Hn.
  { exists []. simpl in *. repeat split; try done; [change (digits_from 0 []) with 0 |]; lia. }
  cbn [dec_aux]. destruct (Z.ltb_spec n 10) as [H|H].
  - exists [48 + n]. repeat split; try done.
    + constructor; [| constructor]. unfold is_digit.
      apply andb_true_intro; split; apply Z.leb_le; lia.
    + cbn. lia.
    + intros k _. simpl. lia.
  - assert (Hq : 0 <= n / 10 < 10 ^ Z.of_nat f).
    { split; [apply Z.div_pos; lia |]. apply Z.div_lt_upper_bound; [lia |].
      rewrite Nat2Z.inj_succ, Z.pow_succ_r in Hn by lia. lia. }
    destruct (IH (n / 10) ((48 + n mod 10) :: acc) Hq) as (ds & E & Hd & Hne & Hv & Hlen).
    exists (ds ++ [48 + n mod 10]). split; [by rewrite E, <- app_assoc |].
    assert (0 <= n mod 10 < 10) by (apply Z.mod_pos_bound; lia).
    repeat split.
    + apply Forall_app. split; [done |]. constructor; [| constructor].
      unfold is_digit. apply andb_true_intro; split; apply Z.leb_le; lia.
    + intros _ Hc. by apply app_eq_nil in Hc as [_ ?].
    + unfold digits_from in *. rewrite fold_left_app, Hv. cbn [fold_left].
      pose proof (Z.div_mod n 10). lia.
    + intros k Hk. rewrite length_app. cbn [length].
      destruct k as [|k]; [change (10 ^ Z.of_nat 1) with 10 in Hk; lia |].
      enough (length ds <= S k)%nat by lia. apply Hlen.
      apply Z.div_lt_upper_bound; [lia |].
      rewrite (Nat2Z.inj_succ (S k)), Z.pow_succ_r in Hk by lia. lia.
Qed.

Lemma dec_spec n :
  0 <= n < 2 ^ 64 ->
  Forall (fun c => is_digit c = true) (dec n) /\ dec n <> [] /\ digits_from 0 (dec n) = n.
Proof.
  intros Hn. destruct (dec_aux_spec 20 n []) as (ds & E & Hd & Hne & Hv & _).
  - change (10 ^ Z.of_nat 20) with 100000000000000000000. lia.
  - unfold dec. rewrite E, app_nil_r. auto.
Qed.

Lemma dec_length n (k : nat) :
  0 <= n < 10 ^ Z.of_nat (S k) -> (k < 20)%nat -> (length (dec n) <= S k)%nat.
Proof.
  intros Hn Hk. destruct (dec_aux_spec 20 n []) as (ds & E & _ & _ & _ & Hlen).
  - split; [lia |]. eapply Z.lt_le_trans; [apply Hn |]. apply Z.pow_le_mono_r; lia.
  - unfold dec. rewrite E, app_nil_r. apply Hlen. lia.
Qed.

Lemma dec_u32_length n : is_u32 n -> (length (dec n) <= 10)%nat.
Proof. intros. apply (dec_length n 9); [unfold in_u in *; cbn in *; lia | lia]. Qed.

Lemma dec_u16_length n : is_u16 n -> (length (dec n) <= 5)%nat.
Proof. intros. apply (dec_length n 4); [unfold in_u in *; cbn in *; lia | lia]. Qed.

Lemma dec_u8_length n : is_u8 n -> (length (dec n) <= 3)%nat.
Proof. intros. apply (dec_length n 2); [unfold in_u in *; cbn in *; lia | lia]. Qed.

Lemma inet_ntoa_length b : bytes_ok b -> (length (inet_ntoa b) <= 15)%nat.
Proof.
  intros Hb. unfold inet_ntoa. rewrite !length_app. cbn [length cstr map].
  pose proof (dec_u8_length _ (byte_at_range b 0 Hb)).
  pose proof (dec_u8_length _ (byte_at_range b 1 Hb)).
  pose proof (dec_u8_length _ (byte_at_range b 2 Hb)).
  pose proof (dec_u8_length _ (byte_at_range b 3 Hb)).
  change (length (cstr ".")) with 1%nat. lia.
Qed.

(** A string that does not go on with a digit. *)
Definition no_digit_head (s : list Z) : Prop :=
  match s with [] => True | c :: _ => is_digit c = false end.

Lemma span_digits_app ds r :
  Forall (fun c => is_digit c = true) ds -> no_digit_head r -> span_digits (ds ++ r) = (ds, r).
Proof.
  intros Hd Hr. induction Hd as [|c ds Hc Hd IH]; simpl.
  - destruct r as [|c r]; [done |]. simpl in *. by rewrite Hr.
  - by rewrite Hc, IH.
Qed.

Lemma digit_range c : is_digit c = true -> 48 <= c <= 57.
Proof. unfold is_digit. intros [? ?]%andb_prop. lia. Qed.

Lemma digit_not_space c : is_digit c = true -> is_space c = false.
Proof.
  intros H%digit_range. unfold is_space.
  destruct (Z.eqb_spec c 32), (Z.leb_spec 9 c), (Z.leb_spec c 13); simpl; (done || lia).
Qed.

Lemma strtol10_digits ds r :
  Forall (fun c => is_digit c = true) ds -> ds <> [] -> no_digit_head r ->
  0 <= digits_from 0 ds < 2 ^ 63 -> strtol10 (ds ++ r) = digits_from 0 ds.
Proof.
  intros Hd Hne Hr Hv. destruct ds as [|c ds]; [done |].
  pose proof (Forall_inv Hd) as Hc. pose proof (digit_range c Hc).
  unfold strtol10. simpl app. cbn [skip_spaces]. rewrite (digit_not_space c Hc).
  assert (E : span_digits (c :: ds ++ r) = (c :: ds, r)) by (apply (span_digits_app (c :: ds)); done).
  assert (forall (A : Type) (f g : list Z -> A) h,
    match c :: ds ++ r with 45 :: x => f x | 43 :: x => g x | _ => h end = h) as Hm.
  { intros. destruct c as [|q|]; [done | | done].
    do 6 (destruct q as [q|q|]; try done; try lia). }
  rewrite Hm, E. cbn [fst]. lia.
Qed.

Lemma atoi_dec n r : 0 <= n < 2 ^ 31 -> no_digit_head r -> atoi (dec n ++ r) = n.
Proof.
  intros Hn Hr. destruct (dec_spec n ltac:(lia)) as (Hd & Hne & Hv).
  unfold atoi. rewrite strtol10_digits by (try done; lia). rewrite Hv.
  unfold s32, wrap. rewrite Z.mod_small; lia.
Qed.

(* ------------------------------------------------------------------ *)
(** ** Bit strings *)

Lemma testbit_above8 a k : is_u8 a -> 8 <= k -> Z.testbit a k = false.
Proof.
  intros [H0 H1] Hk. destruct (Z.eq_dec a 0) as [->|]; [apply Z.bits_0 |].
  apply Z.bits_above_log2; [lia |].
  enough (Z.log2 a < 8) by lia. apply Z.log2_lt_pow2; lia.
Qed.

Lemma u8_bits_eq a b :
  is_u8 a -> is_u8 b ->
  a = b <-> (forall j, 0 <= j < 8 -> Z.testbit a (7 - j) = Z.testbit b (7 - j)).
Proof.
  intros Ha Hb. split; [by intros -> |]. intros H. apply Z.bits_inj'. intros k Hk.
  destruct (Z.lt_ge_cases k 8).
  - replace k with (7 - (7 - k)) by lia. apply H. lia.
  - by rewrite !testbit_above8.
Qed.

Lemma bits_of_length l n : length (bits_of l n) = n.
Proof. unfold bits_of. by rewrite length_map, length_seq. Qed.

Lemma bits_of_lookup l n i : (i < n)%nat -> bits_of l n !! i = Some (bit_of l (Z.of_nat i)).
Proof.
  intros Hi. unfold bits_of. change (map ?f ?x) with (f <$> x).
  rewrite list_lookup_fmap, lookup_seq_lt by done. done.
Qed.

Lemma bits_of_take l n m : (m <= n)%nat -> take m (bits_of l n) = bits_of l m.
Proof.
  intros H. apply list_eq. intros i. destruct (Nat.lt_ge_cases i m).
  - rewrite lookup_take_lt, !bits_of_lookup by lia. done.
  - rewrite !lookup_ge_None_2; [done | rewrite bits_of_length; lia |].
    rewrite length_take, bits_of_length. lia.
Qed.

Lemma bits_of_S l n : bits_of l (S n) = bits_of l n ++ [bit_of l (Z.of_nat n)].
Proof. unfold bits_of. rewrite seq_S, map_app. done. Qed.

(** A bit string is a prefix of another one exactly when it agrees with its
    first bits. *)
Lemma bits_of_prefix l1 n1 l2 n2 :
  bits_of l1 n1 `prefix_of` bits_of l2 n2 <->
  (n1 <= n2)%nat /\ forall i, (i < n1)%nat -> bit_of l1 (Z.of_nat i) = bit_of l2 (Z.of_nat i).
Proof.
  split.
  - intros H. pose proof (prefix_length _ _ H) as Hl. rewrite !bits_of_length in Hl.
    split; [done |]. intros i Hi.
    pose proof (prefix_lookup_Some _ _ i _ (bits_of_lookup l1 n1 i Hi) H) as Hp.
    rewrite bits_of_lookup in Hp by lia. congruence.
  - intros [Hl Hb]. exists (drop n1 (bits_of l2 n2)).
    rewrite <- (take_drop n1 (bits_of l2 n2)) at 1. f_equal.
    rewrite bits_of_take by done. apply list_eq. intros i.
    destruct (Nat.lt_ge_cases i n1).
    + rewrite !bits_of_lookup by done. by rewrite Hb.
    + rewrite !lookup_ge_None_2; rewrite ?bits_of_length; done.
Qed.

(* ------------------------------------------------------------------ *)
(** ** Bytes of an updated buffer *)

Lemma byte_at_insert_eq l (i : nat) v :
  (i < length l)%nat -> byte_at (<[i := v]> l) (Z.of_nat i) = v.
Proof. intros H. unfold byte_at. by rewrite Nat2Z.id, list_lookup_insert_eq. Qed.

Lemma byte_at_insert_ne l (i : nat) v j :
  0 <= j -> j <> Z.of_nat i -> byte_at (<[i := v]> l) j = byte_at l j.
Proof. intros H Hj. unfold byte_at. rewrite list_lookup_insert_ne by lia. done. Qed.

Lemma bytes_ok_insert l i v : bytes_ok l -> is_u8 v -> bytes_ok (<[i := v]> l).
Proof. apply Forall_insert. Qed.

Lemma store_Ok l i v l' :
  store l i v = Ok l' <-> 0 <= i < Z.of_nat (length l) /\ l' = <[Z.to_nat i := v]> l.
Proof.
  unfold store. destruct (Z.leb_spec 0 i), (Z.ltb_spec i (Z.of_nat (length l)));
    simpl; (split; [intros H' | intros [? ->]]); try done; try lia.
  injection H' as <-. split; [lia | done].
Qed.

(* ------------------------------------------------------------------ *)
(** ** Checking a finite range by computation *)

Lemma range_by_compute (P : Z -> bool) (n : nat) :
  forallb P (map Z.of_nat (seq 0 n)) = true ->
  forall x, 0 <= x < Z.of_nat n -> P x = true.
Proof.
  intros H x Hx. rewrite forallb_forall in H. apply H.
  apply in_map_iff. exists (Z.to_nat x). split; [lia |]. apply in_seq. lia.
Qed.

Lemma bytes_ok_b (l : list Z) : forallb (fun b => (0 <=? b) && (b <? 256)) l = true -> bytes_ok l.
Proof.
  intros H. apply Forall_forall. intros x Hx. rewrite forallb_forall in H.
  specialize (H x (proj1 (list_elem_of_In l x) Hx)). apply andb_prop in H as [H1 H2]. unfold in_u. lia.
Qed.

(* ------------------------------------------------------------------ *)
(** ** Sums over finite maps *)

Section Msum.
Context {K A : Type} `{Countable K}.
Implicit Types (m : gmap K A) (k : K).

Definition msum (g : A -> Z) m : Z := map_fold (fun _ x s => g x + s) 0 m.

Lemma msum_empty g : msum g (∅ : gmap K A) = 0.
Proof. apply map_fold_empty. Qed.

Lemma msum_insert g m k x : m !! k = None -> msum g (<[k := x]> m) = g x + msum g m.
Proof. intros Hk. unfold msum. rewrite map_fold_insert_L; [done | intros; lia | done]. Qed.

Lemma msum_delete g m k x : m !! k = Some x -> msum g m = g x + msum g (delete k m).
Proof. intros Hk. rewrite <- (msum_insert g (delete k m) k x) by apply lookup_delete_eq. by rewrite insert_delete_id. Qed.

(** Every key counted by what the map has for it, 0 for nothing. *)
Definition at_key (g : A -> Z) m k : Z := match m !! k with Some x => g x | None => 0 end.

Lemma msum_remove g m k : msum g m = at_key g m k + msum g (delete k m).
Proof.
  unfold at_key. destruct (m !! k) as [x|] eqn:E; [by apply msum_delete |]. by rewrite delete_id.
Qed.

Lemma msum_update g m k x : msum g (<[k := x]> m) = msum g m - at_key g m k + g x.
Proof.
  rewrite (msum_remove g m k), (msum_remove g (<[k := x]> m) k). unfold at_key at 1.
  rewrite lookup_insert_eq, delete_insert_eq. lia.
Qed.

Lemma msum_nonneg g m : (forall k x, m !! k = Some x -> 0 <= g x) -> 0 <= msum g m.
Proof.
  induction m as [|k x m Hk IH] using map_ind; intros Hg; [by rewrite msum_empty |].
  rewrite msum_insert by done. pose proof (Hg k x (lookup_insert_eq _ _ _)).
  enough (0 <= msum g m) by lia. apply IH. intros j y Hj. apply (Hg j).
  rewrite lookup_insert_ne; [done | congruence].
Qed.

Lemma msum_zero g m : (forall k x, m !! k = Some x -> g x = 0) -> msum g m = 0.
Proof.
  induction m as [|k x m Hk IH] using map_ind; intros Hg; [by rewrite msum_empty |].
  rewrite msum_insert, (Hg k x (lookup_insert_eq _ _ _)) by done. apply IH. intros j y Hj. apply (Hg j).
  rewrite lookup_insert_ne; [done |]. intros ->. congruence.
Qed.

Lemma msum_ge g m k x : (forall k x, m !! k = Some x -> 0 <= g x) -> m !! k = Some x -> g x <= msum g m.
Proof.
  intros Hg Hk. rewrite (msum_delete g m k x Hk). enough (0 <= msum g (delete k m)) by lia.
  apply msum_nonneg. intros j y [_ Hj]%lookup_delete_Some. by apply (Hg j).
Qed.

Lemma msum_le g g' m : (forall k x, m !! k = Some x -> g x <= g' x) -> msum g m <= msum g' m.
Proof.
  induction m as [|k x m Hk IH] using map_ind; intros Hg; [by rewrite !msum_empty |].
  rewrite !msum_insert by done. pose proof (Hg k x (lookup_insert_eq _ _ _)).
  enough (msum g m <= msum g' m) by lia. apply IH. intros j y Hj. apply (Hg j).
  rewrite lookup_insert_ne; [done |]. intros ->. congruence.
Qed.

Lemma msum_add g g1 g2 m : (forall x, g x = g1 x + g2 x) -> msum g m = msum g1 m + msum g2 m.
Proof.
  intros Hg. induction m as [|k x m Hk IH] using map_ind; [by rewrite !msum_empty |].
  rewrite !msum_insert, IH, Hg by done. lia.
Qed.

End Msum.

(** Two maps that count alike at every key have the same sum. *)
Lemma msum_ext {K A B} `{Countable K} (g : A -> Z) (g' : B -> Z) (m : gmap K A) (m' : gmap K B) :
  (forall k, at_key g m k = at_key g' m' k) -> msum g m = msum g' m'.
Proof.
  revert m'. induction m as [|k x m Hk IH] using map_ind; intros m' Hm.
  - rewrite msum_empty. symmetry. revert Hm. induction m' as [|k x m' Hk IH] using map_ind; intros Hm; [apply msum_empty |].
    rewrite msum_insert by done. rewrite IH.
    + pose proof (Hm k) as E. unfold at_key in E. rewrite lookup_empty, lookup_insert_eq in E. lia.
    + intros j. pose proof (Hm j) as E. unfold at_key in *. rewrite lookup_empty in *.
      destruct (decide (j = k)) as [->|]; [by rewrite Hk |]. by rewrite lookup_insert_ne in E by done.
  - rewrite msum_insert, (msum_remove g' m' k) by done. f_equal.
    + pose proof (Hm k) as E. unfold at_key in E. by rewrite lookup_insert_eq in E.
    + apply IH. intros j. pose proof (Hm j) as E. unfold at_key in *. destruct (decide (j = k)) as [->|].
      * by rewrite Hk, lookup_delete_eq.
      * rewrite lookup_insert_ne in E by done. by rewrite lookup_delete_ne.
Qed.

(* ------------------------------------------------------------------ *)
(** ** Automation *)

(** Ranges of machine integers and of what is read from byte strings. *)
Create HintDb ranges.
#[export] Hint Resolve u32_range be16_range be32_range ntohl_range byte_at_range htonl_bytes
  in_u_land in_u_lor in_u_lxor in_u_shiftr : ranges.
#[export] Hint Extern 1 (0 <= _) => lia : ranges.

(** Monadic binds of a value that is known. *)
Ltac res_step := cbn [mbind mret fmap res_bind res_ret res_fmap].

(** Decides the integer tests that linear arithmetic decides. *)
Ltac ztest :=
  repeat match goal with
  | |- context [?a <? ?b] => first [rewrite (proj2 (Z.ltb_lt a b)) by lia | rewrite (proj2 (Z.ltb_ge a b)) by lia]
  | |- context [?a <=? ?b] => first [rewrite (proj2 (Z.leb_le a b)) by lia | rewrite (proj2 (Z.leb_gt a b)) by lia]
  | |- context [?a =? ?b] => first [rewrite (proj2 (Z.eqb_eq a b)) by lia | rewrite (proj2 (Z.eqb_neq a b)) by lia]
  end; cbn [andb orb negb].

(** Goes through the elements of a concrete list. *)
Ltac forall_list := repeat first [apply Forall_nil_2 | apply Forall_cons_2].

Ltac by_range n :=
  match goal with
  | |- forall x : Z, 0 <= x < ?b -> @?P x = true =>
      exact (range_by_compute P n eq_refl)
  end.
