(* ===== verification/Bgp.v ===== *)
(** * src/bgp/bgp.h, src/bgp/bgp_util.c: data shared by the BGP components

    The arrays [inter_domain_misc_dbs] and [inter_domain_routing_dbs] are
    functions of the peer type; the fields kept are those the modelled code
    reads. *)

From S2P Require Import Prelude.

Module Bgp.

Definition FUNC_TYPE_BGP : Z := 1.
Definition FUNC_TYPE_BMP : Z := 2.
Definition FUNC_TYPE_RPKI : Z := 3.
Definition FUNC_TYPE_MAX : Z := 8.

Definition BGP_ASPATH_HASH_PATHID : Z := 0.
Definition BGP_ASPATH_HASH_MPLSVPNRD : Z := 1.

Definition ERR : Z := -1.

Record bgp_peer := mk_peer {
  type : Z;
  myas : Z
}.

Record bgp_misc_structs := mk_misc {
  is_readonly : bool;
  table_peer_buckets : Z;
  table_per_peer_buckets : Z;
  table_per_peer_hash : Z
}.

Definition misc_dbs := Z -> bgp_misc_structs.

Definition bgp_select_misc_db (inter_domain_misc_dbs : misc_dbs) (peer_type : Z)
    : option bgp_misc_structs :=
  if peer_type <? FUNC_TYPE_MAX then Some (inter_domain_misc_dbs peer_type) else None.

Definition bgp_select_routing_db {R} (inter_domain_routing_dbs : Z -> R) (peer_type : Z)
    : option R :=
  if peer_type <? FUNC_TYPE_MAX then Some (inter_domain_routing_dbs peer_type) else None.

(** The number of bucket heads in a node's [info] array. *)
Definition info_buckets (bms : bgp_misc_structs) : nat :=
  Z.to_nat (table_peer_buckets bms * table_per_peer_buckets bms).

End Bgp.
