(* ===== verification/BgpPrefix.v ===== *)
(** * src/bgp/bgp_prefix.c: IPv4/IPv6 prefixes

    The [union u] of [struct prefix] is its 16 bytes; an IPv4 address occupies
    the first four of them.  [inet_aton], [inet_pton] and [inet_ntop] belong to
    the C library and are parameters of the string conversions. *)

From S2P Require Import Prelude.

Module BgpPrefix.

Definition AF_UNSPEC : Z := 0.
Definition AF_INET : Z := 2.
Definition AF_INET6 : Z := 10.
Definition AFI_IP : Z := 1.
Definition AFI_IP6 : Z := 2.

Definition IPV4_MAX_BYTELEN : Z := 4.
Definition IPV4_MAX_PREFIXLEN : Z := 32.
Definition IPV6_MAX_BYTELEN : Z := 16.
Definition IPV6_MAX_PREFIXLEN : Z := 128.
Definition PNBBY : Z := 8.

Record prefix := mk_prefix {
  family : Z;
  prefixlen : Z;
  addr : list Z
}.

#[export] Instance prefix_eq_dec : EqDecision prefix.
Proof. solve_decision. Defined.

Definition maskbit : list Z :=
  [0x00; 0x80; 0xc0; 0xe0; 0xf0; 0xf8; 0xfc; 0xfe; 0xff].

Definition afi2family (afi : Z) : Z :=
  if afi =? AFI_IP then AF_INET
  else if afi =? AFI_IP6 then AF_INET6
  else 0.

Definition family2afi (family : Z) : Z :=
  if family =? AF_INET then AFI_IP
  else if family =? AF_INET6 then AFI_IP6
  else 0.

(** [while (offset--) if (np[offset] != pp[offset]) return 0; return 1;] *)
Fixpoint bytes_same_down (offset : nat) (np pp : list Z) : bool :=
  match offset with
  | O => true
  | S o => if byte_at np (Z.of_nat o) =? byte_at pp (Z.of_nat o)
           then bytes_same_down o np pp else false
  end.

Definition prefix_match (n p : prefix) : bool :=
  let np := addr n in
  let pp := addr p in
  if prefixlen p <? prefixlen n then false
  else
    let offset := prefixlen n / PNBBY in
    let shift := prefixlen n mod PNBBY in
    if negb (shift =? 0)
       && negb (Z.land (byte_at maskbit shift)
                       (Z.lxor (byte_at np offset) (byte_at pp offset)) =? 0)
    then false
    else bytes_same_down (Z.to_nat offset) np pp.

Definition prefix_copy (dest src : prefix) : prefix :=
  mk_prefix (family src) (prefixlen src)
    (if family src =? AF_INET then take 4 (addr src) ++ drop 4 (addr dest)
     else if family src =? AF_INET6 then addr src
     else addr dest).

Definition prefix_same (p1 p2 : prefix) : bool :=
  if (family p1 =? family p2) && (prefixlen p1 =? prefixlen p2) then
    if (family p1 =? AF_INET)
       && (memcmp (take 4 (addr p1)) (take 4 (addr p2)) =? 0) then true
    else if (family p1 =? AF_INET6)
       && (memcmp (take 16 (addr p1)) (take 16 (addr p2)) =? 0) then true
    else false
  else false.

(** 0 when the two network prefixes are the same, 1 otherwise. *)
Definition prefix_cmp (p1 p2 : prefix) : Z :=
  let pp1 := addr p1 in
  let pp2 := addr p2 in
  if negb (family p1 =? family p2) || negb (prefixlen p1 =? prefixlen p2) then 1
  else
    let offset := prefixlen p1 / 8 in
    let shift := prefixlen p1 mod 8 in
    if negb (shift =? 0)
       && negb (Z.land (byte_at maskbit shift)
                       (Z.lxor (byte_at pp1 offset) (byte_at pp2 offset)) =? 0)
    then 1
    else if bytes_same_down (Z.to_nat offset) pp1 pp2 then 0 else 1.

Definition prefix_family_str (p : prefix) : list Z :=
  if family p =? AF_INET then cstr "inet"
  else if family p =? AF_INET6 then cstr "inet6"
  else cstr "unspec".

Definition prefix_new : prefix := mk_prefix 0 0 (replicate 16 0).
Definition prefix_ipv4_new : prefix :=
  mk_prefix AF_INET (prefixlen prefix_new) (addr prefix_new).
Definition prefix_ipv6_new : prefix :=
  mk_prefix AF_INET6 (prefixlen prefix_new) (addr prefix_new).

(** ** Masks *)

(** [while (offset--) *pnt++ = 0xff;], [pnt] being at index [i]. *)
Fixpoint fill_ff (offset : nat) (i : Z) (l : list Z) : res (list Z) :=
  match offset with
  | O => Ok l
  | S o => l' ← store l i 0xff; fill_ff o (i + 1) l'
  end.

(** The common body of [masklen2ip] and [masklen2ip6], on a cleared netmask of
    [bytelen] bytes.  A negative [masklen] runs the loop off the buffer. *)
Definition masklen_fill (bytelen : nat) (masklen : Z) : res (list Z) :=
  if masklen <? 0 then Err OutOfBounds
  else
    let offset := masklen / 8 in
    let bit := masklen mod 8 in
    netmask ← fill_ff (Z.to_nat offset) 0 (replicate bytelen 0);
    if negb (bit =? 0) then store netmask offset (byte_at maskbit bit)
    else Ok netmask.

Definition masklen2ip (masklen : Z) : res (list Z) := masklen_fill 4 masklen.
Definition masklen2ip6 (masklen : Z) : res (list Z) := masklen_fill 16 masklen.

(** [while (val) { len++; val <<= 1; }]; a byte is shifted out in 8 rounds. *)
Fixpoint shift_out (fuel : nat) (len val : Z) : Z :=
  match fuel with
  | O => len
  | S f => if val =? 0 then len else shift_out f (len + 1) (u8 (Z.shiftl val 1))
  end.

(** [while ((pnt < end) && ( *pnt == 0xff)) { len += 8; pnt++; }]. *)
Fixpoint ip_masklen_ff (pnt : list Z) (len : Z) : list Z * Z :=
  match pnt with
  | b :: r => if b =? 0xff then ip_masklen_ff r (u8 (len + 8)) else (pnt, len)
  | [] => (pnt, len)
  end.

Definition ip_masklen (netmask : list Z) : Z :=
  let '(pnt, len) := ip_masklen_ff netmask 0 in
  match pnt with
  | [] => len
  | val :: _ => u8 (shift_out 8 len val)
  end.

(** [while (( *pnt == 0xff) && len < 128) { len += 8; pnt++; }]: the byte is
    read before the length is tested. *)
Fixpoint ip6_masklen_ff (pnt : list Z) (len : Z) : res (list Z * Z) :=
  match pnt with
  | [] => Err OutOfBounds
  | b :: r => if (b =? 0xff) && (len <? 128) then ip6_masklen_ff r (len + 8)
              else Ok (pnt, len)
  end.

Definition ip6_masklen (netmask : list Z) : res Z :=
  '(pnt, len) ← ip6_masklen_ff netmask 0;
  if len <? 128 then
    match pnt with
    | val :: _ => Ok (shift_out 8 len val)
    | [] => Err OutOfBounds
    end
  else Ok len.

(** [while (index < bytelen) pnt[index++] = 0;] *)
Fixpoint zero_from (k : nat) (index : nat) (l : list Z) : list Z :=
  match k with
  | O => l
  | S k' => zero_from k' (S index) (<[index := 0]> l)
  end.

(** The common body of [apply_mask_ipv4] and [apply_mask_ipv6]. *)
Definition apply_mask_bytes (bytelen : Z) (plen : Z) (a : list Z) : list Z :=
  let index := plen / 8 in
  if index <? bytelen then
    let offset := plen mod 8 in
    let a := <[Z.to_nat index :=
                 Z.land (byte_at a index) (byte_at maskbit offset)]> a in
    zero_from (Z.to_nat (bytelen - (index + 1))) (Z.to_nat (index + 1)) a
  else a.

Definition apply_mask_ipv4 (p : prefix) : prefix :=
  mk_prefix (family p) (prefixlen p) (apply_mask_bytes 4 (prefixlen p) (addr p)).
Definition apply_mask_ipv6 (p : prefix) : prefix :=
  mk_prefix (family p) (prefixlen p) (apply_mask_bytes 16 (prefixlen p) (addr p)).

Definition apply_mask (p : prefix) : prefix :=
  if family p =? AF_INET then apply_mask_ipv4 p
  else if family p =? AF_INET6 then apply_mask_ipv6 p
  else p.

Definition prefix_ipv4_any (p : prefix) : bool :=
  (ntohl (take 4 (addr p)) =? 0) && (prefixlen p =? 0).

Definition prefix_blen (p : prefix) : Z :=
  if family p =? AF_INET then IPV4_MAX_BYTELEN
  else if family p =? AF_INET6 then IPV6_MAX_BYTELEN
  else 0.

Definition all_digit (str : list Z) : bool := forallb is_digit str.

Definition IN_CLASSA (a : Z) : bool := Z.land a 0x80000000 =? 0.
Definition IN_CLASSB (a : Z) : bool := Z.land a 0xc0000000 =? 0x80000000.
Definition IN_CLASSC (a : Z) : bool := Z.land a 0xe0000000 =? 0xc0000000.

Definition apply_classful_mask_ipv4 (p : prefix) : prefix :=
  let destination := ntohl (take 4 (addr p)) in
  if prefixlen p =? IPV4_MAX_PREFIXLEN then p
  else if IN_CLASSC destination then apply_mask_ipv4 (mk_prefix (family p) 24 (addr p))
  else if IN_CLASSB destination then apply_mask_ipv4 (mk_prefix (family p) 16 (addr p))
  else apply_mask_ipv4 (mk_prefix (family p) 8 (addr p)).

(** [in_addr_t] values as their four bytes: the operators are bitwise. *)
Definition ipv4_network_addr (hostaddr : list Z) (masklen : Z) : res (list Z) :=
  mask ← masklen2ip masklen;
  Ok (zip_with Z.land hostaddr mask).

Definition ipv4_broadcast_addr (hostaddr : list Z) (masklen : Z) : res (list Z) :=
  mask ← masklen2ip masklen;
  let inv := map (fun m => u8 (Z.lnot m)) mask in
  if negb (masklen =? IPV4_MAX_PREFIXLEN - 1)
  then Ok (zip_with Z.lor hostaddr inv)
  else Ok (zip_with Z.lxor hostaddr inv).

(** ** String conversions *)

Section Strings.
(** [inet_aton]: the four bytes, or [None] when the string is invalid (the
    destination is then left alone). *)
Context (inet_aton : list Z -> option (list Z)).
(** [inet_pton (AF_INET6, ...)] and [inet_ntop]. *)
Context (inet_pton6 : list Z -> option (list Z)).
Context (inet_ntop : Z -> list Z -> list Z).

Definition set_addr4 (p : prefix) (o : option (list Z)) : list Z :=
  match o with Some b => b ++ drop 4 (addr p) | None => addr p end.
Definition set_addr6 (p : prefix) (o : option (list Z)) : list Z :=
  match o with Some b => b | None => addr p end.

Definition str2prefix_ipv4 (str : list Z) (p : prefix) : Z * prefix :=
  match split_at 47 (* '/' *) str with
  | None =>
      match inet_aton str with
      | None => (0, p)
      | Some b => (1, mk_prefix AF_INET IPV4_MAX_PREFIXLEN (set_addr4 p (Some b)))
      end
  | Some (cp, pnt) =>
      let o := inet_aton cp in
      let ret := match o with Some _ => 1 | None => 0 end in
      let plen := u8 (atoi pnt) in
      if IPV4_MAX_PREFIXLEN <? plen
      then (0, mk_prefix (family p) (prefixlen p) (set_addr4 p o))
      else (ret, mk_prefix AF_INET plen (set_addr4 p o))
  end.

Definition str2prefix_ipv6 (str : list Z) (p : prefix) : Z * prefix :=
  match split_at 47 str with
  | None =>
      match inet_pton6 str with
      | None => (0, p)
      | Some b => (1, mk_prefix AF_INET6 IPV6_MAX_PREFIXLEN b)
      end
  | Some (cp, pnt) =>
      match inet_pton6 cp with
      | None => (0, p)
      | Some b =>
          let plen := u8 (atoi pnt) in
          if 128 <? plen then (0, mk_prefix (family p) (prefixlen p) b)
          else (1, mk_prefix AF_INET6 plen b)
      end
  end.

Definition str2prefix (str : list Z) (p : prefix) : Z * prefix :=
  let '(ret, p) := str2prefix_ipv4 str p in
  if negb (ret =? 0) then (ret, p)
  else
    let '(ret, p) := str2prefix_ipv6 str p in
    if negb (ret =? 0) then (ret, p) else (0, p).

(** [snprintf (str, size, "%s/%d", buf, prefixlen)]: at most [size - 1] bytes. *)
Definition prefix2str (p : prefix) (size : Z) : list Z :=
  take (Z.to_nat (size - 1))
    (inet_ntop (family p) (addr p) ++ cstr "/" ++ dec (prefixlen p)).

Definition netmask_str2prefix_str (net_str : list Z) (mask_str : option (list Z))
    : option (list Z) :=
  match inet_aton net_str with
  | None => None
  | Some network =>
      let plen :=
        match mask_str with
        | Some m => option_map ip_masklen (inet_aton m)
        | None =>
            let destination := ntohl network in
            if destination =? 0 then Some 0
            else if IN_CLASSC destination then Some 24
            else if IN_CLASSB destination then Some 16
            else if IN_CLASSA destination then Some 8
            else None
        end in
      option_map (fun l => net_str ++ cstr "/" ++ dec l) plen
  end.
End Strings.

(** ** Well-formed prefixes and the bit string a prefix stands for *)

Definition max_prefixlen (fam : Z) : Z :=
  if fam =? AF_INET then IPV4_MAX_PREFIXLEN else IPV6_MAX_PREFIXLEN.

Record wf_prefix (p : prefix) : Prop := {
  wf_family : family p = AF_INET \/ family p = AF_INET6;
  wf_len : 0 <= prefixlen p <= max_prefixlen (family p);
  wf_addr_len : length (addr p) = 16%nat;
  wf_addr_bytes : bytes_ok (addr p)
}.

Definition key (p : prefix) : list bool := bits_of (addr p) (Z.to_nat (prefixlen p)).

(** [a.b.c.d/len] and an IPv6 prefix given by its first bytes. *)
Definition pfx4 (a b c d len : Z) : prefix :=
  mk_prefix AF_INET len ([a; b; c; d] ++ replicate 12 0).
Definition pfx6 (first : list Z) (len : Z) : prefix :=
  mk_prefix AF_INET6 len (first ++ replicate (16 - length first) 0).

Ltac wf_concrete :=
  split; cbn; [auto | compute; intuition congruence | reflexivity
              | unfold bytes_ok, in_u; repeat constructor; lia].

(* ------------------------------------------------------------------ *)
(** ** Lemmas *)

Lemma maskbit_bit s k :
  0 <= s <= 8 -> 0 <= k < 8 -> Z.testbit (byte_at maskbit s) k = (8 - s <=? k).
Proof.
  intros Hs Hk.
  pose proof (range_by_compute (fun s => forallb (fun k =>
    eqb (Z.testbit (byte_at maskbit s) k) (8 - s <=? k)) (map Z.of_nat (seq 0 8))) 9 eq_refl
    s ltac:(lia)) as H.
  apply eqb_prop, (range_by_compute _ 8 H k). lia.
Qed.

Lemma maskbit_range s : is_u8 (byte_at maskbit s).
Proof. apply byte_at_range. unfold bytes_ok, maskbit, in_u. repeat constructor; lia. Qed.

(** The masked xor of two bytes is zero when their first [s] bits agree. *)
Lemma mask_xor_zero s a b :
  0 <= s <= 8 -> is_u8 a -> is_u8 b ->
  Z.land (byte_at maskbit s) (Z.lxor a b) = 0 <->
  forall j, 0 <= j < s -> Z.testbit a (7 - j) = Z.testbit b (7 - j).
Proof.
  intros Hs Ha Hb. split.
  - intros H j Hj. apply (f_equal (fun x => Z.testbit x (7 - j))) in H.
    rewrite Z.land_spec, Z.lxor_spec, Z.bits_0, maskbit_bit in H by lia.
    rewrite (proj2 (Z.leb_le _ _)) in H by lia. simpl in H. by apply xorb_eq in H.
  - intros H. apply Z.bits_inj'. intros k Hk.
    rewrite Z.land_spec, Z.lxor_spec, Z.bits_0.
    destruct (Z.lt_ge_cases k 8).
    + rewrite maskbit_bit by lia. destruct (Z.leb_spec (8 - s) k); [| done]. simpl.
      specialize (H (7 - k) ltac:(lia)). replace (7 - (7 - k)) with k in H by lia.
      rewrite H. apply xorb_nilpotent.
    + rewrite (testbit_above8 _ k (maskbit_range s)) by lia. done.
Qed.

Lemma bytes_same_down_spec n a b :
  bytes_same_down n a b = true <->
  forall i, (i < n)%nat -> byte_at a (Z.of_nat i) = byte_at b (Z.of_nat i).
Proof.
  induction n as [|n IH]; simpl; [split; [lia | done] |].
  destruct (Z.eqb_spec (byte_at a (Z.of_nat n)) (byte_at b (Z.of_nat n))) as [E|E].
  - rewrite IH. split; intros H i Hi; [| apply H; lia].
    destruct (decide (i = n)) as [->|]; [done | apply H; lia].
  - split; [done |]. intros H. exfalso. apply E, H. lia.
Qed.

(** Whole bytes followed by the first bits of one more byte: that is what the
    two-step comparison of [prefix_match] and [prefix_cmp] looks at. *)
Lemma bits_split a b (n : Z) :
  bytes_ok a -> bytes_ok b -> 0 <= n ->
  (forall i, 0 <= i < n -> bit_of a i = bit_of b i) <->
  (forall j, 0 <= j < n mod 8 ->
     Z.testbit (byte_at a (n / 8)) (7 - j) = Z.testbit (byte_at b (n / 8)) (7 - j))
  /\ (forall i, (i < Z.to_nat (n / 8))%nat -> byte_at a (Z.of_nat i) = byte_at b (Z.of_nat i)).
Proof.
  intros Ha Hb Hn. pose proof (Z.mod_pos_bound n 8 ltac:(lia)) as Hmod.
  pose proof (Z.div_mod n 8 ltac:(lia)) as Hdiv. unfold bit_of. split.
  - intros H. split.
    + intros j Hj. specialize (H (8 * (n / 8) + j) ltac:(lia)).
      replace ((8 * (n / 8) + j) / 8) with (n / 8) in H by (Z.div_mod_to_equations; lia).
      replace ((8 * (n / 8) + j) mod 8) with j in H by (Z.div_mod_to_equations; lia). done.
    + intros i Hi. apply u8_bits_eq; [by apply byte_at_range.. |]. intros j Hj.
      specialize (H (8 * Z.of_nat i + j) ltac:(lia)).
      replace ((8 * Z.of_nat i + j) / 8) with (Z.of_nat i) in H by (Z.div_mod_to_equations; lia).
      replace ((8 * Z.of_nat i + j) mod 8) with j in H by (Z.div_mod_to_equations; lia). done.
  - intros [H1 H2] i Hi. pose proof (Z.mod_pos_bound i 8 ltac:(lia)) as Hmi.
    pose proof (Z.div_mod i 8 ltac:(lia)) as Hdi.
    destruct (Z.lt_ge_cases (i / 8) (n / 8)).
    + specialize (H2 (Z.to_nat (i / 8)) ltac:(lia)).
      rewrite Z2Nat.id in H2 by (apply Z.div_pos; lia). by rewrite H2.
    + assert (i / 8 = n / 8) as E by lia.
      rewrite E. apply H1. lia.
Qed.

(** The comparison shared by [prefix_match] and [prefix_cmp], as one test. *)
Lemma masked_compare_spec a b n :
  bytes_ok a -> bytes_ok b -> 0 <= n ->
  (negb (n mod 8 =? 0)
     && negb (Z.land (byte_at maskbit (n mod 8)) (Z.lxor (byte_at a (n / 8)) (byte_at b (n / 8))) =? 0)
   = false /\ bytes_same_down (Z.to_nat (n / 8)) a b = true) <->
  (forall i, 0 <= i < n -> bit_of a i = bit_of b i).
Proof.
  intros Ha Hb Hn. pose proof (Z.mod_pos_bound n 8 ltac:(lia)) as Hmod.
  rewrite bits_split, bytes_same_down_spec by done.
  enough ((negb (n mod 8 =? 0)
     && negb (Z.land (byte_at maskbit (n mod 8)) (Z.lxor (byte_at a (n / 8)) (byte_at b (n / 8))) =? 0)
   = false) <-> (forall j, 0 <= j < n mod 8 ->
     Z.testbit (byte_at a (n / 8)) (7 - j) = Z.testbit (byte_at b (n / 8)) (7 - j))) by tauto.
  rewrite <- mask_xor_zero by (try lia; by apply byte_at_range).
  destruct (Z.eqb_spec (n mod 8) 0) as [E|E]; simpl.
  - rewrite E. split; done.
  - rewrite negb_false_iff. apply Z.eqb_eq.
Qed.

Lemma key_length p : length (key p) = Z.to_nat (prefixlen p).
Proof. apply bits_of_length. Qed.

Lemma nat_bits_iff a b n :
  0 <= n ->
  (forall i, 0 <= i < n -> bit_of a i = bit_of b i) <->
  (forall i, (i < Z.to_nat n)%nat -> bit_of a (Z.of_nat i) = bit_of b (Z.of_nat i)).
Proof.
  intros Hn. split; intros H i Hi; [apply H; lia |].
  specialize (H (Z.to_nat i) ltac:(lia)). by rewrite Z2Nat.id in H by lia.
Qed.

Lemma prefix_match_key n p :
  wf_prefix n -> wf_prefix p ->
  prefix_match n p = true <-> key n `prefix_of` key p.
Proof.
  intros [_ Hn _ Hnb] [_ Hp _ Hpb]. unfold key. rewrite bits_of_prefix.
  rewrite <- nat_bits_iff, <- masked_compare_spec by (done || lia).
  unfold prefix_match, PNBBY. destruct (Z.ltb_spec (prefixlen p) (prefixlen n)).
  { split; [done |]. intros [? _]. lia. }
  destruct (_ && _).
  { split; [done |]. intros [_ [? _]]. done. }
  split; [intros ->; split; [lia | done] | tauto].
Qed.

(** ** Masking *)

Lemma zero_from_length k i l : length (zero_from k i l) = length l.
Proof. revert i l. induction k; intros; simpl; [done |]. by rewrite IHk, length_insert. Qed.

Lemma zero_from_bytes k i l : bytes_ok l -> bytes_ok (zero_from k i l).
Proof.
  revert i l. induction k; intros; simpl; [done |].
  apply IHk, bytes_ok_insert; [done |]. unfold in_u; lia.
Qed.

Lemma zero_from_byte k i l j :
  (i + k <= length l)%nat -> 0 <= j ->
  byte_at (zero_from k i l) j =
    if (Z.of_nat i <=? j) && (j <? Z.of_nat (i + k)) then 0 else byte_at l j.
Proof.
  revert i l. induction k as [|k IH]; intros i l Hl Hj; simpl.
  { destruct (Z.leb_spec (Z.of_nat i) j), (Z.ltb_spec j (Z.of_nat (i + 0)));
      simpl; (done || lia). }
  rewrite IH by (rewrite ?length_insert; lia).
  destruct (decide (j = Z.of_nat i)) as [->|].
  - rewrite byte_at_insert_eq by lia.
    destruct (Z.leb_spec (Z.of_nat i) (Z.of_nat i)), (Z.leb_spec (Z.of_nat (S i)) (Z.of_nat i)),
      (Z.ltb_spec (Z.of_nat i) (Z.of_nat (i + S k))); simpl; (done || lia).
  - rewrite byte_at_insert_ne by done.
    destruct (Z.leb_spec (Z.of_nat i) j), (Z.leb_spec (Z.of_nat (S i)) j),
      (Z.ltb_spec j (Z.of_nat (i + S k))), (Z.ltb_spec j (Z.of_nat (S i + k))); simpl; (done || lia).
Qed.

Section ApplyMask.
Context (bytelen plen : Z) (a : list Z).
Hypothesis Hbl : 0 <= bytelen <= 16.
Hypothesis Hp : 0 <= plen <= 8 * bytelen.
Hypothesis Ha : length a = 16%nat.
Hypothesis Hb : bytes_ok a.

Lemma apply_mask_bytes_length : length (apply_mask_bytes bytelen plen a) = 16%nat.
Proof.
  unfold apply_mask_bytes. destruct (_ <? _); [| done].
  by rewrite zero_from_length, length_insert.
Qed.

Lemma apply_mask_bytes_ok : bytes_ok (apply_mask_bytes bytelen plen a).
Proof.
  unfold apply_mask_bytes. destruct (_ <? _); [| done].
  apply zero_from_bytes, bytes_ok_insert; [done |].
  apply in_u_land; [lia | by apply byte_at_range].
Qed.

(** Byte by byte: the bytes before the boundary byte stay, the boundary byte
    is masked, the following ones up to the address length are cleared. *)
Lemma apply_mask_bytes_byte j :
  0 <= j ->
  byte_at (apply_mask_bytes bytelen plen a) j =
    if j <? plen / 8 then byte_at a j
    else if j <? bytelen then
      (if j =? plen / 8 then Z.land (byte_at a j) (byte_at maskbit (plen mod 8)) else 0)
    else byte_at a j.
Proof.
  intros Hj. assert (Hidx : 0 <= plen / 8 <= bytelen) by (Z.div_mod_to_equations; lia).
  unfold apply_mask_bytes. destruct (Z.ltb_spec (plen / 8) bytelen).
  - rewrite zero_from_byte by (rewrite ?length_insert; lia).
    destruct (decide (j = plen / 8)) as [->|].
    + rewrite Z.eqb_refl, (proj2 (Z.leb_gt _ _)), Z.ltb_irrefl by lia. cbn [andb].
      rewrite (proj2 (Z.ltb_lt _ _)) by lia.
      pose proof (byte_at_insert_eq a (Z.to_nat (plen / 8))
        (Z.land (byte_at a (plen / 8)) (byte_at maskbit (plen mod 8))) ltac:(lia)) as E.
      by rewrite Z2Nat.id in E by lia.
    + rewrite byte_at_insert_ne, (proj2 (Z.eqb_neq _ _)) by (done || lia).
      destruct (Z.ltb_spec j (plen / 8)), (Z.ltb_spec j bytelen),
        (Z.leb_spec (Z.of_nat (Z.to_nat (plen / 8 + 1))) j),
        (Z.ltb_spec j (Z.of_nat (Z.to_nat (plen / 8 + 1) + Z.to_nat (bytelen - (plen / 8 + 1)))));
        simpl; (done || lia).
  - destruct (Z.ltb_spec j (plen / 8)), (Z.ltb_spec j bytelen); (done || lia).
Qed.

Lemma apply_mask_bytes_bit i :
  0 <= i < 8 * bytelen ->
  bit_of (apply_mask_bytes bytelen plen a) i = (i <? plen) && bit_of a i.
Proof.
  intros Hi. unfold bit_of. pose proof (Z.mod_pos_bound i 8 ltac:(lia)) as Hm.
  pose proof (Z.mod_pos_bound plen 8 ltac:(lia)) as Hmp.
  pose proof (Z.div_mod i 8 ltac:(lia)) as Hd. pose proof (Z.div_mod plen 8 ltac:(lia)) as Hdp.
  rewrite apply_mask_bytes_byte by lia.
  rewrite (proj2 (Z.ltb_lt (i / 8) bytelen)) by lia.
  destruct (Z.ltb_spec (i / 8) (plen / 8)).
  { rewrite (proj2 (Z.ltb_lt i plen)) by lia. done. }
  destruct (Z.eqb_spec (i / 8) (plen / 8)) as [E|E].
  - rewrite Z.land_spec, maskbit_bit, andb_comm by lia. f_equal.
    destruct (Z.ltb_spec i plen), (Z.leb_spec (8 - plen mod 8) (7 - i mod 8)); (done || lia).
  - rewrite Z.bits_0. rewrite (proj2 (Z.ltb_ge i plen)) by lia. done.
Qed.
End ApplyMask.

Lemma apply_mask_alt p :
  wf_prefix p ->
  apply_mask p = mk_prefix (family p) (prefixlen p)
    (apply_mask_bytes (prefix_blen p) (prefixlen p) (addr p)).
Proof.
  intros [[E|E] _ _ _]; unfold apply_mask, apply_mask_ipv4, apply_mask_ipv6, prefix_blen;
    rewrite E; done.
Qed.

Lemma wf_prefix_bounds p :
  wf_prefix p -> 0 <= prefix_blen p <= 16 /\ 0 <= prefixlen p <= 8 * prefix_blen p.
Proof.
  intros [[E|E] Hl _ _]; unfold prefix_blen, max_prefixlen in *; rewrite E in *;
    cbn in *; unfold IPV4_MAX_BYTELEN, IPV6_MAX_BYTELEN, IPV4_MAX_PREFIXLEN, IPV6_MAX_PREFIXLEN in *; lia.
Qed.

Lemma apply_mask_wf p : wf_prefix p -> wf_prefix (apply_mask p).
Proof.
  intros H. pose proof (wf_prefix_bounds p H) as [? ?].
  rewrite apply_mask_alt by done. destruct H as [Hf Hl Ha Hb].
  split; cbn; [done | done | by apply apply_mask_bytes_length | by apply apply_mask_bytes_ok].
Qed.

Lemma apply_mask_key p : wf_prefix p -> key (apply_mask p) = key p.
Proof.
  intros H. pose proof (wf_prefix_bounds p H) as [? ?].
  rewrite apply_mask_alt by done. unfold key. cbn [addr prefixlen].
  apply list_eq. intros i. destruct (Nat.lt_ge_cases i (Z.to_nat (prefixlen p))).
  - rewrite !bits_of_lookup by done. f_equal.
    rewrite apply_mask_bytes_bit by (try apply H; lia).
    rewrite (proj2 (Z.ltb_lt _ _)) by lia. done.
  - rewrite !lookup_ge_None_2; rewrite ?bits_of_length; done.
Qed.

Lemma split_at_app c a b : ~ In c a -> split_at c (a ++ c :: b) = Some (a, b).
Proof.
  induction a as [|x a IH]; simpl; intros H; [by rewrite Z.eqb_refl |].
  rewrite (proj2 (Z.eqb_neq x c)), IH by tauto. done.
Qed.

(* ------------------------------------------------------------------ *)
(** ** Properties *)

(** [prefix_match (n, p)] holds exactly when [n] is not longer than [p]
    and every one of its bits agrees with [p]: [p] lies inside [n]. *)
Theorem prefix_match_spec (n p : prefix) :
  wf_prefix n -> wf_prefix p ->
  prefix_match n p = true <->
  prefixlen n <= prefixlen p /\
  forall i, 0 <= i < prefixlen n -> bit_of (addr n) i = bit_of (addr p) i.
Proof.
  intros Hn Hp. rewrite prefix_match_key by done. unfold key. rewrite bits_of_prefix.
  pose proof (wf_len n Hn). pose proof (wf_len p Hp).
  rewrite <- nat_bits_iff by lia. intuition lia.
Qed.

(** [prefix_cmp] returns 0 exactly for the same network: same family, same
    length, same bits up to that length; host bits do not matter. *)
Theorem prefix_cmp_spec (p1 p2 : prefix) :
  wf_prefix p1 -> wf_prefix p2 ->
  prefix_cmp p1 p2 = 0 <->
  family p1 = family p2 /\ prefixlen p1 = prefixlen p2 /\
  forall i, 0 <= i < prefixlen p1 -> bit_of (addr p1) i = bit_of (addr p2) i.
Proof.
  intros [_ H1 _ Hb1] [_ H2 _ Hb2]. rewrite <- masked_compare_spec by (done || lia).
  unfold prefix_cmp.
  destruct (Z.eqb_spec (family p1) (family p2)), (Z.eqb_spec (prefixlen p1) (prefixlen p2));
    cbn [negb orb]; try (split; [done | tauto]).
  destruct (_ && _); [split; [done | intros (_ & _ & ? & _); done] |].
  destruct (bytes_same_down _ _ _); (split; [|intros (_ & _ & _ & ?)]); done.
Qed.

(** [apply_mask] keeps the network part, clears every host bit of the
    address family, and leaves a well-formed prefix. *)
Theorem apply_mask_spec (p : prefix) :
  wf_prefix p ->
  wf_prefix (apply_mask p) /\ prefix_cmp (apply_mask p) p = 0 /\
  forall i, 0 <= i < 8 * prefix_blen p ->
    bit_of (addr (apply_mask p)) i = (i <? prefixlen p) && bit_of (addr p) i.
Proof.
  intros H. pose proof (wf_prefix_bounds p H) as [? ?].
  assert (Hbit : forall i, 0 <= i < 8 * prefix_blen p ->
    bit_of (addr (apply_mask p)) i = (i <? prefixlen p) && bit_of (addr p) i).
  { intros i Hi. rewrite apply_mask_alt by done. cbn [addr].
    apply apply_mask_bytes_bit; (apply H || lia). }
  split; [by apply apply_mask_wf |]. split; [| done].
  apply prefix_cmp_spec; [by apply apply_mask_wf | done |].
  rewrite apply_mask_alt by done. cbn [family prefixlen addr]. split_and!; try done.
  intros i Hi. rewrite apply_mask_bytes_bit by (apply H || lia).
  rewrite (proj2 (Z.ltb_lt _ _)) by lia. done.
Qed.

(** Netmasks round trip: for every IPv4 length from 0 to 32, [masklen2ip]
    stays inside the address and [ip_masklen] reads the length back; for IPv6
    the same holds for the lengths 0 to 127. *)
Theorem masklen_roundtrip (n : Z) :
  (0 <= n <= 32 -> exists m, masklen2ip n = Ok m /\ ip_masklen m = n) /\
  (0 <= n <= 127 -> exists m, masklen2ip6 n = Ok m /\ ip6_masklen m = Ok n).
Proof.
  split; intros Hn.
  - pose proof (range_by_compute (fun n => match masklen2ip n with
      Ok m => ip_masklen m =? n | Err _ => false end) 33 eq_refl n ltac:(lia)) as H.
    cbv beta in H. destruct (masklen2ip n) as [m|]; [| done].
    exists m. split; [done | by apply Z.eqb_eq].
  - pose proof (range_by_compute (fun n => match masklen2ip6 n with
      Ok m => match ip6_masklen m with Ok k => k =? n | Err _ => false end
      | Err _ => false end) 128 eq_refl n ltac:(lia)) as H.
    cbv beta in H. destruct (masklen2ip6 n) as [m|]; [| done].
    exists m. destruct (ip6_masklen m) as [k|]; [| done].
    split; [done |]. f_equal. by apply Z.eqb_eq.
Qed.

(** On the all-ones IPv6 netmask [ip6_masklen] reads the byte after the
    16-byte address: its loop dereferences before it tests [len < 128]. *)
Theorem ip6_masklen_full_mask :
  masklen2ip6 128 = Ok (replicate 16 0xff) /\
  ip6_masklen (replicate 16 0xff) = Err OutOfBounds.
Proof. split; vm_compute; reflexivity. Qed.

(** [ipv4_network_addr] computes the bytes [apply_mask_ipv4] leaves. *)
Theorem ipv4_network_addr_is_apply_mask (p : prefix) :
  wf_prefix p -> family p = AF_INET ->
  ipv4_network_addr (take 4 (addr p)) (prefixlen p) = Ok (take 4 (addr (apply_mask p))).
Proof.
  intros [_ Hl Ha Hb] Hf. unfold apply_mask. rewrite Hf, Z.eqb_refl. unfold apply_mask_ipv4.
  unfold max_prefixlen in Hl. rewrite Hf in Hl. cbn in Hl. unfold IPV4_MAX_PREFIXLEN in Hl.
  destruct (addr p) as [|b0 [|b1 [|b2 [|b3 r]]]] eqn:E; try discriminate Ha.
  unfold bytes_ok in Hb.
  do 4 (apply Forall_cons_1 in Hb as [? Hb]).
  assert (Hx : forall x, is_u8 x -> Z.land x 255 = x).
  { intros x Hx. change 255 with (Z.ones 8). by apply in_u_ones. }
  assert (Hc : In (prefixlen p) (map Z.of_nat (seq 0 33))).
  { apply in_map_iff. exists (Z.to_nat (prefixlen p)). split; [lia | apply in_seq; lia]. }
  cbn [addr]. cbn in Hc.
  repeat destruct Hc as [<-|Hc]; try done;
    lazy -[Z.land]; rewrite ?Z.land_0_r, ?Hx by done; done.
Qed.

(** The length after the slash is truncated to a byte before its range is
    checked: the string is accepted exactly when the length modulo 256 is at
    most 32, and that remainder is the length stored. *)
Theorem str2prefix_ipv4_len (inet_aton : list Z -> option (list Z)) (host b : list Z) (n : Z) (p : prefix) :
  ~ In 47 host -> inet_aton host = Some b -> 0 <= n < 2 ^ 31 ->
  str2prefix_ipv4 inet_aton (host ++ 47 :: dec n) p =
    if n mod 256 <=? 32
    then (1, mk_prefix AF_INET (n mod 256) (b ++ drop 4 (addr p)))
    else (0, mk_prefix (family p) (prefixlen p) (b ++ drop 4 (addr p))).
Proof.
  intros Hs Hi Hn. unfold str2prefix_ipv4. rewrite split_at_app, Hi by done.
  cbn [set_addr4]. pose proof (atoi_dec n [] Hn I) as E. rewrite app_nil_r in E. rewrite E.
  change (u8 n) with (n mod 256). unfold IPV4_MAX_PREFIXLEN.
  destruct (Z.ltb_spec 32 (n mod 256)), (Z.leb_spec (n mod 256) 32); (done || lia).
Qed.

(** ** The properties at concrete inputs *)

Lemma prefix_match_spec_witness :
  prefix_match (pfx4 10 1 0 0 16) (pfx4 10 1 2 3 32) = true.
Proof.
  apply (prefix_match_spec (pfx4 10 1 0 0 16) (pfx4 10 1 2 3 32)); [wf_concrete.. |].
  split; [cbn; lia |]. intros i Hi.
  apply eqb_prop, (range_by_compute (fun i => eqb
    (bit_of (addr (pfx4 10 1 0 0 16)) i) (bit_of (addr (pfx4 10 1 2 3 32)) i)) 16 eq_refl i Hi).
Defined.

Lemma prefix_cmp_spec_witness :
  prefix_cmp (pfx4 10 0 0 1 8) (pfx4 10 0 0 2 8) = 0 /\
  ~ prefix_cmp (pfx4 10 0 0 1 8) (pfx4 10 0 0 1 9) = 0.
Proof.
  split.
  - apply (prefix_cmp_spec (pfx4 10 0 0 1 8) (pfx4 10 0 0 2 8)); [wf_concrete.. |].
    split_and!; [done.. |]. intros i Hi.
    apply eqb_prop, (range_by_compute (fun i => eqb
      (bit_of (addr (pfx4 10 0 0 1 8)) i) (bit_of (addr (pfx4 10 0 0 2 8)) i)) 8 eq_refl i Hi).
  - intros H. vm_compute in H. discriminate.
Defined.

Lemma apply_mask_spec_witness :
  wf_prefix (apply_mask (pfx4 192 168 77 5 20)) /\
  apply_mask (pfx4 192 168 77 5 20) = pfx4 192 168 64 0 20.
Proof.
  split; [apply (apply_mask_spec (pfx4 192 168 77 5 20)); wf_concrete | reflexivity].
Defined.

Lemma masklen_roundtrip_witness :
  (exists m, masklen2ip 20 = Ok m /\ ip_masklen m = 20) /\
  (exists m, masklen2ip6 127 = Ok m /\ ip6_masklen m = Ok 127).
Proof.
  split; [apply (masklen_roundtrip 20) | apply (masklen_roundtrip 127)]; lia.
Defined.

Lemma ipv4_network_addr_is_apply_mask_witness :
  ipv4_network_addr [192; 168; 77; 5] 20 = Ok [192; 168; 64; 0].
Proof.
  exact (ipv4_network_addr_is_apply_mask (pfx4 192 168 77 5 20) ltac:(wf_concrete) eq_refl).
Defined.

(** With an [inet_aton] that answers 10.0.0.0, the string "10.0.0.0/264" is
    accepted as 10.0.0.0/8. *)
Lemma str2prefix_ipv4_len_witness :
  str2prefix_ipv4 (fun _ => Some [10; 0; 0; 0]) (cstr "10.0.0.0/264") prefix_new
  = (1, pfx4 10 0 0 0 8).
Proof.
  refine (str2prefix_ipv4_len (fun _ => Some [10; 0; 0; 0]) (cstr "10.0.0.0") [10; 0; 0; 0]
    264 prefix_new _ eq_refl _); [| lia].
  intros H. vm_compute in H. repeat destruct H as [H|H]; (discriminate || done).
Defined.

End BgpPrefix.
