(* ===== verification/BgpTable.v ===== *)
(** * src/bgp/bgp_table.c: the routing table, a Patricia trie on a heap

    Nodes live in a heap of numbered locations and point to each other the way
    [struct bgp_node] does ([parent], [link[0]], [link[1]]); [malloc] hands out
    the next unused location and [free] removes a node, so that a dangling
    pointer is a failing lookup.  All nodes of a heap belong to one table, so
    [node->table] is that table.  [node->info[k]], a linked list of
    [struct bgp_info], is the list of its elements; their type is a parameter.
    Loops that follow pointers run on fuel; 257 rounds are enough because
    [prefixlen] is an unsigned byte that strictly changes in every round. *)

From S2P Require Import Prelude BgpPrefix Bgp.

Module BgpTable.
Import BgpPrefix Bgp.

Abbreviation loc := positive.

Definition BGP_NODE_VECTOR_MAX_DEPTH : Z := 128.

Section Table.
Context {I : Type}.

Record bgp_node := mk_node {
  nd_p : prefix;
  nd_parent : option loc;
  l_left : option loc;
  l_right : option loc;
  nd_info : list (list I);
  nd_lock : Z
}.

Record bgp_table := mk_table {
  t_afi : Z;
  t_safi : Z;
  t_top : option loc;
  t_count : Z;
  t_heap : gmap loc bgp_node;
  t_next : loc
}.

Definition bgp_table_init (afi safi : Z) : bgp_table := mk_table afi safi None 0 ∅ 1%positive.

(** ** Field access and update *)

Definition link (nd : bgp_node) (bit : bool) : option loc :=
  if bit then l_right nd else l_left nd.

Definition with_p (p : prefix) (nd : bgp_node) : bgp_node :=
  mk_node p (nd_parent nd) (l_left nd) (l_right nd) (nd_info nd) (nd_lock nd).
Definition with_parent (o : option loc) (nd : bgp_node) : bgp_node :=
  mk_node (nd_p nd) o (l_left nd) (l_right nd) (nd_info nd) (nd_lock nd).
Definition with_link (bit : bool) (o : option loc) (nd : bgp_node) : bgp_node :=
  if bit then mk_node (nd_p nd) (nd_parent nd) (l_left nd) o (nd_info nd) (nd_lock nd)
  else mk_node (nd_p nd) (nd_parent nd) o (l_right nd) (nd_info nd) (nd_lock nd).
Definition with_lock (k : Z) (nd : bgp_node) : bgp_node :=
  mk_node (nd_p nd) (nd_parent nd) (l_left nd) (l_right nd) (nd_info nd) k.
Definition with_info (i : list (list I)) (nd : bgp_node) : bgp_node :=
  mk_node (nd_p nd) (nd_parent nd) (l_left nd) (l_right nd) i (nd_lock nd).

Definition with_top (o : option loc) (t : bgp_table) : bgp_table :=
  mk_table (t_afi t) (t_safi t) o (t_count t) (t_heap t) (t_next t).
Definition with_count (c : Z) (t : bgp_table) : bgp_table :=
  mk_table (t_afi t) (t_safi t) (t_top t) c (t_heap t) (t_next t).
Definition with_heap (h : gmap loc bgp_node) (t : bgp_table) : bgp_table :=
  mk_table (t_afi t) (t_safi t) (t_top t) (t_count t) h (t_next t).

Definition get_node (t : bgp_table) (l : loc) : res bgp_node := deref (t_heap t !! l).

(** [l->field = value]: faults when [l] is not a live node. *)
Definition upd_node (t : bgp_table) (l : loc) (f : bgp_node -> bgp_node) : res bgp_table :=
  nd ← get_node t l;
  Ok (with_heap (<[l := f nd]> (t_heap t)) t).

(** ** Node life cycle *)

Section Ops.
Context (dbs : misc_dbs).

(** [None] is the NULL the function returns when the peer type has no
    database. *)
Definition bgp_node_create (peer : bgp_peer) (t : bgp_table) : option (bgp_table * loc) :=
  match bgp_select_misc_db dbs (type peer) with
  | None => None
  | Some bms =>
      let l := t_next t in
      let rn := mk_node prefix_new None None None (replicate (info_buckets bms) []) 0 in
      Some (mk_table (t_afi t) (t_safi t) (t_top t) (t_count t)
              (<[l := rn]> (t_heap t)) (Pos.succ l), l)
  end.

Definition bgp_node_set (peer : bgp_peer) (t : bgp_table) (p : prefix) : res (bgp_table * loc) :=
  '(t, node) ← deref (bgp_node_create peer t);
  t ← upd_node t node (fun nd => with_p (prefix_copy (nd_p nd) p) nd);
  Ok (t, node).

Definition bgp_node_free (t : bgp_table) (node : loc) : res bgp_table :=
  _ ← get_node t node;
  Ok (with_heap (delete node (t_heap t)) t).

(** ** Bits *)

(** [for (i = 0; i < p->prefixlen / 8; i++) { if (np[i] == pp[i]) newp[i] =
    np[i]; else break; }] *)
Fixpoint common_bytes (fuel : nat) (i : Z) (np pp newp : list Z) : Z * list Z :=
  match fuel with
  | O => (i, newp)
  | S f => if byte_at np i =? byte_at pp i
           then common_bytes f (i + 1) np pp (<[Z.to_nat i := byte_at np i]> newp)
           else (i, newp)
  end.

(** [while (new->prefixlen < p->prefixlen && !(mask & diff)) { mask >>= 1;
    new->prefixlen++; }], [fuel] being [p->prefixlen - new->prefixlen]. *)
Fixpoint common_bits (fuel : nat) (mask diff newlen : Z) : Z :=
  match fuel with
  | O => newlen
  | S f => if Z.land mask diff =? 0
           then common_bits f (Z.shiftr mask 1) diff (u8 (newlen + 1))
           else newlen
  end.

Definition route_common (n p new : prefix) : prefix :=
  let np := addr n in
  let pp := addr p in
  let '(i, newp) := common_bytes (Z.to_nat (prefixlen p / 8)) 0 np pp (addr new) in
  let newlen := u8 (i * 8) in
  if negb (newlen =? prefixlen p) then
    let diff := Z.lxor (byte_at np i) (byte_at pp i) in
    let newlen := common_bits (Z.to_nat (prefixlen p - newlen)) 0x80 diff newlen in
    let newp := <[Z.to_nat i := Z.land (byte_at np i) (byte_at maskbit (newlen mod 8))]> newp in
    mk_prefix (family new) newlen newp
  else mk_prefix (family new) newlen newp.

(** [p[offset] >> shift & 1].  For [prefixlen] 128 the byte read is the one
    that follows the 16 bytes of the address; [past] stands for it. *)
Definition check_bit (past : Z) (p : list Z) (plen : Z) : res bool :=
  _ ← c_assert (plen <=? 128);
  let offset := plen / 8 in
  let shift := 7 - plen mod 8 in
  let b := if offset <? 16 then byte_at p offset else past in
  Ok (Z.testbit b shift).

Section PastByte.
Context (past : Z).

Definition set_link (t : bgp_table) (node new : loc) : res bgp_table :=
  nn ← get_node t new;
  nd ← get_node t node;
  bit ← check_bit past (addr (nd_p nn)) (prefixlen (nd_p nd));
  t ← upd_node t node (with_link bit (Some new));
  upd_node t new (with_parent (Some node)).

Definition bgp_lock_node (peer : bgp_peer) (t : bgp_table) (node : loc) : res bgp_table :=
  match bgp_select_misc_db dbs (type peer) with
  | None => Err AssertFail
  | Some bms =>
      if negb (is_readonly bms)
      then upd_node t node (fun nd => with_lock (u32 (nd_lock nd + 1)) nd)
      else Ok t
  end.

(** ** Insertion *)

(** The descent of [bgp_node_get]: either the node of that very prefix, or the
    last node that covers [p] and the link that was followed out of it. *)
Inductive walk_end :=
  | Found (node : loc)
  | Stop (match_ : option loc) (node : option loc).

Fixpoint get_walk (fuel : nat) (t : bgp_table) (p : prefix) (match_ node : option loc)
    : res walk_end :=
  match fuel with
  | O => Err OutOfFuel
  | S f =>
      match node with
      | None => Ok (Stop match_ None)
      | Some l =>
          nd ← get_node t l;
          if (prefixlen (nd_p nd) <=? prefixlen p) && prefix_match (nd_p nd) p then
            if prefixlen (nd_p nd) =? prefixlen p then Ok (Found l)
            else
              bit ← check_bit past (addr p) (prefixlen (nd_p nd));
              get_walk f t p (Some l) (link nd bit)
          else Ok (Stop match_ (Some l))
      end
  end.

Definition walk_fuel : nat := 257.

(** [if (match) set_link (match, new); else table->top = new;] *)
Definition attach (t : bgp_table) (match_ : option loc) (new : loc) : res bgp_table :=
  match match_ with
  | Some m => set_link t m new
  | None => Ok (with_top (Some new) t)
  end.

Definition bgp_node_get (peer : bgp_peer) (t : bgp_table) (p : prefix)
    : res (bgp_table * loc) :=
  w ← get_walk walk_fuel t p None (t_top t);
  match w with
  | Found node =>
      t ← bgp_lock_node peer t node;
      Ok (t, node)
  | Stop match_ None =>
      '(t, new) ← bgp_node_set peer t p;
      t ← attach t match_ new;
      let t := with_count (u64 (t_count t + 1)) t in
      t ← bgp_lock_node peer t new;
      Ok (t, new)
  | Stop match_ (Some node) =>
      '(t, new) ← deref (bgp_node_create peer t);
      nd ← get_node t node;
      t ← upd_node t new (fun nn =>
             let q := route_common (nd_p nd) p (nd_p nn) in
             with_p (mk_prefix (family p) (prefixlen q) (addr q)) nn);
      t ← set_link t new node;
      t ← attach t match_ new;
      nn ← get_node t new;
      '(t, new) ←
        (if negb (prefixlen (nd_p nn) =? prefixlen p) then
           let match_ := new in
           '(t, new) ← bgp_node_set peer t p;
           t ← set_link t match_ new;
           Ok (with_count (u64 (t_count t + 1)) t, new)
         else Ok (t, new));
      let t := with_count (u64 (t_count t + 1)) t in
      t ← bgp_lock_node peer t new;
      Ok (t, new)
  end.

(** ** Deletion *)

Fixpoint bgp_node_delete (fuel : nat) (peer : bgp_peer) (t : bgp_table) (node : loc)
    : res bgp_table :=
  match fuel with
  | O => Err OutOfFuel
  | S f =>
      nd ← get_node t node;
      _ ← c_assert (nd_lock nd =? 0);
      bms ← deref (bgp_select_misc_db dbs (type peer));
      _ ← c_assert (forallb (fun l => match l with [] => true | _ => false end)
                      (take (info_buckets bms) (nd_info nd)));
      match l_left nd, l_right nd with
      | Some _, Some _ => Ok t
      | _, _ =>
          let child := match l_left nd with Some c => Some c | None => l_right nd end in
          let parent := nd_parent nd in
          t ← match child with
              | Some c => upd_node t c (with_parent parent)
              | None => Ok t
              end;
          t ← match parent with
              | Some q =>
                  upd_node t q (fun nq =>
                    with_link (negb (bool_decide (l_left nq = Some node))) child nq)
              | None => Ok (with_top child t)
              end;
          let t := with_count (u64 (t_count t - 1)) t in
          t ← bgp_node_free t node;
          match parent with
          | Some q =>
              nq ← get_node t q;
              if nd_lock nq =? 0 then bgp_node_delete f peer t q else Ok t
          | None => Ok t
          end
      end
  end.

Definition bgp_unlock_node (peer : bgp_peer) (t : bgp_table) (node : loc) : res bgp_table :=
  match bgp_select_misc_db dbs (type peer) with
  | None => Err AssertFail
  | Some bms =>
      if negb (is_readonly bms) then
        t ← upd_node t node (fun nd => with_lock (u32 (nd_lock nd - 1)) nd);
        nd ← get_node t node;
        if nd_lock nd =? 0 then bgp_node_delete walk_fuel peer t node else Ok t
      else Ok t
  end.

(** ** Attached route information (bgp_util.c) *)

(** The list head moves; the lock of the peer the information belongs to is
    passed along. *)
Definition bgp_info_add (peer : bgp_peer) (t : bgp_table) (rn : loc) (ri : I)
    (modulo : Z) (ri_peer_lock : Z) : res (bgp_table * Z) :=
  nd ← get_node t rn;
  l ← match nd_info nd !! Z.to_nat modulo with Some l => Ok l | None => Err OutOfBounds end;
  t ← upd_node t rn (fun nd => with_info (<[Z.to_nat modulo := ri :: l]> (nd_info nd)) nd);
  t ← bgp_lock_node peer t rn;
  Ok (t, s32 (ri_peer_lock + 1)).

(** Unlinks the [k]-th element of the bucket and drops the lock it held. *)
Definition bgp_info_delete (peer : bgp_peer) (t : bgp_table) (rn : loc) (k : nat)
    (modulo : Z) : res bgp_table :=
  nd ← get_node t rn;
  l ← match nd_info nd !! Z.to_nat modulo with Some l => Ok l | None => Err OutOfBounds end;
  _ ← deref (l !! k);
  t ← upd_node t rn (fun nd => with_info (<[Z.to_nat modulo := delete k l]> (nd_info nd)) nd);
  bgp_unlock_node peer t rn.

(** ** Traversal *)

Definition bgp_table_top (peer : bgp_peer) (table : option bgp_table)
    : res (option bgp_table * option loc) :=
  match table with
  | Some t =>
      match t_top t with
      | None => Ok (Some t, None)
      | Some l => t ← bgp_lock_node peer t l; Ok (Some t, Some l)
      end
  | None => Ok (None, None)
  end.

(** [while (node->parent) { if (node->parent->l_left == node &&
    node->parent->l_right) return node->parent->l_right; node = node->parent; }] *)
Fixpoint next_up (fuel : nat) (t : bgp_table) (node : loc) : res (option loc) :=
  match fuel with
  | O => Err OutOfFuel
  | S f =>
      nd ← get_node t node;
      match nd_parent nd with
      | None => Ok None
      | Some q =>
          nq ← get_node t q;
          match l_right nq with
          | Some r => if bool_decide (l_left nq = Some node) then Ok (Some r)
                      else next_up f t q
          | None => next_up f t q
          end
      end
  end.

Definition bgp_route_next (peer : bgp_peer) (t : bgp_table) (node : loc)
    : res (bgp_table * option loc) :=
  nd ← get_node t node;
  next ← match l_left nd with
         | Some c => Ok (Some c)
         | None => match l_right nd with
                   | Some c => Ok (Some c)
                   | None => next_up walk_fuel t node
                   end
         end;
  t ← match next with Some l => bgp_lock_node peer t l | None => Ok t end;
  t ← bgp_unlock_node peer t node;
  Ok (t, next).

(** The loop of [bgp_table_free]; the result is the table the final assertion
    is evaluated on. *)
Fixpoint table_free_loop (fuel : nat) (t : bgp_table) (node : option loc) : res bgp_table :=
  match fuel with
  | O => Err OutOfFuel
  | S f =>
      match node with
      | None => Ok t
      | Some l =>
          nd ← get_node t l;
          match l_left nd, l_right nd with
          | Some c, _ => table_free_loop f t (Some c)
          | None, Some c => table_free_loop f t (Some c)
          | None, None =>
              let parent := nd_parent nd in
              let t := with_count (u64 (t_count t - 1)) t in
              t ← bgp_node_free t l;
              match parent with
              | Some q =>
                  t ← upd_node t q (fun nq =>
                         with_link (negb (bool_decide (l_left nq = Some l))) None nq);
                  table_free_loop f t (Some q)
              | None => Ok t
              end
          end
      end
  end.

(** Every round goes one node down or frees one: 257 rounds per node. *)
Definition bgp_table_free (rt : option bgp_table) : res unit :=
  match rt with
  | None => Ok tt
  | Some t =>
      t ← table_free_loop (257 * (size (t_heap t) + 1)) t (t_top t);
      c_assert (t_count t =? 0)
  end.

(** ** Longest-prefix match *)

Section Match.
(** The callbacks of the caller: [modulo_func] picks the first bucket,
    [cmp_func] returns 0 on a match and may update [nmct2]. *)
Context {S2 : Type}.
Context (modulo_func : option (bgp_peer -> S2 -> Z -> Z)).
Context (cmp_func : I -> S2 -> Z * S2).

Record match_state := mk_ms {
  ms_matched : option (loc * I);
  ms_bnv : option (list (prefix * I));
  ms_nmct2 : S2
}.

(** [bnv->v[bnv->entries] = ...; bnv->entries++;] *)
Definition bnv_push (bnv : option (list (prefix * I))) (e : prefix * I)
    : res (option (list (prefix * I))) :=
  match bnv with
  | None => Ok None
  | Some v => if Z.of_nat (length v) <? BGP_NODE_VECTOR_MAX_DEPTH
              then Ok (Some (v ++ [e])) else Err OutOfBounds
  end.

Fixpoint scan_infos (l : loc) (nd : bgp_node) (p : prefix) (infos : list I)
    (st : match_state) : res match_state :=
  match infos with
  | [] => Ok st
  | info :: next =>
      let '(c, nmct2) := cmp_func info (ms_nmct2 st) in
      if c =? 0 then
        bnv ← bnv_push (ms_bnv st) (nd_p nd, info);
        let st := mk_ms (Some (l, info)) bnv nmct2 in
        if prefixlen (nd_p nd) =? prefixlen p then Ok st
        else scan_infos l nd p next st
      else scan_infos l nd p next (mk_ms (ms_matched st) (ms_bnv st) nmct2)
  end.

(** [for (local_modulo = modulo, modulo_idx = 0; modulo_idx < modulo_idx_max; ...)] *)
Fixpoint scan_buckets (n : nat) (l : loc) (nd : bgp_node) (p : prefix)
    (local_modulo : Z) (st : match_state) : res match_state :=
  match n with
  | O => Ok st
  | S n' =>
      infos ← match nd_info nd !! Z.to_nat local_modulo with
              | Some infos => Ok infos
              | None => Err OutOfBounds
              end;
      st ← scan_infos l nd p infos st;
      scan_buckets n' l nd p (u32 (local_modulo + 1)) st
  end.

Fixpoint match_walk (fuel : nat) (t : bgp_table) (p : prefix) (max : nat) (modulo : Z)
    (node : option loc) (st : match_state) : res match_state :=
  match fuel with
  | O => Err OutOfFuel
  | S f =>
      match node with
      | None => Ok st
      | Some l =>
          nd ← get_node t l;
          if (prefixlen (nd_p nd) <=? prefixlen p) && prefix_match (nd_p nd) p then
            st ← scan_buckets max l nd p modulo st;
            bit ← check_bit past (addr p) (prefixlen (nd_p nd));
            match_walk f t p max modulo (link nd bit) st
          else Ok st
      end
  end.

(** [per_peer_buckets] and [modulo_idx_max]. *)
Definition match_buckets (bms : bgp_misc_structs) : Z * Z :=
  if table_per_peer_hash bms =? BGP_ASPATH_HASH_PATHID
  then (table_per_peer_buckets bms, table_per_peer_buckets bms)
  else if table_per_peer_hash bms =? BGP_ASPATH_HASH_MPLSVPNRD
  then (table_per_peer_buckets bms, 1)
  else (1, 1).

(** [None] when the function returns before it writes its results. *)
Definition bgp_node_match (table : option bgp_table) (p : prefix) (peer : option bgp_peer)
    (nmct2 : S2) (bnv : bool) : res (option (bgp_table * match_state)) :=
  match table, peer with
  | Some t, Some peer =>
      match bgp_select_misc_db dbs (type peer) with
      | None => Ok None
      | Some bms =>
          let '(per_peer_buckets, modulo_idx_max) := match_buckets bms in
          let modulo := match modulo_func with
                        | Some f => f peer nmct2 per_peer_buckets
                        | None => 0
                        end in
          let st := mk_ms None (if bnv then Some [] else None) nmct2 in
          st ← match_walk (S walk_fuel) t p (Z.to_nat modulo_idx_max) modulo (t_top t) st;
          match ms_matched st with
          | Some (l, _) => t ← bgp_lock_node peer t l; Ok (Some (t, st))
          | None => Ok (Some (t, st))
          end
      end
  | _, _ => Ok None
  end.

Definition bgp_node_match_ipv4 (table : option bgp_table) (a : list Z) (peer : option bgp_peer)
    (nmct2 : S2) (bnv : bool) : res (option (bgp_table * match_state)) :=
  let p := mk_prefix AF_INET IPV4_MAX_PREFIXLEN (a ++ replicate 12 0) in
  bgp_node_match table p peer nmct2 bnv.

Definition bgp_node_match_ipv6 (table : option bgp_table) (a : list Z) (peer : option bgp_peer)
    (nmct2 : S2) (bnv : bool) : res (option (bgp_table * match_state)) :=
  let p := mk_prefix AF_INET6 IPV6_MAX_PREFIXLEN a in
  bgp_node_match table p peer nmct2 bnv.

End Match.
End PastByte.
End Ops.
End Table.

Arguments bgp_node I : clear implicits.
Arguments bgp_table I : clear implicits.

End BgpTable.
