(* ===== verification/BgpTableFacts.v ===== *)
(** * Properties of the routing table (src/bgp/bgp_table.c)

    The invariant of the heap is local: every pointer is mirrored by the one
    in the other direction, and a child's key extends its parent's key by the
    bit of the link.  From it follow the shape of a descent, insertion,
    deletion, traversal and longest-prefix match. *)

From S2P Require Import Prelude BgpPrefix Bgp BgpTable.
Import BgpPrefix Bgp BgpTable.

Module BgpTableFacts.

(** ** Bits read and written by the table code *)

Lemma check_bit_Ok past a n : 0 <= n < 128 -> check_bit past a n = Ok (bit_of a n).
Proof.
  intros Hn. unfold check_bit, c_assert. rewrite (proj2 (Z.leb_le _ _)) by lia. cbn.
  rewrite (proj2 (Z.ltb_lt (n / 8) 16)) by (apply Z.div_lt_upper_bound; lia). done.
Qed.

Lemma check_bit_total past a n : 0 <= n <= 128 -> exists b, check_bit past a n = Ok b.
Proof.
  intros Hn. unfold check_bit, c_assert. rewrite (proj2 (Z.leb_le _ _)) by lia. cbn. eauto.
Qed.

Lemma land_pow2_zero k x : 0 <= k -> Z.land (2 ^ k) x = 0 <-> Z.testbit x k = false.
Proof.
  intros Hk. split.
  - intros H. apply (f_equal (fun y => Z.testbit y k)) in H.
    rewrite Z.land_spec, Z.pow2_bits_true, Z.bits_0 in H by done. done.
  - intros H. apply Z.bits_inj'. intros n Hn. rewrite Z.land_spec, Z.bits_0.
    destruct (decide (n = k)) as [->|]; [rewrite H; apply andb_false_r |].
    rewrite Z.pow2_bits_false by done. done.
Qed.

Lemma common_bytes_spec fuel i np pp newp i' newp' :
  0 <= i -> (Z.to_nat i + fuel <= length newp)%nat -> bytes_ok np -> bytes_ok newp ->
  common_bytes fuel i np pp newp = (i', newp') ->
  i <= i' <= i + Z.of_nat fuel /\ length newp' = length newp /\ bytes_ok newp' /\
  (forall j, i <= j < i' -> byte_at np j = byte_at pp j /\ byte_at newp' j = byte_at np j) /\
  (forall j, 0 <= j < i -> byte_at newp' j = byte_at newp j) /\
  (i' = i + Z.of_nat fuel \/ byte_at np i' <> byte_at pp i').
Proof.
  revert i newp. induction fuel as [|f IH]; intros i newp Hi Hl Hnp Hok; cbn [common_bytes].
  { intros [= <- <-]. split_and!; (done || lia || auto with lia). }
  destruct (Z.eqb_spec (byte_at np i) (byte_at pp i)) as [E|E].
  - intros H. apply IH in H as (H1 & H2 & H3 & H4 & H5 & H6);
      rewrite ?length_insert in *; try lia; try done;
      [| by apply bytes_ok_insert, byte_at_range].
    assert (Hins : byte_at (<[Z.to_nat i := byte_at np i]> newp) i = byte_at np i).
    { pose proof (byte_at_insert_eq newp (Z.to_nat i) (byte_at np i) ltac:(lia)) as Hx.
      by rewrite Z2Nat.id in Hx by lia. }
    split_and!; try lia; try done.
    + intros j Hj. destruct (decide (j = i)) as [->|]; [| apply H4; lia].
      rewrite H5 by lia. done.
    + intros j Hj. rewrite H5 by lia. apply byte_at_insert_ne; lia.
  - intros [= <- <-]. split_and!; (done || lia || auto).
Qed.

Lemma common_bits_spec fuel j diff base :
  0 <= j <= 7 -> 0 <= base -> base + 8 < 256 -> is_u8 diff ->
  (diff <> 0 /\ (forall k, 0 <= k < j -> Z.testbit diff (7 - k) = false)
   \/ j + Z.of_nat fuel <= 7) ->
  exists j', common_bits fuel (2 ^ (7 - j)) diff (base + j) = base + j' /\
    j <= j' <= 7 /\ j' <= j + Z.of_nat fuel /\
    (forall k, j <= k < j' -> Z.testbit diff (7 - k) = false) /\
    (j' = j + Z.of_nat fuel \/ Z.testbit diff (7 - j') = true).
Proof.
  revert j. induction fuel as [|f IH]; intros j Hj Hb Hb' Hd Hs; cbn [common_bits].
  { exists j. split_and!; try done; try lia. }
  destruct (Z.eqb_spec (Z.land (2 ^ (7 - j)) diff) 0) as [E|E].
  - apply land_pow2_zero in E; [| lia].
    assert (Hj7 : j < 7).
    { destruct Hs as [[Hne Hz]|]; [| lia]. destruct (decide (j = 7)) as [->|]; [| lia].
      exfalso. apply Hne. apply u8_bits_eq; [done | unfold in_u; lia |].
      intros k Hk. rewrite Z.bits_0. destruct (decide (k = 7)) as [->|]; [done |].
      apply Hz. lia. }
    assert (Z.shiftr (2 ^ (7 - j)) 1 = 2 ^ (7 - (j + 1))) as ->.
    { rewrite Z.shiftr_div_pow2 by lia. replace (7 - j) with ((7 - (j + 1)) + 1) by lia.
      rewrite Z.pow_add_r by lia. apply Z.div_mul. done. }
    assert (u8 (base + j + 1) = base + (j + 1)) as ->.
    { unfold u8. rewrite wrap_small; [lia | unfold in_u; lia]. }
    destruct (IH (j + 1)) as (j' & E1 & H1 & H2 & H3 & H4); try lia; try done.
    { destruct Hs as [[Hne Hz]|]; [left; split; [done |] | right; lia].
      intros k Hk. destruct (decide (k = j)) as [->|]; [done | apply Hz; lia]. }
    exists j'. split_and!; try done; try lia.
    + intros k Hk. destruct (decide (k = j)) as [->|]; [done | apply H3; lia].
    + destruct H4; [left; lia | by right].
  - exists j. split_and!; try done; try lia. right.
    destruct (Z.testbit diff (7 - j)) eqn:Et; [done |]. by apply land_pow2_zero in Et; [| lia].
Qed.

(** [route_common] computes the longest common prefix, up to the length of its
    second argument. *)
Lemma route_common_spec n p :
  wf_prefix n -> wf_prefix p ->
  exists m, prefixlen (route_common n p prefix_new) = m /\ 0 <= m <= prefixlen p /\
    (forall i, 0 <= i < m -> bit_of (addr n) i = bit_of (addr p) i /\
       bit_of (addr (route_common n p prefix_new)) i = bit_of (addr n) i) /\
    (m = prefixlen p \/ bit_of (addr n) m <> bit_of (addr p) m) /\
    length (addr (route_common n p prefix_new)) = 16%nat /\
    bytes_ok (addr (route_common n p prefix_new)).
Proof.
  intros [_ Hn _ Hnb] Hp. pose proof (wf_prefix_bounds p Hp) as [Hb1 Hb2].
  destruct Hp as [_ _ _ Hpb]. unfold route_common.
  assert (Hplen : 0 <= prefixlen p / 8 <= 16) by (Z.div_mod_to_equations; lia).
  destruct (common_bytes _ _ _ _ _) as [i newp] eqn:E.
  apply common_bytes_spec in E as (H1 & H2 & H3 & H4 & _ & H6); try done; try lia;
    [| cbn; lia | unfold bytes_ok, prefix_new; cbn; unfold in_u; repeat constructor; lia].
  change (length (addr prefix_new)) with 16%nat in H2.
  rewrite Z2Nat.id in H1, H6 by lia.
  assert (Hu : u8 (i * 8) = i * 8).
  { unfold u8. apply wrap_small. unfold in_u. lia. }
  rewrite Hu. pose proof (Z.div_mod (prefixlen p) 8 ltac:(lia)) as Hdm.
  pose proof (Z.mod_pos_bound (prefixlen p) 8 ltac:(lia)) as Hmb.
  assert (Hbytes : forall t, 0 <= t < i * 8 -> bit_of (addr n) t = bit_of (addr p) t /\
    bit_of newp t = bit_of (addr n) t).
  { intros t Ht. unfold bit_of. destruct (H4 (t / 8)) as [-> ->]; [| done].
    Z.div_mod_to_equations; lia. }
  destruct (Z.eqb_spec (i * 8) (prefixlen p)) as [Ee|Ee]; cbn [negb].
  { exists (i * 8). cbn. split_and!; try done; try lia. }
  set (diff := Z.lxor (byte_at (addr n) i) (byte_at (addr p) i)).
  assert (Hdiff : is_u8 diff) by (apply in_u_lxor; [lia | by apply byte_at_range ..]).
  destruct (common_bits_spec (Z.to_nat (prefixlen p - i * 8)) 0 diff (i * 8))
    as (j & Ej & Hj1 & Hj2 & Hj3 & Hj4); try lia; try done.
  { destruct (decide (i = 0 + prefixlen p / 8)); [right; lia | left].
    split; [| intros; lia]. unfold diff. intros Hz%Z.lxor_eq. tauto. }
  change (2 ^ (7 - 0)) with 128 in Ej. rewrite Z.add_0_r in Ej. rewrite Ej.
  rewrite Z2Nat.id in Hj2, Hj4 by lia.
  assert (Hi16 : (Z.to_nat i < 16)%nat) by lia.
  exists (i * 8 + j). cbn [prefixlen addr].
  assert (Hjm : (i * 8 + j) mod 8 = j) by (Z.div_mod_to_equations; lia).
  assert (Hjd : forall k, 0 <= k <= 7 -> (i * 8 + k) / 8 = i /\ (i * 8 + k) mod 8 = k)
    by (intros; Z.div_mod_to_equations; lia).
  rewrite Hjm. set (v := Z.land _ _).
  assert (Hv : byte_at (<[Z.to_nat i := v]> newp) i = v).
  { pose proof (byte_at_insert_eq newp (Z.to_nat i) v ltac:(lia)) as Hx.
    by rewrite Z2Nat.id in Hx by lia. }
  split_and!; try done; try lia.
  - intros t Ht. destruct (Z.lt_ge_cases t (i * 8)) as [Hlt|Hge].
    + destruct (Hbytes t ltac:(lia)) as [Ea Eb]. split; [done |]. rewrite <- Eb.
      unfold bit_of. rewrite byte_at_insert_ne; [done | | ];
        Z.div_mod_to_equations; lia.
    + replace t with (i * 8 + (t - i * 8)) by lia.
      destruct (Hjd (t - i * 8) ltac:(lia)) as [Hq Hr].
      unfold bit_of. rewrite Hq, Hr, Hv. split.
      * specialize (Hj3 (t - i * 8) ltac:(lia)). unfold diff in Hj3.
        rewrite Z.lxor_spec in Hj3. by apply xorb_eq in Hj3.
      * unfold v. rewrite Z.land_spec, maskbit_bit by lia.
        rewrite (proj2 (Z.leb_le _ _)) by lia. apply andb_true_r.
  - destruct Hj4 as [Hj4|Hj4]; [left; lia | right].
    destruct (Hjd j ltac:(lia)) as [Hq Hr]. unfold bit_of. rewrite Hq, Hr.
    unfold diff in Hj4. rewrite Z.lxor_spec in Hj4. intros Eb. rewrite Eb, xorb_nilpotent in Hj4. done.
  - by rewrite length_insert.
  - apply bytes_ok_insert; [done |]. apply in_u_land; [lia | by apply byte_at_range].
Qed.

Lemma bits_snoc_prefix a n b q :
  wf_prefix q -> 0 <= n < prefixlen q ->
  bits_of a (Z.to_nat n) `prefix_of` key q -> b = bit_of (addr q) n ->
  (bits_of a (Z.to_nat n) ++ [b]) `prefix_of` key q.
Proof.
  intros Hq Hn [r Hr] ->. unfold key in *. exists (drop 1 r).
  assert (E : bits_of (addr q) (Z.to_nat (prefixlen q)) !! Z.to_nat n = Some (bit_of (addr q) n)).
  { rewrite bits_of_lookup, Z2Nat.id by lia. done. }
  rewrite Hr in *. rewrite lookup_app_r, bits_of_length, Nat.sub_diag in E
    by (rewrite bits_of_length; lia).
  destruct r as [|x r]; [done |]. injection E as ->. by rewrite <- app_assoc.
Qed.

(** The node [route_common] describes: a strict ancestor of the node that did
    not match, and an ancestor of (or equal to) the new prefix. *)
Lemma route_common_key n p (q := route_common n p prefix_new) :
  wf_prefix n -> wf_prefix p -> ~ key n `prefix_of` key p ->
  let g := mk_prefix (family p) (prefixlen q) (addr q) in
  wf_prefix g /\ prefixlen g < prefixlen n /\
  (key g ++ [bit_of (addr n) (prefixlen g)]) `prefix_of` key n /\
  (prefixlen g = prefixlen p /\ key g = key p \/
   prefixlen g < prefixlen p /\ (key g ++ [bit_of (addr p) (prefixlen g)]) `prefix_of` key p /\
   bit_of (addr n) (prefixlen g) <> bit_of (addr p) (prefixlen g)).
Proof.
  intros Hn Hp Hm g. destruct (route_common_spec n p Hn Hp) as (m & E1 & H1 & H2 & H3 & H4 & H5).
  fold q in E1, H2, H4, H5. pose proof (wf_len n Hn) as Hln. pose proof (wf_len p Hp) as Hlp.
  assert (Hg : wf_prefix g).
  { split; cbn; [apply Hp | lia | done | done]. }
  assert (Hkn : bits_of (addr n) (Z.to_nat m) = key g).
  { unfold key, g. cbn [addr prefixlen]. rewrite E1. apply list_eq. intros i.
    destruct (Nat.lt_ge_cases i (Z.to_nat m)).
    - rewrite !bits_of_lookup by done. f_equal. symmetry. apply (H2 (Z.of_nat i)). lia.
    - rewrite !lookup_ge_None_2; rewrite ?bits_of_length; done. }
  assert (Hkp : bits_of (addr p) (Z.to_nat m) = key g).
  { rewrite <- Hkn. apply list_eq. intros i.
    destruct (Nat.lt_ge_cases i (Z.to_nat m)).
    - rewrite !bits_of_lookup by done. f_equal. symmetry. apply (H2 (Z.of_nat i)). lia.
    - rewrite !lookup_ge_None_2; rewrite ?bits_of_length; done. }
  assert (Hlt : m < prefixlen n).
  { destruct (Z.lt_ge_cases m (prefixlen n)) as [?|Hge]; [done |]. exfalso. apply Hm.
    unfold key. apply bits_of_prefix. split; [lia |]. intros i Hi. apply (H2 (Z.of_nat i)). lia. }
  change (prefixlen g) with (prefixlen q). rewrite E1. split_and!; try done.
  - rewrite <- Hkn. apply bits_snoc_prefix; try done; try lia.
    unfold key. apply bits_of_prefix. split; [lia | done].
  - destruct (decide (m = prefixlen p)) as [->|Hne].
    + left. split; [done |]. by rewrite <- Hkp.
    + right. destruct H3 as [?|H3]; [done |]. split_and!; [lia | | done].
      rewrite <- Hkp. apply bits_snoc_prefix; try done; try lia.
      unfold key. apply bits_of_prefix. split; [lia | done].
Qed.

Lemma prefix_copy_new p :
  wf_prefix p ->
  wf_prefix (prefix_copy prefix_new p) /\ key (prefix_copy prefix_new p) = key p /\
  prefixlen (prefix_copy prefix_new p) = prefixlen p.
Proof.
  intros [Hf Hl Ha Hb]. unfold prefix_copy. destruct Hf as [Hf|Hf]; rewrite Hf; cbn [Z.eqb].
  - rewrite Z.eqb_refl. set (a4 := take 4 (addr p) ++ drop 4 (addr prefix_new)).
    assert (Ha4 : length a4 = 16%nat) by (unfold a4; rewrite length_app, length_take, Ha; done).
    assert (Hb4 : bytes_ok a4).
    { apply Forall_app. split; [by apply Forall_take |].
      unfold prefix_new, in_u. cbn. repeat constructor; lia. }
    split_and!; [split; cbn; (by left) || (by rewrite Hf in Hl) || done | | done].
    unfold key. cbn [addr prefixlen]. unfold max_prefixlen in Hl. rewrite Hf in Hl.
    cbn in Hl. unfold IPV4_MAX_PREFIXLEN in Hl.
    apply list_eq. intros i. destruct (Nat.lt_ge_cases i (Z.to_nat (prefixlen p))).
    + rewrite !bits_of_lookup by done. f_equal. unfold bit_of, byte_at, a4.
      rewrite lookup_app_l by (rewrite length_take, Ha; apply Nat.min_case_strong; intros;
        Z.div_mod_to_equations; lia).
      rewrite lookup_take_lt; [done |]. Z.div_mod_to_equations; lia.
    + rewrite !lookup_ge_None_2; rewrite ?bits_of_length; done.
  - change (AF_INET6 =? AF_INET) with false. rewrite Z.eqb_refl. cbn.
    split_and!; [split; cbn; (by right) || (by rewrite Hf in Hl) || done | done | done].
Qed.

(* ------------------------------------------------------------------ *)
(** ** The invariant of the node heap *)

Section Invariant.
Context {I : Type}.
Implicit Types (t : bgp_table I) (nd : bgp_node I) (l : loc).

Definition nkey nd : list bool := key (nd_p nd).

Record wf_table t : Prop := {
  wt_prefix : forall l nd, t_heap t !! l = Some nd -> wf_prefix (nd_p nd);
  wt_child : forall l nd b c, t_heap t !! l = Some nd -> link nd b = Some c ->
    exists nc, t_heap t !! c = Some nc /\ nd_parent nc = Some l /\
               (nkey nd ++ [b]) `prefix_of` nkey nc;
  wt_parent : forall l nd q, t_heap t !! l = Some nd -> nd_parent nd = Some q ->
    exists nq b, t_heap t !! q = Some nq /\ link nq b = Some l;
  wt_root : forall l nd, t_heap t !! l = Some nd -> nd_parent nd = None -> t_top t = Some l;
  wt_top : forall l, t_top t = Some l ->
    exists nd, t_heap t !! l = Some nd /\ nd_parent nd = None;
  wt_next : forall l nd, t_heap t !! l = Some nd -> (l < t_next t)%positive;
  wt_count : t_count t = u64 (Z.of_nat (size (t_heap t)))
}.

(** [nd] covers [p]: the test at the head of the descent loops. *)
Definition covers nd (p : prefix) : bool :=
  (prefixlen (nd_p nd) <=? prefixlen p) && prefix_match (nd_p nd) p.

(** The bit of [p] the descent looks at in a node. *)
Definition next_bit nd (p : prefix) : bool := bit_of (addr p) (prefixlen (nd_p nd)).

(** The covering nodes a descent from [o] meets, shortest first. *)
Fixpoint path (fuel : nat) t (p : prefix) (o : option loc) : list loc :=
  match fuel, o with
  | S f, Some l =>
      match t_heap t !! l with
      | Some nd =>
          if covers nd p then
            l :: (if prefixlen (nd_p nd) =? prefixlen p then []
                  else path f t p (link nd (next_bit nd p)))
          else []
      | None => []
      end
  | _, _ => []
  end.

Definition klen t l : nat :=
  match t_heap t !! l with Some nd => length (nkey nd) | None => 0 end.

Context (t : bgp_table I).
Hypothesis Hwf : wf_table t.

Lemma node_len l nd :
  t_heap t !! l = Some nd ->
  length (nkey nd) = Z.to_nat (prefixlen (nd_p nd)) /\ 0 <= prefixlen (nd_p nd) <= 128.
Proof.
  intros H. split; [apply key_length |].
  pose proof (wf_prefix_bounds _ (wt_prefix t Hwf l nd H)). lia.
Qed.

Lemma klen_node l nd : t_heap t !! l = Some nd -> klen t l = length (nkey nd).
Proof. intros H. unfold klen. by rewrite H. Qed.

Lemma child_longer l nd b c nc :
  t_heap t !! l = Some nd -> link nd b = Some c -> t_heap t !! c = Some nc ->
  (length (nkey nd) < length (nkey nc))%nat.
Proof.
  intros H1 H2 H3. destruct (wt_child t Hwf l nd b c H1 H2) as (nc' & H4 & _ & H5).
  rewrite H3 in H4. injection H4 as <-. apply prefix_length in H5.
  rewrite length_app in H5. cbn in H5. lia.
Qed.

Context (p : prefix).
Hypothesis Hp : wf_prefix p.

Lemma covers_key l nd :
  t_heap t !! l = Some nd -> covers nd p = true <-> nkey nd `prefix_of` key p.
Proof.
  intros H. pose proof (wt_prefix t Hwf l nd H) as Hn. unfold covers.
  rewrite andb_true_iff, prefix_match_key by done. split; [tauto |]. intros Hk.
  split; [| done]. apply prefix_length in Hk. rewrite !key_length in Hk.
  destruct (node_len l nd H). pose proof (wf_len p Hp). apply Z.leb_le. lia.
Qed.

(** The link that leads to a longer covering node is the one the descent
    follows. *)
Lemma next_bit_unique l nd b (k : list bool) :
  t_heap t !! l = Some nd -> (nkey nd ++ [b]) `prefix_of` k -> k `prefix_of` key p ->
  next_bit nd p = b /\ prefixlen (nd_p nd) < prefixlen p.
Proof.
  intros H H1 H2. pose proof (transitivity H1 H2) as H3.
  destruct (node_len l nd H) as [Hl Hr]. unfold next_bit.
  assert (E : key p !! length (nkey nd) = Some b).
  { eapply prefix_lookup_Some; [| exact H3]. rewrite lookup_app_r, Nat.sub_diag by lia. done. }
  pose proof (lookup_lt_Some _ _ _ E) as Hlt. rewrite key_length in Hlt.
  split; [| lia]. unfold key in E. rewrite bits_of_lookup in E by lia.
  rewrite Hl, Z2Nat.id in E by lia. congruence.
Qed.

Lemma path_cons f l nd :
  t_heap t !! l = Some nd -> covers nd p = true -> prefixlen (nd_p nd) < prefixlen p ->
  path (S f) t p (Some l) = l :: path f t p (link nd (next_bit nd p)).
Proof.
  intros H1 H2 H3. cbn [path]. rewrite H1, H2. rewrite (proj2 (Z.eqb_neq _ _)) by lia. done.
Qed.

Lemma path_in fuel o x :
  x ∈ path fuel t p o -> exists nd, t_heap t !! x = Some nd /\ nkey nd `prefix_of` key p.
Proof.
  revert o. induction fuel as [|f IH]; intros [l|]; cbn [path]; try by intros ?%elem_of_nil.
  destruct (t_heap t !! l) as [nd|] eqn:E; [| by intros ?%elem_of_nil].
  destruct (covers nd p) eqn:Ec; [| by intros ?%elem_of_nil].
  intros [->|H]%elem_of_cons; [exists nd; split; [done | by apply (covers_key l)] |].
  destruct (_ =? _); [by apply elem_of_nil in H | by apply IH in H].
Qed.

(** Every covering node is met from the top. *)
Lemma path_complete_aux n : forall l nd,
  length (nkey nd) = n -> t_heap t !! l = Some nd -> nkey nd `prefix_of` key p ->
  exists pre f, path walk_fuel t p (t_top t) = pre ++ path f t p (Some l) /\
                (walk_fuel <= f + n)%nat.
Proof.
  induction n as [n IH] using lt_wf_ind. intros l nd Hn H Hk.
  destruct (nd_parent nd) as [q|] eqn:Eq.
  - destruct (wt_parent t Hwf l nd q H Eq) as (nq & b & Hq & Hb).
    destruct (wt_child t Hwf q nq b l Hq Hb) as (nd' & H' & _ & Hpre).
    rewrite H in H'. injection H' as <-.
    pose proof (child_longer q nq b l nd Hq Hb H) as Hlt.
    destruct (next_bit_unique q nq b (nkey nd) Hq Hpre Hk) as [Eb Hlen].
    assert (Hkq : nkey nq `prefix_of` key p).
    { etransitivity; [| exact Hk]. eapply prefix_app_l, Hpre. }
    destruct (IH (length (nkey nq)) ltac:(lia) q nq eq_refl Hq Hkq) as (pre & f & E & Hf).
    destruct (node_len q nq Hq). unfold walk_fuel in *.
    destruct f as [|f]; [lia |].
    exists (pre ++ [q]), f. split; [| lia].
    rewrite E, (path_cons f q nq) by (done || by apply (covers_key q)).
    rewrite Eb, Hb, <- app_assoc. done.
  - exists [], walk_fuel. rewrite (wt_root t Hwf l nd H Eq). split; [done | lia].
Qed.

Lemma path_complete l nd :
  t_heap t !! l = Some nd -> nkey nd `prefix_of` key p -> l ∈ path walk_fuel t p (t_top t).
Proof.
  intros H Hk. destruct (path_complete_aux _ l nd eq_refl H Hk) as (pre & f & -> & Hf).
  destruct (node_len l nd H). unfold walk_fuel in Hf. destruct f as [|f]; [lia |].
  apply elem_of_app. right. cbn [path]. rewrite H, (proj2 (covers_key l nd H) Hk).
  apply elem_of_cons. by left.
Qed.

(** A descent meets nodes of strictly increasing length. *)
Lemma path_ge fuel l x : x ∈ path fuel t p (Some l) -> (klen t l <= klen t x)%nat.
Proof.
  revert l. induction fuel as [|f IH]; intros l; cbn [path]; [by intros ?%elem_of_nil |].
  destruct (t_heap t !! l) as [nd|] eqn:E; [| by intros ?%elem_of_nil].
  destruct (covers nd p); [| by intros ?%elem_of_nil].
  intros [->|H]%elem_of_cons; [done |].
  destruct (_ =? _); [by apply elem_of_nil in H |].
  destruct (link nd (next_bit nd p)) as [c|] eqn:Ec; [| destruct f; by apply elem_of_nil in H].
  destruct (wt_child t Hwf l nd _ c E Ec) as (nc & Hc & _ & _).
  pose proof (child_longer l nd _ c nc E Ec Hc). apply IH in H.
  rewrite (klen_node l nd E). rewrite (klen_node c nc Hc) in H. lia.
Qed.

Lemma path_sorted fuel o :
  StronglySorted (fun a b => (klen t a < klen t b)%nat) (path fuel t p o).
Proof.
  revert o. induction fuel as [|f IH]; intros [l|]; cbn [path]; try constructor.
  destruct (t_heap t !! l) as [nd|] eqn:E; [| constructor].
  destruct (covers nd p); [| constructor].
  destruct (_ =? _); [constructor; constructor |]. constructor; [apply IH |].
  apply Forall_forall. intros x H.
  destruct (link nd (next_bit nd p)) as [c|] eqn:Ec; [| destruct f; by apply elem_of_nil in H].
  destruct (wt_child t Hwf l nd _ c E Ec) as (nc & Hc & _ & _).
  pose proof (child_longer l nd _ c nc E Ec Hc). apply path_ge in H.
  rewrite (klen_node l nd E). rewrite (klen_node c nc Hc) in H. lia.
Qed.

Lemma sorted_unique {A} (f : A -> nat) xs x y :
  StronglySorted (fun a b => (f a < f b)%nat) xs -> x ∈ xs -> y ∈ xs -> f x = f y -> x = y.
Proof.
  induction 1 as [|z xs Hs IH Hz]; [by intros ?%elem_of_nil |].
  rewrite Forall_forall in Hz.
  intros [->|Hx]%elem_of_cons [->|Hy]%elem_of_cons E; try done; [| | by apply IH].
  - specialize (Hz y Hy). lia.
  - specialize (Hz x Hx). lia.
Qed.

(** Two nodes with the same key are one node. *)
Lemma covering_unique l1 n1 l2 n2 :
  t_heap t !! l1 = Some n1 -> t_heap t !! l2 = Some n2 ->
  nkey n1 `prefix_of` key p -> nkey n2 `prefix_of` key p ->
  length (nkey n1) = length (nkey n2) -> l1 = l2.
Proof.
  intros H1 H2 K1 K2 E.
  apply (sorted_unique (klen t) _ l1 l2 (path_sorted walk_fuel (t_top t)));
    [by eapply path_complete..|]. by rewrite (klen_node l1 n1), (klen_node l2 n2).
Qed.

(** A descent from the top along [p] has arrived at the empty link or the node
    [o], [m] being the node it came from. *)
Definition arrived (m o : option loc) : Prop :=
  match m with
  | None => o = t_top t
  | Some lm => exists nm, t_heap t !! lm = Some nm /\ nkey nm `prefix_of` key p /\
                 prefixlen (nd_p nm) < prefixlen p /\ link nm (next_bit nm p) = o
  end.

Lemma arrived_node m l : arrived m (Some l) -> exists nd, t_heap t !! l = Some nd.
Proof.
  destruct m as [lm|]; cbn.
  - intros (nm & H & _ & _ & Hl). destruct (wt_child t Hwf lm nm _ l H Hl) as (nc & ? & _). eauto.
  - intros H. destruct (wt_top t Hwf l (eq_sym H)) as (nd & ? & _). eauto.
Qed.

Lemma get_walk_spec past fuel m o :
  arrived m o ->
  (match o with Some l => 129 < fuel + klen t l | None => 0 < fuel end)%nat ->
  exists w, get_walk past fuel t p m o = Ok w /\
    match w with
    | Found l => exists nd, t_heap t !! l = Some nd /\ nkey nd = key p
    | Stop m' o' => arrived m' o' /\
        (forall l nd, o' = Some l -> t_heap t !! l = Some nd -> ~ nkey nd `prefix_of` key p) /\
        (forall x nd, x ∈ path fuel t p o -> t_heap t !! x = Some nd ->
           prefixlen (nd_p nd) < prefixlen p)
    end.
Proof.
  revert m o. induction fuel as [|f IH]; intros m o Ha Hf.
  { destruct o as [l|]; [| lia]. destruct (arrived_node m l Ha) as [nd H].
    destruct (node_len l nd H). rewrite (klen_node l nd H) in Hf. lia. }
  destruct o as [l|]; cbn [get_walk path].
  2: { exists (Stop m None). split_and!; try done. by intros x nd ?%elem_of_nil. }
  destruct (arrived_node m l Ha) as [nd H]. unfold get_node. rewrite H. cbn [deref mbind res_bind].
  destruct (node_len l nd H) as [Hl Hr]. rewrite (klen_node l nd H) in Hf.
  change (_ && _) with (covers nd p). destruct (covers nd p) eqn:Ec.
  - pose proof (proj1 (covers_key l nd H) Ec) as Hk.
    destruct (Z.eqb_spec (prefixlen (nd_p nd)) (prefixlen p)) as [E|E].
    { exists (Found l). split; [done |]. exists nd. split; [done |].
      apply prefix_length_eq; [done |]. rewrite Hl, key_length. lia. }
    assert (Hlt : prefixlen (nd_p nd) < prefixlen p).
    { apply prefix_length in Hk. rewrite Hl, key_length in Hk. pose proof (wf_len p Hp). lia. }
    pose proof (wf_prefix_bounds p Hp). rewrite check_bit_Ok by lia. cbn [mbind res_bind].
    fold (next_bit nd p).
    assert (Ha' : arrived (Some l) (link nd (next_bit nd p))) by (exists nd; done).
    destruct (IH (Some l) (link nd (next_bit nd p)) Ha') as (w & Ew & Hw).
    { destruct (link nd (next_bit nd p)) as [c|] eqn:Elk; [| lia].
      destruct (arrived_node _ c Ha') as [nc Hc].
      pose proof (child_longer l nd _ c nc H Elk Hc). rewrite (klen_node c nc Hc). lia. }
    exists w. split; [done |]. destruct w as [|m' o']; [done |].
    destruct Hw as (H1 & H2 & H3). split_and!; try done.
    intros x nx [->|Hx]%elem_of_cons Hxn; [congruence | by eapply H3].
  - exists (Stop m (Some l)). split_and!; try done.
    + intros l' nd' [= <-] H'. rewrite H in H'. injection H' as <-.
      rewrite <- covers_key by done. by rewrite Ec.
    + by intros x nx ?%elem_of_nil.
Qed.

(** The whole descent of [bgp_node_get]. *)
Lemma get_walk_top past :
  exists w, get_walk past walk_fuel t p None (t_top t) = Ok w /\
    match w with
    | Found l => exists nd, t_heap t !! l = Some nd /\ nkey nd = key p
    | Stop m' o' => arrived m' o' /\
        (forall l nd, o' = Some l -> t_heap t !! l = Some nd -> ~ nkey nd `prefix_of` key p) /\
        (forall l nd, t_heap t !! l = Some nd -> nkey nd <> key p)
    end.
Proof.
  destruct (get_walk_spec past walk_fuel None (t_top t)) as (w & E & Hw); [done | |].
  { unfold walk_fuel. destruct (t_top t); lia. }
  exists w. split; [done |]. destruct w as [|m' o']; [done |].
  destruct Hw as (H1 & H2 & H3). split_and!; try done.
  intros l nd H Hk. assert (nkey nd `prefix_of` key p) as Hpre by by rewrite Hk.
  pose proof (H3 l nd (path_complete l nd H Hpre) H) as Hlt.
  destruct (node_len l nd H) as [Hl Hr]. rewrite Hk, key_length in Hl.
  pose proof (wf_len p Hp). lia.
Qed.

End Invariant.

(* ------------------------------------------------------------------ *)
(** ** Heap updates *)

Section Updates.
Context {I : Type}.
Implicit Types (t : bgp_table I) (nd : bgp_node I) (l : loc) (m : option loc).

Lemma link_with_link b o nd b' :
  link (with_link b o nd) b' = if eqb b b' then o else link nd b'.
Proof. by destruct b, b'. Qed.
Lemma link_with_link_eq b o nd : link (with_link b o nd) b = o.
Proof. by destruct b. Qed.
Lemma p_with_link b o nd : nd_p (with_link b o nd) = nd_p nd.
Proof. by destruct b. Qed.
Lemma parent_with_link b o nd : nd_parent (with_link b o nd) = nd_parent nd.
Proof. by destruct b. Qed.
Lemma info_with_link b o nd : nd_info (with_link b o nd) = nd_info nd.
Proof. by destruct b. Qed.
Lemma lock_with_link b o nd : nd_lock (with_link b o nd) = nd_lock nd.
Proof. by destruct b. Qed.
Lemma link_with_parent o nd b : link (with_parent o nd) b = link nd b.
Proof. by destruct b. Qed.
Lemma link_with_p q nd b : link (with_p q nd) b = link nd b.
Proof. by destruct b. Qed.
Lemma link_with_lock k nd b : link (with_lock k nd) b = link nd b.
Proof. by destruct b. Qed.
Lemma link_with_info i nd b : link (with_info i nd) b = link nd b.
Proof. by destruct b. Qed.
Lemma nkey_with_link b o nd : nkey (with_link b o nd) = nkey nd.
Proof. by destruct b. Qed.

Lemma upd_node_Ok t l f nd :
  t_heap t !! l = Some nd -> upd_node t l f = Ok (with_heap (<[l := f nd]> (t_heap t)) t).
Proof. intros H. unfold upd_node, get_node. by rewrite H. Qed.

Lemma upd_node_ext t l f g nd :
  t_heap t !! l = Some nd -> f nd = g nd -> upd_node t l f = upd_node t l g.
Proof. intros H E. unfold upd_node, get_node. rewrite H. cbn. by rewrite E. Qed.

Lemma get_node_Ok t l nd : t_heap t !! l = Some nd -> get_node t l = Ok nd.
Proof. intros H. unfold get_node. by rewrite H. Qed.

(** The part of a node the invariant speaks about. *)
Definition skel nd := (nd_p nd, nd_parent nd, l_left nd, l_right nd).

Lemma skel_eq nd nd' : skel nd = skel nd' ->
  nd_p nd = nd_p nd' /\ nd_parent nd = nd_parent nd' /\ forall b, link nd b = link nd' b.
Proof. unfold skel. intros [= -> -> ? ?]. split_and!; try done. by intros []. Qed.

Lemma wf_same_skel t t' :
  wf_table t -> (forall x, skel <$> t_heap t' !! x = skel <$> t_heap t !! x) ->
  t_top t' = t_top t -> t_next t' = t_next t -> t_count t' = t_count t -> wf_table t'.
Proof.
  intros Hwf Hx Ht Hn Hc.
  assert (Hf : forall l nd, t_heap t' !! l = Some nd ->
    exists nd0, t_heap t !! l = Some nd0 /\ skel nd = skel nd0).
  { intros l nd H. specialize (Hx l). rewrite H in Hx. cbn in Hx.
    destruct (t_heap t !! l) as [nd0|]; [| done]. injection Hx as ?. eexists. split; [done |].
    unfold skel. congruence. }
  assert (Hb : forall l nd0, t_heap t !! l = Some nd0 ->
    exists nd, t_heap t' !! l = Some nd /\ skel nd = skel nd0).
  { intros l nd0 H. specialize (Hx l). rewrite H in Hx. cbn in Hx.
    destruct (t_heap t' !! l) as [nd|]; [| done]. injection Hx as ?. eexists. split; [done |].
    unfold skel. congruence. }
  split.
  - intros l nd H. apply Hf in H as (nd0 & H & (-> & _)%skel_eq). by eapply wt_prefix.
  - intros l nd b c H Hl. apply Hf in H as (nd0 & H & (E1 & _ & E3)%skel_eq).
    rewrite E3 in Hl. destruct (wt_child t Hwf l nd0 b c H Hl) as (nc & Hc1 & Hc2 & Hc3).
    destruct (Hb c nc Hc1) as (nc' & Hc1' & (F1 & F2 & _)%skel_eq). exists nc'.
    unfold nkey in *. rewrite E1, F1, F2. done.
  - intros l nd q H Hl. apply Hf in H as (nd0 & H & (_ & E2 & _)%skel_eq).
    rewrite E2 in Hl. destruct (wt_parent t Hwf l nd0 q H Hl) as (nq & b & Hq1 & Hq2).
    destruct (Hb q nq Hq1) as (nq' & Hq1' & (_ & _ & F3)%skel_eq).
    exists nq', b. by rewrite F3.
  - intros l nd H Hl. apply Hf in H as (nd0 & H & (_ & E2 & _)%skel_eq).
    rewrite E2 in Hl. rewrite Ht. by eapply wt_root.
  - intros l H. rewrite Ht in H. destruct (wt_top t Hwf l H) as (nd0 & H0 & E).
    destruct (Hb l nd0 H0) as (nd & H1 & (_ & E2 & _)%skel_eq). exists nd. by rewrite E2.
  - intros l nd H. apply Hf in H as (nd0 & H & _). rewrite Hn. by eapply wt_next.
  - rewrite Hc, (wt_count t Hwf). do 2 f_equal. rewrite <- !size_dom. f_equal.
    apply set_eq. intros x. rewrite !elem_of_dom. split; intros [y Hy].
    + destruct (Hb x y Hy) as (? & ? & _). eauto.
    + destruct (Hf x y Hy) as (? & ? & _). eauto.
Qed.

(** Nodes are only added at [l] when a leaf or an inner node is inserted. *)
Lemma size_grows (h h' : gmap loc (bgp_node I)) l :
  h !! l = None -> (forall x, is_Some (h' !! x) <-> x = l \/ is_Some (h !! x)) ->
  size h' = S (size h).
Proof.
  intros Hl H. rewrite <- !size_dom.
  replace (dom h') with ({[l]} ∪ dom h).
  - rewrite size_union, size_singleton by
      (apply disjoint_singleton_l; rewrite elem_of_dom, Hl; by intros [? ?]). done.
  - apply set_eq. intros x. rewrite elem_of_union, elem_of_singleton, !elem_of_dom.
    symmetry. apply H.
Qed.

Lemma count_grows t (h' : gmap loc (bgp_node I)) :
  t_count t = u64 (Z.of_nat (size (t_heap t))) -> size h' = S (size (t_heap t)) ->
  u64 (t_count t + 1) = u64 (Z.of_nat (size h')).
Proof.
  intros -> ->. unfold u64, wrap. rewrite Zplus_mod_idemp_l. f_equal. lia.
Qed.

(** Where a new node [l] hangs: at the top, or at the [b] link of [m]. *)
Definition hangs t t' m (b : bool) l (old : option loc) (k : list bool) : Prop :=
  match m with
  | None => t_top t = old /\ t_top t' = Some l
  | Some lm => t_top t' = t_top t /\ lm <> l /\ exists nm, t_heap t !! lm = Some nm /\
                 link nm b = old /\ (nkey nm ++ [b]) `prefix_of` k
  end.

Section Insert.
Context (t t' : bgp_table I) (m old : option loc) (b c : bool) (l : loc) (gn : bgp_node I).
Hypothesis Hwf : wf_table t.
Hypothesis Hfresh : t_heap t !! l = None.
Hypothesis Hgp : wf_prefix (nd_p gn).
Hypothesis Hgpar : nd_parent gn = m.
Hypothesis Hgc : link gn c = old.
Hypothesis Hgn : link gn (negb c) = None.
Hypothesis Hold : forall ln, old = Some ln ->
  exists nn, t_heap t !! ln = Some nn /\ (nkey gn ++ [c]) `prefix_of` nkey nn.
Hypothesis Hhang : hangs t t' m b l old (nkey gn).
Hypothesis Hheap : forall x, t_heap t' !! x =
  if decide (x = l) then Some gn
  else if decide (Some x = old) then with_parent (Some l) <$> t_heap t !! x
  else if decide (Some x = m) then with_link b (Some l) <$> t_heap t !! x
  else t_heap t !! x.
Hypothesis Hnext : (l < t_next t')%positive /\ (t_next t <= t_next t')%positive.
Hypothesis Hcount : t_count t' = u64 (t_count t + 1).

Lemma hang_top :
  (m = None /\ t_top t = old /\ t_top t' = Some l) \/ (m <> None /\ t_top t' = t_top t).
Proof.
  pose proof Hhang as H. unfold hangs in H. clear -H.
  destruct m; [right; by destruct H | left; tauto].
Qed.

Lemma ins_old_parent ln nn : old = Some ln -> t_heap t !! ln = Some nn -> nd_parent nn = m.
Proof.
  intros E Hn. unfold hangs in Hhang. destruct m as [lm|].
  - destruct Hhang as (_ & _ & nm & H1 & H2 & _). rewrite E in H2.
    destruct (wt_child t Hwf lm nm b ln H1 H2) as (nc & H3 & H4 & _). congruence.
  - destruct Hhang as [H1 _]. rewrite E in H1.
    destruct (wt_top t Hwf ln H1) as (nd & H2 & H3). congruence.
Qed.

Lemma ins_lookup x nd' :
  t_heap t' !! x = Some nd' ->
  (x = l /\ nd' = gn) \/
  (x <> l /\ exists nd, t_heap t !! x = Some nd /\ nd_p nd' = nd_p nd /\
     nd_parent nd' = (if decide (Some x = old) then Some l else nd_parent nd) /\
     (forall b', link nd' b' = if decide (Some x = m /\ b' = b) then Some l else link nd b')).
Proof.
  rewrite Hheap. destruct (decide (x = l)) as [->|Hx]; [intros [= <-]; by left |].
  intros H. right. split; [done |].
  destruct (decide (Some x = old)) as [Eo|Eo].
  - destruct (t_heap t !! x) as [nd|] eqn:E; [| done]. injection H as <-. exists nd.
    split_and!; try done. intros b'. rewrite link_with_parent.
    destruct (decide (Some x = m /\ b' = b)) as [[Em ->]|]; [| done]. exfalso.
    unfold hangs in Hhang. rewrite <- Em in Hhang. destruct Hhang as (_ & _ & nm & H1 & H2 & _).
    rewrite <- Eo in H2. pose proof (child_longer t Hwf x nm b x nd H1 H2 E). rewrite E in H1.
    injection H1 as ->. lia.
  - destruct (decide (Some x = m)) as [Em|Em].
    + destruct (t_heap t !! x) as [nd|] eqn:E; [| done]. injection H as <-. exists nd.
      rewrite p_with_link, parent_with_link. split_and!; try done.
      intros b'. rewrite link_with_link. destruct (decide (Some x = m /\ b' = b)) as [[_ ->]|Hne].
      * by rewrite eqb_reflx.
      * destruct (eqb b b') eqn:Eb; [| done]. apply eqb_prop in Eb. naive_solver.
    + exists nd'. split_and!; try done. intros b'.
      destruct (decide (Some x = m /\ b' = b)) as [[? _]|]; done.
Qed.

(** The converse: what became of an old node. *)
Lemma ins_survives x nd :
  t_heap t !! x = Some nd ->
  x <> l /\ exists nd', t_heap t' !! x = Some nd' /\ nd_p nd' = nd_p nd.
Proof.
  intros H. assert (Hx : x <> l) by congruence. split; [done |].
  rewrite Hheap, H. rewrite decide_False by done.
  destruct (decide (Some x = old)); [eexists; split; done |].
  destruct (decide (Some x = m)); eexists; (split; [done |]); by rewrite ?p_with_link.
Qed.

Lemma ins_new : t_heap t' !! l = Some gn.
Proof. rewrite Hheap. by rewrite decide_True. Qed.

Lemma ins_child x nd' b' y :
  t_heap t' !! x = Some nd' -> link nd' b' = Some y ->
  exists ny, t_heap t' !! y = Some ny /\ nd_parent ny = Some x /\
             (nkey nd' ++ [b']) `prefix_of` nkey ny.
Proof.
  intros Hx Hl. apply ins_lookup in Hx as [[-> ->]|(Hx & nd & H & Ep & Epar & Elk)].
  - destruct (decide (b' = c)) as [->|Hb']; [|
      exfalso; assert (b' = negb c) as -> by (destruct b', c; naive_solver); congruence].
    rewrite Hgc in Hl. destruct (Hold y Hl) as (nn & Hn & Hk).
    destruct (ins_survives y nn Hn) as [Hy (ny & Hny & Eny)]. exists ny.
    split; [done |]. unfold nkey in *. rewrite Eny. split; [| done].
    apply ins_lookup in Hny as [[? _]|(_ & nd0 & H0 & _ & -> & _)]; [done |].
    by rewrite decide_True.
  - rewrite Elk in Hl. unfold nkey. rewrite Ep.
    destruct (decide (Some x = m /\ b' = b)) as [[Em ->]|Hne].
    { injection Hl as <-. exists gn. split; [apply ins_new |]. split; [congruence |].
      unfold hangs in Hhang. rewrite <- Em in Hhang. destruct Hhang as (_ & _ & nm & H1 & _ & H3).
      rewrite H in H1. by injection H1 as ->. }
    destruct (wt_child t Hwf x nd b' y H Hl) as (nc & Hc & Hcp & Hck).
    destruct (ins_survives y nc Hc) as [Hy (ny & Hny & Eny)]. exists ny.
    split; [done |]. unfold nkey in Hck. rewrite Eny. split; [| done].
    apply ins_lookup in Hny as [[? _]|(_ & nd0 & H0 & _ & -> & _)]; [done |].
    rewrite Hc in H0. injection H0 as <-.
    destruct (decide (Some y = old)) as [Ey|]; [| done]. exfalso.
    pose proof (ins_old_parent y nc (eq_sym Ey) Hc) as Em. rewrite Hcp in Em.
    unfold hangs in Hhang. rewrite <- Em in Hhang. destruct Hhang as (_ & _ & nm & H1 & H2 & _).
    rewrite H in H1. injection H1 as <-. rewrite <- Ey in H2.
    destruct (wt_child t Hwf x nd b y H H2) as (nc' & Hc' & _ & Hck').
    rewrite Hc in Hc'. injection Hc' as <-. unfold nkey in Hck'.
    destruct (prefix_weak_total _ _ _ Hck Hck') as [Hpp|Hpp]; apply prefix_length_eq in Hpp;
      rewrite ?length_app; try (cbn; lia); apply app_inj_tail in Hpp as [_ ?]; naive_solver.
Qed.

Lemma wf_insert : wf_table t'.
Proof.
  split.
  - intros x nd' Hx. apply ins_lookup in Hx as [[-> ->]|(_ & nd & H & -> & _)]; [done |].
    by eapply wt_prefix.
  - apply ins_child.
  - intros x nd' q Hx Hq. apply ins_lookup in Hx as [[-> ->]|(Hx & nd & H & _ & Epar & _)].
    + rewrite Hgpar in Hq. pose proof Hhang as Hh. unfold hangs in Hh. rewrite Hq in Hh.
      destruct Hh as (_ & Hne & nm & H1 & H2 & _).
      destruct (ins_survives q nm H1) as [_ (nq & Hnq & _)]. exists nq, b. split; [done |].
      apply ins_lookup in Hnq as [[? _]|(_ & nd0 & _ & _ & _ & ->)]; [done |].
      rewrite Hq. by rewrite decide_True.
    + rewrite Epar in Hq. destruct (decide (Some x = old)) as [Eo|Eo].
      { injection Hq as <-. exists gn, c. split; [apply ins_new | congruence]. }
      destruct (wt_parent t Hwf x nd q H Hq) as (nq & b0 & Hq1 & Hq2).
      destruct (ins_survives q nq Hq1) as [Hql (nq' & Hnq' & _)]. exists nq', b0. split; [done |].
      apply ins_lookup in Hnq' as [[? _]|(_ & nd0 & H0 & _ & _ & ->)]; [done |].
      rewrite Hq1 in H0. injection H0 as <-.
      destruct (decide (Some q = m /\ b0 = b)) as [[Em ->]|]; [| done]. exfalso.
      unfold hangs in Hhang. rewrite <- Em in Hhang. destruct Hhang as (_ & _ & nm & H1 & H2 & _).
      congruence.
  - intros x nd' Hx Hnone. apply ins_lookup in Hx as [[-> ->]|(Hx & nd & H & _ & Epar & _)].
    + rewrite Hgpar in Hnone. by destruct hang_top as [(_ & _ & ?)|(? & _)].
    + rewrite Epar in Hnone. destruct (decide (Some x = old)); [done |].
      pose proof (wt_root t Hwf x nd H Hnone) as Ht.
      destruct hang_top as [(_ & E & _)|(_ & E)]; congruence.
  - intros x Hx. destruct hang_top as [(Em & _ & E)|(Em & E)].
    + rewrite E in Hx. injection Hx as <-. exists gn. split; [apply ins_new | congruence].
    + rewrite E in Hx. destruct (wt_top t Hwf x Hx) as (nd & H & Hn).
      destruct (ins_survives x nd H) as [_ (nd' & H' & _)]. exists nd'. split; [done |].
      apply ins_lookup in H' as [[-> ->]|(_ & nd0 & H0 & _ & -> & _)]; [congruence |].
      rewrite H in H0. injection H0 as <-.
      destruct (decide (Some x = old)) as [Eo|]; [| done].
      pose proof (ins_old_parent x nd (eq_sym Eo) H). congruence.
  - intros x nd' Hx. destruct Hnext as [Hn1 Hn2].
    apply ins_lookup in Hx as [[-> ->]|(_ & nd & H & _)]; [done |].
    pose proof (wt_next t Hwf x nd H). lia.
  - rewrite Hcount. apply count_grows; [apply Hwf |]. eapply size_grows; [exact Hfresh |].
    intros x. split.
    + intros [nd' Hx]. apply ins_lookup in Hx as [[-> ->]|(_ & nd & H & _)]; eauto.
    + intros [->|[nd H]]; [rewrite ins_new; eauto |].
      destruct (ins_survives x nd H) as [_ (nd' & H' & _)]. eauto.
Qed.

End Insert.

(** ** Evaluating the updates of the source *)

Lemma set_link_Ok past t node new nn nd :
  t_heap t !! new = Some nn -> t_heap t !! node = Some nd -> node <> new ->
  0 <= prefixlen (nd_p nd) < 128 ->
  set_link past t node new = Ok (with_heap
    (<[new := with_parent (Some node) nn]>
      (<[node := with_link (bit_of (addr (nd_p nn)) (prefixlen (nd_p nd))) (Some new) nd]>
        (t_heap t))) t).
Proof.
  intros Hn Hd Hne Hp. unfold set_link, get_node. rewrite Hn, Hd. cbn [deref mbind res_bind].
  rewrite check_bit_Ok by done. cbn [mbind res_bind].
  rewrite (upd_node_Ok t node _ nd) by done. cbn [mbind res_bind].
  rewrite (upd_node_Ok _ new _ nn); [done |]. cbn. by rewrite lookup_insert_ne.
Qed.

(** The node [bgp_node_create] and [bgp_node_set] allocate. *)
Definition fresh_node (bms : bgp_misc_structs) (q : prefix) : bgp_node I :=
  mk_node q None None None (replicate (info_buckets bms) []) 0.

Definition alloc_table t nd : bgp_table I :=
  mk_table (t_afi t) (t_safi t) (t_top t) (t_count t)
    (<[t_next t := nd]> (t_heap t)) (Pos.succ (t_next t)).

Context (dbs : misc_dbs) (past : Z) (peer : bgp_peer) (bms : bgp_misc_structs).
Hypothesis Hbms : bgp_select_misc_db dbs (type peer) = Some bms.

Lemma bgp_node_create_Ok t :
  bgp_node_create dbs peer t = Some (alloc_table t (fresh_node bms prefix_new), t_next t).
Proof. unfold bgp_node_create. by rewrite Hbms. Qed.

Lemma bgp_node_set_Ok t p :
  bgp_node_set dbs peer t p =
    Ok (alloc_table t (fresh_node bms (prefix_copy prefix_new p)), t_next t).
Proof.
  unfold bgp_node_set. rewrite bgp_node_create_Ok. cbn [deref mbind res_bind].
  rewrite (upd_node_Ok _ _ _ (fresh_node bms prefix_new)) by (cbn; apply lookup_insert_eq).
  cbn [mbind res_bind]. do 3 f_equal. unfold alloc_table, with_heap. cbn.
  by rewrite insert_insert_eq.
Qed.

Lemma bgp_lock_node_Ok t l nd :
  t_heap t !! l = Some nd ->
  exists k, bgp_lock_node dbs peer t l = Ok (with_heap (<[l := with_lock k nd]> (t_heap t)) t) /\
    k = if is_readonly bms then nd_lock nd else u32 (nd_lock nd + 1).
Proof.
  intros H. unfold bgp_lock_node. rewrite Hbms. destruct (is_readonly bms); cbn [negb].
  - exists (nd_lock nd). split; [| done]. f_equal. destruct t; cbn in *.
    rewrite insert_id; [done |]. rewrite H. f_equal. by destruct nd.
  - eexists. split; [by rewrite (upd_node_Ok t l _ nd) | done].
Qed.

(** The effect of [attach]: [l] gets its parent, [m] (or the top) its link. *)
Lemma attach_Ok t m l gn b :
  t_heap t !! l = Some gn -> nd_parent gn = None ->
  (forall lm, m = Some lm -> exists nm, t_heap t !! lm = Some nm /\ lm <> l /\
     0 <= prefixlen (nd_p nm) < 128 /\ b = bit_of (addr (nd_p gn)) (prefixlen (nd_p nm))) ->
  exists t1, attach past t m l = Ok t1 /\
    (forall x, t_heap t1 !! x =
       if decide (x = l) then Some (with_parent m gn)
       else if decide (Some x = m) then with_link b (Some l) <$> t_heap t !! x
       else t_heap t !! x) /\
    t_top t1 = (match m with Some _ => t_top t | None => Some l end) /\
    t_count t1 = t_count t /\ t_next t1 = t_next t.
Proof.
  intros Hl Hpar Hm. unfold attach. destruct m as [lm|].
  - destruct (Hm lm eq_refl) as (nm & H1 & H2 & H3 & ->).
    rewrite (set_link_Ok past t lm l gn nm) by done. eexists. split; [done |]. cbn.
    split_and!; try done. intros x. destruct (decide (x = l)) as [->|].
    { by rewrite lookup_insert_eq. }
    rewrite lookup_insert_ne by done. destruct (decide (Some x = Some lm)) as [[= ->]|].
    + by rewrite lookup_insert_eq, H1.
    + rewrite lookup_insert_ne by congruence. done.
  - eexists. split; [done |]. cbn. split_and!; try done. intros x.
    destruct (decide (x = l)) as [->|]; [| done]. rewrite Hl. f_equal.
    destruct gn; cbn in *. by subst.
Qed.

(** [t'] has the nodes of [t], unchanged but for their links, and new nodes
    without route information or locks. *)
Definition extends t t' : Prop :=
  (forall x nx, t_heap t !! x = Some nx -> exists nx', t_heap t' !! x = Some nx' /\
     nd_p nx' = nd_p nx /\ nd_info nx' = nd_info nx /\ nd_lock nx' = nd_lock nx) /\
  (forall x nx', t_heap t' !! x = Some nx' -> t_heap t !! x = None ->
     nd_info nx' = replicate (info_buckets bms) [] /\ nd_lock nx' = 0).

Lemma extends_trans t1 t2 t3 : extends t1 t2 -> extends t2 t3 -> extends t1 t3.
Proof.
  intros [A1 A2] [B1 B2]. split.
  - intros x nx H. destruct (A1 x nx H) as (n2 & H2 & E1 & E2 & E3).
    destruct (B1 x n2 H2) as (n3 & H3 & F1 & F2 & F3). exists n3. split; [done |]. split_and!; congruence.
  - intros x n3 H3 H1. destruct (t_heap t2 !! x) as [n2|] eqn:H2.
    + destruct (A2 x n2 H2 H1) as [E2 E3]. destruct (B1 x n2 H2) as (n3' & H3' & _ & F2 & F3).
      split; congruence.
    + by apply (B2 x).
Qed.

Lemma ins_extends t t' m old b l gn :
  t_heap t !! l = None -> nd_info gn = replicate (info_buckets bms) [] -> nd_lock gn = 0 ->
  (forall x, t_heap t' !! x =
     if decide (x = l) then Some gn
     else if decide (Some x = old) then with_parent (Some l) <$> t_heap t !! x
     else if decide (Some x = m) then with_link b (Some l) <$> t_heap t !! x
     else t_heap t !! x) ->
  extends t t'.
Proof.
  intros Hf Hi Hk Hh. split.
  - intros x nx Hx. rewrite Hh, Hx. rewrite decide_False by congruence.
    destruct (decide (Some x = old)); [eexists; done |].
    destruct (decide (Some x = m)); [| eexists; done].
    eexists. split; [done |]. by rewrite p_with_link, info_with_link, lock_with_link.
  - intros x nx' Hx Hn. rewrite Hh, Hn in Hx.
    destruct (decide (x = l)); [injection Hx as <-; done |].
    destruct (decide (Some x = old)); [done |]. by destruct (decide (Some x = m)).
Qed.

Lemma fresh_next t c : wf_table (with_count c t) -> t_heap t !! t_next t = None.
Proof.
  intros Hwf. destruct (t_heap t !! t_next t) as [nd|] eqn:E; [| done].
  pose proof (wt_next _ Hwf (t_next t) nd E) as H. cbn in H. lia.
Qed.

(** What [attach] needs to know about the node a descent came from. *)
Lemma arrived_attach t c p m o gn l :
  wf_table (with_count c t) -> wf_prefix p -> arrived (with_count c t) p m o ->
  t_heap t !! l = None -> key p `prefix_of` nkey gn \/
    (forall lm nm, m = Some lm -> t_heap t !! lm = Some nm ->
       (nkey nm ++ [next_bit nm p]) `prefix_of` nkey gn) ->
  wf_prefix (nd_p gn) ->
  exists b,
    (forall lm, m = Some lm -> exists nm, t_heap (alloc_table t gn) !! lm = t_heap t !! lm /\
       t_heap t !! lm = Some nm /\ lm <> l /\ 0 <= prefixlen (nd_p nm) < 128 /\
       b = bit_of (addr (nd_p gn)) (prefixlen (nd_p nm)) /\ link nm b = o /\
       (nkey nm ++ [b]) `prefix_of` nkey gn).
Proof.
  intros Hwf Hp Ha Hf Hk Hg. destruct m as [lm|]; [| by exists false].
  destruct Ha as (nm & H & Hc & Hlt & Hlk). cbn in H.
  destruct (node_len _ Hwf lm nm H) as [Hl Hr]. pose proof (wf_prefix_bounds p Hp).
  assert (Hpre : (nkey nm ++ [next_bit nm p]) `prefix_of` nkey gn).
  { destruct Hk as [Hk|Hk]; [| by eapply Hk]. etransitivity; [| exact Hk].
    unfold nkey at 1. apply bits_snoc_prefix; try done. lia. }
  assert (Eb : bit_of (addr (nd_p gn)) (prefixlen (nd_p nm)) = next_bit nm p).
  { assert (E : nkey gn !! Z.to_nat (prefixlen (nd_p nm)) = Some (next_bit nm p)).
    { eapply prefix_lookup_Some; [| exact Hpre]. rewrite lookup_app_r by lia.
      rewrite Hl, Nat.sub_diag. done. }
    pose proof (lookup_lt_Some _ _ _ E) as Hlt'. unfold nkey in Hlt'. rewrite key_length in Hlt'.
    unfold nkey, key in E. rewrite bits_of_lookup in E by lia.
    rewrite Z2Nat.id in E by lia. congruence. }
  exists (next_bit nm p). intros lm' [= <-]. exists nm. cbn.
  rewrite lookup_insert_ne by (pose proof (fresh_next t c Hwf); congruence).
  split_and!; try done; try lia. congruence.
Qed.

(** Hanging a new leaf where a descent along [p] found an empty link. *)
Lemma insert_leaf t c p q m :
  wf_table (with_count c t) -> wf_prefix p -> arrived (with_count c t) p m None ->
  wf_prefix q -> key q = key p ->
  exists t1 gn, attach past (alloc_table t (fresh_node bms q)) m (t_next t) = Ok t1 /\
    wf_table (with_count (u64 (c + 1)) t1) /\ extends t t1 /\ t_count t1 = t_count t /\
    t_heap t1 !! t_next t = Some gn /\ nd_p gn = q.
Proof.
  intros Hwf Hp Ha Hq Hk. set (gn := fresh_node bms q). pose proof (fresh_next t c Hwf) as Hf.
  destruct (arrived_attach t c p m None gn (t_next t) Hwf Hp Ha Hf) as [b Hb];
    [left; unfold nkey, gn; cbn; by rewrite Hk | done |].
  destruct (attach_Ok (alloc_table t gn) m (t_next t) gn b) as (t1 & E1 & Hh & Ht & Hc & Hn);
    [by cbn; rewrite lookup_insert_eq | done | |].
  { intros lm Em. destruct (Hb lm Em) as (nm & E & H1 & H2 & H3 & H4 & _). exists nm.
    rewrite E. done. }
  exists t1, (with_parent m gn). split; [done |].
  assert (Hheap : forall x, t_heap t1 !! x =
    if decide (x = t_next t) then Some (with_parent m gn)
    else if decide (Some x = None) then with_parent (Some (t_next t)) <$> t_heap t !! x
    else if decide (Some x = m) then with_link b (Some (t_next t)) <$> t_heap t !! x
    else t_heap t !! x).
  { intros x. rewrite Hh. destruct (decide (x = t_next t)); [done |].
    rewrite (decide_False (P := Some x = None)) by done.
    cbn. by rewrite lookup_insert_ne. }
  split_and!; try done.
  - apply (wf_insert (with_count c t) (with_count (u64 (c + 1)) t1) m None b false
      (t_next t) (with_parent m gn)); try done.
    + unfold hangs. cbn. destruct m as [lm|].
      * destruct (Hb lm eq_refl) as (nm & _ & H1 & H2 & _ & _ & H5 & H6).
        split; [done |]. split; [done |]. by exists nm.
      * split; [by rewrite Ha | done].
    + cbn. rewrite Hn. cbn. lia.
  - by apply (ins_extends t t1 m None b (t_next t) (with_parent m gn)).
  - rewrite Hheap. by rewrite decide_True.
Qed.

(** The inner node is the longest common prefix. *)
Lemma glue_longest n p (K : list bool) :
  wf_prefix n -> wf_prefix p -> ~ key n `prefix_of` key p ->
  K `prefix_of` key n -> K `prefix_of` key p ->
  K `prefix_of` key (mk_prefix (family p) (prefixlen (route_common n p prefix_new))
                       (addr (route_common n p prefix_new))).
Proof.
  intros Hn Hp Hm K1 K2. destruct (route_common_key n p Hn Hp Hm) as (Hg & Hlt & Hgn & Hgp).
  set (g := mk_prefix _ _ _) in *.
  destruct Hgp as [[_ ->]|(Hlt' & Hgp & Hne)]; [done |].
  destruct (prefix_weak_total K (key g) (key n) K1) as [Hx|Hx];
    [etransitivity; [| exact Hgn]; by eexists | done |].
  destruct (decide (length K <= length (key g))%nat) as [Hlen|Hlen].
  { apply prefix_length_eq in Hx; [by rewrite Hx | done]. }
  exfalso. apply Hne.
  pose proof (wf_len g Hg) as Hlg.
  assert (E : exists x, K !! length (key g) = Some x) by (apply lookup_lt_is_Some_2; lia).
  destruct E as [x Ex].
  assert (Hb : forall r, wf_prefix r -> prefixlen g < prefixlen r -> K `prefix_of` key r ->
    bit_of (addr r) (prefixlen g) = x).
  { intros r Hr Hl Hkr. pose proof (prefix_lookup_Some _ _ _ _ Ex Hkr) as E.
    rewrite key_length in E. unfold key in E. rewrite bits_of_lookup, Z2Nat.id in E by lia.
    congruence. }
  by rewrite (Hb n), (Hb p).
Qed.

(** Hanging an inner node above the node [ln] that a descent ran into. *)
Lemma insert_glue t c p m ln nn
    (q := mk_prefix (family p) (prefixlen (route_common (nd_p nn) p prefix_new))
                    (addr (route_common (nd_p nn) p prefix_new))) :
  wf_table (with_count c t) -> wf_prefix p -> arrived (with_count c t) p m (Some ln) ->
  t_heap t !! ln = Some nn -> ~ nkey nn `prefix_of` key p ->
  exists t0 t1 gn,
    set_link past (alloc_table t (fresh_node bms q)) (t_next t) ln = Ok t0 /\
    attach past t0 m (t_next t) = Ok t1 /\
    wf_table (with_count (u64 (c + 1)) t1) /\ extends t t1 /\ t_count t1 = t_count t /\
    t_heap t1 !! t_next t = Some gn /\ nd_p gn = q /\
    (prefixlen q = prefixlen p /\ key q = key p \/
     prefixlen q < prefixlen p /\ arrived (with_count (u64 (c + 1)) t1) p (Some (t_next t)) None).
Proof.
  intros Hwf Hp Ha Hnn Hnc. pose proof (wt_prefix _ Hwf ln nn Hnn) as Hwn.
  destruct (route_common_key (nd_p nn) p Hwn Hp Hnc) as (Hq & Hlt & Hqn & Hqp). fold q in Hq, Hlt, Hqn, Hqp.
  pose proof (fresh_next t c Hwf) as Hf. pose proof (wf_prefix_bounds _ Hwn).
  pose proof (wf_len q Hq) as Hlq. pose proof (wf_prefix_bounds q Hq).
  set (cbit := bit_of (addr (nd_p nn)) (prefixlen q)) in *.
  set (g1 := fresh_node bms q). set (l := t_next t) in *.
  assert (Hne : l <> ln) by congruence.
  assert (Hs : set_link past (alloc_table t g1) l ln = Ok (with_heap
    (<[ln := with_parent (Some l) nn]> (<[l := with_link cbit (Some ln) g1]>
       (t_heap (alloc_table t g1)))) (alloc_table t g1))).
  { apply (set_link_Ok past (alloc_table t g1) l ln nn g1); cbn; try done; [by rewrite lookup_insert_ne | by rewrite lookup_insert_eq |].
    change (0 <= prefixlen q < 128). lia. }
  set (t0 := with_heap _ _) in Hs. set (gn0 := with_link cbit (Some ln) g1).
  assert (Hgk : nkey gn0 = key q) by (unfold nkey, gn0; by rewrite p_with_link).
  assert (Hgl : t_heap t0 !! l = Some gn0).
  { cbn. by rewrite lookup_insert_ne, lookup_insert_eq by done. }
  assert (Hext : forall lm nm, m = Some lm -> t_heap t !! lm = Some nm ->
    lm <> ln /\ (nkey nm ++ [next_bit nm p]) `prefix_of` nkey gn0).
  { intros lm nm -> Hnm. destruct Ha as (nm' & H1 & H2 & H3 & H4). cbn in H1.
    rewrite Hnm in H1. injection H1 as <-.
    destruct (wt_child _ Hwf lm nm _ ln Hnm H4) as (nc & H5 & _ & H6). cbn in H5.
    rewrite Hnn in H5. injection H5 as <-.
    split; [intros ->; rewrite Hnn in Hnm; injection Hnm as ->; by apply Hnc |].
    rewrite Hgk. apply glue_longest; try done.
    destruct (node_len _ Hwf lm nm Hnm). unfold nkey, key. apply bits_snoc_prefix; try done; lia. }
  destruct (arrived_attach t c p m (Some ln) gn0 l Hwf Hp Ha Hf) as [b Hb];
    [right; intros lm nm Em Hnm; exact (proj2 (Hext lm nm Em Hnm)) | unfold gn0; by rewrite p_with_link |].
  destruct (attach_Ok t0 m l gn0 b) as (t1 & E1 & Hh & Ht & Hc & Hn); try done.
  { unfold gn0. by rewrite parent_with_link. }
  { intros lm Em. destruct (Hb lm Em) as (nm & E & H1 & H2 & H3 & H4 & _). exists nm. subst m.
    destruct (Hext lm nm eq_refl H1) as [Hln _]. split; [| done].
    cbn. rewrite (lookup_insert_ne _ ln), !lookup_insert_ne by done. done. }
  assert (Hheap : forall x, t_heap t1 !! x =
    if decide (x = l) then Some (with_parent m gn0)
    else if decide (Some x = Some ln) then with_parent (Some l) <$> t_heap t !! x
    else if decide (Some x = m) then with_link b (Some l) <$> t_heap t !! x
    else t_heap t !! x).
  { intros x. rewrite Hh. destruct (decide (x = l)) as [|Hxl]; [done |].
    destruct (decide (Some x = Some ln)) as [[= ->]|Hxn].
    - rewrite decide_False; [cbn; by rewrite lookup_insert_eq, Hnn |].
      intros <-. by destruct (Hext ln nn eq_refl Hnn).
    - assert (t_heap t0 !! x = t_heap t !! x) as ->; [| done].
      cbn. fold l. rewrite (lookup_insert_ne _ ln), !(lookup_insert_ne _ l) by congruence. done. }
  assert (Hlk : link (with_parent m gn0) cbit = Some ln /\ link (with_parent m gn0) (negb cbit) = None).
  { unfold gn0. rewrite !link_with_parent, !link_with_link, eqb_reflx. by destruct cbit. }
  assert (Hwf1 : wf_table (with_count (u64 (c + 1)) t1)).
  { apply (wf_insert (with_count c t) (with_count (u64 (c + 1)) t1) m (Some ln) b cbit
      l (with_parent m gn0)); try done; try apply Hlk.
    - unfold gn0. cbn. by rewrite p_with_link.
    - intros ln' [= <-]. exists nn. split; [done |].
      change (nkey (with_parent m gn0)) with (nkey gn0). by rewrite Hgk.
    - unfold hangs. cbn. destruct m as [lm|].
      + destruct (Hb lm eq_refl) as (nm & _ & H1 & H2 & _ & _ & H5 & H6).
        split; [done |]. split; [done |]. by exists nm.
      + split; [by rewrite Ha | done].
    - cbn. rewrite Hn. cbn. lia. }
  exists t0, t1, (with_parent m gn0). split_and!; try done.
  - apply (ins_extends t t1 m (Some ln) b l (with_parent m gn0)); try done.
    + unfold gn0. cbn. by rewrite info_with_link.
    + unfold gn0. cbn. by rewrite lock_with_link.
  - rewrite Hheap. by rewrite decide_True.
  - unfold gn0. cbn. by rewrite p_with_link.
  - destruct Hqp as [?|(Hl2 & Hq2 & Hq3)]; [by left | right]. split; [done |].
    exists (with_parent m gn0). cbn [t_heap with_count]. rewrite Hheap, decide_True by done.
    change (nkey (with_parent m gn0)) with (nkey gn0). rewrite Hgk.
    split_and!; [done | etransitivity; [| exact Hq2]; by eexists | |].
    + unfold gn0. cbn. by rewrite p_with_link.
    + unfold next_bit, gn0. cbn [nd_p with_parent]. rewrite p_with_link. cbn [nd_p g1 fresh_node].
      rewrite <- (proj2 Hlk). f_equal. fold cbit in Hq3.
      change (prefixlen q) with (prefixlen q) in Hq3. destruct cbit, (bit_of (addr p) (prefixlen q)); done.
Qed.

Lemma lock_keeps_wf t l nd k :
  wf_table t -> t_heap t !! l = Some nd ->
  wf_table (with_heap (<[l := with_lock k nd]> (t_heap t)) t).
Proof.
  intros Hwf H. apply (wf_same_skel t); try done. intros x. cbn.
  destruct (decide (x = l)) as [->|]; [by rewrite lookup_insert_eq, H | by rewrite lookup_insert_ne].
Qed.

Lemma with_count_id t : with_count (t_count t) t = t.
Proof. by destruct t. Qed.

Lemma extends_refl t : extends t t.
Proof. split; [eauto | congruence]. Qed.

Definition lock_up (k : Z) : Z := if is_readonly bms then k else u32 (k + 1).

(** The common end of every branch of [bgp_node_get]: the node is locked. *)
Lemma get_finish t0 t1 l nd p :
  wf_table t1 -> extends t0 t1 -> t_heap t1 !! l = Some nd -> nkey nd = key p ->
  exists t' nd',
    bgp_lock_node dbs peer t1 l = Ok t' /\
    wf_table t' /\ t_heap t' !! l = Some nd' /\ nkey nd' = key p /\
    nd_lock nd' = lock_up (nd_lock nd) /\ nd_info nd' = nd_info nd /\
    (forall x nx, t_heap t0 !! x = Some nx -> exists nx', t_heap t' !! x = Some nx' /\
       nd_p nx' = nd_p nx /\ nd_info nx' = nd_info nx /\ (x <> l -> nd_lock nx' = nd_lock nx)) /\
    (forall x nx', t_heap t' !! x = Some nx' -> t_heap t0 !! x = None ->
       nd_info nx' = replicate (info_buckets bms) [] /\ (x <> l -> nd_lock nx' = 0)).
Proof.
  intros Hwf [E1 E2] Hl Hk. destruct (bgp_lock_node_Ok t1 l nd Hl) as (k & Ek & Hkv).
  exists (with_heap (<[l:=with_lock k nd]> (t_heap t1)) t1), (with_lock k nd).
  split_and!; try done.
  - by apply lock_keeps_wf.
  - apply lookup_insert_eq.
  - intros x nx H. destruct (E1 x nx H) as (n1 & H1 & P1 & P2 & P3).
    destruct (decide (x = l)) as [->|Hx].
    + exists (with_lock k nd). cbn. rewrite lookup_insert_eq. rewrite Hl in H1. injection H1 as <-. done.
    + exists n1. cbn. rewrite lookup_insert_ne by done. done.
  - intros x nx' H H0. destruct (decide (x = l)) as [->|Hx]; cbn in H.
    + rewrite lookup_insert_eq in H. injection H as <-. by destruct (E2 l nd Hl H0).
    + rewrite lookup_insert_ne in H by done. by destruct (E2 x nx' H H0).
Qed.

Lemma wf_same_count t c1 c2 : wf_table (with_count c1 t) -> c1 = c2 -> wf_table (with_count c2 t).
Proof. by intros ? <-. Qed.

Lemma bgp_node_get_cases t p :
  wf_table t -> wf_prefix p ->
  (exists l nd, t_heap t !! l = Some nd /\ nkey nd = key p /\
     bgp_node_get dbs past peer t p = (t ← bgp_lock_node dbs peer t l; Ok (t, l))) \/
  ((forall x nx, t_heap t !! x = Some nx -> nkey nx <> key p) /\
   exists t1 l nd, wf_table t1 /\ extends t t1 /\ t_heap t !! l = None /\
     t_heap t1 !! l = Some nd /\ nkey nd = key p /\
     bgp_node_get dbs past peer t p = (t ← bgp_lock_node dbs peer t1 l; Ok (t, l))).
Proof.
  intros Hwf Hp. destruct (get_walk_top t Hwf p Hp past) as (w & Ew & Hw).
  unfold bgp_node_get. rewrite Ew. cbn [mbind res_bind].
  destruct w as [l|m o].
  { destruct Hw as (nd & H & Hk). left. by exists l, nd. }
  destruct Hw as (Ha & Hnc & Hno). right. split; [done |].
  rewrite <- (with_count_id t) in Hwf, Ha.
  destruct (prefix_copy_new p Hp) as (Hcw & Hck & Hcl).
  destruct o as [ln|].
  - destruct (arrived_node _ Hwf p m ln Ha) as [nn Hnn]. cbn in Hnn.
    destruct (insert_glue t (t_count t) p m ln nn Hwf Hp Ha Hnn (Hnc ln nn eq_refl Hnn))
      as (t0 & t1 & gn & Es & Eat & Hwf1 & Hext & Hc1 & Hgn & Hgp & Hcase).
    pose proof (fresh_next t _ Hwf) as Hf.
    set (q := mk_prefix _ _ _) in Es, Hgp, Hcase.
    assert (Eg : get_node (alloc_table t (fresh_node bms prefix_new)) ln = Ok nn).
    { apply get_node_Ok. cbn. by rewrite lookup_insert_ne by congruence. }
    assert (Eu : upd_node (alloc_table t (fresh_node bms prefix_new)) (t_next t)
      (with_p q) = Ok (alloc_table t (fresh_node bms q))).
    { rewrite (upd_node_Ok _ _ _ (fresh_node bms prefix_new)) by (cbn; apply lookup_insert_eq).
      unfold alloc_table, with_heap. cbn. by rewrite insert_insert_eq. }
    rewrite bgp_node_create_Ok. cbn [deref mbind res_bind]. rewrite Eg. cbn [mbind res_bind].
    rewrite (upd_node_ext _ _ _ (with_p q) (fresh_node bms prefix_new)), Eu
      by (done || (cbn; apply lookup_insert_eq)).
    cbn [mbind res_bind]. rewrite Es. cbn [mbind res_bind]. rewrite Eat. cbn [mbind res_bind].
    rewrite (get_node_Ok t1 _ gn Hgn). cbn [mbind res_bind]. rewrite Hgp.
    destruct Hcase as [[Hq1 Hq2]|[Hq1 Ha1]].
    + rewrite Hq1, Z.eqb_refl. cbn [negb].
      exists (with_count (u64 (t_count t1 + 1)) t1), (t_next t), gn.
      split_and!; try done; [by rewrite Hc1 |]. unfold nkey. by rewrite Hgp.
    + rewrite (proj2 (Z.eqb_neq _ _)) by lia. cbn [negb].
      rewrite bgp_node_set_Ok. cbn [mbind res_bind].
      destruct (insert_leaf t1 (u64 (t_count t + 1)) p (prefix_copy prefix_new p) (Some (t_next t))
        Hwf1 Hp Ha1 Hcw Hck) as (t2 & g2 & Eat2 & Hwf2 & Hext2 & Hc2 & Hg2 & Hp2).
      unfold attach in Eat2. rewrite Eat2. cbn [mbind res_bind].
      exists (with_count (u64 (u64 (t_count t2 + 1) + 1)) t2), (t_next t1), g2.
      pose proof (fresh_next t1 _ Hwf1) as Hf1.
      split_and!; try done.
      * by rewrite Hc2, Hc1.
      * by apply (extends_trans t t1 t2).
      * destruct (t_heap t !! t_next t1) as [nx|] eqn:E; [| done].
        destruct (proj1 Hext _ nx E) as (? & ? & _). congruence.
      * unfold nkey. by rewrite Hp2.
  - destruct (insert_leaf t (t_count t) p (prefix_copy prefix_new p) m Hwf Hp Ha Hcw Hck)
      as (t1 & g1 & Eat & Hwf1 & Hext & Hc1 & Hg1 & Hp1).
    rewrite bgp_node_set_Ok. cbn [mbind res_bind]. rewrite Eat. cbn [mbind res_bind].
    exists (with_count (u64 (t_count t1 + 1)) t1), (t_next t), g1.
    split_and!; try done; [by rewrite Hc1 | by apply (fresh_next t _ Hwf) |].
    unfold nkey. by rewrite Hp1.
Qed.

End Updates.

(* ------------------------------------------------------------------ *)
(** ** Longest-prefix match *)

Section Matching.
Context {I S2 : Type}.
Context (past : Z) (cmp_func : I -> S2 -> Z * S2).
Implicit Types (t : bgp_table I) (nd : bgp_node I) (l : loc) (st : @match_state I S2).

(** What the walk does with the covering nodes it meets. *)
Fixpoint scan_path (t : bgp_table I) (p : prefix) (max : nat) (modulo : Z) (ls : list loc) st
    : res (@match_state I S2) :=
  match ls with
  | [] => Ok st
  | l :: ls' =>
      nd ← get_node t l;
      st ← scan_buckets cmp_func max l nd p modulo st;
      scan_path t p max modulo ls' st
  end.

Lemma match_walk_path t p max modulo :
  wf_table t -> wf_prefix p ->
  forall fuel o m st, arrived t p m o ->
    (match o with Some l => 130 < fuel + klen t l | None => 0 < fuel end)%nat ->
    match_walk past cmp_func fuel t p max modulo o st =
      scan_path t p max modulo (path fuel t p o) st.
Proof.
  intros Hwf Hp. induction fuel as [|f IH]; intros o m st Ha Hf.
  { destruct o as [l|]; [| lia]. destruct (arrived_node t Hwf p m l Ha) as [nd H].
    destruct (node_len t Hwf l nd H). rewrite (klen_node t l nd H) in Hf. lia. }
  destruct o as [l|]; cbn [match_walk path]; [| done].
  destruct (arrived_node t Hwf p m l Ha) as [nd H]. rewrite (get_node_Ok t l nd H), H.
  cbn [mbind res_bind]. destruct (node_len t Hwf l nd H) as [Hl Hr].
  rewrite (klen_node t l nd H) in Hf. change (_ && _) with (covers nd p).
  destruct (covers nd p) eqn:Ec; [| done]. cbn [scan_path].
  rewrite (get_node_Ok t l nd H). cbn [mbind res_bind].
  destruct (scan_buckets _ _ _ _ _ _ _) as [st'|e]; [| done]. cbn [mbind res_bind].
  pose proof (proj1 (covers_key t Hwf p Hp l nd H) Ec) as Hk.
  pose proof (wf_prefix_bounds p Hp) as Hpb. pose proof (wf_len p Hp).
  assert (Hle : prefixlen (nd_p nd) <= prefixlen p).
  { apply prefix_length in Hk. rewrite Hl, key_length in Hk. lia. }
  assert (Hstop : forall c b, link nd b = Some c ->
    exists nc, t_heap t !! c = Some nc /\ (length (nkey nd) < length (nkey nc))%nat).
  { intros c b Hc. destruct (wt_child t Hwf l nd b c H Hc) as (nc & Hc1 & _ & _).
    exists nc. split; [done |]. by apply (child_longer t Hwf l nd b c nc). }
  destruct (Z.eqb_spec (prefixlen (nd_p nd)) (prefixlen p)) as [E|E].
  - destruct (check_bit_total past (addr p) (prefixlen (nd_p nd))) as [b Eb]; [lia |].
    rewrite Eb. cbn [mbind res_bind scan_path]. destruct f as [|f]; [lia |].
    destruct (link nd b) as [c|] eqn:Elk; cbn [match_walk]; [| done].
    destruct (Hstop c b Elk) as (nc & Hc & Hlt). rewrite (get_node_Ok t c nc Hc).
    cbn [mbind res_bind]. change (_ && _) with (covers nc p).
    destruct (covers nc p) eqn:Ecc; [| done].
    apply (covers_key t Hwf p Hp c nc Hc) in Ecc. apply prefix_length in Ecc.
    rewrite key_length in Ecc. lia.
  - rewrite check_bit_Ok by lia. cbn [mbind res_bind]. fold (next_bit nd p).
    apply (IH _ (Some l)).
    + exists nd. split_and!; try done. lia.
    + destruct (link nd (next_bit nd p)) as [c|] eqn:Elk; [| lia].
      destruct (Hstop c _ Elk) as (nc & Hc & Hlt). rewrite (klen_node t c nc Hc). lia.
Qed.

(** The fuel of [path] does not matter once it is large enough. *)
Lemma path_fuel t p :
  wf_table t -> wf_prefix p ->
  forall f1 f2 o m, arrived t p m o ->
    (match o with Some l => 129 < f1 + klen t l | None => 0 < f1 end)%nat ->
    (f1 <= f2)%nat -> path f1 t p o = path f2 t p o.
Proof.
  intros Hwf Hp. induction f1 as [|f1 IH]; intros f2 o m Ha Hf Hle.
  { destruct o as [l|]; [| lia]. destruct (arrived_node t Hwf p m l Ha) as [nd H].
    destruct (node_len t Hwf l nd H). rewrite (klen_node t l nd H) in Hf. lia. }
  destruct f2 as [|f2]; [lia |]. destruct o as [l|]; cbn [path]; [| done].
  destruct (arrived_node t Hwf p m l Ha) as [nd H]. rewrite H.
  destruct (node_len t Hwf l nd H) as [Hl Hr]. rewrite (klen_node t l nd H) in Hf.
  destruct (covers nd p) eqn:Ec; [| done].
  destruct (Z.eqb_spec (prefixlen (nd_p nd)) (prefixlen p)) as [|E]; [done |]. f_equal.
  pose proof (proj1 (covers_key t Hwf p Hp l nd H) Ec) as Hk. pose proof (wf_len p Hp).
  apply (IH _ _ (Some l)); [| | lia].
  - exists nd. split_and!; try done. apply prefix_length in Hk. rewrite Hl, key_length in Hk. lia.
  - destruct (link nd (next_bit nd p)) as [c|] eqn:Elk; [| lia].
    destruct (wt_child t Hwf l nd _ c H Elk) as (nc & Hc & _ & _).
    pose proof (child_longer t Hwf l nd _ c nc H Elk Hc). rewrite (klen_node t c nc Hc). lia.
Qed.

(** The route information a lookup looks at in one node. *)
Definition candidates (max : nat) (modulo : Z) nd : list I :=
  concat (take max (drop (Z.to_nat modulo) (nd_info nd))).

Section Pure.
(** The verdict of the callback depends on the route information only. *)
Context (ok : I -> bool).
Hypothesis Hcmp : forall i s, fst (cmp_func i s) = 0 <-> ok i = true.

(** [r] is [Some] matching candidate of [nd] when there is one, else [r0]. *)
Definition picks l (infos : list I) (r0 r : option (loc * I)) : Prop :=
  (exists i, i ∈ infos /\ ok i = true /\ r = Some (l, i)) \/
  ((forall i, i ∈ infos -> ok i = false) /\ r = r0).

Lemma scan_infos_picks l nd p infos st :
  ms_bnv st = None ->
  exists st', scan_infos cmp_func l nd p infos st = Ok st' /\ ms_bnv st' = None /\
    picks l infos (ms_matched st) (ms_matched st').
Proof.
  revert st. induction infos as [|i infos IH]; intros st Hb; cbn [scan_infos].
  { exists st. split_and!; try done. right. split; [by intros i ?%elem_of_nil | done]. }
  pose proof (Hcmp i (ms_nmct2 st)) as Hc. destruct (cmp_func i (ms_nmct2 st)) as [c s'].
  cbn [fst] in Hc. rewrite Hb. cbn [bnv_push mbind res_bind].
  destruct (Z.eqb_spec c 0) as [->|Hne].
  - pose proof (proj1 Hc eq_refl) as Hok. destruct (_ =? _).
    { eexists. split; [done |]. split; [done |]. left. exists i. split_and!; try done. by left. }
    destruct (IH (mk_ms (Some (l, i)) None s') eq_refl) as (st' & E & Hb' & Hp).
    exists st'. split_and!; try done. destruct Hp as [(j & Hj & Hok' & ->)|[Hno ->]].
    + left. exists j. split_and!; try done. by right.
    + left. exists i. split_and!; try done. by left.
  - destruct (IH (mk_ms (ms_matched st) None s') eq_refl) as (st' & E & Hb' & Hp).
    exists st'. split_and!; try done. destruct Hp as [(j & Hj & Hok' & ->)|[Hno ->]].
    + left. exists j. split_and!; try done. by right.
    + right. split; [| done]. intros j [->|Hj]%elem_of_cons; [| by apply Hno].
      destruct (ok i); [| done]. exfalso. by apply Hne, Hc.
Qed.

Lemma picks_app l xs ys r0 r1 r2 :
  picks l xs r0 r1 -> picks l ys r1 r2 -> picks l (xs ++ ys) r0 r2.
Proof.
  intros Hx [(j & Hj & Ho & ->)|[Hno ->]].
  - left. exists j. split_and!; try done. by apply elem_of_app; right.
  - destruct Hx as [(j & Hj & Ho & ->)|[Hno' ->]].
    + left. exists j. split_and!; try done. by apply elem_of_app; left.
    + right. split; [| done]. intros i [?|?]%elem_of_app; auto.
Qed.

Lemma scan_buckets_picks max l nd p modulo st :
  ms_bnv st = None -> 0 <= modulo -> modulo + Z.of_nat max < 2 ^ 32 ->
  (Z.to_nat modulo + max <= length (nd_info nd))%nat ->
  exists st', scan_buckets cmp_func max l nd p modulo st = Ok st' /\ ms_bnv st' = None /\
    picks l (candidates max modulo nd) (ms_matched st) (ms_matched st').
Proof.
  revert modulo st. induction max as [|n IH]; intros modulo st Hb H0 H1 Hl; cbn [scan_buckets].
  { exists st. split_and!; try done. right. split; [| done]. by intros i ?%elem_of_nil. }
  destruct (nd_info nd !! Z.to_nat modulo) as [infos|] eqn:E;
    [| apply lookup_ge_None in E; lia].
  cbn [mbind res_bind].
  destruct (scan_infos_picks l nd p infos st Hb) as (st1 & E1 & Hb1 & P1). rewrite E1.
  cbn [mbind res_bind]. rewrite u32_small by lia.
  destruct (IH (modulo + 1) st1 Hb1) as (st2 & E2 & Hb2 & P2); [lia.. |].
  exists st2. split_and!; try done.
  assert (candidates (S n) modulo nd = infos ++ candidates n (modulo + 1) nd) as ->.
  { unfold candidates. rewrite (drop_S _ _ _ E). replace (Z.to_nat (modulo + 1)) with (S (Z.to_nat modulo)) by lia.
    done. }
  by eapply picks_app.
Qed.

(** The last node of the path that has a matching candidate decides. *)
Lemma scan_path_picks t p max modulo ls st :
  ms_bnv st = None -> 0 <= modulo -> modulo + Z.of_nat max < 2 ^ 32 ->
  Forall (fun l => exists nd, t_heap t !! l = Some nd /\
            (Z.to_nat modulo + max <= length (nd_info nd))%nat) ls ->
  StronglySorted (fun a b => (klen t a < klen t b)%nat) ls ->
  exists st', scan_path t p max modulo ls st = Ok st' /\ ms_bnv st' = None /\
    ((exists l nd i, l ∈ ls /\ t_heap t !! l = Some nd /\ i ∈ candidates max modulo nd /\
        ok i = true /\ ms_matched st' = Some (l, i) /\
        forall l' nd' i', l' ∈ ls -> t_heap t !! l' = Some nd' ->
          i' ∈ candidates max modulo nd' -> ok i' = true -> (klen t l' <= klen t l)%nat) \/
     (ms_matched st' = ms_matched st /\
      forall l' nd' i', l' ∈ ls -> t_heap t !! l' = Some nd' ->
          i' ∈ candidates max modulo nd' -> ok i' = false)).
Proof.
  intros Hb H0 H1. revert st Hb. induction ls as [|l ls IH]; intros st Hb Hls Hs; cbn [scan_path].
  { exists st. split_and!; try done. right. split; [done |]. by intros l' nd' i' ?%elem_of_nil. }
  inversion Hls as [|? ? (nd & H & Hlen) Hls']; subst. inversion Hs as [|? ? Hs' Hlt]; subst.
  rewrite (get_node_Ok t l nd H). cbn [mbind res_bind].
  destruct (scan_buckets_picks max l nd p modulo st) as (st1 & E1 & Hb1 & P1); try done.
  rewrite E1. cbn [mbind res_bind]. destruct (IH st1 Hb1 Hls' Hs') as (st2 & E2 & Hb2 & P2).
  exists st2. split_and!; try done. rewrite Forall_forall in Hlt.
  destruct P2 as [(l2 & n2 & i2 & G1 & G2 & G3 & G4 & G5 & G6)|[Em Hno]].
  - left. exists l2, n2, i2. split_and!; try done; [by right |].
    intros l' nd' i' [->|Hin]%elem_of_cons Hl' Hi' Hok; [specialize (Hlt l2 G1); lia |].
    by eapply G6.
  - destruct P1 as [(i & Hi & Hok & Ei)|[Hno1 Ei]].
    + left. exists l, nd, i. split_and!; try done; [by left | congruence |].
      intros l' nd' i' [->|Hin]%elem_of_cons Hl' Hi' Hok'; [done |].
      exfalso. specialize (Hno l' nd' i' Hin Hl' Hi'). congruence.
    + right. split; [congruence |].
      intros l' nd' i' [->|Hin]%elem_of_cons Hl' Hi'; [| by eapply Hno].
      apply Hno1. congruence.
Qed.

(** The walk of a lookup from the top of the table. *)
Lemma match_walk_top t p max modulo st :
  wf_table t -> wf_prefix p -> ms_bnv st = None -> ms_matched st = None ->
  0 <= modulo -> modulo + Z.of_nat max < 2 ^ 32 ->
  (forall l nd, t_heap t !! l = Some nd -> (Z.to_nat modulo + max <= length (nd_info nd))%nat) ->
  exists st', match_walk past cmp_func (S walk_fuel) t p max modulo (t_top t) st = Ok st' /\
    ms_bnv st' = None /\
    match ms_matched st' with
    | Some (l, i) => exists nd, t_heap t !! l = Some nd /\ nkey nd `prefix_of` key p /\
        i ∈ candidates max modulo nd /\ ok i = true /\
        forall l' nd' i', t_heap t !! l' = Some nd' -> nkey nd' `prefix_of` key p ->
          i' ∈ candidates max modulo nd' -> ok i' = true ->
          (length (nkey nd') <= length (nkey nd))%nat
    | None => forall l' nd' i', t_heap t !! l' = Some nd' -> nkey nd' `prefix_of` key p ->
          i' ∈ candidates max modulo nd' -> ok i' = false
    end.
Proof.
  intros Hwf Hp Hb Hm H0 H1 Hinfo.
  rewrite (match_walk_path t p max modulo Hwf Hp (S walk_fuel) (t_top t) None st eq_refl)
    by (unfold walk_fuel; destruct (t_top t); lia).
  rewrite <- (path_fuel t p Hwf Hp walk_fuel (S walk_fuel) (t_top t) None eq_refl)
    by (unfold walk_fuel; destruct (t_top t); lia).
  destruct (scan_path_picks t p max modulo (path walk_fuel t p (t_top t)) st)
    as (st' & E & Hb' & Hr); try done.
  { apply Forall_forall. intros l Hl. destruct (path_in t Hwf p Hp _ _ l Hl) as (nd & H & _).
    exists nd. split; [done | by apply (Hinfo l)]. }
  { by apply path_sorted. }
  exists st'. split_and!; try done. destruct Hr as [(l & nd & i & G1 & G2 & G3 & G4 & G5 & G6)|[Em Hno]].
  - rewrite G5. exists nd. destruct (path_in t Hwf p Hp _ _ l G1) as (nd' & H' & Hk).
    rewrite G2 in H'. injection H' as <-. split_and!; try done.
    intros l' nd' i' Hl' Hk' Hi' Hok'.
    rewrite <- (klen_node t l' nd'), <- (klen_node t l nd) by done.
    eapply G6; try done. by eapply path_complete.
  - rewrite Em, Hm. intros l' nd' i' Hl' Hk' Hi'. eapply Hno; try done. by eapply path_complete.
Qed.

End Pure.
End Matching.

(* ------------------------------------------------------------------ *)
(** ** Removal of a node with at most one child *)

Section Removal.
Context {I : Type}.
Implicit Types (t : bgp_table I) (nd : bgp_node I) (l : loc) (m : option loc).

Definition only_child nd : option loc :=
  match l_left nd with Some c => Some c | None => l_right nd end.

Lemma only_child_link nd b c :
  l_left nd = None \/ l_right nd = None -> link nd b = Some c -> only_child nd = Some c.
Proof. unfold only_child. intros [H|H]; destruct b; cbn; rewrite H; try done; by destruct (l_left nd). Qed.

Lemma only_child_Some nd c : only_child nd = Some c -> exists b, link nd b = Some c.
Proof.
  unfold only_child. destruct (l_left nd) as [x|] eqn:E.
  - intros [= <-]. by exists false.
  - intros H. by exists true.
Qed.

Context (t t' : bgp_table I) (l : loc) (nd : bgp_node I) (b : bool).
Hypothesis Hwf : wf_table t.
Hypothesis Hl : t_heap t !! l = Some nd.
Hypothesis Hone : l_left nd = None \/ l_right nd = None.
Hypothesis Hb : forall q nq, nd_parent nd = Some q -> t_heap t !! q = Some nq -> link nq b = Some l.
Hypothesis Hheap : forall x, t_heap t' !! x =
  if decide (x = l) then None
  else if decide (Some x = only_child nd) then with_parent (nd_parent nd) <$> t_heap t !! x
  else if decide (Some x = nd_parent nd) then with_link b (only_child nd) <$> t_heap t !! x
  else t_heap t !! x.
Hypothesis Htop : t_top t' = match nd_parent nd with Some _ => t_top t | None => only_child nd end.
Hypothesis Hnext : t_next t' = t_next t.
Hypothesis Hcount : t_count t' = u64 (t_count t - 1).

Lemma rm_top :
  (exists q, nd_parent nd = Some q /\ t_top t' = t_top t) \/
  (nd_parent nd = None /\ t_top t' = only_child nd).
Proof.
  pose proof Htop as H. clear -H. destruct (nd_parent nd); [left; eauto | by right].
Qed.

Lemma rm_child_node c :
  only_child nd = Some c ->
  exists nc b', t_heap t !! c = Some nc /\ nd_parent nc = Some l /\ c <> l /\
    nd_parent nd <> Some c /\ (nkey nd ++ [b']) `prefix_of` nkey nc.
Proof using Hwf Hl.
  clear Hnext Hcount.
  intros [b' H]%only_child_Some. destruct (wt_child t Hwf l nd b' c Hl H) as (nc & H1 & H2 & H3).
  pose proof (child_longer t Hwf l nd b' c nc Hl H H1) as Hlt.
  exists nc, b'. split_and!; try done; [intros ->; rewrite H1 in Hl; injection Hl as ->; lia |].
  intros E. destruct (wt_parent t Hwf l nd c Hl E) as (nc' & b0 & H1' & H4).
  rewrite H1 in H1'. injection H1' as <-. pose proof (child_longer t Hwf c nc b0 l nd H1 H4 Hl). lia.
Qed.

Lemma rm_lookup x nd' :
  t_heap t' !! x = Some nd' ->
  x <> l /\ exists nx, t_heap t !! x = Some nx /\ nd_p nd' = nd_p nx /\
     nd_info nd' = nd_info nx /\ nd_lock nd' = nd_lock nx /\
     nd_parent nd' = (if decide (Some x = only_child nd) then nd_parent nd else nd_parent nx) /\
     (forall b', link nd' b' = if decide (Some x = nd_parent nd /\ b' = b)
                             then only_child nd else link nx b').
Proof using Hwf Hl Hheap.
  rewrite Hheap. destruct (decide (x = l)) as [->|Hx]; [done |]. intros H. split; [done |].
  destruct (decide (Some x = only_child nd)) as [Eo|Eo].
  - destruct (t_heap t !! x) as [nx|] eqn:E; [| done]. injection H as <-. exists nx.
    split_and!; try done. intros b'. rewrite link_with_parent.
    destruct (decide _) as [[Em _]|]; [| done]. exfalso.
    destruct (rm_child_node x (eq_sym Eo)) as (nc & b0 & _ & _ & _ & Hne & _). by rewrite Em in Hne.
  - destruct (decide (Some x = nd_parent nd)) as [Em|Em].
    + destruct (t_heap t !! x) as [nx|] eqn:E; [| done]. injection H as <-. exists nx.
      rewrite p_with_link, info_with_link, lock_with_link, parent_with_link.
      split_and!; try done. intros b'. rewrite link_with_link.
      destruct (decide _) as [[_ ->]|Hne]; [by rewrite eqb_reflx |].
      destruct (eqb b b') eqn:Eb; [| done]. apply eqb_prop in Eb. by destruct Hne.
    + exists nd'. split_and!; try done. intros b'. destruct (decide _) as [[? _]|]; done.
Qed.

Lemma rm_survives x nx :
  t_heap t !! x = Some nx -> x <> l ->
  exists nx', t_heap t' !! x = Some nx' /\ nd_p nx' = nd_p nx /\
    nd_info nx' = nd_info nx /\ nd_lock nx' = nd_lock nx.
Proof using Hheap.
  intros H Hx. rewrite Hheap, H, decide_False by done.
  destruct (decide (Some x = only_child nd)); [eexists; split; done |].
  destruct (decide (Some x = nd_parent nd)); eexists; (split; [done |]);
    by rewrite ?p_with_link, ?info_with_link, ?lock_with_link.
Qed.

Lemma rm_parent_node q : nd_parent nd = Some q ->
  exists nq, t_heap t !! q = Some nq /\ link nq b = Some l /\ q <> l /\
    (nkey nq ++ [b]) `prefix_of` nkey nd.
Proof using Hwf Hl Hb.
  clear Hnext Hcount.
  intros E. destruct (wt_parent t Hwf l nd q Hl E) as (nq & b0 & Hq & _).
  pose proof (Hb q nq E Hq) as Hlk. exists nq.
  destruct (wt_child t Hwf q nq b l Hq Hlk) as (nd' & H1 & _ & H3).
  assert (nd' = nd) as -> by congruence. split_and!; try done.
  intros ->. pose proof (child_longer t Hwf l nq b l nd Hq Hlk Hl) as H.
  assert (nq = nd) as E' by congruence. rewrite E' in H. lia.
Qed.

(** Only [l] pointed to its child, and only its parent pointed to [l]. *)
Lemma rm_links x nx b' y :
  t_heap t !! x = Some nx -> link nx b' = Some y -> x <> l ->
  ~ (Some x = nd_parent nd /\ b' = b) -> y <> l /\ Some y <> only_child nd.
Proof.
  intros Hx Hy Hxl Hne. destruct (wt_child t Hwf x nx b' y Hx Hy) as (ny & H1 & H2 & H3). split.
  - intros ->. rewrite Hl in H1. injection H1 as <-.
    destruct (rm_parent_node x H2) as (nq & Hq & Hq2 & _ & Hq4). rewrite Hx in Hq. injection Hq as <-.
    destruct (prefix_weak_total _ _ _ H3 Hq4) as [Hpp|Hpp]; apply prefix_length_eq in Hpp;
      rewrite ?length_app; try (cbn; lia); apply app_inj_tail in Hpp as [_ ?]; naive_solver.
  - intros E. destruct (rm_child_node y (eq_sym E)) as (nc & b0 & G1 & G2 & _). congruence.
Qed.

Lemma wf_remove : wf_table t'.
Proof.
  split.
  - intros x nd' (_ & nx & H & -> & _)%rm_lookup. by eapply wt_prefix.
  - intros x nd' b' y (Hx & nx & H & Ep & _ & _ & _ & Elk)%rm_lookup Hy. rewrite Elk in Hy.
    unfold nkey. rewrite Ep.
    destruct (decide (Some x = nd_parent nd /\ b' = b)) as [[Em ->]|Hne].
    + destruct (rm_child_node y Hy) as (nc & b0 & G1 & G2 & G3 & _ & G5).
      destruct (rm_survives y nc G1 G3) as (ny & Hny & Eny & _). exists ny. split; [done |].
      pose proof Hny as Hny'. apply rm_lookup in Hny' as (_ & ny0 & _ & _ & _ & _ & -> & _).
      rewrite decide_True by done. split; [done |]. rewrite Eny.
      destruct (rm_parent_node x (eq_sym Em)) as (nq & Hq & _ & _ & Hq4).
      rewrite H in Hq. injection Hq as <-. unfold nkey in *.
      etransitivity; [exact Hq4 |]. eapply prefix_app_l, G5.
    + destruct (rm_links x nx b' y H Hy Hx Hne) as [Hyl Hyo].
      destruct (wt_child t Hwf x nx b' y H Hy) as (ny & H1 & H2 & H3).
      destruct (rm_survives y ny H1 Hyl) as (ny' & Hny & Eny & _). exists ny'. split; [done |].
      pose proof Hny as Hny'. apply rm_lookup in Hny' as (_ & ny0 & H0 & _ & _ & _ & -> & _).
      rewrite decide_False by done. rewrite H1 in H0. injection H0 as <-. by rewrite Eny.
  - intros x nd' q (Hx & nx & H & _ & _ & _ & Epar & _)%rm_lookup Hq. rewrite Epar in Hq.
    destruct (decide (Some x = only_child nd)) as [Eo|Eo].
    + destruct (rm_parent_node q Hq) as (nq & Hq1 & Hq2 & Hq3 & _).
      destruct (rm_survives q nq Hq1 Hq3) as (nq' & Hnq & _). exists nq', b. split; [done |].
      apply rm_lookup in Hnq as (_ & nq0 & _ & _ & _ & _ & _ & ->). by rewrite decide_True.
    + destruct (wt_parent t Hwf x nx q H Hq) as (nq & b0 & Hq1 & Hq2).
      assert (Hql : q <> l).
      { intros ->. rewrite Hl in Hq1. injection Hq1 as <-.
        apply Eo. symmetry. by apply (only_child_link nd b0). }
      destruct (rm_survives q nq Hq1 Hql) as (nq' & Hnq & _). exists nq', b0. split; [done |].
      apply rm_lookup in Hnq as (_ & nq0 & H0 & _ & _ & _ & _ & ->).
      rewrite Hq1 in H0. injection H0 as <-.
      destruct (decide _) as [[Em ->]|]; [| done]. exfalso.
      destruct (rm_parent_node q (eq_sym Em)) as (nq1 & G1 & G2 & _).
      rewrite Hq1 in G1. injection G1 as <-. congruence.
  - intros x nd' (Hx & nx & H & _ & _ & _ & Epar & _)%rm_lookup Hn. rewrite Epar in Hn.
    destruct (decide (Some x = only_child nd)) as [Eo|Eo];
      [destruct rm_top as [(q & E & _)|[_ ->]]; congruence |].
    pose proof (wt_root t Hwf x nx H Hn) as Ht.
    destruct rm_top as [(q & E & ->)|[E _]]; [done |].
    pose proof (wt_root t Hwf l nd Hl E). congruence.
  - intros x Hx. destruct rm_top as [(q & E & Et)|[E Et]]; rewrite Et in Hx.
    + destruct (wt_top t Hwf x Hx) as (nx & H & Hn).
      assert (Hxl : x <> l) by congruence.
      destruct (rm_survives x nx H Hxl) as (nx' & Hnx & _). exists nx'. split; [done |].
      apply rm_lookup in Hnx as (_ & nx0 & H0 & _ & _ & _ & -> & _). rewrite H in H0. injection H0 as <-.
      destruct (decide (Some x = only_child nd)) as [Eo|]; [| done]. exfalso.
      destruct (rm_child_node x (eq_sym Eo)) as (nc & b0 & G1 & G2 & _). congruence.
    + destruct (rm_child_node x Hx) as (nc & b0 & G1 & G2 & G3 & _).
      destruct (rm_survives x nc G1 G3) as (nx' & Hnx & _). exists nx'. split; [done |].
      apply rm_lookup in Hnx as (_ & nx0 & _ & _ & _ & _ & -> & _).
      rewrite decide_True by done. done.
  - intros x nd' (Hx & nx & H & _)%rm_lookup. rewrite Hnext. by eapply wt_next.
  - rewrite Hcount, (wt_count t Hwf).
    assert (Hsz : size (t_heap t) = S (size (t_heap t'))).
    { apply (size_grows (t_heap t') (t_heap t) l); [rewrite Hheap; by rewrite decide_True |].
      intros x. split.
      - intros [nx H]. destruct (decide (x = l)) as [->|Hx]; [by left | right].
        destruct (rm_survives x nx H Hx) as (? & ? & _). eauto.
      - intros [->|[nx (_ & ? & ? & _)%rm_lookup]]; eauto. }
    rewrite Hsz. unfold u64, wrap. rewrite Zminus_mod_idemp_l. f_equal. lia.
Qed.

End Removal.

(* ------------------------------------------------------------------ *)
(** ** Locks *)

Section Locks.
Context {I : Type}.
Implicit Types (t : bgp_table I) (nd : bgp_node I) (l : loc).

(** A node nobody holds carries no route information. *)
Definition lock_ok t : Prop :=
  forall l nd, t_heap t !! l = Some nd -> nd_lock nd = 0 -> Forall (fun b => b = []) (nd_info nd).

(** What deletion may do: free nodes nobody holds, relink the others. *)
Definition shrinks t t' : Prop :=
  (forall x nx', t_heap t' !! x = Some nx' -> exists nx, t_heap t !! x = Some nx /\
     nd_p nx' = nd_p nx /\ nd_info nx' = nd_info nx /\ nd_lock nx' = nd_lock nx) /\
  (forall x nx, t_heap t !! x = Some nx -> nd_lock nx <> 0 -> is_Some (t_heap t' !! x)).

Lemma shrinks_trans t1 t2 t3 : shrinks t1 t2 -> shrinks t2 t3 -> shrinks t1 t3.
Proof.
  intros [A1 A2] [B1 B2]. split.
  - intros x n3 H. destruct (B1 x n3 H) as (n2 & H2 & E1 & E2 & E3).
    destruct (A1 x n2 H2) as (n1 & H1 & F1 & F2 & F3). exists n1. split_and!; congruence.
  - intros x n1 H Hk. destruct (A2 x n1 H Hk) as [n2 H2].
    destruct (A1 x n2 H2) as (n1' & H1 & _ & _ & E3). rewrite H in H1. injection H1 as <-.
    apply (B2 x n2 H2). congruence.
Qed.

Lemma shrinks_refl t : shrinks t t.
Proof. split; [eauto 10 | eauto]. Qed.

Lemma shrinks_lock_ok t t' : shrinks t t' -> lock_ok t -> lock_ok t'.
Proof.
  intros [H _] Hok x nx' Hx Hk. destruct (H x nx' Hx) as (nx & H1 & _ & E2 & E3).
  rewrite E2. apply (Hok x nx H1). congruence.
Qed.

Context (dbs : misc_dbs) (peer : bgp_peer) (bms : bgp_misc_structs).
Hypothesis Hbms : bgp_select_misc_db dbs (type peer) = Some bms.

Lemma no_info_assert (n : nat) (i : list (list I)) :
  Forall (fun b => b = []) i ->
  forallb (fun x => match x with [] => true | _ => false end) (take n i) = true.
Proof.
  intros H. apply forallb_forall. intros b Hb%list_elem_of_In.
  assert (b ∈ i) as Hi by (by eapply elem_of_take in Hb as (? & ? & _); eapply list_elem_of_lookup_2).
  rewrite Forall_forall in H. by rewrite (H b Hi).
Qed.

Lemma bgp_node_delete_spec fuel : forall t l nd,
  wf_table t -> lock_ok t -> t_heap t !! l = Some nd -> nd_lock nd = 0 ->
  (length (nkey nd) < fuel)%nat ->
  exists t', bgp_node_delete dbs fuel peer t l = Ok t' /\ wf_table t' /\ shrinks t t'.
Proof.
  induction fuel as [|f IH]; intros t l nd Hwf Hok H Hk Hf; [lia |].
  cbn [bgp_node_delete]. rewrite (get_node_Ok t l nd H). cbn [mbind res_bind].
  rewrite Hk. change (c_assert (0 =? 0)) with (Ok tt : res unit). cbn [mbind res_bind].
  rewrite Hbms. cbn [deref mbind res_bind].
  rewrite (no_info_assert _ _ (Hok l nd H Hk)). cbn [c_assert mbind res_bind].
  destruct (decide (l_left nd = None \/ l_right nd = None)) as [Hone|Htwo].
  2: { destruct (l_left nd), (l_right nd); try (exfalso; tauto).
       exists t. split_and!; try done. apply shrinks_refl. }
  set (ch := only_child nd).
  match goal with |- exists t', match l_left nd with Some _ => match l_right nd with Some _ => _ | None => ?K end | None => _ end = _ /\ _ =>
    assert (Hm : forall (X : res (bgp_table I)), (match l_left nd with Some _ => match l_right nd with Some _ => X | None => K end | None => K end) = K)
      by (intros; destruct Hone as [E|E]; rewrite E; [done | by destruct (l_left nd)]); rewrite Hm; clear Hm end.
  fold (only_child nd). fold ch.
  set (b := match nd_parent nd with
            | Some q => match t_heap t !! q with
                        | Some nq => negb (bool_decide (l_left nq = Some l)) | None => false end
            | None => false end).
  assert (Hpar : forall q, nd_parent nd = Some q -> exists nq, t_heap t !! q = Some nq /\ q <> l /\
    link nq b = Some l /\ Some q <> ch /\ b = negb (bool_decide (l_left nq = Some l)) /\
    (length (nkey nq) < length (nkey nd))%nat).
  { intros q Eq. destruct (wt_parent t Hwf l nd q H Eq) as (nq & b0 & Hq & Hlk).
    pose proof (child_longer t Hwf q nq b0 l nd Hq Hlk H) as Hlt. exists nq.
    assert (Eb : b = negb (bool_decide (l_left nq = Some l))) by (unfold b; by rewrite Eq, Hq).
    split_and!; try done; try lia.
    - intros ->. rewrite H in Hq. injection Hq as ->. lia.
    - rewrite Eb. case_bool_decide; cbn; [done |]. by destruct b0.
    - intros E. destruct (only_child_Some nd q (eq_sym E)) as [b1 Hb1].
      pose proof (child_longer t Hwf l nd b1 q nq H Hb1 Hq). lia. }
  set (h1 := match ch with Some c => alter (with_parent (nd_parent nd)) c (t_heap t) | None => t_heap t end).
  assert (E1 : (match ch with Some c => upd_node t c (with_parent (nd_parent nd)) | None => Ok t end)
    = Ok (with_heap h1 t)).
  { unfold h1. destruct ch as [c|] eqn:Ec; [| by destruct t].
    destruct (only_child_Some nd c Ec) as [b1 Hb1].
    destruct (wt_child t Hwf l nd b1 c H Hb1) as (nc & Hc & _).
    rewrite (upd_node_Ok t c _ nc Hc). f_equal. f_equal. apply map_eq. intros x.
    destruct (decide (x = c)) as [->|]; [by rewrite lookup_insert_eq, lookup_alter_eq, Hc |].
    by rewrite lookup_insert_ne, lookup_alter_ne. }
  rewrite E1. cbn [mbind res_bind].
  set (h2 := match nd_parent nd with Some q => alter (with_link b ch) q h1 | None => h1 end).
  set (top2 := match nd_parent nd with Some _ => t_top t | None => ch end).
  assert (E2 : (match nd_parent nd with
    | Some q => upd_node (with_heap h1 t) q (fun nq => with_link (negb (bool_decide (l_left nq = Some l))) ch nq)
    | None => Ok (with_top ch (with_heap h1 t)) end) = Ok (with_top top2 (with_heap h2 t))).
  { unfold h2, top2. destruct (nd_parent nd) as [q|] eqn:Eq; [| done].
    destruct (Hpar q eq_refl) as (nq & Hq & Hne & _ & Hnc & Eb & _).
    assert (Hq1 : h1 !! q = Some nq).
    { unfold h1. destruct ch as [c|]; [rewrite lookup_alter_ne by congruence |]; done. }
    rewrite (upd_node_Ok (with_heap h1 t) q _ nq Hq1). cbn. rewrite <- Eb.
    unfold with_heap, with_top. cbn. do 2 f_equal. apply map_eq. intros x.
    destruct (decide (x = q)) as [->|]; [by rewrite lookup_insert_eq, lookup_alter_eq, Hq1 |].
    by rewrite lookup_insert_ne, lookup_alter_ne. }
  rewrite E2. cbn [mbind res_bind].
  assert (Hl2 : h2 !! l = Some nd).
  { assert (h1 !! l = Some nd) as Hl1.
    { unfold h1. destruct ch as [c|] eqn:Ec; [| done]. rewrite lookup_alter_ne; [done |].
      destruct (rm_child_node t l nd Hwf H c Ec) as (? & ? & _ & _ & ? & _). done. }
    unfold h2. destruct (nd_parent nd) as [q|] eqn:Eq; [| done].
    destruct (Hpar q eq_refl) as (nq & _ & Hne & _). by rewrite lookup_alter_ne. }
  unfold bgp_node_free. rewrite (get_node_Ok _ l nd) by exact Hl2. cbn [mbind res_bind].
  set (t1 := with_heap _ _).
  assert (Hh : forall x, t_heap t1 !! x =
    if decide (x = l) then None
    else if decide (Some x = only_child nd) then with_parent (nd_parent nd) <$> t_heap t !! x
    else if decide (Some x = nd_parent nd) then with_link b (only_child nd) <$> t_heap t !! x
    else t_heap t !! x).
  { intros x. cbn. destruct (decide (x = l)) as [->|Hx]; [by rewrite lookup_delete_eq |].
    rewrite lookup_delete_ne by done. fold ch. unfold h2.
    destruct (decide (Some x = ch)) as [Ec|Ec].
    - destruct (nd_parent nd) as [q|] eqn:Eq.
      + destruct (Hpar q eq_refl) as (nq & _ & _ & _ & Hnc & _).
        rewrite lookup_alter_ne by congruence. unfold h1. rewrite <- Ec. by rewrite lookup_alter_eq.
      + unfold h1. rewrite <- Ec. by rewrite lookup_alter_eq.
    - assert (h1 !! x = t_heap t !! x) as Hx1.
      { unfold h1. destruct ch as [c|]; [rewrite lookup_alter_ne by congruence |]; done. }
      destruct (nd_parent nd) as [q|] eqn:Eq.
      + destruct (decide (Some x = Some q)) as [[= ->]|]; [by rewrite lookup_alter_eq, Hx1 |].
        rewrite lookup_alter_ne by congruence. done.
      + by rewrite decide_False. }
  assert (Hb : forall q nq, nd_parent nd = Some q -> t_heap t !! q = Some nq -> link nq b = Some l).
  { intros q nq Eq Hq. destruct (Hpar q Eq) as (nq' & Hq' & _ & Hlk & _). congruence. }
  assert (Hwf1 : wf_table t1) by (by apply (wf_remove t t1 l nd b)).
  assert (Hs1 : shrinks t t1).
  { split.
    - intros x nx' Hx.
      destruct (rm_lookup t t1 l nd b Hwf H Hh x nx' Hx) as (_ & nx & G1 & G2 & G3 & G4 & _).
      by exists nx.
    - intros x nx Hx Hkx. destruct (rm_survives t t1 l nd b Hh x nx Hx) as (nx' & ? & _); [| eauto].
      intros ->. congruence. }
  destruct (nd_parent nd) as [q|] eqn:Eq; [| exists t1; done].
  destruct (Hpar q eq_refl) as (nq & Hq & Hne & _ & _ & _ & Hlt).
  rewrite <- Eq in *. destruct (rm_survives t t1 l nd b Hh q nq Hq Hne) as (nq' & Hq' & Ep & _ & Ek).
  rewrite (get_node_Ok t1 q nq' Hq'). cbn [mbind res_bind].
  destruct (Z.eqb_spec (nd_lock nq') 0) as [E0|]; [| exists t1; done].
  destruct (IH t1 q nq') as (t' & E & Hwf' & Hs'); try done.
  - by apply (shrinks_lock_ok t).
  - unfold nkey in *. rewrite Ep. lia.
  - exists t'. split_and!; try done. by apply (shrinks_trans t t1).
Qed.

(** The locks of a node cover the route information attached to it. *)
Definition refs nd : Z := Z.of_nat (length (concat (nd_info nd))).
Definition held t : Prop :=
  forall l nd, t_heap t !! l = Some nd -> refs nd <= nd_lock nd < 2 ^ 32.

Lemma held_lock_ok t : held t -> lock_ok t.
Proof.
  intros Hh l nd H Hk. pose proof (Hh l nd H) as Hr. unfold refs in Hr.
  apply Forall_forall. intros b Hb. destruct b as [|i b]; [done |]. exfalso.
  apply list_elem_of_split in Hb as (x & y & E). rewrite E, concat_app, length_app in Hr.
  cbn in Hr. lia.
Qed.

Lemma shrinks_held t t' : shrinks t t' -> held t -> held t'.
Proof.
  intros [H _] Hh x nx' Hx. destruct (H x nx' Hx) as (nx & H1 & _ & E2 & E3).
  unfold refs. rewrite E2, E3. by apply (Hh x nx).
Qed.

Definition put t l nd : bgp_table I := with_heap (<[l := nd]> (t_heap t)) t.

Lemma put_wf t l nd nd' :
  wf_table t -> t_heap t !! l = Some nd -> skel nd' = skel nd -> wf_table (put t l nd').
Proof.
  intros Hwf H E. apply (wf_same_skel t); try done. intros x. cbn.
  destruct (decide (x = l)) as [->|]; [by rewrite lookup_insert_eq, H; cbn; rewrite E |].
  by rewrite lookup_insert_ne.
Qed.

Lemma put_held t l nd :
  held t -> refs nd <= nd_lock nd < 2 ^ 32 -> held (put t l nd).
Proof.
  intros Hh Hn x nx. cbn. destruct (decide (x = l)) as [->|].
  - rewrite lookup_insert_eq. by intros [= <-].
  - rewrite lookup_insert_ne by done. apply Hh.
Qed.

Lemma unlock_put t l nd :
  is_readonly bms = false -> wf_table t -> t_heap t !! l = Some nd ->
  (forall x nx, x <> l -> t_heap t !! x = Some nx -> refs nx <= nd_lock nx < 2 ^ 32) ->
  refs nd < nd_lock nd < 2 ^ 32 ->
  exists t', bgp_unlock_node dbs peer t l = Ok t' /\ wf_table t' /\ held t' /\
    shrinks (put t l (with_lock (nd_lock nd - 1) nd)) t'.
Proof.
  intros Hro Hwf H Hh Hr. unfold bgp_unlock_node. rewrite Hbms, Hro. cbn [negb].
  rewrite (upd_node_Ok t l _ nd H). cbn [mbind res_bind].
  assert (0 <= refs nd) by (unfold refs; lia).
  rewrite u32_small by lia.
  set (nd1 := with_lock (nd_lock nd - 1) nd). fold (put t l nd1).
  assert (H1 : t_heap (put t l nd1) !! l = Some nd1) by (cbn; by rewrite lookup_insert_eq).
  assert (Hwf1 : wf_table (put t l nd1)) by (by apply (put_wf t l nd)).
  assert (Hh1 : held (put t l nd1)).
  { intros x nx. cbn. destruct (decide (x = l)) as [->|]; [rewrite lookup_insert_eq | rewrite lookup_insert_ne by done; by apply Hh].
    intros [= <-]. unfold refs in *. cbn. lia. }
  rewrite (get_node_Ok _ l nd1 H1). cbn [mbind res_bind].
  destruct (Z.eqb_spec (nd_lock nd1) 0) as [E0|].
  - destruct (node_len _ Hwf1 l nd1 H1) as [Hl _].
    destruct (bgp_node_delete_spec walk_fuel (put t l nd1) l nd1 Hwf1 (held_lock_ok _ Hh1) H1 E0)
      as (t' & E & Hwf' & Hs).
    { pose proof (wf_prefix_bounds _ (wt_prefix _ Hwf1 l nd1 H1)). rewrite Hl. unfold walk_fuel. lia. }
    exists t'. split_and!; try done. by apply (shrinks_held (put t l nd1)).
  - exists (put t l nd1). split_and!; try done. apply shrinks_refl.
Qed.

Lemma refs_delete nd m (b : list I) k :
  nd_info nd !! m = Some b -> (k < length b)%nat ->
  refs (with_info (<[m := delete k b]> (nd_info nd)) nd) = refs nd - 1.
Proof.
  intros H Hk. unfold refs. cbn. rewrite <- (take_drop_middle _ _ _ H) at 2.
  rewrite insert_take_drop by (by eapply lookup_lt_Some).
  rewrite !concat_app. cbn. rewrite !length_app, length_delete by (by apply lookup_lt_is_Some_2). lia.
Qed.

Lemma refs_cons nd m (b : list I) ri :
  nd_info nd !! m = Some b ->
  refs (with_info (<[m := ri :: b]> (nd_info nd)) nd) = refs nd + 1.
Proof.
  intros H. unfold refs. cbn. rewrite <- (take_drop_middle _ _ _ H) at 2.
  rewrite insert_take_drop by (by eapply lookup_lt_Some).
  rewrite !concat_app. cbn. rewrite !length_app. cbn. rewrite !length_app. lia.
Qed.

End Locks.

(* ------------------------------------------------------------------ *)
(** ** Traversal *)

(** The order of the traversal: a prefix comes before its extensions, and the
    0 branch before the 1 branch. *)
Fixpoint klt (a b : list bool) : bool :=
  match a, b with
  | [], [] => false
  | [], _ :: _ => true
  | _ :: _, [] => false
  | x :: a', y :: b' => if eqb x y then klt a' b' else y
  end.

Lemma klt_app k a b : klt (k ++ a) (k ++ b) = klt a b.
Proof. induction k as [|x k IH]; [done |]. cbn. by rewrite eqb_reflx. Qed.

Lemma klt_prefix a b : a `prefix_of` b -> a = b \/ klt a b = true.
Proof.
  intros [[|x r] ->]; [left; by rewrite app_nil_r | right].
  rewrite <- (app_nil_r a) at 1. by rewrite klt_app.
Qed.

Lemma klt_not_below a b : b `prefix_of` a -> klt a b = false.
Proof. intros [r ->]. rewrite <- (app_nil_r b) at 2. rewrite klt_app. by destruct r. Qed.

Lemma klt_branch k a b :
  (k ++ [false]) `prefix_of` a -> (k ++ [true]) `prefix_of` b -> klt a b = true /\ klt b a = false.
Proof. intros [r ->] [r' ->]. rewrite <- !app_assoc, !klt_app. done. Qed.

(** What lies outside the subtree of [k] compares alike with all of it. *)
Lemma klt_outside k a a' y :
  k `prefix_of` a -> k `prefix_of` a' -> ~ k `prefix_of` y -> klt a y = klt a' y.
Proof.
  intros [r ->] [r' ->]. revert y. induction k as [|x k IH]; intros y Hy.
  { exfalso. apply Hy. apply prefix_nil. }
  destruct y as [|z y]; cbn; [done |]. destruct (eqb x z) eqn:E; [| done].
  apply eqb_prop in E as ->. apply IH. intros H. apply Hy. by apply prefix_cons.
Qed.

Section Traversal.
Context {I : Type} (t : bgp_table I).
Hypothesis Hwf : wf_table t.
Implicit Types (nd : bgp_node I) (l : loc).

Lemma top_prefix l nd tl tn :
  t_heap t !! l = Some nd -> t_top t = Some tl -> t_heap t !! tl = Some tn ->
  nkey tn `prefix_of` nkey nd.
Proof.
  intros H Ht Htn. remember (length (nkey nd)) as n eqn:En. revert l nd H En.
  induction n as [n IH] using lt_wf_ind. intros l nd H ->.
  destruct (nd_parent nd) as [q|] eqn:Eq.
  - destruct (wt_parent t Hwf l nd q H Eq) as (nq & b & Hq & Hb).
    destruct (wt_child t Hwf q nq b l Hq Hb) as (nd' & H1 & _ & Hk).
    rewrite H in H1. injection H1 as <-.
    pose proof (child_longer t Hwf q nq b l nd Hq Hb H) as Hlt.
    etransitivity; [exact (IH _ Hlt q nq Hq eq_refl) | eapply prefix_app_l, Hk].
  - pose proof (wt_root t Hwf l nd H Eq) as E. rewrite Ht in E. injection E as <-.
    rewrite H in Htn. by injection Htn as <-.
Qed.

Lemma bit_unique {A} (k : list A) b b' (x : list A) :
  (k ++ [b]) `prefix_of` x -> (k ++ [b']) `prefix_of` x -> b = b'.
Proof.
  intros H1 H2. destruct (prefix_weak_total _ _ _ H1 H2) as [H|H]; apply prefix_length_eq in H;
    rewrite ?length_app; try (cbn; lia); by apply app_inj_tail in H as [_ ?].
Qed.

Lemma strict_snoc {A} (k x : list A) :
  k `prefix_of` x -> (length k < length x)%nat -> exists b, (k ++ [b]) `prefix_of` x.
Proof.
  intros [[|b r] ->] Hl; [rewrite app_nil_r in Hl; lia |].
  exists b, r. by rewrite <- app_assoc.
Qed.

Lemma keys_unique l1 n1 l2 n2 :
  t_heap t !! l1 = Some n1 -> t_heap t !! l2 = Some n2 -> nkey n1 = nkey n2 -> l1 = l2.
Proof.
  intros H1 H2 E. apply (covering_unique t Hwf (nd_p n2) (wt_prefix t Hwf l2 n2 H2) l1 n1 l2 n2);
    try done; [by rewrite E | by rewrite E].
Qed.

(** Every node below [nd] is below one of its children. *)
Lemma below_child l nd x nx b :
  t_heap t !! l = Some nd -> t_heap t !! x = Some nx -> (nkey nd ++ [b]) `prefix_of` nkey nx ->
  exists c nc, link nd b = Some c /\ t_heap t !! c = Some nc /\ nkey nc `prefix_of` nkey nx.
Proof.
  intros H Hx Hk. remember (length (nkey nx)) as n eqn:En. revert l nd x nx b H Hx Hk En.
  induction n as [n IH] using lt_wf_ind. intros l nd x nx b H Hx Hk ->.
  assert (Hlen : (length (nkey nd) < length (nkey nx))%nat).
  { apply prefix_length in Hk. rewrite length_app in Hk. cbn in Hk. lia. }
  destruct (nd_parent nx) as [q|] eqn:Eq.
  2: { pose proof (wt_root t Hwf x nx Hx Eq) as Ht.
       pose proof (top_prefix l nd x nx H Ht Hx) as Hp. apply prefix_length in Hp. lia. }
  destruct (wt_parent t Hwf x nx q Hx Eq) as (nq & b0 & Hq & Hb).
  destruct (wt_child t Hwf q nq b0 x Hq Hb) as (nx' & H1 & _ & Hkq).
  rewrite Hx in H1. injection H1 as <-.
  pose proof (child_longer t Hwf q nq b0 x nx Hq Hb Hx) as Hlt.
  assert (Kd : nkey nd `prefix_of` nkey nx) by (eapply prefix_app_l, Hk).
  assert (Kq : nkey nq `prefix_of` nkey nx) by (eapply prefix_app_l, Hkq).
  destruct (Nat.lt_trichotomy (length (nkey nq)) (length (nkey nd))) as [Hc|[Hc|Hc]].
  - exfalso. destruct (prefix_weak_total _ _ _ Kq Kd) as [Hp|Hp]; [| apply prefix_length in Hp; lia].
    destruct (strict_snoc _ _ Hp Hc) as [b1 Hb1].
    assert (b1 = b0) as -> by (eapply bit_unique; [etransitivity; [exact Hb1 | exact Kd] | exact Hkq]).
    destruct (IH _ Hlen q nq l nd b0 Hq H Hb1 eq_refl) as (c & nc & E1 & E2 & E3).
    rewrite Hb in E1. injection E1 as <-. rewrite Hx in E2. injection E2 as <-.
    apply prefix_length in E3. lia.
  - assert (nkey nq = nkey nd) as Ek.
    { destruct (prefix_weak_total _ _ _ Kq Kd) as [Hp|Hp]; apply prefix_length_eq in Hp; (done || lia). }
    assert (q = l) as -> by (by apply (keys_unique q nq l nd)). rewrite H in Hq. injection Hq as <-.
    assert (b0 = b) as -> by (by eapply bit_unique). by exists x, nx.
  - destruct (prefix_weak_total _ _ _ Kq Kd) as [Hp|Hp]; [apply prefix_length in Hp; lia |].
    destruct (strict_snoc _ _ Hp Hc) as [b1 Hb1].
    assert (b1 = b) as -> by (eapply bit_unique; [etransitivity; [exact Hb1 | exact Kq] | exact Hk]).
    destruct (IH _ Hlt l nd q nq b H Hq Hb1 eq_refl) as (c & nc & E1 & E2 & E3).
    exists c, nc. split_and!; try done. by etransitivity.
Qed.

(** The three places a node that comes after [nd] can be in. *)
Lemma after_cases l nd y ny :
  t_heap t !! l = Some nd -> t_heap t !! y = Some ny -> klt (nkey nd) (nkey ny) = true ->
  (exists b c nc, link nd b = Some c /\ t_heap t !! c = Some nc /\ nkey nc `prefix_of` nkey ny /\
     (nkey nd ++ [b]) `prefix_of` nkey ny) \/
  ~ nkey nd `prefix_of` nkey ny.
Proof.
  intros H Hy Hlt. destruct (decide (nkey nd `prefix_of` nkey ny)) as [Hp|]; [left | by right].
  destruct (klt_prefix _ _ Hp) as [E|_]; [rewrite E, klt_not_below in Hlt; done |].
  assert (Hl : (length (nkey nd) < length (nkey ny))%nat).
  { pose proof (prefix_length _ _ Hp). destruct (decide (length (nkey nd) = length (nkey ny))) as [E|]; [| lia].
    pose proof (prefix_length_eq _ _ Hp ltac:(lia)) as E'. by rewrite E', klt_not_below in Hlt. }
  destruct (strict_snoc _ _ Hp Hl) as [b Hb].
  destruct (below_child l nd y ny b H Hy Hb) as (c & nc & E1 & E2 & E3). by exists b, c, nc.
Qed.

(** [z] is the first node after [k] among those satisfying [P]. *)
Definition first_after (P : bgp_node I -> Prop) (k : list bool) (o : option loc) : Prop :=
  match o with
  | Some z => exists nz, t_heap t !! z = Some nz /\ klt k (nkey nz) = true /\ P nz /\
      forall y ny, t_heap t !! y = Some ny -> P ny -> klt k (nkey ny) = true ->
        y = z \/ klt (nkey nz) (nkey ny) = true
  | None => forall y ny, t_heap t !! y = Some ny -> P ny -> klt k (nkey ny) = false
  end.

Lemma first_in_subtree z nz y ny :
  t_heap t !! z = Some nz -> t_heap t !! y = Some ny -> nkey nz `prefix_of` nkey ny ->
  y = z \/ klt (nkey nz) (nkey ny) = true.
Proof.
  intros Hz Hy Hp. destruct (klt_prefix _ _ Hp) as [E|E]; [left | by right].
  symmetry. by apply (keys_unique z nz y ny).
Qed.

Lemma next_up_spec fuel : forall l nd,
  t_heap t !! l = Some nd -> (length (nkey nd) < fuel)%nat ->
  exists o, next_up fuel t l = Ok o /\
    first_after (fun ny => ~ nkey nd `prefix_of` nkey ny) (nkey nd) o.
Proof.
  induction fuel as [|f IH]; intros l nd H Hf; [lia |]. cbn [next_up].
  rewrite (get_node_Ok t l nd H). cbn [mbind res_bind].
  destruct (nd_parent nd) as [q|] eqn:Eq.
  2: { exists None. split; [done |]. intros y ny Hy Hn. exfalso. apply Hn.
       apply (top_prefix y ny l nd); try done. by apply (wt_root t Hwf l nd). }
  destruct (wt_parent t Hwf l nd q H Eq) as (nq & b & Hq & Hb).
  destruct (wt_child t Hwf q nq b l Hq Hb) as (nd' & H1 & _ & Hk).
  rewrite H in H1. injection H1 as <-.
  pose proof (child_longer t Hwf q nq b l nd Hq Hb H) as Hlt.
  rewrite (get_node_Ok t q nq Hq). cbn [mbind res_bind].
  assert (Kq : nkey nq `prefix_of` nkey nd) by (eapply prefix_app_l, Hk).
  assert (Hup : forall o,
    (forall c nc y ny, link nq (negb b) = Some c -> t_heap t !! c = Some nc -> t_heap t !! y = Some ny ->
       nkey nc `prefix_of` nkey ny -> (nkey nq ++ [negb b]) `prefix_of` nkey ny ->
       klt (nkey nd) (nkey ny) = false) ->
    first_after (fun ny => ~ nkey nq `prefix_of` nkey ny) (nkey nq) o ->
    first_after (fun ny => ~ nkey nd `prefix_of` nkey ny) (nkey nd) o).
  { intros o Hside Ho.
    assert (Hout : forall y ny, t_heap t !! y = Some ny -> ~ nkey nd `prefix_of` nkey ny ->
      klt (nkey nd) (nkey ny) = true -> ~ nkey nq `prefix_of` nkey ny).
    { intros y ny Hy Hny Hly Hp. destruct (klt_prefix _ _ Hp) as [E|E].
      { rewrite <- E, klt_not_below in Hly; done. }
      destruct (after_cases q nq y ny Hq Hy E) as [(b1 & c & nc & G1 & G2 & G3 & G4)|Hn]; [| done].
      destruct (decide (b1 = b)) as [->|Hne].
      - rewrite Hb in G1. injection G1 as <-. rewrite H in G2. injection G2 as <-. done.
      - assert (b1 = negb b) as -> by (destruct b1, b; naive_solver).
        rewrite (Hside c nc y ny) in Hly; done. }
    destruct o as [z|]; cbn in *.
    - destruct Ho as (nz & Hz & Hlz & Hnz & Hmin). exists nz.
      rewrite (klt_outside (nkey nq) (nkey nd) (nkey nq)) by done. split_and!; try done.
      + intros Hp. apply Hnz. by etransitivity.
      + intros y ny Hy Hny Hly. pose proof (Hout y ny Hy Hny Hly) as Hq'.
        apply Hmin; try done. by rewrite (klt_outside (nkey nq) (nkey nq) (nkey nd)).
    - intros y ny Hy Hny. destruct (klt (nkey nd) (nkey ny)) eqn:E; [| done].
      pose proof (Hout y ny Hy Hny E) as Hq'.
      rewrite (klt_outside (nkey nq) (nkey nd) (nkey nq)) in E by done.
      by rewrite (Ho y ny) in E. }
  destruct (IH q nq Hq ltac:(lia)) as (o & Eo & Ho).
  destruct (l_right nq) as [r|] eqn:Er.
  2: { exists o. split; [done |]. apply Hup; [| done]. intros c nc y ny Hc.
       destruct b; cbn in *; [| congruence]. intros _ _ _ Hy. by apply (klt_branch (nkey nq)). }
  case_bool_decide as El.
  - assert (b = false) as ->.
    { destruct b; [| done]. exfalso. cbn in Hb.
      destruct (wt_child t Hwf q nq false l Hq El) as (n0 & G1 & _ & G3).
      rewrite H in G1. injection G1 as <-. by pose proof (bit_unique _ _ _ _ Hk G3). }
    destruct (wt_child t Hwf q nq true r Hq Er) as (nr & Hr & _ & Hkr).
    exists (Some r). split; [done |]. exists nr. split_and!; try done.
    + by apply (klt_branch (nkey nq)).
    + intros Hp. assert (false = true); [| done].
      eapply (bit_unique (nkey nq)); [etransitivity; [exact Hk | exact Hp] | exact Hkr].
    + intros y ny Hy Hny Hly. destruct (decide (nkey nq `prefix_of` nkey ny)) as [Hp|Hp].
      * destruct (klt_prefix _ _ Hp) as [E|E]; [rewrite <- E, klt_not_below in Hly; done |].
        destruct (after_cases q nq y ny Hq Hy E) as [([] & c & nc & G1 & G2 & G3 & G4)|]; [| | done].
        -- cbn in G1. rewrite Er in G1. injection G1 as <-. rewrite Hr in G2. injection G2 as <-.
           by apply first_in_subtree.
        -- rewrite Hb in G1. injection G1 as <-. rewrite H in G2. injection G2 as <-. done.
      * right. rewrite <- (klt_outside (nkey nq) (nkey nd) (nkey nr)); try done.
        eapply prefix_app_l, Hkr.
  - exists o. split; [done |]. apply Hup; [| done]. intros c nc y ny Hc.
    destruct b; cbn in *; [| congruence]. intros _ _ _ Hy. by apply (klt_branch (nkey nq)).
Qed.

(** The node [bgp_route_next] moves to. *)
Lemma next_node l nd :
  t_heap t !! l = Some nd ->
  exists o, match l_left nd with
            | Some c => Ok (Some c)
            | None => match l_right nd with
                      | Some c => Ok (Some c)
                      | None => next_up walk_fuel t l
                      end
            end = Ok o /\ first_after (fun _ => True) (nkey nd) o.
Proof.
  intros H.
  assert (Hchild : forall b c, link nd b = Some c -> (b = true -> l_left nd = None) ->
    first_after (fun _ => True) (nkey nd) (Some c)).
  { intros b c Hc Hleft. destruct (wt_child t Hwf l nd b c H Hc) as (nc & H1 & _ & Hk).
    assert (Kc : nkey nd `prefix_of` nkey nc) by (eapply prefix_app_l, Hk).
    exists nc. split_and!; try done.
    - destruct (klt_prefix _ _ Kc) as [E|]; [| done].
      pose proof (child_longer t Hwf l nd b c nc H Hc H1). rewrite E in *. lia.
    - intros y ny Hy _ Hly.
      destruct (after_cases l nd y ny H Hy Hly) as [(b1 & c1 & n1 & G1 & G2 & G3 & G4)|Hn].
      + destruct b, b1; cbn in *.
        * assert (c1 = c) as -> by congruence. assert (n1 = nc) as -> by congruence. by apply first_in_subtree.
        * rewrite Hleft in G1; done.
        * right. by apply (klt_branch (nkey nd)).
        * assert (c1 = c) as -> by congruence. assert (n1 = nc) as -> by congruence. by apply first_in_subtree.
      + right. by rewrite <- (klt_outside (nkey nd) (nkey nd) (nkey nc)). }
  destruct (l_left nd) as [c|] eqn:El.
  { exists (Some c). split; [done |]. by apply (Hchild false). }
  destruct (l_right nd) as [c|] eqn:Er.
  { exists (Some c). split; [done |]. by apply (Hchild true). }
  destruct (node_len t Hwf l nd H) as [Hl Hr].
  destruct (next_up_spec walk_fuel l nd H) as (o & E & Ho); [unfold walk_fuel; lia |].
  exists o. split; [done |].
  assert (Hout : forall y ny, t_heap t !! y = Some ny -> klt (nkey nd) (nkey ny) = true ->
    ~ nkey nd `prefix_of` nkey ny).
  { intros y ny Hy Hly. destruct (after_cases l nd y ny H Hy Hly) as [([] & c & nc & G & _)|Hn];
      [by cbn in G; rewrite Er in G | by cbn in G; rewrite El in G | done]. }
  clear E. destruct o as [z|].
  - destruct Ho as (nz & Hz & Hlz & Hnz & Hmin). exists nz. split_and!; try done.
    intros y ny Hy _ Hly. by apply Hmin; [| eapply Hout |].
  - intros y ny Hy _. destruct (klt (nkey nd) (nkey ny)) eqn:Ely; [| done].
    rewrite (Ho y ny Hy) in Ely; [done | by eapply Hout].
Qed.

End Traversal.

(* ------------------------------------------------------------------ *)
(** ** Destruction of the whole table *)

Section Destruction.
Context {I : Type}.
Implicit Types (t : bgp_table I) (nd : bgp_node I) (l : loc).

Lemma no_top_empty t : wf_table t -> t_top t = None -> t_heap t = ∅.
Proof.
  intros Hwf Ht. apply map_empty. intros l.
  destruct (t_heap t !! l) as [nd|] eqn:H; [exfalso | done].
  remember (length (nkey nd)) as n eqn:En. revert l nd H En.
  induction n as [n IH] using lt_wf_ind. intros l nd H ->.
  destruct (nd_parent nd) as [q|] eqn:Eq.
  - destruct (wt_parent t Hwf l nd q H Eq) as (nq & b & Hq & Hb).
    exact (IH _ (child_longer t Hwf q nq b l nd Hq Hb H) q nq Hq eq_refl).
  - pose proof (wt_root t Hwf l nd H Eq). congruence.
Qed.

(** Freeing a leaf, as the loop does it. *)
Lemma free_leaf t l nd :
  wf_table t -> t_heap t !! l = Some nd -> l_left nd = None -> l_right nd = None ->
  exists h, (match nd_parent nd with
     | Some q => t0 ← bgp_node_free (with_count (u64 (t_count t - 1)) t) l;
                 upd_node t0 q (fun nq => with_link (negb (bool_decide (l_left nq = Some l))) None nq)
     | None => bgp_node_free (with_count (u64 (t_count t - 1)) t) l
     end) = Ok (with_count (u64 (t_count t - 1)) (with_heap h t)) /\
    let top := match nd_parent nd with Some _ => t_top t | None => None end in
    let t1 := with_top top (with_count (u64 (t_count t - 1)) (with_heap h t)) in
    wf_table t1 /\ size (t_heap t) = S (size h) /\
    (forall q, nd_parent nd = Some q -> exists nq, t_heap t1 !! q = Some nq) /\
    (nd_parent nd = None -> h = ∅).
Proof.
  intros Hwf H Hl Hr. unfold bgp_node_free. rewrite (get_node_Ok _ l nd) by exact H.
  cbn [mbind res_bind].
  set (b := match nd_parent nd with
            | Some q => match t_heap t !! q with
                        | Some nq => negb (bool_decide (l_left nq = Some l)) | None => false end
            | None => false end).
  assert (Hpar : forall q, nd_parent nd = Some q -> exists nq, t_heap t !! q = Some nq /\ q <> l /\
    link nq b = Some l /\ b = negb (bool_decide (l_left nq = Some l))).
  { intros q Eq. destruct (wt_parent t Hwf l nd q H Eq) as (nq & b0 & Hq & Hlk).
    pose proof (child_longer t Hwf q nq b0 l nd Hq Hlk H) as Hlt. exists nq.
    assert (Eb : b = negb (bool_decide (l_left nq = Some l))) by (unfold b; by rewrite Eq, Hq).
    split_and!; try done.
    - intros ->. rewrite H in Hq. injection Hq as ->. lia.
    - rewrite Eb. case_bool_decide; cbn; [done |]. by destruct b0. }
  set (h := match nd_parent nd with
            | Some q => alter (with_link b None) q (delete l (t_heap t))
            | None => delete l (t_heap t) end).
  exists h. split.
  { unfold h. destruct (nd_parent nd) as [q|] eqn:Eq; [| by destruct t].
    destruct (Hpar q eq_refl) as (nq & Hq & Hne & _ & Eb).
    rewrite (upd_node_Ok _ q _ nq) by (cbn; by rewrite lookup_delete_ne).
    unfold with_count, with_heap. cbn. do 2 f_equal. rewrite <- Eb. apply map_eq. intros x.
    destruct (decide (x = q)) as [->|].
    - by rewrite lookup_insert_eq, lookup_alter_eq, lookup_delete_ne, Hq.
    - by rewrite lookup_insert_ne, lookup_alter_ne. }
  set (top := match nd_parent nd with Some _ => t_top t | None => None end).
  set (t1 := with_top top _).
  assert (Hoc : only_child nd = None) by (unfold only_child; by rewrite Hl, Hr).
  assert (Hh : forall x, t_heap t1 !! x =
    if decide (x = l) then None
    else if decide (Some x = only_child nd) then with_parent (nd_parent nd) <$> t_heap t !! x
    else if decide (Some x = nd_parent nd) then with_link b (only_child nd) <$> t_heap t !! x
    else t_heap t !! x).
  { intros x. rewrite Hoc. cbn. unfold h. rewrite (decide_False (P := Some x = None)) by done.
    destruct (nd_parent nd) as [q|] eqn:Eq.
    - destruct (Hpar q eq_refl) as (nq & Hq & Hne & _).
      destruct (decide (x = l)) as [->|]; [by rewrite lookup_alter_ne, lookup_delete_eq by done |].
      destruct (decide (Some x = Some q)) as [[= ->]|].
      + by rewrite lookup_alter_eq, lookup_delete_ne by done.
      + by rewrite lookup_alter_ne, lookup_delete_ne by congruence.
    - rewrite (decide_False (P := Some x = None)) by done.
      destruct (decide (x = l)) as [->|]; [by rewrite lookup_delete_eq | by rewrite lookup_delete_ne]. }
  assert (Hb : forall q nq, nd_parent nd = Some q -> t_heap t !! q = Some nq -> link nq b = Some l).
  { intros q nq Eq Hq. destruct (Hpar q Eq) as (nq' & Hq' & _ & Hlk & _). congruence. }
  assert (Hwf1 : wf_table t1).
  { apply (wf_remove t t1 l nd b); try done; [by left |]. unfold t1, top. cbn. rewrite Hoc. done. }
  split_and!; try done.
  - apply (size_grows h (t_heap t) l); [change h with (t_heap t1); rewrite (Hh l); by rewrite decide_True |].
    intros x. split.
    + intros [nx Hx]. destruct (decide (x = l)) as [->|Hne]; [by left | right].
      destruct (rm_survives t t1 l nd b Hh x nx Hx Hne) as (? & ? & _). eauto.
    + intros [->|[nx Hx]]; [eauto |].
      destruct (rm_lookup t t1 l nd b Hwf H Hh x nx Hx) as (_ & ? & ? & _). eauto.
  - intros q Eq. destruct (Hpar q Eq) as (nq & Hq & Hne & _).
    destruct (rm_survives t t1 l nd b Hh q nq Hq Hne) as (nq' & ? & _). eauto.
  - intros Eq. apply (no_top_empty t1 Hwf1). unfold t1, top. by rewrite Eq.
Qed.

Lemma table_free_loop_spec fuel : forall t l nd,
  wf_table t -> t_heap t !! l = Some nd ->
  (257 * size (t_heap t) < fuel + length (nkey nd))%nat ->
  exists t', table_free_loop fuel t (Some l) = Ok t' /\ t_heap t' = ∅ /\ t_count t' = 0.
Proof.
  induction fuel as [|f IH]; intros t l nd Hwf H Hf.
  { destruct (node_len t Hwf l nd H) as [Hl Hr]. exfalso.
    assert (size (t_heap t) <> 0%nat) by (apply map_size_non_empty_iff; intros E; by rewrite E in H).
    lia. }
  cbn [table_free_loop]. rewrite (get_node_Ok t l nd H). cbn [mbind res_bind].
  assert (Hdown : forall b c, link nd b = Some c ->
    exists t', table_free_loop f t (Some c) = Ok t' /\ t_heap t' = ∅ /\ t_count t' = 0).
  { intros b c Hc. destruct (wt_child t Hwf l nd b c H Hc) as (nc & H1 & _).
    apply (IH t c nc Hwf H1). pose proof (child_longer t Hwf l nd b c nc H Hc H1). lia. }
  destruct (l_left nd) as [c|] eqn:El; [by apply (Hdown false) |].
  destruct (l_right nd) as [c|] eqn:Er; [by apply (Hdown true) |].
  destruct (free_leaf t l nd Hwf H El Er) as (h & E & Hwf1 & Hs & Hq & He). cbv zeta in Hwf1, Hq.
  destruct (node_len t Hwf l nd H) as [Hl Hr].
  destruct (nd_parent nd) as [q|] eqn:Eq.
  - destruct (bgp_node_free _ l) as [t0|]; [| done]. cbn [mbind res_bind] in E |- *.
    rewrite E. cbn [mbind res_bind]. destruct (Hq q eq_refl) as (nq & Hnq).
    assert (with_top (t_top t) (with_count (u64 (t_count t - 1)) (with_heap h t)) =
            with_count (u64 (t_count t - 1)) (with_heap h t)) as Et by (by destruct t).
    rewrite Et in *. apply (IH _ q nq Hwf1 Hnq). cbn [t_heap with_count with_heap]. lia.
  - rewrite E. cbn [mbind res_bind].
    exists (with_count (u64 (t_count t - 1)) (with_heap h t)). split; [done |].
    assert (h = ∅) as -> by (by apply He).
    split; [done |]. pose proof (wt_count _ Hwf1) as Hc. cbn in Hc |- *.
    by rewrite Hc, map_size_empty.
Qed.

End Destruction.

(* ------------------------------------------------------------------ *)
(** ** The invariant, as a check that can be run *)

Section Checker.
Context {I : Type}.
Implicit Types (t : bgp_table I) (nd : bgp_node I) (l : loc).

Definition wf_prefixb (p : prefix) : bool :=
  ((family p =? AF_INET) || (family p =? AF_INET6)) &&
  (0 <=? prefixlen p) && (prefixlen p <=? max_prefixlen (family p)) &&
  bool_decide (length (addr p) = 16%nat) && forallb (fun b => (0 <=? b) && (b <? 2 ^ 8)) (addr p).

Definition wf_nodeb t l nd : bool :=
  wf_prefixb (nd_p nd) &&
  forallb (fun b => match link nd b with
    | Some c => match t_heap t !! c with
                | Some nc => bool_decide (nd_parent nc = Some l) &&
                             bool_decide ((nkey nd ++ [b]) `prefix_of` nkey nc)
                | None => false
                end
    | None => true
    end) [false; true] &&
  match nd_parent nd with
  | Some q => match t_heap t !! q with
              | Some nq => bool_decide (l_left nq = Some l) || bool_decide (l_right nq = Some l)
              | None => false
              end
  | None => bool_decide (t_top t = Some l)
  end && bool_decide (l < t_next t)%positive.

Definition all_nodes (f : loc -> bgp_node I -> bool) t : bool :=
  forallb (fun '(l, nd) => f l nd) (map_to_list (t_heap t)).

Definition wf_tableb t : bool :=
  all_nodes (wf_nodeb t) t &&
  match t_top t with
  | Some l => match t_heap t !! l with
              | Some nd => bool_decide (nd_parent nd = None)
              | None => false
              end
  | None => true
  end && (t_count t =? u64 (Z.of_nat (size (t_heap t)))).

Lemma all_nodes_spec f t :
  all_nodes f t = true -> forall l nd, t_heap t !! l = Some nd -> f l nd = true.
Proof.
  unfold all_nodes. rewrite forallb_forall. intros H l nd Hl%elem_of_map_to_list%list_elem_of_In.
  exact (H _ Hl).
Qed.

Lemma wf_prefixb_spec p : wf_prefixb p = true -> wf_prefix p.
Proof.
  unfold wf_prefixb. rewrite !andb_true_iff, orb_true_iff, !Z.eqb_eq, !Z.leb_le, bool_decide_eq_true.
  intros ((((H1 & H2) & H3) & H4) & H5). split; [done | lia | done |].
  apply Forall_forall. intros x Hx%list_elem_of_In. rewrite forallb_forall in H5.
  apply H5, andb_prop in Hx as [? ?]. unfold in_u. lia.
Qed.

Lemma wf_tableb_spec t : wf_tableb t = true -> wf_table t.
Proof.
  unfold wf_tableb. rewrite !andb_true_iff. intros ((Hn & Ht) & Hc).
  pose proof (all_nodes_spec _ _ Hn) as H. clear Hn.
  assert (Hnode : forall l nd, t_heap t !! l = Some nd ->
    wf_prefix (nd_p nd) /\ (forall b c, link nd b = Some c -> exists nc, t_heap t !! c = Some nc /\
      nd_parent nc = Some l /\ (nkey nd ++ [b]) `prefix_of` nkey nc) /\
    (forall q, nd_parent nd = Some q -> exists nq b, t_heap t !! q = Some nq /\ link nq b = Some l) /\
    (nd_parent nd = None -> t_top t = Some l) /\ (l < t_next t)%positive).
  { intros l nd Hl. specialize (H l nd Hl). unfold wf_nodeb in H. rewrite !andb_true_iff in H.
    destruct H as (((H1 & H2) & H3) & H4). rewrite bool_decide_eq_true in H4.
    split_and!; [by apply wf_prefixb_spec | | | | done].
    - intros b c Hb. rewrite forallb_forall in H2.
      specialize (H2 b ltac:(destruct b; cbn; tauto)). rewrite Hb in H2.
      destruct (t_heap t !! c) as [nc|]; [| done]. apply andb_prop in H2 as [G1 G2].
      rewrite !bool_decide_eq_true in *. by exists nc.
    - intros q Hq. rewrite Hq in H3. destruct (t_heap t !! q) as [nq|]; [| done].
      apply orb_prop in H3 as [G|G]; rewrite bool_decide_eq_true in G;
        [by exists nq, false | by exists nq, true].
    - intros Hq. rewrite Hq, bool_decide_eq_true in H3. done. }
  split; try (intros; by edestruct Hnode as (? & ? & ? & ? & ?); eauto).
  - intros l Hl. rewrite Hl in Ht. destruct (t_heap t !! l) as [nd|]; [| done].
    rewrite bool_decide_eq_true in Ht. by exists nd.
  - by apply Z.eqb_eq.
Qed.

Definition heldb t : bool :=
  all_nodes (fun _ nd => (refs nd <=? nd_lock nd) && (nd_lock nd <? 2 ^ 32)) t.

Lemma heldb_spec t : heldb t = true -> held t.
Proof.
  intros H l nd Hl. pose proof (all_nodes_spec _ _ H l nd Hl) as Hb. cbn beta in Hb.
  apply andb_prop in Hb as [? ?]. lia.
Qed.

End Checker.

(* ------------------------------------------------------------------ *)
(** ** Theorems *)

(** The steps of the theorems below, which other components use. *)
Lemma node_get_steps {I} dbs past peer bms (t : bgp_table I) (p : prefix) :
  bgp_select_misc_db dbs (type peer) = Some bms -> wf_table t -> wf_prefix p ->
  exists t' l nd, bgp_node_get dbs past peer t p = Ok (t', l) /\ wf_table t' /\
    t_heap t' !! l = Some nd /\ nkey nd = key p /\
    nd_lock nd = lock_up bms (default 0 (nd_lock <$> t_heap t !! l)) /\
    (forall x nx, t_heap t !! x = Some nx -> (nkey nx = key p -> x = l) /\
       exists nx', t_heap t' !! x = Some nx' /\ nd_p nx' = nd_p nx /\
         nd_info nx' = nd_info nx /\ (x <> l -> nd_lock nx' = nd_lock nx)) /\
    (forall x nx', t_heap t' !! x = Some nx' -> t_heap t !! x = None ->
       nd_info nx' = replicate (info_buckets bms) [] /\ (x <> l -> nd_lock nx' = 0)).
Proof.
  intros Hb Hwf Hp.
  destruct (bgp_node_get_cases dbs past peer bms Hb t p Hwf Hp)
    as [(l & nd & H & Hk & E)|(Hno & t1 & l & nd & Hwf1 & Hext & Hl0 & Hl & Hk & E)].
  - destruct (get_finish dbs peer bms Hb t t l nd p Hwf (extends_refl bms t) H Hk)
      as (t' & nd' & El & Hwf' & Hl' & Hk' & Hlk & Hi & Hold & Hnew).
    exists t', l, nd'. rewrite E, El. split_and!; try done; [by rewrite H |].
    intros x nx Hx. split; [| by apply Hold]. intros Hkx.
    apply (covering_unique t Hwf p Hp x nx l nd); rewrite ?Hkx, ?Hk; done.
  - destruct (get_finish dbs peer bms Hb t t1 l nd p Hwf1 Hext Hl Hk)
      as (t' & nd' & El & Hwf' & Hl' & Hk' & Hlk & Hi & Hold & Hnew).
    exists t', l, nd'. rewrite E, El. split_and!; try done.
    + rewrite Hl0, Hlk. f_equal. by destruct (proj2 Hext l nd Hl Hl0).
    + intros x nx Hx. split; [| by apply Hold]. intros Hkx. by destruct (Hno x nx Hx).
Qed.

(** C2. [bgp_node_get] never faults on a well-formed table: it returns the one
    node whose key is the prefix, locked once more; the node is reused when
    the prefix is already in the table; every node that was there keeps its
    prefix, its route information and its locks; nodes that are added (the
    leaf and possibly an inner node) carry no route information; and the table
    is well formed again, with its [count] the number of its nodes. *)
Theorem bgp_node_get_spec {I} dbs past peer bms (t : bgp_table I) (p : prefix) :
  bgp_select_misc_db dbs (type peer) = Some bms -> wf_table t -> wf_prefix p ->
  exists t' l nd, bgp_node_get dbs past peer t p = Ok (t', l) /\ wf_table t' /\
    t_heap t' !! l = Some nd /\ nkey nd = key p /\
    nd_lock nd = lock_up bms (default 0 (nd_lock <$> t_heap t !! l)) /\
    (forall x nx, t_heap t !! x = Some nx -> (nkey nx = key p -> x = l) /\
       exists nx', t_heap t' !! x = Some nx' /\ nd_p nx' = nd_p nx /\
         nd_info nx' = nd_info nx /\ (x <> l -> nd_lock nx' = nd_lock nx)) /\
    (forall x nx', t_heap t' !! x = Some nx' -> t_heap t !! x = None ->
       nd_info nx' = replicate (info_buckets bms) [] /\ (x <> l -> nd_lock nx' = 0)).
Proof. apply node_get_steps. Qed.

(** C3. [bgp_node_match] is longest-prefix match: with a callback whose verdict
    depends on the route information, the node it returns covers the address,
    holds a matching entry in the buckets that are searched, and no covering
    node with a matching entry has a longer prefix; it returns no node only
    when there is none.  The byte [check_bit] reads after a full-length
    address never matters.  The node found is locked, the table is otherwise
    unchanged. *)
Theorem bgp_node_match_longest {I S2} dbs past modulo_func (cmp_func : I -> S2 -> Z * S2)
    (ok : I -> bool) peer bms (t : bgp_table I) (p : prefix) (s : S2) :
  let max := Z.to_nat (snd (match_buckets bms)) in
  let modulo := match modulo_func with Some f => f peer s (fst (match_buckets bms)) | None => 0 end in
  bgp_select_misc_db dbs (type peer) = Some bms -> wf_table t -> wf_prefix p ->
  (forall i s, fst (cmp_func i s) = 0 <-> ok i = true) ->
  0 <= modulo -> modulo + Z.of_nat max < 2 ^ 32 ->
  (forall l nd, t_heap t !! l = Some nd -> (Z.to_nat modulo + max <= length (nd_info nd))%nat) ->
  exists t' r s',
    bgp_node_match dbs past modulo_func cmp_func (Some t) p (Some peer) s false =
      Ok (Some (t', mk_ms r None s')) /\
    match r with
    | Some (l, i) => exists nd, t_heap t !! l = Some nd /\ nkey nd `prefix_of` key p /\
        i ∈ candidates max modulo nd /\ ok i = true /\
        (forall l' nd' i', t_heap t !! l' = Some nd' -> nkey nd' `prefix_of` key p ->
          i' ∈ candidates max modulo nd' -> ok i' = true ->
          (length (nkey nd') <= length (nkey nd))%nat) /\
        t' = with_heap (<[l := with_lock (lock_up bms (nd_lock nd)) nd]> (t_heap t)) t
    | None => t' = t /\ forall l' nd' i', t_heap t !! l' = Some nd' ->
          nkey nd' `prefix_of` key p -> i' ∈ candidates max modulo nd' -> ok i' = false
    end.
Proof.
  intros max modulo Hb Hwf Hp Hcmp H0 H1 Hinfo.
  destruct (match_walk_top past cmp_func ok Hcmp t p max modulo (mk_ms None None s))
    as (st & E & Eb & Hr); try done.
  unfold bgp_node_match. rewrite Hb. destruct (match_buckets bms) as [b m] eqn:Em.
  cbn [fst snd] in *. fold modulo. fold max. rewrite E. cbn [mbind res_bind].
  destruct st as [r bnv s']. cbn [ms_matched ms_bnv] in *. subst bnv.
  destruct r as [[l i]|].
  - destruct Hr as (nd & H & Hk & Hi & Hok & Hmax).
    destruct (bgp_lock_node_Ok dbs peer bms Hb t l nd H) as (k & Ek & ->). rewrite Ek.
    cbn [mbind res_bind]. eexists _, (Some (l, i)), s'. split; [done |]. exists nd. done.
  - exists t, None, s'. done.
Qed.

(** [bgp_unlock_node] on a table whose locks cover its route information
    (the caller holding one lock more): it never fails an assertion of
    [bgp_node_delete], the result is well formed, every node somebody still
    holds survives with its prefix, information and lock count, and whatever
    is freed was held by nobody. *)
Theorem bgp_unlock_node_spec {I} dbs peer bms (t : bgp_table I) l nd :
  bgp_select_misc_db dbs (type peer) = Some bms -> is_readonly bms = false ->
  wf_table t -> held t -> t_heap t !! l = Some nd -> refs nd < nd_lock nd ->
  exists t', bgp_unlock_node dbs peer t l = Ok t' /\ wf_table t' /\ held t' /\
    shrinks (put t l (with_lock (nd_lock nd - 1) nd)) t'.
Proof.
  intros Hb Hro Hwf Hh H Hr. pose proof (Hh l nd H).
  apply (unlock_put dbs peer bms Hb t l nd); try done; [| lia]. intros x nx _. apply Hh.
Qed.

Lemma info_delete_steps {I} dbs peer bms (t : bgp_table I) rn nd modulo infos k :
  bgp_select_misc_db dbs (type peer) = Some bms -> is_readonly bms = false ->
  wf_table t -> held t -> t_heap t !! rn = Some nd ->
  nd_info nd !! Z.to_nat modulo = Some infos -> (k < length infos)%nat ->
  exists t', bgp_info_delete dbs peer t rn k modulo = Ok t' /\ wf_table t' /\ held t' /\
    shrinks (put t rn (with_lock (nd_lock nd - 1)
      (with_info (<[Z.to_nat modulo := delete k infos]> (nd_info nd)) nd))) t'.
Proof.
  intros Hb Hro Hwf Hh H Hi Hk. unfold bgp_info_delete.
  rewrite (get_node_Ok t rn nd H). cbn [mbind res_bind]. rewrite Hi. cbn [mbind res_bind].
  destruct (lookup_lt_is_Some_2 infos k Hk) as [ri Hri]. rewrite Hri. cbn [deref mbind res_bind].
  rewrite (upd_node_Ok t rn _ nd H). cbn [mbind res_bind].
  set (nd1 := with_info _ nd). fold (put t rn nd1).
  pose proof (refs_delete nd _ infos k Hi Hk) as Hr. fold nd1 in Hr. pose proof (Hh rn nd H).
  destruct (unlock_put dbs peer bms Hb (put t rn nd1) rn nd1) as (t' & E & Hwf' & Hh' & Hs); try done.
  - by apply (put_wf t rn nd).
  - cbn. by rewrite lookup_insert_eq.
  - intros x nx Hx. cbn. rewrite lookup_insert_ne by done. apply Hh.
  - change (nd_lock nd1) with (nd_lock nd). lia.
  - exists t'. split_and!; try done. unfold put, with_heap in Hs |- *. cbn in Hs.
    by rewrite insert_insert_eq in Hs.
Qed.

(** [bgp_info_delete] of an attached entry: it never faults, the entry's
    lock goes with it, locks keep covering the route information, and all
    other held nodes are untouched. *)
Theorem bgp_info_delete_spec {I} dbs peer bms (t : bgp_table I) rn nd modulo infos k :
  bgp_select_misc_db dbs (type peer) = Some bms -> is_readonly bms = false ->
  wf_table t -> held t -> t_heap t !! rn = Some nd ->
  nd_info nd !! Z.to_nat modulo = Some infos -> (k < length infos)%nat ->
  exists t', bgp_info_delete dbs peer t rn k modulo = Ok t' /\ wf_table t' /\ held t' /\
    shrinks (put t rn (with_lock (nd_lock nd - 1)
      (with_info (<[Z.to_nat modulo := delete k infos]> (nd_info nd)) nd))) t'.
Proof. apply info_delete_steps. Qed.

Lemma info_add_steps {I} dbs peer bms (t : bgp_table I) rn nd modulo infos (ri : I) plock :
  bgp_select_misc_db dbs (type peer) = Some bms -> is_readonly bms = false ->
  wf_table t -> held t -> t_heap t !! rn = Some nd -> nd_lock nd < 2 ^ 32 - 1 ->
  nd_info nd !! Z.to_nat modulo = Some infos ->
  let t' := put t rn (with_lock (nd_lock nd + 1)
              (with_info (<[Z.to_nat modulo := ri :: infos]> (nd_info nd)) nd)) in
  bgp_info_add dbs peer t rn ri modulo plock = Ok (t', s32 (plock + 1)) /\
  wf_table t' /\ held t'.
Proof.
  intros Hb Hro Hwf Hh H Hk Hi t'. unfold bgp_info_add.
  rewrite (get_node_Ok t rn nd H). cbn [mbind res_bind]. rewrite Hi. cbn [mbind res_bind].
  rewrite (upd_node_Ok t rn _ nd H). cbn [mbind res_bind].
  set (nd1 := with_info _ nd). pose proof (Hh rn nd H).
  pose proof (refs_cons nd _ infos ri Hi) as Hr. fold nd1 in Hr.
  assert (0 <= refs nd) by (unfold refs; lia).
  destruct (bgp_lock_node_Ok dbs peer bms Hb (put t rn nd1) rn nd1) as (k & E & Ek).
  { cbn. by rewrite lookup_insert_eq. }
  unfold put in E. rewrite E. cbn [mbind res_bind]. rewrite Hro in Ek.
  change (nd_lock nd1) with (nd_lock nd) in Ek. rewrite u32_small in Ek by lia. subst k.
  split_and!.
  - do 2 f_equal. unfold t', put, with_heap. cbn. by rewrite insert_insert_eq.
  - by apply (put_wf t rn nd).
  - apply put_held; [done |]. change (refs nd1 <= nd_lock nd + 1 < 2 ^ 32). lia.
Qed.

(** [bgp_info_add] prepends the entry to its bucket and takes one lock for
    it: locks keep covering the route information, and the table stays well
    formed. *)
Theorem bgp_info_add_spec {I} dbs peer bms (t : bgp_table I) rn nd modulo infos (ri : I) plock :
  bgp_select_misc_db dbs (type peer) = Some bms -> is_readonly bms = false ->
  wf_table t -> held t -> t_heap t !! rn = Some nd -> nd_lock nd < 2 ^ 32 - 1 ->
  nd_info nd !! Z.to_nat modulo = Some infos ->
  let t' := put t rn (with_lock (nd_lock nd + 1)
              (with_info (<[Z.to_nat modulo := ri :: infos]> (nd_info nd)) nd)) in
  bgp_info_add dbs peer t rn ri modulo plock = Ok (t', s32 (plock + 1)) /\
  wf_table t' /\ held t'.
Proof. apply info_add_steps. Qed.

(** [bgp_route_next] moves to the next node of the table in the
    lexicographic order of the prefixes (a prefix before what it covers, the 0
    branch before the 1 branch), skipping none, and to NULL after the last
    one; it hands the caller's lock over from the old node to the new one. *)
Theorem bgp_route_next_spec {I} dbs peer bms (t : bgp_table I) l nd :
  bgp_select_misc_db dbs (type peer) = Some bms -> is_readonly bms = false ->
  wf_table t -> held t -> t_heap t !! l = Some nd -> refs nd < nd_lock nd ->
  (forall x nx, t_heap t !! x = Some nx -> nd_lock nx < 2 ^ 32 - 1) ->
  exists t' o, bgp_route_next dbs peer t l = Ok (t', o) /\
    first_after t (fun _ => True) (nkey nd) o /\ wf_table t' /\ held t' /\
    (forall z nz, o = Some z -> t_heap t !! z = Some nz ->
       exists nz', t_heap t' !! z = Some nz' /\ nd_info nz' = nd_info nz /\
         nd_lock nz' = nd_lock nz + 1).
Proof.
  intros Hb Hro Hwf Hh H Hr Hmax. unfold bgp_route_next.
  rewrite (get_node_Ok t l nd H). cbn [mbind res_bind].
  destruct (next_node t Hwf l nd H) as (o & E & Ho). rewrite E. cbn [mbind res_bind].
  destruct o as [z|].
  2: { pose proof (Hh l nd H). cbn [mbind res_bind].
       destruct (unlock_put dbs peer bms Hb t l nd) as (t' & E' & Hwf' & Hh' & _);
         try done; [intros x nx _; apply Hh | lia |].
       exists t', None. rewrite E'. done. }
  destruct (Ho) as (nz & Hz & Hlz & _ & _).
  assert (Hne : z <> l).
  { intros ->. rewrite H in Hz. injection Hz as <-. by rewrite klt_not_below in Hlz. }
  destruct (bgp_lock_node_Ok dbs peer bms Hb t z nz Hz) as (k & Ek & Hk).
  rewrite Hro in Hk. pose proof (Hh z nz Hz) as Hhz. pose proof (Hmax z nz Hz).
  assert (0 <= refs nz) by (unfold refs; lia).
  rewrite u32_small in Hk by lia. rewrite Ek. cbn [mbind res_bind].
  fold (put t z (with_lock k nz)). set (t1 := put t z (with_lock k nz)).
  assert (Hwf1 : wf_table t1) by (by apply (put_wf t z nz)).
  assert (Hh1 : held t1) by (apply put_held; [done | change (refs nz <= k < 2 ^ 32); lia]).
  assert (Hl1 : t_heap t1 !! l = Some nd) by (cbn; by rewrite lookup_insert_ne).
  pose proof (Hh l nd H).
  destruct (unlock_put dbs peer bms Hb t1 l nd) as (t' & E' & Hwf' & Hh' & [Hs1 Hs2]); try done.
  { intros x nx _. apply Hh1. }
  { lia. }
  exists t', (Some z). rewrite E'. cbn [mbind res_bind]. split_and!; try done.
  intros z' nz' [= <-] Hz'. rewrite Hz in Hz'. injection Hz' as <-.
  assert (Hz1 : t_heap (put t1 l (with_lock (nd_lock nd - 1) nd)) !! z = Some (with_lock k nz)).
  { cbn. by rewrite lookup_insert_ne, lookup_insert_eq by done. }
  destruct (Hs2 z _ Hz1) as [nz' Hz']; [cbn; lia |].
  destruct (Hs1 z nz' Hz') as (nx & Hx & _ & E2 & E3). rewrite Hz1 in Hx. injection Hx as <-.
  exists nz'. rewrite E2, E3. split_and!; try done.
Qed.

Lemma table_free_ok {I} (t : bgp_table I) : wf_table t -> bgp_table_free (Some t) = Ok tt.
Proof.
  intros Hwf. unfold bgp_table_free. destruct (t_top t) as [l|] eqn:E.
  - destruct (wt_top t Hwf l E) as (nd & H & _).
    destruct (table_free_loop_spec (257 * (size (t_heap t) + 1)) t l nd Hwf H) as (t' & E' & _ & Hc);
      [lia |].
    rewrite E'. cbn [mbind res_bind]. by rewrite Hc.
  - replace (257 * (size (t_heap t) + 1))%nat with (S (257 * size (t_heap t) + 256)) by lia.
    cbn [table_free_loop mbind res_bind]. rewrite (wt_count t Hwf), (no_top_empty t Hwf E).
    by rewrite map_size_empty.
Qed.

(** C40. [bgp_table_free] terminates on every well-formed table without
    touching a freed node, and its final assertion (the count is back to 0)
    holds. *)
Theorem bgp_table_free_spec {I} (t : bgp_table I) :
  wf_table t -> bgp_table_free (Some t) = Ok tt.
Proof. apply table_free_ok. Qed.

(** ** The theorems at a concrete table *)

Definition ex_bms : bgp_misc_structs := mk_misc false 1 1 BGP_ASPATH_HASH_PATHID.
Definition ex_dbs : misc_dbs := fun _ => ex_bms.
Definition ex_peer : bgp_peer := mk_peer FUNC_TYPE_BGP 65000.

(** Adds a route the way bgp_process_update does: find the node, attach the
    information, drop the lock of the search. *)
Definition ex_add (t : bgp_table Z) (pi : prefix * Z) : res (bgp_table Z) :=
  '(t, l) ← bgp_node_get ex_dbs 0 ex_peer t (fst pi);
  '(t, _) ← bgp_info_add ex_dbs ex_peer t l (snd pi) 0 0;
  bgp_unlock_node ex_dbs ex_peer t l.

Fixpoint ex_adds (t : bgp_table Z) (l : list (prefix * Z)) : res (bgp_table Z) :=
  match l with
  | [] => Ok t
  | x :: l' => t ← ex_add t x; ex_adds t l'
  end.

Definition ex_table : bgp_table Z :=
  match ex_adds (bgp_table_init AFI_IP 1)
    [(pfx4 10 0 0 0 8, 1); (pfx4 10 1 0 0 16, 2); (pfx4 10 2 0 0 16, 3)] with
  | Ok t => t
  | Err _ => bgp_table_init AFI_IP 1
  end.

Lemma ex_table_wf : wf_table ex_table.
Proof. apply wf_tableb_spec. vm_compute. reflexivity. Qed.

Lemma ex_table_held : held ex_table.
Proof. apply heldb_spec. vm_compute. reflexivity. Qed.

Definition ex_node (l : loc) : bgp_node Z :=
  default (mk_node prefix_new None None None [] 0) (t_heap ex_table !! l).

(** The node of 10.1.0.0/16. *)
Definition ex_leaf : loc := 2%positive.

Lemma bgp_node_get_spec_witness :
  wf_table ex_table /\
  exists t' l nd, bgp_node_get ex_dbs 0 ex_peer ex_table (pfx4 10 3 0 0 16) = Ok (t', l) /\
    wf_table t' /\ t_heap t' !! l = Some nd /\ nkey nd = key (pfx4 10 3 0 0 16).
Proof.
  split; [apply ex_table_wf |].
  destruct (bgp_node_get_spec ex_dbs 0 ex_peer ex_bms ex_table (pfx4 10 3 0 0 16)
    eq_refl ex_table_wf) as (t' & l & nd & H1 & H2 & H3 & H4 & _).
  - apply wf_prefixb_spec. vm_compute. reflexivity.
  - exists t', l, nd. split_and!; assumption.
Defined.

Lemma bgp_node_match_longest_witness :
  exists t' l i nd,
    bgp_node_match ex_dbs 0 None (fun i s => (if Z.eqb i 9 then 1 else 0, s)) (Some ex_table)
      (pfx4 10 1 7 7 32) (Some ex_peer) tt false = Ok (Some (t', mk_ms (Some (l, i)) None tt)) /\
    i = 2 /\ t_heap ex_table !! l = Some nd /\ nkey nd `prefix_of` key (pfx4 10 1 7 7 32).
Proof.
  destruct (bgp_node_match_longest ex_dbs 0 None (fun i (s : unit) => (if Z.eqb i 9 then 1 else 0, s))
    (fun i => negb (Z.eqb i 9)) ex_peer ex_bms ex_table (pfx4 10 1 7 7 32) tt
    eq_refl ex_table_wf) as (t' & r & s' & E & Hr).
  - apply wf_prefixb_spec. vm_compute. reflexivity.
  - intros i s. cbn. destruct (Z.eqb i 9); cbn; split; (done || lia).
  - done.
  - done.
  - intros l nd H.
    assert (all_nodes (fun _ (nd : bgp_node Z) => bool_decide (1 <= length (nd_info nd))%nat) ex_table = true)
      as Hall by (vm_compute; reflexivity).
    pose proof (all_nodes_spec _ _ Hall l nd H) as Hb. cbn beta in Hb.
    rewrite bool_decide_eq_true in Hb. exact Hb.
  - destruct s'. assert (r = Some (ex_leaf, 2) \/ r <> Some (ex_leaf, 2)) as [->|Hne].
    { destruct (decide (r = Some (ex_leaf, 2))); [by left | by right]. }
    + destruct Hr as (nd & H & Hk & _). exists t', ex_leaf, 2, nd. exact (conj E (conj eq_refl (conj H Hk))).
    + exfalso. apply Hne. apply (f_equal (fun x => match x with
        | Ok (Some (_, m)) => ms_matched m | _ => None end)) in E. cbn in E.
      rewrite <- E. vm_compute. reflexivity.
Defined.

Lemma ex_leaf_lookup : t_heap ex_table !! ex_leaf = Some (ex_node ex_leaf).
Proof. vm_compute. reflexivity. Qed.

Lemma ex_leaf_info : nd_info (ex_node ex_leaf) !! 0%nat = Some [2].
Proof. vm_compute. reflexivity. Qed.

(** The table while a caller holds the leaf. *)
Definition ex_locked : bgp_table Z := put ex_table ex_leaf (with_lock 2 (ex_node ex_leaf)).

Lemma ex_locked_wf : wf_table ex_locked.
Proof. apply wf_tableb_spec. vm_compute. reflexivity. Qed.

Lemma ex_locked_held : held ex_locked.
Proof. apply heldb_spec. vm_compute. reflexivity. Qed.

Lemma ex_locked_lookup : t_heap ex_locked !! ex_leaf = Some (with_lock 2 (ex_node ex_leaf)).
Proof. vm_compute. reflexivity. Qed.

Lemma ex_locked_locks x nx : t_heap ex_locked !! x = Some nx -> nd_lock nx < 2 ^ 32 - 1.
Proof.
  intros Hx.
  assert (all_nodes (fun _ (nd : bgp_node Z) => nd_lock nd <? 2 ^ 32 - 1) ex_locked = true) as Hall
    by (vm_compute; reflexivity).
  apply Z.ltb_lt. exact (all_nodes_spec _ _ Hall x nx Hx).
Qed.

Lemma bgp_unlock_node_spec_witness :
  exists t', bgp_unlock_node ex_dbs ex_peer ex_locked ex_leaf = Ok t' /\ wf_table t' /\ held t'.
Proof.
  destruct (bgp_unlock_node_spec ex_dbs ex_peer ex_bms ex_locked ex_leaf _
    eq_refl eq_refl ex_locked_wf ex_locked_held ex_locked_lookup) as (t' & E & Hwf & Hh & _).
  - vm_compute. reflexivity.
  - exists t'. exact (conj E (conj Hwf Hh)).
Defined.

Lemma bgp_info_delete_spec_witness :
  exists t', bgp_info_delete ex_dbs ex_peer ex_table ex_leaf 0 0 = Ok t' /\ wf_table t' /\ held t'.
Proof.
  destruct (bgp_info_delete_spec ex_dbs ex_peer ex_bms ex_table ex_leaf (ex_node ex_leaf) 0 [2] 0
    eq_refl eq_refl ex_table_wf ex_table_held ex_leaf_lookup ex_leaf_info) as (t' & E & Hwf & Hh & _).
  - cbn. lia.
  - exists t'. exact (conj E (conj Hwf Hh)).
Defined.

Lemma bgp_info_add_spec_witness :
  exists t', bgp_info_add ex_dbs ex_peer ex_table ex_leaf 7 0 4 = Ok (t', 5) /\ held t'.
Proof.
  destruct (bgp_info_add_spec ex_dbs ex_peer ex_bms ex_table ex_leaf (ex_node ex_leaf) 0 [2] 7 4
    eq_refl eq_refl ex_table_wf ex_table_held ex_leaf_lookup) as (E & Hwf & Hh).
  - vm_compute. reflexivity.
  - exact ex_leaf_info.
  - eexists. exact (conj E Hh).
Defined.

Lemma bgp_route_next_spec_witness :
  exists t' o, bgp_route_next ex_dbs ex_peer ex_locked ex_leaf = Ok (t', o) /\
    first_after ex_locked (fun _ => True) (nkey (ex_node ex_leaf)) o /\ held t'.
Proof.
  destruct (bgp_route_next_spec ex_dbs ex_peer ex_bms ex_locked ex_leaf _
    eq_refl eq_refl ex_locked_wf ex_locked_held ex_locked_lookup) as (t' & o & E & Ho & Hwf & Hh & _).
  - vm_compute. reflexivity.
  - exact ex_locked_locks.
  - exists t', o. exact (conj E (conj Ho Hh)).
Defined.

Lemma bgp_table_free_spec_witness : bgp_table_free (Some ex_table) = Ok tt.
Proof. exact (bgp_table_free_spec ex_table ex_table_wf). Defined.

(** The [n] IPv6 prefixes ::/0, ::/1, ..., each nested in the one before. *)
Definition ex_nested (n : nat) : bgp_table Z :=
  match ex_adds (bgp_table_init AFI_IP6 1)
          (map (fun k => (pfx6 [] (Z.of_nat k), Z.of_nat k)) (seq 0 n)) with
  | Ok t => t
  | Err _ => bgp_table_init AFI_IP6 1
  end.

(** The vector of matched nodes has room for 128 entries, and an IPv6
    address can match 129 prefixes (lengths 0 to 128): with all of them in the
    table, a lookup that fills a vector writes past its end; with 128 it
    returns all of them. *)
Theorem bgp_node_match_depth :
  (match bgp_node_match_ipv6 ex_dbs 0 None (fun (i : Z) (s : unit) => (0, s))
           (Some (ex_nested 128)) (replicate 16 0) (Some ex_peer) tt true with
   | Ok (Some (_, st)) => length <$> ms_bnv st
   | _ => None
   end) = Some 128%nat /\
  bgp_node_match_ipv6 ex_dbs 0 None (fun (i : Z) (s : unit) => (0, s))
    (Some (ex_nested 129)) (replicate 16 0) (Some ex_peer) tt true = Err OutOfBounds.
Proof. split; vm_compute; reflexivity. Qed.

End BgpTableFacts.
