(* ===== verification/BgpRoutes.v ===== *)
(** * What a routing table means: routes by prefix and bucket

    [routes] forgets the nodes of a table, their locks and the inner nodes
    without routes: it is the map from prefixes and buckets to their routes.
    The operations of src/bgp/bgp_table.c are operations on that map. *)

From S2P Require Import Prelude BgpPrefix Bgp BgpTable BgpTableFacts.

Module BgpRoutes.
Import BgpPrefix Bgp BgpTable BgpTableFacts.

Section Routes.
Context {I : Type}.
Implicit Types (t : bgp_table I) (nd : bgp_node I) (l : loc) (k : list bool) (m : nat) (b : list I).

Abbreviation rmap := (gmap (list bool * nat) (list I)).

(** The buckets of a node that have routes. *)
Definition node_routes nd : list (list bool * nat * list I) :=
  filter (fun x => snd x <> []) (imap (fun m b => ((nkey nd, m), b)) (nd_info nd)).

Definition routes t : rmap := list_to_map (concat (map (fun x => node_routes (snd x)) (map_to_list (t_heap t)))).

Lemma node_routes_elem nd k m b :
  (k, m, b) ∈ node_routes nd <-> b <> [] /\ k = nkey nd /\ nd_info nd !! m = Some b.
Proof.
  unfold node_routes. rewrite list_elem_of_filter, elem_of_lookup_imap. cbn [snd]. split.
  - intros [Hb (i & y & [= -> -> ->] & E)]. done.
  - intros (Hb & -> & E). split; [done |]. by exists m, b.
Qed.

Lemma all_routes_elem t k m b :
  (k, m, b) ∈ concat (map (fun x => node_routes (snd x)) (map_to_list (t_heap t))) <->
  b <> [] /\ exists l nd, t_heap t !! l = Some nd /\ nkey nd = k /\ nd_info nd !! m = Some b.
Proof.
  rewrite list_elem_of_In, in_concat. split.
  - intros (x & Hx & Hin). apply in_map_iff in Hx as ([l nd] & <- & Hl). apply list_elem_of_In in Hl, Hin.
    apply elem_of_map_to_list in Hl. apply node_routes_elem in Hin as (Hb & -> & E). split; [done |]. by exists l, nd.
  - intros (Hb & l & nd & Hl & <- & E). exists (node_routes nd). split.
    + apply in_map_iff. exists (l, nd). split; [done |]. by apply list_elem_of_In, elem_of_map_to_list.
    + apply list_elem_of_In, node_routes_elem. done.
Qed.

Lemma routes_lookup t k m b :
  wf_table t ->
  routes t !! (k, m) = Some b <->
  b <> [] /\ exists l nd, t_heap t !! l = Some nd /\ nkey nd = k /\ nd_info nd !! m = Some b.
Proof.
  intros Hwf. rewrite <- all_routes_elem. unfold routes. split.
  - apply elem_of_list_to_map_2.
  - intros H. apply elem_of_list_to_map_1'; [| done]. intros b' H'.
    apply all_routes_elem in H as (_ & l & nd & Hl & Hk & E), H' as (_ & l' & nd' & Hl' & Hk' & E').
    assert (l' = l) as -> by (apply (keys_unique t Hwf l' nd' l nd); congruence). congruence.
Qed.

(** A bucket of a node, and the map with a bucket changed. *)
Definition set_bucket k m b (R : rmap) : rmap :=
  match b with [] => delete (k, m) R | _ => <[(k, m) := b]> R end.
Definition get_bucket k m (R : rmap) : list I := default [] (R !! (k, m)).

Lemma set_bucket_lookup k m b R k' m' :
  set_bucket k m b R !! (k', m') =
    if decide (k' = k /\ m' = m) then (match b with [] => None | _ => Some b end) else R !! (k', m').
Proof.
  unfold set_bucket. destruct b as [|i b]; case_decide as H.
  - destruct H as [-> ->]. apply lookup_delete_eq.
  - apply lookup_delete_ne. intros [= -> ->]. by apply H.
  - destruct H as [-> ->]. apply lookup_insert_eq.
  - apply lookup_insert_ne. intros [= -> ->]. by apply H.
Qed.

Lemma set_bucket_twice k m b b' R : set_bucket k m b (set_bucket k m b' R) = set_bucket k m b R.
Proof.
  apply map_eq. intros [k' m']. rewrite !set_bucket_lookup. by case_decide.
Qed.

Lemma set_bucket_same k m R : get_bucket k m R <> [] -> set_bucket k m (get_bucket k m R) R = R.
Proof.
  unfold get_bucket, set_bucket. destruct (R !! (k, m)) as [[|i b]|] eqn:E; cbn; try done.
  intros _. by apply insert_id.
Qed.

(** The bucket of a node is the one of its prefix. *)
Lemma routes_node t l nd m b :
  wf_table t -> t_heap t !! l = Some nd -> nd_info nd !! m = Some b -> get_bucket (nkey nd) m (routes t) = b.
Proof.
  intros Hwf Hl Hb. unfold get_bucket. destruct (routes t !! (nkey nd, m)) as [b'|] eqn:E.
  - apply (routes_lookup t _ _ _ Hwf) in E as (_ & l' & nd' & Hl' & Hk & Hb').
    assert (l' = l) as -> by (by apply (keys_unique t Hwf l' nd' l nd)). cbn. congruence.
  - cbn. destruct b as [|i b]; [done |].
    rewrite (proj2 (routes_lookup t (nkey nd) m (i :: b) Hwf)) in E; [done |]. split; [done |]. by exists l, nd.
Qed.

Lemma routes_no_node t k m :
  wf_table t -> (forall l nd, t_heap t !! l = Some nd -> nkey nd <> k) -> get_bucket k m (routes t) = [].
Proof.
  intros Hwf Hno. unfold get_bucket. destruct (routes t !! (k, m)) as [b'|] eqn:E; [| done].
  apply (routes_lookup t _ _ _ Hwf) in E as (_ & l' & nd' & Hl' & Hk & _). by destruct (Hno l' nd' Hl').
Qed.

(** Tables whose nodes carry the same routes mean the same. *)
Lemma routes_bucket_same t k m : wf_table t -> set_bucket k m (get_bucket k m (routes t)) (routes t) = routes t.
Proof.
  intros Hwf. destruct (decide (get_bucket k m (routes t) = [])) as [E|]; [| by apply set_bucket_same].
  rewrite E. cbn. apply delete_id. unfold get_bucket in E. destruct (routes t !! (k, m)) as [b|] eqn:Eb; [| done].
  apply routes_lookup in Eb as [Hb _]; [| done]. by destruct Hb.
Qed.

Lemma routes_ext t t' :
  wf_table t -> wf_table t' ->
  (forall k m b, b <> [] -> (exists l nd, t_heap t !! l = Some nd /\ nkey nd = k /\ nd_info nd !! m = Some b) <->
                            (exists l nd, t_heap t' !! l = Some nd /\ nkey nd = k /\ nd_info nd !! m = Some b)) ->
  routes t' = routes t.
Proof.
  intros Hwf Hwf' H. apply map_eq. intros [k m]. apply option_eq. intros b.
  rewrite !routes_lookup by done. split; intros [Hb E]; (split; [done |]); by apply H.
Qed.

(** ** The operations *)

Context (bms : bgp_misc_structs).

(** The invariant the operations keep: well formed, the locks cover the
    routes, and every node has its buckets. *)
Record table_ok t : Prop := {
  to_wf : wf_table t;
  to_held : held t;
  to_info : forall l nd, t_heap t !! l = Some nd -> length (nd_info nd) = info_buckets bms
}.

(** The locks of a node are its routes, one more when it is held, and at most
    [n] that nobody gives back; with [n] 0 they are exact. *)
Definition leak_node (n : nat) (o : option loc) l nd : Prop :=
  0 <= nd_lock nd - refs nd - (if decide (o = Some l) then 1 else 0) <= Z.of_nat n.
Definition leak_but (n : nat) (o : option loc) t : Prop :=
  forall l nd, t_heap t !! l = Some nd -> leak_node n o l nd.

Lemma shrinks_exact n o t t' : shrinks t t' -> leak_but n o t -> leak_but n o t'.
Proof.
  intros [S1 _] H l nd' Hl. destruct (S1 l nd' Hl) as (nd & E & _ & Ei & El). pose proof (H l nd E) as Hn.
  unfold leak_node, refs in *. by rewrite Ei, El.
Qed.

Lemma put_exact n o o' t l nd :
  leak_but n o t -> leak_node n o' l nd ->
  (forall x, x <> l -> o = Some x <-> o' = Some x) -> leak_but n o' (put t l nd).
Proof.
  intros H Hl Ho x nx. cbn. destruct (decide (x = l)) as [->|Hne].
  - rewrite lookup_insert_eq. by intros [= <-].
  - rewrite lookup_insert_ne by done. intros Hx. pose proof (H x nx Hx) as Hn. unfold leak_node in *. pose proof (Ho x Hne).
    destruct (decide (o = Some x)), (decide (o' = Some x)); tauto.
Qed.

(** An empty table. *)
Lemma init_table_ok afi safi : table_ok (bgp_table_init afi safi) /\ routes (bgp_table_init afi safi) = (∅ : rmap).
Proof.
  split; [| reflexivity]. split; [by apply wf_tableb_spec | | by intros l nd; cbn; rewrite lookup_empty].
  by intros l nd; cbn; rewrite lookup_empty.
Qed.

Lemma shrinks_ok t t' : shrinks t t' -> wf_table t' -> table_ok t -> table_ok t' /\ routes t' = routes t.
Proof.
  intros Hs Hwf' [Hwf Hh Hi]. pose proof Hs as [S1 S2]. split.
  - split; [done | by apply (shrinks_held t) |]. intros l nd' Hl.
    destruct (S1 l nd' Hl) as (nd & H & _ & -> & _). by apply (Hi l).
  - apply routes_ext; try done. intros k m b Hb. split.
    + intros (l & nd & H & Hk & E).
      destruct (S2 l nd H) as [nd' H'].
      { pose proof (Hh l nd H) as Hlk. intros E0. rewrite E0 in Hlk. unfold refs in Hlk.
        assert (concat (nd_info nd) = []) as Ec by (destruct (concat (nd_info nd)); [done | cbn in Hlk; lia]).
        apply Hb. apply list_elem_of_lookup_2 in E. destruct b as [|x b]; [done |]. exfalso.
        assert (In x (concat (nd_info nd))) as Hx; [| by rewrite Ec in Hx].
        apply in_concat. exists (x :: b). split; [by apply list_elem_of_In | by left]. }
      destruct (S1 l nd' H') as (nd0 & H0 & Ep & Ei & _). assert (nd0 = nd) as -> by congruence.
      exists l, nd'. unfold nkey. rewrite Ep, Ei. done.
    + intros (l & nd' & H' & Hk & E). destruct (S1 l nd' H') as (nd & H & Ep & Ei & _).
      exists l, nd. unfold nkey in *. rewrite <- Ep, <- Ei. done.
Qed.

Lemma refs_set nd m b b' : nd_info nd !! m = Some b ->
  refs (with_info (<[m := b']> (nd_info nd)) nd) = refs nd - Z.of_nat (length b) + Z.of_nat (length b').
Proof.
  intros Hm. unfold refs. cbn [with_info nd_info].
  assert (E : length (concat (nd_info nd)) =
    (length (concat (take m (nd_info nd))) + (length b + length (concat (drop (S m) (nd_info nd)))))%nat).
  { rewrite <- (take_drop_middle _ _ _ Hm) at 1. rewrite concat_app. cbn. by rewrite !length_app. }
  rewrite insert_take_drop, E by (by eapply lookup_lt_Some). rewrite concat_app. cbn. rewrite !length_app. lia.
Qed.

(** Changing one bucket of a node. *)
Lemma put_ok t l nd lk m b b' :
  table_ok t -> t_heap t !! l = Some nd -> nd_info nd !! m = Some b ->
  let nd' := with_lock lk (with_info (<[m := b']> (nd_info nd)) nd) in
  refs nd - Z.of_nat (length b) + Z.of_nat (length b') <= lk < 2 ^ 32 ->
  table_ok (put t l nd') /\ routes (put t l nd') = set_bucket (nkey nd) m b' (routes t).
Proof.
  intros [Hwf Hh Hi] H Hm nd' Hlk.
  assert (Hwf' : wf_table (put t l nd')) by (by apply (put_wf t l nd)).
  assert (Hlen : (m < length (nd_info nd))%nat) by (by eapply lookup_lt_Some).
  split.
  - split; [done | |].
    + apply put_held; [done |]. change (nd_lock nd') with lk.
      change (refs nd') with (refs (with_info (<[m := b']> (nd_info nd)) nd)). by rewrite (refs_set nd m b b' Hm).
    + intros x nx Hx. cbn in Hx. destruct (decide (x = l)) as [->|].
      * rewrite lookup_insert_eq in Hx. injection Hx as <-. cbn. rewrite length_insert. by apply (Hi l).
      * rewrite lookup_insert_ne in Hx by done. by apply (Hi x).
  - apply map_eq. intros [k' m']. rewrite set_bucket_lookup. apply option_eq. intros c.
    rewrite routes_lookup by done.
    assert (Hx : forall x, t_heap (put t l nd') !! x = if decide (x = l) then Some nd' else t_heap t !! x).
    { intros x. cbn. destruct (decide (x = l)) as [->|]; [apply lookup_insert_eq | by apply lookup_insert_ne]. }
    assert (Hb' : forall j, nd_info nd' !! j = if decide (j = m) then Some b' else nd_info nd !! j).
    { intros j. change (nd_info nd') with (<[m := b']> (nd_info nd)). destruct (decide (j = m)) as [->|].
      - by apply list_lookup_insert_eq.
      - by apply list_lookup_insert_ne. }
    assert (Hk' : nkey nd' = nkey nd) by done.
    case_decide as Hd.
    + destruct Hd as [-> ->]. split.
      * intros (Hc & x & nx & Hxx & Hk & E). rewrite Hx in Hxx. destruct (decide (x = l)) as [->|Hne].
        -- injection Hxx as <-. rewrite Hb', decide_True in E by done. injection E as <-. by destruct b'.
        -- destruct Hne. by apply (keys_unique t Hwf x nx l nd).
      * intros E. destruct b' as [|i b']; [done |]. injection E as <-. split; [done |]. exists l, nd'.
        rewrite Hx, decide_True, Hb', decide_True by done. done.
    + rewrite (routes_lookup t) by done. split; intros (Hc & x & nx & Hxx & Hk & E); (split; [done |]).
      * rewrite Hx in Hxx. destruct (decide (x = l)) as [->|Hne]; [| by exists x, nx].
        injection Hxx as <-. rewrite Hb' in E. destruct (decide (m' = m)) as [->|]; [| by exists l, nd].
        destruct Hd. by rewrite <- Hk.
      * destruct (decide (x = l)) as [->|Hne].
        -- assert (nx = nd) as -> by congruence. exists l, nd'. rewrite Hx, decide_True by done.
           split; [done |]. split; [by rewrite Hk' |]. rewrite Hb', decide_False; [done |]. intros ->. by apply Hd.
        -- exists x, nx. by rewrite Hx, decide_False.
Qed.

Lemma put_lock_ok t l nd lk :
  table_ok t -> t_heap t !! l = Some nd -> refs nd <= lk < 2 ^ 32 ->
  table_ok (put t l (with_lock lk nd)) /\ routes (put t l (with_lock lk nd)) = routes t.
Proof.
  intros [Hwf Hh Hi] H Hlk. assert (Hwf' : wf_table (put t l (with_lock lk nd))) by (by apply (put_wf t l nd)).
  assert (Hx : forall x, t_heap (put t l (with_lock lk nd)) !! x = if decide (x = l) then Some (with_lock lk nd) else t_heap t !! x).
  { intros x. cbn. destruct (decide (x = l)) as [->|]; [apply lookup_insert_eq | by apply lookup_insert_ne]. }
  split.
  - split; [done | by apply put_held |]. intros x nx. rewrite Hx. case_decide as Hd; [| apply Hi].
    intros [= <-]. by apply (Hi l nd).
  - apply routes_ext; try done. intros k m b Hb. split; intros (x & nx & Hxx & Hk & E).
    + destruct (decide (x = l)) as [->|Hne]; [| exists x, nx; by rewrite Hx, decide_False].
      assert (nx = nd) as -> by congruence. exists l, (with_lock lk nd). by rewrite Hx, decide_True.
    + rewrite Hx in Hxx. case_decide as Hd; [| by exists x, nx]. subst x. injection Hxx as <-. by exists l, nd.
Qed.

Context (dbs : misc_dbs) (past : Z) (peer : bgp_peer).
Hypothesis Hbms : bgp_select_misc_db dbs (type peer) = Some bms.
Hypothesis Hrw : is_readonly bms = false.

(** No lock is about to wrap. *)
Definition lock_room t : Prop := forall l nd, t_heap t !! l = Some nd -> nd_lock nd < 2 ^ 32 - 2.

(** A node the caller holds, besides its routes. *)
Definition holds t l nd : Prop := t_heap t !! l = Some nd /\ refs nd < nd_lock nd < 2 ^ 32 - 1.

Lemma refs_nonneg nd : 0 <= refs nd.
Proof. unfold refs. lia. Qed.

Lemma get_ok t p :
  table_ok t -> lock_room t -> wf_prefix p ->
  exists t' l nd, bgp_node_get dbs past peer t p = Ok (t', l) /\ table_ok t' /\ routes t' = routes t /\
    holds t' l nd /\ nkey nd = key p /\ (forall n, leak_but n None t -> leak_but n (Some l) t').
Proof.
  intros [Hwf Hh Hi] Hr Hp.
  destruct (node_get_steps dbs past peer bms t p Hbms Hwf Hp) as (t' & l & nd & E & Hwf' & Hl & Hk & Hlk & Hold & Hnew).
  exists t', l, nd. split; [done |]. unfold lock_up in Hlk. rewrite Hrw in Hlk.
  assert (Hnode : forall x nx', t_heap t' !! x = Some nx' ->
    (exists nx, t_heap t !! x = Some nx /\ nd_p nx' = nd_p nx /\ nd_info nx' = nd_info nx /\
       (x <> l -> nd_lock nx' = nd_lock nx)) \/
    (t_heap t !! x = None /\ nd_info nx' = replicate (info_buckets bms) [] /\ (x <> l -> nd_lock nx' = 0))).
  { intros x nx' Hx. destruct (t_heap t !! x) as [nx|] eqn:Ex.
    - left. destruct (Hold x nx Ex) as (_ & nx2 & H2 & ? & ? & ?). assert (nx2 = nx') as -> by congruence. by exists nx.
    - right. split; [done |]. by apply Hnew. }
  assert (Hempty : forall nx : bgp_node I, nd_info nx = replicate (info_buckets bms) [] -> refs nx = 0).
  { intros nx Ex. unfold refs. rewrite Ex. clear. induction (info_buckets bms) as [|n IH]; [done | exact IH]. }
  assert (Hlock : refs nd < nd_lock nd < 2 ^ 32 - 1).
  { destruct (Hnode l nd Hl) as [(nx & Ex & _ & Ei & _)|(Ex & Ei & _)]; rewrite Ex in Hlk; cbn in Hlk.
    - pose proof (Hh l nx Ex). pose proof (Hr l nx Ex). rewrite u32_small in Hlk by (pose proof (refs_nonneg nx); lia).
      unfold refs in *. rewrite Ei. lia.
    - rewrite (Hempty nd Ei). change (u32 (0 + 1)) with 1 in Hlk. lia. }
  assert (Hok : table_ok t').
  { split; [done | |].
    - intros x nx Hx. destruct (decide (x = l)) as [->|Hne]; [assert (nx = nd) as -> by congruence; lia |].
      destruct (Hnode x nx Hx) as [(n0 & E0 & _ & Ei & El)|(E0 & Ei & El)].
      + pose proof (Hh x n0 E0). unfold refs in *. rewrite Ei, El by done. lia.
      + rewrite (Hempty nx Ei), El by done. lia.
    - intros x nx Hx. destruct (Hnode x nx Hx) as [(n0 & E0 & _ & Ei & El)|(E0 & Ei & El)]; rewrite Ei.
      + by apply (Hi x).
      + apply length_replicate. }
  split_and!; try done; [apply routes_ext; try done; intros k m b Hb; split |].
  - intros (x & nx & Hx & Hkx & Eb). destruct (Hold x nx Hx) as (_ & nx' & Hx' & Ep & Ei & _).
    exists x, nx'. unfold nkey in *. rewrite Ep, Ei. done.
  - intros (x & nx' & Hx & Hkx & Eb). destruct (Hnode x nx' Hx) as [(n0 & E0 & Ep & Ei & El)|(E0 & Ei & El)].
    + exists x, n0. unfold nkey in *. rewrite <- Ep, <- Ei. done.
    + rewrite Ei in Eb. by apply lookup_replicate in Eb as [-> _].
  - intros n Hex x nx Hx. unfold leak_node. destruct (decide (Some l = Some x)) as [[= <-]|Hne].
    + assert (nx = nd) as -> by congruence.
      destruct (Hnode l nd Hl) as [(n0 & Ex & _ & Ei & _)|(Ex & Ei & _)]; rewrite Ex in Hlk; cbn in Hlk.
      * pose proof (Hex l n0 Ex) as E0. unfold leak_node in E0. rewrite decide_False in E0 by done. pose proof (Hr l n0 Ex).
        pose proof (refs_nonneg n0). rewrite u32_small in Hlk by lia. unfold refs in *. rewrite Ei. lia.
      * rewrite (Hempty nd Ei), Hlk. change (u32 (0 + 1)) with 1. lia.
    + assert (Hne' : x <> l) by congruence. rewrite Z.sub_0_r.
      destruct (Hnode x nx Hx) as [(n0 & E0 & _ & Ei & El)|(E0 & Ei & El)].
      * rewrite El by done. pose proof (Hex x n0 E0) as E1. unfold leak_node in E1. rewrite decide_False, Z.sub_0_r in E1 by done.
        unfold refs in *. by rewrite Ei.
      * rewrite El, (Hempty nx Ei) by done. lia.
Qed.

Lemma unlock_ok t l nd :
  table_ok t -> t_heap t !! l = Some nd -> refs nd < nd_lock nd ->
  exists t', bgp_unlock_node dbs peer t l = Ok t' /\ table_ok t' /\ routes t' = routes t /\
    (forall n, leak_but n (Some l) t -> leak_but n None t').
Proof.
  intros Ht H Hlt. pose proof (to_held t Ht l nd H) as Hlk.
  destruct (unlock_put dbs peer bms Hbms t l nd Hrw (to_wf t Ht) H) as (t' & E & Hwf' & Hh' & Hs); [| lia |].
  { intros x nx _. apply (to_held t Ht). }
  destruct (put_lock_ok t l nd (nd_lock nd - 1) Ht H) as [Hok Hr]; [lia |].
  destruct (shrinks_ok _ t' Hs Hwf' Hok) as [Hok' Hr']. exists t'. split_and!; [done | done | congruence |].
  intros n Hex. apply (shrinks_exact n None _ t' Hs). apply (put_exact n (Some l)); [done | |].
  - pose proof (Hex l nd H) as E1. unfold leak_node in *. rewrite decide_True in E1 by done. rewrite decide_False by done.
    cbn [with_lock nd_lock]. change (refs (with_lock (nd_lock nd - 1) nd)) with (refs nd). lia.
  - intros x Hx. split; [congruence | done].
Qed.

(** Replacing a route, adding one, removing one: each with the lock of the
    lookup given back. *)
Lemma set_routes_ok t l nd m b b' lk :
  table_ok t -> holds t l nd -> nd_info nd !! m = Some b ->
  lk - Z.of_nat (length b') = nd_lock nd - Z.of_nat (length b) -> lk < 2 ^ 32 ->
  exists t', bgp_unlock_node dbs peer (put t l (with_lock lk (with_info (<[m := b']> (nd_info nd)) nd))) l = Ok t' /\
    table_ok t' /\ routes t' = set_bucket (nkey nd) m b' (routes t) /\ (forall n, leak_but n (Some l) t -> leak_but n None t').
Proof.
  intros Ht [H Hlk] Hm El Hb. destruct (put_ok t l nd lk m b b' Ht H Hm) as [Hok Hr]; [lia |].
  destruct (unlock_ok _ l (with_lock lk (with_info (<[m := b']> (nd_info nd)) nd)) Hok) as (t' & E & Hok' & Hr' & He').
  - cbn. apply lookup_insert_eq.
  - change (refs (with_info (<[m := b']> (nd_info nd)) nd) < lk). rewrite (refs_set nd m b b' Hm). lia.
  - exists t'. split_and!; [done | done | congruence |]. intros n Hex. apply He'. apply (put_exact n (Some l)); [done | | done].
    pose proof (Hex l nd H) as E1. unfold leak_node in *. rewrite decide_True in E1 |- * by done.
    change (0 <= lk - refs (with_info (<[m := b']> (nd_info nd)) nd) - 1 <= Z.of_nat n). rewrite (refs_set nd m b b' Hm). lia.
Qed.

Lemma add_ok t l nd (m : Z) b ri plock :
  table_ok t -> holds t l nd -> nd_info nd !! Z.to_nat m = Some b ->
  exists t1 t', bgp_info_add dbs peer t l ri m plock = Ok (t1, s32 (plock + 1)) /\
    bgp_unlock_node dbs peer t1 l = Ok t' /\ table_ok t' /\
    routes t' = set_bucket (nkey nd) (Z.to_nat m) (ri :: b) (routes t) /\ (forall n, leak_but n (Some l) t -> leak_but n None t').
Proof.
  intros Ht [H Hlk] Hm.
  destruct (info_add_steps dbs peer bms t l nd m b ri plock Hbms Hrw (to_wf t Ht) (to_held t Ht) H) as (E & _ & _); [lia | done |].
  destruct (set_routes_ok t l nd (Z.to_nat m) b (ri :: b) (nd_lock nd + 1) Ht (conj H Hlk) Hm) as (t' & E' & Hok & Hr);
    [cbn [length]; lia | lia |].
  eexists _, t'. split; [exact E |]. done.
Qed.

(** The nodes of [t'] are nodes of [t], with the prefixes they had. *)
Definition within t' t : Prop :=
  forall x nx', t_heap t' !! x = Some nx' -> exists nx, t_heap t !! x = Some nx /\ nd_p nx' = nd_p nx.

Lemma within_refl t : within t t.
Proof. intros x nx Hx. by exists nx. Qed.

Lemma within_trans t1 t2 t3 : within t1 t2 -> within t2 t3 -> within t1 t3.
Proof. intros H1 H2 x n1 Hx. destruct (H1 x n1 Hx) as (n2 & H & E1). destruct (H2 x n2 H) as (n3 & H3 & E2). exists n3. split; congruence. Qed.

Lemma within_put t l nd nd' : t_heap t !! l = Some nd -> nd_p nd' = nd_p nd -> within (put t l nd') t.
Proof.
  intros H E x nx. cbn. destruct (decide (x = l)) as [->|]; [rewrite lookup_insert_eq; intros [= <-]; by exists nd |].
  rewrite lookup_insert_ne by done. intros Hx. by exists nx.
Qed.

Lemma within_shrinks t t' : shrinks t t' -> within t' t.
Proof. intros [S1 _] x nx Hx. destruct (S1 x nx Hx) as (n0 & H & E & _). by exists n0. Qed.

(** A route of a node that stays held. *)
Lemma delete_held_ok t l nd (m : Z) b (k : nat) :
  table_ok t -> holds t l nd -> nd_info nd !! Z.to_nat m = Some b -> (k < length b)%nat ->
  exists t1 nd2, bgp_info_delete dbs peer t l k m = Ok t1 /\ table_ok t1 /\ holds t1 l nd2 /\ nd_p nd2 = nd_p nd /\
    nd_info nd2 = <[Z.to_nat m := delete k b]> (nd_info nd) /\
    routes t1 = set_bucket (nkey nd) (Z.to_nat m) (delete k b) (routes t) /\ within t1 t /\
    (forall n, leak_but n (Some l) t -> leak_but n (Some l) t1).
Proof.
  intros Ht [H Hlk] Hm Hk.
  destruct (info_delete_steps dbs peer bms t l nd m b k Hbms Hrw (to_wf t Ht) (to_held t Ht) H Hm Hk)
    as (t1 & E & Hwf1 & Hh1 & Hs).
  pose proof (refs_nonneg nd). pose proof (refs_delete nd (Z.to_nat m) b k Hm Hk) as Hrd.
  pose proof (refs_nonneg (with_info (<[Z.to_nat m := delete k b]> (nd_info nd)) nd)) as Hrd0.
  set (nd1 := with_lock (nd_lock nd - 1) (with_info (<[Z.to_nat m := delete k b]> (nd_info nd)) nd)) in *.
  destruct (put_ok t l nd (nd_lock nd - 1) (Z.to_nat m) b (delete k b) Ht H Hm) as [Hok Hr].
  { rewrite length_delete by (by apply lookup_lt_is_Some_2). lia. }
  fold nd1 in Hok, Hr. destruct (shrinks_ok _ t1 Hs Hwf1 Hok) as [Hok1 Hr1].
  assert (Hl1 : t_heap (put t l nd1) !! l = Some nd1) by (cbn; apply lookup_insert_eq).
  destruct (proj2 Hs l nd1 Hl1) as [nd2 H2]; [change (nd_lock nd1) with (nd_lock nd - 1); lia |].
  destruct (proj1 Hs l nd2 H2) as (nd1' & E1 & Ep & Ei & El). assert (nd1' = nd1) as -> by congruence.
  exists t1, nd2. split_and!; try done.
  - split; [done |]. unfold refs. rewrite Ei, El.
    change (refs (with_info (<[Z.to_nat m := delete k b]> (nd_info nd)) nd) < nd_lock nd - 1 < 2 ^ 32 - 1). lia.
  - congruence.
  - apply (within_trans t1 (put t l nd1) t); [by apply within_shrinks | by apply (within_put t l nd)].
  - intros n Hex. apply (shrinks_exact n _ _ _ Hs).
    apply (put_exact n (Some l)); [done | | done]. pose proof (Hex l nd H) as E2. unfold leak_node in *.
    rewrite decide_True in E2 |- * by done.
    change (0 <= nd_lock nd - 1 - refs (with_info (<[Z.to_nat m := delete k b]> (nd_info nd)) nd) - 1 <= Z.of_nat n). rewrite Hrd. lia.
Qed.

Lemma delete_ok t l nd (m : Z) b (k : nat) :
  table_ok t -> holds t l nd -> nd_info nd !! Z.to_nat m = Some b -> (k < length b)%nat ->
  exists t1 t', bgp_info_delete dbs peer t l k m = Ok t1 /\
    bgp_unlock_node dbs peer t1 l = Ok t' /\ table_ok t' /\
    routes t' = set_bucket (nkey nd) (Z.to_nat m) (delete k b) (routes t) /\ (forall n, leak_but n (Some l) t -> leak_but n None t').
Proof.
  intros Ht Hh Hm Hk. destruct (delete_held_ok t l nd m b k Ht Hh Hm Hk) as (t1 & nd2 & E & Ht1 & [H2 Hlk] & _ & _ & Hr & _ & He).
  destruct (unlock_ok t1 l nd2 Ht1 H2) as (t' & E' & Ht' & Hr' & He'); [lia |].
  exists t1, t'. split_and!; [done | done | done | congruence |]. intros n Hex. by apply He', He.
Qed.

(** The lock of the caller moves to the node after. *)
Lemma next_ok t l nd : table_ok t -> holds t l nd -> lock_room t ->
  exists t' o, bgp_route_next dbs peer t l = Ok (t', o) /\ first_after t (fun _ => True) (nkey nd) o /\
    table_ok t' /\ routes t' = routes t /\ within t' t /\ (forall n, leak_but n (Some l) t -> leak_but n o t') /\
    (forall z, o = Some z -> exists nz, holds t' z nz /\ first_after t (fun _ => True) (nkey nd) (Some z)).
Proof.
  intros Ht [H Hlk] Hroom. unfold bgp_route_next. rewrite (get_node_Ok t l nd H), bind_Ok.
  destruct (next_node t (to_wf t Ht) l nd H) as (o & E & Ho). rewrite E, bind_Ok. clear E. destruct o as [z|].
  2:{ destruct (unlock_ok t l nd Ht H) as (t' & E' & Ht' & Hr' & He'); [lia |]. rewrite bind_Ok.
      unfold bgp_unlock_node in *. destruct (unlock_put dbs peer bms Hbms t l nd Hrw (to_wf t Ht) H) as (t'' & E'' & _ & _ & Hs);
        [intros x nx _; apply (to_held t Ht) | lia |]. unfold bgp_unlock_node in E''. assert (t'' = t') as -> by congruence.
      rewrite E', bind_Ok. exists t', None. split_and!; try done.
      apply (within_trans t' (put t l (with_lock (nd_lock nd - 1) nd)) t); [by apply within_shrinks | by apply (within_put t l nd)]. }
  destruct (Ho) as (nz & Hz & Hlz & _ & _).
  assert (Hne : z <> l) by (intros ->; rewrite H in Hz; injection Hz as <-; by rewrite klt_not_below in Hlz).
  destruct (bgp_lock_node_Ok dbs peer bms Hbms t z nz Hz) as (k & Ek & Hk). rewrite Hrw in Hk.
  pose proof (to_held t Ht z nz Hz) as Hhz. pose proof (Hroom z nz Hz) as Hrz. pose proof (refs_nonneg nz) as Hnz.
  rewrite u32_small in Hk by lia. rewrite Ek, bind_Ok. fold (put t z (with_lock k nz)). set (t1 := put t z (with_lock k nz)).
  destruct (put_lock_ok t z nz k Ht Hz) as [Ht1 Hr1]; [lia |]. fold t1 in Ht1, Hr1.
  assert (Hl1 : t_heap t1 !! l = Some nd) by (cbn; by rewrite lookup_insert_ne).
  assert (Hz1 : t_heap t1 !! z = Some (with_lock k nz)) by (cbn; by rewrite lookup_insert_eq).
  destruct (unlock_put dbs peer bms Hbms t1 l nd Hrw (to_wf t1 Ht1) Hl1) as (t' & E' & Hwf' & _ & Hs);
    [intros x nx _; apply (to_held t1 Ht1) | lia |].
  destruct (put_lock_ok t1 l nd (nd_lock nd - 1) Ht1 Hl1) as [Hok Hr]; [lia |].
  destruct (shrinks_ok _ t' Hs Hwf' Hok) as [Hok' Hr'].
  destruct (proj2 Hs z (with_lock k nz)) as [nz' Hz']; [cbn; by rewrite lookup_insert_ne, lookup_insert_eq | cbn; lia |].
  destruct (proj1 Hs z nz' Hz') as (nz1 & E1 & Ep & Ei & El). cbn in E1. rewrite lookup_insert_ne, lookup_insert_eq in E1 by done.
  injection E1 as <-. cbn in Ep, Ei, El.
  rewrite E', bind_Ok. exists t', (Some z). split_and!; try done.
  - congruence.
  - eapply (within_trans); [apply within_shrinks, Hs |]. eapply (within_trans (put t1 l _) t1 t); [by apply (within_put t1 l nd) | by apply (within_put t z nz)].
  - intros n Hex. apply (shrinks_exact n _ _ _ Hs). intros x nx Hx. unfold leak_node. cbn in Hx.
    destruct (decide (x = l)) as [->|Hxl].
    + rewrite lookup_insert_eq in Hx. injection Hx as <-. rewrite decide_False by congruence.
      pose proof (Hex l nd H) as E2. unfold leak_node in E2. rewrite decide_True in E2 by done.
      cbn [with_lock nd_lock]. change (refs (with_lock (nd_lock nd - 1) nd)) with (refs nd). lia.
    + rewrite lookup_insert_ne in Hx by done. destruct (decide (x = z)) as [->|Hxz].
      * rewrite lookup_insert_eq in Hx. injection Hx as <-. rewrite decide_True by done.
        pose proof (Hex z nz Hz) as E2. unfold leak_node in E2. rewrite decide_False in E2 by congruence.
        cbn [with_lock nd_lock]. change (refs (with_lock k nz)) with (refs nz). lia.
      * rewrite lookup_insert_ne in Hx by done. pose proof (Hex x nx Hx) as E2. unfold leak_node in E2.
        rewrite decide_False in E2 by congruence. rewrite decide_False by congruence. lia.
  - intros z0 [= <-]. exists nz'. split; [| done]. split; [done |]. unfold refs. rewrite Ei, El.
    change (refs nz < k < 2 ^ 32 - 1). lia.
Qed.

End Routes.

Abbreviation exact_but := (leak_but 0).

End BgpRoutes.
