(* ===== verification/CBuf.v ===== *)
(** * Character buffers: [snprintf] into allocated memory

    A buffer is the list of its bytes, whatever they are; [snprintf] writes
    what fits, NUL-terminated, and a write outside the buffer is a fault.  The
    return value of the C function, the length of the whole text, is left to
    the callers, who add it up the way the source does. *)

From S2P Require Import Prelude.

Module CBuf.

(** Memory as [malloc] hands it out: its contents do not matter. *)
Definition malloc_buf (size : Z) : list Z := replicate (Z.to_nat size) 255.

(** [realloc] to a size at least as large. *)
Definition realloc_buf (buf : list Z) (size : Z) : list Z :=
  buf ++ replicate (Z.to_nat size - length buf) 255.

Definition write_at (buf : list Z) (off : Z) (bytes : list Z) : res (list Z) :=
  if (0 <=? off) && (off + strlen bytes <=? strlen buf)
  then Ok (take (Z.to_nat off) buf ++ bytes ++ drop (Z.to_nat off + length bytes) buf)
  else Err OutOfBounds.

Definition read_bytes (buf : list Z) (off n : Z) : res (list Z) :=
  if (0 <=? off) && (0 <=? n) && (off + n <=? strlen buf)
  then Ok (take (Z.to_nat n) (drop (Z.to_nat off) buf)) else Err OutOfBounds.

(** One octet, and integers in network order. *)
Definition u8_at (buf : list Z) (off : Z) : res Z :=
  b ← read_bytes buf off 1; Ok (byte_at b 0).
Definition be16_at (buf : list Z) (off : Z) : res Z :=
  b ← read_bytes buf off 2; Ok (be16 (byte_at b 0) (byte_at b 1)).
Definition be32_at (buf : list Z) (off : Z) : res Z :=
  b ← read_bytes buf off 4; Ok (ntohl b).

(** [memmove (buf + dst, buf + src, n)]. *)
Definition memmove (buf : list Z) (dst src n : Z) : res (list Z) :=
  bytes ← read_bytes buf src n;
  write_at buf dst bytes.

(** [snprintf (buf + off, n, "%s", s)]; [n] is a [size_t], so that a negative
    [int] argument becomes a huge one. *)
Definition snprintf (buf : list Z) (off n : Z) (s : list Z) : res (list Z) :=
  let n := u64 n in
  if n =? 0 then Ok buf
  else write_at buf off (take (Z.to_nat (n - 1)) s ++ [0]).

(** [sprintf (buf + off, "%s", s)]. *)
Definition sprintf (buf : list Z) (off : Z) (s : list Z) : res (list Z) :=
  write_at buf off (s ++ [0]).

(** The C string at the start of the buffer. *)
Fixpoint c_string (buf : list Z) : res (list Z) :=
  match buf with
  | [] => Err OutOfBounds
  | c :: r => if c =? 0 then Ok [] else (c ::.) <$> c_string r
  end.

(** A buffer, its size and the number of characters printed so far. *)
Record out := mk_out {
  o_buf : list Z;
  o_size : Z;
  o_len : Z
}.

(** [len += snprintf (str_buf + len, str_size - len, ...)]. *)
Definition emit (o : out) (s : list Z) : res out :=
  buf ← snprintf (o_buf o) (o_len o) (o_size o - o_len o) s;
  Ok (mk_out buf (o_size o) (o_len o + strlen s)).

(* ------------------------------------------------------------------ *)
(** ** Appending to a buffer *)

(** The buffer starts with [text]. *)
Definition starts (text buf : list Z) : Prop := exists r, buf = text ++ r.

Lemma starts_nil buf : starts [] buf.
Proof. by exists buf. Qed.

Lemma realloc_starts text buf size : starts text buf -> starts text (realloc_buf buf size).
Proof. intros [r ->]. unfold realloc_buf. rewrite <- app_assoc. by eexists. Qed.

Lemma realloc_length buf size : strlen buf <= size -> strlen (realloc_buf buf size) = size.
Proof. unfold realloc_buf, strlen. rewrite length_app, length_replicate. lia. Qed.

Lemma malloc_length size : 0 <= size -> strlen (malloc_buf size) = size.
Proof. unfold malloc_buf, strlen. rewrite length_replicate. lia. Qed.

Lemma write_at_append text buf s :
  starts text buf -> strlen text + strlen s <= strlen buf ->
  exists buf', write_at buf (strlen text) s = Ok buf' /\ starts (text ++ s) buf' /\
    strlen buf' = strlen buf.
Proof.
  intros [r ->] H. unfold write_at. unfold strlen in *. rewrite length_app in *.
  rewrite (proj2 (Z.leb_le 0 _)) by lia. rewrite (proj2 (Z.leb_le _ _)) by lia. cbn [andb].
  eexists. split; [done |]. rewrite Nat2Z.id, take_app_length. split.
  - eexists. by rewrite <- app_assoc.
  - rewrite !length_app, length_drop, length_app. lia.
Qed.

Lemma starts_app_l text s buf : starts (text ++ s) buf -> starts text buf.
Proof. intros [r ->]. rewrite <- app_assoc. by eexists. Qed.

(** [snprintf] at the end of the text, with the room that is left, when the
    addition fits. *)
Lemma snprintf_append text buf s :
  starts text buf -> strlen text + strlen s < strlen buf < 2 ^ 64 ->
  exists buf', snprintf buf (strlen text) (strlen buf - strlen text) s = Ok buf' /\
    starts (text ++ s) buf' /\ strlen buf' = strlen buf.
Proof.
  intros Hs H. unfold snprintf. assert (0 <= strlen text) by (unfold strlen; lia).
  assert (0 <= strlen s) by (unfold strlen; lia).
  rewrite u64_small by lia. rewrite (proj2 (Z.eqb_neq _ _)) by lia.
  rewrite take_ge by (unfold strlen in *; lia).
  destruct (write_at_append text buf (s ++ [0]) Hs) as (buf' & E & Hs' & Hl).
  { unfold strlen in *. rewrite length_app. cbn. lia. }
  exists buf'. split_and!; try done. rewrite app_assoc in Hs'. by apply starts_app_l in Hs'.
Qed.

(** The same with the offset and the size given as equal numbers. *)
Lemma snprintf_append_eq text buf s off n :
  starts text buf -> off = strlen text -> n = strlen buf - strlen text ->
  strlen text + strlen s < strlen buf < 2 ^ 64 ->
  exists buf', snprintf buf off n s = Ok buf' /\ starts (text ++ s) buf' /\ strlen buf' = strlen buf.
Proof. intros Hs -> -> H. by apply snprintf_append. Qed.

Lemma sprintf_append text buf s :
  starts text buf -> strlen text + strlen s < strlen buf ->
  exists buf', sprintf buf (strlen text) s = Ok buf' /\ starts (text ++ s ++ [0]) buf' /\
    strlen buf' = strlen buf.
Proof.
  intros Hs H. apply write_at_append; [done |]. unfold strlen in *. rewrite length_app. cbn. lia.
Qed.

(** Characters of a text: anything but NUL. *)
Definition no_nul (s : list Z) : Prop := Forall (fun c => c <> 0) s.

Lemma c_string_app s r : no_nul s -> c_string (s ++ 0 :: r) = Ok s.
Proof.
  induction 1 as [|c s Hc Hs IH]; cbn; [done |].
  rewrite (proj2 (Z.eqb_neq c 0)) by done. by rewrite IH.
Qed.

Lemma store_append text buf c :
  starts text buf -> strlen text < strlen buf ->
  exists buf', store buf (strlen text) c = Ok buf' /\ starts (text ++ [c]) buf' /\ strlen buf' = strlen buf.
Proof.
  intros [r ->] H. unfold strlen in *. rewrite length_app in H.
  eexists. split; [apply store_Ok; split; [rewrite length_app; lia | done] |].
  rewrite Nat2Z.id, insert_app_r_alt, Nat.sub_diag by lia.
  destruct r as [|x r]; [cbn in H; lia |]. cbn [list_insert]. split.
  - exists r. by rewrite <- app_assoc.
  - rewrite !length_app. done.
Qed.

(** Terminating the text at its length. *)
Lemma terminate text buf :
  starts text buf -> no_nul text -> strlen text < strlen buf ->
  exists buf', store buf (strlen text) 0 = Ok buf' /\ c_string buf' = Ok text.
Proof.
  intros [r ->] Hn H. unfold strlen in *. rewrite length_app in H.
  eexists. split; [apply store_Ok; split; [rewrite length_app; lia | done] |].
  rewrite Nat2Z.id, insert_app_r_alt, Nat.sub_diag by lia.
  destruct r as [|x r]; [cbn in H; lia |]. cbn. by apply c_string_app.
Qed.

Lemma strlen_app a b : strlen (a ++ b) = strlen a + strlen b.
Proof. unfold strlen. rewrite length_app. lia. Qed.

Lemma strlen_one x : strlen [x] = 1.
Proof. done. Qed.

Lemma strlen_cons x l : strlen (x :: l) = 1 + strlen l.
Proof. unfold strlen. cbn [length]. lia. Qed.

Lemma strlen_nonneg a : 0 <= strlen a.
Proof. unfold strlen. lia. Qed.

Lemma no_nul_app a b : no_nul a -> no_nul b -> no_nul (a ++ b).
Proof. apply Forall_app_2. Qed.

Lemma no_nul_digits ds : Forall (fun c => is_digit c = true) ds -> no_nul ds.
Proof. intros H. eapply Forall_impl; [exact H |]. intros c Hc%digit_range. cbn. lia. Qed.

Lemma no_nul_dec n : 0 <= n < 2 ^ 64 -> no_nul (dec n).
Proof. intros H. destruct (dec_spec n H) as (Hd & _ & _). by apply no_nul_digits. Qed.

(** [text] is what the buffer holds so far. *)
Record printed (o : out) (text : list Z) : Prop := {
  pr_starts : starts text (o_buf o);
  pr_len : o_len o = strlen text;
  pr_size : strlen (o_buf o) = o_size o;
  pr_fits : o_size o < 2 ^ 64
}.

Lemma emit_printed o text s :
  printed o text -> strlen text + strlen s < o_size o ->
  exists o', emit o s = Ok o' /\ printed o' (text ++ s) /\ o_size o' = o_size o.
Proof.
  intros [H1 H2 H3 H4] H. unfold emit.
  destruct (snprintf_append_eq text (o_buf o) s (o_len o) (o_size o - o_len o) H1)
    as (buf' & E & Hs & Hl); [done | lia | lia |].
  rewrite E. cbn [mbind res_bind]. eexists. split; [done |]. split; [| done].
  split; cbn; [done | rewrite H2, strlen_app; lia | lia | done].
Qed.

Lemma printed_realloc o text n :
  printed o text -> o_size o <= n < 2 ^ 64 ->
  printed (mk_out (realloc_buf (o_buf o) n) n (o_len o)) text.
Proof.
  intros [H1 H2 H3 H4] Hn. split; cbn; [by apply realloc_starts | done | | lia].
  apply realloc_length. lia.
Qed.

(** The end of every printing routine. *)
Lemma printed_string o text :
  printed o text -> no_nul text -> strlen text < o_size o ->
  exists buf, store (o_buf o) (o_len o) 0 = Ok buf /\ c_string buf = Ok text.
Proof. intros [H1 H2 H3 H4] Hn H. rewrite H2. apply terminate; [done.. | lia]. Qed.

(* ------------------------------------------------------------------ *)
(** ** Reading from a buffer *)

(** What stands at an offset. *)
Definition at_off (buf : list Z) (off : Z) (bytes : list Z) : Prop :=
  exists pre post, buf = pre ++ bytes ++ post /\ off = strlen pre.

Lemma read_bytes_at buf off bytes : at_off buf off bytes -> read_bytes buf off (strlen bytes) = Ok bytes.
Proof.
  intros (pre & post & -> & ->). unfold read_bytes, strlen. rewrite !length_app, !(proj2 (Z.leb_le _ _)) by lia.
  cbn [andb]. by rewrite !Nat2Z.id, drop_app_length, take_app_length.
Qed.

Lemma at_off_app_l buf off a b : at_off buf off (a ++ b) -> at_off buf off a.
Proof. intros (pre & post & -> & ->). exists pre, (b ++ post). by rewrite <- app_assoc. Qed.

Lemma at_off_app_r buf off a b : at_off buf off (a ++ b) -> at_off buf (off + strlen a) b.
Proof.
  intros (pre & post & -> & ->). exists (pre ++ a), post. split; [by rewrite <- !app_assoc |].
  unfold strlen. rewrite length_app. lia.
Qed.

Lemma at_off_nonneg buf off b : at_off buf off b -> 0 <= off.
Proof. intros (pre & post & _ & ->). apply strlen_nonneg. Qed.

Lemma read_at buf off n b : at_off buf off b -> n = strlen b -> read_bytes buf off n = Ok b.
Proof. intros H ->. by apply read_bytes_at. Qed.

Lemma u8_read buf off b r : at_off buf off (b :: r) -> u8_at buf off = Ok b.
Proof. intros H. unfold u8_at. rewrite (read_at _ _ 1 [b]); [done | | done]. by apply (at_off_app_l _ _ _ r). Qed.

Lemma be16_read buf off v r : is_u16 v -> at_off buf off ([v / 256; v mod 256] ++ r) -> be16_at buf off = Ok v.
Proof.
  intros Hv H%at_off_app_l. unfold be16_at. rewrite (read_at _ _ 2 _ H) by done. res_step. f_equal.
  change (v / 256 * 256 + v mod 256 = v). Z.div_mod_to_equations; lia.
Qed.

Lemma be32_read buf off v r : is_u32 v -> at_off buf off (htonl v ++ r) -> be32_at buf off = Ok v.
Proof.
  intros Hv H%at_off_app_l. unfold be32_at. rewrite (read_at _ _ 4 _ H) by done. res_step. by rewrite ntohl_htonl.
Qed.

(** Reading inside of what is at an offset. *)
Lemma read_within buf off bytes i n : at_off buf off bytes -> 0 <= i -> 0 <= n -> i + n <= strlen bytes ->
  read_bytes buf (off + i) n = Ok (take (Z.to_nat n) (drop (Z.to_nat i) bytes)).
Proof.
  intros H H1 H2 H3. set (a := take (Z.to_nat i) bytes). set (b := drop (Z.to_nat i) bytes).
  assert (E : bytes = a ++ take (Z.to_nat n) b ++ drop (Z.to_nat n) b) by (subst a b; by rewrite !take_drop).
  rewrite E in H. apply at_off_app_r in H. apply at_off_app_l in H. unfold strlen in *.
  replace (Z.of_nat (length a)) with i in H by (subst a; rewrite length_take; lia). apply (read_at _ _ _ _ H).
  unfold strlen. subst b. rewrite length_take, length_drop. lia.
Qed.

Lemma take_one_byte (bytes : list Z) i k : 0 <= i < strlen bytes -> (0 < k)%nat ->
  byte_at (take k (drop (Z.to_nat i) bytes)) 0 = byte_at bytes i.
Proof.
  intros H Hk. unfold byte_at. change (Z.to_nat 0) with 0%nat. rewrite lookup_take_lt by lia. rewrite lookup_drop. f_equal. f_equal. lia.
Qed.

Lemma u8_within buf off bytes i : at_off buf off bytes -> 0 <= i < strlen bytes -> u8_at buf (off + i) = Ok (byte_at bytes i).
Proof.
  intros H Hi. unfold u8_at. rewrite (read_within _ _ _ _ _ H) by lia. res_step. f_equal. apply take_one_byte; [done | lia].
Qed.

Lemma be16_within buf off bytes i : at_off buf off bytes -> 0 <= i -> i + 2 <= strlen bytes ->
  be16_at buf (off + i) = Ok (be16 (byte_at bytes i) (byte_at bytes (i + 1))).
Proof.
  intros H Hi Hl. unfold be16_at. rewrite (read_within _ _ _ _ _ H) by lia. res_step. do 2 f_equal.
  - apply take_one_byte; lia.
  - unfold byte_at. rewrite lookup_take_lt by lia. rewrite lookup_drop. do 2 f_equal. lia.
Qed.

Lemma read_bytes_inv buf off n b :
  read_bytes buf off n = Ok b -> 0 <= off /\ 0 <= n /\ off + n <= strlen buf /\
    b = take (Z.to_nat n) (drop (Z.to_nat off) buf).
Proof.
  unfold read_bytes. destruct (Z.leb_spec 0 off), (Z.leb_spec 0 n), (Z.leb_spec (off + n) (strlen buf)); cbn; intros [= <-].
  done.
Qed.

Section Reads.
Context (buf : list Z) (Hbuf : bytes_ok buf).

Lemma read_bytes_ok off n : 0 <= off -> 0 <= n -> off + n <= strlen buf ->
  exists b, read_bytes buf off n = Ok b /\ bytes_ok b /\ strlen b = n.
Proof using Hbuf.
  intros H1 H2 H3. unfold read_bytes. rewrite !(proj2 (Z.leb_le _ _)) by lia. eexists. split; [done |].
  split; [by apply Forall_take, Forall_drop |]. unfold strlen in *. rewrite length_take, length_drop. lia.
Qed.

Lemma u8_at_ok off : 0 <= off < strlen buf -> exists v, u8_at buf off = Ok v /\ is_u8 v.
Proof using Hbuf.
  intros H. unfold u8_at. destruct (read_bytes_ok off 1) as (b & -> & Hb & _); [lia.. |]. eexists. split; [done |].
  by apply byte_at_range.
Qed.

Lemma be16_at_ok off : 0 <= off -> off + 2 <= strlen buf -> exists v, be16_at buf off = Ok v /\ is_u16 v.
Proof using Hbuf.
  intros H1 H2. unfold be16_at. destruct (read_bytes_ok off 2) as (b & -> & Hb & _); [lia.. |]. eexists. split; [done |].
  apply be16_range; by apply byte_at_range.
Qed.

Lemma be16_at_u16 off v : be16_at buf off = Ok v -> is_u16 v.
Proof using Hbuf.
  unfold be16_at. destruct (read_bytes buf off 2) as [b|] eqn:E; [| done]. rewrite bind_Ok. intros [= <-].
  apply read_bytes_inv in E as (_ & _ & _ & ->). apply be16_range; by apply byte_at_range, Forall_take, Forall_drop.
Qed.

Lemma be32_at_ok off : 0 <= off -> off + 4 <= strlen buf -> exists v, be32_at buf off = Ok v /\ is_u32 v.
Proof using Hbuf.
  intros H1 H2. unfold be32_at. destruct (read_bytes_ok off 4) as (b & -> & Hb & _); [lia.. |]. eexists. split; [done |].
  by apply ntohl_range.
Qed.

End Reads.

End CBuf.
