(* ===== verification/Jhash.v ===== *)
(** * src/jhash.h: the Jenkins hash

    32-bit words are integers below 2^32, every operation of
    [__jhash_mix] wraps.  A key is the list of its bytes ([jhash]) or of its
    words ([jhash2]); [jhash] reads bytes in little-endian order, so on a
    little-endian machine the word version is the byte version on the bytes
    of the words. *)

From S2P Require Import Prelude.

Module Jhash.

Definition JHASH_GOLDEN_RATIO : Z := 0x9e3779b9.

Definition jhash_mix (a b c : Z) : Z * Z * Z :=
  let a := u32 (a - b) in let a := u32 (a - c) in let a := Z.lxor a (Z.shiftr c 13) in
  let b := u32 (b - c) in let b := u32 (b - a) in let b := Z.lxor b (u32 (Z.shiftl a 8)) in
  let c := u32 (c - a) in let c := u32 (c - b) in let c := Z.lxor c (Z.shiftr b 13) in
  let a := u32 (a - b) in let a := u32 (a - c) in let a := Z.lxor a (Z.shiftr c 12) in
  let b := u32 (b - c) in let b := u32 (b - a) in let b := Z.lxor b (u32 (Z.shiftl a 16)) in
  let c := u32 (c - a) in let c := u32 (c - b) in let c := Z.lxor c (Z.shiftr b 5) in
  let a := u32 (a - b) in let a := u32 (a - c) in let a := Z.lxor a (Z.shiftr c 3) in
  let b := u32 (b - c) in let b := u32 (b - a) in let b := Z.lxor b (u32 (Z.shiftl a 10)) in
  let c := u32 (c - a) in let c := u32 (c - b) in let c := Z.lxor c (Z.shiftr b 15) in
  (a, b, c).

(** [k[i] << s], the byte converted to 32 bits before the shift. *)
Definition byte_sh (k : list Z) (i s : Z) : Z := u32 (Z.shiftl (byte_at k i) s).

(** The four bytes of [k] from [i], least significant first. *)
Definition word_le (k : list Z) (i : Z) : Z :=
  u32 (byte_at k i + byte_sh k (i + 1) 8 + byte_sh k (i + 2) 16 + byte_sh k (i + 3) 24).

(** [while (len >= 12) { ... k += 12; len -= 12; }]; the result is [a], [b],
    [c] and the remaining bytes. *)
Fixpoint jhash_loop (fuel : nat) (a b c : Z) (k : list Z) : Z * Z * Z * list Z :=
  match fuel with
  | O => (a, b, c, k)
  | S f =>
      if 12 <=? strlen k then
        let a := u32 (a + word_le k 0) in
        let b := u32 (b + word_le k 4) in
        let c := u32 (c + word_le k 8) in
        let '(a, b, c) := jhash_mix a b c in
        jhash_loop f a b c (drop 12 k)
      else (a, b, c, k)
  end.

(** The [switch (len)] falls through: every case at or below [len] runs. *)
Definition jhash_tail (a b c len : Z) (k : list Z) : Z * Z * Z :=
  let on n x v := if n <=? len then u32 (x + v) else x in
  let c := on 11 c (byte_sh k 10 24) in
  let c := on 10 c (byte_sh k 9 16) in
  let c := on 9 c (byte_sh k 8 8) in
  let b := on 8 b (byte_sh k 7 24) in
  let b := on 7 b (byte_sh k 6 16) in
  let b := on 6 b (byte_sh k 5 8) in
  let b := on 5 b (byte_at k 4) in
  let a := on 4 a (byte_sh k 3 24) in
  let a := on 3 a (byte_sh k 2 16) in
  let a := on 2 a (byte_sh k 1 8) in
  let a := on 1 a (byte_at k 0) in
  (a, b, c).

(** [length] is the length of the key. *)
Definition jhash (key : list Z) (initval : Z) : Z :=
  let a := JHASH_GOLDEN_RATIO in
  let b := JHASH_GOLDEN_RATIO in
  let '(a, b, c, k) := jhash_loop (length key) a b initval key in
  let c := u32 (c + strlen key) in
  let '(a, b, c) := jhash_tail a b c (strlen k) k in
  let '(_, _, c) := jhash_mix a b c in
  c.

(** The same on words: [k] holds 32-bit values. *)
Fixpoint jhash2_loop (fuel : nat) (a b c : Z) (k : list Z) : Z * Z * Z * list Z :=
  match fuel with
  | O => (a, b, c, k)
  | S f =>
      if 3 <=? strlen k then
        let a := u32 (a + byte_at k 0) in
        let b := u32 (b + byte_at k 1) in
        let c := u32 (c + byte_at k 2) in
        let '(a, b, c) := jhash_mix a b c in
        jhash2_loop f a b c (drop 3 k)
      else (a, b, c, k)
  end.

Definition jhash2 (k : list Z) (initval : Z) : Z :=
  let length_ := strlen k in
  let a := JHASH_GOLDEN_RATIO in
  let b := JHASH_GOLDEN_RATIO in
  let '(a, b, c, k) := jhash2_loop (length k) a b initval k in
  let c := u32 (c + u32 (length_ * 4)) in
  let b := if 2 <=? strlen k then u32 (b + byte_at k 1) else b in
  let a := if 1 <=? strlen k then u32 (a + byte_at k 0) else a in
  let '(_, _, c) := jhash_mix a b c in
  c.

Definition jhash_3words (a b c initval : Z) : Z :=
  let a := u32 (a + JHASH_GOLDEN_RATIO) in
  let b := u32 (b + JHASH_GOLDEN_RATIO) in
  let c := u32 (c + initval) in
  let '(_, _, c) := jhash_mix a b c in
  c.

Definition jhash_2words (a b initval : Z) : Z := jhash_3words a b 0 initval.
Definition jhash_1word (a initval : Z) : Z := jhash_3words a 0 0 initval.

(* ------------------------------------------------------------------ *)
(** ** The word version is the byte version *)

(** The bytes of a word in the memory of a little-endian machine. *)
Definition le_bytes (w : Z) : list Z :=
  [w mod 256; w / 2 ^ 8 mod 256; w / 2 ^ 16 mod 256; w / 2 ^ 24 mod 256].

Fixpoint flat (k : list Z) : list Z :=
  match k with [] => [] | w :: r => le_bytes w ++ flat r end.

Lemma flat_length k : length (flat k) = (4 * length k)%nat.
Proof. induction k as [|w k IH]; [done |]. cbn [flat]. rewrite length_app, IH. cbn. lia. Qed.

Lemma shl_byte b s : 0 <= b < 256 -> 0 <= s <= 24 -> u32 (Z.shiftl b s) = b * 2 ^ s.
Proof.
  intros Hb Hs. rewrite Z.shiftl_mul_pow2 by lia. apply u32_small.
  assert (0 < 2 ^ s) by (apply Z.pow_pos_nonneg; lia).
  split; [nia |]. assert (2 ^ s <= 2 ^ 24) by (apply Z.pow_le_mono_r; lia). nia.
Qed.

Lemma le_word w : is_u32 w ->
  w mod 256 + (w / 2 ^ 8 mod 256) * 2 ^ 8 + (w / 2 ^ 16 mod 256) * 2 ^ 16
    + (w / 2 ^ 24 mod 256) * 2 ^ 24 = w.
Proof.
  unfold in_u. change (2 ^ 8) with 256. change (2 ^ 16) with 65536. change (2 ^ 24) with 16777216.
  change (2 ^ 32) with 4294967296. intros H. Z.div_mod_to_equations. lia.
Qed.

(** The bytes of word [n]. *)
Lemma flat_byte k n j w :
  k !! n = Some w -> (j < 4)%nat ->
  flat k !! (4 * n + j)%nat = le_bytes w !! j.
Proof.
  revert n. induction k as [|x k IH]; intros [|n] H Hj; try done.
  - injection H as ->. cbn [flat]. rewrite lookup_app_l by (cbn; lia). by rewrite Nat.mul_0_r.
  - cbn [flat]. rewrite lookup_app_r by (cbn; lia).
    replace (4 * S n + j - length (le_bytes x))%nat with (4 * n + j)%nat by (cbn; lia). by apply IH.
Qed.

Lemma byte_flat k n j w :
  k !! n = Some w -> 0 <= j < 4 ->
  byte_at (flat k) (4 * Z.of_nat n + j) = w / 2 ^ (8 * j) mod 256.
Proof.
  intros H Hj. unfold byte_at.
  replace (Z.to_nat (4 * Z.of_nat n + j)) with (4 * n + Z.to_nat j)%nat by lia.
  rewrite (flat_byte k n (Z.to_nat j) w H) by lia.
  assert (j = 0 \/ j = 1 \/ j = 2 \/ j = 3) as [-> | [-> | [-> | ->]]] by lia; cbn; try done.
  by rewrite Z.div_1_r.
Qed.

Lemma word_at k n w : k !! n = Some w -> byte_at k (Z.of_nat n) = w.
Proof. intros H. unfold byte_at. by rewrite Nat2Z.id, H. Qed.

Lemma byte_sh_flat k n j w :
  k !! n = Some w -> 0 <= j < 4 ->
  byte_sh (flat k) (4 * Z.of_nat n + j) (8 * j) = (w / 2 ^ (8 * j) mod 256) * 2 ^ (8 * j).
Proof.
  intros H Hj. unfold byte_sh. rewrite (byte_flat k n j w) by done.
  apply shl_byte; [apply Z.mod_pos_bound; lia | lia].
Qed.

Lemma word_le_flat k (n : nat) w :
  k !! n = Some w -> is_u32 w -> word_le (flat k) (4 * Z.of_nat n) = w.
Proof.
  intros H Hw. unfold word_le.
  rewrite <- (Z.add_0_r (4 * Z.of_nat n)) at 1.
  rewrite (byte_flat k n 0 w) by (done || lia).
  change (w / 2 ^ (8 * 0) mod 256) with (w / 1 mod 256). rewrite Z.div_1_r.
  pose proof (byte_sh_flat k n 1 w H ltac:(lia)) as S1.
  pose proof (byte_sh_flat k n 2 w H ltac:(lia)) as S2.
  pose proof (byte_sh_flat k n 3 w H ltac:(lia)) as S3.
  change (8 * 1) with 8 in S1. change (8 * 2) with 16 in S2. change (8 * 3) with 24 in S3.
  rewrite S1, S2, S3, (le_word w Hw). by apply u32_small.
Qed.

(** Both loops consume the same words and stop at the same place. *)
Lemma jhash_loop_flat f : forall f' k a b c,
  Forall (in_u 32) k -> (length k <= f)%nat -> (length k <= f')%nat ->
  exists a' b' c' k', jhash2_loop f a b c k = (a', b', c', k') /\
    jhash_loop f' a b c (flat k) = (a', b', c', flat k') /\ Forall (in_u 32) k' /\
    (length k' < 3)%nat.
Proof.
  induction f as [|f IH]; intros f' k a b c Hk Hf Hf'.
  { destruct k; [| cbn in Hf; lia]. exists a, b, c, []. split_and!; try done; [| cbn; lia].
    by destruct f'. }
  destruct f' as [|f'].
  { destruct k; [| cbn in Hf'; lia]. exists a, b, c, []. split_and!; try done. cbn. lia. }
  cbn [jhash_loop jhash2_loop]. unfold strlen. rewrite flat_length.
  destruct (Z.leb_spec 3 (Z.of_nat (length k))) as [H3|H3];
    destruct (Z.leb_spec 12 (Z.of_nat (4 * length k))) as [H12|H12]; try lia.
  2: { exists a, b, c, k. split_and!; try done. lia. }
  destruct k as [|w0 [|w1 [|w2 k]]]; try (cbn in H3; lia).
  inversion Hk as [|? ? W0 Hk0]; subst. inversion Hk0 as [|? ? W1 Hk1]; subst.
  inversion Hk1 as [|? ? W2 Hk2]; subst.
  pose proof (word_le_flat (w0 :: w1 :: w2 :: k) 0 w0 eq_refl W0) as E0.
  pose proof (word_le_flat (w0 :: w1 :: w2 :: k) 1 w1 eq_refl W1) as E1.
  pose proof (word_le_flat (w0 :: w1 :: w2 :: k) 2 w2 eq_refl W2) as E2.
  change (4 * Z.of_nat 0) with 0 in E0. change (4 * Z.of_nat 1) with 4 in E1.
  change (4 * Z.of_nat 2) with 8 in E2. rewrite E0, E1, E2.
  change (byte_at (w0 :: w1 :: w2 :: k) 0) with w0.
  change (byte_at (w0 :: w1 :: w2 :: k) 1) with w1.
  change (byte_at (w0 :: w1 :: w2 :: k) 2) with w2.
  destruct (jhash_mix _ _ _) as [[a1 b1] c1].
  change (drop 12 (flat (w0 :: w1 :: w2 :: k))) with (flat k).
  change (drop 3 (w0 :: w1 :: w2 :: k)) with k.
  cbn [length] in *. apply IH; [done | lia | lia].
Qed.

Lemma u32_add3 a x y : u32 (u32 (a + x) + y) = u32 (a + (x + y)).
Proof. rewrite u32_add_l. f_equal. lia. Qed.

(** [a] receives a whole word when its four bytes are there. *)
Lemma tail_word a k (n : nat) w :
  k !! n = Some w -> is_u32 w ->
  u32 (u32 (u32 (u32 (a + byte_sh (flat k) (4 * Z.of_nat n + 3) 24)
    + byte_sh (flat k) (4 * Z.of_nat n + 2) 16) + byte_sh (flat k) (4 * Z.of_nat n + 1) 8)
    + byte_at (flat k) (4 * Z.of_nat n + 0)) = u32 (a + w).
Proof.
  intros H Hw. rewrite !u32_add3. do 2 f_equal.
  pose proof (byte_sh_flat k n 1 w H ltac:(lia)) as S1.
  pose proof (byte_sh_flat k n 2 w H ltac:(lia)) as S2.
  pose proof (byte_sh_flat k n 3 w H ltac:(lia)) as S3.
  pose proof (byte_flat k n 0 w H ltac:(lia)) as S0.
  change (8 * 0) with 0 in S0. rewrite Z.pow_0_r, Z.div_1_r in S0.
  change (8 * 1) with 8 in S1. change (8 * 2) with 16 in S2. change (8 * 3) with 24 in S3.
  rewrite S0, S1, S2, S3. pose proof (le_word w Hw). lia.
Qed.

(** The tail for whole numbers of words. *)
Lemma tail_0 a b c k : jhash_tail a b c 0 k = (a, b, c).
Proof. reflexivity. Qed.

Lemma tail_4 a b c k : jhash_tail a b c 4 k =
  (u32 (u32 (u32 (u32 (a + byte_sh k 3 24) + byte_sh k 2 16) + byte_sh k 1 8) + byte_at k 0), b, c).
Proof. reflexivity. Qed.

Lemma tail_8 a b c k : jhash_tail a b c 8 k =
  (u32 (u32 (u32 (u32 (a + byte_sh k 3 24) + byte_sh k 2 16) + byte_sh k 1 8) + byte_at k 0),
   u32 (u32 (u32 (u32 (b + byte_sh k 7 24) + byte_sh k 6 16) + byte_sh k 5 8) + byte_at k 4), c).
Proof. reflexivity. Qed.

(** On words, [jhash2] computes what [jhash] computes on the bytes those
    words have in memory (little-endian). *)
Theorem jhash2_is_jhash (k : list Z) (initval : Z) :
  Forall (in_u 32) k -> strlen k < 2 ^ 30 ->
  jhash2 k initval = jhash (flat k) initval.
Proof.
  intros Hk Hl. unfold jhash2, jhash.
  destruct (jhash_loop_flat (length k) (length (flat k)) k JHASH_GOLDEN_RATIO JHASH_GOLDEN_RATIO
    initval Hk) as (a & b & c & k' & E1 & E2 & Hk' & Hshort); [done | rewrite flat_length; lia |].
  rewrite E1, E2. unfold strlen in *. rewrite !flat_length.
  rewrite (u32_small (Z.of_nat (length k) * 4)) by lia.
  replace (Z.of_nat (4 * length k)) with (Z.of_nat (length k) * 4) by lia.
  generalize (u32 (c + Z.of_nat (length k) * 4)). clear c E1 E2. intros c.
  destruct k' as [|w0 [|w1 [|w2 k']]]; [| | | cbn in Hshort; lia].
  - change (Z.of_nat (4 * length [])) with 0. rewrite tail_0. done.
  - inversion Hk' as [|? ? W0 _]; subst. change (Z.of_nat (4 * length [w0])) with 4.
    rewrite tail_4. pose proof (tail_word a [w0] 0 w0 eq_refl W0) as T.
    change (4 * Z.of_nat 0) with 0 in T. rewrite !Z.add_0_l in T. by rewrite T.
  - inversion Hk' as [|? ? W0 Hk0]; subst. inversion Hk0 as [|? ? W1 _]; subst.
    change (Z.of_nat (4 * length [w0; w1])) with 8. rewrite tail_8.
    pose proof (tail_word a [w0; w1] 0 w0 eq_refl W0) as T0.
    pose proof (tail_word b [w0; w1] 1 w1 eq_refl W1) as T1.
    change (4 * Z.of_nat 0) with 0 in T0. change (4 * Z.of_nat 1) with 4 in T1.
    rewrite !Z.add_0_l in T0. change (4 + 3) with 7 in T1. change (4 + 2) with 6 in T1.
    change (4 + 1) with 5 in T1. change (4 + 0) with 4 in T1. by rewrite T0, T1.
Qed.

(** The fixed-arity versions are a single round of the mix on their
    words: [jhash_3words] is not [jhash2] of three words (the length is not
    added and the final mix is missing), it is the state of [jhash2] after the
    first round. *)
Theorem jhash_words_round (a b c initval : Z) :
  jhash2_loop 1 JHASH_GOLDEN_RATIO JHASH_GOLDEN_RATIO initval [a; b; c] =
    (let '(x, y, z) := jhash_mix (u32 (a + JHASH_GOLDEN_RATIO)) (u32 (b + JHASH_GOLDEN_RATIO))
                         (u32 (c + initval)) in (x, y, z, [])) /\
  jhash_3words a b c initval =
    (let '(_, _, z, _) := jhash2_loop 1 JHASH_GOLDEN_RATIO JHASH_GOLDEN_RATIO initval [a; b; c] in z).
Proof.
  cbn -[jhash_mix u32 JHASH_GOLDEN_RATIO].
  change (byte_at [a; b; c] 0) with a. change (byte_at [a; b; c] 1) with b.
  change (byte_at [a; b; c] 2) with c. unfold jhash_3words.
  rewrite (Z.add_comm a), (Z.add_comm b), (Z.add_comm c).
  destruct (jhash_mix _ _ _) as [[x y] z]. done.
Qed.

Lemma jhash2_is_jhash_witness :
  jhash2 [1; 2; 3; 4; 5] 7 = jhash (flat [1; 2; 3; 4; 5]) 7.
Proof.
  apply (jhash2_is_jhash [1; 2; 3; 4; 5] 7); [| done].
  unfold in_u. repeat constructor; lia.
Defined.

End Jhash.
