(* ===== verification/BgpHash.v ===== *)
(** * src/bgp/bgp_hash.c: chained hash tables, and the interning of attributes

    A table is the array of its chains; a chain is the list of its backets,
    head first.  The data are pointers into a store: the key and comparison
    functions of [struct hash] read that store and fault on a dangling
    pointer.  [BgpIntern] is what aspath_intern/aspath_unintern and their
    three community counterparts have in common, over a type class that says
    how a kind of attribute is hashed, compared and printed. *)

From S2P Require Import Prelude Bgp.

Module BgpHash.
Import Bgp.

Section Hash.
(** [D]: the pointers stored; [T]: the store they point into. *)
Context {D T : Type}.

Record hash_backet := mk_backet {
  bk_key : Z;
  bk_data : D
}.

Record hash := mk_hash {
  index : list (list hash_backet);
  size_ : Z;
  count : Z
}.

(** The two function pointers of [struct hash]. *)
Context (hash_key : T -> D -> res Z).
Context (hash_cmp : T -> D -> D -> res bool).

Definition hash_create_size (size : Z) : hash :=
  mk_hash (replicate (Z.to_nat size) []) size 0.

(** [int] to [unsigned int]. *)
Definition hash_create (buckets : Z) : hash := hash_create_size (u32 buckets).

Definition hash_alloc_intern (st : T) (arg : D) : res (T * option D) := Ok (st, Some arg).

(** [for (backet = hash->index[index]; backet; backet = backet->next)]: the
    first backet of the chain with that key and equal data. *)
Fixpoint chain_find (st : T) (key : Z) (data : D) (chain : list hash_backet)
    : res (option D) :=
  match chain with
  | [] => Ok None
  | b :: next =>
      if bk_key b =? key then
        eq ← hash_cmp st (bk_data b) data;
        if eq : bool then Ok (Some (bk_data b)) else chain_find st key data next
      else chain_find st key data next
  end.

Definition get_chain (h : hash) (i : Z) : res (list hash_backet) :=
  match index h !! Z.to_nat i with Some c => Ok c | None => Err OutOfBounds end.

(** [alloc_func] returns NULL ([None]) when the process exits. *)
Definition hash_get (dbs : misc_dbs) (peer : option bgp_peer) (st : T) (h : hash) (data : D)
    (alloc_func : option (T -> D -> res (T * option D))) : res (T * hash * option D) :=
  match peer with
  | None => Ok (st, h, None)
  | Some peer =>
      match bgp_select_misc_db dbs (type peer) with
      | None => Ok (st, h, None)
      | Some _ =>
          key ← hash_key st data;
          let i := key mod size_ h in
          chain ← get_chain h i;
          found ← chain_find st key data chain;
          match found with
          | Some d => Ok (st, h, Some d)
          | None =>
              match alloc_func with
              | None => Ok (st, h, None)
              | Some alloc =>
                  '(st, newdata) ← alloc st data;
                  newdata ← deref newdata;
                  chain ← get_chain h i;
                  let backet := mk_backet key newdata in
                  Ok (st, mk_hash (<[Z.to_nat i := backet :: chain]> (index h)) (size_ h)
                            (u64 (count h + 1)), Some newdata)
              end
          end
      end
  end.

(** The loop of [hash_release]: the chain without the first equal backet, and
    that backet's data. *)
Fixpoint chain_release (st : T) (key : Z) (data : D) (chain : list hash_backet)
    : res (option (list hash_backet * D)) :=
  match chain with
  | [] => Ok None
  | b :: next =>
      eq ← (if bk_key b =? key then hash_cmp st (bk_data b) data else Ok false);
      if eq : bool then Ok (Some (next, bk_data b))
      else
        r ← chain_release st key data next;
        Ok (match r with Some (next', d) => Some (b :: next', d) | None => None end)
  end.

Definition hash_release (st : T) (h : hash) (data : D) : res (hash * option D) :=
  key ← hash_key st data;
  let i := key mod size_ h in
  chain ← get_chain h i;
  r ← chain_release st key data chain;
  match r with
  | Some (chain', ret) =>
      Ok (mk_hash (<[Z.to_nat i := chain']> (index h)) (size_ h) (u64 (count h - 1)), Some ret)
  | None => Ok (h, None)
  end.

(** [func] works on the store; the table is not changed while it is iterated. *)
Fixpoint iter_backets (func : T -> hash_backet -> res T) (st : T) (l : list hash_backet) : res T :=
  match l with
  | [] => Ok st
  | b :: l' => st ← func st b; iter_backets func st l'
  end.

Definition hash_iterate (func : T -> hash_backet -> res T) (st : T) (h : hash) : res T :=
  iter_backets func st (concat (index h)).

Fixpoint clean_chain (free_func : option (T -> D -> res T)) (st : T) (count_ : Z)
    (chain : list hash_backet) : res (T * Z) :=
  match chain with
  | [] => Ok (st, count_)
  | b :: next =>
      st ← match free_func with Some f => f st (bk_data b) | None => Ok st end;
      clean_chain free_func st (u64 (count_ - 1)) next
  end.

Fixpoint clean_chains (free_func : option (T -> D -> res T)) (st : T) (count_ : Z)
    (chains : list (list hash_backet)) : res (T * Z) :=
  match chains with
  | [] => Ok (st, count_)
  | c :: cs => '(st, count_) ← clean_chain free_func st count_ c;
               clean_chains free_func st count_ cs
  end.

Definition hash_clean (free_func : option (T -> D -> res T)) (st : T) (h : hash) : res (T * hash) :=
  '(st, count_) ← clean_chains free_func st (count h) (index h);
  Ok (st, mk_hash (map (fun _ => []) (index h)) (size_ h) count_).

End Hash.

Arguments hash_backet D : clear implicits.
Arguments hash D : clear implicits.

End BgpHash.

(* ------------------------------------------------------------------ *)

Module BgpIntern.
Import Bgp BgpHash.

Abbreviation loc := positive.

(** How one kind of attribute is hashed, compared and printed: the three
    functions a component gives to this one. *)
Class Internable (V : Type) := {
  value_key : V -> Z;
  value_cmp : V -> V -> bool;
  value_str : V -> res (option (list Z))
}.

(** What interning relies on: the comparison is an equivalence, equal values
    have equal keys, and values can be printed. *)
Class InternLaws (V : Type) `{Internable V} (ok : V -> Prop) := {
  key_range : forall v, ok v -> is_u32 (value_key v);
  cmp_refl : forall v, ok v -> value_cmp v v = true;
  cmp_sym : forall v w, ok v -> ok w -> value_cmp v w = true -> value_cmp w v = true;
  cmp_trans : forall u v w, ok u -> ok v -> ok w ->
    value_cmp u v = true -> value_cmp v w = true -> value_cmp u w = true;
  cmp_key : forall v w, ok v -> ok w -> value_cmp v w = true -> value_key v = value_key w;
  str_total : forall v, ok v -> exists s, value_str v = Ok s
}.

Section Intern.
Context {V : Type} `{Internable V}.

(** [struct aspath], [struct community], ...: the value, the reference count
    and the cached string. *)
Record obj := mk_obj {
  o_val : V;
  refcnt : Z;
  o_str : option (list Z)
}.

Definition obj_key (st : gmap loc obj) (l : loc) : res Z :=
  o ← deref (st !! l); Ok (value_key (o_val o)).

Definition obj_cmp (st : gmap loc obj) (l1 l2 : loc) : res bool :=
  o1 ← deref (st !! l1);
  o2 ← deref (st !! l2);
  Ok (value_cmp (o_val o1) (o_val o2)).

Definition obj_free (st : gmap loc obj) (l : loc) : res (gmap loc obj) :=
  _ ← deref (st !! l); Ok (delete l st).

(** The hash table of the attribute kind in [bgp_rt_structs] is selected by
    the type of the peer; [routing_db] says whether there is one. *)
Definition routing_db (peer : option bgp_peer) : bool :=
  match peer with
  | Some p => match bgp_select_routing_db (fun t => t) (type p) with Some _ => true | None => false end
  | None => false
  end.

Definition intern (dbs : misc_dbs) (peer : option bgp_peer) (st : gmap loc obj) (h : hash loc) (l : loc)
    : res (gmap loc obj * hash loc * option loc) :=
  if routing_db peer then
    o ← deref (st !! l);
    _ ← c_assert (refcnt o =? 0);
    '(st, h, find) ← hash_get obj_key obj_cmp dbs peer st h l (Some hash_alloc_intern);
    st ← (if bool_decide (find <> Some l) then obj_free st l else Ok st);
    find ← deref find;
    f ← deref (st !! find);
    let f := mk_obj (o_val f) (u64 (refcnt f + 1)) (o_str f) in
    str ← match o_str f with Some s => Ok (Some s) | None => value_str (o_val f) end;
    Ok (<[find := mk_obj (o_val f) (refcnt f) str]> st, h, Some find)
  else Ok (st, h, None).

Definition unintern (peer : option bgp_peer) (st : gmap loc obj) (h : hash loc) (l : loc)
    : res (gmap loc obj * hash loc) :=
  if routing_db peer then
    o ← deref (st !! l);
    let o := if negb (refcnt o =? 0) then mk_obj (o_val o) (u64 (refcnt o - 1)) (o_str o) else o in
    let st := <[l := o]> st in
    if refcnt o =? 0 then
      '(h, ret) ← hash_release obj_key obj_cmp st h l;
      _ ← c_assert (bool_decide (ret <> None));
      st ← obj_free st l;
      Ok (st, h)
    else Ok (st, h)
  else Ok (st, h).

End Intern.

Arguments obj V : clear implicits.
Abbreviation objs V := (gmap loc (obj V)).

End BgpIntern.
