(* ===== verification/BgpHashFacts.v ===== *)
(** * Properties of the hash tables and of interning (src/bgp/bgp_hash.c)

    A table refines a finite set of pointers, no two of them equal for the
    comparison; interning refines "one object per value, counted". *)

From S2P Require Import Prelude Bgp BgpHash.
Import Bgp BgpHash BgpIntern.

Module BgpHashFacts.

(* ------------------------------------------------------------------ *)
(** ** Tables *)

Section Tables.
Context {D T : Type}.
Context (hash_key : T -> D -> res Z) (hash_cmp : T -> D -> D -> res bool).
Context (st : T) (valid : D -> Prop) (K : D -> Z) (E : D -> D -> bool).

(** The pointers a table holds. *)
Definition elems (h : hash D) : list D := bk_data <$> concat (index h).

Record wf_hash (h : hash D) : Prop := {
  wh_size : 0 < size_ h < 2 ^ 32;
  wh_len : length (index h) = Z.to_nat (size_ h);
  wh_in : forall i c b, index h !! i = Some c -> b ∈ c ->
    valid (bk_data b) /\ bk_key b = K (bk_data b) /\ Z.to_nat (K (bk_data b) mod size_ h) = i;
  wh_nodup : NoDup (elems h);
  wh_distinct : forall d1 d2, d1 ∈ elems h -> d2 ∈ elems h -> E d1 d2 = true -> d1 = d2;
  wh_count : count h = u64 (Z.of_nat (length (elems h)))
}.

Hypothesis Hkey : forall d, valid d -> hash_key st d = Ok (K d).
Hypothesis Hcmp : forall d1 d2, valid d1 -> valid d2 -> hash_cmp st d1 d2 = Ok (E d1 d2).
Hypothesis HEK : forall d1 d2, valid d1 -> valid d2 -> E d1 d2 = true -> K d1 = K d2.

Implicit Types (h : hash D) (d : D).

Lemma elems_split h i c :
  index h !! i = Some c ->
  elems h = (bk_data <$> concat (take i (index h))) ++ (bk_data <$> c)
              ++ (bk_data <$> concat (drop (S i) (index h))).
Proof.
  intros H. unfold elems. rewrite <- (take_drop_middle _ _ _ H) at 1.
  rewrite concat_app. cbn. by rewrite !fmap_app.
Qed.

Lemma elems_insert h i c c' size cnt :
  index h !! i = Some c ->
  elems (mk_hash (<[i := c']> (index h)) size cnt) =
    (bk_data <$> concat (take i (index h))) ++ (bk_data <$> c')
      ++ (bk_data <$> concat (drop (S i) (index h))).
Proof.
  intros H. pose proof (lookup_lt_Some _ _ _ H). unfold elems. cbn [index].
  rewrite insert_take_drop by done. rewrite concat_app. cbn. by rewrite !fmap_app.
Qed.

Lemma elem_chain h b i c :
  index h !! i = Some c -> b ∈ c -> bk_data b ∈ elems h.
Proof.
  intros H Hb. rewrite (elems_split h i c H). apply elem_of_app. right. apply elem_of_app. left.
  by apply list_elem_of_fmap_2.
Qed.

Lemma elem_has_chain h d :
  d ∈ elems h -> exists i c b, index h !! i = Some c /\ b ∈ c /\ d = bk_data b.
Proof.
  intros (b & -> & Hb)%list_elem_of_fmap.
  apply list_elem_of_In, in_concat in Hb as (c & Hc & Hb).
  apply list_elem_of_In, list_elem_of_lookup in Hc as [i Hi]. apply list_elem_of_In in Hb.
  by exists i, c, b.
Qed.

Lemma elem_valid h d : wf_hash h -> d ∈ elems h -> valid d.
Proof. intros Hwf (i & c & b & H & Hb & ->)%elem_has_chain. by apply (wh_in h Hwf i c b). Qed.

(** The chain of the key of [d] exists and is where its equals are. *)
Lemma chain_of h d :
  wf_hash h -> exists c, index h !! Z.to_nat (K d mod size_ h) = Some c /\
    get_chain h (K d mod size_ h) = Ok c /\
    (forall e, e ∈ elems h -> valid d -> E e d = true -> exists b, b ∈ c /\ bk_data b = e).
Proof.
  intros Hwf. destruct (wh_size h Hwf) as [H0 _].
  pose proof (Z.mod_pos_bound (K d) (size_ h) H0).
  destruct (lookup_lt_is_Some_2 (index h) (Z.to_nat (K d mod size_ h))) as [c Hc].
  { rewrite (wh_len h Hwf). lia. }
  exists c. split; [done |]. split; [unfold get_chain; by rewrite Hc |].
  intros e He Hd Hed. pose proof (elem_valid h e Hwf He) as Hve.
  destruct (elem_has_chain h e He) as (i & c' & b & Hi & Hb & ->).
  destruct (wh_in h Hwf i c' b Hi Hb) as (_ & _ & Ei).
  rewrite (HEK _ _ Hve Hd Hed) in Ei. rewrite <- Ei, Hc in Hi. injection Hi as ->. by exists b.
Qed.

Lemma chain_find_spec d chain :
  valid d -> Forall (fun b => valid (bk_data b) /\ bk_key b = K (bk_data b)) chain ->
  exists r, chain_find hash_cmp st (K d) d chain = Ok r /\
    match r with
    | Some e => exists b, b ∈ chain /\ bk_data b = e /\ E e d = true
    | None => forall b, b ∈ chain -> E (bk_data b) d = false
    end.
Proof.
  intros Hd. induction 1 as [|b c (Hv & Hk) Hc (r & IH & Hr)]; cbn [chain_find].
  { exists None. split; [done |]. by intros b ?%elem_of_nil. }
  assert (Hskip : E (bk_data b) d = false -> exists r', chain_find hash_cmp st (K d) d c = Ok r' /\
    match r' with
    | Some e => exists b', b' ∈ b :: c /\ bk_data b' = e /\ E e d = true
    | None => forall b', b' ∈ b :: c -> E (bk_data b') d = false
    end).
  { intros Hne. exists r. split; [done |]. destruct r as [e|].
    - destruct Hr as (b' & ? & ? & ?). exists b'. split_and!; try done. by right.
    - intros b' [->|?]%elem_of_cons; [done | by apply Hr]. }
  rewrite Hk. destruct (Z.eqb_spec (K (bk_data b)) (K d)) as [Ek|Ek].
  - rewrite Hcmp by done. cbn [mbind res_bind]. destruct (E (bk_data b) d) eqn:Eb; [| by apply Hskip].
    exists (Some (bk_data b)). split; [done |]. exists b. split_and!; try done. by left.
  - apply Hskip. destruct (E (bk_data b) d) eqn:Eb; [| done]. by apply HEK in Eb.
Qed.

Lemma chain_release_spec d chain :
  valid d -> Forall (fun b => valid (bk_data b) /\ bk_key b = K (bk_data b)) chain ->
  exists r, chain_release hash_cmp st (K d) d chain = Ok r /\
    match r with
    | Some (c', e) => E e d = true /\ exists x b y, chain = x ++ b :: y /\ c' = x ++ y /\ bk_data b = e
    | None => forall b, b ∈ chain -> E (bk_data b) d = false
    end.
Proof.
  intros Hd. induction 1 as [|b c (Hv & Hk) Hc (r & IH & Hr)]; cbn [chain_release].
  { exists None. split; [done |]. by intros b ?%elem_of_nil. }
  assert (Hskip : E (bk_data b) d = false -> exists r',
    (r0 ← chain_release hash_cmp st (K d) d c;
     Ok (match r0 with Some (next', d') => Some (b :: next', d') | None => None end)) = Ok r' /\
    match r' with
    | Some (c', e) => E e d = true /\ exists x b' y, b :: c = x ++ b' :: y /\ c' = x ++ y /\ bk_data b' = e
    | None => forall b', b' ∈ b :: c -> E (bk_data b') d = false
    end).
  { intros Hne. rewrite IH. cbn [mbind res_bind]. eexists. split; [done |]. destruct r as [[c' e]|].
    - destruct Hr as (He & x & b' & y & -> & -> & <-). split; [done |]. by exists (b :: x), b', y.
    - intros b' [->|?]%elem_of_cons; [done | by apply Hr]. }
  rewrite Hk. destruct (Z.eqb_spec (K (bk_data b)) (K d)) as [Ek|Ek].
  - rewrite Hcmp by done. cbn [mbind res_bind]. destruct (E (bk_data b) d) eqn:Eb; [| by apply Hskip].
    eexists. split; [done |]. split; [done |]. by exists [], b, c.
  - cbn [mbind res_bind]. apply Hskip. destruct (E (bk_data b) d) eqn:Eb; [| done]. by apply HEK in Eb.
Qed.

Lemma chain_ok h i c :
  wf_hash h -> index h !! i = Some c ->
  Forall (fun b => valid (bk_data b) /\ bk_key b = K (bk_data b)) c.
Proof.
  intros Hwf H. apply Forall_forall. intros b Hb. destruct (wh_in h Hwf i c b H Hb) as (? & ? & _). done.
Qed.

(** Replacing the chain of [d], its backets being where they belong. *)
Lemma wf_replace h d c c' es :
  wf_hash h -> index h !! Z.to_nat (K d mod size_ h) = Some c ->
  (forall b, b ∈ c' -> valid (bk_data b) /\ bk_key b = K (bk_data b) /\
     K (bk_data b) mod size_ h = K d mod size_ h) ->
  elems (mk_hash (<[Z.to_nat (K d mod size_ h) := c']> (index h)) (size_ h) (count h)) ≡ₚ es ->
  NoDup es -> (forall d1 d2, d1 ∈ es -> d2 ∈ es -> E d1 d2 = true -> d1 = d2) ->
  forall cnt, cnt = u64 (Z.of_nat (length es)) ->
  wf_hash (mk_hash (<[Z.to_nat (K d mod size_ h) := c']> (index h)) (size_ h) cnt).
Proof.
  intros Hwf Hc Hin Hp Hnd Hdist cnt Hcnt.
  set (i := Z.to_nat (K d mod size_ h)) in *.
  change (elems (mk_hash (<[i := c']> (index h)) (size_ h) (count h)))
    with (elems (mk_hash (<[i := c']> (index h)) (size_ h) cnt)) in Hp.
  split; cbn [size_ index count].
  - apply Hwf.
  - rewrite length_insert. apply Hwf.
  - intros j x b Hj Hb. destruct (decide (j = i)) as [->|].
    + rewrite list_lookup_insert_eq in Hj by (by eapply lookup_lt_Some). injection Hj as <-.
      destruct (Hin b Hb) as (? & ? & E1). split_and!; try done. by rewrite E1.
    + rewrite list_lookup_insert_ne in Hj by done. by apply (wh_in h Hwf j x b).
  - by rewrite Hp.
  - intros d1 d2 H1 H2. rewrite Hp in H1, H2. by apply Hdist.
  - by rewrite Hp.
Qed.

(** A new element at the head of its chain. *)
Lemma wf_push h d c :
  (forall d1 d2, valid d1 -> valid d2 -> E d1 d2 = true -> E d2 d1 = true) -> E d d = true ->
  wf_hash h -> valid d -> index h !! Z.to_nat (K d mod size_ h) = Some c ->
  (forall e, e ∈ elems h -> E e d = false) ->
  let h' := mk_hash (<[Z.to_nat (K d mod size_ h) := mk_backet (K d) d :: c]> (index h)) (size_ h) (u64 (count h + 1)) in
  wf_hash h' /\ elems h' ≡ₚ d :: elems h.
Proof.
  intros HEsym HErefl Hwf Hd Hc Hnew h'. set (i := Z.to_nat (K d mod size_ h)) in *.
  assert (Hp : forall cnt, elems (mk_hash (<[i := mk_backet (K d) d :: c]> (index h)) (size_ h) cnt)
    ≡ₚ d :: elems h).
  { intros cnt. rewrite (elems_insert h i c), (elems_split h i c) by done. cbn.
    symmetry. apply Permutation_middle. }
  split; [| apply Hp].
  apply (wf_replace h d c (mk_backet (K d) d :: c) (d :: elems h)); try done.
  - intros b [->|Hb]%elem_of_cons; [done |].
    destruct (wh_in h Hwf i c b Hc Hb) as (? & ? & E1). split_and!; try done.
    destruct (wh_size h Hwf) as [Hsz _].
    pose proof (Z.mod_pos_bound (K (bk_data b)) (size_ h) Hsz).
    pose proof (Z.mod_pos_bound (K d) (size_ h) Hsz). unfold i in E1. lia.
  - constructor; [| apply Hwf]. intros Hin. by rewrite (Hnew d Hin) in HErefl.
  - intros d1 d2 [->|H1]%elem_of_cons [->|H2]%elem_of_cons He; try done.
    + apply HEsym in He; [| done | by eapply elem_valid]. by rewrite Hnew in He.
    + by rewrite Hnew in He.
    + by apply (wh_distinct h Hwf).
  - rewrite (wh_count h Hwf). unfold u64, wrap. rewrite Zplus_mod_idemp_l. f_equal. cbn. lia.
Qed.

Context (dbs : misc_dbs) (peer : bgp_peer) (bms : bgp_misc_structs).
Hypothesis Hbms : bgp_select_misc_db dbs (type peer) = Some bms.

Hypothesis HEsym : forall d1 d2, valid d1 -> valid d2 -> E d1 d2 = true -> E d2 d1 = true.
Hypothesis HErefl : forall d, valid d -> E d d = true.

Lemma hash_get_cases h d :
  wf_hash h -> valid d ->
  (exists e, e ∈ elems h /\ E e d = true /\
     hash_get hash_key hash_cmp dbs (Some peer) st h d (Some hash_alloc_intern) = Ok (st, h, Some e)) \/
  ((forall e, e ∈ elems h -> E e d = false) /\
   exists h', hash_get hash_key hash_cmp dbs (Some peer) st h d (Some hash_alloc_intern)
                = Ok (st, h', Some d) /\ wf_hash h' /\ elems h' ≡ₚ d :: elems h).
Proof.
  intros Hwf Hd. unfold hash_get. rewrite Hbms, (Hkey d Hd). cbn [mbind res_bind].
  destruct (chain_of h d Hwf) as (c & Hc & Eg & Hall). rewrite Eg. cbn [mbind res_bind].
  destruct (chain_find_spec d c Hd (chain_ok h _ c Hwf Hc)) as (r & Er & Hr). rewrite Er.
  cbn [mbind res_bind]. destruct r as [e|].
  { destruct Hr as (b & Hb & <- & He). left. exists (bk_data b). split_and!; try done.
    by eapply elem_chain. }
  right. split.
  { intros e He. destruct (E e d) eqn:Ee; [| done].
    destruct (Hall e He Hd Ee) as (b & Hb & <-). by rewrite (Hr b Hb) in Ee. }
  assert (Hnew : forall e, e ∈ elems h -> E e d = false).
  { intros e He. destruct (E e d) eqn:Ee; [| done].
    destruct (Hall e He Hd Ee) as (b & Hb & <-). by rewrite (Hr b Hb) in Ee. }
  cbn [hash_alloc_intern mbind res_bind deref]. eexists. split; [done |]. apply wf_push; auto.
Qed.

Lemma hash_release_cases h d :
  wf_hash h -> valid d ->
  (exists e h', e ∈ elems h /\ E e d = true /\
     hash_release hash_key hash_cmp st h d = Ok (h', Some e) /\ wf_hash h' /\
     elems h ≡ₚ e :: elems h') \/
  ((forall e, e ∈ elems h -> E e d = false) /\
   hash_release hash_key hash_cmp st h d = Ok (h, None)).
Proof.
  intros Hwf Hd. unfold hash_release. rewrite (Hkey d Hd). cbn [mbind res_bind].
  destruct (chain_of h d Hwf) as (c & Hc & Eg & Hall). rewrite Eg. cbn [mbind res_bind].
  destruct (chain_release_spec d c Hd (chain_ok h _ c Hwf Hc)) as (r & Er & Hr). rewrite Er.
  cbn [mbind res_bind]. destruct r as [[c' e]|].
  2: { right. split; [| done]. intros e He. destruct (E e d) eqn:Ee; [| done].
       destruct (Hall e He Hd Ee) as (b & Hb & <-). by rewrite (Hr b Hb) in Ee. }
  destruct Hr as (He & x & b & y & -> & -> & <-). left.
  set (i := Z.to_nat (K d mod size_ h)) in *.
  assert (Hp : forall cnt, elems h ≡ₚ
    bk_data b :: elems (mk_hash (<[i := x ++ y]> (index h)) (size_ h) cnt)).
  { intros cnt. rewrite (elems_insert h i (x ++ b :: y)), (elems_split h i (x ++ b :: y)) by done.
    rewrite !fmap_app, !fmap_cons, <- !app_assoc. cbn. by rewrite <- !Permutation_middle. }
  exists (bk_data b). eexists. split_and!; [| done | done | | apply Hp].
  { apply (elem_chain h b i (x ++ b :: y) Hc). apply elem_of_app. right. by left. }
  pose proof (wh_nodup h Hwf) as Hnd. rewrite (Hp (count h)) in Hnd.
  apply NoDup_cons in Hnd as [_ Hnd].
  apply (wf_replace h d (x ++ b :: y) (x ++ y)
    (elems (mk_hash (<[i := x ++ y]> (index h)) (size_ h) (count h)))); try done.
  - intros b' Hb'. assert (b' ∈ x ++ b :: y) as Hb2.
    { apply elem_of_app in Hb' as [?|?]; apply elem_of_app; [by left | right; by right]. }
    destruct (wh_in h Hwf i _ b' Hc Hb2) as (? & ? & E1). split_and!; try done.
    destruct (wh_size h Hwf) as [Hsz _].
    pose proof (Z.mod_pos_bound (K (bk_data b')) (size_ h) Hsz).
    pose proof (Z.mod_pos_bound (K d) (size_ h) Hsz). unfold i in E1. lia.
  - intros d1 d2 H1 H2. apply (wh_distinct h Hwf); rewrite (Hp (count h)); by right.
  - pose proof (Permutation_length (Hp (count h))) as Hlen. cbn [length] in Hlen.
    set (es := elems (mk_hash _ _ (count h))) in *. clearbody es.
    rewrite (wh_count h Hwf), Hlen. unfold u64, wrap. rewrite Zminus_mod_idemp_l. f_equal.
    lia.
Qed.

End Tables.

Lemma hash_create_wf {D} valid K E size :
  0 < size < 2 ^ 31 -> wf_hash valid K E (hash_create (D := D) size) /\ elems (hash_create (D := D) size) = [].
Proof.
  intros Hs. unfold hash_create, hash_create_size. rewrite u32_small by lia.
  assert (Hc : concat (replicate (Z.to_nat size) []) = @nil (hash_backet D)).
  { generalize (Z.to_nat size). intros n. induction n as [|n IH]; [done | cbn; by rewrite IH]. }
  assert (He : elems (mk_hash (replicate (Z.to_nat size) []) size 0) = @nil D).
  { unfold elems. cbn [index]. by rewrite Hc. }
  split; [| done]. split; try rewrite He; cbn [size_ index count].
  - lia.
  - by rewrite length_replicate.
  - intros i c b H Hb. apply lookup_replicate in H as [-> _]. by apply elem_of_nil in Hb.
  - constructor.
  - by intros d1 d2 ?%elem_of_nil.
  - done.
Qed.

(** The invariant only looks at what the table holds. *)
Lemma wf_hash_ext {D} (valid valid' : D -> Prop) K K' E E' h :
  wf_hash valid K E h ->
  (forall d, d ∈ elems h -> valid' d /\ K' d = K d) ->
  (forall d1 d2, d1 ∈ elems h -> d2 ∈ elems h -> E' d1 d2 = E d1 d2) ->
  wf_hash valid' K' E' h.
Proof.
  intros Hwf H1 H2. split; try apply Hwf.
  - intros i c b Hc Hb. destruct (H1 (bk_data b)) as [Hv Hk]; [by apply (elem_chain h b i c) |].
    rewrite Hk. destruct (wh_in valid K E h Hwf i c b Hc Hb) as (_ & ? & ?). done.
  - intros d1 d2 Hd1 Hd2. rewrite H2 by done. by apply (wh_distinct valid K E h Hwf).
Qed.

(** A lookup whose allocation function copies the object into a new one: what
    was in the table stays as it was, the copy compares like the object. *)
Lemma hash_get_alloc_cases {D T} (hash_key : T -> D -> res Z) (hash_cmp : T -> D -> D -> res bool)
    (alloc : T -> D -> res (T * option D)) dbs peer bms (st st' : T) (valid valid' : D -> Prop) K K' E E'
    (h : hash D) d d' :
  bgp_select_misc_db dbs (type peer) = Some bms ->
  (forall d, valid d -> hash_key st d = Ok (K d)) ->
  (forall d1 d2, valid d1 -> valid d2 -> hash_cmp st d1 d2 = Ok (E d1 d2)) ->
  (forall d1 d2, valid d1 -> valid d2 -> E d1 d2 = true -> K d1 = K d2) ->
  (forall d1 d2, valid' d1 -> valid' d2 -> E' d1 d2 = true -> E' d2 d1 = true) ->
  wf_hash valid K E h -> valid d ->
  alloc st d = Ok (st', Some d') -> valid' d' -> K' d' = K d -> E' d' d' = true ->
  (forall e, e ∈ elems h -> valid' e /\ K' e = K e) ->
  (forall e1 e2, e1 ∈ elems h -> e2 ∈ elems h -> E' e1 e2 = E e1 e2) ->
  (forall e, e ∈ elems h -> E' e d' = E e d) ->
  (exists e, e ∈ elems h /\ E e d = true /\
     hash_get hash_key hash_cmp dbs (Some peer) st h d (Some alloc) = Ok (st, h, Some e)) \/
  ((forall e, e ∈ elems h -> E e d = false) /\
   exists h', hash_get hash_key hash_cmp dbs (Some peer) st h d (Some alloc) = Ok (st', h', Some d') /\
     wf_hash valid' K' E' h' /\ elems h' ≡ₚ d' :: elems h).
Proof.
  intros Hbms Hkey Hcmp HEK Hsym' Hwf Hd Ha Hd' HK' Hr' Hold Hold2 Hnew.
  unfold hash_get. rewrite Hbms, (Hkey d Hd). cbn [mbind res_bind].
  destruct (chain_of valid K E HEK h d Hwf) as (c & Hc & Eg & Hall). rewrite Eg. cbn [mbind res_bind].
  destruct (chain_find_spec hash_cmp st valid K E Hcmp HEK d c Hd (chain_ok valid K E h _ c Hwf Hc)) as (r & Er & Hr).
  rewrite Er. cbn [mbind res_bind]. destruct r as [e|].
  { destruct Hr as (b & Hb & <- & He). left. exists (bk_data b). split_and!; try done. by eapply elem_chain. }
  assert (Hno : forall e, e ∈ elems h -> E e d = false).
  { intros e He. destruct (E e d) eqn:Ee; [| done].
    destruct (Hall e He Hd Ee) as (b & Hb & <-). by rewrite (Hr b Hb) in Ee. }
  right. split; [done |]. rewrite Ha. cbn [mbind res_bind deref].
  assert (Hwf' : wf_hash valid' K' E' h) by (by apply (wf_hash_ext valid valid' K K' E E')).
  eexists. split; [done |]. rewrite <- HK'. apply wf_push; try done; [by rewrite HK' |].
  intros e He. rewrite Hnew by done. by apply Hno.
Qed.

End BgpHashFacts.
