(* ===== verification/BgpInternFacts.v ===== *)
(** * Properties of interning (aspath_intern, community_intern, ...)

    Proved once, against the interface [InternLaws] that each kind of
    attribute implements: the table and the reference counts agree, a value
    has one interned object, and releasing the last reference frees it. *)

From S2P Require Import Prelude Bgp BgpHash BgpHashFacts.
Import Bgp BgpHash BgpIntern BgpHashFacts.

Module BgpInternFacts.

Section Facts.
Context {V : Type} `{HI : Internable V} (ok : V -> Prop) `{HL : !InternLaws V ok}.
Implicit Types (st : objs V) (h : hash loc) (l : loc) (o : obj V).

Definition valid st l : Prop := exists o, st !! l = Some o /\ ok (o_val o).
Definition okey st l : Z := match st !! l with Some o => value_key (o_val o) | None => 0 end.
Definition ocmp st l1 l2 : bool :=
  match st !! l1, st !! l2 with Some o1, Some o2 => value_cmp (o_val o1) (o_val o2) | _, _ => false end.

(** The table holds exactly the objects that are referenced. *)
Record intern_inv st h : Prop := {
  ii_hash : wf_hash (valid st) (okey st) (ocmp st) h;
  ii_ok : forall l o, st !! l = Some o -> ok (o_val o) /\ 0 <= refcnt o < 2 ^ 64;
  ii_refs : forall l o, st !! l = Some o -> l ∈ elems h <-> 0 < refcnt o
}.

Lemma okey_Ok st l : valid st l -> obj_key st l = Ok (okey st l).
Proof. intros (o & H & _). unfold obj_key, okey. by rewrite H. Qed.

Lemma ocmp_Ok st l1 l2 : valid st l1 -> valid st l2 -> obj_cmp st l1 l2 = Ok (ocmp st l1 l2).
Proof. intros (o1 & H1 & _) (o2 & H2 & _). unfold obj_cmp, ocmp. by rewrite H1, H2. Qed.

Lemma ocmp_key st l1 l2 :
  valid st l1 -> valid st l2 -> ocmp st l1 l2 = true -> okey st l1 = okey st l2.
Proof.
  intros (o1 & H1 & K1) (o2 & H2 & K2). unfold ocmp, okey. rewrite H1, H2. by apply cmp_key.
Qed.

Lemma ocmp_sym st l1 l2 :
  valid st l1 -> valid st l2 -> ocmp st l1 l2 = true -> ocmp st l2 l1 = true.
Proof.
  intros (o1 & H1 & K1) (o2 & H2 & K2). unfold ocmp. rewrite H1, H2. by apply cmp_sym.
Qed.

Lemma ocmp_refl st l : valid st l -> ocmp st l l = true.
Proof. intros (o & H & K). unfold ocmp. rewrite H. by apply cmp_refl. Qed.

(** Changing reference counts and strings, or freeing what the table does not
    hold, keeps the table well formed. *)
Lemma wf_hash_store st st' h :
  wf_hash (valid st) (okey st) (ocmp st) h ->
  (forall l o, l ∈ elems h -> st !! l = Some o -> exists o', st' !! l = Some o' /\ o_val o' = o_val o) ->
  wf_hash (valid st') (okey st') (ocmp st') h.
Proof.
  intros Hwf Hs.
  assert (Hl : forall l, l ∈ elems h -> exists o o', st !! l = Some o /\ ok (o_val o) /\
    st' !! l = Some o' /\ o_val o' = o_val o).
  { intros l Hl. destruct (elem_valid _ _ _ h l Hwf Hl) as (o & H & K).
    destruct (Hs l o Hl H) as (o' & H' & E). by exists o, o'. }
  eapply wf_hash_ext; [exact Hwf | |].
  - intros l Hin. destruct (Hl l Hin) as (o & o' & H & K & H' & E). split.
    + exists o'. by rewrite E.
    + unfold okey. by rewrite H, H', E.
  - intros l1 l2 H1 H2. destruct (Hl l1 H1) as (o1 & o1' & G1 & _ & G1' & E1).
    destruct (Hl l2 H2) as (o2 & o2' & G2 & _ & G2' & E2).
    unfold ocmp. by rewrite G1, G2, G1', G2', E1, E2.
Qed.

(** Before anything has been interned. *)
Lemma intern_inv_empty size st :
  0 < size < 2 ^ 31 -> (forall l o, st !! l = Some o -> ok (o_val o) /\ refcnt o = 0) ->
  intern_inv st (hash_create size).
Proof.
  intros Hs Hst. destruct (hash_create_wf (valid st) (okey st) (ocmp st) size Hs) as [Hwf He].
  split; [done | |].
  - intros l o H. destruct (Hst l o H) as [? ->]. done.
  - intros l o H. destruct (Hst l o H) as [_ ->]. rewrite He. split; [by intros ?%elem_of_nil | lia].
Qed.

(** A new object, not interned yet. *)
Lemma intern_inv_new st h l v :
  intern_inv st h -> st !! l = None -> ok v -> intern_inv (<[l := mk_obj v 0 None]> st) h.
Proof.
  intros Hinv Hl Hv.
  assert (Hni : l ∉ elems h).
  { intros Hin. destruct (elem_valid _ _ _ h l (ii_hash st h Hinv) Hin) as (o & H & _). congruence. }
  split.
  - apply (wf_hash_store st); [apply Hinv |]. intros x ox Hin Hox. exists ox.
    by rewrite lookup_insert_ne by congruence.
  - intros x ox. destruct (decide (x = l)) as [->|].
    + rewrite lookup_insert_eq. by intros [= <-].
    + rewrite lookup_insert_ne by done. apply Hinv.
  - intros x ox. destruct (decide (x = l)) as [->|].
    + rewrite lookup_insert_eq. intros [= <-]. cbn. split; [done | lia].
    + rewrite lookup_insert_ne by done. apply Hinv.
Qed.

Context (dbs : misc_dbs) (peer : bgp_peer).
Hypothesis Hpeer : type peer < FUNC_TYPE_MAX.

Lemma peer_routing_db : routing_db (Some peer) = true.
Proof. unfold routing_db, bgp_select_routing_db. by rewrite (proj2 (Z.ltb_lt _ _) Hpeer). Qed.

Lemma peer_misc_db : bgp_select_misc_db dbs (type peer) = Some (dbs (type peer)).
Proof. unfold bgp_select_misc_db. by rewrite (proj2 (Z.ltb_lt _ _) Hpeer). Qed.

(** The object [intern] returns: its count is one more, its string is there. *)
Definition taken (o o' : obj V) : Prop :=
  o_val o' = o_val o /\ refcnt o' = refcnt o + 1 /\
  value_str (o_val o) = Ok (o_str o') \/ o_val o' = o_val o /\ refcnt o' = refcnt o + 1 /\
  o_str o' = o_str o /\ o_str o <> None.

Lemma take_ref st f o :
  st !! f = Some o -> ok (o_val o) -> 0 <= refcnt o < 2 ^ 64 - 1 ->
  exists o', (f0 ← deref (st !! f);
     let f1 := mk_obj (o_val f0) (u64 (refcnt f0 + 1)) (o_str f0) in
     str ← match o_str f1 with Some s => Ok (Some s) | None => value_str (o_val f1) end;
     Ok (<[f := mk_obj (o_val f1) (refcnt f1) str]> st)) = Ok (<[f := o']> st) /\ taken o o'.
Proof.
  intros H K Hr. rewrite H. cbn [deref mbind res_bind o_val refcnt o_str].
  rewrite u64_small by lia. destruct (o_str o) as [s|] eqn:Es.
  - cbn [mbind res_bind]. eexists. split; [done |]. right. cbn. by rewrite Es.
  - destruct (str_total (o_val o) K) as [s Hs]. rewrite Hs. cbn [mbind res_bind].
    eexists. split; [done |]. left. done.
Qed.

Lemma taken_val o o' : taken o o' -> o_val o' = o_val o /\ refcnt o' = refcnt o + 1.
Proof. by intros [(? & ? & _)|(? & ? & _)]. Qed.

(** What an interning call does to the store and the table. *)
Lemma intern_cases st h l o :
  intern_inv st h -> st !! l = Some o -> refcnt o = 0 ->
  (forall x ox, st !! x = Some ox -> refcnt ox < 2 ^ 64 - 1) ->
  exists st' h' f fo fo', intern dbs (Some peer) st h l = Ok (st', h', Some f) /\
    intern_inv st' h' /\ st !! f = Some fo /\ st' !! f = Some fo' /\ taken fo fo' /\
    value_cmp (o_val fo) (o_val o) = true /\
    (f = l /\ elems h' ≡ₚ l :: elems h \/ f <> l /\ f ∈ elems h /\ h' = h) /\
    (forall x, x <> f -> st' !! x = if decide (x = l) then None else st !! x).
Proof.
  intros Hinv H H0 Hmax. destruct (ii_ok st h Hinv l o H) as [Hok Hr].
  assert (Hv : valid st l) by (by exists o).
  unfold intern. rewrite peer_routing_db, H. cbn [deref mbind res_bind].
  rewrite H0. change (c_assert (0 =? 0)) with (Ok tt : res unit). cbn [mbind res_bind].
  destruct (hash_get_cases obj_key obj_cmp st (valid st) (okey st) (ocmp st) (okey_Ok st) (ocmp_Ok st)
    (ocmp_key st) dbs peer _ peer_misc_db (ocmp_sym st) (ocmp_refl st) h l (ii_hash st h Hinv) Hv)
    as [(f & Hf & Hcmp & E)|(Hno & h' & E & Hwf' & Hp)]; rewrite E; cbn [mbind res_bind].
  - destruct (elem_valid _ _ _ h f (ii_hash st h Hinv) Hf) as (fo & Hfo & Kof).
    pose proof (proj1 (ii_refs st h Hinv f fo Hfo) Hf) as Hpos.
    assert (Hne : f <> l) by (intros ->; rewrite H in Hfo; injection Hfo as <-; lia).
    rewrite bool_decide_true by congruence. unfold obj_free. rewrite H. cbn [deref mbind res_bind].
    assert (Hd : delete l st !! f = Some fo) by (by rewrite lookup_delete_ne).
    destruct (take_ref (delete l st) f fo Hd Kof) as (o' & Eo & Ht).
    { destruct (ii_ok st h Hinv f fo Hfo). pose proof (Hmax f fo Hfo). lia. }
    rewrite Hd in Eo |- *. cbn [deref mbind res_bind] in Eo |- *.
    destruct (match o_str _ with Some _ => _ | None => _ end) as [str|]; [| done].
    cbn [mbind res_bind] in Eo |- *. injection Eo as Eo.
    exists (<[f := o']> (delete l st)), h, f, fo, o'. split; [by rewrite <- Eo |].
    destruct (taken_val fo o' Ht) as [Tv Tr].
    assert (Hx : forall x, <[f := o']> (delete l st) !! x =
      if decide (x = f) then Some o' else if decide (x = l) then None else st !! x).
    { intros x. destruct (decide (x = f)) as [->|]; [by rewrite lookup_insert_eq |].
      rewrite lookup_insert_ne by done. destruct (decide (x = l)) as [->|];
        [by rewrite lookup_delete_eq | by rewrite lookup_delete_ne]. }
    split_and!; try done.
    + split.
      * apply (wf_hash_store st); [apply Hinv |]. intros x ox Hin Hox. rewrite Hx.
        destruct (decide (x = f)) as [->|]; [exists o'; split; [done | congruence] |].
        destruct (decide (x = l)) as [->|]; [| by exists ox].
        pose proof (proj1 (ii_refs st h Hinv l ox Hox) Hin). assert (ox = o) as -> by congruence. lia.
      * intros x ox. rewrite Hx. destruct (decide (x = f)) as [->|].
        -- intros [= <-]. rewrite Tv. split; [done |].
           destruct (ii_ok st h Hinv f fo Hfo). pose proof (Hmax f fo Hfo). lia.
        -- destruct (decide (x = l)); [done | apply Hinv].
      * intros x ox. rewrite Hx. destruct (decide (x = f)) as [->|].
        -- intros [= <-]. split; [lia | done].
        -- destruct (decide (x = l)); [done | apply Hinv].
    + by rewrite lookup_insert_eq.
    + unfold ocmp in Hcmp. by rewrite Hfo, H in Hcmp.
    + right. done.
    + intros x Hxf. rewrite Hx. by rewrite decide_False.
  - rewrite bool_decide_false by (intros Hc; by apply Hc). cbn [mbind res_bind deref].
    destruct (take_ref st l o H Hok) as (o' & Eo & Ht); [lia |].
    rewrite H in Eo |- *. cbn [deref mbind res_bind] in Eo |- *.
    destruct (match o_str _ with Some _ => _ | None => _ end) as [str|]; [| done].
    cbn [mbind res_bind] in Eo |- *. injection Eo as Eo.
    exists (<[l := o']> st), h', l, o, o'. split; [by rewrite <- Eo |].
    destruct (taken_val o o' Ht) as [Tv Tr].
    split_and!; try done.
    + split.
      * apply (wf_hash_store st); [done |]. intros x ox Hin Hox.
        destruct (decide (x = l)) as [->|]; [rewrite lookup_insert_eq; exists o'; split; [done | congruence] |].
        rewrite lookup_insert_ne by done. by exists ox.
      * intros x ox. destruct (decide (x = l)) as [->|].
        -- rewrite lookup_insert_eq. intros [= <-]. rewrite Tv. split; [done | lia].
        -- rewrite lookup_insert_ne by done. apply Hinv.
      * intros x ox. destruct (decide (x = l)) as [->|].
        -- rewrite lookup_insert_eq. intros [= <-]. rewrite Hp. split; [lia | intros _; by left].
        -- rewrite lookup_insert_ne by done. intros Hox. rewrite Hp, elem_of_cons.
           rewrite (ii_refs st h Hinv x ox Hox).
           split; [by intros [->|?] | by right].
    + by rewrite lookup_insert_eq.
    + by apply cmp_refl.
    + left. done.
    + intros x Hxl. rewrite lookup_insert_ne by done. by rewrite decide_False.
Qed.

Lemma unintern_cases st h l o :
  intern_inv st h -> st !! l = Some o -> 0 < refcnt o ->
  exists st' h', unintern (Some peer) st h l = Ok (st', h') /\ intern_inv st' h' /\
    (if decide (refcnt o = 1) then st' !! l = None /\ elems h ≡ₚ l :: elems h'
     else st' !! l = Some (mk_obj (o_val o) (refcnt o - 1) (o_str o)) /\ h' = h) /\
    (forall x, x <> l -> st' !! x = st !! x).
Proof.
  intros Hinv H Hpos. destruct (ii_ok st h Hinv l o H) as [Hok Hr].
  unfold unintern. rewrite peer_routing_db, H. cbn [deref mbind res_bind].
  rewrite (proj2 (Z.eqb_neq (refcnt o) 0)) by lia. cbn [negb refcnt].
  rewrite u64_small by lia. set (o1 := mk_obj _ _ _).
  assert (Hin : l ∈ elems h) by (by apply (ii_refs st h Hinv l o)).
  assert (Hwf1 : wf_hash (valid (<[l := o1]> st)) (okey (<[l := o1]> st)) (ocmp (<[l := o1]> st)) h).
  { apply (wf_hash_store st); [apply Hinv |]. intros x ox Hx Hox.
    destruct (decide (x = l)) as [->|]; [| rewrite lookup_insert_ne by done; by exists ox].
    rewrite lookup_insert_eq. exists o1. split; [done |]. assert (ox = o) as -> by congruence. done. }
  destruct (Z.eqb_spec (refcnt o - 1) 0) as [E1|E1]; cbn [refcnt].
  - assert (Hv : valid (<[l := o1]> st) l) by (exists o1; by rewrite lookup_insert_eq).
    destruct (hash_release_cases obj_key obj_cmp (<[l := o1]> st) _ _ _ (okey_Ok _) (ocmp_Ok _)
      (ocmp_key _) h l Hwf1 Hv) as [(e & h' & He & Hcmp & E & Hwf' & Hp)|(Hno & _)].
    2: { exfalso. pose proof (ocmp_refl _ l Hv) as Hrefl. by rewrite (Hno l Hin) in Hrefl. }
    assert (e = l) as -> by (by apply (wh_distinct _ _ _ h Hwf1)).
    rewrite E. cbn [mbind res_bind]. rewrite bool_decide_true by done. cbn [c_assert mbind res_bind].
    unfold obj_free. rewrite lookup_insert_eq. cbn [deref mbind res_bind].
    eexists _, h'. split; [done |].
    pose proof (wh_nodup _ _ _ h Hwf1) as Hnd. rewrite Hp in Hnd. apply NoDup_cons in Hnd as [Hnl _].
    assert (Hx : forall x, delete l (<[l := o1]> st) !! x = if decide (x = l) then None else st !! x).
    { intros x. destruct (decide (x = l)) as [->|]; [by rewrite lookup_delete_eq |].
      by rewrite lookup_delete_ne, lookup_insert_ne. }
    split_and!.
    + split.
      * apply (wf_hash_store (<[l := o1]> st)); [done |]. intros x ox Hxin Hox. rewrite Hx.
        destruct (decide (x = l)) as [->|]; [done |]. rewrite lookup_insert_ne in Hox by done. by exists ox.
      * intros x ox. rewrite Hx. destruct (decide (x = l)); [done | apply Hinv].
      * intros x ox. rewrite Hx. destruct (decide (x = l)) as [|Hne]; [done |]. intros Hox.
        rewrite <- (ii_refs st h Hinv x ox Hox), Hp, elem_of_cons.
        split; [by right | by intros [->|?]].
    + rewrite decide_True by lia. rewrite Hx. by rewrite decide_True.
    + intros x Hne. rewrite Hx. by rewrite decide_False.
  - eexists _, h. split; [done |]. split_and!.
    + split; [done | |].
      * intros x ox. destruct (decide (x = l)) as [->|].
        -- rewrite lookup_insert_eq. intros [= <-]. cbn. split; [done | lia].
        -- rewrite lookup_insert_ne by done. apply Hinv.
      * intros x ox. destruct (decide (x = l)) as [->|].
        -- rewrite lookup_insert_eq. intros [= <-]. cbn. split; [lia | done].
        -- rewrite lookup_insert_ne by done. apply Hinv.
    + rewrite decide_False by lia. by rewrite lookup_insert_eq.
    + intros x Hne. by rewrite lookup_insert_ne.
Qed.

End Facts.

(* ------------------------------------------------------------------ *)
(** ** Theorems *)

(** Interning an object that is not interned yet never faults (the
    assertion on its count holds, no dangling pointer is followed): the object
    returned has an equal value, one more reference and its string; when it is
    another object the argument has been freed; nothing else changes; and the
    table still holds exactly the referenced objects. *)
Theorem intern_spec {V} `{HI : Internable V} (ok : V -> Prop) `{HL : !InternLaws V ok}
    dbs peer st h l (o : obj V) :
  type peer < FUNC_TYPE_MAX -> intern_inv ok st h -> st !! l = Some o -> refcnt o = 0 ->
  (forall x ox, st !! x = Some ox -> refcnt ox < 2 ^ 64 - 1) ->
  exists st' h' f fo fo', intern dbs (Some peer) st h l = Ok (st', h', Some f) /\
    intern_inv ok st' h' /\ st !! f = Some fo /\ st' !! f = Some fo' /\ taken fo fo' /\
    value_cmp (o_val fo) (o_val o) = true /\
    (forall x, x <> f -> st' !! x = if decide (x = l) then None else st !! x).
Proof.
  intros Hp Hinv H H0 Hmax.
  destruct (intern_cases ok dbs peer Hp st h l o Hinv H H0 Hmax)
    as (st' & h' & f & fo & fo' & E & Hinv' & G1 & G2 & G3 & G4 & _ & G5).
  exists st', h', f, fo, fo'. done.
Qed.

(** C6. One object per value: after two values that compare equal have been
    interned, the pointers are the same, so that comparing pointers compares
    values. *)
Theorem intern_canonical {V} `{HI : Internable V} (ok : V -> Prop) `{HL : !InternLaws V ok}
    dbs peer st h l1 l2 (o1 o2 : obj V) :
  type peer < FUNC_TYPE_MAX -> intern_inv ok st h -> l1 <> l2 ->
  st !! l1 = Some o1 -> refcnt o1 = 0 -> st !! l2 = Some o2 -> refcnt o2 = 0 ->
  value_cmp (o_val o1) (o_val o2) = true ->
  (forall x ox, st !! x = Some ox -> refcnt ox < 2 ^ 64 - 2) ->
  exists st1 h1 st2 h2 f, intern dbs (Some peer) st h l1 = Ok (st1, h1, Some f) /\
    intern dbs (Some peer) st1 h1 l2 = Ok (st2, h2, Some f).
Proof.
  intros Hp Hinv Hne H1 R1 H2 R2 Hc Hmax.
  destruct (intern_cases ok dbs peer Hp st h l1 o1 Hinv H1 R1)
    as (st1 & h1 & f & fo & fo' & E1 & Hinv1 & G1 & G2 & G3 & G4 & G5 & G6).
  { intros x ox Hx. pose proof (Hmax x ox Hx). lia. }
  destruct (taken_val fo fo' G3) as [Tv Tr].
  assert (Hf2 : f <> l2).
  { intros ->. destruct G5 as [[? _]|(_ & Hin & _)]; [congruence |].
    pose proof (proj1 (ii_refs ok st h Hinv l2 o2 H2) Hin). lia. }
  assert (H2' : st1 !! l2 = Some o2).
  { rewrite G6 by done. by rewrite decide_False. }
  destruct (intern_cases ok dbs peer Hp st1 h1 l2 o2 Hinv1 H2' R2)
    as (st2 & h2 & f2 & fo2 & fo2' & E2 & Hinv2 & K1 & K2 & K3 & K4 & K5 & K6).
  { intros x ox Hx. destruct (decide (x = f)) as [->|].
    - rewrite G2 in Hx. injection Hx as <-. pose proof (Hmax f fo G1). lia.
    - rewrite G6 in Hx by done. destruct (decide (x = l1)); [done |]. pose proof (Hmax x ox Hx). lia. }
  exists st1, h1, st2, h2, f. split; [done |]. rewrite E2. do 2 f_equal.
  pose proof (proj1 (ii_ok ok st h Hinv l1 o1 H1)) as Ok1.
  pose proof (proj1 (ii_ok ok st h Hinv l2 o2 H2)) as Ok2.
  pose proof (proj1 (ii_ok ok st h Hinv f fo G1)) as Okf.
  assert (Hf1 : f ∈ elems h1).
  { apply (ii_refs ok st1 h1 Hinv1 f fo' G2). pose proof (proj2 (ii_ok ok st h Hinv f fo G1)). lia. }
  assert (Hff : value_cmp (o_val fo') (o_val o2) = true).
  { rewrite Tv. by apply (cmp_trans _ (o_val o1)). }
  destruct K5 as [[-> Hperm]|(Hfl & Hin2 & ->)].
  - exfalso. pose proof (ii_hash ok st2 h2 Hinv2) as Hwf2.
    assert (Ef : st2 !! f = Some fo') by (rewrite K6 by done; by rewrite decide_False).
    destruct (taken_val fo2 fo2' K3) as [Tv2 _]. rewrite H2' in K1. injection K1 as <-.
    apply Hf2. apply (wh_distinct _ _ _ h2 Hwf2); [rewrite Hperm; by right | rewrite Hperm; by left |].
    unfold ocmp. rewrite Ef, K2. by rewrite Tv2.
  - f_equal. pose proof (proj1 (ii_ok ok st1 h1 Hinv1 f2 fo2 K1)) as Okf2.
    apply (wh_distinct _ _ _ h1 (ii_hash ok st1 h1 Hinv1)); try done.
    unfold ocmp. rewrite K1, G2. apply (cmp_trans _ (o_val o2)); try done; [by rewrite Tv |].
    apply cmp_sym; try done. by rewrite Tv.
Qed.

(** Releasing a reference to an interned object: with other references
    left only the count changes; with the last one the object leaves the table
    and is freed (the assertion that it was in the table holds). *)
Theorem unintern_spec {V} `{HI : Internable V} (ok : V -> Prop) `{HL : !InternLaws V ok}
    peer st h l (o : obj V) :
  type peer < FUNC_TYPE_MAX -> intern_inv ok st h -> st !! l = Some o -> 0 < refcnt o ->
  exists st' h', unintern (Some peer) st h l = Ok (st', h') /\ intern_inv ok st' h' /\
    (if decide (refcnt o = 1) then st' !! l = None /\ elems h ≡ₚ l :: elems h'
     else st' !! l = Some (mk_obj (o_val o) (refcnt o - 1) (o_str o)) /\ h' = h) /\
    (forall x, x <> l -> st' !! x = st !! x).
Proof. intros Hp. by apply unintern_cases. Qed.

(** Interning and releasing again leaves every count and the set of
    interned objects as they were; the argument is gone. *)
Theorem intern_unintern {V} `{HI : Internable V} (ok : V -> Prop) `{HL : !InternLaws V ok}
    dbs peer st h l (o : obj V) :
  type peer < FUNC_TYPE_MAX -> intern_inv ok st h -> st !! l = Some o -> refcnt o = 0 ->
  (forall x ox, st !! x = Some ox -> refcnt ox < 2 ^ 64 - 1) ->
  exists st1 h1 f st2 h2, intern dbs (Some peer) st h l = Ok (st1, h1, Some f) /\
    unintern (Some peer) st1 h1 f = Ok (st2, h2) /\ intern_inv ok st2 h2 /\
    elems h2 ≡ₚ elems h /\ st2 !! l = None /\
    (forall x, x <> l -> (fun ox => (o_val ox, refcnt ox)) <$> st2 !! x =
                         (fun ox => (o_val ox, refcnt ox)) <$> st !! x).
Proof.
  intros Hp Hinv H H0 Hmax.
  destruct (intern_cases ok dbs peer Hp st h l o Hinv H H0 Hmax)
    as (st1 & h1 & f & fo & fo' & E & Hinv1 & G1 & G2 & G3 & G4 & G5 & G6).
  destruct (taken_val fo fo' G3) as [Tv Tr].
  destruct (ii_ok ok st h Hinv f fo G1) as [_ Hr].
  destruct (unintern_cases ok peer Hp st1 h1 f fo' Hinv1 G2) as (st2 & h2 & E2 & Hinv2 & K1 & K2); [lia |].
  exists st1, h1, f, st2, h2. split; [done |]. split; [done |]. split; [done |].
  destruct G5 as [[-> Hperm]|(Hne & Hin & ->)].
  - assert (fo = o) as -> by congruence. rewrite decide_True in K1 by lia. destruct K1 as [Kn Kp].
    split; [| split; [done |]].
    + rewrite Hperm in Kp. symmetry. exact (Permutation_cons_inv Kp).
    + intros x Hx. rewrite K2, G6 by done. by rewrite decide_False.
  - pose proof (proj1 (ii_refs ok st h Hinv f fo G1) Hin). rewrite decide_False in K1 by lia.
    destruct K1 as [Kf ->]. split; [done |]. split.
    + rewrite K2, G6 by done. by rewrite decide_True.
    + intros x Hx. destruct (decide (x = f)) as [->|].
      * rewrite Kf, G1. cbn. rewrite Tv. do 2 f_equal. lia.
      * rewrite K2, G6 by done. by rewrite decide_False.
Qed.

End BgpInternFacts.
