(* ===== verification/Aspath.v ===== *)
(** * src/bgp/bgp_aspath.c: AS paths

    A segment is its type and the list of its AS numbers; the [u_short]
    length field is the length of that list, so appending past 65535 numbers
    keeps the first ones, as the wrapped length does.  A chain of segments is
    a list, NULL being the empty one.  Printing works on a character buffer
    ([CBuf]), parsing on the bytes of the attribute. *)

From S2P Require Import Prelude CBuf Bgp Jhash BgpHash.

Module Aspath.
Import CBuf Bgp Jhash BgpHash BgpIntern.

Definition AS_SET : Z := 1.
Definition AS_SEQUENCE : Z := 2.
Definition AS_CONFED_SEQUENCE : Z := 3.
Definition AS_CONFED_SET : Z := 4.

Definition BGP_PRIVATE_AS_MIN : Z := 64512.
Definition BGP_PRIVATE_AS_MAX : Z := 65535.
Definition BGP_AS_MAX : Z := 65535.
Definition BGP_AS_TRANS : Z := 23456.

Definition AS_HEADER_SIZE : Z := 2.
Definition AS_VALUE_SIZE : Z := 4.
Definition AS16_VALUE_SIZE : Z := 2.
Definition AS_SEGMENT_MAX : Z := 255.
Definition ASPATH_STR_DEFAULT_LEN : Z := 32.

Definition ASSEGMENT_DATA_SIZE (n : Z) (use32bit : bool) : Z :=
  n * (if use32bit then AS_VALUE_SIZE else AS16_VALUE_SIZE).
Definition ASSEGMENT_SIZE (n : Z) (use32bit : bool) : Z :=
  AS_HEADER_SIZE + ASSEGMENT_DATA_SIZE n use32bit.

Record assegment := mk_seg {
  seg_type : Z;
  seg_as : list Z
}.

Definition seg_length (seg : assegment) : Z := strlen (seg_as seg).

Definition ASSEGMENT_TYPES_PACKABLE (x y : assegment) : bool :=
  (seg_type x =? seg_type y) && (seg_type x =? AS_SEQUENCE).

(** [struct aspath] without its reference count, which interning keeps. *)
Record aspath := mk_aspath {
  segments : list assegment;
  last_as : Z;
  str : option (list Z)
}.

Definition aspath_new : aspath := mk_aspath [] 0 None.

(** ** Segments *)

(** The numbers of a new segment are written before they are read. *)
Definition assegment_new (type length : Z) : assegment :=
  mk_seg (u8 type) (replicate (Z.to_nat (u16 length)) 0).

Definition assegment_dup (seg : assegment) : assegment := mk_seg (seg_type seg) (seg_as seg).
Definition assegment_dup_all (segs : list assegment) : list assegment := map assegment_dup segs.

(** [seg->length += num] wraps at 16 bits. *)
Definition assegment_append_asns (seg : assegment) (asnos : list Z) (num : Z) : assegment :=
  let newas := seg_as seg ++ take (Z.to_nat num) asnos in
  mk_seg (seg_type seg) (take (Z.to_nat (u16 (seg_length seg + num))) newas).

Definition int_cmp (as1 as2 : Z) : Z := if as1 =? as2 then 0 else if as2 <? as1 then 1 else -1.

(** [qsort] with [int_cmp]. *)
Definition int_le (a b : Z) : Prop := int_cmp a b <= 0.
#[export] Instance int_le_dec a b : Decision (int_le a b).
Proof. unfold int_le. apply _. Defined.

(** [for (i = 1; ...) if (seg->as[tail] == seg->as[i]) continue; ...]: [last]
    is [seg->as[tail]]. *)
Fixpoint weed_dupes (last : Z) (l : list Z) : list Z :=
  match l with
  | [] => []
  | x :: r => if last =? x then weed_dupes last r else x :: weed_dupes x r
  end.

Definition sort_set (seg : assegment) : assegment :=
  if (seg_type seg =? AS_SET) || (seg_type seg =? AS_CONFED_SET) then
    match merge_sort int_le (seg_as seg) with
    | [] => mk_seg (seg_type seg) []
    | x :: r => mk_seg (seg_type seg) (x :: weed_dupes x r)
    end
  else seg.

(** The loops of [assegment_normalise]: [pin] takes in the sequences that
    follow it. *)
Fixpoint normalise_from (pin : assegment) (rest : list assegment) : list assegment :=
  match rest with
  | [] => [pin]
  | next :: rest' =>
      if ASSEGMENT_TYPES_PACKABLE pin next
      then normalise_from (assegment_append_asns pin (seg_as next) (seg_length next)) rest'
      else pin :: normalise_from (sort_set next) rest'
  end.

Definition assegment_normalise (head : list assegment) : list assegment :=
  match head with
  | [] => []
  | seg :: rest => normalise_from (sort_set seg) rest
  end.

(** ** Adding segments and numbers *)

Definition aspath_segment_add (a : aspath) (type : Z) : aspath :=
  mk_aspath (segments a ++ [assegment_new type 0]) (last_as a) (str a).

Fixpoint add_to_last (asno : Z) (segs : list assegment) : list assegment :=
  match segs with
  | [] => []
  | [seg] => [assegment_append_asns seg [asno] 1]
  | seg :: rest => seg :: add_to_last asno rest
  end.

Definition aspath_as_add (a : aspath) (asno : Z) : aspath :=
  mk_aspath (add_to_last asno (segments a)) (last_as a) (str a).

(** ** Counting *)

Definition AS_SEG_START : bool := false.
Definition AS_SEG_END : bool := true.

(** '{' '}' '[' ']' '(' ')' and ' '. *)
Definition aspath_delimiter_char (type : Z) (which : bool) : Z :=
  if type =? AS_SET then (if which then 125 else 123)
  else if type =? AS_CONFED_SET then (if which then 93 else 91)
  else if type =? AS_CONFED_SEQUENCE then (if which then 41 else 40)
  else 32.

Fixpoint assegment_count_asns (segs : list assegment) (from : Z) : Z :=
  match segs with
  | [] => 0
  | seg :: rest => (seg_length seg - from) + assegment_count_asns rest 0
  end.

Fixpoint count_segs (f : assegment -> Z) (segs : list assegment) : Z :=
  match segs with
  | [] => 0
  | seg :: rest => f seg + count_segs f rest
  end.

Definition aspath_count_confeds (a : aspath) : Z :=
  u32 (count_segs (fun seg =>
    if seg_type seg =? AS_CONFED_SEQUENCE then seg_length seg
    else if seg_type seg =? AS_CONFED_SET then 1 else 0) (segments a)).

Definition aspath_count_hops (a : aspath) : Z :=
  u32 (count_segs (fun seg =>
    if seg_type seg =? AS_SEQUENCE then seg_length seg
    else if seg_type seg =? AS_SET then 1 else 0) (segments a)).

Definition aspath_size (a : aspath) : Z :=
  u32 (count_segs (fun seg => ASSEGMENT_SIZE (seg_length seg) true) (segments a)).

Definition aspath_highest (a : aspath) : Z :=
  fold_left (fun highest seg =>
    fold_left (fun highest x =>
      if (highest <? x) && ((x <? BGP_PRIVATE_AS_MIN) || (BGP_PRIVATE_AS_MAX <? x))
      then x else highest) (seg_as seg) highest) (segments a) 0.

Definition aspath_has_as4 (a : aspath) : bool :=
  existsb (fun seg => existsb (fun x => BGP_AS_MAX <? x) (seg_as seg)) (segments a).

Definition aspath_count_numas (a : aspath) : Z := u32 (count_segs seg_length (segments a)).

(** ** Printing *)

Definition aspath_make_empty : list Z := [0].

Definition ASN_STR_LEN : Z := 10 + 1.
Definition SEGMENT_STR_LEN (seg : assegment) : Z := seg_length seg * ASN_STR_LEN + 2 + 1 + 1.

(** [for (i = 0; i < seg->length; i++)]: a separator after all but the last. *)
Fixpoint print_asns (seperator : Z) (l : list Z) (o : out) (last : Z) : res (out * Z) :=
  match l with
  | [] => Ok (o, last)
  | x :: r =>
      o ← emit o (dec x);
      o ← match r with [] => Ok o | _ => emit o [seperator] end;
      print_asns seperator r o x
  end.

(** [None]: a segment of unknown type, the whole path prints as "". *)
Fixpoint print_segs (segs : list assegment) (o : out) (last : Z) : res (option out * Z) :=
  match segs with
  | [] => Ok (Some o, last)
  | seg :: next =>
      let t := seg_type seg in
      if negb ((t =? AS_SET) || (t =? AS_CONFED_SET) || (t =? AS_SEQUENCE)
               || (t =? AS_CONFED_SEQUENCE))
      then Ok (None, last)
      else
        let seperator := if (t =? AS_SET) || (t =? AS_CONFED_SET) then 44 else 32 in
        let o := if o_size o <? o_len o + SEGMENT_STR_LEN seg
                 then let n := o_len o + SEGMENT_STR_LEN seg in
                      mk_out (realloc_buf (o_buf o) n) n (o_len o)
                 else o in
        o ← (if negb (t =? AS_SEQUENCE) then emit o [aspath_delimiter_char t AS_SEG_START] else Ok o);
        '(o, last) ← print_asns seperator (seg_as seg) o last;
        o ← (if negb (t =? AS_SEQUENCE) then emit o [aspath_delimiter_char t AS_SEG_END] else Ok o);
        o ← match next with [] => Ok o | _ => emit o [32] end;
        print_segs next o last
  end.

(** The string, and [last_as] as the printing leaves it. *)
Definition aspath_make_str_count (a : aspath) : res (list Z * Z) :=
  match segments a with
  | [] => s ← c_string aspath_make_empty; Ok (s, last_as a)
  | segs =>
      let str_size := Z.max (assegment_count_asns segs 0 * ASN_STR_LEN + 2 + 1)
                            ASPATH_STR_DEFAULT_LEN in
      '(o, last) ← print_segs segs (mk_out (malloc_buf str_size) str_size 0) (last_as a);
      match o with
      | None => s ← c_string aspath_make_empty; Ok (s, last)
      | Some o =>
          _ ← c_assert (o_len o <? o_size o);
          buf ← store (o_buf o) (o_len o) 0;
          s ← c_string buf;
          Ok (s, last)
      end
  end.

Definition aspath_str_update (a : aspath) : res aspath :=
  '(s, last) ← aspath_make_str_count a;
  Ok (mk_aspath (segments a) last (Some s)).

Definition aspath_dup (a : aspath) : res aspath :=
  '(s, last) ← aspath_make_str_count a;
  Ok (mk_aspath (assegment_dup_all (segments a)) last (Some s)).

(** ** Parsing the attribute *)

Definition rd (s : list Z) (i : Z) : res Z :=
  if (0 <=? i) && (i <? strlen s) then Ok (byte_at s i) else Err OutOfBounds.

Fixpoint read_asns (n : nat) (s : list Z) (pos : Z) (use32bit : bool) : res (list Z) :=
  match n with
  | O => Ok []
  | S n' =>
      if use32bit then
        b0 ← rd s pos; b1 ← rd s (pos + 1); b2 ← rd s (pos + 2); b3 ← rd s (pos + 3);
        r ← read_asns n' s (pos + 4) use32bit;
        Ok (be32 b0 b1 b2 b3 :: r)
      else
        b0 ← rd s pos; b1 ← rd s (pos + 1);
        r ← read_asns n' s (pos + 2) use32bit;
        Ok (be16 b0 b1 :: r)
  end.

(** The loop of [assegments_parse]; [None] is the NULL of a malformed path. *)
Fixpoint parse_loop (fuel : nat) (bmp : bool) (s : list Z) (length : Z) (pos bytes aspathlen : Z)
    (use32bit : bool) (segs : list assegment) : res (option (list assegment)) :=
  match fuel with
  | O => Err OutOfFuel
  | S f =>
      if negb (0 <? aspathlen) then Ok (Some segs)
      else
        type ← rd s pos;
        len ← rd s (pos + 1);
        let use32bit :=
          if bmp && (2 <? aspathlen) && negb (len =? 0) && ((aspathlen - 2) / len =? AS_VALUE_SIZE)
          then true else use32bit in
        let seg_size := ASSEGMENT_SIZE len use32bit in
        if (length <? bytes + seg_size) || (len =? 0) then Ok None
        else
          asns ← read_asns (Z.to_nat len) s (pos + 2) use32bit;
          parse_loop f bmp s length (pos + seg_size) (bytes + seg_size)
            (u64 (aspathlen - seg_size)) use32bit (segs ++ [mk_seg type asns])
  end.

Definition assegments_parse (bmp : bool) (s : list Z) (length : Z) (use32bit : bool)
    : res (option (list assegment)) :=
  if length =? 0 then Ok None
  else if negb (length mod AS16_VALUE_SIZE =? 0) then Ok None
  else
    segs ← parse_loop (S (Z.to_nat length)) bmp s length 0 0 length use32bit [];
    Ok (option_map assegment_normalise segs).

(** ** Checks *)

Definition first_asn (seg : assegment) : res Z :=
  match seg_as seg with x :: _ => Ok x | [] => Err OutOfBounds end.

Definition aspath_firstas_check (a : option aspath) (asno : Z) : res Z :=
  match a with
  | Some a =>
      match segments a with
      | seg :: _ =>
          if seg_type seg =? AS_SEQUENCE then
            x ← first_asn seg; Ok (if x =? asno then 1 else 0)
          else Ok 0
      | [] => Ok 0
      end
  | None => Ok 0
  end.

Definition aspath_loop_check (a : option aspath) (asno : Z) : Z :=
  match a with
  | Some a => count_segs (fun seg =>
                strlen (List.filter (fun x => x =? asno) (seg_as seg))) (segments a)
  | None => 0
  end.

Definition aspath_private_as_check (a : option aspath) : Z :=
  match a with
  | Some a =>
      match segments a with
      | [] => 0
      | segs => if forallb (fun seg => forallb (fun x =>
                     negb ((x <? BGP_PRIVATE_AS_MIN) || (BGP_PRIVATE_AS_MAX <? x))) (seg_as seg)) segs
                then 1 else 0
      end
  | None => 0
  end.

(** [last->next = as2->segments] faults when [as1] has no segment. *)
Definition aspath_merge (as1 as2 : option aspath) : res (option aspath) :=
  match as1, as2 with
  | Some as1, Some as2 =>
      match assegment_dup_all (segments as1) with
      | [] => Err NullDeref
      | new =>
          a ← aspath_str_update (mk_aspath (new ++ segments as2) (last_as as2) (str as2));
          Ok (Some a)
      end
  | _, _ => Ok None
  end.

Fixpoint skip_confeds (segs : list assegment) : list assegment :=
  match segs with
  | seg :: rest => if (seg_type seg =? AS_CONFED_SEQUENCE) || (seg_type seg =? AS_CONFED_SET)
                   then skip_confeds rest else segs
  | [] => []
  end.

Definition aspath_cmp_left (a1 a2 : option aspath) : res Z :=
  match a1, a2 with
  | Some a1, Some a2 =>
      match skip_confeds (segments a1), skip_confeds (segments a2) with
      | s1 :: _, s2 :: _ =>
          if (seg_type s1 =? AS_SEQUENCE) && (seg_type s2 =? AS_SEQUENCE) then
            x ← first_asn s1; y ← first_asn s2; Ok (if x =? y then 1 else 0)
          else Ok 0
      | _, _ => Ok 0
      end
  | _, _ => Ok 0
  end.

Definition aspath_cmp_left_confed (a1 a2 : option aspath) : res Z :=
  match a1, a2 with
  | Some a1, Some a2 =>
      match segments a1, segments a2 with
      | s1 :: _, s2 :: _ =>
          if negb (seg_type s1 =? AS_CONFED_SEQUENCE) || negb (seg_type s2 =? AS_CONFED_SEQUENCE)
          then Ok 0
          else x ← first_asn s1; y ← first_asn s2; Ok (if x =? y then 1 else 0)
      | _, _ => Ok 0
      end
  | _, _ => Ok 0
  end.

(** ** Reconciling AS_PATH with AS4_PATH *)

(** The loop: [cpasns] keeps its value from one segment to the next. *)
Fixpoint take_hops (segs : list assegment) (hops cpasns : Z) : res (list assegment) :=
  match segs with
  | [] => Ok []
  | seg :: rest =>
      if negb (0 <? hops) then Ok []
      else
        let t := seg_type seg in
        let n := seg_length seg in
        let '(hops, cpasns) :=
          if (t =? AS_SET) || (t =? AS_CONFED_SET) then (hops - 1, n)
          else if (t =? AS_CONFED_SEQUENCE) || (t =? AS_SEQUENCE) then
            let hops := if (t =? AS_CONFED_SEQUENCE) && (hops <? n) then n else hops in
            (hops - n, Z.min n hops)
          else (hops, cpasns) in
        _ ← c_assert (cpasns <=? n);
        let newseg := assegment_append_asns (assegment_new t 0) (seg_as seg) cpasns in
        r ← take_hops rest hops cpasns;
        Ok (newseg :: r)
  end.

Definition aspath_reconcile_as4 (a as4path : option aspath) : res (option aspath) :=
  match a with
  | None => Ok None
  | Some a =>
      as4 ← deref as4path;
      let hops := s32 (u32 (u32 (aspath_count_hops a + aspath_count_confeds a)
                              - aspath_count_hops as4)) in
      let hops := if hops <? 0 then s32 (aspath_count_hops a) else hops in
      if hops =? 0 then d ← aspath_dup as4; Ok (Some d)
      else
        newsegs ← take_hops (segments a) hops 0;
        let newpath := match newsegs with [] => None | _ => Some (mk_aspath newsegs 0 None) end in
        d ← aspath_dup as4;
        merged ← aspath_merge newpath (Some d);
        merged ← deref merged;
        m ← aspath_str_update
              (mk_aspath (assegment_normalise (segments merged)) (last_as merged) (str merged));
        Ok (Some m)
  end.

(** ** Hashing *)

(** The string is made when it is missing; the path comes back with it. *)
Definition aspath_key_make (a : aspath) : res (aspath * Z) :=
  a ← match str a with Some _ => Ok a | None => aspath_str_update a end;
  s ← deref (str a);
  Ok (a, jhash s 2334325).

Definition asns_eqb (a b : list Z) : bool :=
  (strlen a =? strlen b) && forallb (fun '(x, y) => x =? y) (combine a b).

Fixpoint aspath_cmp (s1 s2 : list assegment) : bool :=
  match s1, s2 with
  | [], [] => true
  | x :: r1, y :: r2 =>
      (seg_type x =? seg_type y) && asns_eqb (seg_as x) (seg_as y) && aspath_cmp r1 r2
  | _, _ => false
  end.

Definition aspath_init {D} : hash D := hash_create_size 32767.

Definition aspath_print (a : option aspath) : option (list Z) :=
  match a with Some a => str a | None => None end.

(** ** Reading the text form *)

Inductive as_token :=
  | as_token_asval (asno : Z)
  | as_token_set_start
  | as_token_set_end
  | as_token_confed_seq_start
  | as_token_confed_seq_end
  | as_token_confed_set_start
  | as_token_confed_set_end
  | as_token_unknown.

Fixpoint skip_seps (p : list Z) : list Z :=
  match p with
  | c :: r => if is_space c || (c =? 44) then skip_seps r else p
  | [] => []
  end.

(** [asval *= 10; asval += *p - '0'] on 32 bits. *)
Fixpoint read_asval (asval : Z) (p : list Z) : Z * list Z :=
  match p with
  | c :: r => if is_digit c then read_asval (u32 (u32 (asval * 10) + (c - 48))) r else (asval, p)
  | [] => (asval, [])
  end.

(** [None]: the end of the string. *)
Definition aspath_gettoken (buf : list Z) : option (as_token * list Z) :=
  match skip_seps buf with
  | [] => None
  | c :: p =>
      if c =? 123 then Some (as_token_set_start, p)
      else if c =? 125 then Some (as_token_set_end, p)
      else if c =? 40 then Some (as_token_confed_seq_start, p)
      else if c =? 41 then Some (as_token_confed_seq_end, p)
      else if c =? 91 then Some (as_token_confed_set_start, p)
      else if c =? 93 then Some (as_token_confed_set_end, p)
      else if is_digit c then
        let '(asno, p) := read_asval (c - 48) p in Some (as_token_asval asno, p)
      else Some (as_token_unknown, c :: p)
  end.

Fixpoint str2aspath_loop (fuel : nat) (s : list Z) (as_type : Z) (needtype : bool) (a : aspath)
    : res (option aspath) :=
  match fuel with
  | O => Err OutOfFuel
  | S f =>
      match aspath_gettoken s with
      | None => Ok (Some a)
      | Some (token, s) =>
          match token with
          | as_token_asval asno =>
              let a := if needtype then aspath_segment_add a as_type else a in
              str2aspath_loop f s as_type false (aspath_as_add a asno)
          | as_token_set_start =>
              str2aspath_loop f s AS_SET false (aspath_segment_add a AS_SET)
          | as_token_confed_seq_start =>
              str2aspath_loop f s AS_CONFED_SEQUENCE false (aspath_segment_add a AS_CONFED_SEQUENCE)
          | as_token_confed_set_start =>
              str2aspath_loop f s AS_CONFED_SET false (aspath_segment_add a AS_CONFED_SET)
          | as_token_set_end | as_token_confed_seq_end | as_token_confed_set_end =>
              str2aspath_loop f s AS_SEQUENCE true a
          | as_token_unknown => Ok None
          end
      end
  end.

(** The string printed at the end is thrown away; printing sets [last_as]. *)
Definition aspath_str2aspath (s : list Z) : res (option aspath) :=
  a ← str2aspath_loop (S (length s)) s AS_SEQUENCE true aspath_new;
  match a with
  | None => Ok None
  | Some a => '(_, last) ← aspath_make_str_count a;
              Ok (Some (mk_aspath (segments a) last (str a)))
  end.

Definition aspath_ast2aspath (asn : Z) : res aspath :=
  let a := aspath_as_add (aspath_segment_add aspath_new AS_SEQUENCE) asn in
  '(_, last) ← aspath_make_str_count a;
  Ok (mk_aspath (segments a) last (str a)).

(** ** Interning *)

(** The value that is interned: the string is kept beside it. *)
Record aspath_value := mk_value {
  v_segments : list assegment;
  v_last_as : Z
}.

Definition value_aspath (v : aspath_value) : aspath := mk_aspath (v_segments v) (v_last_as v) None.

Definition value_string (v : aspath_value) : res (option (list Z)) :=
  '(s, _) ← aspath_make_str_count (value_aspath v); Ok (Some s).

#[export] Instance aspath_internable : Internable aspath_value := {|
  value_key v := match aspath_key_make (value_aspath v) with Ok (_, k) => k | Err _ => 0 end;
  value_cmp v w := aspath_cmp (v_segments v) (v_segments w);
  value_str := value_string
|}.

(** What [aspath_key_make] does to the object it hashes: the string is made,
    and making it sets [last_as]. *)
Definition hash_effect (st : objs aspath_value) (l : loc) : res (objs aspath_value) :=
  o ← deref (st !! l);
  match o_str o with
  | Some _ => Ok st
  | None =>
      '(s, last) ← aspath_make_str_count (value_aspath (o_val o));
      Ok (<[l := mk_obj (mk_value (v_segments (o_val o)) last) (refcnt o) (Some s)]> st)
  end.

Definition aspath_intern (dbs : misc_dbs) (peer : option bgp_peer) (st : objs aspath_value)
    (h : hash loc) (l : loc) : res (objs aspath_value * hash loc * option loc) :=
  if routing_db peer then
    st ← hash_effect st l;
    intern dbs peer st h l
  else Ok (st, h, None).

Definition aspath_unintern (peer : option bgp_peer) (st : objs aspath_value) (h : hash loc) (l : loc)
    : res (objs aspath_value * hash loc) := unintern peer st h l.

(** [aspath_hash_alloc]: a copy in a new object, when the string could be
    made. *)
Definition aspath_hash_alloc (st : objs aspath_value) (arg : loc)
    : res (objs aspath_value * option loc) :=
  o ← deref (st !! arg);
  d ← aspath_dup (value_aspath (o_val o));
  match o_str o with
  | None => Ok (st, None)
  | Some _ =>
      let l := fresh (dom st) in
      Ok (<[l := mk_obj (mk_value (segments d) (last_as d)) 0 (str d)]> st, Some l)
  end.

(** Looks a temporary path up, copying it into the table when it is new, and
    takes a reference: what [aspath_parse] and [aspath_parse_ast] share. *)
Definition intern_temporary (dbs : misc_dbs) (peer : option bgp_peer) (st : objs aspath_value)
    (h : hash loc) (v : aspath_value) : res (objs aspath_value * hash loc * option loc) :=
  let tmp := fresh (dom st) in
  st ← hash_effect (<[tmp := mk_obj v 0 None]> st) tmp;
  '(st, h, find) ← hash_get obj_key obj_cmp dbs peer st h tmp (Some aspath_hash_alloc);
  st ← obj_free st tmp;
  match find with
  | None => Ok (st, h, None)
  | Some f =>
      o ← deref (st !! f);
      Ok (<[f := mk_obj (o_val o) (u64 (refcnt o + 1)) (o_str o)]> st, h, Some f)
  end.

(** A malformed path ([assegments_parse] returns NULL) is looked up as the
    path without segments. *)
Definition aspath_parse (dbs : misc_dbs) (peer : option bgp_peer) (st : objs aspath_value)
    (h : hash loc) (s : list Z) (length : Z) (use32bit : bool)
    : res (objs aspath_value * hash loc * option loc) :=
  match peer with
  | None => Ok (st, h, None)
  | Some p =>
      if negb (routing_db peer) then Ok (st, h, None)
      else if negb (length mod AS16_VALUE_SIZE =? 0) then Ok (st, h, None)
      else
        segs ← assegments_parse (type p =? FUNC_TYPE_BMP) s length use32bit;
        intern_temporary dbs peer st h (mk_value (default [] segs) 0)
  end.

Definition aspath_parse_ast (dbs : misc_dbs) (peer : option bgp_peer) (st : objs aspath_value)
    (h : hash loc) (asn : Z) : res (objs aspath_value * hash loc * option loc) :=
  if negb (routing_db peer) then Ok (st, h, None)
  else
    a ← aspath_ast2aspath asn;
    intern_temporary dbs peer st h (mk_value (segments a) (last_as a)).

End Aspath.
