(* ===== verification/AspathFacts.v ===== *)
(** * Properties of AS paths (src/bgp/bgp_aspath.c) *)

From S2P Require Import Prelude CBuf Bgp Jhash BgpHash BgpHashFacts BgpInternFacts Aspath.
Import CBuf Bgp Jhash BgpHash BgpIntern BgpHashFacts BgpInternFacts Aspath.

Module AspathFacts.

(** Segment types the code knows. *)
Definition known (t : Z) : bool :=
  (t =? AS_SET) || (t =? AS_SEQUENCE) || (t =? AS_CONFED_SEQUENCE) || (t =? AS_CONFED_SET).

Definition all_known (segs : list assegment) : bool :=
  forallb (fun seg => known (seg_type seg)) segs.

Definition seg_ok (seg : assegment) : Prop := Forall (in_u 32) (seg_as seg).

(** The number of AS numbers of a path. *)
Definition total (segs : list assegment) : Z := count_segs seg_length segs.

Lemma total_nonneg segs : 0 <= total segs.
Proof.
  unfold total, seg_length. induction segs as [|s r IH]; cbn [count_segs]; [lia |].
  pose proof (strlen_nonneg (seg_as s)). lia.
Qed.

(* ------------------------------------------------------------------ *)
(** ** The text of a path *)

Fixpoint asns_text (sep : Z) (l : list Z) : list Z :=
  match l with
  | [] => []
  | [x] => dec x
  | x :: r => dec x ++ [sep] ++ asns_text sep r
  end.

Definition seg_sep (t : Z) : Z := if (t =? AS_SET) || (t =? AS_CONFED_SET) then 44 else 32.

Definition seg_text (seg : assegment) : list Z :=
  let t := seg_type seg in
  if t =? AS_SEQUENCE then asns_text (seg_sep t) (seg_as seg)
  else [aspath_delimiter_char t AS_SEG_START] ++ asns_text (seg_sep t) (seg_as seg)
         ++ [aspath_delimiter_char t AS_SEG_END].

Fixpoint aspath_text (segs : list assegment) : list Z :=
  match segs with
  | [] => []
  | [seg] => seg_text seg
  | seg :: rest => seg_text seg ++ [32] ++ aspath_text rest
  end.

Lemma asns_text_length sep l :
  Forall (in_u 32) l -> strlen (asns_text sep l) <= 11 * strlen l.
Proof.
  induction 1 as [|x r Hx Hr IH]; cbn [asns_text]; [unfold strlen; cbn [length]; lia |].
  pose proof (dec_u32_length x Hx). unfold strlen in *.
  destruct r as [|y r]; [cbn [asns_text length] in *; lia |]. rewrite !length_app. cbn [length] in *. lia.
Qed.

Lemma asns_text_no_nul sep l : sep <> 0 -> Forall (in_u 32) l -> no_nul (asns_text sep l).
Proof.
  intros Hs. induction 1 as [|x r Hx Hr IH]; cbn [asns_text]; [constructor |].
  assert (Hd : no_nul (dec x)) by (apply no_nul_dec; unfold in_u in Hx; lia).
  destruct r; [done |]. apply no_nul_app; [done |]. constructor; [done | exact IH].
Qed.

Lemma seg_text_length seg : seg_ok seg -> strlen (seg_text seg) <= 11 * seg_length seg + 2.
Proof.
  intros H. pose proof (asns_text_length (seg_sep (seg_type seg)) _ H) as Hl.
  unfold seg_text, seg_length. destruct (_ =? _); [lia |]. rewrite !strlen_app, !strlen_one. lia.
Qed.

Lemma delimiter_nonzero t w : aspath_delimiter_char t w <> 0.
Proof. unfold aspath_delimiter_char. repeat destruct (_ =? _); destruct w; lia. Qed.

Lemma seg_sep_nonzero t : seg_sep t <> 0.
Proof. unfold seg_sep. destruct (_ || _); lia. Qed.

Lemma seg_text_no_nul seg : seg_ok seg -> no_nul (seg_text seg).
Proof.
  intros H. pose proof (asns_text_no_nul _ _ (seg_sep_nonzero (seg_type seg)) H) as Hn.
  unfold seg_text. destruct (_ =? _); [done |].
  apply no_nul_app; [constructor; [apply delimiter_nonzero | constructor] |].
  apply no_nul_app; [done |]. constructor; [apply delimiter_nonzero | constructor].
Qed.

Lemma aspath_text_no_nul segs : Forall seg_ok segs -> no_nul (aspath_text segs).
Proof.
  induction 1 as [|seg rest Hs Hr IH]; cbn [aspath_text]; [constructor |].
  pose proof (seg_text_no_nul seg Hs). destruct rest; [done |].
  apply no_nul_app; [done |]. constructor; [lia | exact IH].
Qed.

(** The last AS number of a path; [d] when there is none. *)
Definition last_of (segs : list assegment) (d : Z) : Z :=
  List.last (concat (map seg_as segs)) d.

(* ------------------------------------------------------------------ *)
(** ** The printing loops *)

Lemma last_cons_change {A} (x : A) l d d' : List.last (x :: l) d = List.last (x :: l) d'.
Proof. revert x. induction l as [|y l IH]; intros x; [done |]. apply (IH y). Qed.

Lemma print_asns_spec sep l : forall o text last,
  Forall (in_u 32) l -> printed o text -> strlen text + 11 * strlen l < o_size o ->
  exists o', print_asns sep l o last = Ok (o', List.last l last) /\
    printed o' (text ++ asns_text sep l) /\ o_size o' = o_size o.
Proof.
  induction l as [|x r IH]; intros o text last Hl Hp Hf; cbn [print_asns].
  { exists o. rewrite app_nil_r. done. }
  inversion Hl as [|? ? Hx Hr]; subst. pose proof (dec_u32_length x Hx) as Hd.
  unfold strlen in Hf. cbn [length] in Hf.
  destruct (emit_printed o text (dec x) Hp) as (o1 & E1 & P1 & S1); [unfold strlen; lia |].
  rewrite E1. cbn [mbind res_bind]. destruct r as [|y r].
  - cbn [mbind res_bind print_asns asns_text List.last]. by exists o1.
  - destruct (emit_printed o1 (text ++ dec x) [sep] P1) as (o2 & E2 & P2 & S2).
    { rewrite S1, strlen_app. unfold strlen. cbn [length] in *. lia. }
    rewrite E2. cbn [mbind res_bind].
    destruct (IH o2 ((text ++ dec x) ++ [sep]) x Hr P2) as (o3 & E3 & P3 & S3).
    { rewrite S2, S1, !strlen_app. unfold strlen. cbn [length] in *. lia. }
    exists o3. rewrite E3. 
    split; [change (List.last (x :: y :: r) last) with (List.last (y :: r) last);
      by rewrite (last_cons_change y r last x) |].
    split; [| congruence]. rewrite <- !app_assoc in P3. exact P3.
Qed.

Lemma last_app_list {A} (a b : list A) d : List.last (a ++ b) d = List.last b (List.last a d).
Proof.
  revert d. induction a as [|x a IH]; intros d; [done |].
  destruct a as [|y a]; cbn [app].
  - destruct b as [|z b]; [done |]. change (List.last (z :: b) d = List.last (z :: b) x).
    apply last_cons_change.
  - change (List.last ((y :: a) ++ b) d = List.last b (List.last (y :: a) d)). apply IH.
Qed.

Lemma known_print t :
  (t =? AS_SET) || (t =? AS_CONFED_SET) || (t =? AS_SEQUENCE) || (t =? AS_CONFED_SEQUENCE) = known t.
Proof. unfold known. by destruct (t =? AS_SET), (t =? AS_CONFED_SET), (t =? AS_SEQUENCE), (t =? AS_CONFED_SEQUENCE). Qed.

(** One segment, its separator included, fits in what the code makes sure is
    there. *)
Lemma print_segs_spec segs : forall o text last,
  Forall seg_ok segs -> printed o text -> strlen text < o_size o ->
  strlen text + 12 * total segs + 4 * Z.of_nat (length segs) < 2 ^ 63 -> o_size o < 2 ^ 63 ->
  if all_known segs then
    exists o', print_segs segs o last = Ok (Some o', last_of segs last) /\
      printed o' (text ++ aspath_text segs) /\ strlen (text ++ aspath_text segs) < o_size o'
  else exists last', print_segs segs o last = Ok (None, last').
Proof.
  induction segs as [|seg rest IH]; intros o text last Hok Hp Hf Hbig Hsz; cbn [print_segs all_known forallb].
  { exists o. rewrite app_nil_r. done. }
  inversion Hok as [|? ? Hs Hr]; subst. set (t := seg_type seg) in *.
  rewrite (known_print t). destruct (known t) eqn:Hk; cbn [negb andb]; [| by exists last].
  fold (all_known rest).
  assert (0 <= seg_length seg) by (unfold seg_length, strlen; lia).
  assert (Hrest : 0 <= total rest).
  { apply total_nonneg. }
  cbn [length total count_segs] in Hbig. fold (total rest) in Hbig.
  unfold total in Hbig. cbn [count_segs] in Hbig. fold (total rest) in Hbig.
  change (seg_length seg) with (strlen (seg_as seg)) in *.
  set (n := strlen (seg_as seg)) in *.
  match goal with |- context[if ?c then mk_out _ _ _ else o] => set (o1 := if c then _ else o) end.
  assert (Hp1 : printed o1 text /\ strlen text + (11 * n + 4) <= o_size o1 < 2 ^ 63).
  { unfold o1, SEGMENT_STR_LEN, ASN_STR_LEN. change (seg_length seg) with n.
    pose proof (pr_len o text Hp) as Hlen.
    destruct (Z.ltb_spec (o_size o) (o_len o + (n * (10 + 1) + 2 + 1 + 1))).
    - split; [apply printed_realloc; [done | lia] | cbn; lia].
    - split; [done | lia]. }
  clearbody o1. destruct Hp1 as [Hp1 Hsz1].
  set (start := if negb (t =? AS_SEQUENCE) then [aspath_delimiter_char t AS_SEG_START] else []).
  set (stop := if negb (t =? AS_SEQUENCE) then [aspath_delimiter_char t AS_SEG_END] else []).
  assert (Htext : seg_text seg = start ++ asns_text (seg_sep t) (seg_as seg) ++ stop).
  { unfold seg_text, start, stop. fold t. destruct (t =? AS_SEQUENCE); cbn [negb app]; [by rewrite app_nil_r | done]. }
  assert (Hss : strlen start <= 1 /\ strlen stop <= 1).
  { unfold start, stop. destruct (t =? AS_SEQUENCE); cbn [negb]; rewrite ?strlen_one; unfold strlen; cbn [length]; lia. }
  assert (Hdelim : forall oo tt d, printed oo tt -> strlen tt + 1 < o_size oo ->
    exists oo', (if negb (t =? AS_SEQUENCE) then emit oo [d] else Ok oo) = Ok oo' /\
      printed oo' (tt ++ (if negb (t =? AS_SEQUENCE) then [d] else [])) /\ o_size oo' = o_size oo).
  { intros oo tt d Hpo Hfo. destruct (negb (t =? AS_SEQUENCE)).
    - apply emit_printed; done.
    - exists oo. rewrite app_nil_r. done. }
  destruct (Hdelim o1 text (aspath_delimiter_char t AS_SEG_START) Hp1) as (o2 & E2 & P2 & S2); [lia |].
  rewrite E2. cbn [mbind res_bind]. fold start in P2.
  destruct (print_asns_spec (seg_sep t) (seg_as seg) o2 (text ++ start) last Hs P2) as (o3 & E3 & P3 & S3).
  { rewrite S2, strlen_app. fold n. lia. }
  unfold seg_sep in E3. rewrite E3. cbn [mbind res_bind].
  pose proof (asns_text_length (seg_sep t) _ Hs) as Hal. fold n in Hal.
  destruct (Hdelim o3 _ (aspath_delimiter_char t AS_SEG_END) P3) as (o4 & E4 & P4 & S4).
  { rewrite S3, S2, !strlen_app. lia. }
  rewrite E4. cbn [mbind res_bind]. fold stop in P4.
  rewrite <- !app_assoc in P4. rewrite <- Htext in P4.
  pose proof (seg_text_length seg Hs) as Hsl. change (seg_length seg) with n in Hsl.
  assert (Hlast : last_of (seg :: rest) last = last_of rest (List.last (seg_as seg) last)).
  { unfold last_of. cbn [map concat]. apply last_app_list. }
  rewrite Hlast. destruct rest as [|s2 rest'].
  - cbn [mbind res_bind print_segs aspath_text all_known forallb]. exists o4.
    split; [done |]. split; [done |]. rewrite S4, S3, S2, strlen_app. lia.
  - destruct (emit_printed o4 _ [32] P4) as (o5 & E5 & P5 & S5).
    { rewrite S4, S3, S2, strlen_app, strlen_one. lia. }
    rewrite E5. cbn [mbind res_bind].
    specialize (IH o5 ((text ++ seg_text seg) ++ [32]) (List.last (seg_as seg) last) Hr P5).
    destruct (all_known (s2 :: rest')).
    + destruct IH as (o6 & E6 & P6 & S6).
      * rewrite S5, S4, S3, S2, !strlen_app, strlen_one. lia.
      * rewrite !strlen_app, strlen_one. cbn [length] in *. lia.
      * lia.
      * exists o6. split; [done |]. rewrite <- !app_assoc in P6, S6. done.
    + apply IH; [| | lia].
      * rewrite S5, S4, S3, S2, !strlen_app, strlen_one. lia.
      * rewrite !strlen_app, strlen_one. cbn [length] in *. lia.
Qed.

(** A path whose AS numbers are 32-bit and that is far from overflowing the
    [int] sizes of the printing code. *)
Record path_ok (segs : list assegment) : Prop := {
  po_asns : Forall seg_ok segs;
  po_total : total segs < 2 ^ 27;
  po_length : Z.of_nat (length segs) < 2 ^ 27
}.

Lemma count_asns_total segs : assegment_count_asns segs 0 = total segs.
Proof.
  unfold total. induction segs as [|s r IH]; cbn [assegment_count_asns count_segs]; [done |].
  rewrite IH. lia.
Qed.

Lemma make_str_text a :
  path_ok (segments a) ->
  exists last, aspath_make_str_count a =
    Ok (if all_known (segments a) then aspath_text (segments a) else [], last) /\
    (all_known (segments a) = true -> last = last_of (segments a) (last_as a)).
Proof.
  intros [Hok Ht Hl]. unfold aspath_make_str_count.
  destruct (segments a) as [|s segs] eqn:E.
  { exists (last_as a). done. }
  rewrite <- E in *. set (size := Z.max _ _).
  pose proof (total_nonneg (segments a)) as H0.
  assert (Hsize : 32 <= size < 2 ^ 31).
  { unfold size. rewrite count_asns_total. unfold ASN_STR_LEN, ASPATH_STR_DEFAULT_LEN. lia. }
  assert (Hp : printed (mk_out (malloc_buf size) size 0) []).
  { split; cbn; [apply starts_nil | done | apply malloc_length; lia | lia]. }
  pose proof (print_segs_spec (segments a) _ [] (last_as a) Hok Hp) as Hs. cbn [o_size app] in Hs.
  change (strlen []) with 0 in Hs.
  destruct (all_known (segments a)).
  - destruct Hs as (o & E1 & P1 & S1); [lia..|]. rewrite E1. cbn [mbind res_bind].
    destruct (printed_string o _ P1 (aspath_text_no_nul _ Hok) S1) as (buf & E2 & E3).
    rewrite (pr_len o _ P1) in E2 |- *. rewrite (proj2 (Z.ltb_lt _ _) S1). cbn [c_assert mbind res_bind].
    rewrite E2. cbn [mbind res_bind]. rewrite E3. eexists. split; [done | done].
  - destruct Hs as (last' & E1); [lia..|]. rewrite E1. cbn. by exists last'.
Qed.

(* ------------------------------------------------------------------ *)
(** ** Normal form *)

(** What a path means: hops, unordered groups, and the runs whose order
    matters (confederation sequences and types the code does not know). *)
Inductive elem :=
  | Hop (asn : Z)
  | Group (t : Z) (asns : gset Z)
  | Run (t : Z) (asns : list Z).

Definition is_set (t : Z) : bool := (t =? AS_SET) || (t =? AS_CONFED_SET).

Definition seg_elems (seg : assegment) : list elem :=
  if seg_type seg =? AS_SEQUENCE then map Hop (seg_as seg)
  else if is_set (seg_type seg) then [Group (seg_type seg) (list_to_set (seg_as seg))]
  else [Run (seg_type seg) (seg_as seg)].

Definition path_elems (segs : list assegment) : list elem := concat (map seg_elems segs).

Lemma int_le_spec a b : int_le a b <-> a <= b.
Proof.
  unfold int_le, int_cmp. destruct (Z.eqb_spec a b), (Z.ltb_spec b a); lia.
Qed.

#[local] Instance int_le_total : Total int_le.
Proof. intros a b. rewrite !int_le_spec. lia. Qed.
#[local] Instance int_le_trans : Transitive int_le.
Proof. intros a b c. rewrite !int_le_spec. lia. Qed.

Lemma weed_dupes_spec l : forall last,
  StronglySorted Z.le (last :: l) ->
  StronglySorted Z.lt (last :: weed_dupes last l) /\
  forall x, x ∈ last :: weed_dupes last l <-> x ∈ last :: l.
Proof.
  induction l as [|y l IH]; intros last Hs; cbn [weed_dupes].
  { split; [repeat constructor | done]. }
  inversion Hs as [|? ? Hs' Hle]; subst. inversion Hs' as [|? ? Hs'' Hle']; subst.
  destruct (Z.eqb_spec last y) as [->|Hne].
  - destruct (IH y Hs') as [H1 H2]. split; [done |]. intros x. rewrite H2, !elem_of_cons. tauto.
  - destruct (IH y Hs') as [H1 H2]. split.
    + constructor; [done |]. apply Forall_forall. intros x Hx%H2.
      inversion Hle as [|? ? Hy Hl]; subst. rewrite Forall_forall in Hle'.
      apply elem_of_cons in Hx as [->|Hx]; [lia |]. specialize (Hle' x Hx). lia.
    + intros x. rewrite (elem_of_cons _ x last), H2, <- elem_of_cons. done.
Qed.

Lemma sorted_le l : StronglySorted int_le l -> StronglySorted Z.le l.
Proof.
  induction 1 as [|x l Hs IH Hx]; constructor; [done |].
  eapply Forall_impl; [exact Hx |]. intros y. apply int_le_spec.
Qed.

Lemma sort_set_spec seg :
  seg_type (sort_set seg) = seg_type seg /\
  (is_set (seg_type seg) = false -> sort_set seg = seg) /\
  (is_set (seg_type seg) = true -> StronglySorted Z.lt (seg_as (sort_set seg))) /\
  (forall x, x ∈ seg_as (sort_set seg) <-> x ∈ seg_as seg).
Proof.
  unfold sort_set. fold (is_set (seg_type seg)).
  destruct (is_set (seg_type seg)) eqn:Eset; [| done].
  pose proof (merge_sort_Permutation int_le (seg_as seg)) as Hp.
  pose proof (sorted_le _ (StronglySorted_merge_sort int_le (seg_as seg))) as Hs.
  destruct (merge_sort int_le (seg_as seg)) as [|x r].
  - cbn. split_and!; try done; [constructor |]. intros x. by rewrite <- Hp.
  - destruct (weed_dupes_spec r x Hs) as [H1 H2]. cbn [seg_type seg_as]. split_and!; try done.
    intros y. by rewrite H2, Hp.
Qed.

Lemma sort_set_elems seg : seg_elems (sort_set seg) = seg_elems seg.
Proof.
  destruct (sort_set_spec seg) as (Ht & Hn & _ & He). unfold seg_elems. rewrite Ht.
  destruct (Z.eqb_spec (seg_type seg) AS_SEQUENCE) as [E|E].
  - rewrite Hn; [done |]. by rewrite E.
  - destruct (is_set (seg_type seg)) eqn:Es; [| by rewrite Hn].
    do 2 f_equal. apply set_eq. intros x. rewrite !elem_of_list_to_set. apply He.
Qed.

Lemma sort_set_length seg : seg_length (sort_set seg) <= seg_length seg.
Proof.
  unfold sort_set. destruct (_ || _); [| done].
  pose proof (Permutation_length (merge_sort_Permutation int_le (seg_as seg))) as Hl.
  unfold seg_length, strlen. destruct (merge_sort _ _) as [|x l]; cbn in Hl |- *; [lia |].
  enough (length (weed_dupes x l) <= length l)%nat by lia. clear. revert x.
  induction l as [|y l IH]; intros x; cbn; [lia |].
  destruct (x =? y); cbn; [specialize (IH x) | specialize (IH y)]; lia.
Qed.

Lemma append_asns_ok x y :
  seg_length x + seg_length y < 65536 ->
  assegment_append_asns x (seg_as y) (seg_length y) = mk_seg (seg_type x) (seg_as x ++ seg_as y).
Proof.
  intros H. unfold assegment_append_asns, seg_length, strlen in *. f_equal.
  rewrite u16_small by lia. rewrite Nat2Z.id, firstn_all.
  rewrite take_ge; [done |]. rewrite length_app. lia.
Qed.

(** No sequence is followed by another one. *)
Fixpoint separated (segs : list assegment) : Prop :=
  match segs with
  | x :: ((y :: _) as r) => ASSEGMENT_TYPES_PACKABLE x y = false /\ separated r
  | _ => True
  end.

Definition seg_normal (seg : assegment) : Prop :=
  (seg_type seg = AS_SEQUENCE -> seg_as seg <> []) /\
  (is_set (seg_type seg) = true -> StronglySorted Z.lt (seg_as seg)).

Definition normal (segs : list assegment) : Prop := Forall seg_normal segs /\ separated segs.

Definition seq_nonempty (seg : assegment) : Prop := seg_type seg = AS_SEQUENCE -> seg_as seg <> [].

Lemma sort_set_normal seg : seq_nonempty seg -> seg_normal (sort_set seg).
Proof.
  intros H. destruct (sort_set_spec seg) as (Ht & Hn & Hs & _). split; rewrite Ht; [| done].
  intros E. rewrite Hn; [by apply H |]. by rewrite E.
Qed.

Lemma packable_spec x y :
  ASSEGMENT_TYPES_PACKABLE x y = true <-> seg_type x = AS_SEQUENCE /\ seg_type y = AS_SEQUENCE.
Proof. unfold ASSEGMENT_TYPES_PACKABLE. rewrite andb_true_iff, !Z.eqb_eq. intuition congruence. Qed.

Lemma normalise_from_spec rest : forall pin,
  seg_normal pin -> Forall seq_nonempty rest -> seg_length pin + total rest < 65536 ->
  path_elems (normalise_from pin rest) = seg_elems pin ++ path_elems rest /\
  normal (normalise_from pin rest) /\
  exists hd r, normalise_from pin rest = hd :: r /\ seg_type hd = seg_type pin.
Proof.
  induction rest as [|next rest IH]; intros pin Hpin Hne Hlen; cbn [normalise_from].
  { split; [done | split; [split; [by constructor | done] | by exists pin, []]]. }
  inversion Hne as [|? ? Hn Hr]; subst.
  unfold total in Hlen. cbn [count_segs] in Hlen. fold (total rest) in Hlen.
  pose proof (total_nonneg rest) as H0.
  assert (0 <= seg_length pin) by apply strlen_nonneg. assert (0 <= seg_length next) by apply strlen_nonneg.
  destruct (ASSEGMENT_TYPES_PACKABLE pin next) eqn:Ep.
  - apply packable_spec in Ep as [E1 E2]. rewrite append_asns_ok by lia.
    set (pin' := mk_seg _ _).
    destruct (IH pin') as (G1 & G2 & hd & r & G3 & G4).
    + split; [| by intros Hs; exfalso; unfold pin' in Hs; cbn in Hs; rewrite E1 in Hs].
      intros _ Hnil. apply (proj1 Hpin E1). by apply app_eq_nil in Hnil as [? _].
    + done.
    + unfold pin', seg_length in *. cbn. rewrite strlen_app. lia.
    + split; [| split; [exact G2 | by exists hd, r]].
      rewrite G1. unfold path_elems. cbn [map concat]. rewrite app_assoc. f_equal.
      unfold seg_elems, pin'. cbn [seg_type seg_as]. rewrite E1, E2. cbn. apply map_app.
  - destruct (sort_set_spec next) as (Ht & Hns & _ & _).
    destruct (IH (sort_set next)) as (G1 & G2 & hd & r & G3 & G4).
    + by apply sort_set_normal.
    + done.
    + pose proof (sort_set_length next). lia.
    + split; [| split; [| by exists pin, (normalise_from (sort_set next) rest)]].
      * change (path_elems (pin :: ?x)) with (seg_elems pin ++ path_elems x). f_equal.
        rewrite G1, sort_set_elems. done.
      * destruct G2 as [F1 F2]. split; [by constructor |]. rewrite G3 in F2 |- *.
        split; [| done]. unfold ASSEGMENT_TYPES_PACKABLE in Ep |- *. by rewrite G4, Ht.
Qed.

Lemma normalise_spec segs :
  Forall seq_nonempty segs -> total segs < 65536 ->
  path_elems (assegment_normalise segs) = path_elems segs /\ normal (assegment_normalise segs).
Proof.
  intros Hne Hl. destruct segs as [|seg rest]; [done |]. cbn [assegment_normalise].
  inversion Hne as [|? ? Hs Hr]; subst.
  pose proof (sort_set_length seg) as Hle.
  unfold total in Hl. cbn [count_segs] in Hl. fold (total rest) in Hl.
  destruct (normalise_from_spec rest (sort_set seg)) as (G1 & G2 & _);
    [by apply sort_set_normal | done | lia |].
  split; [| done]. rewrite G1, sort_set_elems. done.
Qed.

Definition is_hop (e : elem) : bool := match e with Hop _ => true | _ => false end.

Lemma hops_unique a b r1 r2 :
  map Hop a ++ r1 = map Hop b ++ r2 ->
  match r1 with e :: _ => is_hop e = false | [] => True end ->
  match r2 with e :: _ => is_hop e = false | [] => True end -> a = b /\ r1 = r2.
Proof.
  revert b. induction a as [|x a IH]; intros [|y b] E H1 H2; cbn in E; try done.
  - by subst r1.
  - by subst r2.
  - injection E as -> E. by destruct (IH b E H1 H2) as [-> ->].
Qed.

(** What follows a sequence does not start with a hop. *)
Lemma separated_next seg rest :
  seg_type seg = AS_SEQUENCE -> separated (seg :: rest) ->
  match path_elems rest with e :: _ => is_hop e = false | [] => True end.
Proof.
  intros Ht. destruct rest as [|s2 r]; [done |]. intros [Hp _].
  assert (Hn : seg_type s2 <> AS_SEQUENCE).
  { intros E. rewrite (proj2 (packable_spec seg s2)) in Hp; done. }
  unfold path_elems. cbn [map concat]. unfold seg_elems at 1.
  rewrite (proj2 (Z.eqb_neq _ _) Hn). by destruct (is_set (seg_type s2)).
Qed.

Lemma sorted_set_unique (l1 l2 : list Z) :
  StronglySorted Z.lt l1 -> StronglySorted Z.lt l2 ->
  (list_to_set l1 : gset Z) = list_to_set l2 -> l1 = l2.
Proof.
  assert (Hnd : forall l : list Z, StronglySorted Z.lt l -> NoDup l).
  { induction 1 as [|x l Hs IH Hx]; constructor; [| done]. rewrite Forall_forall in Hx.
    intros Hin. specialize (Hx x Hin). lia. }
  intros H1 H2 E. assert (AntiSymm (=) Z.lt) by (intros x y; lia).
  apply (StronglySorted_unique Z.lt); [exact H1 | exact H2 |].
  apply NoDup_Permutation; [by apply Hnd | by apply Hnd |].
  intros x. rewrite <- (elem_of_list_to_set (C := gset Z) x l1), E. by rewrite elem_of_list_to_set.
Qed.

Lemma normal_unique s1 : forall s2,
  normal s1 -> normal s2 -> path_elems s1 = path_elems s2 -> s1 = s2.
Proof.
  assert (Hhd : forall seg rest, seg_normal seg -> path_elems (seg :: rest) <> []).
  { intros seg rest [Hne _]. unfold path_elems. cbn [map concat]. unfold seg_elems at 1.
    destruct (Z.eqb_spec (seg_type seg) AS_SEQUENCE) as [E|]; [| by destruct (is_set _)].
    specialize (Hne E). by destruct (seg_as seg). }
  induction s1 as [|[t1 a1] r1 IH]; intros [|[t2 a2] r2] [F1 S1] [F2 S2] E; [done | | |].
  { inversion F2; subst. by destruct (Hhd (mk_seg t2 a2) r2). }
  { inversion F1; subst. by destruct (Hhd (mk_seg t1 a1) r1). }
  inversion F1 as [|? ? [N1 O1] Fr1]; subst. inversion F2 as [|? ? [N2 O2] Fr2]; subst.
  assert (Hr1 : normal r1) by (split; [done |]; destruct r1; [done | apply S1]).
  assert (Hr2 : normal r2) by (split; [done |]; destruct r2; [done | apply S2]).
  unfold path_elems in E. cbn [map concat] in E. fold (path_elems r1) (path_elems r2) in E.
  unfold seg_elems in E. cbn [seg_type seg_as] in *.
  destruct (Z.eqb_spec t1 AS_SEQUENCE) as [->|H1], (Z.eqb_spec t2 AS_SEQUENCE) as [->|H2].
  - apply hops_unique in E as [-> E]; [| by apply (separated_next (mk_seg AS_SEQUENCE a1)) |
      by apply (separated_next (mk_seg AS_SEQUENCE a2))].
    f_equal. exact (IH _ Hr1 Hr2 E).
  - exfalso. specialize (N1 eq_refl). destruct a1; [done |]. destruct (is_set t2); done.
  - exfalso. specialize (N2 eq_refl). destruct a2; [done |]. destruct (is_set t1); done.
  - destruct (is_set t1) eqn:G1, (is_set t2) eqn:G2; cbn [app] in E; try done; injection E as -> E1 E2.
    + rewrite (sorted_set_unique a1 a2) by auto. f_equal. exact (IH _ Hr1 Hr2 E2).
    + subst. f_equal. exact (IH _ Hr1 Hr2 E2).
Qed.

(* ------------------------------------------------------------------ *)
(** ** Reading the text back *)

Lemma digits_from_ge ds : forall v,
  Forall (fun c => is_digit c = true) ds -> 0 <= v -> v <= digits_from v ds.
Proof.
  induction ds as [|c ds IH]; intros v Hd Hv; [done |].
  inversion Hd as [|? ? Hc Hd']; subst. pose proof (digit_range c Hc).
  change (digits_from v (c :: ds)) with (digits_from (v * 10 + (c - 48)) ds).
  specialize (IH (v * 10 + (c - 48)) Hd'). lia.
Qed.

Lemma read_asval_spec ds r : forall v,
  Forall (fun c => is_digit c = true) ds -> 0 <= v -> digits_from v ds < 2 ^ 32 ->
  no_digit_head r -> read_asval v (ds ++ r) = (digits_from v ds, r).
Proof.
  induction ds as [|c ds IH]; intros v Hd Hv Hlt Hr; cbn [app read_asval].
  - destruct r as [|x r]; [done |]. cbn in Hr |- *. by rewrite Hr.
  - inversion Hd as [|? ? Hc Hd']; subst. pose proof (digit_range c Hc). rewrite Hc.
    change (digits_from v (c :: ds)) with (digits_from (v * 10 + (c - 48)) ds) in *.
    pose proof (digits_from_ge ds (v * 10 + (c - 48)) Hd' ltac:(lia)).
    rewrite (u32_small (v * 10)), u32_small by lia. apply IH; (done || lia).
Qed.

Lemma digit_not_sep c : is_digit c = true -> is_space c || (c =? 44) = false.
Proof.
  intros H. rewrite digit_not_space by done. apply digit_range in H. cbn. lia.
Qed.

Lemma gettoken_asn n r :
  is_u32 n -> no_digit_head r -> aspath_gettoken (dec n ++ r) = Some (as_token_asval n, r).
Proof.
  intros Hn Hr. unfold in_u in Hn. destruct (dec_spec n ltac:(lia)) as (Hd & Hne & Hv).
  destruct (dec n) as [|c ds]; [done |]. inversion Hd as [|? ? Hc Hd']; subst.
  pose proof (digit_range c Hc). unfold aspath_gettoken. cbn [app skip_seps].
  rewrite (digit_not_sep c Hc).
  rewrite !(proj2 (Z.eqb_neq c _)) by lia. rewrite Hc.
  change (digits_from 0 (c :: ds)) with (digits_from (0 * 10 + (c - 48)) ds) in *.
  replace (0 * 10 + (c - 48)) with (c - 48) in * by lia.
  rewrite read_asval_spec by (done || lia). done.
Qed.

Lemma loop_sep f c s ty nt a :
  c = 32 \/ c = 44 -> str2aspath_loop f (c :: s) ty nt a = str2aspath_loop f s ty nt a.
Proof.
  intros Hc. destruct f as [|f]; [done |]. cbn [str2aspath_loop].
  assert (aspath_gettoken (c :: s) = aspath_gettoken s) as ->; [| done].
  unfold aspath_gettoken. cbn [skip_seps]. by destruct Hc as [-> | ->].
Qed.

Lemma add_to_last_app pre t l x :
  Z.of_nat (length l) + 1 < 65536 ->
  add_to_last x (pre ++ [mk_seg t l]) = pre ++ [mk_seg t (l ++ [x])].
Proof.
  intros H. induction pre as [|s pre IH]; cbn [app add_to_last].
  - f_equal. pose proof (append_asns_ok (mk_seg t l) (mk_seg t [x])) as E. cbn in E. apply E.
    unfold seg_length, strlen. cbn [seg_as length]. lia.
  - rewrite IH. destruct (pre ++ _) eqn:E; [by destruct pre | done].
Qed.

(** What follows a run of numbers. *)
Lemma loop_asns sep l : sep = 32 \/ sep = 44 -> forall f r ty pre t l0,
  Forall (in_u 32) l -> no_digit_head r -> Z.of_nat (length (l0 ++ l)) < 65536 ->
  (length (asns_text sep l ++ r) < f)%nat ->
  exists f', str2aspath_loop f (asns_text sep l ++ r) ty false (mk_aspath (pre ++ [mk_seg t l0]) 0 None) =
    str2aspath_loop f' r ty false (mk_aspath (pre ++ [mk_seg t (l0 ++ l)]) 0 None) /\
    (length r < f')%nat.
Proof.
  intros Hsep. induction l as [|x l IH]; intros f r ty pre t l0 Hl Hr Hlen Hf.
  { exists f. cbn [asns_text app] in *. rewrite app_nil_r. done. }
  inversion Hl as [|? ? Hx Hl']; subst.
  assert (Hlen' : Z.of_nat (length ((l0 ++ [x]) ++ l)) < 65536) by (by rewrite <- app_assoc).
  assert (Hl0 : Z.of_nat (length l0) + 1 < 65536).
  { rewrite length_app in Hlen. cbn [length] in Hlen. lia. }
  assert (Hstep : forall f r', no_digit_head r' -> (0 < f)%nat ->
    str2aspath_loop f (dec x ++ r') ty false (mk_aspath (pre ++ [mk_seg t l0]) 0 None) =
    str2aspath_loop (pred f) r' ty false (mk_aspath (pre ++ [mk_seg t (l0 ++ [x])]) 0 None)).
  { intros g r' Hr' Hg. destruct g as [|g]; [lia |]. cbn [str2aspath_loop pred].
    rewrite gettoken_asn by done. unfold aspath_as_add. cbn [segments last_as str].
    by rewrite add_to_last_app. }
  assert (Hd : (0 < length (dec x))%nat).
  { unfold in_u in Hx. destruct (dec_spec x ltac:(lia)) as (_ & Hne & _). destruct (dec x); cbn; [done | lia]. }
  replace (l0 ++ x :: l) with ((l0 ++ [x]) ++ l) by (by rewrite <- app_assoc).
  destruct l as [|y l].
  - rewrite app_nil_r. exists (pred f). change (asns_text sep [x]) with (dec x) in *. rewrite length_app in Hf.
    split; [apply Hstep; [done | lia] | lia].
  - change (asns_text sep (x :: y :: l)) with (dec x ++ [sep] ++ asns_text sep (y :: l)) in *.
    rewrite <- !app_assoc in Hf |- *. rewrite !length_app in Hf.
    cbn [length] in Hf. rewrite Hstep; [| by destruct Hsep as [-> | ->] | lia].
    cbn [app]. rewrite loop_sep by done.
    apply IH; [done | done | done |]. rewrite length_app. lia.
Qed.

Lemma known_group t :
  known t = true -> t <> AS_SEQUENCE -> t = AS_SET \/ t = AS_CONFED_SEQUENCE \/ t = AS_CONFED_SET.
Proof.
  unfold known. intros Hk Ht.
  destruct (Z.eqb_spec t AS_SET), (Z.eqb_spec t AS_SEQUENCE), (Z.eqb_spec t AS_CONFED_SEQUENCE),
    (Z.eqb_spec t AS_CONFED_SET); cbn in Hk; auto; done.
Qed.

(** A delimited segment, from its opening character to its closing one. *)
Lemma loop_group t l f r nt pre :
  known t = true -> t <> AS_SEQUENCE -> Forall (in_u 32) l -> Z.of_nat (length l) < 65536 ->
  (length (seg_text (mk_seg t l) ++ r) < f)%nat ->
  exists f', str2aspath_loop f (seg_text (mk_seg t l) ++ r) AS_SEQUENCE nt (mk_aspath pre 0 None) =
    str2aspath_loop f' r AS_SEQUENCE true (mk_aspath (pre ++ [mk_seg t l]) 0 None) /\
    (length r < f')%nat.
Proof.
  intros Hk Ht Hl Hlen Hf. unfold seg_text in *. cbn [seg_type seg_as] in *.
  rewrite (proj2 (Z.eqb_neq t AS_SEQUENCE) Ht) in Hf |- *. cbn [app] in *.
  rewrite <- app_assoc in Hf |- *. cbn [app] in *.
  destruct f as [|f]; [lia |]. cbn [length] in Hf. rewrite length_app in Hf. cbn [length] in Hf.
  set (stop := aspath_delimiter_char t AS_SEG_END).
  assert (Hsep : seg_sep t = 32 \/ seg_sep t = 44).
  { unfold seg_sep. destruct (_ || _); auto. }
  assert (Hstop : no_digit_head (stop :: r)).
  { unfold stop, aspath_delimiter_char. cbn. by repeat destruct (_ =? _). }
  assert (Hopen : exists ty, str2aspath_loop (S f) (aspath_delimiter_char t AS_SEG_START :: asns_text (seg_sep t) l ++ stop :: r)
      AS_SEQUENCE nt (mk_aspath pre 0 None) =
    str2aspath_loop f (asns_text (seg_sep t) l ++ stop :: r) ty false (mk_aspath (pre ++ [mk_seg t []]) 0 None)).
  { destruct (known_group t Hk Ht) as [-> | [-> | ->]].
    - exists AS_SET. done.
    - exists AS_CONFED_SEQUENCE. done.
    - exists AS_CONFED_SET. done. }
  destruct Hopen as (ty & Eo). rewrite Eo. clear Eo.
  destruct (loop_asns (seg_sep t) l Hsep f (stop :: r) ty pre t [] Hl Hstop Hlen) as (f1 & E1 & Hf1).
  { rewrite length_app. cbn [length]. lia. }
  rewrite E1. cbn [app] in *. cbn [length] in Hf1. destruct f1 as [|f1]; [lia |].
  exists f1. split; [| lia]. unfold stop. by destruct (known_group t Hk Ht) as [-> | [-> | ->]].
Qed.

(** A sequence, when a new segment is due. *)
Lemma loop_sequence x l f r pre :
  is_u32 x -> Forall (in_u 32) l -> Z.of_nat (length (x :: l)) < 65536 -> no_digit_head r ->
  (length (asns_text 32 (x :: l) ++ r) < f)%nat ->
  exists f', str2aspath_loop f (asns_text 32 (x :: l) ++ r) AS_SEQUENCE true (mk_aspath pre 0 None) =
    str2aspath_loop f' r AS_SEQUENCE false (mk_aspath (pre ++ [mk_seg AS_SEQUENCE (x :: l)]) 0 None) /\
    (length r < f')%nat.
Proof.
  intros Hx Hl Hlen Hr Hf.
  assert (E : str2aspath_loop f (asns_text 32 (x :: l) ++ r) AS_SEQUENCE true (mk_aspath pre 0 None) =
    str2aspath_loop f (asns_text 32 (x :: l) ++ r) AS_SEQUENCE false
      (mk_aspath (pre ++ [mk_seg AS_SEQUENCE []]) 0 None)).
  { destruct f as [|f]; [lia |]. cbn [str2aspath_loop].
    assert (exists r', aspath_gettoken (asns_text 32 (x :: l) ++ r) = Some (as_token_asval x, r'))
      as [r' ->]; [| done].
    cbn [asns_text]. destruct l as [|y l].
    - exists r. by apply gettoken_asn.
    - rewrite <- !app_assoc. eexists. by apply gettoken_asn. }
  rewrite E. change (x :: l) with ([] ++ x :: l) at 2.
  apply (loop_asns 32 (x :: l)); [by left | by constructor | done | done | done].
Qed.

Lemma loop_segs segs : forall f nt pre,
  Forall seg_ok segs -> all_known segs = true -> separated segs -> Forall seq_nonempty segs ->
  Forall (fun seg => seg_length seg < 65536) segs ->
  (nt = true \/ match segs with seg :: _ => seg_type seg <> AS_SEQUENCE | [] => True end) ->
  (length (aspath_text segs) < f)%nat ->
  str2aspath_loop f (aspath_text segs) AS_SEQUENCE nt (mk_aspath pre 0 None) =
    Ok (Some (mk_aspath (pre ++ segs) 0 None)).
Proof.
  induction segs as [|[t l] rest IH]; intros f nt pre Hok Hk Hsep Hne Hlen Hnt Hf.
  { destruct f as [|f]; [cbn in Hf; lia |]. by rewrite app_nil_r. }
  inversion Hok as [|? ? Hs Hr]; subst. inversion Hne as [|? ? Hn1 Hnr]; subst.
  inversion Hlen as [|? ? Hl1 Hlr]; subst. unfold seg_ok, seg_length, strlen, seq_nonempty in *.
  cbn [seg_as seg_type] in *. unfold all_known in Hk. cbn [forallb seg_type] in Hk.
  apply andb_prop in Hk as [Hk Hkr]. fold (all_known rest) in Hkr.
  set (r := match rest with [] => [] | _ => 32 :: aspath_text rest end).
  assert (Et : aspath_text (mk_seg t l :: rest) = seg_text (mk_seg t l) ++ r).
  { unfold r. cbn [aspath_text]. destruct rest; [by rewrite app_nil_r | done]. }
  rewrite Et in Hf |- *.
  assert (Hrest : forall f' nt', (length r < f')%nat ->
    (nt' = true \/ match rest with seg :: _ => seg_type seg <> AS_SEQUENCE | [] => True end) ->
    str2aspath_loop f' r AS_SEQUENCE nt' (mk_aspath (pre ++ [mk_seg t l]) 0 None) =
      Ok (Some (mk_aspath (pre ++ mk_seg t l :: rest) 0 None))).
  { intros f' nt' Hf' Hnt'. unfold r in *. destruct rest as [|s2 rest'].
    - destruct f' as [|f']; [cbn in Hf'; lia |]. done.
    - rewrite loop_sep by (by left). cbn [length] in Hf'. rewrite IH; try done; [| by destruct Hsep | lia].
      by rewrite <- app_assoc. }
  destruct (decide (t = AS_SEQUENCE)) as [->|Ht].
  - destruct Hnt as [->|]; [| done]. destruct l as [|x l]; [by destruct (Hn1 eq_refl) |].
    inversion Hs as [|? ? Hx Hl]; subst.
    change (seg_text (mk_seg AS_SEQUENCE (x :: l))) with (asns_text 32 (x :: l)) in *.
    destruct (loop_sequence x l f r pre Hx Hl Hl1) as (f' & E & Hf'); [by unfold r; destruct rest | done |].
    rewrite E. apply Hrest; [done |]. right. destruct rest as [|s2 rest']; [done |].
    intros E2. destruct Hsep as [Hp _]. by rewrite (proj2 (packable_spec _ _)) in Hp.
  - destruct (loop_group t l f r nt pre Hk Ht Hs Hl1 Hf) as (f' & E & Hf').
    rewrite E. apply Hrest; [done | by left].
Qed.

(* ------------------------------------------------------------------ *)
(** ** Parsing the attribute *)

(** The encoding of RFC 4271 (2-byte) and RFC 6793 (4-byte AS numbers). *)
Definition enc_asn (use32bit : bool) (x : Z) : list Z :=
  if use32bit then htonl x else [x / 256 mod 256; x mod 256].

Definition enc_seg (use32bit : bool) (seg : assegment) : list Z :=
  seg_type seg :: seg_length seg :: concat (map (enc_asn use32bit) (seg_as seg)).

Definition encode (use32bit : bool) (segs : list assegment) : list Z :=
  concat (map (enc_seg use32bit) segs).

Definition asn_width (use32bit : bool) : Z := if use32bit then 32 else 16.
Definition asn_size (use32bit : bool) : Z := if use32bit then 4 else 2.

(** A segment as it can be on the wire. *)
Definition wire_seg (use32bit : bool) (seg : assegment) : Prop :=
  is_u8 (seg_type seg) /\ 1 <= seg_length seg <= 255 /\
  Forall (in_u (asn_width use32bit)) (seg_as seg).

Lemma rd_Ok s i : 0 <= i < strlen s -> rd s i = Ok (byte_at s i).
Proof.
  intros H. unfold rd. by rewrite (proj2 (Z.leb_le _ _)), (proj2 (Z.ltb_lt _ _)) by lia.
Qed.

Lemma byte_app pre s i : 0 <= i -> byte_at (pre ++ s) (strlen pre + i) = byte_at s i.
Proof.
  intros H. unfold byte_at, strlen. rewrite lookup_app_r by lia. do 2 f_equal. lia.
Qed.

Lemma rd_app pre s i : 0 <= i < strlen s -> rd (pre ++ s) (strlen pre + i) = Ok (byte_at s i).
Proof.
  intros H. pose proof (strlen_nonneg pre). rewrite rd_Ok by (rewrite strlen_app; lia).
  by rewrite byte_app by lia.
Qed.

Lemma enc_asn_length u x : strlen (enc_asn u x) = asn_size u.
Proof. by destruct u. Qed.

Lemma enc_asns_length u l : strlen (concat (map (enc_asn u) l)) = asn_size u * strlen l.
Proof.
  induction l as [|x l IH]; cbn [map concat]; [destruct u; done |].
  rewrite strlen_app, strlen_cons, IH, enc_asn_length. lia.
Qed.

Lemma rd_app4 pre b0 b1 b2 b3 r :
  rd (pre ++ b0 :: b1 :: b2 :: b3 :: r) (strlen pre) = Ok b0 /\
  rd (pre ++ b0 :: b1 :: b2 :: b3 :: r) (strlen pre + 1) = Ok b1 /\
  rd (pre ++ b0 :: b1 :: b2 :: b3 :: r) (strlen pre + 2) = Ok b2 /\
  rd (pre ++ b0 :: b1 :: b2 :: b3 :: r) (strlen pre + 3) = Ok b3.
Proof.
  pose proof (strlen_nonneg r).
  assert (Hl : strlen (b0 :: b1 :: b2 :: b3 :: r) = 4 + strlen r) by (rewrite !strlen_cons; lia).
  pose proof (rd_app pre _ 0 ltac:(rewrite Hl; lia)) as R0. rewrite Z.add_0_r in R0.
  rewrite R0, !rd_app by (rewrite Hl; lia). done.
Qed.

Lemma rd_app2 pre b0 b1 r :
  rd (pre ++ b0 :: b1 :: r) (strlen pre) = Ok b0 /\ rd (pre ++ b0 :: b1 :: r) (strlen pre + 1) = Ok b1.
Proof.
  pose proof (strlen_nonneg r).
  assert (Hl : strlen (b0 :: b1 :: r) = 2 + strlen r) by (rewrite !strlen_cons; lia).
  pose proof (rd_app pre _ 0 ltac:(rewrite Hl; lia)) as R0. rewrite Z.add_0_r in R0.
  rewrite R0, !rd_app by (rewrite Hl; lia). done.
Qed.

Lemma read_asns_enc u l : forall pre r,
  Forall (in_u (asn_width u)) l ->
  read_asns (length l) (pre ++ concat (map (enc_asn u) l) ++ r) (strlen pre) u = Ok l.
Proof.
  induction l as [|x l IH]; intros pre r Hl; cbn [length read_asns map concat]; [done |].
  inversion Hl as [|? ? Hx Hl']; subst. rewrite <- app_assoc. destruct u; cbn [asn_width] in *.
  - cbn [enc_asn]. unfold htonl at 1 2 3 4 5. cbn [app].
    edestruct (rd_app4 pre) as (E0 & E1 & E2 & E3). rewrite E0, E1, E2, E3. cbn [mbind res_bind].
    set (b := htonl x).
    specialize (IH (pre ++ htonl x) r Hl'). rewrite strlen_app in IH. change (strlen (htonl x)) with 4 in IH.
    rewrite <- app_assoc in IH. unfold htonl in IH at 1. cbn [app] in IH. cbn [enc_asn] in IH.
    rewrite IH. cbn [mbind res_bind]. do 2 f_equal. exact (ntohl_htonl x Hx).
  - cbn [enc_asn app]. edestruct (rd_app2 pre) as (E0 & E1). rewrite E0, E1. cbn [mbind res_bind].
    specialize (IH (pre ++ [x / 256 mod 256; x mod 256]) r Hl'). rewrite strlen_app in IH.
    change (strlen [x / 256 mod 256; x mod 256]) with 2 in IH. rewrite <- app_assoc in IH. cbn [app] in IH.
    cbn [enc_asn] in IH. rewrite IH. cbn [mbind res_bind]. do 2 f_equal.
    unfold be16, in_u in *. change (2 ^ 16) with 65536 in Hx. Z.div_mod_to_equations. lia.
Qed.

Lemma enc_seg_length u seg : strlen (enc_seg u seg) = ASSEGMENT_SIZE (seg_length seg) u.
Proof.
  unfold enc_seg. rewrite !strlen_cons, enc_asns_length.
  unfold ASSEGMENT_SIZE, ASSEGMENT_DATA_SIZE, AS_HEADER_SIZE, AS_VALUE_SIZE, AS16_VALUE_SIZE, asn_size, seg_length.
  destruct u; lia.
Qed.

(** A path from a BMP peer announced with 2-octet AS numbers, in front of
    none of whose segments the rest of the attribute is as long as a single
    segment of that many 4-octet numbers would be: there the parser's guess of
    the width leaves 2 octets. *)
Fixpoint unambiguous (u : bool) (segs : list assegment) : bool :=
  match segs with
  | [] => true
  | seg :: r =>
      negb ((strlen (encode u segs) - 2) / seg_length seg =? AS_VALUE_SIZE) && unambiguous u r
  end.

(** The width is not guessed, is guessed 4 where it is 4, or the guess stays 2. *)
Definition width_told (bmp use32bit : bool) (segs : list assegment) : bool :=
  negb bmp || use32bit || unambiguous use32bit segs.

Lemma width_told_head bmp u seg r :
  width_told bmp u (seg :: r) = true ->
  (if bmp && ((2 <? strlen (encode u (seg :: r))) && (negb (seg_length seg =? 0) &&
      ((strlen (encode u (seg :: r)) - 2) / seg_length seg =? AS_VALUE_SIZE)))
   then true else u) = u.
Proof.
  unfold width_told. destruct bmp, u; try done; [by destruct (_ && _) |].
  cbn [unambiguous negb orb]. intros [->%negb_true_iff _]%andb_prop. by rewrite !andb_false_r.
Qed.

Lemma width_told_tail bmp u seg r :
  width_told bmp u (seg :: r) = true -> width_told bmp u r = true.
Proof.
  unfold width_told. destruct bmp, u; try done. cbn [unambiguous negb orb]. by intros [_ H]%andb_prop.
Qed.

Lemma parse_loop_encode bmp u segs : forall fuel pre acc,
  width_told bmp u segs = true -> Forall (wire_seg u) segs -> strlen (pre ++ encode u segs) < 2 ^ 63 ->
  (length (encode u segs) < fuel)%nat ->
  parse_loop fuel bmp (pre ++ encode u segs) (strlen (pre ++ encode u segs)) (strlen pre) (strlen pre)
    (strlen (encode u segs)) u acc = Ok (Some (acc ++ segs)).
Proof.
  induction segs as [|seg segs IH]; intros fuel pre acc Ht Hw Hbig Hf.
  { destruct fuel as [|fuel]; [lia |]. by rewrite (app_nil_r acc). }
  inversion Hw as [|? ? (H8 & Hl & Hasn) Hw']; subst.
  assert (Henc : encode u (seg :: segs) = enc_seg u seg ++ encode u segs) by done.
  rewrite Henc in *. pose proof (enc_seg_length u seg) as Hel.
  assert (Hes : 4 <= strlen (enc_seg u seg)).
  { rewrite Hel. unfold ASSEGMENT_SIZE, ASSEGMENT_DATA_SIZE, AS_HEADER_SIZE, AS_VALUE_SIZE, AS16_VALUE_SIZE.
    destruct u; lia. }
  destruct fuel as [|fuel]; [lia |]. cbn [parse_loop].
  rewrite !strlen_app in *. pose proof (strlen_nonneg (encode u segs)) as Hes2.
  pose proof (strlen_nonneg pre).
  rewrite (proj2 (Z.ltb_lt 0 _)) by lia. cbn [negb].
  assert (E0 : rd (pre ++ enc_seg u seg ++ encode u segs) (strlen pre) = Ok (seg_type seg))
    by exact (proj1 (rd_app2 pre _ _ _)).
  assert (E1 : rd (pre ++ enc_seg u seg ++ encode u segs) (strlen pre + 1) = Ok (seg_length seg))
    by exact (proj2 (rd_app2 pre _ _ _)).
  rewrite E0, E1. cbn [mbind res_bind].
  rewrite <- !andb_assoc. pose proof (width_told_head _ _ _ _ Ht) as Hg.
  rewrite Henc, strlen_app in Hg. rewrite Hg.
  rewrite <- Hel.
  rewrite (proj2 (Z.ltb_ge _ _)) by lia. rewrite (proj2 (Z.eqb_neq (seg_length seg) 0)) by lia. cbn [orb].
  assert (Er : read_asns (Z.to_nat (seg_length seg)) (pre ++ enc_seg u seg ++ encode u segs)
    (strlen pre + 2) u = Ok (seg_as seg)).
  { pose proof (read_asns_enc u (seg_as seg) (pre ++ [seg_type seg; seg_length seg]) (encode u segs) Hasn) as R.
    rewrite strlen_app, <- app_assoc in R. unfold seg_length at 1, strlen at 1. rewrite Nat2Z.id. exact R. }
  rewrite Er. cbn [mbind res_bind].
  replace (strlen (enc_seg u seg) + strlen (encode u segs) - strlen (enc_seg u seg))
    with (strlen (encode u segs)) by lia.
  rewrite u64_small by lia.
  specialize (IH fuel (pre ++ enc_seg u seg) (acc ++ [mk_seg (seg_type seg) (seg_as seg)])
    (width_told_tail _ _ _ _ Ht) Hw').
  rewrite !strlen_app, <- !app_assoc in IH. rewrite Z.add_assoc, IH.
  - do 2 f_equal. cbn. by destruct seg.
  - lia.
  - rewrite length_app in Hf. unfold strlen in Hes. lia.
Qed.

(** Whatever the bytes, the parser stays inside them. *)
Definition parsed_seg (seg : assegment) : Prop :=
  is_u8 (seg_type seg) /\ 1 <= seg_length seg <= 255 /\ seg_ok seg.

Lemma read_asns_total n : forall s pos u,
  bytes_ok s -> 0 <= pos -> pos + asn_size u * Z.of_nat n <= strlen s ->
  exists l, read_asns n s pos u = Ok l /\ strlen l = Z.of_nat n /\ Forall (in_u 32) l.
Proof.
  induction n as [|n IH]; intros s pos u Hb Hpos Hlen; cbn [read_asns].
  { by exists []. }
  unfold asn_size in *. destruct u.
  - rewrite !rd_Ok by lia. cbn [mbind res_bind].
    destruct (IH s (pos + 4) true Hb) as (l & E & El & Hl); [lia | lia |]. rewrite E. cbn [mbind res_bind].
    eexists. split; [done |]. rewrite strlen_cons. split; [lia |].
    constructor; [| done]. apply be32_range; by apply byte_at_range.
  - rewrite !rd_Ok by lia. cbn [mbind res_bind].
    destruct (IH s (pos + 2) false Hb) as (l & E & El & Hl); [lia | lia |]. rewrite E. cbn [mbind res_bind].
    eexists. split; [done |]. rewrite strlen_cons. split; [lia |].
    constructor; [| done]. pose proof (be16_range (byte_at s pos) (byte_at s (pos + 1))
      (byte_at_range s _ Hb) (byte_at_range s _ Hb)). unfold in_u in *. lia.
Qed.

Lemma total_app a b : total (a ++ b) = total a + total b.
Proof. unfold total. induction a as [|x a IH]; cbn [app count_segs]; lia. Qed.

Lemma parse_loop_total bmp s length : forall fuel pos left u segs,
  bytes_ok s -> 0 <= length <= strlen s -> length < 2 ^ 63 -> 0 <= pos -> 0 <= left ->
  pos + left = length -> left mod 2 = 0 -> left < Z.of_nat fuel ->
  Forall parsed_seg segs -> 2 * total segs + 2 * Z.of_nat (List.length segs) <= pos ->
  exists r, parse_loop fuel bmp s length pos pos left u segs = Ok r /\
    match r with
    | Some segs' => Forall parsed_seg segs' /\
        2 * total segs' + 2 * Z.of_nat (List.length segs') <= length
    | None => True
    end.
Proof.
  induction fuel as [|fuel IH]; intros pos left u segs Hb Hlen Hbig Hpos Hleft Hsum Heven Hf Hsegs Htot; [lia |].
  cbn [parse_loop]. destruct (Z.ltb_spec 0 left) as [Hpl|Hpl]; cbn [negb].
  2: { exists (Some segs). split; [done |]. split; [done | lia]. }
  assert (2 <= left) by (Z.div_mod_to_equations; lia).
  rewrite !rd_Ok by lia. cbn [mbind res_bind].
  set (u' := if _ : bool then true else u). set (len := byte_at s (pos + 1)).
  pose proof (byte_at_range s (pos + 1) Hb) as Hlen8. fold len in Hlen8. unfold in_u in Hlen8.
  set (sz := ASSEGMENT_SIZE len u').
  assert (Hsz : sz = 2 + asn_size u' * len /\ sz mod 2 = 0).
  { unfold sz, ASSEGMENT_SIZE, ASSEGMENT_DATA_SIZE, AS_HEADER_SIZE, AS_VALUE_SIZE, AS16_VALUE_SIZE, asn_size.
    destruct u'; (split; [lia | Z.div_mod_to_equations; lia]). }
  destruct Hsz as [Hsz Hsz2].
  destruct (Z.ltb_spec length (pos + sz)) as [|Hfit]; cbn [orb]; [by exists None |].
  destruct (Z.eqb_spec len 0) as [|Hl0]; cbn [orb]; [by exists None |].
  destruct (read_asns_total (Z.to_nat len) s (pos + 2) u' Hb) as (l & E & El & Hl); [lia | |].
  { rewrite Z2Nat.id by lia. lia. }
  rewrite E. cbn [mbind res_bind].
  assert (asn_size u' = 2 \/ asn_size u' = 4) as Hu by (destruct u'; cbn; auto).
  rewrite u64_small by nia.
  apply IH; try done; try nia.
  - Z.div_mod_to_equations. lia.
  - apply Forall_app. split; [done |]. constructor; [| constructor].
    split; [apply byte_at_range; done |]. unfold seg_length. cbn. split; [lia | done].
  - rewrite total_app, length_app. unfold total at 2, seg_length. cbn [count_segs seg_as List.length]. nia.
Qed.

(* ------------------------------------------------------------------ *)
(** ** Reconciling with AS4_PATH *)

(** A segment of a path outside confederations. *)
Definition plain (seg : assegment) : Prop :=
  (seg_type seg = AS_SEQUENCE \/ seg_type seg = AS_SET) /\ seg_as seg <> [] /\ seg_ok seg.

Lemma plain_nonempty segs : Forall plain segs -> Forall seq_nonempty segs.
Proof. intros H. eapply Forall_impl; [exact H |]. by intros seg (_ & Hs & _) _. Qed.

Lemma plain_known segs : Forall plain segs -> all_known segs = true.
Proof.
  intros H. unfold all_known. apply forallb_forall. intros seg Hs%list_elem_of_In.
  rewrite Forall_forall in H. by destruct (H seg Hs) as ([-> | ->] & _).
Qed.

Lemma plain_hops segs :
  Forall plain segs -> total segs < 65536 ->
  count_segs (fun seg => if seg_type seg =? AS_SEQUENCE then seg_length seg
                         else if seg_type seg =? AS_SET then 1 else 0) segs
    = Z.of_nat (length (path_elems segs)) /\
  count_segs (fun seg => if seg_type seg =? AS_CONFED_SEQUENCE then seg_length seg
                         else if seg_type seg =? AS_CONFED_SET then 1 else 0) segs = 0 /\
  Z.of_nat (length (path_elems segs)) <= total segs.
Proof.
  intros H Ht. induction H as [|seg segs (Htype & Hne & _) H IH]; cbn [count_segs].
  { split_and!; done. }
  unfold total in Ht |- *. cbn [count_segs] in Ht |- *. fold (total segs) in Ht |- *.
  pose proof (strlen_nonneg (seg_as seg)). change (strlen (seg_as seg)) with (seg_length seg) in *.
  destruct IH as (E1 & E2 & E3); [lia |]. rewrite E1, E2.
  unfold path_elems. cbn [map concat]. fold (path_elems segs). rewrite length_app.
  assert (Hpos : 1 <= seg_length seg).
  { unfold seg_length, strlen. destruct (seg_as seg); [done | cbn; lia]. }
  unfold seg_elems. destruct Htype as [-> | ->]; cbn.
  - rewrite length_map. unfold seg_length, strlen in *. lia.
  - lia.
Qed.

Lemma append_to_new t l k :
  is_u8 t -> 0 <= k <= strlen l -> k < 65536 ->
  assegment_append_asns (assegment_new t 0) l k = mk_seg t (take (Z.to_nat k) l).
Proof.
  intros Ht Hk H. unfold assegment_append_asns, assegment_new, seg_length.
  cbn [seg_type seg_as]. rewrite (wrap_small 8 t Ht : u8 t = t).
  change (Z.to_nat (u16 0)) with 0%nat. cbn [replicate app]. f_equal.
  change (strlen []) with 0. rewrite u16_small by lia. rewrite take_take. f_equal. lia.
Qed.

Lemma take_hops_plain segs : forall hops cp,
  Forall plain segs -> total segs < 65536 -> 0 < hops <= Z.of_nat (length (path_elems segs)) ->
  exists new, take_hops segs hops cp = Ok new /\ new <> [] /\ Forall plain new /\
    path_elems new = take (Z.to_nat hops) (path_elems segs) /\
    total new <= total segs /\ (length new <= length segs)%nat.
Proof.
  induction segs as [|seg segs IH]; intros hops cp Hp Ht Hh; [cbn in Hh; lia |].
  inversion Hp as [|? ? Hseg Hp']; subst. pose proof Hseg as (Htype & Hne & Hok).
  unfold total in Ht. cbn [count_segs] in Ht. fold (total segs) in Ht. pose proof (total_nonneg segs).
  cbn [take_hops]. rewrite (proj2 (Z.ltb_lt 0 hops)) by lia. cbn [negb].
  assert (Hpos : 1 <= seg_length seg).
  { unfold seg_length, strlen. destruct (seg_as seg); [done | cbn; lia]. }
  unfold path_elems in Hh |- *. cbn [map concat] in Hh |- *. fold (path_elems segs) in Hh |- *.
  rewrite length_app in Hh.
  assert (Hcont : forall k hops' cp' seg', plain seg' -> total [seg'] <= seg_length seg ->
    seg_elems seg' = take (Z.to_nat hops) (seg_elems seg) ->
    hops' = hops - Z.of_nat (length (seg_elems seg)) -> k = cp' ->
    exists new, (r ← take_hops segs hops' cp'; Ok (seg' :: r)) = Ok new /\ new <> [] /\ Forall plain new /\
      path_elems new = take (Z.to_nat hops) (seg_elems seg ++ path_elems segs) /\
      total new <= total (seg :: segs) /\ (length new <= length (seg :: segs))%nat).
  { intros k hops' cp' seg' Hps Hts Hes -> _.
    unfold total in Hts |- *. cbn [count_segs] in Hts |- *. fold (total segs).
    assert (Hstop : hops <= Z.of_nat (length (seg_elems seg)) ->
      take_hops segs (hops - Z.of_nat (length (seg_elems seg))) cp' = Ok []).
    { intros Hle. destruct segs as [|s2 segs']; [done |]. cbn [take_hops].
      by rewrite (proj2 (Z.ltb_ge 0 _)) by lia. }
    destruct (Z.le_gt_cases hops (Z.of_nat (length (seg_elems seg)))) as [Hle|Hgt].
    - rewrite Hstop by done. cbn [mbind res_bind]. eexists. split; [done |]. split; [done |].
      split; [by constructor |]. split; [| cbn [count_segs length]; lia].
      unfold path_elems. cbn [map concat]. rewrite app_nil_r, Hes.
      rewrite take_app_le by lia. done.
    - destruct (IH (hops - Z.of_nat (length (seg_elems seg))) cp' Hp') as (new & E & Hn & Hpn & He & Htn & Hln);
        [lia | lia |].
      rewrite E. cbn [mbind res_bind]. eexists. split; [done |]. split; [done |].
      split; [by constructor |]. split; [| cbn [count_segs length]; fold (total new); lia].
      unfold path_elems. cbn [map concat]. fold (path_elems new). rewrite He, Hes.
      rewrite take_app_ge, take_ge by lia. f_equal. f_equal. lia. }
  assert (Hfull : forall k, k = seg_length seg -> take (Z.to_nat k) (seg_as seg) = seg_as seg).
  { intros k ->. unfold seg_length, strlen. by rewrite Nat2Z.id, firstn_all. }
  destruct Htype as [Htype|Htype]; rewrite Htype; cbn [Z.eqb orb andb].
  - assert (Hel : length (seg_elems seg) = Z.to_nat (seg_length seg)).
    { unfold seg_elems, seg_length, strlen. rewrite Htype. cbn. rewrite length_map. lia. }
    change (AS_SEQUENCE =? AS_SET) with false. change (AS_SEQUENCE =? AS_CONFED_SET) with false.
    change (AS_SEQUENCE =? AS_CONFED_SEQUENCE) with false. change (AS_SEQUENCE =? AS_SEQUENCE) with true.
    cbn [orb andb]. rewrite (proj2 (Z.leb_le _ _)) by lia. cbn [c_assert mbind res_bind].
    rewrite append_to_new by (unfold in_u, seg_length in *; (done || lia)).
    apply (Hcont (Z.min (seg_length seg) hops)); [| | | lia | done].
    + split; [by left |]. split; cbn [seg_as].
      * destruct (seg_as seg); [done |]. by destruct (Z.to_nat (Z.min _ _)) eqn:E; [lia |].
      * by apply Forall_take.
    + unfold total, seg_length. cbn [count_segs seg_as]. unfold strlen. rewrite length_take. lia.
    + unfold seg_elems. cbn [seg_type seg_as]. rewrite Htype.
      change (AS_SEQUENCE =? AS_SEQUENCE) with true. cbn iota. rewrite firstn_map.
      destruct (Z.le_gt_cases (seg_length seg) hops).
      * rewrite Z.min_l by lia. rewrite Hfull by done. rewrite take_ge; [done |]. unfold seg_length, strlen in *. lia.
      * by rewrite Z.min_r by lia.
  - assert (Hel : length (seg_elems seg) = 1%nat) by (unfold seg_elems; by rewrite Htype).
    change (AS_SET =? AS_SET) with true. cbn [orb]. rewrite (proj2 (Z.leb_le _ _)) by lia.
    cbn [c_assert mbind res_bind].
    rewrite append_to_new by (unfold in_u, seg_length in *; (done || lia)). rewrite Hfull by done.
    assert (Hsame : mk_seg AS_SET (seg_as seg) = seg) by (rewrite <- Htype; by destruct seg).
    rewrite Hsame. apply (Hcont (seg_length seg)); [done | | | lia | done].
    + unfold total. cbn [count_segs]. lia.
    + rewrite take_ge; [done | lia].
Qed.

Lemma normalise_from_bounds rest : forall pin,
  seg_ok pin -> Forall seg_ok rest -> seg_length pin + total rest < 65536 ->
  Forall seg_ok (normalise_from pin rest) /\
  total (normalise_from pin rest) <= seg_length pin + total rest /\
  (length (normalise_from pin rest) <= S (length rest))%nat.
Proof.
  induction rest as [|next rest IH]; intros pin Hpin Hr Hlen; cbn [normalise_from].
  { split; [by constructor |]. unfold total. cbn. lia. }
  inversion Hr as [|? ? Hn Hr']; subst.
  unfold total in Hlen |- *. cbn [count_segs] in Hlen |- *. fold (total rest) in Hlen |- *.
  pose proof (total_nonneg rest). assert (0 <= seg_length pin) by apply strlen_nonneg.
  assert (0 <= seg_length next) by apply strlen_nonneg.
  destruct (ASSEGMENT_TYPES_PACKABLE pin next).
  - rewrite append_asns_ok by lia. destruct (IH (mk_seg (seg_type pin) (seg_as pin ++ seg_as next))) as (G1 & G2 & G3).
    + unfold seg_ok. cbn. by apply Forall_app.
    + done.
    + unfold seg_length in *. cbn. rewrite strlen_app. lia.
    + fold (total (normalise_from (mk_seg (seg_type pin) (seg_as pin ++ seg_as next)) rest)).
      unfold seg_length in *. cbn [seg_as] in G2. rewrite strlen_app in G2. cbn [length]. split_and!; [done | lia | lia].
  - pose proof (sort_set_length next). destruct (IH (sort_set next)) as (G1 & G2 & G3).
    + unfold seg_ok in *. apply Forall_forall. intros x Hx. rewrite Forall_forall in Hn. apply Hn.
      by apply sort_set_spec.
    + done.
    + lia.
    + cbn [count_segs length]. fold (total (normalise_from (sort_set next) rest)).
      split; [by constructor | lia].
Qed.

Lemma normalise_path_ok segs :
  Forall seg_ok segs -> total segs < 65536 -> Z.of_nat (length segs) < 2 ^ 27 ->
  path_ok (assegment_normalise segs).
Proof.
  intros Hok Ht Hl. destruct segs as [|seg rest]; [by split; [constructor | |] |].
  inversion Hok as [|? ? Hs Hr]; subst. unfold total in Ht. cbn [count_segs] in Ht. fold (total rest) in Ht.
  pose proof (sort_set_length seg). cbn [assegment_normalise].
  destruct (normalise_from_bounds rest (sort_set seg)) as (G1 & G2 & G3); [| done | lia |].
  - unfold seg_ok in *. apply Forall_forall. intros x Hx. rewrite Forall_forall in Hs. apply Hs.
    by apply sort_set_spec.
  - cbn [length] in *. split; [done | lia | lia].
Qed.

Lemma str_update_Ok a :
  path_ok (segments a) ->
  exists last s, aspath_str_update a = Ok (mk_aspath (segments a) last (Some s)) /\
    (all_known (segments a) = true -> s = aspath_text (segments a)).
Proof.
  intros H. destruct (make_str_text a H) as (last & E & _). unfold aspath_str_update. rewrite E.
  cbn [mbind res_bind]. eexists _, _. split; [done |]. by intros ->.
Qed.

Lemma dup_Ok a :
  path_ok (segments a) ->
  exists last s, aspath_dup a = Ok (mk_aspath (segments a) last (Some s)) /\
    (all_known (segments a) = true -> s = aspath_text (segments a) /\ last = last_of (segments a) (last_as a)).
Proof.
  intros H. destruct (make_str_text a H) as (last & E & El). unfold aspath_dup. rewrite E.
  cbn [mbind res_bind]. eexists _, _.
  assert (assegment_dup_all (segments a) = segments a) as ->; [| split; [done |]; intros Ek; rewrite Ek; auto].
  unfold assegment_dup_all. rewrite <- (map_id (segments a)) at 2. apply map_ext. by intros [].
Qed.

(* ------------------------------------------------------------------ *)
(** ** Hash and comparison *)

Lemma asns_eqb_eq a : forall b, asns_eqb a b = true <-> a = b.
Proof.
  unfold asns_eqb, strlen. induction a as [|x a IH]; intros [|y b]; cbn [length combine forallb].
  - done.
  - split; [| done]. intros [E%Z.eqb_eq _]%andb_prop. lia || done.
  - split; [| done]. intros [E%Z.eqb_eq _]%andb_prop. lia || done.
  - specialize (IH b). rewrite !andb_true_iff in *. rewrite Z.eqb_eq in *. split.
    + intros (Hl & Hx & Hr). rewrite (proj1 IH); [f_equal; lia | split; [lia | done]].
    + intros [= -> ->]. destruct (proj2 IH eq_refl) as [_ Hf]. split; [lia |]. split; [lia | done].
Qed.

Lemma aspath_cmp_eq s1 : forall s2, aspath_cmp s1 s2 = true <-> s1 = s2.
Proof.
  induction s1 as [|[t1 a1] r1 IH]; intros [|[t2 a2] r2]; cbn [aspath_cmp]; try done.
  rewrite !andb_true_iff, Z.eqb_eq, asns_eqb_eq, IH. cbn. split.
  - by intros [[-> ->] ->].
  - by intros [= -> -> ->].
Qed.

Lemma jhash_range key initval : is_u32 (jhash key initval).
Proof.
  unfold jhash. destruct (jhash_loop _ _ _ _ _) as [[[a b] c] k].
  destruct (jhash_tail _ _ _ _ _) as [[a' b'] c']. unfold jhash_mix.
  apply in_u_lxor; [lia | apply u32_range |]. apply in_u_shiftr; [lia |].
  apply in_u_lxor; [lia | apply u32_range | apply u32_range].
Qed.

Definition value_ok (v : aspath_value) : Prop := path_ok (v_segments v).

Lemma value_key_text v :
  value_ok v -> value_key v =
    jhash (if all_known (v_segments v) then aspath_text (v_segments v) else []) 2334325.
Proof.
  intros H. destruct (make_str_text (value_aspath v) H) as (last & E & _).
  cbn [value_key aspath_internable]. unfold aspath_key_make, aspath_str_update. rewrite E. done.
Qed.

#[export] Instance aspath_laws : InternLaws aspath_value value_ok.
Proof.
  split.
  - intros v H. rewrite value_key_text by done. apply jhash_range.
  - intros v _. by apply aspath_cmp_eq.
  - intros v w _ _. cbn. rewrite !aspath_cmp_eq. done.
  - intros u v w _ _ _. cbn. rewrite !aspath_cmp_eq. congruence.
  - intros v w Hv Hw E. cbn in E. apply aspath_cmp_eq in E. rewrite !value_key_text by done. by rewrite E.
  - intros v H. destruct (make_str_text (value_aspath v) H) as (last & E & _).
    cbn [value_str aspath_internable]. unfold value_string. rewrite E. by eexists.
Qed.

(** The attribute is the first [length] octets of [s]. *)
Lemma assegments_parse_within (bmp use32bit : bool) (s : list Z) length :
  bytes_ok s -> 0 <= length <= strlen s -> length < 65536 ->
  exists r, assegments_parse bmp s length use32bit = Ok r /\
    match r with Some segs => path_ok segs | None => True end.
Proof.
  intros Hb Hs Hl. unfold assegments_parse, AS16_VALUE_SIZE.
  destruct (Z.eqb_spec length 0); [by exists None |].
  destruct (Z.eqb_spec (length mod 2) 0) as [He|]; cbn [negb]; [| by exists None].
  destruct (parse_loop_total bmp s length (S (Z.to_nat length)) 0 length use32bit [])
    as (r & E & Hr); try done; try lia.
  rewrite E. cbn [mbind res_bind]. eexists. split; [done |]. destruct r as [segs|]; [| done]. cbn.
  destruct Hr as [Hp Htot]. pose proof (total_nonneg segs). apply normalise_path_ok; [| lia | lia].
  eapply Forall_impl; [exact Hp |]. by intros seg (_ & _ & ?).
Qed.

(* ------------------------------------------------------------------ *)
(** ** Theorems *)

(** Printing a path never writes outside its buffer, its final assertion
    holds, and the string is exactly the text of the path: sequences separated
    by spaces, sets in braces and commas, confederations in parentheses and
    brackets; a path with a segment of unknown type prints as the empty
    string. *)
Theorem aspath_make_str_spec (a : aspath) :
  path_ok (segments a) ->
  exists last, aspath_make_str_count a =
    Ok (if all_known (segments a) then aspath_text (segments a) else [], last) /\
    (all_known (segments a) = true -> last = last_of (segments a) (last_as a)).
Proof. apply make_str_text. Qed.

(** C37. Normalisation keeps the meaning of a path (its hops, its sets as
    sets, its other segments) and is canonical: two paths have the same normal
    form exactly when they mean the same, which is what the hash table relies
    on. *)
Theorem assegment_normalise_canonical (s1 s2 : list assegment) :
  Forall seq_nonempty s1 -> total s1 < 65536 -> Forall seq_nonempty s2 -> total s2 < 65536 ->
  path_elems (assegment_normalise s1) = path_elems s1 /\
  (assegment_normalise s1 = assegment_normalise s2 <-> path_elems s1 = path_elems s2).
Proof.
  intros H1 L1 H2 L2. destruct (normalise_spec s1 H1 L1) as [E1 N1].
  destruct (normalise_spec s2 H2 L2) as [E2 N2]. split; [done |]. split.
  - intros E. by rewrite <- E1, <- E2, E.
  - intros E. apply normal_unique; [done | done |]. by rewrite E1, E2.
Qed.

(** C38. Parsing the wire encoding of a path with at least one segment, each of
    1 to 255 AS numbers that fit the width, gives the normal form of that path:
    with 4-byte AS numbers for every peer, with 2-byte ones for every peer but
    those met through BMP. For these the parser guesses the width before each
    segment from the length of what is left, and the result holds for the
    paths it cannot take for 4-byte ones: no segment of n AS numbers has
    [4 n + 2] to [5 n + 1] bytes from its first one to the end of the path
    (a path of one segment never has). *)
Theorem assegments_parse_encode (bmp use32bit : bool) (segs : list assegment) :
  width_told bmp use32bit segs = true -> Forall (wire_seg use32bit) segs -> segs <> [] ->
  strlen (encode use32bit segs) < 2 ^ 63 ->
  assegments_parse bmp (encode use32bit segs) (strlen (encode use32bit segs)) use32bit =
    Ok (Some (assegment_normalise segs)).
Proof.
  intros Ht Hw Hne Hbig. set (s := encode use32bit segs) in *.
  assert (Hlen : strlen s <> 0 /\ strlen s mod 2 = 0).
  { unfold s. split.
    - destruct segs as [|seg r]; [done |]. unfold encode. cbn [map concat]. unfold enc_seg at 1.
      rewrite strlen_app, !strlen_cons. pose proof (strlen_nonneg (concat (map (enc_seg use32bit) r))).
      pose proof (strlen_nonneg (concat (map (enc_asn use32bit) (seg_as seg)))). lia.
    - clear. induction segs as [|seg r IH]; [done |]. unfold encode in *. cbn [map concat].
      rewrite strlen_app, enc_seg_length. unfold ASSEGMENT_SIZE, ASSEGMENT_DATA_SIZE, AS_HEADER_SIZE, AS_VALUE_SIZE, AS16_VALUE_SIZE.
      destruct use32bit; Z.div_mod_to_equations; lia. }
  unfold assegments_parse, AS16_VALUE_SIZE. rewrite (proj2 (Z.eqb_neq _ _)) by tauto.
  rewrite (proj2 Hlen). cbn [Z.eqb negb].
  pose proof (parse_loop_encode bmp use32bit segs (S (Z.to_nat (strlen s))) [] [] Ht Hw) as E.
  cbn [app] in E. change (strlen []) with 0 in E. fold s in E. rewrite E; [done | done |].
  unfold strlen. lia.
Qed.

(** C4. Whatever bytes a peer sends, the parser ends without reading outside
    the attribute; what it returns has 32-bit AS numbers and can be printed,
    or it is NULL. *)
Theorem assegments_parse_safe (bmp use32bit : bool) (s : list Z) :
  bytes_ok s -> strlen s < 65536 ->
  exists r, assegments_parse bmp s (strlen s) use32bit = Ok r /\
    match r with Some segs => path_ok segs | None => True end.
Proof. intros Hb Hl. pose proof (strlen_nonneg s). apply assegments_parse_within; [done | lia | done]. Qed.

(** Reading the text of a path gives the path back, when it is in normal
    form (every path the parser returns is) and its segment types are known. *)
Theorem aspath_str2aspath_text (segs : list assegment) :
  path_ok segs -> all_known segs = true -> normal segs ->
  Forall (fun seg => seg_length seg < 65536) segs ->
  exists last, aspath_str2aspath (aspath_text segs) = Ok (Some (mk_aspath segs last None)).
Proof.
  intros Hok Hk [Hn Hsep] Hlen. unfold aspath_str2aspath, aspath_new.
  rewrite (loop_segs segs (S (length (aspath_text segs))) true []); try done.
  - cbn [app mbind res_bind]. destruct (make_str_text (mk_aspath segs 0 None) Hok) as (last & E & _).
    rewrite E. cbn [mbind res_bind segments str]. by exists last.
  - apply Hok.
  - eapply Forall_impl; [exact Hn |]. by intros seg [? _].
  - by left.
  - lia.
Qed.

(** Merging AS_PATH and AS4_PATH (RFC 6793): outside confederations the
    result is the leading hops of AS_PATH that AS4_PATH does not cover,
    followed by AS4_PATH; when AS4_PATH is the longer one, all of AS_PATH is
    kept in front of it.  No assertion fails and no NULL is followed. *)
Theorem aspath_reconcile_as4_spec (a as4 : aspath) :
  Forall plain (segments a) -> Forall plain (segments as4) ->
  total (segments a) + total (segments as4) < 65536 ->
  Z.of_nat (length (segments a)) + Z.of_nat (length (segments as4)) < 2 ^ 27 ->
  let n := length (path_elems (segments a)) in
  let n4 := length (path_elems (segments as4)) in
  let k := if (n4 <=? n)%nat then (n - n4)%nat else n in
  exists m s, aspath_reconcile_as4 (Some a) (Some as4) = Ok (Some m) /\ str m = Some s /\
    path_elems (segments m) = take k (path_elems (segments a)) ++ path_elems (segments as4).
Proof.
  intros Hp Hp4 Ht Hl n n4 k.
  pose proof (total_nonneg (segments a)). pose proof (total_nonneg (segments as4)).
  destruct (plain_hops _ Hp) as (E1 & E2 & Hn); [lia |].
  destruct (plain_hops _ Hp4) as (F1 & _ & Hn4); [lia |]. fold n in E1, Hn. fold n4 in F1, Hn4.
  assert (Hok4 : path_ok (segments as4)).
  { split; [| lia | lia]. eapply Forall_impl; [exact Hp4 |]. by intros seg (_ & _ & ?). }
  destruct (dup_Ok as4 Hok4) as (l4 & s4 & Ed & _).
  unfold aspath_reconcile_as4. cbn [deref mbind res_bind].
  unfold aspath_count_hops, aspath_count_confeds. rewrite E1, E2, F1.
  rewrite (u32_small 0), (u32_small (Z.of_nat n)), (u32_small (Z.of_nat n4)), Z.add_0_r,
    (u32_small (Z.of_nat n)) by lia.
  assert (Hhops : (let hops := s32 (u32 (Z.of_nat n - Z.of_nat n4)) in
    if hops <? 0 then s32 (Z.of_nat n) else hops) = Z.of_nat k).
  { cbv zeta. unfold k. assert (s32 (u32 (Z.of_nat n - Z.of_nat n4)) = Z.of_nat n - Z.of_nat n4) as ->.
    { unfold s32, u32, wrap. rewrite Z.add_mod_idemp_l by lia. rewrite Z.mod_small; lia. }
    destruct (Nat.leb_spec n4 n), (Z.ltb_spec (Z.of_nat n - Z.of_nat n4) 0); try lia.
    unfold s32, wrap. rewrite Z.mod_small; lia. }
  cbv zeta in Hhops. rewrite Hhops, Ed. cbn [mbind res_bind].
  destruct (Z.eqb_spec (Z.of_nat k) 0) as [Ek|Ek].
  { eexists _, s4. split; [done |]. split; [done |]. replace k with 0%nat by lia. done. }
  destruct (take_hops_plain (segments a) (Z.of_nat k) 0 Hp) as (new & E & Hne & Hpn & He & Htn & Hln);
    [lia | unfold k; destruct (n4 <=? n)%nat; lia |].
  rewrite E. cbn [mbind res_bind]. destruct new as [|s1 new]; [done |].
  cbn [aspath_merge segments assegment_dup_all map].
  match goal with |- context[aspath_str_update ?x] => set (merged := x) end.
  assert (Hseg : segments merged = (s1 :: new) ++ segments as4).
  { unfold merged. cbn [segments]. f_equal. change (map assegment_dup (s1 :: new) = s1 :: new).
    rewrite <- (map_id (s1 :: new)) at 2. apply map_ext. by intros []. }
  assert (Hall : Forall plain (segments merged)) by (rewrite Hseg; by apply Forall_app).
  assert (Hsok : Forall seg_ok (segments merged)).
  { eapply Forall_impl; [exact Hall |]. by intros seg (_ & _ & ?). }
  assert (Htm : total (segments merged) < 65536) by (rewrite Hseg, total_app; lia).
  assert (Hlm : Z.of_nat (length (segments merged)) < 2 ^ 27) by (rewrite Hseg, length_app; lia).
  destruct (str_update_Ok merged) as (l5 & s5 & Es & _); [by split; [| lia |] |].
  rewrite Es. cbn [mbind res_bind deref segments last_as str].
  destruct (normalise_spec (segments merged) (plain_nonempty _ Hall) Htm) as [Hne2 _].
  destruct (str_update_Ok (mk_aspath (assegment_normalise (segments merged)) l5 (Some s5))) as (l6 & s6 & E6 & _).
  { by apply normalise_path_ok. }
  rewrite E6. cbn [mbind res_bind]. eexists _, s6. split; [done |]. split; [done |].
  cbn [segments]. rewrite Hne2, Hseg. unfold path_elems at 1. rewrite map_app, concat_app.
  fold (path_elems (s1 :: new)) (path_elems (segments as4)). by rewrite He, Nat2Z.id.
Qed.

(** The assertion of [aspath_reconcile_as4] fails on paths that can be
    received: a segment of a type the code does not know, shorter than the
    sequence before it, inherits that sequence's [cpasns]. *)
Theorem aspath_reconcile_as4_unknown_type :
  let segs := [mk_seg AS_SEQUENCE [1; 2; 3]; mk_seg 9 [4]; mk_seg AS_SEQUENCE [5; 6]] in
  assegments_parse false (encode false segs) (strlen (encode false segs)) false = Ok (Some segs) /\
  aspath_reconcile_as4 (Some (mk_aspath segs 0 None))
    (Some (mk_aspath [mk_seg AS_SEQUENCE [70000]] 0 None)) = Err AssertFail.
Proof. split; vm_compute; reflexivity. Qed.

(** ** The theorems at concrete paths *)

Definition ex_path : list assegment :=
  [mk_seg AS_SEQUENCE [65001; 3356]; mk_seg AS_SET [20; 10; 20]; mk_seg AS_SEQUENCE [64512]].

Lemma ex_path_ok : path_ok ex_path.
Proof. unfold ex_path. split; [| done | done]. unfold seg_ok, in_u. repeat constructor; lia. Qed.

Lemma aspath_make_str_spec_witness :
  exists last, aspath_make_str_count (mk_aspath ex_path 0 None) =
    Ok (cstr "65001 3356 {20,10,20} 64512", last).
Proof.
  destruct (aspath_make_str_spec (mk_aspath ex_path 0 None) ex_path_ok) as (last & E & _).
  exists last. exact E.
Defined.

Lemma assegment_normalise_canonical_witness :
  assegment_normalise ex_path =
    assegment_normalise [mk_seg AS_SEQUENCE [65001]; mk_seg AS_SEQUENCE [3356];
                         mk_seg AS_SET [10; 20]; mk_seg AS_SEQUENCE [64512]].
Proof.
  refine (proj2 (proj2 (assegment_normalise_canonical _ _ _ _ _ _)) _).
  - unfold ex_path, seq_nonempty. repeat constructor; done.
  - done.
  - unfold seq_nonempty. repeat constructor; done.
  - done.
  - vm_compute. reflexivity.
Defined.

Lemma assegments_parse_encode_witness :
  assegments_parse false (encode true ex_path) (strlen (encode true ex_path)) true =
    Ok (Some (assegment_normalise ex_path)) /\
  assegments_parse true (encode false ex_path) (strlen (encode false ex_path)) false =
    Ok (Some (assegment_normalise ex_path)).
Proof.
  split; apply assegments_parse_encode; try done.
  all: unfold ex_path; forall_list; (split; [done |]; split; [done |]); cbn [seg_as]; forall_list; done.
Defined.

(** A path the guess gets wrong: a sequence of two 2-byte AS numbers and a set
    of one, from a BMP peer, is read as one sequence of two other numbers. *)
Example bmp_path_misread :
  width_told true false [mk_seg AS_SEQUENCE [65001; 3356]; mk_seg AS_SET [10]] = false /\
  assegments_parse true (encode false [mk_seg AS_SEQUENCE [65001; 3356]; mk_seg AS_SET [10]]) 10 false =
    Ok (Some [mk_seg AS_SEQUENCE [65001 * 65536 + 3356; 257 * 65536 + 10]]).
Proof. split; vm_compute; reflexivity. Qed.

Lemma assegments_parse_safe_witness :
  exists r, assegments_parse false [2; 3; 0; 1; 0] (strlen [2; 3; 0; 1; 0]) false = Ok r.
Proof.
  destruct (assegments_parse_safe false false [2; 3; 0; 1; 0]) as (r & E & _).
  - unfold bytes_ok, in_u. repeat constructor; lia.
  - done.
  - exists r. exact E.
Defined.

Lemma aspath_str2aspath_text_witness :
  exists last, aspath_str2aspath (aspath_text (assegment_normalise ex_path)) =
    Ok (Some (mk_aspath (assegment_normalise ex_path) last None)).
Proof.
  apply aspath_str2aspath_text.
  - vm_compute. split; [| done | done]. repeat constructor; done.
  - done.
  - vm_compute. split; [| done]. repeat constructor; done.
  - vm_compute. repeat constructor; done.
Defined.

Lemma aspath_reconcile_as4_spec_witness :
  exists m s, aspath_reconcile_as4
      (Some (mk_aspath [mk_seg AS_SEQUENCE [23456; 23456; 3356]] 0 None))
      (Some (mk_aspath [mk_seg AS_SEQUENCE [70000; 3356]] 0 None)) = Ok (Some m) /\
    str m = Some s /\ path_elems (segments m) = [Hop 23456; Hop 70000; Hop 3356].
Proof.
  apply (aspath_reconcile_as4_spec
    (mk_aspath [mk_seg AS_SEQUENCE [23456; 23456; 3356]] 0 None)
    (mk_aspath [mk_seg AS_SEQUENCE [70000; 3356]] 0 None)).
  - cbn [segments]. forall_list. split; [by left |]. split; [done |].
    unfold seg_ok. cbn [seg_as]. forall_list; done.
  - cbn [segments]. forall_list. split; [by left |]. split; [done |].
    unfold seg_ok. cbn [seg_as]. forall_list; done.
  - done.
  - done.
Defined.

(** ** Interning paths *)

Definition ex_obj : obj aspath_value := mk_obj (mk_value ex_path 64512) 0 None.
Definition ex_store : objs aspath_value := <[1%positive := ex_obj]> (<[2%positive := ex_obj]> ∅).
Definition ex_hash : hash loc := hash_create 5.
Definition ex_intern_dbs : misc_dbs := fun _ => mk_misc false 1 1 0.
Definition ex_intern_peer : bgp_peer := mk_peer FUNC_TYPE_BGP 65000.

Lemma ex_store_cases l o : ex_store !! l = Some o -> o = ex_obj.
Proof.
  unfold ex_store. destruct (decide (l = 1%positive)) as [->|]; [rewrite lookup_insert_eq; congruence |].
  rewrite lookup_insert_ne by done.
  destruct (decide (l = 2%positive)) as [->|]; [rewrite lookup_insert_eq; congruence |].
  by rewrite lookup_insert_ne, lookup_empty by done.
Qed.

Lemma ex_store_inv : intern_inv value_ok ex_store ex_hash.
Proof.
  apply intern_inv_empty; [done |]. intros l o H. rewrite (ex_store_cases l o H).
  split; [exact ex_path_ok | done].
Qed.

Lemma ex_store_max (k : Z) : 0 < k -> forall l o, ex_store !! l = Some o -> refcnt o < k.
Proof. intros Hk l o H. rewrite (ex_store_cases l o H). exact Hk. Qed.

Lemma intern_spec_witness :
  exists st' h' f, intern ex_intern_dbs (Some ex_intern_peer) ex_store ex_hash 1%positive =
    Ok (st', h', Some f) /\ intern_inv value_ok st' h'.
Proof.
  destruct (intern_spec value_ok ex_intern_dbs ex_intern_peer ex_store ex_hash 1%positive ex_obj
    eq_refl ex_store_inv eq_refl eq_refl) as (st' & h' & f & fo & fo' & E & Hinv & _).
  - apply ex_store_max. done.
  - exists st', h', f. exact (conj E Hinv).
Defined.

Lemma intern_canonical_witness :
  exists st1 h1 st2 h2 f,
    intern ex_intern_dbs (Some ex_intern_peer) ex_store ex_hash 1%positive = Ok (st1, h1, Some f) /\
    intern ex_intern_dbs (Some ex_intern_peer) st1 h1 2%positive = Ok (st2, h2, Some f).
Proof.
  apply (intern_canonical value_ok ex_intern_dbs ex_intern_peer ex_store ex_hash 1%positive 2%positive
    ex_obj ex_obj eq_refl ex_store_inv); try done.
  apply ex_store_max. done.
Defined.

Lemma unintern_spec_witness :
  exists st h f st' h', intern_inv value_ok st h /\
    unintern (Some ex_intern_peer) st h f = Ok (st', h') /\ intern_inv value_ok st' h'.
Proof.
  destruct (intern_cases value_ok ex_intern_dbs ex_intern_peer eq_refl ex_store ex_hash 1%positive ex_obj
    ex_store_inv eq_refl eq_refl) as (st & h & f & fo & fo' & E & Hinv & H1 & H2 & Ht & _).
  { apply ex_store_max. done. }
  destruct (unintern_spec value_ok ex_intern_peer st h f fo' eq_refl Hinv H2) as (st' & h' & E' & Hinv' & _).
  - destruct (taken_val fo fo' Ht) as [_ ->]. pose proof (proj2 (ii_ok value_ok _ _ ex_store_inv f fo H1)). lia.
  - exists st, h, f, st', h'. exact (conj Hinv (conj E' Hinv')).
Defined.

Lemma intern_unintern_witness :
  exists st1 h1 f st2 h2,
    intern ex_intern_dbs (Some ex_intern_peer) ex_store ex_hash 1%positive = Ok (st1, h1, Some f) /\
    unintern (Some ex_intern_peer) st1 h1 f = Ok (st2, h2) /\ elems h2 ≡ₚ elems ex_hash.
Proof.
  destruct (intern_unintern value_ok ex_intern_dbs ex_intern_peer ex_store ex_hash 1%positive ex_obj
    eq_refl ex_store_inv eq_refl eq_refl) as (st1 & h1 & f & st2 & h2 & E1 & E2 & _ & Hp & _).
  - apply ex_store_max. done.
  - exists st1, h1, f, st2, h2. exact (conj E1 (conj E2 Hp)).
Defined.

End AspathFacts.
