(* ===== verification/Communities.v ===== *)
(** * src/bgp/bgp_community.c, bgp_ecommunity.c, bgp_lcommunity.c

    The three attributes are a count and an array of fixed-size values (4, 8
    and 12 bytes, in network order); the array is the list of its bytes, NULL
    being the empty one.  The extended and the large communities share their
    code but for the size, so that [Sized] models both.  [bgp_comms_num] is
    the configuration flag that asks for numbers instead of names. *)

From S2P Require Import Prelude CBuf Bgp BgpHash.

Module Communities.
Import CBuf Bgp BgpHash BgpIntern.

(** [struct community], [struct ecommunity], [struct lcommunity], but for the
    reference count and the string, which interning keeps. *)
Record comms := mk_comms {
  c_size : Z;
  c_val : list Z
}.

(** [if (!peer) ...; bms = bgp_select_misc_db (peer->type); if (!bms) ...] *)
Definition has_db (dbs : misc_dbs) (peer : option bgp_peer) : bool :=
  match peer with
  | Some p => match bgp_select_misc_db dbs (type p) with Some _ => true | None => false end
  | None => false
  end.

(** The [n] values of [w] bytes at the start of an array. *)
Fixpoint chunks (n : nat) (w : nat) (l : list Z) : list (list Z) :=
  match n with
  | O => []
  | S n' => take w l :: chunks n' w (drop w l)
  end.

(** [key += pnt[c]] over the first [n] bytes. *)
Definition sum_bytes (n : Z) (pnt : list Z) : Z :=
  fold_left (fun key b => u32 (key + b)) (take (Z.to_nat n) pnt) 0.

(** The common part of the comparison functions. *)
Definition same_vals (w : Z) (c1 c2 : comms) : bool :=
  (c_size c1 =? c_size c2) &&
  (memcmp (take (Z.to_nat (c_size c1 * w)) (c_val c1)) (take (Z.to_nat (c_size c1 * w)) (c_val c2)) =? 0).

(** Interning a new object: what the [*_parse] functions end with. *)
Definition intern_new {I : Internable comms} (dbs : misc_dbs) (peer : option bgp_peer)
    (st : objs comms) (h : hash loc) (c : comms) : res (objs comms * hash loc * option loc) :=
  let l := fresh (dom st) in
  intern dbs peer (<[l := mk_obj c 0 None]> st) h l.

(* ------------------------------------------------------------------ *)
(** ** Communities: 4 bytes *)

Section Community.
Context (dbs : misc_dbs) (peer : option bgp_peer) (bgp_comms_num : bool).

Definition COMMUNITY_INTERNET : Z := 0x0.
Definition COMMUNITY_NO_EXPORT : Z := 0xFFFFFF01.
Definition COMMUNITY_NO_ADVERTISE : Z := 0xFFFFFF02.
Definition COMMUNITY_LOCAL_AS : Z := 0xFFFFFF03.

Definition community_new : option comms := if has_db dbs peer then Some (mk_comms 0 []) else None.

Definition community_add_val (com : comms) (val : Z) : res comms :=
  if has_db dbs peer then
    let size := c_size com + 1 in
    let buf := realloc_buf (c_val com) (size * 4) in
    buf ← write_at buf ((size - 1) * 4) (htonl val);
    Ok (mk_comms size buf)
  else Ok com.

(** [sizeof (val)] is the size of a pointer. *)
Definition sizeof_ptr : Z := 8.

Fixpoint community_del_loop (fuel : nat) (com : comms) (val : list Z) (i : Z) : res comms :=
  match fuel with
  | O => Err OutOfFuel
  | S f =>
      if negb (i <? c_size com) then Ok com
      else
        v ← read_bytes (c_val com) (i * 4) 4;
        if memcmp v val =? 0 then
          let c := c_size com - i - 1 in
          buf ← (if 0 <? c then memmove (c_val com) (i * 4) ((i + 1) * 4) (c * sizeof_ptr)
                 else Ok (c_val com));
          let size := c_size com - 1 in
          Ok (mk_comms size (if 0 <? size then take (Z.to_nat (size * 4)) buf else []))
        else community_del_loop f com val (i + 1)
  end.

Definition community_del_val (com : comms) (val : list Z) : res comms :=
  match c_val com with
  | [] => Ok com
  | _ => community_del_loop (S (Z.to_nat (c_size com))) com val 0
  end.

Fixpoint community_delete_loop (n : nat) (com1 com2 : comms) (i : Z) : res comms :=
  match n with
  | O => Ok com1
  | S n' =>
      v ← read_bytes (c_val com2) (i * 4) 4;
      com1 ← community_del_val com1 v;
      community_delete_loop n' com1 com2 (i + 1)
  end.

Definition community_delete (com1 com2 : comms) : res comms :=
  community_delete_loop (Z.to_nat (c_size com2)) com1 com2 0.

Definition community_compare (a1 a2 : list Z) : Z :=
  let v1 := ntohl a1 in
  let v2 := ntohl a2 in
  if v1 <? v2 then -1 else if v2 <? v1 then 1 else 0.

Fixpoint include_loop (n : nat) (com : comms) (val : list Z) (i : Z) : res bool :=
  match n with
  | O => Ok false
  | S n' =>
      v ← read_bytes (c_val com) (i * 4) 4;
      if memcmp val v =? 0 then Ok true else include_loop n' com val (i + 1)
  end.

Definition community_include (com : comms) (val : Z) : res bool :=
  include_loop (Z.to_nat (c_size com)) com (htonl val) 0.

Definition community_val_get (com : comms) (i : Z) : res Z :=
  v ← read_bytes (c_val com) (i * 4) 4;
  Ok (ntohl v).

(** [qsort] with [community_compare]. *)
Definition compare_le (a b : list Z) : Prop := community_compare a b <= 0.
#[export] Instance compare_le_dec a b : Decision (compare_le a b).
Proof. unfold compare_le. apply _. Defined.

Fixpoint uniq_loop (n : nat) (com new : comms) (i : Z) : res comms :=
  match n with
  | O => Ok new
  | S n' =>
      val ← community_val_get com i;
      inc ← community_include new val;
      new ← (if inc : bool then Ok new else community_add_val new val);
      uniq_loop n' com new (i + 1)
  end.

Definition community_uniq_sort (com : option comms) : res (option comms) :=
  match com with
  | None => Ok None
  | Some com =>
      new ← deref community_new;
      new ← uniq_loop (Z.to_nat (c_size com)) com new 0;
      Ok (Some (mk_comms (c_size new)
        (concat (merge_sort compare_le (chunks (Z.to_nat (c_size new)) 4 (c_val new))))))
  end.

(** What one value prints as. *)
Definition community_name (comval : Z) : list Z :=
  if bgp_comms_num then dec (Z.land (Z.shiftr comval 16) 0xFFFF) ++ cstr ":" ++ dec (Z.land comval 0xFFFF)
  else if comval =? COMMUNITY_INTERNET then cstr "internet"
  else if comval =? COMMUNITY_NO_EXPORT then cstr "no-export"
  else if comval =? COMMUNITY_NO_ADVERTISE then cstr "no-advertise"
  else if comval =? COMMUNITY_LOCAL_AS then cstr "local-AS"
  else dec (Z.land (Z.shiftr comval 16) 0xFFFF) ++ cstr ":" ++ dec (Z.land comval 0xFFFF).

(** The room that is counted for one value. *)
Definition community_room (comval : Z) : Z :=
  if bgp_comms_num then strlen (cstr " 65536:65535")
  else if comval =? COMMUNITY_INTERNET then strlen (cstr " internet")
  else if comval =? COMMUNITY_NO_EXPORT then strlen (cstr " no-export")
  else if comval =? COMMUNITY_NO_ADVERTISE then strlen (cstr " no-advertise")
  else if comval =? COMMUNITY_LOCAL_AS then strlen (cstr " local-AS")
  else strlen (cstr " 65536:65535").

Fixpoint com2str_len (n : nat) (com : comms) (i len : Z) : res Z :=
  match n with
  | O => Ok len
  | S n' => comval ← community_val_get com i;
            com2str_len n' com (i + 1) (len + community_room comval)
  end.

(** [strcpy] and [sprintf] write the text and its NUL; [pnt] moves past the
    text. *)
Fixpoint com2str_fill (n : nat) (com : comms) (i : Z) (first : bool) (str : list Z) (pnt : Z)
    : res (list Z * Z) :=
  match n with
  | O => Ok (str, pnt)
  | S n' =>
      comval ← community_val_get com i;
      '(str, pnt) ← (if first then Ok (str, pnt)
                     else str ← store str pnt 32; Ok (str, pnt + 1));
      str ← sprintf str pnt (community_name comval);
      com2str_fill n' com (i + 1) false str (pnt + strlen (community_name comval))
  end.

Definition community_com2str (com : option comms) : res (option (list Z)) :=
  match com with
  | None => Ok None
  | Some com =>
      if negb (has_db dbs peer) then Ok None
      else if c_size com =? 0 then Ok (Some [])
      else
        len ← com2str_len (Z.to_nat (c_size com)) com 0 0;
        '(str, pnt) ← com2str_fill (Z.to_nat (c_size com)) com 0 true (malloc_buf len) 0;
        str ← store str pnt 0;
        s ← c_string str;
        Ok (Some s)
  end.

Definition community_hash_make (com : comms) : Z := sum_bytes (c_size com * 4) (c_val com).

Definition community_cmp (com1 com2 : option comms) : bool :=
  match com1, com2 with
  | None, None => true
  | Some c1, Some c2 => same_vals 4 c1 c2
  | _, _ => false
  end.

Definition community_init (buckets : Z) : hash loc := hash_create buckets.

Definition community_internable : Internable comms := {|
  value_key := community_hash_make;
  value_cmp c1 c2 := community_cmp (Some c1) (Some c2);
  value_str c := community_com2str (Some c)
|}.

Definition community_intern (st : objs comms) (h : hash loc) (l : loc) :=
  @intern comms community_internable dbs peer st h l.

Definition community_unintern (st : objs comms) (h : hash loc) (l : loc) :=
  @unintern comms community_internable peer st h l.

Definition community_parse (st : objs comms) (h : hash loc) (pnt : list Z) (length : Z)
    : res (objs comms * hash loc * option loc) :=
  if negb (length mod 4 =? 0) then Ok (st, h, None)
  else
    new ← community_uniq_sort (Some (mk_comms (length / 4) pnt));
    new ← deref new;
    @intern_new community_internable dbs peer st h new.

(** The loop of [community_str2com_simple]; [high] is set at the separator. *)
Fixpoint str2com_loop (p : list Z) (separator digit : bool) (low high : Z) : option (bool * Z * Z) :=
  match p with
  | c :: r =>
      if is_digit c then
        str2com_loop r separator true (u32 (u32 (low * 10) + (c - 48))) high
      else if c =? 58 then
        if separator then None
        else str2com_loop r true false 0 (u32 (Z.shiftl low 16))
      else Some (digit, low, high)
  | [] => Some (digit, low, high)
  end.

(** The value, or ERR. *)
Definition community_str2com_simple (buf : list Z) : option Z :=
  match skip_spaces buf with
  | [] => None
  | c :: r =>
      if is_digit c then
        match str2com_loop (c :: r) false false 0 0 with
        | None => None
        | Some (digit, low, high) => if digit then Some (u32 (high + low)) else None
        end
      else None
  end.

(** [community_dup], [ecommunity_dup] and [lcommunity_dup] copy the values;
    the reference count and the string of the copy are whatever [malloc]
    returned. *)
Definition dup_vals (w : Z) (com : comms) : res comms :=
  if c_size com =? 0 then Ok (mk_comms 0 [])
  else v ← read_bytes (c_val com) 0 (c_size com * w); Ok (mk_comms (c_size com) v).

Definition community_dup : comms -> res comms := dup_vals 4.

End Community.

(* ------------------------------------------------------------------ *)
(** ** Extended and large communities: sorted arrays of [w]-byte values *)

Section Sized.
Context (w : Z) (dbs : misc_dbs) (peer : option bgp_peer).

(** [for (p = ecom->val; c < ecom->size; p += SIZE, c++)]: [None] when the
    value is there already, else the position it goes to. *)
Fixpoint insert_pos (n : nat) (ecom : comms) (eval : list Z) (c : Z) : res (option Z) :=
  match n with
  | O => Ok (Some c)
  | S n' =>
      p ← read_bytes (c_val ecom) (c * w) w;
      let ret := memcmp p eval in
      if ret =? 0 then Ok None
      else if 0 <? ret then Ok (Some c)
      else insert_pos n' ecom eval (c + 1)
  end.

(** The return value (1: added, 0: there already) and the structure. *)
Definition sized_add_val (ecom : comms) (eval : list Z) : res (Z * comms) :=
  if has_db dbs peer then
    match c_val ecom with
    | [] =>
        let size := c_size ecom + 1 in
        buf ← write_at (malloc_buf (size * w)) 0 eval;
        Ok (1, mk_comms size buf)
    | _ =>
        pos ← insert_pos (Z.to_nat (c_size ecom)) ecom eval 0;
        match pos with
        | None => Ok (0, ecom)
        | Some c =>
            let size := c_size ecom + 1 in
            let buf := realloc_buf (c_val ecom) (size * w) in
            buf ← memmove buf ((c + 1) * w) (c * w) ((size - 1 - c) * w);
            buf ← write_at buf (c * w) eval;
            Ok (1, mk_comms size buf)
        end
    end
  else Ok (ERR, ecom).

Definition sized_new : option comms := if has_db dbs peer then Some (mk_comms 0 []) else None.

Fixpoint sized_uniq_loop (n : nat) (ecom new : comms) (i : Z) : res comms :=
  match n with
  | O => Ok new
  | S n' =>
      eval ← read_bytes (c_val ecom) (i * w) w;
      '(_, new) ← sized_add_val new eval;
      sized_uniq_loop n' ecom new (i + 1)
  end.

(** Without a database [new] is NULL and every addition returns at once. *)
Definition sized_uniq_sort (ecom : option comms) : res (option comms) :=
  match ecom with
  | None => Ok None
  | Some ecom =>
      match sized_new with
      | None => Ok None
      | Some new =>
          new ← sized_uniq_loop (Z.to_nat (c_size ecom)) ecom new 0;
          Ok (Some new)
      end
  end.

Definition sized_hash_make (ecom : comms) : Z := sum_bytes (c_size ecom * w) (c_val ecom).

(** [*_parse]; [str] is the printing function. *)
Definition sized_internable (str : comms -> res (option (list Z))) : Internable comms := {|
  value_key := sized_hash_make;
  value_cmp := same_vals w;
  value_str := str
|}.

Definition sized_parse (str : comms -> res (option (list Z))) (st : objs comms) (h : hash loc)
    (pnt : list Z) (length : Z) : res (objs comms * hash loc * option loc) :=
  if negb (length mod w =? 0) then Ok (st, h, None)
  else
    new ← sized_uniq_sort (Some (mk_comms (length / w) pnt));
    match new with
    | None => Ok (st, h, None)
    | Some new => @intern_new (sized_internable str) dbs peer st h new
    end.

End Sized.

(* ------------------------------------------------------------------ *)
(** ** Extended communities: 8 bytes *)

Section Ecommunity.
Context (dbs : misc_dbs) (peer : option bgp_peer) (bgp_comms_num : bool).

Definition ECOMMUNITY_SIZE : Z := 8.
Definition ECOMMUNITY_ENCODE_AS : Z := 0.
Definition ECOMMUNITY_ENCODE_IP : Z := 1.
Definition ECOMMUNITY_ENCODE_AS4 : Z := 2.
Definition ECOMMUNITY_ROUTE_TARGET : Z := 2.
Definition ECOMMUNITY_SITE_ORIGIN : Z := 3.
Definition ECOMMUNITY_FORMAT_ROUTE_MAP : Z := 0.
Definition ECOMMUNITY_FORMAT_COMMUNITY_LIST : Z := 1.
Definition ECOMMUNITY_FORMAT_DISPLAY : Z := 2.
Definition ECOMMUNITY_STR_DEFAULT_LEN : Z := 27.

Definition ecommunity_new : option comms := sized_new dbs peer.
Definition ecommunity_add_val : comms -> list Z -> res (Z * comms) := sized_add_val ECOMMUNITY_SIZE dbs peer.
Definition ecommunity_uniq_sort : option comms -> res (option comms) :=
  sized_uniq_sort ECOMMUNITY_SIZE dbs peer.
Definition ecommunity_hash_make : comms -> Z := sized_hash_make ECOMMUNITY_SIZE.
Definition ecommunity_cmp : comms -> comms -> bool := same_vals ECOMMUNITY_SIZE.
Definition ecommunity_init (buckets : Z) : hash loc := hash_create buckets.
Definition ecommunity_dup : comms -> res comms := dup_vals ECOMMUNITY_SIZE.

Definition ecom_prefix (type format : Z) : list Z :=
  if negb bgp_comms_num then
    if format =? ECOMMUNITY_FORMAT_COMMUNITY_LIST
    then (if type =? ECOMMUNITY_ROUTE_TARGET then cstr "rt " else cstr "soo ")
    else if format =? ECOMMUNITY_FORMAT_DISPLAY
    then (if type =? ECOMMUNITY_ROUTE_TARGET then cstr "RT:" else cstr "SoO:")
    else []
  else [].

(** What one value prints as. *)
Definition ecom_text (format : Z) (pnt : list Z) : list Z :=
  let encode := byte_at pnt 0 in
  let type := byte_at pnt 1 in
  if negb ((encode =? ECOMMUNITY_ENCODE_AS) || (encode =? ECOMMUNITY_ENCODE_IP)
           || (encode =? ECOMMUNITY_ENCODE_AS4)) then cstr "?"
  else if negb ((type =? ECOMMUNITY_ROUTE_TARGET) || (type =? ECOMMUNITY_SITE_ORIGIN)) then cstr "?"
  else
    let prefix := ecom_prefix type format in
    if encode =? ECOMMUNITY_ENCODE_AS4 then
      let as_ := be32 (byte_at pnt 2) (byte_at pnt 3) (byte_at pnt 4) (byte_at pnt 5) in
      let val := be16 (byte_at pnt 6) (byte_at pnt 7) in
      prefix ++ dec as_ ++ cstr ":" ++ dec val
    else if encode =? ECOMMUNITY_ENCODE_AS then
      let as_ := be16 (byte_at pnt 2) (byte_at pnt 3) in
      let val := be32 (byte_at pnt 4) (byte_at pnt 5) (byte_at pnt 6) (byte_at pnt 7) in
      prefix ++ dec as_ ++ cstr ":" ++ dec val
    else
      let val := be16 (byte_at pnt 6) (byte_at pnt 7) in
      prefix ++ inet_ntoa (drop 2 pnt) ++ cstr ":" ++ dec val.

(** [while (str_pnt + ECOMMUNITY_STR_DEFAULT_LEN >= str_size) { str_size *= 2;
    str_buf = realloc (...); }] *)
Fixpoint ecom_grow (fuel : nat) (str_pnt str_size : Z) (str_buf : list Z) : res (list Z * Z) :=
  match fuel with
  | O => Err OutOfFuel
  | S f =>
      if str_size <=? str_pnt + ECOMMUNITY_STR_DEFAULT_LEN
      then ecom_grow f str_pnt (str_size * 2) (realloc_buf str_buf (str_size * 2))
      else Ok (str_buf, str_size)
  end.

Fixpoint ecom_fill (n : nat) (ecom : comms) (format i : Z) (first : bool)
    (str_buf : list Z) (str_size str_pnt : Z) : res (list Z) :=
  match n with
  | O => Ok str_buf
  | S n' =>
      '(str_buf, str_size) ← ecom_grow 40 str_pnt str_size str_buf;
      '(str_buf, str_pnt) ← (if first then Ok (str_buf, str_pnt)
                             else b ← store str_buf str_pnt 32; Ok (b, str_pnt + 1));
      pnt ← read_bytes (c_val ecom) (i * 8) 8;
      str_buf ← sprintf str_buf str_pnt (ecom_text format pnt);
      ecom_fill n' ecom format (i + 1) false str_buf str_size (str_pnt + strlen (ecom_text format pnt))
  end.

Definition ecommunity_ecom2str (ecom : comms) (format : Z) : res (option (list Z)) :=
  if negb (has_db dbs peer) then Ok None
  else if c_size ecom =? 0 then Ok (Some [])
  else
    let size := ECOMMUNITY_STR_DEFAULT_LEN + 1 in
    buf ← ecom_fill (Z.to_nat (c_size ecom)) ecom format 0 true (malloc_buf size) size 0;
    s ← c_string buf;
    Ok (Some s).

Definition ecom_str (ecom : comms) : res (option (list Z)) :=
  ecommunity_ecom2str ecom ECOMMUNITY_FORMAT_DISPLAY.

Definition ecommunity_internable : Internable comms := sized_internable ECOMMUNITY_SIZE ecom_str.
Definition ecommunity_intern (st : objs comms) (h : hash loc) (l : loc) :=
  @intern comms ecommunity_internable dbs peer st h l.
Definition ecommunity_unintern (st : objs comms) (h : hash loc) (l : loc) :=
  @unintern comms ecommunity_internable peer st h l.
Definition ecommunity_parse := sized_parse ECOMMUNITY_SIZE dbs peer ecom_str.

End Ecommunity.

(* ------------------------------------------------------------------ *)
(** ** Large communities: 12 bytes *)

Section Lcommunity.
Context (dbs : misc_dbs) (peer : option bgp_peer).

Definition LCOMMUNITY_SIZE : Z := 12.
Definition LCOMMUNITY_PART_SIZE : Z := 4.
Definition LCOMMUNITY_STR_DEFAULT_LEN : Z := 32.

Definition lcommunity_new : option comms := sized_new dbs peer.
Definition lcommunity_add_val : comms -> list Z -> res (Z * comms) := sized_add_val LCOMMUNITY_SIZE dbs peer.
Definition lcommunity_uniq_sort : option comms -> res (option comms) :=
  sized_uniq_sort LCOMMUNITY_SIZE dbs peer.
Definition lcommunity_hash_make : comms -> Z := sized_hash_make LCOMMUNITY_SIZE.
Definition lcommunity_cmp : comms -> comms -> bool := same_vals LCOMMUNITY_SIZE.
Definition lcommunity_init (buckets : Z) : hash loc := hash_create buckets.
Definition lcommunity_dup : comms -> res comms := dup_vals LCOMMUNITY_SIZE.

Definition lcom_text (pnt : list Z) : list Z :=
  dec (ntohl (take 4 pnt)) ++ cstr ":" ++ dec (ntohl (take 4 (drop 4 pnt))) ++ cstr ":"
    ++ dec (ntohl (take 4 (drop 8 pnt))).

(** [str_pnt = strlen (str_buf)] after each value. *)
Fixpoint lcom_fill (n : nat) (lcom : comms) (idx str_pnt str_size : Z) (first : bool)
    (str_buf : list Z) : res (list Z) :=
  match n with
  | O => Ok str_buf
  | S n' =>
      let str_size := str_size + (LCOMMUNITY_STR_DEFAULT_LEN + 1) in
      let str_buf := if first then malloc_buf str_size else realloc_buf str_buf str_size in
      '(str_buf, str_pnt) ← (if first then Ok (str_buf, str_pnt)
                             else b ← store str_buf str_pnt 32; Ok (b, str_pnt + 1));
      pnt ← read_bytes (c_val lcom) (idx * LCOMMUNITY_SIZE) LCOMMUNITY_SIZE;
      str_buf ← sprintf str_buf str_pnt (lcom_text pnt);
      s ← c_string str_buf;
      lcom_fill n' lcom (idx + 1) (strlen s) str_size false str_buf
  end.

Definition lcommunity_lcom2str (lcom : comms) : res (option (list Z)) :=
  if negb (has_db dbs peer) then Ok None
  else if c_size lcom =? 0 then Ok (Some [])
  else
    buf ← lcom_fill (Z.to_nat (c_size lcom)) lcom 0 0 0 true [];
    s ← c_string buf;
    Ok (Some s).

Definition lcommunity_internable : Internable comms := sized_internable LCOMMUNITY_SIZE lcommunity_lcom2str.
Definition lcommunity_intern (st : objs comms) (h : hash loc) (l : loc) :=
  @intern comms lcommunity_internable dbs peer st h l.
Definition lcommunity_unintern (st : objs comms) (h : hash loc) (l : loc) :=
  @unintern comms lcommunity_internable peer st h l.
Definition lcommunity_parse := sized_parse LCOMMUNITY_SIZE dbs peer lcommunity_lcom2str.

End Lcommunity.

End Communities.
