(* ===== verification/CommunitiesFacts.v ===== *)
(** * Properties of the community attributes

    Normalisation makes the three attributes sets in sorted form; printing
    stays inside the buffers that were allocated; hashing and comparison obey
    what interning asks for. *)

From S2P Require Import Prelude CBuf Bgp BgpHash BgpHashFacts BgpInternFacts Communities.
Import CBuf Bgp BgpHash BgpIntern BgpHashFacts BgpInternFacts Communities.

Module CommunitiesFacts.

(* ------------------------------------------------------------------ *)
(** ** Arrays of values *)

(** [w] bytes per value. *)
Record wf (w : Z) (c : comms) : Prop := {
  wf_size : 0 <= c_size c;
  wf_length : strlen (c_val c) = c_size c * w;
  wf_bytes : bytes_ok (c_val c)
}.

Definition vals (w : Z) (c : comms) : list (list Z) := chunks (Z.to_nat (c_size c)) (Z.to_nat w) (c_val c).

(** The array of a list of values. *)
Definition of_vals (vs : list (list Z)) : comms := mk_comms (Z.of_nat (length vs)) (concat vs).

Definition val_ok (w : Z) (v : list Z) : Prop := strlen v = w /\ bytes_ok v.

Lemma concat_chunks n w l : length l = (n * w)%nat -> concat (chunks n w l) = l.
Proof.
  revert l. induction n as [|n IH]; intros l Hl; cbn [chunks concat].
  - by destruct l.
  - rewrite IH by (rewrite length_drop; lia). apply take_drop.
Qed.

Lemma chunks_length n w l : length (chunks n w l) = n.
Proof. revert l. induction n as [|n IH]; intros l; cbn; [done | by rewrite IH]. Qed.

Lemma chunks_concat (w : nat) vs : Forall (fun v => length v = w) vs -> chunks (length vs) w (concat vs) = vs.
Proof.
  induction 1 as [|v vs Hv Hvs IH]; cbn [length chunks concat]; [done |].
  by rewrite take_app_length', drop_app_length', IH.
Qed.

Lemma chunks_forall n w l : length l = (n * w)%nat -> Forall (fun v => length v = w) (chunks n w l).
Proof.
  revert l. induction n as [|n IH]; intros l Hl; cbn [chunks]; constructor.
  - rewrite length_take. lia.
  - apply IH. rewrite length_drop. lia.
Qed.

Section Vals.
Context (w : Z).
Hypothesis Hw : 0 < w.

Lemma vals_ok c : wf w c -> Forall (val_ok w) (vals w c).
Proof.
  intros [H1 H2 H3]. unfold strlen in H2. unfold vals.
  set (n := Z.to_nat (c_size c)). assert (Hl : length (c_val c) = (n * Z.to_nat w)%nat) by (unfold n; nia).
  clearbody n. clear H1 H2. revert n Hl. generalize dependent (c_val c). clear c.
  intros l Hb n. revert l Hb. induction n as [|n IH]; intros l Hb Hl; cbn [chunks]; constructor.
  - split; [| by apply Forall_take]. unfold strlen. rewrite length_take. lia.
  - apply IH; [by apply Forall_drop | rewrite length_drop; lia].
Qed.

Lemma vals_length c : wf w c -> Z.of_nat (length (vals w c)) = c_size c.
Proof. intros [H _ _]. unfold vals. rewrite chunks_length. lia. Qed.

Lemma vals_concat c : wf w c -> concat (vals w c) = c_val c.
Proof. intros [H1 H2 _]. apply concat_chunks. unfold strlen in H2. nia. Qed.

Lemma of_vals_id c : wf w c -> of_vals (vals w c) = c.
Proof.
  intros H. unfold of_vals. rewrite (vals_length c H), (vals_concat c H). by destruct c.
Qed.

Lemma concat_length vs : Forall (val_ok w) vs -> strlen (concat vs) = Z.of_nat (length vs) * w.
Proof.
  induction 1 as [|v vs [Hv _] Hvs IH]; cbn [concat length]; [done |].
  rewrite strlen_app, IH, Hv. lia.
Qed.

Lemma of_vals_wf vs : Forall (val_ok w) vs -> wf w (of_vals vs) /\ vals w (of_vals vs) = vs.
Proof.
  intros H. split.
  - split; cbn [of_vals c_size c_val]; [lia | by apply concat_length |].
    induction H as [|v vs [_ Hv] Hvs IH]; cbn [concat]; [constructor | by apply Forall_app].
  - unfold vals, of_vals. cbn [c_size c_val]. rewrite Nat2Z.id. apply chunks_concat.
    eapply Forall_impl; [exact H |]. intros v [Hv _]. unfold strlen in Hv. lia.
Qed.

(** Reading value [i]. *)
Lemma read_val vs i v rest :
  Forall (val_ok w) vs -> drop i vs = v :: rest ->
  read_bytes (concat vs) (Z.of_nat i * w) w = Ok v.
Proof.
  intros Hok Hd. pose proof (take_drop i vs) as Hs. rewrite Hd in Hs.
  assert (Hi : (i < length vs)%nat).
  { apply Nat.nle_gt. intros Hle. rewrite drop_ge in Hd by done. done. }
  assert (Hpre : Forall (val_ok w) (take i vs)) by (by apply Forall_take).
  pose proof (concat_length _ Hpre) as Hl. rewrite length_take, Nat.min_l in Hl by lia.
  assert (Hv : val_ok w v).
  { rewrite Forall_forall in Hok. apply Hok. rewrite <- Hs. apply elem_of_app. right. by left. }
  destruct Hv as [Hv _]. rewrite <- Hs, concat_app. cbn [concat].
  unfold read_bytes. rewrite !strlen_app, Hl, Hv. pose proof (strlen_nonneg (concat rest)).
  rewrite !(proj2 (Z.leb_le _ _)) by nia. cbn [andb]. f_equal. unfold strlen in *.
  rewrite drop_app_length' by lia. by rewrite take_app_length' by lia.
Qed.

End Vals.

(** [memcmp] as an order on values. *)
Definition blt (a b : list Z) : Prop := memcmp a b = -1.

Lemma strict_sorted_unique {A} (R : relation A) `{!Irreflexive R} `{!Transitive R} (l1 l2 : list A) :
  StronglySorted R l1 -> StronglySorted R l2 -> (forall x, x ∈ l1 <-> x ∈ l2) -> l1 = l2.
Proof.
  assert (Hnd : forall l, StronglySorted R l -> NoDup l).
  { induction 1 as [|x l Hs IH Hx]; constructor; [| done]. rewrite Forall_forall in Hx.
    intros Hin. exact (irreflexivity R x (Hx x Hin)). }
  intros H1 H2 E. assert (AntiSymm (=) R).
  { intros x y Hxy Hyx. exfalso. exact (irreflexivity R x (transitivity Hxy Hyx)). }
  apply (StronglySorted_unique R); [exact H1 | exact H2 |].
  by apply NoDup_Permutation; [apply Hnd | apply Hnd |].
Qed.

(* ------------------------------------------------------------------ *)
(** ** Extended and large communities *)

Lemma read_bytes_Ok buf off n :
  0 <= off -> 0 <= n -> off + n <= strlen buf ->
  read_bytes buf off n = Ok (take (Z.to_nat n) (drop (Z.to_nat off) buf)).
Proof. intros. unfold read_bytes. by rewrite !(proj2 (Z.leb_le _ _)) by lia. Qed.

Lemma write_at_Ok buf off s :
  0 <= off -> off + strlen s <= strlen buf ->
  write_at buf off s = Ok (take (Z.to_nat off) buf ++ s ++ drop (Z.to_nat off + length s) buf).
Proof. intros. unfold write_at. by rewrite !(proj2 (Z.leb_le _ _)) by lia. Qed.

(** Growing an array, moving its end and writing a value in the gap. *)
Lemma splice (pre post eval pad : list Z) :
  length pad = length eval ->
  (buf ← memmove ((pre ++ post) ++ pad) (strlen pre + strlen eval) (strlen pre) (strlen post);
   write_at buf (strlen pre) eval) = Ok (pre ++ eval ++ post).
Proof.
  intros Hp. pose proof (strlen_nonneg pre). pose proof (strlen_nonneg post). pose proof (strlen_nonneg eval).
  assert (Hpad : strlen pad = strlen eval) by (unfold strlen; lia).
  unfold memmove. rewrite read_bytes_Ok by (rewrite ?strlen_app; lia). cbn [mbind res_bind].
  assert (Hr : take (Z.to_nat (strlen post)) (drop (Z.to_nat (strlen pre)) ((pre ++ post) ++ pad)) = post).
  { unfold strlen. rewrite !Nat2Z.id, <- app_assoc, drop_app_length. by rewrite take_app_length. }
  rewrite Hr, write_at_Ok by (rewrite ?strlen_app; lia). cbn [mbind res_bind].
  rewrite (drop_ge ((pre ++ post) ++ pad)), app_nil_r
    by (unfold strlen; rewrite !length_app; lia).
  rewrite write_at_Ok.
  2: lia.
  2: { rewrite strlen_app. unfold strlen. rewrite length_take, !length_app. lia. }
  f_equal. unfold strlen. rewrite !Nat2Z.id.
  assert (Et : take (Z.to_nat (Z.of_nat (length pre) + Z.of_nat (length eval))) ((pre ++ post) ++ pad) =
    pre ++ take (length eval) (post ++ pad)).
  { rewrite <- app_assoc. rewrite take_app_ge by lia. do 2 f_equal. lia. }
  rewrite Et, <- app_assoc, take_app_length.
  do 2 f_equal. rewrite <- drop_drop, drop_app_length.
  rewrite drop_app_length'; [done |]. rewrite length_take, length_app. lia.
Qed.

Section SizedFacts.
Context (w : Z) (dbs : misc_dbs) (peer : option bgp_peer).
Hypothesis Hw : 0 < w.
Hypothesis Hdb : has_db dbs peer = true.

Lemma insert_pos_spec vs eval : Forall (val_ok w) vs -> forall n i,
  (i + n = length vs)%nat ->
  exists r, insert_pos w n (of_vals vs) eval (Z.of_nat i) = Ok r /\
    match r with
    | None => exists v, v ∈ vs /\ memcmp v eval = 0
    | Some c => exists p, c = Z.of_nat p /\ (i <= p <= length vs)%nat /\
        Forall (fun v => blt v eval) (take (p - i) (drop i vs)) /\
        match drop p vs with v :: _ => memcmp v eval = 1 | [] => True end
    end.
Proof.
  intros Hok. induction n as [|n IH]; intros i Hi; cbn [insert_pos].
  { exists (Some (Z.of_nat i)). split; [done |]. exists i. split; [done |]. split; [lia |].
    rewrite Nat.sub_diag, drop_ge by lia. split; [constructor | done]. }
  destruct (drop i vs) as [|v rest] eqn:Ed.
  { pose proof (length_drop vs i) as Hl. rewrite Ed in Hl. cbn in Hl. lia. }
  cbn [of_vals c_val]. rewrite (read_val w Hw vs i v rest Hok Ed). cbn [mbind res_bind].
  assert (Hv : v ∈ vs).
  { rewrite <- (take_drop i vs), Ed. apply elem_of_app. right. by left. }
  destruct (memcmp_range v eval) as [E|[E|E]]; rewrite E; cbn [Z.eqb Z.ltb Z.compare].
  - exists None. split; [done |]. by exists v.
  - exists (Some (Z.of_nat i)). split; [done |]. exists i. split; [done |]. split; [lia |].
    rewrite Nat.sub_diag, Ed. split; [constructor | done].
  - replace (Z.of_nat i + 1) with (Z.of_nat (S i)) by lia.
    destruct (IH (S i)) as (r & Er & Hr); [lia |]. exists r. split; [exact Er |].
    destruct r as [c|]; [| done]. destruct Hr as (p & -> & Hp & Hlt & Hgt).
    exists p. split; [done |]. split; [lia |]. split; [| done].
    assert (Ed' : drop (S i) vs = rest).
    { replace (S i) with (i + 1)%nat by lia. rewrite <- drop_drop, Ed. done. }
    rewrite Ed' in Hlt. replace (p - i)%nat with (S (p - S i)) by lia. cbn [take].
    by constructor.
Qed.

(** Sorted arrays of values of one size. *)
Record sorted_vals (vs : list (list Z)) : Prop := {
  sv_ok : Forall (val_ok w) vs;
  sv_sorted : StronglySorted blt vs
}.

Lemma blt_trans a b c : val_ok w a -> val_ok w b -> val_ok w c -> blt a b -> blt b c -> blt a c.
Proof. intros [Ha _] [Hb _] [Hc _]. unfold strlen in *. apply memcmp_trans; lia. Qed.

Lemma insert_sorted vs eval p :
  sorted_vals vs -> val_ok w eval ->
  Forall (fun v => blt v eval) (take p vs) ->
  match drop p vs with v :: _ => memcmp v eval = 1 | [] => True end ->
  sorted_vals (take p vs ++ eval :: drop p vs).
Proof.
  intros [Hok Hs] He Hlt Hgt. rewrite <- (take_drop p vs) in Hok, Hs.
  apply Forall_app in Hok as [Hok1 Hok2].
  split; [by apply Forall_app; split; [| constructor] |].
  revert Hs Hok1 Hlt. generalize (take p vs) as a. intros a Hs Hok1 Hlt.
  assert (Hpost : StronglySorted blt (drop p vs) -> StronglySorted blt (eval :: drop p vs)).
  { intros Hsp. constructor; [done |]. destruct (drop p vs) as [|v rest]; [constructor |].
    assert (Hev : blt eval v) by (unfold blt; rewrite memcmp_opp, Hgt; done).
    inversion Hok2 as [|? ? Hv Hr]; subst. constructor; [done |].
    inversion Hsp as [|? ? _ Hvr]; subst. rewrite Forall_forall in Hvr, Hr |- *.
    intros x Hx. apply (blt_trans eval v x); auto. }
  induction a as [|x a IH]; cbn [app] in *; [by apply Hpost |].
  inversion Hs as [|? ? Hs' Hx]; subst. inversion Hlt as [|? ? Hxe Hlt']; subst.
  inversion Hok1 as [|? ? _ Hok1']; subst.
  constructor; [by apply IH |]. apply Forall_app in Hx as [Hx1 Hx2]. apply Forall_app.
  split; [done |]. by constructor.
Qed.

Lemma sized_add_spec vs eval :
  sorted_vals vs -> val_ok w eval ->
  exists r vs', sized_add_val w dbs peer (of_vals vs) eval = Ok (r, of_vals vs') /\ sorted_vals vs' /\
    (forall x, x ∈ vs' <-> x = eval \/ x ∈ vs).
Proof.
  intros Hs He. pose proof He as [Hel Heb]. destruct Hs as [Hok Hsort].
  unfold sized_add_val. rewrite Hdb. destruct vs as [|v0 vs0].
  { cbn [of_vals c_val concat c_size length].
    rewrite write_at_Ok by (rewrite ?malloc_length; lia).
    cbn [mbind res_bind]. exists 1, [eval]. split.
    - change (Z.to_nat 0) with 0%nat. cbn [take app Nat.add].
      rewrite drop_ge by (unfold malloc_buf; rewrite length_replicate; unfold strlen in Hel; lia).
      unfold of_vals. cbn [length concat]. done.
    - split; [split; [by constructor | repeat constructor] |].
      intros x. rewrite list_elem_of_singleton. split; [by left | by intros [?|?%elem_of_nil]]. }
  set (vs := v0 :: vs0) in *.
  assert (Hne : c_val (of_vals vs) <> []).
  { pose proof (Forall_inv Hok) as [Hv _]. destruct v0; [unfold strlen in Hv; cbn [length] in Hv; lia | done]. }
  destruct (c_val (of_vals vs)) as [|b bs] eqn:Ev; [done |]. rewrite <- Ev. clear Ev Hne b bs.
  destruct (insert_pos_spec vs eval Hok (length vs) 0 eq_refl) as (r & Er & Hr).
  cbn [of_vals c_size] in *. rewrite Nat2Z.id. change (Z.of_nat 0) with 0 in Er. rewrite Er. cbn [mbind res_bind].
  destruct r as [c|].
  - destruct Hr as (p & -> & Hp & Hlt & Hgt). cbn [drop] in Hlt. rewrite Nat.sub_0_r in Hlt.
    set (vs' := take p vs ++ eval :: drop p vs).
    exists 1, vs'. split; [| split; [by apply insert_sorted |]].
    2: { intros x. unfold vs'. rewrite elem_of_app, elem_of_cons.
         rewrite <- (take_drop p vs) at 3. rewrite elem_of_app. tauto. }
    assert (Hpre : Forall (val_ok w) (take p vs)) by (by apply Forall_take).
    assert (Hpost : Forall (val_ok w) (drop p vs)) by (by apply Forall_drop).
    pose proof (concat_length w _ Hpre) as Hl1. pose proof (concat_length w _ Hpost) as Hl2.
    rewrite length_take, Nat.min_l in Hl1 by lia. rewrite length_drop in Hl2.
    pose proof (concat_length w _ Hok) as Hl.
    assert (Epad : realloc_buf (c_val (of_vals vs)) ((Z.of_nat (length vs) + 1) * w) =
      (concat (take p vs) ++ concat (drop p vs)) ++ replicate (Z.to_nat w) 255).
    { unfold realloc_buf. cbn [of_vals c_val]. rewrite <- concat_app, take_drop. do 2 f_equal.
      unfold strlen in Hl. lia. }
    rewrite Epad.
    pose proof (splice (concat (take p vs)) (concat (drop p vs)) eval (replicate (Z.to_nat w) 255)) as S.
    rewrite Hl1, Hl2, Hel in S.
    replace ((Z.of_nat p + 1) * w) with (Z.of_nat p * w + w) by lia.
    replace ((Z.of_nat (length vs) + 1 - 1 - Z.of_nat p) * w) with (Z.of_nat (length vs - p) * w) by (f_equal; lia).
    specialize (S ltac:(rewrite length_replicate; unfold strlen in Hel; lia)).
    destruct (memmove _ _ _ _) as [buf|]; [| done]. cbn [mbind res_bind] in S |- *.
    rewrite S. cbn [mbind res_bind]. do 2 f_equal. unfold of_vals, vs'.
    rewrite length_app, concat_app. cbn [length concat]. f_equal.
    rewrite length_take, length_drop. lia.
  - destruct Hr as (v & Hv & Hz). exists 0, vs. split; [done |]. split; [by split |].
    assert (v = eval) as ->.
    { apply memcmp_0; [| done]. rewrite Forall_forall in Hok. destruct (Hok v Hv) as [Hvl _].
      unfold strlen in *. lia. }
    intros x. split; [by right |]. by intros [-> | ?].
Qed.

Lemma sized_uniq_loop_spec vs : Forall (val_ok w) vs -> forall n i new,
  (i + n = length vs)%nat -> sorted_vals new ->
  exists vs', sized_uniq_loop w dbs peer n (of_vals vs) (of_vals new) (Z.of_nat i) = Ok (of_vals vs') /\
    sorted_vals vs' /\ (forall x, x ∈ vs' <-> x ∈ new \/ x ∈ drop i vs).
Proof.
  intros Hok. induction n as [|n IH]; intros i new Hi Hnew; cbn [sized_uniq_loop].
  { exists new. split; [done |]. split; [done |]. intros x. rewrite drop_ge by lia.
    rewrite elem_of_nil. tauto. }
  destruct (drop i vs) as [|v rest] eqn:Ed.
  { pose proof (length_drop vs i) as Hl. rewrite Ed in Hl. cbn in Hl. lia. }
  cbn [of_vals c_val]. rewrite (read_val w Hw vs i v rest Hok Ed). cbn [mbind res_bind].
  assert (Hv : val_ok w v).
  { rewrite Forall_forall in Hok. apply Hok. rewrite <- (take_drop i vs), Ed. apply elem_of_app. right. by left. }
  destruct (sized_add_spec new v Hnew Hv) as (r & new' & E & Hnew' & Hin). rewrite E.
  cbn [mbind res_bind]. replace (Z.of_nat i + 1) with (Z.of_nat (S i)) by lia.
  destruct (IH (S i) new') as (vs' & E' & Hs' & Hin'); [lia | done |].
  exists vs'. split; [exact E' |]. split; [done |]. intros x. rewrite Hin', Hin.
  assert (Ed' : drop (S i) vs = rest).
  { replace (S i) with (i + 1)%nat by lia. rewrite <- drop_drop, Ed. done. }
  rewrite Ed', elem_of_cons. tauto.
Qed.

Lemma sorted_vals_nodup vs : StronglySorted blt vs -> NoDup vs.
Proof.
  induction 1 as [|v vs Hs IH Hv]; constructor; [| done]. rewrite Forall_forall in Hv. intros Hin.
  specialize (Hv v Hin). unfold blt in Hv. by rewrite memcmp_refl in Hv.
Qed.

Lemma sized_uniq_sort_vals vs :
  Forall (val_ok w) vs ->
  exists vs', sized_uniq_sort w dbs peer (Some (of_vals vs)) = Ok (Some (of_vals vs')) /\
    sorted_vals vs' /\ (forall x, x ∈ vs' <-> x ∈ vs).
Proof.
  intros Hok. unfold sized_uniq_sort, sized_new. rewrite Hdb.
  destruct (sized_uniq_loop_spec vs Hok (length vs) 0 [] eq_refl) as (vs' & E & Hs & Hin).
  { split; constructor. }
  change (c_size (of_vals vs)) with (Z.of_nat (length vs)). rewrite Nat2Z.id.
  change (mk_comms 0 []) with (of_vals []). change 0 with (Z.of_nat 0). rewrite E. cbn [mbind res_bind]. exists vs'. split; [done |]. split; [done |].
  intros x. rewrite Hin, elem_of_nil. cbn [drop]. tauto.
Qed.

Lemma sorted_vals_unique vs1 vs2 :
  sorted_vals vs1 -> sorted_vals vs2 -> (forall x, x ∈ vs1 <-> x ∈ vs2) -> vs1 = vs2.
Proof.
  intros [O1 S1] [O2 S2] E.
  set (R := fun a b => val_ok w a /\ val_ok w b /\ blt a b).
  assert (Hup : forall vs, Forall (val_ok w) vs -> StronglySorted blt vs -> StronglySorted R vs).
  { intros vs Ho. induction 1 as [|x l Hs IH Hx]; constructor; inversion Ho; subst; [by apply IH |].
    rewrite Forall_forall in *. intros y Hy. split; [done |]. split; auto. }
  assert (Irreflexive R) by (intros x (_ & _ & Hx); unfold blt in Hx; by rewrite memcmp_refl in Hx).
  assert (Transitive R).
  { intros a b c (Ha & Hb & Hab) (_ & Hc & Hbc). split; [done |]. split; [done |]. by apply (blt_trans a b c). }
  apply (strict_sorted_unique R); auto.
Qed.

End SizedFacts.

(* ------------------------------------------------------------------ *)
(** ** Communities *)

Section CommunityFacts.
Context (dbs : misc_dbs) (peer : option bgp_peer).
Hypothesis Hdb : has_db dbs peer = true.

Lemma drop_next {A} (vs : list A) i v rest : drop i vs = v :: rest -> drop (S i) vs = rest /\ v ∈ vs.
Proof.
  intros Ed. split.
  - replace (S i) with (i + 1)%nat by lia. rewrite <- drop_drop, Ed. done.
  - rewrite <- (take_drop i vs), Ed. apply elem_of_app. right. by left.
Qed.

Lemma drop_some {A} (vs : list A) i n : (i + S n = length vs)%nat -> exists v rest, drop i vs = v :: rest.
Proof.
  intros Hi. destruct (drop i vs) as [|v rest] eqn:Ed; [| by exists v, rest].
  pose proof (length_drop vs i) as Hl. rewrite Ed in Hl. cbn in Hl. lia.
Qed.

Lemma htonl_val_ok v : val_ok 4 (htonl v).
Proof. split; [done | apply htonl_bytes]. Qed.

Lemma val_htonl v : val_ok 4 v -> htonl (ntohl v) = v /\ is_u32 (ntohl v).
Proof.
  intros [Hl Hb]. split; [apply htonl_ntohl; [unfold strlen in Hl; lia | done] | by apply ntohl_range].
Qed.

Lemma include_spec vs val : Forall (val_ok 4) vs -> forall n i,
  (i + n = length vs)%nat ->
  exists b, include_loop n (of_vals vs) (htonl val) (Z.of_nat i) = Ok b /\
    (b = true <-> htonl val ∈ drop i vs).
Proof.
  intros Hok. induction n as [|n IH]; intros i Hi; cbn [include_loop].
  { exists false. split; [done |]. rewrite drop_ge by lia. by rewrite elem_of_nil. }
  destruct (drop_some vs i n Hi) as (v & rest & Ed). destruct (drop_next vs i v rest Ed) as [Ed' Hv].
  change (c_val (of_vals vs)) with (concat vs).
  rewrite (read_val 4 ltac:(lia) vs i v rest Hok Ed). cbn [mbind res_bind].
  rewrite Forall_forall in Hok. pose proof (Hok v Hv) as [Hvl _].
  assert (Hl4 : length (htonl val) = length v) by (rewrite htonl_length; unfold strlen in Hvl; lia).
  pose proof (memcmp_0 (htonl val) v Hl4) as Hm.
  destruct (Z.eqb_spec (memcmp (htonl val) v) 0) as [E|E].
  - exists true. split; [done |]. split; [intros _ | done]. rewrite Ed. rewrite (proj1 Hm E). by left.
  - replace (Z.of_nat i + 1) with (Z.of_nat (S i)) by lia.
    destruct (IH (S i)) as (b & Eb & Hb); [lia |]. exists b. split; [done |].
    rewrite Hb, Ed', Ed, elem_of_cons. split; [by right |]. intros [Hx|]; [| done].
    exfalso. apply E, Hm, Hx.
Qed.

Lemma community_add_spec vs val :
  Forall (val_ok 4) vs ->
  community_add_val dbs peer (of_vals vs) val = Ok (of_vals (vs ++ [htonl val])).
Proof.
  intros Hok. unfold community_add_val. rewrite Hdb. cbn [of_vals c_size c_val].
  pose proof (concat_length 4 vs Hok) as Hl.
  assert (Hr : realloc_buf (concat vs) ((Z.of_nat (length vs) + 1) * 4) = concat vs ++ replicate 4 255).
  { unfold realloc_buf. do 2 f_equal. unfold strlen in Hl. lia. }
  rewrite Hr. replace ((Z.of_nat (length vs) + 1 - 1) * 4) with (strlen (concat vs)) by lia.
  rewrite write_at_Ok by (rewrite ?strlen_app; pose proof (strlen_nonneg (concat vs));
        change (strlen (htonl val)) with 4; change (strlen (replicate 4 255)) with 4; lia).
  cbn [mbind res_bind]. unfold of_vals. rewrite length_app, concat_app. cbn [length concat].
  do 2 f_equal; [lia |]. unfold strlen. rewrite Nat2Z.id, take_app_length, app_nil_r. f_equal.
  rewrite drop_ge, app_nil_r; [done |]. rewrite length_app, length_replicate. cbn. lia.
Qed.

Lemma uniq_loop_spec vs : Forall (val_ok 4) vs -> forall n i new,
  (i + n = length vs)%nat -> Forall (val_ok 4) new -> NoDup new ->
  exists vs', uniq_loop dbs peer n (of_vals vs) (of_vals new) (Z.of_nat i) = Ok (of_vals vs') /\
    Forall (val_ok 4) vs' /\ NoDup vs' /\ (forall x, x ∈ vs' <-> x ∈ new \/ x ∈ drop i vs).
Proof.
  intros Hok. induction n as [|n IH]; intros i new Hi Hn Hnd; cbn [uniq_loop].
  { exists new. split_and!; try done. intros x. rewrite drop_ge by lia. rewrite elem_of_nil. tauto. }
  destruct (drop_some vs i n Hi) as (v & rest & Ed). destruct (drop_next vs i v rest Ed) as [Ed' Hv].
  unfold community_val_get. change (c_val (of_vals vs)) with (concat vs).
  rewrite (read_val 4 ltac:(lia) vs i v rest Hok Ed). cbn [mbind res_bind].
  assert (Hvok : val_ok 4 v) by (rewrite Forall_forall in Hok; auto).
  destruct (val_htonl v Hvok) as [Ev _].
  unfold community_include. change (c_size (of_vals new)) with (Z.of_nat (length new)). rewrite Nat2Z.id.
  destruct (include_spec new (ntohl v) Hn (length new) 0 eq_refl) as (b & Eb & Hb).
  change (Z.of_nat 0) with 0 in Eb. rewrite Eb. cbn [mbind res_bind]. cbn [drop] in Hb. rewrite Ev in Hb.
  replace (Z.of_nat i + 1) with (Z.of_nat (S i)) by lia. destruct b.
  - cbn [mbind res_bind]. destruct (IH (S i) new) as (vs' & E & G1 & G2 & G3); [lia | done | done |].
    exists vs'. split_and!; try done. intros x. rewrite G3, Ed', Ed, elem_of_cons.
    split; [tauto |]. intros [?|[-> |?]]; [by left | left; by apply Hb | by right].
  - rewrite community_add_spec by done. cbn [mbind res_bind]. rewrite Ev.
    destruct (IH (S i) (new ++ [v])) as (vs' & E & G1 & G2 & G3); [lia | | |].
    + apply Forall_app. split; [done |]. by constructor.
    + apply NoDup_app. split; [done |]. split; [| apply NoDup_singleton].
      intros x Hx ->%list_elem_of_singleton. pose proof (proj2 Hb Hx). done.
    + exists vs'. split_and!; try done. intros x.
      rewrite G3, Ed', Ed, elem_of_cons, elem_of_app, list_elem_of_singleton. tauto.
Qed.

(** The numeric order of values. *)
Definition clt (a b : list Z) : Prop := ntohl a < ntohl b.

#[export] Instance clt_irreflexive : Irreflexive clt.
Proof. intros x Hx. unfold clt in Hx. lia. Qed.
#[export] Instance clt_transitive : Transitive clt.
Proof. intros x y z. unfold clt. lia. Qed.

Lemma compare_le_spec a b : compare_le a b <-> ntohl a <= ntohl b.
Proof.
  unfold compare_le, community_compare.
  destruct (Z.ltb_spec (ntohl a) (ntohl b)), (Z.ltb_spec (ntohl b) (ntohl a)); lia.
Qed.

#[local] Instance compare_le_total : Total compare_le.
Proof. intros a b. rewrite !compare_le_spec. lia. Qed.
#[local] Instance compare_le_trans : Transitive compare_le.
Proof. intros a b c. rewrite !compare_le_spec. lia. Qed.

Lemma sorted_strict vs :
  Forall (val_ok 4) vs -> NoDup vs -> StronglySorted compare_le vs -> StronglySorted clt vs.
Proof.
  intros Hok Hnd. induction 1 as [|v vs Hs IH Hv]; constructor.
  - inversion Hok; inversion Hnd; subst; auto.
  - inversion Hok as [|? ? Hvok Hok']; inversion Hnd as [|? ? Hni _]; subst.
    rewrite Forall_forall in *. intros x Hx. specialize (Hv x Hx). apply compare_le_spec in Hv.
    unfold clt. destruct (Z.eq_dec (ntohl v) (ntohl x)) as [E|]; [| lia]. exfalso. apply Hni.
    destruct (val_htonl v Hvok) as [<- _]. rewrite E. by destruct (val_htonl x (Hok' x Hx)) as [-> _].
Qed.

Lemma community_uniq_sort_vals vs :
  Forall (val_ok 4) vs ->
  exists vs', community_uniq_sort dbs peer (Some (of_vals vs)) = Ok (Some (of_vals vs')) /\
    Forall (val_ok 4) vs' /\ StronglySorted clt vs' /\ (forall x, x ∈ vs' <-> x ∈ vs).
Proof.
  intros Hok. unfold community_uniq_sort, community_new. rewrite Hdb. cbn [deref mbind res_bind].
  destruct (uniq_loop_spec vs Hok (length vs) 0 [] eq_refl) as (new & E & G1 & G2 & G3); try constructor.
  change (c_size (of_vals vs)) with (Z.of_nat (length vs)). rewrite Nat2Z.id.
  change (mk_comms 0 []) with (of_vals []). change 0 with (Z.of_nat 0). rewrite E. cbn [mbind res_bind].
  change (chunks (Z.to_nat (c_size (of_vals new))) 4 (c_val (of_vals new))) with (vals 4 (of_vals new)).
  destruct (of_vals_wf 4 ltac:(lia) new G1) as [_ ->].
  pose proof (merge_sort_Permutation compare_le new) as Hp.
  exists (merge_sort compare_le new). split_and!.
  - do 2 f_equal. unfold of_vals. cbn [c_size]. f_equal. by rewrite (Permutation_length Hp).
  - by rewrite Hp.
  - apply sorted_strict; [by rewrite Hp | by rewrite Hp |]. by apply StronglySorted_merge_sort; apply _.
  - intros x. rewrite Hp, G3, elem_of_nil. cbn [drop]. tauto.
Qed.

End CommunityFacts.

(* ------------------------------------------------------------------ *)
(** ** Printing *)

(** Texts separated by spaces. *)
Fixpoint join_sp (l : list (list Z)) : list Z :=
  match l with
  | [] => []
  | [x] => x
  | x :: r => x ++ [32] ++ join_sp r
  end.

Lemma join_sp_snoc l x : l <> [] -> join_sp (l ++ [x]) = join_sp l ++ [32] ++ x.
Proof.
  induction l as [|y l IH]; [done |]. intros _. destruct l as [|z l]; [done |].
  change (join_sp ((y :: z :: l) ++ [x])) with (y ++ [32] ++ join_sp ((z :: l) ++ [x])).
  rewrite IH by done. change (join_sp (y :: z :: l)) with (y ++ [32] ++ join_sp (z :: l)).
  by rewrite <- !app_assoc.
Qed.

Lemma join_sp_no_nul l : Forall no_nul l -> no_nul (join_sp l).
Proof.
  induction 1 as [|x l Hx Hl IH]; [constructor |]. destruct l as [|y l]; [done |].
  change (join_sp (x :: y :: l)) with (x ++ [32] ++ join_sp (y :: l)).
  apply no_nul_app; [done |]. constructor; [lia | done].
Qed.

(** The texts printed so far and whether there are none. *)
Definition first_of (ts : list (list Z)) : bool := match ts with [] => true | _ => false end.

Lemma first_of_snoc ts t : first_of (ts ++ [t]) = false.
Proof. by destruct ts. Qed.

Lemma join_sp_snoc_length ts t :
  strlen (join_sp (ts ++ [t])) = strlen (join_sp ts) + (if first_of ts then 0 else 1) + strlen t.
Proof.
  destruct ts as [|x ts]; [done |]. rewrite join_sp_snoc, !strlen_app, strlen_one by done. cbn [first_of]. lia.
Qed.

(** One step of the printing loops: the separator, the text and its NUL. *)
Lemma put_text ts t buf :
  starts (join_sp ts) buf -> strlen (join_sp (ts ++ [t])) < strlen buf ->
  exists b1 b2 p, (if first_of ts then Ok (buf, strlen (join_sp ts))
                   else b ← store buf (strlen (join_sp ts)) 32; Ok (b, strlen (join_sp ts) + 1)) = Ok (b1, p) /\
    sprintf b1 p t = Ok b2 /\ p + strlen t = strlen (join_sp (ts ++ [t])) /\
    starts (join_sp (ts ++ [t]) ++ [0]) b2 /\ strlen b2 = strlen buf.
Proof.
  intros Hs Hl. pose proof (join_sp_snoc_length ts t) as Hj. pose proof (strlen_nonneg t).
  pose proof (strlen_nonneg (join_sp ts)). destruct ts as [|x ts]; cbn [first_of] in Hj |- *.
  - destruct (sprintf_append [] buf t Hs ltac:(cbn in *; lia)) as (b2 & E & Hs2 & Hl2).
    exists buf, b2, 0. split_and!; try done.
  - destruct (store_append _ buf 32 Hs ltac:(lia)) as (b1 & E1 & Hs1 & Hl1).
    destruct (sprintf_append _ b1 t Hs1) as (b2 & E2 & Hs2 & Hl2).
    { rewrite strlen_app, strlen_one. lia. }
    exists b1, b2, (strlen (join_sp (x :: ts)) + 1). rewrite E1. cbn [mbind res_bind].
    rewrite strlen_app, strlen_one in E2. split_and!; [done | done | lia | | lia].
    rewrite join_sp_snoc by done. by rewrite <- !app_assoc in *.
Qed.

(** ** Communities *)

Lemma community_room_ok num v : is_u32 v ->
  strlen (community_name num v) + 1 <= community_room num v /\ no_nul (community_name num v).
Proof.
  intros Hv.
  assert (Hd : let t := dec (Z.land (Z.shiftr v 16) 65535) ++ cstr ":" ++ dec (Z.land v 65535) in
    strlen t + 1 <= 12 /\ no_nul t).
  { assert (H1 : is_u16 (Z.land (Z.shiftr v 16) 65535)).
    { change 65535 with (Z.ones 16). rewrite Z.land_ones by lia. apply wrap_range. lia. }
    assert (H2 : is_u16 (Z.land v 65535)).
    { change 65535 with (Z.ones 16). rewrite Z.land_ones by lia. apply wrap_range. lia. }
    pose proof (dec_u16_length _ H1). pose proof (dec_u16_length _ H2).
    cbn zeta. rewrite !strlen_app. unfold strlen. change (length (cstr ":")) with 1%nat. split; [lia |].
    apply no_nul_app; [apply no_nul_dec; unfold is_u16, in_u in H1; lia |].
    apply no_nul_app; [repeat constructor; discriminate | apply no_nul_dec; unfold is_u16, in_u in H2; lia]. }
  cbn zeta in Hd. unfold community_name, community_room.
  repeat case_match; try exact Hd; (split; [vm_compute; done | by repeat constructor]).
Qed.


Definition rooms (num : bool) (vs : list (list Z)) : Z :=
  foldr (fun v a => community_room num (ntohl v) + a) 0 vs.

Definition names (num : bool) (vs : list (list Z)) : list (list Z) :=
  map (fun v => community_name num (ntohl v)) vs.

Lemma com2str_len_spec num vs : Forall (val_ok 4) vs -> forall n i len,
  (i + n = length vs)%nat ->
  com2str_len num n (of_vals vs) (Z.of_nat i) len = Ok (len + rooms num (drop i vs)).
Proof.
  intros Hok. induction n as [|n IH]; intros i len Hi; cbn [com2str_len].
  { rewrite drop_ge by lia. cbn [rooms foldr]. f_equal. lia. }
  destruct (drop_some vs i n Hi) as (v & rest & Ed). destruct (drop_next vs i v rest Ed) as [Ed' _].
  unfold community_val_get. change (c_val (of_vals vs)) with (concat vs).
  rewrite (read_val 4 ltac:(lia) vs i v rest Hok Ed). cbn [mbind res_bind].
  replace (Z.of_nat i + 1) with (Z.of_nat (S i)) by lia. rewrite IH, Ed', Ed by lia.
  cbn [rooms foldr]. f_equal. unfold rooms. lia.
Qed.

Lemma com2str_fill_spec num vs : Forall (val_ok 4) vs -> forall n i buf,
  (i + n = length vs)%nat ->
  let ts := names num (take i vs) in
  starts (join_sp ts) buf ->
  strlen (join_sp ts) + (if first_of ts then 0 else 1) + rooms num (drop i vs) <= strlen buf ->
  exists buf', com2str_fill num n (of_vals vs) (Z.of_nat i) (first_of ts) buf (strlen (join_sp ts))
      = Ok (buf', strlen (join_sp (names num vs))) /\
    starts (join_sp (names num vs)) buf' /\
    strlen (join_sp (names num vs)) + (if first_of (names num vs) then 0 else 1) <= strlen buf'.
Proof.
  intros Hok. induction n as [|n IH]; intros i buf Hi ts Hs Hl; cbn [com2str_fill].
  { exists buf. subst ts. rewrite take_ge, drop_ge in * by lia. cbn [rooms foldr] in Hl.
    split_and!; [done | done | lia]. }
  destruct (drop_some vs i n Hi) as (v & rest & Ed). destruct (drop_next vs i v rest Ed) as [Ed' Hin].
  unfold community_val_get. change (c_val (of_vals vs)) with (concat vs).
  rewrite (read_val 4 ltac:(lia) vs i v rest Hok Ed). cbn [mbind res_bind].
  assert (Hv : val_ok 4 v) by (rewrite Forall_forall in Hok; auto).
  destruct (community_room_ok num (ntohl v)) as [Hr Hn]; [by apply ntohl_range, Hv |].
  assert (Et : names num (take (S i) vs) = ts ++ [community_name num (ntohl v)]).
  { unfold ts. rewrite <- (take_drop i vs) at 1. rewrite Ed.
    rewrite take_app_ge by (rewrite length_take; lia).
    rewrite length_take, Nat.min_l by lia. replace (S i - i)%nat with 1%nat by lia.
    unfold names. by rewrite map_app. }
  assert (Hl' : strlen (join_sp (ts ++ [community_name num (ntohl v)])) + 1 + rooms num rest <= strlen buf).
  { rewrite join_sp_snoc_length. rewrite Ed in Hl. cbn [rooms foldr] in Hl. fold (rooms num rest) in Hl. lia. }
  assert (0 <= rooms num rest).
  { clear -Hok Ed. assert (Hr : Forall (val_ok 4) rest).
    { apply (Forall_drop _ i) in Hok. rewrite Ed in Hok. by inversion Hok. }
    clear Ed Hok. induction Hr as [|x l Hx Hl IH]; cbn [rooms foldr]; [lia |].
    fold (rooms num l). destruct (community_room_ok num (ntohl x)) as [? _]; [by apply ntohl_range, Hx |].
    pose proof (strlen_nonneg (community_name num (ntohl x))). lia. }
  destruct (put_text ts (community_name num (ntohl v)) buf Hs ltac:(lia)) as (b1 & b2 & p & E1 & E2 & Ep & Hs2 & Hl2).
  rewrite E1. cbn [mbind res_bind]. rewrite E2. cbn [mbind res_bind]. rewrite Ep, <- Et.
  replace (Z.of_nat i + 1) with (Z.of_nat (S i)) by lia.
  destruct (IH (S i) b2) as (buf' & E & G1 & G2); [lia | | |].
  - rewrite Et. by apply starts_app_l in Hs2.
  - rewrite Et, first_of_snoc, Hl2, Ed'. lia.
  - rewrite Et, first_of_snoc in E. rewrite Et. by exists buf'.
Qed.

Lemma names_no_nul num vs : Forall (val_ok 4) vs -> Forall no_nul (names num vs).
Proof.
  induction 1 as [|v vs Hv Hvs IH]; cbn [names map]; constructor; [| done].
  by apply community_room_ok, ntohl_range, Hv.
Qed.

Lemma community_com2str_text dbs peer num vs :
  has_db dbs peer = true -> Forall (val_ok 4) vs ->
  community_com2str dbs peer num (Some (of_vals vs)) = Ok (Some (join_sp (names num vs))).
Proof.
  intros Hdb Hok. unfold community_com2str. rewrite Hdb. cbn [negb].
  change (c_size (of_vals vs)) with (Z.of_nat (length vs)).
  destruct (Z.eqb_spec (Z.of_nat (length vs)) 0) as [E|E]; [by destruct vs |].
  pose proof (com2str_len_spec num vs Hok (length vs) 0 0 eq_refl) as E1. change (Z.of_nat 0) with 0 in E1.
  change (drop 0 vs) with vs in E1. rewrite Nat2Z.id, E1. cbn [mbind res_bind].
  destruct (com2str_fill_spec num vs Hok (length vs) 0 (malloc_buf (0 + rooms num vs))) as (buf & E2 & G1 & G2);
    [lia | apply starts_nil | |].
  { change (names num (take 0 vs)) with (@nil (list Z)). cbn [join_sp first_of]. change (strlen []) with 0.
    change (drop 0 vs) with vs. unfold malloc_buf, strlen. rewrite length_replicate. lia. }
  change (names num (take 0 vs)) with (@nil (list Z)) in E2. cbn [join_sp first_of] in E2.
  change (strlen []) with 0 in E2.
  change (Z.of_nat 0) with 0 in E2. rewrite E2. cbn [mbind res_bind].
  assert (Hf : first_of (names num vs) = false) by (destruct vs; [cbn in E; lia | done]). rewrite Hf in G2.
  destruct (terminate _ buf G1) as (b & Eb & Ec); [by apply join_sp_no_nul, names_no_nul | lia |].
  rewrite Eb. cbn [mbind res_bind]. by rewrite Ec.
Qed.

(** ** Extended communities *)

Lemma no_nul_byte v : is_u8 v -> no_nul (dec v).
Proof. intros H. apply no_nul_dec. unfold in_u in H. lia. Qed.

Lemma inet_ntoa_no_nul b : bytes_ok b -> no_nul (inet_ntoa b).
Proof.
  intros Hb. unfold inet_ntoa.
  repeat first [apply no_nul_app | apply no_nul_byte, byte_at_range, Hb | by repeat constructor].
Qed.

Lemma ecom_prefix_ok num ty format : strlen (ecom_prefix num ty format) <= 4 /\ no_nul (ecom_prefix num ty format).
Proof.
  unfold ecom_prefix. repeat case_match; (split; [vm_compute; discriminate | by repeat constructor]).
Qed.

Lemma ecom_text_ok num format v : val_ok 8 v ->
  strlen (ecom_text num format v) <= 25 /\ no_nul (ecom_text num format v).
Proof.
  intros [_ Hb]. unfold ecom_text. destruct (ecom_prefix_ok num (byte_at v 1) format) as [Hp Hn].
  assert (B : forall i, is_u8 (byte_at v i)) by (intros; by apply byte_at_range).
  assert (Hb2 : bytes_ok (drop 2 v)) by (by apply Forall_drop).
  assert (Hc : strlen (cstr ":") = 1 /\ no_nul (cstr ":")) by (split; [done | by repeat constructor]).
  assert (D32 : forall a b c d, let t := dec (be32 (byte_at v a) (byte_at v b) (byte_at v c) (byte_at v d)) in
    strlen t <= 10 /\ no_nul t).
  { intros a b c d. assert (H : is_u32 (be32 (byte_at v a) (byte_at v b) (byte_at v c) (byte_at v d))) by (by apply be32_range).
    split; [unfold strlen; pose proof (dec_u32_length _ H); lia | apply no_nul_dec; unfold in_u in H; lia]. }
  assert (D16 : forall a b, let t := dec (be16 (byte_at v a) (byte_at v b)) in strlen t <= 5 /\ no_nul t).
  { intros a b. assert (H : is_u16 (be16 (byte_at v a) (byte_at v b))) by (by apply be16_range).
    split; [unfold strlen; pose proof (dec_u16_length _ H); lia | apply no_nul_dec; unfold in_u in H; lia]. }
  assert (Q : strlen (cstr "?") <= 25 /\ no_nul (cstr "?"))
    by (split; [vm_compute; discriminate | by repeat constructor]).
  pose proof (inet_ntoa_length _ Hb2) as Hi. pose proof (inet_ntoa_no_nul _ Hb2) as Hin.
  revert Hi Hin D32 D16 Hp Hn. generalize (inet_ntoa (drop 2 v)) (ecom_prefix num (byte_at v 1) format).
  intros ip pre Hi Hin D32 D16 Hp Hn. destruct Hc as [Hc1 Hc2].
  destruct (negb _); [exact Q |]. destruct (negb _); [exact Q |]. clear Q.
  destruct (_ =? _); [| destruct (_ =? _)]; rewrite !strlen_app, Hc1.
  - destruct (D32 2 3 4 5) as [L1 N1], (D16 6 7) as [L2 N2]. split; [cbn zeta in *; lia |].
    auto using no_nul_app.
  - destruct (D16 2 3) as [L1 N1], (D32 4 5 6 7) as [L2 N2]. split; [cbn zeta in *; lia |].
    auto using no_nul_app.
  - destruct (D16 6 7) as [L2 N2]. split; [unfold strlen at 2; cbn zeta in *; lia |].
    auto using no_nul_app.
Qed.

Lemma ecom_grow_spec text fuel pnt size buf :
  0 < size -> strlen buf = size -> pnt + 27 < size * 2 ^ (Z.of_nat fuel) -> starts text buf ->
  exists buf' size', ecom_grow (S fuel) pnt size buf = Ok (buf', size') /\ size <= size' /\
    strlen buf' = size' /\ pnt + 27 < size' /\ starts text buf'.
Proof.
  revert size buf. induction fuel as [|f IH]; intros size buf Hz Hl Hp Hs; cbn [ecom_grow];
    unfold ECOMMUNITY_STR_DEFAULT_LEN; destruct (Z.leb_spec size (pnt + 27)).
  - cbn in Hp. lia.
  - exists buf, size. split_and!; try done; lia.
  - destruct (IH (size * 2) (realloc_buf buf (size * 2))) as (b & z & E & G1 & G2 & G3 & G4);
      [lia | apply realloc_length; lia | | by apply realloc_starts |].
    { rewrite Nat2Z.inj_succ, Z.pow_succ_r in Hp by lia. lia. }
    cbn [ecom_grow] in E. unfold ECOMMUNITY_STR_DEFAULT_LEN in E. exists b, z. rewrite E. split_and!; try done; lia.
  - exists buf, size. split_and!; try done; lia.
Qed.

Definition ecom_texts (num : bool) (format : Z) (vs : list (list Z)) : list (list Z) :=
  map (ecom_text num format) vs.

Lemma take_S_drop {A} (vs : list A) i v rest : drop i vs = v :: rest -> take (S i) vs = take i vs ++ [v].
Proof.
  intros Ed. rewrite <- (take_drop i vs) at 1. rewrite Ed.
  assert (Hi : (i < length vs)%nat).
  { apply Nat.nle_gt. intros H. by rewrite drop_ge in Ed. }
  rewrite take_app_ge by (rewrite length_take; lia).
  rewrite length_take, Nat.min_l by lia. by replace (S i - i)%nat with 1%nat by lia.
Qed.

Lemma join_sp_bound k ts : Forall (fun t => strlen t <= k) ts -> 0 <= k ->
  strlen (join_sp ts) + (if first_of ts then 0 else 1) <= Z.of_nat (length ts) * (k + 1).
Proof.
  intros H Hk. induction H as [|t ts Ht Hts IH]; [done |]. destruct ts as [|u ts].
  - cbn [join_sp length first_of] in *. lia.
  - change (join_sp (t :: u :: ts)) with (t ++ [32] ++ join_sp (u :: ts)).
    rewrite !strlen_app, strlen_one. cbn [length first_of] in *. lia.
Qed.

Lemma ecom_fill_spec num format vs : Forall (val_ok 8) vs -> Z.of_nat (length vs) < 2 ^ 24 ->
  forall n i buf size,
  (i + n = length vs)%nat -> 28 <= size -> strlen buf = size ->
  let ts := ecom_texts num format (take i vs) in
  starts (join_sp ts ++ if first_of ts then [] else [0]) buf ->
  exists buf', ecom_fill num n (of_vals vs) format (Z.of_nat i) (first_of ts) buf size (strlen (join_sp ts))
      = Ok buf' /\
    let ts' := ecom_texts num format vs in starts (join_sp ts' ++ if first_of ts' then [] else [0]) buf'.
Proof.
  intros Hok Hlen. induction n as [|n IH]; intros i buf size Hi Hz Hl ts Hs; cbn [ecom_fill].
  { exists buf. subst ts. by rewrite take_ge in * by lia. }
  destruct (drop_some vs i n Hi) as (v & rest & Ed). destruct (drop_next vs i v rest Ed) as [Ed' Hin].
  assert (Hv : val_ok 8 v) by (rewrite Forall_forall in Hok; auto).
  destruct (ecom_text_ok num format v Hv) as [Hr Hn].
  assert (Hb : strlen (join_sp ts) <= Z.of_nat (length vs) * 26).
  { pose proof (join_sp_bound 25 ts) as Hj. unfold ts, ecom_texts in Hj.
    rewrite length_map, length_take in Hj. fold (ecom_texts num format (take i vs)) in Hj. fold ts in Hj.
    destruct (first_of ts); (etransitivity; [| etransitivity; [apply Hj; [| lia] |]]); try lia;
      apply Forall_map, Forall_take; (eapply Forall_impl; [exact Hok |]); intros x Hx;
      apply (ecom_text_ok num format x Hx). }
  destruct (ecom_grow_spec (join_sp ts) 39 (strlen (join_sp ts)) size buf) as (b0 & z0 & E0 & G1 & G2 & G3 & G4);
    [lia | done | change (Z.of_nat 39) with 39; lia | by apply starts_app_l in Hs |].
  rewrite E0. cbn [mbind res_bind].
  assert (Et : ecom_texts num format (take (S i) vs) = ts ++ [ecom_text num format v]).
  { rewrite (take_S_drop vs i v rest Ed). unfold ts, ecom_texts. by rewrite map_app. }
  destruct (put_text ts (ecom_text num format v) b0 G4) as (b1 & b2 & p & E1 & E2 & Ep & Hs2 & Hl2).
  { rewrite join_sp_snoc_length. destruct (first_of ts); lia. }
  rewrite E1. cbn [mbind res_bind]. change (c_val (of_vals vs)) with (concat vs).
  rewrite (read_val 8 ltac:(lia) vs i v rest Hok Ed). cbn [mbind res_bind].
  rewrite E2. cbn [mbind res_bind]. rewrite Ep, <- Et.
  replace (Z.of_nat i + 1) with (Z.of_nat (S i)) by lia.
  destruct (IH (S i) b2 z0) as (buf' & E & G); [lia | lia | lia | |].
  - by rewrite Et, first_of_snoc.
  - rewrite Et, first_of_snoc in E. rewrite Et. by exists buf'.
Qed.

Lemma ecommunity_ecom2str_text dbs peer num format vs :
  has_db dbs peer = true -> Forall (val_ok 8) vs -> Z.of_nat (length vs) < 2 ^ 24 ->
  ecommunity_ecom2str dbs peer num (of_vals vs) format = Ok (Some (join_sp (ecom_texts num format vs))).
Proof.
  intros Hdb Hok Hlen. unfold ecommunity_ecom2str. rewrite Hdb. cbn [negb].
  change (c_size (of_vals vs)) with (Z.of_nat (length vs)).
  destruct (Z.eqb_spec (Z.of_nat (length vs)) 0) as [E|E]; [by destruct vs |].
  destruct (ecom_fill_spec num format vs Hok Hlen (length vs) 0 (malloc_buf 28) 28) as (buf & E1 & G);
    [lia | lia | done | by apply starts_nil |].
  change (ecom_texts num format (take 0 vs)) with (@nil (list Z)) in E1. cbn [join_sp first_of] in E1.
  change (strlen []) with 0 in E1. change (Z.of_nat 0) with 0 in E1.
  change (ECOMMUNITY_STR_DEFAULT_LEN + 1) with 28. rewrite Nat2Z.id, E1. cbn [mbind res_bind].
  cbn zeta in G. assert (Hf : first_of (ecom_texts num format vs) = false) by (destruct vs; [cbn in E; lia | done]).
  rewrite Hf in G. destruct G as [r ->]. rewrite <- app_assoc. cbn [app]. rewrite c_string_app; [done |].
  apply join_sp_no_nul. unfold ecom_texts. apply Forall_map.
  eapply Forall_impl; [exact Hok |]. intros x Hx. apply (ecom_text_ok num format x Hx).
Qed.

(** ** Large communities *)

Lemma lcom_text_ok v : val_ok 12 v -> strlen (lcom_text v) <= 32 /\ no_nul (lcom_text v).
Proof.
  intros [_ Hb]. unfold lcom_text.
  assert (Hc : strlen (cstr ":") = 1 /\ no_nul (cstr ":")) by (split; [done | by repeat constructor]).
  assert (D : forall l, bytes_ok l -> strlen (dec (ntohl l)) <= 10 /\ no_nul (dec (ntohl l))).
  { intros l Hl%ntohl_range. split; [unfold strlen; pose proof (dec_u32_length _ Hl); lia |].
    apply no_nul_dec; unfold in_u in Hl; lia. }
  destruct Hc as [Hc1 Hc2]. rewrite !strlen_app, Hc1.
  destruct (D (take 4 v)) as [L1 N1]; [by apply Forall_take |].
  destruct (D (take 4 (drop 4 v))) as [L2 N2]; [by apply Forall_take, Forall_drop |].
  destruct (D (take 4 (drop 8 v))) as [L3 N3]; [by apply Forall_take, Forall_drop |].
  split; [lia | auto using no_nul_app].
Qed.

Lemma lcom_fill_spec vs : Forall (val_ok 12) vs -> forall n i buf,
  (i + n = length vs)%nat -> strlen buf = Z.of_nat i * 33 ->
  let ts := map lcom_text (take i vs) in
  starts (join_sp ts ++ if first_of ts then [] else [0]) buf ->
  exists buf', lcom_fill n (of_vals vs) (Z.of_nat i) (strlen (join_sp ts)) (Z.of_nat i * 33) (first_of ts) buf
      = Ok buf' /\ strlen buf' = Z.of_nat (length vs) * 33 /\
    let ts' := map lcom_text vs in starts (join_sp ts' ++ if first_of ts' then [] else [0]) buf'.
Proof.
  intros Hok. induction n as [|n IH]; intros i buf Hi Hl ts Hs; cbn [lcom_fill].
  { exists buf. subst ts. rewrite take_ge in * by lia. split_and!; [done | | done]. lia. }
  destruct (drop_some vs i n Hi) as (v & rest & Ed). destruct (drop_next vs i v rest Ed) as [Ed' Hin].
  assert (Hv : val_ok 12 v) by (rewrite Forall_forall in Hok; auto).
  destruct (lcom_text_ok v Hv) as [Hr Hn]. unfold LCOMMUNITY_STR_DEFAULT_LEN, LCOMMUNITY_SIZE.
  change (32 + 1) with 33. set (size := Z.of_nat i * 33 + 33).
  assert (Hts : Forall (fun t => strlen t <= 32 /\ no_nul t) ts).
  { unfold ts. apply Forall_map, Forall_take. eapply Forall_impl; [exact Hok |]. apply lcom_text_ok. }
  set (b0 := if first_of ts then malloc_buf size else realloc_buf buf size).
  assert (H0 : starts (join_sp ts) b0 /\ strlen b0 = size).
  { unfold b0. destruct ts as [|t0 ts0] eqn:Ets; cbn [first_of].
    - split; [apply starts_nil | apply malloc_length; unfold size; lia].
    - split; [apply realloc_starts; by apply starts_app_l in Hs | apply realloc_length; unfold size; lia]. }
  destruct H0 as [Hs0 Hl0].
  assert (Et : map lcom_text (take (S i) vs) = ts ++ [lcom_text v]).
  { rewrite (take_S_drop vs i v rest Ed). unfold ts. by rewrite map_app. }
  assert (Hts' : Forall (fun t => strlen t <= 32) (ts ++ [lcom_text v])).
  { apply Forall_app. split; [| by constructor]. eapply Forall_impl; [exact Hts |]. by intros x []. }
  destruct (put_text ts (lcom_text v) b0 Hs0) as (b1 & b2 & p & E1 & E2 & Ep & Hs2 & Hl2).
  { pose proof (join_sp_bound 32 _ Hts' ltac:(lia)) as Hj. rewrite first_of_snoc, length_app in Hj.
    unfold ts in Hj at 2. rewrite length_map, length_take in Hj. cbn [length] in Hj. unfold size in Hl0. lia. }
  rewrite E1. cbn [mbind res_bind]. change (c_val (of_vals vs)) with (concat vs).
  rewrite (read_val 12 ltac:(lia) vs i v rest Hok Ed). cbn [mbind res_bind].
  rewrite E2. cbn [mbind res_bind].
  assert (Hc : c_string b2 = Ok (join_sp (ts ++ [lcom_text v]))).
  { destruct Hs2 as [r ->]. rewrite <- app_assoc. apply c_string_app, join_sp_no_nul, Forall_app.
    split; [| by constructor]. eapply Forall_impl; [exact Hts |]. by intros x []. }
  rewrite Hc. cbn [mbind res_bind]. rewrite <- Et.
  replace (Z.of_nat i + 1) with (Z.of_nat (S i)) by lia. unfold size in *.
  replace (Z.of_nat i * 33 + 33) with (Z.of_nat (S i) * 33) in * by lia.
  destruct (IH (S i) b2) as (buf' & E & G1 & G2); [lia | lia | |].
  - by rewrite Et, first_of_snoc.
  - rewrite Et, first_of_snoc in E. rewrite Et. by exists buf'.
Qed.

Lemma lcommunity_lcom2str_text dbs peer vs :
  has_db dbs peer = true -> Forall (val_ok 12) vs ->
  lcommunity_lcom2str dbs peer (of_vals vs) = Ok (Some (join_sp (map lcom_text vs))).
Proof.
  intros Hdb Hok. unfold lcommunity_lcom2str. rewrite Hdb. cbn [negb].
  change (c_size (of_vals vs)) with (Z.of_nat (length vs)).
  destruct (Z.eqb_spec (Z.of_nat (length vs)) 0) as [E|E]; [by destruct vs |].
  destruct (lcom_fill_spec vs Hok (length vs) 0 []) as (buf & E1 & _ & G);
    [lia | done | apply starts_nil |].
  change (map lcom_text (take 0 vs)) with (@nil (list Z)) in E1. cbn [join_sp first_of] in E1.
  change (strlen []) with 0 in E1. change (Z.of_nat 0) with 0 in E1. change (0 * 33) with 0 in E1.
  rewrite Nat2Z.id, E1. cbn [mbind res_bind].
  cbn zeta in G. assert (Hf : first_of (map lcom_text vs) = false) by (destruct vs; [cbn in E; lia | done]).
  rewrite Hf in G. destruct G as [r ->]. rewrite <- app_assoc. cbn [app]. rewrite c_string_app; [done |].
  apply join_sp_no_nul, Forall_map. eapply Forall_impl; [exact Hok |]. intros x Hx. apply (lcom_text_ok x Hx).
Qed.

(* ------------------------------------------------------------------ *)
(** ** The interface of interning *)

Lemma same_vals_eq w c1 c2 : 0 < w -> wf w c1 -> wf w c2 -> same_vals w c1 c2 = true <-> c1 = c2.
Proof.
  intros Hw H1 H2. destruct c1 as [n1 l1], c2 as [n2 l2], H1 as [A1 A2 _], H2 as [B1 B2 _].
  cbn [c_size c_val] in *. unfold same_vals. cbn [c_size c_val]. unfold strlen in *.
  rewrite andb_true_iff, !Z.eqb_eq. split; [intros [-> E] | intros [= -> ->]].
  - rewrite !take_ge in E by lia. apply memcmp_0 in E; [by subst | lia].
  - split; [done | apply memcmp_refl].
Qed.

Lemma sum_bytes_range n pnt : is_u32 (sum_bytes n pnt).
Proof.
  unfold sum_bytes. generalize (take (Z.to_nat n) pnt). intros l.
  assert (H : is_u32 0) by done. revert H. generalize 0.
  induction l as [|b l IH]; intros k Hk; cbn [fold_left]; [done |]. apply IH, u32_range.
Qed.

(** What the three kinds have in common. *)
Lemma comms_laws w (ok : comms -> Prop) (str : comms -> res (option (list Z))) :
  0 < w -> (forall c, ok c -> wf w c) -> (forall c, ok c -> exists s, str c = Ok s) ->
  @InternLaws comms (sized_internable w str) ok.
Proof.
  intros Hw Hok Hstr. split; cbn [value_key value_cmp value_str sized_internable].
  - intros v _. apply sum_bytes_range.
  - intros v H. apply (same_vals_eq w v v Hw); auto.
  - intros v u Hv Hu E. apply (same_vals_eq w v u Hw) in E; auto. subst. apply (same_vals_eq w u u Hw); auto.
  - intros u v x Hu Hv Hx E1 E2. apply (same_vals_eq w u v Hw) in E1; auto. by subst.
  - intros v u Hv Hu E. apply (same_vals_eq w v u Hw) in E; auto. by subst.
  - done.
Qed.

#[export] Instance community_laws dbs peer num :
  @InternLaws comms (community_internable dbs peer num) (wf 4).
Proof.
  apply (comms_laws 4 (wf 4) (fun c => community_com2str dbs peer num (Some c))); [done | done |].
  intros c Hc. destruct (has_db dbs peer) eqn:E.
  - rewrite <- (of_vals_id 4 ltac:(lia) c Hc).
    rewrite community_com2str_text by (first [done | by apply vals_ok]). by eexists.
  - unfold community_com2str. rewrite E. by eexists.
Qed.

(** The number of values is what [char *] arithmetic in [int] can address. *)
Definition ecom_ok (c : comms) : Prop := wf 8 c /\ c_size c < 2 ^ 24.

#[export] Instance ecommunity_laws dbs peer num :
  @InternLaws comms (ecommunity_internable dbs peer num) ecom_ok.
Proof.
  apply comms_laws; [done | by intros c [] |]. intros c [Hc Hn]. unfold ecom_str.
  destruct (has_db dbs peer) eqn:E.
  - rewrite <- (of_vals_id 8 ltac:(lia) c Hc).
    rewrite ecommunity_ecom2str_text; [by eexists | done | by apply vals_ok |].
    rewrite (vals_length 8); done.
  - unfold ecommunity_ecom2str. rewrite E. by eexists.
Qed.

#[export] Instance lcommunity_laws dbs peer :
  @InternLaws comms (lcommunity_internable dbs peer) (wf 12).
Proof.
  apply comms_laws; [done | done |]. intros c Hc. destruct (has_db dbs peer) eqn:E.
  - rewrite <- (of_vals_id 12 ltac:(lia) c Hc).
    rewrite lcommunity_lcom2str_text by (first [done | by apply vals_ok]). by eexists.
  - unfold lcommunity_lcom2str. rewrite E. by eexists.
Qed.

Lemma peer_has_db dbs peer : type peer < FUNC_TYPE_MAX -> has_db dbs (Some peer) = true.
Proof. intros H. unfold has_db. by rewrite (peer_misc_db dbs peer H). Qed.

(** Interning a new object. *)
Lemma intern_new_cases {I : Internable comms} ok `{HL : !@InternLaws comms I ok} w dbs peer st h c :
  0 < w -> (forall c1 c2, value_cmp c1 c2 = same_vals w c1 c2) -> (forall c, ok c -> wf w c) ->
  type peer < FUNC_TYPE_MAX -> intern_inv ok st h -> ok c ->
  (forall x ox, st !! x = Some ox -> refcnt ox < 2 ^ 64 - 1) ->
  exists st' h' f fo, intern_new dbs (Some peer) st h c = Ok (st', h', Some f) /\
    intern_inv ok st' h' /\ st' !! f = Some fo /\ o_val fo = c /\
    refcnt fo = 1 + match st !! f with Some o => refcnt o | None => 0 end /\
    (forall x, x <> f -> st' !! x = st !! x).
Proof.
  intros Hw Hcmp Hwf Hp Hinv Hc Hmax. unfold intern_new.
  set (l := fresh (dom st)).
  assert (Hl : st !! l = None) by (apply not_elem_of_dom, is_fresh).
  set (st0 := <[l := mk_obj c 0 None]> st).
  destruct (intern_cases ok dbs peer Hp st0 h l (mk_obj c 0 None)) as (st' & h' & f & fo & fo' & E & Hi & G1 & G2 & G3 & G4 & G5 & G6).
  - by apply intern_inv_new.
  - unfold st0. by rewrite lookup_insert_eq.
  - done.
  - intros x ox. unfold st0. destruct (decide (x = l)) as [->|].
    + rewrite lookup_insert_eq. by intros [= <-].
    + rewrite lookup_insert_ne by done. apply Hmax.
  - destruct (taken_val fo fo' G3) as [Tv Tr]. rewrite Hcmp in G4.
    assert (Hof : ok (o_val fo)).
    { rewrite <- Tv. exact (proj1 (ii_ok ok st' h' Hi f fo' G2)). }
    apply (same_vals_eq w) in G4; [| done | by apply Hwf | by apply Hwf].
    exists st', h', f, fo'. split_and!; try done; [by rewrite Tv | |].
    + rewrite Tr. unfold st0 in G1. destruct (decide (f = l)) as [->|].
      * rewrite lookup_insert_eq in G1. injection G1 as <-. by rewrite Hl.
      * rewrite lookup_insert_ne in G1 by done. rewrite G1. lia.
    + intros x Hx. rewrite G6 by done. destruct (decide (x = l)) as [->|]; [done |].
      unfold st0. by rewrite lookup_insert_ne.
Qed.

(* ------------------------------------------------------------------ *)
(** ** Reading a community *)

Lemma digits_from_u32 ds : forall low, u32 (digits_from (u32 low) ds) = u32 (digits_from low ds).
Proof.
  induction ds as [|c ds IH]; intros low; [unfold digits_from, u32, wrap; cbn [fold_left]; by rewrite Z.mod_mod |].
  cbn [digits_from fold_left]. fold (digits_from (u32 low * 10 + (c - 48)) ds).
  fold (digits_from (low * 10 + (c - 48)) ds). rewrite <- IH, <- (IH (low * 10 + (c - 48))). f_equal. f_equal.
  unfold u32, wrap. rewrite <- Z.add_mod_idemp_l by done.
  rewrite Z.mul_mod_idemp_l by done. by rewrite Z.add_mod_idemp_l.
Qed.

Lemma str2com_digits ds r sep dig low high :
  Forall (fun c => is_digit c = true) ds -> ds <> [] ->
  str2com_loop (ds ++ r) sep dig (u32 low) high = str2com_loop r sep true (u32 (digits_from low ds)) high.
Proof.
  intros Hd Hne. revert dig low. induction Hd as [|c ds Hc Hd IH]; intros dig low; [done |].
  cbn [app str2com_loop]. rewrite Hc. rewrite u32_add_l.
  assert (E : u32 (u32 low * 10 + (c - 48)) = u32 (low * 10 + (c - 48))).
  { unfold u32, wrap. rewrite <- (Z.add_mod_idemp_l (_ * 10)) by done.
    rewrite Z.mul_mod_idemp_l by done. by rewrite Z.add_mod_idemp_l. }
  rewrite E. destruct ds as [|d ds]; [done |]. by rewrite IH.
Qed.

Lemma skip_spaces_app sp s : Forall (fun c => is_space c = true) sp ->
  match s with c :: _ => is_space c = false | [] => True end -> skip_spaces (sp ++ s) = s.
Proof.
  intros H Hs. induction H as [|c sp Hc Hsp IH]; cbn [app skip_spaces].
  - destruct s as [|c s]; [done |]. cbn [skip_spaces]. by rewrite Hs.
  - by rewrite Hc.
Qed.

Lemma del_loop_spec vs v : Forall (val_ok 4) vs -> val_ok 4 v -> forall n i,
  (i + n = length vs)%nat -> v ∉ take i vs ->
  community_del_loop (S n) (of_vals vs) v (Z.of_nat i) =
    match list_find (v =.) (drop i vs) with
    | None => Ok (of_vals vs)
    | Some (k, _) => if (i + k + 1 =? length vs)%nat then Ok (of_vals (take (i + k) vs)) else Err OutOfBounds
    end.
Proof.
  intros Hok Hv. induction n as [|n IH]; intros i Hi Hni.
  { cbn [community_del_loop]. change (c_size (of_vals vs)) with (Z.of_nat (length vs)).
    rewrite (proj2 (Z.ltb_ge _ _)) by lia. cbn [negb]. by rewrite drop_ge by lia. }
  destruct (drop_some vs i n Hi) as (x & rest & Ed). remember (S n) as m eqn:Em.
  cbn [community_del_loop]. change (c_size (of_vals vs)) with (Z.of_nat (length vs)).
  rewrite (proj2 (Z.ltb_lt _ _)) by lia. cbn [negb].
  destruct (drop_next vs i x rest Ed) as [Ed' Hin].
  change (c_val (of_vals vs)) with (concat vs).
  rewrite (read_val 4 ltac:(lia) vs i x rest Hok Ed). cbn [mbind res_bind].
  assert (Hx : val_ok 4 x) by (rewrite Forall_forall in Hok; auto).
  assert (Hm : memcmp x v = 0 <-> x = v).
  { apply memcmp_0. destruct Hx as [Hx _], Hv as [Hv _]. unfold strlen in *. lia. }
  rewrite Ed. cbn [list_find]. cbn zeta. destruct (Z.eqb_spec (memcmp x v) 0) as [E|E].
  - apply Hm in E as ->. rewrite decide_True by done. rewrite Nat.add_0_r.
    assert (Hpre : Forall (val_ok 4) (take i vs)) by (by apply Forall_take).
    pose proof (concat_length 4 _ Hok) as Hl.
    destruct (Nat.eqb_spec (i + 1) (length vs)) as [E1|E1].
    + rewrite (proj2 (Z.ltb_ge 0 (Z.of_nat (length vs) - Z.of_nat i - 1))) by lia. cbn [mbind res_bind].
      assert (rest = []) as ->.
      { pose proof (length_drop vs i) as Hd. rewrite Ed in Hd. cbn [length] in Hd. destruct rest; [done | cbn in Hd; lia]. }
      assert (Ec : concat vs = concat (take i vs) ++ v).
      { rewrite <- (take_drop i vs) at 1. rewrite Ed, concat_app. cbn [concat]. by rewrite app_nil_r. }
      pose proof (concat_length 4 _ Hpre) as Hlp. rewrite length_take, Nat.min_l in Hlp by lia.
      f_equal. unfold of_vals. rewrite length_take, Nat.min_l by lia. f_equal; [lia |].
      destruct (Z.ltb_spec 0 (Z.of_nat (length vs) - 1)).
      * rewrite Ec. unfold strlen in Hlp. rewrite take_app_length'; [done | clear -Hlp E1; lia].
      * assert (i = 0)%nat as -> by lia. done.
    + rewrite (proj2 (Z.ltb_lt 0 (Z.of_nat (length vs) - Z.of_nat i - 1))) by lia. unfold memmove, read_bytes, sizeof_ptr. rewrite Hl.
      rewrite (proj2 (Z.leb_gt (_ + _) _)) by lia. by rewrite andb_false_r.
  - rewrite decide_False by (intros ->; by apply E, Hm).
    replace (Z.of_nat i + 1) with (Z.of_nat (S i)) by lia.
    rewrite IH; [| lia |].
    + rewrite Ed'. destruct (list_find _ rest) as [[k y]|]; [| done]. cbn.
      replace (i + S k)%nat with (S i + k)%nat by lia. done.
    + rewrite (take_S_drop vs i x rest Ed), elem_of_app, list_elem_of_singleton.
      intros [?| ->]; [done |]. by apply E, Hm.
Qed.

(* ------------------------------------------------------------------ *)
(** ** Theorems *)

(** Normalising a community attribute gives the numerically strictly
    increasing array of the same values; two attributes have the same normal
    form exactly when they have the same values. *)
Theorem community_uniq_sort_spec dbs peer c1 c2 :
  has_db dbs peer = true -> wf 4 c1 -> wf 4 c2 ->
  exists r1 r2, community_uniq_sort dbs peer (Some c1) = Ok (Some r1) /\
    community_uniq_sort dbs peer (Some c2) = Ok (Some r2) /\
    wf 4 r1 /\ StronglySorted clt (vals 4 r1) /\ (forall x, x ∈ vals 4 r1 <-> x ∈ vals 4 c1) /\
    (r1 = r2 <-> (forall x, x ∈ vals 4 c1 <-> x ∈ vals 4 c2)).
Proof.
  intros Hdb H1 H2.
  destruct (community_uniq_sort_vals dbs peer Hdb (vals 4 c1)) as (v1 & E1 & O1 & S1 & M1); [by apply vals_ok |].
  destruct (community_uniq_sort_vals dbs peer Hdb (vals 4 c2)) as (v2 & E2 & O2 & S2 & M2); [by apply vals_ok |].
  rewrite of_vals_id in E1, E2 by done.
  destruct (of_vals_wf 4 ltac:(lia) v1 O1) as [W1 V1]. destruct (of_vals_wf 4 ltac:(lia) v2 O2) as [W2 V2].
  exists (of_vals v1), (of_vals v2). rewrite V1. split_and!; try done. split.
  - intros E x. rewrite <- M1, <- M2. apply (f_equal (vals 4)) in E. rewrite V1, V2 in E. by subst.
  - intros E. f_equal. apply (strict_sorted_unique clt); [done | done |].
    intros x. by rewrite M1, M2.
Qed.

(** The same for the extended and the large communities, in the order of
    their bytes. *)
Theorem sized_uniq_sort_spec w dbs peer c1 c2 :
  0 < w -> has_db dbs peer = true -> wf w c1 -> wf w c2 ->
  exists r1 r2, sized_uniq_sort w dbs peer (Some c1) = Ok (Some r1) /\
    sized_uniq_sort w dbs peer (Some c2) = Ok (Some r2) /\
    wf w r1 /\ StronglySorted blt (vals w r1) /\ (forall x, x ∈ vals w r1 <-> x ∈ vals w c1) /\
    (r1 = r2 <-> (forall x, x ∈ vals w c1 <-> x ∈ vals w c2)).
Proof.
  intros Hw Hdb H1 H2.
  destruct (sized_uniq_sort_vals w dbs peer Hw Hdb (vals w c1)) as (v1 & E1 & S1 & M1); [by apply vals_ok |].
  destruct (sized_uniq_sort_vals w dbs peer Hw Hdb (vals w c2)) as (v2 & E2 & S2 & M2); [by apply vals_ok |].
  rewrite of_vals_id in E1, E2 by done.
  destruct (of_vals_wf w Hw v1 (sv_ok w v1 S1)) as [W1 V1]. destruct (of_vals_wf w Hw v2 (sv_ok w v2 S2)) as [W2 V2].
  exists (of_vals v1), (of_vals v2). rewrite V1. split_and!; try done; [apply S1 |]. split.
  - intros E x. rewrite <- M1, <- M2. apply (f_equal (vals w)) in E. rewrite V1, V2 in E. by subst.
  - intros E. f_equal. apply (sorted_vals_unique w); [done | done |].
    intros x. by rewrite M1, M2.
Qed.

(** Adding a value to a sorted array of extended or large communities
    keeps it sorted and adds the value unless it is there; the copies stay
    inside the reallocated array. *)
Theorem sized_add_val_spec w dbs peer c eval :
  0 < w -> has_db dbs peer = true -> wf w c -> StronglySorted blt (vals w c) -> val_ok w eval ->
  exists r c', sized_add_val w dbs peer c eval = Ok (r, c') /\
    wf w c' /\ StronglySorted blt (vals w c') /\
    (forall x, x ∈ vals w c' <-> x = eval \/ x ∈ vals w c).
Proof.
  intros Hw Hdb Hc Hs He.
  destruct (sized_add_spec w dbs peer Hw Hdb (vals w c) eval) as (r & vs' & E & S' & M);
    [split; [by apply vals_ok | done] | done |].
  rewrite of_vals_id in E by done. destruct (of_vals_wf w Hw vs' (sv_ok w vs' S')) as [W V].
  exists r, (of_vals vs'). rewrite V. split_and!; try done. apply S'.
Qed.

(** Printing communities, numbers or names, fits the counted length to
    the byte: the copies and the terminating NUL stay inside the buffer and the
    result is the names separated by spaces. *)
Theorem community_com2str_spec dbs peer num c :
  has_db dbs peer = true -> wf 4 c ->
  community_com2str dbs peer num (Some c) = Ok (Some (join_sp (names num (vals 4 c)))).
Proof.
  intros Hdb Hc. rewrite <- (of_vals_id 4 ltac:(lia) c Hc) at 1.
  apply community_com2str_text; [done |]. by apply vals_ok.
Qed.

(** Printing extended communities: the buffer that is doubled on the way
    is never overrun, and the result is the texts separated by spaces. *)
Theorem ecommunity_ecom2str_spec dbs peer num c format :
  has_db dbs peer = true -> ecom_ok c ->
  ecommunity_ecom2str dbs peer num c format = Ok (Some (join_sp (ecom_texts num format (vals 8 c)))).
Proof.
  intros Hdb [Hc Hn]. rewrite <- (of_vals_id 8 ltac:(lia) c Hc) at 1.
  apply ecommunity_ecom2str_text; [done | by apply vals_ok | by rewrite (vals_length 8)].
Qed.

(** Printing large communities: 33 bytes for each value are enough, and
    the result is the texts a:b:c separated by spaces. *)
Theorem lcommunity_lcom2str_spec dbs peer c :
  has_db dbs peer = true -> wf 12 c ->
  lcommunity_lcom2str dbs peer c = Ok (Some (join_sp (map lcom_text (vals 12 c)))).
Proof.
  intros Hdb Hc. rewrite <- (of_vals_id 12 ltac:(lia) c Hc) at 1.
  apply lcommunity_lcom2str_text; [done | by apply vals_ok].
Qed.

(** Reading back the numbers a community prints as gives the community,
    after any white space and before anything that is no digit or colon. *)
Theorem community_str2com_print v sp rest :
  is_u32 v -> Forall (fun c => is_space c = true) sp ->
  match rest with c :: _ => is_digit c = false /\ c <> 58 | [] => True end ->
  community_str2com_simple (sp ++ community_name true v ++ rest) = Some v.
Proof.
  intros Hv Hsp Hr. unfold community_name.
  assert (H1 : is_u16 (Z.land (Z.shiftr v 16) 65535)).
  { change 65535 with (Z.ones 16). rewrite Z.land_ones by lia. apply wrap_range. lia. }
  assert (H2 : is_u16 (Z.land v 65535)).
  { change 65535 with (Z.ones 16). rewrite Z.land_ones by lia. apply wrap_range. lia. }
  assert (Ev : v = Z.land (Z.shiftr v 16) 65535 * 65536 + Z.land v 65535).
  { change 65535 with (Z.ones 16). rewrite !Z.land_ones, Z.shiftr_div_pow2 by lia.
    unfold in_u in Hv. change (2 ^ 16) with 65536. rewrite (Z.mod_small (v / 65536)).
    - pose proof (Z.div_mod v 65536). lia.
    - split; [apply Z.div_pos; lia | apply Z.div_lt_upper_bound; lia]. }
  revert H1 H2 Ev. generalize (Z.land (Z.shiftr v 16) 65535) (Z.land v 65535). intros a b H1 H2 Ev.
  unfold in_u in H1, H2. destruct (dec_spec a ltac:(lia)) as (Da & Na & Va).
  destruct (dec_spec b ltac:(lia)) as (Db & Nb & Vb).
  rewrite <- !app_assoc. change (cstr ":") with [58]. cbn [app].
  unfold community_str2com_simple.
  assert (Hh : exists c r, dec a ++ 58 :: dec b ++ rest = c :: r /\ is_digit c = true).
  { destruct (dec a) as [|c ds]; [done |]. exists c, (ds ++ 58 :: dec b ++ rest). split; [done |]. by apply Forall_inv in Da. }
  destruct Hh as (c & r & Eh & Hc).
  rewrite skip_spaces_app; [| done | rewrite Eh; by apply digit_not_space].
  rewrite Eh, Hc. rewrite <- Eh. change 0 with (u32 0) at 1.
  rewrite str2com_digits by done. cbn [str2com_loop]. rewrite Va.
  change (is_digit 58) with false. change (58 =? 58) with true. cbn iota.
  change 0 with (u32 0) at 1. rewrite str2com_digits by done. rewrite Vb.
  assert (El : forall h, str2com_loop rest true true (u32 b) h = Some (true, u32 b, h)).
  { intros h. destruct rest as [|x rest]; cbn [str2com_loop]; [done |]. destruct Hr as [-> Hx].
    by rewrite (proj2 (Z.eqb_neq x 58)). }
  rewrite El, !(u32_small a), !(u32_small b), !Z.shiftl_mul_pow2 by lia. change (2 ^ 16) with 65536.
  rewrite (u32_small (a * 65536)), u32_small by lia. f_equal. lia.
Qed.

(** Deleting a community: a value that is absent leaves the attribute as
    it is, the last value is cut off; any other value makes the copy, which
    counts in pointers instead of values, run past the end of the array. *)
Theorem community_del_val_spec c v :
  wf 4 c -> val_ok 4 v ->
  community_del_val c v =
    match list_find (v =.) (vals 4 c) with
    | None => Ok c
    | Some (k, _) =>
        if (k + 1 =? length (vals 4 c))%nat then Ok (of_vals (take k (vals 4 c))) else Err OutOfBounds
    end.
Proof.
  intros Hc Hv. pose proof (vals_ok 4 ltac:(lia) c Hc) as Hok. pose proof (vals_length 4 c Hc) as Hl.
  pose proof (vals_concat 4 ltac:(lia) c Hc) as Hcc. pose proof (of_vals_id 4 ltac:(lia) c Hc) as Hid.
  unfold community_del_val. destruct (c_val c) as [|b bs] eqn:E.
  - assert (Hn : vals 4 c = []); [| by rewrite Hn]. destruct (vals 4 c) as [|x l]; [done |].
    apply Forall_inv in Hok. destruct Hok as [Hx _]. destruct x; [done | done].
  - rewrite <- Hl, Nat2Z.id. pose proof (del_loop_spec (vals 4 c) v Hok Hv (length (vals 4 c)) 0 eq_refl) as Hd.
    change (Z.of_nat 0) with 0 in Hd. cbn [drop take Nat.add] in Hd. rewrite Hid in Hd. apply Hd.
    by apply not_elem_of_nil.
Qed.

(** A COMMUNITIES attribute whose length is a multiple of four becomes one
    interned object, holding the sorted set of the values received, with one
    more reference than before; nothing else changes.  So two attributes with
    the same values share their object. *)
Theorem community_parse_spec dbs peer num st h pnt :
  type peer < FUNC_TYPE_MAX -> @intern_inv comms (community_internable dbs (Some peer) num) (wf 4) st h ->
  bytes_ok pnt -> strlen pnt mod 4 = 0 ->
  (forall x ox, st !! x = Some ox -> refcnt ox < 2 ^ 64 - 1) ->
  exists st' h' f fo, community_parse dbs (Some peer) num st h pnt (strlen pnt) = Ok (st', h', Some f) /\
    @intern_inv comms (community_internable dbs (Some peer) num) (wf 4) st' h' /\
    st' !! f = Some fo /\ StronglySorted clt (vals 4 (o_val fo)) /\
    (forall x, x ∈ vals 4 (o_val fo) <-> x ∈ chunks (Z.to_nat (strlen pnt / 4)) 4 pnt) /\
    refcnt fo = 1 + match st !! f with Some o => refcnt o | None => 0 end /\
    (forall x, x <> f -> st' !! x = st !! x).
Proof.
  intros Hp Hinv Hb Hl Hmax. unfold community_parse. rewrite (proj2 (Z.eqb_eq _ _) Hl). cbn [negb].
  set (c := mk_comms (strlen pnt / 4) pnt).
  assert (Hc : wf 4 c).
  { split; cbn; [pose proof (strlen_nonneg pnt); apply Z.div_pos; lia | | done].
    pose proof (Z.div_mod (strlen pnt) 4). lia. }
  destruct (community_uniq_sort_vals dbs (Some peer) (peer_has_db dbs peer Hp) (vals 4 c))
    as (v1 & E1 & O1 & S1 & M1); [by apply vals_ok |].
  rewrite of_vals_id in E1 by done. rewrite E1. cbn [mbind res_bind deref].
  destruct (of_vals_wf 4 ltac:(lia) v1 O1) as [W1 V1].
  destruct (intern_new_cases (I := community_internable dbs (Some peer) num) (wf 4) 4 dbs peer st h (of_vals v1)) as (st' & h' & f & fo & E & Hi & G1 & G2 & G3 & G4);
    try done.
  exists st', h', f, fo. rewrite G2, V1. done.
Qed.

(** The same for EXTENDED and LARGE COMMUNITIES attributes. *)
Theorem sized_parse_spec w ok str dbs peer st h pnt :
  0 < w -> (forall c, ok c -> wf w c) -> @InternLaws comms (sized_internable w str) ok ->
  type peer < FUNC_TYPE_MAX -> @intern_inv comms (sized_internable w str) ok st h ->
  bytes_ok pnt -> strlen pnt mod w = 0 ->
  (forall c, wf w c -> c_size c <= strlen pnt / w -> ok c) ->
  (forall x ox, st !! x = Some ox -> refcnt ox < 2 ^ 64 - 1) ->
  exists st' h' f fo, sized_parse w dbs (Some peer) str st h pnt (strlen pnt) = Ok (st', h', Some f) /\
    @intern_inv comms (sized_internable w str) ok st' h' /\
    st' !! f = Some fo /\ StronglySorted blt (vals w (o_val fo)) /\
    (forall x, x ∈ vals w (o_val fo) <-> x ∈ chunks (Z.to_nat (strlen pnt / w)) (Z.to_nat w) pnt) /\
    refcnt fo = 1 + match st !! f with Some o => refcnt o | None => 0 end /\
    (forall x, x <> f -> st' !! x = st !! x).
Proof.
  intros Hw Hok HL Hp Hinv Hb Hl Hsz Hmax. unfold sized_parse. rewrite (proj2 (Z.eqb_eq _ _) Hl). cbn [negb].
  set (c := mk_comms (strlen pnt / w) pnt).
  assert (Hc : wf w c).
  { split; cbn; [pose proof (strlen_nonneg pnt); apply Z.div_pos; lia | | done].
    pose proof (Z.div_mod (strlen pnt) w). lia. }
  destruct (sized_uniq_sort_vals w dbs (Some peer) Hw (peer_has_db dbs peer Hp) (vals w c))
    as (v1 & E1 & S1 & M1); [by apply vals_ok |].
  rewrite of_vals_id in E1 by done. rewrite E1. cbn [mbind res_bind deref].
  destruct (of_vals_wf w ltac:(lia) v1 (sv_ok w v1 S1)) as [W1 V1].
  assert (Hlen : (length v1 <= length (vals w c))%nat).
  { apply submseteq_length, NoDup_submseteq; [| intros x; apply M1].
    apply sorted_vals_nodup. apply S1. }
  pose proof (vals_length w c Hc) as Hvl.
  destruct (intern_new_cases (I := sized_internable w str) ok w dbs peer st h (of_vals v1)) as (st' & h' & f & fo & E & Hi & G1 & G2 & G3 & G4);
    try done.
  { apply Hsz; [done |]. cbn in *. lia. }
  exists st', h', f, fo. rewrite G2, V1. split_and!; try done. apply S1.
Qed.

(* ------------------------------------------------------------------ *)
(** ** Witnesses *)

Definition ex_dbs : misc_dbs := fun _ => mk_misc false 1 1 0.
Definition ex_peer : bgp_peer := mk_peer FUNC_TYPE_BGP 65000.

(** 65000:2, no-export, 65000:1, 65000:2 *)
Definition ex_comms : comms :=
  mk_comms 4 [253; 232; 0; 2; 255; 255; 255; 1; 253; 232; 0; 1; 253; 232; 0; 2].

Lemma ex_comms_wf : wf 4 ex_comms.
Proof. split; [done | done | by apply bytes_ok_b]. Qed.

(** Route target 65000:100 and a value of an opaque type, out of order. *)
Definition ex_ecomms : comms := mk_comms 2 [3; 12; 0; 0; 0; 0; 0; 8; 0; 2; 253; 232; 0; 0; 0; 100].
Definition ex_lcomms : comms := mk_comms 1 [0; 0; 253; 232; 0; 0; 0; 1; 255; 255; 255; 255].

Lemma ex_ecomms_wf : wf 8 ex_ecomms.
Proof. split; [done | done | by apply bytes_ok_b]. Qed.
Lemma ex_lcomms_wf : wf 12 ex_lcomms.
Proof. split; [done | done | by apply bytes_ok_b]. Qed.

Lemma community_uniq_sort_spec_witness :
  exists r, community_uniq_sort ex_dbs (Some ex_peer) (Some ex_comms) = Ok (Some r) /\
    r = mk_comms 3 [253; 232; 0; 1; 253; 232; 0; 2; 255; 255; 255; 1].
Proof.
  destruct (community_uniq_sort_spec ex_dbs (Some ex_peer) ex_comms ex_comms eq_refl ex_comms_wf ex_comms_wf)
    as (r & r2 & E & _). exists r. split; [exact E |]. vm_compute in E. congruence.
Defined.

Lemma sized_uniq_sort_spec_witness :
  exists r, ecommunity_uniq_sort ex_dbs (Some ex_peer) (Some ex_ecomms) = Ok (Some r) /\
    r = mk_comms 2 [0; 2; 253; 232; 0; 0; 0; 100; 3; 12; 0; 0; 0; 0; 0; 8].
Proof.
  destruct (sized_uniq_sort_spec 8 ex_dbs (Some ex_peer) ex_ecomms ex_ecomms eq_refl eq_refl
    ex_ecomms_wf ex_ecomms_wf) as (r & r2 & E & _).
  exists r. split; [exact E |]. vm_compute in E. congruence.
Defined.

Lemma sized_add_val_spec_witness :
  exists c', lcommunity_add_val ex_dbs (Some ex_peer) ex_lcomms (replicate 12 7) = Ok (1, c') /\
    c_size c' = 2 /\ wf 12 c'.
Proof.
  destruct (sized_add_val_spec 12 ex_dbs (Some ex_peer) ex_lcomms (replicate 12 7) eq_refl eq_refl ex_lcomms_wf)
    as (r & c' & E & W & _).
  - unfold vals. cbn. by repeat constructor.
  - split; [done | by apply bytes_ok_b].
  - exists c'. unfold lcommunity_add_val, LCOMMUNITY_SIZE. assert (r = 1 /\ c_size c' = 2) as [-> Hc].
    { vm_compute in E. by injection E as <- <-. }
    exact (conj E (conj Hc W)).
Defined.

Lemma community_com2str_spec_witness :
  community_com2str ex_dbs (Some ex_peer) false (Some ex_comms) =
    Ok (Some (cstr "65000:2 no-export 65000:1 65000:2")).
Proof. exact (community_com2str_spec ex_dbs (Some ex_peer) false ex_comms eq_refl ex_comms_wf). Defined.

Lemma ecommunity_ecom2str_spec_witness :
  ecommunity_ecom2str ex_dbs (Some ex_peer) false ex_ecomms ECOMMUNITY_FORMAT_DISPLAY =
    Ok (Some (cstr "? RT:65000:100")).
Proof.
  exact (ecommunity_ecom2str_spec ex_dbs (Some ex_peer) false ex_ecomms ECOMMUNITY_FORMAT_DISPLAY
    eq_refl (conj ex_ecomms_wf eq_refl)).
Defined.

Lemma lcommunity_lcom2str_spec_witness :
  lcommunity_lcom2str ex_dbs (Some ex_peer) ex_lcomms = Ok (Some (cstr "65000:1:4294967295")).
Proof. exact (lcommunity_lcom2str_spec ex_dbs (Some ex_peer) ex_lcomms eq_refl ex_lcomms_wf). Defined.

Lemma community_str2com_print_witness :
  community_str2com_simple (cstr " 65000:100 x") = Some 4259840100.
Proof.
  apply (community_str2com_print 4259840100 [32] (cstr " x")).
  - unfold in_u. lia.
  - by repeat constructor.
  - by split.
Defined.

Lemma community_del_val_spec_witness :
  community_del_val ex_comms [253; 232; 0; 1] = Err OutOfBounds.
Proof.
  rewrite (community_del_val_spec ex_comms [253; 232; 0; 1] ex_comms_wf).
  - vm_compute. reflexivity.
  - split; [done | by apply bytes_ok_b].
Defined.

Lemma community_parse_spec_witness :
  exists st h f fo,
    community_parse ex_dbs (Some ex_peer) true ∅ (hash_create 7) (c_val ex_comms) 16 = Ok (st, h, Some f) /\
    st !! f = Some fo /\ refcnt fo = 1.
Proof.
  destruct (community_parse_spec ex_dbs ex_peer true ∅ (hash_create 7) (c_val ex_comms))
    as (st & h & f & fo & E & _ & H & _ & _ & R & _).
  - done.
  - apply intern_inv_empty; [lia |]. intros l o Hl. by rewrite lookup_empty in Hl.
  - by apply bytes_ok_b.
  - done.
  - intros x o Hx. by rewrite lookup_empty in Hx.
  - exists st, h, f, fo. rewrite lookup_empty in R. exact (conj E (conj H R)).
Defined.

Lemma sized_parse_spec_witness :
  exists st h f fo,
    ecommunity_parse ex_dbs (Some ex_peer) true ∅ (hash_create 7) (c_val ex_ecomms) 16 = Ok (st, h, Some f) /\
    st !! f = Some fo /\ refcnt fo = 1.
Proof.
  destruct (sized_parse_spec 8 ecom_ok (ecom_str ex_dbs (Some ex_peer) true) ex_dbs ex_peer ∅ (hash_create 7)
    (c_val ex_ecomms)) as (st & h & f & fo & E & _ & H & _ & _ & R & _).
  - done.
  - by intros c [].
  - exact (ecommunity_laws ex_dbs (Some ex_peer) true).
  - done.
  - apply (@intern_inv_empty comms (ecommunity_internable ex_dbs (Some ex_peer) true) ecom_ok); [lia |].
    intros l o Hl. by rewrite lookup_empty in Hl.
  - by apply bytes_ok_b.
  - done.
  - intros c Hc Hs. split; [done |]. change (strlen (c_val ex_ecomms) / 8) with 2 in Hs. lia.
  - intros x o Hx. by rewrite lookup_empty in Hx.
  - exists st, h, f, fo. rewrite lookup_empty in R. exact (conj E (conj H R)).
Defined.

End CommunitiesFacts.
