(* ===== verification/BgpAttr.v ===== *)
(** * src/bgp/bgp_util.c: path attributes, route information, distinguishers

    [struct bgp_rt_structs] is a record of the stores and hash tables of AS
    paths, communities and attributes, and of the routing tables.  An attribute
    points to interned objects; a [struct bgp_attr] that the code keeps on its
    stack is an object of the store like any other, with no references.  The
    hooks that BMP installs in [struct bgp_misc_structs] are parameters. *)

From S2P Require Import Prelude CBuf Bgp BgpPrefix BgpTable BgpHash Aspath Communities.

Module BgpAttr.
Import CBuf Bgp BgpPrefix BgpTable BgpHash BgpIntern Aspath Communities.

Definition BGP_BMAP_ATTR_MULTI_EXIT_DISC : Z := 0x01.
Definition BGP_BMAP_ATTR_LOCAL_PREF : Z := 0x02.
Definition BGP_BMAP_ATTR_AIGP : Z := 0x04.

Definition AFI_IP : Z := 1.
Definition AFI_IP6 : Z := 2.
Definition AFI_BGP_LS : Z := 16388.
Definition AFI_MAX : Z := 3.
Definition SAFI_UNICAST : Z := 1.
Definition SAFI_MULTICAST : Z := 2.
Definition SAFI_MPLS_LABEL : Z := 4.
Definition SAFI_LS_GLOBAL : Z := 71.
Definition SAFI_LS_VPN : Z := 72.
Definition SAFI_MPLS_VPN : Z := 128.
Definition SAFI_MAX : Z := 129.

Definition RD_TYPE_AS : Z := 0.
Definition RD_TYPE_IP : Z := 1.
Definition RD_TYPE_AS4 : Z := 2.
Definition RD_TYPE_VRFID : Z := 0x0800.
Definition RD_TYPE_MASK : Z := 0x0FFF.
Definition RD_ORIGIN_BGP : Z := 0x4000.
Definition RD_ORIGIN_MASK : Z := 0xF000.

Definition SUCCESS : Z := 0.

(** A field of a structure in memory, little-endian. *)
Definition le16 (v : Z) : list Z := [v mod 256; v / 256 mod 256].
Definition le32 (v : Z) : list Z := [v mod 256; v / 256 mod 256; v / 65536 mod 256; v / 16777216 mod 256].
Definition le_u16 (w : list Z) (i : Z) : Z := byte_at w i + 256 * byte_at w (i + 1).
Definition le_u32 (w : list Z) (i : Z) : Z := le_u16 w i + 65536 * le_u16 w (i + 2).

(** ** Addresses (addr.c) *)

(** [struct host_addr]; the union is its 16 octets, an IPv4 address the first
    four, in network order. *)
Record host_addr := mk_ha {
  ha_family : Z;
  ha_address : list Z
}.

Definition ha0 : host_addr := mk_ha 0 (replicate 16 0).
(** [address.ipv4.s_addr] as the little-endian host reads it. *)
Definition s_addr (w : list Z) : Z := le_u32 w 0.

Definition ip6_addr_cmp (a1 a2 : list Z) : Z :=
  let chunk i := (le_u32 a1 (4 * i), le_u32 a2 (4 * i)) in
  let fix go n i := match n with
                    | O => 0
                    | S n' => let '(x, y) := chunk i in
                              if x =? y then go n' (i + 1) else if y <? x then 1 else ERR
                    end in
  go 4%nat 0.

Definition host_addr_cmp2 (a1 a2 : host_addr) : Z :=
  let mapped a := replicate 10 0 ++ [0xff; 0xff] ++ take 4 (ha_address a) in
  let is_mapped a := (byte_at (ha_address a) 10 =? 0xff) && (byte_at (ha_address a) 11 =? 0xff) in
  let none := if (ha_family a1 =? 0) && (ha_family a2 =? 0) then 0 else ERR in
  if (ha_family a1 =? AF_INET) && (ha_family a2 =? AF_INET) then
    if s_addr (ha_address a1) =? s_addr (ha_address a2) then 0
    else if s_addr (ha_address a2) <? s_addr (ha_address a1) then 1 else ERR
  else if (ha_family a1 =? AF_INET6) && (ha_family a2 =? AF_INET6) then
    ip6_addr_cmp (ha_address a1) (ha_address a2)
  else if (ha_family a1 =? AF_INET) && (ha_family a2 =? AF_INET6) then
    if is_mapped a2 then ip6_addr_cmp (ha_address a2) (mapped a1) else none
  else if (ha_family a1 =? AF_INET6) && (ha_family a2 =? AF_INET) then
    if is_mapped a1 then ip6_addr_cmp (ha_address a1) (mapped a2) else none
  else none.

Definition bgp_afi2family (afi : Z) : Z :=
  if afi =? AFI_IP then AF_INET else if afi =? AFI_IP6 then AF_INET6 else AF_UNSPEC.

(** ** Route distinguishers *)

(** [rd_t]: the type and the six octets that [struct rd_as], [struct rd_ip]
    and [struct rd_as4] read in their own way. *)
Record rd_t := mk_rd {
  rd_type : Z;
  rd_body : list Z
}.

Definition rd0 : rd_t := mk_rd 0 (replicate 6 0).
Definition rda (as_ val : Z) : list Z := le16 as_ ++ le32 val.
Definition rdi (ip : list Z) (val : Z) : list Z := ip ++ le16 val.
Definition rda4 (as_ val : Z) : list Z := le32 as_ ++ le16 val.

Definition bgp_rd_type_get (type : Z) : Z := Z.land type RD_TYPE_MASK.
Definition bgp_rd_origin_get (type : Z) : Z := Z.land type RD_ORIGIN_MASK.
Definition bgp_rd_origin_set (rd : rd_t) (source : Z) : rd_t :=
  mk_rd (Z.lor source (bgp_rd_type_get (rd_type rd))) (rd_body rd).

(** [bgp_rd_ntoh]: the structure as it came from the wire is swapped in
    place. *)
Definition bgp_rd_ntoh (rd : rd_t) : Z * rd_t :=
  let b := byte_at (rd_body rd) in
  let type := be16 (rd_type rd mod 256) (rd_type rd / 256) in
  if type =? RD_TYPE_AS then (SUCCESS, mk_rd type (rda (be16 (b 0) (b 1)) (be32 (b 2) (b 3) (b 4) (b 5))))
  else if type =? RD_TYPE_IP then (SUCCESS, mk_rd type (rdi (take 4 (rd_body rd)) (be16 (b 4) (b 5))))
  else if type =? RD_TYPE_AS4 then (SUCCESS, mk_rd type (rda4 (be32 (b 0) (b 1) (b 2) (b 3)) (be16 (b 4) (b 5))))
  else (ERR, mk_rd type (rd_body rd)).

Definition bgp_rd2str (rd : rd_t) : list Z :=
  let type := bgp_rd_type_get (rd_type rd) in
  let w := rd_body rd in
  if type =? RD_TYPE_AS then dec type ++ cstr ":" ++ dec (le_u16 w 0) ++ cstr ":" ++ dec (le_u32 w 2)
  else if type =? RD_TYPE_IP then dec type ++ cstr ":" ++ inet_ntoa w ++ cstr ":" ++ dec (le_u16 w 4)
  else if type =? RD_TYPE_AS4 then dec type ++ cstr ":" ++ dec (le_u32 w 0) ++ cstr ":" ++ dec (le_u16 w 4)
  else if type =? RD_TYPE_VRFID then cstr "vrfid:" ++ dec (le_u32 w 2)
  else cstr "unknown".

(** ** Attributes *)

Record bgp_attr := mk_attr {
  a_aspath : option loc;
  a_community : option loc;
  a_ecommunity : option loc;
  a_lcommunity : option loc;
  a_refcnt : Z;
  rpki_maxlen : Z;
  nexthop : list Z;
  mp_nexthop : host_addr;
  med : Z;
  local_pref : Z;
  origin : Z;
  a_bitmap : Z
}.

(** [memset (&attr, 0, sizeof (struct bgp_attr))] *)
Definition attr0 : bgp_attr := mk_attr None None None None 0 0 (replicate 4 0) ha0 0 0 0 0.

Record bgp_attr_extra := mk_extra {
  e_bitmap : Z;
  e_rd : rd_t;
  e_label : list Z;
  e_path_id : Z;
  e_aigp : Z;
  e_psid_li : Z;
  e_otc : Z;
  (** [ls.ptr] and [ls.len] *)
  e_ls : option (Z * Z)
}.

Definition extra0 : bgp_attr_extra := mk_extra 0 rd0 (replicate 3 0) 0 0 0 0 None.

Definition with_refcnt (n : Z) (a : bgp_attr) : bgp_attr :=
  mk_attr (a_aspath a) (a_community a) (a_ecommunity a) (a_lcommunity a) n (rpki_maxlen a) (nexthop a)
    (mp_nexthop a) (med a) (local_pref a) (origin a) (a_bitmap a).
Definition with_ptrs (p1 p2 p3 p4 : option loc) (a : bgp_attr) : bgp_attr :=
  mk_attr p1 p2 p3 p4 (a_refcnt a) (rpki_maxlen a) (nexthop a)
    (mp_nexthop a) (med a) (local_pref a) (origin a) (a_bitmap a).
Definition with_aspath (p : option loc) (a : bgp_attr) : bgp_attr :=
  with_ptrs p (a_community a) (a_ecommunity a) (a_lcommunity a) a.

Definition evaluate_last_asn (as_ : option aspath_value) : Z :=
  match as_ with None => 0 | Some v => v_last_as v end.

Section Attr.
(** [struct bgp_msg_extra_data]. *)
Context {X : Type}.

Record bgp_info := mk_info {
  i_peer : loc;
  i_attr : option loc;
  i_attr_extra : option bgp_attr_extra;
  i_bmed : X
}.

Record bgp_rt_structs := mk_rt {
  r_as : objs aspath_value;
  ashash : hash loc;
  r_com : objs comms;
  comhash : hash loc;
  r_ecom : objs comms;
  ecomhash : hash loc;
  r_lcom : objs comms;
  lcomhash : hash loc;
  r_attr : gmap loc bgp_attr;
  attrhash : hash loc;
  rib : gmap (Z * Z) (bgp_table bgp_info)
}.

Definition with_as (rt : bgp_rt_structs) (sh : objs aspath_value * hash loc) : bgp_rt_structs :=
  mk_rt (fst sh) (snd sh) (r_com rt) (comhash rt) (r_ecom rt) (ecomhash rt) (r_lcom rt) (lcomhash rt)
    (r_attr rt) (attrhash rt) (rib rt).
Definition with_com (rt : bgp_rt_structs) (sh : objs comms * hash loc) : bgp_rt_structs :=
  mk_rt (r_as rt) (ashash rt) (fst sh) (snd sh) (r_ecom rt) (ecomhash rt) (r_lcom rt) (lcomhash rt)
    (r_attr rt) (attrhash rt) (rib rt).
Definition with_ecom (rt : bgp_rt_structs) (sh : objs comms * hash loc) : bgp_rt_structs :=
  mk_rt (r_as rt) (ashash rt) (r_com rt) (comhash rt) (fst sh) (snd sh) (r_lcom rt) (lcomhash rt)
    (r_attr rt) (attrhash rt) (rib rt).
Definition with_lcom (rt : bgp_rt_structs) (sh : objs comms * hash loc) : bgp_rt_structs :=
  mk_rt (r_as rt) (ashash rt) (r_com rt) (comhash rt) (r_ecom rt) (ecomhash rt) (fst sh) (snd sh)
    (r_attr rt) (attrhash rt) (rib rt).
Definition with_attr (rt : bgp_rt_structs) (sh : gmap loc bgp_attr * hash loc) : bgp_rt_structs :=
  mk_rt (r_as rt) (ashash rt) (r_com rt) (comhash rt) (r_ecom rt) (ecomhash rt) (r_lcom rt) (lcomhash rt)
    (fst sh) (snd sh) (rib rt).
Definition with_rib (rt : bgp_rt_structs) (m : gmap (Z * Z) (bgp_table bgp_info)) : bgp_rt_structs :=
  mk_rt (r_as rt) (ashash rt) (r_com rt) (comhash rt) (r_ecom rt) (ecomhash rt) (r_lcom rt) (lcomhash rt)
    (r_attr rt) (attrhash rt) m.

(** [rib[afi][safi]]: faults outside the array. *)
Definition get_rib (rt : bgp_rt_structs) (afi safi : Z) : res (bgp_table bgp_info) :=
  match rib rt !! (afi, safi) with Some t => Ok t | None => Err OutOfBounds end.
Definition set_rib (rt : bgp_rt_structs) (afi safi : Z) (t : bgp_table bgp_info) : bgp_rt_structs :=
  with_rib rt (<[(afi, safi) := t]> (rib rt)).

(** The stores before anything was allocated. *)
Definition rt0 : bgp_rt_structs :=
  let h := hash_create_size 0 in mk_rt ∅ h ∅ h ∅ h ∅ h ∅ h ∅.

(** [aspath_init] does not use its argument. *)
Definition bgp_attr_init (buckets : Z) (rt : bgp_rt_structs) : bgp_rt_structs :=
  mk_rt (r_as rt) (hash_create_size 32767) (r_com rt) (hash_create buckets) (r_ecom rt) (hash_create buckets)
    (r_lcom rt) (hash_create buckets) (r_attr rt) (hash_create buckets) (rib rt).

(** bgp.c, "Let's initialize clean shared RIB". *)
Definition init_shared_rib (rt : bgp_rt_structs) : bgp_rt_structs :=
  foldl (fun rt afi => foldl (fun rt safi => set_rib rt afi safi (bgp_table_init afi safi)) rt
                         (seqZ SAFI_UNICAST (SAFI_MAX - SAFI_UNICAST)))
    rt (seqZ AFI_IP (AFI_MAX - AFI_IP)).

(** The keys of what an attribute points to; 0 for NULL. *)
Definition ptr_key {V} `{Internable V} (st : objs V) (o : option loc) : res Z :=
  match o with None => Ok 0 | Some l => obj_key st l end.

Section Ops.
Context (dbs : misc_dbs) (bgp_comms_num : bool).

Definition attrhash_key_make (rt : bgp_rt_structs) (l : loc) : res Z :=
  attr ← deref (r_attr rt !! l);
  k1 ← ptr_key (r_as rt) (a_aspath attr);
  k2 ← match a_community attr with
       | None => Ok 0
       | Some l => o ← deref (r_com rt !! l); Ok (community_hash_make (o_val o))
       end;
  k3 ← match a_ecommunity attr with
       | None => Ok 0
       | Some l => o ← deref (r_ecom rt !! l); Ok (ecommunity_hash_make (o_val o))
       end;
  k4 ← match a_lcommunity attr with
       | None => Ok 0
       | Some l => o ← deref (r_lcom rt !! l); Ok (lcommunity_hash_make (o_val o))
       end;
  Ok (u32 (origin attr + s_addr (nexthop attr) + med attr + local_pref attr + a_bitmap attr
           + k1 + k2 + k3 + k4)).

Definition attr_cmp (attr1 attr2 : bgp_attr) : bool :=
  (rpki_maxlen attr1 =? rpki_maxlen attr2)
  && (a_bitmap attr1 =? a_bitmap attr2)
  && (origin attr1 =? origin attr2)
  && (s_addr (nexthop attr1) =? s_addr (nexthop attr2))
  && bool_decide (a_aspath attr1 = a_aspath attr2)
  && bool_decide (a_community attr1 = a_community attr2)
  && bool_decide (a_ecommunity attr1 = a_ecommunity attr2)
  && bool_decide (a_lcommunity attr1 = a_lcommunity attr2)
  && (med attr1 =? med attr2)
  && (local_pref attr1 =? local_pref attr2)
  && (host_addr_cmp2 (mp_nexthop attr1) (mp_nexthop attr2) =? 0).

Definition attrhash_cmp (rt : bgp_rt_structs) (l1 l2 : loc) : res bool :=
  attr1 ← deref (r_attr rt !! l1);
  attr2 ← deref (r_attr rt !! l2);
  Ok (attr_cmp attr1 attr2).

Definition bgp_attr_hash_alloc (rt : bgp_rt_structs) (p : loc) : res (bgp_rt_structs * option loc) :=
  val ← deref (r_attr rt !! p);
  let l := fresh (dom (r_attr rt)) in
  Ok (with_attr rt (<[l := with_refcnt 0 val]> (r_attr rt), attrhash rt), Some l).

(** One of the four pointers: interned when nobody refers to it, referenced
    once more otherwise. *)
Definition intern_ptr {V} (intern : objs V -> hash loc -> loc -> res (objs V * hash loc * option loc))
    (st : objs V) (h : hash loc) (o : option loc) : res (objs V * hash loc * option loc) :=
  match o with
  | None => Ok (st, h, None)
  | Some l =>
      ob ← deref (st !! l);
      if refcnt ob =? 0 then intern st h l
      else Ok (<[l := mk_obj (o_val ob) (u64 (refcnt ob + 1)) (o_str ob)]> st, h, Some l)
  end.

(** [attr] is where the caller has its structure, whose pointers may change. *)
Definition bgp_attr_intern (peer : option bgp_peer) (rt : bgp_rt_structs) (attr : loc)
    : res (bgp_rt_structs * option loc) :=
  match peer with
  | None => Ok (rt, None)
  | Some _ =>
      if negb (routing_db peer) then Ok (rt, None)
      else
        a ← deref (r_attr rt !! attr);
        '(st, h, p1) ← intern_ptr (aspath_intern dbs peer) (r_as rt) (ashash rt) (a_aspath a);
        let rt := with_as rt (st, h) in
        '(st, h, p2) ← intern_ptr (community_intern dbs peer bgp_comms_num) (r_com rt) (comhash rt) (a_community a);
        let rt := with_com rt (st, h) in
        '(st, h, p3) ← intern_ptr (ecommunity_intern dbs peer bgp_comms_num) (r_ecom rt) (ecomhash rt) (a_ecommunity a);
        let rt := with_ecom rt (st, h) in
        '(st, h, p4) ← intern_ptr (lcommunity_intern dbs peer) (r_lcom rt) (lcomhash rt) (a_lcommunity a);
        let rt := with_lcom rt (st, h) in
        let rt := with_attr rt (<[attr := with_ptrs p1 p2 p3 p4 a]> (r_attr rt), attrhash rt) in
        '(rt, h, find) ← hash_get attrhash_key_make attrhash_cmp dbs peer rt (attrhash rt) attr
                           (Some bgp_attr_hash_alloc);
        find ← deref find;
        f ← deref (r_attr rt !! find);
        Ok (with_attr rt (<[find := with_refcnt (u64 (a_refcnt f + 1)) f]> (r_attr rt), h), Some find)
  end.

Definition unintern_ptr {V} (unintern : objs V -> hash loc -> loc -> res (objs V * hash loc))
    (st : objs V) (h : hash loc) (o : option loc) : res (objs V * hash loc) :=
  match o with None => Ok (st, h) | Some l => unintern st h l end.

(** The references of an attribute to what it points to are dropped. *)
Definition unintern_ptrs (peer : option bgp_peer) (rt : bgp_rt_structs) (a : bgp_attr) : res bgp_rt_structs :=
  sh ← unintern_ptr (aspath_unintern peer) (r_as rt) (ashash rt) (a_aspath a);
  let rt := with_as rt sh in
  sh ← unintern_ptr (community_unintern dbs peer bgp_comms_num) (r_com rt) (comhash rt) (a_community a);
  let rt := with_com rt sh in
  sh ← unintern_ptr (ecommunity_unintern dbs peer bgp_comms_num) (r_ecom rt) (ecomhash rt) (a_ecommunity a);
  let rt := with_ecom rt sh in
  sh ← unintern_ptr (lcommunity_unintern dbs peer) (r_lcom rt) (lcomhash rt) (a_lcommunity a);
  Ok (with_lcom rt sh).

Definition bgp_attr_unintern (peer : option bgp_peer) (rt : bgp_rt_structs) (attr : loc)
    : res bgp_rt_structs :=
  match peer with
  | None => Ok rt
  | Some p =>
      if negb (routing_db peer) || negb (bool_decide (is_Some (bgp_select_misc_db dbs (type p)))) then Ok rt
      else
        a ← deref (r_attr rt !! attr);
        let a := with_refcnt (u64 (a_refcnt a - 1)) a in
        let rt := with_attr rt (<[attr := a]> (r_attr rt), attrhash rt) in
        rt ← (if a_refcnt a =? 0 then
                '(h, _) ← hash_release attrhash_key_make attrhash_cmp rt (attrhash rt) attr;
                Ok (with_attr rt (delete attr (r_attr rt), h))
              else Ok rt);
        unintern_ptrs peer rt a
  end.

End Ops.
End Attr.

Arguments bgp_info X : clear implicits.
Arguments bgp_rt_structs X : clear implicits.

End BgpAttr.
