(* ===== verification/BgpAttrFacts.v ===== *)
(** * Path attributes: one object per attribute, every reference counted

    The reference counts of the tables agree with who refers to what: the
    count of an AS path or a community is the number of references that
    attributes, weighted by their own counts, and temporaries have to it; the
    count of an attribute is the number of routes and temporaries.
    [bgp_attr_intern] and [bgp_attr_unintern] keep that, so that an object is
    freed exactly when nothing refers to it any more. *)

From S2P Require Import Prelude CBuf Bgp BgpPrefix BgpTable BgpHash BgpHashFacts BgpInternFacts.
From S2P Require Import Aspath AspathFacts Communities CommunitiesFacts BgpAttr.

Module BgpAttrFacts.
Import CBuf Bgp BgpPrefix BgpTable BgpHash BgpHashFacts BgpIntern BgpInternFacts
  Aspath AspathFacts Communities CommunitiesFacts BgpAttr.

(** ** One store *)

(** A function changed at one place, or at the place a pointer gives. *)
Definition bump (f : loc -> Z) (o : option loc) (d : Z) : loc -> Z :=
  fun x => f x + (if decide (o = Some x) then d else 0).

Section Counted.
Context {V : Type} `{HI : Internable V} (ok : V -> Prop) `{HL : !InternLaws V ok}.
Implicit Types (st : objs V) (h : hash loc) (l : loc) (o : obj V) (refs : loc -> Z).

(** The counts of the objects are [refs]. *)
Record counted st h refs : Prop := {
  ct_inv : intern_inv ok st h;
  ct_refs : forall l, refs l = match st !! l with Some o => refcnt o | None => 0 end
}.

Definition same_val st st' l : Prop := o_val <$> st' !! l = o_val <$> st !! l.

Lemma counted_live st h refs l : counted st h refs -> 0 < refs l -> exists o, st !! l = Some o /\ ok (o_val o) /\ refcnt o = refs l.
Proof.
  intros [Hi Hr] H. rewrite Hr in H |- *. destruct (st !! l) as [o|] eqn:E; [| lia].
  exists o. split; [done |]. split; [by apply (ii_ok ok st h Hi l) | done].
Qed.

Lemma counted_ext st h refs refs' : counted st h refs -> (forall l, refs' l = refs l) -> counted st h refs'.
Proof. intros [Hi Hr] E. split; [done |]. intros l. by rewrite E. Qed.

Lemma ref_step st h refs l o :
  counted st h refs -> st !! l = Some o -> 0 < refcnt o < 2 ^ 64 - 1 ->
  let st' := <[l := mk_obj (o_val o) (u64 (refcnt o + 1)) (o_str o)]> st in
  counted st' h (bump refs (Some l) 1) /\ forall x, same_val st st' x.
Proof using HI HL.
  intros [Hi Hr] H Hc st'. subst st'. rewrite u64_small by lia.
  assert (Hx : forall x, <[l := mk_obj (o_val o) (refcnt o + 1) (o_str o)]> st !! x =
    if decide (x = l) then Some (mk_obj (o_val o) (refcnt o + 1) (o_str o)) else st !! x).
  { intros x. destruct (decide (x = l)) as [->|]; [apply lookup_insert_eq | by apply lookup_insert_ne]. }
  set (st' := <[l := _]> st) in *.
  split; [split; [split |] |].
  - apply (wf_hash_store ok st); [apply Hi |]. intros x ox _ Hox. rewrite Hx.
    case_decide as Hd; [| by exists ox]. subst x. rewrite H in Hox. injection Hox as <-. by eexists.
  - intros x ox. rewrite Hx. case_decide as Hd; [| apply Hi]. intros [= <-]. cbn.
    destruct (ii_ok ok st h Hi l o H). split; [done | lia].
  - intros x ox. rewrite Hx. case_decide as Hd; [| apply Hi]. intros [= <-]. cbn. subst x.
    rewrite (ii_refs ok st h Hi l o H). lia.
  - intros x. rewrite Hx. unfold bump. destruct (decide (x = l)) as [->|Hne].
    + rewrite decide_True by done. rewrite Hr, H. done.
    + rewrite decide_False by congruence. rewrite Hr. lia.
  - intros x. unfold same_val. rewrite Hx. case_decide as Hd; [| done]. by rewrite Hd, H.
Qed.

Context (peer : bgp_peer).
Hypothesis Hpeer : type peer < FUNC_TYPE_MAX.

(** A pointer of an attribute: interned already, so it is referenced. *)
Lemma intern_ptr_step f st h refs p :
  counted st h refs -> (forall l, p = Some l -> 0 < refs l < 2 ^ 64 - 1) ->
  exists st', intern_ptr f st h p = Ok (st', h, p) /\ counted st' h (bump refs p 1) /\ forall x, same_val st st' x.
Proof using HI HL.
  intros Hc Hp. unfold intern_ptr. destruct p as [l|].
  - destruct (Hp l eq_refl) as [H1 H2]. destruct (counted_live st h refs l Hc H1) as (o & H & _ & Eo).
    rewrite H. cbn [deref mbind res_bind]. rewrite (proj2 (Z.eqb_neq _ _)) by lia.
    eexists. split; [done |]. by apply ref_step; [.. | lia].
  - exists st. split; [done |]. split; [| done]. apply (counted_ext st h refs); [done |]. intros l. unfold bump.
    rewrite decide_False by done. lia.
Qed.

Lemma unintern_ptr_step st h refs p :
  counted st h refs -> (forall l, p = Some l -> 0 < refs l) ->
  exists st' h', unintern_ptr (unintern (Some peer)) st h p = Ok (st', h') /\
    counted st' h' (bump refs p (-1)) /\ forall x, 0 < bump refs p (-1) x -> same_val st st' x.
Proof using HI HL Hpeer.
  intros Hc Hp. unfold unintern_ptr. destruct p as [l|].
  - destruct (counted_live st h refs l Hc (Hp l eq_refl)) as (o & H & Hok & Eo).
    pose proof (Hp l eq_refl) as Hpos. destruct Hc as [Hi Hr].
    destruct (unintern_cases ok peer Hpeer st h l o Hi H ltac:(lia)) as (st' & h' & E & Hi' & Hl & Hother).
    exists st', h'. split; [done |].
    assert (Hrefs : forall x, bump refs (Some l) (-1) x = match st' !! x with Some o => refcnt o | None => 0 end).
    { intros x. unfold bump. destruct (decide (Some l = Some x)) as [[= <-]|Hne].
      - rewrite <- Eo. case_decide as Hd; destruct Hl as [-> _]; cbn; lia.
      - rewrite Hother by congruence. rewrite Hr. lia. }
    split; [done |]. intros x Hx. unfold same_val. destruct (decide (x = l)) as [->|]; [| by rewrite Hother].
    rewrite Hrefs in Hx. case_decide as Hd; destruct Hl as [El _]; rewrite El in Hx |- *; [lia |]. by rewrite H.
  - exists st, h. split; [done |]. split; [| done]. apply (counted_ext st h refs); [done |]. intros l. unfold bump.
    rewrite decide_False by done. lia.
Qed.

End Counted.

(** ** Comparing attributes *)

Definition ip6_same (a b : list Z) : bool :=
  forallb (fun i => le_u32 a (4 * i) =? le_u32 b (4 * i)) [0; 1; 2; 3].

Lemma ip6_addr_cmp_0 a b : (ip6_addr_cmp a b =? 0) = ip6_same a b.
Proof.
  unfold ip6_addr_cmp, ip6_same. cbn -[le_u32 Z.mul Z.add Z.eqb Z.ltb ERR].
  change (4 * (0 + 1 + 1 + 1)) with (4 * 3). change (4 * (0 + 1 + 1)) with (4 * 2). change (4 * (0 + 1)) with (4 * 1).
  generalize (le_u32 a (4 * 0)) (le_u32 b (4 * 0)) (le_u32 a (4 * 1)) (le_u32 b (4 * 1)) (le_u32 a (4 * 2)) (le_u32 b (4 * 2))
    (le_u32 a (4 * 3)) (le_u32 b (4 * 3)). intros x0 y0 x1 y1 x2 y2 x3 y3.
  destruct (x0 =? y0), (x1 =? y1), (x2 =? y2), (x3 =? y3); cbn [andb]; try done; by case_match.
Qed.

Lemma ip6_same_refl a : ip6_same a a = true.
Proof. unfold ip6_same. cbn [forallb]. by rewrite !Z.eqb_refl. Qed.

Lemma ip6_same_sym a b : ip6_same a b = ip6_same b a.
Proof.
  unfold ip6_same. cbn [forallb]. by rewrite !(Z.eqb_sym (le_u32 a _)).
Qed.

(** The families an attribute's next hop can have. *)
Definition family_ok (f : Z) : Prop := f = 0 \/ f = AF_INET \/ f = AF_INET6.

Lemma host_addr_cmp2_refl a : family_ok (ha_family a) -> (host_addr_cmp2 a a =? 0) = true.
Proof.
  intros Hf. unfold host_addr_cmp2. destruct Hf as [E | [E | E]]; rewrite E; cbn [Z.eqb AF_INET AF_INET6 Pos.eqb andb]; [done | |].
  - by rewrite Z.eqb_refl.
  - by rewrite ip6_addr_cmp_0, ip6_same_refl.
Qed.

Lemma host_addr_cmp2_sym a b : family_ok (ha_family a) -> family_ok (ha_family b) ->
  (host_addr_cmp2 a b =? 0) = (host_addr_cmp2 b a =? 0).
Proof.
  intros Ha Hb. unfold host_addr_cmp2.
  destruct Ha as [-> | [-> | ->]], Hb as [-> | [-> | ->]]; cbn [Z.eqb AF_INET AF_INET6 Pos.eqb andb]; try done.
  - rewrite (Z.eqb_sym (s_addr (ha_address b))). destruct (s_addr (ha_address a) =? _) eqn:E; [done |]. by repeat case_match.
  - by rewrite !ip6_addr_cmp_0, ip6_same_sym.
Qed.

Lemma attr_cmp_refl a : family_ok (ha_family (mp_nexthop a)) -> attr_cmp a a = true.
Proof. intros H. unfold attr_cmp. by rewrite !Z.eqb_refl, !bool_decide_true, host_addr_cmp2_refl. Qed.

Lemma attr_cmp_sym a b : family_ok (ha_family (mp_nexthop a)) -> family_ok (ha_family (mp_nexthop b)) ->
  attr_cmp a b = true -> attr_cmp b a = true.
Proof.
  intros Ha Hb. unfold attr_cmp. rewrite (host_addr_cmp2_sym (mp_nexthop b)) by done. rewrite !andb_true_iff, !Z.eqb_eq, !bool_decide_eq_true.
  intros H. by destruct_and!.
Qed.

Lemma attr_cmp_ptrs a b : attr_cmp a b = true ->
  a_aspath a = a_aspath b /\ a_community a = a_community b /\ a_ecommunity a = a_ecommunity b /\
  a_lcommunity a = a_lcommunity b /\ origin a = origin b /\ s_addr (nexthop a) = s_addr (nexthop b) /\
  med a = med b /\ local_pref a = local_pref b /\ a_bitmap a = a_bitmap b.
Proof. unfold attr_cmp. rewrite !andb_true_iff, !Z.eqb_eq, !bool_decide_eq_true. intros H. by destruct_and!. Qed.

(** Counts do not matter. *)
Lemma attr_cmp_refcnt n a b : attr_cmp (with_refcnt n a) b = attr_cmp a b.
Proof. done. Qed.

Lemma attr_cmp_refcnt_r n a b : attr_cmp a (with_refcnt n b) = attr_cmp a b.
Proof. done. Qed.

Lemma with_refcnt_id a : with_refcnt (a_refcnt a) a = a.
Proof. by destruct a. Qed.

(** ** How often attributes refer to something *)

Section Weight.
Context (ptr : bgp_attr -> option loc).
Implicit Types (m : gmap loc bgp_attr).

Definition points (x : loc) (a : bgp_attr) : Z := if decide (ptr a = Some x) then a_refcnt a else 0.
Definition weight m (x : loc) : Z := msum (points x) m.

Lemma weight_update m l a a' x : m !! l = Some a -> weight (<[l := a']> m) x = weight m x - points x a + points x a'.
Proof. intros H. unfold weight. rewrite msum_update. unfold at_key. rewrite H. lia. Qed.

Lemma weight_insert m l a x : m !! l = None -> weight (<[l := a]> m) x = points x a + weight m x.
Proof. apply msum_insert. Qed.

Lemma weight_delete m l a x : m !! l = Some a -> weight (delete l m) x = weight m x - points x a.
Proof. intros H. unfold weight. rewrite (msum_delete _ m l a H). lia. Qed.

Lemma weight_nonneg m x : (forall l a, m !! l = Some a -> 0 <= a_refcnt a) -> 0 <= weight m x.
Proof. intros H. apply msum_nonneg. intros l a Hl. unfold points. case_decide; [by apply (H l) | lia]. Qed.

Lemma weight_ge m x l a : (forall l a, m !! l = Some a -> 0 <= a_refcnt a) -> m !! l = Some a -> ptr a = Some x ->
  a_refcnt a <= weight m x.
Proof.
  intros H Hl Hp. pose proof (msum_ge (points x) m l a) as Hg. unfold points at 2 in Hg. rewrite decide_True in Hg by done.
  apply Hg; [| done]. intros j b Hj. unfold points. case_decide; [by apply (H j) | lia].
Qed.

End Weight.

(** ** The tables *)

Section Tables.
Context {X : Type}.
Context (dbs : misc_dbs) (bgp_comms_num : bool).
Implicit Types (rt : bgp_rt_structs X) (l : loc) (a : bgp_attr).

(** References held by no attribute and no route: those of a message that is
    being processed. *)
Record temps := mk_temps {
  t_as : loc -> Z;
  t_com : loc -> Z;
  t_ecom : loc -> Z;
  t_lcom : loc -> Z;
  t_attr : loc -> Z
}.

Definition as_refs rt (T : temps) l : Z := weight a_aspath (r_attr rt) l + t_as T l.
Definition com_refs rt (T : temps) l : Z := weight a_community (r_attr rt) l + t_com T l.
Definition ecom_refs rt (T : temps) l : Z := weight a_ecommunity (r_attr rt) l + t_ecom T l.
Definition lcom_refs rt (T : temps) l : Z := weight a_lcommunity (r_attr rt) l + t_lcom T l.

(** The instances do not depend on the peer but for the text of an object. *)
Definition counted_com st h refs : Prop :=
  @counted comms (community_internable dbs None bgp_comms_num) (wf 4) st h refs.
Definition counted_ecom st h refs : Prop :=
  @counted comms (ecommunity_internable dbs None bgp_comms_num) ecom_ok st h refs.
Definition counted_lcom st h refs : Prop :=
  @counted comms (lcommunity_internable dbs None) (wf 12) st h refs.

Definition attr_ok a : Prop := family_ok (ha_family (mp_nexthop a)) /\ 0 <= a_refcnt a < 2 ^ 64.

(** Everything an attribute points to is there. *)
Definition ptrs_live rt a : Prop :=
  (forall x, a_aspath a = Some x -> is_Some (r_as rt !! x)) /\
  (forall x, a_community a = Some x -> is_Some (r_com rt !! x)) /\
  (forall x, a_ecommunity a = Some x -> is_Some (r_ecom rt !! x)) /\
  (forall x, a_lcommunity a = Some x -> is_Some (r_lcom rt !! x)).

Definition key_of {V} (f : V -> Z) (st : objs V) (o : option loc) : Z :=
  match o with Some l => match st !! l with Some ob => f (o_val ob) | None => 0 end | None => 0 end.

Definition attr_key rt a : Z :=
  u32 (origin a + s_addr (nexthop a) + med a + local_pref a + a_bitmap a
       + key_of value_key (r_as rt) (a_aspath a)
       + key_of community_hash_make (r_com rt) (a_community a)
       + key_of ecommunity_hash_make (r_ecom rt) (a_ecommunity a)
       + key_of lcommunity_hash_make (r_lcom rt) (a_lcommunity a)).

Definition avalid rt l : Prop := exists a, r_attr rt !! l = Some a /\ attr_ok a /\ ptrs_live rt a.
Definition akey rt l : Z := match r_attr rt !! l with Some a => attr_key rt a | None => 0 end.
Definition acmp rt l1 l2 : bool :=
  match r_attr rt !! l1, r_attr rt !! l2 with Some a, Some b => attr_cmp a b | _, _ => false end.

Lemma key_of_Ok {V} (f : V -> Z) (st : objs V) o : (forall x, o = Some x -> is_Some (st !! x)) ->
  match o with None => Ok 0 | Some l => ob ← deref (st !! l); Ok (f (o_val ob)) end = Ok (key_of f st o).
Proof.
  intros H. destruct o as [l|]; [| done]. destruct (H l eq_refl) as [ob E]. unfold key_of. by rewrite E.
Qed.

Lemma akey_Ok rt l : avalid rt l -> attrhash_key_make rt l = Ok (akey rt l).
Proof.
  intros (a & H & _ & L1 & L2 & L3 & L4). unfold attrhash_key_make, akey, attr_key, ptr_key, obj_key. rewrite H.
  change (deref (Some a)) with (Ok a). rewrite bind_Ok.
  rewrite (key_of_Ok value_key _ _ L1), (key_of_Ok _ _ _ L2), (key_of_Ok _ _ _ L3), (key_of_Ok _ _ _ L4). done.
Qed.

Lemma acmp_Ok rt l1 l2 : avalid rt l1 -> avalid rt l2 -> attrhash_cmp rt l1 l2 = Ok (acmp rt l1 l2).
Proof. intros (a1 & H1 & _) (a2 & H2 & _). unfold attrhash_cmp, acmp. by rewrite H1, H2. Qed.

Lemma attr_key_cmp rt a1 a2 : attr_cmp a1 a2 = true -> attr_key rt a1 = attr_key rt a2.
Proof. intros H. destruct (attr_cmp_ptrs a1 a2 H) as (E1 & E2 & E3 & E4 & E5 & E6 & E7 & E8 & E9). unfold attr_key. congruence. Qed.

Lemma acmp_key rt l1 l2 : avalid rt l1 -> avalid rt l2 -> acmp rt l1 l2 = true -> akey rt l1 = akey rt l2.
Proof. intros (a1 & H1 & _) (a2 & H2 & _). unfold acmp, akey. rewrite H1, H2. apply attr_key_cmp. Qed.

Lemma acmp_sym rt l1 l2 : avalid rt l1 -> avalid rt l2 -> acmp rt l1 l2 = true -> acmp rt l2 l1 = true.
Proof. intros (a1 & H1 & [K1 _] & _) (a2 & H2 & [K2 _] & _). unfold acmp. rewrite H1, H2. by apply attr_cmp_sym. Qed.

Lemma acmp_refl rt l : avalid rt l -> acmp rt l l = true.
Proof. intros (a & H & [K _] & _). unfold acmp. rewrite H. by apply attr_cmp_refl. Qed.

(** The invariant.  [uses] counts the routes that refer to an attribute. *)
Record rt_ok rt (T : temps) (uses : loc -> Z) : Prop := {
  ro_as : counted value_ok (r_as rt) (ashash rt) (as_refs rt T);
  ro_com : counted_com (r_com rt) (comhash rt) (com_refs rt T);
  ro_ecom : counted_ecom (r_ecom rt) (ecomhash rt) (ecom_refs rt T);
  ro_lcom : counted_lcom (r_lcom rt) (lcomhash rt) (lcom_refs rt T);
  ro_hash : wf_hash (avalid rt) (akey rt) (acmp rt) (attrhash rt);
  ro_attr : forall l a, r_attr rt !! l = Some a -> attr_ok a;
  ro_elems : forall l a, r_attr rt !! l = Some a -> l ∈ elems (attrhash rt) <-> 0 < a_refcnt a;
  ro_uses : forall l, uses l + t_attr T l = match r_attr rt !! l with Some a => a_refcnt a | None => 0 end;
  (** What the attribute of a message points to, it holds. *)
  ro_local : forall l a, r_attr rt !! l = Some a -> a_refcnt a = 0 ->
    (forall x, a_aspath a = Some x -> 0 < t_as T x) /\ (forall x, a_community a = Some x -> 0 < t_com T x) /\
    (forall x, a_ecommunity a = Some x -> 0 < t_ecom T x) /\ (forall x, a_lcommunity a = Some x -> 0 < t_lcom T x);
  ro_temps : forall l, 0 <= t_as T l /\ 0 <= t_com T l /\ 0 <= t_ecom T l /\ 0 <= t_lcom T l /\ 0 <= t_attr T l;
  ro_nonneg : forall l, 0 <= uses l
}.

(** References of an attribute in the table, or of a message. *)
Lemma refs_pos rt T uses (ptr : bgp_attr -> option loc) (tmp : loc -> Z) l a x :
  rt_ok rt T uses -> r_attr rt !! l = Some a -> ptr a = Some x -> 0 <= tmp x ->
  (a_refcnt a = 0 -> 0 < tmp x) -> 0 < weight ptr (r_attr rt) x + tmp x.
Proof.
  intros Hok H Hp Ht H0.
  assert (Hn : forall l a, r_attr rt !! l = Some a -> 0 <= a_refcnt a).
  { intros j b Hj. destruct (ro_attr rt T uses Hok j b Hj). lia. }
  pose proof (weight_ge ptr (r_attr rt) x l a Hn H Hp). pose proof (Hn l a H).
  destruct (Z.eq_dec (a_refcnt a) 0) as [E|]; [specialize (H0 E) |]; lia.
Qed.

Lemma attr_refs_pos rt T uses l a :
  rt_ok rt T uses -> r_attr rt !! l = Some a ->
  (forall x, a_aspath a = Some x -> 0 < as_refs rt T x) /\ (forall x, a_community a = Some x -> 0 < com_refs rt T x) /\
  (forall x, a_ecommunity a = Some x -> 0 < ecom_refs rt T x) /\ (forall x, a_lcommunity a = Some x -> 0 < lcom_refs rt T x).
Proof.
  intros Hok H. pose proof (ro_local rt T uses Hok l a H) as Hl.
  split_and!; intros x Hx; destruct (ro_temps rt T uses Hok x) as (? & ? & ? & ? & ?);
    eapply (refs_pos rt T uses); try done; intros E; destruct (Hl E) as (?&?&?&?); auto.
Qed.

Lemma attr_live rt T uses l a : rt_ok rt T uses -> r_attr rt !! l = Some a -> ptrs_live rt a.
Proof.
  intros Hok H. destruct (attr_refs_pos rt T uses l a Hok H) as (P1 & P2 & P3 & P4). split_and!; intros x Hx.
  - destruct (counted_live _ _ _ _ _ (ro_as rt T uses Hok) (P1 x Hx)) as (o & E & _). by exists o.
  - destruct (counted_live _ _ _ _ _ (ro_com rt T uses Hok) (P2 x Hx)) as (o & E & _). by exists o.
  - destruct (counted_live _ _ _ _ _ (ro_ecom rt T uses Hok) (P3 x Hx)) as (o & E & _). by exists o.
  - destruct (counted_live _ _ _ _ _ (ro_lcom rt T uses Hok) (P4 x Hx)) as (o & E & _). by exists o.
Qed.

Lemma attr_valid rt T uses l a : rt_ok rt T uses -> r_attr rt !! l = Some a -> avalid rt l.
Proof. intros Hok H. exists a. split; [done |]. split; [by apply (ro_attr rt T uses Hok l) | by eapply attr_live]. Qed.

(** No count is about to wrap. *)
Definition count_room rt : Prop :=
  (forall l o, r_as rt !! l = Some o -> refcnt o < 2 ^ 64 - 1) /\
  (forall l o, r_com rt !! l = Some o -> refcnt o < 2 ^ 64 - 1) /\
  (forall l o, r_ecom rt !! l = Some o -> refcnt o < 2 ^ 64 - 1) /\
  (forall l o, r_lcom rt !! l = Some o -> refcnt o < 2 ^ 64 - 1) /\
  (forall l a, r_attr rt !! l = Some a -> a_refcnt a < 2 ^ 64 - 1).

(** The keys of attributes only depend on the values of what they point to. *)
Definition same_vals_at rt rt' a : Prop :=
  (forall x, a_aspath a = Some x -> same_val (r_as rt) (r_as rt') x) /\
  (forall x, a_community a = Some x -> same_val (r_com rt) (r_com rt') x) /\
  (forall x, a_ecommunity a = Some x -> same_val (r_ecom rt) (r_ecom rt') x) /\
  (forall x, a_lcommunity a = Some x -> same_val (r_lcom rt) (r_lcom rt') x).

Lemma key_of_same {V} (f : V -> Z) (st st' : objs V) o :
  (forall x, o = Some x -> same_val st st' x) -> key_of f st' o = key_of f st o.
Proof.
  intros H. destruct o as [l|]; [| done]. specialize (H l eq_refl). unfold same_val in H. unfold key_of.
  destruct (st !! l), (st' !! l); cbn in H; congruence.
Qed.

Lemma attr_key_same rt rt' a : same_vals_at rt rt' a -> attr_key rt' a = attr_key rt a.
Proof.
  intros (H1 & H2 & H3 & H4). unfold attr_key.
  by rewrite (key_of_same _ _ _ _ H1), (key_of_same _ _ _ _ H2), (key_of_same _ _ _ _ H3), (key_of_same _ _ _ _ H4).
Qed.

Lemma live_same rt rt' a : same_vals_at rt rt' a -> ptrs_live rt a -> ptrs_live rt' a.
Proof.
  assert (Hs : forall V (st st' : objs V) x, same_val st st' x -> is_Some (st !! x) -> is_Some (st' !! x)).
  { intros V st st' x E [o Ho]. unfold same_val in E. rewrite Ho in E. destruct (st' !! x); [by eexists | done]. }
  intros (H1 & H2 & H3 & H4) (L1 & L2 & L3 & L4). split_and!; intros x Hx; eapply Hs; eauto.
Qed.

(** The table of attributes stays well formed when its attributes keep what is
    compared and their values. *)
Lemma attr_hash_ext rt rt' h :
  wf_hash (avalid rt) (akey rt) (acmp rt) h ->
  (forall l a, l ∈ elems h -> r_attr rt !! l = Some a ->
     exists n, r_attr rt' !! l = Some (with_refcnt n a) /\ 0 <= n < 2 ^ 64 /\ same_vals_at rt rt' a) ->
  wf_hash (avalid rt') (akey rt') (acmp rt') h.
Proof.
  intros Hwf H.
  assert (Hl : forall l, l ∈ elems h -> exists a n, r_attr rt !! l = Some a /\ attr_ok a /\ ptrs_live rt a /\
     r_attr rt' !! l = Some (with_refcnt n a) /\ 0 <= n < 2 ^ 64 /\ same_vals_at rt rt' a).
  { intros l Hin. destruct (elem_valid _ _ _ h l Hwf Hin) as (a & Ha & Hok & Hlv).
    destruct (H l a Hin Ha) as (n & ? & ? & ?). by exists a, n. }
  eapply wf_hash_ext; [exact Hwf | |].
  - intros l Hin. destruct (Hl l Hin) as (a & n & Ha & [Hf _] & Hlv & Ha' & Hn & Hs). split.
    + exists (with_refcnt n a). split; [done |]. split; [done |]. by apply (live_same rt).
    + unfold akey. rewrite Ha, Ha'. by apply (attr_key_same rt rt' a).
  - intros l1 l2 H1 H2. destruct (Hl l1 H1) as (a1 & n1 & E1 & _ & _ & E1' & _).
    destruct (Hl l2 H2) as (a2 & n2 & E2 & _ & _ & E2' & _). unfold acmp. by rewrite E1, E2, E1', E2'.
Qed.

(** ** Interning *)

Ltac rt_cbn := cbn [with_as with_com with_ecom with_lcom with_attr r_as r_com r_ecom r_lcom r_attr ashash comhash ecomhash
  lcomhash attrhash rib fst snd].

Definition bump_attr (T : temps) (f : loc) (d : Z) : temps :=
  mk_temps (t_as T) (t_com T) (t_ecom T) (t_lcom T) (bump (t_attr T) (Some f) d).

(** An attribute of [m] at [f], or a new one, whose count is now one more. *)
Definition taken_attr (m : gmap loc bgp_attr) (f : loc) (fb : bgp_attr) (n : Z) : Prop :=
  (m !! f = Some fb /\ 0 < a_refcnt fb /\ n = a_refcnt fb + 1) \/ (m !! f = None /\ n = 1).

(** The objects no route and no message counts are the same. *)
Definition same_zeros (m m' : gmap loc bgp_attr) : Prop :=
  forall x a, a_refcnt a = 0 -> m' !! x = Some a <-> m !! x = Some a.

Lemma taken_same_zeros m f fb n : taken_attr m f fb n -> same_zeros m (<[f := with_refcnt n fb]> m).
Proof.
  intros Ht x a Ha. destruct (decide (x = f)) as [->|]; [| by rewrite lookup_insert_ne]. rewrite lookup_insert_eq.
  destruct Ht as [(H & Hp & ->) | [H ->]]; rewrite H; (split; [intros [= <-] | intros [= <-]]); cbn in Ha; lia.
Qed.

Lemma weight_taken ptr m f fb n x :
  (forall b k, ptr (with_refcnt k b) = ptr b) -> taken_attr m f fb n ->
  weight ptr (<[f := with_refcnt n fb]> m) x = bump (weight ptr m) (ptr fb) 1 x.
Proof.
  intros Hp [(H & _ & ->) | [H ->]]; unfold bump.
  - rewrite (weight_update ptr m f fb) by done. unfold points. rewrite Hp. cbn [a_refcnt with_refcnt].
    case_decide; lia.
  - rewrite weight_insert by done. unfold points. rewrite Hp. cbn [a_refcnt with_refcnt]. case_decide; lia.
Qed.

Lemma intern_finish rt T uses rt' f fb n :
  rt_ok rt T uses ->
  counted value_ok (r_as rt') (ashash rt') (bump (as_refs rt T) (a_aspath fb) 1) ->
  counted_com (r_com rt') (comhash rt') (bump (com_refs rt T) (a_community fb) 1) ->
  counted_ecom (r_ecom rt') (ecomhash rt') (bump (ecom_refs rt T) (a_ecommunity fb) 1) ->
  counted_lcom (r_lcom rt') (lcomhash rt') (bump (lcom_refs rt T) (a_lcommunity fb) 1) ->
  r_attr rt' = <[f := with_refcnt n fb]> (r_attr rt) -> taken_attr (r_attr rt) f fb n ->
  family_ok (ha_family (mp_nexthop fb)) -> 0 < n < 2 ^ 64 ->
  wf_hash (avalid rt') (akey rt') (acmp rt') (attrhash rt') ->
  (forall l, l ∈ elems (attrhash rt') <-> l = f \/ l ∈ elems (attrhash rt)) ->
  rt_ok rt' (bump_attr T f 1) uses.
Proof.
  intros Hok C1 C2 C3 C4 Em Ht Hf Hn Hwf Hel.
  assert (Hx : forall x, r_attr rt' !! x = if decide (x = f) then Some (with_refcnt n fb) else r_attr rt !! x).
  { intros x. rewrite Em. destruct (decide (x = f)) as [->|]; [apply lookup_insert_eq | by apply lookup_insert_ne]. }
  assert (Hr : forall ptr tmp x, (forall b k, ptr (with_refcnt k b) = ptr b) ->
    weight ptr (r_attr rt') x + tmp x = bump (fun l => weight ptr (r_attr rt) l + tmp l) (ptr fb) 1 x).
  { intros ptr tmp x Hp. rewrite Em, (weight_taken ptr _ _ _ _ _ Hp Ht). unfold bump. lia. }
  split.
  - eapply counted_ext; [exact C1 |]. intros l. by apply (Hr a_aspath (t_as T)).
  - eapply counted_ext; [exact C2 |]. intros l. by apply (Hr a_community (t_com T)).
  - eapply counted_ext; [exact C3 |]. intros l. by apply (Hr a_ecommunity (t_ecom T)).
  - eapply counted_ext; [exact C4 |]. intros l. by apply (Hr a_lcommunity (t_lcom T)).
  - done.
  - intros l a. rewrite Hx. case_decide as Hd; [| apply (ro_attr rt T uses Hok)]. intros [= <-]. split; [done | cbn; lia].
  - intros l a. rewrite Hx, Hel. case_decide as Hd.
    + intros [= <-]. cbn. split; [lia | by left].
    + intros H. rewrite <- (ro_elems rt T uses Hok l a H). split; [by intros [-> | ?] | by right].
  - intros l. rewrite Hx. cbn [t_attr bump_attr]. unfold bump. pose proof (ro_uses rt T uses Hok l) as Hu.
    case_decide as Hd1; case_decide as Hd2; try (exfalso; congruence); [| lia]. subst l.
    destruct Ht as [(H & _ & ->) | [H ->]]; rewrite H in Hu; cbn; lia.
  - intros l a. rewrite Hx. case_decide as Hd; [| apply (ro_local rt T uses Hok)]. intros [= <-]. cbn. lia.
  - intros l. destruct (ro_temps rt T uses Hok l) as (?&?&?&?&?). cbn. unfold bump. split_and!; try done. case_decide; lia.
  - apply (ro_nonneg rt T uses Hok).
Qed.

Context (peer : bgp_peer).
Hypothesis Hpeer : type peer < FUNC_TYPE_MAX.

(** The references of an attribute have room for one more. *)
Lemma refs_room {V} `{HI : Internable V} ok st h refs (x : loc) (o : option loc) :
  counted (V := V) ok st h refs -> (forall l ob, st !! l = Some ob -> refcnt ob < 2 ^ 64 - 1) ->
  (forall y, o = Some y -> 0 < refs y) -> forall y, o = Some y -> 0 < refs y < 2 ^ 64 - 1.
Proof.
  intros Hc Hr Hp y Hy. pose proof (Hp y Hy) as H0. destruct (counted_live ok st h refs y Hc H0) as (ob & E & _ & Er).
  pose proof (Hr y ob E). lia.
Qed.

Lemma attr_intern_steps rt T uses s a :
  rt_ok rt T uses -> count_room rt -> r_attr rt !! s = Some a -> a_refcnt a = 0 ->
  exists rt' f fb n, bgp_attr_intern dbs bgp_comms_num (Some peer) rt s = Ok (rt', Some f) /\
    rt_ok rt' (bump_attr T f 1) uses /\
    r_attr rt' = <[f := with_refcnt n fb]> (r_attr rt) /\ taken_attr (r_attr rt) f fb n /\
    attr_cmp fb a = true /\ f <> s /\ rib rt' = rib rt /\ forall x, same_val (r_as rt) (r_as rt') x.
Proof.
  intros Hok (R1 & R2 & R3 & R4 & R5) Hs Ha0.
  destruct (attr_refs_pos rt T uses s a Hok Hs) as (P1 & P2 & P3 & P4).
  unfold bgp_attr_intern. rewrite (peer_routing_db peer Hpeer). cbn [negb]. rewrite Hs.
  change (deref (Some a)) with (Ok a). rewrite bind_Ok.
  destruct (intern_ptr_step value_ok (aspath_intern dbs (Some peer)) _ _ _ (a_aspath a) (ro_as rt T uses Hok)
    (refs_room value_ok _ _ _ s _ (ro_as rt T uses Hok) R1 P1)) as (st1 & E1 & C1 & V1). rewrite E1, bind_Ok.
  rt_cbn. clear E1.
  destruct (intern_ptr_step (wf 4) (community_intern dbs (Some peer) bgp_comms_num) _ _ _ (a_community a) (ro_com rt T uses Hok)
    (refs_room (wf 4) _ _ _ s _ (ro_com rt T uses Hok) R2 P2)) as (st2 & E2 & C2 & V2). rewrite E2, bind_Ok.
  rt_cbn. clear E2.
  destruct (intern_ptr_step ecom_ok (ecommunity_intern dbs (Some peer) bgp_comms_num) _ _ _ (a_ecommunity a) (ro_ecom rt T uses Hok)
    (refs_room ecom_ok _ _ _ s _ (ro_ecom rt T uses Hok) R3 P3)) as (st3 & E3 & C3 & V3). rewrite E3, bind_Ok.
  rt_cbn. clear E3.
  destruct (intern_ptr_step (wf 12) (lcommunity_intern dbs (Some peer)) _ _ _ (a_lcommunity a) (ro_lcom rt T uses Hok)
    (refs_room (wf 12) _ _ _ s _ (ro_lcom rt T uses Hok) R4 P4)) as (st4 & E4 & C4 & V4). rewrite E4, bind_Ok. clear E4.
  rt_cbn.
  assert (Ea : with_ptrs (a_aspath a) (a_community a) (a_ecommunity a) (a_lcommunity a) a = a) by (by destruct a).
  rewrite Ea, insert_id by done.
  set (rt2 := mk_rt st1 (ashash rt) st2 (comhash rt) st3 (ecomhash rt) st4 (lcomhash rt) (r_attr rt) (attrhash rt) (rib rt)).
  match goal with |- context [hash_get _ _ _ _ ?r] => change r with rt2 end.
  assert (Hsame : forall b, same_vals_at rt rt2 b) by (intros b; split_and!; intros x _; [apply V1 | apply V2 | apply V3 | apply V4]).
  assert (Hval : forall l b, r_attr rt !! l = Some b -> avalid rt2 l).
  { intros l b Hl. exists b. split; [done |]. split; [by apply (ro_attr rt T uses Hok l) |].
    apply (live_same rt); [apply Hsame | by eapply attr_live]. }
  set (f := fresh (dom (r_attr rt2))).
  assert (Hf : r_attr rt !! f = None) by (apply not_elem_of_dom, is_fresh).
  set (rt3 := with_attr rt2 (<[f := with_refcnt 0 a]> (r_attr rt2), attrhash rt2)).
  assert (Hr3 : forall x, r_attr rt3 !! x = if decide (x = f) then Some (with_refcnt 0 a) else r_attr rt !! x).
  { intros x. cbn. destruct (decide (x = f)) as [->|]; [apply lookup_insert_eq | by apply lookup_insert_ne]. }
  assert (Hval3 : forall l b, r_attr rt3 !! l = Some b -> avalid rt3 l).
  { intros l b Hl. exists b. split; [done |]. rewrite Hr3 in Hl. case_decide as Hd.
    - injection Hl as <-. split; [destruct (ro_attr rt T uses Hok s a Hs); done |].
      apply (live_same rt2 rt3 a); [by split_and! |]. apply (live_same rt); [apply Hsame | by eapply attr_live].
    - split; [by apply (ro_attr rt T uses Hok l) |]. apply (live_same rt); [apply Hsame | by eapply attr_live]. }
  assert (Hwf2 : wf_hash (avalid rt2) (akey rt2) (acmp rt2) (attrhash rt)).
  { apply (attr_hash_ext rt); [apply (ro_hash rt T uses Hok) |]. intros l b _ Hl. exists (a_refcnt b).
    split; [rewrite (with_refcnt_id b); done |]. split; [by apply (ro_attr rt T uses Hok l) | apply Hsame]. }
  assert (Hel : forall e, e ∈ elems (attrhash rt) -> exists b, r_attr rt !! e = Some b /\ 0 < a_refcnt b /\ e <> f /\ e <> s).
  { intros e He. destruct (elem_valid _ _ _ _ e (ro_hash rt T uses Hok) He) as (b & Hb & _). exists b.
    pose proof (proj1 (ro_elems rt T uses Hok e b Hb) He). split_and!; [done | done | congruence |].
    intros ->. assert (b = a) as -> by congruence. lia. }
  assert (Hkey3 : forall b, attr_key rt3 b = attr_key rt2 b) by done.
  destruct (hash_get_alloc_cases attrhash_key_make attrhash_cmp bgp_attr_hash_alloc dbs peer (dbs (type peer)) rt2 rt3
    (avalid rt2) (avalid rt3) (akey rt2) (akey rt3) (acmp rt2) (acmp rt3) (attrhash rt) s f)
    as [(e & He & Hcmp & E)|(Hno & h' & E & Hwf' & Hperm)].
  - by apply peer_misc_db.
  - apply akey_Ok.
  - apply acmp_Ok.
  - apply acmp_key.
  - apply acmp_sym.
  - done.
  - by apply (Hval s a).
  - unfold bgp_attr_hash_alloc. change (r_attr rt2 !! s) with (r_attr rt !! s). by rewrite Hs.
  - apply (Hval3 f (with_refcnt 0 a)). by rewrite Hr3, decide_True.
  - unfold akey. rewrite Hr3, decide_True by done. change (r_attr rt2 !! s) with (r_attr rt !! s). by rewrite Hs.
  - apply acmp_refl, (Hval3 f (with_refcnt 0 a)). by rewrite Hr3, decide_True.
  - intros e He. destruct (Hel e He) as (b & Hb & _ & Hne & _). split; [apply (Hval3 e b); by rewrite Hr3, decide_False |].
    unfold akey. rewrite Hr3, decide_False by done. done.
  - intros e1 e2 He1 He2. destruct (Hel e1 He1) as (b1 & _ & _ & Hn1 & _). destruct (Hel e2 He2) as (b2 & _ & _ & Hn2 & _).
    unfold acmp. rewrite !Hr3, !decide_False by done. done.
  - intros e He. destruct (Hel e He) as (b & Hb & _ & Hne & _). unfold acmp. rewrite !Hr3, decide_False, decide_True by done.
    change (r_attr rt2 !! e) with (r_attr rt !! e). change (r_attr rt2 !! s) with (r_attr rt !! s). by rewrite Hb, Hs.
  - rewrite E, bind_Ok. change (deref (Some e)) with (Ok e). rewrite bind_Ok.
    destruct (Hel e He) as (b & Hb & Hpos & _ & Hne). change (r_attr rt2 !! e) with (r_attr rt !! e). rewrite Hb.
    change (deref (Some b)) with (Ok b). rewrite bind_Ok. pose proof (R5 e b Hb). rewrite u64_small by lia.
    unfold acmp in Hcmp. change (r_attr rt2) with (r_attr rt) in Hcmp. rewrite Hb, Hs in Hcmp.
    destruct (attr_cmp_ptrs b a Hcmp) as (Q1 & Q2 & Q3 & Q4 & _).
    eexists _, e, b, (a_refcnt b + 1). split; [done |]. split_and!; try done; [| by left].
    apply (intern_finish rt T uses _ e b (a_refcnt b + 1)); try done; try (rt_cbn; congruence).
    + rewrite Q1. exact C1.
    + rewrite Q2. exact C2.
    + rewrite Q3. exact C3.
    + rewrite Q4. exact C4.
    + by left.
    + by apply (ro_attr rt T uses Hok e b).
    + lia.
    + apply (attr_hash_ext rt2); [done |]. intros l c Hin Hl. change (r_attr rt2) with (r_attr rt) in Hl. rt_cbn.
      destruct (decide (l = e)) as [->|Hd].
      * rewrite lookup_insert_eq. assert (c = b) as -> by congruence. eexists. split; [done |]. split; [lia |]. by split_and!.
      * rewrite lookup_insert_ne by done. exists (a_refcnt c). split; [rewrite (with_refcnt_id c); exact Hl |].
        split; [by apply (ro_attr rt T uses Hok l) |]. by split_and!.
    + intros l. rt_cbn. split; [by right | by intros [-> | ?]].
  - rewrite E, bind_Ok. change (deref (Some f)) with (Ok f). rewrite bind_Ok.
    rewrite Hr3, decide_True by done. change (deref (Some ?x)) with (Ok x). rewrite bind_Ok.
    change (u64 (a_refcnt (with_refcnt 0 a) + 1)) with 1.
    assert (Em : <[f := with_refcnt 1 (with_refcnt 0 a)]> (r_attr rt3) = <[f := with_refcnt 1 a]> (r_attr rt)).
    { change (r_attr rt3) with (<[f := with_refcnt 0 a]> (r_attr rt)). by rewrite insert_insert_eq. }
    rewrite Em.
    eexists _, f, a, 1. split; [done |].
    split_and!; [| done | by right | by apply attr_cmp_refl, (ro_attr rt T uses Hok s) | congruence | done | exact V1].
    apply (intern_finish rt T uses _ f a 1); try done.
    + by right.
    + by apply (ro_attr rt T uses Hok s a).
    + rt_cbn. apply (attr_hash_ext rt3); [done |]. intros l c Hin Hl. rewrite Hr3 in Hl. rt_cbn. case_decide as Hd.
      * injection Hl as <-. subst l. rewrite lookup_insert_eq. exists 1. split; [done |]. split; [lia |]. by split_and!.
      * rewrite lookup_insert_ne by done. exists (a_refcnt c). split; [rewrite (with_refcnt_id c); exact Hl |].
        split; [by apply (ro_attr rt T uses Hok l) |]. by split_and!.
    + intros l. rt_cbn. rewrite Hperm. apply elem_of_cons.
Qed.

Lemma attr_intern_spec rt T uses s a :
  rt_ok rt T uses -> count_room rt -> r_attr rt !! s = Some a -> a_refcnt a = 0 ->
  exists rt' f fb n, bgp_attr_intern dbs bgp_comms_num (Some peer) rt s = Ok (rt', Some f) /\
    rt_ok rt' (bump_attr T f 1) uses /\
    r_attr rt' = <[f := with_refcnt n fb]> (r_attr rt) /\ taken_attr (r_attr rt) f fb n /\
    attr_cmp fb a = true /\ f <> s /\ rib rt' = rib rt.
Proof.
  intros H1 H2 H3 H4. destruct (attr_intern_steps rt T uses s a H1 H2 H3 H4) as (rt' & f & fb & n & E & ? & ? & ? & ? & ? & ? & _).
  by exists rt', f, fb, n.
Qed.

(** ** Releasing *)

(** The attributes after a reference to [f] is dropped. *)
Definition dropped (m : gmap loc bgp_attr) (f : loc) (fa : bgp_attr) : gmap loc bgp_attr :=
  if decide (a_refcnt fa = 1) then delete f m else <[f := with_refcnt (a_refcnt fa - 1) fa]> m.

Lemma dropped_lookup m f fa x :
  dropped m f fa !! x = if decide (x = f) then (if decide (a_refcnt fa = 1) then None else Some (with_refcnt (a_refcnt fa - 1) fa))
                        else m !! x.
Proof using.
  unfold dropped. destruct (decide (a_refcnt fa = 1)), (decide (x = f)) as [->|];
    first [apply lookup_delete_eq | by apply lookup_delete_ne | apply lookup_insert_eq | by apply lookup_insert_ne].
Qed.

Lemma dropped_same_zeros m f fa : m !! f = Some fa -> 0 < a_refcnt fa -> same_zeros m (dropped m f fa).
Proof using.
  intros Hf Hp x a Ha. rewrite dropped_lookup. case_decide as Hd; [| done]. rewrite Hd, Hf.
  case_decide; (split; intros [= <-]); cbn in Ha; lia.
Qed.

Lemma weight_dropped ptr m f fa x :
  (forall b k, ptr (with_refcnt k b) = ptr b) -> m !! f = Some fa ->
  weight ptr (dropped m f fa) x = bump (weight ptr m) (ptr fa) (-1) x.
Proof using.
  intros Hp H. unfold dropped, bump. case_decide as H1.
  - rewrite (weight_delete ptr m f fa) by done. unfold points. case_decide; lia.
  - rewrite (weight_update ptr m f fa) by done. unfold points. rewrite Hp. cbn [a_refcnt with_refcnt]. case_decide; lia.
Qed.

Lemma unintern_finish rt T uses rt' f fa :
  rt_ok rt T uses -> r_attr rt !! f = Some fa -> 0 < t_attr T f ->
  counted value_ok (r_as rt') (ashash rt') (bump (as_refs rt T) (a_aspath fa) (-1)) ->
  counted_com (r_com rt') (comhash rt') (bump (com_refs rt T) (a_community fa) (-1)) ->
  counted_ecom (r_ecom rt') (ecomhash rt') (bump (ecom_refs rt T) (a_ecommunity fa) (-1)) ->
  counted_lcom (r_lcom rt') (lcomhash rt') (bump (lcom_refs rt T) (a_lcommunity fa) (-1)) ->
  (forall x, 0 < bump (as_refs rt T) (a_aspath fa) (-1) x -> same_val (r_as rt) (r_as rt') x) ->
  (forall x, 0 < bump (com_refs rt T) (a_community fa) (-1) x -> same_val (r_com rt) (r_com rt') x) ->
  (forall x, 0 < bump (ecom_refs rt T) (a_ecommunity fa) (-1) x -> same_val (r_ecom rt) (r_ecom rt') x) ->
  (forall x, 0 < bump (lcom_refs rt T) (a_lcommunity fa) (-1) x -> same_val (r_lcom rt) (r_lcom rt') x) ->
  r_attr rt' = dropped (r_attr rt) f fa ->
  (let rt0 := with_attr rt (dropped (r_attr rt) f fa, attrhash rt') in
   wf_hash (avalid rt0) (akey rt0) (acmp rt0) (attrhash rt')) ->
  (forall l, l ∈ elems (attrhash rt') <-> l ∈ elems (attrhash rt) /\ (l = f -> a_refcnt fa <> 1)) ->
  rt_ok rt' (bump_attr T f (-1)) uses.
Proof using.
  intros Hok H Htf C1 C2 C3 C4 V1 V2 V3 V4 Em Hwf Hel.
  assert (Hpos : 0 < a_refcnt fa < 2 ^ 64).
  { pose proof (ro_uses rt T uses Hok f) as Hu. rewrite H in Hu. pose proof (ro_nonneg rt T uses Hok f).
    destruct (ro_attr rt T uses Hok f fa H). lia. }
  assert (Hx : forall x, r_attr rt' !! x =
    if decide (x = f) then (if decide (a_refcnt fa = 1) then None else Some (with_refcnt (a_refcnt fa - 1) fa)) else r_attr rt !! x).
  { intros x. rewrite Em. apply dropped_lookup. }
  assert (Hr : forall ptr tmp x, (forall b k, ptr (with_refcnt k b) = ptr b) ->
    weight ptr (r_attr rt') x + tmp x = bump (fun l => weight ptr (r_attr rt) l + tmp l) (ptr fa) (-1) x).
  { intros ptr tmp x Hp. rewrite Em, (weight_dropped ptr _ _ _ _ Hp H). unfold bump. lia. }
  assert (Hattr : forall l a, r_attr rt' !! l = Some a -> attr_ok a).
  { intros l a. rewrite Hx. destruct (decide (l = f)) as [Hd|Hd]; [| apply (ro_attr rt T uses Hok)]. case_decide; [done |]. intros [= <-].
    split; [by apply (ro_attr rt T uses Hok f fa) | cbn; lia]. }
  assert (Hlocal : forall l a, r_attr rt' !! l = Some a -> a_refcnt a = 0 ->
    (forall x, a_aspath a = Some x -> 0 < t_as T x) /\ (forall x, a_community a = Some x -> 0 < t_com T x) /\
    (forall x, a_ecommunity a = Some x -> 0 < t_ecom T x) /\ (forall x, a_lcommunity a = Some x -> 0 < t_lcom T x)).
  { intros l a. rewrite Hx. destruct (decide (l = f)) as [Hd|Hd]; [| apply (ro_local rt T uses Hok)]. case_decide; [done |]. intros [= <-]. cbn. lia. }
  assert (Hrefs : forall ptr tmp l a x, (forall b k, ptr (with_refcnt k b) = ptr b) ->
    r_attr rt' !! l = Some a -> ptr a = Some x -> 0 <= tmp x -> (a_refcnt a = 0 -> 0 < tmp x) ->
    0 < bump (fun l => weight ptr (r_attr rt) l + tmp l) (ptr fa) (-1) x).
  { intros ptr tmp l a x Hp Hl Hpx Ht H0. rewrite <- Hr by done.
    assert (Hn : forall l a, r_attr rt' !! l = Some a -> 0 <= a_refcnt a) by (intros j b Hj; destruct (Hattr j b Hj); lia).
    pose proof (weight_ge ptr (r_attr rt') x l a Hn Hl Hpx). pose proof (Hn l a Hl).
    destruct (Z.eq_dec (a_refcnt a) 0) as [E|]; [specialize (H0 E) |]; lia. }
  assert (Hsame : forall l a, r_attr rt' !! l = Some a -> same_vals_at rt rt' a).
  { intros l a Hl. pose proof (Hlocal l a Hl) as Hz.
    split_and!; intros x Hpx; destruct (ro_temps rt T uses Hok x) as (?&?&?&?&?).
    - apply V1, (Hrefs a_aspath (t_as T) l a x); try done. intros E. by apply Hz.
    - apply V2, (Hrefs a_community (t_com T) l a x); try done. intros E. by apply Hz.
    - apply V3, (Hrefs a_ecommunity (t_ecom T) l a x); try done. intros E. by apply Hz.
    - apply V4, (Hrefs a_lcommunity (t_lcom T) l a x); try done. intros E. by apply Hz. }
  split.
  - eapply counted_ext; [exact C1 |]. intros l. by apply (Hr a_aspath (t_as T)).
  - eapply counted_ext; [exact C2 |]. intros l. by apply (Hr a_community (t_com T)).
  - eapply counted_ext; [exact C3 |]. intros l. by apply (Hr a_ecommunity (t_ecom T)).
  - eapply counted_ext; [exact C4 |]. intros l. by apply (Hr a_lcommunity (t_lcom T)).
  - cbv zeta in Hwf. eapply attr_hash_ext; [exact Hwf |]. intros l a Hin Hl. cbn [r_attr with_attr fst] in Hl.
    exists (a_refcnt a). rewrite with_refcnt_id, Em. split; [done |]. split; [by apply (Hattr l a); rewrite Em |].
    apply (Hsame l a). by rewrite Em.
  - done.
  - intros l a Hl. rewrite Hel. rewrite Hx in Hl. destruct (decide (l = f)) as [Hd|Hd].
    + case_decide as H1; [done |]. injection Hl as <-. cbn. subst l. rewrite (ro_elems rt T uses Hok f fa H).
      split; [lia | by intros _; split; [lia |]].
    + rewrite (ro_elems rt T uses Hok l a Hl). by split; [intros [? _] | intros; split].
  - intros l. rewrite Hx. cbn [t_attr bump_attr]. unfold bump. pose proof (ro_uses rt T uses Hok l) as Hu.
    destruct (decide (Some f = Some l)) as [Hd1|Hd1], (decide (l = f)) as [Hd2|Hd2]; try (exfalso; congruence); [| lia]. subst l. rewrite H in Hu.
    case_decide; cbn; lia.
  - intros l a Hl. by apply (Hlocal l a).
  - intros l. destruct (ro_temps rt T uses Hok l) as (?&?&?&?&?).
    cbn [t_as t_com t_ecom t_lcom t_attr bump_attr]. unfold bump. split_and!; try done.
    destruct (decide (Some f = Some l)) as [[= <-]|]; lia.
  - apply (ro_nonneg rt T uses Hok).
Qed.

(** The four pointers of an attribute released, in tables [rt1] whose stores
    are those of [rt]. *)
Lemma unintern_ptrs_step rt T rt1 a :
  counted value_ok (r_as rt1) (ashash rt1) (as_refs rt T) -> counted_com (r_com rt1) (comhash rt1) (com_refs rt T) ->
  counted_ecom (r_ecom rt1) (ecomhash rt1) (ecom_refs rt T) -> counted_lcom (r_lcom rt1) (lcomhash rt1) (lcom_refs rt T) ->
  (forall x, a_aspath a = Some x -> 0 < as_refs rt T x) -> (forall x, a_community a = Some x -> 0 < com_refs rt T x) ->
  (forall x, a_ecommunity a = Some x -> 0 < ecom_refs rt T x) -> (forall x, a_lcommunity a = Some x -> 0 < lcom_refs rt T x) ->
  exists rt', unintern_ptrs dbs bgp_comms_num (Some peer) rt1 a = Ok rt' /\
    counted value_ok (r_as rt') (ashash rt') (bump (as_refs rt T) (a_aspath a) (-1)) /\
    counted_com (r_com rt') (comhash rt') (bump (com_refs rt T) (a_community a) (-1)) /\
    counted_ecom (r_ecom rt') (ecomhash rt') (bump (ecom_refs rt T) (a_ecommunity a) (-1)) /\
    counted_lcom (r_lcom rt') (lcomhash rt') (bump (lcom_refs rt T) (a_lcommunity a) (-1)) /\
    (forall x, 0 < bump (as_refs rt T) (a_aspath a) (-1) x -> same_val (r_as rt1) (r_as rt') x) /\
    (forall x, 0 < bump (com_refs rt T) (a_community a) (-1) x -> same_val (r_com rt1) (r_com rt') x) /\
    (forall x, 0 < bump (ecom_refs rt T) (a_ecommunity a) (-1) x -> same_val (r_ecom rt1) (r_ecom rt') x) /\
    (forall x, 0 < bump (lcom_refs rt T) (a_lcommunity a) (-1) x -> same_val (r_lcom rt1) (r_lcom rt') x) /\
    r_attr rt' = r_attr rt1 /\ attrhash rt' = attrhash rt1 /\ rib rt' = rib rt1.
Proof using Hpeer.
  intros C1 C2 C3 C4 P1 P2 P3 P4. unfold unintern_ptrs.
  destruct (unintern_ptr_step value_ok peer Hpeer _ _ _ _ C1 P1) as (st1 & h1 & E1 & D1 & V1).
  change (aspath_unintern (Some peer)) with (unintern (V := aspath_value) (Some peer)).
  rewrite E1, bind_Ok. rt_cbn. clear E1.
  destruct (unintern_ptr_step (wf 4) peer Hpeer _ _ _ _ C2 P2) as (st2 & h2 & E2 & D2 & V2).
  change (community_unintern dbs (Some peer) bgp_comms_num)
    with (@unintern comms (community_internable dbs None bgp_comms_num) (Some peer)).
  rewrite E2, bind_Ok. rt_cbn. clear E2.
  destruct (unintern_ptr_step ecom_ok peer Hpeer _ _ _ _ C3 P3) as (st3 & h3 & E3 & D3 & V3).
  change (ecommunity_unintern dbs (Some peer) bgp_comms_num)
    with (@unintern comms (ecommunity_internable dbs None bgp_comms_num) (Some peer)).
  rewrite E3, bind_Ok. rt_cbn. clear E3.
  destruct (unintern_ptr_step (wf 12) peer Hpeer _ _ _ _ C4 P4) as (st4 & h4 & E4 & D4 & V4).
  change (lcommunity_unintern dbs (Some peer))
    with (@unintern comms (lcommunity_internable dbs None) (Some peer)).
  rewrite E4, bind_Ok. eexists. split; [done |]. by split_and!.
Qed.

Lemma attr_unintern_steps rt T uses f fa :
  rt_ok rt T uses -> r_attr rt !! f = Some fa -> 0 < t_attr T f ->
  exists rt', bgp_attr_unintern dbs bgp_comms_num (Some peer) rt f = Ok rt' /\
    rt_ok rt' (bump_attr T f (-1)) uses /\ r_attr rt' = dropped (r_attr rt) f fa /\ rib rt' = rib rt /\
    forall x, 0 < bump (as_refs rt T) (a_aspath fa) (-1) x -> same_val (r_as rt) (r_as rt') x.
Proof using Hpeer.
  intros Hok H Htf. destruct (attr_refs_pos rt T uses f fa Hok H) as (P1 & P2 & P3 & P4).
  assert (Hpos : 0 < a_refcnt fa < 2 ^ 64).
  { pose proof (ro_uses rt T uses Hok f) as Hu. rewrite H in Hu. pose proof (ro_nonneg rt T uses Hok f).
    destruct (ro_attr rt T uses Hok f fa H). lia. }
  unfold bgp_attr_unintern. rewrite (peer_routing_db peer Hpeer), (peer_misc_db dbs peer Hpeer).
  rewrite bool_decide_true by done. cbn [negb orb]. rewrite H. change (deref (Some fa)) with (Ok fa). rewrite bind_Ok.
  rewrite u64_small by lia. cbn [a_refcnt with_refcnt].
  set (m1 := <[f := with_refcnt (a_refcnt fa - 1) fa]> (r_attr rt)).
  set (rt1 := with_attr rt (m1, attrhash rt)).
  assert (Hfin : f ∈ elems (attrhash rt)) by (apply (ro_elems rt T uses Hok f fa H); lia).
  assert (Hwf1 : wf_hash (avalid rt1) (akey rt1) (acmp rt1) (attrhash rt)).
  { apply (attr_hash_ext rt); [apply (ro_hash rt T uses Hok) |]. intros l a _ Hl. cbn. unfold m1. destruct (decide (l = f)) as [->|].
    - rewrite lookup_insert_eq. assert (a = fa) as -> by congruence. eexists. split; [done |]. split; [lia |]. by split_and!.
    - rewrite lookup_insert_ne by done. exists (a_refcnt a). rewrite with_refcnt_id. split; [done |].
      split; [by apply (ro_attr rt T uses Hok l) |]. by split_and!. }
  (* what the first part leaves *)
  assert (exists h', (if a_refcnt fa - 1 =? 0 then
       '(h, _) ← hash_release attrhash_key_make attrhash_cmp rt1 (attrhash rt1) f;
       Ok (with_attr rt1 (delete f (r_attr rt1), h)) else Ok rt1) = Ok (with_attr rt (dropped (r_attr rt) f fa, h')) /\
     (let rt0 := with_attr rt (dropped (r_attr rt) f fa, h') in wf_hash (avalid rt0) (akey rt0) (acmp rt0) h') /\
     (forall l, l ∈ elems h' <-> l ∈ elems (attrhash rt) /\ (l = f -> a_refcnt fa <> 1))) as (h' & E & Hwf' & Hel).
  { unfold dropped. destruct (Z.eqb_spec (a_refcnt fa - 1) 0) as [E0|E0].
    - rewrite decide_True by lia.
      assert (Hv1 : avalid rt1 f) by (apply (elem_valid _ _ _ _ f Hwf1 Hfin)).
      destruct (hash_release_cases attrhash_key_make attrhash_cmp rt1 _ _ _ (akey_Ok rt1) (acmp_Ok rt1) (acmp_key rt1)
        (attrhash rt) f Hwf1 Hv1) as [(e & h' & He & Hcmp & E & Hwf' & Hperm)|(Hno & _)].
      2: { exfalso. pose proof (acmp_refl rt1 f Hv1) as Hrf. by rewrite (Hno f Hfin) in Hrf. }
      assert (e = f) as -> by (by apply (wh_distinct _ _ _ _ Hwf1)).
      change (attrhash rt1) with (attrhash rt). rewrite E, bind_Ok. exists h'.
      assert (Em : delete f (r_attr rt1) = delete f (r_attr rt)) by apply delete_insert_eq.
      rewrite Em. split; [done |].
      pose proof (wh_nodup _ _ _ _ Hwf1) as Hnd. rewrite Hperm in Hnd. apply NoDup_cons in Hnd as [Hnf _]. split.
      + cbv zeta. eapply attr_hash_ext; [exact Hwf' |]. intros l a Hin Hl. exists (a_refcnt a). rewrite with_refcnt_id. rt_cbn.
        assert (l <> f) by congruence. cbn in Hl. unfold m1 in Hl. rewrite lookup_insert_ne in Hl by done.
        rewrite lookup_delete_ne by done. split; [done |]. split; [by apply (ro_attr rt T uses Hok l) |]. by split_and!.
      + intros l. rewrite Hperm, elem_of_cons. split.
        * intros Hl. split; [by right | intros ->; done].
        * intros [[-> | Hl] Hn]; [by destruct (Hn eq_refl); lia | done].
    - rewrite decide_False by lia. exists (attrhash rt). split; [done |]. split; [exact Hwf1 |]. intros l.
      split; [intros Hl; split; [done | lia] | by intros [? _]]. }
  fold m1 rt1. rewrite E, bind_Ok.
  destruct (unintern_ptrs_step rt T (with_attr rt (dropped (r_attr rt) f fa, h')) (with_refcnt (a_refcnt fa - 1) fa)
    (ro_as rt T uses Hok) (ro_com rt T uses Hok) (ro_ecom rt T uses Hok) (ro_lcom rt T uses Hok) P1 P2 P3 P4)
    as (rt' & E' & C1 & C2 & C3 & C4 & V1 & V2 & V3 & V4 & Em & Eh & Er).
  exists rt'. split; [exact E' |]. rt_cbn. cbn in Em, Eh, Er. split_and!; [| done | done | exact V1].
  eapply (unintern_finish rt T uses rt' f fa); try done; by rewrite Eh.
Qed.

Lemma attr_unintern_spec rt T uses f fa :
  rt_ok rt T uses -> r_attr rt !! f = Some fa -> 0 < t_attr T f ->
  exists rt', bgp_attr_unintern dbs bgp_comms_num (Some peer) rt f = Ok rt' /\
    rt_ok rt' (bump_attr T f (-1)) uses /\ r_attr rt' = dropped (r_attr rt) f fa /\ rib rt' = rib rt.
Proof using Hpeer.
  intros H1 H2 H3. destruct (attr_unintern_steps rt T uses f fa H1 H2 H3) as (rt' & E & ? & ? & ? & _). by exists rt'.
Qed.

(** References handed from temporaries to routes, or back. *)
Lemma rt_ok_move rt T T' uses uses' :
  rt_ok rt T uses ->
  (forall l, t_as T' l = t_as T l /\ t_com T' l = t_com T l /\ t_ecom T' l = t_ecom T l /\ t_lcom T' l = t_lcom T l) ->
  (forall l, uses' l + t_attr T' l = uses l + t_attr T l) -> (forall l, 0 <= t_attr T' l /\ 0 <= uses' l) ->
  rt_ok rt T' uses'.
Proof using.
  intros Hok Ht Hu Hn. split.
  - eapply counted_ext; [apply (ro_as rt T uses Hok) |]. intros l. unfold as_refs. by destruct (Ht l) as (-> & _).
  - eapply counted_ext; [apply (ro_com rt T uses Hok) |]. intros l. unfold com_refs. by destruct (Ht l) as (_ & -> & _).
  - eapply counted_ext; [apply (ro_ecom rt T uses Hok) |]. intros l. unfold ecom_refs. by destruct (Ht l) as (_ & _ & -> & _).
  - eapply counted_ext; [apply (ro_lcom rt T uses Hok) |]. intros l. unfold lcom_refs. by destruct (Ht l) as (_ & _ & _ & ->).
  - apply (ro_hash rt T uses Hok).
  - apply (ro_attr rt T uses Hok).
  - apply (ro_elems rt T uses Hok).
  - intros l. rewrite Hu. apply (ro_uses rt T uses Hok).
  - intros l a H E. destruct (ro_local rt T uses Hok l a H E) as (L1 & L2 & L3 & L4).
    split_and!; intros x Hx; destruct (Ht x) as (H1 & H2 & H3 & H4); rewrite ?H1, ?H2, ?H3, ?H4; auto.
  - intros l. destruct (Ht l) as (-> & -> & -> & ->). destruct (ro_temps rt T uses Hok l) as (?&?&?&?&_).
    split_and!; try done. apply Hn.
  - apply Hn.
Qed.

(** The routing tables are not part of it. *)
Lemma rt_ok_rib rt T uses m : rt_ok rt T uses -> rt_ok (with_rib rt m) T uses.
Proof using. intros [? ? ? ? ? ? ? ? ? ? ?]. by split. Qed.

Lemma count_room_rib rt m : count_room rt -> count_room (with_rib rt m).
Proof using. done. Qed.

(** Two attributes of the table that compare equal are one. *)
Lemma attr_cmp_same rt T uses f g fa ga :
  rt_ok rt T uses -> r_attr rt !! f = Some fa -> r_attr rt !! g = Some ga -> 0 < a_refcnt fa -> 0 < a_refcnt ga ->
  attr_cmp fa ga = true <-> f = g.
Proof using.
  intros Hok Hf Hg Pf Pg. split.
  - intros E. apply (wh_distinct _ _ _ _ (ro_hash rt T uses Hok)).
    + by apply (ro_elems rt T uses Hok f fa Hf).
    + by apply (ro_elems rt T uses Hok g ga Hg).
    + unfold acmp. by rewrite Hf, Hg.
  - intros <-. assert (ga = fa) as -> by congruence. apply attr_cmp_refl. by apply (ro_attr rt T uses Hok f fa).
Qed.

(** ** Starting *)

Definition T0 : temps := mk_temps (fun _ => 0) (fun _ => 0) (fun _ => 0) (fun _ => 0) (fun _ => 0).

Lemma counted_empty {V} `{HI : Internable V} ok `{HL : !InternLaws V ok} h :
  intern_inv ok (∅ : objs V) h -> counted ok (∅ : objs V) h (fun _ => 0).
Proof using. intros H. split; [done |]. intros l. by rewrite lookup_empty. Qed.

(** Nothing has been received yet. *)
Lemma rt_ok_init buckets : 0 < buckets < 2 ^ 31 -> rt_ok (bgp_attr_init buckets rt0) T0 (fun _ => 0).
Proof using.
  intros Hb. assert (He : forall {V} l (o : obj V), (∅ : objs V) !! l = Some o -> False) by (intros V l o; by rewrite lookup_empty).
  split; cbn [bgp_attr_init rt0 r_as ashash r_com comhash r_ecom ecomhash r_lcom lcomhash r_attr attrhash].
  - change (hash_create_size (D := loc) 32767) with (hash_create (D := loc) 32767).
    eapply counted_ext; [apply counted_empty; [apply _ | apply intern_inv_empty; [done | by intros ? ? ?%He]] | done].
  - eapply counted_ext; [apply counted_empty; [apply _ | apply intern_inv_empty; [done | by intros ? ? ?%He]] | done].
  - eapply counted_ext; [apply counted_empty; [apply _ | apply intern_inv_empty; [done | by intros ? ? ?%He]] | done].
  - eapply counted_ext; [apply counted_empty; [apply _ | apply intern_inv_empty; [done | by intros ? ? ?%He]] | done].
  - by apply hash_create_wf.
  - intros l a. by rewrite lookup_empty.
  - intros l a. by rewrite lookup_empty.
  - intros l. by rewrite lookup_empty.
  - intros l a. by rewrite lookup_empty.
  - done.
  - done.
Qed.

(** The attribute of a message that begins, pointing to what the message
    holds. *)
Lemma rt_ok_new_attr rt T uses l a :
  rt_ok rt T uses -> r_attr rt !! l = None -> family_ok (ha_family (mp_nexthop a)) -> a_refcnt a = 0 ->
  (forall x, a_aspath a = Some x -> 0 < t_as T x) -> (forall x, a_community a = Some x -> 0 < t_com T x) ->
  (forall x, a_ecommunity a = Some x -> 0 < t_ecom T x) -> (forall x, a_lcommunity a = Some x -> 0 < t_lcom T x) ->
  rt_ok (with_attr rt (<[l := a]> (r_attr rt), attrhash rt)) T uses.
Proof using.
  intros Hok Hl Hf H0 P1 P2 P3 P4.
  assert (Hx : forall x, <[l := a]> (r_attr rt) !! x = if decide (x = l) then Some a else r_attr rt !! x).
  { intros x. destruct (decide (x = l)) as [->|]; [apply lookup_insert_eq | by apply lookup_insert_ne]. }
  assert (Hw : forall ptr x, weight ptr (<[l := a]> (r_attr rt)) x = weight ptr (r_attr rt) x).
  { intros ptr x. rewrite weight_insert by done. unfold points. rewrite H0. by case_decide. }
  assert (Hel : forall x, x ∈ elems (attrhash rt) -> x <> l).
  { intros x Hin ->. destruct (elem_valid _ _ _ _ l (ro_hash rt T uses Hok) Hin) as (b & E & _). congruence. }
  split; rt_cbn; try apply (ro_temps rt T uses Hok); try apply (ro_nonneg rt T uses Hok).
  - eapply counted_ext; [apply (ro_as rt T uses Hok) |]. intros x. unfold as_refs. rt_cbn. by rewrite Hw.
  - eapply counted_ext; [apply (ro_com rt T uses Hok) |]. intros x. unfold com_refs. rt_cbn. by rewrite Hw.
  - eapply counted_ext; [apply (ro_ecom rt T uses Hok) |]. intros x. unfold ecom_refs. rt_cbn. by rewrite Hw.
  - eapply counted_ext; [apply (ro_lcom rt T uses Hok) |]. intros x. unfold lcom_refs. rt_cbn. by rewrite Hw.
  - eapply attr_hash_ext; [apply (ro_hash rt T uses Hok) |]. intros x b Hin Hb. rt_cbn. exists (a_refcnt b).
    rewrite Hx, decide_False by auto. rewrite with_refcnt_id. split; [done |].
    destruct (ro_attr rt T uses Hok x b Hb). split; [done |]. by split_and!.
  - intros x b. rewrite Hx. case_decide; [intros [= <-]; split; [done | lia] | apply (ro_attr rt T uses Hok)].
  - intros x b. rewrite Hx. case_decide as Hd; [| apply (ro_elems rt T uses Hok)]. intros [= <-]. rewrite H0, Hd.
    split; [by intros ?%Hel | lia].
  - intros x. rewrite Hx. pose proof (ro_uses rt T uses Hok x) as Hu. case_decide as Hd; [| done].
    rewrite Hd, Hl in Hu. by rewrite Hd, H0.
  - intros x b. rewrite Hx. case_decide; [by intros [= <-] | apply (ro_local rt T uses Hok)].
Qed.

(** The structure on the stack is gone. *)
Lemma rt_ok_delete_attr rt T uses attr a : rt_ok rt T uses -> r_attr rt !! attr = Some a -> a_refcnt a = 0 ->
  rt_ok (with_attr rt (delete attr (r_attr rt), attrhash rt)) T uses.
Proof using.
  intros Hok Hl Ha0.
  assert (Hx : forall x, delete attr (r_attr rt) !! x = if decide (x = attr) then None else r_attr rt !! x).
  { intros x. case_decide as E; [rewrite E; apply lookup_delete_eq | by apply lookup_delete_ne]. }
  assert (Hw : forall ptr x, weight ptr (delete attr (r_attr rt)) x = weight ptr (r_attr rt) x).
  { intros ptr x. rewrite (weight_delete ptr _ _ a) by done. unfold points. rewrite Ha0. case_decide; lia. }
  assert (Hel : forall x, x ∈ elems (attrhash rt) -> x <> attr).
  { intros x Hin ->. apply (ro_elems _ _ _ Hok attr a Hl) in Hin. lia. }
  split; rt_cbn;
    try apply (ro_temps _ _ _ Hok); try apply (ro_nonneg _ _ _ Hok).
  - eapply counted_ext; [apply (ro_as _ _ _ Hok) |]. intros x. unfold as_refs. cbn. by rewrite Hw.
  - eapply counted_ext; [apply (ro_com _ _ _ Hok) |]. intros x. unfold com_refs. cbn. by rewrite Hw.
  - eapply counted_ext; [apply (ro_ecom _ _ _ Hok) |]. intros x. unfold ecom_refs. cbn. by rewrite Hw.
  - eapply counted_ext; [apply (ro_lcom _ _ _ Hok) |]. intros x. unfold lcom_refs. cbn. by rewrite Hw.
  - eapply attr_hash_ext; [apply (ro_hash _ _ _ Hok) |]. intros x c Hin Hc. cbn. exists (a_refcnt c).
    rewrite Hx, decide_False by auto. rewrite with_refcnt_id. split; [done |].
    destruct (ro_attr _ _ _ Hok x c Hc). split; [done |]. by split_and!.
  - intros x c. rewrite Hx. case_decide; [done | apply (ro_attr _ _ _ Hok)].
  - intros x c. rewrite Hx. case_decide; [done | apply (ro_elems _ _ _ Hok)].
  - intros x. rewrite Hx. pose proof (ro_uses _ _ _ Hok x) as Hu. case_decide as E; [| done].
    rewrite E, Hl, Ha0 in Hu. by rewrite E.
  - intros x c. rewrite Hx. case_decide; [done | apply (ro_local _ _ _ Hok)].
Qed.

End Tables.

(** ** Theorems *)

(** Interning the attribute of a message: it never faults, and what it returns
    is the one object for the attribute, which compares equal to it and has one
    reference more; everything the attribute points to has one reference more
    when the object is another one; the counts of all objects agree with who
    refers to them, before and after. *)
Theorem bgp_attr_intern_spec {X} dbs num peer (rt : bgp_rt_structs X) T uses s a :
  type peer < FUNC_TYPE_MAX -> rt_ok dbs num rt T uses -> count_room rt ->
  r_attr rt !! s = Some a -> a_refcnt a = 0 ->
  exists rt' f fb n, bgp_attr_intern dbs num (Some peer) rt s = Ok (rt', Some f) /\
    rt_ok dbs num rt' (bump_attr T f 1) uses /\
    r_attr rt' = <[f := with_refcnt n fb]> (r_attr rt) /\ taken_attr (r_attr rt) f fb n /\
    attr_cmp fb a = true /\ f <> s /\ rib rt' = rib rt.
Proof. intros Hp. by apply attr_intern_spec. Qed.

(** C34. Releasing a reference to an attribute: the count goes down, with the last
    one the attribute leaves the table and is freed; what it points to loses
    one reference and is freed when that was the last; the counts of all
    objects agree with who refers to them afterwards. *)
Theorem bgp_attr_unintern_spec {X} dbs num peer (rt : bgp_rt_structs X) T uses f fa :
  type peer < FUNC_TYPE_MAX -> rt_ok dbs num rt T uses -> r_attr rt !! f = Some fa -> 0 < t_attr T f ->
  exists rt', bgp_attr_unintern dbs num (Some peer) rt f = Ok rt' /\
    rt_ok dbs num rt' (bump_attr T f (-1)) uses /\ r_attr rt' = dropped (r_attr rt) f fa /\ rib rt' = rib rt.
Proof. intros Hp. by apply attr_unintern_spec. Qed.

End BgpAttrFacts.
