(* ===== verification/BgpRib.v ===== *)
(** * src/bgp/bgp_util.c, src/bgp/bgp_msg.c: routes in and out of the tables

    Registering, replacing and withdrawing the route of a peer for a prefix:
    [bgp_process_update], [bgp_process_withdraw] and what they call.  A peer is
    told apart by the location of its structure.  The configuration fields and
    the function pointers of [struct bgp_misc_structs] are parameters; logging
    to files and brokers is left out, what it keeps alive meanwhile is not. *)

From S2P Require Import Prelude CBuf Bgp BgpPrefix BgpTable BgpHash Aspath Communities BgpAttr.

Module BgpRib.
Import CBuf Bgp BgpPrefix BgpTable BgpHash BgpIntern Aspath Communities BgpAttr.

(** The fields of [struct bgp_peer] that routes depend on. *)
Record peer := mk_bgp_peer {
  p_self : loc;
  p_base : bgp_peer;
  p_fd : Z;
  p_lock : Z;
  p_4as : bool;
  p_add_paths : gmap (Z * Z) Z;
  p_eor : gset (Z * Z)
}.

Definition with_peer_lock (n : Z) (p : peer) : peer :=
  mk_bgp_peer (p_self p) (p_base p) (p_fd p) n (p_4as p) (p_add_paths p) (p_eor p).
(** [peer->eor[afi][safi] = TRUE] *)
Definition with_eor (afi safi : Z) (p : peer) : peer :=
  mk_bgp_peer (p_self p) (p_base p) (p_fd p) (p_lock p) (p_4as p) (p_add_paths p) ({[(afi, safi)]} ∪ p_eor p).

(** [peer->cap_add_paths.cap[afi][safi]] *)
Definition add_paths (p : peer) (afi safi : Z) : bool :=
  negb (default 0 (p_add_paths p !! (afi, safi)) =? 0).

(** ** The bucket of a route (bgp_lookup.c) *)

(** [int] and [u_int32_t] mixed: computed modulo 2^32. *)
Definition bgp_route_info_modulo_pathid (bms : bgp_misc_structs) (p : peer) (rd : option rd_t)
    (path_id : option Z) (per_peer_buckets : Z) : Z :=
  let local_path_id := match path_id with Some i => if i =? 0 then 1 else i | None => 1 end in
  u32 (p_fd p * per_peer_buckets + u32 (local_path_id - 1) mod per_peer_buckets)
    mod u32 (table_peer_buckets bms * per_peer_buckets).

Definition bgp_route_info_modulo_mplsvpnrd (bms : bgp_misc_structs) (p : peer) (rd : option rd_t)
    (path_id : option Z) (per_peer_buckets : Z) : Z :=
  let local_rd := match rd with
                  | Some rd => u16 (rd_type rd + le_u16 (rd_body rd) 0 + le_u32 (rd_body rd) 2)
                  | None => 0
                  end in
  (p_fd p * per_peer_buckets + local_rd mod per_peer_buckets)
    mod (table_peer_buckets bms * per_peer_buckets).

(** ** Extra attributes *)

(** [rie]: the structure of the route, made when there is none. *)
Definition bgp_attr_extra_get (ri_extra : option bgp_attr_extra) : bgp_attr_extra := default extra0 ri_extra.

(** The structure is only made, or touched at all, when one of the
    conditions holds; the result is what the route points to afterwards. *)
Definition bgp_attr_extra_process (add_path : bool) (safi : Z) (ri_extra : option bgp_attr_extra)
    (attr_extra : bgp_attr_extra) : option bgp_attr_extra :=
  let get rie := match rie with Some r => r | None => bgp_attr_extra_get ri_extra end in
  let rie : option bgp_attr_extra := None in
  let rie := if (safi =? SAFI_MPLS_LABEL) || (safi =? SAFI_MPLS_VPN) then
               let r := get rie in
               let rd := if safi =? SAFI_MPLS_VPN then e_rd attr_extra else e_rd r in
               Some (mk_extra (e_bitmap r) rd (e_label attr_extra) (e_path_id r) (e_aigp r) (e_psid_li r) (e_otc r) (e_ls r))
             else rie in
  let rie := if add_path then
               let r := get rie in
               Some (mk_extra (e_bitmap r) (e_rd r) (e_label r) (e_path_id attr_extra) (e_aigp r) (e_psid_li r) (e_otc r) (e_ls r))
             else rie in
  let aigp := negb (Z.land (e_bitmap attr_extra) BGP_BMAP_ATTR_AIGP =? 0) in
  let rie := if aigp then
               let r := get rie in
               Some (mk_extra (Z.lor (e_bitmap r) BGP_BMAP_ATTR_AIGP) (e_rd r) (e_label r) (e_path_id r) (e_aigp attr_extra)
                       (e_psid_li r) (e_otc r) (e_ls r))
             else rie in
  let rie := if negb (e_psid_li attr_extra =? 0) then
               let r := get rie in
               Some (mk_extra (e_bitmap r) (e_rd r) (e_label r) (e_path_id r) (e_aigp r) (e_psid_li attr_extra) (e_otc r) (e_ls r))
             else rie in
  let rie := if negb (e_otc attr_extra =? 0) then
               let r := get rie in
               Some (mk_extra (e_bitmap r) (e_rd r) (e_label r) (e_path_id r) (e_aigp r) (e_psid_li r) (e_otc attr_extra) (e_ls r))
             else rie in
  match rie with
  | None => ri_extra
  | Some r => if aigp then Some r
              else Some (mk_extra (Z.ldiff (e_bitmap r) BGP_BMAP_ATTR_AIGP) (e_rd r) (e_label r) (e_path_id r) (e_aigp r)
                           (e_psid_li r) (e_otc r) (e_ls r))
  end.

Section Rib.
Context {X : Type}.
Context (dbs : misc_dbs) (past : Z) (bgp_comms_num : bool).
(** [bms->skip_rib], [bms->msglog_backend_methods] *)
Context (skip_rib msglog : bool).
(** The function pointers of [bms]; BGP has no hooks for the extra data, whose
    id is then 0. *)
Context (route_info_modulo : bgp_misc_structs -> peer -> option rd_t -> option Z -> Z -> Z).
Context (bmed_id : X -> Z).
Context (bgp_extra_data_cmp : option (X -> X -> Z)).
Context (bgp_extra_data_process : option (X -> X -> Z -> Z -> X)).

Definition BGP_NLRI_UPDATE : Z := 1.
Definition BGP_NLRI_WITHDRAW : Z := 2.

(** A route, as a new one is made: [memset] leaves extra data of id 0. *)
Context (bmed0 : X).

Abbreviation rt_structs := (bgp_rt_structs X).
Abbreviation info := (bgp_info X).
Abbreviation table := (bgp_table (bgp_info X)).

Definition extra_data_process (bmed ri_bmed : X) (idx type : Z) : X :=
  match bgp_extra_data_process with Some f => f bmed ri_bmed idx type | None => ri_bmed end.

(** [bgp_info_free]: the peer of a route that is deleted is the caller's. *)
Definition bgp_info_free (p : peer) (rt : rt_structs) (ri : info) : res (peer * rt_structs) :=
  rt ← match i_attr ri with
       | Some a => bgp_attr_unintern dbs bgp_comms_num (Some (p_base p)) rt a
       | None => Ok rt
       end;
  Ok (with_peer_lock (s32 (p_lock p - 1)) p, rt).

(** The [k]-th route of the bucket is unlinked and freed, the node unlocked. *)
Definition info_delete (p : peer) (rt : rt_structs) (afi safi : Z) (route : loc) (k : nat) (ri : info) (modulo : Z)
    : res (peer * rt_structs) :=
  '(p, rt) ← bgp_info_free p rt ri;
  t ← get_rib rt afi safi;
  t ← bgp_info_delete dbs (p_base p) t route k modulo;
  Ok (p, set_rib rt afi safi t).

(** ** Finding the route of a peer *)

(** The body of the search loop: [true] where it stops. *)
Definition same_route (p : peer) (afi safi : Z) (attr_extra : bgp_attr_extra) (extra : X) (ri : info) : bool :=
  if negb (bool_decide (i_peer ri = p_self p)) then false
  else if (safi =? SAFI_MPLS_VPN)
          && negb match i_attr_extra ri with
                  | Some e => bool_decide (rd_type (e_rd e) = rd_type (e_rd attr_extra))
                              && bool_decide (rd_body (e_rd e) = rd_body (e_rd attr_extra))
                  | None => false
                  end then false
  else if add_paths p afi safi
          && negb match i_attr_extra ri with
                  | Some e => e_path_id attr_extra =? e_path_id e
                  | None => false
                  end then false
  else if negb (bmed_id (i_bmed ri) =? 0) then
    match bgp_extra_data_cmp with Some f => f extra (i_bmed ri) =? 0 | None => false end
  else true.

Fixpoint find_ri (same : info -> bool) (l : list info) (k : nat) : option (nat * info) :=
  match l with
  | [] => None
  | ri :: next => if same ri then Some (k, ri) else find_ri same next (S k)
  end.

Definition bucket (t : table) (route : loc) (modulo : Z) : res (list info) :=
  nd ← get_node t route;
  match nd_info nd !! Z.to_nat modulo with Some l => Ok l | None => Err OutOfBounds end.

(** [*ri = ...] for the [k]-th route of a bucket. *)
Definition set_info (t : table) (route : loc) (modulo : Z) (k : nat) (ri : info) : res table :=
  l ← bucket t route modulo;
  upd_node t route (fun nd => with_info (<[Z.to_nat modulo := <[k := ri]> l]> (nd_info nd)) nd).

(** ** Updates *)

(** With the table skipped, the attribute is interned while the log entry is
    written. *)
Definition log_only (p : peer) (rt : rt_structs) (attr : loc) : res (Z * peer * rt_structs) :=
  if msglog then
    '(rt, a) ← bgp_attr_intern dbs bgp_comms_num (Some (p_base p)) rt attr;
    a ← deref a;
    rt ← bgp_attr_unintern dbs bgp_comms_num (Some (p_base p)) rt a;
    Ok (SUCCESS, p, rt)
  else Ok (SUCCESS, p, rt).

Definition bgp_process_update (extra : X) (pr : peer) (rt : rt_structs) (p : prefix) (attr : loc)
    (attr_extra : bgp_attr_extra) (afi safi idx : Z) : res (Z * peer * rt_structs) :=
  let base := p_base pr in
  match bgp_select_misc_db dbs (type base) with
  | None => Ok (ERR, pr, rt)
  | Some bms =>
      if skip_rib then log_only pr rt attr
      else
        let modulo := route_info_modulo bms pr (Some (e_rd attr_extra)) (Some (e_path_id attr_extra))
                        (table_per_peer_buckets bms) in
        t ← get_rib rt afi safi;
        '(t, route) ← bgp_node_get dbs past base t p;
        let rt := set_rib rt afi safi t in
        l ← bucket t route modulo;
        let ri := find_ri (same_route pr afi safi attr_extra extra) l 0 in
        '(rt, attr_new) ← bgp_attr_intern dbs bgp_comms_num (Some base) rt attr;
        attr_new ← deref attr_new;
        match ri with
        | Some (k, ri) =>
            ri_attr ← deref (i_attr ri);
            same ← attrhash_cmp rt ri_attr attr_new;
            if same : bool then
              t ← get_rib rt afi safi;
              t ← bgp_unlock_node dbs base t route;
              rt ← bgp_attr_unintern dbs bgp_comms_num (Some base) (set_rib rt afi safi t) attr_new;
              Ok (SUCCESS, pr, rt)
            else
              rt ← bgp_attr_unintern dbs bgp_comms_num (Some base) rt ri_attr;
              t ← get_rib rt afi safi;
              let ri := mk_info (i_peer ri) (Some attr_new)
                          (bgp_attr_extra_process (add_paths pr afi safi) safi (i_attr_extra ri) attr_extra)
                          (extra_data_process extra (i_bmed ri) idx BGP_NLRI_UPDATE) in
              t ← set_info t route modulo k ri;
              t ← bgp_unlock_node dbs base t route;
              Ok (SUCCESS, pr, set_rib rt afi safi t)
        | None =>
            let new := mk_info (p_self pr) (Some attr_new)
                         (bgp_attr_extra_process (add_paths pr afi safi) safi None attr_extra)
                         (extra_data_process extra bmed0 idx BGP_NLRI_UPDATE) in
            t ← get_rib rt afi safi;
            '(t, lock) ← bgp_info_add dbs base t route new modulo (p_lock pr);
            t ← bgp_unlock_node dbs base t route;
            Ok (SUCCESS, with_peer_lock lock pr, set_rib rt afi safi t)
        end
  end.

(** ** Withdrawals *)

(** Nothing is kept when the table is skipped: the local route of the log
    entry has no attribute. *)
Definition bgp_process_withdraw (extra : X) (pr : peer) (rt : rt_structs) (p : prefix)
    (attr_extra : bgp_attr_extra) (afi safi idx : Z) : res (Z * peer * rt_structs) :=
  let base := p_base pr in
  match bgp_select_misc_db dbs (type base) with
  | None => Ok (ERR, pr, rt)
  | Some bms =>
      if skip_rib then Ok (SUCCESS, pr, rt)
      else
        let modulo := route_info_modulo bms pr (Some (e_rd attr_extra)) (Some (e_path_id attr_extra))
                        (table_per_peer_buckets bms) in
        t ← get_rib rt afi safi;
        '(t, route) ← bgp_node_get dbs past base t p;
        let rt := set_rib rt afi safi t in
        l ← bucket t route modulo;
        '(pr, rt) ← match find_ri (same_route pr afi safi attr_extra extra) l 0 with
                    | Some (k, ri) => info_delete pr rt afi safi route k ri modulo
                    | None => Ok (pr, rt)
                    end;
        t ← get_rib rt afi safi;
        t ← bgp_unlock_node dbs base t route;
        Ok (SUCCESS, pr, set_rib rt afi safi t)
  end.

(** ** All the routes of a peer *)

(** The routes of the peer in one bucket of a node: [k] counts those of other
    peers that are passed. *)
Fixpoint delete_bucket (n : nat) (p : peer) (rt : rt_structs) (afi safi : Z) (node : loc) (k : nat) (modulo : Z)
    : res (peer * rt_structs) :=
  match n with
  | O => Ok (p, rt)
  | S n' =>
      t ← get_rib rt afi safi;
      l ← bucket t node modulo;
      match l !! k with
      | None => Ok (p, rt)
      | Some ri =>
          if bool_decide (i_peer ri = p_self p) then
            '(p, rt) ← info_delete p rt afi safi node k ri modulo;
            delete_bucket n' p rt afi safi node k modulo
          else delete_bucket n' p rt afi safi node (S k) modulo
      end
  end.

Fixpoint delete_buckets (n : nat) (p : peer) (rt : rt_structs) (afi safi : Z) (node : loc) (modulo : Z)
    : res (peer * rt_structs) :=
  match n with
  | O => Ok (p, rt)
  | S n' =>
      t ← get_rib rt afi safi;
      l ← bucket t node modulo;
      '(p, rt) ← delete_bucket (length l) p rt afi safi node 0 modulo;
      delete_buckets n' p rt afi safi node (u32 (modulo + 1))
  end.

Fixpoint info_delete_loop (fuel : nat) (bms : bgp_misc_structs) (p : peer) (rt : rt_structs) (afi safi : Z)
    (node : option loc) (modulo : Z) : res (peer * rt_structs) :=
  match fuel with
  | O => Err OutOfFuel
  | S f =>
      match node with
      | None => Ok (p, rt)
      | Some node =>
          '(p, rt) ← delete_buckets (Z.to_nat (table_per_peer_buckets bms)) p rt afi safi node modulo;
          t ← get_rib rt afi safi;
          '(t, next) ← bgp_route_next dbs (p_base p) t node;
          info_delete_loop f bms p (set_rib rt afi safi t) afi safi next modulo
      end
  end.

(** [has_modulo]: [bms->route_info_modulo] is set.  The loop visits each node
    once. *)
Definition bgp_table_info_delete (has_modulo : bool) (p : peer) (rt : rt_structs) (afi safi : Z)
    : res (peer * rt_structs) :=
  bms ← deref (bgp_select_misc_db dbs (type (p_base p)));
  t ← get_rib rt afi safi;
  let fuel := S (size (t_heap t)) in
  '(t, node) ← bgp_table_top dbs (p_base p) (Some t);
  t ← deref t;
  let modulo := if has_modulo then route_info_modulo bms p None None (table_per_peer_buckets bms) else 0 in
  info_delete_loop fuel bms p (set_rib rt afi safi t) afi safi node modulo.

End Rib.

(** ** AS4_PATH *)

Section Munge.
Context {X : Type} (dbs : misc_dbs).

(** The path that [l] points to, as [aspath_reconcile_as4] reads it. *)
Definition path_of (st : objs aspath_value) (o : option loc) : res (option aspath) :=
  match o with
  | None => Ok None
  | Some l => ob ← deref (st !! l); Ok (Some (mk_aspath (v_segments (o_val ob)) (v_last_as (o_val ob)) (o_str ob)))
  end.

(** The attribute is the caller's, which nothing else points to.
    [aspath_unintern] and [aspath_intern] follow their argument: NULL
    faults. *)
Definition bgp_attr_munge_as4path (pr : peer) (rt : bgp_rt_structs X) (a : bgp_attr) (as4path : option loc)
    : res (Z * bgp_rt_structs X * bgp_attr) :=
  if p_4as pr then Ok (SUCCESS, rt, a)
  else
    let peer := Some (p_base pr) in
    path ← path_of (r_as rt) (a_aspath a);
    path4 ← path_of (r_as rt) as4path;
    newpath ← aspath_reconcile_as4 path path4;
    l ← deref (a_aspath a);
    sh ← aspath_unintern peer (r_as rt) (ashash rt) l;
    let rt := with_as rt sh in
    newpath ← deref newpath;
    let tmp := fresh (dom (r_as rt)) in
    let st := <[tmp := mk_obj (mk_value (segments newpath) (last_as newpath)) 0 (str newpath)]> (r_as rt) in
    '(st, h, new) ← aspath_intern dbs peer st (ashash rt) tmp;
    Ok (SUCCESS, with_as rt (st, h), with_aspath new a).

End Munge.

End BgpRib.
