(* ===== verification/BgpRibFacts.v ===== *)
(** * Routes in and out of the tables: a map from prefixes to routes

    [bgp_process_update] and [bgp_process_withdraw] refine the map of
    [BgpRoutes]: one route per peer (and distinguisher or path identifier) and
    prefix, set or removed; attributes are counted by the routes that use
    them, so that nothing leaks and nothing dangles. *)

From S2P Require Import Prelude CBuf Bgp BgpPrefix BgpTable BgpTableFacts BgpRoutes BgpHash BgpHashFacts BgpInternFacts.
From S2P Require Import Aspath AspathFacts Communities CommunitiesFacts BgpAttr BgpAttrFacts BgpRib.

Module BgpRibFacts.
Import CBuf Bgp BgpPrefix BgpTable BgpTableFacts BgpRoutes BgpHash BgpHashFacts BgpIntern BgpInternFacts
  Aspath AspathFacts Communities CommunitiesFacts BgpAttr BgpAttrFacts BgpRib.

(** ** The bucket of a route exists *)

(** Whatever the descriptor and the identifiers, the bucket is one of those a
    node has. *)
Theorem bgp_route_info_modulo_range bms pr rd path_id :
  0 < table_per_peer_buckets bms -> 0 < table_peer_buckets bms ->
  table_peer_buckets bms * table_per_peer_buckets bms < 2 ^ 32 -> 0 <= p_fd pr ->
  (Z.to_nat (bgp_route_info_modulo_pathid bms pr rd path_id (table_per_peer_buckets bms)) < info_buckets bms)%nat /\
  (Z.to_nat (bgp_route_info_modulo_mplsvpnrd bms pr rd path_id (table_per_peer_buckets bms)) < info_buckets bms)%nat.
Proof.
  intros H1 H2 H3 Hf. unfold bgp_route_info_modulo_pathid, bgp_route_info_modulo_mplsvpnrd, info_buckets.
  assert (0 < table_peer_buckets bms * table_per_peer_buckets bms) by nia.
  rewrite (u32_small (table_peer_buckets bms * table_per_peer_buckets bms)) by lia.
  split; apply Z2Nat.inj_lt; try (apply Z.mod_pos_bound; lia); lia.
Qed.

(** ** Counting the routes that use an attribute *)

Section Uses.
Context {X : Type}.
Abbreviation info := (bgp_info X).
Abbreviation table := (bgp_table (bgp_info X)).

Definition uses_attr (x : loc) (ri : info) : bool := bool_decide (i_attr ri = Some x).

Fixpoint bucket_uses (b : list info) (x : loc) : Z :=
  match b with [] => 0 | ri :: r => (if uses_attr x ri then 1 else 0) + bucket_uses r x end.

Definition table_uses (t : table) (x : loc) : Z := msum (fun b => bucket_uses b x) (routes t).
Definition rib_uses (m : gmap (Z * Z) table) (x : loc) : Z := msum (fun t => table_uses t x) m.

Lemma bucket_uses_nonneg b x : 0 <= bucket_uses b x.
Proof. induction b as [|ri b IH]; cbn; [lia |]. case_match; lia. Qed.

Lemma bucket_uses_app a b x : bucket_uses (a ++ b) x = bucket_uses a x + bucket_uses b x.
Proof. induction a as [|ri a IH]; cbn; [lia |]. rewrite IH. lia. Qed.

Definition one (o : option loc) (x : loc) : Z := if decide (o = Some x) then 1 else 0.

Lemma bucket_uses_cons ri b x : bucket_uses (ri :: b) x = one (i_attr ri) x + bucket_uses b x.
Proof. cbn. unfold uses_attr, one. by repeat case_match; case_bool_decide. Qed.

Lemma bucket_uses_split b k ri x : b !! k = Some ri ->
  bucket_uses b x = bucket_uses (take k b) x + (one (i_attr ri) x + bucket_uses (drop (S k) b) x).
Proof.
  intros H. rewrite <- (take_drop_middle b k ri H) at 1. rewrite bucket_uses_app, bucket_uses_cons. done.
Qed.

Lemma bucket_uses_insert b k ri ri' x : b !! k = Some ri ->
  bucket_uses (<[k := ri']> b) x = bucket_uses b x - one (i_attr ri) x + one (i_attr ri') x.
Proof.
  intros H. rewrite (bucket_uses_split b k ri x H), insert_take_drop by (by eapply lookup_lt_Some).
  rewrite bucket_uses_app, bucket_uses_cons. lia.
Qed.

Lemma bucket_uses_delete b k ri x : b !! k = Some ri ->
  bucket_uses (delete k b) x = bucket_uses b x - one (i_attr ri) x.
Proof.
  intros H. rewrite (bucket_uses_split b k ri x H), delete_take_drop, bucket_uses_app. lia.
Qed.

Lemma set_bucket_uses (k : list bool) (m : nat) (b : list info) (R : gmap (list bool * nat) (list info)) x :
  msum (fun b => bucket_uses b x) (set_bucket k m b R) =
    msum (fun b => bucket_uses b x) R - bucket_uses (get_bucket k m R) x + bucket_uses b x.
Proof.
  assert (Ha : at_key (fun b => bucket_uses b x) R (k, m) = bucket_uses (get_bucket k m R) x).
  { unfold at_key, get_bucket. by destruct (R !! (k, m)). }
  unfold set_bucket. destruct b as [|ri b].
  - rewrite (msum_remove _ R (k, m)), Ha. cbn [bucket_uses]. lia.
  - rewrite msum_update, Ha. lia.
Qed.

Lemma table_uses_nonneg t x : 0 <= table_uses t x.
Proof. apply msum_nonneg. intros. apply bucket_uses_nonneg. Qed.

Lemma rib_uses_nonneg m x : 0 <= rib_uses m x.
Proof. apply msum_nonneg. intros. apply table_uses_nonneg. Qed.

Lemma rib_uses_set m k t t' x : m !! k = Some t ->
  rib_uses (<[k := t']> m) x = rib_uses m x - table_uses t x + table_uses t' x.
Proof. intros H. unfold rib_uses. rewrite msum_update. unfold at_key. by rewrite H. Qed.

(** An attribute some route uses. *)
Lemma rib_uses_pos m k t km b ri x : m !! k = Some t -> routes t !! km = Some b -> ri ∈ b -> i_attr ri = Some x ->
  0 < rib_uses m x.
Proof.
  intros Hk Hb [j Hj]%list_elem_of_lookup Ha.
  pose proof (msum_ge (fun t => table_uses t x) m k t (fun _ _ _ => table_uses_nonneg _ _) Hk) as H1.
  pose proof (msum_ge (fun b => bucket_uses b x) (routes t) km b (fun _ _ _ => bucket_uses_nonneg _ _) Hb) as H2.
  pose proof (bucket_uses_split b j ri x Hj) as H3. unfold one in H3. rewrite decide_True in H3 by done.
  pose proof (bucket_uses_nonneg (take j b) x). pose proof (bucket_uses_nonneg (drop (S j) b) x).
  cbn in H1, H2. unfold rib_uses, table_uses in *. lia.
Qed.

(** ** The number of routes bounds every count *)

Definition table_size (t : table) : Z := msum (fun b => Z.of_nat (length b)) (routes t).
Definition n_routes (m : gmap (Z * Z) table) : Z := msum table_size m.

Definition attr_in (D : gset loc) (ri : info) : Z :=
  match i_attr ri with Some l => if decide (l ∈ D) then 1 else 0 | None => 0 end.
Fixpoint bucket_in (D : gset loc) (b : list info) : Z := match b with [] => 0 | ri :: r => attr_in D ri + bucket_in D r end.
Definition rib_in (D : gset loc) (m : gmap (Z * Z) table) : Z := msum (fun t => msum (bucket_in D) (routes t)) m.

Lemma bucket_in_length D b : 0 <= bucket_in D b <= Z.of_nat (length b).
Proof.
  induction b as [|ri b IH]; [done |]. cbn [bucket_in length]. unfold attr_in.
  destruct (i_attr ri); [case_decide |]; lia.
Qed.

Lemma bucket_in_add D l b : l ∉ D -> bucket_in ({[l]} ∪ D) b = bucket_uses b l + bucket_in D b.
Proof.
  intros Hl. induction b as [|ri b IH]; [done |]. rewrite bucket_uses_cons. cbn [bucket_in]. rewrite IH.
  unfold attr_in, one. destruct (i_attr ri) as [x|]; [| by rewrite decide_False by done].
  destruct (decide (x = l)) as [->|Hne].
  - rewrite decide_True, (decide_False (P := l ∈ D)), decide_True by first [done | set_solver]. lia.
  - rewrite (decide_False (P := Some x = Some l)) by congruence.
    assert (Hx : x ∈ {[l]} ∪ D <-> x ∈ D) by set_solver. rewrite (decide_ext _ _ _ _ Hx). lia.
Qed.

Lemma rib_in_add D l m : l ∉ D -> rib_in ({[l]} ∪ D) m = rib_uses m l + rib_in D m.
Proof. intros Hl. apply msum_add. intros t. apply msum_add. intros b. by apply bucket_in_add. Qed.

Lemma rib_in_routes D m : rib_in D m <= n_routes m.
Proof. apply msum_le. intros k t _. apply msum_le. intros km b _. apply bucket_in_length. Qed.

(** A table of things counted by the routes. *)
Lemma uses_routes {A} (g : A -> Z) (M : gmap loc A) m :
  (forall l a, M !! l = Some a -> g a = rib_uses m l) -> msum g M <= n_routes m.
Proof.
  intros Hg. assert (E : msum g M = rib_in (dom M) m); [| rewrite E; apply rib_in_routes].
  revert Hg. induction M as [|l a M Hl IH] using map_ind; intros Hg.
  - rewrite msum_empty, dom_empty_L. unfold rib_in. symmetry. apply msum_zero. intros k t _. apply msum_zero. intros km b _.
    induction b as [|ri b IH]; [done |]. cbn [bucket_in]. rewrite IH. unfold attr_in. destruct (i_attr ri); [| done].
    by rewrite decide_False by set_solver.
  - rewrite msum_insert, dom_insert_L, rib_in_add by (done || by apply not_elem_of_dom).
    rewrite (Hg l a (lookup_insert_eq _ _ _)), IH; [done |]. intros x y Hx. apply Hg.
    rewrite lookup_insert_ne; [done |]. intros ->. congruence.
Qed.

(** The routes of a node are routes of the table. *)
Lemma buckets_routes (R : gmap (list bool * nat) (list info)) (k : list bool) bs : forall i : nat,
  (forall j b, bs !! j = Some b -> get_bucket k (i + j)%nat R = b) ->
  Z.of_nat (length (concat bs)) <= msum (fun b => Z.of_nat (length b)) R.
Proof.
  revert R. induction bs as [|b bs IH]; intros R i Hb.
  - apply msum_nonneg. lia.
  - cbn [concat]. rewrite length_app, (msum_remove _ R (k, i)).
    assert (Ha : at_key (fun b => Z.of_nat (length b)) R (k, i) = Z.of_nat (length b)).
    { pose proof (Hb 0%nat b eq_refl) as E. rewrite Nat.add_0_r in E. unfold at_key, get_bucket in *.
      destruct (R !! (k, i)); cbn in E; by subst. }
    rewrite Ha. enough (Z.of_nat (length (concat bs)) <= msum (fun b => Z.of_nat (length b)) (delete (k, i) R)) by lia.
    apply (IH _ (S i)). intros j b' Hj. pose proof (Hb (S j) b' Hj) as E. unfold get_bucket in *.
    rewrite lookup_delete_ne; [by replace (S i + j)%nat with (i + S j)%nat by lia |]. intros [= E2]. lia.
Qed.

Lemma node_routes_size bms t l nd : table_ok bms t -> t_heap t !! l = Some nd -> refs nd <= table_size t.
Proof.
  intros Ht Hl. unfold refs, table_size. apply (buckets_routes _ (nkey nd) _ 0). intros j b Hj.
  by apply (routes_node t l nd j b (to_wf bms t Ht)).
Qed.

Lemma table_size_routes m k t : m !! k = Some t -> table_size t <= n_routes m.
Proof.
  intros H. apply (msum_ge table_size m k t); [| done]. intros k' t' _. apply msum_nonneg. lia.
Qed.

End Uses.

(** ** The state *)

Section State.
Context {X : Type}.
Context (dbs : misc_dbs) (past : Z) (num : bool) (pr : peer).
Let base := p_base pr.
Let bms := dbs (type base).
Hypothesis Hpeer : type base < FUNC_TYPE_MAX.
Hypothesis Hrw : is_readonly bms = false.
Implicit Types (rt : bgp_rt_structs X).

(** The tables mean maps of routes, every route has an attribute, and the
    counts of the attributes are the routes that use them and the temporary
    references [T]. *)
Record state_ok rt (T : temps) : Prop := {
  so_rt : rt_ok dbs num rt T (rib_uses (rib rt));
  so_tables : forall k t, rib rt !! k = Some t -> table_ok bms t;
  so_attr : forall k t km b ri, rib rt !! k = Some t -> routes t !! km = Some b -> ri ∈ b -> is_Some (i_attr ri)
}.

Lemma get_set_rib rt afi safi t : get_rib (set_rib rt afi safi t) afi safi = Ok t.
Proof. unfold get_rib, set_rib. cbn. by rewrite lookup_insert_eq. Qed.

Lemma get_rib_Ok rt afi safi t : rib rt !! (afi, safi) = Some t -> get_rib rt afi safi = Ok t.
Proof using. intros H. unfold get_rib. by rewrite H. Qed.

Lemma with_lock_id {I} (nd : bgp_node I) i : with_lock (nd_lock nd) (with_info i nd) = with_info i nd.
Proof using. by destruct nd. Qed.

Lemma set_info_put (t : bgp_table (bgp_info X)) l m k ri b nd :
  bucket t l m = Ok b -> t_heap t !! l = Some nd ->
  set_info t l m k ri = Ok (put t l (with_info (<[Z.to_nat m := <[k := ri]> b]> (nd_info nd)) nd)).
Proof using.
  intros Eb Hl. unfold set_info. rewrite Eb, bind_Ok. unfold upd_node. by rewrite (get_node_Ok t l nd Hl).
Qed.

Lemma Hbms : bgp_select_misc_db dbs (type base) = Some bms.
Proof using Hpeer. by apply peer_misc_db. Qed.

(** A table replaced by one that means the same. *)
Lemma state_same_routes rt T afi safi t t' :
  state_ok rt T -> rib rt !! (afi, safi) = Some t -> table_ok bms t' -> routes t' = routes t ->
  state_ok (set_rib rt afi safi t') T.
Proof using.
  intros [Hrt Ht Ha] Hk Hok Hr. split.
  - apply (rt_ok_rib _ _ rt T). eapply (rt_ok_move dbs num rt T T); try done.
    + intros l. cbn. rewrite (rib_uses_set _ _ _ _ _ Hk). unfold table_uses. rewrite Hr. lia.
    + intros l. split; [by apply (ro_temps dbs num rt T _ Hrt) | apply rib_uses_nonneg].
  - intros k x. cbn. destruct (decide (k = (afi, safi))) as [->|]; [rewrite lookup_insert_eq; by intros [= <-] |].
    rewrite lookup_insert_ne by done. apply Ht.
  - intros k x km b ri. cbn. destruct (decide (k = (afi, safi))) as [->|].
    + rewrite lookup_insert_eq. intros [= <-]. rewrite Hr. by apply (Ha (afi, safi)).
    + rewrite lookup_insert_ne by done. apply Ha.
Qed.

(** A bucket changed, the references of its routes going to or coming from
    the temporaries; [uses] are those of the routes before, but for what was
    dropped ahead of the change. *)
Lemma state_set_bucket rt T T' uses afi safi t t' key m b' :
  rt_ok dbs num rt T uses -> (forall k t, rib rt !! k = Some t -> table_ok bms t) ->
  (forall k t km b ri, rib rt !! k = Some t -> routes t !! km = Some b -> ri ∈ b -> is_Some (i_attr ri)) ->
  rib rt !! (afi, safi) = Some t -> table_ok bms t' ->
  routes t' = set_bucket key m b' (routes t) -> Forall (fun ri => is_Some (i_attr ri)) b' ->
  (forall l, t_as T' l = t_as T l /\ t_com T' l = t_com T l /\ t_ecom T' l = t_ecom T l /\ t_lcom T' l = t_lcom T l) ->
  (forall l, bucket_uses b' l + t_attr T' l + rib_uses (rib rt) l =
             bucket_uses (get_bucket key m (routes t)) l + t_attr T l + uses l) ->
  (forall l, 0 <= t_attr T' l) ->
  state_ok (set_rib rt afi safi t') T'.
Proof using.
  intros Hrt Ht Ha Hk Hok Hr Hb' HT Hu Hn. split.
  - apply (rt_ok_rib _ _ rt T'). eapply (rt_ok_move dbs num rt T T'); try done.
    + intros l. cbn. rewrite (rib_uses_set _ _ _ _ _ Hk). unfold table_uses. rewrite Hr, set_bucket_uses.
      pose proof (Hu l). lia.
    + intros l. split; [apply Hn | apply rib_uses_nonneg].
  - intros k x. cbn. destruct (decide (k = (afi, safi))) as [->|]; [rewrite lookup_insert_eq; by intros [= <-] |].
    rewrite lookup_insert_ne by done. apply Ht.
  - intros k x [k0 m0] b ri. cbn. destruct (decide (k = (afi, safi))) as [->|].
    + rewrite lookup_insert_eq. intros [= <-]. rewrite Hr, set_bucket_lookup. case_decide as Hd.
      * intros E Hin. assert (b = b') as -> by (destruct b'; congruence).
        by apply (proj1 (Forall_forall _ _) Hb').
      * by apply (Ha (afi, safi)).
    + rewrite lookup_insert_ne by done. apply Ha.
Qed.

Lemma state_rib rt rt' T T' :
  state_ok rt T -> rt_ok dbs num rt' T' (rib_uses (rib rt)) -> rib rt' = rib rt -> state_ok rt' T'.
Proof using.
  intros [_ Ht Ha] Hok Er. split; rewrite Er; done.
Qed.

(** A message begins. *)
Lemma state_new_attr rt T l a :
  state_ok rt T -> r_attr rt !! l = None -> family_ok (ha_family (mp_nexthop a)) -> a_refcnt a = 0 ->
  (forall x, a_aspath a = Some x -> 0 < t_as T x) -> (forall x, a_community a = Some x -> 0 < t_com T x) ->
  (forall x, a_ecommunity a = Some x -> 0 < t_ecom T x) -> (forall x, a_lcommunity a = Some x -> 0 < t_lcom T x) ->
  state_ok (with_attr rt (<[l := a]> (r_attr rt), attrhash rt)) T.
Proof using.
  intros Hs. intros. eapply state_rib; [exact Hs | | reflexivity].
  apply rt_ok_new_attr; try assumption. apply (so_rt _ _ Hs).
Qed.

Lemma find_ri_spec (same : bgp_info X -> bool) l : forall k0,
  match find_ri same l k0 with
  | Some (k, ri) => (k0 <= k)%nat /\ l !! (k - k0)%nat = Some ri /\ same ri = true /\
                    forall j rj, (j < k - k0)%nat -> l !! j = Some rj -> same rj = false
  | None => forall ri, ri ∈ l -> same ri = false
  end.
Proof using.
  induction l as [|ri l IH]; intros k0; cbn [find_ri].
  - by intros ri ?%elem_of_nil.
  - destruct (same ri) eqn:Es.
    + rewrite Nat.sub_diag. split_and!; [lia | done | done |]. intros j rj Hj. lia.
    + specialize (IH (S k0)). destruct (find_ri same l (S k0)) as [[k rk]|].
      * destruct IH as (H1 & H2 & H3 & H4). replace (k - k0)%nat with (S (k - S k0)) by lia.
        split_and!; [lia | done | done |]. intros [|j] rj Hj; cbn; [by intros [= <-] |]. intros E. eapply H4; [| done]. lia.
      * intros rj [->|Hj]%elem_of_cons; [done | by apply IH].
Qed.

Lemma bump_one (t : loc -> Z) f d x : bump t (Some f) d x = t x + d * one (Some f) x.
Proof using. unfold bump, one. case_decide; ring. Qed.

Lemma one_range o x : 0 <= one o x <= 1.
Proof using. unfold one. case_decide; split; discriminate. Qed.

(** The attribute of a route of a bucket that was looked up. *)
Lemma route_attr rt T afi safi t km b k ri :
  state_ok rt T -> rib rt !! (afi, safi) = Some t -> default [] (routes t !! km) = b -> b !! k = Some ri ->
  exists g, i_attr ri = Some g /\ 0 < rib_uses (rib rt) g.
Proof using.
  intros Hs Hk <- Hri. destruct (routes t !! km) as [b|] eqn:Eb; [| done]. cbn in Hri.
  assert (Hin : ri ∈ b) by (apply list_elem_of_lookup; by exists k).
  destruct (so_attr rt T Hs _ t km b ri Hk Eb Hin) as [g Eg]. exists g. split; [done |].
  by apply (rib_uses_pos _ (afi, safi) t km b ri).
Qed.

Lemma bucket_attrs rt T afi safi t km : state_ok rt T -> rib rt !! (afi, safi) = Some t ->
  Forall (fun ri => is_Some (i_attr ri)) (default [] (routes t !! km)).
Proof using.
  intros Hs Hk. destruct (routes t !! km) as [b|] eqn:Eb; [| apply Forall_nil_2]. apply Forall_forall. intros ri Hri.
  by apply (so_attr rt T Hs _ t km b ri Hk Eb).
Qed.

(** An attribute that is counted is there. *)
Lemma attr_there rt T uses g : rt_ok dbs num rt T uses -> 0 < uses g + t_attr T g ->
  exists ga, r_attr rt !! g = Some ga /\ 0 < a_refcnt ga.
Proof using.
  intros Hok Hp. pose proof (ro_uses dbs num rt T uses Hok g) as Hu. destruct (r_attr rt !! g) as [ga|].
  - exists ga. split; [done |]. by rewrite <- Hu.
  - rewrite Hu in Hp. by apply Z.lt_irrefl in Hp.
Qed.

(** A reference of a route becomes one of the caller's. *)
Lemma take_from_route rt T uses g :
  rt_ok dbs num rt T uses -> 0 < uses g -> rt_ok dbs num rt (bump_attr T g 1) (fun x => uses x - one (Some g) x).
Proof using.
  intros Hok Hg. pose proof (ro_nonneg dbs num rt T uses Hok) as Hn.
  assert (Ht : forall x, 0 <= t_attr T x) by (intros x; apply (ro_temps dbs num rt T uses Hok x)).
  apply (rt_ok_move dbs num rt T _ uses); try done.
  - intros x. cbn. rewrite bump_one. ring.
  - intros x. cbn. rewrite bump_one. pose proof (Ht x). pose proof (Hn x). pose proof (one_range (Some g) x).
    split; [lia |]. unfold one in *. case_decide as E; [injection E as <- |]; lia.
Qed.

(** A reference of a route is given up. *)
Lemma release_step rt T uses g :
  rt_ok dbs num rt T uses -> 0 < uses g ->
  exists rt' ga, bgp_attr_unintern dbs num (Some base) rt g = Ok rt' /\ r_attr rt !! g = Some ga /\ 0 < a_refcnt ga /\
    rt_ok dbs num rt' T (fun x => uses x - one (Some g) x) /\ r_attr rt' = dropped (r_attr rt) g ga /\ rib rt' = rib rt.
Proof using Hpeer.
  intros Hok Hg.
  assert (Ht : forall x, 0 <= t_attr T x) by (intros x; apply (ro_temps dbs num rt T uses Hok x)).
  destruct (attr_there rt T uses g Hok) as (ga & Ega & Hpos); [pose proof (Ht g); lia |].
  pose proof (take_from_route rt T uses g Hok Hg) as Hok1.
  destruct (attr_unintern_spec dbs num base Hpeer rt _ _ g ga Hok1 Ega) as (rt' & E & Hok' & Em & Er).
  { cbn. unfold bump. rewrite decide_True by done. pose proof (Ht g). lia. }
  exists rt', ga. split_and!; try done.
  apply (rt_ok_move dbs num rt' _ T _ _ Hok'); try done.
  - intros x. cbn. rewrite !bump_one. ring.
  - intros x. split; [apply Ht | apply (ro_nonneg _ _ _ _ _ Hok')].
Qed.

(** The reference of the message to the interned attribute. *)
Lemma message_ref rt T uses attr a :
  rt_ok dbs num rt T uses -> count_room rt -> r_attr rt !! attr = Some a -> a_refcnt a = 0 ->
  exists rt' f fa, bgp_attr_intern dbs num (Some base) rt attr = Ok (rt', Some f) /\
    rt_ok dbs num rt' (bump_attr T f 1) uses /\ r_attr rt' !! f = Some fa /\ attr_cmp fa a = true /\ 0 < a_refcnt fa /\
    r_attr rt' !! attr = Some a /\ f <> attr /\ rib rt' = rib rt /\ same_zeros (r_attr rt) (r_attr rt').
Proof using Hpeer.
  intros Hok Hr Ha H0.
  destruct (attr_intern_spec dbs num base Hpeer rt T uses attr a Hok Hr Ha H0)
    as (rt' & f & fb & n & E & Hok' & Em & Htk & Hc & Hne & Er).
  exists rt', f, (with_refcnt n fb). split_and!; try done.
  - rewrite Em. apply lookup_insert_eq.
  - cbn. destruct Htk as [(Hf & ? & ->)|[_ ->]]; [lia | done].
  - rewrite Em, lookup_insert_ne by done. done.
  - rewrite Em. by apply taken_same_zeros.
Qed.

(** Comparing the attribute of a route with the interned one is comparing the
    pointers. *)
Lemma attrs_compare rt T uses f g fa :
  rt_ok dbs num rt T uses -> r_attr rt !! f = Some fa -> 0 < a_refcnt fa -> 0 < uses g + t_attr T g ->
  attrhash_cmp rt g f = Ok (bool_decide (g = f)).
Proof using.
  intros Hok Hf Hpf Hg. destruct (attr_there rt T uses g Hok Hg) as (ga & Eg & Hpg).
  unfold attrhash_cmp. rewrite Eg, Hf. change (deref (Some ga)) with (Ok ga). rewrite bind_Ok.
  change (deref (Some fa)) with (Ok fa). rewrite bind_Ok. f_equal.
  pose proof (attr_cmp_same dbs num rt T uses g f ga fa Hok Eg Hf Hpg Hpf) as Hi.
  case_bool_decide as Hd; destruct (attr_cmp ga fa) eqn:Ec; try done.
  - by apply Hi.
  - exfalso. by apply Hd, Hi.
Qed.

(** The message gives its reference back. *)
Lemma drop_message_ref rt T f fa :
  state_ok rt (bump_attr T f 1) -> r_attr rt !! f = Some fa -> (forall x, 0 <= t_attr T x) ->
  0 < rib_uses (rib rt) f ->
  exists rt', bgp_attr_unintern dbs num (Some base) rt f = Ok rt' /\ state_ok rt' T /\
    (exists fa', r_attr rt' !! f = Some fa' /\ forall a, attr_cmp fa' a = attr_cmp fa a) /\
    (forall x, x <> f -> r_attr rt' !! x = r_attr rt !! x) /\ rib rt' = rib rt /\ same_zeros (r_attr rt) (r_attr rt').
Proof using Hpeer.
  intros Hs Hf Ht Hu.
  destruct (attr_unintern_spec dbs num base Hpeer rt _ _ f fa (so_rt _ _ Hs) Hf) as (rt' & E & Hok' & Em & Er).
  { cbn. unfold bump. rewrite decide_True by done. pose proof (Ht f). lia. }
  exists rt'. split; [done |]. split_and!; try done.
  - split; rewrite Er; [| apply (so_tables _ _ Hs) | apply (so_attr _ _ Hs)].
    apply (rt_ok_move dbs num rt' _ T _ _ Hok'); try done.
    + intros x. cbn. rewrite !bump_one. ring.
    + intros x. split; [apply Ht | apply rib_uses_nonneg].
  - exists (with_refcnt (a_refcnt fa - 1) fa). split; [| intros; apply attr_cmp_refcnt].
    rewrite Em, dropped_lookup, decide_True by done. rewrite decide_False; [done |].
    pose proof (ro_uses _ _ _ _ _ (so_rt _ _ Hs) f) as Hc. rewrite Hf in Hc. cbn in Hc.
    unfold bump in Hc. rewrite decide_True in Hc by done. pose proof (Ht f). lia.
  - intros x Hx. by rewrite Em, dropped_lookup, decide_False.
  - rewrite Em. apply dropped_same_zeros; [done |]. pose proof (ro_uses _ _ _ _ _ (so_rt _ _ Hs) f) as Hc. rewrite Hf in Hc.
    cbn in Hc. unfold bump in Hc. rewrite decide_True in Hc by done. pose proof (Ht f). lia.
Qed.

(** ** Processing *)

Context (skip_rib msglog : bool).
Context (route_info_modulo : bgp_misc_structs -> peer -> option rd_t -> option Z -> Z -> Z).
Context (bmed_id : X -> Z).
Context (bgp_extra_data_cmp : option (X -> X -> Z)).
Context (bgp_extra_data_process : option (X -> X -> Z -> Z -> X)).
Context (bmed0 extra : X).
Context (afi safi idx : Z) (attr_extra : bgp_attr_extra).

Abbreviation same := (same_route bmed_id bgp_extra_data_cmp pr afi safi attr_extra extra).

(** What an update makes of the routes of its prefix and bucket, [f] being the
    interned attribute: the route of the peer is replaced, unless it has that
    attribute already, or a new one is put in front. *)
Definition update_bucket (f : loc) (b : list (bgp_info X)) : list (bgp_info X) :=
  match find_ri same b 0 with
  | Some (k, ri) =>
      if bool_decide (i_attr ri = Some f) then b
      else <[k := mk_info (i_peer ri) (Some f)
                    (bgp_attr_extra_process (add_paths pr afi safi) safi (i_attr_extra ri) attr_extra)
                    (extra_data_process bgp_extra_data_process extra (i_bmed ri) idx BGP_NLRI_UPDATE)]> b
  | None => mk_info (p_self pr) (Some f)
              (bgp_attr_extra_process (add_paths pr afi safi) safi None attr_extra)
              (extra_data_process bgp_extra_data_process extra bmed0 idx BGP_NLRI_UPDATE) :: b
  end.

(** A new route holds its peer. *)
Definition update_peer (b : list (bgp_info X)) : peer :=
  match find_ri same b 0 with Some _ => pr | None => with_peer_lock (s32 (p_lock pr + 1)) pr end.

(** A withdrawal removes the route of the peer. *)
Definition withdraw_bucket (b : list (bgp_info X)) : list (bgp_info X) :=
  match find_ri same b 0 with Some (k, _) => delete k b | None => b end.

Abbreviation modulo :=
  (route_info_modulo bms pr (Some (e_rd attr_extra)) (Some (e_path_id attr_extra)) (table_per_peer_buckets bms)).
Abbreviation update := (bgp_process_update dbs past num false msglog route_info_modulo bmed_id bgp_extra_data_cmp
  bgp_extra_data_process bmed0 extra pr).
Abbreviation withdraw := (bgp_process_withdraw dbs past num false route_info_modulo bmed_id bgp_extra_data_cmp extra pr).

Hypothesis Hmodulo : (Z.to_nat modulo < info_buckets bms)%nat.

(** The node and the bucket that are looked up. *)
Lemma lookup_steps rt T p t :
  state_ok rt T -> rib rt !! (afi, safi) = Some t -> lock_room t -> wf_prefix p ->
  exists t1 l nd b, bgp_node_get dbs past base t p = Ok (t1, l) /\ table_ok bms t1 /\ routes t1 = routes t /\
    holds t1 l nd /\ nkey nd = key p /\ nd_info nd !! Z.to_nat modulo = Some b /\
    bucket t1 l modulo = Ok b /\ get_bucket (key p) (Z.to_nat modulo) (routes t) = b /\
    state_ok (set_rib rt afi safi t1) T /\ (exact_but None t -> exact_but (Some l) t1).
Proof using Hpeer Hrw Hmodulo.
  intros Hs Hk Hroom Hp.
  destruct (get_ok bms dbs past base Hbms Hrw t p (so_tables rt T Hs _ _ Hk) Hroom Hp)
    as (t1 & l & nd & E & Hok & Hr & [Hl Hlk] & Hkey & Hex).
  destruct (lookup_lt_is_Some_2 (nd_info nd) (Z.to_nat modulo)) as [b Hb].
  { by rewrite (to_info bms t1 Hok l nd Hl). }
  exists t1, l, nd, b. split_and!; try done.
  - unfold bucket. rewrite (get_node_Ok t1 l nd Hl). res_step. by rewrite Hb.
  - rewrite <- Hr, <- Hkey. by apply (routes_node t1 l nd _ b (to_wf bms t1 Hok)).
  - by apply (state_same_routes rt T afi safi t).
  - apply Hex.
Qed.

(** [bgp_process_update]. *)
Lemma process_update_steps rt T p t attr a :
  state_ok rt T -> rib rt !! (afi, safi) = Some t -> lock_room t -> count_room rt -> wf_prefix p ->
  r_attr rt !! attr = Some a -> a_refcnt a = 0 ->
  exists rt' t' f fa, update rt p attr attr_extra afi safi idx =
      Ok (SUCCESS, update_peer (get_bucket (key p) (Z.to_nat modulo) (routes t)), rt') /\
    state_ok rt' T /\ rib rt' = <[(afi, safi) := t']> (rib rt) /\
    routes t' = set_bucket (key p) (Z.to_nat modulo)
                  (update_bucket f (get_bucket (key p) (Z.to_nat modulo) (routes t))) (routes t) /\
    r_attr rt' !! f = Some fa /\ attr_cmp fa a = true /\ r_attr rt' !! attr = Some a /\
    (exact_but None t -> exact_but None t') /\ same_zeros (r_attr rt) (r_attr rt').
Proof using Hpeer Hrw Hmodulo.
  intros Hs Hk Hroom Hcr Hp Ha H0.
  destruct (lookup_steps rt T p t Hs Hk Hroom Hp) as (t1 & l & nd & b & E1 & Hok1 & Hr1 & Hh & Hkey & Hb & Eb & Egb & Hs1 & Hex1).
  set (rt1 := set_rib rt afi safi t1) in *.
  destruct (message_ref rt1 T _ attr a (so_rt _ _ Hs1) Hcr Ha H0) as (rt2 & f & fa & E2 & Hok2 & Hf & Hc & Hpf & Ha2 & Hne & Er2 & Hz2).
  assert (Hk1 : rib rt1 !! (afi, safi) = Some t1) by (cbn; apply lookup_insert_eq).
  assert (Hk2 : rib rt2 !! (afi, safi) = Some t1) by (rewrite Er2; cbn; apply lookup_insert_eq).
  assert (Ht : forall x, 0 <= t_attr T x) by (intros x; apply (ro_temps _ _ _ _ _ (so_rt _ _ Hs1) x)).
  pose proof (state_rib rt1 rt2 T _ Hs1 Hok2 Er2) as Hs2.
  assert (Eg2 : get_rib rt2 afi safi = Ok t1) by (unfold get_rib; by rewrite Hk2).
  unfold bgp_process_update. fold base. rewrite Hbms. rewrite (get_rib_Ok rt afi safi t Hk), bind_Ok.
  rewrite E1, bind_Ok. fold rt1. cbv zeta. rewrite Eb, bind_Ok, E2, bind_Ok.
  change (deref (Some f)) with (Ok f). rewrite bind_Ok. rewrite Egb.
  assert (Hbs : Forall (fun ri => is_Some (i_attr ri)) b).
  { rewrite <- Egb, <- Hr1. by apply (bucket_attrs rt1 T afi safi). }
  unfold update_bucket, update_peer. pose proof (find_ri_spec same b 0) as Hfind.
  destruct (find_ri same b 0) as [[k ri]|].
  - destruct Hfind as (_ & Hri & _). rewrite Nat.sub_0_r in Hri.
    destruct (route_attr rt1 T afi safi t1 (key p, Z.to_nat modulo) b k ri Hs1 Hk1) as (g & Eg & Hg); [| done |].
    { by rewrite Hr1. }
    rewrite Eg. change (deref (Some g)) with (Ok g). rewrite bind_Ok.
    assert (Hg2 : 0 < rib_uses (rib rt1) g + t_attr (bump_attr T f 1) g).
    { cbn [bump_attr t_attr]. rewrite bump_one. pose proof (Ht g). pose proof (one_range (Some f) g). lia. }
    rewrite (attrs_compare rt2 _ _ f g fa Hok2 Hf Hpf Hg2), bind_Ok.
    case_bool_decide as Hgf.
    + subst g. rewrite Eg2, bind_Ok.
      destruct (unlock_ok bms dbs base Hbms Hrw t1 l nd Hok1 (proj1 Hh)) as (t' & E3 & Hok' & Hr' & Hex'); [apply Hh |].
      rewrite E3, bind_Ok.
      pose proof (state_same_routes rt2 _ afi safi t1 t' Hs2 Hk2 Hok' Hr') as Hs3.
      destruct (drop_message_ref (set_rib rt2 afi safi t') T f fa Hs3 Hf Ht) as (rt' & E4 & Hs' & (fa' & Hf' & Hc') & Hx & Er' & Hz').
      { cbn [set_rib with_rib rib]. rewrite (rib_uses_set _ _ _ _ _ Hk2). unfold table_uses. rewrite Hr', Er2. lia. }
      rewrite E4, bind_Ok. exists rt', t', f, fa'. split_and!; try done.
      * rewrite Er'. cbn. rewrite Er2. cbn. by rewrite insert_insert_eq.
      * rewrite bool_decide_eq_true_2 by done. rewrite Hr', Hr1, <- Egb, set_bucket_same; [done |]. rewrite Egb. by destruct b.
      * by rewrite Hc'.
      * by rewrite (Hx attr) by done.
      * by intros ?%Hex1%Hex'.
      * intros x y Hy. rewrite (Hz' x y Hy). by apply Hz2.
    + destruct (release_step rt2 (bump_attr T f 1) _ g Hok2 Hg) as (rt3 & ga & E3 & Ega & Hpg & Hok3 & Em3 & Er3).
      rewrite E3, bind_Ok. rewrite (get_rib_Ok rt3 afi safi t1) by (by rewrite Er3). rewrite bind_Ok.
      set (ri' := mk_info (i_peer ri) (Some f) _ _).
      rewrite (set_info_put t1 l modulo k ri' b nd Eb (proj1 Hh)), bind_Ok.
      destruct (set_routes_ok bms dbs base Hbms Hrw t1 l nd (Z.to_nat modulo) b (<[k := ri']> b) (nd_lock nd) Hok1 Hh Hb)
        as (t' & E4 & Hok' & Hr' & Hex'); [by rewrite length_insert | by destruct Hh; lia |].
      rewrite with_lock_id in E4. rewrite E4, bind_Ok.
      eexists _, t', f, fa. split; [done |]. split_and!; try done.
      * eapply (state_set_bucket rt3 (bump_attr T f 1) T _ afi safi t1 t' (key p) (Z.to_nat modulo) (<[k := ri']> b)); try done.
        -- rewrite Er3, Er2. apply (so_tables _ _ Hs1).
        -- rewrite Er3, Er2. apply (so_attr _ _ Hs1).
        -- by rewrite Er3.
        -- by rewrite Hr', Hkey.
        -- apply Forall_insert; [exact Hbs | done].
        -- intros x. rewrite Hr1, Egb, (bucket_uses_insert b k ri ri' x Hri), Er3, Er2, Eg. cbn [i_attr ri' bump_attr t_attr].
           rewrite bump_one. ring.
      * cbn. rewrite Er3, Er2. cbn. by rewrite insert_insert_eq.
      * rewrite bool_decide_eq_false_2 by congruence. by rewrite Hr', Hr1, Hkey.
      * cbn. by rewrite Em3, dropped_lookup, decide_False.
      * cbn. rewrite Em3, dropped_lookup, decide_False; [done |]. intros <-.
        assert (ga = a) as -> by congruence. rewrite H0 in Hpg. done.
      * by intros ?%Hex1%Hex'.
      * cbn. rewrite Em3. intros x y Hy. rewrite (dropped_same_zeros _ g ga Ega Hpg x y Hy). by apply Hz2.
  - rewrite Eg2, bind_Ok. set (new := mk_info (p_self pr) (Some f) _ _).
    destruct (add_ok bms dbs base Hbms Hrw t1 l nd modulo b new (p_lock pr) Hok1 Hh Hb) as (t3 & t' & E3 & E4 & Hok' & Hr' & Hex').
    rewrite E3, bind_Ok, E4, bind_Ok. eexists _, t', f, fa. split; [done |]. split_and!; try done.
    + eapply (state_set_bucket rt2 (bump_attr T f 1) T _ afi safi t1 t' (key p) (Z.to_nat modulo) (new :: b)); try done.
      * rewrite Er2. apply (so_tables _ _ Hs1).
      * rewrite Er2. apply (so_attr _ _ Hs1).
      * by rewrite Hr', Hkey.
      * by apply Forall_cons_2.
      * intros x. rewrite Hr1, Egb, bucket_uses_cons, Er2. cbn [i_attr new bump_attr t_attr]. rewrite bump_one. ring.
    + cbn. rewrite Er2. cbn. by rewrite insert_insert_eq.
    + by rewrite Hr', Hr1, Hkey.
    + by intros ?%Hex1%Hex'.
Qed.

Definition withdraw_peer (b : list (bgp_info X)) : peer :=
  match find_ri same b 0 with Some _ => with_peer_lock (s32 (p_lock pr - 1)) pr | None => pr end.

(** [bgp_process_withdraw]. *)
Lemma process_withdraw_steps rt T p t :
  state_ok rt T -> rib rt !! (afi, safi) = Some t -> lock_room t -> wf_prefix p ->
  exists rt' t', withdraw rt p attr_extra afi safi idx =
      Ok (SUCCESS, withdraw_peer (get_bucket (key p) (Z.to_nat modulo) (routes t)), rt') /\
    state_ok rt' T /\ rib rt' = <[(afi, safi) := t']> (rib rt) /\
    routes t' = set_bucket (key p) (Z.to_nat modulo)
                  (withdraw_bucket (get_bucket (key p) (Z.to_nat modulo) (routes t))) (routes t) /\
    (exact_but None t -> exact_but None t') /\ same_zeros (r_attr rt) (r_attr rt').
Proof using Hpeer Hrw Hmodulo.
  intros Hs Hk Hroom Hp.
  destruct (lookup_steps rt T p t Hs Hk Hroom Hp) as (t1 & l & nd & b & E1 & Hok1 & Hr1 & Hh & Hkey & Hb & Eb & Egb & Hs1 & Hex1).
  set (rt1 := set_rib rt afi safi t1) in *.
  assert (Hk1 : rib rt1 !! (afi, safi) = Some t1) by (cbn; apply lookup_insert_eq).
  assert (Ht : forall x, 0 <= t_attr T x) by (intros x; apply (ro_temps _ _ _ _ _ (so_rt _ _ Hs1) x)).
  unfold bgp_process_withdraw. fold base. rewrite Hbms, (get_rib_Ok rt afi safi t Hk), bind_Ok.
  rewrite E1, bind_Ok. fold rt1. cbv zeta. rewrite Eb, bind_Ok, Egb.
  assert (Hbs : Forall (fun ri => is_Some (i_attr ri)) b).
  { rewrite <- Egb, <- Hr1. by apply (bucket_attrs rt1 T afi safi). }
  unfold withdraw_bucket, withdraw_peer. pose proof (find_ri_spec same b 0) as Hfind.
  destruct (find_ri same b 0) as [[k ri]|].
  - destruct Hfind as (_ & Hri & _). rewrite Nat.sub_0_r in Hri.
    destruct (route_attr rt1 T afi safi t1 (key p, Z.to_nat modulo) b k ri Hs1 Hk1) as (g & Eg & Hg); [by rewrite Hr1 | done |].
    destruct (release_step rt1 T _ g (so_rt _ _ Hs1) Hg) as (rt3 & ga & E3 & Ega & Hpg & Hok3 & Em3 & Er3).
    destruct (delete_ok bms dbs base Hbms Hrw t1 l nd modulo b k Hok1 Hh Hb) as (t4 & t' & E4 & E5 & Hok' & Hr' & Hex').
    { by eapply lookup_lt_Some. }
    unfold info_delete, bgp_info_free. rewrite Eg. fold base. rewrite E3, !bind_Ok.
    rewrite (get_rib_Ok rt3 afi safi t1) by (by rewrite Er3). cbn [with_peer_lock p_base]. fold base.
    rewrite bind_Ok, E4, !bind_Ok, get_set_rib, bind_Ok, E5, bind_Ok.
    eexists _, t'. split; [done |]. split_and!; try done.
    + replace (set_rib (set_rib rt3 afi safi t4) afi safi t') with (set_rib rt3 afi safi t').
      2:{ unfold set_rib, with_rib. cbn. by rewrite insert_insert_eq. }
      eapply (state_set_bucket rt3 T T _ afi safi t1 t' (key p) (Z.to_nat modulo) (delete k b)); try done.
      * rewrite Er3. apply (so_tables _ _ Hs1).
      * rewrite Er3. apply (so_attr _ _ Hs1).
      * by rewrite Er3.
      * by rewrite Hr', Hkey.
      * by apply Forall_delete.
      * intros x. rewrite Hr1, Egb, (bucket_uses_delete b k ri x Hri), Er3, Eg. ring.
    + cbn. rewrite Er3. cbn. by rewrite !insert_insert_eq.
    + by rewrite Hr', Hr1, Hkey.
    + by intros ?%Hex1%Hex'.
    + cbn. rewrite Em3. by apply dropped_same_zeros.
  - rewrite bind_Ok, (get_rib_Ok rt1 afi safi t1 Hk1), bind_Ok.
    destruct (unlock_ok bms dbs base Hbms Hrw t1 l nd Hok1 (proj1 Hh)) as (t' & E3 & Hok' & Hr' & Hex'); [apply Hh |].
    rewrite E3, bind_Ok. eexists _, t'. split; [done |]. split_and!.
    + by apply (state_same_routes rt1 T afi safi t1 t').
    + cbn. by rewrite insert_insert_eq.
    + rewrite Hr', Hr1, <- Egb. symmetry. apply routes_bucket_same. apply (so_tables _ _ Hs _ _ Hk).
    + by intros ?%Hex1%Hex'.
    + done.
Qed.

End State.

(** ** Theorems *)

(** A daemon that has just started. *)
Lemma init_shared_ind {X} (P : bgp_rt_structs X -> Prop) rt :
  P rt -> (forall rt a s, P rt -> P (set_rib rt a s (bgp_table_init a s))) -> P (init_shared_rib rt).
Proof.
  intros H0 Hset.
  assert (Hf : forall (B : Type) (f : bgp_rt_structs X -> B -> bgp_rt_structs X) l rt,
    (forall rt b, P rt -> P (f rt b)) -> P rt -> P (foldl f rt l)).
  { intros B f l. induction l as [|b l IH]; intros rt' Hs Hrt; cbn; [done |]. apply IH; [done | by apply Hs]. }
  unfold init_shared_rib. apply Hf; [| done]. intros rt' a Hrt. apply Hf; [| done]. intros rt2 b. apply Hset.
Qed.

Lemma init_rib_tables {X} (rt : bgp_rt_structs X) : rib rt = ∅ ->
  forall k t, rib (init_shared_rib rt) !! k = Some t -> exists a s, t = bgp_table_init a s.
Proof.
  intros He. apply (init_shared_ind (fun rt => forall k t, rib rt !! k = Some t -> exists a s, t = bgp_table_init a s)).
  - intros k t. by rewrite He, lookup_empty.
  - intros rt' a s H k t. cbn. destruct (decide (k = (a, s))) as [->|]; [rewrite lookup_insert_eq; intros [= <-]; by exists a, s |].
    rewrite lookup_insert_ne by done. apply H.
Qed.

Lemma init_rib_keeps {X} (rt : bgp_rt_structs X) : r_attr (init_shared_rib rt) = r_attr rt.
Proof. by apply (init_shared_ind (fun r => r_attr r = r_attr rt)). Qed.

Lemma init_state_ok {X} dbs num pr buckets : 0 < buckets < 2 ^ 31 ->
  state_ok (X := X) dbs num pr (init_shared_rib (bgp_attr_init buckets rt0)) T0.
Proof.
  intros Hb. pose proof (init_rib_tables (X := X) (bgp_attr_init buckets rt0) eq_refl) as H2.
  assert (H1 : rt_ok (X := X) dbs num (init_shared_rib (bgp_attr_init buckets rt0)) T0 (fun _ => 0)).
  { apply (init_shared_ind (fun rt => rt_ok dbs num rt T0 (fun _ => 0))); [by apply rt_ok_init |]. intros. by apply rt_ok_rib. }
  split.
  - apply (rt_ok_move dbs num _ T0 T0 (fun _ => 0)); [exact H1 | by intros l | |].
    + intros l. unfold rib_uses. rewrite msum_zero; [done |]. intros k t (a & s & ->)%H2.
      unfold table_uses. rewrite (proj2 (init_table_ok (dbs 0) a s)). apply msum_empty.
    + intros l. split; [done | apply rib_uses_nonneg].
  - intros k t (a & s & ->)%H2. apply init_table_ok.
  - intros k t km b ri (a & s & ->)%H2. rewrite (proj2 (init_table_ok (dbs 0) a s)). by rewrite lookup_empty.
Qed.

(** C7. An update for a prefix, the message's attribute being in the store and the
    counters far from wrapping: it succeeds; the tables mean what they meant
    but for the routes of the prefix and bucket, which become [update_bucket]
    of what they were, with the one object for the attribute; the message's
    own attribute is unchanged, and all counts agree with who refers to what,
    with nothing left to the message.  In particular nothing leaks when the
    route was there already, and the old attribute is given up when it is
    replaced.  Where every node of the table had one lock for each route and
    no other, this is so again: the update leaves no lock behind. *)
Theorem bgp_process_update_spec {X} dbs past num pr msglog (route_info_modulo : bgp_misc_structs -> peer -> option rd_t -> option Z -> Z -> Z)
    bmed_id cmp process (bmed0 extra : X) afi safi idx attr_extra rt T p t attr a :
  type (p_base pr) < FUNC_TYPE_MAX -> is_readonly (dbs (type (p_base pr))) = false ->
  let bms := dbs (type (p_base pr)) in
  let modulo := route_info_modulo bms pr (Some (e_rd attr_extra)) (Some (e_path_id attr_extra)) (table_per_peer_buckets bms) in
  let m := Z.to_nat modulo in
  (m < info_buckets bms)%nat ->
  state_ok dbs num pr rt T -> rib rt !! (afi, safi) = Some t -> lock_room t -> count_room rt -> wf_prefix p ->
  r_attr rt !! attr = Some a -> a_refcnt a = 0 ->
  let b := get_bucket (key p) m (routes t) in
  exists rt' t' f fa,
    bgp_process_update dbs past num false msglog route_info_modulo bmed_id cmp process bmed0 extra pr rt p attr attr_extra afi safi idx
      = Ok (SUCCESS, update_peer pr bmed_id cmp extra afi safi attr_extra b, rt') /\
    state_ok dbs num pr rt' T /\ rib rt' = <[(afi, safi) := t']> (rib rt) /\
    routes t' = set_bucket (key p) m
      (update_bucket pr bmed_id cmp process bmed0 extra afi safi idx attr_extra f b) (routes t) /\
    r_attr rt' !! f = Some fa /\ attr_cmp fa a = true /\ r_attr rt' !! attr = Some a /\
    (exact_but None t -> exact_but None t').
Proof.
  intros H1 H2 bms modulo m Hm Hs Hk Hr Hc Hp Ha H0 b.
  destruct (process_update_steps dbs past num pr H1 H2 msglog route_info_modulo bmed_id cmp process bmed0 extra afi safi idx attr_extra
    Hm rt T p t attr a Hs Hk Hr Hc Hp Ha H0) as (rt' & t' & f & fa & E & P1 & P2 & P3 & P4 & P5 & P6 & P7 & _).
  by exists rt', t', f, fa.
Qed.

(** C8. A withdrawal: it succeeds; the route of the peer for the prefix, if there
    is one, is gone and nothing else has changed; its attribute is given up;
    no lock is left behind. *)
Theorem bgp_process_withdraw_spec {X} dbs past num pr (route_info_modulo : bgp_misc_structs -> peer -> option rd_t -> option Z -> Z -> Z)
    bmed_id cmp (extra : X) afi safi idx attr_extra rt T p t :
  type (p_base pr) < FUNC_TYPE_MAX -> is_readonly (dbs (type (p_base pr))) = false ->
  let bms := dbs (type (p_base pr)) in
  let modulo := route_info_modulo bms pr (Some (e_rd attr_extra)) (Some (e_path_id attr_extra)) (table_per_peer_buckets bms) in
  let m := Z.to_nat modulo in
  (m < info_buckets bms)%nat ->
  state_ok dbs num pr rt T -> rib rt !! (afi, safi) = Some t -> lock_room t -> wf_prefix p ->
  let b := get_bucket (key p) m (routes t) in
  exists rt' t',
    bgp_process_withdraw dbs past num false route_info_modulo bmed_id cmp extra pr rt p attr_extra afi safi idx
      = Ok (SUCCESS, withdraw_peer pr bmed_id cmp extra afi safi attr_extra b, rt') /\
    state_ok dbs num pr rt' T /\ rib rt' = <[(afi, safi) := t']> (rib rt) /\
    routes t' = set_bucket (key p) m (withdraw_bucket pr bmed_id cmp extra afi safi attr_extra b) (routes t) /\
    (exact_but None t -> exact_but None t').
Proof.
  intros H1 H2 bms modulo m Hm Hs Hk Hr Hp b.
  destruct (process_withdraw_steps dbs past num pr H1 H2 route_info_modulo bmed_id cmp extra afi safi idx attr_extra
    Hm rt T p t Hs Hk Hr Hp) as (rt' & t' & E & P1 & P2 & P3 & P4 & _).
  by exists rt', t'.
Qed.

(** ** At a concrete state *)

Definition ex_rib_dbs : misc_dbs := fun _ => mk_misc false 2 1 0.
Definition ex_rib_peer : peer := mk_bgp_peer 7 (mk_peer FUNC_TYPE_BGP 65000) 1 0 true ∅ ∅.
Definition ex_attr : bgp_attr := mk_attr None None None None 0 0 [10; 0; 0; 1] ha0 5 100 0 3.
Definition ex_started : bgp_rt_structs Z := init_shared_rib (bgp_attr_init 11 rt0).
Definition ex_rib_rt : bgp_rt_structs Z :=
  with_attr ex_started (<[1%positive := ex_attr]> (r_attr ex_started), attrhash ex_started).
Definition ex_net : prefix := pfx4 10 1 0 0 16.

Lemma ex_rib_attrs : r_attr ex_rib_rt = {[1%positive := ex_attr]}.
Proof. unfold ex_rib_rt, ex_started. cbn [with_attr r_attr fst]. rewrite init_rib_keeps. reflexivity. Qed.

Lemma ex_rib_ok : state_ok ex_rib_dbs false ex_rib_peer ex_rib_rt T0.
Proof.
  apply state_new_attr; try discriminate; [by apply init_state_ok | unfold ex_started; by rewrite init_rib_keeps | by left | reflexivity].
Qed.

Lemma ex_rib_count : count_room ex_rib_rt.
Proof.
  assert (He : forall {V} l (o : obj V), (∅ : objs V) !! l = Some o -> False) by (intros V l o; by rewrite lookup_empty).
  split_and!; try (intros l o H; exfalso; exact (He _ l o H)).
  intros l a. rewrite ex_rib_attrs. intros [<- <-]%lookup_singleton_Some. done.
Qed.

Lemma ex_rib_table : rib ex_rib_rt !! (AFI_IP, SAFI_UNICAST) = Some (bgp_table_init AFI_IP SAFI_UNICAST).
Proof. vm_compute. reflexivity. Qed.

Lemma bgp_route_info_modulo_range_witness :
  (Z.to_nat (bgp_route_info_modulo_pathid (mk_misc false 2%Z 3%Z 0%Z) ex_rib_peer None (Some (-5)%Z) 3%Z) < 6)%nat.
Proof. apply (bgp_route_info_modulo_range (mk_misc false 2 3 0) ex_rib_peer None (Some (-5))); done. Defined.

Lemma bgp_attr_intern_spec_witness :
  exists rt' f fb n, bgp_attr_intern ex_rib_dbs false (Some (p_base ex_rib_peer)) ex_rib_rt 1%positive = Ok (rt', Some f) /\
    r_attr rt' !! f = Some (with_refcnt n fb) /\ attr_cmp fb ex_attr = true.
Proof.
  destruct (bgp_attr_intern_spec ex_rib_dbs false (p_base ex_rib_peer) ex_rib_rt T0 (rib_uses (rib ex_rib_rt)) 1%positive ex_attr)
    as (rt' & f & fb & n & E & _ & Em & _ & Hc & _); [done | apply (so_rt _ _ _ _ _ ex_rib_ok) | exact ex_rib_count |
      rewrite ex_rib_attrs; apply lookup_singleton_eq | done |].
  exists rt', f, fb, n. split; [exact E |]. split; [rewrite Em; apply lookup_insert_eq | exact Hc].
Defined.

Lemma bgp_attr_unintern_spec_witness :
  exists (rt : bgp_rt_structs Z) f rt', bgp_attr_unintern ex_rib_dbs false (Some (p_base ex_rib_peer)) rt f = Ok rt' /\ is_Some (r_attr rt !! f) /\
    rib rt' = rib rt.
Proof.
  destruct (attr_intern_spec ex_rib_dbs false (p_base ex_rib_peer) eq_refl ex_rib_rt T0 (rib_uses (rib ex_rib_rt)) 1%positive ex_attr)
    as (rt' & f & fb & n & E & Hok & Em & _ & Hc & _); [apply (so_rt _ _ _ _ _ ex_rib_ok) | exact ex_rib_count |
      rewrite ex_rib_attrs; apply lookup_singleton_eq | done |].
  destruct (bgp_attr_unintern_spec ex_rib_dbs false (p_base ex_rib_peer) rt' _ _ f (with_refcnt n fb) eq_refl Hok)
    as (rt2 & E2 & _ & _ & Er).
  - rewrite Em. apply lookup_insert_eq.
  - cbn. unfold bump. by rewrite decide_True.
  - exists rt', f, rt2. split; [exact E2 |]. split; [rewrite Em; exists (with_refcnt n fb); apply lookup_insert_eq | exact Er].
Defined.

Lemma bgp_process_update_spec_witness :
  exists rt' t' f,
    bgp_process_update ex_rib_dbs 0 false false false bgp_route_info_modulo_pathid (fun x => x) None None 0 0 ex_rib_peer ex_rib_rt
      ex_net 1%positive extra0 AFI_IP SAFI_UNICAST 0 = Ok (SUCCESS, with_peer_lock 1 ex_rib_peer, rt') /\
    rib rt' !! (AFI_IP, SAFI_UNICAST) = Some t' /\
    routes t' = {[(key ex_net, 1%nat) := [mk_info 7%positive (Some f) None 0]]}.
Proof.
  destruct (bgp_process_update_spec ex_rib_dbs 0 false ex_rib_peer false bgp_route_info_modulo_pathid (fun x => x) None None 0 0
    AFI_IP SAFI_UNICAST 0 extra0 ex_rib_rt T0 ex_net (bgp_table_init AFI_IP SAFI_UNICAST) 1%positive ex_attr)
    as (rt' & t' & f & fa & E & _ & Er & Ht & _).
  - reflexivity.
  - reflexivity.
  - vm_compute. lia.
  - exact ex_rib_ok.
  - exact ex_rib_table.
  - by intros l nd; cbn; rewrite lookup_empty.
  - exact ex_rib_count.
  - by apply wf_prefixb_spec.
  - rewrite ex_rib_attrs. apply lookup_singleton_eq.
  - reflexivity.
  - exists rt', t', f. split; [exact E |]. split; [rewrite Er; apply lookup_insert_eq | exact Ht].
Defined.

Lemma bgp_process_withdraw_spec_witness :
  exists rt' t',
    bgp_process_withdraw ex_rib_dbs 0 false false bgp_route_info_modulo_pathid (fun x => x) None 0 ex_rib_peer ex_rib_rt
      ex_net extra0 AFI_IP SAFI_UNICAST 0 = Ok (SUCCESS, ex_rib_peer, rt') /\
    rib rt' !! (AFI_IP, SAFI_UNICAST) = Some t' /\ routes t' = ∅.
Proof.
  destruct (bgp_process_withdraw_spec ex_rib_dbs 0 false ex_rib_peer bgp_route_info_modulo_pathid (fun x => x) None 0
    AFI_IP SAFI_UNICAST 0 extra0 ex_rib_rt T0 ex_net (bgp_table_init AFI_IP SAFI_UNICAST))
    as (rt' & t' & E & _ & Er & Ht & _).
  - reflexivity.
  - reflexivity.
  - vm_compute. lia.
  - exact ex_rib_ok.
  - exact ex_rib_table.
  - by intros l nd; cbn; rewrite lookup_empty.
  - by apply wf_prefixb_spec.
  - exists rt', t'. split; [exact E |]. split; [rewrite Er; apply lookup_insert_eq | exact Ht].
Defined.

End BgpRibFacts.
