(* ===== verification/BgpRouterFacts.v ===== *)
(** * Routes in and out of the tables, again and again

    The invariant of the tables between two messages, and what bounds the
    counters: while there are less than 2^31 routes no count of references
    and no lock is near its end, so that updates and withdrawals can follow
    each other in any order. *)

From S2P Require Import Prelude CBuf Bgp BgpPrefix BgpTable BgpTableFacts BgpRoutes BgpHash BgpHashFacts BgpInternFacts.
From S2P Require Import Aspath AspathFacts Communities CommunitiesFacts BgpAttr BgpAttrFacts BgpRib BgpRibFacts.

Module BgpRouterFacts.
Import CBuf Bgp BgpPrefix BgpTable BgpTableFacts BgpRoutes BgpHash BgpHashFacts BgpIntern BgpInternFacts
  Aspath AspathFacts Communities CommunitiesFacts BgpAttr BgpAttrFacts BgpRib BgpRibFacts.

(** ** Bounds *)

(** Temporary references are few, and none is to an attribute. *)
Definition bounded (T : temps) (b : Z) : Prop :=
  forall x, t_as T x <= b /\ t_com T x <= b /\ t_ecom T x <= b /\ t_lcom T x <= b /\ t_attr T x = 0.

Section Bounds.
Context {X : Type}.
Context (dbs : misc_dbs) (num : bool).
Implicit Types (rt : bgp_rt_structs X).

Lemma attr_counts rt T b : rt_ok dbs num rt T (rib_uses (rib rt)) -> bounded T b ->
  forall l a, r_attr rt !! l = Some a -> a_refcnt a = rib_uses (rib rt) l.
Proof.
  intros Hok Hb l a Hl. pose proof (ro_uses _ _ _ _ _ Hok l) as Hu. rewrite Hl in Hu. destruct (Hb l) as (_&_&_&_&E). lia.
Qed.

Lemma weight_bound rt T b ptr x : rt_ok dbs num rt T (rib_uses (rib rt)) -> bounded T b ->
  weight ptr (r_attr rt) x <= n_routes (rib rt).
Proof.
  intros Hok Hb. pose proof (uses_routes a_refcnt (r_attr rt) (rib rt) (attr_counts rt T b Hok Hb)) as Hu.
  enough (weight ptr (r_attr rt) x <= msum a_refcnt (r_attr rt)) by lia.
  apply msum_le. intros l a Hl. unfold points. destruct (ro_attr _ _ _ _ _ Hok l a Hl). case_decide; lia.
Qed.

Lemma counted_bound {V} `{HI : Internable V} ok (st : objs V) h refs n :
  counted ok st h refs -> (forall x, refs x <= n) -> n < 2 ^ 64 - 1 -> forall l o, st !! l = Some o -> refcnt o < 2 ^ 64 - 1.
Proof. intros [_ Hr] Hn Hl l o E. pose proof (Hr l) as Hx. rewrite E in Hx. pose proof (Hn l). lia. Qed.

Lemma count_room_bound rt T b : rt_ok dbs num rt T (rib_uses (rib rt)) -> bounded T b -> 0 <= b ->
  n_routes (rib rt) + b < 2 ^ 64 - 1 -> count_room rt.
Proof.
  intros Hok Hb Hb0 Hn. pose proof (fun ptr x => weight_bound rt T b ptr x Hok Hb) as Hw. split_and!.
  - apply (counted_bound _ _ _ _ (n_routes (rib rt) + b) (ro_as _ _ _ _ _ Hok)); [| done].
    intros x. pose proof (Hw a_aspath x). destruct (Hb x). unfold as_refs. lia.
  - apply (counted_bound _ _ _ _ (n_routes (rib rt) + b) (ro_com _ _ _ _ _ Hok)); [| done].
    intros x. pose proof (Hw a_community x). destruct (Hb x) as (_&?&_). unfold com_refs. lia.
  - apply (counted_bound _ _ _ _ (n_routes (rib rt) + b) (ro_ecom _ _ _ _ _ Hok)); [| done].
    intros x. pose proof (Hw a_ecommunity x). destruct (Hb x) as (_&_&?&_). unfold ecom_refs. lia.
  - apply (counted_bound _ _ _ _ (n_routes (rib rt) + b) (ro_lcom _ _ _ _ _ Hok)); [| done].
    intros x. pose proof (Hw a_lcommunity x). destruct (Hb x) as (_&_&_&?&_). unfold lcom_refs. lia.
  - intros l a Hl. rewrite (attr_counts rt T b Hok Hb l a Hl).
    assert (Hs : msum a_refcnt {[l := a]} <= n_routes (rib rt)).
    { apply uses_routes. intros x y [<- <-]%lookup_singleton_Some. by apply (attr_counts rt T b Hok Hb). }
    rewrite <- insert_empty, msum_insert, msum_empty in Hs by apply lookup_empty.
    rewrite (attr_counts rt T b Hok Hb l a Hl) in Hs. lia.
Qed.

Lemma lock_room_leak bms n (t : bgp_table (bgp_info X)) : table_ok bms t -> leak_but n None t ->
  table_size t + Z.of_nat n < 2 ^ 32 - 2 -> lock_room t.
Proof.
  intros Ht Hex Hn l nd Hl. pose proof (Hex l nd Hl) as H. unfold leak_node in H. rewrite decide_False in H by done.
  pose proof (node_routes_size bms t l nd Ht Hl). lia.
Qed.

Lemma lock_room_bound bms (t : bgp_table (bgp_info X)) : table_ok bms t -> exact_but None t -> table_size t < 2 ^ 32 - 2 -> lock_room t.
Proof. intros Ht Hex Hn. apply (lock_room_leak bms 0 t Ht Hex). lia. Qed.

(** ** How many routes *)

Lemma table_size_set (t t' : bgp_table (bgp_info X)) k m b :
  routes t' = set_bucket k m b (routes t) ->
  table_size t' = table_size t - Z.of_nat (length (get_bucket k m (routes t))) + Z.of_nat (length b).
Proof.
  intros E. unfold table_size. rewrite E.
  assert (Ha : at_key (fun b => Z.of_nat (length b)) (routes t) (k, m) = Z.of_nat (length (get_bucket k m (routes t)))).
  { unfold at_key, get_bucket. by destruct (routes t !! (k, m)). }
  unfold set_bucket. destruct b as [|ri b].
  - rewrite (msum_remove _ (routes t) (k, m)), Ha. cbn [length]. lia.
  - rewrite msum_update, Ha. lia.
Qed.

Lemma n_routes_set (m : gmap (Z * Z) (bgp_table (bgp_info X))) k t t' : m !! k = Some t ->
  n_routes (<[k := t']> m) = n_routes m - table_size t + table_size t'.
Proof. intros H. unfold n_routes. rewrite msum_update. unfold at_key. by rewrite H. Qed.

End Bounds.

(** ** The state between two routes *)

Section Router.
Context {X : Type}.
Context (dbs : misc_dbs) (past : Z) (num : bool).
Context (msglog : bool).
Context (route_info_modulo : bgp_misc_structs -> peer -> option rd_t -> option Z -> Z -> Z).
Context (bmed_id : X -> Z).
Context (bgp_extra_data_cmp : option (X -> X -> Z)).
Context (bgp_extra_data_process : option (X -> X -> Z -> Z -> X)).
Context (bmed0 extra : X).
Context (base : bgp_peer).
Hypothesis Hpeer : type base < FUNC_TYPE_MAX.
Hypothesis Hrw : is_readonly (dbs (type base)) = false.
(** Whatever the peer counts, a route has its bucket. *)
Hypothesis Hmodulo : forall pr rd path_id, p_base pr = base ->
  (Z.to_nat (route_info_modulo (dbs (type base)) pr rd path_id (table_per_peer_buckets (dbs (type base))))
     < info_buckets (dbs (type base)))%nat.
Implicit Types (rt : bgp_rt_structs X) (pr : peer).

(** Everything is counted, nothing is locked but by its routes, and the only
    attribute no route uses is that of a message, if there is one. *)
Record good (o : option loc) pr rt (T : temps) : Prop := {
  g_state : state_ok dbs num pr rt T;
  g_exact : forall k t, rib rt !! k = Some t -> exact_but None t;
  g_zeros : forall x a, r_attr rt !! x = Some a -> a_refcnt a = 0 -> o = Some x
}.

Lemma good_peer o pr pr' rt T : p_base pr' = p_base pr -> good o pr rt T -> good o pr' rt T.
Proof using. intros E [[H1 H2 H3] Hx Hz]. split; [| done | done]. split; [done | by rewrite E | done]. Qed.

Lemma good_rooms o pr rt T b k t : good o pr rt T -> p_base pr = base -> bounded T b -> 0 <= b < 2 ^ 63 ->
  n_routes (rib rt) < 2 ^ 32 - 2 -> rib rt !! k = Some t -> lock_room t /\ count_room rt.
Proof using.
  intros [Hs Hx Hz] E Hb Hb0 Hn Hk. split.
  - eapply lock_room_bound; [by apply (so_tables _ _ _ _ _ Hs k) | by apply (Hx k) |]. pose proof (table_size_routes _ _ _ Hk). lia.
  - eapply count_room_bound; [apply (so_rt _ _ _ _ _ Hs) | done | lia | lia].
Qed.

(** What a route changes of the tables. *)
Lemma good_step o pr rt T rt' k t t' :
  good o pr rt T -> state_ok dbs num pr rt' T -> rib rt !! k = Some t -> rib rt' = <[k := t']> (rib rt) ->
  (exact_but None t -> exact_but None t') -> same_zeros (r_attr rt) (r_attr rt') -> good o pr rt' T.
Proof using.
  intros [Hs Hx Hz] Hs' Hk Er Hex Hsz. split; [done | |].
  - intros k' x. rewrite Er. destruct (decide (k' = k)) as [->|].
    + rewrite lookup_insert_eq. intros [= <-]. apply Hex. by apply (Hx k).
    + rewrite lookup_insert_ne by done. apply Hx.
  - intros x a Hl Ha. apply (Hz x a); [by apply Hsz | done].
Qed.

Abbreviation update := (bgp_process_update dbs past num false msglog route_info_modulo bmed_id bgp_extra_data_cmp
  bgp_extra_data_process bmed0 extra).
Abbreviation withdraw := (bgp_process_withdraw dbs past num false route_info_modulo bmed_id bgp_extra_data_cmp extra).

(** The peer, but for its count of routes. *)
Definition same_peer pr pr' : Prop := exists n, pr' = with_peer_lock n pr.

Lemma same_peer_refl pr : same_peer pr pr.
Proof using. exists (p_lock pr). by destruct pr. Qed.

Lemma same_peer_trans pr1 pr2 pr3 : same_peer pr1 pr2 -> same_peer pr2 pr3 -> same_peer pr1 pr3.
Proof using. intros [n ->] [m ->]. by exists m. Qed.

Lemma good_update attr a pr rt T b p e afi safi idx :
  good (Some attr) pr rt T -> p_base pr = base -> bounded T b -> 0 <= b < 2 ^ 63 -> n_routes (rib rt) < 2 ^ 32 - 2 ->
  is_Some (rib rt !! (afi, safi)) -> wf_prefix p -> r_attr rt !! attr = Some a -> a_refcnt a = 0 ->
  exists pr' rt', update pr rt p attr e afi safi idx = Ok (SUCCESS, pr', rt') /\ good (Some attr) pr' rt' T /\
    same_peer pr pr' /\ n_routes (rib rt') <= n_routes (rib rt) + 1 /\ dom (rib rt') = dom (rib rt) /\
    r_attr rt' !! attr = Some a.
Proof using Hpeer Hrw Hmodulo.
  intros Hg E Hb Hb0 Hn [t Hk] Hp Ha H0. destruct (good_rooms _ _ _ _ b _ t Hg E Hb Hb0 Hn Hk) as [Hlr Hcr].
  assert (Hpe : type (p_base pr) < FUNC_TYPE_MAX) by (by rewrite E).
  assert (Hro : is_readonly (dbs (type (p_base pr))) = false) by (by rewrite E).
  pose proof (Hmodulo pr (Some (e_rd e)) (Some (e_path_id e)) E) as Hm. rewrite <- E in Hm.
  destruct (process_update_steps dbs past num pr Hpe Hro msglog route_info_modulo bmed_id bgp_extra_data_cmp
    bgp_extra_data_process bmed0 extra afi safi idx e Hm rt T p t attr a (g_state _ _ _ _ Hg) Hk Hlr Hcr Hp Ha H0)
    as (rt' & t' & f & fa & Eu & Hs' & Er & Ert & _ & _ & Ha' & Hex & Hz).
  eexists _, rt'. split; [exact Eu |]. split_and!; [| | | | done].
  - eapply good_peer; [| by eapply (good_step _ pr rt T rt')]. unfold update_peer. by destruct (find_ri _ _ _).
  - unfold update_peer. destruct (find_ri _ _ _); [apply same_peer_refl | by eexists].
  - rewrite Er, (n_routes_set _ _ t t' Hk), (table_size_set t t' _ _ _ Ert).
    set (bk := get_bucket _ _ _). unfold update_bucket. destruct (find_ri _ bk 0) as [[k ri]|]; [| cbn [length]; lia].
    case_bool_decide; [lia |]. rewrite length_insert. lia.
  - rewrite Er. apply dom_insert_lookup_L. by eexists.
Qed.

Lemma good_withdraw o pr rt T b p e afi safi idx :
  good o pr rt T -> p_base pr = base -> bounded T b -> 0 <= b < 2 ^ 63 -> n_routes (rib rt) < 2 ^ 32 - 2 ->
  is_Some (rib rt !! (afi, safi)) -> wf_prefix p ->
  exists pr' rt', withdraw pr rt p e afi safi idx = Ok (SUCCESS, pr', rt') /\ good o pr' rt' T /\
    same_peer pr pr' /\ n_routes (rib rt') <= n_routes (rib rt) /\ dom (rib rt') = dom (rib rt) /\
    same_zeros (r_attr rt) (r_attr rt').
Proof using Hpeer Hrw Hmodulo.
  intros Hg E Hb Hb0 Hn [t Hk] Hp. destruct (good_rooms _ _ _ _ b _ t Hg E Hb Hb0 Hn Hk) as [Hlr Hcr].
  assert (Hpe : type (p_base pr) < FUNC_TYPE_MAX) by (by rewrite E).
  assert (Hro : is_readonly (dbs (type (p_base pr))) = false) by (by rewrite E).
  pose proof (Hmodulo pr (Some (e_rd e)) (Some (e_path_id e)) E) as Hm. rewrite <- E in Hm.
  destruct (process_withdraw_steps dbs past num pr Hpe Hro route_info_modulo bmed_id bgp_extra_data_cmp
    extra afi safi idx e Hm rt T p t (g_state _ _ _ _ Hg) Hk Hlr Hp) as (rt' & t' & Eu & Hs' & Er & Ert & Hex & Hz).
  eexists _, rt'. split; [exact Eu |]. split_and!; [| | | | done].
  - eapply good_peer; [| by eapply (good_step _ pr rt T rt')]. unfold withdraw_peer. by destruct (find_ri _ _ _).
  - unfold withdraw_peer. destruct (find_ri _ _ _); [by eexists | apply same_peer_refl].
  - rewrite Er, (n_routes_set _ _ t t' Hk), (table_size_set t t' _ _ _ Ert).
    set (bk := get_bucket _ _ _). unfold withdraw_bucket. pose proof (find_ri_spec (same_route bmed_id bgp_extra_data_cmp pr afi safi e extra) bk 0%nat) as Hf.
    destruct (find_ri _ bk 0) as [[k ri]|]; [| lia]. destruct Hf as (_ & Hri & _). rewrite Nat.sub_0_r in Hri.
    rewrite length_delete by (by eexists). lia.
  - rewrite Er. apply dom_insert_lookup_L. by eexists.
Qed.

End Router.

(** A daemon that has just started. *)
Lemma init_good {X} dbs num pr buckets : 0 < buckets < 2 ^ 31 ->
  good (X := X) dbs num None pr (init_shared_rib (bgp_attr_init buckets rt0)) T0.
Proof.
  intros Hb. split; [by apply init_state_ok | |].
  - intros k t (a & s & ->)%init_rib_tables; [| done]. intros l nd. cbn. by rewrite lookup_empty.
  - intros x a. rewrite init_rib_keeps. cbn. by rewrite lookup_empty.
Qed.

Lemma init_routes {X} buckets : n_routes (rib (init_shared_rib (bgp_attr_init (X := X) buckets rt0))) = 0.
Proof.
  apply msum_zero. intros k t (a & s & ->)%init_rib_tables; [| done]. unfold table_size.
  rewrite (proj2 (init_table_ok (mk_misc false 0 0 0) a s)). apply msum_empty.
Qed.

End BgpRouterFacts.
