(* ===== verification/BgpFlushFacts.v ===== *)
(** * The routes of a peer that goes

    [bgp_table_info_delete] visits the nodes of a table in order, holding one
    at a time, and frees the routes of one peer; nodes that are no longer
    needed go as it passes.  What remains are the routes of the other peers,
    in the order they had, and every reference to attributes is given back.
    The proof is for a table [t] among all that are alive, [M], of which the
    table of [rib] that is worked on is one. *)

From S2P Require Import Prelude CBuf Bgp BgpPrefix BgpTable BgpTableFacts BgpRoutes BgpHash BgpHashFacts BgpInternFacts.
From S2P Require Import Aspath AspathFacts Communities CommunitiesFacts BgpAttr BgpAttrFacts BgpRib BgpRibFacts BgpRouterFacts.

Module BgpFlushFacts.
Import CBuf Bgp BgpPrefix BgpTable BgpTableFacts BgpRoutes BgpHash BgpHashFacts BgpIntern BgpInternFacts
  Aspath AspathFacts Communities CommunitiesFacts BgpAttr BgpAttrFacts BgpRib BgpRibFacts BgpRouterFacts.

(** ** The order of the traversal *)

Lemma klt_irrefl a : klt a a = false.
Proof. by apply klt_not_below. Qed.

Lemma klt_trans a : forall b c, klt a b = true -> klt b c = true -> klt a c = true.
Proof.
  induction a as [|x a IH]; intros [|y b] [|z c]; cbn; try done.
  destruct x, y, z; cbn; try done; apply IH.
Qed.

(** [a] comes no later than [b]. *)
Definition kle (a b : list bool) : Prop := a = b \/ klt a b = true.

Lemma klt_kle_trans a b c : klt a b = true -> kle b c -> klt a c = true.
Proof. intros H [<-|H']; [done | by eapply klt_trans]. Qed.

Section Flush.
Context {X : Type}.
Context (dbs : misc_dbs) (num : bool) (pr : peer).
Let base := p_base pr.
Let bms := dbs (type base).
Hypothesis Hpeer : type base < FUNC_TYPE_MAX.
Hypothesis Hrw : is_readonly bms = false.
Abbreviation table := (bgp_table (bgp_info X)).
Abbreviation tables := (gmap (Z * Z) (bgp_table (bgp_info X))).
Implicit Types (rt : bgp_rt_structs X) (T : temps) (M : tables) (t : table).

(** ** References given back *)

(** Attributes and paths went, or are counted less. *)
Record fewer T rt rt' : Prop := {
  fw_attr : forall l a', r_attr rt' !! l = Some a' ->
    exists n a, r_attr rt !! l = Some a /\ a' = with_refcnt n a /\ (n = 0 -> a_refcnt a = 0);
  fw_refs : forall x, as_refs rt' T x <= as_refs rt T x;
  fw_vals : forall x, 0 < as_refs rt' T x -> same_val (r_as rt) (r_as rt') x
}.

Lemma fewer_refl T rt : fewer T rt rt.
Proof using.
  split; [| done | done]. intros l a H. exists (a_refcnt a), a. by rewrite with_refcnt_id.
Qed.

Lemma fewer_trans T rt1 rt2 rt3 : fewer T rt1 rt2 -> fewer T rt2 rt3 -> fewer T rt1 rt3.
Proof using.
  intros [A1 R1 V1] [A2 R2 V2]. split.
  - intros l a3 H. destruct (A2 l a3 H) as (n & a2 & H2 & -> & E2). destruct (A1 l a2 H2) as (m & a1 & H1 & -> & E1).
    exists n, a1. split_and!; [done | done |]. intros Hn. by apply E1, E2.
  - intros x. pose proof (R1 x). pose proof (R2 x). lia.
  - intros x Hx. unfold same_val in *. etrans; [by apply V2 |]. apply V1. pose proof (R2 x). lia.
Qed.

Lemma state_rt T rt M : state_ok dbs num pr (with_rib rt M) T -> rt_ok dbs num rt T (rib_uses M).
Proof using. intros [H _ _]. by apply (rt_ok_rib dbs num (with_rib rt M) T _ (rib rt)) in H; destruct rt. Qed.

(** A route gives up its attribute. *)
Lemma route_release rt T uses g : rt_ok dbs num rt T uses -> 0 < uses g ->
  exists rt', bgp_attr_unintern dbs num (Some base) rt g = Ok rt' /\
    rt_ok dbs num rt' T (fun x => uses x - one (Some g) x) /\ rib rt' = rib rt /\ fewer T rt rt'.
Proof using Hpeer.
  intros Hok Hg. assert (Ht : forall x, 0 <= t_attr T x) by (intros x; apply (ro_temps dbs num rt T uses Hok x)).
  destruct (attr_there dbs num rt T uses g Hok) as (ga & Ega & Hpos); [pose proof (Ht g); lia |].
  pose proof (take_from_route dbs num rt T uses g Hok Hg) as Hok1.
  destruct (attr_unintern_steps dbs num base Hpeer rt _ _ g ga Hok1 Ega) as (rt' & E & Hok' & Em & Er & Hv).
  { cbn. unfold bump. rewrite decide_True by done. pose proof (Ht g). lia. }
  assert (Hrefs : forall x, as_refs rt' T x = bump (as_refs rt T) (a_aspath ga) (-1) x).
  { intros x. unfold as_refs. rewrite Em, (weight_dropped a_aspath _ g ga x) by done. unfold bump. lia. }
  exists rt'. split_and!; try done.
  - apply (rt_ok_move dbs num rt' _ T _ _ Hok'); try done.
    + intros x. cbn. rewrite !bump_one. ring.
    + intros x. split; [apply Ht | apply (ro_nonneg _ _ _ _ _ Hok')].
  - split.
    + intros l a'. rewrite Em, dropped_lookup. case_decide as E1; [subst l; case_decide; [done |] |].
      * intros [= <-]. exists (a_refcnt ga - 1), ga. split_and!; [done | done | lia].
      * intros H. exists (a_refcnt a'), a'. by rewrite with_refcnt_id.
    + intros x. rewrite Hrefs. unfold bump. case_decide; lia.
    + intros x Hx. apply Hv. by rewrite <- Hrefs.
Qed.

(** ** One node *)

(** The routes of the other peers. *)
Definition others (l : list (bgp_info X)) : list (bgp_info X) := filter (fun ri => i_peer ri <> p_self pr) l.

(** The table with the node [l] held, after some of its routes went. *)
Record flush_step T rt M (k kr : Z * Z) t (l : loc) (nd : bgp_node (bgp_info X)) rt' t' (nd' : bgp_node (bgp_info X)) : Prop := {
  fs_state : state_ok dbs num pr (with_rib rt' (<[k := t']> M)) T;
  fs_rib : rib rt' = <[kr := t']> (rib rt);
  fs_holds : holds t' l nd';
  fs_p : nd_p nd' = nd_p nd;
  fs_within : within t' t;
  fs_leak : forall n, leak_but n (Some l) t -> leak_but n (Some l) t';
  fs_size : table_size t' <= table_size t;
  fs_fewer : fewer T rt rt'
}.

Lemma flush_trans T rt M k kr t l nd rt1 t1 nd1 rt2 t2 nd2 :
  flush_step T rt M k kr t l nd rt1 t1 nd1 -> flush_step T rt1 (<[k := t1]> M) k kr t1 l nd1 rt2 t2 nd2 ->
  flush_step T rt M k kr t l nd rt2 t2 nd2.
Proof using.
  intros [A1 A2 A3 A4 A5 A6 A7 A8] [B1 B2 B3 B4 B5 B6 B7 B8]. rewrite insert_insert_eq in B1. split; try done.
  - by rewrite B2, A2, insert_insert_eq.
  - congruence.
  - by eapply within_trans.
  - intros n Hn. by apply B6, A6.
  - lia.
  - by eapply fewer_trans.
Qed.

Lemma flush_refl T rt M k kr t l nd : state_ok dbs num pr (with_rib rt M) T -> M !! k = Some t -> rib rt !! kr = Some t -> holds t l nd ->
  flush_step T rt M k kr t l nd rt t nd.
Proof using.
  intros Hs Hk Hr Hh. split; try done; [by rewrite insert_id | by rewrite insert_id | apply within_refl | apply fewer_refl].
Qed.

(** One route. *)
Lemma route_delete_steps T rt M k afi safi t p l nd m b (j : nat) ri :
  state_ok dbs num pr (with_rib rt M) T -> M !! k = Some t -> rib rt !! (afi, safi) = Some t -> holds t l nd -> same_peer pr p ->
  nd_info nd !! Z.to_nat m = Some b -> b !! j = Some ri ->
  exists p' rt' t' nd', info_delete dbs num p rt afi safi l j ri m = Ok (p', rt') /\ same_peer pr p' /\
    flush_step T rt M k (afi, safi) t l nd rt' t' nd' /\
    nd_info nd' = <[Z.to_nat m := delete j b]> (nd_info nd) /\
    routes t' = set_bucket (nkey nd) (Z.to_nat m) (delete j b) (routes t).
Proof using Hpeer Hrw.
  intros Hs Hk Hr Hh [c ->] Hb Hj. pose proof (so_tables _ _ _ _ _ Hs k t Hk) as Ht. pose proof (to_wf _ _ Ht) as Hwf.
  pose proof (routes_node t l nd _ b Hwf (proj1 Hh) Hb) as Egb. destruct k as [ka ks].
  assert (Hg : exists g, i_attr ri = Some g /\ 0 < rib_uses M g).
  { exact (route_attr dbs num pr (with_rib rt M) T ka ks t _ b j ri Hs Hk Egb Hj). }
  destruct Hg as (g & Eg & Hg).
  assert (Hrt : rt_ok dbs num rt T (rib_uses M)) by (apply (state_rt _ _ _ Hs)).
  destruct (route_release rt T _ g Hrt Hg) as (rt1 & E1 & Hrt1 & Er1 & Hf1).
  destruct (delete_held_ok bms dbs base (peer_misc_db dbs base Hpeer) Hrw t l nd m b j Ht Hh Hb) as
    (t' & nd' & E2 & Ht' & Hh' & Ep & Ei & Hr' & Hw & Hl); [by eapply lookup_lt_Some |].
  unfold info_delete, bgp_info_free. rewrite Eg. cbn [with_peer_lock p_base]. fold base. rewrite E1, !bind_Ok.
  rewrite (get_rib_Ok rt1 afi safi t) by (by rewrite Er1). rewrite bind_Ok. cbn [with_peer_lock p_base]. fold base.
  rewrite E2, bind_Ok. eexists _, _, t', nd'. split; [done |]. split; [by eexists |]. split; [| done].
  split; try done.
  - change (with_rib (set_rib rt1 afi safi t') (<[(ka, ks) := t']> M)) with (set_rib (with_rib rt1 M) ka ks t').
    eapply (state_set_bucket dbs num pr (with_rib rt1 M) T T _ ka ks t t' (nkey nd) (Z.to_nat m) (delete j b)); try done.
    + by apply (rt_ok_rib dbs num rt1 T _ M).
    + apply (so_tables _ _ _ _ _ Hs).
    + apply (so_attr _ _ _ _ _ Hs).
    + apply Forall_delete. rewrite <- Egb. by apply (bucket_attrs dbs num pr (with_rib rt M) T ka ks t).
    + intros x. rewrite Egb, (bucket_uses_delete b j ri x Hj), Eg. cbn [rib with_rib]. ring.
    + intros x. apply (ro_temps _ _ _ _ _ Hrt x).
  - cbn. by rewrite Er1.
  - rewrite (table_size_set t t' _ _ _ Hr'), Egb, length_delete by (by eexists). lia.
  - destruct Hf1 as [F1 F2 F3]. by split.
Qed.

(** One bucket: the first [k0] routes are passed already. *)
Lemma delete_bucket_steps T k afi safi l m : forall n rt M t p nd b (k0 : nat),
  state_ok dbs num pr (with_rib rt M) T -> M !! k = Some t -> rib rt !! (afi, safi) = Some t -> holds t l nd -> same_peer pr p ->
  nd_info nd !! Z.to_nat m = Some b -> others (take k0 b) = take k0 b -> (length b <= k0 + n)%nat ->
  exists p' rt' t' nd', delete_bucket dbs num n p rt afi safi l k0 m = Ok (p', rt') /\ same_peer pr p' /\
    flush_step T rt M k (afi, safi) t l nd rt' t' nd' /\
    nd_info nd' = <[Z.to_nat m := others b]> (nd_info nd) /\
    routes t' = set_bucket (nkey nd) (Z.to_nat m) (others b) (routes t).
Proof using Hpeer Hrw.
  assert (Hsame : forall t nd b, table_ok bms t -> t_heap t !! l = Some nd -> nd_info nd !! Z.to_nat m = Some b ->
    nd_info nd = <[Z.to_nat m := b]> (nd_info nd) /\ routes t = set_bucket (nkey nd) (Z.to_nat m) b (routes t)).
  { intros t nd b Ht Hl Hb. split; [by rewrite list_insert_id |].
    rewrite <- (routes_node t l nd _ b (to_wf _ _ Ht) Hl Hb). symmetry. apply routes_bucket_same, (to_wf _ _ Ht). }
  induction n as [|n IH]; intros rt M t p nd b k0 Hs Hk Hr Hh Hp Hb Hpast Hlen; cbn [delete_bucket].
  - rewrite take_ge in Hpast by lia. rewrite Hpast. exists p, rt, t, nd. split; [done |]. split; [done |].
    split; [by apply flush_refl |]. by apply Hsame; [apply (so_tables _ _ _ _ _ Hs k) | apply Hh |].
  - rewrite (get_rib_Ok rt afi safi t Hr), bind_Ok. unfold bucket. rewrite (get_node_Ok t l nd (proj1 Hh)), bind_Ok, Hb, bind_Ok.
    destruct (b !! k0) as [ri|] eqn:Ek.
    2:{ apply lookup_ge_None_1 in Ek. rewrite take_ge in Hpast by done. rewrite Hpast. exists p, rt, t, nd. split; [done |]. split; [done |].
        split; [by apply flush_refl |]. by apply Hsame; [apply (so_tables _ _ _ _ _ Hs k) | apply Hh |]. }
    assert (Eself : p_self p = p_self pr) by (by destruct Hp as [c ->]). rewrite Eself. case_bool_decide as Hd.
    + destruct (route_delete_steps T rt M k afi safi t p l nd m b k0 ri Hs Hk Hr Hh Hp Hb Ek)
        as (p1 & rt1 & t1 & nd1 & E1 & Hp1 & Hst1 & Ei1 & Hr1). rewrite E1, bind_Ok.
      assert (Hmid : take k0 b ++ ri :: drop (S k0) b = b) by (by apply take_drop_middle).
      assert (Hdel : delete k0 b = take k0 b ++ drop (S k0) b) by apply delete_take_drop.
      assert (Hk0 : (k0 < length b)%nat) by (by eapply lookup_lt_Some).
      assert (Htk : take k0 (delete k0 b) = take k0 b).
      { rewrite Hdel, take_app_le by (rewrite length_take; lia). apply take_ge. rewrite length_take. lia. }
      destruct (IH rt1 (<[k := t1]> M) t1 p1 nd1 (delete k0 b) k0) as (p2 & rt2 & t2 & nd2 & E2 & Hp2 & Hst2 & Ei2 & Hr2).
      * apply (fs_state _ _ _ _ _ _ _ _ _ _ _ Hst1).
      * apply lookup_insert_eq.
      * rewrite (fs_rib _ _ _ _ _ _ _ _ _ _ _ Hst1). apply lookup_insert_eq.
      * apply (fs_holds _ _ _ _ _ _ _ _ _ _ _ Hst1).
      * done.
      * rewrite Ei1. apply list_lookup_insert_eq. by eapply lookup_lt_Some.
      * by rewrite Htk.
      * rewrite length_delete by (by eexists). lia.
      * assert (Eo : others (delete k0 b) = others b).
        { rewrite Hdel. rewrite <- Hmid at 3. unfold others. rewrite !filter_app, filter_cons_False by (intros H; by apply H). done. }
        rewrite E2. exists p2, rt2, t2, nd2. split; [done |]. split; [done |]. split; [by eapply flush_trans |].
        rewrite Ei2, Ei1, Hr2, Hr1, Eo. unfold nkey. rewrite (fs_p _ _ _ _ _ _ _ _ _ _ _ Hst1). split; [by rewrite list_insert_insert_eq |].
        by rewrite set_bucket_twice.
    + apply (IH rt M t p nd b (S k0)); try done; [| lia].
      rewrite (take_S_r _ _ ri Ek). unfold others in *. rewrite filter_app, Hpast, filter_cons_True by done. by rewrite filter_nil.
Qed.

(** ** All nodes *)

(** The buckets of [R] for which [P] holds lost the routes of the peer. *)
Definition flushed (P : list bool -> nat -> Prop) (R R' : gmap (list bool * nat) (list (bgp_info X))) : Prop :=
  forall kk j, (P kk j -> get_bucket kk j R' = others (get_bucket kk j R)) /\ (~ P kk j -> get_bucket kk j R' = get_bucket kk j R).

(** [n] buckets from [m]. *)
Definition in_buckets (m : Z) (n j : nat) : Prop := m <= Z.of_nat j < m + Z.of_nat n.

Lemma get_set_bucket (kk : list bool) (j : nat) (k : list bool) (m : nat) (b : list (bgp_info X)) (R : gmap (list bool * nat) (list (bgp_info X))) :
  get_bucket kk j (set_bucket k m b R) = if decide (kk = k /\ j = m) then b else get_bucket kk j R.
Proof using. unfold get_bucket. rewrite set_bucket_lookup. case_decide; [by destruct b | done]. Qed.

Lemma delete_buckets_steps T k afi safi l : forall n m rt M t p nd,
  state_ok dbs num pr (with_rib rt M) T -> M !! k = Some t -> rib rt !! (afi, safi) = Some t -> holds t l nd -> same_peer pr p ->
  0 <= m -> m + Z.of_nat n <= Z.of_nat (info_buckets bms) -> m + Z.of_nat n < 2 ^ 32 ->
  exists p' rt' t' nd', delete_buckets dbs num n p rt afi safi l m = Ok (p', rt') /\ same_peer pr p' /\
    flush_step T rt M k (afi, safi) t l nd rt' t' nd' /\
    flushed (fun kk j => kk = nkey nd /\ in_buckets m n j) (routes t) (routes t').
Proof using Hpeer Hrw.
  induction n as [|n IH]; intros m rt M t p nd Hs Hk Hr Hh Hp Hm Hn Hmax; cbn [delete_buckets].
  - exists p, rt, t, nd. split; [done |]. split; [done |]. split; [by apply flush_refl |]. intros kk j. unfold in_buckets. split; [lia | done].
  - rewrite (get_rib_Ok rt afi safi t Hr), bind_Ok. unfold bucket. rewrite (get_node_Ok t l nd (proj1 Hh)), bind_Ok.
    destruct (lookup_lt_is_Some_2 (nd_info nd) (Z.to_nat m)) as [b Hb].
    { rewrite (to_info _ _ (so_tables _ _ _ _ _ Hs k t Hk) l nd (proj1 Hh)). unfold bms, base in *. lia. }
    rewrite Hb, bind_Ok.
    destruct (delete_bucket_steps T k afi safi l m (length b) rt M t p nd b 0 Hs Hk Hr Hh Hp Hb eq_refl ltac:(lia))
      as (p1 & rt1 & t1 & nd1 & E1 & Hp1 & Hst1 & Ei1 & Hr1). rewrite E1, bind_Ok. unfold u32. rewrite wrap_small by (unfold in_u; lia).
    destruct (IH (m + 1) rt1 (<[k := t1]> M) t1 p1 nd1) as (p2 & rt2 & t2 & nd2 & E2 & Hp2 & Hst2 & Hfl2); try done; try lia.
    + apply (fs_state _ _ _ _ _ _ _ _ _ _ _ Hst1).
    + apply lookup_insert_eq.
    + rewrite (fs_rib _ _ _ _ _ _ _ _ _ _ _ Hst1). apply lookup_insert_eq.
    + apply (fs_holds _ _ _ _ _ _ _ _ _ _ _ Hst1).
    + exists p2, rt2, t2, nd2. split; [done |]. split; [done |]. split; [by eapply flush_trans |].
      pose proof (routes_node t l nd _ b (to_wf _ _ (so_tables _ _ _ _ _ Hs k t Hk)) (proj1 Hh) Hb) as Egb.
      assert (Ek : nkey nd1 = nkey nd) by (unfold nkey; by rewrite (fs_p _ _ _ _ _ _ _ _ _ _ _ Hst1)).
      intros kk j. pose proof (Hfl2 kk j) as [F1 F2]. rewrite Hr1, get_set_bucket, Ek in F1, F2. unfold in_buckets in *.
      destruct (decide (kk = nkey nd /\ j = Z.to_nat m)) as [[-> ->]|Hd].
      * rewrite F2 by (intros [_ ?]; lia). rewrite Egb. split; [done | intros H; exfalso; apply H; split; [done | lia]].
      * split; [intros [-> Hj]; apply F1; split; [done |] | intros Hj; apply F2; intros [-> Hj']; apply Hj; split; [done |]].
        -- destruct (decide (j = Z.to_nat m)); [by destruct Hd | lia].
        -- lia.
Qed.

(** The nodes after [k]. *)
Definition after t (k : list bool) : gmap loc (bgp_node (bgp_info X)) := filter (fun x => klt k (nkey x.2) = true) (t_heap t).

Lemma after_less t t' k z (nz nz' : bgp_node (bgp_info X)) : within t' t -> t_heap t !! z = Some nz -> klt k (nkey nz) = true -> nkey nz' = nkey nz ->
  (size (after t' (nkey nz')) < size (after t k))%nat.
Proof using.
  intros Hw Hz Hlt Ek. rewrite <- !size_dom. apply subset_size. split.
  - intros y [ny Hy]%elem_of_dom. apply map_lookup_filter_Some in Hy as [Hy Hky]. cbn in Hky.
    destruct (Hw y ny Hy) as (n0 & H0 & Ep). apply elem_of_dom. exists n0. apply map_lookup_filter_Some. split; [done |]. cbn.
    unfold nkey in *. rewrite <- Ep. rewrite Ek in Hky. by eapply klt_trans.
  - intros H. assert (Hin : z ∈ dom (after t k)) by (apply elem_of_dom; exists nz; by apply map_lookup_filter_Some).
    apply H, elem_of_dom in Hin as [ny Hy]. apply map_lookup_filter_Some in Hy as [Hy Hky]. cbn in Hky.
    destruct (Hw z ny Hy) as (n0 & H0 & Ep). assert (n0 = nz) as -> by congruence. unfold nkey in *. rewrite Ep, Ek, klt_irrefl in Hky. done.
Qed.

(** What [info_delete_loop] leaves. *)
Record flush_done T rt M k kr t (P : list bool -> nat -> Prop) (n : nat) rt' t' : Prop := {
  fd_state : state_ok dbs num pr (with_rib rt' (<[k := t']> M)) T;
  fd_rib : rib rt' = <[kr := t']> (rib rt);
  fd_leak : leak_but n None t';
  fd_fewer : fewer T rt rt';
  fd_routes : flushed P (routes t) (routes t')
}.

Lemma info_delete_loop_steps T k afi safi n m : forall fuel rt M t p l nd,
  state_ok dbs num pr (with_rib rt M) T -> M !! k = Some t -> rib rt !! (afi, safi) = Some t -> holds t l nd -> same_peer pr p ->
  0 <= m -> m + Z.of_nat (Z.to_nat (table_per_peer_buckets bms)) <= Z.of_nat (info_buckets bms) ->
  m + Z.of_nat (Z.to_nat (table_per_peer_buckets bms)) < 2 ^ 32 ->
  leak_but n (Some l) t -> table_size t + Z.of_nat n < 2 ^ 32 - 3 ->
  (size (after t (nkey nd)) + 2 <= fuel)%nat ->
  exists p' rt' t', info_delete_loop dbs num fuel bms p rt afi safi (Some l) m = Ok (p', rt') /\ same_peer pr p' /\
    flush_done T rt M k (afi, safi) t
      (fun kk j => kle (nkey nd) kk /\ in_buckets m (Z.to_nat (table_per_peer_buckets bms)) j) n rt' t'.
Proof using Hpeer Hrw.
  set (nb := Z.to_nat (table_per_peer_buckets bms)).
  induction fuel as [|f IH]; intros rt M t p l nd Hs Hk Hr Hh Hp Hm Hn Hmax Hleak Hsz Hf; [lia |]. cbn [info_delete_loop]. fold nb.
  destruct (delete_buckets_steps T k afi safi l nb m rt M t p nd Hs Hk Hr Hh Hp Hm Hn Hmax)
    as (p1 & rt1 & t1 & nd1 & E1 & Hp1 & [F1 F2 F3 F4 F5 F6 F7 F8] & Hfl1). rewrite E1, bind_Ok. clear E1.
  assert (Hk1 : rib rt1 !! (afi, safi) = Some t1) by (rewrite F2; apply lookup_insert_eq).
  rewrite (get_rib_Ok rt1 afi safi t1 Hk1), bind_Ok.
  pose proof (so_tables _ _ _ _ _ F1 k t1 (lookup_insert_eq _ _ _)) as Ht1.
  assert (Hroom : lock_room t1).
  { apply (lock_room_leak bms (S n) t1 Ht1); [| lia]. intros x nx Hx. pose proof (F6 n Hleak x nx Hx) as H. unfold leak_node in *.
    rewrite (decide_False (P := None = Some x)) by done. case_decide; lia. }
  destruct (next_ok bms dbs base (peer_misc_db dbs base Hpeer) Hrw t1 l nd1 Ht1 F3 Hroom)
    as (t2 & o & E2 & Ho & Ht2 & Hr2 & Hw2 & Hl2 & Hz2).
  assert (Eb : p_base p1 = base) by (by destruct Hp1 as [c ->]). rewrite Eb, E2, bind_Ok. clear E2.
  assert (Ek : nkey nd1 = nkey nd) by (unfold nkey; by rewrite F4). rewrite Ek in *.
  set (rt2 := set_rib rt1 afi safi t2).
  assert (Hs2 : state_ok dbs num pr (with_rib rt2 (<[k := t2]> M)) T).
  { destruct k as [ka ks]. change (with_rib rt2 (<[(ka, ks) := t2]> M)) with (with_rib rt1 (<[(ka, ks) := t2]> M)).
    rewrite <- (insert_insert_eq M (ka, ks) t2 t1).
    apply (state_same_routes dbs num pr (with_rib rt1 (<[(ka, ks) := t1]> M)) T ka ks t1 t2 F1); [apply lookup_insert_eq | done | done]. }
  assert (Hr2' : rib rt2 = <[(afi, safi) := t2]> (rib rt)) by (cbn; by rewrite F2, insert_insert_eq).
  assert (Hf2 : fewer T rt rt2) by (destruct F8; by split).
  assert (Hkeys : forall kk j, get_bucket kk j (routes t1) <> [] -> exists y ny, t_heap t1 !! y = Some ny /\ nkey ny = kk).
  { intros kk j Hne. unfold get_bucket in Hne. destruct (routes t1 !! (kk, j)) as [b|] eqn:Eb'; [| done].
    apply (routes_lookup t1 kk j b (to_wf _ _ Ht1)) in Eb' as (_ & y & ny & Hy & Hky & _). by exists y, ny. }
  destruct o as [z|].
  - destruct (Hz2 z eq_refl) as (nz & Hhz & _). destruct Ho as (nz0 & Hz & Hlt & _ & Hmin).
    destruct (Hw2 z nz (proj1 Hhz)) as (nz1 & Hz1 & Ep). assert (nz1 = nz0) as -> by congruence.
    assert (Ekz : nkey nz = nkey nz0) by (unfold nkey; by rewrite Ep).
    assert (Hwt : within t1 t) by done. destruct (Hwt z nz0 Hz) as (nz2 & Hz2' & Ep2).
    assert (Ekz2 : nkey nz0 = nkey nz2) by (unfold nkey; by rewrite Ep2).
    assert (Hless : (size (after t2 (nkey nz)) < size (after t (nkey nd)))%nat).
    { apply (after_less t t2 (nkey nd) z nz2 nz); [by eapply within_trans | done | congruence | congruence]. }
    destruct (IH rt2 (<[k := t2]> M) t2 p1 z nz Hs2) as (p3 & rt3 & t3 & E3 & Hp3 & [G1 G2 G3 G4 G5]); try done.
    + apply lookup_insert_eq.
    + rewrite Hr2'. apply lookup_insert_eq.
    + by apply Hl2, F6.
    + unfold table_size in *. rewrite Hr2. lia.
    + lia.
    + exists p3, rt3, t3. split; [exact E3 |]. split; [done |]. rewrite insert_insert_eq in G1. split; try done.
      * by rewrite G2, Hr2', insert_insert_eq.
      * by eapply fewer_trans.
      * intros kk j. pose proof (Hfl1 kk j) as [A1 A2]. pose proof (G5 kk j) as [B1 B2]. rewrite Hr2 in B1, B2. rewrite Ekz in B1, B2.
        assert (Hnz : forall y, kle (nkey nz0) y -> klt (nkey nd) y = true) by (intros y; by apply klt_kle_trans).
        split.
        -- intros [Hle Hj]. destruct Hle as [<-|Hle].
           ++ rewrite B2; [by apply A1 |]. intros [H _]. apply Hnz in H. by rewrite klt_irrefl in H.
           ++ rewrite <- A2 by (intros [-> _]; by rewrite klt_irrefl in Hle).
              destruct (decide (get_bucket kk j (routes t1) = [])) as [E0|Hne].
              ** rewrite E0 in B1, B2 |- *. destruct (decide (kk = nkey nz0)) as [->|]; [apply B1; split; [by left | done] |].
                 destruct (klt (nkey nz0) kk) eqn:Eq; [apply B1; split; [by right | done] |].
                 rewrite B2; [done |]. intros [[?|?] _]; congruence.
              ** destruct (Hkeys kk j Hne) as (y & ny & Hy & Hky). subst kk. apply B1. split; [| done].
                 destruct (Hmin y ny Hy I Hle) as [->|H]; [left; congruence | by right].
        -- intros Hn'. rewrite B2; [apply A2 |]; intros [H Hj]; apply Hn'; (split; [| done]).
           ++ subst kk. by left.
           ++ right. by apply Hnz.
  - destruct f as [|f]; [lia |]. cbn [info_delete_loop]. exists p1, rt2, t2. split; [done |]. split; [done |].
    split; try done.
    + by apply Hl2, F6.
    + intros kk j. pose proof (Hfl1 kk j) as [A1 A2]. rewrite Hr2. cbn in Ho. split.
      * intros [[<-|Hle] Hj]; [by apply A1 |]. rewrite A2 by (intros [-> _]; by rewrite klt_irrefl in Hle).
        destruct (decide (get_bucket kk j (routes t1) = [])) as [E0|Hne].
        -- rewrite A2 in E0 by (intros [-> _]; by rewrite klt_irrefl in Hle). by rewrite E0.
        -- destruct (Hkeys kk j Hne) as (y & ny & Hy & <-). rewrite (Ho y ny Hy I) in Hle. done.
      * intros Hn'. apply A2. intros [-> Hj]. apply Hn'. split; [by left | done].
Qed.

(** [bgp_table_info_delete], the first bucket being [m]. *)
Lemma table_info_delete_steps (modulo_of : bgp_misc_structs -> peer -> option rd_t -> option Z -> Z -> Z) (has_modulo : bool)
    T k afi safi n rt M t p :
  let m := if has_modulo then modulo_of bms p None None (table_per_peer_buckets bms) else 0 in
  let nb := Z.to_nat (table_per_peer_buckets bms) in
  state_ok dbs num pr (with_rib rt M) T -> M !! k = Some t -> rib rt !! (afi, safi) = Some t -> same_peer pr p ->
  0 <= m -> m + Z.of_nat nb <= Z.of_nat (info_buckets bms) -> m + Z.of_nat nb < 2 ^ 32 ->
  leak_but n None t -> table_size t + Z.of_nat n < 2 ^ 32 - 3 ->
  exists p' rt' t', bgp_table_info_delete dbs num modulo_of has_modulo p rt afi safi = Ok (p', rt') /\ same_peer pr p' /\
    flush_done T rt M k (afi, safi) t (fun _ j => in_buckets m nb j) n rt' t'.
Proof using Hpeer Hrw.
  intros m nb Hs Hk Hr Hp Hm Hn Hmax Hleak Hsz. pose proof (so_tables _ _ _ _ _ Hs k t Hk) as Ht. pose proof (to_wf _ _ Ht) as Hwf.
  unfold bgp_table_info_delete. assert (Eb : p_base p = base) by (by destruct Hp as [c ->]). rewrite Eb, (peer_misc_db dbs base Hpeer).
  fold bms. change (deref (Some bms)) with (Ok bms). rewrite bind_Ok, (get_rib_Ok rt afi safi t Hr), bind_Ok. fold m.
  unfold bgp_table_top. destruct (t_top t) as [l|] eqn:Etop.
  - destruct (wt_top t Hwf l Etop) as (nd & Hl & Hroot).
    destruct (bgp_lock_node_Ok dbs base bms (peer_misc_db dbs base Hpeer) t l nd Hl) as (c & Ec & Hc). fold bms in Hrw. rewrite Hrw in Hc.
    assert (Hroom : lock_room t) by (apply (lock_room_leak bms n t Ht Hleak); lia).
    pose proof (Hroom l nd Hl) as Hlr. pose proof (to_held _ _ Ht l nd Hl) as Hlh. pose proof (refs_nonneg nd) as Hrn.
    rewrite u32_small in Hc by lia. rewrite Ec, !bind_Ok. fold (put t l (with_lock c nd)).
    set (t1 := put t l (with_lock c nd)).
    destruct (put_lock_ok bms t l nd c Ht Hl) as [Ht1 Hr1]; [lia |]. fold t1 in Ht1, Hr1.
    change (deref (Some t1)) with (Ok t1). rewrite bind_Ok. set (rt1 := set_rib rt afi safi t1).
    assert (Hl1 : t_heap t1 !! l = Some (with_lock c nd)) by (cbn; apply lookup_insert_eq).
    destruct (info_delete_loop_steps T k afi safi n m (S (size (t_heap t))) rt1 (<[k := t1]> M) t1 p l (with_lock c nd))
      as (p' & rt' & t' & E & Hp' & [G1 G2 G3 G4 G5]); try done.
    + destruct k as [ka ks]. change (with_rib rt1 (<[(ka, ks) := t1]> M)) with (set_rib (with_rib rt M) ka ks t1).
      by apply (state_same_routes dbs num pr (with_rib rt M) T ka ks t t1).
    + apply lookup_insert_eq.
    + cbn. apply lookup_insert_eq.
    + split; [done |]. change (refs nd < c < 2 ^ 32 - 1). lia.
    + apply (put_exact n None); [done | | by intros x Hx; split; [| congruence]].
      pose proof (Hleak l nd Hl) as H. unfold leak_node in *. rewrite decide_False in H by done. rewrite decide_True by done.
      change (0 <= c - refs nd - 1 <= Z.of_nat n). lia.
    + unfold table_size in *. rewrite Hr1. lia.
    + assert (Hsub : (size (after t1 (nkey (with_lock c nd))) < size (t_heap t))%nat); [| lia].
      rewrite <- !size_dom. apply subset_size. split.
      * intros y [ny Hy]%elem_of_dom. apply map_lookup_filter_Some in Hy as [Hy _]. cbn in Hy. apply elem_of_dom.
        destruct (decide (y = l)) as [->|]; [by eexists | rewrite lookup_insert_ne in Hy by done; by eexists].
      * intros H. assert (Hin : l ∈ dom (t_heap t)) by (apply elem_of_dom; by eexists).
        apply H, elem_of_dom in Hin as [ny Hy]. apply map_lookup_filter_Some in Hy as [Hy Hky]. rewrite Hl1 in Hy. injection Hy as <-.
        cbn [snd] in Hky. by rewrite klt_irrefl in Hky.
    + exists p', rt', t'. split; [exact E |]. split; [done |]. rewrite insert_insert_eq in G1. split; try done.
      * rewrite G2. cbn. by rewrite insert_insert_eq.
      * destruct G4 as [F1 F2 F3]. by split.
      * rewrite Hr1 in G5. intros kk j. pose proof (G5 kk j) as [A1 A2]. fold nb in A1, A2. split.
        -- intros Hj. destruct (decide (get_bucket kk j (routes t) = [])) as [E0|Hne].
           ++ rewrite E0. rewrite E0 in A1, A2.
              destruct (decide (kk = nkey (with_lock c nd))) as [E1|Hne1]; [apply A1; split; [by left | done] |].
              destruct (klt (nkey (with_lock c nd)) kk) eqn:E2; [apply A1; split; [by right | done] |].
              rewrite A2; [done |]. intros [[?|?] _]; congruence.
           ++ apply A1. split; [| done]. unfold get_bucket in Hne. destruct (routes t !! (kk, j)) as [b|] eqn:Eb'; [| done].
              apply (routes_lookup t kk j b Hwf) in Eb' as (_ & y & ny & Hy & <- & _).
              change (nkey (with_lock c nd)) with (nkey nd). apply klt_prefix. apply (top_prefix t Hwf y ny l nd); done.
        -- intros Hj. apply A2. by intros [_ ?].
  - rewrite bind_Ok. change (deref (Some t)) with (Ok t). rewrite bind_Ok. cbn [info_delete_loop].
    exists p, (set_rib rt afi safi t), t. split; [done |]. split; [done |]. split; try done.
    + rewrite (insert_id M k t Hk). exact Hs.
    + split; [| done | done]. intros l a H. exists (a_refcnt a), a. by rewrite with_refcnt_id.
    + assert (Eh : routes t = ∅).
      { apply map_eq. intros [kk j]. rewrite lookup_empty. apply eq_None_not_Some. intros [b Hb].
        apply (routes_lookup t kk j b Hwf) in Hb as (_ & y & ny & Hy & _). by rewrite (no_top_empty t Hwf Etop), lookup_empty in Hy. }
      intros kk j. rewrite Eh. done.
Qed.

End Flush.

(** ** Theorems *)

(** C29. When a peer goes, its routes leave a table: in the buckets the peer has,
    every prefix keeps the routes of the other peers in the order they had, and
    the other buckets are untouched; the references of the routes that went are
    given back, exactly one lock is left for each route that remains, and the
    loop ends without a fault, though it deletes nodes as it passes. *)
Theorem bgp_table_info_delete_spec {X} dbs num (route_info_modulo : bgp_misc_structs -> peer -> option rd_t -> option Z -> Z -> Z)
    has_modulo pr (rt : bgp_rt_structs X) T afi safi t :
  type (p_base pr) < FUNC_TYPE_MAX -> is_readonly (dbs (type (p_base pr))) = false ->
  let bms := dbs (type (p_base pr)) in
  let m := if has_modulo : bool then route_info_modulo bms pr None None (table_per_peer_buckets bms) else 0 in
  let nb := Z.to_nat (table_per_peer_buckets bms) in
  0 <= m -> m + Z.of_nat nb <= Z.of_nat (info_buckets bms) -> m + Z.of_nat nb < 2 ^ 32 ->
  state_ok dbs num pr rt T -> rib rt !! (afi, safi) = Some t -> exact_but None t -> table_size t < 2 ^ 32 - 3 ->
  exists p' rt' t', bgp_table_info_delete dbs num route_info_modulo has_modulo pr rt afi safi = Ok (p', rt') /\
    same_peer pr p' /\ state_ok dbs num pr rt' T /\ rib rt' = <[(afi, safi) := t']> (rib rt) /\ exact_but None t' /\
    flushed pr (fun _ j => in_buckets m nb j) (routes t) (routes t').
Proof.
  intros H1 H2 bms m nb Hm Hn Hmax Hs Hk Hex Hsz.
  assert (Hself : forall r : bgp_rt_structs X, with_rib r (rib r) = r) by (by intros []).
  destruct (table_info_delete_steps dbs num pr H1 H2 route_info_modulo has_modulo T (afi, safi) afi safi 0 rt (rib rt) t pr)
    as (p' & rt' & t' & E & Hp' & [G1 G2 G3 G4 G5]); try done.
  - by rewrite Hself.
  - apply same_peer_refl.
  - lia.
  - exists p', rt', t'. split_and!; try done. by rewrite <- G2, Hself in G1.
Qed.

(** A route that was announced goes with its peer. *)
Lemma bgp_table_info_delete_spec_witness :
  exists (rt : bgp_rt_structs Z) t p' rt' t', rib rt !! (AFI_IP, SAFI_UNICAST) = Some t /\
    length (get_bucket (key ex_net) 1 (routes t)) = 1%nat /\
    bgp_table_info_delete ex_rib_dbs false bgp_route_info_modulo_pathid true ex_rib_peer rt AFI_IP SAFI_UNICAST = Ok (p', rt') /\
    rib rt' !! (AFI_IP, SAFI_UNICAST) = Some t' /\ get_bucket (key ex_net) 1 (routes t') = [].
Proof.
  destruct (process_update_steps ex_rib_dbs 0 false ex_rib_peer eq_refl eq_refl false bgp_route_info_modulo_pathid (fun x => x) None None 0 0
    AFI_IP SAFI_UNICAST 0 extra0 ltac:(vm_compute; lia) ex_rib_rt T0 ex_net (bgp_table_init AFI_IP SAFI_UNICAST) 1%positive ex_attr ex_rib_ok
    ex_rib_table ltac:(by intros l nd; cbn; rewrite lookup_empty) ex_rib_count ltac:(by apply wf_prefixb_spec)
    ltac:(rewrite ex_rib_attrs; apply lookup_singleton_eq) eq_refl) as (rt & t & f & fa & _ & Hs & Er & Hr & _ & _ & _ & Hex & _).
  assert (Hk : rib rt !! (AFI_IP, SAFI_UNICAST) = Some t) by (rewrite Er; apply lookup_insert_eq).
  assert (Hb : routes t = {[(key ex_net, 1%nat) := [mk_info 7%positive (Some f) None 0]]}) by exact Hr.
  destruct (bgp_table_info_delete_spec ex_rib_dbs false bgp_route_info_modulo_pathid true ex_rib_peer rt T0 AFI_IP SAFI_UNICAST t)
    as (p' & rt' & t' & E & _ & _ & Er' & _ & Hfl).
  - reflexivity.
  - reflexivity.
  - vm_compute. discriminate.
  - vm_compute. discriminate.
  - vm_compute. reflexivity.
  - exact Hs.
  - exact Hk.
  - apply Hex. by intros l nd; cbn; rewrite lookup_empty.
  - unfold table_size. rewrite Hb, <- insert_empty, msum_insert, msum_empty by apply lookup_empty. vm_compute. reflexivity.
  - assert (Eg : get_bucket (key ex_net) 1 (routes t) = [mk_info 7%positive (Some f) None 0]).
    { unfold get_bucket. rewrite Hb, lookup_singleton_eq. reflexivity. }
    exists rt, t, p', rt', t'. split_and!; [exact Hk | by rewrite Eg | exact E | rewrite Er'; apply lookup_insert_eq |].
    rewrite (proj1 (Hfl (key ex_net) 1%nat)) by (vm_compute; split; [discriminate | reflexivity]). rewrite Eg. reflexivity.
Defined.

End BgpFlushFacts.
