(* ===== verification/BgpNlri.v ===== *)
(** * src/bgp/bgp_msg.c: network layer reachability information

    [bgp_nlri_parse] walks the prefixes of an UPDATE and hands each one to
    [bgp_process_update] or [bgp_process_withdraw].  [buf] is the buffer a
    message was received in, so that reading past the end of the NLRI reads
    what follows it there.  The walk is written over what is done with a
    prefix; [BgpUpdate] puts the two operations of [BgpRib] in.  Black-holing
    needs ZeroMQ and is left out. *)

From S2P Require Import Prelude CBuf Bgp BgpPrefix BgpAttr BgpRib.

Module BgpNlri.
Import CBuf Bgp BgpPrefix BgpAttr BgpRib.

(** [nlri] is an offset in the buffer. *)
Record bgp_nlri := mk_nlri {
  n_afi : Z;
  n_safi : Z;
  n_nlri : Z;
  n_length : Z
}.

Definition nlri0 : bgp_nlri := mk_nlri 0 0 0 0.

Definition with_path_id (v : Z) (e : bgp_attr_extra) : bgp_attr_extra :=
  mk_extra (e_bitmap e) (e_rd e) (e_label e) v (e_aigp e) (e_psid_li e) (e_otc e) (e_ls e).
Definition with_label (v : list Z) (e : bgp_attr_extra) : bgp_attr_extra :=
  mk_extra (e_bitmap e) (e_rd e) v (e_path_id e) (e_aigp e) (e_psid_li e) (e_otc e) (e_ls e).
Definition with_rd (v : rd_t) (e : bgp_attr_extra) : bgp_attr_extra :=
  mk_extra (e_bitmap e) v (e_label e) (e_path_id e) (e_aigp e) (e_psid_li e) (e_otc e) (e_ls e).

(** The bottom-of-stack bit of an MPLS label. *)
Definition check_bosbit (buf : list Z) (label : Z) : res bool :=
  b ← u8_at buf (label + 2); Ok (Z.testbit b 0).

Section Nlri.
Context (buf : list Z).
(** [info->afi], [info->safi], [type] and whether the peer sends path
    identifiers for the family. *)
Context (afi safi type : Z) (path_ids : bool).

(** The labels before the last one, in octets. *)
Fixpoint label_loop (fuel : nat) (pnt labels_size psize : Z) : res Z :=
  match fuel with
  | O => Err OutOfFuel
  | S f =>
      if labels_size + 3 <=? psize then
        b ← check_bosbit buf (pnt + labels_size);
        if b : bool then Ok labels_size else label_loop f pnt (labels_size + 3) psize
      else Ok labels_size
  end.

(** The size of the label stack and its last label; [None] when no label ends
    it. *)
Definition fetch_labels (pnt psize : Z) : res (option (Z * list Z)) :=
  labels_size ← (if type =? BGP_NLRI_UPDATE then label_loop (S (Z.to_nat psize)) pnt 0 psize else Ok 0);
  if labels_size + 3 <=? psize then
    label ← read_bytes buf (pnt + labels_size) 3;
    Ok (Some (labels_size + 3, label))
  else Ok None.

(** The route distinguisher, over the one there is: [false] when its type is
    unknown. *)
Definition fetch_rd (pnt : Z) (old : rd_t) : res (bool * rd_t) :=
  type ← be16_at buf pnt;
  if type =? RD_TYPE_AS then
    as_ ← be16_at buf (pnt + 2);
    val ← be32_at buf (pnt + 4);
    Ok (true, bgp_rd_origin_set (mk_rd type (rda as_ val)) RD_ORIGIN_BGP)
  else if type =? RD_TYPE_IP then
    ip ← read_bytes buf (pnt + 2) 4;
    val ← be16_at buf (pnt + 6);
    Ok (true, bgp_rd_origin_set (mk_rd type (rdi ip val)) RD_ORIGIN_BGP)
  else if type =? RD_TYPE_AS4 then
    as_ ← be32_at buf (pnt + 2);
    val ← be16_at buf (pnt + 6);
    Ok (true, bgp_rd_origin_set (mk_rd type (rda4 as_ val)) RD_ORIGIN_BGP)
  else Ok (false, mk_rd type (rd_body old)).

(** [memcpy (&p.u.prefix, pnt, n)] into a zeroed structure whose length is
    [plen]. *)
Definition fetch_prefix (pnt n plen : Z) : res prefix :=
  bytes ← read_bytes buf pnt n;
  if n <=? 16 then Ok (mk_prefix (bgp_afi2family afi) (u8 plen) (bytes ++ replicate (Z.to_nat (16 - n)) 0))
  else Err OutOfBounds.

(** What the body of the loop makes of one entry, whose prefix length has been
    read: [exit_fail_lane], [continue], or a prefix of [psize] octets. *)
Inductive nlri_entry :=
  | NlriFail (attr_extra : bgp_attr_extra)
  | NlriSkip (attr_extra : bgp_attr_extra)
  | NlriItem (psize : Z) (p : prefix) (attr_extra : bgp_attr_extra).

Definition too_long (max4 max6 plen : Z) : bool :=
  ((afi =? AFI_IP) && (max4 <? plen)) || ((afi =? AFI_IP6) && (max6 <? plen)).

Definition nlri_body (pnt end_ plen : Z) (attr_extra : bgp_attr_extra) : res nlri_entry :=
  let psize := (plen + 7) / 8 in
  if safi =? SAFI_UNICAST then
    if too_long 32 128 plen then Ok (NlriFail attr_extra)
    else if end_ <? psize then Ok (NlriFail attr_extra)
    else
      p ← fetch_prefix pnt psize plen;
      Ok (NlriItem psize p attr_extra)
  else if safi =? SAFI_MPLS_LABEL then
    if too_long 56 152 plen then Ok (NlriFail attr_extra)
    else if (end_ <? psize) || (psize <? 3) then Ok (NlriFail attr_extra)
    else
      labels ← fetch_labels pnt psize;
      match labels with
      | None => Ok (NlriFail attr_extra)
      | Some (labels_size, label) =>
          p ← fetch_prefix (pnt + labels_size) (psize - labels_size) (plen - 8 * labels_size);
          Ok (NlriItem psize p (with_label label attr_extra))
      end
  else if safi =? SAFI_MPLS_VPN then
    if too_long 120 216 plen then Ok (NlriFail attr_extra)
    else if (end_ <? psize) || (psize <? 3) then Ok (NlriFail attr_extra)
    else
      labels ← fetch_labels pnt psize;
      match labels with
      | None => Ok (NlriFail attr_extra)
      | Some (labels_size, label) =>
          let attr_extra := with_label label attr_extra in
          if psize <? labels_size + 8 then Ok (NlriFail attr_extra)
          else
            '(known, rd) ← fetch_rd (pnt + labels_size) (e_rd attr_extra);
            let attr_extra := with_rd rd attr_extra in
            if negb known then Ok (NlriFail attr_extra)
            else
              p ← fetch_prefix (pnt + labels_size + 8) (psize - (labels_size + 8)) (plen - 8 * (labels_size + 8));
              Ok (NlriItem psize p attr_extra)
      end
  else Ok (NlriSkip attr_extra).

Definition has_path_id : bool :=
  ((afi =? AFI_IP) || (afi =? AFI_IP6)) && ((safi =? SAFI_UNICAST) || (safi =? SAFI_MULTICAST)) && path_ids.

(** The path identifier, the length of the prefix and the rest: where the
    entry ends, and what it is.  [end_] is the octets left as the code counts
    them. *)
Definition nlri_entry_at (pnt end_ : Z) (attr_extra : bgp_attr_extra) : res (Z * nlri_entry) :=
  '(pnt, attr_extra) ← (if has_path_id then
                          id ← be32_at buf pnt; Ok (pnt + 4, with_path_id id attr_extra)
                        else Ok (pnt, attr_extra));
  plen ← u8_at buf pnt;
  e ← nlri_body (pnt + 1) (end_ - 1) plen attr_extra;
  Ok (pnt + 1, e).

(** The walk: [process] is what is done with a prefix, and [idx] counts the
    entries.  The count of prefixes stays -1 once it is.  [psize] is 0 in a
    family that is skipped, where it is never set. *)
Section Walk.
Context {St : Type} (process : St -> prefix -> bgp_attr_extra -> Z -> res St).

Fixpoint nlri_loop (fuel : nat) (st : St) (attr_extra : bgp_attr_extra) (nlri_count pnt lim end_ idx : Z)
    : res (Z * St * bgp_attr_extra * Z) :=
  match fuel with
  | O => Err OutOfFuel
  | S f =>
      if pnt <? lim then
        '(pnt, e) ← nlri_entry_at pnt end_ attr_extra;
        match e with
        | NlriFail attr_extra => Ok (ERR, st, attr_extra, ERR)
        | NlriSkip attr_extra => nlri_loop f st attr_extra ERR pnt lim (end_ - 1) (idx + 1)
        | NlriItem psize p attr_extra =>
            st ← process st p attr_extra idx;
            nlri_loop f st attr_extra (if 0 <=? nlri_count then nlri_count + 1 else nlri_count)
              (pnt + psize) lim (end_ - 1) (idx + 1)
        end
      else Ok (SUCCESS, st, attr_extra, nlri_count)
  end.

(** [pnt] grows with every entry, so that the length is enough fuel. *)
Definition nlri_walk (st : St) (attr_extra : bgp_attr_extra) (nlri_count nlri length : Z)
    : res (Z * St * bgp_attr_extra * Z) :=
  nlri_loop (S (Z.to_nat length)) st attr_extra nlri_count nlri (nlri + length) length 0.

End Walk.
End Nlri.

End BgpNlri.
