(* ===== verification/BgpNlriFacts.v ===== *)
(** * Network layer reachability information: what is read is what was sent

    The wire format of the three families, the walk as an inverse of it, and
    how far the walk can read past its limit. *)

From S2P Require Import Prelude CBuf Bgp BgpPrefix BgpAttr BgpRib BgpNlri.

Module BgpNlriFacts.
Import CBuf Bgp BgpPrefix BgpAttr BgpRib BgpNlri.

(** ** The wire format *)

(** An entry: the labels above the last one, the last one, the
    distinguisher and the prefix. *)
Record item := mk_item {
  it_path_id : Z;
  it_labels : list (list Z);
  it_label : list Z;
  it_rd : rd_t;
  it_prefix : prefix
}.

(** A distinguisher on the wire; the one in memory has the origin in its type. *)
Definition wire_rd (rd : rd_t) : list Z :=
  let w := rd_body rd in
  let type := bgp_rd_type_get (rd_type rd) in
  let hton16 v := [v / 256; v mod 256] in
  hton16 type ++
  (if type =? RD_TYPE_AS then hton16 (le_u16 w 0) ++ htonl (le_u32 w 2)
   else if type =? RD_TYPE_IP then take 4 w ++ hton16 (le_u16 w 4)
   else htonl (le_u32 w 0) ++ hton16 (le_u16 w 4)).

Definition rd_ok (rd : rd_t) : Prop :=
  (exists t, (t = RD_TYPE_AS \/ t = RD_TYPE_IP \/ t = RD_TYPE_AS4) /\ rd_type rd = Z.lor RD_ORIGIN_BGP t) /\
  length (rd_body rd) = 6%nat /\ bytes_ok (rd_body rd).

Section Wire.
Context (afi safi type : Z) (path_ids : bool).

Definition labelled : bool := (safi =? SAFI_MPLS_LABEL) || (safi =? SAFI_MPLS_VPN).

(** What stands before the prefix, after the length. *)
Definition head (i : item) : list Z :=
  (if labelled then concat (it_labels i) ++ it_label i else []) ++
  (if safi =? SAFI_MPLS_VPN then wire_rd (it_rd i) else []).

Definition plen_octets (plen : Z) : Z := (plen + 7) / 8.

Definition encode_item (i : item) : list Z :=
  (if has_path_id afi safi path_ids then htonl (it_path_id i) else []) ++
  [8 * strlen (head i) + prefixlen (it_prefix i)] ++
  head i ++ take (Z.to_nat (plen_octets (prefixlen (it_prefix i)))) (addr (it_prefix i)).

(** The longest entry the code takes, in bits. *)
Definition max_bits : Z :=
  let m := if afi =? AFI_IP then 32 else 128 in
  if safi =? SAFI_UNICAST then m else if safi =? SAFI_MPLS_LABEL then m + 24 else m + 88.

Definition bos (label : list Z) : bool := Z.testbit (byte_at label 2) 0.
Definition label_ok (label : list Z) : Prop := length label = 3%nat.

Record item_ok (i : item) : Prop := {
  io_id : is_u32 (it_path_id i);
  io_family : family (it_prefix i) = bgp_afi2family afi;
  io_plen : 0 <= prefixlen (it_prefix i) <= if afi =? AFI_IP then 32 else 128;
  io_addr : length (addr (it_prefix i)) = 16%nat;
  (** Nothing in the octets that are not sent. *)
  io_pad : drop (Z.to_nat (plen_octets (prefixlen (it_prefix i)))) (addr (it_prefix i)) =
           replicate (Z.to_nat (16 - plen_octets (prefixlen (it_prefix i)))) 0;
  io_label : label_ok (it_label i);
  (** A withdrawal has one label, which need not be marked as the last. *)
  io_labels : if type =? BGP_NLRI_UPDATE
              then Forall (fun l => label_ok l /\ bos l = false) (it_labels i) /\ bos (it_label i) = true
              else it_labels i = [];
  io_rd : rd_ok (it_rd i);
  io_fits : 8 * strlen (head i) + prefixlen (it_prefix i) <= max_bits
}.

(** An entry whose length, in bits and with what stands before the prefix, has
    room in its octet; and one that is not too long for the code. *)
Record item_wf (i : item) : Prop := {
  iw_id : is_u32 (it_path_id i);
  iw_family : family (it_prefix i) = bgp_afi2family afi;
  iw_plen : 0 <= prefixlen (it_prefix i) <= if afi =? AFI_IP then 32 else 128;
  iw_addr : length (addr (it_prefix i)) = 16%nat;
  iw_pad : drop (Z.to_nat (plen_octets (prefixlen (it_prefix i)))) (addr (it_prefix i)) =
           replicate (Z.to_nat (16 - plen_octets (prefixlen (it_prefix i)))) 0;
  iw_label : label_ok (it_label i);
  iw_labels : if type =? BGP_NLRI_UPDATE
              then Forall (fun l => label_ok l /\ bos l = false) (it_labels i) /\ bos (it_label i) = true
              else it_labels i = [];
  iw_rd : rd_ok (it_rd i);
  iw_octet : 8 * strlen (head i) + prefixlen (it_prefix i) <= 255
}.

Definition fits (i : item) : bool := 8 * strlen (head i) + prefixlen (it_prefix i) <=? max_bits.

Lemma item_wf_ok i : item_wf i -> fits i = true -> item_ok i.
Proof. intros [] H%Z.leb_le. by split. Qed.

(** Entries up to the first that is too long. *)
Fixpoint accepted (l : list item) : list item :=
  match l with [] => [] | i :: r => if fits i then i :: accepted r else [] end.

(** The extra attributes after an entry. *)
Definition item_extra (e : bgp_attr_extra) (i : item) : bgp_attr_extra :=
  let e := if has_path_id afi safi path_ids then with_path_id (it_path_id i) e else e in
  let e := if labelled then with_label (it_label i) e else e in
  if safi =? SAFI_MPLS_VPN then with_rd (it_rd i) e else e.

(** Every entry processed, in order. *)
Fixpoint process_items {St} (process : St -> prefix -> bgp_attr_extra -> Z -> res St) (st : St)
    (e : bgp_attr_extra) (idx : Z) (l : list item) : res (St * bgp_attr_extra) :=
  match l with
  | [] => Ok (st, e)
  | i :: r =>
      st ← process st (it_prefix i) (item_extra e i) idx;
      process_items process st (item_extra e i) (idx + 1) r
  end.

End Wire.

(** ** Reading what was written *)

Lemma strlen_concat3 ls : Forall label_ok ls -> strlen (concat ls) = 3 * Z.of_nat (length ls).
Proof.
  induction 1 as [|l ls Hl _ IH]; cbn [concat]; [done |]. unfold label_ok in Hl.
  rewrite strlen_app, IH. unfold strlen. rewrite Hl. cbn [length]. lia.
Qed.

Lemma bosbit_read buf off l r : label_ok l -> at_off buf off (l ++ r) -> check_bosbit buf off = Ok (bos l).
Proof.
  intros Hl H. destruct l as [|a [|b [|c [|]]]]; try done.
  unfold check_bosbit. rewrite (u8_read buf (off + 2) c r); [done |].
  apply (at_off_app_r _ _ [a; b] (c :: r)) in H. done.
Qed.

Lemma label_loop_read buf pnt psize ls l r fuel done_ :
  Forall (fun l => label_ok l /\ bos l = false) ls -> label_ok l -> bos l = true ->
  at_off buf (pnt + done_) (concat ls ++ l ++ r) ->
  done_ + 3 * Z.of_nat (length ls) + 3 <= psize -> (length ls < fuel)%nat ->
  label_loop buf fuel pnt done_ psize = Ok (done_ + 3 * Z.of_nat (length ls)).
Proof.
  intros Hls Hl Hb. revert fuel done_. induction Hls as [|x ls [Hx Hxb] Hls IH]; intros fuel done_ H Hp Hf;
    (destruct fuel as [|f]; [cbn in Hf; lia |]); cbn [label_loop length] in *.
  - rewrite (proj2 (Z.leb_le _ _)) by lia. rewrite (bosbit_read _ _ l r Hl H). res_step. rewrite Hb. f_equal. lia.
  - rewrite (proj2 (Z.leb_le _ _)) by lia. cbn [concat] in H. rewrite <- app_assoc in H.
    rewrite (bosbit_read _ _ x _ Hx H). res_step. rewrite Hxb.
    apply at_off_app_r in H. unfold strlen in H. rewrite Hx in H. rewrite IH; [f_equal; lia | | lia | lia].
    by replace (pnt + (done_ + 3)) with (pnt + done_ + Z.of_nat 3) by lia.
Qed.

Section Read.
Context (buf : list Z) (afi safi type : Z) (path_ids : bool).
Context (Hafi : afi = AFI_IP \/ afi = AFI_IP6).
Context (Hsafi : safi = SAFI_UNICAST \/ safi = SAFI_MPLS_LABEL \/ safi = SAFI_MPLS_VPN).

Abbreviation item_ok := (item_ok afi safi type).
Abbreviation head := (head safi).
Abbreviation encode_item := (encode_item afi safi path_ids).
Abbreviation item_extra := (item_extra afi safi path_ids).

Lemma label_stack_length i : item_ok i ->
  strlen (concat (it_labels i) ++ it_label i) = 3 * Z.of_nat (length (it_labels i)) + 3.
Proof.
  intros Hi. pose proof (io_label _ _ _ _ Hi) as Hl. pose proof (io_labels _ _ _ _ Hi) as Hls.
  assert (Forall label_ok (it_labels i)) as Hf.
  { destruct (type =? BGP_NLRI_UPDATE).
    - eapply Forall_impl; [exact (proj1 Hls) |]. by intros x [? _].
    - rewrite Hls. constructor. }
  rewrite strlen_app, strlen_concat3 by done. unfold strlen, label_ok in *. lia.
Qed.

Lemma fetch_labels_read i pnt psize r : item_ok i ->
  at_off buf pnt ((concat (it_labels i) ++ it_label i) ++ r) ->
  strlen (concat (it_labels i) ++ it_label i) <= psize ->
  fetch_labels buf type pnt psize = Ok (Some (strlen (concat (it_labels i) ++ it_label i), it_label i)).
Proof.
  intros Hi H Hp. rewrite (label_stack_length i Hi) in *. pose proof (io_label _ _ _ _ Hi) as Hl.
  pose proof (io_labels _ _ _ _ Hi) as Hls. unfold fetch_labels. rewrite <- app_assoc in H.
  set (n := 3 * Z.of_nat (length (it_labels i))) in *.
  assert (E : (if type =? BGP_NLRI_UPDATE then label_loop buf (S (Z.to_nat psize)) pnt 0 psize else Ok 0) = Ok n).
  { destruct (type =? BGP_NLRI_UPDATE).
    - destruct Hls as [Hls Hb]. rewrite (label_loop_read buf pnt psize (it_labels i) (it_label i) r);
        [f_equal; lia | done.. | | lia | lia]. by rewrite Z.add_0_r.
    - subst n. by rewrite Hls. }
  rewrite E. res_step. rewrite (proj2 (Z.leb_le _ _)) by lia.
  assert (Hn : strlen (concat (it_labels i)) = n).
  { pose proof (label_stack_length i Hi) as Hs. rewrite strlen_app in Hs. unfold strlen, label_ok in *. lia. }
  apply at_off_app_r, at_off_app_l in H. rewrite Hn in H. rewrite (read_at _ _ 3 _ H); [done |].
  unfold strlen, label_ok in *. lia.
Qed.

Lemma plen_octets_shift h plen : 0 <= h -> 0 <= plen -> (8 * h + plen + 7) / 8 = h + plen_octets plen.
Proof. intros. unfold plen_octets. rewrite <- Z.add_assoc, (Z.mul_comm 8), Z.div_add_l; lia. Qed.

Lemma plen_octets_range plen m : 0 <= plen <= m -> 0 <= plen_octets plen <= plen_octets m.
Proof. intros. unfold plen_octets. split; [apply Z.div_pos; lia |]. apply Z.div_le_mono; lia. Qed.

Lemma io_octets i : item_ok i -> 0 <= plen_octets (prefixlen (it_prefix i)) <= 16.
Proof.
  intros Hi. pose proof (io_plen _ _ _ _ Hi) as Hp.
  apply (plen_octets_range _ 128). destruct (afi =? AFI_IP); lia.
Qed.

Lemma fetch_prefix_read i pnt n plen r : item_ok i ->
  at_off buf pnt (take (Z.to_nat (plen_octets (prefixlen (it_prefix i)))) (addr (it_prefix i)) ++ r) ->
  n = plen_octets (prefixlen (it_prefix i)) -> plen = prefixlen (it_prefix i) ->
  fetch_prefix buf afi pnt n plen = Ok (it_prefix i).
Proof.
  intros Hi H%at_off_app_l -> ->. pose proof (io_octets i Hi) as Ho. unfold fetch_prefix.
  rewrite (read_at _ _ _ _ H).
  2: { unfold strlen. rewrite length_take, (io_addr _ _ _ _ Hi). lia. }
  res_step. rewrite (proj2 (Z.leb_le _ _)) by lia. f_equal.
  rewrite <- (io_pad _ _ _ _ Hi), <- (io_family _ _ _ _ Hi), take_drop.
  pose proof (io_plen _ _ _ _ Hi). unfold u8. rewrite wrap_small; [by destruct (it_prefix i) |].
  unfold in_u. destruct (afi =? AFI_IP); lia.
Qed.

End Read.

(** ** Route distinguishers *)

Lemma six_octets (w : list Z) : length w = 6%nat -> bytes_ok w ->
  exists a b c d e f, w = [a; b; c; d; e; f] /\ is_u8 a /\ is_u8 b /\ is_u8 c /\ is_u8 d /\ is_u8 e /\ is_u8 f.
Proof.
  intros Hl H. destruct w as [|a [|b [|c [|d [|e [|f [|]]]]]]]; try done. unfold bytes_ok in H.
  repeat match goal with H : Forall _ (_ :: _) |- _ => apply Forall_cons_1 in H as [? H] end.
  by exists a, b, c, d, e, f.
Qed.

Lemma le16_bytes a b : is_u8 a -> is_u8 b -> le16 (a + 256 * b) = [a; b].
Proof. unfold in_u, le16. intros. repeat f_equal; Z.div_mod_to_equations; lia. Qed.

Lemma le32_bytes a b c d : is_u8 a -> is_u8 b -> is_u8 c -> is_u8 d ->
  le32 (a + 256 * b + 65536 * (c + 256 * d)) = [a; b; c; d].
Proof. unfold in_u, le32. intros. repeat f_equal; Z.div_mod_to_equations; lia. Qed.

Lemma le_u16_range w i : bytes_ok w -> is_u16 (le_u16 w i).
Proof.
  intros Hb. unfold le_u16. pose proof (byte_at_range w i Hb). pose proof (byte_at_range w (i + 1) Hb).
  unfold in_u in *. lia.
Qed.

Lemma le_u32_range w i : bytes_ok w -> is_u32 (le_u32 w i).
Proof.
  intros Hb. unfold le_u32. pose proof (le_u16_range w i Hb). pose proof (le_u16_range w (i + 2) Hb).
  unfold in_u in *. lia.
Qed.

(** The three ways of writing the six octets. *)
Lemma rd_body_forms w : length w = 6%nat -> bytes_ok w ->
  rda (le_u16 w 0) (le_u32 w 2) = w /\ rdi (take 4 w) (le_u16 w 4) = w /\ rda4 (le_u32 w 0) (le_u16 w 4) = w.
Proof.
  intros Hl Hb. destruct (six_octets _ Hl Hb) as (a & b & c & d & e & f & -> & ? & ? & ? & ? & ? & ?).
  unfold rda, rdi, rda4.
  change (le_u16 [a; b; c; d; e; f] 0) with (a + 256 * b).
  change (le_u16 [a; b; c; d; e; f] 4) with (e + 256 * f).
  change (le_u32 [a; b; c; d; e; f] 0) with (a + 256 * b + 65536 * (c + 256 * d)).
  change (le_u32 [a; b; c; d; e; f] 2) with (c + 256 * d + 65536 * (e + 256 * f)).
  rewrite !le16_bytes, !le32_bytes by done. done.
Qed.

Lemma fetch_rd_read buf pnt rd old r : rd_ok rd -> at_off buf pnt (wire_rd rd ++ r) ->
  fetch_rd buf pnt old = Ok (true, rd).
Proof.
  intros ((t & Ht & Et) & Hl & Hb) H. destruct rd as [ty w]; cbn [rd_type rd_body] in *. subst ty.
  destruct (rd_body_forms w Hl Hb) as (E1 & E2 & E3).
  unfold wire_rd in H. cbn [rd_type rd_body] in H.
  assert (Eg : bgp_rd_type_get (Z.lor RD_ORIGIN_BGP t) = t) by (destruct Ht as [-> | [-> | ->]]; done).
  rewrite Eg, <- app_assoc in H. unfold fetch_rd.
  rewrite (be16_read buf pnt t _ ltac:(unfold in_u; destruct Ht as [-> | [-> | ->]]; done) H). res_step.
  apply at_off_app_r in H. change (strlen [t / 256; t mod 256]) with 2 in H.
  pose proof (le_u16_range w 0 Hb) as R0. pose proof (le_u16_range w 4 Hb) as R4.
  pose proof (le_u32_range w 0 Hb) as S0. pose proof (le_u32_range w 2 Hb) as S2.
  destruct Ht as [-> | [-> | ->]]; cbn [Z.eqb RD_TYPE_AS RD_TYPE_IP RD_TYPE_AS4 Pos.eqb] in *; rewrite <- app_assoc in H.
  - rewrite (be16_read buf _ _ _ R0 H). res_step. apply at_off_app_r in H.
    change (strlen _) with 2 in H. replace (pnt + 2 + 2) with (pnt + 4) in H by lia.
    rewrite (be32_read buf _ _ r S2 H). res_step. unfold bgp_rd_origin_set. cbn [rd_type rd_body]. by rewrite E1.
  - pose proof H as H'. apply at_off_app_r in H'.
    assert (Et : strlen (take 4 w) = 4) by (unfold strlen; rewrite length_take, Hl; done).
    rewrite (read_at buf _ 4 _ (at_off_app_l _ _ _ _ H) (eq_sym Et)). res_step.
    rewrite Et in H'. replace (pnt + 2 + 4) with (pnt + 6) in H' by lia.
    rewrite (be16_read buf _ _ r R4 H'). res_step. unfold bgp_rd_origin_set. cbn [rd_type rd_body]. by rewrite E2.
  - rewrite (be32_read buf _ _ _ S0 H). res_step. apply at_off_app_r in H.
    change (strlen _) with 4 in H. replace (pnt + 2 + 4) with (pnt + 6) in H by lia.
    rewrite (be16_read buf _ _ r R4 H). res_step. unfold bgp_rd_origin_set. cbn [rd_type rd_body]. by rewrite E3.
Qed.

Lemma wire_rd_length rd : rd_ok rd -> strlen (wire_rd rd) = 8.
Proof.
  intros ((t & Ht & Et) & Hl & Hb). unfold wire_rd. rewrite Et.
  assert (Eg : bgp_rd_type_get (Z.lor RD_ORIGIN_BGP t) = t) by (destruct Ht as [-> | [-> | ->]]; done).
  rewrite Eg. destruct Ht as [-> | [-> | ->]]; try done.
  cbn [Z.eqb RD_TYPE_AS RD_TYPE_IP Pos.eqb]. unfold strlen. rewrite !length_app, length_take, Hl. done.
Qed.

(** ** One entry *)

Section Entry.
Context (buf : list Z) (afi safi type : Z) (path_ids : bool).
Context (Hafi : afi = AFI_IP \/ afi = AFI_IP6).
Context (Hsafi : safi = SAFI_UNICAST \/ safi = SAFI_MPLS_LABEL \/ safi = SAFI_MPLS_VPN).

Lemma too_long_fits m plen : max_bits afi safi = (if afi =? AFI_IP then 32 else 128) + m -> plen <= max_bits afi safi ->
  too_long afi (32 + m) (128 + m) plen = false.
Proof using Hafi.
  intros E H. unfold too_long. destruct Hafi as [-> | ->]; cbn [Z.eqb AFI_IP AFI_IP6 Pos.eqb andb orb] in *;
    rewrite E in H; rewrite (proj2 (Z.ltb_ge _ _)) by lia; done.
Qed.

Lemma nlri_body_read i pnt end_ e r :
  item_ok afi safi type i ->
  at_off buf pnt (head safi i ++ take (Z.to_nat (plen_octets (prefixlen (it_prefix i)))) (addr (it_prefix i)) ++ r) ->
  let bits := 8 * strlen (head safi i) + prefixlen (it_prefix i) in
  strlen (head safi i) + plen_octets (prefixlen (it_prefix i)) <= end_ ->
  nlri_body buf afi safi type pnt end_ bits e =
    Ok (NlriItem (strlen (head safi i) + plen_octets (prefixlen (it_prefix i))) (it_prefix i)
          (let e := if labelled safi then with_label (it_label i) e else e in
           if safi =? SAFI_MPLS_VPN then with_rd (it_rd i) e else e)).
Proof using Hafi Hsafi.
  intros Hi H bits He. subst bits. pose proof (io_plen _ _ _ _ Hi) as Hp. pose proof (io_fits _ _ _ _ Hi) as Hf.
  pose proof (io_octets afi safi type i Hi) as Ho.
  set (k := plen_octets (prefixlen (it_prefix i))) in *. set (h := strlen (head safi i)) in *.
  assert (Hh : 0 <= h) by apply strlen_nonneg.
  unfold nlri_body. rewrite plen_octets_shift by lia. fold k.
  pose proof (label_stack_length afi safi type i Hi) as Hs. set (stack := concat (it_labels i) ++ it_label i) in *.
  destruct Hsafi as [Es | [Es | Es]].
  - assert (Eh : head safi i = []) by (rewrite Es; done). rewrite Es. cbn [Z.eqb SAFI_UNICAST Pos.eqb].
    rewrite (too_long_fits 0); [| rewrite Es; unfold max_bits; cbn [Z.eqb SAFI_UNICAST SAFI_MPLS_LABEL SAFI_MPLS_VPN Pos.eqb]; lia | done].
    rewrite (proj2 (Z.ltb_ge _ _)) by lia. rewrite Eh in H. subst h. rewrite Eh in *. change (strlen []) with 0.
    rewrite (fetch_prefix_read buf afi safi type i pnt _ _ r); done.
  - assert (Eh : head safi i = stack) by (rewrite Es; apply app_nil_r). rewrite Es. cbn [Z.eqb SAFI_UNICAST SAFI_MPLS_LABEL Pos.eqb].
    subst h. rewrite Eh in *.
    rewrite (too_long_fits 24); [| rewrite Es; unfold max_bits; cbn [Z.eqb SAFI_UNICAST SAFI_MPLS_LABEL SAFI_MPLS_VPN Pos.eqb]; lia | done].
    rewrite (proj2 (Z.ltb_ge _ _)), (proj2 (Z.ltb_ge (_ + k) 3)) by lia. cbn [orb].
    rewrite (fetch_labels_read buf afi safi type i pnt _ _ Hi H) by (fold stack; lia). res_step.
    apply at_off_app_r in H. fold stack.
    rewrite (fetch_prefix_read buf afi safi type i _ _ _ r Hi H); [done | lia..].
  - assert (Eh : head safi i = stack ++ wire_rd (it_rd i)) by (rewrite Es; done). rewrite Es.
    cbn [Z.eqb SAFI_UNICAST SAFI_MPLS_LABEL SAFI_MPLS_VPN Pos.eqb].
    pose proof (wire_rd_length _ (io_rd _ _ _ _ Hi)) as Hr.
    assert (Eh' : h = strlen stack + 8) by (subst h; rewrite Eh, strlen_app; lia). rewrite Eh, <- app_assoc in H.
    rewrite (too_long_fits 88); [| rewrite Es; unfold max_bits; cbn [Z.eqb SAFI_UNICAST SAFI_MPLS_LABEL SAFI_MPLS_VPN Pos.eqb]; lia | done].
    rewrite (proj2 (Z.ltb_ge _ _)), (proj2 (Z.ltb_ge (_ + k) 3)) by lia. cbn [orb].
    rewrite (fetch_labels_read buf afi safi type i pnt _ _ Hi H) by (fold stack; lia). res_step. fold stack.
    rewrite (proj2 (Z.ltb_ge _ _)) by lia. apply at_off_app_r in H.
    rewrite (fetch_rd_read buf _ (it_rd i) _ _ (io_rd _ _ _ _ Hi) H). res_step. cbn [negb].
    apply at_off_app_r in H. rewrite Hr in H.
    rewrite (fetch_prefix_read buf afi safi type i _ _ _ r Hi H); [done | lia..].
Qed.

Abbreviation encode_item := (encode_item afi safi path_ids).

Lemma encode_item_length i : item_ok afi safi type i ->
  strlen (encode_item i) = (if has_path_id afi safi path_ids then 4 else 0) + 1 + strlen (head safi i) +
    plen_octets (prefixlen (it_prefix i)).
Proof using.
  intros Hi. unfold BgpNlriFacts.encode_item. rewrite !strlen_app. change (strlen [_]) with 1.
  pose proof (io_octets afi safi type i Hi) as Ho. pose proof (io_addr _ _ _ _ Hi) as Ha.
  assert (E : strlen (take (Z.to_nat (plen_octets (prefixlen (it_prefix i)))) (addr (it_prefix i))) =
              plen_octets (prefixlen (it_prefix i))).
  { unfold strlen. rewrite length_take, Ha. lia. }
  rewrite E. destruct (has_path_id afi safi path_ids); [change (strlen (htonl _)) with 4 | change (strlen []) with 0]; lia.
Qed.

(** The length octet stands for all the bits that follow it. *)
Lemma nlri_entry_read i pnt end_ e r :
  item_ok afi safi type i -> at_off buf pnt (encode_item i ++ r) ->
  strlen (encode_item i) <= end_ ->
  exists pnt' psize, nlri_entry_at buf afi safi type path_ids pnt end_ e =
    Ok (pnt', NlriItem psize (it_prefix i) (item_extra afi safi path_ids e i)) /\
    pnt' + psize = pnt + strlen (encode_item i).
Proof using Hafi Hsafi.
  intros Hi H He. pose proof (encode_item_length i Hi) as Hl. pose proof (io_octets afi safi type i Hi) as Ho.
  pose proof (strlen_nonneg (head safi i)) as Hh.
  unfold nlri_entry_at. unfold BgpNlriFacts.encode_item in H. rewrite <- !app_assoc in H.
  set (k := plen_octets (prefixlen (it_prefix i))) in *. set (h := strlen (head safi i)) in *.
  destruct (has_path_id afi safi path_ids) eqn:Ep; unfold item_extra; rewrite Ep.
  - rewrite (be32_read buf pnt _ _ (io_id _ _ _ _ Hi) H). res_step. apply at_off_app_r in H.
    change (strlen (htonl _)) with 4 in H. rewrite (u8_read buf _ _ _ H). res_step.
    apply (at_off_app_r _ _ [_]) in H. change (strlen [_]) with 1 in H.
    rewrite (nlri_body_read i _ _ _ r Hi H) by (fold k; fold h; lia). res_step.
    eexists _, _. split; [done |]. fold k h. lia.
  - cbn [app] in H. res_step. rewrite (u8_read buf _ _ _ H). res_step.
    apply (at_off_app_r _ _ [_]) in H. change (strlen [_]) with 1 in H.
    rewrite (nlri_body_read i _ _ _ r Hi H) by (fold k; fold h; lia). res_step.
    eexists _, _. split; [done |]. fold k h. lia.
Qed.

(** ** The walk *)

Context {St : Type} (process : St -> prefix -> bgp_attr_extra -> Z -> res St).

Definition encode_items (l : list item) : list Z := concat (map encode_item l).

Lemma encode_item_nonempty i : 1 <= strlen (encode_item i).
Proof using.
  unfold BgpNlriFacts.encode_item. rewrite !strlen_app. change (strlen [_]) with 1.
  pose proof (strlen_nonneg (if has_path_id afi safi path_ids then htonl (it_path_id i) else [])).
  pose proof (strlen_nonneg (head safi i)).
  pose proof (strlen_nonneg (take (Z.to_nat (plen_octets (prefixlen (it_prefix i)))) (addr (it_prefix i)))). lia.
Qed.

(** An entry that is too long ends the walk. *)
Lemma nlri_entry_refused i pnt end_ e r :
  item_wf afi safi type i -> fits afi safi i = false -> at_off buf pnt (encode_item i ++ r) ->
  exists pnt', nlri_entry_at buf afi safi type path_ids pnt end_ e = Ok (pnt', NlriFail e).
Proof using Hafi Hsafi.
  intros Hi Hf%Z.leb_gt H. pose proof (iw_plen _ _ _ _ Hi) as Hp.
  unfold nlri_entry_at. unfold BgpNlriFacts.encode_item in H. rewrite <- !app_assoc in H.
  destruct Hsafi as [Hs | Hs].
  { exfalso. subst safi. unfold head, max_bits, labelled in Hf. change (SAFI_UNICAST =? SAFI_MPLS_VPN) with false in Hf.
    change (SAFI_UNICAST =? SAFI_MPLS_LABEL) with false in Hf. change (SAFI_UNICAST =? SAFI_UNICAST) with true in Hf. revert Hf Hp. cbn.
    change (strlen []) with 0. destruct (afi =? _); lia. }
  assert (Hnp : has_path_id afi safi path_ids = false) by (unfold has_path_id; destruct Hs as [-> | ->]; by rewrite andb_false_r).
  rewrite Hnp in *. cbn [app] in H. res_step. rewrite (u8_read buf _ _ _ H). res_step. exists (pnt + 1).
  set (plen := 8 * _ + _) in *. unfold nlri_body, too_long. unfold max_bits in Hf.
  destruct Hafi as [-> | ->]; destruct Hs as [-> | ->]; cbn in Hf |- *; by rewrite (proj2 (Z.ltb_lt _ plen)) by lia.
Qed.

Lemma nlri_loop_accepts l : Forall (item_wf afi safi type) l ->
  forall fuel st e count pnt lim end_ idx,
  at_off buf pnt (encode_items l) -> strlen (encode_items l) <= end_ -> lim = pnt + strlen (encode_items l) -> (length l < fuel)%nat ->
  nlri_loop buf afi safi type path_ids process fuel st e count pnt lim end_ idx =
    '(st, e) ← process_items afi safi path_ids process st e idx (accepted afi safi l);
    if forallb (fits afi safi) l then Ok (SUCCESS, st, e, if 0 <=? count then count + Z.of_nat (length l) else count)
    else Ok (ERR, st, e, ERR).
Proof using Hafi Hsafi.
  induction 1 as [|i l Hi Hl IH]; intros fuel st e count pnt lim end_ idx H He -> Hf;
    (destruct fuel as [|f]; [cbn in Hf; lia |]); cbn [nlri_loop process_items forallb accepted].
  - change (strlen (encode_items [])) with 0. rewrite (proj2 (Z.ltb_ge _ _)) by lia. res_step.
    do 3 f_equal. cbn [length]. case_match; lia.
  - pose proof (encode_item_nonempty i) as Hn.
    unfold encode_items in *. cbn [map concat length] in *.
    rewrite strlen_app in *. pose proof (strlen_nonneg (concat (map encode_item l))) as Hr.
    rewrite (proj2 (Z.ltb_lt _ _)) by lia. destruct (fits afi safi i) eqn:Efit; cbn [andb process_items].
    + destruct (nlri_entry_read i pnt end_ e _ (item_wf_ok _ _ _ i Hi Efit) H) as (pnt' & psize & -> & Hpn); [lia |]. res_step.
      destruct (process st (it_prefix i) (item_extra afi safi path_ids e i) idx) as [st' | fl]; [| done]. res_step.
      apply at_off_app_r in H. rewrite Hpn, IH by (done || lia).
      destruct (process_items _ _ _ _ _ _ _ _) as [[st'' e''] | fl]; [| done]. res_step.
      destruct (forallb _ l); [| done]. do 3 f_equal.
      destruct (Z.leb_spec 0 count); [rewrite (proj2 (Z.leb_le 0 _)) by lia | rewrite (proj2 (Z.leb_gt 0 _)) by lia]; lia.
    + destruct (nlri_entry_refused i pnt end_ e _ Hi Efit H) as [pnt' ->]. by res_step.
Qed.

Lemma encode_items_length l : Z.of_nat (length l) <= strlen (encode_items l).
Proof using.
  induction l as [|i l IH]; [done |]. unfold encode_items in *. cbn [map concat length]. rewrite strlen_app.
  pose proof (encode_item_nonempty i). lia.
Qed.

End Entry.

(** C30. Entries as they are sent, with or without path identifiers, labels and
    route distinguishers, whose length fits its octet, are processed in their
    order with the extra attributes of each, whatever follows them in the
    buffer.  When every entry is within the length the code takes (one label
    and, in a VPN, a distinguisher before a prefix of the family: [max_bits])
    nothing is lost, added or refused.  The first that is longer (two labels
    before a host route) ends the walk with an error: those before it have been
    processed, it and those after it are lost, and the count is -1. *)
Theorem nlri_walk_encoded {St} (process : St -> prefix -> bgp_attr_extra -> Z -> res St)
    buf afi safi type path_ids l nlri st e count :
  (afi = AFI_IP \/ afi = AFI_IP6) ->
  (safi = SAFI_UNICAST \/ safi = SAFI_MPLS_LABEL \/ safi = SAFI_MPLS_VPN) ->
  Forall (item_wf afi safi type) l ->
  at_off buf nlri (encode_items afi safi path_ids l) ->
  nlri_walk buf afi safi type path_ids process st e count nlri (strlen (encode_items afi safi path_ids l)) =
    '(st, e) ← process_items afi safi path_ids process st e 0 (accepted afi safi l);
    if forallb (fits afi safi) l then Ok (SUCCESS, st, e, if 0 <=? count then count + Z.of_nat (length l) else count)
    else Ok (ERR, st, e, ERR).
Proof.
  intros Ha Hs Hl H. pose proof (encode_items_length afi safi path_ids l).
  apply (nlri_loop_accepts buf afi safi type path_ids); try done; lia.
Qed.

(** ** Any input *)

(** What a prefix looks like whatever was received: its length can be
    anything. *)
Definition prefix_shape (afi : Z) (p : prefix) : Prop :=
  family p = bgp_afi2family afi /\ is_u8 (prefixlen p) /\ length (addr p) = 16%nat /\ bytes_ok (addr p).

(** A unicast prefix fits its family. *)
Definition prefix_read (afi safi : Z) (p : prefix) : Prop :=
  prefix_shape afi p /\ (safi = SAFI_UNICAST -> prefixlen p <= max_prefixlen (family p)).

Lemma prefix_read_wf afi p : afi = AFI_IP \/ afi = AFI_IP6 -> prefix_read afi SAFI_UNICAST p -> wf_prefix p.
Proof.
  intros Ha [(Hf & [H1 H2] & Hl & Hb) Hm]. split; [| split; [done | by apply Hm] | done | done].
  rewrite Hf. destruct Ha as [-> | ->]; [by left | by right].
Qed.

Section Any.
Context (buf : list Z) (afi safi type : Z) (path_ids : bool).
Context (Hbuf : bytes_ok buf).
Context (Hafi : afi = AFI_IP \/ afi = AFI_IP6).

Lemma label_loop_any fuel pnt ls psize :
  0 <= pnt -> 0 <= ls <= psize -> pnt + psize <= strlen buf -> psize - ls < Z.of_nat fuel ->
  exists ls', label_loop buf fuel pnt ls psize = Ok ls' /\ ls <= ls' <= psize.
Proof using Hbuf.
  intros Hp. revert ls. induction fuel as [|f IH]; intros ls Hl Hs Hf; [lia |]. cbn [label_loop].
  destruct (Z.leb_spec (ls + 3) psize); [| exists ls; split; [done | lia]].
  unfold check_bosbit. destruct (u8_at_ok buf Hbuf (pnt + ls + 2)) as (b & -> & _); [lia |]. res_step.
  destruct (Z.testbit b 0); [exists ls; split; [done | lia] |].
  destruct (IH (ls + 3)) as (ls' & E & Hls); [lia.. |]. exists ls'. split; [done | lia].
Qed.

Lemma fetch_labels_any pnt psize :
  0 <= pnt -> 0 <= psize -> pnt + psize <= strlen buf ->
  fetch_labels buf type pnt psize = Ok None \/
  exists n l, fetch_labels buf type pnt psize = Ok (Some (n, l)) /\ 3 <= n <= psize.
Proof using Hbuf.
  intros H1 H2 H3. unfold fetch_labels.
  assert (exists n, (if type =? BGP_NLRI_UPDATE then label_loop buf (S (Z.to_nat psize)) pnt 0 psize else Ok 0) = Ok n /\
    0 <= n <= psize) as (n & -> & Hn).
  { destruct (type =? BGP_NLRI_UPDATE); [apply label_loop_any; lia | exists 0; split; [done | lia]]. }
  res_step. destruct (Z.leb_spec (n + 3) psize); [| by left].
  destruct (read_bytes_ok buf Hbuf (pnt + n) 3) as (l & -> & _); [lia.. |]. right. exists (n + 3), l. split; [done | lia].
Qed.

Lemma fetch_rd_any pnt old : 0 <= pnt -> pnt + 8 <= strlen buf -> exists k rd, fetch_rd buf pnt old = Ok (k, rd).
Proof using Hbuf.
  intros H1 H2. unfold fetch_rd. destruct (be16_at_ok buf Hbuf pnt) as (t & -> & _); [lia.. |]. res_step.
  destruct (be16_at_ok buf Hbuf (pnt + 2)) as (x & -> & _); [lia.. |].
  destruct (be32_at_ok buf Hbuf (pnt + 4)) as (y & -> & _); [lia.. |].
  destruct (read_bytes_ok buf Hbuf (pnt + 2) 4) as (z & -> & _); [lia.. |].
  destruct (be16_at_ok buf Hbuf (pnt + 6)) as (v & -> & _); [lia.. |].
  destruct (be32_at_ok buf Hbuf (pnt + 2)) as (w & -> & _); [lia.. |]. res_step.
  repeat case_match; by eexists _, _.
Qed.

Lemma fetch_prefix_any pnt n plen :
  0 <= pnt -> 0 <= n <= 16 -> pnt + n <= strlen buf ->
  exists p, fetch_prefix buf afi pnt n plen = Ok p /\ prefix_shape afi p /\ prefixlen p = u8 plen.
Proof using Hbuf.
  intros H1 H2 H3. unfold fetch_prefix. destruct (read_bytes_ok buf Hbuf pnt n) as (b & -> & Hb & Hl); [lia.. |].
  res_step. rewrite (proj2 (Z.leb_le _ _)) by lia. eexists. split; [done |]. split; [| done].
  split_and!; cbn [family prefixlen addr]; [done | apply wrap_range; lia | |].
  - unfold strlen in Hl. rewrite length_app, length_replicate. lia.
  - apply Forall_app. split; [done |]. apply Forall_replicate. unfold in_u. lia.
Qed.

Definition entry_shape (pnt : Z) (e : nlri_entry) : Prop :=
  match e with NlriItem psize p _ => 0 <= psize /\ prefix_read afi safi p | _ => True end.

Lemma too_long_bound m4 m6 plen : too_long afi m4 m6 plen = false -> plen <= Z.max m4 m6.
Proof using Hafi.
  unfold too_long. destruct Hafi as [-> | ->]; cbn [Z.eqb AFI_IP AFI_IP6 Pos.eqb andb orb]; intros H;
    try rewrite orb_false_r in H; apply Z.ltb_ge in H; lia.
Qed.

Lemma too_long_unicast plen : too_long afi 32 128 plen = false -> plen <= max_prefixlen (bgp_afi2family afi).
Proof using Hafi.
  unfold too_long. destruct Hafi as [-> | ->]; cbn [Z.eqb AFI_IP AFI_IP6 Pos.eqb andb orb]; intros H;
    try rewrite orb_false_r in H; apply Z.ltb_ge in H; exact H.
Qed.

Lemma plen_octets_le plen m : plen <= m -> (plen + 7) / 8 <= (m + 7) / 8.
Proof using. intros. apply Z.div_le_mono; lia. Qed.

Lemma labelled_shape pnt psize p e : (safi =? SAFI_UNICAST) = false -> 0 <= psize -> prefix_shape afi p ->
  entry_shape pnt (NlriItem psize p e).
Proof using. intros H%Z.eqb_neq Hp Hs. split; [done |]. by split. Qed.

(** The largest prefix of each family is 16 octets. *)
Lemma nlri_body_any pnt end_ plen e :
  0 <= pnt -> pnt + 27 <= strlen buf -> is_u8 plen ->
  exists r, nlri_body buf afi safi type pnt end_ plen e = Ok r /\ entry_shape pnt r.
Proof using Hbuf Hafi.
  intros H1 H2 [Hp _]. unfold nlri_body. assert (0 <= (plen + 7) / 8) as Hd by (apply Z.div_pos; lia).
  destruct (safi =? SAFI_UNICAST) eqn:Eu.
  { destruct (too_long afi 32 128 plen) eqn:Et; [by eexists |]. pose proof (too_long_bound _ _ _ Et) as Et'.
    destruct (end_ <? _); [by eexists |].
    pose proof (plen_octets_le plen 128 ltac:(lia)) as Hm. change ((128 + 7) / 8) with 16 in Hm.
    destruct (fetch_prefix_any pnt ((plen + 7) / 8) plen) as (p & -> & Hs & El); [lia.. |]. eexists. split; [done |].
    split; [done |]. split; [done |]. intros _. rewrite El. destruct Hs as [-> _].
    pose proof (too_long_unicast _ Et). pose proof (Z.mod_le plen (2 ^ 8) Hp ltac:(lia)). unfold u8, wrap. lia. }
  destruct (safi =? SAFI_MPLS_LABEL) eqn:El.
  { destruct (too_long afi 56 152 plen) eqn:Et; [by eexists |]. apply too_long_bound in Et.
    destruct ((end_ <? _) || _); [by eexists |].
    pose proof (plen_octets_le plen 152 ltac:(lia)) as Hm. change ((152 + 7) / 8) with 19 in Hm.
    destruct (fetch_labels_any pnt ((plen + 7) / 8)) as [-> | (n & l & -> & Hn)]; [lia.. | by eexists |].
    res_step. destruct (fetch_prefix_any (pnt + n) ((plen + 7) / 8 - n) (plen - 8 * n)) as (p & -> & Hs & _); [lia.. |].
    eexists; split; [done | by apply labelled_shape]. }
  destruct (safi =? SAFI_MPLS_VPN) eqn:Ev; [| by eexists].
  destruct (too_long afi 120 216 plen) eqn:Et; [by eexists |]. apply too_long_bound in Et.
  destruct ((end_ <? _) || _); [by eexists |].
  pose proof (plen_octets_le plen 216 ltac:(lia)) as Hm. change ((216 + 7) / 8) with 27 in Hm.
  destruct (fetch_labels_any pnt ((plen + 7) / 8)) as [-> | (n & l & -> & Hn)]; [lia.. | by eexists |].
  res_step. destruct (Z.ltb_spec ((plen + 7) / 8) (n + 8)); [by eexists |].
  destruct (fetch_rd_any (pnt + n) (e_rd (with_label l e))) as (k & rd & ->); [lia.. |]. res_step.
  destruct k; cbn [negb]; [| by eexists].
  destruct (fetch_prefix_any (pnt + n + 8) ((plen + 7) / 8 - (n + 8)) (plen - 8 * (n + 8))) as (p & -> & Hs & _); [lia.. |].
  eexists; split; [done | by apply labelled_shape].
Qed.

Lemma nlri_entry_any pnt end_ e :
  0 <= pnt -> pnt + 32 <= strlen buf ->
  exists pnt' r, nlri_entry_at buf afi safi type path_ids pnt end_ e = Ok (pnt', r) /\ pnt + 1 <= pnt' /\ entry_shape pnt' r.
Proof using Hbuf Hafi.
  intros H1 H2. unfold nlri_entry_at. destruct (has_path_id afi safi path_ids).
  - destruct (be32_at_ok buf Hbuf pnt) as (id & -> & _); [lia.. |]. res_step.
    destruct (u8_at_ok buf Hbuf (pnt + 4)) as (plen & -> & Hp); [lia |]. res_step.
    destruct (nlri_body_any (pnt + 4 + 1) (end_ - 1) plen (with_path_id id e)) as (r & -> & Hr); [lia | lia | done |].
    eexists _, _. split; [done |]. split; [lia | done].
  - res_step. destruct (u8_at_ok buf Hbuf pnt) as (plen & -> & Hp); [lia |]. res_step.
    destruct (nlri_body_any (pnt + 1) (end_ - 1) plen e) as (r & -> & Hr); [lia | lia | done |].
    eexists _, _. split; [done |]. split; [lia | done].
Qed.

Section Process.
(** [inv] is given how many octets have been used up, which bounds how many
    prefixes there were. *)
Context {St : Type} (process : St -> prefix -> bgp_attr_extra -> Z -> res St) (inv : Z -> St -> Prop) (nmax : Z).
Context (Hmono : forall n n' st, inv n st -> n <= n' -> inv n' st).
Context (Hprocess : forall n st p e idx, inv n st -> n < nmax -> prefix_read afi safi p ->
  exists st', process st p e idx = Ok st' /\ inv (n + 1) st').

Lemma nlri_loop_any fuel n st e count pnt lim end_ idx :
  inv n st -> n + Z.max 0 (lim - pnt) <= nmax -> 0 <= pnt -> lim + 31 <= strlen buf -> Z.max 0 (lim - pnt) < Z.of_nat fuel ->
  exists ret st' e' count', nlri_loop buf afi safi type path_ids process fuel st e count pnt lim end_ idx =
    Ok (ret, st', e', count') /\ inv (n + Z.max 0 (lim - pnt)) st' /\ (ret = SUCCESS \/ ret = ERR /\ count' = ERR).
Proof using Hbuf Hafi Hprocess Hmono.
  intros Hi. revert n st e count pnt end_ idx Hi.
  induction fuel as [|f IH]; intros n st e count pnt end_ idx Hi H0 H1 H2 Hf.
  { lia. }
  cbn [nlri_loop]. destruct (Z.ltb_spec pnt lim) as [Hlt | Hge].
  2: { eexists _, _, _, _. split; [done |]. split; [eapply Hmono; [done | lia] | by left]. }
  destruct (nlri_entry_any pnt end_ e) as (pnt' & r & -> & Hp & Hr); [lia.. |]. res_step.
  assert (Hrest : forall n' st' e' count' pnt2 end2 idx', inv n' st' -> n' <= n + 1 -> pnt + 1 <= pnt2 ->
    exists ret st2 e2 count2, nlri_loop buf afi safi type path_ids process f st' e' count' pnt2 lim end2 idx' =
      Ok (ret, st2, e2, count2) /\ inv (n + Z.max 0 (lim - pnt)) st2 /\ (ret = SUCCESS \/ ret = ERR /\ count2 = ERR)).
  { intros n' st' e' count' pnt2 end2 idx' Hi' Hn Hp2.
    destruct (IH n' st' e' count' pnt2 end2 idx') as (ret & st2 & e2 & c2 & E & Hi2 & Hret); [done | lia.. |].
    exists ret, st2, e2, c2. split; [done |]. split; [| done]. eapply Hmono; [exact Hi2 | lia]. }
  destruct r as [e' | e' | psize p e'].
  - eexists _, _, _, _. split; [done |]. split; [eapply Hmono; [done | lia] | by right].
  - apply (Hrest n); [done | lia | lia].
  - destruct Hr as [Hz Hs]. destruct (Hprocess n st p e' idx Hi ltac:(lia) Hs) as (st' & -> & Hi'). res_step.
    apply (Hrest (n + 1)); [done | lia | lia].
Qed.

End Process.
End Any.

(** Whatever is received, the walk ends and reads at most 31 octets past the
    end of the NLRI; it hands on prefixes of the family, of 16 octets, whose
    length is some octet, and it fails with the count set to -1.  [inv] is what
    the processing of prefixes needs and keeps. *)
Theorem nlri_walk_safe {St} (process : St -> prefix -> bgp_attr_extra -> Z -> res St) (inv : St -> Prop)
    buf afi safi type path_ids st e count nlri length :
  bytes_ok buf -> (afi = AFI_IP \/ afi = AFI_IP6) ->
  0 <= nlri -> 0 <= length -> nlri + length + 31 <= strlen buf ->
  (forall st p e idx, inv st -> prefix_shape afi p -> exists st', process st p e idx = Ok st' /\ inv st') ->
  inv st ->
  exists ret st' e' count', nlri_walk buf afi safi type path_ids process st e count nlri length =
    Ok (ret, st', e', count') /\ inv st' /\ (ret = SUCCESS \/ ret = ERR /\ count' = ERR).
Proof.
  intros Hb Ha H1 H2 H3 Hp Hi.
  apply (nlri_loop_any buf afi safi type path_ids Hb Ha process (fun _ => inv) (Z.max 0 length)) with (n := 0); [done | | done | lia..].
  intros _ st' p e' idx Hi' _ [Hs _]. by apply Hp.
Qed.

(** ** What is wrong with it *)

(** [end] counts the lengths and not what they stand for: the last entry is
    completed with the octet after the message, which is not part of it. *)
Theorem nlri_walk_overreads {St} (process : St -> prefix -> bgp_attr_extra -> Z -> res St) st e after :
  nlri_walk [8; 10; 8; after] AFI_IP SAFI_UNICAST BGP_NLRI_UPDATE false process st e 0 0 3 =
    (st ← process st (mk_prefix AF_INET 8 (10 :: replicate 15 0)) e 0;
     st ← process st (mk_prefix AF_INET 8 (after :: replicate 15 0)) e 1;
     Ok (SUCCESS, st, e, 2)).
Proof. reflexivity. Qed.

(** Labels are subtracted from the length without a check: a labelled entry of
    20 bits is a prefix of length 252. *)
Theorem nlri_walk_length_wraps {St} (process : St -> prefix -> bgp_attr_extra -> Z -> res St) st e l0 l1 :
  nlri_walk [20; l0; l1; 1] AFI_IP SAFI_MPLS_LABEL BGP_NLRI_UPDATE false process st e 0 0 4 =
    (st ← process st (mk_prefix AF_INET 252 (replicate 16 0)) (with_label [l0; l1; 1] e) 0;
     Ok (SUCCESS, st, with_label [l0; l1; 1] e, 1)).
Proof. reflexivity. Qed.

(** ** Witnesses *)

Definition ex_process (st : list (prefix * Z * list Z)) (p : prefix) (e : bgp_attr_extra) (idx : Z) :=
  Ok (st ++ [(p, e_path_id e, e_label e)]).

(** 10.0.0.0/8 under a two-label stack in a VPN. *)
Definition ex_item : item :=
  mk_item 7 [[1; 2; 2]] [3; 4; 5] (mk_rd (Z.lor RD_ORIGIN_BGP RD_TYPE_AS) [10; 20; 1; 2; 3; 4])
    (mk_prefix AF_INET 8 (10 :: replicate 15 0)).

Definition ex_items : list item := [ex_item; ex_item].
Definition ex_buf : list Z := [1; 2; 3] ++ encode_items AFI_IP SAFI_MPLS_VPN true ex_items ++ [9; 9].

(** A host route under two labels: 168 bits in a VPN, of which the code takes
    120. *)
Definition ex_host_item : item :=
  mk_item 0 [[1; 2; 2]] [3; 4; 5] (mk_rd (Z.lor RD_ORIGIN_BGP RD_TYPE_AS) [10; 20; 1; 2; 3; 4])
    (mk_prefix AF_INET 32 ([10; 0; 0; 1] ++ replicate 12 0)).
Definition ex_long_items : list item := [ex_item; ex_host_item; ex_item].
Definition ex_long_buf : list Z := [1; 2; 3] ++ encode_items AFI_IP SAFI_MPLS_VPN true ex_long_items ++ [9; 9].

Lemma ex_nlri_items_ok : Forall (item_wf AFI_IP SAFI_MPLS_VPN BGP_NLRI_UPDATE) ex_long_items.
Proof.
  assert (H : forall i, i = ex_item \/ i = ex_host_item -> item_wf AFI_IP SAFI_MPLS_VPN BGP_NLRI_UPDATE i).
  { intros i [-> | ->]; (split; try done).
    1, 3: cbn; split; [| done]; forall_list; done.
    all: split; [| split; [done | by apply bytes_ok_b]]; exists RD_TYPE_AS; auto. }
  forall_list; apply H; auto.
Qed.

Lemma nlri_walk_encoded_witness :
  (exists st e, nlri_walk ex_buf AFI_IP SAFI_MPLS_VPN BGP_NLRI_UPDATE true ex_process [] extra0 0 3
    (strlen (encode_items AFI_IP SAFI_MPLS_VPN true ex_items)) = Ok (SUCCESS, st, e, 2)) /\
  (exists st e, nlri_walk ex_long_buf AFI_IP SAFI_MPLS_VPN BGP_NLRI_UPDATE true ex_process [] extra0 0 3
    (strlen (encode_items AFI_IP SAFI_MPLS_VPN true ex_long_items)) = Ok (ERR, st, e, ERR) /\ length st = 1%nat).
Proof.
  split.
  - rewrite (nlri_walk_encoded ex_process ex_buf AFI_IP SAFI_MPLS_VPN BGP_NLRI_UPDATE true ex_items 3 [] extra0 0);
      [do 2 eexists; vm_compute; reflexivity | by left | by right; right | | by exists [1; 2; 3], [9; 9]].
    pose proof ex_nlri_items_ok as [H _]%Forall_cons. forall_list; exact H.
  - rewrite (nlri_walk_encoded ex_process ex_long_buf AFI_IP SAFI_MPLS_VPN BGP_NLRI_UPDATE true ex_long_items 3 [] extra0 0);
      [do 2 eexists; split; [vm_compute; reflexivity | reflexivity] | by left | by right; right | exact ex_nlri_items_ok | by exists [1; 2; 3], [9; 9]].
Defined.

Lemma nlri_walk_safe_witness :
  exists ret st' e' count', nlri_walk (ex_buf ++ replicate 31 0) AFI_IP SAFI_MPLS_VPN BGP_NLRI_UPDATE true
    ex_process [] extra0 0 3 30 = Ok (ret, st', e', count') /\ True /\ (ret = SUCCESS \/ ret = ERR /\ count' = ERR).
Proof.
  apply (nlri_walk_safe ex_process (fun _ => True)); [by apply bytes_ok_b | by left | lia | lia | by vm_compute | | done].
  intros st p e idx _ _. by eexists.
Defined.

End BgpNlriFacts.
