(* ===== verification/BgpUpdate.v ===== *)
(** * src/bgp/bgp_msg.c: UPDATE messages

    [bgp_parse_update_msg] with the path attributes it reads.  [buf] is the
    buffer a message was received in and positions are offsets in it; sizes
    wrap at the width the code gives them.  Link-state NLRI (bgp_ls.c) are a
    parameter; the message that reports an End-of-RIB marker is output and left
    out. *)

From S2P Require Import Prelude CBuf Bgp BgpPrefix BgpTable BgpHash Aspath Communities BgpAttr BgpRib BgpNlri.

Module BgpUpdate.
Import CBuf Bgp BgpPrefix BgpTable BgpHash BgpIntern Aspath Communities BgpAttr BgpRib BgpNlri.

Definition BGP_HEADER_SIZE : Z := 19.
Definition BGP_ATTR_MIN_LEN : Z := 3.
Definition BGP_ATTR_FLAG_EXTLEN : Z := 0x10.
Definition BGP_ATTR_ORIGIN : Z := 1.
Definition BGP_ATTR_AS_PATH : Z := 2.
Definition BGP_ATTR_NEXT_HOP : Z := 3.
Definition BGP_ATTR_MULTI_EXIT_DISC : Z := 4.
Definition BGP_ATTR_LOCAL_PREF : Z := 5.
Definition BGP_ATTR_COMMUNITIES : Z := 8.
Definition BGP_ATTR_MP_REACH_NLRI : Z := 14.
Definition BGP_ATTR_MP_UNREACH_NLRI : Z := 15.
Definition BGP_ATTR_EXT_COMMUNITIES : Z := 16.
Definition BGP_ATTR_AS4_PATH : Z := 17.
Definition BGP_ATTR_AIGP : Z := 26.
Definition BGP_ATTR_BGP_LS : Z := 29.
Definition BGP_ATTR_LARGE_COMMUNITIES : Z := 32.
Definition BGP_ATTR_OTC : Z := 35.
Definition BGP_ATTR_PREFIX_SID : Z := 40.
Definition BGP_PREFIX_SID_LI_TLV : Z := 1.
Definition BGP_MP_REACH_MIN_SIZE : Z := 5.
Definition BGP_MP_UNREACH_MIN_SIZE : Z := 3.

(** ** Attributes without an object behind them

    Each takes the octets at [ptr], of the length [len] in the message, and
    returns the status and what it was given, changed. *)

Section Simple.
Context (buf : list Z).

Definition with_nexthop (v : list Z) (a : bgp_attr) : bgp_attr :=
  mk_attr (a_aspath a) (a_community a) (a_ecommunity a) (a_lcommunity a) (a_refcnt a) (rpki_maxlen a) v
    (mp_nexthop a) (med a) (local_pref a) (origin a) (a_bitmap a).
Definition with_mp_nexthop (v : host_addr) (a : bgp_attr) : bgp_attr :=
  mk_attr (a_aspath a) (a_community a) (a_ecommunity a) (a_lcommunity a) (a_refcnt a) (rpki_maxlen a) (nexthop a)
    v (med a) (local_pref a) (origin a) (a_bitmap a).
Definition with_med (v : Z) (a : bgp_attr) : bgp_attr :=
  mk_attr (a_aspath a) (a_community a) (a_ecommunity a) (a_lcommunity a) (a_refcnt a) (rpki_maxlen a) (nexthop a)
    (mp_nexthop a) v (local_pref a) (origin a) (Z.lor (a_bitmap a) BGP_BMAP_ATTR_MULTI_EXIT_DISC).
Definition with_local_pref (v : Z) (a : bgp_attr) : bgp_attr :=
  mk_attr (a_aspath a) (a_community a) (a_ecommunity a) (a_lcommunity a) (a_refcnt a) (rpki_maxlen a) (nexthop a)
    (mp_nexthop a) (med a) v (origin a) (Z.lor (a_bitmap a) BGP_BMAP_ATTR_LOCAL_PREF).
Definition with_origin (v : Z) (a : bgp_attr) : bgp_attr :=
  mk_attr (a_aspath a) (a_community a) (a_ecommunity a) (a_lcommunity a) (a_refcnt a) (rpki_maxlen a) (nexthop a)
    (mp_nexthop a) (med a) (local_pref a) v (a_bitmap a).

Definition bgp_attr_parse_nexthop (len : Z) (attr : bgp_attr) (ptr : Z) : res (Z * bgp_attr) :=
  if negb (len =? 4) then Ok (ERR, attr)
  else tmp ← read_bytes buf ptr 4; Ok (SUCCESS, with_nexthop tmp attr).

Definition bgp_attr_parse_med (len : Z) (attr : bgp_attr) (ptr : Z) : res (Z * bgp_attr) :=
  if negb (len =? 4) then Ok (ERR, attr)
  else tmp ← be32_at buf ptr; Ok (SUCCESS, with_med tmp attr).

Definition bgp_attr_parse_local_pref (len : Z) (attr : bgp_attr) (ptr : Z) : res (Z * bgp_attr) :=
  if negb (len =? 4) then Ok (ERR, attr)
  else tmp ← be32_at buf ptr; Ok (SUCCESS, with_local_pref tmp attr).

Definition bgp_attr_parse_origin (len : Z) (attr : bgp_attr) (ptr : Z) : res (Z * bgp_attr) :=
  if negb (len =? 1) then Ok (ERR, attr)
  else v ← u8_at buf ptr; Ok (SUCCESS, with_origin v attr).

(** The next hop of [mpnhoplen] octets; 48 leaves none. *)
Definition mp_reach_nexthop (mpnhoplen ptr : Z) : res host_addr :=
  if mpnhoplen =? 4 then a ← read_bytes buf ptr 4; Ok (mk_ha AF_INET (a ++ replicate 12 0))
  else if mpnhoplen =? 12 then a ← read_bytes buf (ptr + 8) 4; Ok (mk_ha AF_INET (a ++ replicate 12 0))
  else if (mpnhoplen =? 16) || (mpnhoplen =? 32) then a ← read_bytes buf ptr 16; Ok (mk_ha AF_INET6 a)
  else if mpnhoplen =? 24 then a ← read_bytes buf (ptr + 8) 16; Ok (mk_ha AF_INET6 a)
  else Ok ha0.

(** [mpnhoplen] is read through a [char]: the lengths that are taken are
    positive either way. *)
Definition bgp_attr_parse_mp_reach (len : Z) (attr : bgp_attr) (ptr : Z) (mp_update : bgp_nlri)
    : res (Z * bgp_attr * bgp_nlri) :=
  if len <? BGP_MP_REACH_MIN_SIZE then Ok (ERR, attr, mp_update)
  else
    afi ← be16_at buf ptr;
    safi ← u8_at buf (ptr + 2);
    mpnhoplen ← u8_at buf (ptr + 3);
    let ptr := ptr + 4 in
    let mpreachlen := u16 (len - 4) in
    if existsb (Z.eqb mpnhoplen) [4; 12; 16; 24; 32; 48] then
      if mpnhoplen <? mpreachlen then
        nh ← mp_reach_nexthop mpnhoplen ptr;
        let attr := with_mp_nexthop nh attr in
        let mpreachlen := u16 (mpreachlen - mpnhoplen - 1) in
        let ptr := ptr + mpnhoplen + 1 in
        if (mpreachlen =? 0) || (len <? mpreachlen) then Ok (ERR, attr, mp_update)
        else Ok (SUCCESS, attr, mk_nlri afi safi ptr mpreachlen)
      else Ok (ERR, attr, mp_update)
    else Ok (ERR, attr, mp_update).

Definition bgp_attr_parse_mp_unreach (len ptr : Z) (mp_withdraw : bgp_nlri) : res (Z * bgp_nlri) :=
  if len <? BGP_MP_UNREACH_MIN_SIZE then Ok (ERR, mp_withdraw)
  else
    afi ← be16_at buf ptr;
    safi ← u8_at buf (ptr + 2);
    Ok (SUCCESS, mk_nlri afi safi (ptr + 3) (u16 (len - 3))).

Definition with_aigp (bitmap v : Z) (e : bgp_attr_extra) : bgp_attr_extra :=
  mk_extra bitmap (e_rd e) (e_label e) (e_path_id e) v (e_psid_li e) (e_otc e) (e_ls e).
Definition with_psid_li (v : Z) (e : bgp_attr_extra) : bgp_attr_extra :=
  mk_extra (e_bitmap e) (e_rd e) (e_label e) (e_path_id e) (e_aigp e) v (e_otc e) (e_ls e).
Definition with_otc (v : Z) (e : bgp_attr_extra) : bgp_attr_extra :=
  mk_extra (e_bitmap e) (e_rd e) (e_label e) (e_path_id e) (e_aigp e) (e_psid_li e) v (e_ls e).
Definition with_ls (v : Z * Z) (e : bgp_attr_extra) : bgp_attr_extra :=
  mk_extra (e_bitmap e) (e_rd e) (e_label e) (e_path_id e) (e_aigp e) (e_psid_li e) (e_otc e) (Some v).

Definition bgp_attr_parse_aigp (len : Z) (attr_extra : bgp_attr_extra) (ptr : Z) : res (Z * bgp_attr_extra) :=
  if len <? 3 then Ok (ERR, attr_extra)
  else if len =? 3 then Ok (SUCCESS, with_aigp (e_bitmap attr_extra) 0 attr_extra)
  else if len =? 11 then
    hi ← be32_at buf (ptr + 3);
    lo ← be32_at buf (ptr + 7);
    Ok (SUCCESS, with_aigp (Z.lor (e_bitmap attr_extra) BGP_BMAP_ATTR_AIGP) (hi * 2 ^ 32 + lo) attr_extra)
  else Ok (ERR, with_aigp (e_bitmap attr_extra) 0 attr_extra).

Definition bgp_attr_parse_prefix_sid (len : Z) (attr_extra : bgp_attr_extra) (ptr : Z) : res (Z * bgp_attr_extra) :=
  if len <? 3 then Ok (ERR, attr_extra)
  else
    tlv_type ← u8_at buf ptr;
    tlv_len ← be16_at buf (ptr + 1);
    if tlv_type =? BGP_PREFIX_SID_LI_TLV then
      if tlv_len =? 7 then
        tmp ← be32_at buf (ptr + 6);
        Ok (SUCCESS, with_psid_li tmp attr_extra)
      else Ok (ERR, attr_extra)
    else Ok (SUCCESS, attr_extra).

Definition bgp_attr_parse_otc (len : Z) (attr_extra : bgp_attr_extra) (ptr : Z) : res (Z * bgp_attr_extra) :=
  if len <? 4 then Ok (ERR, attr_extra)
  else tmp32 ← be32_at buf ptr; Ok (SUCCESS, with_otc tmp32 attr_extra).

Definition bgp_attr_parse_ls (len : Z) (attr_extra : bgp_attr_extra) (ptr : Z) : Z * bgp_attr_extra :=
  if len <? 4 then (ERR, attr_extra) else (SUCCESS, with_ls (ptr, len) attr_extra).

End Simple.

(** ** The attributes of a message *)

Section Update.
Context {X : Type}.
Context (dbs : misc_dbs) (past : Z) (bgp_comms_num : bool).
Context (buf : list Z).

Abbreviation rt_structs := (bgp_rt_structs X).

(** What [bgp_attr_parse] works on: the tables, the attribute and the extra
    attributes of the message, [as4_path], and the two MP attributes. *)
Record attr_state := mk_ast {
  s_rt : rt_structs;
  s_attr : bgp_attr;
  s_extra : bgp_attr_extra;
  s_as4_path : option loc;
  s_mp_update : bgp_nlri;
  s_mp_withdraw : bgp_nlri
}.

Definition with_s_attr (r : Z * bgp_attr) (s : attr_state) : Z * attr_state :=
  (fst r, mk_ast (s_rt s) (snd r) (s_extra s) (s_as4_path s) (s_mp_update s) (s_mp_withdraw s)).
Definition with_s_extra (r : Z * bgp_attr_extra) (s : attr_state) : Z * attr_state :=
  (fst r, mk_ast (s_rt s) (s_attr s) (snd r) (s_as4_path s) (s_mp_update s) (s_mp_withdraw s)).
Definition with_s_rt_attr (rt : rt_structs) (a : bgp_attr) (s : attr_state) : attr_state :=
  mk_ast rt a (s_extra s) (s_as4_path s) (s_mp_update s) (s_mp_withdraw s).

Definition with_community (p : option loc) (a : bgp_attr) : bgp_attr :=
  with_ptrs (a_aspath a) p (a_ecommunity a) (a_lcommunity a) a.
Definition with_ecommunity (p : option loc) (a : bgp_attr) : bgp_attr :=
  with_ptrs (a_aspath a) (a_community a) p (a_lcommunity a) a.
Definition with_lcommunity (p : option loc) (a : bgp_attr) : bgp_attr :=
  with_ptrs (a_aspath a) (a_community a) (a_ecommunity a) p a.

(** The octets of [len / w] values; a length that is no multiple is refused
    before any is read. *)
Definition read_values (w ptr len : Z) : res (list Z) :=
  if len mod w =? 0 then read_bytes buf ptr len else Ok [].

Definition bgp_attr_parse_aspath (pr : peer) (len : Z) (s : attr_state) (ptr : Z) : res (Z * attr_state) :=
  '(st, h, l) ← aspath_parse dbs (Some (p_base pr)) (r_as (s_rt s)) (ashash (s_rt s)) (drop (Z.to_nat ptr) buf) len (p_4as pr);
  Ok (SUCCESS, with_s_rt_attr (with_as (s_rt s) (st, h)) (with_aspath l (s_attr s)) s).

Definition bgp_attr_parse_as4path (pr : peer) (len : Z) (s : attr_state) (ptr : Z) : res (Z * attr_state) :=
  '(st, h, l) ← aspath_parse dbs (Some (p_base pr)) (r_as (s_rt s)) (ashash (s_rt s)) (drop (Z.to_nat ptr) buf) len true;
  Ok (SUCCESS, mk_ast (with_as (s_rt s) (st, h)) (s_attr s) (s_extra s) l (s_mp_update s) (s_mp_withdraw s)).

Definition bgp_attr_parse_community (pr : peer) (len : Z) (s : attr_state) (ptr : Z) : res (Z * attr_state) :=
  if len =? 0 then Ok (SUCCESS, with_s_rt_attr (s_rt s) (with_community None (s_attr s)) s)
  else
    pnt ← read_values 4 ptr len;
    '(st, h, l) ← community_parse dbs (Some (p_base pr)) bgp_comms_num (r_com (s_rt s)) (comhash (s_rt s)) pnt len;
    Ok (SUCCESS, with_s_rt_attr (with_com (s_rt s) (st, h)) (with_community l (s_attr s)) s).

Definition bgp_attr_parse_ecommunity (pr : peer) (len : Z) (s : attr_state) (ptr : Z) : res (Z * attr_state) :=
  if len =? 0 then Ok (SUCCESS, with_s_rt_attr (s_rt s) (with_ecommunity None (s_attr s)) s)
  else
    pnt ← read_values ECOMMUNITY_SIZE ptr len;
    '(st, h, l) ← ecommunity_parse dbs (Some (p_base pr)) bgp_comms_num (r_ecom (s_rt s)) (ecomhash (s_rt s)) pnt len;
    Ok (SUCCESS, with_s_rt_attr (with_ecom (s_rt s) (st, h)) (with_ecommunity l (s_attr s)) s).

Definition bgp_attr_parse_lcommunity (pr : peer) (len : Z) (s : attr_state) (ptr : Z) : res (Z * attr_state) :=
  if len =? 0 then Ok (SUCCESS, with_s_rt_attr (s_rt s) (with_lcommunity None (s_attr s)) s)
  else
    pnt ← read_values LCOMMUNITY_SIZE ptr len;
    '(st, h, l) ← lcommunity_parse dbs (Some (p_base pr)) (r_lcom (s_rt s)) (lcomhash (s_rt s)) pnt len;
    Ok (SUCCESS, with_s_rt_attr (with_lcom (s_rt s) (st, h)) (with_lcommunity l (s_attr s)) s).

(** The [switch] over the types.  The link-state case has no [break]: its
    status is that of the default. *)
Definition attr_switch (pr : peer) (type attr_len ptr : Z) (s : attr_state) : res (Z * attr_state) :=
  if type =? BGP_ATTR_AS_PATH then bgp_attr_parse_aspath pr attr_len s ptr
  else if type =? BGP_ATTR_AS4_PATH then bgp_attr_parse_as4path pr attr_len s ptr
  else if type =? BGP_ATTR_NEXT_HOP then r ← bgp_attr_parse_nexthop buf attr_len (s_attr s) ptr; Ok (with_s_attr r s)
  else if type =? BGP_ATTR_COMMUNITIES then bgp_attr_parse_community pr attr_len s ptr
  else if type =? BGP_ATTR_EXT_COMMUNITIES then bgp_attr_parse_ecommunity pr attr_len s ptr
  else if type =? BGP_ATTR_LARGE_COMMUNITIES then bgp_attr_parse_lcommunity pr attr_len s ptr
  else if type =? BGP_ATTR_MULTI_EXIT_DISC then r ← bgp_attr_parse_med buf attr_len (s_attr s) ptr; Ok (with_s_attr r s)
  else if type =? BGP_ATTR_LOCAL_PREF then r ← bgp_attr_parse_local_pref buf attr_len (s_attr s) ptr; Ok (with_s_attr r s)
  else if type =? BGP_ATTR_ORIGIN then r ← bgp_attr_parse_origin buf attr_len (s_attr s) ptr; Ok (with_s_attr r s)
  else if type =? BGP_ATTR_MP_REACH_NLRI then
    '(ret, a, n) ← bgp_attr_parse_mp_reach buf attr_len (s_attr s) ptr (s_mp_update s);
    Ok (ret, mk_ast (s_rt s) a (s_extra s) (s_as4_path s) n (s_mp_withdraw s))
  else if type =? BGP_ATTR_MP_UNREACH_NLRI then
    '(ret, n) ← bgp_attr_parse_mp_unreach buf attr_len ptr (s_mp_withdraw s);
    Ok (ret, mk_ast (s_rt s) (s_attr s) (s_extra s) (s_as4_path s) (s_mp_update s) n)
  else if type =? BGP_ATTR_AIGP then r ← bgp_attr_parse_aigp buf attr_len (s_extra s) ptr; Ok (with_s_extra r s)
  else if type =? BGP_ATTR_PREFIX_SID then r ← bgp_attr_parse_prefix_sid buf attr_len (s_extra s) ptr; Ok (with_s_extra r s)
  else if type =? BGP_ATTR_OTC then r ← bgp_attr_parse_otc buf attr_len (s_extra s) ptr; Ok (with_s_extra r s)
  else if type =? BGP_ATTR_BGP_LS then
    Ok (0, snd (with_s_extra (bgp_attr_parse_ls attr_len (s_extra s) ptr) s))
  else Ok (0, s).

(** The loop; the status is negative where it returns early. *)
Fixpoint attr_loop (fuel : nat) (pr : peer) (ptr to_the_end : Z) (s : attr_state) : res (Z * attr_state) :=
  match fuel with
  | O => Err OutOfFuel
  | S f =>
      if negb (0 <? to_the_end) then Ok (SUCCESS, s)
      else if to_the_end <? BGP_ATTR_MIN_LEN then Ok (ERR, s)
      else
        flag ← u8_at buf ptr;
        type ← u8_at buf (ptr + 1);
        '(attr_len, ptr, to_the_end) ←
          (if negb (Z.land flag BGP_ATTR_FLAG_EXTLEN =? 0)
           then n ← be16_at buf (ptr + 2); Ok (n, ptr + 4, to_the_end - 4)
           else n ← u8_at buf (ptr + 2); Ok (n, ptr + 3, to_the_end - 3));
        if to_the_end <? attr_len then Ok (ERR, s)
        else
          '(ret, s) ← attr_switch pr type attr_len ptr s;
          if ret <? 0 then Ok (ret, s)
          else attr_loop f pr (ptr + attr_len) (to_the_end - attr_len) s
  end.

(** At least three octets are used up in each round. *)
Definition bgp_attr_parse (pr : peer) (ptr len : Z) (s : attr_state) : res (Z * attr_state) :=
  match bgp_select_misc_db dbs (type (p_base pr)) with
  | None => Ok (ERR, s)
  | Some _ =>
      '(ret, s) ← attr_loop (S (Z.to_nat len)) pr ptr len s;
      if ret <? 0 then Ok (ret, s)
      else
        match s_as4_path s with
        | None => Ok (SUCCESS, s)
        | Some as4_path =>
            '(ret, rt, a) ← bgp_attr_munge_as4path dbs pr (s_rt s) (s_attr s) (Some as4_path);
            sh ← aspath_unintern (Some (p_base pr)) (r_as rt) (ashash rt) as4_path;
            let s := with_s_rt_attr (with_as rt sh) a s in
            if ret <? 0 then Ok (ret, s) else Ok (SUCCESS, s)
        end
  end.

(** ** The message *)

Context (skip_rib msglog : bool).
Context (route_info_modulo : bgp_misc_structs -> peer -> option rd_t -> option Z -> Z -> Z).
Context (bmed_id : X -> Z).
Context (bgp_extra_data_cmp : option (X -> X -> Z)).
Context (bgp_extra_data_process : option (X -> X -> Z -> Z -> X)).
Context (bmed0 extra : X).

(** [bgp_ls_nlri_parse]: the status is not looked at. *)
Context (bgp_ls_nlri_parse : peer * rt_structs -> option loc -> bgp_attr_extra -> bgp_nlri -> Z ->
  res (peer * rt_structs)).

(** What a message is parsed into: the peer and the tables, the extra
    attributes, and the count of prefixes. *)
Record update_state := mk_ust {
  u_peer : peer;
  u_rt : rt_structs;
  u_extra : bgp_attr_extra;
  u_nlri_count : Z
}.

Definition process_prefix (attr : option loc) (afi safi : Z) (st : peer * rt_structs) (p : prefix)
    (e : bgp_attr_extra) (idx : Z) : res (peer * rt_structs) :=
  let '(pr, rt) := st in
  '(_, pr, rt) ← match attr with
                 | Some attr =>
                     bgp_process_update dbs past bgp_comms_num skip_rib msglog route_info_modulo bmed_id
                       bgp_extra_data_cmp bgp_extra_data_process bmed0 extra pr rt p attr e afi safi idx
                 | None =>
                     bgp_process_withdraw dbs past bgp_comms_num skip_rib route_info_modulo bmed_id
                       bgp_extra_data_cmp extra pr rt p e afi safi idx
                 end;
  Ok (pr, rt).

Definition bgp_nlri_parse (attr : option loc) (info : bgp_nlri) (type : Z) (u : update_state)
    : res (Z * update_state) :=
  let afi := n_afi info in
  let safi := n_safi info in
  match bgp_select_misc_db dbs (Bgp.type (p_base (u_peer u))) with
  | None => Ok (ERR, mk_ust (u_peer u) (u_rt u) (u_extra u) ERR)
  | Some _ =>
      '(ret, st, e, n) ← nlri_walk buf afi safi type (add_paths (u_peer u) afi safi) (process_prefix attr afi safi)
                           (u_peer u, u_rt u) (u_extra u) (u_nlri_count u) (n_nlri info) (n_length info);
      Ok (ret, mk_ust (fst st) (snd st) e n)
  end.

(** One of the blocks of [bgp_parse_update_msg]: the NLRI are parsed when
    there are any and they are of the families of the block. *)
Definition nlri_block (families : bool) (attr : option loc) (info : bgp_nlri) (type : Z)
    (st : update_state * bool) : res (update_state * bool) :=
  let '(u, parsed) := st in
  if negb (n_length info =? 0) && families then
    '(_, u) ← bgp_nlri_parse attr info type u; Ok (u, true)
  else Ok (u, parsed).

Definition ls_block (attr : option loc) (info : bgp_nlri) (type : Z) (st : update_state * bool)
    : res (update_state * bool) :=
  let '(u, parsed) := st in
  if negb (n_length info =? 0) && (n_afi info =? AFI_BGP_LS)
     && ((n_safi info =? SAFI_LS_GLOBAL) || (n_safi info =? SAFI_LS_VPN)) then
    '(pr, rt) ← bgp_ls_nlri_parse (u_peer u, u_rt u) attr (u_extra u) info type;
    Ok (mk_ust pr rt (u_extra u) (u_nlri_count u), true)
  else Ok (u, parsed).

Definition mp_family (afi : Z) (info : bgp_nlri) : bool :=
  (n_afi info =? afi)
  && ((n_safi info =? SAFI_UNICAST) || (n_safi info =? SAFI_MPLS_LABEL) || (n_safi info =? SAFI_MPLS_VPN)).

(** The family an End-of-RIB marker is for. *)
Definition end_of_rib (update_len withdraw_len attribute_len : Z) (mp_withdraw : bgp_nlri) (parsed : bool)
    : option (Z * Z) :=
  if (update_len =? 0) && (withdraw_len =? 0) then
    if attribute_len =? 0 then Some (AFI_IP, SAFI_UNICAST)
    else if (n_length mp_withdraw =? 0) && negb (n_afi mp_withdraw =? 0) && negb (n_safi mp_withdraw =? 0)
            && negb parsed
    then Some (n_afi mp_withdraw, n_safi mp_withdraw)
    else None
  else None.

(** [pkt] is where the message starts; [attr] is the location of the local
    structure, which is gone when the function returns. *)
Definition bgp_parse_update_msg (u : update_state) (pkt : Z) : res (Z * update_state) :=
  let base := p_base (u_peer u) in
  match bgp_select_misc_db dbs (type base) with
  | None => Ok (ERR, u)
  | Some _ =>
      bgpo_len ← be16_at buf (pkt + 16);
      let end_ := u16 (bgpo_len - BGP_HEADER_SIZE) in
      let pkt := pkt + BGP_HEADER_SIZE in
      withdraw_len ← be16_at buf pkt;
      if end_ <? withdraw_len then Ok (ERR, u)
      else
        let end_ := u16 (u16 (end_ - withdraw_len) - 2) in
        let pkt := pkt + 2 in
        let withdraw := if 0 <? withdraw_len then mk_nlri AFI_IP SAFI_UNICAST pkt withdraw_len else nlri0 in
        let pkt := pkt + withdraw_len in
        attribute_len ← be16_at buf pkt;
        if end_ <? attribute_len then Ok (ERR, u)
        else
          let end_ := u16 (u16 (end_ - attribute_len) - 2) in
          let pkt := pkt + 2 in
          '(ret, s) ← (if 0 <? attribute_len
                       then bgp_attr_parse (u_peer u) pkt attribute_len (mk_ast (u_rt u) attr0 extra0 None nlri0 nlri0)
                       else Ok (SUCCESS, mk_ast (u_rt u) attr0 extra0 None nlri0 nlri0));
          if ret <? 0 then Ok (ret, mk_ust (u_peer u) (s_rt s) (u_extra u) (u_nlri_count u))
          else
            let pkt := pkt + attribute_len in
            let update_len := end_ in
            let update := if 0 <? update_len then mk_nlri AFI_IP SAFI_UNICAST pkt update_len else nlri0 in
            let attr := fresh (dom (r_attr (s_rt s))) in
            let rt := with_attr (s_rt s) (<[attr := s_attr s]> (r_attr (s_rt s)), attrhash (s_rt s)) in
            let mpu := s_mp_update s in
            let mpw := s_mp_withdraw s in
            st ← nlri_block true None withdraw BGP_NLRI_WITHDRAW (mk_ust (u_peer u) rt (s_extra s) (u_nlri_count u), false);
            st ← nlri_block true (Some attr) update BGP_NLRI_UPDATE st;
            st ← nlri_block (mp_family AFI_IP mpu) (Some attr) mpu BGP_NLRI_UPDATE st;
            st ← nlri_block (mp_family AFI_IP mpw) None mpw BGP_NLRI_WITHDRAW st;
            st ← nlri_block (mp_family AFI_IP6 mpu) (Some attr) mpu BGP_NLRI_UPDATE st;
            st ← nlri_block (mp_family AFI_IP6 mpw) None mpw BGP_NLRI_WITHDRAW st;
            st ← ls_block (Some attr) mpu BGP_NLRI_UPDATE st;
            '(u, parsed) ← ls_block (Some attr) mpw BGP_NLRI_WITHDRAW st;
            let pr := match end_of_rib update_len withdraw_len attribute_len mpw parsed with
                      | Some (afi, safi) => if (afi <? AFI_MAX) && (safi <? SAFI_MAX) then with_eor afi safi (u_peer u) else u_peer u
                      | None => u_peer u
                      end in
            a ← deref (r_attr (u_rt u) !! attr);
            rt ← unintern_ptrs dbs bgp_comms_num (Some base) (with_attr (u_rt u) (delete attr (r_attr (u_rt u)), attrhash (u_rt u))) a;
            Ok (bgpo_len, mk_ust pr rt (u_extra u) (u_nlri_count u))
  end.

End Update.

End BgpUpdate.
