(* ===== verification/BgpAttrParseFacts.v ===== *)
(** * The path attributes of a message: what is read is held

    [bgp_attr_parse] interns the AS path and the communities of a message.
    The counts of all objects agree with who refers to them throughout, the
    message itself being one who does; the references an attribute loses when
    it comes twice, or when parsing fails, are the ones that leak. *)

From S2P Require Import Prelude CBuf Bgp BgpPrefix BgpTable BgpTableFacts BgpRoutes BgpHash BgpHashFacts BgpInternFacts.
From S2P Require Import Aspath AspathFacts Communities CommunitiesFacts BgpAttr BgpAttrFacts BgpRib BgpRibFacts BgpRouterFacts.
From S2P Require Import BgpNlri BgpNlriFacts BgpUpdate.

Module BgpAttrParseFacts.
Import CBuf Bgp BgpPrefix BgpTable BgpTableFacts BgpRoutes BgpHash BgpHashFacts BgpIntern BgpInternFacts
  Aspath AspathFacts Communities CommunitiesFacts BgpAttr BgpAttrFacts BgpRib BgpRibFacts BgpRouterFacts BgpNlri BgpNlriFacts BgpUpdate.

(** ** A value interned *)

Section Intern.
Context (dbs : misc_dbs) (peer : bgp_peer).
Hypothesis Hpeer : type peer < FUNC_TYPE_MAX.

(** One reference more, unless there is no object, and no value changes. *)
Definition one_more {V} `{HI : Internable V} (ok : V -> Prop) (st : objs V) (refs : loc -> Z)
    (st' : objs V) (h' : hash loc) (p : option loc) : Prop :=
  counted ok st' h' (bump refs p 1) /\ forall x, is_Some (st !! x) -> same_val st st' x.

Lemma none_more {V} `{HI : Internable V} ok (st : objs V) h refs :
  counted ok st h refs -> one_more ok st refs st h None.
Proof using. intros Hc. split; [| done]. apply (counted_ext _ _ _ _ _ Hc). intros l. unfold bump. rewrite decide_False by done. lia. Qed.

(** Interning does not depend on how values are printed. *)
Lemma counted_inst {V} (I1 I2 : Internable V) ok (st : objs V) h refs :
  @value_key V I1 = @value_key V I2 -> @value_cmp V I1 = @value_cmp V I2 ->
  @counted V I1 ok st h refs -> @counted V I2 ok st h refs.
Proof using.
  destruct I1 as [k1 c1 s1], I2 as [k2 c2 s2]. cbn. intros <- <- [[H1 H2 H3] H4]. by split; [split |].
Qed.

Lemma intern_new_step {V} `{HI : Internable V} ok `{HL : !InternLaws V ok} st h refs v :
  counted ok st h refs -> ok v -> (forall x o, st !! x = Some o -> refcnt o < 2 ^ 64 - 1) ->
  let l := fresh (dom st) in
  exists st' h' f, intern dbs (Some peer) (<[l := mk_obj v 0 None]> st) h l = Ok (st', h', Some f) /\
    one_more ok st refs st' h' (Some f).
Proof using Hpeer.
  intros [Hi Hr] Hv Hmax l. assert (Hl : st !! l = None) by (apply not_elem_of_dom, is_fresh).
  set (st0 := <[l := mk_obj v 0 None]> st).
  assert (H0 : forall x, st0 !! x = if decide (x = l) then Some (mk_obj v 0 None) else st !! x).
  { intros x. unfold st0. destruct (decide (x = l)) as [->|]; [apply lookup_insert_eq | by apply lookup_insert_ne]. }
  destruct (intern_cases ok dbs peer Hpeer st0 h l (mk_obj v 0 None))
    as (st' & h' & f & fo & fo' & E & Hi' & G1 & G2 & [Gv Gr]%taken_val & _ & Hf & Hx);
    [by apply intern_inv_new | by rewrite H0, decide_True | done | |].
  { intros x ox. rewrite H0. case_decide; [by intros [= <-] | apply Hmax]. }
  exists st', h', f. split; [exact E |]. split; [split; [exact Hi' |] |].
  - intros x. unfold bump. destruct (decide (x = f)) as [->|Hne].
    + rewrite decide_True, G2, Gr, Hr by done. rewrite H0 in G1. case_decide as Hd; [| by rewrite G1].
      injection G1 as <-. by rewrite Hd, Hl.
    + rewrite decide_False by congruence. rewrite Hx by done. rewrite Hr, H0.
      case_decide as Hd; [rewrite Hd, Hl; lia | lia].
  - intros x [o Ho]. unfold same_val. assert (x <> l) by congruence. rewrite H0 in G1. destruct (decide (x = f)) as [->|Hne].
    + rewrite decide_False in G1 by done. rewrite G2, G1. cbn. by rewrite Gv.
    + rewrite Hx, H0, decide_False by done. by rewrite decide_False.
Qed.

Lemma obj_key_valid (st : objs aspath_value) l : valid value_ok st l -> obj_key st l = Ok (okey st l).
Proof using. apply okey_Ok. Qed.

(** An object in use was there before, with the same value. *)
Definition old_val {V} (st : objs V) (x : loc) (o : obj V) : Prop :=
  exists o0, st !! x = Some o0 /\ o_val o0 = o_val o /\ 0 < refcnt o0.

(** [aspath_parse] copies a new path out of the object on its stack: what it
    returns has the segments of [v], and nothing else is new. *)
Definition path_there (st : objs aspath_value) (v : aspath_value) (st' : objs aspath_value) (f : loc) : Prop :=
  (exists o, st' !! f = Some o /\ v_segments (o_val o) = v_segments v) /\
  forall x o, st' !! x = Some o -> 0 < refcnt o -> old_val st x o \/
    x = f /\ v_segments (o_val o) = v_segments v /\
    (all_known (v_segments v) = true -> v_last_as (o_val o) = last_of (v_segments v) (v_last_as v)).

Lemma intern_temporary_values st h refs v :
  counted value_ok st h refs -> value_ok v -> (forall x o, st !! x = Some o -> refcnt o < 2 ^ 64 - 1) ->
  exists st' h' f, intern_temporary dbs (Some peer) st h v = Ok (st', h', Some f) /\ one_more value_ok st refs st' h' (Some f) /\
    path_there st v st' f.
Proof using Hpeer.
  intros Hc Hv Hmax. pose proof Hc as [Hi Hr]. unfold intern_temporary. set (tmp := fresh (dom st)).
  assert (Ht : st !! tmp = None) by (apply not_elem_of_dom, is_fresh).
  destruct (make_str_text (value_aspath v) Hv) as (last & Es & Elast).
  set (text := if all_known _ then _ else _) in Es. cbv zeta.
  set (ob := mk_obj (mk_value (v_segments v) last) 0 (Some text)).
  set (st1 := <[tmp := ob]> st).
  assert (E1 : hash_effect (<[tmp := mk_obj v 0 None]> st) tmp = Ok st1).
  { unfold hash_effect. rewrite lookup_insert_eq. change (deref (Some ?x)) with (Ok x). rewrite bind_Ok. cbn [o_str o_val].
    rewrite Es, bind_Ok. by rewrite insert_insert_eq. }
  rewrite E1, bind_Ok. clear E1.
  assert (H1 : forall x, st1 !! x = if decide (x = tmp) then Some ob else st !! x).
  { intros x. unfold st1. destruct (decide (x = tmp)) as [->|]; [apply lookup_insert_eq | by apply lookup_insert_ne]. }
  set (l := fresh (dom st1)).
  assert (Hl : st1 !! l = None) by (apply not_elem_of_dom, is_fresh).
  assert (Hlt : l <> tmp) by (intros E; rewrite H1, decide_True in Hl by done; done).
  destruct (dup_Ok (value_aspath (o_val ob)) Hv) as (last2 & s2 & Ed & Elast2).
  set (ob2 := mk_obj (mk_value (v_segments v) last2) 0 (Some s2)).
  set (st2 := <[l := ob2]> st1).
  assert (H2 : forall x, st2 !! x = if decide (x = l) then Some ob2 else st1 !! x).
  { intros x. unfold st2. destruct (decide (x = l)) as [->|]; [apply lookup_insert_eq | by apply lookup_insert_ne]. }
  assert (Hin : forall e, e ∈ elems h -> exists o, st !! e = Some o /\ value_ok (o_val o) /\ 0 < refcnt o /\ e <> tmp /\ e <> l).
  { intros e He. destruct (elem_valid _ _ _ h e (ii_hash _ _ _ Hi) He) as (o & Ho & Hok). exists o.
    split_and!; [done | done | by apply (ii_refs _ st h Hi e o Ho) | congruence |].
    intros ->. rewrite H1, decide_False in Hl by done. congruence. }
  assert (Hwf1 : wf_hash (valid value_ok st1) (okey st1) (ocmp st1) h).
  { apply (wf_hash_store value_ok st); [apply Hi |]. intros x ox Hx Hox. exists ox. split; [| done].
    destruct (Hin x Hx) as (_ & _ & _ & _ & Hne & _). by rewrite H1, decide_False. }
  assert (Ht1 : valid value_ok st1 tmp) by (exists ob; by rewrite H1, decide_True).
  assert (Hl2 : valid value_ok st2 l) by (exists ob2; by rewrite H2, decide_True).
  assert (Hlk : forall e, e ∈ elems h -> st1 !! e = st !! e /\ st2 !! e = st !! e).
  { intros e He. destruct (Hin e He) as (_ & _ & _ & _ & Hn1 & Hn2). by rewrite H2, decide_False, H1, decide_False. }
  destruct (hash_get_alloc_cases obj_key obj_cmp aspath_hash_alloc dbs peer (dbs (type peer)) st1 st2
    (valid value_ok st1) (valid value_ok st2) (okey st1) (okey st2) (ocmp st1) (ocmp st2) h tmp l)
    as [(e & He & Hcmp & E)|(_ & h' & E & Hwf' & Hp)].
  - by apply peer_misc_db.
  - apply (okey_Ok value_ok).
  - apply (ocmp_Ok value_ok).
  - apply (ocmp_key value_ok).
  - apply (ocmp_sym value_ok).
  - done.
  - done.
  - unfold aspath_hash_alloc. rewrite H1, decide_True by done. change (deref (Some ?x)) with (Ok x). rewrite bind_Ok, Ed, bind_Ok. done.
  - done.
  - unfold okey. rewrite H2, decide_True, H1, decide_True by done. rewrite !value_key_text by exact Hv. done.
  - by apply (ocmp_refl value_ok).
  - intros e He. destruct (Hlk e He) as [Q1 Q2]. destruct (Hin e He) as (o & Ho & Hok & _). unfold valid, okey. rewrite Q1, Q2.
    split; [by exists o | done].
  - intros e1 e2 He1 He2. destruct (Hlk e1 He1) as [Q1 Q2]. destruct (Hlk e2 He2) as [Q3 Q4]. unfold ocmp. by rewrite Q1, Q2, Q3, Q4.
  - intros e He. destruct (Hlk e He) as [Q1 Q2]. unfold ocmp. rewrite Q1, Q2, H2, decide_True, H1, decide_True by done. done.
  - rewrite E, bind_Ok. unfold obj_free. rewrite H1, decide_True by done. change (deref (Some ?x)) with (Ok x). rewrite bind_Ok.
    destruct (Hin e He) as (o & Ho & _ & Hpos & Hne & _).
    assert (Ed1 : delete tmp st1 = st) by (unfold st1; rewrite delete_insert_eq; by apply delete_id).
    rewrite bind_Ok, Ed1, Ho. change (deref (Some o)) with (Ok o). rewrite bind_Ok.
    destruct (ref_step value_ok st h refs e o Hc Ho) as [Hc' Hs]; [split; [done | by eapply Hmax] |].
    eexists _, h, e. split; [done |]. split; [split; [exact Hc' | intros x _; apply Hs] |]. split.
    + rewrite lookup_insert_eq. eexists. split; [done |]. cbn [o_val]. unfold ocmp in Hcmp.
      rewrite H1, decide_False, Ho, H1, decide_True in Hcmp by done. by apply aspath_cmp_eq in Hcmp.
    + intros x ox Hx Hpx. left. destruct (decide (x = e)) as [->|Hxe].
      * rewrite lookup_insert_eq in Hx. injection Hx as <-. by exists o.
      * rewrite lookup_insert_ne in Hx by done. by exists ox.
  - rewrite E, bind_Ok. unfold obj_free. rewrite H2, decide_False, H1, decide_True by done.
    change (deref (Some ob)) with (Ok ob). rewrite !bind_Ok.
    assert (Ed1 : delete tmp st2 = <[l := ob2]> st).
    { unfold st2, st1. rewrite delete_insert_ne by done. rewrite delete_insert_eq. by rewrite delete_id. }
    rewrite Ed1, lookup_insert_eq. change (deref (Some ?x)) with (Ok x). rewrite bind_Ok. rewrite insert_insert_eq.
    change (u64 (refcnt ob2 + 1)) with 1. set (st3 := <[l := _]> st).
    assert (H3 : forall x, st3 !! x = if decide (x = l) then Some (mk_obj (o_val ob2) 1 (o_str ob2)) else st !! x).
    { intros x. unfold st3. destruct (decide (x = l)) as [->|]; [apply lookup_insert_eq | by apply lookup_insert_ne]. }
    assert (Hls : st !! l = None) by (by rewrite H1, decide_False in Hl).
    exists st3, h', l. split; [done |]. split; [split; [split; [split |] |] |].
    + apply (wf_hash_store value_ok st2); [exact Hwf' |]. intros x ox Hx Hox. rewrite H3. rewrite H2 in Hox.
      case_decide as Hd; [injection Hox as <-; by eexists |]. rewrite Hp in Hx. apply elem_of_cons in Hx as [?|Hx]; [done |].
      destruct (Hlk x Hx) as [Q1 _]. rewrite Q1 in Hox. by exists ox.
    + intros x ox. rewrite H3. case_decide; [| apply Hi]. intros [= <-]. done.
    + intros x ox. rewrite H3, Hp, elem_of_cons. case_decide as Hd.
      * intros [= <-]. cbn. split; [lia | by left].
      * intros Hx. rewrite <- (ii_refs _ st h Hi x ox Hx). split; [by intros [? | ?] | by right].
    + intros x. unfold bump. rewrite H3, Hr. destruct (decide (x = l)) as [->|Hne].
      * rewrite decide_True by done. by rewrite Hls.
      * rewrite decide_False by congruence. lia.
    + intros x [o Ho]. unfold same_val. rewrite H3, decide_False; [done |]. congruence.
    + split.
      * rewrite H3, decide_True by done. by eexists.
      * intros x ox. rewrite H3. case_decide as Hd; [| intros Hx Hpx; left; by exists ox]. intros [= <-] _. right.
        split_and!; [done | done |]. intros Hk. cbn [o_val ob2 v_last_as].
        destruct (Elast2 Hk) as [_ ->]. cbn [value_aspath segments last_as o_val ob v_segments v_last_as]. rewrite (Elast Hk).
        cbn [value_aspath segments last_as]. unfold last_of. by destruct (concat _) as [|a l0]; [| apply last_cons_change].
Qed.

Lemma intern_temporary_step st h refs v :
  counted value_ok st h refs -> value_ok v -> (forall x o, st !! x = Some o -> refcnt o < 2 ^ 64 - 1) ->
  exists st' h' f, intern_temporary dbs (Some peer) st h v = Ok (st', h', Some f) /\ one_more value_ok st refs st' h' (Some f).
Proof using Hpeer.
  intros H1 H2 H3. destruct (intern_temporary_values st h refs v H1 H2 H3) as (st' & h' & f & E & Hm & _). by exists st', h', f.
Qed.

(** ** What the attributes of a message point to *)

Context (num : bool).

Lemma aspath_parse_step st h refs s len u :
  counted value_ok st h refs -> (forall x o, st !! x = Some o -> refcnt o < 2 ^ 64 - 1) ->
  bytes_ok s -> 0 <= len <= strlen s -> len < 65536 ->
  exists st' h' p, aspath_parse dbs (Some peer) st h s len u = Ok (st', h', p) /\ one_more value_ok st refs st' h' p.
Proof using Hpeer.
  intros Hc Hm Hb Hs Hl. unfold aspath_parse. rewrite (peer_routing_db peer Hpeer). cbn [negb].
  destruct (len mod AS16_VALUE_SIZE =? 0); cbn [negb]; [| eexists _, _, None; split; [done | by apply none_more]].
  destruct (assegments_parse_within (type peer =? FUNC_TYPE_BMP) u s len Hb Hs Hl) as (r & -> & Hr). rewrite bind_Ok.
  destruct (intern_temporary_step st h refs (mk_value (default [] r) 0) Hc) as (st' & h' & f & -> & Hf); [| done | by eexists _, _, _].
  unfold value_ok. cbn [v_segments]. by destruct r.
Qed.

(** Interning a set of communities that was sorted. *)
Lemma comms_step (I I0 : Internable comms) ok {HL : @InternLaws comms I ok} st h refs c :
  @value_key _ I = @value_key _ I0 -> @value_cmp _ I = @value_cmp _ I0 ->
  @counted _ I0 ok st h refs -> (forall x o, st !! x = Some o -> refcnt o < 2 ^ 64 - 1) -> ok c ->
  exists st' h' f, @intern_new I dbs (Some peer) st h c = Ok (st', h', Some f) /\ @one_more _ I0 ok st refs st' h' (Some f).
Proof using Hpeer.
  intros Hk Hcmp Hc Hm Hok. unfold intern_new.
  destruct (@intern_new_step comms I ok HL st h refs c) as (st' & h' & f & E & Hc' & Hs); [| done | done |].
  - by apply (counted_inst I0 I).
  - exists st', h', f. split; [exact E |]. split; [by apply (counted_inst I I0) | done].
Qed.

(** The values of an attribute are read, and sorted without duplicates. *)
Lemma comms_read w pnt len : 0 < w -> bytes_ok pnt -> strlen pnt = len -> len mod w = 0 ->
  exists c, mk_comms (len / w) pnt = c /\ wf w c.
Proof using.
  intros Hw Hb <- Hm. eexists. split; [done |]. pose proof (strlen_nonneg pnt). pose proof (Z.div_mod (strlen pnt) w).
  split; cbn; [apply Z.div_pos; lia | lia | done].
Qed.

Lemma community_parse_step st h refs pnt len :
  counted_com dbs num st h refs -> (forall x o, st !! x = Some o -> refcnt o < 2 ^ 64 - 1) ->
  bytes_ok pnt -> (len mod 4 = 0 -> strlen pnt = len) ->
  exists st' h' p, community_parse dbs (Some peer) num st h pnt len = Ok (st', h', p) /\
    @one_more _ (community_internable dbs None num) (wf 4) st refs st' h' p.
Proof using Hpeer.
  intros Hc Hm Hb Hl. unfold community_parse.
  destruct (Z.eqb_spec (len mod 4) 0) as [E4|]; cbn [negb]; [| eexists _, _, None; split; [done | by apply none_more]].
  destruct (comms_read 4 pnt len ltac:(lia) Hb (Hl E4) E4) as (c & -> & Hwf).
  destruct (community_uniq_sort_vals dbs (Some peer) (peer_has_db dbs peer Hpeer) (vals 4 c)) as (v & E & Ov & _);
    [by apply vals_ok |].
  rewrite of_vals_id in E by done. rewrite E, bind_Ok. change (deref (Some ?x)) with (Ok x). rewrite bind_Ok.
  destruct (comms_step (community_internable dbs (Some peer) num) (community_internable dbs None num) (wf 4) st h refs (of_vals v)
    eq_refl eq_refl Hc Hm) as (st' & h' & f & -> & Hf); [by apply of_vals_wf | by eexists _, _, _].
Qed.

Lemma sized_parse_step w str I0 ok {HL : @InternLaws comms (sized_internable w str) ok} st h refs pnt len :
  0 < w -> @value_key _ I0 = sized_hash_make w -> @value_cmp _ I0 = same_vals w -> @InternLaws comms I0 ok ->
  @counted _ I0 ok st h refs -> (forall x o, st !! x = Some o -> refcnt o < 2 ^ 64 - 1) ->
  bytes_ok pnt -> (len mod w = 0 -> strlen pnt = len) -> (forall c, wf w c -> c_size c <= len / w -> ok c) ->
  exists st' h' p, sized_parse w dbs (Some peer) str st h pnt len = Ok (st', h', p) /\ @one_more _ I0 ok st refs st' h' p.
Proof using Hpeer.
  intros Hw Ek Ec HL0 Hc Hm Hb Hl Hok. unfold sized_parse.
  destruct (Z.eqb_spec (len mod w) 0) as [E4|]; cbn [negb]; [| eexists _, _, None; split; [done | by apply none_more]].
  destruct (comms_read w pnt len Hw Hb (Hl E4) E4) as (c & Hcc & Hwf). rewrite Hcc.
  destruct (sized_uniq_sort_vals w dbs (Some peer) Hw (peer_has_db dbs peer Hpeer) (vals w c)) as (v & E & Sv & Mv);
    [by apply vals_ok |].
  rewrite of_vals_id in E by done. rewrite E, bind_Ok.
  destruct (comms_step (sized_internable w str) I0 ok st h refs (of_vals v)) as (st' & h' & f & -> & Hf);
    [by rewrite Ek | by rewrite Ec | done | done | | by eexists _, _, _].
  apply Hok; [apply of_vals_wf; [done | apply Sv] |].
  assert (Hlen : (length v <= length (vals w c))%nat).
  { apply submseteq_length, NoDup_submseteq; [apply sorted_vals_nodup; apply (sv_sorted w v Sv) | intros x; apply Mv]. }
  pose proof (vals_length w c Hwf) as Hvl. assert (Hcs : c_size c = len / w) by (by rewrite <- Hcc). cbn. lia.
Qed.

End Intern.

(** ** The references of a message *)

(** What is held by others, the attribute of the message, and AS4_PATH. *)
Definition hold (a : bgp_attr) (q : option loc) (L : temps) : temps :=
  mk_temps (bump (bump (t_as L) (a_aspath a) 1) q 1) (bump (t_com L) (a_community a) 1)
    (bump (t_ecom L) (a_ecommunity a) 1) (bump (t_lcom L) (a_lcommunity a) 1) (t_attr L).

Definition temps_le (T T' : temps) : Prop :=
  forall x, t_as T x <= t_as T' x /\ t_com T x <= t_com T' x /\ t_ecom T x <= t_ecom T' x /\ t_lcom T x <= t_lcom T' x /\
    t_attr T x = t_attr T' x.
Definition temps_eq (T T' : temps) : Prop := temps_le T T' /\ temps_le T' T.

#[export] Instance temps_le_refl : Reflexive temps_le.
Proof. intros T x. split_and!; lia. Qed.
#[export] Instance temps_le_trans : Transitive temps_le.
Proof. intros T1 T2 T3 H1 H2 x. destruct (H1 x) as (?&?&?&?&?), (H2 x) as (?&?&?&?&?). split_and!; lia. Qed.
#[export] Instance temps_eq_equivalence : Equivalence temps_eq.
Proof.
  split.
  - by split.
  - intros T1 T2 [H1 H2]. by split.
  - intros T1 T2 T3 [H1 H2] [H3 H4]. split; by etrans.
Qed.

Section Parse.
Context {X : Type}.
Context (dbs : misc_dbs) (num : bool).
Implicit Types (rt : bgp_rt_structs X) (T L : temps).

(** The stores of [rt'] are those of [rt] with other counts. *)
Lemma rt_ok_stores rt rt' T T' uses :
  rt_ok dbs num rt T uses -> r_attr rt' = r_attr rt -> attrhash rt' = attrhash rt ->
  counted value_ok (r_as rt') (ashash rt') (as_refs rt T') ->
  counted_com dbs num (r_com rt') (comhash rt') (com_refs rt T') ->
  counted_ecom dbs num (r_ecom rt') (ecomhash rt') (ecom_refs rt T') ->
  counted_lcom dbs (r_lcom rt') (lcomhash rt') (lcom_refs rt T') ->
  (forall l a, r_attr rt !! l = Some a -> same_vals_at rt rt' a) ->
  (forall x, t_attr T' x = t_attr T x) ->
  (forall x, 0 <= t_as T' x /\ 0 <= t_com T' x /\ 0 <= t_ecom T' x /\ 0 <= t_lcom T' x) ->
  (forall l a, r_attr rt !! l = Some a -> a_refcnt a = 0 ->
    (forall x, a_aspath a = Some x -> 0 < t_as T' x) /\ (forall x, a_community a = Some x -> 0 < t_com T' x) /\
    (forall x, a_ecommunity a = Some x -> 0 < t_ecom T' x) /\ (forall x, a_lcommunity a = Some x -> 0 < t_lcom T' x)) ->
  rt_ok dbs num rt' T' uses.
Proof using.
  intros Hok Em Eh C1 C2 C3 C4 Hsame Ht Hn Hloc.
  assert (Hwf : wf_hash (avalid rt') (akey rt') (acmp rt') (attrhash rt)).
  { apply (attr_hash_ext rt); [apply (ro_hash _ _ _ _ _ Hok) |]. intros l a Hl Ha. exists (a_refcnt a).
    rewrite with_refcnt_id, Em. split; [done |]. split; [by apply (ro_attr _ _ _ _ _ Hok l) | by apply (Hsame l)]. }
  split; unfold as_refs, com_refs, ecom_refs, lcom_refs in *; rewrite ?Em, ?Eh; try done.
  - apply (ro_attr _ _ _ _ _ Hok).
  - apply (ro_elems _ _ _ _ _ Hok).
  - intros l. rewrite Ht. apply (ro_uses _ _ _ _ _ Hok).
  - intros l. destruct (ro_temps _ _ _ _ _ Hok l) as (_&_&_&_&?). destruct (Hn l) as (?&?&?&?). rewrite Ht. by split_and!.
  - apply (ro_nonneg _ _ _ _ _ Hok).
Qed.

(** ... greater ones. *)
Lemma rt_ok_grow rt rt' T T' uses :
  rt_ok dbs num rt T uses -> r_attr rt' = r_attr rt -> attrhash rt' = attrhash rt ->
  counted value_ok (r_as rt') (ashash rt') (as_refs rt T') ->
  counted_com dbs num (r_com rt') (comhash rt') (com_refs rt T') ->
  counted_ecom dbs num (r_ecom rt') (ecomhash rt') (ecom_refs rt T') ->
  counted_lcom dbs (r_lcom rt') (lcomhash rt') (lcom_refs rt T') ->
  (forall x, is_Some (r_as rt !! x) -> same_val (r_as rt) (r_as rt') x) ->
  (forall x, is_Some (r_com rt !! x) -> same_val (r_com rt) (r_com rt') x) ->
  (forall x, is_Some (r_ecom rt !! x) -> same_val (r_ecom rt) (r_ecom rt') x) ->
  (forall x, is_Some (r_lcom rt !! x) -> same_val (r_lcom rt) (r_lcom rt') x) ->
  temps_le T T' -> rt_ok dbs num rt' T' uses.
Proof using.
  intros Hok Em Eh C1 C2 C3 C4 V1 V2 V3 V4 Hle.
  apply (rt_ok_stores rt rt' T T' uses); try done.
  - intros l a Ha. destruct (attr_live dbs num rt T uses l a Hok Ha) as (L1 & L2 & L3 & L4). split_and!; intros x Hx; auto.
  - intros x. destruct (Hle x) as (_&_&_&_&?). lia.
  - intros x. destruct (Hle x) as (?&?&?&?&_), (ro_temps _ _ _ _ _ Hok x) as (?&?&?&?&_). split_and!; lia.
  - intros l a Ha H0. destruct (ro_local _ _ _ _ _ Hok l a Ha H0) as (L1 & L2 & L3 & L4).
    split_and!; intros x Hx; destruct (Hle x) as (?&?&?&?&_);
      [pose proof (L1 x Hx) | pose proof (L2 x Hx) | pose proof (L3 x Hx) | pose proof (L4 x Hx)]; lia.
Qed.

(** The temporaries are only looked at. *)
Lemma rt_ok_temps rt T T' uses : rt_ok dbs num rt T uses -> temps_eq T T' -> rt_ok dbs num rt T' uses.
Proof using.
  intros Hok [H1 H2]. apply (rt_ok_grow rt rt T T' uses); try done.
  - eapply counted_ext; [apply (ro_as _ _ _ _ _ Hok) |]. intros l. destruct (H1 l), (H2 l). unfold as_refs. lia.
  - eapply counted_ext; [apply (ro_com _ _ _ _ _ Hok) |]. intros l. destruct (H1 l) as (_&?&_), (H2 l) as (_&?&_). unfold com_refs. lia.
  - eapply counted_ext; [apply (ro_ecom _ _ _ _ _ Hok) |]. intros l. destruct (H1 l) as (_&_&?&_), (H2 l) as (_&_&?&_). unfold ecom_refs. lia.
  - eapply counted_ext; [apply (ro_lcom _ _ _ _ _ Hok) |]. intros l. destruct (H1 l) as (_&_&_&?&_), (H2 l) as (_&_&_&?&_). unfold lcom_refs. lia.
Qed.

(** ... smaller ones, where every attribute is some route's. *)
Lemma rt_ok_shrink rt rt' T T' uses :
  rt_ok dbs num rt T uses -> r_attr rt' = r_attr rt -> attrhash rt' = attrhash rt ->
  counted value_ok (r_as rt') (ashash rt') (as_refs rt T') ->
  counted_com dbs num (r_com rt') (comhash rt') (com_refs rt T') ->
  counted_ecom dbs num (r_ecom rt') (ecomhash rt') (ecom_refs rt T') ->
  counted_lcom dbs (r_lcom rt') (lcomhash rt') (lcom_refs rt T') ->
  (forall x, 0 < as_refs rt T' x -> same_val (r_as rt) (r_as rt') x) ->
  (forall x, 0 < com_refs rt T' x -> same_val (r_com rt) (r_com rt') x) ->
  (forall x, 0 < ecom_refs rt T' x -> same_val (r_ecom rt) (r_ecom rt') x) ->
  (forall x, 0 < lcom_refs rt T' x -> same_val (r_lcom rt) (r_lcom rt') x) ->
  (forall x, t_attr T' x = t_attr T x) ->
  (forall x, 0 <= t_as T' x /\ 0 <= t_com T' x /\ 0 <= t_ecom T' x /\ 0 <= t_lcom T' x) ->
  (forall l a, r_attr rt !! l = Some a -> a_refcnt a <> 0) -> rt_ok dbs num rt' T' uses.
Proof using.
  intros Hok Em Eh C1 C2 C3 C4 V1 V2 V3 V4 Ht Hn Hz.
  apply (rt_ok_stores rt rt' T T' uses); try done.
  - intros l a Ha.
    assert (Hnn : forall l a, r_attr rt !! l = Some a -> 0 <= a_refcnt a) by (intros l' a' Ha'; by apply (ro_attr _ _ _ _ _ Hok l' a')).
    assert (Hw : forall ptr x, ptr a = Some x -> 0 < weight ptr (r_attr rt) x).
    { intros ptr x Hx. pose proof (weight_ge ptr (r_attr rt) x l a Hnn Ha Hx). pose proof (Hnn l a Ha). pose proof (Hz l a Ha). lia. }
    split_and!; intros x Hx; destruct (Hn x) as (?&?&?&?);
      [apply V1; pose proof (Hw a_aspath x Hx); unfold as_refs | apply V2; pose proof (Hw a_community x Hx); unfold com_refs |
       apply V3; pose proof (Hw a_ecommunity x Hx); unfold ecom_refs | apply V4; pose proof (Hw a_lcommunity x Hx); unfold lcom_refs]; lia.
  - intros l a Ha H0. exfalso. by apply (Hz l a Ha).
Qed.

(** One reference more of a kind. *)
Definition add_as (p : option loc) T : temps := mk_temps (bump (t_as T) p 1) (t_com T) (t_ecom T) (t_lcom T) (t_attr T).
Definition add_com (p : option loc) T : temps := mk_temps (t_as T) (bump (t_com T) p 1) (t_ecom T) (t_lcom T) (t_attr T).
Definition add_ecom (p : option loc) T : temps := mk_temps (t_as T) (t_com T) (bump (t_ecom T) p 1) (t_lcom T) (t_attr T).
Definition add_lcom (p : option loc) T : temps := mk_temps (t_as T) (t_com T) (t_ecom T) (bump (t_lcom T) p 1) (t_attr T).

Ltac temps_ineq := let y := fresh "y" in intros y; cbn; unfold bump; repeat case_decide; try discriminate; split_and!; lia.
Ltac temps_tac := split; temps_ineq.
Ltac refs_tac := intros l; unfold as_refs, com_refs, ecom_refs, lcom_refs, add_as, add_com, add_ecom, add_lcom;
  cbn [t_as t_com t_ecom t_lcom]; unfold bump; lia.

Lemma as_grow rt T uses st h p :
  rt_ok dbs num rt T uses -> one_more value_ok (r_as rt) (as_refs rt T) st h p ->
  rt_ok dbs num (with_as rt (st, h)) (add_as p T) uses.
Proof using.
  intros Hok [Hc Hv]. apply (rt_ok_grow rt _ T _ uses); try done; try apply Hok; [| temps_ineq].
  eapply counted_ext; [exact Hc | refs_tac].
Qed.

Lemma com_grow rt T uses st h p :
  rt_ok dbs num rt T uses -> @one_more _ (community_internable dbs None num) (wf 4) (r_com rt) (com_refs rt T) st h p ->
  rt_ok dbs num (with_com rt (st, h)) (add_com p T) uses.
Proof using.
  intros Hok [Hc Hv]. apply (rt_ok_grow rt _ T _ uses); try done; try apply Hok; [| temps_ineq].
  eapply counted_ext; [exact Hc | refs_tac].
Qed.

Lemma ecom_grow rt T uses st h p :
  rt_ok dbs num rt T uses -> @one_more _ (ecommunity_internable dbs None num) ecom_ok (r_ecom rt) (ecom_refs rt T) st h p ->
  rt_ok dbs num (with_ecom rt (st, h)) (add_ecom p T) uses.
Proof using.
  intros Hok [Hc Hv]. apply (rt_ok_grow rt _ T _ uses); try done; try apply Hok; [| temps_ineq].
  eapply counted_ext; [exact Hc | refs_tac].
Qed.

Lemma lcom_grow rt T uses st h p :
  rt_ok dbs num rt T uses -> @one_more _ (lcommunity_internable dbs None) (wf 12) (r_lcom rt) (lcom_refs rt T) st h p ->
  rt_ok dbs num (with_lcom rt (st, h)) (add_lcom p T) uses.
Proof using.
  intros Hok [Hc Hv]. apply (rt_ok_grow rt _ T _ uses); try done; try apply Hok; [| temps_ineq].
  eapply counted_ext; [exact Hc | refs_tac].
Qed.

(** ** One attribute *)

Context (buf : list Z) (Hbuf : bytes_ok buf).
Context (pr : peer).
Hypothesis Hpeer : type (p_base pr) < FUNC_TYPE_MAX.
(** The tables as the message finds them. *)
Context (rt0 : bgp_rt_structs X).

(** [L] is what is held besides what the message holds. *)
Record parse_ok (L : temps) (s : attr_state) : Prop := {
  po_rt : rt_ok dbs num (s_rt s) (hold (s_attr s) (s_as4_path s) L) (rib_uses (rib (s_rt s)));
  po_attrs : r_attr (s_rt s) = r_attr rt0;
  po_rib : rib (s_rt s) = rib rt0;
  po_family : family_ok (ha_family (mp_nexthop (s_attr s)));
  po_refcnt : a_refcnt (s_attr s) = 0
}.

(** What an attribute of a type points to. *)
Definition held_ptr (type : Z) (s : attr_state (X := X)) : option loc :=
  if type =? BGP_ATTR_AS_PATH then a_aspath (s_attr s)
  else if type =? BGP_ATTR_AS4_PATH then s_as4_path s
  else if type =? BGP_ATTR_COMMUNITIES then a_community (s_attr s)
  else if type =? BGP_ATTR_EXT_COMMUNITIES then a_ecommunity (s_attr s)
  else if type =? BGP_ATTR_LARGE_COMMUNITIES then a_lcommunity (s_attr s)
  else None.

(** A family whose NLRI are not labelled and not link states. *)
Definition plain_safi (safi : Z) : bool :=
  negb (existsb (Z.eqb safi) [SAFI_MPLS_LABEL; SAFI_MPLS_VPN; SAFI_LS_GLOBAL; SAFI_LS_VPN]).

Record mp_ok (lim : Z) (n : bgp_nlri) : Prop := {
  mp_start : 0 <= n_nlri n;
  mp_length : 0 <= n_length n < 65536;
  mp_end : n_nlri n + n_length n <= lim;
  mp_safi : plain_safi (n_safi n) = true
}.

Definition mps_ok (lim : Z) (s : attr_state (X := X)) : Prop := mp_ok lim (s_mp_update s) /\ mp_ok lim (s_mp_withdraw s).

(** The MP attribute at [ptr] is of a plain family. *)
Definition mp_plain (type ptr : Z) : Prop :=
  type = BGP_ATTR_MP_REACH_NLRI \/ type = BGP_ATTR_MP_UNREACH_NLRI ->
  forall safi, u8_at buf (ptr + 2) = Ok safi -> plain_safi safi = true.

(** One attribute read, of [type], ending before [lim]; [b] bounds what is held. *)
Definition attr_step (lim type b : Z) (L : temps) (s s' : attr_state) : Prop :=
  exists L', parse_ok L' s' /\ temps_le L L' /\ (held_ptr type s = None -> temps_eq L L') /\
    bounded (hold (s_attr s') (s_as4_path s') L') (b + 1) /\
    (forall t, t <> type -> held_ptr t s' = held_ptr t s) /\ mps_ok lim s'.

(** An attribute without an object behind it. *)
Lemma simple_step lim type b L s s' :
  parse_ok L s -> bounded (hold (s_attr s) (s_as4_path s) L) b -> s_rt s' = s_rt s ->
  a_aspath (s_attr s') = a_aspath (s_attr s) -> a_community (s_attr s') = a_community (s_attr s) ->
  a_ecommunity (s_attr s') = a_ecommunity (s_attr s) -> a_lcommunity (s_attr s') = a_lcommunity (s_attr s) ->
  s_as4_path s' = s_as4_path s -> a_refcnt (s_attr s') = a_refcnt (s_attr s) ->
  family_ok (ha_family (mp_nexthop (s_attr s'))) -> mps_ok lim s' -> attr_step lim type b L s s'.
Proof using.
  intros [H1 H2 H3 H4 H5] Hb Er E1 E2 E3 E4 E5 E6 Hf Hm. exists L.
  assert (Eh : hold (s_attr s') (s_as4_path s') L = hold (s_attr s) (s_as4_path s) L) by (unfold hold; by rewrite E1, E2, E3, E4, E5).
  split_and!; try done.
  - split; [by rewrite Eh, Er | by rewrite Er | by rewrite Er | done | by rewrite E6].
  - rewrite Eh. intros x. destruct (Hb x) as (?&?&?&?&?). split_and!; lia.
  - intros t _. unfold held_ptr. by rewrite E1, E2, E3, E4, E5.
Qed.

(** The objects of the message, counted once more. *)
Lemma bounded_add T T' b : bounded T b -> (exists p, temps_eq T' (add_as p T)) \/ (exists p, temps_eq T' (add_com p T)) \/
    (exists p, temps_eq T' (add_ecom p T)) \/ (exists p, temps_eq T' (add_lcom p T)) -> bounded T' (b + 1).
Proof using.
  intros Hb H x. destruct (Hb x) as (?&?&?&?&?).
  destruct H as [[p [H _]] | [[p [H _]] | [[p [H _]] | [p [H _]]]]]; destruct (H x) as (A1&A2&A3&A4&A5);
    cbn in A1, A2, A3, A4, A5; unfold bump in *; case_decide; split_and!; lia.
Qed.

Hypothesis Hroom : n_routes (rib rt0) < 2 ^ 32 - 2.

Lemma po_room L s b : parse_ok L s -> bounded (hold (s_attr s) (s_as4_path s) L) b -> 0 <= b < 2 ^ 63 -> count_room (s_rt s).
Proof using Hroom. intros [H1 H2 H3 _ _] Hb Hb0. eapply count_room_bound; [exact H1 | exact Hb | lia | rewrite H3; lia]. Qed.

Lemma held_ptr_other type s s' :
  (type <> BGP_ATTR_AS_PATH -> a_aspath (s_attr s') = a_aspath (s_attr s)) ->
  (type <> BGP_ATTR_AS4_PATH -> s_as4_path s' = s_as4_path s) ->
  (type <> BGP_ATTR_COMMUNITIES -> a_community (s_attr s') = a_community (s_attr s)) ->
  (type <> BGP_ATTR_EXT_COMMUNITIES -> a_ecommunity (s_attr s') = a_ecommunity (s_attr s)) ->
  (type <> BGP_ATTR_LARGE_COMMUNITIES -> a_lcommunity (s_attr s') = a_lcommunity (s_attr s)) ->
  forall t, t <> type -> held_ptr t s' = held_ptr t s.
Proof using.
  intros E1 E2 E3 E4 E5 t Ht. unfold held_ptr.
  destruct (Z.eqb_spec t BGP_ATTR_AS_PATH); [apply E1; congruence |].
  destruct (Z.eqb_spec t BGP_ATTR_AS4_PATH); [apply E2; congruence |].
  destruct (Z.eqb_spec t BGP_ATTR_COMMUNITIES); [apply E3; congruence |].
  destruct (Z.eqb_spec t BGP_ATTR_EXT_COMMUNITIES); [apply E4; congruence |].
  destruct (Z.eqb_spec t BGP_ATTR_LARGE_COMMUNITIES); [apply E5; congruence | done].
Qed.

(** What the five attributes that are interned have in common: the tables
    [rt'], the pointer [p]. *)
Lemma pointer_step lim type b L s s' L' T' :
  parse_ok L s -> bounded (hold (s_attr s) (s_as4_path s) L) b -> mps_ok lim s ->
  rt_ok dbs num (s_rt s') T' (rib_uses (rib (s_rt s))) ->
  (exists p, T' = add_as p (hold (s_attr s) (s_as4_path s) L)) \/ (exists p, T' = add_com p (hold (s_attr s) (s_as4_path s) L)) \/
  (exists p, T' = add_ecom p (hold (s_attr s) (s_as4_path s) L)) \/ (exists p, T' = add_lcom p (hold (s_attr s) (s_as4_path s) L)) ->
  temps_eq T' (hold (s_attr s') (s_as4_path s') L') ->
  r_attr (s_rt s') = r_attr (s_rt s) -> rib (s_rt s') = rib (s_rt s) ->
  mp_nexthop (s_attr s') = mp_nexthop (s_attr s) -> a_refcnt (s_attr s') = a_refcnt (s_attr s) ->
  s_mp_update s' = s_mp_update s -> s_mp_withdraw s' = s_mp_withdraw s ->
  temps_le L L' -> (held_ptr type s = None -> temps_eq L L') -> (forall t, t <> type -> held_ptr t s' = held_ptr t s) ->
  attr_step lim type b L s s'.
Proof using.
  intros [H1 H2 H3 H4 H5] Hb [M1 M2] Hok HT Heq Ea Er En Ec Eu Ew Hle Hno Hh. exists L'. split_and!; try done.
  - split; [| congruence | congruence | by rewrite En | by rewrite Ec].
    rewrite Er. by apply (rt_ok_temps _ T').
  - eapply bounded_add; [exact Hb |]. destruct HT as [[p ->] | [[p ->] | [[p ->] | [p ->]]]]; [left | right; left |
      right; right; left | right; right; right]; by exists p.
  - split; by rewrite ?Eu, ?Ew.
Qed.

Lemma drop_length off len : 0 <= off -> off + len <= strlen buf -> len <= strlen (drop (Z.to_nat off) buf).
Proof using. intros H1 H2. unfold strlen in *. rewrite length_drop. lia. Qed.

Section One.
Context (lim b : Z) (L : temps) (s : attr_state (X := X)) (ptr len : Z).
Context (Hs : parse_ok L s) (Hb : bounded (hold (s_attr s) (s_as4_path s) L) b) (Hb0 : 0 <= b < 2 ^ 63) (Hm : mps_ok lim s).
Context (Hptr : 0 <= ptr) (Hlen : 0 <= len < 65536) (Hend : ptr + len <= lim) (Hlim : lim + 31 <= strlen buf).

Lemma aspath_attr : exists s', bgp_attr_parse_aspath dbs buf pr len s ptr = Ok (SUCCESS, s') /\ attr_step lim BGP_ATTR_AS_PATH b L s s'.
Proof using All.
  destruct (aspath_parse_step dbs (p_base pr) Hpeer _ _ _ (drop (Z.to_nat ptr) buf) len (p_4as pr) (ro_as _ _ _ _ _ (po_rt _ _ Hs)))
    as (st & h & p & E & Hp); [apply (po_room L s b Hs Hb Hb0) | by apply Forall_drop | pose proof (drop_length ptr len); lia | lia |].
  unfold bgp_attr_parse_aspath. rewrite E, bind_Ok. eexists. split; [done |].
  apply (pointer_step _ _ _ L s _ (add_as (a_aspath (s_attr s)) L) (add_as p (hold (s_attr s) (s_as4_path s) L))); try done.
  - apply (as_grow _ _ _ _ _ _ (po_rt _ _ Hs) Hp).
  - left. by eexists.
  - temps_tac.
  - temps_ineq.
  - cbn. intros ->. temps_tac.
  - by apply held_ptr_other.
Qed.

Lemma as4path_attr : exists s', bgp_attr_parse_as4path dbs buf pr len s ptr = Ok (SUCCESS, s') /\ attr_step lim BGP_ATTR_AS4_PATH b L s s'.
Proof using All.
  destruct (aspath_parse_step dbs (p_base pr) Hpeer _ _ _ (drop (Z.to_nat ptr) buf) len true (ro_as _ _ _ _ _ (po_rt _ _ Hs)))
    as (st & h & p & E & Hp); [apply (po_room L s b Hs Hb Hb0) | by apply Forall_drop | pose proof (drop_length ptr len); lia | lia |].
  unfold bgp_attr_parse_as4path. rewrite E, bind_Ok. eexists. split; [done |].
  apply (pointer_step _ _ _ L s _ (add_as (s_as4_path s) L) (add_as p (hold (s_attr s) (s_as4_path s) L))); try done.
  - apply (as_grow _ _ _ _ _ _ (po_rt _ _ Hs) Hp).
  - left. by eexists.
  - temps_tac.
  - temps_ineq.
  - cbn. intros ->. temps_tac.
  - by apply held_ptr_other.
Qed.

Lemma read_values_ok w : exists v, read_values buf w ptr len = Ok v /\ bytes_ok v /\ (len mod w = 0 -> strlen v = len).
Proof using All.
  unfold read_values. destruct (Z.eqb_spec (len mod w) 0) as [E | E].
  - destruct (read_bytes_ok buf Hbuf ptr len) as (v & -> & Hv & Hl); [lia.. |]. by exists v.
  - exists []. split; [done |]. by split; [apply Forall_nil_2 |].
Qed.

Lemma community_attr : exists s', bgp_attr_parse_community dbs num buf pr len s ptr = Ok (SUCCESS, s') /\ attr_step lim BGP_ATTR_COMMUNITIES b L s s'.
Proof using All.
  unfold bgp_attr_parse_community. destruct (len =? 0).
  - eexists. split; [done |].
    apply (pointer_step _ _ _ L s _ (add_com (a_community (s_attr s)) L) (add_com None (hold (s_attr s) (s_as4_path s) L))); try done.
    + apply (rt_ok_temps _ _ _ _ (po_rt _ _ Hs)). temps_tac.
    + right; left. by eexists.
    + temps_ineq.
    + cbn. intros ->. temps_tac.
    + by apply held_ptr_other.
  - destruct (read_values_ok 4) as (v & -> & Hv & Hl). rewrite bind_Ok.
    destruct (community_parse_step dbs (p_base pr) Hpeer num (r_com (s_rt s)) (comhash (s_rt s)) _ v len (ro_com _ _ _ _ _ (po_rt _ _ Hs))) as (st & h & p & E & Hp); [apply (po_room L s b Hs Hb Hb0) | done | done |].
    rewrite E, bind_Ok. eexists. split; [done |].
    apply (pointer_step _ _ _ L s _ (add_com (a_community (s_attr s)) L) (add_com p (hold (s_attr s) (s_as4_path s) L))); try done.
    + apply (com_grow _ _ _ _ _ _ (po_rt _ _ Hs) Hp).
    + right; left. by eexists.
    + temps_ineq.
    + cbn. intros ->. temps_tac.
    + by apply held_ptr_other.
Qed.

Lemma ecommunity_attr : exists s', bgp_attr_parse_ecommunity dbs num buf pr len s ptr = Ok (SUCCESS, s') /\ attr_step lim BGP_ATTR_EXT_COMMUNITIES b L s s'.
Proof using All.
  unfold bgp_attr_parse_ecommunity. destruct (len =? 0).
  - eexists. split; [done |].
    apply (pointer_step _ _ _ L s _ (add_ecom (a_ecommunity (s_attr s)) L) (add_ecom None (hold (s_attr s) (s_as4_path s) L))); try done.
    + apply (rt_ok_temps _ _ _ _ (po_rt _ _ Hs)). temps_tac.
    + right; right; left. by eexists.
    + temps_ineq.
    + cbn. intros ->. temps_tac.
    + by apply held_ptr_other.
  - destruct (read_values_ok ECOMMUNITY_SIZE) as (v & -> & Hv & Hl). rewrite bind_Ok.
    destruct (sized_parse_step dbs (p_base pr) Hpeer 8 (ecom_str dbs (Some (p_base pr)) num) (ecommunity_internable dbs None num) ecom_ok
      (HL := ecommunity_laws dbs (Some (p_base pr)) num) (r_ecom (s_rt s)) (ecomhash (s_rt s)) _ v len ltac:(lia) eq_refl eq_refl
      (ecommunity_laws dbs None num) (ro_ecom _ _ _ _ _ (po_rt _ _ Hs))) as (st & h & p & E & Hp); [apply (po_room L s b Hs Hb Hb0) | done | done | intros c Hc Hz; split; [done | pose proof (Z.div_le_mono len 65536 8); change (65536 / 8) with 8192 in *; lia] |].
    unfold ecommunity_parse. change ECOMMUNITY_SIZE with 8. rewrite E, bind_Ok. eexists. split; [done |].
    apply (pointer_step _ _ _ L s _ (add_ecom (a_ecommunity (s_attr s)) L) (add_ecom p (hold (s_attr s) (s_as4_path s) L))); try done.
    + apply (ecom_grow _ _ _ _ _ _ (po_rt _ _ Hs) Hp).
    + right; right; left. by eexists.
    + temps_ineq.
    + cbn. intros ->. temps_tac.
    + by apply held_ptr_other.
Qed.

Lemma lcommunity_attr : exists s', bgp_attr_parse_lcommunity dbs buf pr len s ptr = Ok (SUCCESS, s') /\ attr_step lim BGP_ATTR_LARGE_COMMUNITIES b L s s'.
Proof using All.
  unfold bgp_attr_parse_lcommunity. destruct (len =? 0).
  - eexists. split; [done |].
    apply (pointer_step _ _ _ L s _ (add_lcom (a_lcommunity (s_attr s)) L) (add_lcom None (hold (s_attr s) (s_as4_path s) L))); try done.
    + apply (rt_ok_temps _ _ _ _ (po_rt _ _ Hs)). temps_tac.
    + right; right; right. by eexists.
    + temps_ineq.
    + cbn. intros ->. temps_tac.
    + by apply held_ptr_other.
  - destruct (read_values_ok LCOMMUNITY_SIZE) as (v & -> & Hv & Hl). rewrite bind_Ok.
    destruct (sized_parse_step dbs (p_base pr) Hpeer 12 (lcommunity_lcom2str dbs (Some (p_base pr))) (lcommunity_internable dbs None) (wf 12)
      (HL := lcommunity_laws dbs (Some (p_base pr))) (r_lcom (s_rt s)) (lcomhash (s_rt s)) _ v len ltac:(lia) eq_refl eq_refl
      (lcommunity_laws dbs None) (ro_lcom _ _ _ _ _ (po_rt _ _ Hs))) as (st & h & p & E & Hp); [apply (po_room L s b Hs Hb Hb0) | done | done | done |].
    unfold lcommunity_parse. change LCOMMUNITY_SIZE with 12. rewrite E, bind_Ok. eexists. split; [done |].
    apply (pointer_step _ _ _ L s _ (add_lcom (a_lcommunity (s_attr s)) L) (add_lcom p (hold (s_attr s) (s_as4_path s) L))); try done.
    + apply (lcom_grow _ _ _ _ _ _ (po_rt _ _ Hs) Hp).
    + right; right; right. by eexists.
    + temps_ineq.
    + cbn. intros ->. temps_tac.
    + by apply held_ptr_other.
Qed.

(** The attributes kept in the structure itself. *)
Definition attr_like (a a' : bgp_attr) : Prop :=
  (a_aspath a' = a_aspath a /\ a_community a' = a_community a /\ a_ecommunity a' = a_ecommunity a /\
   a_lcommunity a' = a_lcommunity a /\ a_refcnt a' = a_refcnt a) /\ family_ok (ha_family (mp_nexthop a')).

Lemma attr_like_refl : attr_like (s_attr s) (s_attr s).
Proof using Hs. split; [done | apply (po_family _ _ Hs)]. Qed.

Lemma like_step type s' : s_rt s' = s_rt s -> s_as4_path s' = s_as4_path s -> attr_like (s_attr s) (s_attr s') -> mps_ok lim s' ->
  attr_step lim type b L s s'.
Proof using Hs Hb. intros E1 E2 [(E3 & E4 & E5 & E6 & E7) Hf] Hm'. by apply simple_step. Qed.

Lemma nexthop_ok : exists r, bgp_attr_parse_nexthop buf len (s_attr s) ptr = Ok r /\ attr_like (s_attr s) (snd r).
Proof using All.
  unfold bgp_attr_parse_nexthop. destruct (Z.eqb_spec len 4) as [El|]; cbn [negb]; [| eexists; split; [done | apply attr_like_refl]].
  destruct (read_bytes_ok buf Hbuf ptr 4) as (v & -> & _); [lia.. |]. rewrite bind_Ok. eexists. split; [done | apply attr_like_refl].
Qed.

Lemma med_ok : exists r, bgp_attr_parse_med buf len (s_attr s) ptr = Ok r /\ attr_like (s_attr s) (snd r).
Proof using All.
  unfold bgp_attr_parse_med. destruct (Z.eqb_spec len 4) as [El|]; cbn [negb]; [| eexists; split; [done | apply attr_like_refl]].
  destruct (be32_at_ok buf Hbuf ptr) as (v & -> & _); [lia.. |]. rewrite bind_Ok. eexists. split; [done | apply attr_like_refl].
Qed.

Lemma local_pref_ok : exists r, bgp_attr_parse_local_pref buf len (s_attr s) ptr = Ok r /\ attr_like (s_attr s) (snd r).
Proof using All.
  unfold bgp_attr_parse_local_pref. destruct (Z.eqb_spec len 4) as [El|]; cbn [negb]; [| eexists; split; [done | apply attr_like_refl]].
  destruct (be32_at_ok buf Hbuf ptr) as (v & -> & _); [lia.. |]. rewrite bind_Ok. eexists. split; [done | apply attr_like_refl].
Qed.

Lemma origin_ok : exists r, bgp_attr_parse_origin buf len (s_attr s) ptr = Ok r /\ attr_like (s_attr s) (snd r).
Proof using All.
  unfold bgp_attr_parse_origin. destruct (Z.eqb_spec len 1) as [El|]; cbn [negb]; [| eexists; split; [done | apply attr_like_refl]].
  destruct (u8_at_ok buf Hbuf ptr) as (v & -> & _); [lia |]. rewrite bind_Ok. eexists. split; [done | apply attr_like_refl].
Qed.

Lemma aigp_ok e : exists r, bgp_attr_parse_aigp buf len e ptr = Ok r.
Proof using All.
  unfold bgp_attr_parse_aigp. destruct (len <? 3); [by eexists |]. destruct (len =? 3); [by eexists |].
  destruct (Z.eqb_spec len 11); [| by eexists].
  destruct (be32_at_ok buf Hbuf (ptr + 3)) as (v & -> & _); [lia.. |]. rewrite bind_Ok.
  destruct (be32_at_ok buf Hbuf (ptr + 7)) as (w & -> & _); [lia.. |]. by eexists.
Qed.

Lemma prefix_sid_ok e : exists r, bgp_attr_parse_prefix_sid buf len e ptr = Ok r.
Proof using All.
  unfold bgp_attr_parse_prefix_sid. destruct (Z.ltb_spec len 3); [by eexists |].
  destruct (u8_at_ok buf Hbuf ptr) as (v & -> & _); [lia |]. rewrite bind_Ok.
  destruct (be16_at_ok buf Hbuf (ptr + 1)) as (w & -> & _); [lia.. |]. rewrite bind_Ok.
  destruct (v =? _); [| by eexists]. destruct (w =? 7); [| by eexists].
  destruct (be32_at_ok buf Hbuf (ptr + 6)) as (x & -> & _); [lia.. |]. by eexists.
Qed.

Lemma otc_ok e : exists r, bgp_attr_parse_otc buf len e ptr = Ok r.
Proof using All.
  unfold bgp_attr_parse_otc. destruct (Z.ltb_spec len 4); [by eexists |].
  destruct (be32_at_ok buf Hbuf ptr) as (x & -> & _); [lia.. |]. by eexists.
Qed.

(** ** The MP attributes *)

Lemma mp_nexthop_ok n p : 0 <= p -> p + n <= strlen buf -> n = 4 \/ n = 12 \/ n = 16 \/ n = 24 \/ n = 32 \/ n = 48 ->
  exists h, mp_reach_nexthop buf n p = Ok h /\ family_ok (ha_family h).
Proof using All.
  intros H1 H2 Hn. unfold mp_reach_nexthop.
  destruct (Z.eqb_spec n 4); [destruct (read_bytes_ok buf Hbuf p 4) as (v & -> & _); [lia.. |]; eexists; split; [done | right; by left] |].
  destruct (Z.eqb_spec n 12); [destruct (read_bytes_ok buf Hbuf (p + 8) 4) as (v & -> & _); [lia.. |]; eexists; split; [done | right; by left] |].
  destruct (Z.eqb_spec n 16), (Z.eqb_spec n 32); cbn [orb];
    try (destruct (read_bytes_ok buf Hbuf p 16) as (v & -> & _); [lia.. |]; eexists; split; [done | by right; right]).
  destruct (Z.eqb_spec n 24); [destruct (read_bytes_ok buf Hbuf (p + 8) 16) as (v & -> & _); [lia.. |]; eexists; split; [done | by right; right] |].
  eexists. split; [done | by left].
Qed.

Lemma existsb_eqb v l : existsb (Z.eqb v) l = true -> v ∈ l.
Proof using. intros (x & Hx & ->%Z.eqb_eq)%existsb_exists. by apply list_elem_of_In. Qed.

Lemma mp_reach_ok : mp_plain BGP_ATTR_MP_REACH_NLRI ptr ->
  exists ret a n, bgp_attr_parse_mp_reach buf len (s_attr s) ptr (s_mp_update s) = Ok (ret, a, n) /\ attr_like (s_attr s) a /\ mp_ok lim n.
Proof using All.
  intros Hp. unfold bgp_attr_parse_mp_reach, BGP_MP_REACH_MIN_SIZE. pose proof attr_like_refl as Hr.
  destruct (Z.ltb_spec len 5); [eexists _, _, _; split; [done | split; [done | apply Hm]] |].
  destruct (be16_at_ok buf Hbuf ptr) as (afi & -> & _); [lia.. |]. rewrite bind_Ok.
  destruct (u8_at_ok buf Hbuf (ptr + 2)) as (safi & Esafi & _); [lia |]. rewrite Esafi, bind_Ok.
  destruct (u8_at_ok buf Hbuf (ptr + 3)) as (n & -> & Hn8); [lia |]. rewrite bind_Ok. cbv zeta. unfold in_u in Hn8.
  rewrite (u16_small (len - 4)) by lia.
  destruct (existsb _ _) eqn:Ex; [| eexists _, _, _; split; [done | split; [done | apply Hm]]].
  destruct (Z.ltb_spec n (len - 4)); [| eexists _, _, _; split; [done | split; [done | apply Hm]]].
  apply existsb_eqb in Ex. rewrite !elem_of_cons, elem_of_nil in Ex.
  destruct (mp_nexthop_ok n (ptr + 4)) as (h & -> & Hh); [lia | lia | intuition lia |]. rewrite bind_Ok.
  rewrite u16_small by lia.
  assert (Hl : attr_like (s_attr s) (with_mp_nexthop h (s_attr s))) by (by split).
  destruct (_ || _); [eexists _, _, _; split; [done | split; [done | apply Hm]] |].
  eexists _, _, _. split; [done |]. split; [done |]. split; cbn; [lia | lia | lia |].
  apply Hp; [by left | done].
Qed.

Lemma mp_unreach_ok : mp_plain BGP_ATTR_MP_UNREACH_NLRI ptr ->
  exists ret n, bgp_attr_parse_mp_unreach buf len ptr (s_mp_withdraw s) = Ok (ret, n) /\ mp_ok lim n.
Proof using All.
  intros Hp. unfold bgp_attr_parse_mp_unreach, BGP_MP_UNREACH_MIN_SIZE.
  destruct (Z.ltb_spec len 3); [eexists _, _; split; [done | apply Hm] |].
  destruct (be16_at_ok buf Hbuf ptr) as (afi & -> & _); [lia.. |]. rewrite bind_Ok.
  destruct (u8_at_ok buf Hbuf (ptr + 2)) as (safi & Esafi & _); [lia |]. rewrite Esafi, bind_Ok.
  eexists _, _. split; [done |]. rewrite u16_small by lia. split; cbn; [lia | lia | lia |]. apply Hp; [by right | done].
Qed.

(** Whatever the type of the attribute. *)
Lemma attr_switch_ok type : mp_plain type ptr ->
  exists ret s', attr_switch dbs num buf pr type len ptr s = Ok (ret, s') /\ attr_step lim type b L s s'.
Proof using All.
  intros Hp. unfold attr_switch.
  destruct (Z.eqb_spec type BGP_ATTR_AS_PATH) as [->|]; [destruct aspath_attr as (s' & -> & H); by eexists _, _ |].
  destruct (Z.eqb_spec type BGP_ATTR_AS4_PATH) as [->|]; [destruct as4path_attr as (s' & -> & H); by eexists _, _ |].
  destruct (type =? BGP_ATTR_NEXT_HOP).
  { destruct nexthop_ok as (r & -> & H). eexists _, _. split; [done | by apply like_step]. }
  destruct (Z.eqb_spec type BGP_ATTR_COMMUNITIES) as [->|]; [destruct community_attr as (s' & -> & H); by eexists _, _ |].
  destruct (Z.eqb_spec type BGP_ATTR_EXT_COMMUNITIES) as [->|]; [destruct ecommunity_attr as (s' & -> & H); by eexists _, _ |].
  destruct (Z.eqb_spec type BGP_ATTR_LARGE_COMMUNITIES) as [->|]; [destruct lcommunity_attr as (s' & -> & H); by eexists _, _ |].
  destruct (type =? BGP_ATTR_MULTI_EXIT_DISC).
  { destruct med_ok as (r & -> & H). eexists _, _. split; [done | by apply like_step]. }
  destruct (type =? BGP_ATTR_LOCAL_PREF).
  { destruct local_pref_ok as (r & -> & H). eexists _, _. split; [done | by apply like_step]. }
  destruct (type =? BGP_ATTR_ORIGIN).
  { destruct origin_ok as (r & -> & H). eexists _, _. split; [done | by apply like_step]. }
  destruct (Z.eqb_spec type BGP_ATTR_MP_REACH_NLRI) as [->|].
  { destruct mp_reach_ok as (ret & a & mp & -> & Ha & Hmp); [done |]. eexists _, _. split; [done |].
    apply like_step; [done | done | done |]. split; [done | apply Hm]. }
  destruct (Z.eqb_spec type BGP_ATTR_MP_UNREACH_NLRI) as [->|].
  { destruct mp_unreach_ok as (ret & mp & -> & Hmp); [done |]. eexists _, _. split; [done |].
    apply like_step; [done | done | apply attr_like_refl |]. split; [apply Hm | done]. }
  destruct (type =? BGP_ATTR_AIGP).
  { destruct (aigp_ok (s_extra s)) as (r & ->). eexists _, _. split; [done |]. by apply like_step; [| | apply attr_like_refl |]. }
  destruct (type =? BGP_ATTR_PREFIX_SID).
  { destruct (prefix_sid_ok (s_extra s)) as (r & ->). eexists _, _. split; [done |]. by apply like_step; [| | apply attr_like_refl |]. }
  destruct (type =? BGP_ATTR_OTC).
  { destruct (otc_ok (s_extra s)) as (r & ->). eexists _, _. split; [done |]. by apply like_step; [| | apply attr_like_refl |]. }
  destruct (type =? BGP_ATTR_BGP_LS); (eexists _, _; split; [done |]; by apply like_step; [| | apply attr_like_refl |]).
Qed.

End One.

(** ** The loop *)

(** The attributes of a message, as their types and where their values
    start, up to the first one that does not fit. *)
Definition attr_header (ptr to_the_end : Z) : res (Z * Z * Z * Z) :=
  flag ← u8_at buf ptr;
  type ← u8_at buf (ptr + 1);
  if negb (Z.land flag BGP_ATTR_FLAG_EXTLEN =? 0)
  then n ← be16_at buf (ptr + 2); Ok (type, n, ptr + 4, to_the_end - 4)
  else n ← u8_at buf (ptr + 2); Ok (type, n, ptr + 3, to_the_end - 3).

Fixpoint attr_list (fuel : nat) (ptr to_the_end : Z) : list (Z * Z) :=
  match fuel with
  | O => []
  | S f =>
      if to_the_end <? BGP_ATTR_MIN_LEN then []
      else match attr_header ptr to_the_end with
           | Ok (type, len, ptr, to_the_end) =>
               if to_the_end <? len then [] else (type, ptr) :: attr_list f (ptr + len) (to_the_end - len)
           | Err _ => []
           end
  end.

Lemma attr_loop_step fuel ptr to_the_end (s : attr_state (X := X)) :
  attr_loop dbs num buf (S fuel) pr ptr to_the_end s =
    if negb (0 <? to_the_end) then Ok (SUCCESS, s)
    else if to_the_end <? BGP_ATTR_MIN_LEN then Ok (ERR, s)
    else '(type, len, ptr, to_the_end) ← attr_header ptr to_the_end;
         if to_the_end <? len then Ok (ERR, s)
         else '(ret, s) ← attr_switch dbs num buf pr type len ptr s;
              if ret <? 0 then Ok (ret, s) else attr_loop dbs num buf fuel pr (ptr + len) (to_the_end - len) s.
Proof using.
  cbn [attr_loop]. destruct (negb (0 <? to_the_end)); [done |]. destruct (to_the_end <? BGP_ATTR_MIN_LEN); [done |].
  unfold attr_header. destruct (u8_at buf ptr) as [flag|]; [| done]. rewrite !bind_Ok.
  destruct (u8_at buf (ptr + 1)) as [ty|]; [| done]. rewrite !bind_Ok.
  destruct (negb _); [destruct (be16_at buf (ptr + 2)) | destruct (u8_at buf (ptr + 2))]; done.
Qed.

Lemma attr_header_ok ptr to_the_end : 0 <= ptr -> ptr + 4 <= strlen buf ->
  exists type len k, attr_header ptr to_the_end = Ok (type, len, ptr + k, to_the_end - k) /\ is_u16 len /\ 3 <= k <= 4.
Proof using Hbuf.
  intros H1 H2. unfold attr_header. destruct (u8_at_ok buf Hbuf ptr) as (flag & -> & _); [lia |]. rewrite bind_Ok.
  destruct (u8_at_ok buf Hbuf (ptr + 1)) as (ty & -> & _); [lia |]. rewrite bind_Ok. destruct (negb _).
  - destruct (be16_at_ok buf Hbuf (ptr + 2)) as (n & -> & Hn); [lia.. |]. rewrite bind_Ok. by exists ty, n, 4.
  - destruct (u8_at_ok buf Hbuf (ptr + 2)) as (n & -> & Hn); [lia |]. rewrite bind_Ok. exists ty, n, 3.
    split; [done |]. split; [| done]. unfold in_u in *. lia.
Qed.

(** Whatever the attributes: the parser ends, inside the message, and the only
    references that are lost are those of an attribute that comes twice. *)
Lemma attr_loop_ok lim : lim + 31 <= strlen buf -> forall fuel ptr left s L b,
  parse_ok L s -> bounded (hold (s_attr s) (s_as4_path s) L) b -> 0 <= b -> b + left < 2 ^ 63 -> mps_ok lim s ->
  0 <= ptr -> 0 <= left -> ptr + left <= lim -> left < Z.of_nat fuel ->
  Forall (fun '(type, ptr) => mp_plain type ptr) (attr_list fuel ptr left) ->
  exists ret s' L', attr_loop dbs num buf fuel pr ptr left s = Ok (ret, s') /\ parse_ok L' s' /\ temps_le L L' /\
    bounded (hold (s_attr s') (s_as4_path s') L') (b + left) /\ mps_ok lim s' /\
    (NoDup (map fst (attr_list fuel ptr left)) ->
     (forall t, t ∈ map fst (attr_list fuel ptr left) -> held_ptr t s = None) -> temps_eq L L').
Proof using Hbuf Hpeer Hroom.
  intros Hlim. induction fuel as [|fuel IH]; intros ptr left s L b Hs Hb Hb0 Hb63 Hm Hp Hl Hend Hf Hmp; [lia |].
  assert (Hstop : forall ret : Z, exists (ret' : Z) s' L', Ok (ret, s) = Ok (ret', s') /\ parse_ok L' s' /\ temps_le L L' /\
    bounded (hold (s_attr s') (s_as4_path s') L') (b + left) /\ mps_ok lim s' /\
    (NoDup (map fst (attr_list (S fuel) ptr left)) ->
     (forall t, t ∈ map fst (attr_list (S fuel) ptr left) -> held_ptr t s = None) -> temps_eq L L')).
  { intros ret. exists ret, s, L. split_and!; try done. intros x. destruct (Hb x) as (?&?&?&?&?). split_and!; lia. }
  rewrite attr_loop_step. destruct (Z.ltb_spec 0 left); cbn [negb]; [| apply Hstop].
  cbn [attr_list] in Hmp |- *. destruct (left <? BGP_ATTR_MIN_LEN) eqn:Emin; [cbn [attr_list] in Hstop; rewrite Emin in Hstop; apply Hstop |].
  apply Z.ltb_ge in Emin. unfold BGP_ATTR_MIN_LEN in Emin.
  destruct (attr_header_ok ptr left) as (type & len & k & E & Hlen & Hk); [lia.. |].
  cbn [attr_list] in Hstop. rewrite (proj2 (Z.ltb_ge left BGP_ATTR_MIN_LEN)) in Hstop by (unfold BGP_ATTR_MIN_LEN; lia).
  rewrite E in Hmp, Hstop |- *. rewrite bind_Ok. destruct (Z.ltb_spec (left - k) len) as [|Hfit]; [apply Hstop |].
  apply Forall_cons in Hmp as [Hmp1 Hmp]. unfold in_u in Hlen.
  destruct (attr_switch_ok lim b L s (ptr + k) len Hs Hb) with (type := type)
    as (ret & s1 & -> & L1 & Hs1 & Hle1 & Hno1 & Hb1 & Hh1 & Hm1); [lia | done | lia | lia | lia | lia | done |].
  rewrite bind_Ok. destruct (ret <? 0).
  - exists ret, s1, L1. split_and!; try done.
    + intros x. destruct (Hb1 x) as (?&?&?&?&?). split_and!; lia.
    + intros _ Hn. apply Hno1, Hn. by left.
  - destruct (IH (ptr + k + len) (left - k - len) s1 L1 (b + 1)) as (ret' & s' & L' & -> & Hs' & Hle' & Hb' & Hm' & Hno');
      try done; [lia.. |].
    exists ret', s', L'. split_and!; try done.
    + by etrans.
    + intros x. destruct (Hb' x) as (?&?&?&?&?). split_and!; lia.
    + cbn [map fst]. intros [Hni Hnd]%NoDup_cons Hn. etrans; [apply Hno1, Hn; by left |]. apply Hno'; [done |].
      intros t Ht. rewrite Hh1; [apply Hn; by right |]. intros ->. done.
Qed.

(** ** All of them *)

Hypothesis H4as : p_4as pr = true.
Hypothesis Hzeros : forall l a, r_attr rt0 !! l = Some a -> a_refcnt a <> 0.

(** The message is through with AS4_PATH. *)
Lemma release_as4 L s l : parse_ok L s -> s_as4_path s = Some l -> (forall x, 0 <= t_as L x) ->
  exists sh, aspath_unintern (Some (p_base pr)) (r_as (s_rt s)) (ashash (s_rt s)) l = Ok sh /\
    rt_ok dbs num (with_as (s_rt s) sh) (hold (s_attr s) None L) (rib_uses (rib (s_rt s))).
Proof using Hpeer Hzeros.
  intros [H1 H2 H3 H4 H5] El Hl0.
  assert (Hpos : forall x, 0 <= weight a_aspath (r_attr (s_rt s)) x).
  { intros x. apply weight_nonneg. intros j c Hj. by apply (ro_attr _ _ _ _ _ H1 j c). }
  assert (Hheld : forall x, Some l = Some x -> 0 < as_refs (s_rt s) (hold (s_attr s) (s_as4_path s) L) x).
  { intros x [= <-]. pose proof (Hpos l). pose proof (Hl0 l). unfold as_refs. cbn. rewrite El. unfold bump.
    rewrite (decide_True (P := Some l = Some l)) by done. case_decide; lia. }
  destruct (unintern_ptr_step value_ok (p_base pr) Hpeer (r_as (s_rt s)) (ashash (s_rt s)) _ (Some l) (ro_as _ _ _ _ _ H1) Hheld)
    as (st & h & E & Hc & Hv).
  assert (Hrefs : forall x, as_refs (s_rt s) (hold (s_attr s) None L) x = bump (as_refs (s_rt s) (hold (s_attr s) (s_as4_path s) L)) (Some l) (-1) x).
  { intros x. unfold as_refs. cbn. rewrite El. unfold bump. repeat case_decide; try discriminate; lia. }
  exists (st, h). split; [exact E |].
  apply (rt_ok_shrink (s_rt s) _ (hold (s_attr s) (s_as4_path s) L)); try done; try apply H1.
  - eapply counted_ext; [exact Hc | exact Hrefs].
  - intros x Hx. apply Hv. by rewrite <- Hrefs.
  - intros x. destruct (ro_temps _ _ _ _ _ H1 x) as (_ & ? & ? & ? & _). split; [| by split_and!].
    pose proof (Hl0 x). cbn. unfold bump. repeat case_decide; lia.
  - intros j c. rewrite H2. apply Hzeros.
Qed.

(** [bgp_attr_parse]: with the status the references to AS4_PATH are told. *)
Lemma attr_parse_ok lim ptr len s L b :
  parse_ok L s -> bounded (hold (s_attr s) (s_as4_path s) L) b -> 0 <= b -> b + len < 2 ^ 63 -> mps_ok lim s ->
  0 <= ptr -> 0 <= len -> ptr + len <= lim -> lim + 31 <= strlen buf -> (forall x, 0 <= t_as L x) ->
  let l := attr_list (S (Z.to_nat len)) ptr len in
  Forall (fun '(type, ptr) => mp_plain type ptr) l ->
  exists ret s' L' q, bgp_attr_parse dbs num buf pr ptr len s = Ok (ret, s') /\ temps_le L L' /\
    rt_ok dbs num (s_rt s') (hold (s_attr s') q L') (rib_uses (rib (s_rt s'))) /\ (0 <= ret -> q = None) /\
    r_attr (s_rt s') = r_attr rt0 /\ rib (s_rt s') = rib rt0 /\ family_ok (ha_family (mp_nexthop (s_attr s'))) /\
    a_refcnt (s_attr s') = 0 /\ bounded (hold (s_attr s') q L') (b + len) /\ mps_ok lim s' /\
    (NoDup (map fst l) -> (forall t, t ∈ map fst l -> held_ptr t s = None) -> temps_eq L L').
Proof using Hbuf Hpeer Hroom H4as Hzeros.
  intros Hs Hb Hb0 Hb63 Hm Hp Hl Hend Hlim Hl0 l Hmp. unfold bgp_attr_parse. rewrite (peer_misc_db dbs _ Hpeer).
  destruct (attr_loop_ok lim Hlim (S (Z.to_nat len)) ptr len s L b) as (ret & s1 & L1 & -> & Hs1 & Hle & Hb1 & Hm1 & Hno);
    try done; [lia |].
  rewrite bind_Ok. destruct (Z.ltb_spec ret 0) as [Hneg | Hnn].
  { destruct Hs1 as [G1 G2 G3 G4 G5]. exists ret, s1, L1, (s_as4_path s1). split_and!; try done. lia. }
  destruct (s_as4_path s1) as [l4|] eqn:E4.
  2: { destruct Hs1 as [G1 G2 G3 G4 G5]. rewrite E4 in G1. exists SUCCESS, s1, L1, None. by split_and!. }
  unfold bgp_attr_munge_as4path. rewrite H4as, bind_Ok.
  destruct (release_as4 L1 s1 l4 Hs1 E4) as (sh & -> & Hok).
  { intros x. destruct (Hle x) as (?&_). pose proof (Hl0 x). lia. }
  rewrite bind_Ok. destruct Hs1 as [G1 G2 G3 G4 G5]. cbn [SUCCESS Z.ltb Z.compare]. exists SUCCESS. eexists. exists L1, None.
  split; [done |]. split_and!; try done.
  intros x. destruct (Hb1 x) as (B1 & B2 & B3 & B4 & B5). split_and!; try done.
  revert B1. cbn. rewrite ?E4. unfold bump. repeat case_decide; try discriminate; lia.
Qed.

End Parse.

End BgpAttrParseFacts.
