(* ===== verification/BgpUpdateFacts.v ===== *)
(** * UPDATE messages: nothing faults, nothing dangles, nothing leaks

    [bgp_parse_update_msg] as a step of the tables: from a state where
    everything is counted to another one, whatever the octets of the message,
    on sessions with four-octet AS numbers and for families without labels. *)

From S2P Require Import Prelude CBuf Bgp BgpPrefix BgpTable BgpTableFacts BgpRoutes BgpHash BgpHashFacts BgpInternFacts.
From S2P Require Import Aspath AspathFacts Communities CommunitiesFacts BgpAttr BgpAttrFacts BgpRib BgpRibFacts BgpRouterFacts.
From S2P Require Import BgpNlri BgpNlriFacts BgpUpdate BgpAttrParseFacts.

Module BgpUpdateFacts.
Import CBuf Bgp BgpPrefix BgpTable BgpTableFacts BgpRoutes BgpHash BgpHashFacts BgpIntern BgpInternFacts Aspath AspathFacts
  Communities CommunitiesFacts BgpAttr BgpAttrFacts BgpRib BgpRibFacts BgpRouterFacts BgpNlri BgpNlriFacts BgpUpdate
  BgpAttrParseFacts.

Section Message.
Context {X : Type}.
Context (dbs : misc_dbs) (past : Z) (num : bool).
Context (msglog : bool).
Context (route_info_modulo : bgp_misc_structs -> peer -> option rd_t -> option Z -> Z -> Z).
Context (bmed_id : X -> Z).
Context (bgp_extra_data_cmp : option (X -> X -> Z)).
Context (bgp_extra_data_process : option (X -> X -> Z -> Z -> X)).
Context (bmed0 extra : X).
Context (ls_parse : peer * bgp_rt_structs X -> option loc -> bgp_attr_extra -> bgp_nlri -> Z -> res (peer * bgp_rt_structs X)).
Context (buf : list Z) (Hbuf : bytes_ok buf).
Context (pr0 : peer).
Let base := p_base pr0.
Hypothesis Hpeer : type base < FUNC_TYPE_MAX.
Hypothesis Hrw : is_readonly (dbs (type base)) = false.
Hypothesis Hmodulo : forall pr rd path_id, p_base pr = base ->
  (Z.to_nat (route_info_modulo (dbs (type base)) pr rd path_id (table_per_peer_buckets (dbs (type base))))
     < info_buckets (dbs (type base)))%nat.
Implicit Types (rt : bgp_rt_structs X) (T L : temps).

Abbreviation process := (process_prefix dbs past num false msglog route_info_modulo bmed_id
  bgp_extra_data_cmp bgp_extra_data_process bmed0 extra).
Abbreviation parse_nlri := (bgp_nlri_parse dbs past num buf false msglog route_info_modulo bmed_id
  bgp_extra_data_cmp bgp_extra_data_process bmed0 extra).
Abbreviation block := (nlri_block dbs past num buf false msglog route_info_modulo bmed_id
  bgp_extra_data_cmp bgp_extra_data_process bmed0 extra).

(** ** The prefixes *)

Context (T : temps) (b : Z) (Hb : bounded T b) (Hb0 : 0 <= b < 2 ^ 63).
Context (attr : loc) (a : bgp_attr) (Ha0 : a_refcnt a = 0).
(** The tables there are, the unicast ones among them. *)
Context (D : gset (Z * Z)) (HD : (AFI_IP, SAFI_UNICAST) ∈ D) (HD6 : (AFI_IP6, SAFI_UNICAST) ∈ D).

(** While the prefixes of a message are processed: [n] bounds the routes. *)
Record during (n : Z) (st : peer * bgp_rt_structs X) : Prop := {
  du_peer : same_peer pr0 (fst st);
  du_good : good dbs num (Some attr) (fst st) (snd st) T;
  du_routes : n_routes (rib (snd st)) <= n;
  du_tables : dom (rib (snd st)) = D;
  du_attr : r_attr (snd st) !! attr = Some a
}.

Lemma same_peer_base pr : same_peer pr0 pr -> p_base pr = base.
Proof using. by intros [n ->]. Qed.

Lemma during_mono n n' st : during n st -> n <= n' -> during n' st.
Proof using. intros [H1 H2 H3 H4 H5] Hn. split; [done | done | lia | done | done]. Qed.

Lemma process_step o afi safi n st p e idx :
  (afi = AFI_IP \/ afi = AFI_IP6) -> safi = SAFI_UNICAST -> o = None \/ o = Some attr ->
  during n st -> n < 2 ^ 32 - 2 -> prefix_read afi safi p ->
  exists st', process o afi safi st p e idx = Ok st' /\ during (n + 1) st'.
Proof using All.
  intros Hafi -> Ho [H1 H2 H3 H4 H5] Hn Hp%prefix_read_wf; [| done]. destruct st as [pr rt]. cbn [fst snd] in *.
  pose proof (same_peer_base _ H1) as Eb. unfold process_prefix.
  assert (Ht : is_Some (rib rt !! (afi, SAFI_UNICAST))) by (apply elem_of_dom; rewrite H4; by destruct Hafi as [-> | ->]).
  destruct Ho as [-> | ->].
  - destruct (good_withdraw dbs past num route_info_modulo bmed_id bgp_extra_data_cmp extra base Hpeer Hrw Hmodulo
      (Some attr) pr rt T b p e afi SAFI_UNICAST idx H2 Eb Hb Hb0 ltac:(lia) Ht Hp)
      as (pr' & rt' & -> & Hg & Hsp & Hr & Hd & Hz).
    rewrite bind_Ok. eexists. split; [done |]. split; cbn [fst snd]; [by eapply same_peer_trans | done | lia | by rewrite Hd |].
    by apply Hz.
  - destruct (good_update dbs past num msglog route_info_modulo bmed_id bgp_extra_data_cmp bgp_extra_data_process bmed0 extra
      base Hpeer Hrw Hmodulo attr a pr rt T b p e afi SAFI_UNICAST idx H2 Eb Hb Hb0 ltac:(lia) Ht Hp H5 Ha0)
      as (pr' & rt' & -> & Hg & Hsp & Hr & Hd & Ha').
    rewrite bind_Ok. eexists. split; [done |]. by split; cbn [fst snd]; [eapply same_peer_trans | | lia | rewrite Hd |].
Qed.

Definition uduring (n : Z) (u : update_state (X := X)) : Prop := during n (u_peer u, u_rt u).

(** One of the six blocks. *)
Lemma block_ok families o info ty n u parsed :
  (negb (n_length info =? 0) && families = true ->
     (n_afi info = AFI_IP \/ n_afi info = AFI_IP6) /\ n_safi info = SAFI_UNICAST) ->
  o = None \/ o = Some attr -> uduring n u -> 0 <= n_nlri info -> 0 <= n_length info ->
  n + n_length info <= 2 ^ 32 - 2 -> n_nlri info + n_length info + 31 <= strlen buf ->
  exists u' parsed', block families o info ty (u, parsed) = Ok (u', parsed') /\ uduring (n + n_length info) u'.
Proof using All.
  intros Hf Ho Hu H1 H2 H3 H4. unfold nlri_block. destruct (negb _ && families).
  2: { eexists _, _. split; [done |]. eapply during_mono; [exact Hu | lia]. }
  destruct (Hf eq_refl) as [Hafi Hsafi]. unfold bgp_nlri_parse.
  assert (Eb : p_base (u_peer u) = base) by (apply same_peer_base; apply (du_peer _ _ Hu)).
  rewrite Eb, (peer_misc_db dbs base Hpeer). unfold nlri_walk.
  destruct (nlri_loop_any buf (n_afi info) (n_safi info) ty (add_paths (u_peer u) (n_afi info) (n_safi info)) Hbuf Hafi
    (process o (n_afi info) (n_safi info)) during (2 ^ 32 - 2) during_mono) with
    (fuel := S (Z.to_nat (n_length info))) (n := n) (st := (u_peer u, u_rt u)) (e := u_extra u) (count := u_nlri_count u)
    (pnt := n_nlri info) (lim := n_nlri info + n_length info) (end_ := n_length info) (idx := 0)
    as (ret & st' & e' & c' & -> & Hst & _); [| done | lia..|].
  { intros m st p e idx Hm Hlt Hp. by apply process_step. }
  rewrite !bind_Ok. eexists _, _. split; [done |]. eapply during_mono; [destruct st'; exact Hst | lia].
Qed.

(** Link states are not plain. *)
Lemma ls_block_plain o info ty st : plain_safi (n_safi info) = true -> ls_block ls_parse o info ty st = Ok st.
Proof using All.
  intros Hp. destruct st as [u parsed]. unfold ls_block.
  assert (E : (n_safi info =? SAFI_LS_GLOBAL) || (n_safi info =? SAFI_LS_VPN) = false).
  { unfold plain_safi in Hp. cbn [existsb] in Hp. destruct (n_safi info =? SAFI_LS_GLOBAL), (n_safi info =? SAFI_LS_VPN);
      by rewrite ?orb_true_r in Hp. }
  by rewrite E, andb_false_r.
Qed.

Lemma mp_family_plain afi info : plain_safi (n_safi info) = true -> afi = AFI_IP \/ afi = AFI_IP6 ->
  negb (n_length info =? 0) && mp_family afi info = true ->
  (n_afi info = AFI_IP \/ n_afi info = AFI_IP6) /\ n_safi info = SAFI_UNICAST.
Proof using All.
  intros Hp Ha H. apply andb_true_iff in H as [_ H]. unfold mp_family in H. apply andb_true_iff in H as [H1%Z.eqb_eq H2].
  split; [destruct Ha; subst; tauto |]. unfold plain_safi in Hp. cbn [existsb] in Hp.
  destruct (Z.eqb_spec (n_safi info) SAFI_UNICAST); [done |].
  destruct (n_safi info =? SAFI_MPLS_LABEL), (n_safi info =? SAFI_MPLS_VPN); by rewrite ?orb_true_r in Hp.
Qed.

(** NLRI inside the buffer, with the room for what the walk reads past them. *)
Definition fits (m : Z) (i : bgp_nlri) : Prop :=
  0 <= n_nlri i /\ 0 <= n_length i <= m /\ n_nlri i + n_length i + 31 <= strlen buf.
Definition ipv4 (i : bgp_nlri) : Prop := negb (n_length i =? 0) = true -> n_afi i = AFI_IP /\ n_safi i = SAFI_UNICAST.

(** The six blocks, and the two for link states. *)
Lemma blocks_ok n u parsed withdraw update mpu mpw m :
  uduring n u -> 0 <= m -> n + 6 * m <= 2 ^ 32 - 2 -> fits m withdraw -> fits m update -> fits m mpu -> fits m mpw ->
  ipv4 withdraw -> ipv4 update -> plain_safi (n_safi mpu) = true -> plain_safi (n_safi mpw) = true ->
  exists st1 st2 st3 st4 st5 u' parsed', block true None withdraw BGP_NLRI_WITHDRAW (u, parsed) = Ok st1 /\
     block true (Some attr) update BGP_NLRI_UPDATE st1 = Ok st2 /\
     block (mp_family AFI_IP mpu) (Some attr) mpu BGP_NLRI_UPDATE st2 = Ok st3 /\
     block (mp_family AFI_IP mpw) None mpw BGP_NLRI_WITHDRAW st3 = Ok st4 /\
     block (mp_family AFI_IP6 mpu) (Some attr) mpu BGP_NLRI_UPDATE st4 = Ok st5 /\
     block (mp_family AFI_IP6 mpw) None mpw BGP_NLRI_WITHDRAW st5 = Ok (u', parsed') /\
     ls_block ls_parse (Some attr) mpu BGP_NLRI_UPDATE (u', parsed') = Ok (u', parsed') /\
     ls_block ls_parse (Some attr) mpw BGP_NLRI_WITHDRAW (u', parsed') = Ok (u', parsed') /\ uduring (n + 6 * m) u'.
Proof using All.
  intros Hu Hm Hn F1 F2 F3 F4 I1 I2 Hpu Hpw.
  assert (Hstep : forall k families o info ty st, uduring k (fst st) -> k + m <= 2 ^ 32 - 2 -> o = None \/ o = Some attr ->
    fits m info ->
    (negb (n_length info =? 0) && families = true -> (n_afi info = AFI_IP \/ n_afi info = AFI_IP6) /\ n_safi info = SAFI_UNICAST) ->
    exists st', block families o info ty st = Ok st' /\ uduring (k + m) (fst st')).
  { intros k fam o info ty [v ps] Hv Hk Ho (?&?&?) Hfam. cbn [fst] in Hv.
    destruct (block_ok fam o info ty k v ps Hfam Ho Hv) as (u' & ps' & E & Hu'); [lia.. |].
    exists (u', ps'). split; [exact E |]. eapply during_mono; [exact Hu' | lia]. }
  assert (Hi : forall i, ipv4 i -> negb (n_length i =? 0) && true = true ->
    (n_afi i = AFI_IP \/ n_afi i = AFI_IP6) /\ n_safi i = SAFI_UNICAST).
  { intros i Hi. rewrite andb_true_r. intros [-> ->]%Hi. tauto. }
  destruct (Hstep n true None withdraw BGP_NLRI_WITHDRAW (u, parsed) Hu ltac:(lia) (or_introl eq_refl) F1 (Hi _ I1)) as (st1 & E1 & U1).
  destruct (Hstep _ true (Some attr) update BGP_NLRI_UPDATE st1 U1 ltac:(lia) (or_intror eq_refl) F2 (Hi _ I2)) as (st2 & E2 & U2).
  destruct (Hstep _ (mp_family AFI_IP mpu) (Some attr) mpu BGP_NLRI_UPDATE st2 U2 ltac:(lia) (or_intror eq_refl) F3
    (mp_family_plain AFI_IP mpu Hpu (or_introl eq_refl))) as (st3 & E3 & U3).
  destruct (Hstep _ (mp_family AFI_IP mpw) None mpw BGP_NLRI_WITHDRAW st3 U3 ltac:(lia) (or_introl eq_refl) F4
    (mp_family_plain AFI_IP mpw Hpw (or_introl eq_refl))) as (st4 & E4 & U4).
  destruct (Hstep _ (mp_family AFI_IP6 mpu) (Some attr) mpu BGP_NLRI_UPDATE st4 U4 ltac:(lia) (or_intror eq_refl) F3
    (mp_family_plain AFI_IP6 mpu Hpu (or_intror eq_refl))) as (st5 & E5 & U5).
  destruct (Hstep _ (mp_family AFI_IP6 mpw) None mpw BGP_NLRI_WITHDRAW st5 U5 ltac:(lia) (or_introl eq_refl) F4
    (mp_family_plain AFI_IP6 mpw Hpw (or_intror eq_refl))) as ([u' ps'] & E6 & U6).
  exists st1, st2, st3, st4, st5, u', ps'. split_and!; try done; [by apply ls_block_plain.. |].
  eapply during_mono; [exact U6 | lia].
Qed.

(** ** The end of a message *)

(** What it held is given up, and what others hold is left. *)
Lemma message_end rt L : good dbs num (Some attr) pr0 rt T -> r_attr rt !! attr = Some a -> temps_eq T (hold a None L) ->
  (forall x, 0 <= t_as L x /\ 0 <= t_com L x /\ 0 <= t_ecom L x /\ 0 <= t_lcom L x) ->
  exists rt', unintern_ptrs dbs num (Some base) (with_attr rt (delete attr (r_attr rt), attrhash rt)) a = Ok rt' /\
    good dbs num None pr0 rt' L /\ rib rt' = rib rt.
Proof using All.
  intros [Hs Hx Hz] Hl HT HL. set (rt1 := with_attr rt (delete attr (r_attr rt), attrhash rt)).
  pose proof (rt_ok_delete_attr dbs num rt T _ attr a (so_rt _ _ _ _ _ Hs) Hl Ha0) as Hok1. fold rt1 in Hok1.
  apply (rt_ok_temps dbs num rt1 T (hold a None L)) in Hok1; [| done].
  assert (Hpos : forall ptr x, 0 <= weight ptr (r_attr rt1) x).
  { intros ptr x. apply weight_nonneg. intros j c Hj. by apply (ro_attr _ _ _ _ _ Hok1 j c). }
  assert (Hp : (forall x, a_aspath a = Some x -> 0 < as_refs rt1 (hold a None L) x) /\
    (forall x, a_community a = Some x -> 0 < com_refs rt1 (hold a None L) x) /\
    (forall x, a_ecommunity a = Some x -> 0 < ecom_refs rt1 (hold a None L) x) /\
    (forall x, a_lcommunity a = Some x -> 0 < lcom_refs rt1 (hold a None L) x)).
  { unfold as_refs, com_refs, ecom_refs, lcom_refs. cbn [hold t_as t_com t_ecom t_lcom]. unfold bump.
    split_and!; intros x E; destruct (HL x) as (?&?&?&?); rewrite decide_True by done;
      [pose proof (Hpos a_aspath x); rewrite decide_False by done | pose proof (Hpos a_community x) |
       pose proof (Hpos a_ecommunity x) | pose proof (Hpos a_lcommunity x)]; lia. }
  destruct Hp as (P1 & P2 & P3 & P4).
  destruct (unintern_ptrs_step dbs num base Hpeer rt1 (hold a None L) rt1 a (ro_as _ _ _ _ _ Hok1) (ro_com _ _ _ _ _ Hok1)
    (ro_ecom _ _ _ _ _ Hok1) (ro_lcom _ _ _ _ _ Hok1) P1 P2 P3 P4)
    as (rt' & E & C1 & C2 & C3 & C4 & V1 & V2 & V3 & V4 & Em & Eh & Er).
  exists rt'. split; [exact E |]. split; [| exact Er].
  assert (R1 : forall x, as_refs rt1 L x = bump (as_refs rt1 (hold a None L)) (a_aspath a) (-1) x).
  { intros x. unfold as_refs. cbn [hold t_as]. unfold bump. repeat case_decide; try discriminate; lia. }
  assert (R2 : forall x, com_refs rt1 L x = bump (com_refs rt1 (hold a None L)) (a_community a) (-1) x).
  { intros x. unfold com_refs. cbn [hold t_com]. unfold bump. repeat case_decide; lia. }
  assert (R3 : forall x, ecom_refs rt1 L x = bump (ecom_refs rt1 (hold a None L)) (a_ecommunity a) (-1) x).
  { intros x. unfold ecom_refs. cbn [hold t_ecom]. unfold bump. repeat case_decide; lia. }
  assert (R4 : forall x, lcom_refs rt1 L x = bump (lcom_refs rt1 (hold a None L)) (a_lcommunity a) (-1) x).
  { intros x. unfold lcom_refs. cbn [hold t_lcom]. unfold bump. repeat case_decide; lia. }
  assert (Hz1 : forall l c, r_attr rt1 !! l = Some c -> a_refcnt c <> 0).
  { intros l c Hc H0. cbn in Hc. apply lookup_delete_Some in Hc as [Hne Hc]. pose proof (Hz l c Hc H0). congruence. }
  assert (Hok' : rt_ok dbs num rt' L (rib_uses (rib rt1))).
  { apply (rt_ok_shrink dbs num rt1 rt' (hold a None L) L); try done.
    - by eapply counted_ext; [exact C1 | exact R1].
    - by eapply counted_ext; [exact C2 | exact R2].
    - by eapply counted_ext; [exact C3 | exact R3].
    - by eapply counted_ext; [exact C4 | exact R4].
    - intros x. rewrite R1. apply V1.
    - intros x. rewrite R2. apply V2.
    - intros x. rewrite R3. apply V3.
    - intros x. rewrite R4. apply V4. }
  split.
  - apply (state_rib dbs num pr0 rt rt' T L Hs); [exact Hok' | exact Er].
  - rewrite Er. exact Hx.
  - intros x c. rewrite Em. intros Hc H0. exfalso. by apply (Hz1 x c).
Qed.

End Message.

(** ** The message *)

Section Update.
Context {X : Type}.
Context (dbs : misc_dbs) (past : Z) (num : bool).
Context (msglog : bool).
Context (route_info_modulo : bgp_misc_structs -> peer -> option rd_t -> option Z -> Z -> Z).
Context (bmed_id : X -> Z).
Context (bgp_extra_data_cmp : option (X -> X -> Z)).
Context (bgp_extra_data_process : option (X -> X -> Z -> Z -> X)).
Context (bmed0 extra : X).
Context (ls_parse : peer * bgp_rt_structs X -> option loc -> bgp_attr_extra -> bgp_nlri -> Z -> res (peer * bgp_rt_structs X)).
Context (buf : list Z) (Hbuf : bytes_ok buf).
Context (u : update_state (X := X)).
Let base := p_base (u_peer u).
Hypothesis Hpeer : type base < FUNC_TYPE_MAX.
Hypothesis Hrw : is_readonly (dbs (type base)) = false.
Hypothesis Hmodulo : forall pr rd path_id, p_base pr = base ->
  (Z.to_nat (route_info_modulo (dbs (type base)) pr rd path_id (table_per_peer_buckets (dbs (type base))))
     < info_buckets (dbs (type base)))%nat.
Hypothesis H4as : p_4as (u_peer u) = true.
Context (T : temps) (b : Z) (Hb : bounded T b) (Hb0 : 0 <= b < 2 ^ 62).
Hypothesis Hgood : good dbs num None (u_peer u) (u_rt u) T.
Hypothesis Hroutes : n_routes (rib (u_rt u)) < 2 ^ 31.

Lemma T_nonneg x : 0 <= t_as T x /\ 0 <= t_com T x /\ 0 <= t_ecom T x /\ 0 <= t_lcom T x.
Proof using Hgood.
  destruct (ro_temps _ _ _ _ _ (so_rt _ _ _ _ _ (g_state _ _ _ _ _ _ Hgood)) x) as (?&?&?&?&_). by split_and!.
Qed.

(** What the attributes leave: the references of the message [hold]s, over
    those of others. *)
Record after_attrs (lim : Z) (types : list Z) (ret : Z) (s : attr_state (X := X)) (q : option loc) (L : temps) : Prop := {
  aa_rt : rt_ok dbs num (s_rt s) (hold (s_attr s) q L) (rib_uses (rib (s_rt s)));
  aa_as4 : 0 <= ret -> q = None;
  aa_attrs : r_attr (s_rt s) = r_attr (u_rt u);
  aa_rib : rib (s_rt s) = rib (u_rt u);
  aa_family : family_ok (ha_family (mp_nexthop (s_attr s)));
  aa_refcnt : a_refcnt (s_attr s) = 0;
  aa_bounded : bounded (hold (s_attr s) q L) (b + 65536);
  aa_mps : mps_ok lim s;
  aa_le : temps_le T L;
  aa_eq : NoDup types -> temps_eq T L
}.

Definition types_of (ptr len : Z) : list Z := map fst (attr_list buf (S (Z.to_nat len)) ptr len).

Lemma attrs_ok ptr len : 0 <= ptr -> is_u16 len -> ptr + len + 31 <= strlen buf ->
  Forall (fun '(type, ptr) => mp_plain buf type ptr) (attr_list buf (S (Z.to_nat len)) ptr len) ->
  exists ret s q L, (if 0 <? len then bgp_attr_parse dbs num buf (u_peer u) ptr len (mk_ast (u_rt u) attr0 extra0 None nlri0 nlri0)
                     else Ok (SUCCESS, mk_ast (u_rt u) attr0 extra0 None nlri0 nlri0)) = Ok (ret, s) /\
    after_attrs (ptr + len) (types_of ptr len) ret s q L.
Proof using All.
  intros Hp Hl Hend Hmp. unfold in_u in Hl. set (s0 := mk_ast (u_rt u) attr0 extra0 None nlri0 nlri0).
  assert (Eh : temps_eq T (hold (s_attr s0) (s_as4_path s0) T)).
  { split; intros x; cbn; unfold bump; repeat case_decide; try discriminate; split_and!; lia. }
  assert (Hs0 : parse_ok dbs num (u_rt u) T s0).
  { split; try done; [| by left].
    eapply rt_ok_temps; [apply (so_rt _ _ _ _ _ (g_state _ _ _ _ _ _ Hgood)) | exact Eh]. }
  assert (Hb1 : bounded (hold (s_attr s0) (s_as4_path s0) T) b).
  { intros x. destruct (Hb x) as (?&?&?&?&?), (proj2 Eh x) as (?&?&?&?&?). split_and!; lia. }
  assert (Hm0 : mps_ok (ptr + len) s0) by (unfold s0; split; split; cbn; first [done | lia]).
  assert (Hz : forall l a, r_attr (u_rt u) !! l = Some a -> a_refcnt a <> 0).
  { intros l a Hla H0. by pose proof (g_zeros _ _ _ _ _ _ Hgood l a Hla H0). }
  destruct (Z.ltb_spec 0 len).
  - destruct (attr_parse_ok dbs num buf Hbuf (u_peer u) Hpeer (u_rt u) ltac:(lia) H4as Hz (ptr + len) ptr len s0 T b Hs0 Hb1)
      as (ret & s & L & q & E & Hle & Hok & Hq & Ea & Er & Hf & Hc & Hb' & Hm & Hno); try done; try lia.
    { apply T_nonneg. }
    exists ret, s, q, L. split; [exact E |]. split; try done.
    + intros x. destruct (Hb' x) as (?&?&?&?&?). split_and!; lia.
    + intros Hnd. apply Hno; [done |]. intros t _. unfold held_ptr. by repeat case_match.
  - exists SUCCESS, s0, None, T. split; [done |]. destruct Hs0 as [G1 G2 G3 G4 G5]. split; try done.
    intros x. destruct (Hb1 x) as (?&?&?&?&?). change (s_as4_path s0) with (@None loc) in *. split_and!; lia.
Qed.

(** Parsing the attributes failed: what the message holds stays held. *)
Lemma failed_good lim types ret s q L : after_attrs lim types ret s q L ->
  good dbs num None (u_peer u) (s_rt s) (hold (s_attr s) q L) /\ temps_le T (hold (s_attr s) q L).
Proof using All.
  intros [G1 G2 G3 G4 G5 G6 G7 G8 G9 G10]. destruct Hgood as [Hs Hx Hz]. split.
  - split.
    + split; [exact G1 | rewrite G4; apply (so_tables _ _ _ _ _ Hs) | rewrite G4; apply (so_attr _ _ _ _ _ Hs)].
    + rewrite G4. exact Hx.
    + rewrite G3. exact Hz.
  - etrans; [exact G9 |]. intros x. cbn. unfold bump. repeat case_decide; split_and!; lia.
Qed.

(** The prefixes begin with the attribute in its place. *)
Lemma start_during lim types ret s L : after_attrs lim types ret s None L ->
  let attr := fresh (dom (r_attr (s_rt s))) in
  let rt := with_attr (s_rt s) (<[attr := s_attr s]> (r_attr (s_rt s)), attrhash (s_rt s)) in
  during dbs num (u_peer u) (hold (s_attr s) None L) attr (s_attr s) (dom (rib (u_rt u))) (n_routes (rib (u_rt u))) (u_peer u, rt).
Proof using All.
  intros H attr rt. destruct (failed_good _ _ _ _ _ _ H) as [[Hs Hx Hz] _]. destruct H as [G1 G2 G3 G4 G5 G6 G7 G8 G9 G10].
  assert (Hfr : r_attr (s_rt s) !! attr = None) by (apply not_elem_of_dom, is_fresh).
  assert (HL : forall x, 0 <= t_as L x /\ 0 <= t_com L x /\ 0 <= t_ecom L x /\ 0 <= t_lcom L x).
  { intros x. destruct (T_nonneg x) as (?&?&?&?), (G9 x) as (?&?&?&?&_). split_and!; lia. }
  split; cbn [fst snd]; unfold rt; [apply same_peer_refl | | cbn; by rewrite G4 | cbn; by rewrite G4 | cbn; apply lookup_insert_eq].
  split.
  - apply state_new_attr; try done; intros x E; destruct (HL x) as (?&?&?&?); cbn; unfold bump; rewrite (decide_True) by done;
      repeat case_decide; lia.
  - exact Hx.
  - intros x c. cbn. destruct (decide (x = attr)) as [->|Hne]; [done |]. rewrite lookup_insert_ne by done.
    intros Hc H0. by pose proof (Hz x c Hc H0).
Qed.

(** The prefixes of the message, and its end. *)
Lemma parsed_ok lim types ret s L withdraw update attribute_len update_len withdraw_len bgpo_len :
  after_attrs lim types ret s None L -> lim + 31 <= strlen buf ->
  fits buf 65536 withdraw -> fits buf 65536 update -> ipv4 withdraw -> ipv4 update ->
  let attr := fresh (dom (r_attr (s_rt s))) in
  let rt := with_attr (s_rt s) (<[attr := s_attr s]> (r_attr (s_rt s)), attrhash (s_rt s)) in
  (AFI_IP, SAFI_UNICAST) ∈ dom (rib (u_rt u)) -> (AFI_IP6, SAFI_UNICAST) ∈ dom (rib (u_rt u)) ->
  exists u', (st ← nlri_block dbs past num buf false msglog route_info_modulo bmed_id bgp_extra_data_cmp bgp_extra_data_process
                bmed0 extra true None withdraw BGP_NLRI_WITHDRAW (mk_ust (u_peer u) rt (s_extra s) (u_nlri_count u), false);
    st ← nlri_block dbs past num buf false msglog route_info_modulo bmed_id bgp_extra_data_cmp bgp_extra_data_process
           bmed0 extra true (Some attr) update BGP_NLRI_UPDATE st;
    st ← nlri_block dbs past num buf false msglog route_info_modulo bmed_id bgp_extra_data_cmp bgp_extra_data_process
           bmed0 extra (mp_family AFI_IP (s_mp_update s)) (Some attr) (s_mp_update s) BGP_NLRI_UPDATE st;
    st ← nlri_block dbs past num buf false msglog route_info_modulo bmed_id bgp_extra_data_cmp bgp_extra_data_process
           bmed0 extra (mp_family AFI_IP (s_mp_withdraw s)) None (s_mp_withdraw s) BGP_NLRI_WITHDRAW st;
    st ← nlri_block dbs past num buf false msglog route_info_modulo bmed_id bgp_extra_data_cmp bgp_extra_data_process
           bmed0 extra (mp_family AFI_IP6 (s_mp_update s)) (Some attr) (s_mp_update s) BGP_NLRI_UPDATE st;
    st ← nlri_block dbs past num buf false msglog route_info_modulo bmed_id bgp_extra_data_cmp bgp_extra_data_process
           bmed0 extra (mp_family AFI_IP6 (s_mp_withdraw s)) None (s_mp_withdraw s) BGP_NLRI_WITHDRAW st;
    st ← ls_block ls_parse (Some attr) (s_mp_update s) BGP_NLRI_UPDATE st;
    '(u, parsed) ← ls_block ls_parse (Some attr) (s_mp_withdraw s) BGP_NLRI_WITHDRAW st;
    let pr := match end_of_rib update_len withdraw_len attribute_len (s_mp_withdraw s) parsed with
              | Some (afi, safi) => if (afi <? AFI_MAX) && (safi <? SAFI_MAX) then with_eor afi safi (u_peer u) else u_peer u
              | None => u_peer u
              end in
    a ← deref (r_attr (u_rt u) !! attr);
    rt ← unintern_ptrs dbs num (Some base) (with_attr (u_rt u) (delete attr (r_attr (u_rt u)), attrhash (u_rt u))) a;
    Ok (bgpo_len : Z, mk_ust pr rt (u_extra u) (u_nlri_count u))) = Ok (bgpo_len, u') /\
    good dbs num None (u_peer u') (u_rt u') L /\ n_routes (rib (u_rt u')) <= n_routes (rib (u_rt u)) + 6 * 65536 /\
    dom (rib (u_rt u')) = dom (rib (u_rt u)) /\ p_base (u_peer u') = base.
Proof using All.
  intros H Hlim F1 F2 I1 I2 attr rt D1 D2. pose proof (start_during _ _ _ _ _ H) as Hst. cbv zeta in Hst. fold attr rt in Hst.
  destruct H as [G1 G2 G3 G4 G5 G6 G7 [M1 M2] G9 G10].
  assert (Fm : forall i, mp_ok lim i -> fits buf 65536 i) by (intros i [N1 N2 N3 _]; unfold fits; lia).
  destruct (blocks_ok dbs past num msglog route_info_modulo bmed_id bgp_extra_data_cmp bgp_extra_data_process bmed0 extra ls_parse
    buf Hbuf (u_peer u) Hpeer Hrw Hmodulo (hold (s_attr s) None L) (b + 65536) G7 ltac:(lia) attr (s_attr s) G6
    (dom (rib (u_rt u))) D1 D2 (n_routes (rib (u_rt u))) (mk_ust (u_peer u) rt (s_extra s) (u_nlri_count u)) false
    withdraw update (s_mp_update s) (s_mp_withdraw s) 65536)
    as (st1 & st2 & st3 & st4 & st5 & u' & parsed' & E1 & E2 & E3 & E4 & E5 & E6 & E7 & E8 & Hu');
    try done; [lia | by apply Fm | by apply Fm | apply M1 | apply M2 |].
  rewrite E1, bind_Ok, E2, bind_Ok, E3, bind_Ok, E4, bind_Ok, E5, bind_Ok, E6, bind_Ok, E7, bind_Ok, E8, bind_Ok.
  destruct Hu' as [U1 U2 U3 U4 U5]. cbn [fst snd] in *. rewrite U5. change (deref (Some ?x)) with (Ok x). cbv zeta. rewrite bind_Ok.
  destruct (message_end dbs past num msglog route_info_modulo bmed_id bgp_extra_data_cmp bgp_extra_data_process bmed0 extra ls_parse
    buf Hbuf (u_peer u) Hpeer Hrw Hmodulo (hold (s_attr s) None L) (b + 65536) G7 ltac:(lia) attr (s_attr s) G6
    (dom (rib (u_rt u))) D1 D2 (u_rt u') L) as (rt' & E & Hg & Er); [| done | done | |].
  - eapply good_peer; [| exact U2]. destruct U1 as [k ->]. done.
  - intros x. destruct (T_nonneg x) as (?&?&?&?), (G9 x) as (?&?&?&?&_). split_and!; lia.
  - fold base in E. rewrite E, bind_Ok. eexists. split; [done |]. cbn [u_peer u_rt].
    assert (Epr : forall pr : peer, p_base pr = base -> good dbs num None pr rt' L).
    { intros pr Ep. by eapply good_peer. }
    destruct U1 as [k Ek]. rewrite Er. split_and!; [| done | done |].
    + apply Epr. destruct (end_of_rib _ _ _ _ _) as [[afi safi]|]; [case_match |]; by rewrite Ek.
    + destruct (end_of_rib _ _ _ _ _) as [[afi safi]|]; [case_match |]; by rewrite Ek.
Qed.

End Update.

(** C1. Whatever the octets of an UPDATE message on a session with four-octet AS
    numbers, as long as what its lengths span is in the buffer (with the 31
    octets the walk over prefixes can read beyond) and its MP attributes are of
    families without labels: the code reads inside the buffer, follows no NULL
    and nothing that was freed, and ends.  The tables are again such that every
    object is counted and every lock is that of a route; when the message was
    accepted and no attribute came twice nothing is held any more that was not
    held before, and otherwise only the references of that message are lost. *)
Theorem bgp_parse_update_msg_safe {X} dbs past num msglog
    (route_info_modulo : bgp_misc_structs -> peer -> option rd_t -> option Z -> Z -> Z) (bmed_id : X -> Z)
    cmp process bmed0 extra ls_parse buf u T b pkt bgpo_len withdraw_len attribute_len :
  let base := p_base (u_peer u) in
  let bms := dbs (type base) in
  let update_len := u16 (u16 (u16 (u16 (u16 (bgpo_len - 19) - withdraw_len) - 2) - attribute_len) - 2) in
  let attrs := attr_list buf (S (Z.to_nat attribute_len)) (pkt + 23 + withdraw_len) attribute_len in
  type base < FUNC_TYPE_MAX -> is_readonly bms = false -> p_4as (u_peer u) = true ->
  (forall pr rd path_id, p_base pr = base ->
     (Z.to_nat (route_info_modulo bms pr rd path_id (table_per_peer_buckets bms)) < info_buckets bms)%nat) ->
  good dbs num None (u_peer u) (u_rt u) T -> bounded T b -> 0 <= b < 2 ^ 62 -> n_routes (rib (u_rt u)) < 2 ^ 31 ->
  (AFI_IP, SAFI_UNICAST) ∈ dom (rib (u_rt u)) -> (AFI_IP6, SAFI_UNICAST) ∈ dom (rib (u_rt u)) ->
  bytes_ok buf -> 0 <= pkt ->
  be16_at buf (pkt + 16) = Ok bgpo_len -> be16_at buf (pkt + 19) = Ok withdraw_len ->
  be16_at buf (pkt + 21 + withdraw_len) = Ok attribute_len ->
  pkt + 23 + withdraw_len + attribute_len + update_len + 31 <= strlen buf ->
  Forall (fun '(type, ptr) => mp_plain buf type ptr) attrs ->
  exists ret u' T',
    bgp_parse_update_msg dbs past num buf false msglog route_info_modulo bmed_id cmp process bmed0 extra ls_parse u pkt = Ok (ret, u') /\
    good dbs num None (u_peer u') (u_rt u') T' /\ temps_le T T' /\
    (0 <= ret -> NoDup (map fst attrs) -> temps_eq T T') /\
    n_routes (rib (u_rt u')) <= n_routes (rib (u_rt u)) + 6 * 65536 /\ dom (rib (u_rt u')) = dom (rib (u_rt u)) /\
    p_base (u_peer u') = base.
Proof.
  intros base bms update_len attrs Hpeer Hrw H4 Hmod Hg Hb Hb0 Hn D1 D2 Hbuf Hpkt El Ew Ea Hend Hmp.
  unfold bgp_parse_update_msg. fold base. rewrite (peer_misc_db dbs base Hpeer), El, bind_Ok. unfold BGP_HEADER_SIZE. cbv zeta.
  rewrite Ew, bind_Ok.
  assert (Hstop : good dbs num None (u_peer u) (u_rt u) T /\ temps_le T T /\ (0 <= ERR -> NoDup (map fst attrs) -> temps_eq T T) /\
    n_routes (rib (u_rt u)) <= n_routes (rib (u_rt u)) + 6 * 65536 /\ dom (rib (u_rt u)) = dom (rib (u_rt u)) /\
    p_base (u_peer u) = base) by (split_and!; try done; lia).
  destruct (_ <? withdraw_len); [by exists ERR, u, T |].
  replace (pkt + 19 + 2 + withdraw_len) with (pkt + 21 + withdraw_len) by lia. rewrite Ea, bind_Ok.
  destruct (_ <? attribute_len); [by exists ERR, u, T |]. clear Hstop. fold update_len.
  replace (pkt + 21 + withdraw_len + 2) with (pkt + 23 + withdraw_len) by lia.
  assert (Hw : is_u16 withdraw_len) by (by apply (be16_at_u16 buf Hbuf (pkt + 19))).
  assert (Hal : is_u16 attribute_len) by (by apply (be16_at_u16 buf Hbuf (pkt + 21 + withdraw_len))).
  assert (Hul : is_u16 update_len) by (apply (wrap_range 16); lia). unfold in_u in Hw, Hal, Hul.
  destruct (attrs_ok dbs past num msglog route_info_modulo bmed_id cmp process bmed0 extra ls_parse buf Hbuf u Hpeer Hrw Hmod H4 T b
    Hb Hb0 Hg Hn (pkt + 23 + withdraw_len) attribute_len) as (ret & s & q & L & E & Haa); [lia | done | lia | done |].
  rewrite E, bind_Ok. clear E. destruct (Z.ltb_spec ret 0) as [Hneg | Hnn].
  - destruct (failed_good dbs past num msglog route_info_modulo bmed_id cmp process bmed0 extra ls_parse buf Hbuf u Hpeer Hrw Hmod H4 T b
      Hb Hb0 Hg Hn _ _ _ _ _ _ Haa) as [Hg' Hle].
    destruct Haa as [G1 G2 G3 G4 G5 G6 G7 G8 G9 G10].
    eexists ret, _, _. split; [done |]. split_and!; [exact Hg' | done | lia | cbn; rewrite G4; lia | cbn; by rewrite G4 | done].
  - assert (q = None) as -> by (by apply (aa_as4 _ _ _ _ _ _ _ _ _ _ _ Haa)).
    destruct (parsed_ok dbs past num msglog route_info_modulo bmed_id cmp process bmed0 extra ls_parse buf Hbuf u Hpeer Hrw Hmod H4 T b
      Hb Hb0 Hg Hn _ _ _ _ _ (if 0 <? withdraw_len then mk_nlri AFI_IP SAFI_UNICAST (pkt + 19 + 2) withdraw_len else nlri0)
      (if 0 <? update_len then mk_nlri AFI_IP SAFI_UNICAST (pkt + 23 + withdraw_len + attribute_len) update_len else nlri0)
      attribute_len update_len withdraw_len bgpo_len Haa) as (u' & E & Hg' & Hnr & Hd & Hpb); try done; [lia | | | | |].
    + unfold fits. case_match; cbn; lia.
    + unfold fits. case_match; cbn; lia.
    + unfold ipv4. by case_match.
    + unfold ipv4. by case_match.
    + exists bgpo_len, u', L. split; [exact E |]. destruct Haa as [G1 G2 G3 G4 G5 G6 G7 G8 G9 G10].
      split_and!; try done.
Qed.

(** ** A message *)

Definition ex_peer4 : peer := mk_bgp_peer 7 (mk_peer FUNC_TYPE_BGP 65000) 1 0 true ∅ ∅.
(** Withdraws 10.2.0.0/16, announces 10.1.0.0/16 with ORIGIN, AS_PATH,
    NEXT_HOP and two communities. *)
Definition ex_update : list Z :=
  replicate 16 255 ++ [0; 60; 2; 0; 3; 16; 10; 2; 0; 31] ++ [64; 1; 1; 0] ++ [64; 2; 6; 2; 1; 0; 0; 253; 233] ++
  [64; 3; 4; 10; 0; 0; 1] ++ [192; 8; 8; 253; 233; 0; 2; 253; 233; 0; 1] ++ [16; 10; 1] ++ replicate 40 0.
Definition ex_tables : bgp_rt_structs Z := init_shared_rib (bgp_attr_init 11 rt0).

Definition ex_modulo := bgp_route_info_modulo_pathid.

Lemma ex_modulo_ok pr rd path_id : p_base pr = p_base ex_peer4 ->
  (Z.to_nat (ex_modulo (mk_misc false 2 1 0) pr rd path_id 1) < info_buckets (mk_misc false 2 1 0))%nat.
Proof.
  intros _. unfold ex_modulo, bgp_route_info_modulo_pathid. cbn [table_peer_buckets]. change (u32 (2 * 1)) with 2.
  set (x := u32 _). change (info_buckets _) with 2%nat. pose proof (Z.mod_pos_bound x 2 eq_refl). lia.
Qed.

Lemma ex_tables_dom afi : afi = AFI_IP \/ afi = AFI_IP6 -> (afi, SAFI_UNICAST) ∈ dom (rib ex_tables).
Proof. intros H. apply elem_of_dom. exists (bgp_table_init afi SAFI_UNICAST). destruct H as [-> | ->]; vm_compute; reflexivity. Qed.

Lemma bgp_parse_update_msg_safe_witness :
  exists ret u' T', bgp_parse_update_msg (fun _ => mk_misc false 2 1 0) 0 false ex_update false false ex_modulo
      (fun x => x) None None 0 0 (fun st _ _ _ _ => Ok st) (mk_ust ex_peer4 ex_tables extra0 0) 0 = Ok (ret, u') /\
    good (fun _ => mk_misc false 2 1 0) false None (u_peer u') (u_rt u') T' /\
    (0 <= ret -> temps_eq T0 T') /\ n_routes (rib (u_rt u')) <= 6 * 65536.
Proof.
  destruct (bgp_parse_update_msg_safe (fun _ => mk_misc false 2 1 0) 0 false false ex_modulo (fun x => x) None None 0 0
    (fun st _ _ _ _ => Ok st) ex_update (mk_ust ex_peer4 ex_tables extra0 0) T0 0 0 60 3 31)
    as (ret & u' & T' & E & Hg & _ & Hno & Hn & _ & _).
  - reflexivity.
  - reflexivity.
  - reflexivity.
  - exact ex_modulo_ok.
  - by apply init_good.
  - by intros x.
  - lia.
  - cbn [u_rt]. unfold ex_tables. rewrite init_routes. lia.
  - apply ex_tables_dom. by left.
  - apply ex_tables_dom. by right.
  - by apply bytes_ok_b.
  - lia.
  - vm_compute. reflexivity.
  - vm_compute. reflexivity.
  - vm_compute. reflexivity.
  - by vm_compute.
  - match goal with |- Forall _ ?l => let l' := eval vm_compute in l in change l with l' end.
    forall_list; intros [H | H]; discriminate H.
  - exists ret, u', T'. split; [exact E |]. split; [exact Hg |]. split.
    + intros Hr. apply Hno; [exact Hr |].
      match goal with |- NoDup ?l => let l' := eval vm_compute in l in change l with l' end.
      apply (bool_decide_unpack _). vm_compute. exact I.
    + cbn [u_rt] in Hn. unfold ex_tables in Hn. rewrite init_routes in Hn. exact Hn.
Defined.

End BgpUpdateFacts.
