(* ===== verification/BgpMsg.v ===== *)
(** * src/bgp/bgp_msg.c: messages and the session

    Framing ([bgp_parse_msg]), OPEN, KEEPALIVE and NOTIFICATION messages, and
    what is sent back.  [buf] is the receive buffer; a message starts at an
    offset of it.  A session is the part of [struct bgp_peer] the messages
    change, with the packets that were sent.  The router-id check is run on
    the identifiers of the other peers; configuration strings for addresses
    are given as [str_to_addr] reads them. *)

From S2P Require Import Prelude CBuf Bgp BgpPrefix BgpAttr BgpRib BgpNlri BgpUpdate.

Module BgpMsg.
Import CBuf Bgp BgpPrefix BgpAttr BgpRib BgpNlri BgpUpdate.

Definition Idle : Z := 1.
Definition Active : Z := 3.
Definition OpenSent : Z := 4.
Definition Established : Z := 6.

Definition BGP_MARKER_SIZE : Z := 16.
Definition BGP_MIN_OPEN_MSG_SIZE : Z := 29.
Definition BGP_MIN_NOTIFICATION_MSG_SIZE : Z := 21.
Definition BGP_BUFFER_SIZE : Z := 100000.
Definition BGP_MAX_MSGLEN : Z := 4096.
Definition BGP_VERSION4 : Z := 4.
Definition BGP_OPEN : Z := 1.
Definition BGP_UPDATE : Z := 2.
Definition BGP_NOTIFICATION : Z := 3.
Definition BGP_KEEPALIVE : Z := 4.
Definition BGP_ROUTE_REFRESH : Z := 5.
Definition BGP_NOTIFY_HEADER_ERR : Z := 1.
Definition BGP_NOTIFY_OPEN_ERR : Z := 2.
Definition BGP_NOTIFY_UPDATE_ERR : Z := 3.
Definition BGP_NOTIFY_FSM_ERR : Z := 5.
Definition BGP_NOTIFY_CEASE : Z := 6.
Definition BGP_NOTIFY_CEASE_ADMIN_SHUTDOWN : Z := 2.
Definition BGP_NOTIFY_CEASE_ADMIN_RESET : Z := 4.
Definition BGP_NOTIFY_CEASE_SM_LEN : Z := 255.
Definition BGP_OPTION_CAPABILITY : Z := 2.
Definition BGP_CAPABILITY_MULTIPROTOCOL : Z := 1.
Definition BGP_CAPABILITY_ROUTE_REFRESH : Z := 2.
Definition BGP_CAPABILITY_EXTENDED_NEXT_HOP_ENCODING : Z := 5.
Definition BGP_CAPABILITY_4_OCTET_AS_NUMBER : Z := 0x41.
Definition BGP_CAPABILITY_ADD_PATHS : Z := 0x45.
Definition CAPABILITY_CODE_AS4_LEN : Z := 4.
Definition BGP_AS_MAX : Z := 65535.
Definition BGP_AS_TRANS : Z := 23456.

Record session := mk_session {
  ss_peer : peer;
  status : Z;
  version : Z;
  remote_as : Z;
  ht : Z;
  last_keepalive : Z;
  router_id : host_addr;
  cap_mp : bool;
  cap_as4 : Z;
  afi_max : Z;
  safi_max : Z;
  sent : list (list Z)
}.

(** ** Headers *)

Definition bgp_max_msglen_check (length : Z) : Z := if length <=? BGP_MAX_MSGLEN then SUCCESS else ERR.

Definition bgp_marker_check (buf : list Z) (pkt length : Z) : res Z :=
  m ← read_bytes buf pkt length;
  Ok (if forallb (fun b => b =? 0xff) m then SUCCESS else ERR).

Definition bgp_get_packet_len (buf : list Z) (pkt : Z) : res Z :=
  m ← bgp_marker_check buf pkt BGP_MARKER_SIZE;
  if negb (m =? ERR) then be16_at buf (pkt + 16) else Ok 0.

Definition bgp_get_packet_type (buf : list Z) (pkt : Z) : res Z :=
  m ← bgp_marker_check buf pkt BGP_MARKER_SIZE;
  if negb (m =? ERR) then u8_at buf (pkt + 18) else Ok 0.

(** ** Messages that are sent *)

Definition htons (v : Z) : list Z := [u16 v / 256; u16 v mod 256].

(** The marker, the length and the type. *)
Definition header (len type : Z) : list Z := replicate 16 0xff ++ htons len ++ [type].

Definition bgp_write_keepalive_msg : list Z := header BGP_HEADER_SIZE BGP_KEEPALIVE.

(** [is_any] is the family of a zero address, or 0. *)
Definition is_any (a : host_addr) : Z :=
  if ha_family a =? AF_INET then (if bool_decide (take 4 (ha_address a) = replicate 4 0) then AF_INET else 0)
  else if ha_family a =? AF_INET6 then (if bool_decide (take 16 (ha_address a) = replicate 16 0) then AF_INET6 else 0)
  else 0.

Record bgp_config := mk_config {
  bgp_daemon_as : Z;
  bgp_daemon_ip : option host_addr;
  bgp_daemon_id : option host_addr;
  bgp_disable_router_id_check : bool;
  tmp_bgp_daemon_route_refresh : bool;
  cap_add_path_ignore : bool
}.

(** The three trials for the router identifier of the reply: an IPv4
    address. *)
Definition my_router_id (config : bgp_config) : list Z :=
  let trial (o : option host_addr) (my_id : host_addr) :=
    match o with
    | Some a => if (is_any a =? 0) && (ha_family my_id =? 0) then
                  if ha_family a =? AF_INET then a else ha0
                else my_id
    | None => my_id
    end in
  let my_id := trial (bgp_daemon_ip config) (trial (bgp_daemon_id config) ha0) in
  take 4 (ha_address (if ha_family my_id =? 0 then mk_ha AF_INET [1; 2; 3; 4] else my_id)).

(** [cp_msg] is the capabilities, with the place of the AS number in them;
    [optlen] is what the buffer has in [bgpo_optlen], which is only set when
    there are capabilities.  [None] is -1. *)
Definition bgp_write_open_msg (config : bgp_config) (cp_msg : list Z) (s : session) (cap_as4_ptr : option Z) (optlen : Z)
    : res (option (list Z)) :=
  let myas := myas (p_base (ss_peer s)) in
  if (BGP_AS_MAX <? myas) && negb (bool_decide (is_Some cap_as4_ptr)) then Ok None
  else
    cp_msg ← match cap_as4_ptr with Some p => write_at cp_msg p (htonl myas) | None => Ok cp_msg end;
    let bgpo_myas := if BGP_AS_MAX <? myas then BGP_AS_TRANS else myas in
    let optlen := if strlen cp_msg =? 0 then optlen else u8 (strlen cp_msg) in
    Ok (Some (header (BGP_MIN_OPEN_MSG_SIZE + optlen) BGP_OPEN ++ [BGP_VERSION4] ++ htons bgpo_myas ++ htons (ht s)
              ++ my_router_id config ++ [optlen] ++ cp_msg)).

(** The message written, and the length returned. *)
Definition bgp_write_notification_msg (msglen n_major n_minor : Z) (shutdown_msg : option (list Z)) : Z * list Z :=
  if BGP_MIN_NOTIFICATION_MSG_SIZE <=? msglen then
    let major := if n_major =? 0 then BGP_NOTIFY_CEASE else n_major in
    let minor := if n_minor =? 0 then BGP_NOTIFY_CEASE_ADMIN_SHUTDOWN else n_minor in
    let plain := (BGP_MIN_NOTIFICATION_MSG_SIZE, header BGP_MIN_NOTIFICATION_MSG_SIZE BGP_NOTIFICATION ++ [major; minor]) in
    match shutdown_msg with
    | None => plain
    | Some m =>
        let shutdown_msglen := u16 (strlen m) in
        if (shutdown_msglen <=? BGP_NOTIFY_CEASE_SM_LEN) && (BGP_MIN_NOTIFICATION_MSG_SIZE + shutdown_msglen <=? msglen) then
          (BGP_MIN_NOTIFICATION_MSG_SIZE + shutdown_msglen + 1,
           header (BGP_MIN_NOTIFICATION_MSG_SIZE + shutdown_msglen + 1) BGP_NOTIFICATION
             ++ [major; minor; shutdown_msglen] ++ take (Z.to_nat shutdown_msglen) m)
        else plain
    end
  else (0, []).

(** The status, the codes and the shutdown message ([shutdown_msglen] octets
    are reserved for it). *)
Definition bgp_parse_notification_msg (buf : list Z) (pkt msglen shutdown_msglen : Z) : res (Z * Z * Z * list Z) :=
  if msglen <? BGP_MIN_NOTIFICATION_MSG_SIZE then Ok (ERR, 0, 0, [])
  else
    let rem_len := msglen - BGP_MIN_NOTIFICATION_MSG_SIZE in
    major ← u8_at buf (pkt + 19);
    minor ← u8_at buf (pkt + 20);
    let plain := (BGP_MIN_NOTIFICATION_MSG_SIZE, major, minor, []) in
    if (major =? BGP_NOTIFY_CEASE)
       && ((minor =? BGP_NOTIFY_CEASE_ADMIN_SHUTDOWN) || (minor =? BGP_NOTIFY_CEASE_ADMIN_RESET))
       && negb (rem_len =? 0) then
      len ← u8_at buf (pkt + 21);
      if (len <=? rem_len) && (len <? shutdown_msglen) then
        m ← read_bytes buf (pkt + 22) len;
        Ok (BGP_MIN_NOTIFICATION_MSG_SIZE + len + 1, major, minor, m)
      else Ok plain
    else Ok plain.

(** ** OPEN *)

Definition with_status (v : Z) (s : session) : session :=
  mk_session (ss_peer s) v (version s) (remote_as s) (ht s) (last_keepalive s) (router_id s) (cap_mp s) (cap_as4 s)
    (afi_max s) (safi_max s) (sent s).
Definition with_ss_peer (p : peer) (s : session) : session :=
  mk_session p (status s) (version s) (remote_as s) (ht s) (last_keepalive s) (router_id s) (cap_mp s) (cap_as4 s)
    (afi_max s) (safi_max s) (sent s).
(** The fixed part of the message. *)
Definition with_open (id : list Z) (holdtime : Z) (s : session) : session :=
  mk_session (ss_peer s) (status s) BGP_VERSION4 (remote_as s) (Z.max 5 holdtime) (last_keepalive s)
    (mk_ha AF_INET (id ++ drop 4 (ha_address (router_id s)))) (cap_mp s) (cap_as4 s) (afi_max s) (safi_max s) (sent s).
Definition with_cap_mp (s : session) : session :=
  mk_session (ss_peer s) (status s) (version s) (remote_as s) (ht s) (last_keepalive s) (router_id s) true (cap_as4 s)
    (afi_max s) (safi_max s) (sent s).
Definition with_cap_4as (as4 : Z) (s : session) : session :=
  let p := ss_peer s in
  mk_session (mk_bgp_peer (p_self p) (p_base p) (p_fd p) (p_lock p) true (p_add_paths p) (p_eor p))
    (status s) (version s) (remote_as s) (ht s) (last_keepalive s) (router_id s) (cap_mp s) as4
    (afi_max s) (safi_max s) (sent s).
Definition with_add_path (afi safi sndrcv : Z) (s : session) : session :=
  let p := ss_peer s in
  mk_session (mk_bgp_peer (p_self p) (p_base p) (p_fd p) (p_lock p) (p_4as p) (<[(afi, safi) := sndrcv]> (p_add_paths p)) (p_eor p))
    (status s) (version s) (remote_as s) (ht s) (last_keepalive s) (router_id s) (cap_mp s) (cap_as4 s)
    (Z.max afi (afi_max s)) (Z.max safi (safi_max s)) (sent s).
Definition with_as (as_ myas_ : Z) (s : session) : session :=
  let p := ss_peer s in
  mk_session (mk_bgp_peer (p_self p) (mk_peer (type (p_base p)) myas_) (p_fd p) (p_lock p) (p_4as p) (p_add_paths p) (p_eor p))
    (status s) (version s) as_ (ht s) (last_keepalive s) (router_id s) (cap_mp s) (cap_as4 s)
    (afi_max s) (safi_max s) (sent s).
(** [send], and the time of it. *)
Definition with_sent (pkt : list Z) (now : Z) (s : session) : session :=
  mk_session (ss_peer s) (status s) (version s) (remote_as s) (ht s) now (router_id s) (cap_mp s) (cap_as4 s)
    (afi_max s) (safi_max s) (sent s ++ [pkt]).

(** [bgp_router_id_check]: [others] are the identifiers of the other slots. *)
Definition bgp_router_id_check (others : list host_addr) (s : session) : Z :=
  if existsb (fun id => (ha_family id =? ha_family (router_id s)) && bool_decide (ha_address id = ha_address (router_id s))) others
  then ERR else 0.

Section Open.
Context (config : bgp_config) (others : list host_addr) (router_id_check : bool).
Context (buf : list Z) (online : bool).

(** What is parsed into: the session, the reply with the place of the AS
    number in it, and the AS number of the capability. *)
Record open_state := mk_ost {
  os_session : session;
  os_reply : list Z;
  os_as4_ptr : option Z;
  os_remote_as4 : Z
}.

Definition with_os_session (s : session) (o : open_state) : open_state :=
  mk_ost s (os_reply o) (os_as4_ptr o) (os_remote_as4 o).
Definition with_os_reply (r : list Z) (o : open_state) : open_state :=
  mk_ost (os_session o) r (os_as4_ptr o) (os_remote_as4 o).

(** [memcpy (bgp_open_cap_reply_ptr, ...)], and the pointer moved. *)
Definition reply_add (bytes : list Z) (o : open_state) : res open_state :=
  if strlen (os_reply o) + strlen bytes <=? BGP_BUFFER_SIZE - BGP_MIN_OPEN_MSG_SIZE
  then Ok (with_os_reply (os_reply o ++ bytes) o) else Err OutOfBounds.

Definition reply_copy (off len : Z) (o : open_state) : res open_state :=
  bytes ← read_bytes buf off len; reply_add bytes o.

(** The entries of an ADD-PATHs capability; [newlen] is where the length of
    the reply is, once it was begun. *)
Fixpoint add_paths_loop (n : nat) (optcap_ptr cap_len cap_idx : Z) (newlen : option Z) (o : open_state) : res open_state :=
  match n with
  | O => Err OutOfFuel
  | S n' =>
      if negb (cap_idx <? cap_len) then Ok o
      else
        data ← read_bytes buf (optcap_ptr + 2 + cap_idx) 4;
        let afi := be16 (byte_at data 0) (byte_at data 1) in
        let safi := byte_at data 2 in
        let sndrcv := byte_at data 3 in
        if (negb online && negb (sndrcv =? 0)) || (online && ((sndrcv =? 2) || (sndrcv =? 3))) then
          let o := if (afi <? AFI_MAX) && (safi <? SAFI_MAX)
                   then with_os_session (with_add_path afi safi sndrcv (os_session o)) o else o in
          if online then
            '(newlen, o) ← match newlen with
                          | Some l => Ok (l, o)
                          | None =>
                              hd ← read_bytes buf optcap_ptr 2;
                              let l := strlen (os_reply o) + 1 in
                              o ← reply_add [byte_at hd 0; 0] o;
                              Ok (l, o)
                          end;
            reply ← store (os_reply o) newlen (u8 (byte_at (os_reply o) newlen + 4));
            o ← reply_add (take 3 data ++ [1]) (with_os_reply reply o);
            add_paths_loop n' optcap_ptr cap_len (cap_idx + 4) (Some newlen) o
          else add_paths_loop n' optcap_ptr cap_len (cap_idx + 4) newlen o
        else add_paths_loop n' optcap_ptr cap_len (cap_idx + 4) newlen o
  end.

(** The loop over the entries of an extended next hop capability, which only
    logs them. *)
Fixpoint ext_nh_loop (n : nat) (optcap_ptr cap_len cap_idx : Z) : res unit :=
  match n with
  | O => Err OutOfFuel
  | S n' =>
      if negb (cap_idx <? cap_len) then Ok tt
      else
        _ ← read_bytes buf (optcap_ptr + 2 + cap_idx) 6;
        ext_nh_loop n' optcap_ptr cap_len (cap_idx + 6)
  end.

(** One capability; [false] when it is malformed. *)
Definition open_capability (optcap_ptr cap_type cap_len : Z) (o : open_state) : res (bool * open_state) :=
  if cap_type =? BGP_CAPABILITY_MULTIPROTOCOL then
    _ ← read_bytes buf (optcap_ptr + 2) 4;
    let o := with_os_session (with_cap_mp (os_session o)) o in
    (true,.) <$> (if online then reply_copy optcap_ptr (cap_len + 2) o else Ok o)
  else if cap_type =? BGP_CAPABILITY_4_OCTET_AS_NUMBER then
    if cap_len =? CAPABILITY_CODE_AS4_LEN then
      as4 ← be32_at buf (optcap_ptr + 2);
      let ptr := strlen (os_reply o) + 2 in
      let o := mk_ost (with_cap_4as as4 (os_session o)) (os_reply o) (os_as4_ptr o) as4 in
      (true,.) <$> (if online then
                  o ← reply_copy optcap_ptr (cap_len + 2) o;
                  Ok (mk_ost (os_session o) (os_reply o) (Some ptr) as4)
                else Ok o)
    else Ok (false, o)
  else if cap_type =? BGP_CAPABILITY_ADD_PATHS then
    if cap_add_path_ignore config then Ok (true, o)
    else (true,.) <$> add_paths_loop (S (Z.to_nat cap_len)) optcap_ptr cap_len 0 None o
  else if cap_type =? BGP_CAPABILITY_ROUTE_REFRESH then
    if tmp_bgp_daemon_route_refresh config then (true,.) <$> reply_copy optcap_ptr (cap_len + 2) o else Ok (true, o)
  else if cap_type =? BGP_CAPABILITY_EXTENDED_NEXT_HOP_ENCODING then
    _ ← ext_nh_loop (S (Z.to_nat cap_len)) optcap_ptr cap_len 0;
    (true,.) <$> (if online then reply_copy optcap_ptr (cap_len + 2) o else Ok o)
  else Ok (true, o).

Fixpoint capabilities_loop (fuel : nat) (optcap_ptr optcap_len : Z) (o : open_state) : res (bool * open_state) :=
  match fuel with
  | O => Err OutOfFuel
  | S f =>
      if negb (0 <? optcap_len) then Ok (true, o)
      else
        cap_len ← u8_at buf (optcap_ptr + 1);
        cap_type ← u8_at buf optcap_ptr;
        if optcap_len <? cap_len then Ok (false, o)
        else
          '(ok, o) ← open_capability optcap_ptr cap_type cap_len o;
          if ok : bool then capabilities_loop f (optcap_ptr + cap_len + 2) (optcap_len - (cap_len + 2)) o
          else Ok (false, o)
  end.

(** The loop over the options: [len] is an octet, and [ptr] moves by two at
    least. *)
Fixpoint options_loop (fuel : nat) (ptr len : Z) (o : open_state) : res (bool * open_state) :=
  match fuel with
  | O => Err OutOfFuel
  | S f =>
      if negb (0 <? len) then Ok (true, o)
      else
        opt_type ← u8_at buf ptr;
        opt_len ← u8_at buf (ptr + 1);
        if len <? opt_len then Ok (false, o)
        else if opt_type =? BGP_OPTION_CAPABILITY then
          let base := os_reply o in
          o ← reply_copy ptr 2 o;
          '(ok, o) ← capabilities_loop (S (Z.to_nat opt_len)) (ptr + 2) opt_len o;
          if ok : bool then
            reply ← (if strlen base + 2 <? strlen (os_reply o)
                     then store (os_reply o) (strlen base + 1) (u8 (strlen (os_reply o) - strlen base - 2))
                     else Ok base);
            options_loop f (ptr + 2 + opt_len) (u8 (u8 (len - 2) - opt_len)) (with_os_reply reply o)
          else Ok (false, o)
        else options_loop f (ptr + 2 + opt_len) (u8 (u8 (len - 2) - opt_len)) o
  end.

(** The AS number of the peer; [None] when the two are at odds. *)
Definition open_remote_as (remote_as remote_as4 : Z) : option Z :=
  if remote_as =? BGP_AS_TRANS then
    if negb (remote_as4 =? 0) && negb (remote_as4 =? BGP_AS_TRANS) then Some remote_as4 else None
  else if (remote_as4 =? 0) || (remote_as4 =? remote_as) then Some remote_as
  else None.

(** [old_optlen] is what the reply buffer has in the place of the length of
    the options. *)
Definition bgp_parse_open_msg (s : session) (pkt now old_optlen : Z) : res (Z * session) :=
  if negb online || (status s <? OpenSent) then
    let s := with_status Active s in
    bgpo_version ← u8_at buf (pkt + 19);
    if bgpo_version =? BGP_VERSION4 then
      remote_as ← be16_at buf (pkt + 20);
      holdtime ← be16_at buf (pkt + 22);
      id ← read_bytes buf (pkt + 24) 4;
      optlen ← u8_at buf (pkt + 28);
      bgpo_len ← be16_at buf (pkt + 16);
      let s := with_open id holdtime s in
      let check := if negb (bgp_disable_router_id_check config) && router_id_check then bgp_router_id_check others s else 0 in
      if negb (check =? 0) then Ok (check, s)
      else
        let o := mk_ost s [] None 0 in
        '(ok, o) ← (if 2 <=? optlen then
                      if bgpo_len <? BGP_MIN_OPEN_MSG_SIZE + optlen then Ok (false, o)
                      else options_loop (S (length buf)) (pkt + BGP_MIN_OPEN_MSG_SIZE) optlen o
                    else Ok (true, o));
        let s := os_session o in
        if negb ok then Ok (ERR, s)
        else
            match open_remote_as remote_as (os_remote_as4 o) with
            | None => Ok (ERR, s)
            | Some as_ =>
                let s := with_as as_ (myas (p_base (ss_peer s))) s in
                if online then
                  let s := with_as as_ (if bgp_daemon_as config =? 0 then as_ else bgp_daemon_as config) s in
                  open ← bgp_write_open_msg config (os_reply o) s (os_as4_ptr o) old_optlen;
                  match open with
                  | None => Ok (ERR, s)
                  | Some open =>
                      let s := with_sent (open ++ bgp_write_keepalive_msg) now s in
                      Ok (BGP_MIN_OPEN_MSG_SIZE + optlen, with_status Established s)
                  end
                else Ok (BGP_MIN_OPEN_MSG_SIZE + optlen, with_status Established s)
            end
    else Ok (ERR, s)
  else Ok (ERR, s).

End Open.

(** ** The messages of a buffer *)

Section Parse.
Context {X : Type}.
Context (config : bgp_config) (others : list host_addr) (router_id_check : bool) (online : bool).
Context (dbs : misc_dbs).
(** [bgp_parse_update_msg] at an offset of the buffer, with the count of
    prefixes of the message data: [BgpUpdate]'s, its parameters given. *)
Context (parse_update : list Z -> update_state (X := X) -> Z -> res (Z * update_state (X := X))).
Context (old_optlen : Z).

(** A session with the tables, [peer->msglen] and [bmd.nlri_count]. *)
Record msg_state := mk_mst {
  m_session : session;
  m_rt : bgp_rt_structs X;
  m_msglen : Z;
  m_nlri_count : Z
}.

Definition with_m_session (s : session) (m : msg_state) : msg_state := mk_mst s (m_rt m) (m_msglen m) (m_nlri_count m).

Definition parse_keepalive (now : Z) (s : session) : session :=
  if OpenSent <=? status s then
    let s := if status s <? Established then with_status Established s else s in
    if online then with_sent bgp_write_keepalive_msg now s else s
  else s.

Definition parse_update_state (m : msg_state) : update_state (X := X) :=
  mk_ust (ss_peer (m_session m)) (m_rt m) extra0 (m_nlri_count m).

(** One message: [Some] status where the function returns. *)
Definition parse_one (buf : list Z) (now bgp_packet_ptr bgpo_type : Z) (m : msg_state) : res (option Z * msg_state) :=
  if bgpo_type =? BGP_OPEN then
    '(ret, s) ← bgp_parse_open_msg config others router_id_check buf online (m_session m) bgp_packet_ptr now old_optlen;
    Ok (if ret <? 0 then Some BGP_NOTIFY_OPEN_ERR else None, with_m_session s m)
  else if bgpo_type =? BGP_NOTIFICATION then
    _ ← bgp_parse_notification_msg buf bgp_packet_ptr (m_msglen m) (BGP_NOTIFY_CEASE_SM_LEN + 1);
    Ok (Some ERR, m)
  else if bgpo_type =? BGP_KEEPALIVE then Ok (None, with_m_session (parse_keepalive now (m_session m)) m)
  else if bgpo_type =? BGP_UPDATE then
    if status (m_session m) <? Established then Ok (Some BGP_NOTIFY_FSM_ERR, m)
    else
      '(ret, u) ← parse_update buf (parse_update_state m) bgp_packet_ptr;
      Ok (if ret <? 0 then Some BGP_NOTIFY_UPDATE_ERR else None,
          mk_mst (with_ss_peer (u_peer u) (m_session m)) (u_rt u) (m_msglen m) (u_nlri_count u))
  else if bgpo_type =? BGP_ROUTE_REFRESH then Ok (None, m)
  else Ok (Some BGP_NOTIFY_HEADER_ERR, m).

(** [base] is where the buffer starts; [msglen] is unsigned. *)
Fixpoint parse_msgs (fuel : nat) (buf : list Z) (now ptr : Z) (m : msg_state) : res (Z * msg_state) :=
  match fuel with
  | O => Err OutOfFuel
  | S f =>
      if negb (0 <? m_msglen m) then Ok (SUCCESS, m)
      else if (m_msglen m <? BGP_HEADER_SIZE) && (ptr =? 0) then Ok (BGP_NOTIFY_HEADER_ERR, m)
      else
        bgp_len ← be16_at buf (ptr + 16);
        if bgp_max_msglen_check bgp_len =? ERR then Ok (BGP_NOTIFY_HEADER_ERR, m)
        else
          marker ← bgp_marker_check buf ptr BGP_MARKER_SIZE;
          if marker =? ERR then Ok (BGP_NOTIFY_HEADER_ERR, m)
          else
            bgpo_type ← u8_at buf (ptr + 18);
            '(ret, m) ← parse_one buf now ptr bgpo_type m;
            match ret with
            | Some ret => Ok (ret, m)
            | None => parse_msgs f buf now (ptr + bgp_len) (mk_mst (m_session m) (m_rt m) (u32 (m_msglen m - bgp_len)) (m_nlri_count m))
            end
  end.

(** Every message that has a length moves on in the buffer, which bounds
    their number. *)
Definition bgp_parse_msg (buf : list Z) (now : Z) (m : msg_state) : res (Z * msg_state) :=
  match bgp_select_misc_db dbs (type (p_base (ss_peer (m_session m)))) with
  | None => Ok (ERR, m)
  | Some _ => parse_msgs (S (length buf)) buf now 0 (mk_mst (m_session m) (m_rt m) (m_msglen m) 0)
  end.

End Parse.

End BgpMsg.
