(* ===== verification/BgpMsgFacts.v ===== *)
(** * BGP messages: framing, the session, and what both ends agree on

    [parse_msgs] treats the messages of a buffer one after the other, each at
    the place its predecessor's length gives; what [bgp_write_open_msg],
    [bgp_write_keepalive_msg] and [bgp_write_notification_msg] write is what
    the parsers read; routes only change in an established session. *)

From S2P Require Import Prelude CBuf Bgp BgpPrefix BgpAttr BgpRib BgpNlri BgpUpdate BgpMsg.

Module BgpMsgFacts.
Import CBuf Bgp BgpPrefix BgpAttr BgpRib BgpNlri BgpUpdate BgpMsg.

(** ** Headers *)

(** A message of a type, with its body. *)
Definition frame (m : Z * list Z) : list Z := header (BGP_HEADER_SIZE + strlen (snd m)) (fst m) ++ snd m.

Definition frame_ok (m : Z * list Z) : Prop := is_u8 (fst m) /\ bytes_ok (snd m) /\ BGP_HEADER_SIZE + strlen (snd m) <= BGP_MAX_MSGLEN.

Lemma header_length len type : strlen (header len type) = BGP_HEADER_SIZE.
Proof. reflexivity. Qed.

Lemma frame_length m : strlen (frame m) = BGP_HEADER_SIZE + strlen (snd m).
Proof. unfold frame. by rewrite strlen_app, header_length. Qed.

Lemma marker_read buf off len type : at_off buf off (header len type) -> bgp_marker_check buf off BGP_MARKER_SIZE = Ok SUCCESS.
Proof.
  intros H. unfold bgp_marker_check. rewrite <- (Z.add_0_r off), (read_within _ _ _ 0 _ H) by done. reflexivity.
Qed.

Lemma len_read buf off len type : at_off buf off (header len type) -> be16_at buf (off + 16) = Ok (u16 len).
Proof.
  intros H. rewrite (be16_within _ _ _ 16 H) by done. unfold be16, header, byte_at, htons. cbn [replicate app lookup list_lookup].
  f_equal. change (u16 len / 256 * 256 + u16 len mod 256 = u16 len). pose proof (Z.div_mod (u16 len) 256). lia.
Qed.

Lemma type_read buf off len type : at_off buf off (header len type) -> u8_at buf (off + 18) = Ok type.
Proof. intros H. by rewrite (u8_within _ _ _ 18 H) by done. Qed.

(** ** The messages of a buffer *)

Section Parse.
Context {X : Type}.
Context (config : bgp_config) (others : list host_addr) (router_id_check online : bool) (dbs : misc_dbs).
Context (parse_update : list Z -> update_state (X := X) -> Z -> res (Z * update_state (X := X))).
Context (old_optlen : Z).
Implicit Types (m : msg_state (X := X)).

Abbreviation one := (parse_one config others router_id_check online parse_update old_optlen).
Abbreviation msgs := (parse_msgs config others router_id_check online parse_update old_optlen).

Definition with_msglen (n : Z) m : msg_state (X := X) := mk_mst (m_session m) (m_rt m) n (m_nlri_count m).

(** One message after the other, until one of them ends the session. *)
Fixpoint run_msgs (buf : list Z) (now ptr : Z) (ms : list (Z * list Z)) m : res (Z * msg_state (X := X)) :=
  match ms with
  | [] => Ok (SUCCESS, m)
  | msg :: ms =>
      '(ret, m) ← one buf now ptr (fst msg) m;
      match ret with
      | Some ret => Ok (ret, m)
      | None => run_msgs buf now (ptr + strlen (frame msg)) ms (with_msglen (m_msglen m - strlen (frame msg)) m)
      end
  end.

(** What is left of the buffer is not a message's business. *)
Lemma parse_one_msglen buf now ptr type m ret m' : one buf now ptr type m = Ok (ret, m') -> m_msglen m' = m_msglen m.
Proof using.
  unfold parse_one. repeat case_match; try (intros [= <- <-]; reflexivity).
  - intros ([r s] & E & [= <- <-])%bind_Ok_inv. reflexivity.
  - intros (r & E & [= <- <-])%bind_Ok_inv. reflexivity.
  - intros ([r u] & E & [= <- <-])%bind_Ok_inv. reflexivity.
Qed.

Lemma parse_msgs_frames buf now ms : forall fuel ptr m,
  at_off buf ptr (concat (map frame ms)) -> Forall frame_ok ms -> m_msglen m = strlen (concat (map frame ms)) ->
  m_msglen m < 2 ^ 32 -> (length ms < fuel)%nat ->
  msgs fuel buf now ptr m = run_msgs buf now ptr ms m.
Proof using.
  induction ms as [|msg ms IH]; intros fuel ptr m Hat Hok Hl Hb Hf; (destruct fuel as [|fuel]; [cbn in Hf; lia |]).
  - cbn [parse_msgs run_msgs]. rewrite Hl. reflexivity.
  - apply Forall_cons_1 in Hok as [(Ht & Hby & Hsz) Hok]. cbn [map concat] in Hat, Hl.
    pose proof (strlen_nonneg (snd msg)) as Hn. pose proof (strlen_nonneg (concat (map frame ms))) as Hn2.
    rewrite strlen_app, frame_length in Hl. unfold BGP_HEADER_SIZE, BGP_MAX_MSGLEN in *.
    pose proof (at_off_app_l _ _ _ _ Hat) as Hfr. pose proof (at_off_app_l _ _ _ _ Hfr) as Hh.
    cbn [parse_msgs run_msgs]. rewrite (proj2 (Z.ltb_lt 0 (m_msglen m))) by lia. cbn [negb]. unfold BGP_HEADER_SIZE at 1.
    rewrite (proj2 (Z.ltb_ge (m_msglen m) 19)) by lia. cbn [andb].
    rewrite (len_read _ _ _ _ Hh), bind_Ok. unfold BGP_HEADER_SIZE. rewrite u16_small by lia.
    unfold bgp_max_msglen_check, BGP_MAX_MSGLEN. rewrite (proj2 (Z.leb_le (19 + strlen (snd msg)) 4096)) by lia.
    change (SUCCESS =? ERR) with false. cbn iota. rewrite (marker_read _ _ _ _ Hh), bind_Ok.
    change (SUCCESS =? ERR) with false. cbn iota. rewrite (type_read _ _ _ _ Hh), bind_Ok.
    destruct (one buf now ptr (fst msg) m) as [[ret m']|e] eqn:E; [rewrite !bind_Ok | done].
    destruct ret as [ret|]; [done |]. rewrite frame_length. unfold BGP_HEADER_SIZE.
    pose proof (parse_one_msglen _ _ _ _ _ _ _ E) as Hm.
    rewrite u32_small by lia. apply IH; try done.
    + rewrite <- frame_length. by apply at_off_app_r.
    + cbn. lia.
    + cbn. lia.
    + cbn in Hf. lia.
Qed.

(** C31. However many messages a buffer holds, each is treated once, in order, at
    the place where it starts; the loop ends with the last one or with the one
    that ends the session. *)
Theorem bgp_parse_msg_sequence buf now ms rest m :
  buf = concat (map frame ms) ++ rest -> Forall frame_ok ms -> m_msglen m = strlen (concat (map frame ms)) ->
  m_msglen m < 2 ^ 32 -> type (p_base (ss_peer (m_session m))) < FUNC_TYPE_MAX ->
  bgp_parse_msg config others router_id_check online dbs parse_update old_optlen buf now m =
  run_msgs buf now 0 ms (mk_mst (m_session m) (m_rt m) (m_msglen m) 0).
Proof using.
  intros -> Hok Hl Hb Hp. unfold bgp_parse_msg, bgp_select_misc_db. rewrite (proj2 (Z.ltb_lt _ _) Hp).
  apply parse_msgs_frames; try done; [exists [], rest; by split |].
  assert (Hlen : (length ms <= length (concat (map frame ms)))%nat).
  { clear. induction ms as [|msg ms IH]; cbn; [lia |]. rewrite length_app.
    pose proof (frame_length msg) as E. pose proof (strlen_nonneg (snd msg)). unfold strlen, BGP_HEADER_SIZE in *. lia. }
  rewrite length_app. lia.
Qed.

(** A message whose header gives its length as 0 is looked at for ever. *)
Theorem bgp_parse_msg_zero_length buf now m fuel rest :
  buf = header 0 BGP_KEEPALIVE ++ rest -> 19 <= m_msglen m < 2 ^ 32 ->
  msgs fuel buf now 0 m = Err OutOfFuel.
Proof using.
  intros -> Hl. assert (Hh : at_off (header 0 BGP_KEEPALIVE ++ rest) 0 (header 0 BGP_KEEPALIVE)) by (by exists [], rest).
  revert m Hl. induction fuel as [|fuel IH]; intros m Hl; [done |].
  cbn [parse_msgs]. rewrite (proj2 (Z.ltb_lt 0 (m_msglen m))) by lia. cbn [negb].
  unfold BGP_HEADER_SIZE. rewrite (proj2 (Z.ltb_ge (m_msglen m) 19)) by lia. cbn [andb].
  rewrite (len_read _ _ _ _ Hh), bind_Ok. change (bgp_max_msglen_check (u16 0) =? ERR) with false. cbn iota.
  rewrite (marker_read _ _ _ _ Hh), bind_Ok. change (SUCCESS =? ERR) with false. cbn iota.
  rewrite (type_read _ _ _ _ Hh), bind_Ok. unfold parse_one. cbn [Z.eqb].
  change (BGP_KEEPALIVE =? BGP_OPEN) with false. change (BGP_KEEPALIVE =? BGP_NOTIFICATION) with false.
  change (BGP_KEEPALIVE =? BGP_KEEPALIVE) with true. cbn iota. rewrite bind_Ok. cbn iota.
  change (u16 0) with 0. rewrite Z.add_0_r, Z.sub_0_r. apply IH. cbn.
  rewrite u32_small by lia. done.
Qed.

(** ** The session *)

(** The status only changes on OPEN and KEEPALIVE, and an online session that
    is established stays so. *)
Lemma open_status buf s pkt now old ret s' :
  bgp_parse_open_msg config others router_id_check buf true s pkt now old = Ok (ret, s') ->
  OpenSent <= status s -> s' = s.
Proof using.
  unfold bgp_parse_open_msg. intros E H. rewrite (proj2 (Z.ltb_ge _ _) H) in E. cbn in E. by injection E.
Qed.

Lemma one_online buf now ptr type m ret m' : online = true -> one buf now ptr type m = Ok (ret, m') ->
  (status (m_session m) < Established -> m_rt m' = m_rt m) /\
  (Established <= status (m_session m) -> Established <= status (m_session m')).
Proof using.
  intros -> E. unfold parse_one in E. repeat case_match; subst; try (injection E as <- <-; done).
  - apply bind_Ok_inv in E as ([r s] & Eo & [= <- <-]). split; [done |]. intros H1. cbn.
    rewrite (open_status _ _ _ _ _ _ _ Eo); [done |]. unfold OpenSent, Established in *. lia.
  - apply bind_Ok_inv in E as (r & _ & [= <- <-]). done.
  - injection E as <- <-. split; [done |]. intros He. cbn. unfold parse_keepalive.
    case_match; [| done]. rewrite (proj2 (Z.ltb_ge _ _) He). done.
  - apply bind_Ok_inv in E as ([r u] & _ & [= <- <-]). split; [| done].
    intros He. match goal with H : (_ <? _) = false |- _ => apply Z.ltb_ge in H end. lia.
Qed.

(** An UPDATE of a session that is not established. *)
Lemma early_update_refused fuel buf now ptr m len :
  at_off buf ptr (header len BGP_UPDATE) -> BGP_HEADER_SIZE <= len <= BGP_MAX_MSGLEN ->
  0 < m_msglen m -> BGP_HEADER_SIZE <= m_msglen m \/ ptr <> 0 -> status (m_session m) < Established -> (0 < fuel)%nat ->
  msgs fuel buf now ptr m = Ok (BGP_NOTIFY_FSM_ERR, m).
Proof using.
  intros H Hlen Hpos Hsz Hst Hf. destruct fuel as [|fuel]; [lia |]. cbn [parse_msgs].
  rewrite (proj2 (Z.ltb_lt 0 _) Hpos). cbn [negb].
  assert (((m_msglen m <? BGP_HEADER_SIZE) && (ptr =? 0)) = false) as ->.
  { apply andb_false_iff. destruct Hsz; [left; by apply Z.ltb_ge | right; by apply Z.eqb_neq]. }
  assert (Hu : u16 len = len) by (apply u16_small; unfold in_u, BGP_HEADER_SIZE, BGP_MAX_MSGLEN in *; lia).
  rewrite (len_read _ _ _ _ H), Hu. res_step.
  assert ((bgp_max_msglen_check len =? ERR) = false) as ->.
  { unfold bgp_max_msglen_check. by rewrite (proj2 (Z.leb_le _ _)) by lia. }
  rewrite (marker_read _ _ _ _ H). res_step. change (SUCCESS =? ERR) with false. cbv iota.
  rewrite (type_read _ _ _ _ H). res_step. unfold parse_one.
  change (BGP_UPDATE =? BGP_OPEN) with false. change (BGP_UPDATE =? BGP_NOTIFICATION) with false.
  change (BGP_UPDATE =? BGP_KEEPALIVE) with false. change (BGP_UPDATE =? BGP_UPDATE) with true. cbv iota.
  by rewrite (proj2 (Z.ltb_lt _ _) Hst).
Qed.

(** C33. No routes before a session is established.  When the messages of a live
    session are parsed without a fault and it is not established at the end,
    the tables are as they were.  And wherever in the buffer the parser stands,
    with a session that is not yet established, an UPDATE with a proper header
    makes it return the error of the state machine (BGP_NOTIFY_FSM_ERR), with
    session and tables unchanged: neither its body nor what follows is looked
    at. *)
Theorem bgp_parse_msg_no_routes_before_established fuel buf now ptr m :
  (forall ret m', online = true -> msgs fuel buf now ptr m = Ok (ret, m') ->
     status (m_session m') < Established -> m_rt m' = m_rt m) /\
  (forall len, at_off buf ptr (header len BGP_UPDATE) -> BGP_HEADER_SIZE <= len <= BGP_MAX_MSGLEN ->
     0 < m_msglen m -> BGP_HEADER_SIZE <= m_msglen m \/ ptr <> 0 -> status (m_session m) < Established -> (0 < fuel)%nat ->
     msgs fuel buf now ptr m = Ok (BGP_NOTIFY_FSM_ERR, m)).
Proof using.
  split; [intros ret m' Ho E | intros len H Hlen Hpos Hsz Hst Hf; by apply (early_update_refused _ _ _ _ _ len)].
  enough (H : (status (m_session m') < Established -> m_rt m' = m_rt m) /\
              (Established <= status (m_session m) -> Established <= status (m_session m'))) by apply H.
  revert ptr m ret m' E. induction fuel as [|fuel IH]; intros ptr m ret m' E; [done |]. cbn [parse_msgs] in E.
  destruct (negb _); [injection E as <- <-; done |]. destruct ((_ <? _) && _); [injection E as <- <-; done |].
  apply bind_Ok_inv in E as (len & _ & E). destruct (_ =? ERR); [injection E as <- <-; done |].
  apply bind_Ok_inv in E as (mk & _ & E). destruct (mk =? ERR); [injection E as <- <-; done |].
  apply bind_Ok_inv in E as (ty & _ & E). apply bind_Ok_inv in E as ([r m1] & E1 & E).
  destruct (one_online _ _ _ _ _ _ _ Ho E1) as [H1 H2].
  assert (H3 : status (m_session m1) < Established -> status (m_session m) < Established).
  { intros H. apply Z.lt_nge. intros Hge%H2. lia. }
  destruct r as [r|].
  - injection E as <- <-. split; [| done]. intros H. by apply H1, H3.
  - apply IH in E as [H4 H5]. cbn in H4, H5. split; [| auto]. intros H. rewrite H4 by done. apply H1, H3.
    apply Z.lt_nge. intros Hge%H5. lia.
Qed.

End Parse.

(** ** OPEN *)

Section Open.
Context (config : bgp_config) (others : list host_addr) (router_id_check : bool) (buf : list Z) (online : bool).

(** Capabilities: address families, and the four-octet AS number. *)
Definition mp_cap (f : Z * Z) : list Z := [BGP_CAPABILITY_MULTIPROTOCOL; 4] ++ htons (fst f) ++ [0; snd f].
Definition caps (fams : list (Z * Z)) (as_ : Z) : list Z :=
  concat (map mp_cap fams) ++ [BGP_CAPABILITY_4_OCTET_AS_NUMBER; CAPABILITY_CODE_AS4_LEN] ++ htonl as_.

Definition wire_as (as_ : Z) : Z := if BGP_AS_MAX <? as_ then BGP_AS_TRANS else as_.

Definition open_body (as_ holdtime : Z) (id : list Z) (fams : list (Z * Z)) : list Z :=
  [BGP_VERSION4] ++ htons (wire_as as_) ++ htons holdtime ++ id ++ [2 + strlen (caps fams as_)]
    ++ [BGP_OPTION_CAPABILITY; strlen (caps fams as_)] ++ caps fams as_.
Definition open_frame (as_ holdtime : Z) (id : list Z) (fams : list (Z * Z)) : list Z :=
  frame (BGP_OPEN, open_body as_ holdtime id fams).

Lemma caps_length fams as_ : strlen (caps fams as_) = 6 * Z.of_nat (length fams) + 6.
Proof using.
  unfold caps. rewrite strlen_app. change (strlen _) with 6 at 2.
  enough (strlen (concat (map mp_cap fams)) = 6 * Z.of_nat (length fams)) by lia.
  induction fams as [|f fams IH]; [done |]. cbn [map concat]. rewrite strlen_app, IH. change (strlen (mp_cap f)) with 6.
  cbn [length]. lia.
Qed.

Lemma reply_copy_at o off bytes n : at_off buf off bytes -> n = strlen bytes ->
  strlen (os_reply o) + strlen bytes <= BGP_BUFFER_SIZE - BGP_MIN_OPEN_MSG_SIZE ->
  reply_copy buf off n o = Ok (with_os_reply (os_reply o ++ bytes) o).
Proof using.
  intros H -> Hs. unfold reply_copy. rewrite (read_at _ _ _ _ H) by done. rewrite bind_Ok. unfold reply_add.
  by rewrite (proj2 (Z.leb_le _ _) Hs).
Qed.

(** What the capabilities leave. *)
Definition caps_session (fams : list (Z * Z)) (as_ : Z) (s : session) : session :=
  with_cap_4as as_ (if bool_decide (fams = []) then s else with_cap_mp s).
Definition caps_state (fams : list (Z * Z)) (as_ : Z) (o : open_state) : open_state :=
  mk_ost (caps_session fams as_ (os_session o))
    (if online then os_reply o ++ caps fams as_ else os_reply o)
    (if online then Some (strlen (os_reply o) + 6 * Z.of_nat (length fams) + 2) else os_as4_ptr o) as_.

Lemma capabilities_read fams as_ : forall fuel ptr o,
  is_u32 as_ -> at_off buf ptr (caps fams as_) -> (S (length fams) < fuel)%nat ->
  strlen (os_reply o) + strlen (caps fams as_) <= 1000 ->
  capabilities_loop config buf online fuel ptr (strlen (caps fams as_)) o = Ok (true, caps_state fams as_ o).
Proof using.
  induction fams as [|f fams IH]; intros fuel ptr o Has Hat Hf Hr; (destruct fuel as [|fuel]; [cbn in Hf; lia |]);
    cbn [capabilities_loop].
  - change (strlen (caps [] as_)) with 6 in *. cbn [Z.ltb Z.compare negb].
    rewrite (u8_within _ _ _ 1 Hat) by done. rewrite bind_Ok.
    rewrite <- (Z.add_0_r ptr) at 1. rewrite (u8_within _ _ _ 0 Hat) by done. rewrite bind_Ok.
    change (6 <? byte_at (caps [] as_) 1) with false. cbn iota.
    unfold open_capability. change (byte_at (caps [] as_) 0) with BGP_CAPABILITY_4_OCTET_AS_NUMBER.
    change (byte_at (caps [] as_) 1) with 4.
    change (BGP_CAPABILITY_4_OCTET_AS_NUMBER =? BGP_CAPABILITY_MULTIPROTOCOL) with false.
    change (BGP_CAPABILITY_4_OCTET_AS_NUMBER =? BGP_CAPABILITY_4_OCTET_AS_NUMBER) with true.
    change (4 =? CAPABILITY_CODE_AS4_LEN) with true. cbn iota.
    rewrite (be32_read _ _ as_ []); [| done |]. 2:{ rewrite app_nil_r. apply (at_off_app_r _ _ [BGP_CAPABILITY_4_OCTET_AS_NUMBER; 4]), Hat. }
    rewrite bind_Ok. unfold caps_state, caps_session. cbn [bool_decide].
    destruct online.
    + rewrite (reply_copy_at _ _ _ _ Hat);
        [| done | cbn [os_reply]; unfold BGP_BUFFER_SIZE, BGP_MIN_OPEN_MSG_SIZE; change (strlen (caps [] as_)) with 6; lia].
      rewrite bind_Ok. cbn [fmap res_fmap os_session os_reply with_os_reply]. rewrite bind_Ok.
      destruct fuel as [|fuel]; [cbn in Hf; lia |]. cbn. do 3 f_equal. f_equal. lia.
    + cbn [fmap res_fmap]. rewrite bind_Ok. destruct fuel as [|fuel]; [cbn in Hf; lia |]. reflexivity.
  - pose proof (caps_length fams as_) as Hcl.
    assert (E : caps (f :: fams) as_ = mp_cap f ++ caps fams as_) by (unfold caps; cbn [map concat]; by rewrite <- app_assoc).
    rewrite E, strlen_app in *. change (strlen (mp_cap f)) with 6 in *.
    pose proof (at_off_app_l _ _ _ _ Hat) as Hf1. pose proof (at_off_app_r _ _ _ _ Hat) as Hat'. change (strlen (mp_cap f)) with 6 in Hat'.
    rewrite (proj2 (Z.ltb_lt 0 _)) by lia. cbn [negb].
    rewrite (u8_within _ _ _ 1 Hf1) by done. rewrite bind_Ok. change (byte_at (mp_cap f) 1) with 4.
    rewrite <- (Z.add_0_r ptr) at 1. rewrite (u8_within _ _ _ 0 Hf1) by done. rewrite bind_Ok. change (byte_at (mp_cap f) 0) with 1.
    rewrite (proj2 (Z.ltb_ge _ 4)) by lia. unfold open_capability. change (1 =? BGP_CAPABILITY_MULTIPROTOCOL) with true. cbn iota.
    rewrite (read_within _ _ _ 2 4 Hf1) by done. rewrite bind_Ok. change (4 + 2) with 6.
    replace (6 + strlen (caps fams as_) - 6) with (strlen (caps fams as_)) by lia. replace (ptr + 4 + 2) with (ptr + 6) by lia.
    set (o1 := with_os_session (with_cap_mp (os_session o)) o).
    assert (Hs : caps_session fams as_ (with_cap_mp (os_session o)) = caps_session (f :: fams) as_ (os_session o)).
    { unfold caps_session. by destruct fams. }
    unfold caps_state. destruct online eqn:Eon.
    + rewrite (reply_copy_at o1 _ _ _ Hf1);
        [| done | change (strlen (mp_cap f)) with 6; cbn [os_reply o1 with_os_session]; unfold BGP_BUFFER_SIZE, BGP_MIN_OPEN_MSG_SIZE; lia].
      cbn [fmap res_fmap]. rewrite bind_Ok. rewrite IH; [| done | done | cbn [length] in *; lia |].
      2:{ cbn [os_reply o1 with_os_session with_os_reply]. rewrite strlen_app. change (strlen (mp_cap f)) with 6. lia. }
      unfold caps_state. cbn [os_session os_reply os_as4_ptr o1 with_os_session with_os_reply].
      rewrite Hs, E, <- app_assoc, strlen_app. change (strlen (mp_cap f)) with 6. rewrite Eon. do 3 f_equal. f_equal. cbn [length]. lia.
    + cbn [fmap res_fmap]. rewrite bind_Ok. rewrite IH; [| done | done | cbn [length] in *; lia |].
      2:{ cbn [os_reply o1 with_os_session]. lia. }
      unfold caps_state. cbn [os_session os_reply os_as4_ptr o1 with_os_session]. by rewrite Hs, Eon.
Qed.

(** The options of such a message. *)
Definition option_bytes (fams : list (Z * Z)) (as_ : Z) : list Z :=
  [BGP_OPTION_CAPABILITY; strlen (caps fams as_)] ++ caps fams as_.

Definition options_state (fams : list (Z * Z)) (as_ : Z) (s : session) : open_state :=
  mk_ost (caps_session fams as_ s)
    (if online then option_bytes fams as_ else [])
    (if online then Some (6 * Z.of_nat (length fams) + 4) else None) as_.

Lemma options_read fams as_ fuel ptr s :
  is_u32 as_ -> at_off buf ptr (option_bytes fams as_) -> (2 <= fuel)%nat -> (length fams <= 41)%nat ->
  options_loop config buf online fuel ptr (2 + strlen (caps fams as_)) (mk_ost s [] None 0)
    = Ok (true, options_state fams as_ s).
Proof using.
  intros Has Hat Hf Hn. pose proof (caps_length fams as_) as Hcl. set (cl := strlen (caps fams as_)) in *.
  destruct fuel as [|[|fuel]]; [lia.. |]. cbn [options_loop].
  pose proof (at_off_app_l _ _ [BGP_OPTION_CAPABILITY; cl] _ Hat) as Hh. pose proof (at_off_app_r _ _ [BGP_OPTION_CAPABILITY; cl] _ Hat) as Hc.
  change (strlen [BGP_OPTION_CAPABILITY; cl]) with 2 in Hc.
  rewrite (proj2 (Z.ltb_lt 0 (2 + cl))) by lia. cbn [negb].
  rewrite <- (Z.add_0_r ptr) at 1. rewrite (u8_within _ _ _ 0 Hh) by done. rewrite bind_Ok.
  rewrite (u8_within _ _ _ 1 Hh) by done. rewrite bind_Ok.
  change (byte_at [BGP_OPTION_CAPABILITY; cl] 0) with 2. change (byte_at [BGP_OPTION_CAPABILITY; cl] 1) with cl.
  rewrite (proj2 (Z.ltb_ge (2 + cl) cl)) by lia. change (2 =? BGP_OPTION_CAPABILITY) with true. cbn iota zeta.
  cbn [os_reply].
  rewrite (reply_copy_at _ _ _ _ Hh) by done. rewrite bind_Ok. cbn [os_reply with_os_reply app].
  unfold cl. rewrite capabilities_read; [| done | done | fold cl; lia |].
  2:{ fold cl. cbn [os_reply with_os_reply]. change (strlen [BGP_OPTION_CAPABILITY; cl]) with 2. lia. }
  fold cl. rewrite bind_Ok.
  replace (u8 (u8 (2 + cl - 2) - cl)) with 0.
  2:{ replace (2 + cl - 2) with cl by lia. unfold u8. rewrite (wrap_small 8 cl) by (unfold in_u; lia). by rewrite Z.sub_diag. }
  unfold caps_state. cbn [os_session os_reply os_as4_ptr with_os_reply]. change (strlen []) with 0.
  unfold options_state, option_bytes. fold cl. destruct online.
  - rewrite strlen_app. change (strlen [BGP_OPTION_CAPABILITY; cl]) with 2. fold cl.
    rewrite (proj2 (Z.ltb_lt (0 + 2) _)) by lia. replace (2 + cl - 0 - 2) with cl by lia.
    unfold u8. rewrite (wrap_small 8 cl) by (unfold in_u; lia).
    unfold store. rewrite (proj2 (Z.ltb_lt _ (Z.of_nat _))); [| cbn [app length]; lia]. change ((0 <=? 0 + 1) && true) with true. cbn iota.
    rewrite bind_Ok. change (negb (0 <? 0)) with true. cbn iota.
    replace (2 + 6 * Z.of_nat (length fams) + 2) with (6 * Z.of_nat (length fams) + 4) by lia. reflexivity.
  - reflexivity.
Qed.

(** Our AS number: the peer's unless one is configured. *)
Definition my_as (as_ : Z) : Z := if bgp_daemon_as config =? 0 then as_ else bgp_daemon_as config.

Lemma write_open_read fams as_ my s old :
  is_u32 my -> (length fams <= 41)%nat -> strlen (my_router_id config) = 4 -> myas (p_base (ss_peer s)) = my ->
  bgp_write_open_msg config (option_bytes fams as_) s (Some (6 * Z.of_nat (length fams) + 4)) old =
    Ok (Some (open_frame my (ht s) (my_router_id config) fams)).
Proof using.
  intros Hmy Hn Hid E. unfold bgp_write_open_msg. rewrite E. rewrite (bool_decide_eq_true_2 (is_Some _)) by done.
  rewrite andb_false_r. pose proof (caps_length fams as_) as Hcl. pose proof (caps_length fams my) as Hcm.
  assert (Hw : write_at (option_bytes fams as_) (6 * Z.of_nat (length fams) + 4) (htonl my) = Ok (option_bytes fams my)).
  { assert (Hl : strlen (concat (map mp_cap fams)) = 6 * Z.of_nat (length fams)).
    { unfold caps in Hcl. rewrite strlen_app in Hcl. change (strlen ([_; _] ++ _)) with 6 in Hcl. lia. }
    set (pre := [BGP_OPTION_CAPABILITY; strlen (caps fams as_)] ++ concat (map mp_cap fams)
                  ++ [BGP_CAPABILITY_4_OCTET_AS_NUMBER; CAPABILITY_CODE_AS4_LEN]).
    assert (E1 : forall a, option_bytes fams a = pre ++ htonl a).
    { intros a. unfold option_bytes, pre. rewrite (caps_length fams a), <- (caps_length fams as_). unfold caps at 2.
      by rewrite <- !app_assoc. }
    assert (Hp : 6 * Z.of_nat (length fams) + 4 = strlen pre).
    { unfold pre. rewrite !strlen_app, Hl. change (strlen [_; strlen _]) with 2.
      change (strlen [BGP_CAPABILITY_4_OCTET_AS_NUMBER; CAPABILITY_CODE_AS4_LEN]) with 2. lia. }
    rewrite !E1, Hp. unfold write_at. rewrite strlen_app. change (strlen (htonl my)) with 4. change (strlen (htonl as_)) with 4.
    pose proof (strlen_nonneg pre). rewrite (proj2 (Z.leb_le 0 _)) by done. rewrite (proj2 (Z.leb_le _ _)) by lia. cbn [andb].
    unfold strlen. rewrite Nat2Z.id, take_app_length. rewrite drop_ge; [by rewrite app_nil_r |]. rewrite length_app.
    change (length (htonl as_)) with 4%nat. change (length (htonl my)) with 4%nat. lia. }
  rewrite Hw, bind_Ok.
  assert (Hol : strlen (option_bytes fams my) = 2 + strlen (caps fams my)).
  { unfold option_bytes. rewrite strlen_app. reflexivity. }
  rewrite Hol. rewrite (proj2 (Z.eqb_neq _ _)) by lia. unfold u8. rewrite wrap_small by (unfold in_u; lia).
  unfold open_frame, frame, open_body. cbn [fst snd]. do 2 f_equal.
  rewrite !strlen_app, Hid. change (strlen [BGP_VERSION4]) with 1.
  change (strlen (htons _)) with 2. change (strlen [_; strlen _]) with 2. change (strlen [_]) with 1.
  replace (BGP_MIN_OPEN_MSG_SIZE + (2 + strlen (caps fams my)))
    with (BGP_HEADER_SIZE + (1 + (2 + (2 + (4 + (1 + (2 + strlen (caps fams my)))))))) by (unfold BGP_MIN_OPEN_MSG_SIZE, BGP_HEADER_SIZE; lia).
  reflexivity.
Qed.

(** The session after an OPEN message. *)
Definition opened (as_ holdtime : Z) (id : list Z) (fams : list (Z * Z)) (now : Z) (s : session) : session :=
  let s := with_as as_ (myas (p_base (ss_peer s))) (caps_session fams as_ (with_open id holdtime (with_status Active s))) in
  with_status Established
    (if online
     then with_sent (open_frame (my_as as_) (Z.max 5 holdtime) (my_router_id config) fams ++ bgp_write_keepalive_msg) now
            (with_as as_ (my_as as_) s)
     else s).

Lemma open_read s pkt now old as_ holdtime id fams :
  is_u32 as_ -> as_ <> BGP_AS_TRANS -> is_u16 holdtime -> strlen id = 4 -> (length fams <= 41)%nat ->
  is_u32 (my_as as_) -> strlen (my_router_id config) = 4 ->
  online = false \/ status s < OpenSent ->
  bgp_disable_router_id_check config = true \/ bgp_router_id_check others (with_open id holdtime (with_status Active s)) = 0 ->
  at_off buf pkt (open_frame as_ holdtime id fams) ->
  bgp_parse_open_msg config others router_id_check buf online s pkt now old =
    Ok (strlen (open_frame as_ holdtime id fams), opened as_ holdtime id fams now s).
Proof using.
  intros Has Htr Hh Hid Hn Hmy Hmid Hst Hck Hat. unfold bgp_parse_open_msg.
  assert (Hon : negb online || (status s <? OpenSent) = true).
  { destruct Hst as [->|Hst]; [done |]. rewrite (proj2 (Z.ltb_lt _ _) Hst). by destruct online. }
  rewrite Hon. clear Hon. pose proof (caps_length fams as_) as Hcl. unfold open_frame in Hat.
  pose proof (at_off_app_l _ _ _ _ Hat) as Hhd. pose proof (at_off_app_r _ _ _ _ Hat) as Hb. rewrite header_length in Hb.
  cbn [snd] in Hb. unfold BGP_HEADER_SIZE in Hb.
  destruct id as [|i0 [|i1 [|i2 [|i3 [|]]]]]; try (unfold strlen in Hid; cbn [length] in Hid; lia). clear Hid. set (id := [i0; i1; i2; i3]) in *.
  set (cl := strlen (caps fams as_)) in *.
  set (fx := [BGP_VERSION4] ++ htons (wire_as as_) ++ htons holdtime ++ id ++ [2 + cl]).
  assert (Eb : open_body as_ holdtime id fams = fx ++ option_bytes fams as_) by reflexivity.
  rewrite Eb in Hb. pose proof (at_off_app_l _ _ _ _ Hb) as Hfx. pose proof (at_off_app_r _ _ _ _ Hb) as Ho.
  change (strlen fx) with 10 in Ho.
  replace (pkt + 20) with (pkt + 19 + 1) by lia. replace (pkt + 22) with (pkt + 19 + 3) by lia.
  replace (pkt + 24) with (pkt + 19 + 5) by lia. replace (pkt + 28) with (pkt + 19 + 9) by lia.
  rewrite <- (Z.add_0_r (pkt + 19)) at 1. rewrite (u8_within _ _ _ 0 Hfx) by done. rewrite bind_Ok.
  change (byte_at fx 0 =? BGP_VERSION4) with true. cbn iota.
  rewrite (be16_within _ _ _ 1 Hfx), bind_Ok by done. rewrite (be16_within _ _ _ 3 Hfx), bind_Ok by done.
  rewrite (read_within _ _ _ 5 4 Hfx), bind_Ok by done. rewrite (u8_within _ _ _ 9 Hfx), bind_Ok by done.
  change (byte_at fx 9) with (2 + cl). change (take _ (drop _ fx)) with id.
  rewrite (len_read _ _ _ _ Hhd), bind_Ok. cbn [snd]. cbv zeta.
  assert (Hw : wire_as as_ = u16 (wire_as as_)).
  { unfold wire_as, BGP_AS_MAX, BGP_AS_TRANS. rewrite u16_small; [done |]. destruct (Z.ltb_spec 65535 as_); unfold in_u in Has; lia. }
  assert (Hbe : forall v, u16 v / 256 * 256 + u16 v mod 256 = u16 v) by (intros v; pose proof (Z.div_mod (u16 v) 256); lia).
  change (be16 (byte_at fx 1) (byte_at fx (1 + 1))) with (u16 (wire_as as_) / 256 * 256 + u16 (wire_as as_) mod 256).
  change (be16 (byte_at fx 3) (byte_at fx (3 + 1))) with (u16 holdtime / 256 * 256 + u16 holdtime mod 256).
  rewrite !Hbe, <- Hw, (u16_small holdtime) by (unfold in_u in Hh; lia).
  set (s1 := with_open id holdtime (with_status Active s)) in *.
  assert (Hc0 : (if negb (bgp_disable_router_id_check config) && router_id_check then bgp_router_id_check others s1 else 0) = 0).
  { destruct Hck as [->| ->]; [done |]. by destruct (_ && _). }
  rewrite Hc0. change (negb (0 =? 0)) with false. cbn iota.
  rewrite (proj2 (Z.leb_le 2 (2 + cl))) by (subst cl; lia).
  assert (Hbl : strlen (open_body as_ holdtime id fams) = 12 + cl).
  { rewrite Eb, strlen_app. change (strlen fx) with 10. unfold option_bytes. rewrite strlen_app.
    change (strlen [_; _]) with 2. fold cl. lia. }
  rewrite Hbl. unfold BGP_HEADER_SIZE, BGP_MIN_OPEN_MSG_SIZE. rewrite u16_small by lia.
  rewrite (proj2 (Z.ltb_ge _ (29 + _))) by lia.
  replace (pkt + 29) with (pkt + 19 + 10) by lia.
  assert (Hfu : (2 <= S (length buf))%nat).
  { destruct Ho as (pre & post & -> & _). rewrite !length_app. cbn [option_bytes app length]. lia. }
  pose proof (options_read fams as_ (S (length buf)) (pkt + 19 + 10) s1 Has Ho Hfu Hn) as Eo. fold cl in Eo. rewrite Eo.
  rewrite bind_Ok. cbn [negb options_state os_session os_remote_as4 os_reply os_as4_ptr].
  assert (Hra : open_remote_as (wire_as as_) as_ = Some as_).
  { unfold open_remote_as, wire_as, BGP_AS_MAX, BGP_AS_TRANS in *. destruct (Z.ltb_spec 65535 as_) as [Hl|Hl].
    - rewrite Z.eqb_refl. rewrite (proj2 (Z.eqb_neq as_ 0)), (proj2 (Z.eqb_neq as_ 23456)) by lia. done.
    - rewrite (proj2 (Z.eqb_neq as_ 23456)) by done. rewrite Z.eqb_refl. by rewrite orb_true_r. }
  rewrite Hra. unfold opened, open_frame. rewrite frame_length. cbn [snd]. rewrite Hbl. unfold BGP_HEADER_SIZE.
  replace (19 + (12 + cl)) with (29 + (2 + cl)) by lia. fold s1.
  assert (Hpb : p_base (ss_peer (caps_session fams as_ s1)) = p_base (ss_peer s)).
  { unfold caps_session. by destruct (bool_decide _). }
  assert (Hht : ht (caps_session fams as_ s1) = 5 `max` holdtime) by (unfold caps_session; by destruct (bool_decide _)).
  rewrite Hpb. destruct online; [| done]. fold (my_as as_). rewrite (write_open_read fams as_ (my_as as_)) by done.
  rewrite bind_Ok. cbn [with_as ht]. by rewrite Hht.
Qed.

End Open.

(** C32. An OPEN of a peer, with up to 41 address families and a four-octet AS
    number (any but AS_TRANS), taken by a live session that has not sent an OPEN
    and whose check of the router id is off or passes.  It establishes the session
    with that AS number and hold time, but never less than 5 seconds.  One
    reply is sent: an OPEN with that hold time, the same families, our router
    id and our AS number (ours is any but AS_TRANS), and a KEEPALIVE right
    behind it.  A parser of the same code that is sent this reply, and does not
    check router ids, establishes its session with our AS number and the same
    hold time, and stands at the KEEPALIVE. *)
Theorem bgp_open_exchange config others rid buf s pkt now old as_ holdtime id fams
    config2 others2 rid2 buf2 s2 pkt2 now2 old2 :
  let my := my_as config as_ in
  let reply := open_frame my (Z.max 5 holdtime) (my_router_id config) fams ++ bgp_write_keepalive_msg in
  is_u32 as_ -> as_ <> BGP_AS_TRANS -> is_u16 holdtime -> strlen id = 4 -> (length fams <= 41)%nat ->
  is_u32 my -> my <> BGP_AS_TRANS -> strlen (my_router_id config) = 4 -> status s < OpenSent ->
  bgp_disable_router_id_check config = true \/ bgp_router_id_check others (with_open id holdtime (with_status Active s)) = 0 ->
  at_off buf pkt (open_frame as_ holdtime id fams) ->
  bgp_disable_router_id_check config2 = true -> strlen (my_router_id config2) = 4 -> is_u32 (my_as config2 my) ->
  exists s', bgp_parse_open_msg config others rid buf true s pkt now old = Ok (strlen (open_frame as_ holdtime id fams), s') /\
    status s' = Established /\ remote_as s' = as_ /\ p_4as (ss_peer s') = true /\ ht s' = Z.max 5 holdtime /\
    sent s' = sent s ++ [reply] /\
    (at_off buf2 pkt2 reply -> exists n s2', bgp_parse_open_msg config2 others2 rid2 buf2 false s2 pkt2 now2 old2 = Ok (n, s2') /\
       status s2' = Established /\ remote_as s2' = my /\ p_4as (ss_peer s2') = true /\ ht s2' = ht s' /\
       at_off buf2 (pkt2 + n) bgp_write_keepalive_msg).
Proof.
  intros my reply H1 H2 H3 H4 H5 H6 H7 H8 H9 H10 H11 H12 H13 H14.
  pose proof (open_read config others rid buf true s pkt now old as_ holdtime id fams H1 H2 H3 H4 H5 H6 H8 (or_intror H9) H10 H11) as E.
  eexists. split; [exact E |].
  assert (Hf : forall c, caps_session fams as_ c = with_cap_4as as_ c \/ caps_session fams as_ c = with_cap_4as as_ (with_cap_mp c)).
  { intros c. unfold caps_session. destruct (bool_decide _); [by left | by right]. }
  unfold opened. fold my. split; [done |]. split; [done |]. split; [by destruct (Hf (with_open id holdtime (with_status Active s))) as [->| ->] |].
  assert (Hht : forall o i c, ht (caps_session fams o (with_open i c (with_status Active s))) = Z.max 5 c).
  { intros. unfold caps_session. by destruct (bool_decide _). }
  split; [apply Hht |]. split.
  { cbn [with_status with_sent with_as sent]. f_equal. unfold caps_session. by destruct (bool_decide _). }
  intros Hat.
  assert (Hm : is_u16 (Z.max 5 holdtime)) by (unfold in_u in *; lia).
  pose proof (at_off_app_l _ _ _ _ Hat) as Ho. pose proof (at_off_app_r _ _ _ _ Hat) as Hk.
  pose proof (open_read config2 others2 rid2 buf2 false s2 pkt2 now2 old2 my (Z.max 5 holdtime) (my_router_id config) fams
    H6 H7 Hm H8 H5 H14 H13 (or_introl eq_refl) (or_introl H12) Ho) as E2.
  eexists _, _. split; [exact E2 |]. unfold opened. split; [done |]. split; [done |]. split.
  { unfold caps_session. by destruct (bool_decide _). }
  split; [| done]. cbn [with_status with_as with_sent ht]. rewrite Hht.
  replace (ht (caps_session fams my _)) with (Z.max 5 (Z.max 5 holdtime)) by (unfold caps_session; by destruct (bool_decide _)). lia.
Qed.

(** ** NOTIFICATION *)

(** What is written is read: the codes, and the shutdown message when they
    announce one. *)
Theorem bgp_notification_round_trip msglen n_major n_minor text buf pkt :
  is_u8 n_major -> is_u8 n_minor -> strlen text <= BGP_NOTIFY_CEASE_SM_LEN ->
  BGP_MIN_NOTIFICATION_MSG_SIZE + strlen text <= msglen ->
  let '(len, msg) := bgp_write_notification_msg msglen n_major n_minor (Some text) in
  at_off buf pkt msg ->
  let major := if n_major =? 0 then BGP_NOTIFY_CEASE else n_major in
  let minor := if n_minor =? 0 then BGP_NOTIFY_CEASE_ADMIN_SHUTDOWN else n_minor in
  len = strlen msg /\
  bgp_parse_notification_msg buf pkt len (BGP_NOTIFY_CEASE_SM_LEN + 1) =
    Ok (if (major =? BGP_NOTIFY_CEASE) && ((minor =? BGP_NOTIFY_CEASE_ADMIN_SHUTDOWN) || (minor =? BGP_NOTIFY_CEASE_ADMIN_RESET))
        then (len, major, minor, text) else (BGP_MIN_NOTIFICATION_MSG_SIZE, major, minor, [])).
Proof.
  intros H1 H2 H3 H4. unfold BGP_NOTIFY_CEASE_SM_LEN in H3. pose proof (strlen_nonneg text) as Hn.
  set (major := if n_major =? 0 then BGP_NOTIFY_CEASE else n_major). set (minor := if n_minor =? 0 then BGP_NOTIFY_CEASE_ADMIN_SHUTDOWN else n_minor).
  unfold bgp_write_notification_msg. fold major minor. rewrite (proj2 (Z.leb_le BGP_MIN_NOTIFICATION_MSG_SIZE _)) by lia.
  rewrite u16_small by lia. unfold BGP_NOTIFY_CEASE_SM_LEN. rewrite (proj2 (Z.leb_le _ 255)), (proj2 (Z.leb_le _ msglen)) by lia. cbn [andb].
  rewrite take_ge by (unfold strlen; lia). set (len := BGP_MIN_NOTIFICATION_MSG_SIZE + strlen text + 1).
  intros Hat. split.
  { rewrite !strlen_app, header_length. change (strlen [_; _; _]) with 3. unfold len, BGP_MIN_NOTIFICATION_MSG_SIZE, BGP_HEADER_SIZE. lia. }
  pose proof (at_off_app_r _ _ _ _ Hat) as Hb. rewrite header_length in Hb. unfold BGP_HEADER_SIZE in Hb.
  pose proof (at_off_app_l _ _ [major; minor; strlen text] _ Hb) as Hc. pose proof (at_off_app_r _ _ [major; minor; strlen text] _ Hb) as Ht.
  change (strlen [_; _; _]) with 3 in Ht.
  unfold bgp_parse_notification_msg. rewrite (proj2 (Z.ltb_ge len _)) by (unfold len, BGP_MIN_NOTIFICATION_MSG_SIZE; lia).
  rewrite <- (Z.add_0_r (pkt + 19)) at 1. rewrite (u8_within _ _ _ 0 Hc), bind_Ok by done. change (byte_at _ 0) with major.
  replace (pkt + 20) with (pkt + 19 + 1) by lia. rewrite (u8_within _ _ _ 1 Hc), bind_Ok by done. change (byte_at _ 1) with minor.
  replace (pkt + 21) with (pkt + 19 + 2) by lia. replace (pkt + 22) with (pkt + 19 + 3) by lia.
  rewrite (proj2 (Z.eqb_neq (len - _) 0)) by (unfold len, BGP_MIN_NOTIFICATION_MSG_SIZE; lia). cbn [negb]. rewrite andb_true_r.
  destruct ((major =? _) && _); [| done]. rewrite (u8_within _ _ _ 2 Hc), bind_Ok by done. change (byte_at _ 2) with (strlen text).
  rewrite (proj2 (Z.leb_le _ (len - _))) by (unfold len, BGP_MIN_NOTIFICATION_MSG_SIZE; lia).
  rewrite (proj2 (Z.ltb_lt _ (255 + 1))) by lia. cbn [andb]. by rewrite (read_at _ _ _ _ Ht) by done.
Qed.

(** ** At concrete messages *)

Definition ex_config : bgp_config := mk_config 65001 None (Some (mk_ha AF_INET ([10; 0; 0; 9] ++ replicate 12 0))) true false false.
Definition ex_session : session :=
  mk_session (mk_bgp_peer 3 (mk_peer FUNC_TYPE_BGP 0) 5 0 false ∅ ∅) Idle 0 0 0 0 ha0 false 0 0 0 [].
Definition ex_msg_dbs : misc_dbs := fun _ => mk_misc false 1 1 0.
Definition ex_state (n : Z) : msg_state (X := Z) := mk_mst ex_session rt0 n 0.
Definition ex_no_update (buf : list Z) (u : update_state (X := Z)) (pkt : Z) : res (Z * update_state (X := Z)) := Ok (0, u).

Definition ex_frames : list (Z * list Z) := [(BGP_KEEPALIVE, []); (BGP_ROUTE_REFRESH, [0; 1; 0; 1])].
Definition ex_early : list Z := frame (BGP_UPDATE, [0; 0; 0; 0]).

Lemma bgp_parse_msg_sequence_witness : exists m',
  bgp_parse_msg ex_config [] false true ex_msg_dbs ex_no_update 0 (concat (map frame ex_frames) ++ [7; 7]) 0 (ex_state 42) = Ok (SUCCESS, m') /\
  m_msglen m' = 0.
Proof.
  rewrite (bgp_parse_msg_sequence ex_config [] false true ex_msg_dbs ex_no_update 0 (concat (map frame ex_frames) ++ [7; 7]) 0 ex_frames
    [7; 7] (ex_state 42) eq_refl); [| | reflexivity | reflexivity | reflexivity].
  - eexists. split; [vm_compute; reflexivity | reflexivity].
  - forall_list; (split; [split; [discriminate | reflexivity] |]); (split; [by apply bytes_ok_b | by compute]).
Defined.

Lemma bgp_parse_msg_zero_length_witness :
  parse_msgs ex_config [] false false ex_no_update 0 1000 (header 0 BGP_KEEPALIVE ++ [1; 2; 3]) 0 0 (ex_state 22) = Err OutOfFuel.
Proof. by apply (bgp_parse_msg_zero_length ex_config [] false false ex_no_update 0 _ 0 (ex_state 22) 1000 [1; 2; 3] eq_refl). Defined.

Lemma bgp_parse_msg_no_routes_before_established_witness :
  parse_msgs ex_config [] false true ex_no_update 0 3 ex_early 0 0 (ex_state 23) = Ok (BGP_NOTIFY_FSM_ERR, ex_state 23) /\
  forall ret m', parse_msgs ex_config [] false true ex_no_update 0 3 ex_early 0 0 (ex_state 23) = Ok (ret, m') ->
    status (m_session m') < Established -> m_rt m' = rt0.
Proof.
  destruct (bgp_parse_msg_no_routes_before_established ex_config [] false true ex_no_update 0 3 ex_early 0 0 (ex_state 23)) as [H1 H2].
  split.
  - apply (H2 23); [exists [], [0; 0; 0; 0]; split; reflexivity | split; discriminate | reflexivity | left; discriminate | reflexivity | lia].
  - intros ret m' E. exact (H1 ret m' eq_refl E).
Defined.

Definition ex_fams : list (Z * Z) := [(1, 1); (2, 1)].
Definition ex_open : list Z := open_frame 4200000001 90 [10; 0; 0; 1] ex_fams.
Definition ex_reply : list Z := open_frame 65001 90 [10; 0; 0; 9] ex_fams ++ bgp_write_keepalive_msg.

Lemma bgp_open_exchange_witness : exists s',
  bgp_parse_open_msg ex_config [] true ex_open true ex_session 0 0 0 = Ok (strlen ex_open, s') /\
  status s' = Established /\ remote_as s' = 4200000001 /\ sent s' = [ex_reply] /\
  exists n s2, bgp_parse_open_msg ex_config [] true ex_reply false ex_session 0 0 0 = Ok (n, s2) /\ remote_as s2 = 65001.
Proof.
  destruct (bgp_open_exchange ex_config [] true ex_open ex_session 0 0 0 4200000001 90 [10; 0; 0; 1] ex_fams
    ex_config [] true ex_reply ex_session 0 0 0) as (s' & E & H1 & H2 & _ & _ & H3 & H4).
  - split; [discriminate | reflexivity].
  - discriminate.
  - split; [discriminate | reflexivity].
  - reflexivity.
  - cbn. lia.
  - split; [discriminate | reflexivity].
  - discriminate.
  - reflexivity.
  - reflexivity.
  - by left.
  - exists [], []. split; [vm_compute; reflexivity | reflexivity].
  - reflexivity.
  - reflexivity.
  - split; [discriminate | reflexivity].
  - exists s'. split; [exact E |]. split; [exact H1 |]. split; [exact H2 |]. split; [exact H3 |].
    destruct H4 as (n & s2 & E2 & _ & H5 & _); [exists [], []; split; [by rewrite app_nil_r | reflexivity] |].
    exists n, s2. split; [exact E2 | exact H5].
Defined.

Lemma bgp_notification_round_trip_witness :
  let '(len, msg) := bgp_write_notification_msg 277 6 2 (Some [66; 121; 101]) in
  bgp_parse_notification_msg (msg ++ [9]) 0 len 256 = Ok (25, 6, 2, [66; 121; 101]).
Proof.
  apply (bgp_notification_round_trip 277 6 2 [66; 121; 101] (snd (bgp_write_notification_msg 277 6 2 (Some [66; 121; 101])) ++ [9]) 0).
  - split; [discriminate | reflexivity].
  - split; [discriminate | reflexivity].
  - discriminate.
  - discriminate.
  - exists [], [9]. split; reflexivity.
Defined.

End BgpMsgFacts.
