(* ===== verification/NfTemplate.v ===== *)
(** * src/nfv9_template.c: NetFlow v9 and IPFIX templates

    A template describes the records of a data flowset: which element is at
    which offset.  [compose_template] and [compose_opt_template] build one from
    the wire, [resolve_vlen_template] fixes the offsets of a record with
    variable-length fields, [handle_template_v2] and [find_template_v2] keep
    the cache.  [struct template_cache_entry] is a record; the pointers of its
    ordered list, into the registry [fld] or the database [ext_db] of the same
    structure, are indices ([tpl_ref]).  The bytes of a packet are a list that
    ends where the receive buffer does.  Logging is left out. *)

From S2P Require Import Prelude CBuf.

Module NfTemplate.
Import CBuf.

Definition IPFIX_TPL_EBIT : Z := 0x8000.
Definition IPFIX_VARIABLE_LENGTH : Z := 65535.
Definition NF9_MAX_DEFINED_FIELD : Z := 384.
Definition IES_PER_TPL_EXT_DB_ENTRY : Z := 32.
Definition TPL_EXT_DB_ENTRIES : Z := 8.
Definition TPL_LIST_ENTRIES : Z := 256.
Definition TPL_MAX_ELEM_REPEATS : Z := 3.
Definition NF9_IPV4_SRC_ADDR : Z := 8.
Definition NF9_IPV6_SRC_ADDR : Z := 27.
(** Sizes of the packed structures of the wire. *)
Definition NfTplHdrV9Sz : Z := 4.
Definition NfOptTplHdrV9Sz : Z := 6.
Definition NfTplFieldV9Sz : Z := 4.
Definition ERR : Z := -1.
Definition SUCCESS : Z := 0.

(** One position of the three arrays of [struct otpl_field]; the same fields
    of [struct utpl_field]. *)
Record slot := mk_slot {
  s_off : Z;
  s_len : Z;
  s_tpl_len : Z
}.

Record otpl_field := mk_otpl {
  o_slots : list slot;
  o_count : Z
}.

Record utpl_field := mk_utpl {
  u_pen : Z;
  u_type : Z;
  u_slot : slot;
  u_repeat_id : Z
}.

(** [struct tpl_field_list]: its type, the repetition, and where [ptr] goes:
    [&fld[type]], [&ext_db[m].ie[i]] or NULL. *)
Inductive tpl_ref :=
| TPL_TYPE_UNKNOWN
| TPL_TYPE_LEGACY (type repeat : Z)
| TPL_TYPE_EXT_DB (ptr : option (Z * Z)).

Inductive layer_prot := none | ipv4 | ipv6.

Record layer_protocols := mk_layers {
  l_prot : list layer_prot;
  l_count : Z
}.

Record template := mk_tpl {
  t_agent : list Z;
  t_version : Z;
  t_source_id : Z;
  t_template_id : list Z;
  t_template_type : Z;
  t_num : Z;
  t_len : Z;
  t_vlen : bool;
  t_fld : list otpl_field;
  t_ext_db : list (list utpl_field);
  t_list : list tpl_ref;
  t_layers : layer_protocols
}.

(** [memset (tpl, 0, sizeof (struct template_cache_entry))] and the fields
    that are set at once. *)
Definition slot0 : slot := mk_slot 0 0 0.
Definition otpl0 : otpl_field := mk_otpl (replicate 3 slot0) 0.
Definition utpl0 : utpl_field := mk_utpl 0 0 slot0 0.
Definition template0 (agent : list Z) (version sid : Z) (template_id : list Z) (template_type num : Z)
    : template :=
  mk_tpl agent version sid template_id template_type num 0 false
    (replicate 384 otpl0) (replicate 8 (replicate 32 utpl0)) (replicate 256 TPL_TYPE_UNKNOWN)
    (mk_layers (replicate 3 none) 0).

Definition with_len (tpl : template) (len : Z) : template :=
  mk_tpl (t_agent tpl) (t_version tpl) (t_source_id tpl) (t_template_id tpl) (t_template_type tpl)
    (t_num tpl) len (t_vlen tpl) (t_fld tpl) (t_ext_db tpl) (t_list tpl) (t_layers tpl).
Definition with_vlen (tpl : template) (vlen : bool) : template :=
  mk_tpl (t_agent tpl) (t_version tpl) (t_source_id tpl) (t_template_id tpl) (t_template_type tpl)
    (t_num tpl) (t_len tpl) vlen (t_fld tpl) (t_ext_db tpl) (t_list tpl) (t_layers tpl).
Definition with_fld (tpl : template) (fld : list otpl_field) : template :=
  mk_tpl (t_agent tpl) (t_version tpl) (t_source_id tpl) (t_template_id tpl) (t_template_type tpl)
    (t_num tpl) (t_len tpl) (t_vlen tpl) fld (t_ext_db tpl) (t_list tpl) (t_layers tpl).
Definition with_ext_db (tpl : template) (ext_db : list (list utpl_field)) : template :=
  mk_tpl (t_agent tpl) (t_version tpl) (t_source_id tpl) (t_template_id tpl) (t_template_type tpl)
    (t_num tpl) (t_len tpl) (t_vlen tpl) (t_fld tpl) ext_db (t_list tpl) (t_layers tpl).
Definition with_list (tpl : template) (l : list tpl_ref) : template :=
  mk_tpl (t_agent tpl) (t_version tpl) (t_source_id tpl) (t_template_id tpl) (t_template_type tpl)
    (t_num tpl) (t_len tpl) (t_vlen tpl) (t_fld tpl) (t_ext_db tpl) l (t_layers tpl).
Definition with_layers (tpl : template) (l : layer_protocols) : template :=
  mk_tpl (t_agent tpl) (t_version tpl) (t_source_id tpl) (t_template_id tpl) (t_template_type tpl)
    (t_num tpl) (t_len tpl) (t_vlen tpl) (t_fld tpl) (t_ext_db tpl) (t_list tpl) l.

(** Array accesses: outside the array is a fault. *)
Definition get {A} (l : list A) (i : Z) : res A :=
  if 0 <=? i then match l !! Z.to_nat i with Some x => Ok x | None => Err OutOfBounds end
  else Err OutOfBounds.
Definition put {A} (l : list A) (i : Z) (x : A) : res (list A) :=
  _ ← get l i; Ok (<[Z.to_nat i := x]> l).

(* ------------------------------------------------------------------ *)
(** ** The database of elements with an enterprise number or a high type *)

(** The first free element of the bucket, and how many have the type
    already. *)
Fixpoint next_ie (l : list utpl_field) (type idx repeat_id : Z) : option Z * Z :=
  match l with
  | [] => (None, repeat_id)
  | ie :: l =>
      let repeat_id := if u_type ie =? type then u8 (repeat_id + 1) else repeat_id in
      if u_type ie =? 0 then (Some idx, repeat_id) else next_ie l type (idx + 1) repeat_id
  end.

Definition ext_db_get_next_ie (tpl : template) (type : Z) : res (option (Z * Z) * Z) :=
  let m := type mod TPL_EXT_DB_ENTRIES in
  bucket ← get (t_ext_db tpl) m;
  let '(i, repeat_id) := next_ie bucket type 0 0 in
  Ok ((fun i => (m, i)) <$> i, repeat_id).

Fixpoint find_ie (l : list utpl_field) (pen type repeat_id : Z) : option utpl_field :=
  match l with
  | [] => None
  | ie :: l =>
      if (u_type ie =? type) && (u_pen ie =? pen) && (u_repeat_id ie =? repeat_id) then Some ie
      else find_ie l pen type repeat_id
  end.

Definition ext_db_get_ie (tpl : template) (pen type repeat_id : Z) : res (option utpl_field) :=
  bucket ← get (t_ext_db tpl) (type mod TPL_EXT_DB_ENTRIES);
  Ok (find_ie bucket pen type repeat_id).

Definition get_ie (tpl : template) (p : Z * Z) : res utpl_field :=
  bucket ← get (t_ext_db tpl) p.1; get bucket p.2.

Definition put_ie (tpl : template) (p : Z * Z) (ie : utpl_field) : res template :=
  bucket ← get (t_ext_db tpl) p.1;
  bucket ← put bucket p.2 ie;
  db ← put (t_ext_db tpl) p.1 bucket;
  Ok (with_ext_db tpl db).

(* ------------------------------------------------------------------ *)
(** ** Composing a template *)

Definition evaluate_layer_prot (type : Z) : layer_prot :=
  if type =? NF9_IPV4_SRC_ADDR then ipv4
  else if type =? NF9_IPV6_SRC_ADDR then ipv6
  else none.

(** [field->type] and what the enterprise bit makes of it: the type, and where
    the enterprise number is. *)
Definition field_type (buf : list Z) (pos version : Z) : res (Z * bool) :=
  type ← be16_at buf pos;
  if negb (Z.land type IPFIX_TPL_EBIT =? 0) && (version =? 10)
  then Ok (Z.lxor type IPFIX_TPL_EBIT, true)
  else Ok (type, false).

(** A slot as both branches fill it, with what happens to [tpl->len] and
    [tpl->vlen]. *)
Definition new_slot (tpl : template) (flen : Z) : slot :=
  mk_slot (if t_vlen tpl then 0 else t_len tpl)
    (if flen =? IPFIX_VARIABLE_LENGTH then 0 else flen) flen.

Definition advance (tpl : template) (flen : Z) : template :=
  if flen =? IPFIX_VARIABLE_LENGTH then with_len (with_vlen tpl true) 0
  else if t_vlen tpl then tpl
  else with_len tpl (u16 (t_len tpl + flen)).

Definition set_list (tpl : template) (count : Z) (r : tpl_ref) : res template :=
  l ← put (t_list tpl) count r; Ok (with_list tpl l).

(** [type < NF9_MAX_DEFINED_FIELD && !pen] *)
Definition legacy_field (tpl : template) (count type flen : Z) : res template :=
  f ← get (t_fld tpl) type;
  let cnt := if o_count f <? TPL_MAX_ELEM_REPEATS then o_count f + 1 else o_count f in
  slots ← put (o_slots f) (cnt - 1) (new_slot tpl flen);
  fld ← put (t_fld tpl) type (mk_otpl slots cnt);
  set_list (advance (with_fld tpl fld) flen) count (TPL_TYPE_LEGACY type cnt).

Definition layer_field (tpl : template) (type : Z) : res template :=
  match evaluate_layer_prot type with
  | none => Ok tpl
  | prot =>
      let ly := t_layers tpl in
      let cnt := if l_count ly <? TPL_MAX_ELEM_REPEATS then l_count ly + 1 else l_count ly in
      p ← put (l_prot ly) (cnt - 1) prot;
      Ok (with_layers tpl (mk_layers p cnt))
  end.

Definition fill_ie (tpl : template) (ie : utpl_field) (pen : option Z) (type flen repeat_id : Z) : utpl_field :=
  mk_utpl (match pen with Some p => p | None => u_pen ie end) type (new_slot tpl flen) repeat_id.

Definition ext_field (tpl : template) (count type : Z) (pen : option Z) (flen : Z) : res template :=
  '(ptr, repeat_id) ← ext_db_get_next_ie tpl type;
  tpl ← match ptr with
        | Some p =>
            ie ← get_ie tpl p;
            tpl' ← put_ie tpl p (fill_ie tpl ie pen type flen repeat_id);
            Ok (advance tpl' flen)
        | None => Ok tpl
        end;
  set_list tpl count (TPL_TYPE_EXT_DB ptr).

(** The loop over the fields of a data template; [off] is the 16-bit counter
    that is checked, [pos] where the pointer is. The result holds the
    template, unless malformed, and the number of enterprise fields. *)
Fixpoint compose_loop (n : nat) (buf : list Z) (len version : Z) (tpl : template)
    (count off pos pens : Z) : res (option template * Z) :=
  match n with
  | O => Ok (Some tpl, pens)
  | S n' =>
      if TPL_LIST_ENTRIES <=? count then Ok (None, pens)
      else if len <=? off then Ok (None, pens)
      else
        '(type, ebit) ← field_type buf pos version;
        let pens := if ebit : bool then u16 (pens + 1) else pens in
        flen ← be16_at buf (pos + 2);
        tpl ← (if (type <? NF9_MAX_DEFINED_FIELD) && negb ebit
               then tpl ← legacy_field tpl count type flen; layer_field tpl type
               else
                 pen ← (if ebit then Some <$> be32_at buf (pos + 4) else Ok None);
                 ext_field tpl count type pen flen);
        let sz := if ebit then NfTplFieldV9Sz + 4 else NfTplFieldV9Sz in
        compose_loop n' buf len version tpl (count + 1) (u16 (off + sz)) (pos + sz) pens
  end.

Definition compose_template (buf agent : list Z) (sid version len : Z) : res (option template * Z) :=
  tid ← read_bytes buf 0 2;
  num ← be16_at buf 2;
  compose_loop (Z.to_nat num) buf len version (template0 agent version sid tid 0 num)
    0 NfTplHdrV9Sz NfTplHdrV9Sz 0.

(** The options variant: no limit on the number of fields, and the element
    of the database is used without a check. *)
Definition opt_ext_field (tpl : template) (count type : Z) (pen : option Z) (flen : Z) : res template :=
  '(ptr, repeat_id) ← ext_db_get_next_ie tpl type;
  p ← deref ptr;
  ie ← get_ie tpl p;
  tpl' ← put_ie tpl p (fill_ie tpl ie pen type flen repeat_id);
  set_list (advance tpl' flen) count (TPL_TYPE_EXT_DB ptr).

Fixpoint compose_opt_loop (n : nat) (buf : list Z) (len version : Z) (tpl : template)
    (count off pos pens : Z) : res (option template * Z) :=
  match n with
  | O => Ok (Some tpl, pens)
  | S n' =>
      if len <=? off then Ok (None, pens)
      else
        '(type, ebit) ← field_type buf pos version;
        let pens := if ebit : bool then u16 (pens + 1) else pens in
        flen ← be16_at buf (pos + 2);
        tpl ← (if (type <? NF9_MAX_DEFINED_FIELD) && negb ebit
               then legacy_field tpl count type flen
               else
                 pen ← (if ebit then Some <$> be32_at buf (pos + 4) else Ok None);
                 opt_ext_field tpl count type pen flen);
        let sz := if ebit then NfTplFieldV9Sz + 4 else NfTplFieldV9Sz in
        compose_opt_loop n' buf len version tpl (u16 (count + 1)) (u16 (off + sz)) (pos + sz) pens
  end.

(** The scope and option lengths: octets in NetFlow v9 (type 1), numbers of
    fields in IPFIX (type 3). *)
Definition opt_counts (buf : list Z) (tpl_type : Z) : res (option (Z * Z)) :=
  if tpl_type =? 1 then
    scope_len ← be16_at buf 2;
    option_len ← be16_at buf 4;
    Ok (Some (scope_len / 4, option_len / 4))
  else if tpl_type =? 3 then
    option_count ← be16_at buf 2;
    scope_count ← be16_at buf 4;
    Ok (Some (scope_count, u16 (option_count - scope_count)))
  else Ok None.

Definition compose_opt_template (buf agent : list Z) (tpl_type sid version len : Z)
    : res (option template * Z) :=
  counts ← opt_counts buf tpl_type;
  match counts with
  | None => Ok (None, 0)
  | Some (slen, olen) =>
      tid ← read_bytes buf 0 2;
      compose_opt_loop (Z.to_nat (olen + slen)) buf len version
        (template0 agent version sid tid 1 (u16 (olen + slen))) 0 NfOptTplHdrV9Sz NfOptTplHdrV9Sz 0
  end.

(* ------------------------------------------------------------------ *)
(** ** Variable-length fields *)

(** The octets of the length prefix (or 0, ERR), and the length. *)
Definition get_ipfix_vlen (buf : list Z) (base remlen : Z) : res (Z * option Z) :=
  if 1 <=? remlen then
    b ← read_bytes buf base 1;
    let len8 := byte_at b 0 in
    if len8 <? 255 then Ok (1, Some len8)
    else if 3 <=? remlen then len16 ← be16_at buf (base + 1); Ok (3, Some len16)
    else Ok (ERR, None)
  else Ok (ERR, None).

Definition read_ref (tpl : template) (r : tpl_ref) : res slot :=
  match r with
  | TPL_TYPE_UNKNOWN => Err NullDeref
  | TPL_TYPE_LEGACY type repeat => f ← get (t_fld tpl) type; get (o_slots f) (repeat - 1)
  | TPL_TYPE_EXT_DB ptr => p ← deref ptr; ie ← get_ie tpl p; Ok (u_slot ie)
  end.

Definition write_ref (tpl : template) (r : tpl_ref) (s : slot) : res template :=
  match r with
  | TPL_TYPE_UNKNOWN => Err NullDeref
  | TPL_TYPE_LEGACY type repeat =>
      f ← get (t_fld tpl) type;
      slots ← put (o_slots f) (repeat - 1) s;
      fld ← put (t_fld tpl) type (mk_otpl slots (o_count f));
      Ok (with_fld tpl fld)
  | TPL_TYPE_EXT_DB ptr =>
      p ← deref ptr;
      ie ← get_ie tpl p;
      put_ie tpl p (mk_utpl (u_pen ie) (u_type ie) s (u_repeat_id ie))
  end.

(** One field: the slot, the octets of its length prefix, or an error. *)
Definition resolve_slot (buf : list Z) (remlen len : Z) (vlen : bool) (s : slot)
    : res (option (slot * Z * bool) * slot) :=
  let s := if vlen then mk_slot len (s_len s) (s_tpl_len s) else s in
  if s_tpl_len s =? IPFIX_VARIABLE_LENGTH then
    '(ret, l) ← get_ipfix_vlen buf len (u16 (remlen - len));
    let s := match l with Some l => mk_slot (s_off s) l (s_tpl_len s) | None => s end in
    if 0 <? ret then Ok (Some (mk_slot (u16 (len + ret)) (s_len s) (s_tpl_len s), ret, true), s)
    else Ok (None, s)
  else Ok (Some (s, 0, vlen), s).

(** Return code and the template, whose slots have been updated on the way. *)
Fixpoint resolve_loop (n : nat) (buf : list Z) (remlen : Z) (tpl : template) (idx len : Z) (vlen : bool)
    : res (Z * template) :=
  match n with
  | O => Ok (SUCCESS, with_len tpl len)
  | S n' =>
      r ← get (t_list tpl) idx;
      match r with
      | TPL_TYPE_UNKNOWN =>
          if remlen <? len then Ok (ERR, tpl) else resolve_loop n' buf remlen tpl (idx + 1) len vlen
      | _ =>
          s ← read_ref tpl r;
          '(o, s') ← resolve_slot buf remlen len vlen s;
          match o with
          | None => tpl ← write_ref tpl r s'; Ok (ERR, tpl)
          | Some (s, add_len, vlen) =>
              tpl ← write_ref tpl r s;
              let len := u16 (len + (s_len s + add_len)) in
              if remlen <? len then Ok (ERR, tpl)
              else resolve_loop n' buf remlen tpl (idx + 1) len vlen
          end
      end
  end.

(** [ptr] is the start of [buf]. *)
Definition resolve_vlen_template (buf : list Z) (remlen : Z) (tpl : template) : res (Z * template) :=
  resolve_loop (Z.to_nat (t_num tpl)) buf remlen tpl 0 0 false.

(** The records of a data flowset, [process_v9_packet]: [pos] is where [pkt]
    points, [flowoff] the 16-bit counter.  The result lists the records: where
    each starts and the template that describes it. *)
Fixpoint data_loop (fuel : nat) (buf : list Z) (flowsetlen : Z) (tpl : template) (pos flowoff : Z)
    : res (list (Z * template)) :=
  match fuel with
  | O => Err OutOfFuel
  | S f =>
      if flowoff + t_len tpl <=? flowsetlen then
        '(ret, tpl) ← (if t_vlen tpl
                       then resolve_vlen_template (drop (Z.to_nat pos) buf) (u16 (flowsetlen - flowoff)) tpl
                       else Ok (SUCCESS, tpl));
        if ret =? ERR then Ok []
        else
          let len := t_len tpl in
          rest ← data_loop f buf flowsetlen (if t_vlen tpl then with_len tpl 1 else tpl)
                   (pos + len) (u16 (flowoff + len));
          Ok ((pos, tpl) :: rest)
      else Ok []
  end.

(* ------------------------------------------------------------------ *)
(** ** The cache *)

(** libcdada's map from keys to pointers. *)
Class CdadaMap (M V : Type) := {
  cdada_map_create : M;
  cdada_map_find : M -> list Z -> option V;
  cdada_map_erase : M -> list Z -> M;
  (** [None]: CDADA_E_EXISTS *)
  cdada_map_insert : M -> list Z -> V -> option M
}.

(** Its documented behaviour. *)
Class CdadaLaws (M V : Type) `{CdadaMap M V} := {
  find_create : forall k, cdada_map_find cdada_map_create k = None;
  find_erase : forall m k k', cdada_map_find (cdada_map_erase m k) k' =
    if decide (k = k') then None else cdada_map_find m k';
  insert_new : forall m k v, cdada_map_find m k = None ->
    exists m', cdada_map_insert m k v = Some m' /\
      forall k', cdada_map_find m' k' = if decide (k = k') then Some v else cdada_map_find m k';
  insert_exists : forall m k v v', cdada_map_find m k = Some v' -> cdada_map_insert m k v = None
}.

#[export] Instance gmap_cdada V : CdadaMap (gmap (list Z) V) V := {|
  cdada_map_create := ∅;
  cdada_map_find m k := m !! k;
  cdada_map_erase m k := delete k m;
  cdada_map_insert m k v := match m !! k with Some _ => None | None => Some (<[k := v]> m) end
|}.

(** [sa_reset_and_save_port]: the port of an IPv4 or IPv6 address, octets 2
    and 3 of the structure, is cleared; the family is its first two octets. *)
Definition sa_family (sa : list Z) : Z := byte_at sa 0 + 256 * byte_at sa 1.
Definition AF_INET : Z := 2.
Definition AF_INET6 : Z := 10.
Definition sa_reset_port (sa : list Z) : list Z :=
  if (sa_family sa =? AF_INET) || (sa_family sa =? AF_INET6)
  then take 2 sa ++ [0; 0] ++ drop 4 sa else sa.

Definition le32 (v : Z) : list Z :=
  [v mod 256; v / 256 mod 256; v / 65536 mod 256; v / 16777216 mod 256].

(** The template id is kept in network order, as its two octets. *)
Definition compose_template_key (nf_version : Z) (template_id agent : list Z) (source_id : Z) : list Z :=
  [u8 nf_version] ++ template_id ++ le32 source_id ++ sa_reset_port agent.

(** [sizeof (struct sockaddr_storage)] is 128. *)
Definition calc_template_keylen : Z := 1 + 2 + 4 + 128.

Section Cache.
Context {M : Type} `{CdadaMap M (option template)}.

(** [tpl_data_map], and [xflow_status_table.tot_bad_datagrams]. *)
Record cache := mk_cache {
  tpl_data_map : M;
  tot_bad_datagrams : Z
}.

Definition init_template_cache_v2 : cache := mk_cache cdada_map_create 0.

(** The template (NULL when malformed), the enterprise fields, the cache. *)
Definition handle_template_v2 (c : cache) (buf agent : list Z) (tpl_type sid len : Z)
    : res (option template * Z * cache) :=
  let version := if (tpl_type =? 0) || (tpl_type =? 1) then 9
                 else if (tpl_type =? 2) || (tpl_type =? 3) then 10 else 0 in
  tid ← read_bytes buf 0 2;
  let key := compose_template_key version tid agent sid in
  '(tpl, pens) ← (if (tpl_type =? 0) || (tpl_type =? 2) then compose_template buf agent sid version len
                  else if (tpl_type =? 1) || (tpl_type =? 3)
                  then compose_opt_template buf agent tpl_type sid version len
                  else Ok (None, 0));
  let bad := if negb (version =? 0) && negb (bool_decide (is_Some tpl))
             then u64 (tot_bad_datagrams c + 1) else tot_bad_datagrams c in
  let m := tpl_data_map c in
  (* old_tpl is the pointer found, NULL when there is none *)
  let m := match cdada_map_find m key with
           | Some (Some old_tpl) => cdada_map_erase m key
           | _ => m
           end in
  let m := match cdada_map_insert m key tpl with Some m => m | None => m end in
  Ok (tpl, pens, mk_cache m bad).

Definition find_template_v2 (c : cache) (id agent : list Z) (version sid : Z) : option template :=
  match cdada_map_find (tpl_data_map c) (compose_template_key version id agent sid) with
  | Some (Some tpl) => Some tpl
  | _ => None
  end.

End Cache.

End NfTemplate.
