(* ===== verification/NfTemplateFacts.v ===== *)
(** * Properties of the template code

    Composing a data template never leaves its arrays; resolving the
    variable-length fields of a record computes the layout of the record in
    exact arithmetic, unless a 16-bit sum wraps; the cache returns what was
    composed last, unless a malformed template came first. *)

From S2P Require Import Prelude CBuf NfTemplate.
Import CBuf NfTemplate.

Module NfTemplateFacts.

(* ------------------------------------------------------------------ *)
(** ** Arrays *)

Lemma get_Ok {A} (l : list A) i x : get l i = Ok x <-> 0 <= i /\ l !! Z.to_nat i = Some x.
Proof.
  unfold get. destruct (Z.leb_spec 0 i).
  - destruct (l !! Z.to_nat i); split; [by intros [= ->] | intros [_ [= ->]]; done | done | by intros []].
  - split; [done | lia].
Qed.

Lemma get_range {A} (l : list A) i : 0 <= i < Z.of_nat (length l) -> exists x, get l i = Ok x.
Proof.
  intros Hi. destruct (lookup_lt_is_Some_2 l (Z.to_nat i)) as [x Hx]; [lia |].
  exists x. apply get_Ok. split; [lia | done].
Qed.

Lemma put_range {A} (l : list A) i x : 0 <= i < Z.of_nat (length l) -> put l i x = Ok (<[Z.to_nat i := x]> l).
Proof. intros Hi. unfold put. destruct (get_range l i Hi) as [y ->]. done. Qed.

Lemma get_insert {A} (l : list A) i j x :
  0 <= i < Z.of_nat (length l) -> 0 <= j ->
  get (<[Z.to_nat i := x]> l) j = if decide (i = j) then Ok x else get l j.
Proof.
  intros Hi Hj. unfold get. destruct (Z.leb_spec 0 j); [| lia]. destruct (decide (i = j)) as [->|].
  - by rewrite list_lookup_insert_eq by lia.
  - by rewrite list_lookup_insert_ne by lia.
Qed.

(* ------------------------------------------------------------------ *)
(** ** The arrays of a template *)

Definition otpl_ok (o : otpl_field) : Prop := length (o_slots o) = 3%nat /\ 0 <= o_count o <= 3.

Record wf_tpl (tpl : template) : Prop := {
  w_fld : length (t_fld tpl) = 384%nat;
  w_slots : Forall otpl_ok (t_fld tpl);
  w_db : length (t_ext_db tpl) = 8%nat;
  w_bucket : Forall (fun b => length b = 32%nat) (t_ext_db tpl);
  w_list : length (t_list tpl) = 256%nat;
  w_layers : length (l_prot (t_layers tpl)) = 3%nat /\ 0 <= l_count (t_layers tpl) <= 3
}.

Lemma template0_wf agent version sid tid tt num : wf_tpl (template0 agent version sid tid tt num).
Proof.
  split; cbn [template0 t_fld t_ext_db t_list t_layers]; try by rewrite length_replicate.
  - apply Forall_replicate. split; [done | cbn; lia].
  - apply Forall_replicate. by rewrite length_replicate.
  - split; [done | cbn; lia].
Qed.

#[export] Instance tpl_ref_eq_dec : EqDecision tpl_ref.
Proof. solve_decision. Defined.

Definition ref_ok (r : tpl_ref) : Prop :=
  match r with
  | TPL_TYPE_LEGACY type repeat => 0 <= type < 384 /\ 1 <= repeat <= 3
  | TPL_TYPE_EXT_DB (Some (m, i)) => 0 <= m < 8 /\ 0 <= i < 32
  | _ => False
  end.

(** The header fields that the slots do not touch. *)
Definition same_head (t1 t2 : template) : Prop :=
  t_list t1 = t_list t2 /\ t_num t1 = t_num t2 /\ t_len t1 = t_len t2 /\ t_vlen t1 = t_vlen t2.

Section Wf.
Context (tpl : template) (Hwf : wf_tpl tpl).

Lemma get_fld type : 0 <= type < 384 -> exists f, get (t_fld tpl) type = Ok f /\ otpl_ok f.
Proof.
  intros H. destruct (get_range (t_fld tpl) type) as [f Hf]; [rewrite (w_fld tpl Hwf); lia |].
  exists f. split; [done |]. apply get_Ok in Hf as [_ Hf].
  apply (Forall_lookup_1 _ _ _ _ (w_slots tpl Hwf) Hf).
Qed.

Lemma get_bucket m : 0 <= m < 8 -> exists b, get (t_ext_db tpl) m = Ok b /\ length b = 32%nat.
Proof.
  intros H. destruct (get_range (t_ext_db tpl) m) as [b Hb]; [rewrite (w_db tpl Hwf); lia |].
  exists b. split; [done |]. apply get_Ok in Hb as [_ Hb].
  apply (Forall_lookup_1 _ _ _ _ (w_bucket tpl Hwf) Hb).
Qed.

Lemma wf_set_fld type f : 0 <= type < 384 -> otpl_ok f ->
  put (t_fld tpl) type f = Ok (<[Z.to_nat type := f]> (t_fld tpl)) /\
  wf_tpl (with_fld tpl (<[Z.to_nat type := f]> (t_fld tpl))).
Proof.
  intros H Hf. split; [apply put_range; rewrite (w_fld tpl Hwf); lia |].
  destruct Hwf. split; cbn; try done; [by rewrite length_insert | by apply Forall_insert].
Qed.

Lemma put_ie_Ok m i ie : 0 <= m < 8 -> 0 <= i < 32 ->
  exists tpl', put_ie tpl (m, i) ie = Ok tpl' /\ wf_tpl tpl' /\ same_head tpl' tpl /\
    t_fld tpl' = t_fld tpl /\ t_layers tpl' = t_layers tpl /\
    (forall p, 0 <= p.1 < 8 -> 0 <= p.2 < 32 ->
      get_ie tpl' p = if decide (p = (m, i)) then Ok ie else get_ie tpl p).
Proof.
  intros Hm Hi. destruct (get_bucket m Hm) as (b & Eb & Hb). unfold put_ie. cbn [fst snd].
  rewrite Eb. cbn [mbind res_bind]. rewrite put_range by lia. cbn [mbind res_bind].
  rewrite put_range by (rewrite (w_db tpl Hwf); lia). cbn [mbind res_bind].
  eexists. split; [done |]. split_and!; try done.
  - destruct Hwf. split; cbn; try done; [by rewrite length_insert |].
    apply Forall_insert; [done | by rewrite length_insert].
  - intros [m' i'] H1 H2. cbn [fst snd] in *. unfold get_ie. cbn [with_ext_db t_ext_db fst snd].
    rewrite get_insert by (rewrite ?(w_db tpl Hwf); lia). destruct (decide (m = m')) as [<-|Hne].
    + cbn [mbind res_bind]. rewrite get_insert by lia. rewrite Eb. cbn [mbind res_bind].
      destruct (decide (i = i')) as [<-|]; [by rewrite decide_True | by rewrite decide_False by congruence].
    + by rewrite decide_False by congruence.
Qed.

Lemma get_ie_Ok p : 0 <= p.1 < 8 -> 0 <= p.2 < 32 -> exists ie, get_ie tpl p = Ok ie.
Proof.
  intros H1 H2. destruct (get_bucket p.1 H1) as (b & Eb & Hb). unfold get_ie. rewrite Eb. cbn [mbind res_bind].
  apply get_range. lia.
Qed.

Lemma read_ref_Ok r : ref_ok r -> exists s, read_ref tpl r = Ok s.
Proof.
  destruct r as [|type repeat|[[m i]|]]; cbn [ref_ok read_ref]; intros Hr; try done.
  - destruct (get_fld type) as (f & E & Hf & _); [lia |]. rewrite E. cbn [mbind res_bind].
    apply get_range. rewrite Hf. lia.
  - cbn [deref mbind res_bind]. destruct (get_ie_Ok (m, i)) as [ie E]; [cbn; lia.. |]. rewrite E. by eexists.
Qed.

(** Writing a slot changes that slot only. *)
Lemma write_ref_Ok r s : ref_ok r ->
  exists tpl', write_ref tpl r s = Ok tpl' /\ wf_tpl tpl' /\ same_head tpl' tpl /\
    (forall r', ref_ok r' -> read_ref tpl' r' = if decide (r' = r) then Ok s else read_ref tpl r').
Proof.
  destruct r as [|type repeat|[[m i]|]]; cbn [ref_ok write_ref]; intros Hr; try done.
  - destruct (get_fld type) as (f & E & Hf & Hc); [lia |]. rewrite E. cbn [mbind res_bind].
    rewrite put_range by (rewrite Hf; lia). cbn [mbind res_bind].
    set (f' := mk_otpl _ _). destruct (wf_set_fld type f') as [Ef Hwf']; [lia | split; cbn; [by rewrite length_insert | done] |].
    rewrite Ef. cbn [mbind res_bind]. eexists. split; [done |]. split; [done |]. split; [by split |].
    intros [|type' repeat'|[[m' i']|]]; cbn [ref_ok read_ref]; intros Hr'; try done.
    + cbn [with_fld t_fld]. rewrite get_insert by (rewrite ?(w_fld tpl Hwf); lia).
      destruct (decide (type = type')) as [<-|Hne].
      * cbn [mbind res_bind o_slots f']. rewrite get_insert by (rewrite ?Hf; lia). rewrite E. cbn [mbind res_bind].
        destruct (decide (repeat - 1 = repeat' - 1)) as [He|He].
        -- rewrite decide_True; [done |]. f_equal. lia.
        -- rewrite decide_False; [done |]. intros [= ->]. by apply He.
      * rewrite decide_False by congruence. done.
  - cbn [deref mbind res_bind]. destruct (get_ie_Ok (m, i)) as [ie E]; [cbn; lia.. |].
    rewrite E. cbn [mbind res_bind].
    destruct (put_ie_Ok m i (mk_utpl (u_pen ie) (u_type ie) s (u_repeat_id ie))) as (tpl' & E' & Hwf' & Hh & Hfl & _ & Hg);
      [lia.. |].
    exists tpl'. split; [done |]. split; [done |]. split; [done |].
    intros [|type' repeat'|[[m' i']|]]; cbn [ref_ok read_ref]; intros Hr'; try done.
    + rewrite Hfl. by rewrite decide_False by done.
    + cbn [deref mbind res_bind]. rewrite Hg by (cbn; lia). destruct (decide ((m', i') = (m, i))) as [[= -> ->]|Hne].
      * by rewrite decide_True.
      * rewrite decide_False by congruence. done.
Qed.

End Wf.

(* ------------------------------------------------------------------ *)
(** ** Resolving variable-length fields *)

Definition sumZ (l : list Z) : Z := foldr Z.add 0 l.

Lemma sumZ_app a b : sumZ (a ++ b) = sumZ a + sumZ b.
Proof. induction a as [|x a IH]; cbn; [done |]. unfold sumZ in *. cbn. lia. Qed.

Definition fixed (tl : Z) : Prop := tl <> IPFIX_VARIABLE_LENGTH.

(** A template as the records see it: distinct fields with the lengths [tls]
    in the order [rs]; the ones before the first variable-length one have
    their final offsets. *)
Record tinv (tls : list Z) (rs : list tpl_ref) (tpl : template) : Prop := {
  ti_wf : wf_tpl tpl;
  ti_num : t_num tpl = Z.of_nat (length tls);
  ti_refs : take (length tls) (t_list tpl) = rs;
  ti_len : length rs = length tls;
  ti_nodup : NoDup rs;
  ti_ok : Forall ref_ok rs;
  ti_range : Forall (fun tl => 0 <= tl <= 65535) tls;
  ti_slot : forall i r tl, rs !! i = Some r -> tls !! i = Some tl ->
    exists s, read_ref tpl r = Ok s /\ s_tpl_len s = tl /\ 0 <= s_len s <= 65535 /\
      (fixed tl -> s_len s = tl) /\
      (Forall fixed (take (S i) tls) -> s_off s = sumZ (take i tls))
}.

Lemma tinv_list tls rs tpl i r : tinv tls rs tpl -> rs !! i = Some r -> get (t_list tpl) (Z.of_nat i) = Ok r.
Proof.
  intros [_ _ Hr _ _ _ _ _] H. apply get_Ok. split; [lia |]. rewrite Nat2Z.id, <- Hr in *.
  by apply lookup_take_Some in H as [? _].
Qed.

Lemma tinv_with_len tls rs tpl n : tinv tls rs tpl -> tinv tls rs (with_len tpl n).
Proof. intros [[] H2 H3 H4 H5 H6 H7 H8]. split; try done. Qed.

Lemma tinv_write tls rs tpl i r tl s :
  tinv tls rs tpl -> rs !! i = Some r -> tls !! i = Some tl ->
  s_tpl_len s = tl -> 0 <= s_len s <= 65535 -> (fixed tl -> s_len s = tl) ->
  (Forall fixed (take (S i) tls) -> s_off s = sumZ (take i tls)) ->
  exists tpl', write_ref tpl r s = Ok tpl' /\ tinv tls rs tpl' /\ same_head tpl' tpl /\
    read_ref tpl' r = Ok s /\
    (forall j r', rs !! j = Some r' -> j <> i -> read_ref tpl' r' = read_ref tpl r').
Proof.
  intros [Hwf H2 H3 H4 H5 H6 H7 H8] Hr Htl S1 S2 S3 S4.
  pose proof (Forall_lookup_1 _ _ _ _ H6 Hr) as Hok.
  destruct (write_ref_Ok tpl Hwf r s Hok) as (tpl' & E & Hwf' & Hh & Hrd).
  assert (Hself : read_ref tpl' r = Ok s) by (rewrite Hrd by done; by rewrite decide_True).
  assert (Hoth : forall j r', rs !! j = Some r' -> j <> i -> read_ref tpl' r' = read_ref tpl r').
  { intros j r' Hj Hne. rewrite Hrd by apply (Forall_lookup_1 _ _ _ _ H6 Hj).
    rewrite decide_False; [done |]. intros ->. apply Hne. by apply (NoDup_lookup _ _ _ _ H5 Hj). }
  exists tpl'. split_and!; try done. destruct Hh as (Hl & Hn & _ & _).
  split; try done; [congruence | congruence |].
  intros j r' tl' Hj Htl'. destruct (decide (j = i)) as [->|Hne].
  - assert (r' = r) as -> by congruence. assert (tl' = tl) as -> by congruence. exists s. done.
  - rewrite (Hoth j r' Hj Hne). by apply H8.
Qed.

(** The layout of a record: offsets and lengths of the fields and the end, in
    exact arithmetic; [Wraps] when the first field that does not fit would end
    beyond 16 bits. *)
Inductive lay :=
| Fits (l : list (Z * Z)) (total : Z)
| Short
| Wraps.

Definition vlen_at (data : list Z) (pos : Z) : option (Z * Z) :=
  match drop (Z.to_nat pos) data with
  | b :: r =>
      if b <? 255 then Some (1, b)
      else match r with b1 :: b2 :: _ => Some (3, be16 b1 b2) | _ => None end
  | [] => None
  end.

Fixpoint layout (tls data : list Z) (pos : Z) : lay :=
  match tls with
  | [] => Fits [] pos
  | tl :: tls =>
      match (if tl =? IPFIX_VARIABLE_LENGTH then vlen_at data pos else Some (0, tl)) with
      | None => Short
      | Some (add, l) =>
          if strlen data <? pos + add + l then (if 65536 <=? pos + add + l then Wraps else Short)
          else match layout tls data (pos + add + l) with
               | Fits ls total => Fits ((pos + add, l) :: ls) total
               | x => x
               end
      end
  end.

Section Resolve.
Context (buf : list Z) (remlen : Z).
Hypothesis Hrem : 0 <= remlen < 65536.
Hypothesis Hbuf : remlen <= strlen buf.
Hypothesis Hbytes : bytes_ok buf.

Definition data : list Z := take (Z.to_nat remlen) buf.

Lemma data_length : strlen data = remlen.
Proof. unfold data, strlen in *. rewrite length_take. lia. Qed.

Lemma data_byte i : 0 <= i < remlen -> read_bytes buf i 1 = Ok [byte_at data i] /\ is_u8 (byte_at data i) /\
  drop (Z.to_nat i) data = byte_at data i :: drop (Z.to_nat (i + 1)) data.
Proof.
  intros Hi. unfold strlen in *.
  assert (Hlt : (Z.to_nat i < length data)%nat) by (pose proof data_length; unfold strlen in *; lia).
  destruct (lookup_lt_is_Some_2 data (Z.to_nat i) Hlt) as [b Hb].
  assert (Eb : byte_at data i = b) by (unfold byte_at; by rewrite Hb).
  rewrite Eb. split_and!.
  - unfold read_bytes, strlen. rewrite !(proj2 (Z.leb_le _ _)) by lia. cbn [andb]. f_equal.
    change (Z.to_nat 1) with 1%nat. unfold data in Hb. apply lookup_take_Some in Hb as [Hb _].
    rewrite (drop_S _ _ _ Hb). done.
  - rewrite <- Eb. apply byte_at_range. by apply Forall_take.
  - rewrite (drop_S _ _ _ Hb). do 2 f_equal. lia.
Qed.

Lemma read_be16 i : 0 <= i -> i + 2 <= remlen ->
  be16_at buf i = Ok (be16 (byte_at data i) (byte_at data (i + 1))).
Proof.
  intros H1 H2. unfold be16_at.
  destruct (data_byte i) as (_ & _ & D1); [lia |]. destruct (data_byte (i + 1)) as (_ & _ & D2); [lia |].
  unfold read_bytes. unfold strlen in *. rewrite !(proj2 (Z.leb_le _ _)) by lia. cbn [andb mbind res_bind].
  assert (Et : take (Z.to_nat 2) (drop (Z.to_nat i) buf) = [byte_at data i; byte_at data (i + 1)]).
  { rewrite D2 in D1. unfold data in D1 at 1. rewrite skipn_firstn_comm in D1.
    replace (Z.to_nat 2) with (Nat.min (Z.to_nat 2) (Z.to_nat remlen - Z.to_nat i)) by lia.
    rewrite <- firstn_firstn, D1. done. }
  rewrite Et. done.
Qed.

Lemma get_ipfix_vlen_spec pos : 0 <= pos <= remlen ->
  get_ipfix_vlen buf pos (u16 (remlen - pos)) =
    match vlen_at data pos with Some (add, l) => Ok (add, Some l) | None => Ok (ERR, None) end /\
  match vlen_at data pos with Some (add, l) => (add = 1 \/ add = 3) /\ 0 <= l <= 65535 | None => True end.
Proof.
  intros Hp. rewrite u16_small by lia. unfold get_ipfix_vlen, vlen_at.
  destruct (Z.leb_spec 1 (remlen - pos)) as [H1|H1].
  - destruct (data_byte pos) as (R1 & B1 & D1); [lia |]. rewrite R1. cbn [mbind res_bind].
    change (byte_at [byte_at data pos] 0) with (byte_at data pos). rewrite D1. unfold in_u in B1.
    destruct (Z.ltb_spec (byte_at data pos) 255) as [H2|H2]; [split; [done | lia] |].
    destruct (Z.leb_spec 3 (remlen - pos)) as [H3|H3].
    + destruct (data_byte (pos + 1)) as (_ & B2 & D2); [lia |]. destruct (data_byte (pos + 1 + 1)) as (_ & B3 & D3); [lia |].
      rewrite read_be16 by lia. cbn [mbind res_bind]. rewrite D2, D3. split; [done |].
      pose proof (be16_range _ _ B2 B3) as Hr. unfold in_u in Hr. lia.
    + assert (Hl : strlen (drop (Z.to_nat (pos + 1)) data) < 2).
      { unfold strlen. rewrite length_drop. pose proof data_length. unfold strlen in *. lia. }
      destruct (drop (Z.to_nat (pos + 1)) data) as [|b1 [|b2 r]]; [done | done |]. rewrite !strlen_cons in Hl.
      pose proof (strlen_nonneg r). lia.
  - rewrite drop_ge; [done |]. pose proof data_length. unfold strlen in *. lia.
Qed.

Section Loop.
Context (tls : list Z) (rs : list tpl_ref).

(** Whether a variable-length field came before [i]. *)
Definition vlen_before (i : nat) : bool := existsb (fun tl => tl =? IPFIX_VARIABLE_LENGTH) (take i tls).

Lemma vlen_before_false i : vlen_before i = false <-> Forall fixed (take i tls).
Proof.
  unfold vlen_before, fixed. induction (take i tls) as [|x l IH]; cbn; [done |].
  rewrite Forall_cons, orb_false_iff, IH, Z.eqb_neq. done.
Qed.

Lemma vlen_before_S i tl : tls !! i = Some tl -> vlen_before (S i) = vlen_before i || (tl =? IPFIX_VARIABLE_LENGTH).
Proof.
  intros H. unfold vlen_before. rewrite (take_S_r _ _ _ H), existsb_app. cbn. by rewrite orb_false_r.
Qed.

(** One field. *)
Lemma resolve_step tpl i r tl pos :
  tinv tls rs tpl -> rs !! i = Some r -> tls !! i = Some tl -> 0 <= pos <= remlen ->
  exists s, read_ref tpl r = Ok s /\
    match (if tl =? IPFIX_VARIABLE_LENGTH then vlen_at data pos else Some (0, tl)) with
    | None => exists s' tpl', resolve_slot buf remlen pos (vlen_before i) s = Ok (None, s') /\
        write_ref tpl r s' = Ok tpl' /\ tinv tls rs tpl'
    | Some (add, l) => exists s' s'' tpl',
        resolve_slot buf remlen pos (vlen_before i) s = Ok (Some (s', add, vlen_before (S i)), s'') /\
        write_ref tpl r s' = Ok tpl' /\ tinv tls rs tpl' /\ read_ref tpl' r = Ok s' /\
        0 <= add <= 3 /\ s_len s' = l /\ 0 <= l <= 65535 /\ s_tpl_len s' = tl /\
        (vlen_before i = true \/ pos = sumZ (take i tls) -> pos + add < 65536 -> s_off s' = pos + add) /\
        (forall j r', rs !! j = Some r' -> j <> i -> read_ref tpl' r' = read_ref tpl r')
    end.
Proof.
  intros Hinv Hr Htl Hp. destruct (ti_slot _ _ _ Hinv i r tl Hr Htl) as (s & Es & S1 & S2 & S3 & S4).
  exists s. split; [done |]. unfold resolve_slot.
  pose proof (Forall_lookup_1 _ _ _ _ (ti_range _ _ _ Hinv) Htl) as Hrange. cbn beta in Hrange.
  set (s1 := if vlen_before i then mk_slot pos (s_len s) (s_tpl_len s) else s).
  assert (E1 : s_tpl_len s1 = tl /\ s_len s1 = s_len s) by (unfold s1; destruct (vlen_before i); done).
  destruct E1 as [E1 E2]. rewrite E1.
  assert (Hnf : vlen_before i = true -> ~ Forall fixed (take (S i) tls)).
  { intros Hv Hf. rewrite <- vlen_before_false in Hf. rewrite (vlen_before_S i tl Htl), Hv in Hf. done. }
  destruct (Z.eqb_spec tl IPFIX_VARIABLE_LENGTH) as [Hvar|Hfix].
  - assert (Hnf2 : ~ Forall fixed (take (S i) tls)).
    { intros Hf. rewrite <- vlen_before_false in Hf. rewrite (vlen_before_S i tl Htl) in Hf.
      rewrite (proj2 (Z.eqb_eq _ _) Hvar), orb_true_r in Hf. done. }
    destruct (get_ipfix_vlen_spec pos Hp) as [-> Hr2]. destruct (vlen_at data pos) as [[add l]|].
    + cbn [mbind res_bind]. destruct Hr2 as [Hadd Hl].
      rewrite (proj2 (Z.ltb_lt 0 add)) by lia. cbn [s_off s_len s_tpl_len].
      destruct (tinv_write tls rs tpl i r tl (mk_slot (u16 (pos + add)) l (s_tpl_len s1)) Hinv Hr Htl)
        as (tpl' & Ew & Hi' & _ & Hself & Hoth); try done.
      rewrite E1 in Ew, Hself.
      eexists _, _, tpl'. rewrite (vlen_before_S i tl Htl).
      rewrite (proj2 (Z.eqb_eq _ _) Hvar), orb_true_r. split_and!; try done; try lia.
      cbn [s_off]. intros _ H. apply u16_small. lia.
    + cbn [mbind res_bind]. change (0 <? ERR) with false. cbn iota.
      destruct (tinv_write tls rs tpl i r tl s1 Hinv Hr Htl) as (tpl' & Ew & Hi' & _);
        [done | lia | by intros Hf; destruct Hf | by intros Hf; destruct (Hnf2 Hf) |].
      by exists s1, tpl'.
  - destruct (tinv_write tls rs tpl i r tl s1 Hinv Hr Htl) as (tpl' & Ew & Hi' & _ & Hself & Hoth);
      [done | lia | rewrite E2; done | |].
    { intros Hf. unfold s1. destruct (vlen_before i) eqn:Ev; [destruct (Hnf eq_refl Hf) | by apply S4]. }
    eexists s1, _, tpl'. rewrite (vlen_before_S i tl Htl), (proj2 (Z.eqb_neq _ _) Hfix), orb_false_r.
    split_and!; try done; try lia.
    + rewrite E2. by apply S3.
    + intros Hor _. rewrite Z.add_0_r. unfold s1. destruct (vlen_before i) eqn:Ev; [done |].
      destruct Hor as [|Hor]; [done |]. rewrite Hor. apply S4. apply vlen_before_false.
      rewrite (vlen_before_S i tl Htl), Ev. by rewrite (proj2 (Z.eqb_neq _ _) Hfix).
Qed.

Lemma resolve_ref_known (r : tpl_ref) {A} (x : A) (y : tpl_ref -> A) :
  ref_ok r -> match r with TPL_TYPE_UNKNOWN => x | _ => y r end = y r.
Proof. by destruct r. Qed.

(** The loop never faults and keeps the template well formed. *)
Lemma resolve_loop_safe n : forall i pos tpl,
  (i + n = length tls)%nat -> tinv tls rs tpl -> 0 <= pos <= remlen ->
  exists ret tpl', resolve_loop n buf remlen tpl (Z.of_nat i) pos (vlen_before i) = Ok (ret, tpl') /\
    tinv tls rs tpl'.
Proof.
  induction n as [|n IH]; intros i pos tpl Hi Hinv Hp; cbn [resolve_loop].
  { exists SUCCESS, (with_len tpl pos). split; [done |]. by apply tinv_with_len. }
  destruct (lookup_lt_is_Some_2 rs i) as [r Hr]; [rewrite (ti_len _ _ _ Hinv); lia |].
  destruct (lookup_lt_is_Some_2 tls i) as [tl Htl]; [lia |].
  rewrite (tinv_list _ _ _ i r Hinv Hr). cbn [mbind res_bind].
  pose proof (Forall_lookup_1 _ _ _ _ (ti_ok _ _ _ Hinv) Hr) as Hok.
  destruct (resolve_step tpl i r tl pos Hinv Hr Htl Hp) as (s & Es & Hs).
  destruct r as [|type repeat|ptr]; [done | |]; rewrite Es; cbn [mbind res_bind].
  all: destruct (if tl =? IPFIX_VARIABLE_LENGTH then _ else _) as [[add l]|].
  all: try (destruct Hs as (s' & tpl' & Eq & Ew & Hi'); rewrite Eq; cbn [mbind res_bind]; rewrite Ew;
    cbn [mbind res_bind]; by exists ERR, tpl').
  all: destruct Hs as (s' & s'' & tpl' & Eq & Ew & Hi' & _); rewrite Eq; cbn [mbind res_bind]; rewrite Ew;
    cbn [mbind res_bind]; destruct (Z.ltb_spec remlen (u16 (pos + (s_len s' + add))));
    [by exists ERR, tpl' |]; replace (Z.of_nat i + 1) with (Z.of_nat (S i)) by lia; apply IH; try done; try lia.
  all: split; [| lia]; unfold u16, wrap; apply Z.mod_pos_bound; done.
Qed.

(** The slots of the fields from [i] on. *)
Definition slots_are (i : nat) (l : list (Z * Z)) (tpl : template) : Prop :=
  forall k o ln, l !! k = Some (o, ln) -> exists r tl, rs !! (i + k)%nat = Some r /\
    tls !! (i + k)%nat = Some tl /\ read_ref tpl r = Ok (mk_slot o ln tl).

Lemma resolve_loop_spec n : forall i pos tpl,
  (i + n = length tls)%nat -> tinv tls rs tpl -> 0 <= pos <= remlen ->
  vlen_before i = true \/ pos = sumZ (take i tls) ->
  match layout (drop i tls) data pos with
  | Fits l total => exists tpl', resolve_loop n buf remlen tpl (Z.of_nat i) pos (vlen_before i) = Ok (SUCCESS, tpl') /\
      tinv tls rs tpl' /\ t_len tpl' = total /\ pos <= total <= remlen /\ slots_are i l tpl' /\ length l = n /\
      (forall k o ln, l !! k = Some (o, ln) -> pos <= o /\ 0 <= ln /\ o + ln <= total) /\
      (forall j r, rs !! j = Some r -> (j < i)%nat -> read_ref tpl' r = read_ref tpl r)
  | Short => exists tpl', resolve_loop n buf remlen tpl (Z.of_nat i) pos (vlen_before i) = Ok (ERR, tpl')
  | Wraps => True
  end.
Proof.
  induction n as [|n IH]; intros i pos tpl Hi Hinv Hp Hor.
  { rewrite drop_ge by lia. cbn [layout resolve_loop]. exists (with_len tpl pos).
    split_and!; try done; try lia; try by apply tinv_with_len. all: by intros [|k]. }
  destruct (lookup_lt_is_Some_2 rs i) as [r Hr]; [rewrite (ti_len _ _ _ Hinv); lia |].
  destruct (lookup_lt_is_Some_2 tls i) as [tl Htl]; [lia |].
  rewrite (drop_S _ _ _ Htl). cbn [layout].
  pose proof (Forall_lookup_1 _ _ _ _ (ti_ok _ _ _ Hinv) Hr) as Hok.
  pose proof (Forall_lookup_1 _ _ _ _ (ti_range _ _ _ Hinv) Htl) as Hrange. cbn beta in Hrange.
  destruct (resolve_step tpl i r tl pos Hinv Hr Htl Hp) as (s & Es & Hs).
  assert (Estep : forall vlen, resolve_loop (S n) buf remlen tpl (Z.of_nat i) pos vlen =
    ('(o, s') ← resolve_slot buf remlen pos vlen s;
      match o with
      | None => tpl ← write_ref tpl r s'; Ok (ERR, tpl)
      | Some (s, add_len, vlen) =>
          tpl ← write_ref tpl r s;
          if remlen <? u16 (pos + (s_len s + add_len)) then Ok (ERR, tpl)
          else resolve_loop n buf remlen tpl (Z.of_nat (S i)) (u16 (pos + (s_len s + add_len))) vlen
      end)).
  { intros vlen. cbn [resolve_loop]. rewrite (tinv_list _ _ _ i r Hinv Hr). cbn [mbind res_bind].
    replace (Z.of_nat i + 1) with (Z.of_nat (S i)) by lia.
    destruct r as [|type repeat|ptr]; [done | |]; rewrite Es; done. }
  rewrite Estep. clear Estep.
  destruct (if tl =? IPFIX_VARIABLE_LENGTH then _ else _) as [[add l]|] eqn:Eo.
  2: { destruct Hs as (s' & tpl' & Eq & Ew & Hi'). rewrite Eq. cbn [mbind res_bind]. rewrite Ew.
       cbn [mbind res_bind]. by exists tpl'. }
  destruct Hs as (s' & s'' & tpl1 & Eq & Ew & Hi1 & Hself & Hadd & Hl & Hlr & Htpl & Hoff & Hoth).
  rewrite data_length, Eq. cbn [mbind res_bind]. rewrite Ew. cbn [mbind res_bind]. rewrite Hl.
  replace (pos + (l + add)) with (pos + add + l) by lia.
  destruct (Z.ltb_spec remlen (pos + add + l)) as [Hbig|Hfits].
  { destruct (Z.leb_spec 65536 (pos + add + l)); [done |].
    rewrite u16_small by lia. rewrite (proj2 (Z.ltb_lt _ _)) by lia. by exists tpl1. }
  rewrite u16_small by lia. rewrite (proj2 (Z.ltb_ge _ _)) by lia.
  assert (Hnext : vlen_before (S i) = true \/ pos + add + l = sumZ (take (S i) tls)).
  { rewrite (vlen_before_S i tl Htl). destruct (vlen_before i) eqn:Ev; [by left |].
    destruct (Z.eqb_spec tl IPFIX_VARIABLE_LENGTH) as [|Hfix]; [by left |]. right.
    injection Eo as <- <-. destruct Hor as [|Hor]; [done |].
    rewrite (take_S_r _ _ _ Htl), sumZ_app. cbn. lia. }
  pose proof (IH (S i) (pos + add + l) tpl1 ltac:(lia) Hi1 ltac:(lia) Hnext) as IH'. clear IH.
  destruct (layout (drop (S i) tls) data (pos + add + l)) as [ls total| |]; [| done | done].
  destruct IH' as (tpl' & E' & Hi' & Ht & Hb & Hsl & Hlen & Hin & Hold).
  exists tpl'. split_and!; try done; try lia.
  - intros [|k] o ln Hk.
    + cbn in Hk. injection Hk as <- <-. exists r, tl. rewrite Nat.add_0_r. split_and!; try done.
      rewrite (Hold i r Hr) by lia. rewrite Hself. f_equal. rewrite <- Hl, <- Htpl.
      rewrite <- Hoff; [by destruct s' | done | lia].
    + cbn in Hk. destruct (Hsl k o ln Hk) as (r' & tl' & G1 & G2 & G3). exists r', tl'.
      by replace (i + S k)%nat with (S i + k)%nat by lia.
  - cbn [length]. lia.
  - intros [|k] o ln Hk; cbn in Hk; [injection Hk as <- <-; lia |].
    destruct (Hin k o ln Hk) as (? & ? & ?). lia.
  - intros j r' Hj Hlt. rewrite (Hold j r' Hj) by lia. apply (Hoth j r' Hj). lia.
Qed.

End Loop.

End Resolve.

(* ------------------------------------------------------------------ *)
(** ** Composing a data template *)

Lemma same_head_list t1 t2 : same_head t1 t2 -> t_list t1 = t_list t2.
Proof. by intros (? & _). Qed.

(** Slots do not depend on the header and the list. *)
Lemma read_ref_ext t1 t2 r : t_fld t1 = t_fld t2 -> t_ext_db t1 = t_ext_db t2 -> read_ref t1 r = read_ref t2 r.
Proof. intros H1 H2. unfold read_ref, get_ie. by rewrite H1, H2. Qed.

Lemma advance_arrays tpl flen :
  t_fld (advance tpl flen) = t_fld tpl /\ t_ext_db (advance tpl flen) = t_ext_db tpl /\
  t_list (advance tpl flen) = t_list tpl /\ t_num (advance tpl flen) = t_num tpl /\
  t_layers (advance tpl flen) = t_layers tpl.
Proof. unfold advance. destruct (flen =? _), (t_vlen tpl); done. Qed.

Lemma advance_wf tpl flen : wf_tpl tpl -> wf_tpl (advance tpl flen).
Proof.
  intros []. destruct (advance_arrays tpl flen) as (A1 & A2 & A3 & A4 & A5).
  split; by rewrite ?A1, ?A2, ?A3, ?A5.
Qed.

Lemma advance_head t1 t2 flen : t_len t1 = t_len t2 -> t_vlen t1 = t_vlen t2 ->
  t_len (advance t1 flen) = t_len (advance t2 flen) /\ t_vlen (advance t1 flen) = t_vlen (advance t2 flen).
Proof. intros H1 H2. unfold advance. rewrite H1, H2. destruct (flen =? _); [done |]. by destruct (t_vlen t2) eqn:E; cbn; rewrite ?H1, ?H2, ?E. Qed.

Lemma set_list_Ok tpl count r : wf_tpl tpl -> 0 <= count < 256 ->
  set_list tpl count r = Ok (with_list tpl (<[Z.to_nat count := r]> (t_list tpl))) /\
  wf_tpl (with_list tpl (<[Z.to_nat count := r]> (t_list tpl))).
Proof.
  intros Hwf Hc. unfold set_list. rewrite put_range by (rewrite (w_list tpl Hwf); lia). split; [done |].
  destruct Hwf. split; cbn; try done. by rewrite length_insert.
Qed.

(** What adding one field does. *)
Record added (tpl : template) (count flen : Z) (r : tpl_ref) (tpl' : template) : Prop := {
  ad_wf : wf_tpl tpl';
  ad_list : t_list tpl' = <[Z.to_nat count := r]> (t_list tpl);
  ad_num : t_num tpl' = t_num tpl;
  ad_slot : ref_ok r -> read_ref tpl' r = Ok (new_slot tpl flen);
  ad_others : forall r', ref_ok r' -> r' <> r -> read_ref tpl' r' = read_ref tpl r';
  ad_len : ref_ok r -> t_len tpl' = t_len (advance tpl flen) /\ t_vlen tpl' = t_vlen (advance tpl flen)
}.

Lemma layer_field_Ok tpl type : wf_tpl tpl -> exists tpl', layer_field tpl type = Ok tpl' /\ wf_tpl tpl' /\
  same_head tpl' tpl /\ t_fld tpl' = t_fld tpl /\ t_ext_db tpl' = t_ext_db tpl.
Proof.
  intros Hwf. destruct (w_layers tpl Hwf) as [Hl Hc]. unfold layer_field.
  assert (Hput : forall prot, exists tpl', (p ← put (l_prot (t_layers tpl))
     ((if l_count (t_layers tpl) <? TPL_MAX_ELEM_REPEATS then l_count (t_layers tpl) + 1
       else l_count (t_layers tpl)) - 1) prot;
     Ok (with_layers tpl (mk_layers p (if l_count (t_layers tpl) <? TPL_MAX_ELEM_REPEATS
       then l_count (t_layers tpl) + 1 else l_count (t_layers tpl))))) = Ok tpl' /\ wf_tpl tpl' /\
     same_head tpl' tpl /\ t_fld tpl' = t_fld tpl /\ t_ext_db tpl' = t_ext_db tpl).
  { intros prot. unfold TPL_MAX_ELEM_REPEATS. destruct (Z.ltb_spec (l_count (t_layers tpl)) 3);
      (rewrite put_range by lia; cbn [mbind res_bind]; eexists; split; [done |]; split; [| done];
       destruct Hwf; split; cbn; try done; rewrite length_insert; lia). }
  destruct (evaluate_layer_prot type); [by exists tpl | apply Hput | apply Hput].
Qed.

Lemma legacy_field_Ok tpl count type flen :
  wf_tpl tpl -> 0 <= count < 256 -> 0 <= type < 384 ->
  exists tpl' r, legacy_field tpl count type flen = Ok tpl' /\ ref_ok r /\ added tpl count flen r tpl'.
Proof.
  intros Hwf Hc Ht. unfold legacy_field. destruct (get_fld tpl Hwf type Ht) as (f & Ef & Hsl & Hcnt).
  rewrite Ef. cbn [mbind res_bind]. set (cnt := if o_count f <? TPL_MAX_ELEM_REPEATS then o_count f + 1 else o_count f).
  assert (Hcnt' : 1 <= cnt <= 3).
  { unfold cnt, TPL_MAX_ELEM_REPEATS. destruct (Z.ltb_spec (o_count f) 3); lia. }
  rewrite put_range by lia. cbn [mbind res_bind]. set (f' := mk_otpl _ _).
  destruct (wf_set_fld tpl Hwf type f' Ht) as [-> Hwf1]; [split; cbn; [by rewrite length_insert | lia] |].
  cbn [mbind res_bind]. set (tpl1 := with_fld _ _) in *.
  pose proof (advance_wf tpl1 flen Hwf1) as Hwf2.
  destruct (advance_arrays tpl1 flen) as (A1 & A2 & A3 & A4 & _).
  destruct (set_list_Ok (advance tpl1 flen) count (TPL_TYPE_LEGACY type cnt) Hwf2 Hc) as [-> Hwf3].
  eexists _, (TPL_TYPE_LEGACY type cnt). split; [done |]. split; [by split |].
  assert (Hrd : forall r', read_ref (with_list (advance tpl1 flen)
    (<[Z.to_nat count := TPL_TYPE_LEGACY type cnt]> (t_list (advance tpl1 flen)))) r' = read_ref tpl1 r').
  { intros r'. by apply read_ref_ext. }
  split; cbn [with_list t_list t_num t_len t_vlen]; try done.
  - by rewrite A3.
  - intros _. rewrite Hrd. cbn [read_ref tpl1 with_fld t_fld].
    rewrite get_insert by (rewrite ?(w_fld tpl Hwf); lia). rewrite decide_True by done. cbn [mbind res_bind f' o_slots].
    rewrite get_insert by lia. by rewrite decide_True.
  - intros r' Hr' Hne. rewrite Hrd. destruct r' as [|type' rep|[[m i]|]]; try done.
    cbn [ref_ok] in Hr'. cbn [read_ref tpl1 with_fld t_fld].
    rewrite get_insert by (rewrite ?(w_fld tpl Hwf); lia). destruct (decide (type = type')) as [<-|]; [| done].
    cbn [mbind res_bind f' o_slots]. rewrite get_insert by lia. rewrite decide_False, Ef; [done |].
    intros E. apply Hne. f_equal. lia.
  - intros _. by apply advance_head.
Qed.

Lemma next_ie_range l type : forall idx rep i, (next_ie l type idx rep).1 = Some i ->
  idx <= i < idx + Z.of_nat (length l).
Proof.
  induction l as [|ie l IH]; intros idx rep i; cbn [next_ie]; [done |]. cbn [length].
  destruct (u_type ie =? 0); [intros [= ->]; lia |].
  intros H. apply IH in H. lia.
Qed.

Lemma ext_field_Ok tpl count type pen flen :
  wf_tpl tpl -> 0 <= count < 256 -> 0 <= type ->
  exists tpl' r, ext_field tpl count type pen flen = Ok tpl' /\ added tpl count flen r tpl'.
Proof.
  intros Hwf Hc Ht. unfold ext_field, ext_db_get_next_ie, TPL_EXT_DB_ENTRIES.
  assert (Hm : 0 <= type mod 8 < 8) by (apply Z.mod_pos_bound; lia). set (m := type mod 8) in *.
  destruct (get_bucket tpl Hwf m Hm) as (b & Eb & Hb). rewrite Eb. cbn [mbind res_bind].
  pose proof (next_ie_range b type 0 0) as Hrange. destruct (next_ie b type 0 0) as [[i|] rep]; cbn [fst fmap option_fmap option_map] in *.
  - specialize (Hrange i eq_refl). rewrite Hb in Hrange. cbn [mbind res_bind].
    destruct (get_ie_Ok tpl Hwf (m, i)) as [ie Eie]; [cbn; lia.. |]. rewrite Eie. cbn [mbind res_bind].
    destruct (put_ie_Ok tpl Hwf m i (fill_ie tpl ie pen type flen rep) Hm) as (tpl1 & E1 & Hwf1 & Hh & Hfl & Hly & Hg); [lia |].
    rewrite E1. cbn [mbind res_bind]. pose proof (advance_wf tpl1 flen Hwf1) as Hwf2.
    destruct (advance_arrays tpl1 flen) as (A1 & A2 & A3 & A4 & _).
    destruct (set_list_Ok (advance tpl1 flen) count (TPL_TYPE_EXT_DB (Some (m, i))) Hwf2 Hc) as [-> Hwf3].
    destruct Hh as (Hhl & Hhn & Hhlen & Hhv).
    eexists _, (TPL_TYPE_EXT_DB (Some (m, i))). split; [done |].
    assert (Hrd : forall r', read_ref (with_list (advance tpl1 flen)
      (<[Z.to_nat count := TPL_TYPE_EXT_DB (Some (m, i))]> (t_list (advance tpl1 flen)))) r' = read_ref tpl1 r').
    { intros r'. by apply read_ref_ext. }
    split; cbn [with_list t_list t_num t_len t_vlen]; try done.
    + by rewrite A3, Hhl.
    + by rewrite A4, Hhn.
    + intros _. rewrite Hrd. cbn [read_ref deref mbind res_bind]. rewrite Hg by (cbn; lia).
      by rewrite decide_True.
    + intros r' Hr' Hne. rewrite Hrd. destruct r' as [|type' rp|[[m' i']|]]; try done; cbn [ref_ok] in Hr'; cbn [read_ref].
      * by rewrite Hfl.
      * cbn [deref mbind res_bind]. rewrite Hg by (cbn; lia). by rewrite decide_False by congruence.
    + intros _. by apply advance_head.
  - cbn [mbind res_bind].
    destruct (set_list_Ok tpl count (TPL_TYPE_EXT_DB None) Hwf Hc) as [-> Hwf3].
    eexists _, (TPL_TYPE_EXT_DB None). split; [done |]. by split.
Qed.

(** The field specifiers on the wire: type, enterprise number, length; [None]
    when one starts at [len] or beyond. *)
Record field := mk_field {
  f_type : Z;
  f_pen : option Z;
  f_len : Z
}.

Fixpoint wire_fields (n : nat) (buf : list Z) (len version pos : Z) : res (option (list field)) :=
  match n with
  | O => Ok (Some [])
  | S n' =>
      if len <=? pos then Ok None
      else
        '(type, ebit) ← field_type buf pos version;
        flen ← be16_at buf (pos + 2);
        pen ← (if ebit : bool then Some <$> be32_at buf (pos + 4) else Ok None);
        rest ← wire_fields n' buf len version (pos + (if ebit : bool then 8 else 4));
        Ok (option_map (cons (mk_field type pen flen)) rest)
  end.

(** The slots of fields of the lengths [fs], after fields that end at [len]. *)
Fixpoint expected (fs : list Z) (len : Z) (vlen : bool) : list slot * (Z * bool) :=
  match fs with
  | [] => ([], (len, vlen))
  | f :: fs =>
      let s := mk_slot (if vlen then 0 else len) (if f =? IPFIX_VARIABLE_LENGTH then 0 else f) f in
      let '(len, vlen) := if f =? IPFIX_VARIABLE_LENGTH then (0, true)
                          else if vlen then (len, vlen) else (u16 (len + f), vlen) in
      let '(ss, e) := expected fs len vlen in (s :: ss, e)
  end.

Section Compose.
Context (buf : list Z) (len version : Z).
Hypothesis Hlen : len + 7 <= strlen buf.
Hypothesis Hbytes : bytes_ok buf.

Lemma read_bytes_some pos n : 0 <= pos -> 0 <= n -> pos + n <= strlen buf ->
  exists b, read_bytes buf pos n = Ok b /\ bytes_ok b.
Proof.
  intros H1 H2 H3. unfold read_bytes. rewrite !(proj2 (Z.leb_le _ _)) by lia. eexists. split; [done |].
  by apply Forall_take, Forall_drop.
Qed.

Lemma be16_at_some pos : 0 <= pos -> pos + 2 <= strlen buf -> exists v, be16_at buf pos = Ok v /\ 0 <= v < 65536.
Proof.
  intros H1 H2. unfold be16_at. destruct (read_bytes_some pos 2) as (b & Eb & Hb); [lia.. |]. rewrite Eb. cbn [mbind res_bind].
  eexists. split; [done |]. pose proof (be16_range _ _ (byte_at_range b 0 Hb) (byte_at_range b 1 Hb)) as Hr.
  unfold in_u in Hr. lia.
Qed.

Lemma be32_at_some pos : 0 <= pos -> pos + 4 <= strlen buf -> exists v, be32_at buf pos = Ok v.
Proof.
  intros H1 H2. unfold be32_at. destruct (read_bytes_some pos 4) as (b & Eb & Hb); [lia.. |]. rewrite Eb. by eexists.
Qed.

Lemma field_type_some pos : 0 <= pos -> pos + 2 <= strlen buf ->
  exists type ebit, field_type buf pos version = Ok (type, ebit) /\ 0 <= type < 65536.
Proof.
  intros H1 H2. unfold field_type. destruct (be16_at_some pos H1 H2) as (v & -> & Hv). cbn [mbind res_bind].
  case_match; eexists _, _; (split; [done |]); [| done].
  assert (He : is_u16 (Z.lxor v IPFIX_TPL_EBIT)) by (apply in_u_lxor; unfold in_u, IPFIX_TPL_EBIT; lia).
  unfold in_u in He. lia.
Qed.

(** What the loop leaves in the slots, given that its references differ. *)
Definition composed (count : nat) (fs : list field) (tpl tpl' : template) : Prop :=
  wf_tpl tpl' /\ t_num tpl' = t_num tpl /\ take count (t_list tpl') = take count (t_list tpl) /\
  let rs := take (count + length fs) (t_list tpl') in
  (NoDup rs -> Forall ref_ok rs ->
    let '(ss, (l, v)) := expected (map f_len fs) (t_len tpl) (t_vlen tpl) in
    t_len tpl' = l /\ t_vlen tpl' = v /\
    (forall j r, rs !! j = Some r -> (j < count)%nat -> read_ref tpl' r = read_ref tpl r) /\
    (forall k s, ss !! k = Some s -> exists r, rs !! (count + k)%nat = Some r /\ read_ref tpl' r = Ok s)).

Lemma added_composed count f fs tpl r tpl1 tpl' :
  wf_tpl tpl -> (count + S (length fs) <= 256)%nat -> added tpl (Z.of_nat count) (f_len f) r tpl1 ->
  composed (S count) fs tpl1 tpl' -> composed count (f :: fs) tpl tpl'.
Proof.
  intros Hwf Hc [A1 A2 A3 A4 A5 A6] (C1 & C2 & C3 & C4). unfold composed. rewrite Nat2Z.id in A2.
  assert (Hr : t_list tpl' !! count = Some r).
  { assert (Ht : take (S count) (t_list tpl') !! count = Some r).
    { rewrite C3, A2. rewrite lookup_take_lt by lia. apply list_lookup_insert_eq. rewrite (w_list tpl Hwf). lia. }
    by rewrite lookup_take_lt in Ht by lia. }
  split; [done |]. split; [congruence |]. split.
  { apply (f_equal (take count)) in C3. rewrite !take_take, !Nat.min_l in C3 by lia.
    rewrite C3, A2. by rewrite take_insert_ge by lia. }
  cbn [length]. replace (count + S (length fs))%nat with (S count + length fs)%nat by lia.
  cbn zeta in C4. intros Hnd Hok.
  assert (Hrin : take (S count + length fs) (t_list tpl') !! count = Some r) by (rewrite lookup_take_lt by lia; done).
  pose proof (Forall_lookup_1 _ _ _ _ Hok Hrin) as Hrok.
  specialize (C4 Hnd Hok). cbn [map expected].
  specialize (A6 Hrok). unfold advance in A6.
  destruct (f_len f =? IPFIX_VARIABLE_LENGTH) eqn:Ef; [| destruct (t_vlen tpl) eqn:Ev]; cbn [with_len with_vlen t_len t_vlen] in A6;
    destruct A6 as [B1 B2]; rewrite ?Ev in B2; rewrite B1, B2 in C4.
  all: match type of C4 with context [expected ?a ?b ?c] => destruct (expected a b c) as [ss [l v]] eqn:Ee end.
  all: rewrite ?Ev in Ee; cbn iota beta; try rewrite Ee; destruct C4 as (D1 & D2 & D3 & D4).
  all: split; [done |]; split; [done |]; split.
  all: try (intros j r' Hj Hlt; rewrite (D3 j r' Hj) by lia; apply A5; [apply (Forall_lookup_1 _ _ _ _ Hok Hj) |];
    intros ->; pose proof (NoDup_lookup _ _ _ _ Hnd Hj Hrin); lia).
  all: intros [|k] s Hk; cbn in Hk; [injection Hk as <-; exists r; rewrite Nat.add_0_r; split; [done |];
      rewrite (D3 count r Hrin) by lia; rewrite A4 by done; unfold new_slot; by rewrite Ef, ?Ev |].
  all: replace (count + S k)%nat with (S count + k)%nat by lia; by apply D4.
Qed.

Lemma wire_fields_length n pos fs : wire_fields n buf len version pos = Ok (Some fs) -> length fs = n.
Proof.
  revert pos fs. induction n as [|n IH]; intros pos fs; cbn [wire_fields]; [by intros [= <-] |].
  destruct (len <=? pos); [done |]. intros H.
  apply bind_Ok_inv in H as ([type ebit] & _ & H). apply bind_Ok_inv in H as (flen & _ & H).
  apply bind_Ok_inv in H as (pen & _ & H). apply bind_Ok_inv in H as ([rest|] & Hr & H); cbn in H; [| done].
  injection H as <-. cbn [length]. f_equal. by eapply IH.
Qed.

Lemma wire_fields_total n : forall pos, 0 <= pos -> exists r, wire_fields n buf len version pos = Ok r.
Proof.
  induction n as [|n IH]; intros pos Hp; cbn [wire_fields]; [by eexists |].
  destruct (Z.leb_spec len pos); [by eexists |].
  destruct (field_type_some pos) as (type & ebit & -> & _); [lia.. |]. cbn [mbind res_bind].
  destruct (be16_at_some (pos + 2)) as (flen & -> & _); [lia.. |]. cbn [mbind res_bind].
  assert (Hpen : exists pen, (if ebit then Some <$> be32_at buf (pos + 4) else Ok None) = Ok pen).
  { destruct ebit; [| by eexists]. destruct (be32_at_some (pos + 4)) as (v & ->); [lia.. |]. by eexists. }
  destruct Hpen as [pen ->]. cbn [mbind res_bind].
  destruct (IH (pos + if ebit then 8 else 4)) as [r ->]; [destruct ebit; lia |]. by eexists.
Qed.

Definition pens_of (fs : list field) : Z := Z.of_nat (length (List.filter (fun f => match f_pen f with Some _ => true | None => false end) fs)).

Lemma compose_loop_spec n : forall count tpl pos pens,
  wf_tpl tpl -> 0 <= pos <= 4 + 8 * Z.of_nat count -> 0 <= pens <= Z.of_nat count ->
  exists r wf pens', compose_loop n buf len version tpl (Z.of_nat count) pos pos pens = Ok (r, pens') /\
    wire_fields n buf len version pos = Ok wf /\
    match r with
    | Some tpl' => exists fs, wf = Some fs /\ (count + n <= 256 \/ n = 0)%nat /\ composed count fs tpl tpl' /\
        pens' = pens + pens_of fs
    | None => wf = None \/ (256 < count + n)%nat
    end.
Proof.
  induction n as [|n IH]; intros count tpl pos pens Hwf Hp Hpens.
  { exists (Some tpl), (Some []), pens. split; [done |]. split; [done |]. exists []. split; [done |].
    split; [by right |]. split; [| change (pens_of []) with 0; lia]. split; [done |]. split; [done |]. split; [done |].
    cbn [length map expected]. intros _ _. split_and!; try done. }
  cbn [compose_loop]. unfold TPL_LIST_ENTRIES. destruct (Z.leb_spec 256 (Z.of_nat count)) as [Hbig|Hc].
  { destruct (wire_fields_total (S n) pos ltac:(lia)) as [wf Ew]. exists None, wf, pens.
    split; [done |]. split; [done |]. right. lia. }
  cbn [wire_fields]. destruct (Z.leb_spec len pos) as [|Hpos]; [by exists None, None, pens; auto |].
  destruct (field_type_some pos) as (type & ebit & Et & Ht); [lia.. |]. rewrite Et. cbn [mbind res_bind].
  destruct (be16_at_some (pos + 2)) as (flen & El & Hl); [lia.. |]. rewrite El. cbn [mbind res_bind].
  assert (Hpen : exists pen, (if ebit then Some <$> be32_at buf (pos + 4) else Ok None) = Ok pen /\
    match pen with Some _ => ebit = true | None => ebit = false end).
  { destruct ebit; [| by eexists]. destruct (be32_at_some (pos + 4)) as (v & ->); [lia.. |]. by eexists. }
  destruct Hpen as (pen & Ep & Hpe).
  set (f := mk_field type pen flen).
  assert (Hadd : exists tpl1 r, (if (type <? NF9_MAX_DEFINED_FIELD) && negb ebit
     then tpl0 ← legacy_field tpl (Z.of_nat count) type flen; layer_field tpl0 type
     else pen0 ← (if ebit then Some <$> be32_at buf (pos + 4) else Ok None);
       ext_field tpl (Z.of_nat count) type pen0 flen) = Ok tpl1 /\ added tpl (Z.of_nat count) (f_len f) r tpl1).
  { destruct (Z.ltb_spec type NF9_MAX_DEFINED_FIELD) as [Hlt|Hge]; cbn [andb]; [destruct ebit; cbn [negb] |].
    2: { destruct (legacy_field_Ok tpl (Z.of_nat count) type flen Hwf ltac:(lia)) as (tpl0 & r & E0 & Hr & Ha);
           [unfold NF9_MAX_DEFINED_FIELD in Hlt; lia |]. rewrite E0. cbn [mbind res_bind].
         destruct (layer_field_Ok tpl0 type (ad_wf _ _ _ _ _ Ha)) as (tpl1 & E1 & Hwf1 & (G1 & G2 & G3 & G4) & G5 & G6).
         exists tpl1, r. split; [done |]. destruct Ha as [H1 H2 H3 H4 H5 H6]. split; try done; try congruence.
         - intros Hok. rewrite (read_ref_ext tpl1 tpl0 r G5 G6). by apply H4.
         - intros r' Hok Hne. rewrite (read_ref_ext tpl1 tpl0 r' G5 G6). by apply H5.
         - intros Hok. rewrite G3, G4. by apply H6. }
    all: rewrite Ep; cbn [mbind res_bind]; apply ext_field_Ok; [done | lia | lia]. }
  destruct Hadd as (tpl1 & r & Ea & Ha). rewrite Ea. cbn [mbind res_bind]. rewrite Ep. cbn [mbind res_bind].
  unfold NfTplFieldV9Sz. change (4 + 4) with 8.
  set (sz := if ebit then 8 else 4). assert (Hsz : 4 <= sz <= 8) by (unfold sz; destruct ebit; lia).
  rewrite (u16_small (pos + sz)) by lia.
  set (pens1 := if ebit then u16 (pens + 1) else pens).
  assert (Hp1 : pens1 = pens + (if ebit then 1 else 0)).
  { unfold pens1. destruct ebit; [rewrite u16_small by lia |]; lia. }
  replace (Z.of_nat count + 1) with (Z.of_nat (S count)) by lia.
  destruct (IH (S count) tpl1 (pos + sz) pens1 (ad_wf _ _ _ _ _ Ha)) as (res & wf & pens' & E & Ew & Hres);
    [lia | rewrite Hp1; destruct ebit; lia |].
  rewrite E, Ew. cbn [mbind res_bind]. exists res, (option_map (cons f) wf), pens'. split; [done |]. split; [done |].
  destruct res as [tpl'|].
  - destruct Hres as (fs & -> & Hn & Hcomp & Hpe'). exists (f :: fs).
    pose proof (wire_fields_length _ _ _ Ew) as Hfl.
    split; [done |]. split; [left; lia |]. split; [apply (added_composed count f fs tpl r tpl1 tpl'); try done; lia |].
    rewrite Hpe', Hp1. unfold pens_of. cbn [List.filter f_pen f]. destruct pen; rewrite Hpe; cbn [length]; lia.
  - destruct Hres as [->|]; [by left | right; lia].
Qed.

End Compose.

(** ** From the wire to the records *)

Lemma read_bytes_octets buf off n b : bytes_ok buf -> read_bytes buf off n = Ok b -> bytes_ok b.
Proof.
  intros Hb. unfold read_bytes. destruct ((0 <=? off) && (0 <=? n) && (off + n <=? strlen buf)); [| done].
  intros [= <-]. by apply Forall_take, Forall_drop.
Qed.

Lemma wire_fields_range buf len version n pos fs :
  bytes_ok buf -> wire_fields n buf len version pos = Ok (Some fs) ->
  Forall (fun l => 0 <= l <= 65535) (map f_len fs).
Proof.
  intros Hb. revert pos fs. induction n as [|n IH]; intros pos fs; cbn [wire_fields]; [intros [= <-]; constructor |].
  destruct (len <=? pos); [done |]. intros H.
  apply bind_Ok_inv in H as ([type ebit] & _ & H). apply bind_Ok_inv in H as (flen & Hl & H).
  apply bind_Ok_inv in H as (pen & _ & H). apply bind_Ok_inv in H as ([rest|] & Hr & H); cbn in H; [| done].
  injection H as <-. cbn [map f_len]. constructor; [| by eapply IH].
  unfold be16_at in Hl. apply bind_Ok_inv in Hl as (b & Hb' & [= <-]).
  pose proof (read_bytes_octets _ _ _ _ Hb Hb') as Hbb.
  pose proof (be16_range _ _ (byte_at_range b 0 Hbb) (byte_at_range b 1 Hbb)) as Hr2.
  unfold in_u in Hr2. lia.
Qed.

Lemma expected_slots fs : forall len vlen k s,
  (expected fs len vlen).1 !! k = Some s ->
  exists f, fs !! k = Some f /\ s_tpl_len s = f /\ s_len s = (if f =? IPFIX_VARIABLE_LENGTH then 0 else f) /\
    (vlen = false -> Forall fixed (take k fs) -> 0 <= len ->
      (forall j, (j <= k)%nat -> 0 <= len + sumZ (take j fs) < 65536) ->
      s_off s = len + sumZ (take k fs)).
Proof.
  induction fs as [|f fs IH]; intros len vlen k s; cbn [expected]; [done |].
  destruct (if f =? IPFIX_VARIABLE_LENGTH then (0, true) else if vlen then (len, vlen) else (u16 (len + f), vlen))
    as [len' vlen'] eqn:Ev.
  destruct (expected fs len' vlen') as [ss e] eqn:Ee. cbn [fst]. destruct k as [|k]; cbn [lookup list_lookup].
  - intros [= <-]. exists f. split_and!; try done. intros -> _ _ _. cbn. lia.
  - intros Hk. destruct (IH len' vlen' k s) as (f' & H1 & H2 & H3 & H4); [by rewrite Ee |].
    exists f'. split_and!; try done. intros -> Hf Hl Hsum. cbn [take] in Hf. apply Forall_cons in Hf as [Hf0 Hf].
    unfold fixed in Hf0. rewrite (proj2 (Z.eqb_neq _ _) Hf0) in Ev. injection Ev as <- <-.
    assert (E1 : u16 (len + f) = len + f).
    { pose proof (Hsum 1%nat ltac:(lia)) as H. change (sumZ (take 1 (f :: fs))) with (f + 0) in H.
      apply u16_small. lia. }
    rewrite E1 in H4. cbn [take sumZ foldr]. rewrite H4; [unfold sumZ; lia | done | done | |].
    + pose proof (Hsum 1%nat ltac:(lia)) as H. change (sumZ (take 1 (f :: fs))) with (f + 0) in H. lia.
    + intros j Hj. pose proof (Hsum (S j) ltac:(lia)) as H. cbn [take sumZ foldr] in H. unfold sumZ in *. lia.
Qed.

Lemma expected_length fs : forall len vlen, length (expected fs len vlen).1 = length fs.
Proof.
  induction fs as [|f fs IH]; intros len vlen; cbn [expected]; [done |].
  destruct (if f =? _ then _ else _) as [l v]. specialize (IH l v). destruct (expected fs l v) as [ss e].
  cbn in *. by rewrite IH.
Qed.

(** The references a template uses. *)
Definition refs (tpl : template) : list tpl_ref := take (Z.to_nat (t_num tpl)) (t_list tpl).

Lemma composed_tinv buf len version n fs tpl tpl' :
  bytes_ok buf -> wire_fields n buf len version 4 = Ok (Some fs) -> (n <= 256)%nat ->
  t_len tpl = 0 -> t_vlen tpl = false -> t_num tpl = Z.of_nat n ->
  composed 0 fs tpl tpl' -> NoDup (refs tpl') -> Forall ref_ok (refs tpl') ->
  (forall i, Forall fixed (take i (map f_len fs)) -> sumZ (take i (map f_len fs)) < 65536) ->
  tinv (map f_len fs) (refs tpl') tpl'.
Proof.
  intros Hb Hw Hn Hl0 Hv0 Hnum (C1 & C2 & _ & C4) Hnd Hok Hsum.
  pose proof (wire_fields_length buf len version n 4 fs Hw) as Hfl.
  pose proof (wire_fields_range _ _ _ _ _ _ Hb Hw) as Hrange.
  assert (Er : refs tpl' = take (0 + length fs) (t_list tpl')).
  { unfold refs. rewrite C2, Hnum, Nat2Z.id, Hfl. done. }
  cbn zeta in C4. rewrite <- Er in C4. specialize (C4 Hnd Hok). rewrite Hl0, Hv0 in C4.
  pose proof (expected_slots (map f_len fs) 0 false) as Hexp.
  pose proof (expected_length (map f_len fs) 0 false) as Helen. rewrite length_map in Helen.
  destruct (expected (map f_len fs) 0 false) as [ss [l v]]. cbn [fst] in Hexp, Helen.
  destruct C4 as (_ & _ & _ & C4).
  assert (Hrl : length (refs tpl') = length (map f_len fs)).
  { rewrite Er, length_map, length_take, (w_list _ C1). lia. }
  split; try done.
  - rewrite length_map. congruence.
  - by rewrite length_map, Er.
  - intros i r tl Hr Htl.
    destruct (lookup_lt_is_Some_2 ss i) as [s Hs].
    { apply lookup_lt_Some in Htl. rewrite length_map in Htl. lia. }
    destruct (C4 i s Hs) as (r' & Hr' & Hrd). cbn [Nat.add] in Hr'. assert (r' = r) as -> by congruence.
    destruct (Hexp i s Hs) as (f & F1 & F2 & F3 & F4). assert (f = tl) as -> by congruence.
    exists s. pose proof (Forall_lookup_1 _ _ _ _ Hrange Htl) as Hrg. cbn beta in Hrg.
    split_and!; try done; try (rewrite F3; case_match; lia).
    + rewrite F3. intros Hf. by rewrite (proj2 (Z.eqb_neq _ _) Hf).
    + intros Hf. rewrite F4; [lia | done | | done |].
      * rewrite (take_S_r _ _ _ Htl) in Hf. by apply Forall_app in Hf as [? _].
      * intros j Hj. split.
        -- assert (Hnn : Forall (fun l => 0 <= l <= 65535) (take j (map f_len fs))) by (by apply Forall_take).
           clear -Hnn. induction Hnn as [|x xs Hx Hxs IH]; cbn; [lia |]. unfold sumZ in *. lia.
        -- rewrite Z.add_0_l. apply Hsum.
           replace (take j (map f_len fs)) with (take j (take (S i) (map f_len fs))); [by apply Forall_take |].
           rewrite take_take. f_equal. lia.
Qed.

(* ------------------------------------------------------------------ *)
(** ** Theorems *)

(** C35. Composing a data template never reads more than 7 octets beyond the
    template and never writes outside its tables.  The template is refused
    exactly when a field starts beyond its end or there are more than 256
    fields; otherwise it holds the fields of the wire: when no field found its
    slot taken (references distinct and not NULL), each slot has the declared
    length and, up to the first variable-length field, the offset where the
    fields before it end. *)
Theorem compose_template_spec buf agent sid version len :
  bytes_ok buf -> 0 <= len -> len + 7 <= strlen buf ->
  exists num r pens wf, be16_at buf 2 = Ok num /\
    compose_template buf agent sid version len = Ok (r, pens) /\
    wire_fields (Z.to_nat num) buf len version 4 = Ok wf /\
    match r with
    | None => wf = None \/ 256 < num
    | Some tpl => exists fs, wf = Some fs /\ num <= 256 /\ pens = pens_of fs /\
        wf_tpl tpl /\ t_num tpl = num /\
        (NoDup (refs tpl) -> Forall ref_ok (refs tpl) ->
          let '(ss, (l, v)) := expected (map f_len fs) 0 false in
          t_len tpl = l /\ t_vlen tpl = v /\
          (forall k s, ss !! k = Some s -> exists r, refs tpl !! k = Some r /\ read_ref tpl r = Ok s))
    end.
Proof.
  intros Hb H0 Hlen. pose proof (strlen_nonneg buf).
  destruct (be16_at_some buf Hb 2) as (num & En & Hnum); [lia.. |].
  destruct (read_bytes_some buf Hb 0 2) as (tid & Et & _); [lia.. |].
  unfold compose_template. rewrite Et, En. cbn [mbind res_bind].
  destruct (compose_loop_spec buf len version Hlen Hb (Z.to_nat num) 0
    (template0 agent version sid tid 0 num) 4 0 (template0_wf _ _ _ _ _ _) ltac:(lia) ltac:(lia))
    as (r & wf & pens & E & Ew & Hr).
  exists num, r, pens, wf. split; [done |]. split; [exact E |]. split; [done |].
  destruct r as [tpl|]; [| destruct Hr as [|]; [by left | right; lia]].
  destruct Hr as (fs & -> & Hn & Hcomp & Hp). exists fs. split; [done |]. split; [lia |]. split; [lia |].
  destruct Hcomp as (C1 & C2 & _ & C4). split; [done |]. split; [done |].
  cbn zeta in C4. pose proof (wire_fields_length _ _ _ _ _ _ Ew) as Hfl. cbn [Nat.add] in C4. rewrite Hfl in C4.
  unfold refs. rewrite C2. cbn [template0 t_num t_len t_vlen] in C4 |- *. intros Hnd Hok. specialize (C4 Hnd Hok).
  destruct (expected _ 0 false) as [ss [l v]]. destruct C4 as (D1 & D2 & _ & D4). done.
Qed.

(** C36. Reading the variable-length fields of a record never leaves the
    record's flowset.  When the fields fit, in exact arithmetic, every slot has
    the offset and length of its field, all inside the length that is reported,
    which is at most what remains of the flowset; when they do not the record
    is refused, provided that the first field that does not fit ends below
    65536. *)
Theorem resolve_vlen_template_spec buf remlen tls rs tpl :
  tinv tls rs tpl -> 0 <= remlen < 65536 -> remlen <= strlen buf -> bytes_ok buf ->
  exists ret tpl', resolve_vlen_template buf remlen tpl = Ok (ret, tpl') /\ tinv tls rs tpl' /\
    match layout tls (take (Z.to_nat remlen) buf) 0 with
    | Fits l total => ret = SUCCESS /\ t_len tpl' = total /\ total <= remlen /\ length l = length tls /\
        (forall k o ln, l !! k = Some (o, ln) -> 0 <= o /\ 0 <= ln /\ o + ln <= total /\
          exists r tl, rs !! k = Some r /\ read_ref tpl' r = Ok (mk_slot o ln tl))
    | Short => ret = ERR
    | Wraps => True
    end.
Proof.
  intros Hinv Hrem Hbuf Hb. unfold resolve_vlen_template. rewrite (ti_num _ _ _ Hinv), Nat2Z.id.
  destruct (resolve_loop_safe buf remlen Hrem Hbuf Hb tls rs (length tls) 0 0 tpl eq_refl Hinv ltac:(lia))
    as (ret & tpl' & E & Hi').
  pose proof (resolve_loop_spec buf remlen Hrem Hbuf Hb tls rs (length tls) 0 0 tpl eq_refl Hinv ltac:(lia)
    (or_intror eq_refl)) as Hs. change (drop 0 tls) with tls in Hs. unfold data in Hs.
  change (vlen_before tls 0) with false in *. change (Z.of_nat 0) with 0 in *.
  destruct (layout tls (take (Z.to_nat remlen) buf) 0) as [l total| |].
  - destruct Hs as (tpl'' & E' & Hi'' & Ht & Hb' & Hsl & Hlen & Hin & _).
    exists SUCCESS, tpl''. split; [done |]. split; [done |]. split_and!; try done; try lia.
    intros k o ln Hk. destruct (Hin k o ln Hk) as (? & ? & ?). destruct (Hsl k o ln Hk) as (r & tl & G1 & G2 & G3).
    split_and!; try lia. by exists r, tl.
  - destruct Hs as (tpl'' & E'). exists ret, tpl'. rewrite E in E'. injection E' as -> ->. done.
  - by exists ret, tpl'.
Qed.

(** A composed data template, when no slot is shared, is what resolving
    expects: the field lengths of the wire in the order of the template. *)
Theorem compose_template_resolvable buf agent sid version len tpl pens num fs :
  bytes_ok buf -> 0 <= len -> len + 7 <= strlen buf ->
  compose_template buf agent sid version len = Ok (Some tpl, pens) ->
  be16_at buf 2 = Ok num -> wire_fields (Z.to_nat num) buf len version 4 = Ok (Some fs) ->
  NoDup (refs tpl) -> Forall ref_ok (refs tpl) ->
  (forall i, Forall fixed (take i (map f_len fs)) -> sumZ (take i (map f_len fs)) < 65536) ->
  tinv (map f_len fs) (refs tpl) tpl.
Proof.
  intros Hb H0 Hlen E En Ew Hnd Hok Hsum. pose proof (strlen_nonneg buf).
  destruct (be16_at_some buf Hb 2) as (num' & En' & Hnum); [lia.. |].
  assert (num' = num) as -> by congruence.
  destruct (read_bytes_some buf Hb 0 2) as (tid & Et & _); [lia.. |].
  unfold compose_template in E. rewrite Et, En in E. cbn [mbind res_bind] in E.
  destruct (compose_loop_spec buf len version Hlen Hb (Z.to_nat num) 0
    (template0 agent version sid tid 0 num) 4 0 (template0_wf _ _ _ _ _ _) ltac:(lia) ltac:(lia))
    as (r & wf & pens' & E' & Ew' & Hr).
  change (Z.of_nat 0) with 0 in E'. unfold NfTplHdrV9Sz in E. rewrite E in E'. injection E' as <- <-.
  destruct Hr as (fs' & -> & Hn & Hcomp & _). assert (fs' = fs) as -> by congruence.
  eapply composed_tinv; try done; cbn [template0 t_len t_vlen t_num]; first [done | lia].
Qed.

(** The records of a flowset of fixed-length records lie side by side,
    as many as fit. *)
Theorem data_loop_fixed buf flowsetlen tpl pos flowoff fuel :
  t_vlen tpl = false -> 0 < t_len tpl -> 0 <= flowoff <= flowsetlen -> flowsetlen < 65536 ->
  (Z.to_nat ((flowsetlen - flowoff) / t_len tpl) < fuel)%nat ->
  data_loop fuel buf flowsetlen tpl pos flowoff =
    Ok (map (fun i => (pos + Z.of_nat i * t_len tpl, tpl))
          (seq 0 (Z.to_nat ((flowsetlen - flowoff) / t_len tpl)))).
Proof.
  intros Hv Hl Hoff Hset. revert pos flowoff Hoff. induction fuel as [|f IH]; intros pos flowoff Hoff Hf; [lia |].
  cbn [data_loop]. rewrite Hv. destruct (Z.leb_spec (flowoff + t_len tpl) flowsetlen) as [Hfit|Hfit].
  - cbn [mbind res_bind]. change (SUCCESS =? ERR) with false. cbn iota zeta. rewrite Hv. rewrite u16_small by lia.
    assert (Ed : (flowsetlen - flowoff) / t_len tpl = (flowsetlen - (flowoff + t_len tpl)) / t_len tpl + 1).
    { rewrite <- Z.div_add by lia. f_equal. lia. }
    assert (0 <= (flowsetlen - (flowoff + t_len tpl)) / t_len tpl) by (apply Z.div_pos; lia).
    rewrite IH by lia. cbn [mbind res_bind]. f_equal. rewrite Ed.
    replace (Z.to_nat (_ + 1)) with (S (Z.to_nat ((flowsetlen - (flowoff + t_len tpl)) / t_len tpl))) by lia.
    cbn [seq map]. f_equal; [f_equal; lia |]. rewrite <- seq_shift, map_map. apply map_ext. intros i. f_equal. lia.
  - rewrite Z.div_small by lia. done.
Qed.

(** A template without octets makes the loop over the records of its
    flowsets endless: no fuel is enough. *)
Theorem data_loop_empty_template buf flowsetlen tpl pos flowoff fuel :
  t_vlen tpl = false -> t_len tpl = 0 -> 0 <= flowoff <= flowsetlen -> flowsetlen < 65536 ->
  data_loop fuel buf flowsetlen tpl pos flowoff = Err OutOfFuel.
Proof.
  intros Hv Hl Hoff Hset. revert pos. induction fuel as [|f IH]; intros pos; [done |].
  cbn [data_loop]. rewrite Hv, Hl. rewrite (proj2 (Z.leb_le _ _)) by lia. cbn [mbind res_bind].
  change (SUCCESS =? ERR) with false. cbn iota zeta. rewrite Hv, Hl. rewrite u16_small by lia. rewrite !Z.add_0_r. by rewrite IH.
Qed.

(** ** The cache *)

Section CacheFacts.
Context {M : Type} `{HM : CdadaMap M (option template)} `{HL : !CdadaLaws M (option template)}.

(** What finding a key gives, with the NULL pointers that are stored. *)
Definition stored (c : cache (M := M)) (k : list Z) : option (option template) := cdada_map_find (tpl_data_map c) k.

Definition nf_version (tpl_type : Z) : Z := if tpl_type <=? 1 then 9 else 10.

Lemma handle_cases c buf agent tpl_type sid len tid tpl pens :
  0 <= tpl_type <= 3 -> read_bytes buf 0 2 = Ok tid ->
  (if (tpl_type =? 0) || (tpl_type =? 2) then compose_template buf agent sid (nf_version tpl_type) len
   else compose_opt_template buf agent tpl_type sid (nf_version tpl_type) len) = Ok (tpl, pens) ->
  let k := compose_template_key (nf_version tpl_type) tid agent sid in
  exists c', handle_template_v2 c buf agent tpl_type sid len = Ok (tpl, pens, c') /\
    (stored c k <> Some None -> stored c' k = Some tpl) /\
    (stored c k = Some None -> stored c' k = Some None) /\
    (forall k', k' <> k -> stored c' k' = stored c k') /\
    tot_bad_datagrams c' = (match tpl with Some _ => tot_bad_datagrams c | None => u64 (tot_bad_datagrams c + 1) end).
Proof.
  intros Ht Htid Hc k. unfold handle_template_v2. rewrite Htid. cbn [mbind res_bind].
  set (v := if (tpl_type =? 0) || (tpl_type =? 1) then 9 else _).
  assert (Ev : v = nf_version tpl_type).
  { unfold v, nf_version. assert (tpl_type = 0 \/ tpl_type = 1 \/ tpl_type = 2 \/ tpl_type = 3) as Hcase by lia.
    by destruct Hcase as [->|[->|[->| ->]]]. }
  rewrite Ev. fold k.
  set (cmp := if (tpl_type =? 0) || (tpl_type =? 2) then _ else _).
  assert (Ecmp : cmp = Ok (tpl, pens)).
  { unfold cmp. destruct ((tpl_type =? 0) || (tpl_type =? 2)) eqn:E1; [done |].
    assert (Eo : (tpl_type =? 1) || (tpl_type =? 3) = true).
    { apply orb_false_iff in E1 as [H1 H2]. apply Z.eqb_neq in H1, H2.
      assert (tpl_type = 1 \/ tpl_type = 3) as [-> | ->] by lia; done. }
    by rewrite Eo. }
  rewrite Ecmp. cbn [mbind res_bind].
  assert (Hnv : negb (nf_version tpl_type =? 0) = true) by (unfold nf_version; by destruct (tpl_type <=? 1)).
  rewrite Hnv. cbn [andb]. unfold stored.
  assert (Hbad : forall x : option template, (if negb (bool_decide (is_Some x)) then u64 (tot_bad_datagrams c + 1) else tot_bad_datagrams c) =
    match x with Some _ => tot_bad_datagrams c | None => u64 (tot_bad_datagrams c + 1) end).
  { intros [x|]; [rewrite bool_decide_true by eauto | rewrite bool_decide_false by (by intros [? ?])]; done. }
  destruct (cdada_map_find (tpl_data_map c) k) as [[old|]|] eqn:Ef.
  - destruct (insert_new (cdada_map_erase (tpl_data_map c) k) k tpl) as (m' & Ei & Hm').
    { rewrite find_erase. by rewrite decide_True. }
    rewrite Ei. eexists. split; [done |]. cbn [tpl_data_map tot_bad_datagrams]. split_and!; [| done | |].
    + intros _. rewrite Hm'. by rewrite decide_True.
    + intros k' Hne. rewrite Hm', find_erase. by rewrite !decide_False by congruence.
    + apply Hbad.
  - rewrite (insert_exists _ _ _ _ Ef). eexists. split; [done |]. cbn [tpl_data_map tot_bad_datagrams].
    split_and!; try done; apply Hbad.
  - destruct (insert_new (tpl_data_map c) k tpl Ef) as (m' & Ei & Hm').
    rewrite Ei. eexists. split; [done |]. cbn [tpl_data_map tot_bad_datagrams]. split_and!; [| done | |].
    + intros _. rewrite Hm'. by rewrite decide_True.
    + intros k' Hne. rewrite Hm'. by rewrite !decide_False by congruence.
    + apply Hbad.
Qed.

Lemma find_stored c k id agent version sid : compose_template_key version id agent sid = k ->
  find_template_v2 c id agent version sid = match stored c k with Some (Some t) => Some t | _ => None end.
Proof. intros <-. done. Qed.

(** C39. The cache: a template that has been received is found under its
    version, id, agent and source, other keys keep what they had, and a
    malformed template takes the place of the one that was there; but where a
    malformed template came before, the key keeps its NULL and nothing
    received is found any more. *)
Theorem handle_template_v2_spec c buf agent tpl_type sid len tid tpl pens :
  0 <= tpl_type <= 3 -> read_bytes buf 0 2 = Ok tid ->
  (if (tpl_type =? 0) || (tpl_type =? 2) then compose_template buf agent sid (nf_version tpl_type) len
   else compose_opt_template buf agent tpl_type sid (nf_version tpl_type) len) = Ok (tpl, pens) ->
  let k := compose_template_key (nf_version tpl_type) tid agent sid in
  exists c', handle_template_v2 c buf agent tpl_type sid len = Ok (tpl, pens, c') /\
    (stored c k <> Some None -> find_template_v2 c' tid agent (nf_version tpl_type) sid = tpl) /\
    (stored c k <> Some None -> tpl = None -> stored c' k = Some None) /\
    (stored c k = Some None ->
      find_template_v2 c' tid agent (nf_version tpl_type) sid = None /\ stored c' k = Some None) /\
    (forall id' agent' version' sid', compose_template_key version' id' agent' sid' <> k ->
      find_template_v2 c' id' agent' version' sid' = find_template_v2 c id' agent' version' sid').
Proof.
  intros Ht Htid Hc k.
  destruct (handle_cases c buf agent tpl_type sid len tid tpl pens Ht Htid Hc) as (c' & E & G1 & G2 & G3 & _).
  fold k in G1, G2, G3. exists c'. split; [done |]. rewrite (find_stored c' k tid agent _ sid eq_refl). split_and!.
  - intros Hn. rewrite (G1 Hn). by destruct tpl.
  - intros Hn ->. by apply G1.
  - intros Hn. by rewrite (G2 Hn).
  - intros id' agent' version' sid' Hne. rewrite !(find_stored _ _ id' agent' version' sid' eq_refl).
    by rewrite G3.
Qed.

End CacheFacts.

(** The map of the model obeys the laws. *)
#[export] Instance gmap_cdada_laws V : CdadaLaws (gmap (list Z) V) V.
Proof.
  split; cbn.
  - intros k. apply lookup_empty.
  - intros m k k'. destruct (decide (k = k')) as [<-|Hne]; [apply lookup_delete_eq | by apply lookup_delete_ne].
  - intros m k v Hk. rewrite Hk. eexists. split; [done |]. intros k'.
    destruct (decide (k = k')) as [<-|Hne]; [apply lookup_insert_eq | by apply lookup_insert_ne].
  - intros m k v v' Hk. by rewrite Hk.
Qed.

Lemma le32_inj a b : is_u32 a -> is_u32 b -> le32 a = le32 b -> a = b.
Proof.
  unfold in_u, le32. intros Ha Hb [= H0 H1 H2 H3].
  rewrite (Z.div_mod a 256), (Z.div_mod b 256), H0 by lia. f_equal. f_equal.
  assert (E : forall x, 0 <= x < 2 ^ 32 -> x / 256 = x / 256 mod 256 + 256 * (x / 65536 mod 256) + 65536 * (x / 16777216 mod 256)).
  { intros x Hx.
    replace (x / 65536) with (x / 256 / 256) by (by rewrite Z.div_div).
    replace (x / 16777216) with (x / 256 / 256 / 256) by (by rewrite !Z.div_div).
    assert (Hq : 0 <= x / 256 < 16777216) by (split; [apply Z.div_pos; lia | apply Z.div_lt_upper_bound; lia]).
    revert Hq. generalize (x / 256). intros q Hq. rewrite (Z.mod_small (q / 256 / 256)).
    - pose proof (Z.div_mod q 256). pose proof (Z.div_mod (q / 256) 256). lia.
    - rewrite Z.div_div by lia. split; [apply Z.div_pos; lia | apply Z.div_lt_upper_bound; lia]. }
  rewrite (E a Ha), (E b Hb), H1, H2, H3. done.
Qed.

(** The key of a template fills its buffer, and tells apart templates that
    differ in version, id, source or agent, the agent's port left out. *)
Theorem compose_template_key_inj v1 v2 id1 id2 a1 a2 s1 s2 :
  is_u8 v1 -> is_u8 v2 -> length id1 = 2%nat -> length id2 = 2%nat -> is_u32 s1 -> is_u32 s2 ->
  length a1 = 128%nat -> length a2 = 128%nat ->
  strlen (compose_template_key v1 id1 a1 s1) = calc_template_keylen /\
  (compose_template_key v1 id1 a1 s1 = compose_template_key v2 id2 a2 s2 <->
    v1 = v2 /\ id1 = id2 /\ s1 = s2 /\ sa_reset_port a1 = sa_reset_port a2).
Proof.
  intros Hv1 Hv2 Hi1 Hi2 Hs1 Hs2 Ha1 Ha2.
  assert (Hl : forall a, length a = 128%nat -> length (sa_reset_port a) = 128%nat).
  { intros a Ha. unfold sa_reset_port. case_match; [| done]. rewrite !length_app, length_take, length_drop, Ha. done. }
  unfold compose_template_key. split.
  - unfold strlen. rewrite !length_app, Hi1, (Hl a1 Ha1). done.
  - split; [| by intros (-> & -> & -> & ->)]. intros E. cbn [app] in E. injection E as Ev E.
    rewrite !(wrap_small 8) in Ev by done. apply app_inj_1 in E as [Ei E]; [| congruence].
    injection E as E0 E1 E2 E3 Ea. split_and!; try done. apply le32_inj; [done.. |].
    unfold le32. congruence.
Qed.

(** The limits that the options variant does not check: 257 fields write
    outside the list of a template, and the 33rd element of one bucket of the
    database is a NULL pointer that is followed. *)
Theorem compose_opt_template_overflow :
  compose_opt_template ([1; 0; 1; 1; 0; 0] ++ concat (replicate 257 [0; 1; 0; 1])) [] 3 0 10 1034
    = Err OutOfBounds /\
  compose_opt_template ([1; 0; 0; 33; 0; 0] ++ concat (replicate 33 [1; 144; 0; 1])) [] 3 0 10 138
    = Err NullDeref.
Proof. split; vm_compute; reflexivity. Qed.

(** A data template accepts that 33rd element, and resolving its records
    follows the NULL pointer. *)
Theorem resolve_vlen_template_null :
  match compose_template ([1; 0; 0; 34] ++ [0; 1; 255; 255] ++ concat (replicate 33 [1; 144; 0; 1])
                            ++ replicate 7 0) [] 0 10 140 with
  | Ok (Some tpl, _) => resolve_vlen_template (replicate 50 0) 50 tpl
  | _ => Ok (SUCCESS, template0 [] 0 0 [] 0 0)
  end = Err NullDeref.
Proof. vm_compute. reflexivity. Qed.

(** The 16-bit sum: a record of 13 octets whose length prefix says 65525
    is accepted as one of two octets, with a field that starts at 13 and is
    65525 octets long. *)
Theorem resolve_vlen_template_wraps :
  match compose_template ([1; 0; 0; 2] ++ [0; 8; 0; 10] ++ [0; 82; 255; 255] ++ replicate 7 0) [] 0 10 12 with
  | Ok (Some tpl, _) =>
      '(ret, tpl) ← resolve_vlen_template (replicate 10 0 ++ [255; 255; 245]) 13 tpl;
      s ← read_ref tpl (TPL_TYPE_LEGACY 82 1);
      Ok (ret, t_len tpl, s)
  | _ => Err OutOfFuel
  end = Ok (SUCCESS, 2, mk_slot 13 65525 65535).
Proof. vm_compute. reflexivity. Qed.

(* ------------------------------------------------------------------ *)
(** ** Witnesses *)

(** A template with the id 256: source address, interface name of variable
    length, octets; 3 octets of padding and what follows. *)
Definition ex_tpl_buf : list Z :=
  [1; 0; 0; 3; 0; 8; 0; 4; 0; 82; 255; 255; 0; 1; 0; 8] ++ replicate 7 0.
Definition ex_fs : list field := [mk_field 8 None 4; mk_field 82 None 65535; mk_field 1 None 8].
Definition ex_record : list Z := [192; 0; 2; 1] ++ [3; 101; 116; 104] ++ [0; 0; 0; 0; 0; 0; 1; 0] ++ [0; 0].

Lemma ex_tpl_bytes : bytes_ok ex_tpl_buf.
Proof. by apply bytes_ok_b. Qed.

Definition ex_tpl : template :=
  match compose_template ex_tpl_buf [] 0 10 16 with Ok (Some t, _) => t | _ => template0 [] 0 0 [] 0 0 end.

Lemma ex_tpl_compose : compose_template ex_tpl_buf [] 0 10 16 = Ok (Some ex_tpl, 0).
Proof. vm_compute. reflexivity. Qed.

Lemma ex_tpl_refs : refs ex_tpl = [TPL_TYPE_LEGACY 8 1; TPL_TYPE_LEGACY 82 1; TPL_TYPE_LEGACY 1 1].
Proof. vm_compute. reflexivity. Qed.

Lemma ex_tpl_distinct : NoDup (refs ex_tpl) /\ Forall ref_ok (refs ex_tpl).
Proof.
  rewrite ex_tpl_refs. split; [apply (bool_decide_unpack _); vm_compute; exact I |].
  forall_list; cbn; lia.
Qed.

Lemma ex_sums i : Forall fixed (take i (map f_len ex_fs)) -> sumZ (take i (map f_len ex_fs)) < 65536.
Proof.
  intros Hf. destruct i as [|[|i]]; [done | done |]. exfalso. cbn in Hf.
  apply Forall_cons in Hf as [_ Hf]. apply Forall_cons in Hf as [Hf _]. by apply Hf.
Qed.

Lemma compose_template_spec_witness :
  exists r pens, compose_template ex_tpl_buf [] 0 10 16 = Ok (r, pens) /\ is_Some r.
Proof.
  destruct (compose_template_spec ex_tpl_buf [] 0 10 16) as (num & r & pens & wf & _ & E & _).
  - by apply bytes_ok_b.
  - lia.
  - vm_compute. discriminate.
  - exists r, pens. split; [exact E |]. rewrite ex_tpl_compose in E. injection E as <- _. by eexists.
Defined.

Lemma ex_tinv : tinv (map f_len ex_fs) (refs ex_tpl) ex_tpl.
Proof.
  destruct ex_tpl_distinct as [Hnd Hok].
  destruct (be16_at_some ex_tpl_buf ex_tpl_bytes 2) as (num & En & Hn); [lia | vm_compute; discriminate |].
  destruct (compose_loop_spec ex_tpl_buf 16 10 ltac:(vm_compute; discriminate) ex_tpl_bytes 3 0
    (template0 [] 10 0 [1; 0] 0 3) 4 0 (template0_wf _ _ _ _ _ _) ltac:(lia) ltac:(lia)) as (r & wf & pens & E & Ew & Hr).
  assert (Er : compose_loop 3 ex_tpl_buf 16 10 (template0 [] 10 0 [1; 0] 0 3) 0 4 4 0 = Ok (Some ex_tpl, 0))
    by (vm_compute; reflexivity).
  change (Z.of_nat 0) with 0 in E. rewrite Er in E. injection E as <- <-.
  destruct Hr as (fs & -> & _ & Hcomp & _).
  assert (Efs : Ok (Some fs) = Ok (Some ex_fs)) by (rewrite <- Ew; vm_compute; reflexivity).
  injection Efs as ->.
  apply (composed_tinv ex_tpl_buf 16 10 3 ex_fs (template0 [] 10 0 [1; 0] 0 3)); try done;
    [by apply bytes_ok_b | lia | exact ex_sums].
Qed.

Lemma compose_template_resolvable_witness : tinv (map f_len ex_fs) (refs ex_tpl) ex_tpl.
Proof.
  destruct ex_tpl_distinct as [Hnd Hok].
  apply (compose_template_resolvable ex_tpl_buf [] 0 10 16 ex_tpl 0 3 ex_fs).
  - by apply bytes_ok_b.
  - lia.
  - vm_compute. discriminate.
  - exact ex_tpl_compose.
  - vm_compute. reflexivity.
  - vm_compute. reflexivity.
  - exact Hnd.
  - exact Hok.
  - exact ex_sums.
Defined.

Lemma resolve_vlen_template_spec_witness :
  exists tpl, resolve_vlen_template ex_record 18 ex_tpl = Ok (SUCCESS, tpl) /\ t_len tpl = 16 /\
    read_ref tpl (TPL_TYPE_LEGACY 82 1) = Ok (mk_slot 5 3 65535).
Proof.
  destruct (resolve_vlen_template_spec ex_record 18 (map f_len ex_fs) (refs ex_tpl) ex_tpl ex_tinv)
    as (ret & tpl & E & _ & H).
  - lia.
  - vm_compute. discriminate.
  - by apply bytes_ok_b.
  - change (layout (map f_len ex_fs) (take (Z.to_nat 18) ex_record) 0) with (Fits [(0, 4); (5, 3); (8, 8)] 16) in H.
    cbn iota in H. destruct H as (Hr & Hl & _ & _ & Hs). exists tpl. split; [rewrite <- Hr; exact E |]. split; [exact Hl |].
    destruct (Hs 1%nat 5 3 eq_refl) as (_ & _ & _ & r & tl & R1 & R2).
    rewrite ex_tpl_refs in R1. injection R1 as <-. rewrite R2.
    assert (Et : read_ref tpl (TPL_TYPE_LEGACY 82 1) = Ok (mk_slot 5 3 65535)); [| congruence].
    assert (E2 : match resolve_vlen_template ex_record 18 ex_tpl with Ok (_, t) => read_ref t (TPL_TYPE_LEGACY 82 1) | Err e => Err e end
      = Ok (mk_slot 5 3 65535)) by (vm_compute; reflexivity).
    rewrite E in E2. exact E2.
Defined.

Definition ex_fixed : template := with_len (template0 [] 9 0 [1; 0] 0 2) 12.

Lemma data_loop_fixed_witness : data_loop 5 [] 40 ex_fixed 4 4 = Ok [(4, ex_fixed); (16, ex_fixed); (28, ex_fixed)].
Proof. apply (data_loop_fixed [] 40 ex_fixed 4 4 5); vm_compute; (reflexivity || intuition discriminate || lia). Defined.

(** The template that the wire carries with no fields. *)
Lemma data_loop_empty_template_witness :
  exists tpl, compose_template [1; 0; 0; 0] [] 0 9 4 = Ok (Some tpl, 0) /\
    data_loop 1000 [] 20 tpl 4 4 = Err OutOfFuel.
Proof.
  exists (template0 [] 9 0 [1; 0] 0 0). split; [vm_compute; reflexivity |].
  apply data_loop_empty_template; [reflexivity | reflexivity | lia | lia].
Defined.

Definition ex_cache : cache (M := gmap (list Z) (option template)) := init_template_cache_v2.

Lemma handle_template_v2_spec_witness :
  exists c, handle_template_v2 ex_cache ex_tpl_buf [] 2 0 16 = Ok (Some ex_tpl, 0, c) /\
    find_template_v2 c [1; 0] [] 10 0 = Some ex_tpl.
Proof.
  destruct (handle_template_v2_spec ex_cache ex_tpl_buf [] 2 0 16 [1; 0] (Some ex_tpl) 0) as (c & E & H & _).
  - lia.
  - vm_compute. reflexivity.
  - exact ex_tpl_compose.
  - exists c. split; [exact E |]. apply H. discriminate.
Defined.

Lemma compose_template_key_inj_witness :
  compose_template_key 9 [1; 0] (replicate 128 0) 1 <> compose_template_key 9 [1; 0] (replicate 128 0) 2.
Proof.
  intros E. apply (compose_template_key_inj 9 9 [1; 0] [1; 0] (replicate 128 0) (replicate 128 0) 1 2) in E;
    [lia | unfold in_u; lia | unfold in_u; lia | done | done | unfold in_u; lia | unfold in_u; lia | done | done].
Defined.

End NfTemplateFacts.
