(* ===== verification/Sav.v ===== *)
(** * src/sav_parser.c and its callers: source address validation rules

    IPFIX records may carry a subTemplateList of validation rules;
    [process_sav_fields] (nfacctd.c) finds it through the template, the parser
    turns it into an array of rules, [compose_json_sav_fields]
    (plugin_cmn_json.c) prints them.  [union prefix] is its 16 octets; the
    host that reads [ipv4[0]] from them is little-endian.  [inet_ntop] for
    IPv6 is a parameter; allocation succeeds; logging is left out. *)

From S2P Require Import Prelude CBuf NfTemplate.

Module Sav.
Import CBuf NfTemplate.

Definition SAV_TPL_IPV4_IF2PREFIX : Z := 901.
Definition SAV_TPL_IPV6_IF2PREFIX : Z := 902.
Definition SAV_TPL_IPV4_PREFIX2IF : Z := 903.
Definition SAV_TPL_IPV6_PREFIX2IF : Z := 904.

Definition SAV_IE_TARGET_TYPE : Z := 30002.
Definition SAV_IE_MATCHED_CONTENT : Z := 30003.
Definition SAV_IE_TARGET_TYPE_ENT : Z := 2.
Definition SAV_IE_MATCHED_CONTENT_ENT : Z := 3.

Record sav_rule := mk_rule {
  interface_id : Z;
  prefix : list Z;
  prefix_len : Z;
  validation_mode : Z
}.

(** [prefix.ipv4[0] = v] in a zeroed union, and reading it. *)
Definition union_ipv4 (v : Z) : list Z := le32 v ++ replicate 12 0.
Definition prefix_ipv4 (r : sav_rule) : Z :=
  byte_at (prefix r) 0 + 256 * byte_at (prefix r) 1 + 65536 * byte_at (prefix r) 2
    + 16777216 * byte_at (prefix r) 3.

(** The length of a field with an RFC 7011 prefix, or 0; where the data go on,
    and what remains. *)
Definition decode_varlen (buf : list Z) (data remaining : Z) : res (Z * Z * Z) :=
  if remaining <? 1 then Ok (0, data, remaining)
  else
    b ← read_bytes buf data 1;
    let len := byte_at b 0 in
    let data := data + 1 in
    let remaining := remaining - 1 in
    if len =? 255 then
      if remaining <? 2 then Ok (0, data, remaining)
      else len ← be16_at buf data; Ok (len, data + 2, remaining - 2)
    else Ok (len, data, remaining).

(** The octets consumed, or -1 (the rule is then all zero). *)
Definition parse_sav_rule (buf : list Z) (ptr template_id : Z) : res (Z * sav_rule) :=
  if template_id =? SAV_TPL_IPV4_IF2PREFIX then
    i ← be32_at buf ptr;
    p ← be32_at buf (ptr + 4);
    l ← read_bytes buf (ptr + 8) 1;
    Ok (9, mk_rule i (union_ipv4 p) (byte_at l 0) 0)
  else if template_id =? SAV_TPL_IPV6_IF2PREFIX then
    i ← be32_at buf ptr;
    p ← read_bytes buf (ptr + 4) 16;
    l ← read_bytes buf (ptr + 20) 1;
    Ok (21, mk_rule i p (byte_at l 0) 0)
  else if template_id =? SAV_TPL_IPV4_PREFIX2IF then
    p ← be32_at buf ptr;
    l ← read_bytes buf (ptr + 4) 1;
    i ← be32_at buf (ptr + 5);
    Ok (9, mk_rule i (union_ipv4 p) (byte_at l 0) 0)
  else if template_id =? SAV_TPL_IPV6_PREFIX2IF then
    p ← read_bytes buf ptr 16;
    l ← read_bytes buf (ptr + 16) 1;
    i ← be32_at buf (ptr + 17);
    Ok (21, mk_rule i p (byte_at l 0) 0)
  else Ok (-1, mk_rule 0 (replicate 16 0) 0 0).

Definition record_size (sub_tpl_id : Z) : Z :=
  if (sub_tpl_id =? SAV_TPL_IPV4_IF2PREFIX) || (sub_tpl_id =? SAV_TPL_IPV4_PREFIX2IF) then 9 else 21.

(** The loop over the rules: [None] when one cannot be parsed. *)
Fixpoint parse_rules (n : nat) (buf : list Z) (ptr sub_tpl_id mode : Z) : res (option (list sav_rule)) :=
  match n with
  | O => Ok (Some [])
  | S n' =>
      '(consumed, r) ← parse_sav_rule buf ptr sub_tpl_id;
      if consumed <? 0 then Ok None
      else
        rest ← parse_rules n' buf (ptr + consumed) sub_tpl_id mode;
        Ok (option_map (cons (mk_rule (interface_id r) (prefix r) (prefix_len r) mode)) rest)
  end.

(** [ret], [*rules], [*count], [*template_id_out] when it is set. *)
Record sav_parsed := mk_parsed {
  sp_ret : Z;
  sp_rules : option (list sav_rule);
  sp_count : Z;
  sp_template_id : option Z
}.

Definition parse_sav_sub_template_list (buf : list Z) (data len mode : Z) : res sav_parsed :=
  let failed := mk_parsed (-1) None 0 None in
  if len <? 1 then Ok failed
  else
    _ ← read_bytes buf data 1;
    if len - 1 <? 2 then Ok failed
    else
      sub_tpl_id ← be16_at buf (data + 1);
      if (sub_tpl_id <? SAV_TPL_IPV4_IF2PREFIX) || (SAV_TPL_IPV6_PREFIX2IF <? sub_tpl_id) then Ok failed
      else
        let num_rules := (len - 3) / record_size sub_tpl_id in
        if num_rules <=? 0 then Ok (mk_parsed 0 None 0 None)
        else
          rules ← parse_rules (Z.to_nat num_rules) buf (data + 3) sub_tpl_id mode;
          match rules with
          | None => Ok failed
          | Some rules => Ok (mk_parsed 0 (Some rules) num_rules (Some sub_tpl_id))
          end.

(* ------------------------------------------------------------------ *)
(** ** process_sav_fields *)

(** The [sav_*] fields of [struct packet_ptrs], and the three globals that
    cache the last rules. *)
Record sav_fields := mk_sav {
  sav_rules : option (list sav_rule);
  sav_rule_count : Z;
  sav_validation_mode : Z
}.

(** [pkt] is where the record starts; the result is the fields of the packet
    and the globals. *)
Definition process_sav_fields (buf : list Z) (pkt : Z) (tpl : template) (global_last : sav_fields)
    : res (sav_fields * sav_fields) :=
  matched ← ext_db_get_ie tpl 0 SAV_IE_MATCHED_CONTENT 0;
  target ← ext_db_get_ie tpl 0 SAV_IE_TARGET_TYPE 0;
  '(matched, target) ← match matched with
                       | Some _ => Ok (matched, target)
                       | None =>
                           m ← ext_db_get_ie tpl 0 SAV_IE_MATCHED_CONTENT_ENT 0;
                           t ← ext_db_get_ie tpl 0 SAV_IE_TARGET_TYPE_ENT 0;
                           Ok (m, t)
                       end;
  match matched with
  | None => Ok (mk_sav None 0 0, global_last)
  | Some mc =>
      mode ← match target with
             | Some tg => b ← read_bytes buf (pkt + s_off (u_slot tg)) 1; Ok (byte_at b 0)
             | None => Ok 0
             end;
      let data := pkt + s_off (u_slot mc) in
      '(data, content_len) ←
        (if s_len (u_slot mc) =? 65535 then
           b ← read_bytes buf data 1;
           if byte_at b 0 =? 255 then l ← be16_at buf (data + 1); Ok (data + 3, l)
           else Ok (data + 1, byte_at b 0)
         else Ok (data, s_len (u_slot mc)));
      if (0 <? content_len) && (content_len <? 65535) then
        p ← parse_sav_sub_template_list buf data content_len mode;
        if (sp_ret p =? 0) && (0 <? sp_count p)
        then let f := mk_sav (sp_rules p) (sp_count p) mode in Ok (f, f)
        else Ok (mk_sav None 0 mode, global_last)
      else Ok (mk_sav None 0 mode, global_last)
  end.

(* ------------------------------------------------------------------ *)
(** ** Text *)

Section Text.
Context (inet_ntop6 : list Z -> list Z).

(** The address, and [snprintf] into [buf]; the result is what it returns and
    the buffer. *)
Definition rule_ip_str (r : sav_rule) (is_ipv4 : bool) : list Z :=
  if is_ipv4 then inet_ntoa (htonl (prefix_ipv4 r)) else inet_ntop6 (prefix r).

Definition sav_rule_text (r : sav_rule) (template_id : Z) : list Z :=
  cstr "interface=" ++ dec (interface_id r) ++ cstr " prefix="
    ++ rule_ip_str r ((template_id =? SAV_TPL_IPV4_IF2PREFIX) || (template_id =? SAV_TPL_IPV4_PREFIX2IF))
    ++ cstr "/" ++ dec (prefix_len r) ++ cstr " mode=" ++ dec (validation_mode r).

Definition sav_rule_to_string (r : sav_rule) (template_id : Z) (buf : list Z) (buf_len : Z)
    : res (Z * list Z) :=
  if buf_len =? 0 then Ok (-1, buf)
  else
    buf ← snprintf buf 0 buf_len (sav_rule_text r template_id);
    Ok (strlen (sav_rule_text r template_id), buf).

(** The JSON object has no template id: it tells the family from the prefix
    length and the first word. *)
Definition sav_json_prefix (r : sav_rule) : list Z :=
  rule_ip_str r ((prefix_len r <=? 32) && negb (prefix_ipv4 r =? 0)) ++ cstr "/" ++ dec (prefix_len r).

Definition sav_mode_str (mode : Z) : list Z :=
  if mode =? 0 then cstr "interface-to-prefix"
  else if mode =? 1 then cstr "prefix-to-interface"
  else if mode =? 2 then cstr "prefix-to-as"
  else if mode =? 3 then cstr "interface-to-as"
  else cstr "unknown".

(** The fields added to the object: the mode and the rules, none when there is
    nothing; [snprintf] into 128 octets cuts the prefix. *)
Definition compose_json_sav_fields (pptrs : option sav_fields) (global_last : sav_fields)
    : option (list Z * list (Z * list Z)) :=
  let pick f := match sav_rules f with
                | Some rules => if 0 <? sav_rule_count f then Some (rules, sav_validation_mode f) else None
                | None => None
                end in
  let chosen := match pptrs with
                | Some f => match pick f with Some x => Some x | None => pick global_last end
                | None => pick global_last
                end in
  match chosen with
  | Some (rules, mode) =>
      Some (sav_mode_str mode, map (fun r => (interface_id r, take 127 (sav_json_prefix r))) rules)
  | None => None
  end.

End Text.

End Sav.
