(* ===== verification/SavFacts.v ===== *)
(** * Properties of the validation rules

    Parsing reads exactly the octets of the list and is the inverse of
    encoding; the printed JSON guesses the family of a prefix, and is wrong for
    short IPv6 prefixes and for 0.0.0.0; rules stay visible to later records. *)

From S2P Require Import Prelude CBuf NfTemplate Sav.
Import CBuf NfTemplate Sav.

Module SavFacts.

Definition is_v4 (tid : Z) : bool := (tid =? SAV_TPL_IPV4_IF2PREFIX) || (tid =? SAV_TPL_IPV4_PREFIX2IF).

Lemma tid_cases tid : 901 <= tid <= 904 -> tid = 901 \/ tid = 902 \/ tid = 903 \/ tid = 904.
Proof. lia. Qed.

Lemma record_size_cases tid : record_size tid = if is_v4 tid then 9 else 21.
Proof. done. Qed.

Section Safe.
Context (buf : list Z).

Lemma read_Ok off n : 0 <= off -> 0 <= n -> off + n <= strlen buf -> exists b, read_bytes buf off n = Ok b.
Proof. intros. unfold read_bytes. rewrite !(proj2 (Z.leb_le _ _)) by lia. by eexists. Qed.

Lemma be16_Ok off : 0 <= off -> off + 2 <= strlen buf -> exists v, be16_at buf off = Ok v.
Proof. intros. unfold be16_at. destruct (read_Ok off 2) as [b Eb]; [lia.. |]. rewrite Eb. by eexists. Qed.

Lemma be32_Ok off : 0 <= off -> off + 4 <= strlen buf -> exists v, be32_at buf off = Ok v.
Proof. intros. unfold be32_at. destruct (read_Ok off 4) as [b Eb]; [lia.. |]. rewrite Eb. by eexists. Qed.

Lemma parse_sav_rule_Ok ptr tid :
  901 <= tid <= 904 -> 0 <= ptr -> ptr + record_size tid <= strlen buf ->
  exists r, parse_sav_rule buf ptr tid = Ok (record_size tid, r).
Proof.
  intros Ht Hp Hl. unfold parse_sav_rule.
  destruct (tid_cases tid Ht) as [->|[->|[->| ->]]]; cbn [Z.eqb Pos.eqb] in *;
    rewrite record_size_cases in *; cbn in Hl |- *.
  - destruct (be32_Ok ptr) as [i ->]; [lia.. |]. cbn [mbind res_bind].
    destruct (be32_Ok (ptr + 4)) as [p ->]; [lia.. |]. cbn [mbind res_bind].
    destruct (read_Ok (ptr + 8) 1) as [l ->]; [lia.. |]. by eexists.
  - destruct (be32_Ok ptr) as [i ->]; [lia.. |]. cbn [mbind res_bind].
    destruct (read_Ok (ptr + 4) 16) as [p ->]; [lia.. |]. cbn [mbind res_bind].
    destruct (read_Ok (ptr + 20) 1) as [l ->]; [lia.. |]. by eexists.
  - destruct (be32_Ok ptr) as [p ->]; [lia.. |]. cbn [mbind res_bind].
    destruct (read_Ok (ptr + 4) 1) as [l ->]; [lia.. |]. cbn [mbind res_bind].
    destruct (be32_Ok (ptr + 5)) as [i ->]; [lia.. |]. by eexists.
  - destruct (read_Ok ptr 16) as [p ->]; [lia.. |]. cbn [mbind res_bind].
    destruct (read_Ok (ptr + 16) 1) as [l ->]; [lia.. |]. cbn [mbind res_bind].
    destruct (be32_Ok (ptr + 17)) as [i ->]; [lia.. |]. by eexists.
Qed.

Lemma parse_rules_Ok n tid mode : forall ptr,
  901 <= tid <= 904 -> 0 <= ptr -> ptr + Z.of_nat n * record_size tid <= strlen buf ->
  exists rules, parse_rules n buf ptr tid mode = Ok (Some rules) /\ length rules = n.
Proof.
  intros ptr Ht. assert (Hs : 9 <= record_size tid <= 21) by (rewrite record_size_cases; destruct (is_v4 tid); lia).
  revert ptr. induction n as [|n IH]; intros ptr Hp Hl; cbn [parse_rules]; [by exists [] |].
  destruct (parse_sav_rule_Ok ptr tid Ht Hp) as [r ->]; [lia |]. cbn [mbind res_bind].
  rewrite (proj2 (Z.ltb_ge _ _)) by lia.
  destruct (IH (ptr + record_size tid)) as (rules & -> & Hlen); [lia.. |]. cbn [mbind res_bind option_map].
  eexists. split; [done |]. cbn. by rewrite Hlen.
Qed.

(** The parser on data that are all there. *)
Lemma parse_list_cases data len mode :
  0 <= data -> 0 <= len -> data + len <= strlen buf ->
  if len <? 3 then parse_sav_sub_template_list buf data len mode = Ok (mk_parsed (-1) None 0 None)
  else exists tid, be16_at buf (data + 1) = Ok tid /\
    if (901 <=? tid) && (tid <=? 904) then
      let n := (len - 3) / record_size tid in
      if n =? 0 then parse_sav_sub_template_list buf data len mode = Ok (mk_parsed 0 None 0 None)
      else exists rules, parse_sav_sub_template_list buf data len mode = Ok (mk_parsed 0 (Some rules) n (Some tid)) /\
        parse_rules (Z.to_nat n) buf (data + 3) tid mode = Ok (Some rules) /\ Z.of_nat (length rules) = n
    else parse_sav_sub_template_list buf data len mode = Ok (mk_parsed (-1) None 0 None).
Proof.
  intros Hd Hlen Hl. unfold parse_sav_sub_template_list.
  destruct (Z.ltb_spec len 3) as [H3|H3].
  - destruct (Z.ltb_spec len 1); [done |]. destruct (read_Ok data 1) as [b ->]; [lia.. |]. cbn [mbind res_bind].
    by rewrite (proj2 (Z.ltb_lt _ _)) by lia.
  - destruct (be16_Ok (data + 1)) as [tid Et]; [lia.. |]. exists tid. split; [done |].
    rewrite (proj2 (Z.ltb_ge len 1)) by lia. destruct (read_Ok data 1) as [b ->]; [lia.. |]. cbn [mbind res_bind].
    rewrite (proj2 (Z.ltb_ge _ _)) by lia. rewrite Et. cbn [mbind res_bind].
    unfold SAV_TPL_IPV4_IF2PREFIX, SAV_TPL_IPV6_PREFIX2IF.
    destruct (Z.ltb_spec tid 901), (Z.ltb_spec 904 tid), (Z.leb_spec 901 tid), (Z.leb_spec tid 904); try lia; try done.
    cbn [orb andb]. assert (Hs : 9 <= record_size tid <= 21) by (rewrite record_size_cases; destruct (is_v4 tid); lia).
    set (n := (len - 3) / record_size tid).
    assert (Hn : 0 <= n) by (apply Z.div_pos; lia).
    destruct (Z.eqb_spec n 0) as [E|E].
    + cbn zeta. fold n. by rewrite (proj2 (Z.leb_le _ _)) by lia.
    + cbn zeta. fold n. rewrite (proj2 (Z.leb_gt _ _)) by lia.
      assert (n * record_size tid <= len - 3) by (unfold n; rewrite Z.mul_comm; apply Z.mul_div_le; lia).
      destruct (parse_rules_Ok (Z.to_nat n) tid mode (data + 3)) as (rules & Er & Hlr); [lia.. |].
      rewrite Er. cbn [mbind res_bind]. exists rules. split_and!; [done.. | lia].
Qed.

End Safe.

(* ------------------------------------------------------------------ *)
(** ** Encoding *)

(** A rule that a record of the sub-template can carry. *)
Definition rule_ok (tid : Z) (r : sav_rule) : Prop :=
  is_u32 (interface_id r) /\ is_u8 (prefix_len r) /\
  if is_v4 tid then exists v, is_u32 v /\ prefix r = union_ipv4 v else length (prefix r) = 16%nat /\ bytes_ok (prefix r).

(** The record of a rule, as the draft lays it out. *)
Definition encode_prefix (tid : Z) (r : sav_rule) : list Z :=
  if is_v4 tid then htonl (prefix_ipv4 r) else prefix r.
Definition encode_rule (tid : Z) (r : sav_rule) : list Z :=
  if (tid =? SAV_TPL_IPV4_IF2PREFIX) || (tid =? SAV_TPL_IPV6_IF2PREFIX)
  then htonl (interface_id r) ++ encode_prefix tid r ++ [prefix_len r]
  else encode_prefix tid r ++ [prefix_len r] ++ htonl (interface_id r).

Definition with_mode (mode : Z) (r : sav_rule) : sav_rule :=
  mk_rule (interface_id r) (prefix r) (prefix_len r) mode.

Lemma le32_value v : is_u32 v ->
  v mod 256 + 256 * (v / 256 mod 256) + 65536 * (v / 65536 mod 256) + 16777216 * (v / 16777216 mod 256) = v.
Proof.
  unfold in_u. intros Hv.
  replace (v / 65536) with (v / 256 / 256) by (by rewrite Z.div_div).
  replace (v / 16777216) with (v / 256 / 256 / 256) by (by rewrite !Z.div_div).
  assert (Hq : 0 <= v / 256 < 16777216) by (split; [apply Z.div_pos; lia | apply Z.div_lt_upper_bound; lia]).
  pose proof (Z.div_mod v 256 ltac:(done)) as E. revert Hq E. generalize (v / 256). intros q Hq E.
  rewrite (Z.mod_small (q / 256 / 256)).
  - pose proof (Z.div_mod q 256). pose proof (Z.div_mod (q / 256) 256). lia.
  - rewrite Z.div_div by lia. split; [apply Z.div_pos; lia | apply Z.div_lt_upper_bound; lia].
Qed.

Lemma union_ipv4_value i v l m : is_u32 v -> prefix_ipv4 (mk_rule i (union_ipv4 v) l m) = v.
Proof. intros Hv. unfold prefix_ipv4. cbn. by apply le32_value. Qed.

Lemma encode_rule_length tid r : 901 <= tid <= 904 -> rule_ok tid r -> strlen (encode_rule tid r) = record_size tid.
Proof.
  intros Ht (_ & _ & Hp). rewrite record_size_cases. unfold encode_rule, encode_prefix.
  destruct (tid_cases tid Ht) as [->|[->|[->| ->]]]; cbn in Hp |- *; try done.
  - rewrite !strlen_cons, strlen_app. unfold strlen. destruct Hp as [-> _]. done.
  - rewrite !strlen_app. unfold strlen at 1. destruct Hp as [-> _]. done.
Qed.

Lemma read_mid pre x post n : n = strlen x -> read_bytes (pre ++ x ++ post) (strlen pre) n = Ok x.
Proof.
  intros ->. unfold read_bytes. rewrite !strlen_app.
  pose proof (strlen_nonneg pre). pose proof (strlen_nonneg x). pose proof (strlen_nonneg post).
  rewrite !(proj2 (Z.leb_le _ _)) by lia. cbn [andb]. unfold strlen. rewrite !Nat2Z.id.
  by rewrite drop_app_length, take_app_length.
Qed.

Lemma be32_mid pre v post : is_u32 v -> be32_at (pre ++ htonl v ++ post) (strlen pre) = Ok v.
Proof.
  intros Hv. unfold be32_at. rewrite read_mid by done. cbn [mbind res_bind]. by rewrite ntohl_htonl.
Qed.

Lemma byte_mid pre b post : read_bytes (pre ++ [b] ++ post) (strlen pre) 1 = Ok [b].
Proof. by apply read_mid. Qed.

Lemma be32_in buf off pre v post :
  is_u32 v -> buf = pre ++ htonl v ++ post -> off = strlen pre -> be32_at buf off = Ok v.
Proof. intros Hv -> ->. by apply be32_mid. Qed.

Lemma read_in buf off n pre x post :
  buf = pre ++ x ++ post -> off = strlen pre -> n = strlen x -> read_bytes buf off n = Ok x.
Proof. intros -> -> ->. by apply read_mid. Qed.

Ltac mid := rewrite <- ?app_assoc; cbn [app]; reflexivity.
Ltac off H := rewrite ?strlen_app; unfold strlen; cbn [length htonl]; lia.

Lemma parse_encode pre r post tid :
  901 <= tid <= 904 -> rule_ok tid r ->
  parse_sav_rule (pre ++ encode_rule tid r ++ post) (strlen pre) tid =
    Ok (record_size tid, with_mode 0 r).
Proof.
  intros Ht (Hi & Hl & Hp). rewrite record_size_cases. unfold parse_sav_rule, encode_rule, encode_prefix, with_mode.
  destruct (tid_cases tid Ht) as [->|[->|[->| ->]]]; cbn [Z.eqb Pos.eqb is_v4 orb SAV_TPL_IPV4_IF2PREFIX
    SAV_TPL_IPV6_IF2PREFIX SAV_TPL_IPV4_PREFIX2IF SAV_TPL_IPV6_PREFIX2IF] in Hp |- *; destruct r as [i p l m];
    cbn [interface_id prefix prefix_len validation_mode] in *.
  - destruct Hp as (v & Hv & ->). rewrite union_ipv4_value by done.
    rewrite (be32_in _ (strlen pre) pre i (htonl v ++ [l] ++ post)) by (done || mid). cbn [mbind res_bind].
    rewrite (be32_in _ (strlen pre + 4) (pre ++ htonl i) v ([l] ++ post)) by (done || mid || off Hv). cbn [mbind res_bind].
    rewrite (read_in _ (strlen pre + 8) _ (pre ++ htonl i ++ htonl v) [l] post) by (done || mid || off Hv). done.
  - destruct Hp as [Hp _].
    rewrite (be32_in _ (strlen pre) pre i (p ++ [l] ++ post)) by (done || mid). cbn [mbind res_bind].
    rewrite (read_in _ (strlen pre + 4) _ (pre ++ htonl i) p ([l] ++ post)) by (done || mid || off Hp). cbn [mbind res_bind].
    rewrite (read_in _ (strlen pre + 20) _ (pre ++ htonl i ++ p) [l] post) by (done || mid || off Hp). done.
  - destruct Hp as (v & Hv & ->). rewrite union_ipv4_value by done.
    rewrite (be32_in _ (strlen pre) pre v ([l] ++ htonl i ++ post)) by (done || mid). cbn [mbind res_bind].
    rewrite (read_in _ (strlen pre + 4) _ (pre ++ htonl v) [l] (htonl i ++ post)) by (done || mid || off Hv). cbn [mbind res_bind].
    rewrite (be32_in _ (strlen pre + 5) (pre ++ htonl v ++ [l]) i post) by (done || mid || off Hv). done.
  - destruct Hp as [Hp _].
    rewrite (read_in _ (strlen pre) _ pre p ([l] ++ htonl i ++ post)) by (done || mid || off Hp). cbn [mbind res_bind].
    rewrite (read_in _ (strlen pre + 16) _ (pre ++ p) [l] (htonl i ++ post)) by (done || mid || off Hp). cbn [mbind res_bind].
    rewrite (be32_in _ (strlen pre + 17) (pre ++ p ++ [l]) i post) by (done || mid || off Hp). done.
Qed.

Lemma parse_rules_encode tid mode : 901 <= tid <= 904 -> forall rs pre post,
  Forall (rule_ok tid) rs ->
  parse_rules (length rs) (pre ++ concat (map (encode_rule tid) rs) ++ post) (strlen pre) tid mode =
    Ok (Some (map (with_mode mode) rs)).
Proof.
  intros Ht rs. induction rs as [|r rs IH]; intros pre post Hrs; [done |].
  apply Forall_cons_1 in Hrs as [Hr Hrs]. cbn [length parse_rules map concat].
  rewrite <- app_assoc, parse_encode by done. cbn [mbind res_bind].
  assert (Hs : 9 <= record_size tid <= 21) by (rewrite record_size_cases; destruct (is_v4 tid); lia).
  rewrite (proj2 (Z.ltb_ge _ _)) by lia. specialize (IH (pre ++ encode_rule tid r) post Hrs).
  rewrite strlen_app, encode_rule_length, <- app_assoc in IH by done. rewrite IH. done.
Qed.

(** Every record of the right size encodes one rule. *)
Lemma encode_surj tid x : 901 <= tid <= 904 -> bytes_ok x -> strlen x = record_size tid ->
  exists r, rule_ok tid r /\ encode_rule tid r = x.
Proof.
  intros Ht Hb Hl. rewrite record_size_cases in Hl.
  assert (Hd : forall l, bytes_ok l -> length l = 4%nat -> is_u32 (ntohl l) /\ htonl (ntohl l) = l).
  { intros l Hbl Hll. split; [by apply ntohl_range | by apply htonl_ntohl]. }
  unfold bytes_ok in *. destruct (tid_cases tid Ht) as [->|[->|[->| ->]]]; cbn in Hl; apply (f_equal Z.to_nat) in Hl;
    unfold strlen in Hl; rewrite Nat2Z.id in Hl; cbn in Hl.
  - do 9 (destruct x as [|? x]; [done |]). destruct x; [| done]. decompose_Forall_hyps.
    eexists (mk_rule (ntohl [_; _; _; _]) (union_ipv4 (ntohl [_; _; _; _])) _ 0).
    edestruct (Hd [z; z0; z1; z2]) as [Hu1 E1]; [by forall_list | done |].
    edestruct (Hd [z3; z4; z5; z6]) as [Hu2 E2]; [by forall_list | done |].
    split; [split_and!; [exact Hu1 | eassumption | eexists; split; [exact Hu2 | done]] |].
    unfold encode_rule, encode_prefix. cbn [Z.eqb Pos.eqb is_v4 orb SAV_TPL_IPV4_IF2PREFIX interface_id].
    rewrite union_ipv4_value, E1, E2 by done. done.
  - do 21 (destruct x as [|? x]; [done |]). destruct x; [| done]. decompose_Forall_hyps.
    edestruct (Hd [z; z0; z1; z2]) as [Hu1 E1]; [by forall_list | done |].
    exists (mk_rule (ntohl [z; z0; z1; z2]) [z3; z4; z5; z6; z7; z8; z9; z10; z11; z12; z13; z14; z15; z16; z17; z18] z19 0).
    split; [split_and!; [exact Hu1 | done | split; [done | by forall_list]] |].
    unfold encode_rule. cbn [interface_id]. by rewrite E1.
  - do 9 (destruct x as [|? x]; [done |]). destruct x; [| done]. decompose_Forall_hyps.
    edestruct (Hd [z; z0; z1; z2]) as [Hu1 E1]; [by forall_list | done |].
    edestruct (Hd [z4; z5; z6; z7]) as [Hu2 E2]; [by forall_list | done |].
    exists (mk_rule (ntohl [z4; z5; z6; z7]) (union_ipv4 (ntohl [z; z0; z1; z2])) z3 0).
    split; [split_and!; [exact Hu2 | done | eexists; split; [exact Hu1 | done]] |].
    unfold encode_rule, encode_prefix. cbn [Z.eqb Pos.eqb is_v4 orb SAV_TPL_IPV4_IF2PREFIX
      SAV_TPL_IPV6_IF2PREFIX SAV_TPL_IPV4_PREFIX2IF interface_id prefix_len].
    rewrite union_ipv4_value, E1, E2 by done. done.
  - do 21 (destruct x as [|? x]; [done |]). destruct x; [| done]. decompose_Forall_hyps.
    edestruct (Hd [z16; z17; z18; z19]) as [Hu1 E1]; [by forall_list | done |].
    exists (mk_rule (ntohl [z16; z17; z18; z19]) [z; z0; z1; z2; z3; z4; z5; z6; z7; z8; z9; z10; z11; z12; z13; z14] z15 0).
    split; [split_and!; [exact Hu1 | done | split; [done | by forall_list]] |].
    unfold encode_rule, encode_prefix. cbn [Z.eqb Pos.eqb is_v4 orb SAV_TPL_IPV4_IF2PREFIX
      SAV_TPL_IPV6_IF2PREFIX SAV_TPL_IPV4_PREFIX2IF interface_id prefix_len prefix]. by rewrite E1.
Qed.

Lemma encode_rules_surj tid : 901 <= tid <= 904 -> forall n x, bytes_ok x -> strlen x = Z.of_nat n * record_size tid ->
  exists rs, length rs = n /\ Forall (rule_ok tid) rs /\ concat (map (encode_rule tid) rs) = x.
Proof.
  intros Ht. assert (Hs : 9 <= record_size tid <= 21) by (rewrite record_size_cases; destruct (is_v4 tid); lia).
  induction n as [|n IH]; intros x Hb Hl.
  - exists []. split_and!; [done | constructor |]. unfold strlen in Hl. by destruct x.
  - set (k := Z.to_nat (record_size tid)). unfold strlen in Hl.
    destruct (encode_surj tid (take k x)) as (r & Hr & Er); [done | by apply Forall_take | |].
    { unfold strlen. rewrite length_take. unfold k. lia. }
    destruct (IH (drop k x)) as (rs & Hlr & Hrs & Ers); [by apply Forall_drop | |].
    { unfold strlen. rewrite length_drop. unfold k. lia. }
    exists (r :: rs). split_and!; [cbn; lia | by constructor |]. cbn [map concat].
    by rewrite Er, Ers, take_drop.
Qed.

(** A stretch of a buffer, and what is before and after it. *)
Lemma buf_split (buf : list Z) off n : 0 <= off -> 0 <= n -> off + n <= strlen buf ->
  exists pre x post, buf = pre ++ x ++ post /\ strlen pre = off /\ strlen x = n /\ read_bytes buf off n = Ok x.
Proof.
  intros Ho Hn Hl. exists (take (Z.to_nat off) buf), (take (Z.to_nat n) (drop (Z.to_nat off) buf)),
    (drop (Z.to_nat n) (drop (Z.to_nat off) buf)).
  unfold strlen in *. split_and!; [by rewrite !take_drop | rewrite length_take; lia |
    rewrite length_take, length_drop; lia |].
  unfold read_bytes, strlen. by rewrite !(proj2 (Z.leb_le _ _)) by lia.
Qed.

Lemma strlen_concat tid rs : 901 <= tid <= 904 -> Forall (rule_ok tid) rs ->
  strlen (concat (map (encode_rule tid) rs)) = Z.of_nat (length rs) * record_size tid.
Proof.
  intros Ht Hrs. induction Hrs as [|r rs Hr Hrs IH]; [done |]. cbn [map concat length].
  rewrite strlen_app, IH, encode_rule_length by done. lia.
Qed.

(** The parser on an encoded list. *)
Lemma parse_encoded pre post sem tid rs pad mode :
  901 <= tid <= 904 -> Forall (rule_ok tid) rs -> rs <> [] -> strlen pad < record_size tid ->
  parse_sav_sub_template_list
    (pre ++ (sem :: tid / 256 :: tid mod 256 :: concat (map (encode_rule tid) rs) ++ pad) ++ post) (strlen pre)
    (3 + strlen (concat (map (encode_rule tid) rs)) + strlen pad) mode =
  Ok (mk_parsed 0 (Some (map (with_mode mode) rs)) (Z.of_nat (length rs)) (Some tid)).
Proof.
  intros Ht Hrs Hne Hpad. set (x := concat _). pose proof (strlen_concat tid rs Ht Hrs) as Hx. fold x in Hx.
  set (buf := pre ++ _).
  assert (Hs : 9 <= record_size tid <= 21) by (rewrite record_size_cases; destruct (is_v4 tid); lia).
  assert (Hn : 0 < Z.of_nat (length rs)) by (destruct rs; [done | cbn; lia]).
  pose proof (strlen_nonneg pad). pose proof (strlen_nonneg pre). pose proof (strlen_nonneg post).
  assert (Hlb : strlen buf = strlen pre + 3 + strlen x + strlen pad + strlen post)
    by (unfold buf; rewrite strlen_app; cbn [app]; rewrite !strlen_cons, !strlen_app; lia).
  assert (Et : be16_at buf (strlen pre + 1) = Ok tid).
  { unfold be16_at. rewrite (read_in _ _ _ (pre ++ [sem]) [tid / 256; tid mod 256] (x ++ pad ++ post)).
    - change (Ok (tid / 256 * 256 + tid mod 256) = Ok tid). f_equal. pose proof (Z.div_mod tid 256 ltac:(done)). lia.
    - unfold buf. rewrite <- !app_assoc. cbn [app]. by rewrite <- app_assoc.
    - rewrite strlen_app. done.
    - done. }
  pose proof (parse_list_cases buf (strlen pre) (3 + strlen x + strlen pad) mode ltac:(lia) ltac:(lia) ltac:(lia)) as H2.
  rewrite (proj2 (Z.ltb_ge _ _)) in H2 by lia. destruct H2 as (tid' & Et' & H2).
  assert (tid' = tid) as -> by congruence. rewrite !(proj2 (Z.leb_le _ _)) in H2 by lia. cbn [andb] in H2. cbn zeta in H2.
  replace ((3 + strlen x + strlen pad - 3) / record_size tid) with (Z.of_nat (length rs)) in H2
    by (apply (Z.div_unique _ _ _ (strlen pad)); lia).
  rewrite (proj2 (Z.eqb_neq _ 0)) in H2 by lia. destruct H2 as (rules & -> & Hr & _). rewrite Nat2Z.id in Hr.
  assert (Eb : buf = (pre ++ [sem; tid / 256; tid mod 256]) ++ x ++ pad ++ post)
    by (unfold buf; rewrite <- !app_assoc; cbn [app]; by rewrite <- app_assoc).
  replace (strlen pre + 3) with (strlen (pre ++ [sem; tid / 256; tid mod 256])) in Hr by (rewrite strlen_app; done).
  rewrite Eb in Hr. unfold x in Hr. rewrite parse_rules_encode in Hr by done. congruence.
Qed.

(** The family the JSON object guesses is the right one. *)
Definition family_guessed (tid : Z) (r : sav_rule) : Prop :=
  (prefix_len r <=? 32) && negb (prefix_ipv4 r =? 0) = is_v4 tid.

(** The prefix as it ought to be printed. *)
Definition rule_prefix_text (inet_ntop6 : list Z -> list Z) (tid : Z) (r : sav_rule) : list Z :=
  rule_ip_str inet_ntop6 r (is_v4 tid) ++ cstr "/" ++ dec (prefix_len r).

Lemma json_prefix_guessed ntop6 tid mode r : family_guessed tid r ->
  sav_json_prefix ntop6 (with_mode mode r) = rule_prefix_text ntop6 tid r.
Proof. unfold family_guessed, sav_json_prefix, rule_prefix_text. by intros <-. Qed.

Lemma le_octets b0 b1 b2 b3 : is_u8 b0 -> is_u8 b1 -> is_u8 b2 -> is_u8 b3 ->
  htonl (b0 + 256 * b1 + 65536 * b2 + 16777216 * b3) = [b3; b2; b1; b0].
Proof.
  unfold in_u, htonl. change (2 ^ 24) with 16777216. change (2 ^ 16) with 65536. change (2 ^ 8) with 256. intros.
  repeat f_equal; Z.div_mod_to_equations; lia.
Qed.

(* ------------------------------------------------------------------ *)
(** ** Theorems *)

(** On data inside the buffer the parser of subTemplateLists stays inside
    them and always answers.  It rejects a list of less than three octets and
    an id that is none of the four sub-templates.  Otherwise it returns one
    rule, well formed for the sub-template, for each whole record, and encoding
    the rules again gives the octets they were read from. *)
Theorem parse_sav_sub_template_list_spec buf data len mode :
  bytes_ok buf -> 0 <= data -> 0 <= len -> data + len <= strlen buf ->
  exists p, parse_sav_sub_template_list buf data len mode = Ok p /\
    (sp_ret p = -1 /\ sp_rules p = None /\ sp_count p = 0 /\
       (len < 3 \/ exists tid, be16_at buf (data + 1) = Ok tid /\ ~ 901 <= tid <= 904) \/
     sp_ret p = 0 /\ 3 <= len /\ exists tid rs, be16_at buf (data + 1) = Ok tid /\ 901 <= tid <= 904 /\
       sp_count p = (len - 3) / record_size tid /\ Z.of_nat (length rs) = sp_count p /\
       Forall (rule_ok tid) rs /\
       sp_rules p = (if sp_count p =? 0 then None else Some (map (with_mode mode) rs)) /\
       read_bytes buf (data + 3) (sp_count p * record_size tid) = Ok (concat (map (encode_rule tid) rs))).
Proof.
  intros Hb Hd Hlen Hl. pose proof (parse_list_cases buf data len mode Hd Hlen Hl) as H.
  destruct (Z.ltb_spec len 3) as [H3|H3].
  { eexists. split; [exact H |]. left. split_and!; try done. by left. }
  destruct H as (tid & Et & H). destruct ((901 <=? tid) && (tid <=? 904)) eqn:Er.
  2: { eexists. split; [exact H |]. left. split_and!; try done. right. exists tid. split; [done | lia]. }
  assert (Ht : 901 <= tid <= 904) by lia.
  assert (Hs : 9 <= record_size tid <= 21) by (rewrite record_size_cases; destruct (is_v4 tid); lia).
  set (n := (len - 3) / record_size tid) in *. cbn zeta in H.
  assert (Hn : 0 <= n) by (apply Z.div_pos; lia).
  assert (n * record_size tid <= len - 3) by (unfold n; rewrite Z.mul_comm; apply Z.mul_div_le; lia).
  destruct (buf_split buf (data + 3) (n * record_size tid)) as (pre & x & post & -> & Hpre & Hx & Hr); [lia.. |].
  unfold bytes_ok in Hb. rewrite !Forall_app in Hb.
  destruct (encode_rules_surj tid Ht (Z.to_nat n) x) as (rs & Hlr & Hrs & Ers); [apply Hb | lia |].
  destruct (Z.eqb_spec n 0) as [E|E].
  - eexists. split; [exact H |]. right. split; [done |]. split; [done |]. exists tid, rs. cbn [sp_count sp_rules].
    rewrite E in Hlr, Hr. subst x. split_and!; try done; lia.
  - destruct H as (rules & H & Hrules & _). eexists. split; [exact H |]. right. split; [done |]. split; [done |].
    exists tid, rs. cbn [sp_count sp_rules]. rewrite (proj2 (Z.eqb_neq n 0) E). subst x.
    split_and!; try done; try lia. rewrite <- Hpre, <- Hlr, parse_rules_encode in Hrules by done. congruence.
Qed.

(** Reading a subTemplateList that was written from well-formed rules of
    one of the four sub-templates gives these rules back, with the validation
    mode of the record, whatever octets of padding (less than a record) and of
    other fields follow. *)
Theorem parse_sav_round_trip pre post sem tid rs pad mode :
  901 <= tid <= 904 -> Forall (rule_ok tid) rs -> rs <> [] -> strlen pad < record_size tid ->
  parse_sav_sub_template_list
    (pre ++ (sem :: tid / 256 :: tid mod 256 :: concat (map (encode_rule tid) rs) ++ pad) ++ post) (strlen pre)
    (3 + strlen (concat (map (encode_rule tid) rs)) + strlen pad) mode =
  Ok (mk_parsed 0 (Some (map (with_mode mode) rs)) (Z.of_nat (length rs)) (Some tid)).
Proof. apply parse_encoded. Qed.

(** A record that carries a list of rules comes out as JSON whole: for a
    template with the two SAV fields inside the record, [process_sav_fields]
    stores exactly the rules of the list and the mode octet, and the JSON
    object names the mode and each rule's interface and prefix, in order, when
    every prefix is of the kind its family is guessed from. *)
Theorem sav_record_json inet_ntop6 buf pkt tpl g mc tg pre post sem tid rs pad mode :
  ext_db_get_ie tpl 0 SAV_IE_MATCHED_CONTENT 0 = Ok (Some mc) ->
  ext_db_get_ie tpl 0 SAV_IE_TARGET_TYPE 0 = Ok (Some tg) ->
  read_bytes buf (pkt + s_off (u_slot tg)) 1 = Ok [mode] ->
  buf = pre ++ (sem :: tid / 256 :: tid mod 256 :: concat (map (encode_rule tid) rs) ++ pad) ++ post ->
  strlen pre = pkt + s_off (u_slot mc) ->
  s_len (u_slot mc) = 3 + strlen (concat (map (encode_rule tid) rs)) + strlen pad -> s_len (u_slot mc) < 65535 ->
  901 <= tid <= 904 -> Forall (rule_ok tid) rs -> rs <> [] -> strlen pad < record_size tid ->
  Forall (family_guessed tid) rs ->
  exists f, process_sav_fields buf pkt tpl g = Ok (f, f) /\ sav_validation_mode f = mode /\
    sav_rules f = Some (map (with_mode mode) rs) /\
    compose_json_sav_fields inet_ntop6 (Some f) f =
      Some (sav_mode_str mode, map (fun r => (interface_id r, take 127 (rule_prefix_text inet_ntop6 tid r))) rs).
Proof.
  intros Emc Etg Emode Hbuf Hpre Hlen Hmax Ht Hrs Hne Hpad Hfam.
  exists (mk_sav (Some (map (with_mode mode) rs)) (Z.of_nat (length rs)) mode).
  assert (Hn : 0 < Z.of_nat (length rs)) by (destruct rs; [done | cbn; lia]).
  split_and!; [| done | done |].
  - unfold process_sav_fields. rewrite Emc, Etg. cbn [mbind res_bind]. rewrite Emode. cbn [mbind res_bind].
    change (byte_at [mode] 0) with mode. rewrite (proj2 (Z.eqb_neq _ _)) by lia. cbn [mbind res_bind].
    pose proof (strlen_nonneg (concat (map (encode_rule tid) rs))). pose proof (strlen_nonneg pad).
    rewrite !(proj2 (Z.ltb_lt _ _)) by lia. cbn [andb]. rewrite <- Hpre, Hlen, Hbuf, parse_encoded by done.
    cbn [mbind res_bind sp_ret sp_count sp_rules]. by rewrite (proj2 (Z.ltb_lt _ _)) by lia.
  - unfold compose_json_sav_fields. cbn [sav_rules sav_rule_count sav_validation_mode].
    rewrite (proj2 (Z.ltb_lt _ _)) by lia. do 2 f_equal. rewrite map_map. apply map_ext_Forall.
    eapply Forall_impl; [exact Hfam |]. intros r Hr. cbn. by rewrite (json_prefix_guessed _ tid).
Qed.

(** The family printed for a prefix is not the family it has: an IPv6
    prefix of at most 32 bits whose first word is not zero comes out as an IPv4
    address, its first four octets backwards, although the rule's own text
    has the IPv6 address. *)
Theorem sav_json_prefix_wrong_family inet_ntop6 tid r b0 b1 b2 b3 rest :
  is_v4 tid = false -> rule_ok tid r -> prefix r = b0 :: b1 :: b2 :: b3 :: rest ->
  prefix_len r <= 32 -> [b0; b1; b2; b3] <> [0; 0; 0; 0] ->
  sav_json_prefix inet_ntop6 r = inet_ntoa [b3; b2; b1; b0] ++ cstr "/" ++ dec (prefix_len r) /\
  rule_prefix_text inet_ntop6 tid r = inet_ntop6 (prefix r) ++ cstr "/" ++ dec (prefix_len r).
Proof.
  intros Hv Hr Hp Hl Hz. destruct Hr as (_ & _ & Hok). rewrite Hv in Hok. destruct Hok as [_ Hb].
  rewrite Hp in Hb. unfold bytes_ok in Hb.
  apply Forall_cons_1 in Hb as [H0 Hb]. apply Forall_cons_1 in Hb as [H1 Hb].
  apply Forall_cons_1 in Hb as [H2 Hb]. apply Forall_cons_1 in Hb as [H3 _].
  assert (E : prefix_ipv4 r = b0 + 256 * b1 + 65536 * b2 + 16777216 * b3) by (unfold prefix_ipv4; rewrite Hp; done).
  assert (Hne : prefix_ipv4 r <> 0).
  { rewrite E. intros ?. apply Hz. unfold in_u in *. repeat f_equal; lia. }
  unfold sav_json_prefix, rule_prefix_text, rule_ip_str. rewrite Hv.
  rewrite (proj2 (Z.leb_le _ _)), (proj2 (Z.eqb_neq _ _)) by done. cbn [andb negb].
  by rewrite E, le_octets.
Qed.

(** The rules of a record outlive it: a later record whose template has
    none of the SAV fields gets no rules of its own and leaves the globals
    alone, and its JSON object lists the rules of the earlier record. *)
Theorem sav_stale_rules inet_ntop6 buf pkt tpl last rules :
  ext_db_get_ie tpl 0 SAV_IE_MATCHED_CONTENT 0 = Ok None ->
  ext_db_get_ie tpl 0 SAV_IE_MATCHED_CONTENT_ENT 0 = Ok None ->
  (exists tg, ext_db_get_ie tpl 0 SAV_IE_TARGET_TYPE 0 = Ok tg) ->
  (exists tg, ext_db_get_ie tpl 0 SAV_IE_TARGET_TYPE_ENT 0 = Ok tg) ->
  sav_rules last = Some rules -> 0 < sav_rule_count last ->
  exists f, process_sav_fields buf pkt tpl last = Ok (f, last) /\ sav_rules f = None /\
    compose_json_sav_fields inet_ntop6 (Some f) last = compose_json_sav_fields inet_ntop6 (Some last) last /\
    compose_json_sav_fields inet_ntop6 (Some f) last =
      Some (sav_mode_str (sav_validation_mode last),
            map (fun r => (interface_id r, take 127 (sav_json_prefix inet_ntop6 r))) rules).
Proof.
  intros E1 E2 [tg1 E3] [tg2 E4] Hr Hc. exists (mk_sav None 0 0).
  unfold process_sav_fields. rewrite E1, E3, E2, E4. cbn [mbind res_bind]. split_and!; [done | done | |];
    unfold compose_json_sav_fields; cbn [sav_rules]; rewrite Hr, (proj2 (Z.ltb_lt _ _)) by done; done.
Qed.

(* ------------------------------------------------------------------ *)
(** ** Witnesses *)

(** A record with the mode and a list of one IPv4 rule, interface 7 and
    192.0.2.0/24; its template as [resolve_vlen_template] leaves it. *)
Definition ex_rule : sav_rule := mk_rule 7 (union_ipv4 0xc0000200) 24 0.
Definition ex_sav_record : list Z := [1; 12; 3; 3; 133; 0; 0; 0; 7; 192; 0; 2; 0; 24].
Definition ex_sav_tpl : template :=
  match compose_template [1; 144; 0; 2; 117; 50; 0; 1; 117; 51; 255; 255] [] 0 10 12 with
  | Ok (Some t, _) => match resolve_vlen_template ex_sav_record 14 t with Ok (_, t) => t | _ => t end
  | _ => template0 [] 0 0 [] 0 0
  end.
Definition ex_plain_tpl : template :=
  match compose_template [1; 0; 0; 1; 0; 8; 0; 4] [] 0 10 8 with
  | Ok (Some t, _) => t
  | _ => template0 [] 0 0 [] 0 0
  end.
(** What stands for [inet_ntop] in the examples: nothing but a mark. *)
Definition ex_ntop6 (b : list Z) : list Z := cstr "::".

Lemma ex_rule_ok : rule_ok 901 ex_rule.
Proof.
  split; [unfold in_u; cbn; lia |]. split; [unfold in_u; cbn; lia |]. exists 0xc0000200. by split; [unfold in_u; lia |].
Qed.

Lemma ex_record_bytes : bytes_ok ex_sav_record.
Proof. apply Forall_forall. intros x Hx. unfold ex_sav_record in Hx. set_unfold in Hx. unfold in_u. lia. Qed.

Lemma parse_sav_sub_template_list_spec_witness :
  exists p, parse_sav_sub_template_list ex_sav_record 2 12 1 = Ok p /\ sp_ret p = 0.
Proof.
  destruct (parse_sav_sub_template_list_spec ex_sav_record 2 12 1) as (p & E & H).
  - exact ex_record_bytes.
  - lia.
  - lia.
  - vm_compute. discriminate.
  - exists p. split; [exact E |]. destruct H as [(_ & _ & _ & [H|(tid & Et & H)])|(H & _)]; [lia | | exact H].
    vm_compute in Et. injection Et as <-. lia.
Defined.

Lemma parse_sav_round_trip_witness :
  parse_sav_sub_template_list ex_sav_record 2 12 1 = Ok (mk_parsed 0 (Some [with_mode 1 ex_rule]) 1 (Some 901)).
Proof.
  refine (parse_sav_round_trip [1; 12] [] 3 901 [ex_rule] [] 1 _ _ _ _).
  - lia.
  - forall_list. exact ex_rule_ok.
  - discriminate.
  - vm_compute. reflexivity.
Defined.

Lemma sav_record_json_witness :
  exists f, process_sav_fields ex_sav_record 0 ex_sav_tpl (mk_sav None 0 0) = Ok (f, f) /\
    compose_json_sav_fields ex_ntop6 (Some f) f =
      Some (cstr "prefix-to-interface", [(7, cstr "192.0.2.0/24")]).
Proof.
  destruct (sav_record_json ex_ntop6 ex_sav_record 0 ex_sav_tpl (mk_sav None 0 0)
    (mk_utpl 0 30003 (mk_slot 2 12 65535) 0) (mk_utpl 0 30002 (mk_slot 0 1 1) 0) [1; 12] [] 3 901 [ex_rule] [] 1)
    as (f & E & _ & _ & Ej).
  - vm_compute. reflexivity.
  - vm_compute. reflexivity.
  - vm_compute. reflexivity.
  - vm_compute. reflexivity.
  - vm_compute. reflexivity.
  - vm_compute. reflexivity.
  - vm_compute. reflexivity.
  - lia.
  - forall_list. exact ex_rule_ok.
  - discriminate.
  - vm_compute. reflexivity.
  - forall_list. vm_compute. reflexivity.
  - exists f. split; [exact E |]. rewrite Ej. vm_compute. reflexivity.
Defined.

(** 2001:db8::/32 of interface 1. *)
Definition ex_rule6 : sav_rule := mk_rule 1 ([32; 1; 13; 184] ++ replicate 12 0) 32 0.

Lemma ex6_ok : rule_ok 902 ex_rule6.
Proof.
  split; [unfold in_u; cbn; lia |]. split; [unfold in_u; cbn; lia |]. split; [done |].
  cbn. forall_list; unfold in_u; lia.
Qed.

(** 2001:db8::/32 is printed as 184.13.1.32/32. *)
Lemma sav_json_prefix_wrong_family_witness :
  sav_json_prefix ex_ntop6 ex_rule6 = cstr "184.13.1.32/32".
Proof.
  rewrite (proj1 (sav_json_prefix_wrong_family ex_ntop6 902 ex_rule6
    32 1 13 184 (replicate 12 0) eq_refl
    ex6_ok eq_refl ltac:(vm_compute; discriminate) ltac:(discriminate))).
  vm_compute. reflexivity.
Defined.

Lemma sav_stale_rules_witness :
  exists f, process_sav_fields [192; 0; 2; 1] 0 ex_plain_tpl (mk_sav (Some [ex_rule]) 1 0) =
      Ok (f, mk_sav (Some [ex_rule]) 1 0) /\
    compose_json_sav_fields ex_ntop6 (Some f) (mk_sav (Some [ex_rule]) 1 0) =
      Some (cstr "interface-to-prefix", [(7, cstr "192.0.2.0/24")]).
Proof.
  destruct (sav_stale_rules ex_ntop6 [192; 0; 2; 1] 0 ex_plain_tpl (mk_sav (Some [ex_rule]) 1 0) [ex_rule])
    as (f & E & _ & _ & Ej).
  - vm_compute. reflexivity.
  - vm_compute. reflexivity.
  - eexists. vm_compute. reflexivity.
  - eexists. vm_compute. reflexivity.
  - reflexivity.
  - reflexivity.
  - exists f. split; [exact E |]. rewrite Ej. vm_compute. reflexivity.
Defined.

End SavFacts.
