(* ===== verification/Rpki.v ===== *)
(** * src/rpki: route origin validation

    ROAs (prefix, maximal length, origin) live in two routing tables, those of
    IPv4 and IPv6 unicast of [rpki_roa_db]; the origin is an interned AS path.
    They come from a JSON file or from a cache that speaks RPKI-to-Router
    (RTR) over TCP.  A table is what its functions are given, [None] for NULL;
    jansson, the strings-to-address functions and the socket are parameters.
    What the socket delivers is the list of octets the cache sends before the
    connection ends, so that [recv] with MSG_WAITALL returns less than it is
    asked for at that end only. *)

From S2P Require Import Prelude CBuf Bgp BgpPrefix BgpTable BgpHash Aspath Communities BgpAttr BgpRib.

Module Rpki.
Import CBuf Bgp BgpPrefix BgpTable BgpHash BgpIntern Aspath Communities BgpAttr BgpRib.

Definition ROA_STATUS_UNKNOWN : Z := 0.
Definition ROA_STATUS_INVALID : Z := 1.
Definition ROA_STATUS_VALID : Z := 2.
Definition ROA_STATUS_OVERLAP_VALID : Z := 3.
Definition ROA_STATUS_OVERLAP_UNKNOWN : Z := 4.
Definition ROA_STATUS_MAX : Z := 4.

Definition RPKI_RTR_V0 : Z := 0.
Definition RPKI_RTR_V1 : Z := 1.

Definition RPKI_RTR_V0_DEFAULT_RETRY_IVL : Z := 10.
Definition RPKI_RTR_V0_DEFAULT_REFRESH_IVL : Z := 10.
Definition RPKI_RTR_V0_DEFAULT_EXPIRE_IVL : Z := 7200.
Definition RPKI_RTR_V1_DEFAULT_RETRY_IVL : Z := 600.
Definition RPKI_RTR_V1_DEFAULT_REFRESH_IVL : Z := 3600.
Definition RPKI_RTR_V1_DEFAULT_EXPIRE_IVL : Z := 7200.

Definition RPKI_RTR_PDU_SERIAL_NOTIFY : Z := 0.
Definition RPKI_RTR_PDU_SERIAL_QUERY : Z := 1.
Definition RPKI_RTR_PDU_RESET_QUERY : Z := 2.
Definition RPKI_RTR_PDU_CACHE_RESPONSE : Z := 3.
Definition RPKI_RTR_PDU_IPV4_PREFIX : Z := 4.
Definition RPKI_RTR_PDU_IPV6_PREFIX : Z := 6.
Definition RPKI_RTR_PDU_END_OF_DATA : Z := 7.
Definition RPKI_RTR_PDU_CACHE_RESET : Z := 8.
Definition RPKI_RTR_PDU_ROUTER_KEY : Z := 9.
Definition RPKI_RTR_PDU_ERROR_REPORT : Z := 10.

Definition RPKI_RTR_PDU_SERIAL_NOTIFY_LEN : Z := 12.
Definition RPKI_RTR_PDU_SERIAL_QUERY_LEN : Z := 12.
Definition RPKI_RTR_PDU_RESET_QUERY_LEN : Z := 8.
Definition RPKI_RTR_PDU_CACHE_RESPONSE_LEN : Z := 8.
Definition RPKI_RTR_PDU_IPV4_PREFIX_LEN : Z := 20.
Definition RPKI_RTR_PDU_IPV6_PREFIX_LEN : Z := 32.
Definition RPKI_RTR_PDU_END_OF_DATA_V0_LEN : Z := 12.
Definition RPKI_RTR_PDU_END_OF_DATA_V1_LEN : Z := 24.
Definition RPKI_RTR_PDU_CACHE_RESET_LEN : Z := 8.

Definition RPKI_RTR_PREFIX_FLAGS_WITHDRAW : Z := 0.
Definition RPKI_RTR_PREFIX_FLAGS_ANNOUNCE : Z := 1.

Definition TRUE : Z := 1.
Definition FALSE : Z := 0.

(** ** rpki_util.c *)

Definition rpki_init_dummy_peer (self : loc) : peer :=
  mk_bgp_peer self (mk_peer FUNC_TYPE_RPKI 0) 0 0 false ∅ ∅.

(** [rpki_roa], the names of the states. *)
Definition rpki_roa : list (list Z) := [cstr "u"; cstr "i"; cstr "v"; cstr "V"; cstr "U"].

Definition rpki_roa_print (roa : Z) : list Z :=
  if roa <=? ROA_STATUS_MAX then nth (Z.to_nat roa) rpki_roa [] else nth (Z.to_nat ROA_STATUS_UNKNOWN) rpki_roa [].

Definition rpki_str2roa (roa_str : list Z) : Z :=
  if bool_decide (roa_str = cstr "u") then ROA_STATUS_UNKNOWN
  else if bool_decide (roa_str = cstr "i") then ROA_STATUS_INVALID
  else if bool_decide (roa_str = cstr "v") then ROA_STATUS_VALID
  else ROA_STATUS_UNKNOWN.

(** [struct node_match_cmp_term2] *)
Record node_match_cmp_term2 := mk_nmct2 {
  ret_code : Z;
  n_p : prefix;
  n_last_as : Z
}.

Definition with_ret_code (r : Z) (n : node_match_cmp_term2) : node_match_cmp_term2 := mk_nmct2 r (n_p n) (n_last_as n).

Definition rpki_link_misc_structs (m_data : bgp_misc_structs) : bgp_misc_structs :=
  mk_misc (is_readonly m_data) 1 1 BGP_ASPATH_HASH_PATHID.

Section Rpki.
Context {X : Type}.
(** [inter_domain_misc_dbs], of which [rpki_misc_db] is an element. *)
Context (dbs : misc_dbs) (past : Z) (num : bool).
Context (bmed0 : X).

Abbreviation rt_structs := (bgp_rt_structs X).
Abbreviation info := (bgp_info X).
Abbreviation table := (bgp_table (bgp_info X)).

Definition rpki_attrhash_cmp (rt : rt_structs) (p1 p2 : option loc) : res bool :=
  l1 ← deref p1;
  attr1 ← deref (r_attr rt !! l1);
  l2 ← deref p2;
  attr2 ← deref (r_attr rt !! l2);
  Ok (bool_decide (a_aspath attr1 = a_aspath attr2)).

(** ** Lookups (rpki_lookup.c) *)

Definition rpki_prefix_lookup_node_match_cmp (rt : rt_structs) (i : info) (nmct2 : node_match_cmp_term2)
    : res (Z * node_match_cmp_term2) :=
  match i_attr i with
  | None => Ok (TRUE, nmct2)
  | Some l =>
      attr ← deref (r_attr rt !! l);
      match a_aspath attr with
      | None => Ok (TRUE, nmct2)
      | Some path =>
          valid ← (if prefixlen (n_p nmct2) <=? rpki_maxlen attr then
                     o ← deref (r_as rt !! path);
                     Ok (evaluate_last_asn (Some (o_val o)) =? n_last_as nmct2)
                   else Ok false);
          if valid : bool then Ok (FALSE, with_ret_code ROA_STATUS_VALID nmct2)
          else if negb (ret_code nmct2 =? ROA_STATUS_VALID)
          then Ok (TRUE, with_ret_code ROA_STATUS_INVALID nmct2)
          else Ok (TRUE, nmct2)
      end
  end.

(** The callback as [bgp_node_match] calls it: a fault is carried along. *)
Definition roa_cmp (rt : rt_structs) (i : info) (st : res node_match_cmp_term2) : Z * res node_match_cmp_term2 :=
  match nmct2 ← st; rpki_prefix_lookup_node_match_cmp rt i nmct2 with
  | Ok (c, nmct2) => (c, Ok nmct2)
  | Err f => (TRUE, Err f)
  end.

(** The node that matched stays locked. *)
Definition rpki_prefix_lookup (rpki_roa_db : option rt_structs) (p : option prefix) (last_as : Z)
    : res (Z * option rt_structs) :=
  match rpki_roa_db, p with
  | Some rt, Some p =>
      let base := mk_peer FUNC_TYPE_RPKI 0 in
      let afi := family2afi (family p) in
      let safi := SAFI_UNICAST in
      let nmct2 := mk_nmct2 ROA_STATUS_UNKNOWN p last_as in
      r ← bgp_node_match dbs past None (roa_cmp rt) (rib rt !! (afi, safi)) p (Some base) (Ok nmct2) false;
      match r with
      | None => Ok (ret_code nmct2, Some rt)
      | Some (t, st) => nmct2 ← ms_nmct2 st; Ok (ret_code nmct2, Some (set_rib rt afi safi t))
      end
  | _, _ => Ok (ROA_STATUS_UNKNOWN, rpki_roa_db)
  end.

(** [bnv]: the prefixes that matched in the BGP table, shortest first, each
    with the path of its route and the AS of the peer it came from. *)
Fixpoint vector_loop (rt : option rt_structs) (rev_bnv : list (prefix * option aspath_value * Z)) (level roa : Z)
    : res (Z * Z * option rt_structs) :=
  match rev_bnv with
  | [] => Ok (level, roa, rt)
  | (p, path, myas) :: next =>
      let level := level + 1 in
      let last_as := evaluate_last_asn path in
      let last_as := if last_as =? 0 then myas else last_as in
      '(roa, rt) ← rpki_prefix_lookup rt (Some p) last_as;
      if (roa =? ROA_STATUS_UNKNOWN) || (roa =? ROA_STATUS_VALID) then Ok (level, roa, rt)
      else vector_loop rt next level roa
  end.

Definition rpki_vector_prefix_lookup (rt : option rt_structs) (bnv : option (list (prefix * option aspath_value * Z)))
    : res (Z * option rt_structs) :=
  match bnv with
  | None | Some [] => Ok (ROA_STATUS_UNKNOWN, rt)
  | Some v =>
      '(level, roa, rt) ← vector_loop rt (rev v) 0 ROA_STATUS_UNKNOWN;
      if 1 <? level then
        if roa =? ROA_STATUS_UNKNOWN then Ok (ROA_STATUS_OVERLAP_UNKNOWN, rt)
        else if roa =? ROA_STATUS_VALID then Ok (ROA_STATUS_OVERLAP_VALID, rt)
        else Ok (roa, rt)
      else Ok (roa, rt)
  end.

(** ** ROAs in and out of the tables (rpki_msg.c) *)

(** The attribute on the stack with the path of [asn], interned; the structure
    is gone when the function returns. *)
Definition roa_attr (pr : peer) (rt : rt_structs) (asn maxlen : Z) : res (rt_structs * option loc) :=
  let peer := Some (p_base pr) in
  '(st, h, path) ← aspath_parse_ast dbs peer (r_as rt) (ashash rt) asn;
  let rt := with_as rt (st, h) in
  let attr := fresh (dom (r_attr rt)) in
  let rt := with_attr rt (<[attr := mk_attr path None None None 0 maxlen (nexthop attr0) (mp_nexthop attr0) 0 0 0 0]> (r_attr rt),
                          attrhash rt) in
  '(rt, attr_new) ← bgp_attr_intern dbs num peer rt attr;
  a ← deref (r_attr rt !! attr);
  rt ← match a_aspath a with
       | Some l => sh ← aspath_unintern peer (r_as rt) (ashash rt) l; Ok (with_as rt sh)
       | None => Ok rt
       end;
  Ok (with_attr rt (delete attr (r_attr rt), attrhash rt), attr_new).

(** [rib]: the table of the family of the prefix; [None] when the function
    returns ERR before it does anything. *)
Definition select_rib (p : prefix) (rib_v4 rib_v6 : option table) : option (Z * table) :=
  match rib_v4, rib_v6 with
  | Some v4, Some v6 =>
      let afi := family2afi (family p) in
      if afi =? AFI_IP then Some (afi, v4) else if afi =? AFI_IP6 then Some (afi, v6) else None
  | _, _ => None
  end.

Definition store_rib (afi : Z) (t : table) (rib_v4 rib_v6 : option table) : option table * option table :=
  if afi =? AFI_IP then (Some t, rib_v6) else (rib_v4, Some t).

Definition rpki_info_add (pr : peer) (rt : rt_structs) (p : prefix) (asn maxlen : Z) (rib_v4 rib_v6 : option table)
    : res (Z * peer * rt_structs * (option table * option table)) :=
  match select_rib p rib_v4 rib_v6 with
  | None => Ok (ERR, pr, rt, (rib_v4, rib_v6))
  | Some (afi, t) =>
      let modulo := 0 in
      '(t, route) ← bgp_node_get dbs past (p_base pr) t p;
      '(rt, attr_new) ← roa_attr pr rt asn maxlen;
      let new := mk_info (p_self pr) attr_new None bmed0 in
      '(t, lock) ← bgp_info_add dbs (p_base pr) t route new modulo (p_lock pr);
      t ← bgp_unlock_node dbs (p_base pr) t route;
      Ok (SUCCESS, with_peer_lock lock pr, rt, store_rib afi t rib_v4 rib_v6)
  end.

(** [for (ri = route->info[modulo]; ri; ri = ri->next)] *)
Fixpoint find_roa (pr : peer) (rt : rt_structs) (attr_new : option loc) (l : list info) (k : nat)
    : res (option (nat * info)) :=
  match l with
  | [] => Ok None
  | ri :: next =>
      same ← (if bool_decide (i_peer ri = p_self pr) then rpki_attrhash_cmp rt (i_attr ri) attr_new else Ok false);
      if same : bool then Ok (Some (k, ri)) else find_roa pr rt attr_new next (S k)
  end.

(** The body of the loop over the prefix lengths. *)
Definition roa_delete (pr : peer) (rt : rt_structs) (t : table) (p : prefix) (asn : Z) : res (peer * rt_structs * table) :=
  let modulo := 0 in
  '(t, route) ← bgp_node_get dbs past (p_base pr) t p;
  '(rt, attr_new) ← roa_attr pr rt asn 0;
  l ← bucket t route modulo;
  ri ← find_roa pr rt attr_new l 0;
  '(pr, rt, t) ← match ri with
                 | Some (k, ri) =>
                     '(pr, rt) ← bgp_info_free dbs num pr rt ri;
                     t ← bgp_info_delete dbs (p_base pr) t route k modulo;
                     Ok (pr, rt, t)
                 | None => Ok (pr, rt, t)
                 end;
  attr_new ← deref attr_new;
  rt ← bgp_attr_unintern dbs num (Some (p_base pr)) rt attr_new;
  t ← bgp_unlock_node dbs (p_base pr) t route;
  Ok (pr, rt, t).

(** [for (end = MAX(p->prefixlen, maxlen); p->prefixlen <= end; p->prefixlen++)],
    on octets: 257 rounds end it, unless [end] is 255. *)
Fixpoint delete_loop (fuel : nat) (pr : peer) (rt : rt_structs) (t : table) (p : prefix) (asn end_ : Z)
    : res (peer * rt_structs * table) :=
  match fuel with
  | O => Err OutOfFuel
  | S f =>
      if prefixlen p <=? end_ then
        '(pr, rt, t) ← roa_delete pr rt t p asn;
        delete_loop f pr rt t (mk_prefix (family p) (u8 (prefixlen p + 1)) (addr p)) asn end_
      else Ok (pr, rt, t)
  end.

Definition rpki_info_delete (pr : peer) (rt : rt_structs) (p : prefix) (asn maxlen : Z) (rib_v4 rib_v6 : option table)
    : res (Z * peer * rt_structs * (option table * option table)) :=
  match select_rib p rib_v4 rib_v6 with
  | None => Ok (ERR, pr, rt, (rib_v4, rib_v6))
  | Some (afi, t) =>
      '(pr, rt, t) ← delete_loop 257 pr rt t p asn (Z.max (prefixlen p) maxlen);
      Ok (SUCCESS, pr, rt, store_rib afi t rib_v4 rib_v6)
  end.

(** ** The tables as a whole (rpki_util.c) *)

(** [bgp_table_info_delete] is given tables that need not be in [rib]: they
    are put there while it runs. *)
Definition rpki_ribs_free (pr : peer) (rt : rt_structs) (rib_v4 rib_v6 : table) : res (peer * rt_structs) :=
  let ribs := rib rt in
  let rt := with_rib rt {[(AFI_IP, SAFI_UNICAST) := rib_v4; (AFI_IP6, SAFI_UNICAST) := rib_v6]} in
  '(pr, rt) ← bgp_table_info_delete dbs num (fun _ _ _ _ _ => 0) false pr rt AFI_IP SAFI_UNICAST;
  '(pr, rt) ← bgp_table_info_delete dbs num (fun _ _ _ _ _ => 0) false pr rt AFI_IP6 SAFI_UNICAST;
  v4 ← get_rib rt AFI_IP SAFI_UNICAST;
  v6 ← get_rib rt AFI_IP6 SAFI_UNICAST;
  _ ← bgp_table_free (Some v4);
  _ ← bgp_table_free (Some v6);
  Ok (pr, with_rib rt ribs).

Definition set_ribs (rt : rt_structs) (v4 v6 : table) : rt_structs :=
  set_rib (set_rib rt AFI_IP SAFI_UNICAST v4) AFI_IP6 SAFI_UNICAST v6.

(** With the tables of [rpki_roa_db]. *)
Definition rpki_ribs_reset (pr : peer) (rt : rt_structs) : res (peer * rt_structs) :=
  v4 ← get_rib rt AFI_IP SAFI_UNICAST;
  v6 ← get_rib rt AFI_IP6 SAFI_UNICAST;
  '(pr, rt) ← rpki_ribs_free pr rt v4 v6;
  Ok (pr, set_ribs rt (bgp_table_init AFI_IP SAFI_UNICAST) (bgp_table_init AFI_IP6 SAFI_UNICAST)).

(** ** The file of ROAs *)

(** [bgp_str2asn] (bgp_util.c): [errno] is what earlier calls left, and
    [strtoul] sets it when the number does not fit. *)
Definition ERANGE : Z := 34.

Definition bgp_str2asn (errno : Z) (asn_str : list Z) : Z * option Z * Z :=
  let fix skip s := match s with c :: r => if is_digit c then s else skip r | [] => [] end in
  let asn_ptr := skip asn_str in
  let '(ds, endptr) := span_digits asn_ptr in
  let v := digits_from 0 ds in
  let errno := if 2 ^ 64 <=? v then ERANGE else errno in
  let asn := u32 (Z.min v (2 ^ 64 - 1)) in
  match ds, endptr with
  | [], _ | _, _ :: _ => (ERR, Some asn, errno)
  | _, [] => if negb (errno =? 0) then (ERR, Some asn, 0) else (SUCCESS, Some asn, errno)
  end.

Section File.
Context (inet_aton inet_pton6 : list Z -> option (list Z)).
(** jansson: values, their kinds and parts. *)
Context {json : Type}.
Context (json_is_object json_is_array json_is_string json_is_integer : json -> bool).
Context (json_object_get : json -> string -> option json).
Context (json_array_get : json -> Z -> option json).
Context (json_string_value : json -> list Z) (json_integer_value : json -> Z).

(** One element of the array: [None] where the code goes to [exit_lane]. *)
Definition roa_of_json (errno : Z) (roa_json : json) : option (prefix * Z * Z) * Z :=
  match json_object_get roa_json "prefix" with
  | None => (None, errno)
  | Some prefix_json =>
      if negb (json_is_string prefix_json) then (None, errno)
      else
        let '(ret, p) := str2prefix inet_aton inet_pton6 (json_string_value prefix_json) (mk_prefix 0 0 (replicate 16 0)) in
        if ret =? 0 then (None, errno)
        else
          match json_object_get roa_json "asn" with
          | None => (None, errno)
          | Some asn_json =>
              if negb (json_is_string asn_json) && negb (json_is_integer asn_json) then (None, errno)
              else
                let '(ret, asn, errno) := if json_is_string asn_json then bgp_str2asn errno (json_string_value asn_json)
                                          else (FALSE, Some (u32 (json_integer_value asn_json)), errno) in
                if negb (ret =? 0) then (None, errno)
                else
                  match asn, json_object_get roa_json "maxLength" with
                  | Some asn, Some maxlen_json =>
                      if json_is_integer maxlen_json then (Some (p, asn, u8 (json_integer_value maxlen_json)), errno)
                      else (None, errno)
                  | _, _ => (None, errno)
                  end
          end
  end.

(** [for (roas_idx = 0; (roa_json = json_array_get(roas_json, roas_idx)); roas_idx++)] *)
Fixpoint roas_loop (fuel : nat) (errno : Z) (pr : peer) (rt : rt_structs) (roas_json : json) (roas_idx : Z)
    (ribs : option table * option table) : res (peer * rt_structs * (option table * option table)) :=
  match fuel with
  | O => Err OutOfFuel
  | S f =>
      match json_array_get roas_json roas_idx with
      | None => Ok (pr, rt, ribs)
      | Some roa_json =>
          let '(roa, errno) := roa_of_json errno roa_json in
          '(pr, rt, ribs) ← match roa with
                            | Some (p, asn, maxlen) =>
                                '(_, pr, rt, ribs) ← rpki_info_add pr rt p asn maxlen (fst ribs) (snd ribs);
                                Ok (pr, rt, ribs)
                            | None => Ok (pr, rt, ribs)
                            end;
          roas_loop f errno pr rt roas_json (roas_idx + 1) ribs
      end
  end.

(** [roas_obj]: what [json_load_file] returns. *)
Definition rpki_roas_file_load (fuel : nat) (errno : Z) (pr : peer) (rt : rt_structs) (roas_obj : option json)
    (rib_v4 rib_v6 : option table) : res (Z * peer * rt_structs * (option table * option table)) :=
  match roas_obj with
  | None => Ok (ERR, pr, rt, (rib_v4, rib_v6))
  | Some roas_obj =>
      if negb (json_is_object roas_obj) then Ok (ERR, pr, rt, (rib_v4, rib_v6))
      else
        match json_object_get roas_obj "roas" with
        | None => Ok (ERR, pr, rt, (rib_v4, rib_v6))
        | Some roas_json =>
            if negb (json_is_array roas_json) then Ok (ERR, pr, rt, (rib_v4, rib_v6))
            else
              '(pr, rt, ribs) ← roas_loop fuel errno pr rt roas_json 0 (rib_v4, rib_v6);
              Ok (SUCCESS, pr, rt, ribs)
        end
  end.

(** The new tables replace those in use when the file was read. *)
Definition rpki_roas_file_reload (fuel : nat) (errno : Z) (pr : peer) (rt : rt_structs) (roas_obj : option json)
    : res (peer * rt_structs) :=
  saved_v4 ← get_rib rt AFI_IP SAFI_UNICAST;
  saved_v6 ← get_rib rt AFI_IP6 SAFI_UNICAST;
  '(ret, pr, rt, (v4, v6)) ← rpki_roas_file_load fuel errno pr rt roas_obj
      (Some (bgp_table_init AFI_IP SAFI_UNICAST)) (Some (bgp_table_init AFI_IP6 SAFI_UNICAST));
  v4 ← deref v4;
  v6 ← deref v6;
  if ret =? 0 then rpki_ribs_free pr (set_ribs rt v4 v6) saved_v4 saved_v6
  else rpki_ribs_free pr rt v4 v6.

End File.

(** ** RPKI-to-Router (rpki_msg.c, rpki_util.c, rpki.c) *)

Record rpki_rtr_timer := mk_timer {
  tstamp : Z;
  ivl : Z
}.

Record rpki_rtr_handle := mk_handle {
  fd : Z;
  dont_reconnect : bool;
  now : Z;
  refresh : rpki_rtr_timer;
  retry : rpki_rtr_timer;
  expire : rpki_rtr_timer;
  session_id : Z;
  serial : Z
}.

(** The handle, the ROAs, and the two ends of the socket: what the cache still
    has to say, and what was sent to it. *)
Record rtr_state := mk_rtr {
  s_cache : rpki_rtr_handle;
  s_peer : peer;
  s_roas : rt_structs;
  s_in : list Z;
  s_out : list (list Z)
}.

Definition with_cache (c : rpki_rtr_handle) (s : rtr_state) : rtr_state :=
  mk_rtr c (s_peer s) (s_roas s) (s_in s) (s_out s).
Definition with_roas (pr : peer) (rt : rt_structs) (s : rtr_state) : rtr_state :=
  mk_rtr (s_cache s) pr rt (s_in s) (s_out s).
Definition with_fd (f : Z) (c : rpki_rtr_handle) : rpki_rtr_handle :=
  mk_handle f (dont_reconnect c) (now c) (refresh c) (retry c) (expire c) (session_id c) (serial c).
Definition with_now (n : Z) (c : rpki_rtr_handle) : rpki_rtr_handle :=
  mk_handle (fd c) (dont_reconnect c) n (refresh c) (retry c) (expire c) (session_id c) (serial c).
Definition with_session (i n : Z) (c : rpki_rtr_handle) : rpki_rtr_handle :=
  mk_handle (fd c) (dont_reconnect c) (now c) (refresh c) (retry c) (expire c) i n.
Definition with_timers (rf rt ex : rpki_rtr_timer) (c : rpki_rtr_handle) : rpki_rtr_handle :=
  mk_handle (fd c) (dont_reconnect c) (now c) rf rt ex (session_id c) (serial c).

Definition rpki_rtr_set_dont_reconnect (c : rpki_rtr_handle) : rpki_rtr_handle :=
  mk_handle (fd c) true (now c) (refresh c) (retry c) (expire c) (session_id c) (serial c).

(** [recv (fd, buf, n, MSG_WAITALL)] *)
Definition recv (n : Z) (s : rtr_state) : list Z * rtr_state :=
  (take (Z.to_nat n) (s_in s), mk_rtr (s_cache s) (s_peer s) (s_roas s) (drop (Z.to_nat n) (s_in s)) (s_out s)).

(** What is left of a timer: [time_t] and [u_int32_t] added as 64 bits. *)
Definition timeout_left (c : rpki_rtr_handle) (t : rpki_rtr_timer) : Z :=
  if tstamp t + ivl t <=? now c then 0 else (tstamp t + ivl t) - now c.

Definition rpki_rtr_eval_timeout (c : rpki_rtr_handle) : Z :=
  let expire_timeout := timeout_left c (expire c) in
  let ret := if fd c <? 0 then Z.min (timeout_left c (retry c)) expire_timeout
             else Z.min (timeout_left c (refresh c)) expire_timeout in
  if ret =? 0 then 1 else ret.

Definition rpki_rtr_eval_expire (s : rtr_state) : res rtr_state :=
  let c := s_cache s in
  if tstamp (expire c) + ivl (expire c) <=? now c then
    let c := with_timers (refresh c) (retry c) (mk_timer (now c) (ivl (expire c))) c in
    '(pr, rt) ← rpki_ribs_reset (s_peer s) (s_roas s);
    Ok (with_roas pr rt (with_cache (with_session 0 0 c) s))
  else Ok s.

Definition rpki_rtr_close (s : rtr_state) : res rtr_state :=
  let c := with_session 0 0 (with_fd ERR (s_cache s)) in
  '(pr, rt) ← rpki_ribs_reset (s_peer s) (s_roas s);
  Ok (with_roas pr rt (with_cache c s)).

(** A field of one or two or four octets of a PDU; [le32] as the host reads
    it. *)
Definition pdu_be16 (b : list Z) (i : Z) : Z := be16 (byte_at b i) (byte_at b (i + 1)).
Definition pdu_be32 (b : list Z) (i : Z) : Z :=
  be32 (byte_at b i) (byte_at b (i + 1)) (byte_at b (i + 2)) (byte_at b (i + 3)).

(** *** Connecting and asking *)

(** [socket_fd], [connect_rc]: what the system calls return; [input]: what the
    cache will send on the connection. *)
Definition rpki_rtr_connect (socket_fd connect_rc : Z) (input : list Z) (s : rtr_state) : res rtr_state :=
  let c := s_cache s in
  if tstamp (retry c) + ivl (retry c) <=? now c then
    let c := with_timers (refresh c) (mk_timer (now c) (ivl (retry c))) (expire c) c in
    let c := with_fd socket_fd c in
    if socket_fd =? -1 then Err Exited
    else if connect_rc <? 0 then rpki_rtr_close (with_cache c s)
    else Ok (mk_rtr (with_session 0 0 c) (s_peer s) (s_roas s) input (s_out s))
  else Ok s.

Section Version.
Context (rpki_rtr_cache_version : Z).
(** [send]: the number of octets the system takes. *)
Context (send : list Z -> Z).

Definition send_pdu (pdu : list Z) (len : Z) (s : rtr_state) : res rtr_state :=
  let s := mk_rtr (s_cache s) (s_peer s) (s_roas s) (s_in s) (s_out s ++ [pdu]) in
  if send pdu =? len then Ok s else rpki_rtr_close s.

(** [None] when it is too early. *)
Definition refresh_due (s : rtr_state) : option rtr_state :=
  let c := s_cache s in
  if tstamp (refresh c) + ivl (refresh c) <=? now c
  then Some (with_cache (with_timers (mk_timer (now c) (ivl (refresh c))) (retry c) (expire c) c) s)
  else None.

Definition rpki_rtr_send_reset_query (s : rtr_state) : res rtr_state :=
  if 0 <? fd (s_cache s) then
    match refresh_due s with
    | None => Ok s
    | Some s =>
        let rqm := [u8 rpki_rtr_cache_version; RPKI_RTR_PDU_RESET_QUERY; 0; 0] ++ htonl RPKI_RTR_PDU_RESET_QUERY_LEN in
        send_pdu rqm RPKI_RTR_PDU_RESET_QUERY_LEN s
    end
  else Ok s.

Definition rpki_rtr_send_serial_query (s : rtr_state) : res rtr_state :=
  if 0 <? fd (s_cache s) then
    match refresh_due s with
    | None => Ok s
    | Some s =>
        let id := session_id (s_cache s) in
        let snm := [u8 rpki_rtr_cache_version; RPKI_RTR_PDU_SERIAL_QUERY; id / 256 mod 256; id mod 256]
                     ++ htonl RPKI_RTR_PDU_SERIAL_QUERY_LEN ++ htonl (serial (s_cache s)) in
        send_pdu snm RPKI_RTR_PDU_SERIAL_QUERY_LEN s
    end
  else Ok s.

(** *** What the cache says *)

(** Each function reads its PDU; [fd > 0] was tested by the caller, and is
    tested again. *)
Definition connected (s : rtr_state) (k : res rtr_state) : res rtr_state :=
  if 0 <? fd (s_cache s) then k else Ok s.

Definition rpki_rtr_recv_cache_response (s : rtr_state) : res rtr_state :=
  connected s (
    let '(crm, s) := recv RPKI_RTR_PDU_CACHE_RESPONSE_LEN s in
    if strlen crm =? RPKI_RTR_PDU_CACHE_RESPONSE_LEN
    then Ok (with_cache (with_session (pdu_be16 crm 2) (serial (s_cache s)) (s_cache s)) s)
    else rpki_rtr_close s).

Definition rpki_rtr_recv_serial_notify (s : rtr_state) : res rtr_state :=
  connected s (
    let '(snm, s) := recv RPKI_RTR_PDU_SERIAL_NOTIFY_LEN s in
    if negb (strlen snm =? RPKI_RTR_PDU_SERIAL_NOTIFY_LEN) then rpki_rtr_close s else Ok s).

(** The two ROA messages, once their fields are read. *)
Definition parse_roa (flags : Z) (p : prefix) (asn max_len : Z) (s : rtr_state) : res rtr_state :=
  let rt := s_roas s in
  let ribs := (rib rt !! (AFI_IP, SAFI_UNICAST), rib rt !! (AFI_IP6, SAFI_UNICAST)) in
  let store '(_, pr, rt, (v4, v6)) :=
    let put afi (o : option table) rt := match o with Some t => set_rib rt afi SAFI_UNICAST t | None => rt end in
    Ok (with_roas pr (put AFI_IP6 v6 (put AFI_IP v4 rt)) s) in
  if flags =? RPKI_RTR_PREFIX_FLAGS_WITHDRAW then
    r ← rpki_info_delete (s_peer s) rt p asn max_len (fst ribs) (snd ribs); store r
  else if flags =? RPKI_RTR_PREFIX_FLAGS_ANNOUNCE then
    r ← rpki_info_add (s_peer s) rt p asn max_len (fst ribs) (snd ribs); store r
  else Ok s.

Definition rpki_rtr_parse_ipv4_prefix (p4m : list Z) (s : rtr_state) : res rtr_state :=
  let p := mk_prefix AF_INET (byte_at p4m 9) (take 4 (drop 12 p4m) ++ replicate 12 0) in
  parse_roa (byte_at p4m 8) p (pdu_be32 p4m 16) (byte_at p4m 10) s.

Definition rpki_rtr_parse_ipv6_prefix (p6m : list Z) (s : rtr_state) : res rtr_state :=
  let p := mk_prefix AF_INET6 (byte_at p6m 9) (take 16 (drop 12 p6m)) in
  parse_roa (byte_at p6m 8) p (pdu_be32 p6m 28) (byte_at p6m 10) s.

Definition rpki_rtr_recv_ipv4_pref (s : rtr_state) : res rtr_state :=
  connected s (
    let '(p4m, s) := recv RPKI_RTR_PDU_IPV4_PREFIX_LEN s in
    if strlen p4m =? RPKI_RTR_PDU_IPV4_PREFIX_LEN then rpki_rtr_parse_ipv4_prefix p4m s else rpki_rtr_close s).

Definition rpki_rtr_recv_ipv6_pref (s : rtr_state) : res rtr_state :=
  connected s (
    let '(p6m, s) := recv RPKI_RTR_PDU_IPV6_PREFIX_LEN s in
    if strlen p6m =? RPKI_RTR_PDU_IPV6_PREFIX_LEN then rpki_rtr_parse_ipv6_prefix p6m s else rpki_rtr_close s).

(** [if (ivl) cache->x.ivl = ntohl (ivl);] *)
Definition set_ivl (v : Z) (t : rpki_rtr_timer) : rpki_rtr_timer := if v =? 0 then t else mk_timer (tstamp t) v.

Definition rpki_rtr_recv_eod (version : Z) (s : rtr_state) : res rtr_state :=
  connected s (
    let eodm_len := if version =? RPKI_RTR_V0 then RPKI_RTR_PDU_END_OF_DATA_V0_LEN else RPKI_RTR_PDU_END_OF_DATA_V1_LEN in
    let '(eodm, s) := recv eodm_len s in
    if strlen eodm =? eodm_len then
      s ← (if negb (session_id (s_cache s) =? pdu_be16 eodm 2) then rpki_rtr_close s else Ok s);
      let c := s_cache s in
      let c := with_session (session_id c) (pdu_be32 eodm 8) c in
      let c := with_timers (mk_timer (now c) (ivl (refresh c))) (retry c) (mk_timer (now c) (ivl (expire c))) c in
      if version =? RPKI_RTR_V1 then
        let c := with_timers (set_ivl (pdu_be32 eodm 12) (refresh c)) (set_ivl (pdu_be32 eodm 16) (retry c))
                   (set_ivl (pdu_be32 eodm 20) (expire c)) c in
        if (tstamp (expire c) <=? ivl (retry c)) || (tstamp (expire c) <=? ivl (refresh c))
        then rpki_rtr_close (with_cache c s)
        else Ok (with_cache c s)
      else Ok (with_cache c s)
    else rpki_rtr_close s).

Definition rpki_rtr_recv_cache_reset (s : rtr_state) : res rtr_state :=
  connected s (
    let '(crm, s) := recv RPKI_RTR_PDU_CACHE_RESET_LEN s in
    s ← (if negb (strlen crm =? RPKI_RTR_PDU_CACHE_RESET_LEN) then rpki_rtr_close s else Ok s);
    let c := with_session 0 0 (s_cache s) in
    '(pr, rt) ← rpki_ribs_reset (s_peer s) (s_roas s);
    Ok (with_roas pr rt (with_cache c s))).

(** [rkm.len] is read as the host does, and [msglen] is a [ssize_t]. *)
Definition rpki_rtr_recv_router_key (s : rtr_state) : res rtr_state :=
  connected s (
    let '(rkm, s) := recv 32 s in
    if negb (strlen rkm =? 32) then rpki_rtr_close s
    else if byte_at rkm 0 =? RPKI_RTR_V0 then rpki_rtr_close s
    else if 32 <? le_u32 rkm 4 then
      let rem_len := u32 (le_u32 rkm 4 - 32) in
      let '(rkmbuf, s) := recv rem_len s in
      if negb (strlen rkmbuf =? rem_len) then rpki_rtr_close s else Ok s
    else Ok s).

(** The text is read for the log from where the length of the embedded PDU
    says it is, up to a NUL. *)
Definition rpki_rtr_recv_error_report (s : rtr_state) : res rtr_state :=
  connected s (
    let '(erm, s) := recv 8 s in
    if negb (strlen erm =? 8) then rpki_rtr_close s
    else if 8 <? le_u32 erm 4 then
      let rem_len := u32 (le_u32 erm 4 - 8) in
      let '(got, s) := recv rem_len s in
      if negb (strlen got =? rem_len) then rpki_rtr_close s
      else
        let ermbuf := got ++ [0] in
        w ← read_bytes ermbuf 0 4;
        let errmsg_ptr := le_u32 w 0 + 4 + 4 in
        _ ← (if errmsg_ptr <? strlen ermbuf then c_string (drop (Z.to_nat errmsg_ptr) ermbuf) else Err OutOfBounds);
        Ok s
    else Ok s).

(** Up to two octets are looked at, not taken: those of the [ready] octets that
    have arrived, for [MSG_PEEK] comes without [MSG_WAITALL]. *)
Definition peek (ready : Z) (s : rtr_state) : list Z := take (Z.to_nat (Z.min 2 ready)) (s_in s).

Definition rpki_rtr_parse_msg (ready : Z) (s : rtr_state) : res rtr_state :=
  connected s (
    match peek ready s with
    | [version; pdu_type] =>
        if negb (version =? rpki_rtr_cache_version) then
          s ← rpki_rtr_close s;
          Ok (with_cache (rpki_rtr_set_dont_reconnect (s_cache s)) s)
        else if pdu_type =? RPKI_RTR_PDU_SERIAL_NOTIFY then rpki_rtr_recv_serial_notify s
        else if pdu_type =? RPKI_RTR_PDU_CACHE_RESPONSE then rpki_rtr_recv_cache_response s
        else if pdu_type =? RPKI_RTR_PDU_IPV4_PREFIX then rpki_rtr_recv_ipv4_pref s
        else if pdu_type =? RPKI_RTR_PDU_IPV6_PREFIX then rpki_rtr_recv_ipv6_pref s
        else if pdu_type =? RPKI_RTR_PDU_END_OF_DATA then rpki_rtr_recv_eod version s
        else if pdu_type =? RPKI_RTR_PDU_CACHE_RESET then rpki_rtr_recv_cache_reset s
        else if pdu_type =? RPKI_RTR_PDU_ROUTER_KEY then rpki_rtr_recv_router_key s
        else if pdu_type =? RPKI_RTR_PDU_ERROR_REPORT then rpki_rtr_recv_error_report s
        else rpki_rtr_close s
    | _ => rpki_rtr_close s
    end).

(** *** The daemon *)

Definition rpki_daemon_init (self : loc) (time : Z) : rtr_state :=
  let t v0 v1 := mk_timer 0 (if rpki_rtr_cache_version =? RPKI_RTR_V0 then v0 else v1) in
  let ex := t RPKI_RTR_V0_DEFAULT_EXPIRE_IVL RPKI_RTR_V1_DEFAULT_EXPIRE_IVL in
  mk_rtr (mk_handle ERR false time
            (t RPKI_RTR_V0_DEFAULT_REFRESH_IVL RPKI_RTR_V1_DEFAULT_REFRESH_IVL)
            (t RPKI_RTR_V0_DEFAULT_RETRY_IVL RPKI_RTR_V1_DEFAULT_RETRY_IVL)
            (mk_timer time (ivl ex)) 0 0)
    (rpki_init_dummy_peer self) (init_shared_rib (bgp_attr_init 65535 rt0)) [] [].

(** One round of the loop with a cache configured: the result of [select], the
    time after it, the octets that have arrived, and what a new connection
    would meet. *)
Record round := mk_round {
  select_num : Z;
  time : Z;
  ready : Z;
  socket_fd : Z;
  connect_rc : Z;
  input : list Z
}.

Definition rpki_daemon_round (r : round) (s : rtr_state) : res rtr_state :=
  let s := with_cache (with_now (time r) (s_cache s)) s in
  if select_num r <? 0 then Ok s
  else if select_num r =? 0 then
    s ← (if fd (s_cache s) <? 0 then rpki_rtr_connect (socket_fd r) (connect_rc r) (input r) s else Ok s);
    s ← (if session_id (s_cache s) =? 0 then rpki_rtr_send_reset_query s else Ok s);
    s ← (if negb (serial (s_cache s) =? 0) then rpki_rtr_send_serial_query s else Ok s);
    rpki_rtr_eval_expire s
  else rpki_rtr_parse_msg (ready r) s.

End Version.
End Rpki.

Arguments rtr_state X : clear implicits.

End Rpki.
