(* ===== verification/RpkiFacts.v ===== *)
(** * Route origin validation: the tables mean a set of ROAs

    What a table of ROAs means is, for every prefix, the list of the origins
    and maximal lengths registered for it ([roas_at]).  Adding and deleting
    are operations on that list, whatever the interned paths and attributes
    and the nodes of the trie, and a lookup is the validation of RFC 6811 on
    it ([rov]). *)

From S2P Require Import Prelude CBuf Bgp BgpPrefix BgpTable BgpTableFacts BgpRoutes BgpHash BgpHashFacts BgpInternFacts.
From S2P Require Import Aspath AspathFacts Communities CommunitiesFacts BgpAttr BgpAttrFacts BgpRib BgpRibFacts BgpRouterFacts BgpFlushFacts.
From S2P Require Import BgpNlri BgpUpdate BgpAttrParseFacts BgpUpdateFacts Rpki.

Module RpkiFacts.
Import CBuf Bgp BgpPrefix BgpTable BgpTableFacts BgpRoutes BgpHash BgpHashFacts BgpIntern BgpInternFacts
  Aspath AspathFacts Communities CommunitiesFacts BgpAttr BgpAttrFacts BgpRib BgpRibFacts BgpRouterFacts BgpFlushFacts
  BgpNlri BgpUpdate BgpAttrParseFacts BgpUpdateFacts Rpki.

Abbreviation rpki_base := (mk_peer FUNC_TYPE_RPKI 0).

(** ** The path of an origin *)

Definition ast_value (asn : Z) : aspath_value := mk_value [mk_seg AS_SEQUENCE [asn]] asn.

(** Every path in use is that of one origin. *)
Definition single (st : objs aspath_value) : Prop :=
  forall l o, st !! l = Some o -> 0 < refcnt o -> exists asn, is_u32 asn /\ o_val o = ast_value asn.

Lemma ast_path_ok asn : is_u32 asn -> path_ok [mk_seg AS_SEQUENCE [asn]].
Proof.
  intros H. by split; [apply Forall_singleton, Forall_singleton | |].
Qed.

Lemma ast2aspath_Ok asn : is_u32 asn ->
  exists a, aspath_ast2aspath asn = Ok a /\ segments a = [mk_seg AS_SEQUENCE [asn]] /\ last_as a = asn.
Proof.
  intros H. unfold aspath_ast2aspath. set (a := aspath_as_add _ _).
  assert (Es : segments a = [mk_seg AS_SEQUENCE [asn]]) by reflexivity.
  destruct (make_str_text a) as (last & E & El); [rewrite Es; by apply ast_path_ok |].
  rewrite E, bind_Ok. eexists. split; [done |]. split; [done |]. cbn [last_as]. rewrite Es in El. by rewrite El.
Qed.

Section Paths.
Context {X : Type} (dbs : misc_dbs) (num : bool) (base : bgp_peer).
Hypothesis Hpeer : type base < FUNC_TYPE_MAX.
Implicit Types (rt : bgp_rt_structs X) (T : temps).

(** A reference to a path given up. *)
Lemma as_drop rt T uses l :
  rt_ok dbs num rt (add_as (Some l) T) uses -> (forall x a, r_attr rt !! x = Some a -> a_refcnt a <> 0) ->
  (forall x, 0 <= t_as T x) ->
  exists sh, aspath_unintern (Some base) (r_as rt) (ashash rt) l = Ok sh /\ rt_ok dbs num (with_as rt sh) T uses /\
    forall x, 0 < as_refs rt T x -> same_val (r_as rt) (fst sh) x.
Proof using Hpeer.
  intros H1 Hz HT.
  assert (Hpos : forall x, 0 <= weight a_aspath (r_attr rt) x).
  { intros x. apply weight_nonneg. intros j c Hj. by apply (ro_attr _ _ _ _ _ H1 j c). }
  assert (Hheld : forall x, Some l = Some x -> 0 < as_refs rt (add_as (Some l) T) x).
  { intros x [= <-]. pose proof (Hpos l). pose proof (HT l). unfold as_refs. cbn. unfold bump. rewrite decide_True by done. lia. }
  destruct (unintern_ptr_step value_ok base Hpeer (r_as rt) (ashash rt) _ (Some l) (ro_as _ _ _ _ _ H1) Hheld)
    as (st & h & E & Hc & Hv).
  assert (Hrefs : forall x, as_refs rt T x = bump (as_refs rt (add_as (Some l) T)) (Some l) (-1) x).
  { intros x. unfold as_refs. cbn. unfold bump. repeat case_decide; lia. }
  exists (st, h). split; [exact E |]. split; [| intros x Hx; apply Hv; by rewrite <- Hrefs].
  apply (rt_ok_shrink dbs num rt _ (add_as (Some l) T)); try done; try apply H1.
  - eapply counted_ext; [exact Hc | exact Hrefs].
  - intros x Hx. apply Hv. by rewrite <- Hrefs.
  - intros x. destruct (ro_temps _ _ _ _ _ H1 x) as (_ & ? & ? & ? & _). by split_and!.
Qed.

End Paths.

(** ** The state *)

Section Roas.
Context {X : Type}.
Context (dbs : misc_dbs) (past : Z) (num : bool) (bmed0 : X).
Context (self : loc).
Abbreviation pr0 := (rpki_init_dummy_peer self).
Abbreviation bms := (dbs FUNC_TYPE_RPKI).
Abbreviation table := (bgp_table (bgp_info X)).
Abbreviation tables := (gmap (Z * Z) (bgp_table (bgp_info X))).
Hypothesis Hrw : is_readonly bms = false.
Hypothesis Hbuckets : info_buckets bms = 1%nat.
Implicit Types (rt : bgp_rt_structs X) (M : tables) (t : table) (ri : bgp_info X).

(** The tables [M] that are alive, in [rib rt] or not, hold routes of the one
    peer, each with an attribute that has a path. *)
Record roas_ok rt M : Prop := {
  ra_state : state_ok dbs num pr0 (with_rib rt M) T0;
  ra_peer : forall k t km b ri, M !! k = Some t -> routes t !! km = Some b -> ri ∈ b -> i_peer ri = self;
  ra_paths : forall l a, r_attr rt !! l = Some a -> is_Some (a_aspath a) /\ a_refcnt a <> 0;
  ra_single : single (r_as rt)
}.

(** The origin and the maximal length of a route. *)
Definition roa_of rt ri : Z * Z :=
  match i_attr ri with
  | Some l => match r_attr rt !! l with
              | Some a => (match a_aspath a with
                           | Some x => match r_as rt !! x with Some o => v_last_as (o_val o) | None => 0 end
                           | None => 0
                           end, rpki_maxlen a)
              | None => (0, 0)
              end
  | None => (0, 0)
  end.

(** What a table means. *)
Definition roas_at rt t (k : list bool) : list (Z * Z) := map (roa_of rt) (get_bucket k 0 (routes t)).

Lemma ra_rt rt M : roas_ok rt M -> rt_ok dbs num rt T0 (rib_uses M).
Proof. intros [[H _ _] _ _ _]. by apply (rt_ok_rib dbs num (with_rib rt M) T0 _ (rib rt)) in H; destruct rt. Qed.

Lemma as_live rt T uses x : rt_ok dbs num rt T uses -> 0 < as_refs rt T x -> exists o, r_as rt !! x = Some o /\ 0 < refcnt o.
Proof.
  intros Hok H. destruct (counted_live _ _ _ _ _ (ro_as _ _ _ _ _ Hok) H) as (o & E & _ & Er). exists o. split; [done | lia].
Qed.

(** An attribute of a live table has the path of an origin. *)
Lemma attr_path rt T uses l a : rt_ok dbs num rt T uses -> single (r_as rt) -> r_attr rt !! l = Some a -> is_Some (a_aspath a) ->
  exists x o asn, a_aspath a = Some x /\ r_as rt !! x = Some o /\ is_u32 asn /\ o_val o = ast_value asn /\ 0 < as_refs rt T x.
Proof.
  intros Hok Hs Ha [x Ex]. destruct (attr_refs_pos _ _ _ _ _ _ _ Hok Ha) as (Hp & _). pose proof (Hp x Ex) as Hx.
  destruct (as_live rt T uses x Hok Hx) as (o & Eo & Hpos). destruct (Hs x o Eo Hpos) as (asn & H1 & H2). by exists x, o, asn.
Qed.

(** Few references: no count is near its end. *)
Lemma few_room rt M T b : rt_ok dbs num rt T (rib_uses M) -> bounded T b -> 0 <= b < 2 ^ 62 -> n_routes M < 2 ^ 62 -> count_room rt.
Proof.
  intros Hok Hb Hb0 Hn. apply (rt_ok_rib dbs num rt T _ M) in Hok.
  exact (count_room_bound dbs num (with_rib rt M) T b Hok Hb (proj1 Hb0) ltac:(cbn; lia)).
Qed.

(** What becomes of the attributes when one is interned: nothing but counts. *)
Definition keeps rt rt' : Prop :=
  (forall l a, r_attr rt !! l = Some a -> is_Some (r_attr rt' !! l) ->
     exists n, r_attr rt' !! l = Some (with_refcnt n a)) /\
  (forall x, is_Some (r_as rt !! x) -> 0 < as_refs rt' T0 x -> same_val (r_as rt) (r_as rt') x).

Lemma keeps_trans rt1 rt2 rt3 :
  (forall l, is_Some (r_attr rt1 !! l) -> is_Some (r_attr rt3 !! l) -> is_Some (r_attr rt2 !! l)) ->
  (forall x, is_Some (r_as rt1 !! x) -> 0 < as_refs rt3 T0 x -> 0 < as_refs rt2 T0 x) ->
  keeps rt1 rt2 -> keeps rt2 rt3 -> keeps rt1 rt3.
Proof.
  intros Hd Hr [A1 V1] [A2 V2]. split.
  - intros l a Hl H3. destruct (A1 l a Hl (Hd l ltac:(by eexists) H3)) as [n Hn]. destruct (A2 l _ Hn H3) as [m Hm]. by exists m.
  - intros x Hx H3. pose proof (V1 x Hx (Hr x Hx H3)) as E1. unfold same_val in *. rewrite <- E1. apply V2; [| done].
    destruct Hx as [o Eo]. rewrite Eo in E1. cbn in E1. destruct (r_as rt2 !! x); [by eexists | done].
Qed.

Lemma roa_keeps rt rt' M T uses ri l : roas_ok rt M -> rt_ok dbs num rt' T uses -> (forall x, t_as T x = 0) -> keeps rt rt' ->
  i_attr ri = Some l -> is_Some (r_attr rt !! l) -> is_Some (r_attr rt' !! l) -> roa_of rt' ri = roa_of rt ri.
Proof.
  intros Hok Hok' HT [Ha Hv] El [a Hl] Hl'. destruct (Ha l a Hl Hl') as [n Hn]. unfold roa_of. rewrite El, Hl, Hn.
  destruct (ra_paths rt M Hok l a Hl) as [Hp _].
  destruct (attr_path rt T0 _ l a (ra_rt _ _ Hok) (ra_single _ _ Hok) Hl Hp) as (x & o & asn & Ex & Eo & _ & Ev & Hx).
  change (a_aspath (with_refcnt n a)) with (a_aspath a). rewrite Ex, Eo.
  destruct (attr_refs_pos _ _ _ _ _ _ _ Hok' Hn) as (Hp' & _). pose proof (Hp' x Ex) as Hx'.
  pose proof (Hv x ltac:(by eexists)) as Hs. unfold as_refs in *. rewrite HT in Hx'. cbn in Hs. specialize (Hs Hx').
  unfold same_val in Hs. rewrite Eo in Hs. destruct (r_as rt' !! x) as [o'|]; [| done]. cbn in Hs. by injection Hs as ->.
Qed.

(** [roa_attr]: the attribute of a ROA, referenced once more. *)
Lemma roa_attr_steps rt M pr asn maxlen :
  roas_ok rt M -> p_base pr = rpki_base -> is_u32 asn -> n_routes M < 2 ^ 62 ->
  exists rt' f fb n x o, roa_attr dbs num pr rt asn maxlen = Ok (rt', Some f) /\
    rt_ok dbs num rt' (bump_attr T0 f 1) (rib_uses M) /\
    r_attr rt' = <[f := with_refcnt n fb]> (r_attr rt) /\ taken_attr (r_attr rt) f fb n /\
    a_aspath fb = Some x /\ rpki_maxlen fb = maxlen /\ r_as rt' !! x = Some o /\ o_val o = ast_value asn /\
    single (r_as rt') /\ keeps rt rt' /\ rib rt' = rib rt.
Proof.
  intros Hok Eb Hasn Hn. pose proof (ra_rt _ _ Hok) as Hrt.
  assert (Hpeer : type rpki_base < FUNC_TYPE_MAX) by done.
  assert (Hfew : count_room rt) by (eapply (few_room rt M T0 0); [done | done | lia | done]).
  unfold roa_attr. rewrite Eb. unfold aspath_parse_ast. change (negb (routing_db _)) with false. cbv iota.
  destruct (ast2aspath_Ok asn Hasn) as (a0 & E0 & Es & El). rewrite E0, bind_Ok, Es, El. clear E0.
  change (mk_value _ asn) with (ast_value asn).
  destruct (intern_temporary_values dbs rpki_base Hpeer _ _ _ (ast_value asn) (ro_as _ _ _ _ _ Hrt))
    as (st1 & h1 & x & E1 & Hm1 & (o1 & Eo1 & Ev1) & Hnew); [by apply ast_path_ok | apply Hfew |].
  rewrite E1, bind_Ok. clear E1. set (rt1 := with_as rt (st1, h1)).
  pose proof (as_grow dbs num rt T0 _ _ _ _ Hrt Hm1) as Hrt1. fold rt1 in Hrt1.
  assert (Hs1 : single st1).
  { intros y o Ho Hp. destruct (Hnew y o Ho Hp) as [(o0 & H0 & <- & Hp0)|(-> & Hsg & Hlast)].
    - by apply (ra_single _ _ Hok y o0).
    - exists asn. split; [done |]. destruct (o_val o). cbn in *. by rewrite Hsg, (Hlast eq_refl). }
  set (attr := fresh (dom (r_attr rt1))). set (A := mk_attr (Some x) _ _ _ _ _ _ _ _ _ _ _).
  assert (Hfr : r_attr rt1 !! attr = None) by (apply not_elem_of_dom, is_fresh).
  set (rt2 := with_attr rt1 (<[attr := A]> (r_attr rt1), attrhash rt1)).
  assert (Hrt2 : rt_ok dbs num rt2 (add_as (Some x) T0) (rib_uses M)).
  { apply rt_ok_new_attr; try done; [by left |]. intros y [= <-]. cbn. unfold bump. by rewrite decide_True. }
  assert (Hroom2 : count_room rt2).
  { eapply (few_room rt2 M _ 1); [exact Hrt2 | | lia | done]. intros y. cbn. unfold bump. case_decide; split_and!; lia. }
  assert (Hl2 : r_attr rt2 !! attr = Some A) by (cbn; apply lookup_insert_eq).
  destruct (attr_intern_steps dbs num rpki_base Hpeer rt2 _ _ attr A Hrt2 Hroom2 Hl2 eq_refl)
    as (rt3 & f & fb & n & E3 & Hrt3 & Em3 & Ht3 & Hc3 & Hne & Er3 & Hv3).
  rewrite E3, bind_Ok. clear E3.
  assert (Hl3 : r_attr rt3 !! attr = Some A) by (by rewrite Em3, lookup_insert_ne).
  rewrite Hl3. change (deref (Some A)) with (Ok A). rewrite bind_Ok. cbv iota. change (a_aspath A) with (Some x). cbv iota beta.
  assert (Hmd : delete attr (r_attr rt3) = <[f := with_refcnt n fb]> (r_attr rt)).
  { rewrite Em3. cbn. rewrite delete_insert_ne, delete_insert_eq by done. by rewrite delete_id. }
  assert (Ht : taken_attr (r_attr rt) f fb n).
  { unfold taken_attr in *. cbn in Ht3. by rewrite lookup_insert_ne in Ht3. }
  pose proof (rt_ok_delete_attr dbs num rt3 _ _ attr A Hrt3 Hl3 eq_refl) as Hrt3d.
  set (rt3d := with_attr rt3 (delete attr (r_attr rt3), attrhash rt3)) in *.
  assert (Hz : forall y c, r_attr rt3d !! y = Some c -> a_refcnt c <> 0).
  { intros y c. change (r_attr rt3d) with (delete attr (r_attr rt3)). rewrite Hmd. destruct (decide (y = f)) as [->|].
    - rewrite lookup_insert_eq. intros [= <-]. cbn. destruct Ht as [(_ & ? & ->) | [_ ->]]; lia.
    - rewrite lookup_insert_ne by done. apply (ra_paths _ _ Hok). }
  assert (Hrt3' : rt_ok dbs num rt3d (add_as (Some x) (bump_attr T0 f 1)) (rib_uses M)) by exact Hrt3d.
  destruct (as_drop dbs num rpki_base Hpeer rt3d (bump_attr T0 f 1) _ x Hrt3' Hz) as (sh & E4 & Hrt4 & Hv4); [done |].
  change (r_as rt3) with (r_as rt3d). change (ashash rt3) with (ashash rt3d). rewrite E4, !bind_Ok. clear E4.
  change (fst sh) with (r_as (with_as rt3d sh)) in Hv4. set (rt4 := with_as rt3d sh) in *.
  assert (Hrt4m : r_attr rt4 = <[f := with_refcnt n fb]> (r_attr rt)) by exact Hmd.
  destruct (attr_cmp_ptrs fb A Hc3) as (Ep & _). change (a_aspath A) with (Some x) in Ep.
  assert (Hml : rpki_maxlen fb = maxlen).
  { unfold attr_cmp in Hc3. repeat (apply andb_true_iff in Hc3 as [Hc3 ?]). by apply Z.eqb_eq in Hc3. }
  assert (Hlive : 0 < as_refs rt4 (bump_attr T0 f 1) x).
  { assert (Hf4 : r_attr rt4 !! f = Some (with_refcnt n fb)) by (rewrite Hrt4m; apply lookup_insert_eq).
    apply (proj1 (attr_refs_pos _ _ _ _ _ _ _ Hrt4 Hf4)). exact Ep. }
  assert (Hvals : forall y, is_Some (st1 !! y) -> 0 < as_refs rt4 T0 y -> same_val st1 (r_as rt4) y).
  { intros y _ Hp. unfold same_val. etrans; [apply (Hv4 y Hp) | apply (Hv3 y)]. }
  destruct (as_live rt4 _ _ x Hrt4 Hlive) as (o & Eo & _).
  assert (Hvx : o_val o = ast_value asn).
  { pose proof (Hvals x ltac:(by eexists) Hlive) as E. unfold same_val in E. rewrite Eo, Eo1 in E. injection E as ->.
    destruct (Hs1 x o1 Eo1) as (asn' & _ & E').
    - destruct Hm1 as [[_ Hr] _]. pose proof (Hr x) as Hx. rewrite Eo1 in Hx. rewrite <- Hx. unfold bump.
      rewrite decide_True by done. unfold as_refs. cbn.
      assert (0 <= weight a_aspath (r_attr rt) x) by (apply weight_nonneg; intros j c Hj; by apply (ro_attr _ _ _ _ _ Hrt j c)). lia.
    - rewrite E' in Ev1 |- *. by injection Ev1 as ->. }
  exists rt4, f, fb, n, x, o. split; [done |]. split_and!; try done.
  - intros y oy Hy Hpy. pose proof (ct_refs _ _ _ _ (ro_as _ _ _ _ _ Hrt4) y) as Hry. rewrite Hy in Hry.
    assert (Hpy' : 0 < as_refs rt4 T0 y) by (change (0 < as_refs rt4 (bump_attr T0 f 1) y); lia).
    assert (E : o_val <$> Some oy = o_val <$> st1 !! y).
    { rewrite <- Hy. etrans; [apply (Hv4 y Hpy') | apply (Hv3 y)]. }
    destruct (st1 !! y) as [o0|] eqn:E0; [| done]. injection E as ->. apply (Hs1 y o0 E0).
    destruct Hm1 as [[_ Hr] _]. pose proof (Hr y) as H1. rewrite E0 in H1. rewrite <- H1.
    replace (bump _ _ _ _) with (as_refs rt4 T0 y); [done |]. unfold as_refs. rewrite Hrt4m.
    rewrite (weight_taken a_aspath _ f fb n y) by done. rewrite Ep. cbn. unfold bump. lia.
  - split.
    + intros l a Hl _. rewrite Hrt4m. destruct (decide (l = f)) as [->|].
      * rewrite lookup_insert_eq. destruct Ht as [(H & _ & ->) | [H ->]]; rewrite H in Hl; [injection Hl as -> | done]. by eexists.
      * rewrite lookup_insert_ne by done. exists (a_refcnt a). by rewrite with_refcnt_id.
    + intros y Hy Hp. pose proof (proj2 Hm1 y Hy) as E. unfold same_val in E |- *. rewrite <- E. apply Hvals; [| done].
      destruct Hy as [oy Eoy]. rewrite Eoy in E. destruct (st1 !! y); [by eexists | done].
Qed.

(** The attribute of a route of a live table. *)
Lemma route_live rt M k t kk b ri : state_ok dbs num pr0 (with_rib rt M) T0 -> M !! k = Some t -> routes t !! kk = Some b -> ri ∈ b ->
  exists l, i_attr ri = Some l /\ is_Some (r_attr rt !! l).
Proof.
  intros Hs Hk Hb Hri. destruct k as [afi safi]. apply list_elem_of_lookup in Hri as [j Hj].
  destruct (route_attr dbs num pr0 (with_rib rt M) T0 afi safi t kk b j ri Hs Hk) as (l & El & Hl); [by rewrite Hb | done |].
  exists l. split; [done |]. destruct (attr_there dbs num (with_rib rt M) T0 _ l (so_rt _ _ _ _ _ Hs)) as (a & Ea & _); [cbn in *; lia |].
  by exists a.
Qed.

Lemma bucket_elem t kk (ri : bgp_info X) : ri ∈ get_bucket kk 0 (routes t) -> exists b, routes t !! (kk, 0%nat) = Some b /\ ri ∈ b.
Proof. unfold get_bucket. destruct (routes t !! (kk, 0%nat)) as [b|]; cbn; [by exists b | by intros ?%elem_of_nil]. Qed.

(** A list of routes means the same once they are all still there. *)
Lemma roas_same rt rt' M T uses k t kk (l : list (bgp_info X)) : roas_ok rt M -> rt_ok dbs num rt' T uses -> (forall x, t_as T x = 0) -> keeps rt rt' ->
  M !! k = Some t -> (forall ri, ri ∈ l -> ri ∈ get_bucket kk 0 (routes t)) ->
  (forall ri x, ri ∈ l -> i_attr ri = Some x -> is_Some (r_attr rt' !! x)) -> map (roa_of rt') l = map (roa_of rt) l.
Proof.
  intros Hok Hok' HT Hkeep Hk Hl Hl'. apply map_ext_in. intros ri Hri%list_elem_of_In.
  destruct (bucket_elem t kk ri (Hl ri Hri)) as (b & Hb & Hin).
  destruct (route_live rt M k t _ b ri (ra_state _ _ Hok) Hk Hb Hin) as (x & Ex & Hx).
  eapply (roa_keeps rt rt' M T uses ri x); try done. by apply (Hl' ri).
Qed.

(** A table that means the same takes the place of one. *)
Lemma roas_ok_table rt M k t t' : roas_ok rt M -> M !! k = Some t -> table_ok bms t' -> routes t' = routes t -> roas_ok rt (<[k := t']> M).
Proof.
  intros [Hs Hp Ha Hsg] Hk Ht Hr. destruct k as [afi safi]. split; [| | done | done].
  - by apply (state_same_routes dbs num pr0 (with_rib rt M) T0 afi safi t t').
  - intros k x km b ri. destruct (decide (k = (afi, safi))) as [->|].
    + rewrite lookup_insert_eq. intros [= <-]. rewrite Hr. by apply (Hp (afi, safi)).
    + rewrite lookup_insert_ne by done. apply Hp.
Qed.

Lemma Hbms0 : bgp_select_misc_db dbs (type rpki_base) = Some bms.
Proof. done. Qed.

Lemma one_bucket t l nd : table_ok bms t -> t_heap t !! l = Some nd -> exists b, nd_info nd !! 0%nat = Some b.
Proof. intros Ht Hl. apply lookup_lt_is_Some_2. rewrite (to_info _ _ Ht l nd Hl), Hbuckets. lia. Qed.

(** The result of an operation on one table, whose meaning is then [R]; there
    are [d] routes more. *)
Record roa_step rt M k t (R : list bool -> list (Z * Z)) (d : Z) rt' t' : Prop := {
  rs_ok : roas_ok rt' (<[k := t']> M);
  rs_rib : rib rt' = rib rt;
  rs_exact : forall n, leak_but n None t -> leak_but n None t';
  rs_roas : forall k', roas_at rt' t' k' = R k';
  rs_others : forall k0 t0, k0 <> k -> M !! k0 = Some t0 -> forall k', roas_at rt' t0 k' = roas_at rt t0 k';
  rs_routes : n_routes (<[k := t']> M) = n_routes M + d
}.

(** The ROAs of one prefix changed. *)
Definition upd (R : list bool -> list (Z * Z)) (kk : list bool) (v : list (Z * Z)) : list bool -> list (Z * Z) :=
  fun k' => if decide (k' = kk) then v else R k'.

Lemma taken_there (m : gmap loc bgp_attr) f fb n l : taken_attr m f fb n -> is_Some (m !! l) -> is_Some (<[f := with_refcnt n fb]> m !! l).
Proof. intros _ H. destruct (decide (l = f)) as [->|]; [rewrite lookup_insert_eq; by eexists | by rewrite lookup_insert_ne]. Qed.

(** The routes of a prefix replaced by [b'], the stores being those of [rt']. *)
Lemma roa_step_made rt M k t t1 t' rt' T uses kk b b' R' :
  roas_ok rt M -> M !! k = Some t -> table_ok bms t1 -> routes t1 = routes t -> table_ok bms t' ->
  get_bucket kk 0 (routes t1) = b -> routes t' = set_bucket kk 0 b' (routes t1) -> (forall n, leak_but n None t -> leak_but n None t') ->
  rt_ok dbs num rt' T uses -> (forall x, t_as T x = 0 /\ t_com T x = 0 /\ t_ecom T x = 0 /\ t_lcom T x = 0) ->
  (forall l, bucket_uses b' l + rib_uses M l = bucket_uses b l + t_attr T l + uses l) ->
  keeps rt rt' -> single (r_as rt') -> (forall l a, r_attr rt' !! l = Some a -> is_Some (a_aspath a) /\ a_refcnt a <> 0) ->
  Forall (fun ri => i_peer ri = self /\ is_Some (i_attr ri)) b' ->
  (roas_ok rt' (<[k := t']> M) -> map (roa_of rt') b' = R') -> rib rt' = rib rt ->
  roa_step rt M k t (upd (roas_at rt t) kk R') (Z.of_nat (length b') - Z.of_nat (length b)) rt' t'.
Proof.
  intros Hok Hk Ht1 Hr1 Ht' Hb Hr' Hex Hrt' HT Hu Hkeep Hsg Hpaths Hb' HR Er. destruct k as [afi safi].
  rewrite Forall_and in Hb'. destruct Hb' as [Hbp Hba].
  assert (Hok' : roas_ok rt' (<[(afi, safi) := t']> M)).
  { split; [| | done | done].
    - eapply (state_set_bucket dbs num pr0 (with_rib rt' M) T T0 uses afi safi t t' kk 0 b'); try done.
      + by apply (rt_ok_rib dbs num rt' T uses M).
      + apply (so_tables _ _ _ _ _ (ra_state _ _ Hok)).
      + apply (so_attr _ _ _ _ _ (ra_state _ _ Hok)).
      + by rewrite Hr', Hr1.
      + intros l. destruct (HT l) as (-> & -> & -> & ->). done.
      + intros l. rewrite <- Hr1, Hb. cbn [T0 t_attr]. rewrite Z.add_0_r. apply Hu.
    - intros k0 t0 [k1 m] b0 ri. destruct (decide (k0 = (afi, safi))) as [->|].
      + rewrite lookup_insert_eq. intros [= <-]. rewrite Hr', set_bucket_lookup. case_decide as Hd.
        * intros E Hin. assert (b0 = b') as -> by (destruct b'; congruence). by apply (proj1 (Forall_forall _ _) Hbp).
        * rewrite Hr1. by apply (ra_peer _ _ Hok (afi, safi) t).
      + rewrite lookup_insert_ne by done. apply (ra_peer _ _ Hok). }
  assert (Hsame : forall k0 t0 t0' k', M !! k0 = Some t0 -> <[(afi, safi) := t']> M !! k0 = Some t0' ->
    get_bucket k' 0 (routes t0') = get_bucket k' 0 (routes t0) -> roas_at rt' t0' k' = roas_at rt t0 k').
  { intros k0 t0 t0' k' H0 H0' E. unfold roas_at. rewrite E.
    apply (roas_same rt rt' M T uses k0 t0 k' _ Hok Hrt'); [intros x; apply HT | done | done | done |].
    intros ri y Hri Ey. rewrite <- E in Hri. destruct (bucket_elem t0' k' ri Hri) as (b0 & Hb0 & Hin).
    destruct (route_live rt' _ k0 t0' _ b0 ri (ra_state _ _ Hok') H0' Hb0 Hin) as (y' & Ey' & Hy). by replace y with y' by congruence. }
  split; try done.
  - intros k'. unfold upd. destruct (decide (k' = kk)) as [->|Hne].
    + unfold roas_at, get_bucket. rewrite Hr', set_bucket_lookup, decide_True by done. rewrite <- (HR Hok'). by destruct b'.
    + apply (Hsame (afi, safi) t t'); [done | apply lookup_insert_eq |]. unfold get_bucket. rewrite Hr', set_bucket_lookup, decide_False by tauto.
      by rewrite Hr1.
  - intros k0 t0 Hne H0 k'. apply (Hsame k0 t0 t0); [done | by rewrite lookup_insert_ne | done].
  - rewrite (n_routes_set M (afi, safi) t t' Hk), (table_size_set t1 t' kk 0 b' Hr'), Hb. unfold table_size. rewrite Hr1. lia.
Qed.

(** A reference to an attribute given up, and what that leaves. *)
Lemma drop_attr_steps rt T uses f fa :
  rt_ok dbs num rt T uses -> single (r_as rt) -> (forall x, t_as T x = 0) -> r_attr rt !! f = Some fa -> 0 < t_attr T f ->
  exists rt', bgp_attr_unintern dbs num (Some rpki_base) rt f = Ok rt' /\ rt_ok dbs num rt' (bump_attr T f (-1)) uses /\
    r_attr rt' = dropped (r_attr rt) f fa /\ rib rt' = rib rt /\ single (r_as rt') /\ keeps rt rt' /\
    (forall x, as_refs rt' T0 x <= as_refs rt T0 x) /\ (forall l, is_Some (r_attr rt' !! l) -> is_Some (r_attr rt !! l)).
Proof.
  intros Hok Hs HT Hf Htf. destruct (attr_unintern_steps dbs num rpki_base eq_refl rt T uses f fa Hok Hf Htf) as (rt' & E & Hok' & Em & Er & Hv).
  assert (Hrefs : forall x, as_refs rt' T0 x = bump (as_refs rt T0) (a_aspath fa) (-1) x).
  { intros x. unfold as_refs. rewrite Em, (weight_dropped a_aspath _ f fa x) by done. unfold bump. cbn. lia. }
  assert (Hv' : forall x, 0 < as_refs rt' T0 x -> same_val (r_as rt) (r_as rt') x).
  { intros x Hx. apply Hv. rewrite Hrefs in Hx. unfold bump, as_refs in *. rewrite HT. exact Hx. }
  assert (Hle : forall x, as_refs rt' T0 x <= as_refs rt T0 x) by (intros x; rewrite Hrefs; unfold bump; case_decide; lia).
  assert (HT' : forall (m : bgp_rt_structs X) x, as_refs m T x = as_refs m T0 x) by (intros m x; unfold as_refs; by rewrite HT).
  exists rt'. split_and!; try done.
  - intros x o Ho Hp. pose proof (ct_refs _ _ _ _ (ro_as _ _ _ _ _ Hok') x) as Hr. rewrite Ho in Hr.
    assert (Hx : 0 < as_refs rt' T0 x) by (rewrite <- HT'; change (0 < as_refs rt' (bump_attr T f (-1)) x); lia).
    pose proof (Hv' x Hx) as Es. unfold same_val in Es. rewrite Ho in Es. destruct (r_as rt !! x) as [o0|] eqn:E0; [| done].
    injection Es as ->. apply (Hs x o0 E0). pose proof (ct_refs _ _ _ _ (ro_as _ _ _ _ _ Hok) x) as H0. rewrite E0, HT' in H0.
    pose proof (Hle x). lia.
  - split; [| intros x _; apply Hv']. intros l a Hl [b Hb]. rewrite Em in Hb |- *. rewrite dropped_lookup in Hb |- *.
    case_decide as Hd; [| exists (a_refcnt a); by rewrite with_refcnt_id]. rewrite Hd in Hl. assert (fa = a) as -> by congruence.
    case_decide; [done |]. by eexists.
  - intros l [b Hb]. rewrite Em, dropped_lookup in Hb. case_decide as Hd; [rewrite Hd; by eexists | by eexists].
Qed.

(** ** Deletion *)

(** The first ROA of an origin goes, whatever its maximal length. *)
Fixpoint remove_origin (asn : Z) (l : list (Z * Z)) : list (Z * Z) :=
  match l with
  | [] => []
  | (a, m) :: r => if a =? asn then r else (a, m) :: remove_origin asn r
  end.

(** Interned paths are one when they are of one origin. *)
Lemma path_eq rt T uses x y ox oy a b :
  rt_ok dbs num rt T uses -> r_as rt !! x = Some ox -> r_as rt !! y = Some oy -> 0 < as_refs rt T x -> 0 < as_refs rt T y ->
  o_val ox = ast_value a -> o_val oy = ast_value b -> x = y <-> a = b.
Proof.
  intros Hok Hx Hy Px Py Ex Ey. split.
  - intros ->. assert (ox = oy) as -> by congruence. rewrite Ex in Ey. by injection Ey.
  - intros ->. destruct (ro_as _ _ _ _ _ Hok) as [Hi Hr].
    apply (wh_distinct _ _ _ _ (ii_hash _ _ _ Hi)).
    + apply (ii_refs _ _ _ Hi x ox Hx). pose proof (Hr x) as H. rewrite Hx in H. lia.
    + apply (ii_refs _ _ _ Hi y oy Hy). pose proof (Hr y) as H. rewrite Hy in H. lia.
    + unfold ocmp. rewrite Hx, Hy, Ex, Ey. by apply aspath_cmp_eq.
Qed.

(** The search for the ROA to delete. *)
Lemma find_roa_spec rt T uses pr f fb x o asn (l : list (bgp_info X)) : forall k0,
  rt_ok dbs num rt T uses -> single (r_as rt) -> p_self pr = self ->
  r_attr rt !! f = Some fb -> a_aspath fb = Some x -> r_as rt !! x = Some o -> o_val o = ast_value asn ->
  Forall (fun ri => i_peer ri = self /\ exists g a, i_attr ri = Some g /\ r_attr rt !! g = Some a /\ is_Some (a_aspath a)) l ->
  match find_roa pr rt (Some f) l k0 with
  | Ok (Some (k, ri)) => (k0 <= k)%nat /\ l !! (k - k0)%nat = Some ri /\
      remove_origin asn (map (roa_of rt) l) = map (roa_of rt) (delete (k - k0)%nat l)
  | Ok None => remove_origin asn (map (roa_of rt) l) = map (roa_of rt) l
  | Err _ => False
  end.
Proof.
  intros k0 Hok Hs Hpr Hf Ex Eo Ev Hl. revert k0. induction Hl as [|ri l (Hp & g & a & Eg & Ea & Hpath) Hl IH]; intros k0; [done |].
  cbn [find_roa]. rewrite bool_decide_true by congruence.
  destruct (attr_path rt T uses g a Hok Hs Ea Hpath) as (y & oy & b & Ey & Eoy & _ & Evy & Hy).
  assert (Hx : 0 < as_refs rt T x) by (by apply (attr_refs_pos _ _ _ _ _ _ _ Hok Hf)).
  unfold rpki_attrhash_cmp. rewrite Eg. change (deref (Some g)) with (Ok g). rewrite bind_Ok, Ea.
  change (deref (Some a)) with (Ok a). rewrite !bind_Ok. change (deref (Some f)) with (Ok f). rewrite bind_Ok, Hf.
  change (deref (Some fb)) with (Ok fb). rewrite !bind_Ok. cbn [map remove_origin].
  assert (Hroa : roa_of rt ri = (b, rpki_maxlen a)) by (unfold roa_of; by rewrite Eg, Ea, Ey, Eoy, Evy).
  rewrite Hroa, Ey, Ex. pose proof (path_eq rt T uses y x oy o b asn Hok Eoy Eo Hy Hx Evy Ev) as Heq.
  case_bool_decide as Hd.
  - injection Hd as Hd. rewrite Nat.sub_diag. rewrite (proj2 (Z.eqb_eq b asn)) by (by apply Heq). by split_and!.
  - rewrite (proj2 (Z.eqb_neq b asn)) by (intros ->; apply Hd; f_equal; by apply Heq).
    specialize (IH (S k0)). destruct (find_roa pr rt (Some f) l (S k0)) as [[[k rk]|]|]; [| | done].
    + destruct IH as (H1 & H2 & H3). replace (k - k0)%nat with (S (k - S k0)) by lia. cbn [lookup list_lookup delete list_delete map].
      split_and!; [lia | exact H2 |]. by rewrite H3, Hroa.
    + by rewrite IH.
Qed.

(** The node of a prefix, with the routes it has. *)
Lemma roa_node rt M k t p :
  roas_ok rt M -> M !! k = Some t -> lock_room t -> wf_prefix p ->
  exists t1 l nd b, bgp_node_get dbs past rpki_base t p = Ok (t1, l) /\ table_ok bms t1 /\ routes t1 = routes t /\ holds t1 l nd /\
    nkey nd = key p /\ nd_info nd !! Z.to_nat 0 = Some b /\ get_bucket (key p) 0 (routes t1) = b /\
    (forall n, leak_but n None t -> leak_but n (Some l) t1) /\ roas_ok rt (<[k := t1]> M) /\ n_routes (<[k := t1]> M) = n_routes M.
Proof.
  intros Hok Hk Hroom Hp. pose proof (so_tables _ _ _ _ _ (ra_state _ _ Hok) k t Hk) as Ht.
  destruct (get_ok bms dbs past rpki_base Hbms0 Hrw t p Ht Hroom Hp) as (t1 & l & nd & E1 & Ht1 & Hr1 & Hh & Hkey & Hex1).
  destruct (one_bucket t1 l nd Ht1 (proj1 Hh)) as [b Hb]. exists t1, l, nd, b. split_and!; try done.
  - rewrite <- Hkey. by apply (routes_node t1 l nd 0 b (to_wf _ _ Ht1) (proj1 Hh)).
  - by apply (roas_ok_table rt M k t t1).
  - rewrite (n_routes_set M k t t1 Hk). unfold table_size. rewrite Hr1. lia.
Qed.

(** The routes of a prefix are of the peer, each with an attribute that has a
    path. *)
Lemma bucket_routes rt M k t kk : roas_ok rt M -> M !! k = Some t ->
  Forall (fun ri => i_peer ri = self /\ exists g a, i_attr ri = Some g /\ r_attr rt !! g = Some a /\ is_Some (a_aspath a) /\
                    0 < rib_uses M g) (get_bucket kk 0 (routes t)).
Proof.
  intros Hok Hk. apply Forall_forall. intros ri Hri. destruct (bucket_elem t kk ri Hri) as (b & Hb & Hin).
  split; [by apply (ra_peer _ _ Hok k t (kk, 0%nat) b) |].
  destruct (route_live rt M k t (kk, 0%nat) b ri (ra_state _ _ Hok) Hk Hb Hin) as (g & Eg & [a Ha]). exists g, a.
  split_and!; [done | done | by apply (ra_paths _ _ Hok g) |]. by apply (rib_uses_pos M k t (kk, 0%nat) b ri).
Qed.

(** [rpki_info_add] *)
Lemma roa_add_steps rt M k t pr p asn maxlen v4 v6 afi :
  roas_ok rt M -> M !! k = Some t -> lock_room t -> wf_prefix p -> is_u32 asn -> n_routes M < 2 ^ 62 ->
  p_base pr = rpki_base -> p_self pr = self -> select_rib p v4 v6 = Some (afi, t) ->
  exists pr' rt' t', rpki_info_add dbs past num bmed0 pr rt p asn maxlen v4 v6 = Ok (SUCCESS, pr', rt', store_rib afi t' v4 v6) /\
    same_peer pr pr' /\ roa_step rt M k t (upd (roas_at rt t) (key p) ((asn, maxlen) :: roas_at rt t (key p))) 1 rt' t'.
Proof.
  intros Hok Hk Hroom Hp Hasn Hn Eb Eself Esel. unfold rpki_info_add. rewrite Esel, Eb.
  destruct (roa_node rt M k t p Hok Hk Hroom Hp) as (t1 & l & nd & b & E1 & Ht1 & Hr1 & Hh & Hkey & Hb & Hbk & Hex1 & Hok1 & Hn1).
  rewrite E1, bind_Ok. clear E1. set (M1 := <[k := t1]> M) in *.
  destruct (roa_attr_steps rt M pr asn maxlen Hok Eb Hasn Hn)
    as (rt2 & f & fb & n & x & o & E2 & Hrt2 & Em2 & Htk & Ex & Eml & Eo & Ev & Hsg & Hkeep & Er2).
  rewrite E2, bind_Ok. clear E2. cbv iota beta. set (new := mk_info (p_self pr) (Some f) None bmed0).
  destruct (add_ok bms dbs rpki_base Hbms0 Hrw t1 l nd 0 b new (p_lock pr) Ht1 Hh Hb) as (t2 & t' & E3 & E4 & Ht' & Hr' & Hex').
  rewrite E3, bind_Ok, E4, bind_Ok. clear E3 E4. eexists _, rt2, t'. split; [done |]. split; [by eexists |].
  replace 1 with (Z.of_nat (length (new :: b)) - Z.of_nat (length b)) by (cbn [length]; lia).
  assert (Hf2 : r_attr rt2 !! f = Some (with_refcnt n fb)) by (rewrite Em2; apply lookup_insert_eq).
  pose proof (bucket_routes rt M1 k t1 (key p) Hok1 (lookup_insert_eq _ _ _)) as Hbr. rewrite Hbk in Hbr.
  apply (roa_step_made rt M k t t1 t' rt2 (bump_attr T0 f 1) (rib_uses M) (key p) b (new :: b)); try done.
  - by rewrite Hr', Hkey.
  - by intros ? ?%Hex1%Hex'.
  - intros y. rewrite bucket_uses_cons. cbn [i_attr new bump_attr t_attr T0]. rewrite bump_one. ring.
  - intros y c. rewrite Em2. destruct (decide (y = f)) as [->|].
    + rewrite lookup_insert_eq. intros [= <-]. cbn. split; [by rewrite Ex |]. destruct Htk as [(_ & ? & ->) | [_ ->]]; lia.
    + rewrite lookup_insert_ne by done. apply (ra_paths _ _ Hok).
  - apply Forall_cons. split; [split; [exact Eself | by eexists] |]. eapply Forall_impl; [exact Hbr |].
    intros ri (Hp' & g & a & Eg & _). split; [done | by eexists].
  - intros _. cbn [map]. f_equal.
    + unfold roa_of, new. cbn [i_attr]. rewrite Hf2. cbn [with_refcnt a_aspath rpki_maxlen]. by rewrite Ex, Eo, Ev, Eml.
    + unfold roas_at. rewrite <- Hr1, Hbk.
      apply (roas_same rt rt2 M (bump_attr T0 f 1) (rib_uses M) k t (key p) b); try done; [by rewrite <- Hr1, Hbk |].
      intros ri y Hri Ey. rewrite Em2. apply (taken_there _ _ _ _ _ Htk).
      destruct (proj1 (Forall_forall _ _) Hbr ri Hri) as (_ & g & a & Eg & Ea & _). assert (y = g) as -> by congruence. by eexists.
Qed.

Lemma paths_taken rt M f fb n x : roas_ok rt M -> taken_attr (r_attr rt) f fb n -> a_aspath fb = Some x ->
  forall l a, <[f := with_refcnt n fb]> (r_attr rt) !! l = Some a -> is_Some (a_aspath a) /\ a_refcnt a <> 0.
Proof.
  intros Hok Ht Ex l a. destruct (decide (l = f)) as [->|].
  - rewrite lookup_insert_eq. intros [= <-]. cbn. split; [by rewrite Ex |]. destruct Ht as [(_ & ? & ->) | [_ ->]]; lia.
  - rewrite lookup_insert_ne by done. apply (ra_paths _ _ Hok).
Qed.

Lemma paths_dropped (m : gmap loc bgp_attr) f fa : m !! f = Some fa ->
  (forall l a, m !! l = Some a -> is_Some (a_aspath a) /\ a_refcnt a <> 0) ->
  forall l a, dropped m f fa !! l = Some a -> is_Some (a_aspath a) /\ a_refcnt a <> 0.
Proof.
  intros Hf H l a. rewrite dropped_lookup. case_decide; [| apply H]. case_decide; [done |]. intros [= <-]. cbn.
  split; [by apply (H f fa) | lia].
Qed.

(** The route to delete and the reference of the search are given up. *)
Lemma release_both rt M f fb n x g o asn : roas_ok rt M -> taken_attr (r_attr rt) f fb n -> a_aspath fb = Some x ->
  forall rt2, r_attr rt2 = <[f := with_refcnt n fb]> (r_attr rt) -> rt_ok dbs num rt2 (bump_attr T0 f 1) (rib_uses M) ->
  single (r_as rt2) -> keeps rt rt2 -> r_as rt2 !! x = Some o -> o_val o = ast_value asn -> 0 < rib_uses M g ->
  exists rt3 rt4 T, bgp_attr_unintern dbs num (Some rpki_base) rt2 g = Ok rt3 /\
    bgp_attr_unintern dbs num (Some rpki_base) rt3 f = Ok rt4 /\
    rt_ok dbs num rt4 T (fun y => rib_uses M y - one (Some g) y) /\
    (forall y, t_as T y = 0 /\ t_com T y = 0 /\ t_ecom T y = 0 /\ t_lcom T y = 0 /\ t_attr T y = 0) /\
    keeps rt rt4 /\ single (r_as rt4) /\ rib rt4 = rib rt2 /\
    (forall l a, r_attr rt4 !! l = Some a -> is_Some (a_aspath a) /\ a_refcnt a <> 0).
Proof.
  intros Hok Ht Ex rt2 Em Hrt2 Hs2 Hk2 Eo Ev Hg.
  pose proof (take_from_route dbs num rt2 _ _ g Hrt2 Hg) as Hrt2'.
  destruct (attr_there dbs num rt2 _ _ g Hrt2) as (ga & Ega & _).
  { cbn. unfold bump. case_decide; lia. }
  destruct (drop_attr_steps rt2 _ _ g ga Hrt2' Hs2) as (rt3 & E3 & Hrt3 & Em3 & Er3 & Hs3 & Hk3 & Hle3 & Hsub3); [done | done | |].
  { cbn. rewrite !bump_one. unfold one. rewrite (decide_True (P := Some g = Some g)) by done. case_decide; lia. }
  assert (Hf3 : 0 < (rib_uses M f - one (Some g) f) + t_attr (bump_attr (bump_attr (bump_attr T0 f 1) g 1) g (-1)) f).
  { cbn. rewrite !bump_one. unfold one. rewrite (decide_True (P := Some f = Some f)) by done.
    pose proof (rib_uses_nonneg M f). case_decide as E; [injection E as <- |]; lia. }
  destruct (attr_there dbs num rt3 _ _ f Hrt3 Hf3) as (fa & Efa & _).
  destruct (drop_attr_steps rt3 _ _ f fa Hrt3 Hs3) as (rt4 & E4 & Hrt4 & Em4 & Er4 & Hs4 & Hk4 & Hle4 & Hsub4); [done | done | |].
  { cbn. rewrite !bump_one. unfold one. rewrite (decide_True (P := Some f = Some f)) by done. case_decide; lia. }
  assert (Hk13 : keeps rt rt3).
  { apply (keeps_trans rt rt2 rt3); [intros l _; apply Hsub3 | | done | done]. intros y _ Hy. pose proof (Hle3 y). lia. }
  exists rt3, rt4, (bump_attr (bump_attr (bump_attr (bump_attr T0 f 1) g 1) g (-1)) f (-1)). split_and!; try done.
  - intros y. split_and!; try done. cbn. rewrite !bump_one. ring.
  - apply (keeps_trans rt rt3 rt4); [intros l _; apply Hsub4 | | done | done]. intros y _ Hy. pose proof (Hle4 y). lia.
  - congruence.
  - rewrite Em4. apply (paths_dropped _ _ _ Efa). rewrite Em3. apply (paths_dropped _ _ _ Ega). rewrite Em.
    by apply (paths_taken rt M f fb n x).
Qed.

(** One round of [rpki_info_delete]. *)
Lemma roa_delete_steps rt M k t pr p asn :
  roas_ok rt M -> M !! k = Some t -> lock_room t -> wf_prefix p -> is_u32 asn -> n_routes M < 2 ^ 62 ->
  p_base pr = rpki_base -> p_self pr = self ->
  exists pr' rt' t' d, roa_delete dbs past num pr rt t p asn = Ok (pr', rt', t') /\ same_peer pr pr' /\ d <= 0 /\
    roa_step rt M k t (upd (roas_at rt t) (key p) (remove_origin asn (roas_at rt t (key p)))) d rt' t'.
Proof.
  intros Hok Hk Hroom Hp Hasn Hn Eb Eself. unfold roa_delete. rewrite Eb.
  destruct (roa_node rt M k t p Hok Hk Hroom Hp) as (t1 & l & nd & b & E1 & Ht1 & Hr1 & Hh & Hkey & Hb & Hbk & Hex1 & Hok1 & Hn1).
  rewrite E1, bind_Ok. clear E1.
  destruct (roa_attr_steps rt M pr asn 0 Hok Eb Hasn Hn)
    as (rt2 & f & fb & n & x & o & E2 & Hrt2 & Em2 & Htk & Ex & Eml & Eo & Ev & Hsg & Hkeep & Er2).
  rewrite E2, bind_Ok. clear E2.
  assert (Ebk : bucket t1 l 0 = Ok b) by (unfold bucket; rewrite (get_node_Ok t1 l nd (proj1 Hh)), bind_Ok; by rewrite Hb).
  rewrite Ebk, bind_Ok.
  pose proof (bucket_routes rt M k t (key p) Hok Hk) as Hbr. rewrite <- Hr1, Hbk in Hbr.
  assert (Hf2 : r_attr rt2 !! f = Some (with_refcnt n fb)) by (rewrite Em2; apply lookup_insert_eq).
  assert (Hbr2 : Forall (fun ri => i_peer ri = self /\ exists g a, i_attr ri = Some g /\ r_attr rt2 !! g = Some a /\ is_Some (a_aspath a)) b).
  { eapply Forall_impl; [exact Hbr |]. intros ri (Hp' & g & a & Eg & Ea & Hpa & _). split; [done |].
    destruct (taken_there _ f fb n g Htk (ltac:(by eexists) : is_Some (r_attr rt !! g))) as [a' Ha']. rewrite <- Em2 in Ha'. exists g, a'.
    split_and!; [done | done |]. destruct (proj1 Hkeep g a Ea ltac:(by eexists)) as [m Hm]. rewrite Ha' in Hm. injection Hm as ->. done. }
  assert (Hsame : forall rt' T uses l', rt_ok dbs num rt' T uses -> (forall x, t_as T x = 0) -> keeps rt rt' ->
    (forall ri, ri ∈ l' -> ri ∈ b) -> (forall ri y, ri ∈ l' -> i_attr ri = Some y -> is_Some (r_attr rt' !! y)) ->
    map (roa_of rt') l' = map (roa_of rt) l').
  { intros rt' T uses l' H1 H2 H3 H4 H5. apply (roas_same rt rt' M T uses k t (key p) l'); try done. by rewrite <- Hr1, Hbk. }
  assert (Hin2 : forall l', (forall ri, ri ∈ l' -> ri ∈ b) -> map (roa_of rt2) l' = map (roa_of rt) l').
  { intros l' Hl'. apply (Hsame rt2 _ _ l' Hrt2); [done | done | done |]. intros ri y Hri Ey.
    destruct (proj1 (Forall_forall _ _) Hbr2 ri (Hl' ri Hri)) as (_ & g & a & Eg & Ea & _). assert (y = g) as -> by congruence. by eexists. }
  pose proof (find_roa_spec rt2 _ _ pr f _ x o asn b 0%nat Hrt2 Hsg Eself Hf2 Ex Eo Ev Hbr2) as Hfind.
  assert (Hroas : roas_at rt t (key p) = map (roa_of rt) b) by (unfold roas_at; by rewrite <- Hr1, Hbk).
  destruct (find_roa pr rt2 (Some f) b 0) as [[[j ri]|]|]; [| | done]; rewrite bind_Ok.
  - destruct Hfind as (_ & Hri & Hrem). rewrite Nat.sub_0_r in Hri, Hrem.
    assert (Hrib : ri ∈ b) by (apply list_elem_of_lookup; by exists j).
    destruct (proj1 (Forall_forall _ _) Hbr ri Hrib) as (_ & g & a & Eg & _ & _ & Hg).
    destruct (release_both rt M f fb n x g o asn Hok Htk Ex rt2 Em2 Hrt2 Hsg Hkeep Eo Ev Hg)
      as (rt3 & rt4 & T & E3 & E4 & Hrt4 & HT & Hkeep4 & Hsg4 & Er4 & Hpaths4).
    destruct (delete_ok bms dbs rpki_base Hbms0 Hrw t1 l nd 0 b j Ht1 Hh Hb) as (t2 & t' & E5 & E6 & Ht' & Hr' & Hex');
      [by eapply lookup_lt_Some |].
    unfold bgp_info_free. rewrite Eg, Eb, E3, !bind_Ok. cbn [with_peer_lock p_base]. rewrite Eb, E5, !bind_Ok.
    change (deref (Some f)) with (Ok f). rewrite bind_Ok. cbn [with_peer_lock p_base]. rewrite Eb, E4, bind_Ok, E6, bind_Ok.
    eexists _, rt4, t', _. split; [done |]. split; [by eexists |].
    assert (Hdel : forall r, r ∈ delete j b -> r ∈ b) by (intros r Hr; by apply (list_elem_of_delete_inv _ j)).
    split; [| apply (roa_step_made rt M k t t1 t' rt4 T (fun y => rib_uses M y - one (Some g) y) (key p) b (delete j b)); try done].
    + rewrite length_delete by (by eexists). lia.
    + by rewrite Hr', Hkey.
    + by intros ? ?%Hex1%Hex'.
    + intros y. by destruct (HT y) as (?&?&?&?&?).
    + intros y. destruct (HT y) as (_&_&_&_&->). rewrite (bucket_uses_delete b j ri y Hri), Eg. ring.
    + apply Forall_forall. intros r Hr. destruct (proj1 (Forall_forall _ _) Hbr r (Hdel r Hr)) as (? & g' & a' & ? & _).
      split; [done | by eexists].
    + intros Hok4. rewrite Hroas, <- (Hin2 b) by done. rewrite Hrem, (Hin2 _ Hdel).
      apply (Hsame rt4 T _ _ Hrt4); [intros y; apply HT | done | done |]. intros r y Hr Ey.
      assert (Hb' : get_bucket (key p) 0 (routes t') = delete j b).
      { unfold get_bucket. rewrite Hr', Hkey, set_bucket_lookup, decide_True by done. by destruct (delete j b). }
      rewrite <- Hb' in Hr. destruct (bucket_elem t' _ r Hr) as (b0 & Hb0 & Hin0).
      destruct (route_live rt4 _ k t' (key p, 0%nat) b0 r (ra_state _ _ Hok4) (lookup_insert_eq _ _ _) Hb0 Hin0) as (y' & Ey' & Hy).
      by replace y with y' by congruence.
    + congruence.
  - rewrite bind_Ok. change (deref (Some f)) with (Ok f). rewrite bind_Ok, Eb.
    destruct (drop_attr_steps rt2 _ _ f (with_refcnt n fb) Hrt2 Hsg) as (rt4 & E4 & Hrt4 & Em4 & Er4 & Hsg4 & Hk4 & Hle4 & Hsub4); [done | exact Hf2 | |].
    { cbn. unfold bump. by rewrite decide_True. }
    destruct (unlock_ok bms dbs rpki_base Hbms0 Hrw t1 l nd Ht1 (proj1 Hh)) as (t' & E5 & Ht' & Hr' & Hex'); [apply Hh |].
    rewrite E4, bind_Ok, E5, bind_Ok.
    assert (Hkeep4 : keeps rt rt4).
    { apply (keeps_trans rt rt2 rt4); [intros y _; apply Hsub4 | | done | done]. intros y _ Hy. pose proof (Hle4 y). lia. }
    eexists _, rt4, t', _. split; [done |]. split; [by exists (p_lock pr); destruct pr |].
    split; [| apply (roa_step_made rt M k t t1 t' rt4 (bump_attr (bump_attr T0 f 1) f (-1)) (rib_uses M) (key p) b b); try done].
    + lia.
    + rewrite Hr', <- Hbk. symmetry. apply routes_bucket_same. apply (to_wf _ _ Ht1).
    + by intros ? ?%Hex1%Hex'.
    + intros y. cbn. rewrite !bump_one. ring.
    + rewrite Em4. apply (paths_dropped _ _ _ Hf2). rewrite Em2. by apply (paths_taken rt M f fb n x).
    + eapply Forall_impl; [exact Hbr |]. intros r (? & g' & a' & ? & _). split; [done | by eexists].
    + intros Hok4. rewrite Hroas, <- (Hin2 b), Hfind, (Hin2 b) by done.
      apply (Hsame rt4 _ _ b Hrt4); [done | done | done |]. intros r y Hr Ey.
      assert (Hb' : get_bucket (key p) 0 (routes t') = b) by (by rewrite Hr').
      rewrite <- Hb' in Hr. destruct (bucket_elem t' _ r Hr) as (b0 & Hb0 & Hin0).
      destruct (route_live rt4 _ k t' (key p, 0%nat) b0 r (ra_state _ _ Hok4) (lookup_insert_eq _ _ _) Hb0 Hin0) as (y' & Ey' & Hy).
      by replace y with y' by congruence.
    + congruence.
Qed.

(** One operation after the other. *)
Lemma roa_step_trans rt M k t R1 d1 rt1 t1 R2 d2 rt2 t2 :
  roa_step rt M k t R1 d1 rt1 t1 -> roa_step rt1 (<[k := t1]> M) k t1 R2 d2 rt2 t2 -> roa_step rt M k t R2 (d1 + d2) rt2 t2.
Proof.
  intros [A1 A2 A3 A4 A5 A6] [B1 B2 B3 B4 B5 B6]. rewrite insert_insert_eq in B1, B6. split; try done.
  - congruence.
  - intros n Hn. by apply B3, A3.
  - intros k0 t0 Hne H0 k'. rewrite (B5 k0 t0 Hne) by (by rewrite lookup_insert_ne). by apply (A5 k0).
  - lia.
Qed.

Lemma roa_step_ext rt M k t R R' d rt' t' : (forall k', R k' = R' k') -> roa_step rt M k t R d rt' t' -> roa_step rt M k t R' d rt' t'.
Proof. intros E [A1 A2 A3 A4 A5 A6]. split; try done. intros k'. by rewrite A4. Qed.

Lemma roa_step_refl rt M k t : roas_ok rt M -> M !! k = Some t -> roa_step rt M k t (roas_at rt t) 0 rt t.
Proof. intros Hok Hk. rewrite <- (insert_id M k t Hk) in Hok at 1. split; try done. rewrite (insert_id M k t Hk). lia. Qed.

(** What [rpki_info_delete] leaves, the address being [a]: every prefix of the
    address of a length from [len] to [end_] loses the first ROA of the
    origin. *)
Definition delete_range (R : list bool -> list (Z * Z)) (asn len end_ : Z) (a : list Z) : list bool -> list (Z * Z) :=
  fun k => if (len <=? Z.of_nat (length k)) && (Z.of_nat (length k) <=? end_) && bool_decide (k = bits_of a (length k))
           then remove_origin asn (R k) else R k.

Lemma delete_range_step R asn len end_ a k : 0 <= len <= end_ ->
  delete_range (upd R (bits_of a (Z.to_nat len)) (remove_origin asn (R (bits_of a (Z.to_nat len))))) asn (len + 1) end_ a k =
  delete_range R asn len end_ a k.
Proof.
  intros Hl. unfold delete_range, upd. destruct (decide (k = bits_of a (Z.to_nat len))) as [->|Hne].
  - rewrite bits_of_length, Z2Nat.id by lia. rewrite (proj2 (Z.leb_gt (len + 1) len)) by lia.
    rewrite (proj2 (Z.leb_le len len)), (proj2 (Z.leb_le len end_)), bool_decide_eq_true_2 by (done || lia). done.
  - destruct (Z.leb_spec (len + 1) (Z.of_nat (length k))), (Z.leb_spec len (Z.of_nat (length k))); try lia; try done.
    case_bool_decide as Hk; [| by rewrite !andb_false_r]. exfalso. apply Hne. rewrite Hk at 1. f_equal. lia.
Qed.

Lemma delete_loop_steps n asn a end_ fam k : is_u32 asn -> (fam = AF_INET \/ fam = AF_INET6) -> length a = 16%nat -> bytes_ok a ->
  end_ <= max_prefixlen fam ->
  forall fuel len rt M t pr, 0 <= len <= end_ + 1 -> end_ - len + 2 <= Z.of_nat fuel ->
  roas_ok rt M -> M !! k = Some t -> leak_but n None t -> n_routes M + Z.of_nat n < 2 ^ 32 - 2 ->
  p_base pr = rpki_base -> p_self pr = self ->
  exists pr' rt' t' d, delete_loop dbs past num fuel pr rt t (mk_prefix fam len a) asn end_ = Ok (pr', rt', t') /\ same_peer pr pr' /\ d <= 0 /\
    roa_step rt M k t (delete_range (roas_at rt t) asn len end_ a) d rt' t'.
Proof.
  intros Hasn Hfam Hla Hba Hend. assert (Hmax : max_prefixlen fam <= 128).
  { unfold max_prefixlen, IPV4_MAX_PREFIXLEN, IPV6_MAX_PREFIXLEN. by destruct (fam =? AF_INET). }
  induction fuel as [|f IH]; intros len rt M t pr Hlen Hf Hok Hk Hleak Hn Eb Eself; [lia |].
  cbn [delete_loop prefixlen]. destruct (Z.leb_spec len end_) as [Hle|Hgt].
  - assert (Hp : wf_prefix (mk_prefix fam len a)) by (split; cbn; (done || lia)).
    assert (Hroom : lock_room t).
    { apply (lock_room_leak bms n t (so_tables _ _ _ _ _ (ra_state _ _ Hok) k t Hk) Hleak). pose proof (table_size_routes M k t Hk). lia. }
    destruct (roa_delete_steps rt M k t pr (mk_prefix fam len a) asn Hok Hk Hroom Hp Hasn ltac:(lia) Eb Eself)
      as (pr1 & rt1 & t1 & d1 & E1 & Hsp & Hd1 & H1). rewrite E1, bind_Ok. cbn [family addr].
    assert (Hu : u8 (len + 1) = len + 1) by (unfold u8; apply wrap_small; unfold in_u; lia).
    rewrite Hu. destruct Hsp as [c ->].
    destruct (IH (len + 1) rt1 (<[k := t1]> M) t1 (with_peer_lock c pr)) as (pr2 & rt2 & t2 & d2 & E2 & Hsp2 & Hd2 & H2);
      try done; try lia.
    + apply (rs_ok _ _ _ _ _ _ _ _ H1).
    + apply lookup_insert_eq.
    + by apply (rs_exact _ _ _ _ _ _ _ _ H1).
    + rewrite (rs_routes _ _ _ _ _ _ _ _ H1). lia.
    + exists pr2, rt2, t2, (d1 + d2). split; [exact E2 |]. split; [| split; [lia |]].
      * destruct Hsp2 as [c' ->]. by exists c'.
      * eapply roa_step_ext; [| eapply roa_step_trans; [exact H1 | exact H2]]. intros k'. cbv beta.
        rewrite <- (delete_range_step _ asn len end_ a k') by lia. unfold delete_range. cbn [key addr prefixlen].
        rewrite (rs_roas _ _ _ _ _ _ _ _ H1). done.
  - exists pr, rt, t, 0. split; [done |]. split; [apply same_peer_refl |]. split; [done |].
    eapply roa_step_ext; [| by apply roa_step_refl]. intros k'. unfold delete_range.
    destruct (Z.leb_spec len (Z.of_nat (length k'))), (Z.leb_spec (Z.of_nat (length k')) end_); try lia; done.
Qed.

(** [rpki_info_delete] *)
Lemma roa_range_steps n rt M k t pr p asn maxlen v4 v6 afi :
  roas_ok rt M -> M !! k = Some t -> leak_but n None t -> n_routes M + Z.of_nat n < 2 ^ 32 - 2 -> wf_prefix p -> is_u32 asn ->
  0 <= maxlen <= max_prefixlen (family p) -> p_base pr = rpki_base -> p_self pr = self -> select_rib p v4 v6 = Some (afi, t) ->
  exists pr' rt' t' d, rpki_info_delete dbs past num pr rt p asn maxlen v4 v6 = Ok (SUCCESS, pr', rt', store_rib afi t' v4 v6) /\
    same_peer pr pr' /\ d <= 0 /\
    roa_step rt M k t (delete_range (roas_at rt t) asn (prefixlen p) (Z.max (prefixlen p) maxlen) (addr p)) d rt' t'.
Proof.
  intros Hok Hk Hleak Hn Hp Hasn Hml Eb Eself Esel. unfold rpki_info_delete. rewrite Esel. pose proof (wf_len p Hp) as Hl.
  assert (max_prefixlen (family p) <= 128).
  { unfold max_prefixlen, IPV4_MAX_PREFIXLEN, IPV6_MAX_PREFIXLEN. by destruct (family p =? AF_INET). }
  destruct (delete_loop_steps n asn (addr p) (Z.max (prefixlen p) maxlen) (family p) k Hasn (wf_family p Hp) (wf_addr_len p Hp)
    (wf_addr_bytes p Hp) ltac:(lia) 257 (prefixlen p) rt M t pr ltac:(lia) ltac:(lia) Hok Hk Hleak Hn Eb Eself)
    as (pr' & rt' & t' & d & E & Hsp & Hd & Hst). destruct p as [fam len a]. cbn [family prefixlen addr] in *.
  rewrite E, bind_Ok. by exists pr', rt', t', d.
Qed.

(** ** Lookups *)

(** The validation of a route of RFC 6811: valid when some ROA of a prefix that
    covers the route allows its length and has its origin, invalid when there
    are such prefixes with ROAs but none does, unknown when there is none. *)
Definition covering (R : list bool -> list (Z * Z)) (p : prefix) : list (Z * Z) :=
  concat (map (fun n => R (take n (key p))) (seq 0 (S (length (key p))))).

Definition authorises (p : prefix) (asn : Z) (roa : Z * Z) : bool := (fst roa =? asn) && (prefixlen p <=? snd roa).

Definition verdict (p : prefix) (asn c : Z) (l : list (Z * Z)) : Z :=
  if (c =? ROA_STATUS_VALID) || existsb (authorises p asn) l then ROA_STATUS_VALID
  else match l with [] => c | _ => ROA_STATUS_INVALID end.

Definition rov (R : list bool -> list (Z * Z)) (p : prefix) (asn : Z) : Z :=
  verdict p asn ROA_STATUS_UNKNOWN (covering R p).

Lemma verdict_app p asn c l1 l2 : verdict p asn (verdict p asn c l1) l2 = verdict p asn c (l1 ++ l2).
Proof.
  unfold verdict. rewrite existsb_app. destruct (c =? ROA_STATUS_VALID) eqn:Ec, (existsb (authorises p asn) l1) eqn:E1; cbn; try done.
  destruct l1 as [|x l1]; cbn; [by rewrite Ec |]. by destruct (existsb (authorises p asn) l2), l2.
Qed.

(** The order of the ROAs does not matter, nor how often one is there. *)
Lemma verdict_same p asn c l1 l2 : (forall x, x ∈ l1 <-> x ∈ l2) -> verdict p asn c l1 = verdict p asn c l2.
Proof.
  intros H. unfold verdict.
  assert (Ee : existsb (authorises p asn) l1 = existsb (authorises p asn) l2).
  { apply eq_true_iff_eq. rewrite !existsb_exists. split; intros (x & Hx & Hv); exists x; (split; [| done]);
      apply list_elem_of_In; apply list_elem_of_In in Hx; by apply H. }
  rewrite Ee. destruct (_ || _); [done |]. destruct l1 as [|x l1], l2 as [|y l2]; try done.
  - exfalso. by apply (not_elem_of_nil y), H; left.
  - exfalso. by apply (not_elem_of_nil x), H; left.
Qed.

Lemma covering_elem R p x : x ∈ covering R p <-> exists kk, kk `prefix_of` key p /\ x ∈ R kk.
Proof.
  unfold covering. rewrite list_elem_of_In, in_concat. split.
  - intros (l & Hl & Hx). apply in_map_iff in Hl as (n & <- & _). exists (take n (key p)).
    split; [by apply prefix_take | by apply list_elem_of_In].
  - intros (kk & Hkk & Hx). exists (R kk). split; [| by apply list_elem_of_In]. apply in_map_iff. exists (length kk).
    pose proof (prefix_length _ _ Hkk) as Hl. split.
    + f_equal. destruct Hkk as [r ->]. apply take_app_length.
    + apply in_seq. lia.
Qed.

(** A route the callback can look at. *)
Definition readable rt ri : Prop :=
  exists g a x o, i_attr ri = Some g /\ r_attr rt !! g = Some a /\ a_aspath a = Some x /\ r_as rt !! x = Some o.

Lemma roa_cmp_spec rt ri p asn c : readable rt ri ->
  roa_cmp rt ri (Ok (mk_nmct2 c p asn)) =
    (if authorises p asn (roa_of rt ri) then FALSE else TRUE, Ok (mk_nmct2 (verdict p asn c [roa_of rt ri]) p asn)).
Proof.
  intros (g & a & x & o & Eg & Ea & Ex & Eo). unfold roa_cmp. rewrite bind_Ok. unfold rpki_prefix_lookup_node_match_cmp, roa_of, verdict.
  rewrite Eg, Ea. change (deref (Some a)) with (Ok a). rewrite bind_Ok, Ex, Eo. cbn [n_p n_last_as ret_code existsb].
  unfold authorises. cbn [fst snd].
  destruct (prefixlen p <=? rpki_maxlen a).
  - change (deref (Some o)) with (Ok o). rewrite !bind_Ok. cbn [evaluate_last_asn].
    destruct (v_last_as (o_val o) =? asn), (Z.eqb_spec c ROA_STATUS_VALID) as [->|]; done.
  - rewrite bind_Ok, andb_false_r. destruct (Z.eqb_spec c ROA_STATUS_VALID) as [->|]; done.
Qed.

Abbreviation mstate := (match_state (I := bgp_info X) (S2 := res node_match_cmp_term2)).

(** What a scan of the routes [l] leaves: the verdict, and where it matched,
    only when it is valid. *)
Definition scanned p asn (rs : list (Z * Z)) (P : loc -> Prop) (c : Z) (m : option (loc * bgp_info X)) (st : mstate) : Prop :=
  ms_bnv st = None /\ ms_nmct2 st = Ok (mk_nmct2 (verdict p asn c rs) p asn) /\
  match ms_matched st with
  | Some (l, i) => (P l /\ verdict p asn c rs = ROA_STATUS_VALID) \/ m = Some (l, i)
  | None => m = None
  end.

Lemma scan_infos_roas rt p asn l nd infos : Forall (readable rt) infos -> forall c m,
  exists st, scan_infos (roa_cmp rt) l nd p infos (mk_ms m None (Ok (mk_nmct2 c p asn))) = Ok st /\
    scanned p asn (map (roa_of rt) infos) (eq l) c m st.
Proof.
  induction 1 as [|ri infos Hri Hl IH]; intros c m; cbn [scan_infos ms_nmct2].
  { eexists. split; [done |]. unfold scanned, verdict. cbn. split_and!; [done | | destruct m as [[]|]; [by right | done]].
    destruct (Z.eqb_spec c ROA_STATUS_VALID) as [->|]; done. }
  rewrite (roa_cmp_spec rt ri p asn c Hri). cbn [map].
  change (roa_of rt ri :: map (roa_of rt) infos) with ([roa_of rt ri] ++ map (roa_of rt) infos).
  destruct (authorises p asn (roa_of rt ri)) eqn:Ea.
  - change (FALSE =? 0) with true. cbv iota. cbn [ms_bnv bnv_push]. rewrite bind_Ok.
    assert (Ev : forall l', verdict p asn c ([roa_of rt ri] ++ l') = ROA_STATUS_VALID).
    { intros l'. unfold verdict. cbn [existsb app]. rewrite Ea. cbn. by rewrite orb_true_r. }
    pose proof (Ev []) as Ev0. rewrite app_nil_r in Ev0. rewrite Ev0. destruct (_ =? prefixlen p).
    + eexists. split; [done |]. unfold scanned. rewrite Ev. cbn. split_and!; [done | done | by left].
    + destruct (IH ROA_STATUS_VALID (Some (l, ri))) as (st & E & H1 & H2 & H3). exists st. split; [exact E |].
      unfold scanned. rewrite Ev. split_and!; [done | |].
      * rewrite H2. unfold verdict. done.
      * destruct (ms_matched st) as [[l1 i1]|]; [| done]. left. split; [| done]. destruct H3 as [[? _]|[= -> ->]]; done.
  - change (TRUE =? 0) with false. cbv iota. cbn [ms_matched ms_bnv].
    destruct (IH (verdict p asn c [roa_of rt ri]) m) as (st & E & H1 & H2 & H3). exists st. split; [exact E |].
    unfold scanned. rewrite <- verdict_app. by split_and!.
Qed.

(** The routes of one bucket of a node. *)
Definition node_roas rt t l : list (Z * Z) :=
  match t_heap t !! l with Some nd => map (roa_of rt) (default [] (nd_info nd !! 0%nat)) | None => [] end.

Lemma scan_path_roas rt t p asn ls : 
  Forall (fun l => exists nd b, t_heap t !! l = Some nd /\ nd_info nd !! 0%nat = Some b /\ Forall (readable rt) b) ls ->
  forall c m, exists st, scan_path (roa_cmp rt) t p 1 0 ls (mk_ms m None (Ok (mk_nmct2 c p asn))) = Ok st /\
    scanned p asn (concat (map (node_roas rt t) ls)) (fun l => is_Some (t_heap t !! l)) c m st.
Proof.
  induction 1 as [|l ls (nd & b & Hl & Hb & Hr) Hls IH]; intros c m; cbn [scan_path].
  { eexists. split; [done |]. unfold scanned, verdict. cbn. split_and!; [done | | destruct m as [[]|]; [by right | done]].
    destruct (Z.eqb_spec c ROA_STATUS_VALID) as [->|]; done. }
  rewrite (get_node_Ok t l nd Hl), bind_Ok. cbn [scan_buckets]. change (Z.to_nat 0) with 0%nat. rewrite Hb, bind_Ok.
  destruct (scan_infos_roas rt p asn l nd b Hr c m) as (st1 & E1 & H1 & H2 & H3). rewrite E1, !bind_Ok.
  destruct st1 as [m1 bnv1 n1]. cbn [ms_bnv ms_nmct2 ms_matched] in *. subst bnv1 n1.
  destruct (IH (verdict p asn c (map (roa_of rt) b)) m1) as (st & E & G1 & G2 & G3). exists st. split; [exact E |].
  assert (En : node_roas rt t l = map (roa_of rt) b) by (unfold node_roas; by rewrite Hl, Hb).
  cbn [map concat]. rewrite En. unfold scanned. rewrite <- verdict_app. split_and!; [done | done |].
  destruct (ms_matched st) as [[l2 i2]|].
  - destruct G3 as [G3|G3]; [by left |]. rewrite G3 in H3. destruct H3 as [[<- Hv]|H3]; [| by right].
    left. split; [by eexists |]. rewrite Hv. unfold verdict. done.
  - rewrite G3 in H3. done.
Qed.

(** [rpki_prefix_lookup] *)
Lemma prefix_lookup_steps n rt M p asn :
  roas_ok rt M -> wf_prefix p -> match_buckets bms = (1, 1) ->
  let k := (family2afi (family p), SAFI_UNICAST) in
  forall t, M !! k = Some t -> rib rt !! k = Some t -> leak_but n None t -> n_routes M + Z.of_nat n < 2 ^ 32 - 2 ->
  exists t', rpki_prefix_lookup dbs past (Some rt) (Some p) asn = Ok (rov (roas_at rt t) p asn, Some (set_rib rt (fst k) (snd k) t')) /\
    table_ok bms t' /\ routes t' = routes t /\ leak_but (S n) None t' /\ (rov (roas_at rt t) p asn <> ROA_STATUS_VALID -> t' = t).
Proof.
  intros Hok Hp Hmb k t Hk Hrib Hleak Hn. pose proof (so_tables _ _ _ _ _ (ra_state _ _ Hok) k t Hk) as Ht.
  pose proof (to_wf _ _ Ht) as Hwf. unfold rpki_prefix_lookup. fold k. rewrite Hrib. unfold bgp_node_match. rewrite Hbms0, Hmb.
  change (Z.to_nat 1) with 1%nat. cbv zeta.
  rewrite (match_walk_path past (roa_cmp rt) t p 1 0 Hwf Hp (S walk_fuel) (t_top t) None _ eq_refl)
    by (unfold walk_fuel; destruct (t_top t); lia).
  rewrite <- (path_fuel t p Hwf Hp walk_fuel (S walk_fuel) (t_top t) None eq_refl)
    by (unfold walk_fuel; destruct (t_top t); lia).
  set (ls := path walk_fuel t p (t_top t)).
  destruct (scan_path_roas rt t p asn ls) with (c := ROA_STATUS_UNKNOWN) (m := None (A := loc * bgp_info X)) as (st & E & H1 & H2 & H3).
  { apply Forall_forall. intros l Hl. destruct (path_in t Hwf p Hp _ _ l Hl) as (nd & H & _).
    destruct (one_bucket t l nd Ht H) as [b Hb]. exists nd, b. split_and!; [done | done |].
    pose proof (bucket_routes rt M k t (nkey nd) Hok Hk) as Hbr. rewrite (routes_node t l nd 0 b Hwf H Hb) in Hbr.
    eapply Forall_impl; [exact Hbr |]. intros ri (_ & g & a & Eg & Ea & Hpa & _).
    destruct (attr_path rt T0 _ g a (ra_rt _ _ Hok) (ra_single _ _ Hok) Ea Hpa) as (x & o & _ & Ex & Eo & _). by exists g, a, x, o. }
  rewrite E, bind_Ok.
  assert (Ev : verdict p asn ROA_STATUS_UNKNOWN (concat (map (node_roas rt t) ls)) = rov (roas_at rt t) p asn).
  { apply verdict_same. intros x. rewrite covering_elem, list_elem_of_In, in_concat. split.
    - intros (l0 & Hl0 & Hx). apply in_map_iff in Hl0 as (l & <- & Hl). apply list_elem_of_In in Hl, Hx.
      destruct (path_in t Hwf p Hp _ _ l Hl) as (nd & H & Hpre). exists (nkey nd). split; [done |].
      unfold node_roas in Hx. rewrite H in Hx. destruct (one_bucket t l nd Ht H) as [b Hb]. rewrite Hb in Hx.
      unfold roas_at. by rewrite (routes_node t l nd 0 b Hwf H Hb).
    - intros (kk & Hpre & Hx). unfold roas_at in Hx. apply list_elem_of_fmap in Hx as (ri & -> & Hri).
      destruct (bucket_elem t kk ri Hri) as (b & Hb & Hin). apply (routes_lookup t kk 0 b Hwf) in Hb as (_ & l & nd & H & <- & Hb).
      exists (node_roas rt t l). split; [apply in_map_iff; exists l; split; [done |]; apply list_elem_of_In; by apply (path_complete t Hwf p Hp l nd) |].
      unfold node_roas. rewrite H, Hb. apply list_elem_of_In, list_elem_of_fmap. by exists ri. }
  rewrite Ev in *. destruct (ms_matched st) as [[l i]|].
  - destruct H3 as [[[nd H] Hv]|?]; [| done].
    destruct (bgp_lock_node_Ok dbs rpki_base bms Hbms0 t l nd H) as (kl & Ek & ->). rewrite Ek, !bind_Ok, H2, bind_Ok. rewrite Hrw.
    assert (Hroom : lock_room t) by (apply (lock_room_leak bms n t Ht Hleak); pose proof (table_size_routes M k t Hk); lia).
    pose proof (to_held _ _ Ht l nd H) as Hlk. pose proof (Hroom l nd H) as Hlr. unfold refs in *.
    assert (Hnn : 0 <= refs nd) by apply refs_nonneg. unfold refs in Hnn.
    rewrite u32_small by lia. destruct (put_lock_ok bms t l nd (nd_lock nd + 1) Ht H) as [Hok' Hr']; [unfold refs; lia |].
    eexists. split; [done |]. split_and!; [exact Hok' | exact Hr' | | done].
    apply (put_exact (S n) None); [| | done].
    + intros y ny Hy. pose proof (Hleak y ny Hy) as Hly. unfold leak_node in *. lia.
    + pose proof (Hleak l nd H) as Hll. unfold leak_node in *. rewrite decide_False in * by done. cbn [with_lock nd_lock].
      change (refs (with_lock (nd_lock nd + 1) nd)) with (refs nd). lia.
  - rewrite bind_Ok, H2, bind_Ok. exists t. split; [done |]. split_and!; [done | done | | done].
    intros y ny Hy. pose proof (Hleak y ny Hy) as Hly. unfold leak_node in *. lia.
Qed.

(** ** The tables emptied *)

Lemma fewer_keeps rt rt' : fewer T0 rt rt' -> keeps rt rt'.
Proof.
  intros [F1 F2 F3]. split; [| intros x _; apply F3]. intros l a Hl [b Hb].
  destruct (F1 l b Hb) as (n & a0 & H0 & -> & _). exists n. congruence.
Qed.

Lemma roas_fewer rt rt' M M' : roas_ok rt M -> fewer T0 rt rt' -> state_ok dbs num pr0 (with_rib rt' M') T0 ->
  (forall k t km b ri, M' !! k = Some t -> routes t !! km = Some b -> ri ∈ b -> i_peer ri = self) -> roas_ok rt' M'.
Proof.
  intros Hok [F1 F2 F3] Hs Hp. split; [done | done | |].
  - intros l a Hl. destruct (F1 l a Hl) as (n & a0 & H0 & -> & Hz). destruct (ra_paths _ _ Hok l a0 H0) as [H1 H2].
    split; [done |]. cbn. intros ->. by apply H2, Hz.
  - intros x o Ho Hpos. pose proof (state_rt dbs num pr0 T0 rt' M' Hs) as Hrt'. pose proof (ra_rt _ _ Hok) as Hrt.
    pose proof (ct_refs _ _ _ _ (ro_as _ _ _ _ _ Hrt') x) as H1. rewrite Ho in H1.
    pose proof (F3 x ltac:(lia)) as Hv. unfold same_val in Hv. rewrite Ho in Hv. destruct (r_as rt !! x) as [o0|] eqn:E0; [| done].
    injection Hv as ->. apply (ra_single _ _ Hok x o0 E0). pose proof (ct_refs _ _ _ _ (ro_as _ _ _ _ _ Hrt) x) as H2. rewrite E0 in H2.
    pose proof (F2 x). lia.
Qed.

Lemma roas_kept rt rt' M M' k t k' : roas_ok rt M -> roas_ok rt' M' -> fewer T0 rt rt' -> M !! k = Some t -> M' !! k = Some t ->
  roas_at rt' t k' = roas_at rt t k'.
Proof.
  intros Hok Hok' Hf Hk Hk'. unfold roas_at.
  apply (roas_same rt rt' M T0 (rib_uses M') k t k' _ Hok (ra_rt _ _ Hok')); [done | by apply fewer_keeps | done | done |].
  intros ri y Hri Ey. destruct (bucket_elem t k' ri Hri) as (b & Hb & Hin).
  destruct (route_live rt' M' k t _ b ri (ra_state _ _ Hok') Hk' Hb Hin) as (y' & Ey' & Hy). by replace y with y' by congruence.
Qed.

(** A table without routes comes and goes. *)
Lemma roas_empty rt M k t : M !! k = None -> table_ok bms t -> routes t = ∅ -> roas_ok rt (<[k := t]> M) <-> roas_ok rt M.
Proof using Hbuckets.
  intros Hk Ht Hr. assert (Hu : forall x, rib_uses (<[k := t]> M) x = rib_uses M x).
  { intros x. unfold rib_uses. rewrite msum_insert by done. unfold table_uses. rewrite Hr, msum_empty. lia. }
  assert (Hmove : forall M1 M2, (forall x, rib_uses M1 x = rib_uses M2 x) -> rt_ok dbs num rt T0 (rib_uses M1) -> rt_ok dbs num rt T0 (rib_uses M2)).
  { intros M1 M2 E H. eapply (rt_ok_move dbs num rt T0 T0); try done.
    + intros l. rewrite E. lia.
    + intros l. split; [by apply (ro_temps dbs num rt T0 _ H) | apply rib_uses_nonneg]. }
  split; intros [Hs Hp Ha Hsg]; split; try done.
  - pose proof (state_rt _ _ _ _ _ _ Hs) as Hrt. split.
    + by apply (rt_ok_rib dbs num rt T0 _ M), (Hmove (<[k := t]> M)).
    + intros k0 t0 H0. apply (so_tables _ _ _ _ _ Hs k0). cbn in *. rewrite lookup_insert_ne; congruence.
    + intros k0 t0 km b ri H0. apply (so_attr _ _ _ _ _ Hs k0). cbn in *. rewrite lookup_insert_ne; congruence.
  - intros k0 t0 km b ri H0. apply (Hp k0). rewrite lookup_insert_ne; congruence.
  - pose proof (state_rt _ _ _ _ _ _ Hs) as Hrt. split.
    + by apply (rt_ok_rib dbs num rt T0 _ (<[k := t]> M)), (Hmove M).
    + intros k0 t0. cbn. destruct (decide (k0 = k)) as [->|]; [rewrite lookup_insert_eq; by intros [= <-] |].
      rewrite lookup_insert_ne by done. apply (so_tables _ _ _ _ _ Hs).
    + intros k0 t0 km b ri. cbn. destruct (decide (k0 = k)) as [->|]; [rewrite lookup_insert_eq; intros [= <-]; by rewrite Hr, lookup_empty |].
      rewrite lookup_insert_ne by done. apply (so_attr _ _ _ _ _ Hs).
  - intros k0 t0 km b ri. destruct (decide (k0 = k)) as [->|]; [rewrite lookup_insert_eq; intros [= <-]; by rewrite Hr, lookup_empty |].
    rewrite lookup_insert_ne by done. apply Hp.
Qed.

Hypothesis Hppb : table_per_peer_buckets bms = 1.

(** One of the tables of [rib], among [M], loses all its routes and goes. *)
Lemma table_flush n rt M k t afi safi pr :
  roas_ok rt M -> M !! k = Some t -> rib rt !! (afi, safi) = Some t -> same_peer pr0 pr -> leak_but n None t ->
  table_size t + Z.of_nat n < 2 ^ 32 - 3 ->
  exists pr' rt' t', bgp_table_info_delete dbs num (fun _ _ _ _ _ => 0) false pr rt afi safi = Ok (pr', rt') /\ same_peer pr0 pr' /\
    roas_ok rt' (delete k M) /\ fewer T0 rt rt' /\ rib rt' = <[(afi, safi) := t']> (rib rt) /\ bgp_table_free (Some t') = Ok tt.
Proof using Hrw Hbuckets Hppb.
  intros Hok Hk Hr Hp Hleak Hsz.
  destruct (table_info_delete_steps dbs num pr0 eq_refl Hrw (fun _ _ _ _ _ => 0) false T0 k afi safi n rt M t pr)
    as (pr' & rt' & t' & E & Hp' & [G1 G2 G3 G4 G5]); try done.
  - apply (ra_state _ _ Hok).
  - change (dbs (type (p_base pr0))) with bms. rewrite Hppb, Hbuckets. done.
  - change (dbs (type (p_base pr0))) with bms. by rewrite Hppb.
  - pose proof (so_tables _ _ _ _ _ G1 k t' (lookup_insert_eq _ _ _)) as Ht'.
    assert (Hempty : routes t' = ∅).
    { apply map_eq. intros [kk j]. rewrite lookup_empty. apply eq_None_not_Some. intros [b Hb].
      assert (Hb0 : b <> [] /\ j = 0%nat).
      { apply (routes_lookup t' kk j b (to_wf _ _ Ht')) in Hb as (Hb & l & nd & Hl & _ & Ei). split; [done |].
        apply lookup_lt_Some in Ei. rewrite (to_info _ _ Ht' l nd Hl) in Ei. change (dbs (type (p_base pr0))) with bms in Ei.
        rewrite Hbuckets in Ei. lia. }
      destruct Hb0 as [Hb0 ->]. pose proof (proj1 (G5 kk 0%nat)) as Hg. change (dbs (type (p_base pr0))) with bms in Hg.
      rewrite Hppb in Hg. specialize (Hg ltac:(unfold in_buckets; lia)). unfold get_bucket at 1 in Hg. rewrite Hb in Hg. cbn in Hg. subst b.
      apply Hb0. unfold others. assert (Hall : Forall (fun ri => ~ i_peer ri <> p_self pr0) (get_bucket kk 0 (routes t))).
      { apply Forall_forall. intros ri Hri. destruct (bucket_elem t kk ri Hri) as (b & Hb' & Hin). rewrite (ra_peer _ _ Hok k t _ b ri Hk Hb' Hin). tauto. }
      revert Hall. clear. induction 1 as [|ri l H _ IH]; [done |]. by rewrite filter_cons_False. }
    assert (Hok' : roas_ok rt' (<[k := t']> M)).
    { eapply (roas_fewer rt rt' M); [done | done | done |]. intros k0 t0 km b ri. destruct (decide (k0 = k)) as [->|].
      - rewrite lookup_insert_eq. intros [= <-]. by rewrite Hempty, lookup_empty.
      - rewrite lookup_insert_ne by done. apply (ra_peer _ _ Hok). }
    rewrite <- insert_delete_eq in Hok'. apply roas_empty in Hok'; [| apply lookup_delete_eq | exact Ht' | done].
    exists pr', rt', t'. split_and!; try done. apply table_free_ok, (to_wf _ _ Ht').
Qed.

(** [rpki_ribs_free] *)
Lemma ribs_free_steps n rt M k4 k6 v4 v6 pr :
  roas_ok rt M -> M !! k4 = Some v4 -> M !! k6 = Some v6 -> k4 <> k6 -> same_peer pr0 pr -> leak_but n None v4 -> leak_but n None v6 ->
  n_routes M + Z.of_nat n < 2 ^ 32 - 3 ->
  exists pr' rt', rpki_ribs_free dbs num pr rt v4 v6 = Ok (pr', rt') /\ same_peer pr0 pr' /\
    roas_ok rt' (delete k6 (delete k4 M)) /\ fewer T0 rt rt' /\ rib rt' = rib rt.
Proof using Hrw Hbuckets Hppb.
  intros Hok H4 H6 Hne Hp Hl4 Hl6 Hn. pose proof (table_size_routes M k4 v4 H4). pose proof (table_size_routes M k6 v6 H6).
  unfold rpki_ribs_free. set (rt1 := with_rib rt _).
  destruct (table_flush n rt1 M k4 v4 AFI_IP SAFI_UNICAST pr) as (pr2 & rt2 & t4 & E2 & Hp2 & Hok2 & Hf2 & Er2 & Efree4); try done; try lia.
  { destruct Hok as [Hs Hpp Ha Hsg]. by split. }
  rewrite E2, bind_Ok. clear E2.
  destruct (table_flush n rt2 (delete k4 M) k6 v6 AFI_IP6 SAFI_UNICAST pr2) as (pr3 & rt3 & t6 & E3 & Hp3 & Hok3 & Hf3 & Er3 & Efree6); try done; try lia.
  { by rewrite lookup_delete_ne. }
  { rewrite Er2. reflexivity. }
  rewrite E3, bind_Ok. clear E3. unfold get_rib.
  assert (L4 : rib rt3 !! (AFI_IP, SAFI_UNICAST) = Some t4) by (rewrite Er3, Er2; reflexivity).
  assert (L6 : rib rt3 !! (AFI_IP6, SAFI_UNICAST) = Some t6) by (rewrite Er3; apply lookup_insert_eq).
  rewrite L4. change (deref (Some t4)) with (Ok t4). rewrite bind_Ok, L6. change (deref (Some t6)) with (Ok t6). rewrite bind_Ok, Efree4, bind_Ok, Efree6, bind_Ok.
  eexists _, _. split; [done |]. split_and!; try done.
  - destruct Hok3 as [Hs Hpp Ha Hsg]. by split.
  - destruct (fewer_trans _ _ _ _ Hf2 Hf3) as [F1 F2 F3]. by split.
Qed.

End Roas.

End RpkiFacts.
