(* ===== verification/RpkiRtrFacts.v ===== *)
(** * ROAs from a file and from a cache

    What both tables mean, [R afi k] (the ROAs registered for a prefix of a
    family), is all there is to the state of [rpki_roa_db]: every operation of
    [Rpki] is one on [R] ([announce], [withdraw], [nothing]), and the RTR
    session is a machine that consumes the octets of one PDU after the other
    and applies what each says. *)

From S2P Require Import Prelude CBuf Bgp BgpPrefix BgpTable BgpTableFacts BgpRoutes BgpHash BgpHashFacts BgpInternFacts.
From S2P Require Import Aspath AspathFacts Communities CommunitiesFacts BgpAttr BgpAttrFacts BgpRib BgpRibFacts BgpRouterFacts BgpFlushFacts.
From S2P Require Import Rpki RpkiFacts.

Module RpkiRtrFacts.
Import CBuf Bgp BgpPrefix BgpTable BgpTableFacts BgpRoutes BgpHash BgpHashFacts BgpIntern BgpInternFacts
  Aspath AspathFacts Communities CommunitiesFacts BgpAttr BgpAttrFacts BgpRib BgpRibFacts BgpRouterFacts BgpFlushFacts Rpki RpkiFacts.

(** ** What the tables mean *)

Abbreviation meaning := (Z -> list bool -> list (Z * Z)).

Definition on_family (p : prefix) (f : (list bool -> list (Z * Z)) -> list bool -> list (Z * Z)) (R : meaning) : meaning :=
  fun afi => if afi =? family2afi (family p) then f (R afi) else R afi.

(** A ROA announced; a ROA withdrawn, as [rpki_info_delete] does it; none
    left. *)
Definition announce (p : prefix) (asn maxlen : Z) : meaning -> meaning :=
  on_family p (fun r => upd r (key p) ((asn, maxlen) :: r (key p))).
Definition withdraw (p : prefix) (asn maxlen : Z) : meaning -> meaning :=
  on_family p (fun r => delete_range r asn (prefixlen p) (Z.max (prefixlen p) maxlen) (addr p)).
Definition nothing : meaning := fun _ _ => [].

(** A ROA taken back as the protocol has it: this one, if it is there. *)
Fixpoint remove_roa (x : Z * Z) (l : list (Z * Z)) : list (Z * Z) :=
  match l with
  | [] => []
  | y :: r => if decide (y = x) then r else y :: remove_roa x r
  end.
Definition retract (p : prefix) (asn maxlen : Z) : meaning -> meaning :=
  on_family p (fun r => upd r (key p) (remove_roa (asn, maxlen) (r (key p)))).

(** The ROA is the only one of its origin for the prefixes of the address from
    its length to its maximal length. *)
Definition sole_roa (p : prefix) (asn maxlen : Z) (R : meaning) : Prop :=
  forall len m, prefixlen p <= len <= Z.max (prefixlen p) maxlen ->
    (asn, m) ∈ R (family2afi (family p)) (bits_of (addr p) (Z.to_nat len)) -> len = prefixlen p /\ m = maxlen.

Lemma remove_origin_sole asn maxlen l : (forall m, (asn, m) ∈ l -> m = maxlen) -> remove_origin asn l = remove_roa (asn, maxlen) l.
Proof.
  induction l as [|[a m] l IH]; [done |]. intros H. cbn. destruct (Z.eqb_spec a asn) as [->|Hne].
  - rewrite (H m) by left. by rewrite decide_True.
  - rewrite decide_False by congruence. f_equal. apply IH. intros m' Hm. apply H. by right.
Qed.

Lemma remove_origin_none asn l : (forall m, (asn, m) ∉ l) -> remove_origin asn l = l.
Proof.
  induction l as [|[a m] l IH]; [done |]. intros H. cbn. destruct (Z.eqb_spec a asn) as [->|Hne].
  - destruct (H m). by left.
  - f_equal. apply IH. intros m' Hm. apply (H m'). by right.
Qed.

(** The withdrawal of such a ROA is the protocol's. *)
Lemma withdraw_sole p asn maxlen R : 0 <= prefixlen p -> sole_roa p asn maxlen R ->
  forall afi k, withdraw p asn maxlen R afi k = retract p asn maxlen R afi k.
Proof.
  intros Hp H afi k. unfold withdraw, retract, on_family. destruct (Z.eqb_spec afi (family2afi (family p))) as [->|]; [| done].
  unfold delete_range, upd. set (r := R _). destruct (decide (k = key p)) as [->|Hne].
  - unfold key. rewrite bits_of_length, Z2Nat.id, bool_decide_eq_true_2 by done.
    rewrite (proj2 (Z.leb_le (prefixlen p) _)), (proj2 (Z.leb_le (prefixlen p) (Z.max _ _))) by lia. cbn [andb].
    apply remove_origin_sole. intros m Hm. apply (H (prefixlen p) m); [lia | exact Hm].
  - destruct (_ && _) eqn:E; [| done]. apply andb_true_iff in E as [E Hk]. apply andb_true_iff in E as [H1 H2].
    apply Z.leb_le in H1, H2. apply bool_decide_eq_true in Hk. apply remove_origin_none. intros m Hm.
    destruct (H (Z.of_nat (length k)) m) as [Hlen _]; [lia | rewrite Nat2Z.id, <- Hk; exact Hm |].
    apply Hne. unfold key. rewrite <- Hlen, Nat2Z.id. exact Hk.
Qed.

Section Store.
Context {X : Type}.
Context (dbs : misc_dbs) (past : Z) (num : bool) (bmed0 : X) (self : loc).
Context (m_data : bgp_misc_structs).
(** What [rpki_daemon_wrapper] sets up. *)
Hypothesis Hdb : dbs FUNC_TYPE_RPKI = rpki_link_misc_structs m_data.
Hypothesis Hro : is_readonly m_data = false.
Abbreviation pr0 := (rpki_init_dummy_peer self).
Abbreviation bms := (dbs FUNC_TYPE_RPKI).
Abbreviation table := (bgp_table (bgp_info X)).
Implicit Types (rt : bgp_rt_structs X) (t : table) (R : meaning).

Lemma Hrw : is_readonly bms = false.
Proof using Hdb Hro. by rewrite Hdb. Qed.
Lemma Hbuckets : info_buckets bms = 1%nat.
Proof using Hdb. by rewrite Hdb. Qed.
Lemma Hppb : table_per_peer_buckets bms = 1.
Proof using Hdb. by rewrite Hdb. Qed.
Lemma Hmatch : match_buckets bms = (1, 1).
Proof using Hdb. by rewrite Hdb. Qed.

(** The tables of the database mean [R]; at most [n] lookups have left a lock
    behind, and there are at most [c] ROAs. *)
Record holds_roas (n : nat) (c : Z) (pr : peer) rt R : Prop := {
  hr_ok : roas_ok dbs num self rt (rib rt);
  hr_peer : same_peer pr0 pr;
  hr_table : forall afi, afi = AFI_IP \/ afi = AFI_IP6 ->
    exists t, rib rt !! (afi, SAFI_UNICAST) = Some t /\ leak_but n None t /\ forall k, roas_at rt t k = R afi k;
  hr_routes : n_routes (rib rt) <= c
}.

Lemma holds_ext n c pr rt R R' : (forall afi k, R afi k = R' afi k) -> holds_roas n c pr rt R -> holds_roas n c pr rt R'.
Proof using.
  intros E [H1 H2 H3 H4]. split; try done. intros afi Ha. destruct (H3 afi Ha) as (t & Ht & Hl & Hr).
  exists t. split_and!; [done | done |]. intros k. by rewrite Hr.
Qed.

Lemma holds_more n c c' pr rt R : c <= c' -> holds_roas n c pr rt R -> holds_roas n c' pr rt R.
Proof using. intros Hc [H1 H2 H3 H4]. split; try done. lia. Qed.

Lemma roas_ok_rib rt M r : roas_ok dbs num self rt M -> roas_ok dbs num self (with_rib rt r) M.
Proof using. intros [H1 H2 H3 H4]. by split. Qed.

Lemma same_base pr : same_peer pr0 pr -> p_base pr = rpki_base /\ p_self pr = self.
Proof using. by intros [c ->]. Qed.

(** One table was changed, and both are written back. *)
Lemma holds_step n c d pr pr' rt R p t rt' t' f :
  holds_roas n c pr rt R -> (family p = AF_INET \/ family p = AF_INET6) -> same_peer pr pr' ->
  rib rt !! (family2afi (family p), SAFI_UNICAST) = Some t ->
  (forall r1 r2 k, (forall k, r1 k = r2 k) -> f r1 k = f r2 k) ->
  roa_step dbs num self rt (rib rt) (family2afi (family p), SAFI_UNICAST) t (f (roas_at rt t)) d rt' t' ->
  holds_roas n (c + d) pr' (with_rib rt' (<[(family2afi (family p), SAFI_UNICAST) := t']> (rib rt))) (on_family p f R).
Proof using.
  intros [H1 H2 H3 H4] Hfam Hp Hk Hf [A1 A2 A3 A4 A5 A6]. set (afi0 := family2afi (family p)) in *. split.
  - by apply (roas_ok_rib rt' _ _).
  - by eapply same_peer_trans.
  - intros afi Ha. unfold on_family. fold afi0. destruct (H3 afi Ha) as (t0 & Ht0 & Hl0 & Hr0). cbn [rib with_rib].
    destruct (Z.eqb_spec afi afi0) as [->|Hne].
    + exists t'. split_and!; [apply lookup_insert_eq | apply A3; by assert (t0 = t) as <- by congruence |].
      intros k. change (roas_at (with_rib rt' _) t' k) with (roas_at rt' t' k). rewrite A4. apply Hf. intros k0.
      rewrite <- Hr0. by assert (t0 = t) as <- by congruence.
    + exists t0. split_and!; [rewrite lookup_insert_ne by congruence; done | done |].
      intros k. change (roas_at (with_rib rt' _) t0 k) with (roas_at rt' t0 k). rewrite (A5 (afi, SAFI_UNICAST)); [done | congruence | done].
  - cbn [rib with_rib]. lia.
Qed.

Lemma select_store rt R n c pr p : holds_roas n c pr rt R -> wf_prefix p ->
  let afi := family2afi (family p) in
  exists t, rib rt !! (afi, SAFI_UNICAST) = Some t /\ leak_but n None t /\
    select_rib p (rib rt !! (AFI_IP, SAFI_UNICAST)) (rib rt !! (AFI_IP6, SAFI_UNICAST)) = Some (afi, t) /\
    forall rt' t', rib rt' = rib rt ->
      let '(v4, v6) := store_rib afi t' (rib rt !! (AFI_IP, SAFI_UNICAST)) (rib rt !! (AFI_IP6, SAFI_UNICAST)) in
      let put a (o : option table) r := match o with Some x => set_rib r a SAFI_UNICAST x | None => r end in
      put AFI_IP6 v6 (put AFI_IP v4 rt') = with_rib rt' (<[(afi, SAFI_UNICAST) := t']> (rib rt)).
Proof using.
  intros H Hp afi. destruct (hr_table _ _ _ _ _ H AFI_IP (or_introl eq_refl)) as (t4 & H4 & L4 & _).
  destruct (hr_table _ _ _ _ _ H AFI_IP6 (or_intror eq_refl)) as (t6 & H6 & L6 & _).
  rewrite H4, H6. unfold select_rib, afi.
  destruct (wf_family p Hp) as [->| ->].
  - change (family2afi AF_INET) with AFI_IP. exists t4. split_and!; try done. intros rt' t' E. cbn [store_rib].
    change (AFI_IP =? AFI_IP) with true. cbv iota. 
    change (with_rib rt' (<[(AFI_IP6, SAFI_UNICAST) := t6]> (<[(AFI_IP, SAFI_UNICAST) := t']> (rib rt'))) =
            with_rib rt' (<[(AFI_IP, SAFI_UNICAST) := t']> (rib rt))).
    rewrite E, insert_insert_ne by done. by rewrite (insert_id (rib rt)).
  - change (family2afi AF_INET6) with AFI_IP6. exists t6. split_and!; try done. intros rt' t' E. unfold store_rib.
    change (AFI_IP6 =? AFI_IP) with false. cbv iota.
    change (with_rib rt' (<[(AFI_IP6, SAFI_UNICAST) := t']> (<[(AFI_IP, SAFI_UNICAST) := t4]> (rib rt'))) =
            with_rib rt' (<[(AFI_IP6, SAFI_UNICAST) := t']> (rib rt))).
    rewrite E. by rewrite (insert_id (rib rt)).
Qed.

(** ** The operations *)

Lemma room n c pr rt R t k : holds_roas n c pr rt R -> rib rt !! k = Some t -> leak_but n None t -> c + Z.of_nat n < 2 ^ 32 - 3 ->
  lock_room t /\ n_routes (rib rt) < 2 ^ 62 /\ n_routes (rib rt) + Z.of_nat n < 2 ^ 32 - 2.
Proof using.
  intros H Hk Hl Hc. pose proof (hr_routes _ _ _ _ _ H). split_and!; try lia.
  apply (lock_room_leak bms n t (so_tables _ _ _ _ _ (ra_state _ _ _ _ _ (hr_ok _ _ _ _ _ H)) k t Hk) Hl).
  pose proof (table_size_routes _ k t Hk). lia.
Qed.

Lemma parse_announce n c (s : rtr_state X) R p asn maxlen :
  holds_roas n c (s_peer s) (s_roas s) R -> wf_prefix p -> is_u32 asn -> c + Z.of_nat n < 2 ^ 32 - 3 ->
  exists pr' rt', parse_roa dbs past num bmed0 RPKI_RTR_PREFIX_FLAGS_ANNOUNCE p asn maxlen s = Ok (with_roas pr' rt' s) /\
    holds_roas n (c + 1) pr' rt' (announce p asn maxlen R).
Proof using Hdb Hro.
  intros H Hp Hasn Hc. destruct (select_store _ _ _ _ _ p H Hp) as (t & Ht & Hl & Esel & Est).
  destruct (room _ _ _ _ _ t _ H Ht Hl Hc) as (Hroom & Hn & _). destruct (same_base _ (hr_peer _ _ _ _ _ H)) as [Eb Es].
  destruct (roa_add_steps dbs past num bmed0 self Hrw Hbuckets _ _ _ t _ p asn maxlen _ _ _ (hr_ok _ _ _ _ _ H) Ht Hroom Hp Hasn Hn Eb Es Esel)
    as (pr' & rt' & t' & E & Hp' & Hst).
  unfold parse_roa. change (RPKI_RTR_PREFIX_FLAGS_ANNOUNCE =? RPKI_RTR_PREFIX_FLAGS_WITHDRAW) with false.
  change (RPKI_RTR_PREFIX_FLAGS_ANNOUNCE =? RPKI_RTR_PREFIX_FLAGS_ANNOUNCE) with true. cbv iota zeta. cbn [fst snd]. rewrite E, bind_Ok.
  pose proof (Est rt' t' (rs_rib _ _ _ _ _ _ _ _ _ _ _ Hst)) as Es'. destruct (store_rib _ _ _ _) as [v4 v6]. cbv iota beta zeta in Es'. rewrite Es'.
  eexists pr', _. split; [done |].
  refine (holds_step _ _ _ _ _ _ _ p t rt' t' (fun r => upd r (key p) ((asn, maxlen) :: r (key p))) H (wf_family p Hp) Hp' Ht _ Hst).
  intros r1 r2 k Hr. unfold upd. by rewrite !Hr.
Qed.

Lemma parse_withdraw n c (s : rtr_state X) R p asn maxlen :
  holds_roas n c (s_peer s) (s_roas s) R -> wf_prefix p -> is_u32 asn -> 0 <= maxlen <= max_prefixlen (family p) ->
  c + Z.of_nat n < 2 ^ 32 - 3 ->
  exists pr' rt', parse_roa dbs past num bmed0 RPKI_RTR_PREFIX_FLAGS_WITHDRAW p asn maxlen s = Ok (with_roas pr' rt' s) /\
    holds_roas n c pr' rt' (withdraw p asn maxlen R).
Proof using Hdb Hro.
  intros H Hp Hasn Hml Hc. destruct (select_store _ _ _ _ _ p H Hp) as (t & Ht & Hl & Esel & Est).
  destruct (room _ _ _ _ _ t _ H Ht Hl Hc) as (_ & _ & Hn). destruct (same_base _ (hr_peer _ _ _ _ _ H)) as [Eb Es].
  destruct (roa_range_steps dbs past num self Hrw Hbuckets n _ _ _ t _ p asn maxlen _ _ _ (hr_ok _ _ _ _ _ H) Ht Hl Hn Hp Hasn Hml Eb Es Esel)
    as (pr' & rt' & t' & d & E & Hp' & Hd & Hst).
  unfold parse_roa. change (RPKI_RTR_PREFIX_FLAGS_WITHDRAW =? RPKI_RTR_PREFIX_FLAGS_WITHDRAW) with true. cbv iota zeta. cbn [fst snd].
  rewrite E, bind_Ok.
  pose proof (Est rt' t' (rs_rib _ _ _ _ _ _ _ _ _ _ _ Hst)) as Es'. destruct (store_rib _ _ _ _) as [v4 v6]. cbv iota beta zeta in Es'. rewrite Es'.
  eexists pr', _. split; [done |]. apply (holds_more n (c + d)); [lia |].
  refine (holds_step _ _ _ _ _ _ _ p t rt' t' (fun r => delete_range r asn (prefixlen p) (Z.max (prefixlen p) maxlen) (addr p))
    H (wf_family p Hp) Hp' Ht _ Hst).
  intros r1 r2 k Hr. unfold delete_range. by rewrite !Hr.
Qed.

(** [rpki_ribs_reset] *)
Lemma ribs_reset_steps n c pr rt R : holds_roas n c pr rt R -> c + Z.of_nat n < 2 ^ 32 - 3 ->
  exists pr' rt', rpki_ribs_reset dbs num pr rt = Ok (pr', rt') /\ holds_roas n c pr' rt' nothing.
Proof using Hdb Hro.
  intros H Hc. destruct H as [Hok Hp Ht Hr].
  destruct (Ht AFI_IP (or_introl eq_refl)) as (t4 & H4 & L4 & _). destruct (Ht AFI_IP6 (or_intror eq_refl)) as (t6 & H6 & L6 & _).
  unfold rpki_ribs_reset, get_rib. rewrite H4. change (deref (Some t4)) with (Ok t4). rewrite bind_Ok, H6.
  change (deref (Some t6)) with (Ok t6). rewrite bind_Ok.
  destruct (ribs_free_steps dbs num self Hrw Hbuckets Hppb n rt (rib rt) _ _ t4 t6 pr Hok H4 H6 ltac:(done) Hp L4 L6 ltac:(lia))
    as (pr' & rt' & E & Hp' & Hok' & _ & Er). rewrite E, bind_Ok.
  destruct (init_table_ok bms AFI_IP SAFI_UNICAST (I := bgp_info X)) as [Hi4 He4].
  destruct (init_table_ok bms AFI_IP6 SAFI_UNICAST (I := bgp_info X)) as [Hi6 He6].
  set (i4 := bgp_table_init AFI_IP SAFI_UNICAST) in *. set (i6 := bgp_table_init AFI_IP6 SAFI_UNICAST) in *.
  assert (Hleak : forall (i : table), t_heap i = ∅ -> leak_but n None i) by (intros i Ei l nd; by rewrite Ei, lookup_empty).
  assert (Hrib : rib (set_ribs rt' i4 i6) = <[(AFI_IP6, SAFI_UNICAST) := i6]> (<[(AFI_IP, SAFI_UNICAST) := i4]> (rib rt)))
    by (unfold set_ribs, set_rib; cbn [rib with_rib]; by rewrite Er).
  exists pr', (set_ribs rt' i4 i6). split; [done |]. split; [| done | |].
  - rewrite Hrib. apply roas_ok_rib, roas_ok_rib. rewrite <- insert_delete_eq.
    apply (roas_empty dbs num self Hbuckets rt' _ (AFI_IP6, SAFI_UNICAST) i6); [apply lookup_delete_eq | done | done |].
    rewrite delete_insert_ne by done. rewrite <- insert_delete_eq.
    rewrite <- (delete_delete (rib rt)) in Hok'.
    by apply (roas_empty dbs num self Hbuckets rt' _ (AFI_IP, SAFI_UNICAST) i4); [apply lookup_delete_eq | done | done |].
  - intros afi [-> | ->]; rewrite Hrib.
    + exists i4. split_and!; [by rewrite lookup_insert_ne, lookup_insert_eq by done | by apply Hleak |]. intros k. unfold roas_at. by rewrite He4.
    + exists i6. split_and!; [apply lookup_insert_eq | by apply Hleak |]. intros k. unfold roas_at. by rewrite He6.
  - assert (Hz : table_size i4 = 0 /\ table_size i6 = 0) by (unfold table_size; by rewrite He4, He6, msum_empty).
    pose proof (table_size_routes (rib rt) _ t4 H4). rewrite Hrib.
    assert (H6' : <[(AFI_IP, SAFI_UNICAST) := i4]> (rib rt) !! (AFI_IP6, SAFI_UNICAST) = Some t6) by (by rewrite lookup_insert_ne).
    rewrite (n_routes_set _ _ t6 i6 H6'), (n_routes_set _ _ t4 i4 H4). pose proof (table_size_routes (<[(AFI_IP, SAFI_UNICAST) := i4]> (rib rt)) _ t6 H6').
    assert (Hnn : forall t : table, 0 <= table_size t) by (intros t; unfold table_size; apply msum_nonneg; intros; lia).
    pose proof (Hnn t4). pose proof (Hnn t6). lia.
Qed.

Lemma init_table rt afi : afi = AFI_IP \/ afi = AFI_IP6 ->
  rib (init_shared_rib rt) !! (afi, SAFI_UNICAST) = Some (bgp_table_init afi SAFI_UNICAST).
Proof using.
  intros Ha. unfold init_shared_rib.
  replace (seqZ AFI_IP (AFI_MAX - AFI_IP)) with (AFI_IP :: AFI_IP6 :: drop 2 (seqZ AFI_IP (AFI_MAX - AFI_IP))) by reflexivity.
  set (afis := drop 2 _). set (safis := seqZ _ _).
  assert (Hrow : forall l a (r : bgp_rt_structs X) b, SAFI_UNICAST ∈ l -> b = a ->
    rib (foldl (fun rt safi => set_rib rt a safi (bgp_table_init a safi)) r l) !! (b, SAFI_UNICAST) = Some (bgp_table_init b SAFI_UNICAST)).
  { intros l a r b Hl ->. induction l as [|x l IH] using rev_ind; [by apply elem_of_nil in Hl |]. rewrite foldl_app. cbn.
    destruct (decide (x = SAFI_UNICAST)) as [->|Hne]; [apply lookup_insert_eq |]. rewrite lookup_insert_ne by congruence.
    apply IH. apply elem_of_app in Hl as [?|?%list_elem_of_singleton]; [done | congruence]. }
  assert (Hother : forall l a (r : bgp_rt_structs X) k, a <> k.1 ->
    rib (foldl (fun rt safi => set_rib rt a safi (bgp_table_init a safi)) r l) !! k = rib r !! k).
  { intros l a r k Hne. induction l as [|x l IH] using rev_ind; [done |]. rewrite foldl_app. cbn.
    rewrite lookup_insert_ne; [done |]. intros <-. by apply Hne. }
  assert (Hrest : forall l (r : bgp_rt_structs X) k, k.1 ∉ l ->
    rib (foldl (fun rt afi => foldl (fun rt safi => set_rib rt afi safi (bgp_table_init afi safi)) rt safis) r l) !! k = rib r !! k).
  { intros l r k. revert r. induction l as [|x l IH]; intros r Hl; [done |]. apply not_elem_of_cons in Hl as [Hx Hl].
    cbn [foldl]. rewrite IH by done. apply Hother. congruence. }
  assert (Hin : SAFI_UNICAST ∈ safis) by (apply list_elem_of_In; left; reflexivity).
  cbn [foldl]. rewrite Hrest.
  - destruct Ha as [-> | ->]; [rewrite Hother by done |]; by apply Hrow.
  - assert (Hd : forallb (fun x => negb (x =? AFI_IP) && negb (x =? AFI_IP6)) afis = true) by reflexivity.
    cbn [fst]. intros Hx. apply list_elem_of_In in Hx. rewrite forallb_forall in Hd. apply Hd in Hx. destruct Ha as [->| ->]; done.
Qed.

(** [rpki_prefix_lookup]: the node that matched keeps a lock for ever. *)
Lemma roa_lookup_steps n c pr rt R p asn : holds_roas n c pr rt R -> wf_prefix p -> c + Z.of_nat n < 2 ^ 32 - 3 ->
  exists rt', rpki_prefix_lookup dbs past (Some rt) (Some p) asn = Ok (rov (R (family2afi (family p))) p asn, Some rt') /\
    holds_roas (S n) c pr rt' R.
Proof using Hdb Hro.
  intros H Hp Hc. set (afi := family2afi (family p)). assert (Ha : afi = AFI_IP \/ afi = AFI_IP6).
  { unfold afi. by destruct (wf_family p Hp) as [->| ->]; [left | right]. }
  destruct (hr_table _ _ _ _ _ H afi Ha) as (t & Ht & Hl & Hr). pose proof (hr_routes _ _ _ _ _ H) as Hn.
  destruct (prefix_lookup_steps dbs past num self Hrw Hbuckets n rt (rib rt) p asn (hr_ok _ _ _ _ _ H) Hp Hmatch t Ht Ht Hl ltac:(lia))
    as (t' & E & Ht' & Hr' & Hl' & _).
  assert (Erov : rov (roas_at rt t) p asn = rov (R afi) p asn).
  { unfold rov, covering. do 2 f_equal. apply map_ext. intros i. apply Hr. }
  exists (set_rib rt afi SAFI_UNICAST t'). split; [rewrite E, Erov; done |]. destruct H as [H1 H2 H3 H4]. split; [| done | |].
  - unfold set_rib. cbn [rib with_rib]. apply roas_ok_rib. by apply (roas_ok_table dbs num self rt (rib rt) (afi, SAFI_UNICAST) t t').
  - intros a Ha'. cbn. destruct (decide (a = afi)) as [->|Hne].
    + exists t'. split_and!; [apply lookup_insert_eq | done |]. intros k. rewrite <- (Hr k). unfold roas_at. by rewrite Hr'.
    + destruct (H3 a Ha') as (t0 & Ht0 & Hl0 & Hr0). exists t0. split_and!; [rewrite lookup_insert_ne; [done | congruence] | | done].
      intros l nd Hnd. pose proof (Hl0 l nd Hnd) as Hx. unfold leak_node in *. lia.
  - cbn. rewrite (n_routes_set _ _ t t' Ht). unfold table_size. rewrite Hr'. lia.
Qed.

(** A daemon that has just started. *)
Lemma init_holds_roas buckets : 0 < buckets < 2 ^ 31 ->
  holds_roas 0 0 pr0 (init_shared_rib (bgp_attr_init (X := X) buckets rt0)) nothing.
Proof using.
  intros Hb. set (rt := init_shared_rib _).
  assert (Hself : with_rib rt (rib rt) = rt) by (by destruct rt).
  pose proof (init_rib_tables (X := X) (bgp_attr_init buckets rt0) eq_refl) as Ht. fold rt in Ht.
  assert (Hattr : r_attr rt = ∅) by (unfold rt; by rewrite init_rib_keeps).
  split.
  - split.
    + rewrite Hself. by apply init_state_ok.
    + intros k t km b ri (a & s & ->)%Ht. by rewrite (proj2 (init_table_ok bms a s)), lookup_empty.
    + intros l a. by rewrite Hattr, lookup_empty.
    + assert (Has : r_as rt = ∅) by (unfold rt; by apply (init_shared_ind (fun r => r_as r = ∅))).
      intros l o. by rewrite Has, lookup_empty.
  - apply same_peer_refl.
  - intros afi Ha. eexists. split; [by apply init_table |]. split.
    + intros l nd. cbn. by rewrite lookup_empty.
    + intros k. unfold roas_at. by rewrite (proj2 (init_table_ok bms afi SAFI_UNICAST)).
  - unfold rt. by rewrite init_routes.
Qed.

End Store.

(** ** The messages of the cache *)

(** What the cache may say, and its encoding in version [v] of the protocol
    (RFC 6810, RFC 8210); the prefix of an IPv4 PDU has 4 octets of address. *)
Inductive pdu :=
| Prefix (announced : bool) (p : prefix) (asn maxlen : Z)
| SerialNotify (id n : Z)
| CacheResponse (id : Z)
| EndOfData (id n refresh_ivl retry_ivl expire_ivl : Z)
| CacheReset.

Definition be16_bytes (v : Z) : list Z := [v / 256; v mod 256].

Definition enc (v : Z) (d : pdu) : list Z :=
  match d with
  | Prefix announced p asn maxlen =>
      let flags := if announced then RPKI_RTR_PREFIX_FLAGS_ANNOUNCE else RPKI_RTR_PREFIX_FLAGS_WITHDRAW in
      if family p =? AF_INET
      then [v; RPKI_RTR_PDU_IPV4_PREFIX; 0; 0] ++ htonl 20 ++ [flags; prefixlen p; maxlen; 0] ++ take 4 (addr p) ++ htonl asn
      else [v; RPKI_RTR_PDU_IPV6_PREFIX; 0; 0] ++ htonl 32 ++ [flags; prefixlen p; maxlen; 0] ++ addr p ++ htonl asn
  | SerialNotify id n => [v; RPKI_RTR_PDU_SERIAL_NOTIFY] ++ be16_bytes id ++ htonl 12 ++ htonl n
  | CacheResponse id => [v; RPKI_RTR_PDU_CACHE_RESPONSE] ++ be16_bytes id ++ htonl 8
  | EndOfData id n rf rt ex =>
      [v; RPKI_RTR_PDU_END_OF_DATA] ++ be16_bytes id ++
      (if v =? RPKI_RTR_V0 then htonl 12 ++ htonl n else htonl 24 ++ htonl n ++ htonl rf ++ htonl rt ++ htonl ex)
  | CacheReset => [v; RPKI_RTR_PDU_CACHE_RESET; 0; 0] ++ htonl 8
  end.

Definition wf_pdu (d : pdu) : Prop :=
  match d with
  | Prefix announced p asn maxlen =>
      wf_prefix p /\ is_u32 asn /\ 0 <= maxlen <= max_prefixlen (family p) /\
      (family p = AF_INET -> addr p = take 4 (addr p) ++ replicate 12 0)
  | SerialNotify id n => is_u16 id /\ is_u32 n
  | CacheResponse id => is_u16 id
  | EndOfData id n rf rt ex => is_u16 id /\ is_u32 n /\ is_u32 rf /\ is_u32 rt /\ is_u32 ex
  | CacheReset => True
  end.

(** What the router knows. *)
Record view := mk_view {
  w_roas : Z -> list bool -> list (Z * Z);
  w_session : Z;
  w_serial : Z;
  w_refresh : rpki_rtr_timer;
  w_retry : rpki_rtr_timer;
  w_expire : rpki_rtr_timer
}.

(** What a PDU does at time [now]; [None] where the session is closed. *)
Definition apply_pdu (v now : Z) (d : pdu) (w : view) : option view :=
  match d with
  | Prefix announced p asn maxlen =>
      Some (mk_view (if announced : bool then announce p asn maxlen (w_roas w) else withdraw p asn maxlen (w_roas w))
              (w_session w) (w_serial w) (w_refresh w) (w_retry w) (w_expire w))
  | SerialNotify _ _ => Some w
  | CacheResponse id => Some (mk_view (w_roas w) id (w_serial w) (w_refresh w) (w_retry w) (w_expire w))
  | EndOfData id n rf rt ex =>
      if negb (w_session w =? id) then None
      else
        let refresh := mk_timer now (ivl (w_refresh w)) in
        let expire := mk_timer now (ivl (w_expire w)) in
        if v =? RPKI_RTR_V0 then Some (mk_view (w_roas w) id n refresh (w_retry w) expire)
        else
          let refresh := set_ivl rf refresh in
          let retry := set_ivl rt (w_retry w) in
          if (now <=? ivl retry) || (now <=? ivl refresh) then None
          else Some (mk_view (w_roas w) id n refresh retry (set_ivl ex expire))
  | CacheReset => Some (mk_view nothing 0 0 (w_refresh w) (w_retry w) (w_expire w))
  end.

Lemma byte_at_app pre l i : 0 <= i -> byte_at (pre ++ l) (strlen pre + i) = byte_at l i.
Proof.
  intros H. unfold byte_at, strlen. rewrite lookup_app_r by lia. do 2 f_equal. lia.
Qed.

Lemma pdu_be32_read pre v post i : is_u32 v -> i = strlen pre -> pdu_be32 (pre ++ htonl v ++ post) i = v.
Proof.
  intros Hv ->. unfold pdu_be32. rewrite <- (Z.add_0_r (strlen pre)) at 1. rewrite !byte_at_app by lia. by apply (ntohl_htonl v).
Qed.

Lemma pdu_be16_read pre v post i : is_u16 v -> i = strlen pre -> pdu_be16 (pre ++ be16_bytes v ++ post) i = v.
Proof.
  intros Hv ->. unfold pdu_be16. rewrite <- (Z.add_0_r (strlen pre)) at 1. rewrite !byte_at_app by lia.
  change (be16 (v / 256) (v mod 256) = v). unfold be16. Z.div_mod_to_equations. lia.
Qed.

Ltac ivls := unfold RPKI_RTR_V0_DEFAULT_REFRESH_IVL, RPKI_RTR_V1_DEFAULT_REFRESH_IVL, RPKI_RTR_V0_DEFAULT_RETRY_IVL,
  RPKI_RTR_V1_DEFAULT_RETRY_IVL, RPKI_RTR_V0_DEFAULT_EXPIRE_IVL, RPKI_RTR_V1_DEFAULT_EXPIRE_IVL.

(** The branch of a PDU whose type is known. *)
Ltac dispatch :=
  rewrite Z.eqb_refl; change (negb true) with false; cbv iota;
  repeat match goal with
         | |- context [if ?a =? ?b then _ else _] =>
             let r := eval vm_compute in (a =? b) in
             match r with
             | true => change (a =? b) with true
             | false => change (a =? b) with false
             end; cbv iota
         end.

Section Session.
Context {X : Type}.
Context (dbs : misc_dbs) (past : Z) (num : bool) (bmed0 : X) (self : loc).
Context (m_data : bgp_misc_structs).
Hypothesis Hdb : dbs FUNC_TYPE_RPKI = rpki_link_misc_structs m_data.
Hypothesis Hro : is_readonly m_data = false.
Context (v : Z).
Implicit Types (s : rtr_state X) (w : view).
Abbreviation parse := (rpki_rtr_parse_msg dbs past num bmed0 v 2).

(** Two octets are all that is looked at. *)
Lemma parse_more ready s : 2 <= ready -> rpki_rtr_parse_msg dbs past num bmed0 v ready s = parse s.
Proof using. intros H. unfold rpki_rtr_parse_msg, peek. by rewrite (Z.min_l 2 ready), (Z.min_l 2 2) by lia. Qed.

Lemma peek_two s a b l : s_in s = a :: b :: l -> peek 2 s = [a; b].
Proof using. intros H. unfold peek. by rewrite H. Qed.

(** The state [s], connected at time [tm], is one of a router that knows
    [w]. *)
Record viewed (n : nat) (c tm : Z) s w : Prop := {
  vw_roas : holds_roas dbs num self n c (s_peer s) (s_roas s) (w_roas w);
  vw_fd : 0 < fd (s_cache s);
  vw_now : now (s_cache s) = tm;
  vw_session : session_id (s_cache s) = w_session w;
  vw_serial : serial (s_cache s) = w_serial w;
  vw_refresh : refresh (s_cache s) = w_refresh w;
  vw_retry : retry (s_cache s) = w_retry w;
  vw_expire : expire (s_cache s) = w_expire w
}.

(** A session that was closed: nothing is known any more. *)
Record closed (n : nat) (c : Z) s : Prop := {
  cl_roas : holds_roas dbs num self n c (s_peer s) (s_roas s) nothing;
  cl_fd : fd (s_cache s) = ERR
}.

Lemma close_steps n c s R : holds_roas dbs num self n c (s_peer s) (s_roas s) R -> c + Z.of_nat n < 2 ^ 32 - 3 ->
  exists pr' rt', rpki_rtr_close dbs num s = Ok (with_roas pr' rt' (with_cache (with_session 0 0 (with_fd ERR (s_cache s))) s)) /\
    holds_roas dbs num self n c pr' rt' nothing.
Proof using Hdb Hro.
  intros H Hc. destruct (ribs_reset_steps dbs num self m_data Hdb Hro n c _ _ _ H Hc) as (pr' & rt' & E & H').
  unfold rpki_rtr_close. rewrite E, bind_Ok. by exists pr', rt'.
Qed.

Lemma recv_pdu s pdu rest n : s_in s = pdu ++ rest -> strlen pdu = n ->
  recv n s = (pdu, mk_rtr (s_cache s) (s_peer s) (s_roas s) rest (s_out s)).
Proof using.
  intros E <-. unfold recv, strlen. rewrite Nat2Z.id, E, take_app_length, drop_app_length. done.
Qed.

Lemma connected_Ok s k : 0 < fd (s_cache s) -> connected s k = k.
Proof using. intros H. unfold connected. by rewrite (proj2 (Z.ltb_lt _ _) H). Qed.

(** One octet, or none, when two are looked at: the session is closed, though
    the rest may be on its way. *)
Lemma parse_peek_short ready s : 0 < fd (s_cache s) -> ready < 2 -> rpki_rtr_parse_msg dbs past num bmed0 v ready s = rpki_rtr_close dbs num s.
Proof using.
  intros Hfd Hr. unfold rpki_rtr_parse_msg. rewrite connected_Ok by done. unfold peek. rewrite Z.min_r by lia.
  destruct (Z.to_nat ready) as [|[|k]] eqn:E; [done | by destruct (s_in s) | lia].
Qed.

(** A prefix. *)
Lemma parse_prefix n c tm s w announced p asn maxlen rest :
  viewed n c tm s w -> wf_pdu (Prefix announced p asn maxlen) -> s_in s = enc v (Prefix announced p asn maxlen) ++ rest ->
  c + Z.of_nat n < 2 ^ 32 - 3 ->
  exists s' w', apply_pdu v tm (Prefix announced p asn maxlen) w = Some w' /\ parse s = Ok s' /\ viewed n (c + 1) tm s' w' /\
    s_in s' = rest /\ s_out s' = s_out s.
Proof using Hdb Hro.
  intros Hv (Hp & Hasn & Hml & H4) Hin Hc. unfold rpki_rtr_parse_msg. rewrite connected_Ok by apply Hv.
  set (flags := if announced then RPKI_RTR_PREFIX_FLAGS_ANNOUNCE else RPKI_RTR_PREFIX_FLAGS_WITHDRAW).
  set (s1 := mk_rtr (s_cache s) (s_peer s) (s_roas s) rest (s_out s)).
  assert (Hroa : exists s' w', apply_pdu v tm (Prefix announced p asn maxlen) w = Some w' /\
    parse_roa dbs past num bmed0 flags p asn maxlen s1 = Ok s' /\ viewed n (c + 1) tm s' w' /\ s_in s' = rest /\ s_out s' = s_out s).
  { destruct Hv as [V1 V2 V3 V4 V5 V6 V7 V8]. unfold flags. destruct announced.
    - destruct (parse_announce dbs past num bmed0 self m_data Hdb Hro n c s1 _ p asn maxlen V1 Hp Hasn Hc) as (pr' & rt' & E & H').
      eexists _, _. split; [done |]. split; [exact E |]. split; [| done]. by split.
    - destruct (parse_withdraw dbs past num bmed0 self m_data Hdb Hro n c s1 _ p asn maxlen V1 Hp Hasn Hml Hc) as (pr' & rt' & E & H').
      eexists _, _. split; [done |]. split; [exact E |]. split; [| done]. split; try done. by eapply holds_more; [| exact H']; lia. }
  destruct Hroa as (s' & w' & Ew & Eroa & Hv' & Hrest). exists s', w'. split; [done |]. split; [| done].
  pose proof (wf_addr_len p Hp) as Hal. unfold enc in Hin. fold flags in Hin.
  assert (Hpre : forall n0 a, length (a : list Z) = n0 -> strlen a = Z.of_nat n0) by (by intros n0 a <-).
  destruct (wf_family p Hp) as [Hf|Hf]; rewrite Hf in Hin.
  - change (AF_INET =? AF_INET) with true in Hin. cbv iota in Hin. rewrite (peek_two s _ _ _ Hin). dispatch.
    unfold rpki_rtr_recv_ipv4_pref. rewrite connected_Ok by apply Hv.
    rewrite (recv_pdu s _ rest RPKI_RTR_PDU_IPV4_PREFIX_LEN Hin) by (unfold strlen; rewrite !length_app, length_take, Hal; reflexivity).
    fold s1. set (b := _ ++ htonl 20 ++ _).
    assert (Hb : strlen b = RPKI_RTR_PDU_IPV4_PREFIX_LEN) by (unfold strlen, b; rewrite !length_app, length_take, Hal; reflexivity).
    rewrite Hb, Z.eqb_refl. unfold rpki_rtr_parse_ipv4_prefix.
    assert (Ea : pdu_be32 b 16 = asn).
    { unfold b. rewrite !app_assoc. rewrite <- (app_nil_r (htonl asn)). rewrite !app_assoc. rewrite <- app_assoc.
      apply pdu_be32_read; [done |]. unfold strlen. rewrite !length_app, length_take, Hal. reflexivity. }
    assert (Ed : take 4 (drop 12 b) = take 4 (addr p)).
    { unfold b. rewrite !app_assoc. rewrite <- (app_assoc _ _ (htonl asn)). rewrite drop_app_length' by done.
      apply take_app_length'. rewrite length_take, Hal. done. }
    rewrite Ea, Ed. change (byte_at b 8) with flags. change (byte_at b 9) with (prefixlen p). change (byte_at b 10) with maxlen.
    rewrite <- H4 by done. rewrite <- Hf. destruct p. exact Eroa.
  - change (AF_INET6 =? AF_INET) with false in Hin. cbv iota in Hin. rewrite (peek_two s _ _ _ Hin). dispatch.
    unfold rpki_rtr_recv_ipv6_pref. rewrite connected_Ok by apply Hv.
    rewrite (recv_pdu s _ rest RPKI_RTR_PDU_IPV6_PREFIX_LEN Hin) by (unfold strlen; rewrite !length_app, Hal; reflexivity).
    fold s1. set (b := _ ++ htonl 32 ++ _).
    assert (Hb : strlen b = RPKI_RTR_PDU_IPV6_PREFIX_LEN) by (unfold strlen, b; rewrite !length_app, Hal; reflexivity).
    rewrite Hb, Z.eqb_refl. unfold rpki_rtr_parse_ipv6_prefix.
    assert (Ea : pdu_be32 b 28 = asn).
    { unfold b. rewrite !app_assoc. rewrite <- (app_nil_r (htonl asn)). rewrite !app_assoc. rewrite <- app_assoc.
      apply pdu_be32_read; [done |]. unfold strlen. rewrite !length_app, Hal. reflexivity. }
    assert (Ed : take 16 (drop 12 b) = addr p).
    { unfold b. rewrite !app_assoc. rewrite <- (app_assoc _ _ (htonl asn)). rewrite drop_app_length' by done.
      by apply take_app_length'. }
    rewrite Ea, Ed. change (byte_at b 8) with flags. change (byte_at b 9) with (prefixlen p). change (byte_at b 10) with maxlen.
    rewrite <- Hf. destruct p. exact Eroa.
Qed.

(** The other PDUs. *)
Lemma parse_serial_notify n c tm s w id sn rest :
  viewed n c tm s w -> s_in s = enc v (SerialNotify id sn) ++ rest ->
  exists s', parse s = Ok s' /\ viewed n c tm s' w /\ s_in s' = rest /\ s_out s' = s_out s.
Proof using.
  intros Hv Hin. unfold rpki_rtr_parse_msg. rewrite connected_Ok by apply Hv. rewrite (peek_two s _ _ _ Hin). dispatch.
  unfold rpki_rtr_recv_serial_notify. rewrite connected_Ok by apply Hv. rewrite (recv_pdu s _ rest _ Hin) by reflexivity.
  eexists. split; [reflexivity |]. split; [| done]. by destruct Hv.
Qed.

Lemma parse_cache_response n c tm s w id rest :
  viewed n c tm s w -> is_u16 id -> s_in s = enc v (CacheResponse id) ++ rest ->
  exists s', parse s = Ok s' /\ viewed n c tm s' (mk_view (w_roas w) id (w_serial w) (w_refresh w) (w_retry w) (w_expire w)) /\
    s_in s' = rest /\ s_out s' = s_out s.
Proof using.
  intros Hv Hid Hin. unfold rpki_rtr_parse_msg. rewrite connected_Ok by apply Hv. rewrite (peek_two s _ _ _ Hin). dispatch.
  unfold rpki_rtr_recv_cache_response. rewrite connected_Ok by apply Hv. rewrite (recv_pdu s _ rest _ Hin) by reflexivity.
  change (strlen (enc v (CacheResponse id)) =? RPKI_RTR_PDU_CACHE_RESPONSE_LEN) with true. cbv iota.
  assert (E : pdu_be16 (enc v (CacheResponse id)) 2 = id).
  { change (enc v (CacheResponse id)) with ([v; RPKI_RTR_PDU_CACHE_RESPONSE] ++ be16_bytes id ++ htonl 8). by apply pdu_be16_read. }
  rewrite E. eexists. split; [reflexivity |]. split; [| done]. by destruct Hv.
Qed.

Lemma parse_cache_reset n c tm s w rest :
  viewed n c tm s w -> s_in s = enc v CacheReset ++ rest -> c + Z.of_nat n < 2 ^ 32 - 3 ->
  exists s', parse s = Ok s' /\ viewed n c tm s' (mk_view nothing 0 0 (w_refresh w) (w_retry w) (w_expire w)) /\
    s_in s' = rest /\ s_out s' = s_out s.
Proof using Hdb Hro.
  intros Hv Hin Hc. unfold rpki_rtr_parse_msg. rewrite connected_Ok by apply Hv. rewrite (peek_two s _ _ _ Hin). dispatch.
  unfold rpki_rtr_recv_cache_reset. rewrite connected_Ok by apply Hv. rewrite (recv_pdu s _ rest _ Hin) by reflexivity.
  change (strlen (enc v CacheReset) =? RPKI_RTR_PDU_CACHE_RESET_LEN) with true. cbn [negb]. rewrite bind_Ok. cbn [s_peer s_roas s_cache].
  destruct (ribs_reset_steps dbs num self m_data Hdb Hro n c _ _ _ (vw_roas _ _ _ _ _ Hv) Hc) as (pr' & rt' & E & H').
  rewrite E, bind_Ok. eexists. split; [reflexivity |]. split; [| done]. destruct Hv. by split.
Qed.

Hypothesis Hversion : v = RPKI_RTR_V0 \/ v = RPKI_RTR_V1.

Lemma parse_eod n c tm s w id sn rf rt ex rest :
  viewed n c tm s w -> wf_pdu (EndOfData id sn rf rt ex) -> s_in s = enc v (EndOfData id sn rf rt ex) ++ rest ->
  c + Z.of_nat n < 2 ^ 32 - 3 ->
  exists s', parse s = Ok s' /\ s_in s' = rest /\ s_out s' = s_out s /\
    match apply_pdu v tm (EndOfData id sn rf rt ex) w with
    | Some w' => viewed n c tm s' w'
    | None => closed n c s'
    end.
Proof using Hdb Hro Hversion.
  intros Hv (Hid & Hsn & Hrf & Hrt & Hex) Hin Hc. unfold rpki_rtr_parse_msg. rewrite connected_Ok by apply Hv. rewrite (peek_two s _ _ _ Hin). dispatch. unfold rpki_rtr_recv_eod. rewrite connected_Ok by apply Hv.
  set (len := if v =? RPKI_RTR_V0 then RPKI_RTR_PDU_END_OF_DATA_V0_LEN else RPKI_RTR_PDU_END_OF_DATA_V1_LEN).
  assert (Hlen : strlen (enc v (EndOfData id sn rf rt ex)) = len) by (unfold len; destruct Hversion as [->| ->]; reflexivity).
  rewrite (recv_pdu s _ rest len Hin Hlen), Hlen, Z.eqb_refl. set (b := enc _ _) in *.
  set (s1 := mk_rtr _ _ _ _ _).
  assert (E2 : pdu_be16 b 2 = id).
  { unfold b. destruct Hversion as [->| ->].
    - change (enc RPKI_RTR_V0 (EndOfData id sn rf rt ex)) with ([0; 7] ++ be16_bytes id ++ htonl 12 ++ htonl sn). by apply pdu_be16_read.
    - change (enc RPKI_RTR_V1 (EndOfData id sn rf rt ex)) with
        ([1; 7] ++ be16_bytes id ++ htonl 24 ++ htonl sn ++ htonl rf ++ htonl rt ++ htonl ex). by apply pdu_be16_read. }
  assert (E8 : pdu_be32 b 8 = sn).
  { unfold b. destruct Hversion as [->| ->].
    - change (enc RPKI_RTR_V0 (EndOfData id sn rf rt ex)) with (([0; 7] ++ be16_bytes id ++ htonl 12) ++ htonl sn ++ []). by apply pdu_be32_read.
    - change (enc RPKI_RTR_V1 (EndOfData id sn rf rt ex)) with
        (([1; 7] ++ be16_bytes id ++ htonl 24) ++ htonl sn ++ htonl rf ++ htonl rt ++ htonl ex). by apply pdu_be32_read. }
  assert (Eivl : (v =? RPKI_RTR_V0) = false -> pdu_be32 b 12 = rf /\ pdu_be32 b 16 = rt /\ pdu_be32 b 20 = ex).
  { unfold b. destruct Hversion as [->| ->]; [done |]. intros _.
    set (pre := [1; 7] ++ be16_bytes id ++ htonl 24 ++ htonl sn). split_and!.
    - change (enc RPKI_RTR_V1 (EndOfData id sn rf rt ex)) with (pre ++ htonl rf ++ htonl rt ++ htonl ex). by apply pdu_be32_read.
    - change (enc RPKI_RTR_V1 (EndOfData id sn rf rt ex)) with ((pre ++ htonl rf) ++ htonl rt ++ htonl ex). by apply pdu_be32_read.
    - change (enc RPKI_RTR_V1 (EndOfData id sn rf rt ex)) with ((pre ++ htonl rf ++ htonl rt) ++ htonl ex ++ []). by apply pdu_be32_read. }
  assert (Ev1 : (v =? RPKI_RTR_V1) = negb (v =? RPKI_RTR_V0)) by (by destruct Hversion as [->| ->]).
  rewrite E2, E8, Ev1. cbn [s_cache s1]. rewrite (vw_session _ _ _ _ _ Hv). cbn [apply_pdu].
  destruct (w_session w =? id) eqn:Eid; cbn [negb].
  - apply Z.eqb_eq in Eid. rewrite bind_Ok. destruct Hv as [V1 V2 V3 V4 V5 V6 V7 V8]. cbn [s_cache s1].
    destruct (v =? RPKI_RTR_V0) eqn:E0; cbn [negb].
    + eexists. split; [reflexivity |]. split_and!; [done | done |]. split; cbn; try done; [congruence | by rewrite V3, V6 | by rewrite V3, V8].
    + destruct (Eivl eq_refl) as (-> & -> & ->). unfold with_timers, with_session. cbn [tstamp ivl refresh retry expire now fd dont_reconnect session_id serial].
      assert (Et : tstamp (set_ivl ex (mk_timer (now (s_cache s)) (ivl (expire (s_cache s))))) = tm).
      { unfold set_ivl. by destruct (ex =? 0); cbn. }
      rewrite Et, V6, V7, V8, V3. destruct (_ || _).
      * destruct (close_steps n c (with_cache
          (mk_handle (fd (s_cache s)) (dont_reconnect (s_cache s)) tm (set_ivl rf (mk_timer tm (ivl (w_refresh w)))) (set_ivl rt (w_retry w))
             (set_ivl ex (mk_timer tm (ivl (w_expire w)))) (session_id (s_cache s)) sn) s1) (w_roas w) V1 Hc) as (pr' & rt' & E & H').
        rewrite E. eexists. split; [reflexivity |]. split_and!; [done | done |]. by split.
      * eexists. split; [reflexivity |]. split_and!; [done | done |]. split; cbn; try done. congruence.
  - destruct (close_steps n c s1 (w_roas w) (vw_roas _ _ _ _ _ Hv) Hc) as (pr' & rt' & E & H'). rewrite E, bind_Ok.
    cbn [with_roas with_cache s_cache]. destruct (v =? RPKI_RTR_V0) eqn:E0; cbn [negb].
    + eexists. split; [reflexivity |]. split_and!; [done | done |]. by split.
    + destruct (_ || _).
      * match goal with |- context [rpki_rtr_close dbs num ?x] => destruct (close_steps n c x nothing H' Hc) as (pr2 & rt2 & E3 & H3) end.
        rewrite E3. eexists. split; [reflexivity |]. split_and!; [done | done |]. by split.
      * eexists. split; [reflexivity |]. split_and!; [done | done |]. by split.
Qed.

(** One PDU. *)
Lemma parse_pdu n c tm s w d rest :
  viewed n c tm s w -> wf_pdu d -> s_in s = enc v d ++ rest -> c + Z.of_nat n < 2 ^ 32 - 3 ->
  exists s', parse s = Ok s' /\ s_in s' = rest /\ s_out s' = s_out s /\
    match apply_pdu v tm d w with
    | Some w' => viewed n (c + 1) tm s' w'
    | None => closed n c s'
    end.
Proof using Hdb Hro Hversion.
  intros Hv Hd Hin Hc.
  assert (Hmore : forall s' w', viewed n c tm s' w' -> viewed n (c + 1) tm s' w').
  { intros s' w' [V1 V2 V3 V4 V5 V6 V7 V8]. split; try done. eapply holds_more; [| exact V1]. lia. }
  destruct d as [announced p asn maxlen|id sn|id|id sn rf rt ex|].
  - destruct (parse_prefix n c tm s w announced p asn maxlen rest Hv Hd Hin Hc) as (s' & w' & Ew & E & Hv' & Hr & Ho).
    exists s'. rewrite Ew. by split_and!.
  - destruct (parse_serial_notify n c tm s w id sn rest Hv Hin) as (s' & E & Hv' & Hr & Ho). exists s'. split_and!; [done | done | done |]. by apply Hmore.
  - destruct (parse_cache_response n c tm s w id rest Hv Hd Hin) as (s' & E & Hv' & Hr & Ho). exists s'. split_and!; [done | done | done |]. by apply Hmore.
  - destruct (parse_eod n c tm s w id sn rf rt ex rest Hv Hd Hin Hc) as (s' & E & Hr & Ho & Hv'). exists s'. split_and!; [done | done | done |].
    destruct (apply_pdu _ _ _ _); [by apply Hmore | done].
  - destruct (parse_cache_reset n c tm s w rest Hv Hin Hc) as (s' & E & Hv' & Hr & Ho). exists s'. split_and!; [done | done | done |]. by apply Hmore.
Qed.

(** A PDU, the time at which it is read, and the octets that have arrived
    then. *)
Record arrival := mk_arrival { a_time : Z; a_ready : Z; a_pdu : pdu }.

(** A round in which there is something to read. *)
Definition reading (x : arrival) : round := mk_round 1 (a_time x) (a_ready x) 0 0 [].

(** The two octets that are looked at come together. *)
Definition arrives (x : arrival) : Prop := 2 <= a_ready x /\ wf_pdu (a_pdu x).

Context (send : list Z -> Z).
Abbreviation daemon_round := (rpki_daemon_round dbs past num bmed0 v send).

Fixpoint daemon_rounds (rs : list round) s : res (rtr_state X) :=
  match rs with
  | [] => Ok s
  | r :: rs => s ← daemon_round r s; daemon_rounds rs s
  end.

(** What the router knows after PDUs; [None] where one closes the session. *)
Fixpoint apply_all (xs : list arrival) w : option view :=
  match xs with
  | [] => Some w
  | x :: xs => match apply_pdu v (a_time x) (a_pdu x) w with Some w => apply_all xs w | None => None end
  end.

(** What the announcements and withdrawals say, as the protocol has them: a
    withdrawal takes back the ROA it names, no other. *)
Definition said (d : pdu) (R : meaning) : meaning :=
  match d with
  | Prefix true p asn maxlen => announce p asn maxlen R
  | Prefix false p asn maxlen => retract p asn maxlen R
  | CacheReset => nothing
  | _ => R
  end.

Definition said_all (xs : list arrival) (R : meaning) : meaning := fold_left (fun R x => said (a_pdu x) R) xs R.

(** Every withdrawal is of the only ROA its origin has in the range of prefixes
    of the maximal length. *)
Definition takes_sole (d : pdu) (R : meaning) : Prop :=
  match d with
  | Prefix announced p asn maxlen => announced = false -> sole_roa p asn maxlen R
  | SerialNotify _ _ | CacheResponse _ | EndOfData _ _ _ _ _ | CacheReset => True
  end.

Fixpoint sole_withdrawals (xs : list arrival) (R : meaning) : Prop :=
  match xs with
  | [] => True
  | x :: xs =>
      takes_sole (a_pdu x) R /\ sole_withdrawals xs (said (a_pdu x) R)
  end.

Lemma said_ext d R R' : (forall afi k, R afi k = R' afi k) -> forall afi k, said d R afi k = said d R' afi k.
Proof using.
  intros H afi k. destruct d as [[] p asn maxlen| | | |]; cbn [said]; try apply H; try done;
    unfold announce, retract, on_family, upd; (destruct (_ =? _); [| apply H]); (destruct (decide _); [by rewrite H | apply H]).
Qed.

Lemma apply_said d tm w w' R : wf_pdu d -> apply_pdu v tm d w = Some w' -> (forall afi k, w_roas w afi k = R afi k) ->
  takes_sole d R ->
  forall afi k, w_roas w' afi k = said d R afi k.
Proof using.
  intros Hwf Hw HR Hs. assert (Hre : forall d', (forall afi k, said d' (w_roas w) afi k = said d' R afi k)) by (intros d'; by apply said_ext).
  destruct d as [[] p asn maxlen|id sn|id|id sn rf rt ex|]; cbn [apply_pdu] in Hw.
  - injection Hw as <-. exact (Hre (Prefix true p asn maxlen)).
  - injection Hw as <-. cbn [w_roas]. intros afi k. rewrite <- (Hre (Prefix false p asn maxlen)). apply withdraw_sole; [destruct Hwf as [Hp _]; apply Hp |].
    intros len m Hlen Hin. apply (Hs eq_refl len m Hlen). by rewrite <- HR.
  - injection Hw as <-. exact HR.
  - injection Hw as <-. exact HR.
  - destruct (negb _); [done |]. destruct (v =? _); [injection Hw as <-; exact HR |]. destruct (_ || _); [done |].
    injection Hw as <-. exact HR.
  - injection Hw as <-. done.
Qed.

Lemma apply_all_said : forall xs w w' R, Forall arrives xs -> apply_all xs w = Some w' -> (forall afi k, w_roas w afi k = R afi k) ->
  sole_withdrawals xs R -> forall afi k, w_roas w' afi k = said_all xs R afi k.
Proof using.
  induction xs as [|x xs IH]; intros w w' R Hwf Hw HR Hs.
  - by injection Hw as <-.
  - apply Forall_cons in Hwf as [[_ Hd] Hwf]. cbn [apply_all] in Hw. destruct Hs as [Hs1 Hs2]. destruct (apply_pdu _ _ _ _) as [w1|] eqn:E; [| done].
    apply (IH w1 w' (said (a_pdu x) R) Hwf Hw); [| exact Hs2]. by apply (apply_said _ _ _ _ _ Hd E).
Qed.

Definition enc_all (xs : list arrival) : list Z := concat (map (fun x => enc v (a_pdu x)) xs).

Lemma reading_rounds n : forall xs c tm s w w' rest,
  viewed n c tm s w -> Forall arrives xs -> s_in s = enc_all xs ++ rest ->
  c + Z.of_nat (length xs) + Z.of_nat n < 2 ^ 32 - 3 -> apply_all xs w = Some w' ->
  exists s' tm', daemon_rounds (map reading xs) s = Ok s' /\
    viewed n (c + Z.of_nat (length xs)) tm' s' w' /\ s_in s' = rest /\ s_out s' = s_out s.
Proof using Hdb Hro Hversion.
  induction xs as [|[t1 rdy d] xs IH]; intros c tm s w w' rest Hv Hwf Hin Hc Hw.
  - injection Hw as <-. exists s, tm. rewrite Z.add_0_r. by split_and!.
  - apply Forall_cons in Hwf as [[Hrdy Hd] Hwf]. unfold enc_all in Hin. cbn [map concat a_pdu a_ready] in *. rewrite <- app_assoc in Hin. cbn [length] in Hc.
    set (s1 := with_cache (with_now t1 (s_cache s)) s).
    assert (Hv1 : viewed n c t1 s1 w) by (destruct Hv; by split).
    destruct (parse_pdu n c t1 s1 w d _ Hv1 Hd Hin ltac:(lia)) as (s2 & E & Hr & Ho & Hv2). cbn [apply_all a_time a_pdu] in Hw.
    destruct (apply_pdu v t1 d w) as [w2|]; [| done].
    destruct (IH (c + 1) t1 s2 w2 w' rest Hv2 Hwf Hr ltac:(lia) Hw) as (s' & tm' & E' & Hv' & Hr' & Ho').
    exists s', tm'. cbn [daemon_rounds]. change (daemon_round (reading (mk_arrival t1 rdy d)) s) with (rpki_rtr_parse_msg dbs past num bmed0 v rdy s1).
    rewrite (parse_more rdy s1 Hrdy), E, bind_Ok. split; [exact E' |].
    cbn [length]. split_and!; [| done | by rewrite Ho', Ho]. replace (c + Z.of_nat (S (length xs))) with (c + 1 + Z.of_nat (length xs)) by lia. exact Hv'.
Qed.

(** The router that has just connected at time [tm]: it knows nothing, and
    asks for everything. *)
Definition first_view (tm : Z) : view :=
  let t v0 v1 := if v =? RPKI_RTR_V0 then v0 else v1 in
  mk_view nothing 0 0
    (mk_timer tm (t RPKI_RTR_V0_DEFAULT_REFRESH_IVL RPKI_RTR_V1_DEFAULT_REFRESH_IVL))
    (mk_timer tm (t RPKI_RTR_V0_DEFAULT_RETRY_IVL RPKI_RTR_V1_DEFAULT_RETRY_IVL))
    (mk_timer tm (t RPKI_RTR_V0_DEFAULT_EXPIRE_IVL RPKI_RTR_V1_DEFAULT_EXPIRE_IVL)).

Lemma session_start tm fd0 input : 3600 <= tm -> 0 < fd0 ->
  (forall pdu, send pdu = strlen pdu) ->
  exists s, daemon_round (mk_round 0 tm 0 fd0 0 input) (rpki_daemon_init v self tm) = Ok s /\
    viewed 0 0 tm s (first_view tm) /\ s_in s = input /\
    s_out s = [[v; RPKI_RTR_PDU_RESET_QUERY; 0; 0] ++ htonl RPKI_RTR_PDU_RESET_QUERY_LEN].
Proof using Hversion.
  intros Htm Hfd Hsend. pose proof (init_holds_roas (X := X) dbs num self 65535 ltac:(lia)) as Hinit.
  unfold rpki_daemon_round. change (select_num (mk_round 0 tm 0 fd0 0 input)) with 0. cbv iota beta. change (0 <? 0) with false. change (0 =? 0) with true.
  cbv iota. change (fd (s_cache _) <? 0) with true. cbv iota. unfold rpki_rtr_connect. cbn [socket_fd connect_rc time].
  set (s0 := with_cache _ _).
  assert (Hret : (tstamp (retry (s_cache s0)) + ivl (retry (s_cache s0)) <=? now (s_cache s0)) = true).
  { apply Z.leb_le. destruct Hversion as [->| ->]; cbn; ivls; lia. }
  cbn [s_cache s_peer s_roas s_in s_out]. rewrite Hret. rewrite (proj2 (Z.eqb_neq fd0 (-1))) by lia. change (0 <? 0) with false. cbv iota.
  rewrite bind_Ok. cbn [s_cache]. change (session_id _ =? 0) with true. cbv iota.
  unfold rpki_rtr_send_reset_query. cbn [s_cache]. unfold with_session at 1, with_fd at 1. cbn [fd]. rewrite (proj2 (Z.ltb_lt 0 fd0)) by done.
  unfold refresh_due. cbn [s_cache].
  match goal with |- context [if ?b then Some _ else None] => assert (Hb : b = true) end.
  { apply Z.leb_le. destruct Hversion as [->| ->]; cbn; ivls; lia. }
  rewrite Hb. unfold send_pdu. rewrite Hsend.
  assert (Hq : (strlen ([u8 v; RPKI_RTR_PDU_RESET_QUERY; 0; 0] ++ htonl RPKI_RTR_PDU_RESET_QUERY_LEN) =? RPKI_RTR_PDU_RESET_QUERY_LEN) = true) by done.
  rewrite Hq, bind_Ok. cbn [s_cache with_cache]. change (negb (serial _ =? 0)) with false. cbv iota. rewrite bind_Ok.
  unfold rpki_rtr_eval_expire. cbn [s_cache].
  match goal with |- context [if ?b then _ else Ok _] => assert (He : b = false) end.
  { apply Z.leb_gt. destruct Hversion as [->| ->]; cbn; ivls; lia. }
  rewrite He. eexists. split; [reflexivity |]. split; [| split; [done |]].
  - split; try done. all: destruct Hversion as [->| ->]; done.
  - destruct Hversion as [->| ->]; done.
Qed.

End Session.

(** ** Theorems *)

(** C10. Route origin validation.  Whatever was added to the tables and removed
    from them, a lookup is the validation of RFC 6811 on the ROAs they mean:
    valid when a ROA of a covering prefix has the origin and allows the length,
    invalid when covering prefixes have ROAs but none does, unknown when they
    have none.  The tables mean the same afterwards, with one more lock that is
    never given back. *)
Theorem rpki_prefix_lookup_rov {X} dbs past num self m_data n c pr (rt : bgp_rt_structs X) R p asn :
  dbs FUNC_TYPE_RPKI = rpki_link_misc_structs m_data -> is_readonly m_data = false ->
  holds_roas dbs num self n c pr rt R -> wf_prefix p -> c + Z.of_nat n < 2 ^ 32 - 3 ->
  exists rt', rpki_prefix_lookup dbs past (Some rt) (Some p) asn = Ok (rov (R (family2afi (family p))) p asn, Some rt') /\
    holds_roas dbs num self (S n) c pr rt' R.
Proof. intros Hdb Hro H Hp Hc. by apply (roa_lookup_steps dbs past num self m_data Hdb Hro n c). Qed.

(** C9. The RTR session, from the start of the daemon, when the octets of what
    the cache sends begin with those of well-formed PDUs of five kinds (IPv4
    and IPv6 prefix, Serial Notify, Cache Response, End of Data, Cache Reset;
    not a Router Key or an Error Report, which the code misreads), fewer than
    2^32-3 of them, the connection is made and takes the query whole, the
    clock is past its first hour and the daemon is not read-only, no prefix has a maximal length beyond its family's, the two first octets of each
    have arrived when it is looked at, and no End of Data among them closes the
    session.  The router connects, asks for everything, and consumes exactly
    the octets of these PDUs, one per round, whatever follows them, without a
    fault.  Session, serial number, timers and tables are then those of
    [apply_pdu] over the PDUs in their order, where a withdrawal is the code's:
    the first ROA of the origin goes from every prefix between the length and
    the maximal length.  When each withdrawal is of the only ROA of its origin
    in that range, the tables hold exactly the ROAs announced and not taken
    back since, as the protocol has it. *)
Theorem rpki_rtr_stream {X} dbs past num (bmed0 : X) self m_data v send fd0 tm xs w rest :
  dbs FUNC_TYPE_RPKI = rpki_link_misc_structs m_data -> is_readonly m_data = false ->
  v = RPKI_RTR_V0 \/ v = RPKI_RTR_V1 -> 3600 <= tm -> 0 < fd0 -> (forall pdu, send pdu = strlen pdu) ->
  Forall arrives xs -> Z.of_nat (length xs) < 2 ^ 32 - 3 -> apply_all v xs (first_view v tm) = Some w ->
  let input := enc_all v xs ++ rest in
  exists s tm', daemon_rounds dbs past num bmed0 v send (mk_round 0 tm 0 fd0 0 input :: map reading xs)
      (rpki_daemon_init v self tm) = Ok s /\
    viewed dbs num self 0 (Z.of_nat (length xs)) tm' s w /\ s_in s = rest /\
    s_out s = [[v; RPKI_RTR_PDU_RESET_QUERY; 0; 0] ++ htonl RPKI_RTR_PDU_RESET_QUERY_LEN] /\
    (sole_withdrawals xs nothing -> forall afi k, w_roas w afi k = said_all xs nothing afi k).
Proof.
  intros Hdb Hro Hv Htm Hfd Hsend Hwf Hlen Hw input.
  destruct (session_start dbs past num bmed0 self v Hv send tm fd0 input Htm Hfd Hsend) as (s1 & E1 & Hv1 & Hin & Hout).
  destruct (reading_rounds dbs past num bmed0 self m_data Hdb Hro v Hv send 0 xs 0 tm s1 _ w rest Hv1 Hwf Hin ltac:(lia) Hw)
    as (s & tm' & E & Hvw & Hr & Ho).
  exists s, tm'. cbn [daemon_rounds]. rewrite E1, bind_Ok. split_and!; [exact E | exact Hvw | done | congruence |].
  by apply (apply_all_said v xs _ _ _ Hwf Hw).
Qed.

(** C5. A session that ends leaves nothing.  A PDU that closes the session (an
    End of Data of another session, or timers the code refuses) empties both
    tables, without a fault, however many of its octets have arrived when it is
    looked at. *)
Theorem rpki_rtr_close_forgets {X} dbs past num (bmed0 : X) self m_data v ready n c tm s w d rest :
  dbs FUNC_TYPE_RPKI = rpki_link_misc_structs m_data -> is_readonly m_data = false ->
  v = RPKI_RTR_V0 \/ v = RPKI_RTR_V1 -> viewed dbs num self n c tm s w -> wf_pdu d -> s_in s = enc v d ++ rest ->
  c + Z.of_nat n < 2 ^ 32 - 3 -> apply_pdu v tm d w = None ->
  exists s', rpki_rtr_parse_msg dbs past num bmed0 v ready s = Ok s' /\ fd (s_cache s') = ERR /\
    holds_roas dbs num self n c (s_peer s') (s_roas s') nothing.
Proof.
  intros Hdb Hro Hv Hs Hd Hin Hc Hnone. destruct (Z.lt_ge_cases ready 2) as [Hr|Hr].
  { rewrite parse_peek_short by (done || apply Hs).
    destruct (close_steps dbs num self m_data Hdb Hro n c s (w_roas w) (vw_roas _ _ _ _ _ _ _ _ Hs) Hc) as (pr' & rt' & E & H').
    rewrite E. by eexists. }
  rewrite parse_more by done.
  destruct (parse_pdu dbs past num bmed0 self m_data Hdb Hro v Hv n c tm s w d rest Hs Hd Hin Hc) as (s' & E & _ & _ & H).
  rewrite Hnone in H. destruct H as [H1 H2]. by exists s'.
Qed.

(** ** At a concrete cache *)

Definition ex_roa_dbs : misc_dbs := fun _ => rpki_link_misc_structs (mk_misc false 4 2 1).
Definition ex_p8 : prefix := pfx4 10 0 0 0 8.
Definition ex_p16 : prefix := pfx4 10 1 0 0 16.
Definition ex_p24 : prefix := pfx4 10 1 2 0 24.
Definition ex_pdus : list arrival :=
  [mk_arrival 100001 8 (CacheResponse 7); mk_arrival 100001 20 (Prefix true ex_p8 65001 16);
   mk_arrival 100002 2 (Prefix true ex_p16 65002 24); mk_arrival 100002 20 (Prefix false ex_p8 65001 16);
   mk_arrival 100003 500 (EndOfData 7 1 3600 600 7200)].
Definition ex_view : view :=
  mk_view (withdraw ex_p8 65001 16 (announce ex_p16 65002 24 (announce ex_p8 65001 16 nothing))) 7 1
    (mk_timer 100003 3600) (mk_timer 100000 600) (mk_timer 100003 7200).

Lemma ex_pfx_ok p : In p [ex_p8; ex_p16; ex_p24] -> wf_prefix p.
Proof. by intros [<-|[<-|[<-|[]]]]; apply wf_prefixb_spec. Qed.

Lemma ex_pdus_ok : Forall arrives ex_pdus.
Proof.
  assert (Hp : forall announced p asn maxlen, In p [ex_p8; ex_p16; ex_p24] -> is_u32 asn -> 0 <= maxlen <= 32 ->
    family p = AF_INET -> addr p = take 4 (addr p) ++ replicate 12 0 -> wf_pdu (Prefix announced p asn maxlen)).
  { intros announced p asn maxlen H ? ? Hf ?. cbn [wf_pdu]. rewrite Hf. split; [by apply ex_pfx_ok |]. done. }
  unfold ex_pdus. repeat apply Forall_cons_2; try apply Forall_nil_2; (split; [done |]); cbn [a_pdu].
  - by split.
  - by apply Hp; [left | | | |].
  - by apply Hp; [right; left | | | |].
  - by apply Hp; [left | | | |].
  - by split_and!.
Qed.

Lemma in_announced p asn maxlen R afi k x : x ∈ announce p asn maxlen R afi k -> (x = (asn, maxlen) /\ k = key p) \/ x ∈ R afi k.
Proof.
  unfold announce, on_family, upd. destruct (_ =? _) eqn:Ea; [| by right]. apply Z.eqb_eq in Ea as ->.
  destruct (decide (k = key p)) as [->|]; [| by right]. intros [->|H]%elem_of_cons; [by left | by right].
Qed.

(** The withdrawal is of the only ROA of its origin. *)
Lemma ex_pdus_sole : sole_withdrawals ex_pdus nothing.
Proof.
  unfold ex_pdus. cbn [sole_withdrawals a_pdu]. split_and!; try done. intros _ len m Hlen Hin. cbn [said] in Hin.
  apply in_announced in Hin as [[[= -> _] _]|Hin]; apply in_announced in Hin as [[[= ->] E]|Hin]; try by apply not_elem_of_nil in Hin.
  split; [| done]. apply (f_equal length) in E. unfold key in E. rewrite !bits_of_length in E.
  change (prefixlen ex_p8) with 8 in *. lia.
Qed.

(** What the router knows after them: a route for 10.1.2.0/24 is valid from the
    origin of the ROA that is left. *)
Lemma rpki_rtr_stream_witness :
  exists (s : rtr_state Z) tm' w, daemon_rounds ex_roa_dbs 0 false 0 1 strlen
      (mk_round 0 100000 0 5 0 (enc_all 1 ex_pdus ++ [255]) :: map reading ex_pdus) (rpki_daemon_init 1 9%positive 100000) = Ok s /\
    viewed ex_roa_dbs false 9%positive 0 5 tm' s w /\ s_in s = [255] /\ w_session w = 7 /\ w_serial w = 1 /\
    rov (w_roas w AFI_IP) ex_p24 65002 = ROA_STATUS_VALID /\ w_roas w AFI_IP (key ex_p8) = [].
Proof.
  destruct (rpki_rtr_stream ex_roa_dbs 0 false 0 9%positive (mk_misc false 4 2 1) 1 strlen 5 100000 ex_pdus ex_view
    [255]) as (s & tm' & E & Hv & Hr & _ & Hsaid).
  - reflexivity.
  - reflexivity.
  - by right.
  - lia.
  - lia.
  - done.
  - exact ex_pdus_ok.
  - vm_compute. reflexivity.
  - vm_compute. reflexivity.
  - exists s, tm', ex_view. split; [exact E |]. split; [exact Hv |]. split; [exact Hr |]. split; [reflexivity |]. split; [reflexivity |].
    split; [vm_compute; reflexivity |]. rewrite (Hsaid ex_pdus_sole). vm_compute. reflexivity.
Defined.

Lemma rpki_prefix_lookup_rov_witness :
  exists rt', rpki_prefix_lookup ex_roa_dbs 0 (Some (init_shared_rib (bgp_attr_init (X := Z) 11 rt0))) (Some ex_p24) 65002 =
      Ok (ROA_STATUS_UNKNOWN, Some rt') /\
    holds_roas ex_roa_dbs false 9%positive 1 0 (rpki_init_dummy_peer 9%positive) rt' nothing.
Proof.
  apply (rpki_prefix_lookup_rov ex_roa_dbs 0 false 9%positive (mk_misc false 4 2 1) 0 0 (rpki_init_dummy_peer 9%positive)
    (init_shared_rib (bgp_attr_init (X := Z) 11 rt0)) nothing ex_p24 65002).
  - reflexivity.
  - reflexivity.
  - by apply init_holds_roas.
  - by apply ex_pfx_ok; right; right; left.
  - vm_compute. reflexivity.
Defined.

Lemma rpki_rtr_close_forgets_witness :
  exists s s' : rtr_state Z, rpki_rtr_parse_msg ex_roa_dbs 0 false 0 1 2 s = Ok s' /\ s_in s = enc 1 (EndOfData 3 1 0 0 0) /\
    fd (s_cache s') = ERR.
Proof.
  destruct (session_start ex_roa_dbs 0 false 0 9%positive 1 (or_intror eq_refl) strlen 100000 5 (enc 1 (EndOfData 3 1 0 0 0)))
    as (s & _ & Hv & Hin & _); [lia | lia | done |].
  destruct (rpki_rtr_close_forgets ex_roa_dbs 0 false 0 9%positive (mk_misc false 4 2 1) 1 2 0 0 100000 s (first_view 1 100000)
    (EndOfData 3 1 0 0 0) []) as (s' & E & Hfd & _).
  - reflexivity.
  - reflexivity.
  - by right.
  - exact Hv.
  - by split_and!.
  - by rewrite app_nil_r.
  - vm_compute. reflexivity.
  - reflexivity.
  - by exists s, s'.
Defined.

(** ** What the code does not do *)

(** A withdrawal names a ROA by prefix, origin and maximal length, and removes
    ROAs that were announced for longer prefixes of its address as well. *)
Lemma withdraw_takes_others :
  let p := pfx4 10 0 0 0 16 in
  let R := announce p 65001 16 (announce ex_p8 65001 16 nothing) in
  let R' := withdraw ex_p8 65001 16 R in
  rov (R AFI_IP) p 65001 = ROA_STATUS_VALID /\ rov (R' AFI_IP) p 65001 = ROA_STATUS_UNKNOWN.
Proof. split; vm_compute; reflexivity. Qed.

(** The length of a router key is not converted from network order: 16
    megabytes are expected after it, and the session ends. *)
Lemma router_key_closes pr (rt : bgp_rt_structs Z) c : 0 < fd c ->
  let s := mk_rtr c pr rt ([1; RPKI_RTR_PDU_ROUTER_KEY; 0; 0] ++ htonl 123 ++ replicate 115 0) [] in
  rpki_rtr_parse_msg ex_roa_dbs 0 false 0 1 2 s = rpki_rtr_close ex_roa_dbs false (mk_rtr c pr rt [] []).
Proof.
  intros Hfd s. unfold rpki_rtr_parse_msg. rewrite connected_Ok by done.
  change (rpki_rtr_recv_router_key ex_roa_dbs false s = rpki_rtr_close ex_roa_dbs false (mk_rtr c pr rt [] [])).
  unfold rpki_rtr_recv_router_key. rewrite connected_Ok by done.
  rewrite (recv_pdu s ([1; RPKI_RTR_PDU_ROUTER_KEY; 0; 0] ++ htonl 123 ++ replicate 24 0) (replicate 91 0)) by reflexivity.
  set (s1 := mk_rtr _ _ _ (replicate 91 0) _). set (b := _ ++ htonl 123 ++ _).
  change (strlen b =? 32) with true. change (byte_at b 0 =? RPKI_RTR_V0) with false. change (32 <? le_u32 b 4) with true.
  change (u32 (le_u32 b 4 - 32)) with 2063597536. cbn [negb]. cbv iota.
  assert (E : recv 2063597536 s1 = (replicate 91 0, mk_rtr c pr rt [] [])).
  { unfold recv. assert (Hn : (length (replicate 91 0%Z) <= Z.to_nat 2063597536)%nat) by (apply Nat2Z.inj_le; rewrite Z2Nat.id; vm_compute; discriminate).
    change (s_in s1) with (replicate 91 0). by rewrite (take_ge _ _ Hn), (drop_ge _ _ Hn). }
  by rewrite E.
Qed.

(** The text of an error report is read at an offset the cache chooses. *)
Lemma error_report_overread pr (rt : bgp_rt_structs Z) c : 0 < fd c ->
  let s := mk_rtr c pr rt ([1; RPKI_RTR_PDU_ERROR_REPORT; 0; 0; 12; 0; 0; 0] ++ [0; 1; 0; 0]) [] in
  rpki_rtr_parse_msg ex_roa_dbs 0 false 0 1 2 s = Err OutOfBounds.
Proof.
  intros Hfd s. unfold rpki_rtr_parse_msg. rewrite connected_Ok by done.
  change (rpki_rtr_recv_error_report (X := Z) ex_roa_dbs false s = Err OutOfBounds).
  unfold rpki_rtr_recv_error_report. rewrite connected_Ok by done. reflexivity.
Qed.

End RpkiRtrFacts.
