(* ===== verification/CfgData.v ===== *)
(** * Configuration data (cfg.h, util.c, plugin_hooks.h)

    The strings a configuration is made of and the functions of util.c that
    cut them up, [struct configuration] (cfg.h) with the type of each of its
    members, the list of plugins the keys write to (plugin_hooks.h), and the
    ways a key reaches it: every plugin, the plugin it names, or one of the
    two. *)

From S2P Require Import Prelude.
From S2P Require Import BgpPrefix.

Module CfgData.

(** ** Constants *)

Definition ERR : Z := -1.
Definition SUCCESS : Z := 0.
Definition TRUE : Z := 1.
Definition FALSE : Z := 0.
(** [INT_MIN]: false, for the members where 0 means "not set". *)
Definition FALSE_NONZERO : Z := - 2 ^ 31.
Definition MOREBUFSZ : Z := 32.
Definition SRVBUFLEN : Z := 256 + MOREBUFSZ.
Definition LARGEBUFLEN : Z := 8192 + MOREBUFSZ.

(** ** What is not in the repository: the options of the build, the daemon
    that reads the file ([config.acct_type]), and the C library's databases
    and address parsers. *)
Class host := {
  HAVE_L2 : bool; WITH_NDPI : bool; WITH_ZMQ : bool; WITH_GEOIPV2 : bool;
  WITH_MYSQL : bool; WITH_PGSQL : bool; WITH_SQLITE3 : bool; WITH_RABBITMQ : bool; WITH_KAFKA : bool;
  PCAP_D_IN : Z; PCAP_D_OUT : Z;
  acct_type : Z;
  getpwnam : list Z -> option Z;  (* the [pw_uid] of a user *)
  getpwuid : Z -> option Z;
  getgrnam : list Z -> option Z;
  getgrgid : Z -> option Z;
  inet_aton : list Z -> option (list Z);
  inet_pton6 : list Z -> option (list Z)
}.

(** ** Strings (util.c, and the parts of the C library they use) *)

Definition is_upper (c : Z) : bool := (65 <=? c) && (c <=? 90).
Definition is_lower (c : Z) : bool := (97 <=? c) && (c <=? 122).
Definition is_alpha (c : Z) : bool := is_upper c || is_lower c.
Definition tolower (c : Z) : Z := if is_upper c then c + 32 else c.

Definition lower_string (s : list Z) : list Z := map tolower s.

(** [!strcmp (s, "...")] and [!strncmp (s, "...", strlen ("..."))]. *)
Definition streq (s : list Z) (lit : string) : bool := bool_decide (s = cstr lit).
Fixpoint starts_with (p s : list Z) : bool :=
  match p, s with
  | [], _ => true
  | x :: p', y :: s' => (x =? y) && starts_with p' s'
  | _ :: _, [] => false
  end.
Definition starts (s : list Z) (lit : string) : bool := starts_with (cstr lit) s.

(** [strlcpy (dst, src, siz)]: what [dst] holds afterwards. *)
Definition strlcpy (src : list Z) (siz : Z) : list Z := take (Z.to_nat (siz - 1)) src.

(** The spaces at both ends. *)
Definition trim_spaces (buf : list Z) : list Z := rev (skip_spaces (rev (skip_spaces buf))).

(** All the spaces that are not between single quotes. *)
Fixpoint trim_all_from (quotes : bool) (buf : list Z) : list Z :=
  match buf with
  | [] => []
  | c :: r =>
      let quotes := if c =? 39 (* quote *) then negb quotes else quotes in
      if is_space c && negb quotes then trim_all_from quotes r
      else c :: trim_all_from quotes r
  end.
Definition trim_all_spaces (buf : list Z) : list Z := trim_all_from false buf.

Definition isblankline (line : list Z) : bool :=
  strlen (List.filter is_space line) =? strlen line.

(** The first character that is not a space decides. *)
Definition iscomment (line : list Z) : bool :=
  match skip_spaces line with
  | c :: _ => (c =? 33 (* ! *)) || (c =? 35 (* # *))
  | [] => false
  end.

(** [extract_token (&string, delim)]: the next token that is not empty, and
    what follows its delimiter. *)
Fixpoint extract_token (delim : Z) (string : list Z) : option (list Z * list Z) :=
  match string with
  | [] => None
  | c :: r =>
      if c =? delim then extract_token delim r
      else Some (match split_at delim string with Some p => p | None => (string, []) end)
  end.

(** The tokens [while ((token = extract_token (&string, delim)))] goes through;
    every round uses up a character. *)
Fixpoint tokens_loop (fuel : nat) (delim : Z) (string : list Z) : list (list Z) :=
  match fuel with
  | O => []
  | S fuel =>
      match extract_token delim string with
      | None => []
      | Some (token, string) => token :: tokens_loop fuel delim string
      end
  end.
Definition tokens (delim : Z) (string : list Z) : list (list Z) :=
  tokens_loop (length string) delim string.

(** *** Numbers: [strtoul], [strtoull], [strtol], [strtoll] on 64 bits *)

Definition digit_val (c : Z) : Z :=
  if is_digit c then c - 48
  else if is_lower c then c - 87
  else if is_upper c then c - 55
  else 36.

Fixpoint digits_base (base acc : Z) (s : list Z) : Z :=
  match s with
  | c :: r => if digit_val c <? base then digits_base base (acc * base + digit_val c) r else acc
  | [] => acc
  end.

(** The magnitude after the sign; base 0 reads the prefix. *)
Definition magnitude (base : Z) (s : list Z) : Z :=
  if negb (base =? 0) then digits_base base 0 s
  else
    match s with
    | 48 :: x :: d :: _ =>
        if (tolower x =? 120 (* x *)) && (digit_val d <? 16) then digits_base 16 0 (drop 2 s)
        else digits_base 8 0 s
    | 48 :: _ => digits_base 8 0 s
    | _ => digits_base 10 0 s
    end.

Definition sign_of (s : list Z) : bool * list Z :=
  match skip_spaces s with
  | 45 :: r => (true, r)
  | 43 :: r => (false, r)
  | r => (false, r)
  end.

Definition strtoul (base : Z) (s : list Z) : Z :=
  let '(neg, r) := sign_of s in
  let v := magnitude base r in
  if 2 ^ 64 - 1 <? v then 2 ^ 64 - 1 else if neg : bool then u64 (- v) else v.
Definition strtoull : Z -> list Z -> Z := strtoul.

Definition strtol (base : Z) (s : list Z) : Z :=
  let '(neg, r) := sign_of s in
  let v := magnitude base r in
  Z.max (- 2 ^ 63) (Z.min (2 ^ 63 - 1) (if neg : bool then - v else v)).
Definition strtoll : Z -> list Z -> Z := strtol.

(** ** [struct configuration] (cfg.h): its members and their types. The ones
    the configuration never writes ([C_other]) hold what the daemons keep at
    run time. *)
Inductive ctype := C_int | C_u32 | C_u64 | C_str | C_tags | C_labels | C_cpptrs | C_prefixes | C_other.

(* cfg.h 78-217 *)
Definition configuration_1 : list (string * ctype) := [
  ("what_to_count", C_u64); ("what_to_count_2", C_u64); ("what_to_count_3", C_u64);
  ("nfprobe_what_to_count", C_u64); ("nfprobe_what_to_count_2", C_u64); ("nfprobe_what_to_count_3", C_u64);
  ("aggregate_primitives", C_str); ("aggregate_unknown_etype", C_int); ("cpptrs", C_cpptrs);
  ("progname", C_str); ("name", C_str); ("type", C_str); ("type_id", C_int); ("is_forked", C_int);
  ("propagate_signals", C_int); ("pmacctd_nonroot", C_int); ("proc_name", C_str); ("proc_priority", C_int);
  ("cluster_name", C_str); ("cluster_id", C_int); ("redis_host", C_str); ("redis_passwd", C_str);
  ("redis_db", C_int); ("sock", C_int); ("bgp_sock", C_int); ("acct_type", C_int); ("data_type", C_int);
  ("pipe_homegrown", C_int); ("pipe_size", C_u64); ("buffer_size", C_u64); ("buffer_immediate", C_int);
  ("pipe_zmq", C_int); ("pipe_zmq_retry", C_int); ("pipe_zmq_profile", C_int); ("pipe_zmq_hwm", C_int);
  ("plugin_exit_any", C_int); ("files_umask", C_int); ("files_uid", C_int); ("files_gid", C_int);
  ("handle_fragments", C_int); ("handle_flows", C_int); ("frag_bufsz", C_int); ("flow_bufsz", C_int);
  ("flow_hashsz", C_int); ("conntrack_bufsz", C_int); ("flow_lifetime", C_int); ("flow_tcp_lifetime", C_int);
  ("num_protos", C_int); ("num_hosts", C_int); ("dtls_path", C_str); ("dtls_globs", C_other);
  ("imt_plugin_path", C_str); ("sql_db", C_str); ("sql_table", C_str); ("sql_table_schema", C_str);
  ("sql_table_version", C_int); ("sql_table_type", C_str); ("sql_user", C_str); ("sql_passwd", C_str);
  ("sql_conn_ca_file", C_str); ("sql_host", C_str); ("sql_port", C_int); ("sql_data", C_str);
  ("sql_backup_host", C_str); ("sql_optimize_clauses", C_int); ("sql_refresh_time", C_int);
  ("sql_history", C_int); ("sql_history_offset", C_int); ("sql_history_howmany", C_int);
  ("sql_startup_delay", C_int); ("sql_cache_entries", C_int); ("sql_dont_try_update", C_int);
  ("sql_history_roundoff", C_str); ("sql_trigger_time", C_int); ("sql_trigger_time_howmany", C_int);
  ("sql_trigger_exec", C_str); ("sql_max_queries", C_int); ("sql_preprocess", C_str);
  ("sql_preprocess_type", C_int); ("sql_multi_values", C_int); ("sql_locking_style", C_str);
  ("sql_use_copy", C_int); ("sql_delimiter", C_str); ("timestamps_rfc9557", C_int); ("timestamps_utc", C_int);
  ("timestamps_secs", C_int); ("timestamps_since_epoch", C_int); ("message_broker_output", C_int);
  ("avro_buffer_size", C_int); ("avro_schema_file", C_str); ("amqp_exchange_type", C_str);
  ("amqp_persistent_msg", C_int); ("amqp_frame_max", C_u32); ("amqp_heartbeat_interval", C_u32);
  ("amqp_vhost", C_str); ("amqp_routing_key_rr", C_int); ("amqp_avro_schema_routing_key", C_str);
  ("amqp_avro_schema_refresh_time", C_int); ("kafka_broker_port", C_int); ("kafka_partition", C_int);
  ("kafka_partition_dynamic", C_int); ("kafka_partition_key", C_str); ("kafka_partition_keylen", C_int);
  ("kafka_avro_schema_topic", C_str); ("kafka_avro_schema_refresh_time", C_int);
  ("kafka_avro_schema_registry", C_str); ("kafka_config_file", C_str); ("kafka_writer_id", C_str);
  ("print_cache_entries", C_int); ("print_markers", C_int); ("print_output", C_int);
  ("print_output_file_append", C_int); ("print_write_empty_file", C_int); ("print_output_lock_file", C_str);
  ("print_output_separator", C_str); ("print_output_file", C_str); ("print_output_custom_lib", C_str);
  ("print_output_custom_cfg_file", C_str); ("print_latest_file", C_str); ("nfacctd_port", C_int);
  ("nfacctd_ip", C_str); ("nfacctd_interface", C_str); ("nfacctd_ipv6_only", C_int);
  ("nfacctd_rp_ebpf_prog", C_str); ("nfacctd_kafka_broker_host", C_str); ("nfacctd_kafka_broker_port", C_int);
  ("nfacctd_kafka_topic", C_str); ("nfacctd_kafka_config_file", C_str); ("nfacctd_zmq_address", C_str);
  ("nfacctd_dtls_port", C_int); ("nfacctd_dtls_sock", C_int); ("writer_id_string", C_str);
  ("nfacctd_allow_file", C_str); ("nfacctd_time", C_int); ("nfacctd_time_new", C_int);
  ("nfacctd_pro_rating", C_int)].

(* cfg.h 218-357 *)
Definition configuration_2 : list (string * ctype) := [
  ("nfacctd_templates_file", C_str); ("nfacctd_templates_receiver", C_str); ("nfacctd_templates_port", C_int);
  ("nfacctd_templates_sock", C_int); ("nfacctd_account_options", C_int); ("nfacctd_stitching", C_int);
  ("nfacctd_as", C_u32); ("nfacctd_net", C_u32); ("nfacctd_pipe_size", C_int); ("sfacctd_renormalize", C_int);
  ("sfacctd_counter_output", C_int); ("sfacctd_counter_file", C_str); ("sfacctd_counter_max_nodes", C_int);
  ("sfacctd_counter_amqp_host", C_str); ("sfacctd_counter_amqp_vhost", C_str);
  ("sfacctd_counter_amqp_user", C_str); ("sfacctd_counter_amqp_passwd", C_str);
  ("sfacctd_counter_amqp_exchange", C_str); ("sfacctd_counter_amqp_exchange_type", C_str);
  ("sfacctd_counter_amqp_routing_key", C_str); ("sfacctd_counter_amqp_persistent_msg", C_int);
  ("sfacctd_counter_amqp_frame_max", C_u32); ("sfacctd_counter_amqp_heartbeat_interval", C_u32);
  ("sfacctd_counter_amqp_retry", C_int); ("sfacctd_counter_kafka_broker_host", C_str);
  ("sfacctd_counter_kafka_topic", C_str); ("sfacctd_counter_kafka_partition", C_int);
  ("sfacctd_counter_kafka_partition_key", C_str); ("sfacctd_counter_kafka_partition_keylen", C_int);
  ("sfacctd_counter_kafka_broker_port", C_int); ("sfacctd_counter_kafka_retry", C_int);
  ("sfacctd_counter_kafka_config_file", C_str); ("nfacctd_disable_sanity_checks", C_int);
  ("nfacctd_disable_opt_scope_check", C_int); ("nfacctd_ignore_exporter_address", C_int);
  ("nfacctd_pre_processing_checks", C_int); ("telemetry_daemon", C_int); ("telemetry_sock", C_int);
  ("telemetry_port_tcp", C_int); ("telemetry_port_udp", C_int); ("telemetry_ip", C_str);
  ("telemetry_interface", C_str); ("telemetry_udp_notif_port", C_int); ("telemetry_udp_notif_ip", C_str);
  ("telemetry_udp_notif_interface", C_str); ("telemetry_udp_notif_ipv6_only", C_int);
  ("telemetry_udp_notif_nmsgs", C_int); ("telemetry_udp_notif_rp_ebpf_prog", C_str);
  ("telemetry_grpc_collector_socket", C_str); ("telemetry_grpc_collector_conf", C_str);
  ("telemetry_ipv6_only", C_int); ("telemetry_decoder", C_str); ("telemetry_decoder_id", C_int);
  ("telemetry_max_peers", C_int); ("telemetry_peer_timeout", C_int); ("telemetry_tag_map", C_str);
  ("telemetry_allow_file", C_str); ("telemetry_pipe_size", C_int); ("telemetry_ipprec", C_int);
  ("telemetry_msglog_file", C_str); ("telemetry_msglog_output", C_int); ("telemetry_msglog_amqp_host", C_str);
  ("telemetry_msglog_amqp_vhost", C_str); ("telemetry_msglog_amqp_user", C_str);
  ("telemetry_msglog_amqp_passwd", C_str); ("telemetry_msglog_amqp_exchange", C_str);
  ("telemetry_msglog_amqp_exchange_type", C_str); ("telemetry_msglog_amqp_routing_key", C_str);
  ("telemetry_msglog_amqp_routing_key_rr", C_int); ("telemetry_msglog_amqp_persistent_msg", C_int);
  ("telemetry_msglog_amqp_frame_max", C_u32); ("telemetry_msglog_amqp_heartbeat_interval", C_u32);
  ("telemetry_msglog_amqp_retry", C_int); ("telemetry_dump_file", C_str);
  ("telemetry_dump_latest_file", C_str); ("telemetry_dump_output", C_int);
  ("telemetry_dump_refresh_time", C_int); ("telemetry_dump_time_slots", C_int);
  ("telemetry_dump_amqp_host", C_str); ("telemetry_dump_amqp_vhost", C_str);
  ("telemetry_dump_amqp_user", C_str); ("telemetry_dump_amqp_passwd", C_str);
  ("telemetry_dump_amqp_exchange", C_str); ("telemetry_dump_amqp_exchange_type", C_str);
  ("telemetry_dump_amqp_routing_key", C_str); ("telemetry_dump_amqp_routing_key_rr", C_int);
  ("telemetry_dump_amqp_persistent_msg", C_int); ("telemetry_dump_amqp_frame_max", C_u32);
  ("telemetry_dump_amqp_heartbeat_interval", C_u32); ("telemetry_dump_workers", C_int);
  ("telemetry_msglog_kafka_broker_host", C_str); ("telemetry_msglog_kafka_broker_port", C_int);
  ("telemetry_msglog_kafka_topic", C_str); ("telemetry_msglog_kafka_topic_rr", C_int);
  ("telemetry_msglog_kafka_partition", C_int); ("telemetry_msglog_kafka_partition_key", C_str);
  ("telemetry_msglog_kafka_partition_keylen", C_int); ("telemetry_msglog_kafka_retry", C_int);
  ("telemetry_msglog_kafka_config_file", C_str); ("telemetry_dump_kafka_broker_host", C_str);
  ("telemetry_dump_kafka_broker_port", C_int); ("telemetry_dump_kafka_topic", C_str);
  ("telemetry_dump_kafka_topic_rr", C_int); ("telemetry_dump_kafka_partition", C_int);
  ("telemetry_dump_kafka_partition_key", C_str); ("telemetry_dump_kafka_partition_keylen", C_int);
  ("telemetry_dump_kafka_config_file", C_str); ("bgp_daemon", C_int); ("bgp_daemon_msglog_output", C_int);
  ("bgp_daemon_msglog_file", C_str); ("bgp_daemon_msglog_avro_schema_file", C_str);
  ("bgp_daemon_msglog_amqp_host", C_str); ("bgp_daemon_msglog_amqp_vhost", C_str);
  ("bgp_daemon_msglog_amqp_user", C_str); ("bgp_daemon_msglog_amqp_passwd", C_str);
  ("bgp_daemon_msglog_amqp_exchange", C_str); ("bgp_daemon_msglog_amqp_exchange_type", C_str);
  ("bgp_daemon_msglog_amqp_routing_key", C_str); ("bgp_daemon_msglog_amqp_routing_key_rr", C_int);
  ("bgp_daemon_msglog_amqp_persistent_msg", C_int); ("bgp_daemon_msglog_amqp_frame_max", C_u32);
  ("bgp_daemon_msglog_amqp_heartbeat_interval", C_u32); ("bgp_daemon_msglog_amqp_retry", C_int);
  ("bgp_daemon_msglog_kafka_broker_host", C_str); ("bgp_daemon_msglog_kafka_topic", C_str);
  ("bgp_daemon_msglog_kafka_topic_rr", C_int); ("bgp_daemon_msglog_kafka_partition", C_int);
  ("bgp_daemon_msglog_kafka_partition_key", C_str); ("bgp_daemon_msglog_kafka_partition_keylen", C_int);
  ("bgp_daemon_msglog_kafka_broker_port", C_int); ("bgp_daemon_msglog_kafka_retry", C_int);
  ("bgp_daemon_msglog_kafka_config_file", C_str); ("bgp_daemon_msglog_kafka_avro_schema_registry", C_str);
  ("bgp_daemon_id", C_str); ("bgp_daemon_ip", C_str); ("bgp_daemon_interface", C_str);
  ("bgp_daemon_ipv6_only", C_int); ("bgp_daemon_as", C_u32); ("bgp_daemon_port", C_int);
  ("bgp_daemon_rp_ebpf_prog", C_str)].

(* cfg.h 358-497 *)
Definition configuration_3 : list (string * ctype) := [
  ("bgp_daemon_tag_map", C_str); ("bgp_daemon_msglog_label_filter", C_labels);
  ("bgp_daemon_pipe_size", C_int); ("bgp_daemon_ipprec", C_int); ("bgp_daemon_allow_file", C_str);
  ("bgp_daemon_max_peers", C_int); ("bgp_daemon_add_path_ignore", C_int); ("bgp_daemon_aspath_radius", C_int);
  ("bgp_daemon_stdcomm_pattern", C_str); ("bgp_daemon_extcomm_pattern", C_str);
  ("bgp_daemon_lrgcomm_pattern", C_str); ("bgp_daemon_stdcomm_pattern_to_asn", C_str);
  ("bgp_daemon_lrgcomm_pattern_to_asn", C_str); ("bgp_blackhole_stdcomm_list", C_str);
  ("bgp_daemon_peer_as_src_type", C_int); ("bgp_daemon_src_std_comm_type", C_int);
  ("bgp_daemon_src_ext_comm_type", C_int); ("bgp_daemon_src_lrg_comm_type", C_int);
  ("bgp_daemon_src_as_path_type", C_int); ("bgp_daemon_src_local_pref_type", C_int);
  ("bgp_daemon_src_med_type", C_int); ("bgp_daemon_src_roa_type", C_int);
  ("bgp_daemon_peer_as_skip_subas", C_int); ("bgp_daemon_batch", C_int); ("bgp_daemon_batch_interval", C_int);
  ("bgp_daemon_peer_as_src_map", C_str); ("bgp_daemon_src_local_pref_map", C_str);
  ("bgp_daemon_src_med_map", C_str); ("bgp_daemon_to_xflow_agent_map", C_str);
  ("nfacctd_flow_to_rd_map", C_str); ("bgp_daemon_follow_default", C_int);
  ("bgp_daemon_follow_nexthop", C_prefixes); ("bgp_daemon_follow_nexthop_external", C_int);
  ("bgp_daemon_neighbors_file", C_str); ("bgp_daemon_md5_file", C_str); ("bgp_table_peer_buckets", C_int);
  ("bgp_table_per_peer_buckets", C_int); ("bgp_table_attr_hash_buckets", C_int);
  ("bgp_table_per_peer_hash", C_int); ("bgp_table_dump_output", C_int); ("bgp_table_dump_file", C_str);
  ("bgp_table_dump_latest_file", C_str); ("bgp_table_dump_avro_schema_file", C_str);
  ("bgp_table_dump_refresh_time", C_int); ("bgp_table_dump_time_slots", C_int);
  ("bgp_table_dump_amqp_host", C_str); ("bgp_table_dump_amqp_vhost", C_str);
  ("bgp_table_dump_amqp_user", C_str); ("bgp_table_dump_amqp_passwd", C_str);
  ("bgp_table_dump_amqp_exchange", C_str); ("bgp_table_dump_amqp_exchange_type", C_str);
  ("bgp_table_dump_amqp_routing_key", C_str); ("bgp_table_dump_amqp_routing_key_rr", C_int);
  ("bgp_table_dump_amqp_persistent_msg", C_int); ("bgp_table_dump_amqp_frame_max", C_u32);
  ("bgp_table_dump_amqp_heartbeat_interval", C_u32); ("bgp_table_dump_kafka_broker_host", C_str);
  ("bgp_table_dump_kafka_topic", C_str); ("bgp_table_dump_kafka_topic_rr", C_int);
  ("bgp_table_dump_kafka_partition", C_int); ("bgp_table_dump_kafka_partition_key", C_str);
  ("bgp_table_dump_kafka_partition_keylen", C_int); ("bgp_table_dump_kafka_broker_port", C_int);
  ("bgp_table_dump_kafka_config_file", C_str); ("bgp_table_dump_kafka_avro_schema_registry", C_str);
  ("bgp_table_dump_workers", C_int); ("bgp_lg", C_int); ("bgp_lg_ip", C_str); ("bgp_lg_port", C_int);
  ("bgp_lg_threads", C_int); ("bgp_lg_user", C_str); ("bgp_lg_passwd", C_str); ("bgp_xconnect_map", C_str);
  ("bgp_disable_router_id_check", C_int); ("bmp_sock", C_int); ("bmp_daemon", C_int);
  ("bmp_daemon_ip", C_str); ("bmp_daemon_interface", C_str); ("bmp_daemon_ipv6_only", C_int);
  ("bmp_daemon_port", C_int); ("bmp_daemon_rp_ebpf_prog", C_str); ("bmp_daemon_tag_map", C_str);
  ("bmp_daemon_set_pd", C_int); ("bmp_daemon_msglog_label_filter", C_labels); ("bmp_daemon_pipe_size", C_int);
  ("bmp_daemon_max_peers", C_int); ("bmp_daemon_allow_file", C_str); ("bmp_daemon_ipprec", C_int);
  ("bmp_daemon_batch", C_int); ("bmp_daemon_batch_interval", C_int); ("bmp_daemon_msglog_output", C_int);
  ("bmp_daemon_msglog_file", C_str); ("bmp_daemon_msglog_avro_schema_file", C_str);
  ("bmp_daemon_msglog_amqp_host", C_str); ("bmp_daemon_msglog_amqp_vhost", C_str);
  ("bmp_daemon_msglog_amqp_user", C_str); ("bmp_daemon_msglog_amqp_passwd", C_str);
  ("bmp_daemon_msglog_amqp_exchange", C_str); ("bmp_daemon_msglog_amqp_exchange_type", C_str);
  ("bmp_daemon_msglog_amqp_routing_key", C_str); ("bmp_daemon_msglog_amqp_routing_key_rr", C_int);
  ("bmp_daemon_msglog_amqp_persistent_msg", C_int); ("bmp_daemon_msglog_amqp_frame_max", C_u32);
  ("bmp_daemon_msglog_amqp_heartbeat_interval", C_u32); ("bmp_daemon_msglog_amqp_retry", C_int);
  ("bmp_daemon_msglog_kafka_broker_host", C_str); ("bmp_daemon_msglog_kafka_topic", C_str);
  ("bmp_daemon_msglog_kafka_topic_rr", C_int); ("bmp_daemon_msglog_kafka_partition", C_int);
  ("bmp_daemon_msglog_kafka_partition_key", C_str); ("bmp_daemon_msglog_kafka_partition_keylen", C_int);
  ("bmp_daemon_msglog_kafka_broker_port", C_int); ("bmp_daemon_msglog_kafka_retry", C_int);
  ("bmp_daemon_msglog_kafka_config_file", C_str); ("bmp_daemon_msglog_kafka_avro_schema_registry", C_str);
  ("bmp_table_peer_buckets", C_int); ("bmp_table_per_peer_buckets", C_int);
  ("bmp_table_attr_hash_buckets", C_int); ("bmp_table_per_peer_hash", C_int); ("bmp_dump_output", C_int);
  ("bmp_dump_workers", C_int); ("bmp_dump_file", C_str); ("bmp_dump_latest_file", C_str);
  ("bmp_dump_avro_schema_file", C_str); ("bmp_dump_refresh_time", C_int); ("bmp_dump_time_slots", C_int);
  ("bmp_dump_exclude_stats", C_int); ("bmp_dump_amqp_host", C_str); ("bmp_dump_amqp_vhost", C_str);
  ("bmp_dump_amqp_user", C_str); ("bmp_dump_amqp_passwd", C_str); ("bmp_dump_amqp_exchange", C_str);
  ("bmp_dump_amqp_exchange_type", C_str); ("bmp_dump_amqp_routing_key", C_str);
  ("bmp_dump_amqp_routing_key_rr", C_int); ("bmp_dump_amqp_persistent_msg", C_int);
  ("bmp_dump_amqp_frame_max", C_u32); ("bmp_dump_amqp_heartbeat_interval", C_u32);
  ("bmp_dump_kafka_broker_host", C_str); ("bmp_dump_kafka_topic", C_str)].

(* cfg.h 498-637 *)
Definition configuration_4 : list (string * ctype) := [
  ("bmp_dump_kafka_topic_rr", C_int); ("bmp_dump_kafka_partition", C_int);
  ("bmp_dump_kafka_partition_key", C_str); ("bmp_dump_kafka_partition_keylen", C_int);
  ("bmp_dump_kafka_broker_port", C_int); ("bmp_dump_kafka_config_file", C_str);
  ("bmp_dump_kafka_avro_schema_registry", C_str); ("geoip_ipv4_file", C_str); ("geoip_ipv6_file", C_str);
  ("geoipv2_file", C_str); ("geoipv2_db", C_other); ("promisc", C_int); ("clbuf", C_str);
  ("pcap_protocol", C_int); ("pcap_savefile", C_str); ("pcap_direction", C_int); ("pcap_ifindex", C_int);
  ("pcap_interfaces_map", C_str); ("pcap_if", C_str); ("pcap_if_wait", C_int); ("pcap_sf_wait", C_int);
  ("pcap_sf_delay", C_int); ("pcap_sf_replay", C_int); ("num_memory_pools", C_int);
  ("memory_pool_size", C_int); ("buckets", C_int); ("daemon", C_int); ("active_plugins", C_int);
  ("logfile", C_str); ("logfile_fd", C_other); ("log_stderr_tstamp", C_int); ("pidfile", C_str);
  ("networks_mask", C_int); ("networks_file", C_str); ("networks_file_filter", C_int);
  ("networks_file_no_lpm", C_int); ("networks_no_mask_if_zero", C_int); ("networks_cache_entries", C_int);
  ("ports_file", C_str); ("protos_file", C_str); ("tos_file", C_str); ("a_filter", C_str);
  ("bpfp_a_num", C_int); ("bpfp_a_table", C_other); ("ptf", C_tags); ("pt2f", C_tags); ("ptlf", C_labels);
  ("pretag_label_encode_as_map", C_int); ("tcpflags_encode_as_array", C_int);
  ("bgp_comms_encode_as_array", C_int); ("bgp_comms_num", C_int); ("as_path_encode_as_array", C_int);
  ("mpls_label_stack_encode_as_array", C_int); ("fwd_status_encode_as_string", C_int);
  ("tos_encode_as_dscp", C_int); ("maps_refresh", C_int); ("maps_index", C_int); ("maps_entries", C_int);
  ("maps_row_len", C_int); ("pre_tag_map", C_str); ("pre_tag_map_dont_recirculate", C_int); ("ptm", C_other);
  ("ptm_alloc", C_int); ("ptm_global", C_int); ("ptm_complex", C_int); ("post_tag", C_u64);
  ("post_tag2", C_u64); ("ext_sampling_rate", C_int); ("sampling_rate", C_int); ("sampling_map", C_str);
  ("syslog", C_str); ("debug", C_int); ("debug_internal_msg", C_int); ("dry_run", C_int); ("snaplen", C_int);
  ("classifier_table_num", C_int); ("classifier_ndpi", C_int); ("ndpi_max_flows", C_u32);
  ("ndpi_proto_guess", C_int); ("ndpi_idle_scan_period", C_u32); ("ndpi_idle_max_time", C_u32);
  ("ndpi_idle_scan_budget", C_u32); ("ndpi_giveup_proto_tcp", C_int); ("ndpi_giveup_proto_udp", C_int);
  ("ndpi_giveup_proto_other", C_int); ("nfprobe_timeouts", C_str); ("nfprobe_id", C_int);
  ("nfprobe_hoplimit", C_int); ("nfprobe_maxflows", C_int); ("nfprobe_receiver", C_str);
  ("nfprobe_dtls", C_int); ("nfprobe_dtls_verify_cert", C_str); ("nfprobe_version", C_int);
  ("nfprobe_engine", C_str); ("nfprobe_peer_as", C_int); ("nfprobe_source_ip", C_str);
  ("nfprobe_source_ha", C_other); ("nfprobe_ipprec", C_int); ("nfprobe_direction", C_int);
  ("nfprobe_ifindex", C_u32); ("nfprobe_ifindex_override", C_int); ("nfprobe_ifindex_type", C_int);
  ("nfprobe_dont_cache", C_int); ("nfprobe_tstamp_usec", C_int); ("sfprobe_receiver", C_str);
  ("sfprobe_agentip", C_str); ("sfprobe_agentsubid", C_int); ("sfprobe_ifspeed", C_u64);
  ("tee_transparent", C_int); ("tee_max_receivers", C_int); ("tee_max_receiver_pools", C_int);
  ("tee_receivers", C_str); ("tee_pipe_size", C_int); ("tee_kafka_config_file", C_str);
  ("uacctd_group", C_int); ("uacctd_nl_size", C_int); ("uacctd_threshold", C_int); ("tunnel0", C_str);
  ("use_ip_next_hop", C_int); ("pcap_arista_trailer_offset", C_int);
  ("pcap_arista_trailer_flag_value", C_int); ("dump_max_writers", C_int); ("tmp_asa_bi_flow", C_int);
  ("tmp_bgp_lookup_compare_ports", C_int); ("tmp_bgp_daemon_route_refresh", C_int);
  ("tmp_bgp_daemon_origin_type_int", C_int); ("tmp_telemetry_udp_notif_legacy", C_int);
  ("tmp_telemetry_decode_cisco_v1_json_string", C_int); ("bgp_bmp_daemon_ha", C_int);
  ("bgp_bmp_daemon_ha_cluster_name", C_str); ("bgp_bmp_daemon_ha_cluster_id", C_int);
  ("bgp_bmp_daemon_ha_queue_message_timeout", C_int); ("bgp_bmp_daemon_ha_queue_max_size", C_int);
  ("thread_stack", C_u64); ("rpki_roas_file", C_str); ("rpki_rtr_cache", C_str);
  ("rpki_rtr_cache_version", C_int); ("rpki_rtr_cache_pipe_size", C_int)].

(* cfg.h 638-639 *)
Definition configuration_5 : list (string * ctype) := [
  ("rpki_rtr_cache_ipprec", C_int); ("bmp_daemon_parse_proxy_header", C_int)].

Definition configuration : list (string * ctype) :=
  configuration_1 ++ configuration_2 ++ configuration_3 ++ configuration_4 ++ configuration_5.

Fixpoint assoc {A} (k : string) (l : list (string * A)) : option A :=
  match l with
  | [] => None
  | (x, v) :: r => if String.eqb x k then Some v else assoc k r
  end.

Definition field_type (f : string) : ctype := default C_other (assoc f configuration).

(** What a member holds. A pointer into the configuration's text holds the
    string it points to: the text is kept for the life of the daemon, and no
    line of it is written to once its key is handled. *)
Inductive cval :=
  | CInt (n : Z)
  | CStr (s : list Z)
  | CTags (table : list (Z * Z * Z))       (* [ptt_t]: neg, n, r *)
  | CLabels (table : list (Z * list Z))    (* [ptlt_t]: neg, v *)
  | CPrims (names : list (list Z))         (* [cpptrs]: the names still to be resolved *)
  | CPrefixes (l : list BgpPrefix.prefix).

(** A configuration: the members that were written since it was zeroed. *)
Abbreviation conf := (gmap string cval).

(** The conversion of an integer to the type of the member it is stored in. *)
Definition convert (t : ctype) (n : Z) : Z :=
  match t with
  | C_int => s32 n
  | C_u32 => u32 n
  | C_u64 => u64 n
  | _ => n
  end.

Definition put (f : string) (n : Z) (c : conf) : conf := <[f := CInt (convert (field_type f) n)]> c.
Definition puts (f : string) (s : list Z) (c : conf) : conf := <[f := CStr s]> c.

(** An [int] member. *)
Definition geti (f : string) (c : conf) : Z := match c !! f with Some (CInt n) => n | _ => 0 end.

(** ** The plugins (plugin_hooks.h) and what the keys write to *)

Record plugin := mk_plugin {
  pl_id : Z;              (* u_int8_t *)
  pl_name : list Z;
  pl_cfg : conf;
  pl_type : Z;            (* type.id *)
  pl_type_string : list Z (* type.string *)
}.

Definition set_cfg (u : conf -> conf) (p : plugin) : plugin :=
  mk_plugin (pl_id p) (pl_name p) (u (pl_cfg p)) (pl_type p) (pl_type_string p).

Record daemon := mk_daemon {
  plugins_list : list plugin;
  mcast_groups : list (Z * list Z)  (* [struct host_addr]: family and address *)
}.

Definition with_plugins (l : list plugin) (s : daemon) : daemon := mk_daemon l (mcast_groups s).

(** A handler: the name between brackets, the value, and the state; the
    answer is the number of changes, or [ERR]. *)
Definition handler := option (list Z) -> list Z -> daemon -> res (Z * daemon).

(** [for (; list; list = list->next, changes++) list->cfg... = value;] *)
Definition all (u : conf -> conf) (s : daemon) : Z * daemon :=
  (Z.of_nat (length (plugins_list s)), with_plugins (map (set_cfg u) (plugins_list s)) s).

(** The first plugin with that name: [u] says what changes is set to. *)
Fixpoint first_named (n : list Z) (u : conf -> Z * conf) (l : list plugin) : Z * list plugin :=
  match l with
  | [] => (0, [])
  | p :: r =>
      if bool_decide (n = pl_name p)
      then let '(k, c) := u (pl_cfg p) in (k, set_cfg (fun _ => c) p :: r)
      else let '(k, r) := first_named n u r in (k, p :: r)
  end.

Definition by_name_only (n : list Z) (u : conf -> Z * conf) (s : daemon) : Z * daemon :=
  let '(k, l) := first_named n u (plugins_list s) in (k, with_plugins l s).

Definition by_name (name : option (list Z)) (u : conf -> conf) (s : daemon) : Z * daemon :=
  match name with
  | None => all u s
  | Some n => by_name_only n (fun c => (1, u c)) s
  end.

(** The keys that cannot be globalized: without a name nothing is written, and
    one change is reported. *)
Definition named_only_with (name : option (list Z)) (u : conf -> Z * conf) (s : daemon) : Z * daemon :=
  match name with
  | None => (1, s)
  | Some n => by_name_only n u s
  end.
Definition named_only (name : option (list Z)) (u : conf -> conf) (s : daemon) : Z * daemon :=
  named_only_with name (fun c => (1, u c)) s.

End CfgData.
