(* ===== verification/CfgHandlers.v ===== *)
(** * The configuration keys (cfg_handlers.c)

    One definition per [cfg_key_*] handler, in the order of the source, and
    the helpers they call (util.c, pretag.c, addr.c, zmq_common.c). A handler
    is given the name between brackets, the value, and the state; it answers
    the number of changes, or [ERR]. What it logs is left out. *)

From S2P Require Import Prelude.
From S2P Require Import BgpPrefix.
From S2P Require Import CfgData.

Module CfgHandlers.
Import CfgData.
Import BgpPrefix(AF_INET, AF_INET6, mk_prefix, str2prefix).

(** ** Constants *)

Definition DRY_RUN_CONFIG : Z := 1.
Definition DRY_RUN_SETUP : Z := 2.
Definition DEFAULT_SNAPLEN : Z := 128.
Definition PCAP_IFINDEX_SYS : Z := 1.
Definition PCAP_IFINDEX_HASH : Z := 2.
Definition PCAP_IFINDEX_MAP : Z := 3.
Definition PCAP_IFINDEX_NONE : Z := 0.
Definition PRINT_OUTPUT_JSON : Z := 0x00000004.
Definition PRINT_OUTPUT_AVRO_BIN : Z := 0x00000010.
Definition PRINT_OUTPUT_AVRO_JSON : Z := 0x00000020.
Definition PRINT_OUTPUT_CUSTOM : Z := 0x00000040.
Definition PRINT_OUTPUT_FORMATTED : Z := 0x00000001.
Definition PRINT_OUTPUT_CSV : Z := 0x00000002.
Definition PRINT_OUTPUT_EVENT : Z := 0x00000008.
Definition BGP_DAEMON_NONE : Z := 0.
Definition BGP_DAEMON_ONLINE : Z := 1.
Definition BGP_SRC_PRIMITIVES_UNK : Z := 0x00000000.
Definition BGP_SRC_PRIMITIVES_KEEP : Z := 0x00000001.
Definition BGP_SRC_PRIMITIVES_MAP : Z := 0x00000002.
Definition BGP_SRC_PRIMITIVES_BGP : Z := 0x00000004.
Definition BGP_ASPATH_HASH_PATHID : Z := 0x00000000.
Definition BGP_ASPATH_HASH_MPLSVPNRD : Z := 0x00000001.
Definition MIN_REFRESH_TIME : Z := 60.
Definition MAX_REFRESH_TIME : Z := 86400.
Definition DIRECTION_TAG : Z := 0x00000004.
Definition DIRECTION_TAG2 : Z := 0x00000008.
Definition DIRECTION_IN : Z := 0x00000001.
Definition DIRECTION_OUT : Z := 0x00000002.
Definition NF_TIME_SECS : Z := 1.
Definition NF_TIME_NEW : Z := 2.
Definition NF_AS_KEEP : Z := 0x00000001.
Definition NF_AS_NEW : Z := 0x00000002.
Definition NF_AS_BGP : Z := 0x00000004.
Definition NF_AS_FALLBACK : Z := 0x80000000.
Definition NF_NET_KEEP : Z := 0x00000001.
Definition NF_NET_NEW : Z := 0x00000002.
Definition NF_NET_BGP : Z := 0x00000004.
Definition NF_NET_STATIC : Z := 0x00000008.
Definition NF_NET_IGP : Z := 0x00000010.
Definition NF_NET_BGP_LS : Z := NF_NET_IGP.
Definition NF_NET_FALLBACK : Z := 0x80000000.
Definition IFINDEX_STATIC : Z := 0x00000001.
Definition IFINDEX_TAG : Z := 0x00000002.
Definition IFINDEX_TAG2 : Z := 0x00000004.
Definition COUNT_SECONDLY : Z := 0x00000001.
Definition COUNT_MINUTELY : Z := 0x00000002.
Definition COUNT_HOURLY : Z := 0x00000004.
Definition COUNT_DAILY : Z := 0x00000008.
Definition COUNT_WEEKLY : Z := 0x00000010.
Definition COUNT_MONTHLY : Z := 0x00000020.
Definition MAX_PRETAG_MAP_ENTRIES : Z := 384.
Definition MAX_MCAST_GROUPS : Z := 20.
Definition FOLLOW_BGP_NH_ENTRIES : Z := 32.
Definition MAX_CUSTOM_PRIMITIVES : Z := 64.
Definition ACCT_PM : Z := 1.
Definition ACCT_NF : Z := 2.
Definition ACCT_SF : Z := 3.
Definition ACCT_FWDPLANE_MAX : Z := 100.
Definition COUNT_INDEX_MASK : Z := 0xFFFF.
Definition COUNT_REGISTRY_MASK : Z := 0x0000FFFFFFFFFFFF.
Definition COUNT_REGISTRY_BITS : Z := 48.
Definition PLUGIN_PIPE_ZMQ_MICRO : Z := 1.
Definition PLUGIN_PIPE_ZMQ_MICRO_SIZE : Z := 0.
Definition PLUGIN_PIPE_ZMQ_SMALL : Z := 2.
Definition PLUGIN_PIPE_ZMQ_SMALL_SIZE : Z := 10000.
Definition PLUGIN_PIPE_ZMQ_MEDIUM : Z := 3.
Definition PLUGIN_PIPE_ZMQ_MEDIUM_SIZE : Z := 100000.
Definition PLUGIN_PIPE_ZMQ_LARGE : Z := 4.
Definition PLUGIN_PIPE_ZMQ_LARGE_SIZE : Z := 1000000.
Definition PLUGIN_PIPE_ZMQ_XLARGE : Z := 5.
Definition PLUGIN_PIPE_ZMQ_XLARGE_SIZE : Z := 10000000.

(** ** Booleans *)

Definition parse_truefalse (value_ptr : list Z) : Z :=
  let value_ptr := lower_string value_ptr in
  if streq value_ptr "true" then TRUE else if streq value_ptr "false" then FALSE else ERR.

Definition parse_truefalse_nonzero (value_ptr : list Z) : Z :=
  let value_ptr := lower_string value_ptr in
  if streq value_ptr "true" then TRUE else if streq value_ptr "false" then FALSE_NONZERO else ERR.

(** ** Tag and label filters (util.c, pretag.c) *)

Definition pt_check_neg (value : list Z) : Z * list Z :=
  match value with
  | 45 (* - *) :: r => (TRUE, r)
  | _ => (FALSE, value)
  end.

(** The text before the dash, and the one after it when there is one. *)
Definition pt_check_range (str : list Z) : list Z * option (list Z) :=
  match split_at 45 str with
  | Some (low, high) => (low, Some high)
  | None => (str, None)
  end.

Fixpoint load_tags_loop (toks : list (list Z)) (changes : Z) (table : list (Z * Z * Z)) : Z * list (Z * Z * Z) :=
  match toks with
  | [] => (changes, table)
  | count_token :: toks =>
      if negb (changes <? MAX_PRETAG_MAP_ENTRIES / 4) then (changes, table) else
      let '(neg, count_token) := pt_check_neg count_token in
      let '(count_token, range_ptr) := pt_check_range count_token in
      let value := strtoull 10 count_token in
      match range_ptr with
      | Some range_ptr =>
          let range := strtoull 10 range_ptr in
          if range <=? value then (changes + 1, table)
          else load_tags_loop toks (changes + 1) (table ++ [(neg, value, range)])
      | None => load_tags_loop toks (changes + 1) (table ++ [(neg, value, value)])
      end
  end.

Definition load_tags (value_ptr : list Z) : Z * list (Z * Z * Z) :=
  load_tags_loop (tokens 44 (* , *) (trim_all_spaces value_ptr)) 0 [].

Definition label_entry (count_token : list Z) : Z * list Z :=
  let '(neg, value) := pt_check_neg count_token in (neg, trim_spaces value).

(** The changes, the table, and what the text has become: it is cut at the
    first comma, and the label before it is trimmed where it stands. *)
Definition load_labels (value_ptr : list Z) : Z * list (Z * list Z) * list Z :=
  let table := map label_entry (take (Z.to_nat (MAX_PRETAG_MAP_ENTRIES / 4)) (tokens 44 (* , *) value_ptr)) in
  let first := match split_at 44 value_ptr with Some (token, _) => token | None => value_ptr end in
  let '(neg, value) := pt_check_neg first in
  (Z.of_nat (length table), table, (if neg =? TRUE then [45] else []) ++ trim_spaces value).

(** [for (; list; list = list->next, changes++) changes = load_labels (...)]:
    every plugin is handed the same text. *)
Fixpoint load_labels_all (f : string) (value_ptr : list Z) (changes : Z) (l : list plugin) : Z * list plugin :=
  match l with
  | [] => (changes, [])
  | p :: r =>
      let '(changes, table, value_ptr) := load_labels value_ptr in
      let '(changes, r) := load_labels_all f value_ptr (changes + 1) r in
      (changes, set_cfg (fun c => <[f := CLabels table]> c) p :: r)
  end.

(** ** Times *)

Definition time_unit (c : Z) : option Z :=
  if c =? 115 (* s *) then Some COUNT_SECONDLY
  else if c =? 109 (* m *) then Some COUNT_MINUTELY
  else if c =? 104 (* h *) then Some COUNT_HOURLY
  else if c =? 100 (* d *) then Some COUNT_DAILY
  else if c =? 119 (* w *) then Some COUNT_WEEKLY
  else if c =? 77 (* M *) then Some COUNT_MONTHLY
  else None.

(** The unit and how many of it; both 0 when the value is refused. *)
Definition parse_time (value : list Z) : Z * Z :=
  let '(digits, r) := span_digits value in
  match (match r with [] => Some COUNT_SECONDLY | c :: _ => time_unit c end) with
  | None => (0, 0)
  | Some mu =>
      let k := atoi digits in
      if 0 <? k then
        if mu =? COUNT_SECONDLY then
          if negb (k mod 60 =? 0)
          then if negb (k / 60 =? 0) then (0, 0) else (mu, k)
          else (COUNT_MINUTELY, k / 60)
        else (mu, k)
      else (0, 0)
  end.

Fixpoint roundoff_check (value_ptr : list Z) : Z :=
  match value_ptr with
  | [] => 0
  | c :: r =>
      Z.lor (if c =? 100 (* d *) then COUNT_DAILY
             else if c =? 119 (* w *) then COUNT_WEEKLY
             else if c =? 77 (* M *) then COUNT_MONTHLY else 0) (roundoff_check r)
  end.

(** The variables of a file or table name; any other one ends the daemon. *)
Fixpoint count_vars (ptr : list Z) (num : Z) : res Z :=
  match ptr with
  | [] => Ok num
  | c :: r =>
      if c =? 37 (* % *) then
        match r with
        | [] => Err Exited
        | c :: _ => if bool_decide (c ∈ cstr "dHmMwWYsSz") then count_vars r (num + 1) else Err Exited
        end
      else count_vars r num
  end.

(** ** Addresses (addr.c) *)

Section Addresses.
Context {ho : host}.

Definition str_to_addr (str : list Z) : Z * list Z :=
  match inet_aton str with
  | Some a => (AF_INET, a)
  | None =>
      match inet_pton6 str with
      | Some a => (AF_INET6, a)
      | None => (FALSE, [])
      end
  end.

(** 224.0.0.0/4 and ff00::/8: the tests look at the first byte. *)
Definition is_multicast (a : Z * list Z) : Z :=
  let '(family, address) := a in
  if family =? AF_INET then if Z.land (byte_at address 0) 240 =? 224 then family else FALSE
  else if family =? AF_INET6 then if byte_at address 0 =? 255 then family else FALSE
  else FALSE.

Fixpoint mcast_loop (toks : list (list Z)) (idx more : Z) (groups : list (Z * list Z)) : list (Z * list Z) :=
  match toks with
  | [] => groups
  | count_token :: toks =>
      let tmp_addr := str_to_addr count_token in
      if negb (is_multicast tmp_addr =? 0)
      then if idx <? MAX_MCAST_GROUPS
           then mcast_loop toks (u8 (idx + 1)) more (<[Z.to_nat idx := tmp_addr]> groups)
           else mcast_loop toks idx (u8 (more + 1)) groups
      else mcast_loop toks idx more groups
  end.

Definition prefixes_of (f : string) (c : conf) : list BgpPrefix.prefix :=
  match c !! f with
  | Some (CPrefixes l) => l
  | _ => replicate (Z.to_nat FOLLOW_BGP_NH_ENTRIES) (mk_prefix 0 0 (replicate 16 0))
  end.

(** Entry [idx] of every plugin, up to the first one that is not valid. *)
Fixpoint follow_plugins (count_token : list Z) (idx valid : Z) (l : list plugin) : Z * list plugin :=
  match l with
  | [] => (valid, [])
  | p :: r =>
      let nh := prefixes_of "bgp_daemon_follow_nexthop" (pl_cfg p) in
      let '(valid, q) := str2prefix inet_aton inet_pton6 count_token
                           (default (mk_prefix 0 0 []) (nh !! Z.to_nat idx)) in
      let p := set_cfg (fun c => <["bgp_daemon_follow_nexthop" := CPrefixes (<[Z.to_nat idx := q]> nh)]> c) p in
      if valid =? 0 then (valid, p :: r)
      else let '(valid, r) := follow_plugins count_token idx valid r in (valid, p :: r)
  end.

Fixpoint follow_loop (toks : list (list Z)) (idx valid : Z) (l : list plugin) : Z * list plugin :=
  match toks with
  | [] => (idx, l)
  | count_token :: toks =>
      if negb (idx <? FOLLOW_BGP_NH_ENTRIES) then (idx, l) else
      let '(valid, l) := follow_plugins count_token idx valid l in
      follow_loop toks (if negb (valid =? 0) then idx + 1 else idx) valid l
  end.

(** ** The aggregation primitives *)

Definition cfg_get_primitive_index_value (input : Z) : Z * Z :=
  (Z.land (Z.shiftr input COUNT_REGISTRY_BITS) COUNT_INDEX_MASK, Z.land input COUNT_REGISTRY_MASK).

Definition cfg_set_primitive_index_value (index value : Z) : Z :=
  Z.lor (u64 (Z.shiftl index COUNT_REGISTRY_BITS)) (Z.land value COUNT_REGISTRY_MASK).

(** A primitive that is already in the registry ends the daemon. *)
Definition cfg_set_aggregate (registry : list Z) (input : Z) : res (list Z) :=
  let '(index, value) := cfg_get_primitive_index_value input in
  if negb (index <? Z.of_nat (length registry)) then Err OutOfBounds
  else if negb (Z.land (byte_at registry index) value =? 0) then Err Exited
  else Ok (<[Z.to_nat index := Z.lor (byte_at registry index) value]> registry).

(** The registry is in the top 16 bits, the bit of the primitive below. *)
Definition COUNT_INT_SRC_HOST : Z := 0x0001000000000001.
Definition COUNT_INT_DST_HOST : Z := 0x0001000000000002.
Definition COUNT_INT_SUM_HOST : Z := 0x0001000000000004.
Definition COUNT_INT_SRC_PORT : Z := 0x0001000000000008.
Definition COUNT_INT_DST_PORT : Z := 0x0001000000000010.
Definition COUNT_INT_IP_PROTO : Z := 0x0001000000000020.
Definition COUNT_INT_SRC_MAC : Z := 0x0001000000000040.
Definition COUNT_INT_DST_MAC : Z := 0x0001000000000080.
Definition COUNT_INT_SRC_NET : Z := 0x0001000000000100.
Definition COUNT_INT_DST_NET : Z := 0x0001000000000200.
Definition COUNT_INT_TAG : Z := 0x0001000000000400.
Definition COUNT_INT_VLAN : Z := 0x0001000000000800.
Definition COUNT_INT_IP_TOS : Z := 0x0001000000001000.
Definition COUNT_INT_NONE : Z := 0x0001000000002000.
Definition COUNT_INT_SRC_AS : Z := 0x0001000000004000.
Definition COUNT_INT_DST_AS : Z := 0x0001000000008000.
Definition COUNT_INT_SUM_NET : Z := 0x0001000000010000.
Definition COUNT_INT_SUM_AS : Z := 0x0001000000020000.
Definition COUNT_INT_SUM_PORT : Z := 0x0001000000040000.
Definition COUNT_INT_FLOWS : Z := 0x0001000000100000.
Definition COUNT_INT_SUM_MAC : Z := 0x0001000000200000.
Definition COUNT_INT_CLASS : Z := 0x0001000000400000.
Definition COUNT_INT_TCPFLAGS : Z := 0x0001000002000000.
Definition COUNT_INT_STD_COMM : Z := 0x0001000004000000.
Definition COUNT_INT_EXT_COMM : Z := 0x0001000008000000.
Definition COUNT_INT_AS_PATH : Z := 0x0001000010000000.
Definition COUNT_INT_LOCAL_PREF : Z := 0x0001000020000000.
Definition COUNT_INT_MED : Z := 0x0001000040000000.
Definition COUNT_INT_PEER_SRC_AS : Z := 0x0001000080000000.
Definition COUNT_INT_PEER_DST_AS : Z := 0x0001000100000000.
Definition COUNT_INT_PEER_SRC_IP : Z := 0x0001000200000000.
Definition COUNT_INT_PEER_DST_IP : Z := 0x0001000400000000.
Definition COUNT_INT_TAG2 : Z := 0x0001000800000000.
Definition COUNT_INT_SRC_AS_PATH : Z := 0x0001001000000000.
Definition COUNT_INT_SRC_STD_COMM : Z := 0x0001002000000000.
Definition COUNT_INT_SRC_EXT_COMM : Z := 0x0001004000000000.
Definition COUNT_INT_SRC_LOCAL_PREF : Z := 0x0001008000000000.
Definition COUNT_INT_SRC_MED : Z := 0x0001010000000000.
Definition COUNT_INT_MPLS_VPN_RD : Z := 0x0001020000000000.
Definition COUNT_INT_IN_IFACE : Z := 0x0001040000000000.
Definition COUNT_INT_OUT_IFACE : Z := 0x0001080000000000.
Definition COUNT_INT_SRC_NMASK : Z := 0x0001100000000000.
Definition COUNT_INT_DST_NMASK : Z := 0x0001200000000000.
Definition COUNT_INT_COS : Z := 0x0001400000000000.
Definition COUNT_INT_ETHERTYPE : Z := 0x0001800000000000.
Definition COUNT_INT_SAMPLING_RATE : Z := 0x0002000000000001.
Definition COUNT_INT_SRC_HOST_COUNTRY : Z := 0x0002000000000002.
Definition COUNT_INT_DST_HOST_COUNTRY : Z := 0x0002000000000004.
Definition COUNT_INT_EXPORT_PROTO_SYSID : Z := 0x0002000000000008.
Definition COUNT_INT_POST_NAT_SRC_HOST : Z := 0x0002000000000010.
Definition COUNT_INT_POST_NAT_DST_HOST : Z := 0x0002000000000020.
Definition COUNT_INT_POST_NAT_SRC_PORT : Z := 0x0002000000000040.
Definition COUNT_INT_POST_NAT_DST_PORT : Z := 0x0002000000000080.
Definition COUNT_INT_NAT_EVENT : Z := 0x0002000000000100.
Definition COUNT_INT_TIMESTAMP_START : Z := 0x0002000000000200.
Definition COUNT_INT_TIMESTAMP_END : Z := 0x0002000000000400.
Definition COUNT_INT_TIMESTAMP_ARRIVAL : Z := 0x0002000000000800.
Definition COUNT_INT_MPLS_LABEL_TOP : Z := 0x0002000000001000.
Definition COUNT_INT_MPLS_LABEL_BOTTOM : Z := 0x0002000000002000.
Definition COUNT_INT_SRV6_SEG_IPV6_SECTION : Z := 0x0002000000004000.
Definition COUNT_INT_LABEL : Z := 0x0002000000008000.
Definition COUNT_INT_EXPORT_PROTO_SEQNO : Z := 0x0002000000010000.
Definition COUNT_INT_EXPORT_PROTO_VERSION : Z := 0x0002000000020000.
Definition COUNT_INT_LRG_COMM : Z := 0x0002000000040000.
Definition COUNT_INT_SRC_LRG_COMM : Z := 0x0002000000080000.
Definition COUNT_INT_SRC_HOST_POCODE : Z := 0x0002000000100000.
Definition COUNT_INT_DST_HOST_POCODE : Z := 0x0002000000200000.
Definition COUNT_INT_TUNNEL_SRC_HOST : Z := 0x0002000000400000.
Definition COUNT_INT_TUNNEL_DST_HOST : Z := 0x0002000000800000.
Definition COUNT_INT_TUNNEL_IP_PROTO : Z := 0x0002000001000000.
Definition COUNT_INT_TUNNEL_IP_TOS : Z := 0x0002000002000000.
Definition COUNT_INT_NDPI_CLASS : Z := 0x0002000004000000.
Definition COUNT_INT_SRC_HOST_COORDS : Z := 0x0002000008000000.
Definition COUNT_INT_DST_HOST_COORDS : Z := 0x0002000010000000.
Definition COUNT_INT_SAMPLING_DIRECTION : Z := 0x0002000020000000.
Definition COUNT_INT_MPLS_PW_ID : Z := 0x0002000040000000.
Definition COUNT_INT_SRC_ROA : Z := 0x0002000080000000.
Definition COUNT_INT_DST_ROA : Z := 0x0002000100000000.
Definition COUNT_INT_VXLAN : Z := 0x0002000200000000.
Definition COUNT_INT_TUNNEL_SRC_MAC : Z := 0x0002000400000000.
Definition COUNT_INT_TUNNEL_DST_MAC : Z := 0x0002000800000000.
Definition COUNT_INT_TUNNEL_SRC_PORT : Z := 0x0002001000000000.
Definition COUNT_INT_TUNNEL_DST_PORT : Z := 0x0002002000000000.
Definition COUNT_INT_EXPORT_PROTO_TIME : Z := 0x0002004000000000.
Definition COUNT_INT_FWD_STATUS : Z := 0x0002008000000000.
Definition COUNT_INT_MPLS_LABEL_STACK : Z := 0x0002010000000000.
Definition COUNT_INT_FW_EVENT : Z := 0x0002020000000000.
Definition COUNT_INT_TUNNEL_TCPFLAGS : Z := 0x0002040000000000.
Definition COUNT_INT_OUT_VLAN : Z := 0x0002080000000000.
Definition COUNT_INT_PATH_DELAY_AVG_USEC : Z := 0x0002100000000000.
Definition COUNT_INT_PATH_DELAY_MIN_USEC : Z := 0x0002200000000000.
Definition COUNT_INT_PATH_DELAY_MAX_USEC : Z := 0x0002400000000000.
Definition COUNT_INT_FLOW_LABEL : Z := 0x0003000000000001.
Definition COUNT_INT_TUNNEL_FLOW_LABEL : Z := 0x0003000000000002.
Definition COUNT_INT_IN_VLAN : Z := 0x0003000000000004.
Definition COUNT_INT_IN_CVLAN : Z := 0x0003000000000008.
Definition COUNT_INT_OUT_CVLAN : Z := 0x0003000000000010.
Definition COUNT_INT_NVGRE : Z := 0x0003000000000020.
Definition COUNT_INT_INGRESS_VRF_NAME : Z := 0x0003000000000040.
Definition COUNT_INT_EGRESS_VRF_NAME : Z := 0x0003000000000080.
Definition COUNT_INT_VRF_NAME : Z := 0x0003000000000100.
Definition COUNT_INT_IN_IFACE_NAME : Z := 0x0003000000000200.
Definition COUNT_INT_OUT_IFACE_NAME : Z := 0x0003000000000400.

Definition l2_primitives : list (string * Z) := [
  ("src_mac", COUNT_INT_SRC_MAC); ("dst_mac", COUNT_INT_DST_MAC); ("out_vlan", COUNT_INT_OUT_VLAN);
  ("in_vlan", COUNT_INT_IN_VLAN); ("vlan", COUNT_INT_VLAN); ("in_cvlan", COUNT_INT_IN_CVLAN);
  ("out_cvlan", COUNT_INT_OUT_CVLAN); ("sum_mac", COUNT_INT_SUM_MAC)].

Definition primitives : list (string * Z) := [
  ("src_host", COUNT_INT_SRC_HOST); ("dst_host", COUNT_INT_DST_HOST); ("src_net", COUNT_INT_SRC_NET);
  ("dst_net", COUNT_INT_DST_NET); ("sum", COUNT_INT_SUM_HOST); ("src_port", COUNT_INT_SRC_PORT);
  ("dst_port", COUNT_INT_DST_PORT); ("proto", COUNT_INT_IP_PROTO); ("tos", COUNT_INT_IP_TOS);
  ("flow_label", COUNT_INT_FLOW_LABEL); ("none", COUNT_INT_NONE); ("src_as", COUNT_INT_SRC_AS);
  ("dst_as", COUNT_INT_DST_AS); ("sum_host", COUNT_INT_SUM_HOST); ("sum_net", COUNT_INT_SUM_NET);
  ("sum_as", COUNT_INT_SUM_AS); ("sum_port", COUNT_INT_SUM_PORT); ("tag", COUNT_INT_TAG);
  ("tag2", COUNT_INT_TAG2); ("flows", COUNT_INT_FLOWS); ("tcpflags", COUNT_INT_TCPFLAGS);
  ("fwd_status", COUNT_INT_FWD_STATUS); ("std_comm", COUNT_INT_STD_COMM); ("ext_comm", COUNT_INT_EXT_COMM);
  ("lrg_comm", COUNT_INT_LRG_COMM); ("as_path", COUNT_INT_AS_PATH); ("local_pref", COUNT_INT_LOCAL_PREF);
  ("med", COUNT_INT_MED); ("peer_src_as", COUNT_INT_PEER_SRC_AS); ("peer_dst_as", COUNT_INT_PEER_DST_AS);
  ("peer_src_ip", COUNT_INT_PEER_SRC_IP); ("peer_dst_ip", COUNT_INT_PEER_DST_IP);
  ("src_as_path", COUNT_INT_SRC_AS_PATH); ("src_std_comm", COUNT_INT_SRC_STD_COMM);
  ("src_ext_comm", COUNT_INT_SRC_EXT_COMM); ("src_lrg_comm", COUNT_INT_SRC_LRG_COMM);
  ("src_local_pref", COUNT_INT_SRC_LOCAL_PREF); ("src_med", COUNT_INT_SRC_MED);
  ("in_iface", COUNT_INT_IN_IFACE); ("out_iface", COUNT_INT_OUT_IFACE); ("src_mask", COUNT_INT_SRC_NMASK);
  ("dst_mask", COUNT_INT_DST_NMASK); ("cos", COUNT_INT_COS); ("etype", COUNT_INT_ETHERTYPE);
  ("mpls_vpn_rd", COUNT_INT_MPLS_VPN_RD); ("mpls_pw_id", COUNT_INT_MPLS_PW_ID);
  ("sampling_rate", COUNT_INT_SAMPLING_RATE); ("sampling_direction", COUNT_INT_SAMPLING_DIRECTION);
  ("src_host_country", COUNT_INT_SRC_HOST_COUNTRY); ("dst_host_country", COUNT_INT_DST_HOST_COUNTRY);
  ("post_nat_src_host", COUNT_INT_POST_NAT_SRC_HOST); ("post_nat_dst_host", COUNT_INT_POST_NAT_DST_HOST);
  ("post_nat_src_port", COUNT_INT_POST_NAT_SRC_PORT); ("post_nat_dst_port", COUNT_INT_POST_NAT_DST_PORT);
  ("nat_event", COUNT_INT_NAT_EVENT); ("fw_event", COUNT_INT_FW_EVENT);
  ("timestamp_start", COUNT_INT_TIMESTAMP_START); ("timestamp_end", COUNT_INT_TIMESTAMP_END);
  ("timestamp_arrival", COUNT_INT_TIMESTAMP_ARRIVAL); ("timestamp_export", COUNT_INT_EXPORT_PROTO_TIME);
  ("mpls_label_stack", COUNT_INT_MPLS_LABEL_STACK); ("mpls_label_top", COUNT_INT_MPLS_LABEL_TOP);
  ("mpls_label_bottom", COUNT_INT_MPLS_LABEL_BOTTOM); ("srv6_seg_ipv6_list", COUNT_INT_SRV6_SEG_IPV6_SECTION);
  ("label", COUNT_INT_LABEL); ("export_proto_seqno", COUNT_INT_EXPORT_PROTO_SEQNO);
  ("export_proto_version", COUNT_INT_EXPORT_PROTO_VERSION);
  ("export_proto_sysid", COUNT_INT_EXPORT_PROTO_SYSID); ("src_host_pocode", COUNT_INT_SRC_HOST_POCODE);
  ("dst_host_pocode", COUNT_INT_DST_HOST_POCODE); ("src_host_coords", COUNT_INT_SRC_HOST_COORDS);
  ("dst_host_coords", COUNT_INT_DST_HOST_COORDS); ("tunnel_src_mac", COUNT_INT_TUNNEL_SRC_MAC);
  ("tunnel_dst_mac", COUNT_INT_TUNNEL_DST_MAC); ("tunnel_src_host", COUNT_INT_TUNNEL_SRC_HOST);
  ("tunnel_dst_host", COUNT_INT_TUNNEL_DST_HOST); ("tunnel_proto", COUNT_INT_TUNNEL_IP_PROTO);
  ("tunnel_tos", COUNT_INT_TUNNEL_IP_TOS); ("tunnel_flow_label", COUNT_INT_TUNNEL_FLOW_LABEL);
  ("tunnel_src_port", COUNT_INT_TUNNEL_SRC_PORT); ("tunnel_dst_port", COUNT_INT_TUNNEL_DST_PORT);
  ("tunnel_tcpflags", COUNT_INT_TUNNEL_TCPFLAGS); ("src_roa", COUNT_INT_SRC_ROA);
  ("dst_roa", COUNT_INT_DST_ROA); ("vxlan", COUNT_INT_VXLAN); ("nvgre", COUNT_INT_NVGRE);
  ("path_delay_avg_usec", COUNT_INT_PATH_DELAY_AVG_USEC);
  ("path_delay_min_usec", COUNT_INT_PATH_DELAY_MIN_USEC);
  ("path_delay_max_usec", COUNT_INT_PATH_DELAY_MAX_USEC); ("ingress_vrf_name", COUNT_INT_INGRESS_VRF_NAME);
  ("egress_vrf_name", COUNT_INT_EGRESS_VRF_NAME); ("vrf_name", COUNT_INT_VRF_NAME);
  ("in_iface_name", COUNT_INT_IN_IFACE_NAME); ("out_iface_name", COUNT_INT_OUT_IFACE_NAME)].

Fixpoint primitive_of (tok : list Z) (l : list (string * Z)) : option Z :=
  match l with
  | [] => None
  | (k, input) :: r => if streq tok k then Some input else primitive_of tok r
  end.

(** What a token of [aggregate] is: [Some (Some input)], a primitive;
    [Some None], one that this build or this daemon ignores; [None], the name
    of a custom primitive. *)
Definition aggregate_token (count_token : list Z) : option (option Z) :=
  if streq count_token "class_frame" then
    Some (if (acct_type =? ACCT_NF) && WITH_NDPI then Some COUNT_INT_NDPI_CLASS else None)
  else if streq count_token "class" then
    Some (if acct_type =? ACCT_NF then Some COUNT_INT_CLASS
          else if ((acct_type =? ACCT_PM) || (acct_type =? ACCT_SF)) && WITH_NDPI
               then Some COUNT_INT_NDPI_CLASS else None)
  else
    match primitive_of count_token l2_primitives with
    | Some input => Some (if HAVE_L2 then Some input else None)
    | None => option_map Some (primitive_of count_token primitives)
    end.

Fixpoint aggregate_loop (toks : list (list Z)) (value : list Z) (cpptrs : list (list Z))
    : res (list Z * list (list Z)) :=
  match toks with
  | [] => Ok (value, cpptrs)
  | count_token :: toks =>
      match aggregate_token count_token with
      | Some (Some input) => value ← cfg_set_aggregate value input; aggregate_loop toks value cpptrs
      | Some None => aggregate_loop toks value cpptrs
      | None =>
          if negb (Z.of_nat (length cpptrs) <? MAX_CUSTOM_PRIMITIVES) then Err OutOfBounds
          else aggregate_loop toks value (cpptrs ++ [count_token])
      end
  end.

End Addresses.

(** ** ZeroMQ profiles (zmq_common.c): the two members that are set, or [ERR] *)

Definition p_zmq_plugin_pipe_set_profile (value : list Z) : option (conf -> conf) :=
  let set profile size := Some (put "buffer_size" size ∘ put "pipe_zmq_profile" profile) in
  if streq value "micro" then set PLUGIN_PIPE_ZMQ_MICRO PLUGIN_PIPE_ZMQ_MICRO_SIZE
  else if streq value "small" then set PLUGIN_PIPE_ZMQ_SMALL PLUGIN_PIPE_ZMQ_SMALL_SIZE
  else if streq value "medium" then set PLUGIN_PIPE_ZMQ_MEDIUM PLUGIN_PIPE_ZMQ_MEDIUM_SIZE
  else if streq value "large" then set PLUGIN_PIPE_ZMQ_LARGE PLUGIN_PIPE_ZMQ_LARGE_SIZE
  else if streq value "xlarge" then set PLUGIN_PIPE_ZMQ_XLARGE PLUGIN_PIPE_ZMQ_XLARGE_SIZE
  else None.

(** ** The handlers *)

Section Handlers.
Context {ho : host}.

Definition cfg_key_debug : handler := fun name value_ptr s =>
  let value := parse_truefalse value_ptr in
  if (value <? 0) then Ok (ERR, s) else
  Ok (by_name name (put "debug" value) s).

Definition cfg_key_debug_internal_msg : handler := fun name value_ptr s =>
  let value := parse_truefalse value_ptr in
  if (value <? 0) then Ok (ERR, s) else
  Ok (by_name name (put "debug_internal_msg" value) s).

Definition cfg_key_dry_run : handler := fun name value_ptr s =>
  let value := 0 in
  let value_ptr := lower_string value_ptr in
  let value :=
    if starts value_ptr "config" then DRY_RUN_CONFIG else
    if starts value_ptr "setup" then DRY_RUN_SETUP else
    value in
  Ok (all (put "dry_run" value) s).

Definition cfg_key_syslog : handler := fun name value_ptr s =>
  Ok (by_name name (puts "syslog" value_ptr) s).

Definition cfg_key_logfile : handler := fun name value_ptr s =>
  Ok (all (puts "logfile" value_ptr) s).

Definition cfg_key_log_stderr_tstamp : handler := fun name value_ptr s =>
  let value := parse_truefalse value_ptr in
  if (value <? 0) then Ok (ERR, s) else
  Ok (all (put "log_stderr_tstamp" value) s).

Definition cfg_key_pidfile : handler := fun name value_ptr s =>
  Ok (all (puts "pidfile" value_ptr) s).

Definition cfg_key_daemonize : handler := fun name value_ptr s =>
  let value := parse_truefalse value_ptr in
  if (value <? 0) then Ok (ERR, s) else
  Ok (all (put "daemon" value) s).

Definition cfg_key_propagate_signals : handler := fun name value_ptr s =>
  let value := parse_truefalse value_ptr in
  if (value <? 0) then Ok (ERR, s) else
  Ok (all (put "propagate_signals" value) s).

Definition cfg_key_pcap_arista_trailer_offset : handler := fun name value_ptr s =>
  let value := atoi value_ptr in
  if (value <? 8) then Ok (ERR, s) else
  Ok (all (put "pcap_arista_trailer_offset" value) s).

Definition cfg_key_pcap_arista_trailer_flag_value : handler := fun name value_ptr s =>
  let value := atoi value_ptr in
  if (128 <? value) then Ok (ERR, s) else
  Ok (all (put "pcap_arista_trailer_flag_value" value) s).

Definition cfg_key_use_ip_next_hop : handler := fun name value_ptr s =>
  let value := parse_truefalse value_ptr in
  if (value <? 0) then Ok (ERR, s) else
  Ok (all (put "use_ip_next_hop" value) s).

Definition cfg_key_aggregate : handler := fun name value_ptr s =>
  let value_ptr := lower_string (trim_all_spaces value_ptr) in
  '(value, cpptrs) ← aggregate_loop (tokens 44 (* , *) value_ptr) (replicate 4 0) [];
  let u := (fun c => <["cpptrs" := CPrims cpptrs]> c) ∘ put "what_to_count_3" (byte_at value 3)
           ∘ put "what_to_count_2" (byte_at value 2) ∘ put "what_to_count" (byte_at value 1) in
  Ok (by_name name u s).

Definition cfg_key_aggregate_primitives : handler := fun name value_ptr s =>
  Ok (all (puts "aggregate_primitives" value_ptr) s).

Definition cfg_key_proc_name : handler := fun name value_ptr s =>
  Ok (all (puts "proc_name" value_ptr) s).

Definition cfg_key_proc_priority : handler := fun name value_ptr s =>
  let value := atoi value_ptr in
  Ok (by_name name (put "proc_priority" value) s).

Definition cfg_key_cluster_name : handler := fun name value_ptr s =>
  Ok (all (puts "cluster_name" value_ptr) s).

Definition cfg_key_cluster_id : handler := fun name value_ptr s =>
  let value := atoi value_ptr in
  Ok (all (put "cluster_id" value) s).

Definition cfg_key_redis_host : handler := fun name value_ptr s =>
  Ok (all (puts "redis_host" value_ptr) s).

Definition cfg_key_redis_passwd : handler := fun name value_ptr s =>
  Ok (all (puts "redis_passwd" value_ptr) s).

Definition cfg_key_redis_db : handler := fun name value_ptr s =>
  let value := atoi value_ptr in
  Ok (all (put "redis_db" value) s).

Definition cfg_key_snaplen : handler := fun name value_ptr s =>
  let value := atoi value_ptr in
  if (value <? DEFAULT_SNAPLEN) then Ok (ERR, s) else
  Ok (all (put "snaplen" value) s).

Definition cfg_key_aggregate_filter : handler := fun name value_ptr s =>
  Ok (named_only name (puts "a_filter" value_ptr) s).

Definition cfg_key_aggregate_unknown_etype : handler := fun name value_ptr s =>
  let value := parse_truefalse value_ptr in
  if (value <? 0) then Ok (ERR, s) else
  Ok (all (put "aggregate_unknown_etype" value) s).

Definition cfg_key_pre_tag_filter : handler := fun name value_ptr s =>
  Ok (named_only_with name (fun c => let '(changes, table) := load_tags value_ptr in (changes, <["ptf" := CTags table]> c)) s).

Definition cfg_key_pre_tag2_filter : handler := fun name value_ptr s =>
  Ok (named_only_with name (fun c => let '(changes, table) := load_tags value_ptr in (changes, <["pt2f" := CTags table]> c)) s).

Definition cfg_key_pre_tag_label_filter : handler := fun name value_ptr s =>
  Ok (named_only_with name
        (fun c => let '(changes, table, _) := load_labels value_ptr in (changes, <["ptlf" := CLabels table]> c)) s).

Definition cfg_key_pre_tag_label_encode_as_map : handler := fun name value_ptr s =>
  let value := parse_truefalse value_ptr in
  if (value <? 0) then Ok (ERR, s) else
  Ok (by_name name (put "pretag_label_encode_as_map" value) s).

Definition cfg_key_tcpflags_encode_as_array : handler := fun name value_ptr s =>
  let value := parse_truefalse value_ptr in
  if (value <? 0) then Ok (ERR, s) else
  Ok (by_name name (put "tcpflags_encode_as_array" value) s).

Definition cfg_key_bgp_comms_encode_as_array : handler := fun name value_ptr s =>
  let value := parse_truefalse value_ptr in
  if (value <? 0) then Ok (ERR, s) else
  Ok (by_name name (put "bgp_comms_encode_as_array" value) s).

Definition cfg_key_bgp_comms_num : handler := fun name value_ptr s =>
  let value := parse_truefalse value_ptr in
  if (value <? 0) then Ok (ERR, s) else
  Ok (by_name name (put "bgp_comms_num" value) s).

Definition cfg_key_as_path_encode_as_array : handler := fun name value_ptr s =>
  let value := parse_truefalse value_ptr in
  if (value <? 0) then Ok (ERR, s) else
  Ok (by_name name (put "as_path_encode_as_array" value) s).

Definition cfg_key_fwd_status_encode_as_string : handler := fun name value_ptr s =>
  let value := parse_truefalse value_ptr in
  if (value <? 0) then Ok (ERR, s) else
  Ok (by_name name (put "fwd_status_encode_as_string" value) s).

Definition cfg_key_tos_encode_as_dscp : handler := fun name value_ptr s =>
  let value := parse_truefalse value_ptr in
  if (value <? 0) then Ok (ERR, s) else
  Ok (by_name name (put "tos_encode_as_dscp" value) s).

Definition cfg_key_mpls_label_stack_encode_as_array : handler := fun name value_ptr s =>
  let value := parse_truefalse value_ptr in
  if (value <? 0) then Ok (ERR, s) else
  Ok (by_name name (put "mpls_label_stack_encode_as_array" value) s).

Definition cfg_key_pcap_filter : handler := fun name value_ptr s =>
  Ok (all (puts "clbuf" value_ptr) s).

Definition cfg_key_pcap_protocol : handler := fun name value_ptr s =>
  let value := s32 (strtol 0 value_ptr) in
  Ok (all (put "pcap_protocol" value) s).

Definition cfg_key_pcap_direction : handler := fun name value_ptr s =>
  let value := 0 in
  let value_ptr := lower_string value_ptr in
  let value :=
    if starts value_ptr "in" then PCAP_D_IN else
    if starts value_ptr "out" then PCAP_D_OUT else
    value in
  Ok (all (put "pcap_direction" value) s).

Definition cfg_key_pcap_ifindex : handler := fun name value_ptr s =>
  let value := 0 in
  let value_ptr := lower_string value_ptr in
  let value :=
    if starts value_ptr "sys" then PCAP_IFINDEX_SYS else
    if starts value_ptr "hash" then PCAP_IFINDEX_HASH else
    if starts value_ptr "map" then PCAP_IFINDEX_MAP else
    if starts value_ptr "none" then PCAP_IFINDEX_NONE else
    value in
  Ok (all (put "pcap_ifindex" value) s).

Definition cfg_key_pcap_interfaces_map : handler := fun name value_ptr s =>
  Ok (all (puts "pcap_interfaces_map" value_ptr) s).

Definition cfg_key_pcap_interface : handler := fun name value_ptr s =>
  Ok (all (puts "pcap_if" value_ptr) s).

Definition cfg_key_files_umask : handler := fun name value_ptr s =>
  let value := s32 (strtoul 8 value_ptr) in
  if (value <? 2) then Ok (ERR, s) else
  Ok (by_name name (put "files_umask" (Z.land value 438)) s).

Definition cfg_key_files_uid : handler := fun name value_ptr s =>
  let user :=
    match getpwnam value_ptr with
    | Some uid => Some uid
    | None =>
        let value := atoi value_ptr in
        if (value =? 0) && negb (byte_at value_ptr 0 =? 48 (* 0 *)) then None else getpwuid value
    end in
  match user with
  | Some value => Ok (by_name name (put "files_uid" (s32 value)) s)
  | None => Ok (ERR, s)
  end.

Definition cfg_key_files_gid : handler := fun name value_ptr s =>
  let group :=
    match getgrnam value_ptr with
    | Some gid => Some gid
    | None =>
        let value := u32 (atoi value_ptr) in
        if (value =? 0) && negb (byte_at value_ptr 0 =? 48 (* 0 *)) then None else getgrgid value
    end in
  match group with
  | Some value => Ok (by_name name (put "files_gid" (u32 value)) s)
  | None => Ok (ERR, s)
  end.

Definition cfg_key_pcap_interface_wait : handler := fun name value_ptr s =>
  let value := parse_truefalse value_ptr in
  if (value <? 0) then Ok (ERR, s) else
  Ok (all (put "pcap_if_wait" value) s).

Definition cfg_key_pcap_savefile_wait : handler := fun name value_ptr s =>
  let value := parse_truefalse value_ptr in
  if (value <? 0) then Ok (ERR, s) else
  Ok (all (put "pcap_sf_wait" value) s).

Definition cfg_key_pcap_savefile_delay : handler := fun name value_ptr s =>
  let value := atoi value_ptr in
  if (value <? 0) then Ok (ERR, s) else
  Ok (all (put "pcap_sf_delay" value) s).

Definition cfg_key_pcap_savefile_replay : handler := fun name value_ptr s =>
  let value := atoi value_ptr in
  if value <? 0 then Ok (ERR, s) else
  let value := if value =? 0 then -1 else value in
  Ok (all (put "pcap_sf_replay" value) s).

Definition cfg_key_promisc : handler := fun name value_ptr s =>
  let value := parse_truefalse value_ptr in
  if (value <? 0) then Ok (ERR, s) else
  Ok (all (put "promisc" value) s).

Definition cfg_key_imt_path : handler := fun name value_ptr s =>
  Ok (by_name name (puts "imt_plugin_path" value_ptr) s).

Definition cfg_key_imt_buckets : handler := fun name value_ptr s =>
  let value := atoi value_ptr in
  if (value <=? 0) then Ok (ERR, s) else
  Ok (by_name name (put "buckets" value) s).

Definition cfg_key_imt_mem_pools_number : handler := fun name value_ptr s =>
  let value := atoi value_ptr in
  if (value <? 0) then Ok (ERR, s) else
  Ok (by_name name (put "num_memory_pools" value) s).

Definition cfg_key_imt_mem_pools_size : handler := fun name value_ptr s =>
  let value := atoi value_ptr in
  if (value <=? 0) then Ok (ERR, s) else
  Ok (by_name name (put "memory_pool_size" value) s).

Definition cfg_key_sql_db : handler := fun name value_ptr s =>
  Ok (by_name name (puts "sql_db" value_ptr) s).

Definition cfg_key_sql_table : handler := fun name value_ptr s =>
  num ← count_vars value_ptr 0;
  if 32 <? num then Err Exited else
  if 64 <? strlen value_ptr then Err Exited else
  Ok (by_name name (puts "sql_table" value_ptr) s).

Definition cfg_key_print_output_file : handler := fun name value_ptr s =>
  num ← count_vars value_ptr 0;
  if 32 <? num then Err Exited else
  Ok (by_name name (puts "sql_table" value_ptr) s).

Definition cfg_key_print_latest_file : handler := fun name value_ptr s =>
  if bool_decide (is_Some (split_at 37 (* % *) value_ptr)) then Ok (TRUE, s) else
  Ok (by_name name (puts "print_latest_file" value_ptr) s).

Definition cfg_key_print_output_file_append : handler := fun name value_ptr s =>
  let value := parse_truefalse value_ptr in
  if (value <? 0) then Ok (ERR, s) else
  Ok (by_name name (put "print_output_file_append" value) s).

Definition cfg_key_print_write_empty_file : handler := fun name value_ptr s =>
  let value := parse_truefalse value_ptr in
  if (value <? 0) then Ok (ERR, s) else
  Ok (by_name name (put "print_write_empty_file" value) s).

Definition cfg_key_print_output_lock_file : handler := fun name value_ptr s =>
  Ok (by_name name (puts "print_output_lock_file" value_ptr) s).

Definition cfg_key_sql_table_schema : handler := fun name value_ptr s =>
  Ok (by_name name (puts "sql_table_schema" value_ptr) s).

Definition cfg_key_sql_table_version : handler := fun name value_ptr s =>
  let value := atoi value_ptr in
  if (value <=? 0) then Err Exited else
  Ok (by_name name (put "sql_table_version" value) s).

Definition cfg_key_sql_table_type : handler := fun name value_ptr s =>
  let value_ptr := lower_string value_ptr in
  if negb (streq value_ptr "bgp") && negb (streq value_ptr "original") then Ok (ERR, s) else
  Ok (by_name name (puts "sql_table_type" value_ptr) s).

Definition cfg_key_sql_data : handler := fun name value_ptr s =>
  let value_ptr := lower_string value_ptr in
  Ok (by_name name (puts "sql_data" value_ptr) s).

Definition cfg_key_sql_conn_ca_file : handler := fun name value_ptr s =>
  Ok (by_name name (puts "sql_conn_ca_file" value_ptr) s).

Definition cfg_key_sql_host : handler := fun name value_ptr s =>
  Ok (by_name name (puts "sql_host" value_ptr) s).

Definition cfg_key_sql_port : handler := fun name value_ptr s =>
  let value := atoi value_ptr in
  if (value <=? 0) then Ok (ERR, s) else
  Ok (by_name name (put "sql_port" value) s).

Definition cfg_key_sql_recovery_backup_host : handler := fun name value_ptr s =>
  Ok (by_name name (puts "sql_backup_host" value_ptr) s).

Definition cfg_key_dump_max_writers : handler := fun name value_ptr s =>
  let value := atoi value_ptr in
  if (value <? 1) || (100 <=? value) then Ok (ERR, s) else
  Ok (by_name name (put "dump_max_writers" value) s).

Definition cfg_key_sql_trigger_exec : handler := fun name value_ptr s =>
  Ok (by_name name (puts "sql_trigger_exec" value_ptr) s).

Definition cfg_key_sql_trigger_time : handler := fun name value_ptr s =>
  let '(t, t_howmany) := parse_time value_ptr in
  Ok (by_name name (put "sql_trigger_time_howmany" t_howmany ∘ put "sql_trigger_time" t) s).

Definition cfg_key_sql_user : handler := fun name value_ptr s =>
  Ok (by_name name (puts "sql_user" value_ptr) s).

Definition cfg_key_sql_passwd : handler := fun name value_ptr s =>
  Ok (by_name name (puts "sql_passwd" value_ptr) s).

Definition cfg_key_sql_refresh_time : handler := fun name value_ptr s =>
  if negb (forallb (fun c => is_digit c || is_space c) value_ptr) then Ok (ERR, s) else
  let value := atoi value_ptr in
  if (value <=? 0) then Ok (ERR, s) else
  Ok (by_name name (put "sql_refresh_time" value) s).

Definition cfg_key_sql_startup_delay : handler := fun name value_ptr s =>
  let value := atoi value_ptr in
  if (value <? 0) then Ok (ERR, s) else
  Ok (by_name name (put "sql_startup_delay" value) s).

Definition cfg_key_sql_optimize_clauses : handler := fun name value_ptr s =>
  let value := parse_truefalse value_ptr in
  if (value <? 0) then Ok (ERR, s) else
  Ok (by_name name (put "sql_optimize_clauses" value) s).

Definition cfg_key_sql_history_roundoff : handler := fun name value_ptr s =>
  let check := roundoff_check value_ptr in
  if (negb (Z.land check COUNT_DAILY =? 0) || negb (Z.land check COUNT_MONTHLY =? 0)) && negb (Z.land check COUNT_WEEKLY =? 0)
  then Ok (ERR, s) else
  Ok (by_name name (puts "sql_history_roundoff" value_ptr) s).

Definition cfg_key_sql_history : handler := fun name value_ptr s =>
  let '(sql_history, sql_history_howmany) := parse_time value_ptr in
  Ok (by_name name (put "sql_history_howmany" sql_history_howmany ∘ put "sql_history" sql_history) s).

Definition cfg_key_sql_history_offset : handler := fun name value_ptr s =>
  let value := atoi value_ptr in
  if (value <? 0) then Ok (ERR, s) else
  Ok (by_name name (put "sql_history_offset" value) s).

Definition cfg_key_timestamps_since_epoch : handler := fun name value_ptr s =>
  let value := parse_truefalse value_ptr in
  if (value <? 0) then Ok (ERR, s) else
  Ok (by_name name (put "timestamps_since_epoch" value) s).

Definition cfg_key_sql_cache_entries : handler := fun name value_ptr s =>
  let value := atoi value_ptr in
  if (value <=? 0) then Ok (ERR, s) else
  Ok (by_name name (put "sql_cache_entries" value) s).

Definition cfg_key_sql_dont_try_update : handler := fun name value_ptr s =>
  let value := parse_truefalse value_ptr in
  if (value <? 0) then Ok (ERR, s) else
  Ok (by_name name (put "sql_dont_try_update" value) s).

Definition cfg_key_sql_preprocess : handler := fun name value_ptr s =>
  Ok (by_name name (puts "sql_preprocess" value_ptr) s).

Definition cfg_key_sql_preprocess_type : handler := fun name value_ptr s =>
  let value := 0 in
  let value_ptr := lower_string value_ptr in
  let value :=
    if starts value_ptr "any" then FALSE else
    value in
  let value :=
    if starts value_ptr "all" then TRUE else
    value in
  Ok (by_name name (put "sql_preprocess_type" value) s).

Definition cfg_key_sql_multi_values : handler := fun name value_ptr s =>
  let value := 0 in
  let value := atoi value_ptr in
  if (value <? 0) then Ok (ERR, s) else
  Ok (by_name name (put "sql_multi_values" value) s).

Definition cfg_key_message_broker_output : handler := fun name value_ptr s =>
  let value_ptr := lower_string value_ptr in
  let chosen :=
    if streq value_ptr "json" then Some (PRINT_OUTPUT_JSON) else
    if streq value_ptr "avro" || streq value_ptr "avro_bin" then Some (PRINT_OUTPUT_AVRO_BIN) else
    if streq value_ptr "avro_json" then Some (PRINT_OUTPUT_AVRO_JSON) else
    if streq value_ptr "custom" then Some (PRINT_OUTPUT_CUSTOM) else
    None in
  match chosen with None => Ok (ERR, s) | Some value =>
  Ok (by_name name (put "message_broker_output" value) s) end.

Definition cfg_key_avro_buffer_size : handler := fun name value_ptr s =>
  let value := strtoull 10 value_ptr in
  if (value <=? 0) then Ok (ERR, s) else
  Ok (by_name name (put "avro_buffer_size" value) s).

Definition cfg_key_avro_schema_file : handler := fun name value_ptr s =>
  Ok (by_name name (puts "avro_schema_file" value_ptr) s).

Definition cfg_key_amqp_exchange_type : handler := fun name value_ptr s =>
  Ok (by_name name (puts "amqp_exchange_type" value_ptr) s).

Definition cfg_key_amqp_persistent_msg : handler := fun name value_ptr s =>
  let value := parse_truefalse value_ptr in
  if (value <? 0) then Ok (ERR, s) else
  Ok (by_name name (put "amqp_persistent_msg" value) s).

Definition cfg_key_amqp_frame_max : handler := fun name value_ptr s =>
  let value := u32 (strtoul 10 value_ptr) in
  if (value <=? 0) then Ok (ERR, s) else
  Ok (by_name name (put "amqp_frame_max" value) s).

Definition cfg_key_amqp_heartbeat_interval : handler := fun name value_ptr s =>
  let value := u32 (strtoul 10 value_ptr) in
  Ok (by_name name (put "amqp_heartbeat_interval" value) s).

Definition cfg_key_amqp_vhost : handler := fun name value_ptr s =>
  Ok (by_name name (puts "amqp_vhost" value_ptr) s).

Definition cfg_key_amqp_routing_key_rr : handler := fun name value_ptr s =>
  let value := 0 in
  let value := atoi value_ptr in
  if (value <? 0) then Ok (ERR, s) else
  Ok (by_name name (put "amqp_routing_key_rr" value) s).

Definition cfg_key_amqp_avro_schema_routing_key : handler := fun name value_ptr s =>
  Ok (by_name name (puts "amqp_avro_schema_routing_key" value_ptr) s).

Definition cfg_key_amqp_avro_schema_refresh_time : handler := fun name value_ptr s =>
  let value := 0 in
  let value := atoi value_ptr in
  if (value <=? 0) then Ok (ERR, s) else
  Ok (by_name name (put "amqp_avro_schema_refresh_time" value) s).

Definition cfg_key_kafka_broker_port : handler := fun name value_ptr s =>
  let value := atoi value_ptr in
  if (value <=? 0) || (65535 <? value) then Ok (ERR, s) else
  Ok (by_name name (put "kafka_broker_port" value) s).

Definition cfg_key_kafka_partition : handler := fun name value_ptr s =>
  let value := atoi value_ptr in
  if (value <? (-1)) then Ok (ERR, s) else
  let value := if value =? 0 then FALSE_NONZERO else value in
  Ok (by_name name (put "kafka_partition" value) s).

Definition cfg_key_kafka_partition_dynamic : handler := fun name value_ptr s =>
  let value := parse_truefalse value_ptr in
  if (value <? 0) then Ok (ERR, s) else
  Ok (by_name name (put "kafka_partition_dynamic" value) s).

Definition cfg_key_kafka_partition_key : handler := fun name value_ptr s =>
  let value_len := strlen value_ptr in
  let value_ptr := lower_string value_ptr in
  Ok (by_name name (put "kafka_partition_keylen" value_len ∘ puts "kafka_partition_key" value_ptr) s).

Definition cfg_key_kafka_avro_schema_topic : handler := fun name value_ptr s =>
  Ok (by_name name (puts "kafka_avro_schema_topic" value_ptr) s).

Definition cfg_key_kafka_avro_schema_refresh_time : handler := fun name value_ptr s =>
  let value := 0 in
  let value := atoi value_ptr in
  if (value <=? 0) then Ok (ERR, s) else
  Ok (by_name name (put "kafka_avro_schema_refresh_time" value) s).

Definition cfg_key_kafka_avro_schema_registry : handler := fun name value_ptr s =>
  Ok (by_name name (puts "kafka_avro_schema_registry" value_ptr) s).

Definition cfg_key_kafka_config_file : handler := fun name value_ptr s =>
  Ok (by_name name (puts "kafka_config_file" value_ptr) s).

Definition cfg_key_sql_locking_style : handler := fun name value_ptr s =>
  let value_ptr := lower_string value_ptr in
  Ok (by_name name (puts "sql_locking_style" value_ptr) s).

Definition cfg_key_sql_use_copy : handler := fun name value_ptr s =>
  let value := parse_truefalse value_ptr in
  if (value <? 0) then Ok (ERR, s) else
  Ok (by_name name (put "sql_use_copy" value) s).

Definition cfg_key_sql_delimiter : handler := fun name value_ptr s =>
  if negb (strlen value_ptr =? 1) then Ok (ERR, s) else
  Ok (by_name name (puts "sql_delimiter" value_ptr) s).

Definition cfg_key_timestamps_rfc9557 : handler := fun name value_ptr s =>
  let value := parse_truefalse value_ptr in
  if (value <? 0) then Ok (ERR, s) else
  Ok (by_name name (put "timestamps_rfc9557" value) s).

Definition cfg_key_timestamps_utc : handler := fun name value_ptr s =>
  let value := parse_truefalse value_ptr in
  if (value <? 0) then Ok (ERR, s) else
  Ok (by_name name (put "timestamps_utc" value) s).

Definition cfg_key_timestamps_secs : handler := fun name value_ptr s =>
  let value := parse_truefalse value_ptr in
  if (value <? 0) then Ok (ERR, s) else
  Ok (by_name name (put "timestamps_secs" value) s).

Definition cfg_key_plugin_pipe_size : handler := fun name value_ptr s =>
  let value := strtoull 10 value_ptr in
  if (value <=? 0) then Ok (ERR, s) else
  Ok (by_name name (put "pipe_size" value) s).

Definition cfg_key_plugin_pipe_zmq : handler := fun name value_ptr s =>
  let value := parse_truefalse value_ptr in
  if (value <? 0) then Ok (ERR, s) else
  Ok (by_name name (put "pipe_zmq" value) s).

Definition cfg_key_plugin_pipe_zmq_retry : handler := fun name value_ptr s =>
  let value := atoi value_ptr in
  if (value <=? 0) then Ok (ERR, s) else
  Ok (by_name name (put "pipe_zmq_retry" value) s).

Definition cfg_key_plugin_pipe_zmq_profile : handler := fun name value_ptr s =>
  let value_ptr := lower_string value_ptr in
  if negb WITH_ZMQ then Ok (0, s) else
  match p_zmq_plugin_pipe_set_profile value_ptr with
  | Some u => Ok (by_name name u s)
  | None => (* the first plugin met returns *)
      let met p := match name with None => true | Some n => bool_decide (n = pl_name p) end in
      Ok (if existsb met (plugins_list s) then (ERR, s) else (0, s))
  end.

Definition cfg_key_plugin_pipe_zmq_hwm : handler := fun name value_ptr s =>
  let value := atoi value_ptr in
  if (value <? 0) then Ok (ERR, s) else
  Ok (by_name name (put "pipe_zmq_hwm" value) s).

Definition cfg_key_plugin_exit_any : handler := fun name value_ptr s =>
  let value := parse_truefalse value_ptr in
  if (value <? 0) then Ok (ERR, s) else
  Ok (all (put "plugin_exit_any" value) s).

Definition cfg_key_nfacctd_pipe_size : handler := fun name value_ptr s =>
  let value := strtoull 10 value_ptr in
  if (value =? 0) || ((2 ^ 31 - 1) <? value) then Ok (ERR, s) else
  Ok (all (put "nfacctd_pipe_size" value) s).

Definition cfg_key_nfacctd_pro_rating : handler := fun name value_ptr s =>
  let value := parse_truefalse value_ptr in
  if (value <? 0) then Ok (ERR, s) else
  Ok (by_name name (put "nfacctd_pro_rating" value) s).

Definition cfg_key_nfacctd_templates_file : handler := fun name value_ptr s =>
  Ok (all (puts "nfacctd_templates_file" value_ptr) s).

Definition cfg_key_nfacctd_templates_receiver : handler := fun name value_ptr s =>
  Ok (all (puts "nfacctd_templates_receiver" value_ptr) s).

Definition cfg_key_nfacctd_templates_port : handler := fun name value_ptr s =>
  let value := atoi value_ptr in
  if (value <=? 0) || (65535 <? value) then Ok (ERR, s) else
  Ok (all (put "nfacctd_templates_port" value) s).

Definition cfg_key_nfacctd_stitching : handler := fun name value_ptr s =>
  let value := parse_truefalse value_ptr in
  if (value <? 0) then Ok (ERR, s) else
  Ok (by_name name (put "nfacctd_stitching" value) s).

Definition cfg_key_nfacctd_account_options : handler := fun name value_ptr s =>
  let value := parse_truefalse value_ptr in
  if (value <? 0) then Ok (ERR, s) else
  Ok (all (put "nfacctd_account_options" value) s).

Definition cfg_key_bgp_daemon_pipe_size : handler := fun name value_ptr s =>
  let value := strtoull 10 value_ptr in
  if (value =? 0) || ((2 ^ 31 - 1) <? value) then Ok (ERR, s) else
  Ok (all (put "bgp_daemon_pipe_size" value) s).

Definition cfg_key_plugin_buffer_size : handler := fun name value_ptr s =>
  let value := strtoull 10 value_ptr in
  if (value <=? 0) then Ok (ERR, s) else
  Ok (by_name name (put "buffer_size" value) s).

Definition cfg_key_networks_mask : handler := fun name value_ptr s =>
  let value := atoi value_ptr in
  if (value <=? 0) then Ok (ERR, s) else
  Ok (by_name name (put "networks_mask" value) s).

Definition cfg_key_networks_file : handler := fun name value_ptr s =>
  Ok (by_name name (puts "networks_file" value_ptr) s).

Definition cfg_key_networks_file_filter : handler := fun name value_ptr s =>
  let value := parse_truefalse value_ptr in
  if (value <? 0) then Ok (ERR, s) else
  Ok (by_name name (put "networks_file_filter" value) s).

Definition cfg_key_networks_file_no_lpm : handler := fun name value_ptr s =>
  let value := parse_truefalse value_ptr in
  if (value <? 0) then Ok (ERR, s) else
  Ok (by_name name (put "networks_file_no_lpm" value) s).

Definition cfg_key_networks_no_mask_if_zero : handler := fun name value_ptr s =>
  let value := parse_truefalse value_ptr in
  if (value <? 0) then Ok (ERR, s) else
  Ok (by_name name (put "networks_no_mask_if_zero" value) s).

Definition cfg_key_networks_cache_entries : handler := fun name value_ptr s =>
  let value := atoi value_ptr in
  if (value <=? 0) then Ok (ERR, s) else
  Ok (by_name name (put "networks_cache_entries" value) s).

Definition cfg_key_ports_file : handler := fun name value_ptr s =>
  Ok (by_name name (puts "ports_file" value_ptr) s).

Definition cfg_key_protos_file : handler := fun name value_ptr s =>
  Ok (by_name name (puts "protos_file" value_ptr) s).

Definition cfg_key_tos_file : handler := fun name value_ptr s =>
  Ok (by_name name (puts "tos_file" value_ptr) s).

Definition cfg_key_maps_refresh : handler := fun name value_ptr s =>
  let value := parse_truefalse value_ptr in
  if (value <? 0) then Ok (ERR, s) else
  Ok (all (put "maps_refresh" value) s).

Definition cfg_key_pre_tag_map_dont_recirculate : handler := fun name value_ptr s =>
  let value := parse_truefalse value_ptr in
  if (value <? 0) then Ok (ERR, s) else
  Ok (all (put "pre_tag_map_dont_recirculate" value) s).

Definition cfg_key_print_cache_entries : handler := fun name value_ptr s =>
  let value := atoi value_ptr in
  if (value <=? 0) then Ok (ERR, s) else
  Ok (by_name name (put "print_cache_entries" value) s).

Definition cfg_key_print_markers : handler := fun name value_ptr s =>
  let value := parse_truefalse value_ptr in
  if (value <? 0) then Ok (ERR, s) else
  Ok (by_name name (put "print_markers" value) s).

Definition cfg_key_print_output : handler := fun name value_ptr s =>
  let value_ptr := lower_string value_ptr in
  let chosen :=
    if streq value_ptr "formatted" then Some (PRINT_OUTPUT_FORMATTED) else
    if streq value_ptr "csv" then Some (PRINT_OUTPUT_CSV) else
    if streq value_ptr "json" then Some (PRINT_OUTPUT_JSON) else
    if streq value_ptr "event_formatted" then Some (Z.lor PRINT_OUTPUT_FORMATTED PRINT_OUTPUT_EVENT) else
    if streq value_ptr "event_csv" then Some (Z.lor PRINT_OUTPUT_CSV PRINT_OUTPUT_EVENT) else
    if streq value_ptr "avro" || streq value_ptr "avro_bin" then Some (PRINT_OUTPUT_AVRO_BIN) else
    if streq value_ptr "avro_json" then Some (PRINT_OUTPUT_AVRO_JSON) else
    if streq value_ptr "custom" then Some (PRINT_OUTPUT_CUSTOM) else
    None in
  match chosen with None => Ok (ERR, s) | Some value =>
  Ok (by_name name (put "print_output" value) s) end.

Definition cfg_key_print_output_separator : handler := fun name value_ptr s =>
  if negb (strlen value_ptr =? 1) && negb (streq value_ptr "\t") && negb (streq value_ptr "\s") then Ok (ERR, s) else
  Ok (by_name name (puts "print_output_separator" value_ptr) s).

Definition cfg_key_num_protos : handler := fun name value_ptr s =>
  let value := parse_truefalse value_ptr in
  if (value <? 0) then Ok (ERR, s) else
  Ok (by_name name (put "num_protos" value) s).

Definition cfg_key_num_hosts : handler := fun name value_ptr s =>
  let value := parse_truefalse value_ptr in
  if (value <? 0) then Ok (ERR, s) else
  Ok (by_name name (put "num_hosts" value) s).

Definition cfg_key_post_tag : handler := fun name value_ptr s =>
  let value := strtoull 10 value_ptr in
  if (value <? 1) then Ok (ERR, s) else
  Ok (by_name name (put "post_tag" value) s).

Definition cfg_key_post_tag2 : handler := fun name value_ptr s =>
  let value := strtoull 10 value_ptr in
  if (value <? 1) then Ok (ERR, s) else
  Ok (by_name name (put "post_tag2" value) s).

Definition cfg_key_sampling_rate : handler := fun name value_ptr s =>
  let value := atoi value_ptr in
  if (value <? 1) then Ok (ERR, s) else
  Ok (by_name name (put "sampling_rate" value) s).

Definition cfg_key_sampling_map : handler := fun name value_ptr s =>
  Ok (all (puts "sampling_map" value_ptr) s).

Definition cfg_key_nfacctd_port : handler := fun name value_ptr s =>
  let value := atoi value_ptr in
  if (value <=? 0) || (65535 <? value) then Ok (ERR, s) else
  Ok (all (put "nfacctd_port" value) s).

Definition cfg_key_nfacctd_ip : handler := fun name value_ptr s =>
  Ok (all (puts "nfacctd_ip" value_ptr) s).

Definition cfg_key_nfacctd_interface : handler := fun name value_ptr s =>
  Ok (all (puts "nfacctd_interface" value_ptr) s).

Definition cfg_key_nfacctd_ipv6_only : handler := fun name value_ptr s =>
  let value := parse_truefalse value_ptr in
  if (value <? 0) then Ok (ERR, s) else
  Ok (all (put "nfacctd_ipv6_only" value) s).

Definition cfg_key_nfacctd_rp_ebpf_prog : handler := fun name value_ptr s =>
  Ok (all (puts "nfacctd_rp_ebpf_prog" value_ptr) s).

Definition cfg_key_nfacctd_kafka_broker_host : handler := fun name value_ptr s =>
  Ok (all (puts "nfacctd_kafka_broker_host" value_ptr) s).

Definition cfg_key_nfacctd_kafka_broker_port : handler := fun name value_ptr s =>
  let value := atoi value_ptr in
  if (value <=? 0) || (65535 <? value) then Ok (ERR, s) else
  Ok (all (put "nfacctd_kafka_broker_port" value) s).

Definition cfg_key_nfacctd_kafka_topic : handler := fun name value_ptr s =>
  Ok (all (puts "nfacctd_kafka_topic" value_ptr) s).

Definition cfg_key_nfacctd_kafka_config_file : handler := fun name value_ptr s =>
  Ok (all (puts "nfacctd_kafka_config_file" value_ptr) s).

Definition cfg_key_nfacctd_zmq_address : handler := fun name value_ptr s =>
  Ok (all (puts "nfacctd_zmq_address" value_ptr) s).

Definition cfg_key_dtls_path : handler := fun name value_ptr s =>
  Ok (all (puts "dtls_path" value_ptr) s).

Definition cfg_key_nfacctd_dtls_port : handler := fun name value_ptr s =>
  let value := atoi value_ptr in
  if (value <=? 0) || (65535 <? value) then Ok (ERR, s) else
  Ok (all (put "nfacctd_dtls_port" value) s).

Definition cfg_key_writer_id_string : handler := fun name value_ptr s =>
  Ok (by_name name (puts "writer_id_string" value_ptr) s).

Definition cfg_key_nfacctd_allow_file : handler := fun name value_ptr s =>
  Ok (all (puts "nfacctd_allow_file" value_ptr) s).

Definition cfg_key_bgp_daemon_allow_file : handler := fun name value_ptr s =>
  Ok (all (puts "bgp_daemon_allow_file" value_ptr) s).

Definition cfg_key_bgp_daemon_md5_file : handler := fun name value_ptr s =>
  Ok (all (puts "bgp_daemon_md5_file" value_ptr) s).

Definition cfg_key_pre_tag_map : handler := fun name value_ptr s =>
  Ok (by_name name (puts "pre_tag_map" value_ptr) s).

Definition cfg_key_maps_entries : handler := fun name value_ptr s =>
  let value := atoi value_ptr in
  if (value <=? 0) then Ok (ERR, s) else
  Ok (by_name name (put "maps_entries" value) s).

Definition cfg_key_maps_row_len : handler := fun name value_ptr s =>
  let value := atoi value_ptr in
  if (value <=? 0) then Ok (ERR, s) else
  Ok (by_name name (put "maps_row_len" value) s).

Definition cfg_key_maps_index : handler := fun name value_ptr s =>
  let value := parse_truefalse value_ptr in
  if (value <? 0) then Ok (ERR, s) else
  Ok (all (put "maps_index" value) s).

Definition cfg_key_nfacctd_time_secs : handler := fun name value_ptr s =>
  let value := parse_truefalse value_ptr in
  if (value <? 0) then Ok (ERR, s) else
  Ok (all (fun c => if geti "nfacctd_time" c =? 0
                    then if negb (value =? 0) then put "nfacctd_time" NF_TIME_SECS c else c
                    else c) s).

Definition cfg_key_nfacctd_time_new : handler := fun name value_ptr s =>
  let value := parse_truefalse value_ptr in
  if (value <? 0) then Ok (ERR, s) else
  Ok (all (fun c => if geti "nfacctd_time" c =? 0
                    then if negb (value =? 0)
                         then put "nfacctd_time_new" TRUE (put "nfacctd_time" NF_TIME_NEW c)
                         else c
                    else c) s).

Definition cfg_key_nfacctd_mcast_groups : handler := fun name value_ptr s =>
  let value_ptr := trim_all_spaces value_ptr in
  let groups := mcast_loop (tokens 44 (* , *) value_ptr) 0 0 (replicate (Z.to_nat MAX_MCAST_GROUPS) (0, [])) in
  Ok (Z.of_nat (length (plugins_list s)), mk_daemon (plugins_list s) groups).

Definition cfg_key_bgp_daemon : handler := fun name value_ptr s =>
  let value_ptr := lower_string value_ptr in
  let chosen :=
    if streq value_ptr "false" then Some (BGP_DAEMON_NONE) else
    if streq value_ptr "true" then Some (BGP_DAEMON_ONLINE) else
    None in
  match chosen with None => Ok (ERR, s) | Some value =>
  Ok (all (put "bgp_daemon" value) s) end.

Definition cfg_key_bgp_daemon_add_path_ignore : handler := fun name value_ptr s =>
  let value := parse_truefalse value_ptr in
  if (value <? 0) then Ok (ERR, s) else
  Ok (all (put "bgp_daemon_add_path_ignore" value) s).

Definition cfg_key_bgp_daemon_tag_map : handler := fun name value_ptr s =>
  Ok (all (puts "bgp_daemon_tag_map" value_ptr) s).

Definition cfg_key_bgp_daemon_msglog_label_filter : handler := fun name value_ptr s =>
  let '(changes, l) := load_labels_all "bgp_daemon_msglog_label_filter" value_ptr 0 (plugins_list s) in
  Ok (changes, with_plugins l s).

Definition cfg_key_bgp_daemon_aspath_radius : handler := fun name value_ptr s =>
  let value := atoi value_ptr in
  if (value <? 1) then Ok (ERR, s) else
  Ok (all (put "bgp_daemon_aspath_radius" value) s).

Definition cfg_key_bgp_daemon_stdcomm_pattern : handler := fun name value_ptr s =>
  Ok (all (puts "bgp_daemon_stdcomm_pattern" value_ptr) s).

Definition cfg_key_bgp_daemon_extcomm_pattern : handler := fun name value_ptr s =>
  Ok (all (puts "bgp_daemon_extcomm_pattern" value_ptr) s).

Definition cfg_key_bgp_daemon_lrgcomm_pattern : handler := fun name value_ptr s =>
  Ok (all (puts "bgp_daemon_lrgcomm_pattern" value_ptr) s).

Definition cfg_key_bgp_daemon_stdcomm_pattern_to_asn : handler := fun name value_ptr s =>
  Ok (all (puts "bgp_daemon_stdcomm_pattern_to_asn" value_ptr) s).

Definition cfg_key_bgp_daemon_lrgcomm_pattern_to_asn : handler := fun name value_ptr s =>
  Ok (all (puts "bgp_daemon_lrgcomm_pattern_to_asn" value_ptr) s).

Definition cfg_key_bgp_blackhole_stdcomm_list : handler := fun name value_ptr s =>
  Ok (all (puts "bgp_blackhole_stdcomm_list" value_ptr) s).

Definition cfg_key_bgp_daemon_peer_src_as_type : handler := fun name value_ptr s =>
  let value := BGP_SRC_PRIMITIVES_UNK in
  let value_ptr := lower_string value_ptr in
  let value :=
    if starts value_ptr "netflow" then BGP_SRC_PRIMITIVES_KEEP else
    if starts value_ptr "sflow" then BGP_SRC_PRIMITIVES_KEEP else
    if starts value_ptr "map" then BGP_SRC_PRIMITIVES_MAP else
    if starts value_ptr "bgp" then BGP_SRC_PRIMITIVES_BGP else
    if starts value_ptr "fallback" || starts value_ptr "longest" then Z.lor BGP_SRC_PRIMITIVES_KEEP BGP_SRC_PRIMITIVES_BGP else
    value in
  Ok (all (put "bgp_daemon_peer_as_src_type" value) s).

Definition cfg_key_bgp_daemon_src_std_comm_type : handler := fun name value_ptr s =>
  let value := BGP_SRC_PRIMITIVES_UNK in
  let value_ptr := lower_string value_ptr in
  let value :=
    if starts value_ptr "bgp" then BGP_SRC_PRIMITIVES_BGP else
    value in
  Ok (all (put "bgp_daemon_src_std_comm_type" value) s).

Definition cfg_key_bgp_daemon_src_ext_comm_type : handler := fun name value_ptr s =>
  let value := BGP_SRC_PRIMITIVES_UNK in
  let value_ptr := lower_string value_ptr in
  let value :=
    if starts value_ptr "bgp" then BGP_SRC_PRIMITIVES_BGP else
    value in
  Ok (all (put "bgp_daemon_src_ext_comm_type" value) s).

Definition cfg_key_bgp_daemon_src_lrg_comm_type : handler := fun name value_ptr s =>
  let value := BGP_SRC_PRIMITIVES_UNK in
  let value_ptr := lower_string value_ptr in
  let value :=
    if starts value_ptr "bgp" then BGP_SRC_PRIMITIVES_BGP else
    value in
  Ok (all (put "bgp_daemon_src_lrg_comm_type" value) s).

Definition cfg_key_bgp_daemon_src_as_path_type : handler := fun name value_ptr s =>
  let value := BGP_SRC_PRIMITIVES_UNK in
  let value_ptr := lower_string value_ptr in
  let value :=
    if starts value_ptr "bgp" then BGP_SRC_PRIMITIVES_BGP else
    value in
  Ok (all (put "bgp_daemon_src_as_path_type" value) s).

Definition cfg_key_bgp_daemon_src_local_pref_type : handler := fun name value_ptr s =>
  let value := BGP_SRC_PRIMITIVES_UNK in
  let value_ptr := lower_string value_ptr in
  let value :=
    if starts value_ptr "map" then BGP_SRC_PRIMITIVES_MAP else
    if starts value_ptr "bgp" then BGP_SRC_PRIMITIVES_BGP else
    value in
  Ok (all (put "bgp_daemon_src_local_pref_type" value) s).

Definition cfg_key_bgp_daemon_src_med_type : handler := fun name value_ptr s =>
  let value := BGP_SRC_PRIMITIVES_UNK in
  let value_ptr := lower_string value_ptr in
  let value :=
    if starts value_ptr "map" then BGP_SRC_PRIMITIVES_MAP else
    if starts value_ptr "bgp" then BGP_SRC_PRIMITIVES_BGP else
    value in
  Ok (all (put "bgp_daemon_src_med_type" value) s).

Definition cfg_key_bgp_daemon_src_roa_type : handler := fun name value_ptr s =>
  let value := BGP_SRC_PRIMITIVES_UNK in
  let value_ptr := lower_string value_ptr in
  let value :=
    if starts value_ptr "bgp" then BGP_SRC_PRIMITIVES_BGP else
    value in
  Ok (all (put "bgp_daemon_src_roa_type" value) s).

Definition cfg_key_bgp_daemon_peer_as_skip_subas : handler := fun name value_ptr s =>
  let value := parse_truefalse value_ptr in
  if (value <? 0) then Ok (ERR, s) else
  Ok (all (put "bgp_daemon_peer_as_skip_subas" value) s).

Definition cfg_key_bgp_daemon_src_local_pref_map : handler := fun name value_ptr s =>
  Ok (all (puts "bgp_daemon_src_local_pref_map" value_ptr) s).

Definition cfg_key_bgp_daemon_peer_src_as_map : handler := fun name value_ptr s =>
  Ok (all (puts "bgp_daemon_peer_as_src_map" value_ptr) s).

Definition cfg_key_bgp_daemon_src_med_map : handler := fun name value_ptr s =>
  Ok (all (puts "bgp_daemon_src_med_map" value_ptr) s).

Definition cfg_key_bgp_daemon_to_xflow_agent_map : handler := fun name value_ptr s =>
  Ok (all (puts "bgp_daemon_to_xflow_agent_map" value_ptr) s).

Definition cfg_key_nfacctd_flow_to_rd_map : handler := fun name value_ptr s =>
  Ok (all (puts "nfacctd_flow_to_rd_map" value_ptr) s).

Definition cfg_key_bgp_daemon_follow_default : handler := fun name value_ptr s =>
  let value := atoi value_ptr in
  Ok (all (put "bgp_daemon_follow_default" value) s).

Definition cfg_key_bgp_daemon_follow_nexthop : handler := fun name value_ptr s =>
  let value_ptr := trim_all_spaces value_ptr in
  let '(idx, l) := follow_loop (tokens 44 (* , *) value_ptr) 0 0 (plugins_list s) in
  Ok (idx, with_plugins l s).

Definition cfg_key_bgp_daemon_follow_nexthop_external : handler := fun name value_ptr s =>
  let value := parse_truefalse value_ptr in
  if (value <? 0) then Ok (ERR, s) else
  Ok (all (put "bgp_daemon_follow_nexthop_external" value) s).

Definition cfg_key_bgp_daemon_disable_router_id_check : handler := fun name value_ptr s =>
  let value := parse_truefalse value_ptr in
  if (value <? 0) then Ok (ERR, s) else
  Ok (all (put "bgp_disable_router_id_check" value) s).

Definition cfg_key_bgp_daemon_neighbors_file : handler := fun name value_ptr s =>
  Ok (all (puts "bgp_daemon_neighbors_file" value_ptr) s).

Definition cfg_key_bgp_daemon_max_peers : handler := fun name value_ptr s =>
  let value := atoi value_ptr in
  if (value <? 1) then Ok (ERR, s) else
  Ok (all (put "bgp_daemon_max_peers" value) s).

Definition cfg_key_bgp_daemon_ip : handler := fun name value_ptr s =>
  Ok (all (puts "bgp_daemon_ip" value_ptr) s).

Definition cfg_key_bgp_daemon_interface : handler := fun name value_ptr s =>
  Ok (all (puts "bgp_daemon_interface" value_ptr) s).

Definition cfg_key_bgp_daemon_ipv6_only : handler := fun name value_ptr s =>
  let value := parse_truefalse value_ptr in
  if (value <? 0) then Ok (ERR, s) else
  Ok (all (put "bgp_daemon_ipv6_only" value) s).

Definition cfg_key_bgp_daemon_id : handler := fun name value_ptr s =>
  Ok (all (puts "bgp_daemon_id" value_ptr) s).

Definition cfg_key_bgp_daemon_as : handler := fun name value_ptr s =>
  let value := u32 (strtoul 10 value_ptr) in
  Ok (all (put "bgp_daemon_as" value) s).

Definition cfg_key_bgp_daemon_port : handler := fun name value_ptr s =>
  let value := atoi value_ptr in
  if (value <=? 0) || (65535 <? value) then Ok (ERR, s) else
  Ok (all (put "bgp_daemon_port" value) s).

Definition cfg_key_bgp_daemon_rp_ebpf_prog : handler := fun name value_ptr s =>
  Ok (all (puts "bgp_daemon_rp_ebpf_prog" value_ptr) s).

Definition cfg_key_bgp_daemon_table_dump_workers : handler := fun name value_ptr s =>
  let value := atoi value_ptr in
  if (value <? 1) then Ok (ERR, s) else
  Ok (all (put "bgp_table_dump_workers" value) s).

Definition cfg_key_bgp_lg : handler := fun name value_ptr s =>
  let value := parse_truefalse value_ptr in
  if (value <? 0) then Ok (ERR, s) else
  Ok (all (put "bgp_lg" value) s).

Definition cfg_key_bgp_lg_ip : handler := fun name value_ptr s =>
  Ok (all (puts "bgp_lg_ip" value_ptr) s).

Definition cfg_key_bgp_lg_port : handler := fun name value_ptr s =>
  let value := atoi value_ptr in
  if (value <=? 0) || (65535 <? value) then Ok (ERR, s) else
  Ok (all (put "bgp_lg_port" value) s).

Definition cfg_key_bgp_lg_threads : handler := fun name value_ptr s =>
  let value := atoi value_ptr in
  if (value <=? 0) then Ok (ERR, s) else
  Ok (all (put "bgp_lg_threads" value) s).

Definition cfg_key_bgp_lg_user : handler := fun name value_ptr s =>
  Ok (all (puts "bgp_lg_user" value_ptr) s).

Definition cfg_key_bgp_lg_passwd : handler := fun name value_ptr s =>
  Ok (all (puts "bgp_lg_passwd" value_ptr) s).

Definition cfg_key_bgp_xconnect_map : handler := fun name value_ptr s =>
  Ok (all (puts "bgp_xconnect_map" value_ptr) s).

Definition cfg_key_bgp_daemon_ip_precedence : handler := fun name value_ptr s =>
  let value := atoi value_ptr in
  if (value <? 0) || (7 <? value) then Ok (ERR, s) else
  Ok (all (put "bgp_daemon_ipprec" value) s).

Definition cfg_key_bgp_daemon_table_peer_buckets : handler := fun name value_ptr s =>
  let value := atoi value_ptr in
  if (value <=? 0) || (1000 <? value) then Ok (ERR, s) else
  Ok (all (put "bgp_table_peer_buckets" value) s).

Definition cfg_key_bgp_daemon_table_per_peer_buckets : handler := fun name value_ptr s =>
  let value := atoi value_ptr in
  if (value <=? 0) || (128 <? value) then Ok (ERR, s) else
  Ok (all (put "bgp_table_per_peer_buckets" value) s).

Definition cfg_key_bgp_daemon_table_attr_hash_buckets : handler := fun name value_ptr s =>
  let value := atoi value_ptr in
  if (value <=? 0) || (1000000 <? value) then Ok (ERR, s) else
  Ok (all (put "bgp_table_attr_hash_buckets" value) s).

Definition cfg_key_bgp_daemon_table_per_peer_hash : handler := fun name value_ptr s =>
  let value := BGP_ASPATH_HASH_PATHID in
  let value_ptr := lower_string value_ptr in
  let value :=
    if starts value_ptr "path_id" then BGP_ASPATH_HASH_PATHID else
    if starts value_ptr "mpls_vpn_rd" then BGP_ASPATH_HASH_MPLSVPNRD else
    value in
  Ok (all (put "bgp_table_per_peer_hash" value) s).

Definition cfg_key_bgp_daemon_batch_interval : handler := fun name value_ptr s =>
  let value := atoi value_ptr in
  if (value <? 0) then Ok (ERR, s) else
  Ok (all (put "bgp_daemon_batch_interval" value) s).

Definition cfg_key_bgp_daemon_batch : handler := fun name value_ptr s =>
  let value := atoi value_ptr in
  if (value <? 0) then Ok (ERR, s) else
  Ok (all (put "bgp_daemon_batch" value) s).

Definition cfg_key_bmp_daemon : handler := fun name value_ptr s =>
  let value := parse_truefalse value_ptr in
  if (value <? 0) then Ok (ERR, s) else
  Ok (all (put "bmp_daemon" value) s).

Definition cfg_key_bmp_daemon_ip : handler := fun name value_ptr s =>
  Ok (all (puts "bmp_daemon_ip" value_ptr) s).

Definition cfg_key_bmp_daemon_interface : handler := fun name value_ptr s =>
  Ok (all (puts "bmp_daemon_interface" value_ptr) s).

Definition cfg_key_bmp_daemon_ipv6_only : handler := fun name value_ptr s =>
  let value := parse_truefalse value_ptr in
  if (value <? 0) then Ok (ERR, s) else
  Ok (all (put "bmp_daemon_ipv6_only" value) s).

Definition cfg_key_bmp_daemon_port : handler := fun name value_ptr s =>
  let value := atoi value_ptr in
  if (value <=? 0) || (65535 <? value) then Ok (ERR, s) else
  Ok (all (put "bmp_daemon_port" value) s).

Definition cfg_key_bmp_daemon_rp_ebpf_prog : handler := fun name value_ptr s =>
  Ok (all (puts "bmp_daemon_rp_ebpf_prog" value_ptr) s).

Definition cfg_key_bmp_daemon_tag_map : handler := fun name value_ptr s =>
  Ok (all (puts "bmp_daemon_tag_map" value_ptr) s).

Definition cfg_key_bmp_daemon_set_pd : handler := fun name value_ptr s =>
  let value := parse_truefalse value_ptr in
  if (value <? 0) then Ok (ERR, s) else
  Ok (all (put "bmp_daemon_set_pd" value) s).

Definition cfg_key_bmp_daemon_msglog_label_filter : handler := fun name value_ptr s =>
  let '(changes, l) := load_labels_all "bmp_daemon_msglog_label_filter" value_ptr 0 (plugins_list s) in
  Ok (changes, with_plugins l s).

Definition cfg_key_bmp_daemon_pipe_size : handler := fun name value_ptr s =>
  let value := strtoull 10 value_ptr in
  if (value =? 0) || ((2 ^ 31 - 1) <? value) then Ok (ERR, s) else
  Ok (all (put "bmp_daemon_pipe_size" value) s).

Definition cfg_key_bmp_daemon_max_peers : handler := fun name value_ptr s =>
  let value := atoi value_ptr in
  if (value <? 1) then Ok (ERR, s) else
  Ok (all (put "bmp_daemon_max_peers" value) s).

Definition cfg_key_bmp_daemon_allow_file : handler := fun name value_ptr s =>
  Ok (all (puts "bmp_daemon_allow_file" value_ptr) s).

Definition cfg_key_bmp_daemon_ip_precedence : handler := fun name value_ptr s =>
  let value := atoi value_ptr in
  if (value <? 0) || (7 <? value) then Ok (ERR, s) else
  Ok (all (put "bmp_daemon_ipprec" value) s).

Definition cfg_key_bmp_daemon_batch_interval : handler := fun name value_ptr s =>
  let value := atoi value_ptr in
  if (value <? 0) then Ok (ERR, s) else
  Ok (all (put "bmp_daemon_batch_interval" value) s).

Definition cfg_key_bmp_daemon_batch : handler := fun name value_ptr s =>
  let value := atoi value_ptr in
  if (value <? 0) then Ok (ERR, s) else
  Ok (all (put "bmp_daemon_batch" value) s).

Definition cfg_key_bmp_daemon_table_peer_buckets : handler := fun name value_ptr s =>
  let value := atoi value_ptr in
  if (value <=? 0) || (1000 <? value) then Ok (ERR, s) else
  Ok (all (put "bmp_table_peer_buckets" value) s).

Definition cfg_key_bmp_daemon_table_per_peer_buckets : handler := fun name value_ptr s =>
  let value := atoi value_ptr in
  if (value <=? 0) || (128 <? value) then Ok (ERR, s) else
  Ok (all (put "bmp_table_per_peer_buckets" value) s).

Definition cfg_key_bmp_daemon_table_attr_hash_buckets : handler := fun name value_ptr s =>
  let value := atoi value_ptr in
  if (value <=? 0) || (1000000 <? value) then Ok (ERR, s) else
  Ok (all (put "bmp_table_attr_hash_buckets" value) s).

Definition cfg_key_bmp_daemon_table_per_peer_hash : handler := fun name value_ptr s =>
  let value := BGP_ASPATH_HASH_PATHID in
  let value_ptr := lower_string value_ptr in
  let value :=
    if starts value_ptr "path_id" then BGP_ASPATH_HASH_PATHID else
    if starts value_ptr "mpls_vpn_rd" then BGP_ASPATH_HASH_MPLSVPNRD else
    value in
  Ok (all (put "bmp_table_per_peer_hash" value) s).

Definition cfg_key_bmp_daemon_msglog_file : handler := fun name value_ptr s =>
  Ok (all (puts "bmp_daemon_msglog_file" value_ptr) s).

Definition cfg_key_bmp_daemon_msglog_avro_schema_file : handler := fun name value_ptr s =>
  Ok (all (puts "bmp_daemon_msglog_avro_schema_file" value_ptr) s).

Definition cfg_key_bmp_daemon_msglog_output : handler := fun name value_ptr s =>
  let value_ptr := lower_string value_ptr in
  let chosen :=
    if streq value_ptr "json" then Some (PRINT_OUTPUT_JSON) else
    if streq value_ptr "avro" || streq value_ptr "avro_bin" then Some (PRINT_OUTPUT_AVRO_BIN) else
    if streq value_ptr "avro_json" then Some (PRINT_OUTPUT_AVRO_JSON) else
    None in
  match chosen with None => Ok (ERR, s) | Some value =>
  Ok (all (put "bmp_daemon_msglog_output" value) s) end.

Definition cfg_key_bmp_daemon_msglog_amqp_host : handler := fun name value_ptr s =>
  Ok (all (puts "bmp_daemon_msglog_amqp_host" value_ptr) s).

Definition cfg_key_bmp_daemon_msglog_amqp_vhost : handler := fun name value_ptr s =>
  Ok (all (puts "bmp_daemon_msglog_amqp_vhost" value_ptr) s).

Definition cfg_key_bmp_daemon_msglog_amqp_user : handler := fun name value_ptr s =>
  Ok (all (puts "bmp_daemon_msglog_amqp_user" value_ptr) s).

Definition cfg_key_bmp_daemon_msglog_amqp_passwd : handler := fun name value_ptr s =>
  Ok (all (puts "bmp_daemon_msglog_amqp_passwd" value_ptr) s).

Definition cfg_key_bmp_daemon_msglog_amqp_exchange : handler := fun name value_ptr s =>
  Ok (all (puts "bmp_daemon_msglog_amqp_exchange" value_ptr) s).

Definition cfg_key_bmp_daemon_msglog_amqp_exchange_type : handler := fun name value_ptr s =>
  Ok (all (puts "bmp_daemon_msglog_amqp_exchange_type" value_ptr) s).

Definition cfg_key_bmp_daemon_msglog_amqp_routing_key : handler := fun name value_ptr s =>
  Ok (all (puts "bmp_daemon_msglog_amqp_routing_key" value_ptr) s).

Definition cfg_key_bmp_daemon_msglog_amqp_routing_key_rr : handler := fun name value_ptr s =>
  let value := 0 in
  let value := atoi value_ptr in
  if (value <? 0) then Ok (ERR, s) else
  Ok (all (put "bmp_daemon_msglog_amqp_routing_key_rr" value) s).

Definition cfg_key_bmp_daemon_msglog_amqp_persistent_msg : handler := fun name value_ptr s =>
  let value := parse_truefalse value_ptr in
  if (value <? 0) then Ok (ERR, s) else
  Ok (all (put "bmp_daemon_msglog_amqp_persistent_msg" value) s).

Definition cfg_key_bmp_daemon_msglog_amqp_frame_max : handler := fun name value_ptr s =>
  let value := u32 (strtoul 10 value_ptr) in
  if (value <=? 0) then Ok (ERR, s) else
  Ok (all (put "bmp_daemon_msglog_amqp_frame_max" value) s).

Definition cfg_key_bmp_daemon_msglog_amqp_heartbeat_interval : handler := fun name value_ptr s =>
  let value := u32 (strtoul 10 value_ptr) in
  Ok (all (put "bmp_daemon_msglog_amqp_heartbeat_interval" value) s).

Definition cfg_key_bmp_daemon_msglog_amqp_retry : handler := fun name value_ptr s =>
  let value := atoi value_ptr in
  if (value <=? 0) then Ok (ERR, s) else
  Ok (all (put "bmp_daemon_msglog_amqp_retry" value) s).

Definition cfg_key_bmp_daemon_dump_file : handler := fun name value_ptr s =>
  Ok (all (puts "bmp_dump_file" value_ptr) s).

Definition cfg_key_bmp_daemon_dump_latest_file : handler := fun name value_ptr s =>
  Ok (all (puts "bmp_dump_latest_file" value_ptr) s).

Definition cfg_key_bmp_daemon_dump_avro_schema_file : handler := fun name value_ptr s =>
  Ok (all (puts "bmp_dump_avro_schema_file" value_ptr) s).

Definition cfg_key_bmp_daemon_dump_output : handler := fun name value_ptr s =>
  let value_ptr := lower_string value_ptr in
  let chosen :=
    if streq value_ptr "json" then Some (PRINT_OUTPUT_JSON) else
    if streq value_ptr "avro" || streq value_ptr "avro_bin" then Some (PRINT_OUTPUT_AVRO_BIN) else
    if streq value_ptr "avro_json" then Some (PRINT_OUTPUT_AVRO_JSON) else
    None in
  match chosen with None => Ok (ERR, s) | Some value =>
  Ok (all (put "bmp_dump_output" value) s) end.

Definition cfg_key_bmp_daemon_dump_workers : handler := fun name value_ptr s =>
  let value := atoi value_ptr in
  if (value <? 1) then Ok (ERR, s) else
  Ok (all (put "bmp_dump_workers" value) s).

Definition cfg_key_bmp_daemon_dump_refresh_time : handler := fun name value_ptr s =>
  if negb (forallb (fun c => is_digit c || is_space c) value_ptr) then Ok (ERR, s) else
  let value := atoi value_ptr in
  if (value <? MIN_REFRESH_TIME) || (MAX_REFRESH_TIME <? value) then Ok (ERR, s) else
  Ok (all (put "bmp_dump_refresh_time" value) s).

Definition cfg_key_bmp_daemon_dump_time_slots : handler := fun name value_ptr s =>
  if negb (forallb (fun c => is_digit c || is_space c) value_ptr) then Ok (ERR, s) else
  let value := atoi value_ptr in
  if (value <? 1) || (MAX_REFRESH_TIME <? value) then Ok (ERR, s) else
  Ok (all (put "bmp_dump_time_slots" value) s).

Definition cfg_key_bmp_daemon_dump_exclude_stats : handler := fun name value_ptr s =>
  let value := parse_truefalse value_ptr in
  if (value <? 0) then Ok (ERR, s) else
  Ok (all (put "bmp_dump_exclude_stats" value) s).

Definition cfg_key_bmp_daemon_dump_amqp_host : handler := fun name value_ptr s =>
  Ok (all (puts "bmp_dump_amqp_host" value_ptr) s).

Definition cfg_key_bmp_daemon_dump_amqp_vhost : handler := fun name value_ptr s =>
  Ok (all (puts "bmp_dump_amqp_vhost" value_ptr) s).

Definition cfg_key_bmp_daemon_dump_amqp_user : handler := fun name value_ptr s =>
  Ok (all (puts "bmp_dump_amqp_user" value_ptr) s).

Definition cfg_key_bmp_daemon_dump_amqp_passwd : handler := fun name value_ptr s =>
  Ok (all (puts "bmp_dump_amqp_passwd" value_ptr) s).

Definition cfg_key_bmp_daemon_dump_amqp_exchange : handler := fun name value_ptr s =>
  Ok (all (puts "bmp_dump_amqp_exchange" value_ptr) s).

Definition cfg_key_bmp_daemon_dump_amqp_exchange_type : handler := fun name value_ptr s =>
  Ok (all (puts "bmp_dump_amqp_exchange_type" value_ptr) s).

Definition cfg_key_bmp_daemon_dump_amqp_routing_key : handler := fun name value_ptr s =>
  Ok (all (puts "bmp_dump_amqp_routing_key" value_ptr) s).

Definition cfg_key_bmp_daemon_dump_amqp_routing_key_rr : handler := fun name value_ptr s =>
  let value := 0 in
  let value := atoi value_ptr in
  if (value <? 0) then Ok (ERR, s) else
  Ok (all (put "bmp_dump_amqp_routing_key_rr" value) s).

Definition cfg_key_bmp_daemon_dump_amqp_persistent_msg : handler := fun name value_ptr s =>
  let value := parse_truefalse value_ptr in
  if (value <? 0) then Ok (ERR, s) else
  Ok (all (put "bmp_dump_amqp_persistent_msg" value) s).

Definition cfg_key_bmp_daemon_dump_amqp_frame_max : handler := fun name value_ptr s =>
  let value := u32 (strtoul 10 value_ptr) in
  if (value <=? 0) then Ok (ERR, s) else
  Ok (all (put "bmp_dump_amqp_frame_max" value) s).

Definition cfg_key_bmp_daemon_dump_amqp_heartbeat_interval : handler := fun name value_ptr s =>
  let value := u32 (strtoul 10 value_ptr) in
  Ok (all (put "bmp_dump_amqp_heartbeat_interval" value) s).

Definition cfg_key_pmacctd_force_frag_handling : handler := fun name value_ptr s =>
  let value := parse_truefalse value_ptr in
  if (value <? 0) then Ok (ERR, s) else
  Ok (all (put "handle_fragments" value) s).

Definition cfg_key_pmacctd_frag_buffer_size : handler := fun name value_ptr s =>
  let value := atoi value_ptr in
  if (value <=? 0) then Ok (ERR, s) else
  Ok (all (put "frag_bufsz" value) s).

Definition cfg_key_pmacctd_flow_buffer_size : handler := fun name value_ptr s =>
  let value := atoi value_ptr in
  if (value <=? 0) then Ok (ERR, s) else
  Ok (all (put "flow_bufsz" value) s).

Definition cfg_key_pmacctd_flow_buffer_buckets : handler := fun name value_ptr s =>
  let value := atoi value_ptr in
  if (value <=? 0) then Ok (ERR, s) else
  Ok (all (put "flow_hashsz" value) s).

Definition cfg_key_pmacctd_conntrack_buffer_size : handler := fun name value_ptr s =>
  let value := atoi value_ptr in
  if (value <=? 0) then Ok (ERR, s) else
  Ok (all (put "conntrack_bufsz" value) s).

Definition cfg_key_pmacctd_flow_lifetime : handler := fun name value_ptr s =>
  let value := atoi value_ptr in
  if (value <=? 0) then Ok (ERR, s) else
  Ok (all (put "flow_lifetime" value) s).

Definition cfg_key_pmacctd_flow_tcp_lifetime : handler := fun name value_ptr s =>
  let value := atoi value_ptr in
  if (value <=? 0) then Ok (ERR, s) else
  Ok (all (put "flow_tcp_lifetime" value) s).

Definition cfg_key_pmacctd_ext_sampling_rate : handler := fun name value_ptr s =>
  let value := atoi value_ptr in
  if (value <? 1) then Ok (ERR, s) else
  Ok (all (put "ext_sampling_rate" value) s).

Definition cfg_key_pmacctd_nonroot : handler := fun name value_ptr s =>
  let value := parse_truefalse value_ptr in
  if (value <? 0) then Ok (ERR, s) else
  Ok (all (put "pmacctd_nonroot" value) s).

Definition cfg_key_sfacctd_renormalize : handler := fun name value_ptr s =>
  let value := parse_truefalse value_ptr in
  if (value <? 0) then Ok (ERR, s) else
  Ok (all (put "sfacctd_renormalize" value) s).

Definition cfg_key_sfacctd_counter_file : handler := fun name value_ptr s =>
  Ok (all (puts "sfacctd_counter_file" value_ptr) s).

Definition cfg_key_sfacctd_counter_output : handler := fun name value_ptr s =>
  let value_ptr := lower_string value_ptr in
  let chosen :=
    if streq value_ptr "json" then Some (PRINT_OUTPUT_JSON) else
    None in
  match chosen with None => Ok (ERR, s) | Some value =>
  Ok (all (put "sfacctd_counter_output" value) s) end.

Definition cfg_key_sfacctd_counter_amqp_host : handler := fun name value_ptr s =>
  Ok (all (puts "sfacctd_counter_amqp_host" value_ptr) s).

Definition cfg_key_sfacctd_counter_amqp_vhost : handler := fun name value_ptr s =>
  Ok (all (puts "sfacctd_counter_amqp_vhost" value_ptr) s).

Definition cfg_key_sfacctd_counter_amqp_user : handler := fun name value_ptr s =>
  Ok (all (puts "sfacctd_counter_amqp_user" value_ptr) s).

Definition cfg_key_sfacctd_counter_amqp_passwd : handler := fun name value_ptr s =>
  Ok (all (puts "sfacctd_counter_amqp_passwd" value_ptr) s).

Definition cfg_key_sfacctd_counter_amqp_exchange : handler := fun name value_ptr s =>
  Ok (all (puts "sfacctd_counter_amqp_exchange" value_ptr) s).

Definition cfg_key_sfacctd_counter_amqp_exchange_type : handler := fun name value_ptr s =>
  Ok (all (puts "sfacctd_counter_amqp_exchange_type" value_ptr) s).

Definition cfg_key_sfacctd_counter_amqp_routing_key : handler := fun name value_ptr s =>
  Ok (all (puts "sfacctd_counter_amqp_routing_key" value_ptr) s).

Definition cfg_key_sfacctd_counter_amqp_persistent_msg : handler := fun name value_ptr s =>
  let value := parse_truefalse value_ptr in
  if (value <? 0) then Ok (ERR, s) else
  Ok (all (put "sfacctd_counter_amqp_persistent_msg" value) s).

Definition cfg_key_sfacctd_counter_amqp_frame_max : handler := fun name value_ptr s =>
  let value := u32 (strtoul 10 value_ptr) in
  if (value <=? 0) then Ok (ERR, s) else
  Ok (all (put "sfacctd_counter_amqp_frame_max" value) s).

Definition cfg_key_sfacctd_counter_amqp_heartbeat_interval : handler := fun name value_ptr s =>
  let value := u32 (strtoul 10 value_ptr) in
  Ok (all (put "sfacctd_counter_amqp_heartbeat_interval" value) s).

Definition cfg_key_sfacctd_counter_amqp_retry : handler := fun name value_ptr s =>
  let value := atoi value_ptr in
  if (value <=? 0) then Ok (ERR, s) else
  Ok (all (put "sfacctd_counter_amqp_retry" value) s).

Definition cfg_key_sfacctd_counter_kafka_broker_host : handler := fun name value_ptr s =>
  Ok (all (puts "sfacctd_counter_kafka_broker_host" value_ptr) s).

Definition cfg_key_sfacctd_counter_kafka_broker_port : handler := fun name value_ptr s =>
  let value := atoi value_ptr in
  if (value <=? 0) || (65535 <? value) then Ok (ERR, s) else
  Ok (all (put "sfacctd_counter_kafka_broker_port" value) s).

Definition cfg_key_sfacctd_counter_kafka_topic : handler := fun name value_ptr s =>
  Ok (all (puts "sfacctd_counter_kafka_topic" value_ptr) s).

Definition cfg_key_sfacctd_counter_kafka_partition : handler := fun name value_ptr s =>
  let value := atoi value_ptr in
  if (value <? (-1)) then Ok (ERR, s) else
  let value := if value =? 0 then FALSE_NONZERO else value in
  Ok (all (put "sfacctd_counter_kafka_partition" value) s).

Definition cfg_key_sfacctd_counter_kafka_partition_key : handler := fun name value_ptr s =>
  let value_len := strlen value_ptr in
  Ok (all (put "sfacctd_counter_kafka_partition_keylen" value_len ∘ puts "sfacctd_counter_kafka_partition_key" value_ptr) s).

Definition cfg_key_sfacctd_counter_kafka_retry : handler := fun name value_ptr s =>
  let value := atoi value_ptr in
  if (value <=? 0) then Ok (ERR, s) else
  Ok (all (put "sfacctd_counter_kafka_retry" value) s).

Definition cfg_key_sfacctd_counter_kafka_config_file : handler := fun name value_ptr s =>
  Ok (all (puts "sfacctd_counter_kafka_config_file" value_ptr) s).

Definition cfg_key_pcap_savefile : handler := fun name value_ptr s =>
  Ok (all (puts "pcap_savefile" value_ptr) s).

Definition cfg_key_nfacctd_as_new : handler := fun name value_ptr s =>
  let value_ptr := lower_string value_ptr in
  let collector := (acct_type =? ACCT_NF) || (acct_type =? ACCT_SF) in
  let chosen :=
    if streq value_ptr "false" || streq value_ptr "netflow" || streq value_ptr "sflow"
    then if collector then Some NF_AS_KEEP else None else
    if streq value_ptr "true" || streq value_ptr "file" then Some NF_AS_NEW else
    if streq value_ptr "bgp" || streq value_ptr "bmp" then Some NF_AS_BGP else
    if streq value_ptr "fallback" || streq value_ptr "longest" then
      let value := NF_AS_FALLBACK in
      Some (if collector then Z.lor (Z.lor value NF_AS_KEEP) NF_AS_BGP else Z.lor value NF_AS_BGP) else
    None in
  match chosen with
  | None => Ok (ERR, s)
  | Some value => Ok (all (put "nfacctd_as" value) s)
  end.

Definition cfg_key_nfacctd_net : handler := fun name value_ptr s =>
  let value_ptr := lower_string value_ptr in
  let collector := (acct_type =? ACCT_NF) || (acct_type =? ACCT_SF) in
  let chosen :=
    if streq value_ptr "sflow" || streq value_ptr "netflow"
    then if collector then Some NF_NET_KEEP else None else
    if streq value_ptr "file" then Some NF_NET_NEW else
    if streq value_ptr "mask" then Some NF_NET_STATIC else
    if streq value_ptr "bgp" || streq value_ptr "bmp" then Some NF_NET_BGP else
    if streq value_ptr "igp" then Some NF_NET_IGP else
    if streq value_ptr "bgp-ls" then Some NF_NET_BGP_LS else
    if streq value_ptr "fallback" || streq value_ptr "longest" then
      let value := NF_NET_FALLBACK in
      Some (if collector
            then Z.lor (Z.lor (Z.lor (Z.lor value NF_NET_KEEP) NF_NET_BGP) NF_NET_BGP_LS) NF_NET_IGP
            else Z.lor (Z.lor (Z.lor value NF_NET_BGP) NF_NET_BGP_LS) NF_NET_IGP) else
    None in
  match chosen with
  | None => Ok (ERR, s)
  | Some value => Ok (by_name name (put "nfacctd_net" value) s)
  end.

Definition cfg_key_nfacctd_disable_sanity_checks : handler := fun name value_ptr s =>
  let value := parse_truefalse_nonzero value_ptr in
  if value =? ERR then Ok (ERR, s) else
  Ok (all (put "nfacctd_disable_sanity_checks" value) s).

Definition cfg_key_nfacctd_disable_opt_scope_check : handler := fun name value_ptr s =>
  let value := parse_truefalse_nonzero value_ptr in
  if value =? ERR then Ok (ERR, s) else
  Ok (all (put "nfacctd_disable_opt_scope_check" value) s).

Definition cfg_key_nfacctd_ignore_exporter_address : handler := fun name value_ptr s =>
  let value := parse_truefalse_nonzero value_ptr in
  if value =? ERR then Ok (ERR, s) else
  Ok (all (put "nfacctd_ignore_exporter_address" value) s).

Definition cfg_key_classifier_ndpi_num_roots : handler := fun name value_ptr s =>
  let value := strtoul 10 value_ptr in
  Ok (all (put "classifier_table_num" value) s).

Definition cfg_key_classifier_ndpi_max_flows : handler := fun name value_ptr s =>
  let value := strtoul 10 value_ptr in
  Ok (all (put "ndpi_max_flows" value) s).

Definition cfg_key_classifier_ndpi_proto_guess : handler := fun name value_ptr s =>
  let value := parse_truefalse value_ptr in
  if (value <? 0) then Ok (ERR, s) else
  Ok (all (put "ndpi_proto_guess" value) s).

Definition cfg_key_classifier_ndpi_idle_scan_period : handler := fun name value_ptr s =>
  let value := strtoul 10 value_ptr in
  Ok (all (put "ndpi_idle_scan_period" value) s).

Definition cfg_key_classifier_ndpi_idle_max_time : handler := fun name value_ptr s =>
  let value := strtoul 10 value_ptr in
  Ok (all (put "ndpi_idle_max_time" value) s).

Definition cfg_key_classifier_ndpi_idle_scan_budget : handler := fun name value_ptr s =>
  let value := strtoul 10 value_ptr in
  Ok (all (put "ndpi_idle_scan_budget" value) s).

Definition cfg_key_classifier_ndpi_giveup_proto_tcp : handler := fun name value_ptr s =>
  let value := atoi value_ptr in
  if (value <=? 0) then Ok (ERR, s) else
  Ok (all (put "ndpi_giveup_proto_tcp" value) s).

Definition cfg_key_classifier_ndpi_giveup_proto_udp : handler := fun name value_ptr s =>
  let value := atoi value_ptr in
  if (value <=? 0) then Ok (ERR, s) else
  Ok (all (put "ndpi_giveup_proto_udp" value) s).

Definition cfg_key_classifier_ndpi_giveup_proto_other : handler := fun name value_ptr s =>
  let value := atoi value_ptr in
  if (value <=? 0) then Ok (ERR, s) else
  Ok (all (put "ndpi_giveup_proto_other" value) s).

Definition cfg_key_nfprobe_timeouts : handler := fun name value_ptr s =>
  Ok (by_name name (puts "nfprobe_timeouts" value_ptr) s).

Definition cfg_key_nfprobe_hoplimit : handler := fun name value_ptr s =>
  let value := atoi value_ptr in
  if (value <? 1) || (255 <? value) then Ok (ERR, s) else
  Ok (by_name name (put "nfprobe_hoplimit" value) s).

Definition cfg_key_nfprobe_maxflows : handler := fun name value_ptr s =>
  let value := atoi value_ptr in
  if (value <? 1) then Ok (ERR, s) else
  Ok (by_name name (put "nfprobe_maxflows" value) s).

Definition cfg_key_nfprobe_receiver : handler := fun name value_ptr s =>
  Ok (by_name name (puts "nfprobe_receiver" value_ptr) s).

Definition cfg_key_nfprobe_dtls : handler := fun name value_ptr s =>
  let value := parse_truefalse value_ptr in
  if (value <? 0) then Ok (ERR, s) else
  Ok (by_name name (put "nfprobe_dtls" value) s).

Definition cfg_key_nfprobe_dtls_verify_cert : handler := fun name value_ptr s =>
  Ok (by_name name (puts "nfprobe_dtls_verify_cert" value_ptr) s).

Definition cfg_key_nfprobe_source_ip : handler := fun name value_ptr s =>
  Ok (by_name name (puts "nfprobe_source_ip" value_ptr) s).

Definition cfg_key_nfprobe_version : handler := fun name value_ptr s =>
  let value := atoi value_ptr in
  if negb (value =? 5) && negb (value =? 9) && negb (value =? 10) then Ok (ERR, s) else
  Ok (by_name name (put "nfprobe_version" value) s).

Definition cfg_key_nfprobe_engine : handler := fun name value_ptr s =>
  Ok (by_name name (puts "nfprobe_engine" value_ptr) s).

Definition cfg_key_nfprobe_peer_as : handler := fun name value_ptr s =>
  let value := parse_truefalse value_ptr in
  if (value <? 0) then Ok (ERR, s) else
  Ok (by_name name (put "nfprobe_peer_as" value) s).

Definition cfg_key_nfprobe_ip_precedence : handler := fun name value_ptr s =>
  let value := atoi value_ptr in
  if (value <? 0) || (7 <? value) then Ok (ERR, s) else
  Ok (by_name name (put "nfprobe_ipprec" value) s).

Definition cfg_key_nfprobe_direction : handler := fun name value_ptr s =>
  let value_ptr := lower_string value_ptr in
  let chosen :=
    if streq value_ptr "tag" then Some (DIRECTION_TAG) else
    if streq value_ptr "tag2" then Some (DIRECTION_TAG2) else
    if streq value_ptr "in" then Some (DIRECTION_IN) else
    if streq value_ptr "out" then Some (DIRECTION_OUT) else
    None in
  match chosen with None => Ok (ERR, s) | Some value =>
  Ok (named_only name (put "nfprobe_direction" value) s) end.

Definition cfg_key_nfprobe_ifindex : handler := fun name value_ptr s =>
  let value_ptr := lower_string value_ptr in
  let chosen :=
    if streq value_ptr "tag" then Some (0, IFINDEX_TAG) else
    if streq value_ptr "tag2" then Some (0, IFINDEX_TAG2) else
    let value := u32 (strtol 0 value_ptr) in
    if negb (value =? 0) then Some (value, IFINDEX_STATIC) else None in
  match chosen with
  | None => Ok (ERR, s)
  | Some (value, value2) =>
      Ok (named_only name (put "nfprobe_ifindex_type" value2 ∘ put "nfprobe_ifindex" value) s)
  end.

Definition cfg_key_nfprobe_ifindex_override : handler := fun name value_ptr s =>
  let value := parse_truefalse value_ptr in
  if (value <? 0) then Ok (ERR, s) else
  Ok (by_name name (put "nfprobe_ifindex_override" value) s).

Definition cfg_key_nfprobe_tstamp_usec : handler := fun name value_ptr s =>
  let value := parse_truefalse value_ptr in
  if (value <? 0) then Ok (ERR, s) else
  Ok (by_name name (put "nfprobe_tstamp_usec" value) s).

Definition cfg_key_nfprobe_dont_cache : handler := fun name value_ptr s =>
  let value := parse_truefalse value_ptr in
  if (value <? 0) then Ok (ERR, s) else
  Ok (by_name name (put "nfprobe_dont_cache" value) s).

Definition cfg_key_sfprobe_receiver : handler := fun name value_ptr s =>
  Ok (by_name name (puts "sfprobe_receiver" value_ptr) s).

Definition cfg_key_sfprobe_agentip : handler := fun name value_ptr s =>
  Ok (by_name name (puts "sfprobe_agentip" value_ptr) s).

Definition cfg_key_sfprobe_agentsubid : handler := fun name value_ptr s =>
  let value := atoi value_ptr in
  if (value <? 0) then Ok (ERR, s) else
  Ok (by_name name (put "sfprobe_agentsubid" value) s).

Definition cfg_key_sfprobe_ifspeed : handler := fun name value_ptr s =>
  let value := u64 (strtoll 0 value_ptr) in
  Ok (by_name name (put "sfprobe_ifspeed" value) s).

Definition cfg_key_tee_transparent : handler := fun name value_ptr s =>
  let value := parse_truefalse value_ptr in
  if (value <? 0) then Ok (ERR, s) else
  Ok (by_name name (put "tee_transparent" value) s).

Definition cfg_key_tee_max_receivers : handler := fun name value_ptr s =>
  let value := atoi value_ptr in
  if (value <? 1) then Ok (ERR, s) else
  Ok (by_name name (put "tee_max_receivers" value) s).

Definition cfg_key_tee_max_receiver_pools : handler := fun name value_ptr s =>
  let value := atoi value_ptr in
  if (value <? 1) then Ok (ERR, s) else
  Ok (by_name name (put "tee_max_receiver_pools" value) s).

Definition cfg_key_tee_receivers : handler := fun name value_ptr s =>
  Ok (by_name name (puts "tee_receivers" value_ptr) s).

Definition cfg_key_tee_pipe_size : handler := fun name value_ptr s =>
  let value := strtoull 10 value_ptr in
  if (value =? 0) || ((2 ^ 31 - 1) <? value) then Ok (ERR, s) else
  Ok (by_name name (put "tee_pipe_size" value) s).

Definition cfg_key_tee_kafka_config_file : handler := fun name value_ptr s =>
  Ok (by_name name (puts "tee_kafka_config_file" value_ptr) s).

Definition cfg_key_uacctd_group : handler := fun name value_ptr s =>
  let value := atoi value_ptr in
  if (value <? 0) || (65535 <? value) then Ok (ERR, s) else
  Ok (all (put "uacctd_group" value) s).

Definition cfg_key_uacctd_nl_size : handler := fun name value_ptr s =>
  let value := atoi value_ptr in
  Ok (all (put "uacctd_nl_size" value) s).

Definition cfg_key_uacctd_threshold : handler := fun name value_ptr s =>
  let value := atoi value_ptr in
  Ok (all (put "uacctd_threshold" value) s).

Definition cfg_key_tunnel_0 : handler := fun name value_ptr s =>
  let value_ptr := trim_all_spaces value_ptr in
  Ok (all (puts "tunnel0" value_ptr) s).

Definition cfg_key_geoipv2_file : handler := fun name value_ptr s =>
  Ok (all (puts "geoipv2_file" value_ptr) s).

Definition cfg_key_bgp_daemon_msglog_file : handler := fun name value_ptr s =>
  Ok (all (puts "bgp_daemon_msglog_file" value_ptr) s).

Definition cfg_key_bgp_daemon_msglog_avro_schema_file : handler := fun name value_ptr s =>
  Ok (all (puts "bgp_daemon_msglog_avro_schema_file" value_ptr) s).

Definition cfg_key_bgp_daemon_msglog_output : handler := fun name value_ptr s =>
  let value_ptr := lower_string value_ptr in
  let chosen :=
    if streq value_ptr "json" then Some (PRINT_OUTPUT_JSON) else
    if streq value_ptr "avro" || streq value_ptr "avro_bin" then Some (PRINT_OUTPUT_AVRO_BIN) else
    if streq value_ptr "avro_json" then Some (PRINT_OUTPUT_AVRO_JSON) else
    None in
  match chosen with None => Ok (ERR, s) | Some value =>
  Ok (all (put "bgp_daemon_msglog_output" value) s) end.

Definition cfg_key_bgp_daemon_msglog_amqp_host : handler := fun name value_ptr s =>
  Ok (all (puts "bgp_daemon_msglog_amqp_host" value_ptr) s).

Definition cfg_key_bgp_daemon_msglog_amqp_vhost : handler := fun name value_ptr s =>
  Ok (all (puts "bgp_daemon_msglog_amqp_vhost" value_ptr) s).

Definition cfg_key_bgp_daemon_msglog_amqp_user : handler := fun name value_ptr s =>
  Ok (all (puts "bgp_daemon_msglog_amqp_user" value_ptr) s).

Definition cfg_key_bgp_daemon_msglog_amqp_passwd : handler := fun name value_ptr s =>
  Ok (all (puts "bgp_daemon_msglog_amqp_passwd" value_ptr) s).

Definition cfg_key_bgp_daemon_msglog_amqp_exchange : handler := fun name value_ptr s =>
  Ok (all (puts "bgp_daemon_msglog_amqp_exchange" value_ptr) s).

Definition cfg_key_bgp_daemon_msglog_amqp_exchange_type : handler := fun name value_ptr s =>
  Ok (all (puts "bgp_daemon_msglog_amqp_exchange_type" value_ptr) s).

Definition cfg_key_bgp_daemon_msglog_amqp_routing_key : handler := fun name value_ptr s =>
  Ok (all (puts "bgp_daemon_msglog_amqp_routing_key" value_ptr) s).

Definition cfg_key_bgp_daemon_msglog_amqp_routing_key_rr : handler := fun name value_ptr s =>
  let value := 0 in
  let value := atoi value_ptr in
  if (value <? 0) then Ok (ERR, s) else
  Ok (all (put "bgp_daemon_msglog_amqp_routing_key_rr" value) s).

Definition cfg_key_bgp_daemon_msglog_amqp_persistent_msg : handler := fun name value_ptr s =>
  let value := parse_truefalse value_ptr in
  if (value <? 0) then Ok (ERR, s) else
  Ok (all (put "bgp_daemon_msglog_amqp_persistent_msg" value) s).

Definition cfg_key_bgp_daemon_msglog_amqp_frame_max : handler := fun name value_ptr s =>
  let value := u32 (strtoul 10 value_ptr) in
  if (value <=? 0) then Ok (ERR, s) else
  Ok (all (put "bgp_daemon_msglog_amqp_frame_max" value) s).

Definition cfg_key_bgp_daemon_msglog_amqp_heartbeat_interval : handler := fun name value_ptr s =>
  let value := u32 (strtoul 10 value_ptr) in
  Ok (all (put "bgp_daemon_msglog_amqp_heartbeat_interval" value) s).

Definition cfg_key_bgp_daemon_msglog_amqp_retry : handler := fun name value_ptr s =>
  let value := atoi value_ptr in
  if (value <=? 0) then Ok (ERR, s) else
  Ok (all (put "bgp_daemon_msglog_amqp_retry" value) s).

Definition cfg_key_bgp_daemon_table_dump_file : handler := fun name value_ptr s =>
  Ok (all (puts "bgp_table_dump_file" value_ptr) s).

Definition cfg_key_bgp_daemon_table_dump_latest_file : handler := fun name value_ptr s =>
  Ok (all (puts "bgp_table_dump_latest_file" value_ptr) s).

Definition cfg_key_bgp_daemon_table_dump_avro_schema_file : handler := fun name value_ptr s =>
  Ok (all (puts "bgp_table_dump_avro_schema_file" value_ptr) s).

Definition cfg_key_bgp_daemon_table_dump_output : handler := fun name value_ptr s =>
  let value_ptr := lower_string value_ptr in
  let chosen :=
    if streq value_ptr "json" then Some (PRINT_OUTPUT_JSON) else
    if streq value_ptr "avro" || streq value_ptr "avro_bin" then Some (PRINT_OUTPUT_AVRO_BIN) else
    if streq value_ptr "avro_json" then Some (PRINT_OUTPUT_AVRO_JSON) else
    None in
  match chosen with None => Ok (ERR, s) | Some value =>
  Ok (all (put "bgp_table_dump_output" value) s) end.

Definition cfg_key_bgp_daemon_table_dump_refresh_time : handler := fun name value_ptr s =>
  if negb (forallb (fun c => is_digit c || is_space c) value_ptr) then Ok (ERR, s) else
  let value := atoi value_ptr in
  if (value <? MIN_REFRESH_TIME) || (MAX_REFRESH_TIME <? value) then Ok (ERR, s) else
  Ok (all (put "bgp_table_dump_refresh_time" value) s).

Definition cfg_key_bgp_daemon_table_dump_time_slots : handler := fun name value_ptr s =>
  if negb (forallb (fun c => is_digit c || is_space c) value_ptr) then Ok (ERR, s) else
  let value := atoi value_ptr in
  if (value <? 1) || (MAX_REFRESH_TIME <? value) then Ok (ERR, s) else
  Ok (all (put "bgp_table_dump_time_slots" value) s).

Definition cfg_key_bgp_daemon_table_dump_amqp_host : handler := fun name value_ptr s =>
  Ok (all (puts "bgp_table_dump_amqp_host" value_ptr) s).

Definition cfg_key_bgp_daemon_table_dump_amqp_vhost : handler := fun name value_ptr s =>
  Ok (all (puts "bgp_table_dump_amqp_vhost" value_ptr) s).

Definition cfg_key_bgp_daemon_table_dump_amqp_user : handler := fun name value_ptr s =>
  Ok (all (puts "bgp_table_dump_amqp_user" value_ptr) s).

Definition cfg_key_bgp_daemon_table_dump_amqp_passwd : handler := fun name value_ptr s =>
  Ok (all (puts "bgp_table_dump_amqp_passwd" value_ptr) s).

Definition cfg_key_bgp_daemon_table_dump_amqp_exchange : handler := fun name value_ptr s =>
  Ok (all (puts "bgp_table_dump_amqp_exchange" value_ptr) s).

Definition cfg_key_bgp_daemon_table_dump_amqp_exchange_type : handler := fun name value_ptr s =>
  Ok (all (puts "bgp_table_dump_amqp_exchange_type" value_ptr) s).

Definition cfg_key_bgp_daemon_table_dump_amqp_routing_key : handler := fun name value_ptr s =>
  Ok (all (puts "bgp_table_dump_amqp_routing_key" value_ptr) s).

Definition cfg_key_bgp_daemon_table_dump_amqp_routing_key_rr : handler := fun name value_ptr s =>
  let value := 0 in
  let value := atoi value_ptr in
  if (value <? 0) then Ok (ERR, s) else
  Ok (all (put "bgp_table_dump_amqp_routing_key_rr" value) s).

Definition cfg_key_bgp_daemon_table_dump_amqp_persistent_msg : handler := fun name value_ptr s =>
  let value := parse_truefalse value_ptr in
  if (value <? 0) then Ok (ERR, s) else
  Ok (all (put "bgp_table_dump_amqp_persistent_msg" value) s).

Definition cfg_key_bgp_daemon_table_dump_amqp_frame_max : handler := fun name value_ptr s =>
  let value := u32 (strtoul 10 value_ptr) in
  if (value <=? 0) then Ok (ERR, s) else
  Ok (all (put "bgp_table_dump_amqp_frame_max" value) s).

Definition cfg_key_bgp_daemon_table_dump_amqp_heartbeat_interval : handler := fun name value_ptr s =>
  let value := u32 (strtoul 10 value_ptr) in
  Ok (all (put "bgp_table_dump_amqp_heartbeat_interval" value) s).

Definition cfg_key_bgp_daemon_msglog_kafka_broker_host : handler := fun name value_ptr s =>
  Ok (all (puts "bgp_daemon_msglog_kafka_broker_host" value_ptr) s).

Definition cfg_key_bgp_daemon_msglog_kafka_broker_port : handler := fun name value_ptr s =>
  let value := atoi value_ptr in
  if (value <=? 0) || (65535 <? value) then Ok (ERR, s) else
  Ok (all (put "bgp_daemon_msglog_kafka_broker_port" value) s).

Definition cfg_key_bgp_daemon_msglog_kafka_topic : handler := fun name value_ptr s =>
  Ok (all (puts "bgp_daemon_msglog_kafka_topic" value_ptr) s).

Definition cfg_key_bgp_daemon_msglog_kafka_topic_rr : handler := fun name value_ptr s =>
  let value := 0 in
  let value := atoi value_ptr in
  if (value <? 0) then Ok (ERR, s) else
  Ok (all (put "bgp_daemon_msglog_kafka_topic_rr" value) s).

Definition cfg_key_bgp_daemon_msglog_kafka_partition : handler := fun name value_ptr s =>
  let value := atoi value_ptr in
  if (value <? (-1)) then Ok (ERR, s) else
  let value := if value =? 0 then FALSE_NONZERO else value in
  Ok (all (put "bgp_daemon_msglog_kafka_partition" value) s).

Definition cfg_key_bgp_daemon_msglog_kafka_partition_key : handler := fun name value_ptr s =>
  let value_len := strlen value_ptr in
  Ok (all (put "bgp_daemon_msglog_kafka_partition_keylen" value_len ∘ puts "bgp_daemon_msglog_kafka_partition_key" value_ptr) s).

Definition cfg_key_bgp_daemon_msglog_kafka_retry : handler := fun name value_ptr s =>
  let value := atoi value_ptr in
  if (value <=? 0) then Ok (ERR, s) else
  Ok (all (put "bgp_daemon_msglog_kafka_retry" value) s).

Definition cfg_key_bgp_daemon_msglog_kafka_config_file : handler := fun name value_ptr s =>
  Ok (all (puts "bgp_daemon_msglog_kafka_config_file" value_ptr) s).

Definition cfg_key_bgp_daemon_msglog_kafka_avro_schema_registry : handler := fun name value_ptr s =>
  Ok (all (puts "bgp_daemon_msglog_kafka_avro_schema_registry" value_ptr) s).

Definition cfg_key_bgp_daemon_table_dump_kafka_broker_host : handler := fun name value_ptr s =>
  Ok (all (puts "bgp_table_dump_kafka_broker_host" value_ptr) s).

Definition cfg_key_bgp_daemon_table_dump_kafka_broker_port : handler := fun name value_ptr s =>
  let value := atoi value_ptr in
  if (value <=? 0) || (65535 <? value) then Ok (ERR, s) else
  Ok (all (put "bgp_table_dump_kafka_broker_port" value) s).

Definition cfg_key_bgp_daemon_table_dump_kafka_topic : handler := fun name value_ptr s =>
  Ok (all (puts "bgp_table_dump_kafka_topic" value_ptr) s).

Definition cfg_key_bgp_daemon_table_dump_kafka_topic_rr : handler := fun name value_ptr s =>
  let value := 0 in
  let value := atoi value_ptr in
  if (value <? 0) then Ok (ERR, s) else
  Ok (all (put "bgp_table_dump_kafka_topic_rr" value) s).

Definition cfg_key_bgp_daemon_table_dump_kafka_partition : handler := fun name value_ptr s =>
  let value := atoi value_ptr in
  if (value <? (-1)) then Ok (ERR, s) else
  let value := if value =? 0 then FALSE_NONZERO else value in
  Ok (all (put "bgp_table_dump_kafka_partition" value) s).

Definition cfg_key_bgp_daemon_table_dump_kafka_partition_key : handler := fun name value_ptr s =>
  let value_len := strlen value_ptr in
  Ok (all (put "bgp_table_dump_kafka_partition_keylen" value_len ∘ puts "bgp_table_dump_kafka_partition_key" value_ptr) s).

Definition cfg_key_bgp_daemon_table_dump_kafka_config_file : handler := fun name value_ptr s =>
  Ok (all (puts "bgp_table_dump_kafka_config_file" value_ptr) s).

Definition cfg_key_bgp_daemon_table_dump_kafka_avro_schema_registry : handler := fun name value_ptr s =>
  Ok (all (puts "bgp_table_dump_kafka_avro_schema_registry" value_ptr) s).

Definition cfg_key_bmp_daemon_msglog_kafka_broker_host : handler := fun name value_ptr s =>
  Ok (all (puts "bmp_daemon_msglog_kafka_broker_host" value_ptr) s).

Definition cfg_key_bmp_daemon_msglog_kafka_broker_port : handler := fun name value_ptr s =>
  let value := atoi value_ptr in
  if (value <=? 0) || (65535 <? value) then Ok (ERR, s) else
  Ok (all (put "bmp_daemon_msglog_kafka_broker_port" value) s).

Definition cfg_key_bmp_daemon_msglog_kafka_topic : handler := fun name value_ptr s =>
  Ok (all (puts "bmp_daemon_msglog_kafka_topic" value_ptr) s).

Definition cfg_key_bmp_daemon_msglog_kafka_topic_rr : handler := fun name value_ptr s =>
  let value := 0 in
  let value := atoi value_ptr in
  if (value <? 0) then Ok (ERR, s) else
  Ok (all (put "bmp_daemon_msglog_kafka_topic_rr" value) s).

Definition cfg_key_bmp_daemon_msglog_kafka_partition : handler := fun name value_ptr s =>
  let value := atoi value_ptr in
  if (value <? (-1)) then Ok (ERR, s) else
  let value := if value =? 0 then FALSE_NONZERO else value in
  Ok (all (put "bmp_daemon_msglog_kafka_partition" value) s).

Definition cfg_key_bmp_daemon_msglog_kafka_partition_key : handler := fun name value_ptr s =>
  let value_len := strlen value_ptr in
  Ok (all (put "bmp_daemon_msglog_kafka_partition_keylen" value_len ∘ puts "bmp_daemon_msglog_kafka_partition_key" value_ptr) s).

Definition cfg_key_bmp_daemon_msglog_kafka_retry : handler := fun name value_ptr s =>
  let value := atoi value_ptr in
  if (value <=? 0) then Ok (ERR, s) else
  Ok (all (put "bmp_daemon_msglog_kafka_retry" value) s).

Definition cfg_key_bmp_daemon_msglog_kafka_config_file : handler := fun name value_ptr s =>
  Ok (all (puts "bmp_daemon_msglog_kafka_config_file" value_ptr) s).

Definition cfg_key_bmp_daemon_msglog_kafka_avro_schema_registry : handler := fun name value_ptr s =>
  Ok (all (puts "bmp_daemon_msglog_kafka_avro_schema_registry" value_ptr) s).

Definition cfg_key_bmp_daemon_dump_kafka_broker_host : handler := fun name value_ptr s =>
  Ok (all (puts "bmp_dump_kafka_broker_host" value_ptr) s).

Definition cfg_key_bmp_daemon_dump_kafka_broker_port : handler := fun name value_ptr s =>
  let value := atoi value_ptr in
  if (value <=? 0) || (65535 <? value) then Ok (ERR, s) else
  Ok (all (put "bmp_dump_kafka_broker_port" value) s).

Definition cfg_key_bmp_daemon_dump_kafka_topic : handler := fun name value_ptr s =>
  Ok (all (puts "bmp_dump_kafka_topic" value_ptr) s).

Definition cfg_key_bmp_daemon_dump_kafka_topic_rr : handler := fun name value_ptr s =>
  let value := 0 in
  let value := atoi value_ptr in
  if (value <? 0) then Ok (ERR, s) else
  Ok (all (put "bmp_dump_kafka_topic_rr" value) s).

Definition cfg_key_bmp_daemon_dump_kafka_partition : handler := fun name value_ptr s =>
  let value := atoi value_ptr in
  if (value <? (-1)) then Ok (ERR, s) else
  let value := if value =? 0 then FALSE_NONZERO else value in
  Ok (all (put "bmp_dump_kafka_partition" value) s).

Definition cfg_key_bmp_daemon_dump_kafka_partition_key : handler := fun name value_ptr s =>
  let value_len := strlen value_ptr in
  Ok (all (put "bmp_dump_kafka_partition_keylen" value_len ∘ puts "bmp_dump_kafka_partition_key" value_ptr) s).

Definition cfg_key_bmp_daemon_dump_kafka_config_file : handler := fun name value_ptr s =>
  Ok (all (puts "bmp_dump_kafka_config_file" value_ptr) s).

Definition cfg_key_bmp_daemon_dump_kafka_avro_schema_registry : handler := fun name value_ptr s =>
  Ok (all (puts "bmp_dump_kafka_avro_schema_registry" value_ptr) s).

Definition cfg_key_tmp_asa_bi_flow : handler := fun name value_ptr s =>
  let value := parse_truefalse value_ptr in
  if (value <? 0) then Ok (ERR, s) else
  Ok (by_name name (put "tmp_asa_bi_flow" value) s).

Definition cfg_key_tmp_bgp_lookup_compare_ports : handler := fun name value_ptr s =>
  let value := parse_truefalse value_ptr in
  if (value <? 0) then Ok (ERR, s) else
  Ok (all (put "tmp_bgp_lookup_compare_ports" value) s).

Definition cfg_key_tmp_bgp_daemon_route_refresh : handler := fun name value_ptr s =>
  let value := parse_truefalse value_ptr in
  if (value <? 0) then Ok (ERR, s) else
  Ok (all (put "tmp_bgp_daemon_route_refresh" value) s).

Definition cfg_key_tmp_bgp_daemon_origin_type_int : handler := fun name value_ptr s =>
  let value := parse_truefalse value_ptr in
  if (value <? 0) then Ok (ERR, s) else
  Ok (all (put "tmp_bgp_daemon_origin_type_int" value) s).

Definition cfg_key_tmp_telemetry_daemon_udp_notif_legacy : handler := fun name value_ptr s =>
  let value := parse_truefalse value_ptr in
  if (value <? 0) then Ok (ERR, s) else
  Ok (all (put "tmp_telemetry_udp_notif_legacy" value) s).

Definition cfg_key_tmp_telemetry_decode_cisco_v1_json_string : handler := fun name value_ptr s =>
  let value := parse_truefalse value_ptr in
  if (value <? 0) then Ok (ERR, s) else
  Ok (all (put "tmp_telemetry_decode_cisco_v1_json_string" value) s).

Definition cfg_key_bgp_bmp_daemon_ha : handler := fun name value_ptr s =>
  let value := parse_truefalse value_ptr in
  if (value <? 0) then Ok (ERR, s) else
  Ok (all (put "bgp_bmp_daemon_ha" value) s).

Definition cfg_key_bgp_bmp_daemon_ha_cluster_name : handler := fun name value_ptr s =>
  Ok (all (puts "bgp_bmp_daemon_ha_cluster_name" value_ptr) s).

Definition cfg_key_bgp_bmp_daemon_ha_cluster_id : handler := fun name value_ptr s =>
  let value := atoi value_ptr in
  Ok (all (put "bgp_bmp_daemon_ha_cluster_id" value) s).

Definition cfg_key_bgp_bmp_daemon_ha_queue_message_timeout : handler := fun name value_ptr s =>
  let value := atoi value_ptr in
  Ok (all (put "bgp_bmp_daemon_ha_queue_message_timeout" value) s).

Definition cfg_key_bgp_bmp_daemon_ha_queue_max_size : handler := fun name value_ptr s =>
  let value := atoi value_ptr in
  Ok (all (put "bgp_bmp_daemon_ha_queue_max_size" value) s).

Definition cfg_key_thread_stack : handler := fun name value_ptr s =>
  let value := atoi value_ptr in
  if (value <=? 0) then Ok (ERR, s) else
  Ok (all (put "thread_stack" value) s).

Definition cfg_key_telemetry_daemon : handler := fun name value_ptr s =>
  let value := parse_truefalse value_ptr in
  if (value <? 0) then Ok (ERR, s) else
  Ok (all (put "telemetry_daemon" value) s).

Definition cfg_key_telemetry_port_tcp : handler := fun name value_ptr s =>
  let value := atoi value_ptr in
  if (value <=? 0) || (65535 <? value) then Ok (ERR, s) else
  Ok (all (put "telemetry_port_tcp" value) s).

Definition cfg_key_telemetry_port_udp : handler := fun name value_ptr s =>
  let value := atoi value_ptr in
  if (value <=? 0) || (65535 <? value) then Ok (ERR, s) else
  Ok (all (put "telemetry_port_udp" value) s).

Definition cfg_key_telemetry_ip : handler := fun name value_ptr s =>
  Ok (all (puts "telemetry_ip" value_ptr) s).

Definition cfg_key_telemetry_interface : handler := fun name value_ptr s =>
  Ok (all (puts "telemetry_interface" value_ptr) s).

Definition cfg_key_telemetry_udp_notif_port : handler := fun name value_ptr s =>
  let value := atoi value_ptr in
  if (value <=? 0) || (65535 <? value) then Ok (ERR, s) else
  Ok (all (put "telemetry_udp_notif_port" value) s).

Definition cfg_key_telemetry_udp_notif_ip : handler := fun name value_ptr s =>
  Ok (all (puts "telemetry_udp_notif_ip" value_ptr) s).

Definition cfg_key_telemetry_udp_notif_interface : handler := fun name value_ptr s =>
  Ok (all (puts "telemetry_udp_notif_interface" value_ptr) s).

Definition cfg_key_telemetry_udp_notif_ipv6_only : handler := fun name value_ptr s =>
  let value := parse_truefalse value_ptr in
  if (value <? 0) then Ok (ERR, s) else
  Ok (all (put "telemetry_udp_notif_ipv6_only" value) s).

Definition cfg_key_telemetry_udp_notif_nmsgs : handler := fun name value_ptr s =>
  let value := atoi value_ptr in
  Ok (all (put "telemetry_udp_notif_nmsgs" value) s).

Definition cfg_key_telemetry_udp_notif_rp_ebpf_prog : handler := fun name value_ptr s =>
  Ok (all (puts "telemetry_udp_notif_rp_ebpf_prog" value_ptr) s).

Definition cfg_key_telemetry_grpc_collector_conf : handler := fun name value_ptr s =>
  Ok (all (puts "telemetry_grpc_collector_conf" value_ptr) s).

Definition cfg_key_telemetry_ipv6_only : handler := fun name value_ptr s =>
  let value := parse_truefalse value_ptr in
  if (value <? 0) then Ok (ERR, s) else
  Ok (all (put "telemetry_ipv6_only" value) s).

Definition cfg_key_telemetry_decoder : handler := fun name value_ptr s =>
  Ok (all (puts "telemetry_decoder" value_ptr) s).

Definition cfg_key_telemetry_allow_file : handler := fun name value_ptr s =>
  Ok (all (puts "telemetry_allow_file" value_ptr) s).

Definition cfg_key_telemetry_pipe_size : handler := fun name value_ptr s =>
  let value := strtoull 10 value_ptr in
  if (value =? 0) || ((2 ^ 31 - 1) <? value) then Ok (ERR, s) else
  Ok (all (put "telemetry_pipe_size" value) s).

Definition cfg_key_telemetry_ip_precedence : handler := fun name value_ptr s =>
  let value := atoi value_ptr in
  if (value <? 0) || (7 <? value) then Ok (ERR, s) else
  Ok (all (put "telemetry_ipprec" value) s).

Definition cfg_key_telemetry_max_peers : handler := fun name value_ptr s =>
  let value := atoi value_ptr in
  if (value <? 1) then Ok (ERR, s) else
  Ok (all (put "telemetry_max_peers" value) s).

Definition cfg_key_telemetry_peer_timeout : handler := fun name value_ptr s =>
  let value := atoi value_ptr in
  if (value <? 60) then Ok (ERR, s) else
  Ok (all (put "telemetry_peer_timeout" value) s).

Definition cfg_key_telemetry_tag_map : handler := fun name value_ptr s =>
  Ok (all (puts "telemetry_tag_map" value_ptr) s).

Definition cfg_key_telemetry_msglog_file : handler := fun name value_ptr s =>
  Ok (all (puts "telemetry_msglog_file" value_ptr) s).

Definition cfg_key_telemetry_msglog_output : handler := fun name value_ptr s =>
  let value_ptr := lower_string value_ptr in
  let chosen :=
    if streq value_ptr "json" then Some (PRINT_OUTPUT_JSON) else
    None in
  match chosen with None => Ok (ERR, s) | Some value =>
  Ok (all (put "telemetry_msglog_output" value) s) end.

Definition cfg_key_telemetry_msglog_amqp_host : handler := fun name value_ptr s =>
  Ok (all (puts "telemetry_msglog_amqp_host" value_ptr) s).

Definition cfg_key_telemetry_msglog_amqp_vhost : handler := fun name value_ptr s =>
  Ok (all (puts "telemetry_msglog_amqp_vhost" value_ptr) s).

Definition cfg_key_telemetry_msglog_amqp_user : handler := fun name value_ptr s =>
  Ok (all (puts "telemetry_msglog_amqp_user" value_ptr) s).

Definition cfg_key_telemetry_msglog_amqp_passwd : handler := fun name value_ptr s =>
  Ok (all (puts "telemetry_msglog_amqp_passwd" value_ptr) s).

Definition cfg_key_telemetry_msglog_amqp_exchange : handler := fun name value_ptr s =>
  Ok (all (puts "telemetry_msglog_amqp_exchange" value_ptr) s).

Definition cfg_key_telemetry_msglog_amqp_exchange_type : handler := fun name value_ptr s =>
  Ok (all (puts "telemetry_msglog_amqp_exchange_type" value_ptr) s).

Definition cfg_key_telemetry_msglog_amqp_routing_key : handler := fun name value_ptr s =>
  Ok (all (puts "telemetry_msglog_amqp_routing_key" value_ptr) s).

Definition cfg_key_telemetry_msglog_amqp_routing_key_rr : handler := fun name value_ptr s =>
  let value := 0 in
  let value := atoi value_ptr in
  if (value <? 0) then Ok (ERR, s) else
  Ok (all (put "telemetry_msglog_amqp_routing_key_rr" value) s).

Definition cfg_key_telemetry_msglog_amqp_persistent_msg : handler := fun name value_ptr s =>
  let value := parse_truefalse value_ptr in
  if (value <? 0) then Ok (ERR, s) else
  Ok (all (put "telemetry_msglog_amqp_persistent_msg" value) s).

Definition cfg_key_telemetry_msglog_amqp_frame_max : handler := fun name value_ptr s =>
  let value := u32 (strtoul 10 value_ptr) in
  if (value <=? 0) then Ok (ERR, s) else
  Ok (all (put "telemetry_msglog_amqp_frame_max" value) s).

Definition cfg_key_telemetry_msglog_amqp_heartbeat_interval : handler := fun name value_ptr s =>
  let value := u32 (strtoul 10 value_ptr) in
  Ok (all (put "telemetry_msglog_amqp_heartbeat_interval" value) s).

Definition cfg_key_telemetry_msglog_amqp_retry : handler := fun name value_ptr s =>
  let value := atoi value_ptr in
  if (value <=? 0) then Ok (ERR, s) else
  Ok (all (put "telemetry_msglog_amqp_retry" value) s).

Definition cfg_key_telemetry_dump_file : handler := fun name value_ptr s =>
  Ok (all (puts "telemetry_dump_file" value_ptr) s).

Definition cfg_key_telemetry_dump_latest_file : handler := fun name value_ptr s =>
  Ok (all (puts "telemetry_dump_latest_file" value_ptr) s).

Definition cfg_key_telemetry_dump_output : handler := fun name value_ptr s =>
  let value_ptr := lower_string value_ptr in
  let chosen :=
    if streq value_ptr "json" then Some (PRINT_OUTPUT_JSON) else
    None in
  match chosen with None => Ok (ERR, s) | Some value =>
  Ok (all (put "telemetry_dump_output" value) s) end.

Definition cfg_key_telemetry_dump_refresh_time : handler := fun name value_ptr s =>
  if negb (forallb (fun c => is_digit c || is_space c) value_ptr) then Ok (ERR, s) else
  let value := atoi value_ptr in
  if (value <? MIN_REFRESH_TIME) || (MAX_REFRESH_TIME <? value) then Ok (ERR, s) else
  Ok (all (put "telemetry_dump_refresh_time" value) s).

Definition cfg_key_telemetry_dump_time_slots : handler := fun name value_ptr s =>
  if negb (forallb (fun c => is_digit c || is_space c) value_ptr) then Ok (ERR, s) else
  let value := atoi value_ptr in
  if (value <? 1) || (MAX_REFRESH_TIME <? value) then Ok (ERR, s) else
  Ok (all (put "telemetry_dump_time_slots" value) s).

Definition cfg_key_telemetry_dump_amqp_host : handler := fun name value_ptr s =>
  Ok (all (puts "telemetry_dump_amqp_host" value_ptr) s).

Definition cfg_key_telemetry_dump_amqp_vhost : handler := fun name value_ptr s =>
  Ok (all (puts "telemetry_dump_amqp_vhost" value_ptr) s).

Definition cfg_key_telemetry_dump_amqp_user : handler := fun name value_ptr s =>
  Ok (all (puts "telemetry_dump_amqp_user" value_ptr) s).

Definition cfg_key_telemetry_dump_amqp_passwd : handler := fun name value_ptr s =>
  Ok (all (puts "telemetry_dump_amqp_passwd" value_ptr) s).

Definition cfg_key_telemetry_dump_amqp_exchange : handler := fun name value_ptr s =>
  Ok (all (puts "telemetry_dump_amqp_exchange" value_ptr) s).

Definition cfg_key_telemetry_dump_amqp_exchange_type : handler := fun name value_ptr s =>
  Ok (all (puts "telemetry_dump_amqp_exchange_type" value_ptr) s).

Definition cfg_key_telemetry_dump_amqp_routing_key : handler := fun name value_ptr s =>
  Ok (all (puts "telemetry_dump_amqp_routing_key" value_ptr) s).

Definition cfg_key_telemetry_dump_amqp_routing_key_rr : handler := fun name value_ptr s =>
  let value := 0 in
  let value := atoi value_ptr in
  if (value <? 0) then Ok (ERR, s) else
  Ok (all (put "telemetry_dump_amqp_routing_key_rr" value) s).

Definition cfg_key_telemetry_dump_amqp_persistent_msg : handler := fun name value_ptr s =>
  let value := parse_truefalse value_ptr in
  if (value <? 0) then Ok (ERR, s) else
  Ok (all (put "telemetry_dump_amqp_persistent_msg" value) s).

Definition cfg_key_telemetry_dump_amqp_frame_max : handler := fun name value_ptr s =>
  let value := u32 (strtoul 10 value_ptr) in
  if (value <=? 0) then Ok (ERR, s) else
  Ok (all (put "telemetry_dump_amqp_frame_max" value) s).

Definition cfg_key_telemetry_dump_amqp_heartbeat_interval : handler := fun name value_ptr s =>
  let value := u32 (strtoul 10 value_ptr) in
  Ok (all (put "telemetry_dump_amqp_heartbeat_interval" value) s).

Definition cfg_key_telemetry_dump_workers : handler := fun name value_ptr s =>
  let value := atoi value_ptr in
  if (value <? 1) then Ok (ERR, s) else
  Ok (all (put "telemetry_dump_workers" value) s).

Definition cfg_key_telemetry_msglog_kafka_broker_host : handler := fun name value_ptr s =>
  Ok (all (puts "telemetry_msglog_kafka_broker_host" value_ptr) s).

Definition cfg_key_telemetry_msglog_kafka_broker_port : handler := fun name value_ptr s =>
  let value := atoi value_ptr in
  if (value <=? 0) || (65535 <? value) then Ok (ERR, s) else
  Ok (all (put "telemetry_msglog_kafka_broker_port" value) s).

Definition cfg_key_telemetry_msglog_kafka_topic : handler := fun name value_ptr s =>
  Ok (all (puts "telemetry_msglog_kafka_topic" value_ptr) s).

Definition cfg_key_telemetry_msglog_kafka_topic_rr : handler := fun name value_ptr s =>
  let value := 0 in
  let value := atoi value_ptr in
  if (value <? 0) then Ok (ERR, s) else
  Ok (all (put "telemetry_msglog_kafka_topic_rr" value) s).

Definition cfg_key_telemetry_msglog_kafka_partition : handler := fun name value_ptr s =>
  let value := atoi value_ptr in
  if (value <? (-1)) then Ok (ERR, s) else
  let value := if value =? 0 then FALSE_NONZERO else value in
  Ok (all (put "telemetry_msglog_kafka_partition" value) s).

Definition cfg_key_telemetry_msglog_kafka_partition_key : handler := fun name value_ptr s =>
  let value_len := strlen value_ptr in
  Ok (all (put "telemetry_msglog_kafka_partition_keylen" value_len ∘ puts "telemetry_msglog_kafka_partition_key" value_ptr) s).

Definition cfg_key_telemetry_msglog_kafka_retry : handler := fun name value_ptr s =>
  let value := atoi value_ptr in
  if (value <=? 0) then Ok (ERR, s) else
  Ok (all (put "telemetry_msglog_kafka_retry" value) s).

Definition cfg_key_telemetry_msglog_kafka_config_file : handler := fun name value_ptr s =>
  Ok (all (puts "telemetry_msglog_kafka_config_file" value_ptr) s).

Definition cfg_key_telemetry_dump_kafka_broker_host : handler := fun name value_ptr s =>
  Ok (all (puts "telemetry_dump_kafka_broker_host" value_ptr) s).

Definition cfg_key_telemetry_dump_kafka_broker_port : handler := fun name value_ptr s =>
  let value := atoi value_ptr in
  if (value <=? 0) || (65535 <? value) then Ok (ERR, s) else
  Ok (all (put "telemetry_dump_kafka_broker_port" value) s).

Definition cfg_key_telemetry_dump_kafka_topic : handler := fun name value_ptr s =>
  Ok (all (puts "telemetry_dump_kafka_topic" value_ptr) s).

Definition cfg_key_telemetry_dump_kafka_topic_rr : handler := fun name value_ptr s =>
  let value := 0 in
  let value := atoi value_ptr in
  if (value <? 0) then Ok (ERR, s) else
  Ok (all (put "telemetry_dump_kafka_topic_rr" value) s).

Definition cfg_key_telemetry_dump_kafka_partition : handler := fun name value_ptr s =>
  let value := atoi value_ptr in
  if (value <? (-1)) then Ok (ERR, s) else
  let value := if value =? 0 then FALSE_NONZERO else value in
  Ok (all (put "telemetry_dump_kafka_partition" value) s).

Definition cfg_key_telemetry_dump_kafka_partition_key : handler := fun name value_ptr s =>
  let value_len := strlen value_ptr in
  Ok (all (put "telemetry_dump_kafka_partition_keylen" value_len ∘ puts "telemetry_dump_kafka_partition_key" value_ptr) s).

Definition cfg_key_telemetry_dump_kafka_config_file : handler := fun name value_ptr s =>
  Ok (all (puts "telemetry_dump_kafka_config_file" value_ptr) s).

Definition cfg_key_rpki_roas_file : handler := fun name value_ptr s =>
  Ok (all (puts "rpki_roas_file" value_ptr) s).

Definition cfg_key_rpki_rtr_cache : handler := fun name value_ptr s =>
  Ok (all (puts "rpki_rtr_cache" value_ptr) s).

Definition cfg_key_rpki_rtr_cache_version : handler := fun name value_ptr s =>
  let value := atoi value_ptr in
  Ok (all (put "rpki_rtr_cache_version" value) s).

Definition cfg_key_rpki_rtr_cache_pipe_size : handler := fun name value_ptr s =>
  let value := strtoull 10 value_ptr in
  if (value =? 0) || ((2 ^ 31 - 1) <? value) then Ok (ERR, s) else
  Ok (all (put "rpki_rtr_cache_pipe_size" value) s).

Definition cfg_key_rpki_rtr_cache_ip_precedence : handler := fun name value_ptr s =>
  let value := atoi value_ptr in
  if (value <? 0) || (7 <? value) then Ok (ERR, s) else
  Ok (all (put "rpki_rtr_cache_ipprec" value) s).

Definition cfg_key_print_output_custom_lib : handler := fun name value_ptr s =>
  Ok (by_name name (puts "print_output_custom_lib" value_ptr) s).

Definition cfg_key_print_output_custom_cfg_file : handler := fun name value_ptr s =>
  Ok (by_name name (puts "print_output_custom_cfg_file" value_ptr) s).

Definition cfg_key_nfacctd_bmp_daemon_parse_proxy_header : handler := fun name value_ptr s =>
  let value := parse_truefalse value_ptr in
  if (value <? 0) then Ok (ERR, s) else
  Ok (all (put "bmp_daemon_parse_proxy_header" value) s).

Definition cfg_key_nfacctd_pre_processing_checks : handler := fun name value_ptr s =>
  let value := parse_truefalse value_ptr in
  if (value <? 0) then Ok (ERR, s) else
  Ok (all (put "nfacctd_pre_processing_checks" value) s).

End Handlers.

End CfgHandlers.
