(* ===== verification/Cfg.v ===== *)
(** * Reading the configuration (cfg.c)

    The text of a configuration is an array of lines, [cfg]; a line is the
    characters before its NUL. The dictionary of the keys, the evaluation of
    the lines, the syntax checks, the creation of the plugins, and the whole
    of [parse_configuration_file]. A fixed buffer that is overrun is the fault
    [OutOfBounds], an [exit(1)] is [Exited]. What the daemon logs about a line
    is kept as a [diag]; other messages are left out. *)

From S2P Require Import Prelude.
From S2P Require Import CfgData.
From S2P Require Import CfgHandlers.

Module Cfg.
Import CfgData.
Import CfgHandlers.

Section Cfg.
Context {ho : host}.

(** ** The keys *)

Definition dictionary_1 : list (string * option handler) := [
  ("debug", Some cfg_key_debug); ("debug_internal_msg", Some cfg_key_debug_internal_msg);
  ("dry_run", Some cfg_key_dry_run); ("syslog", Some cfg_key_syslog); ("logfile", Some cfg_key_logfile);
  ("log_stderr_tstamp", Some cfg_key_log_stderr_tstamp); ("pidfile", Some cfg_key_pidfile);
  ("daemonize", Some cfg_key_daemonize); ("aggregate", Some cfg_key_aggregate);
  ("aggregate_primitives", Some cfg_key_aggregate_primitives); ("cluster_name", Some cfg_key_cluster_name);
  ("cluster_id", Some cfg_key_cluster_id); ("redis_host", Some cfg_key_redis_host);
  ("redis_db", Some cfg_key_redis_db); ("snaplen", Some cfg_key_snaplen);
  ("propagate_signals", Some cfg_key_propagate_signals); ("aggregate_filter", Some cfg_key_aggregate_filter);
  ("aggregate_unknown_etype", Some cfg_key_aggregate_unknown_etype); ("dtls_path", Some cfg_key_dtls_path);
  ("writer_id_string", Some cfg_key_writer_id_string); ("promisc", Some cfg_key_promisc);
  ("pcap_filter", Some cfg_key_pcap_filter); ("pcap_protocol", Some cfg_key_pcap_protocol);
  ("pcap_savefile", Some cfg_key_pcap_savefile); ("pcap_savefile_wait", Some cfg_key_pcap_savefile_wait);
  ("pcap_savefile_delay", Some cfg_key_pcap_savefile_delay);
  ("pcap_savefile_replay", Some cfg_key_pcap_savefile_replay); ("pcap_interface", Some cfg_key_pcap_interface);
  ("pcap_interface_wait", Some cfg_key_pcap_interface_wait); ("pcap_direction", Some cfg_key_pcap_direction);
  ("pcap_ifindex", Some cfg_key_pcap_ifindex); ("pcap_interfaces_map", Some cfg_key_pcap_interfaces_map);
  ("pcap_arista_trailer_offset", Some cfg_key_pcap_arista_trailer_offset);
  ("pcap_arista_trailer_flag_value", Some cfg_key_pcap_arista_trailer_flag_value);
  ("core_proc_name", Some cfg_key_proc_name); ("proc_priority", Some cfg_key_proc_priority);
  ("pmacctd_as", Some cfg_key_nfacctd_as_new); ("uacctd_as", Some cfg_key_nfacctd_as_new);
  ("pmacctd_net", Some cfg_key_nfacctd_net); ("uacctd_net", Some cfg_key_nfacctd_net);
  ("use_ip_next_hop", Some cfg_key_use_ip_next_hop); ("thread_stack", Some cfg_key_thread_stack);
  ("plugins", None); ("plugin_pipe_size", Some cfg_key_plugin_pipe_size);
  ("plugin_buffer_size", Some cfg_key_plugin_buffer_size); ("plugin_pipe_zmq", Some cfg_key_plugin_pipe_zmq);
  ("plugin_pipe_zmq_retry", Some cfg_key_plugin_pipe_zmq_retry);
  ("plugin_pipe_zmq_profile", Some cfg_key_plugin_pipe_zmq_profile);
  ("plugin_pipe_zmq_hwm", Some cfg_key_plugin_pipe_zmq_hwm); ("plugin_exit_any", Some cfg_key_plugin_exit_any);
  ("files_umask", Some cfg_key_files_umask); ("files_uid", Some cfg_key_files_uid);
  ("files_gid", Some cfg_key_files_gid); ("networks_mask", Some cfg_key_networks_mask);
  ("networks_file", Some cfg_key_networks_file); ("networks_file_filter", Some cfg_key_networks_file_filter);
  ("networks_file_no_lpm", Some cfg_key_networks_file_no_lpm);
  ("networks_no_mask_if_zero", Some cfg_key_networks_no_mask_if_zero);
  ("networks_cache_entries", Some cfg_key_networks_cache_entries); ("ports_file", Some cfg_key_ports_file);
  ("protos_file", Some cfg_key_protos_file); ("tos_file", Some cfg_key_tos_file);
  ("timestamps_rfc3339", Some cfg_key_timestamps_rfc9557);
  ("timestamps_rfc9557", Some cfg_key_timestamps_rfc9557); ("timestamps_utc", Some cfg_key_timestamps_utc);
  ("timestamps_secs", Some cfg_key_timestamps_secs);
  ("timestamps_since_epoch", Some cfg_key_timestamps_since_epoch);
  ("tcpflags_encode_as_array", Some cfg_key_tcpflags_encode_as_array);
  ("bgp_comms_encode_as_array", Some cfg_key_bgp_comms_encode_as_array);
  ("bgp_comms_num", Some cfg_key_bgp_comms_num);
  ("as_path_encode_as_array", Some cfg_key_as_path_encode_as_array);
  ("fwd_status_encode_as_string", Some cfg_key_fwd_status_encode_as_string);
  ("tos_encode_as_dscp", Some cfg_key_tos_encode_as_dscp); ("imt_path", Some cfg_key_imt_path);
  ("imt_buckets", Some cfg_key_imt_buckets); ("imt_mem_pools_number", Some cfg_key_imt_mem_pools_number);
  ("imt_mem_pools_size", Some cfg_key_imt_mem_pools_size); ("sql_db", Some cfg_key_sql_db);
  ("sql_table", Some cfg_key_sql_table); ("sql_table_schema", Some cfg_key_sql_table_schema);
  ("sql_table_version", Some cfg_key_sql_table_version); ("sql_table_type", Some cfg_key_sql_table_type);
  ("sql_conn_ca_file", Some cfg_key_sql_conn_ca_file); ("sql_host", Some cfg_key_sql_host);
  ("sql_port", Some cfg_key_sql_port); ("sql_data", Some cfg_key_sql_data); ("sql_user", Some cfg_key_sql_user);
  ("sql_passwd", Some cfg_key_sql_passwd); ("sql_refresh_time", Some cfg_key_sql_refresh_time);
  ("sql_startup_delay", Some cfg_key_sql_startup_delay);
  ("sql_optimize_clauses", Some cfg_key_sql_optimize_clauses); ("sql_history", Some cfg_key_sql_history);
  ("sql_history_offset", Some cfg_key_sql_history_offset);
  ("sql_history_roundoff", Some cfg_key_sql_history_roundoff);
  ("sql_backup_host", Some cfg_key_sql_recovery_backup_host);
  ("sql_recovery_backup_host", Some cfg_key_sql_recovery_backup_host);
  ("sql_delimiter", Some cfg_key_sql_delimiter); ("sql_max_writers", Some cfg_key_dump_max_writers);
  ("sql_trigger_exec", Some cfg_key_sql_trigger_exec); ("sql_trigger_time", Some cfg_key_sql_trigger_time);
  ("sql_cache_entries", Some cfg_key_sql_cache_entries);
  ("sql_dont_try_update", Some cfg_key_sql_dont_try_update); ("sql_preprocess", Some cfg_key_sql_preprocess);
  ("sql_preprocess_type", Some cfg_key_sql_preprocess_type);
  ("sql_multi_values", Some cfg_key_sql_multi_values); ("sql_locking_style", Some cfg_key_sql_locking_style);
  ("sql_use_copy", Some cfg_key_sql_use_copy); ("sql_num_protos", Some cfg_key_num_protos);
  ("sql_num_hosts", Some cfg_key_num_hosts); ("print_refresh_time", Some cfg_key_sql_refresh_time);
  ("print_cache_entries", Some cfg_key_print_cache_entries); ("print_markers", Some cfg_key_print_markers);
  ("print_output", Some cfg_key_print_output); ("print_output_file", Some cfg_key_print_output_file);
  ("print_output_file_append", Some cfg_key_print_output_file_append);
  ("print_output_lock_file", Some cfg_key_print_output_lock_file);
  ("print_output_separator", Some cfg_key_print_output_separator);
  ("print_output_custom_lib", Some cfg_key_print_output_custom_lib);
  ("print_output_custom_cfg_file", Some cfg_key_print_output_custom_cfg_file);
  ("print_write_empty_file", Some cfg_key_print_write_empty_file);
  ("print_latest_file", Some cfg_key_print_latest_file); ("print_num_protos", Some cfg_key_num_protos);
  ("print_trigger_exec", Some cfg_key_sql_trigger_exec); ("print_history", Some cfg_key_sql_history);
  ("print_history_offset", Some cfg_key_sql_history_offset);
  ("print_history_roundoff", Some cfg_key_sql_history_roundoff);
  ("print_max_writers", Some cfg_key_dump_max_writers); ("print_preprocess", Some cfg_key_sql_preprocess);
  ("print_preprocess_type", Some cfg_key_sql_preprocess_type);
  ("print_startup_delay", Some cfg_key_sql_startup_delay); ("avro_buffer_size", Some cfg_key_avro_buffer_size);
  ("avro_schema_output_file", Some cfg_key_avro_schema_file);
  ("avro_schema_file", Some cfg_key_avro_schema_file); ("amqp_refresh_time", Some cfg_key_sql_refresh_time);
  ("amqp_history", Some cfg_key_sql_history); ("amqp_history_offset", Some cfg_key_sql_history_offset);
  ("amqp_history_roundoff", Some cfg_key_sql_history_roundoff);
  ("amqp_time_roundoff", Some cfg_key_sql_history_roundoff); ("amqp_host", Some cfg_key_sql_host);
  ("amqp_user", Some cfg_key_sql_user)].

Definition dictionary_2 : list (string * option handler) := [
  ("amqp_passwd", Some cfg_key_sql_passwd); ("amqp_exchange", Some cfg_key_sql_db);
  ("amqp_exchange_type", Some cfg_key_amqp_exchange_type); ("amqp_routing_key", Some cfg_key_sql_table);
  ("amqp_routing_key_rr", Some cfg_key_amqp_routing_key_rr);
  ("amqp_persistent_msg", Some cfg_key_amqp_persistent_msg); ("amqp_frame_max", Some cfg_key_amqp_frame_max);
  ("amqp_cache_entries", Some cfg_key_print_cache_entries); ("amqp_max_writers", Some cfg_key_dump_max_writers);
  ("amqp_preprocess", Some cfg_key_sql_preprocess); ("amqp_preprocess_type", Some cfg_key_sql_preprocess_type);
  ("amqp_startup_delay", Some cfg_key_sql_startup_delay);
  ("amqp_heartbeat_interval", Some cfg_key_amqp_heartbeat_interval);
  ("amqp_multi_values", Some cfg_key_sql_multi_values); ("amqp_num_protos", Some cfg_key_num_protos);
  ("amqp_vhost", Some cfg_key_amqp_vhost); ("amqp_markers", Some cfg_key_print_markers);
  ("amqp_output", Some cfg_key_message_broker_output);
  ("amqp_avro_schema_routing_key", Some cfg_key_amqp_avro_schema_routing_key);
  ("amqp_avro_schema_refresh_time", Some cfg_key_amqp_avro_schema_refresh_time);
  ("amqp_trigger_exec", Some cfg_key_sql_trigger_exec); ("kafka_refresh_time", Some cfg_key_sql_refresh_time);
  ("kafka_history", Some cfg_key_sql_history); ("kafka_history_offset", Some cfg_key_sql_history_offset);
  ("kafka_history_roundoff", Some cfg_key_sql_history_roundoff); ("kafka_broker_host", Some cfg_key_sql_host);
  ("kafka_broker_port", Some cfg_key_kafka_broker_port); ("kafka_topic", Some cfg_key_sql_table);
  ("kafka_topic_rr", Some cfg_key_amqp_routing_key_rr); ("kafka_partition", Some cfg_key_kafka_partition);
  ("kafka_partition_dynamic", Some cfg_key_kafka_partition_dynamic);
  ("kafka_partition_key", Some cfg_key_kafka_partition_key);
  ("kafka_cache_entries", Some cfg_key_print_cache_entries);
  ("kafka_max_writers", Some cfg_key_dump_max_writers); ("kafka_preprocess", Some cfg_key_sql_preprocess);
  ("kafka_preprocess_type", Some cfg_key_sql_preprocess_type);
  ("kafka_startup_delay", Some cfg_key_sql_startup_delay);
  ("kafka_multi_values", Some cfg_key_sql_multi_values); ("kafka_num_protos", Some cfg_key_num_protos);
  ("kafka_markers", Some cfg_key_print_markers); ("kafka_output", Some cfg_key_message_broker_output);
  ("kafka_avro_schema_registry", Some cfg_key_kafka_avro_schema_registry);
  ("kafka_config_file", Some cfg_key_kafka_config_file); ("kafka_trigger_exec", Some cfg_key_sql_trigger_exec);
  ("nfacctd_proc_name", Some cfg_key_proc_name); ("nfacctd_port", Some cfg_key_nfacctd_port);
  ("nfacctd_ip", Some cfg_key_nfacctd_ip); ("nfacctd_interface", Some cfg_key_nfacctd_interface);
  ("nfacctd_ipv6_only", Some cfg_key_nfacctd_ipv6_only);
  ("nfacctd_rp_ebpf_prog", Some cfg_key_nfacctd_rp_ebpf_prog);
  ("nfacctd_allow_file", Some cfg_key_nfacctd_allow_file); ("nfacctd_nonroot", Some cfg_key_pmacctd_nonroot);
  ("nfacctd_time_secs", Some cfg_key_nfacctd_time_secs); ("nfacctd_time_new", Some cfg_key_nfacctd_time_new);
  ("nfacctd_as_new", Some cfg_key_nfacctd_as_new); ("nfacctd_as", Some cfg_key_nfacctd_as_new);
  ("nfacctd_net", Some cfg_key_nfacctd_net); ("nfacctd_mcast_groups", Some cfg_key_nfacctd_mcast_groups);
  ("nfacctd_peer_as", Some cfg_key_nfprobe_peer_as); ("nfacctd_pipe_size", Some cfg_key_nfacctd_pipe_size);
  ("nfacctd_pro_rating", Some cfg_key_nfacctd_pro_rating);
  ("nfacctd_templates_file", Some cfg_key_nfacctd_templates_file);
  ("nfacctd_templates_receiver", Some cfg_key_nfacctd_templates_receiver);
  ("nfacctd_templates_port", Some cfg_key_nfacctd_templates_port);
  ("nfacctd_account_options", Some cfg_key_nfacctd_account_options);
  ("nfacctd_stitching", Some cfg_key_nfacctd_stitching);
  ("nfacctd_ext_sampling_rate", Some cfg_key_pmacctd_ext_sampling_rate);
  ("nfacctd_renormalize", Some cfg_key_sfacctd_renormalize);
  ("nfacctd_disable_sanity_checks", Some cfg_key_nfacctd_disable_sanity_checks);
  ("nfacctd_disable_opt_scope_check", Some cfg_key_nfacctd_disable_opt_scope_check);
  ("nfacctd_ignore_exporter_address", Some cfg_key_nfacctd_ignore_exporter_address);
  ("nfacctd_kafka_broker_host", Some cfg_key_nfacctd_kafka_broker_host);
  ("nfacctd_kafka_broker_port", Some cfg_key_nfacctd_kafka_broker_port);
  ("nfacctd_kafka_topic", Some cfg_key_nfacctd_kafka_topic);
  ("nfacctd_kafka_config_file", Some cfg_key_nfacctd_kafka_config_file);
  ("nfacctd_zmq_address", Some cfg_key_nfacctd_zmq_address);
  ("nfacctd_dtls_port", Some cfg_key_nfacctd_dtls_port);
  ("nfacctd_pre_processing_checks", Some cfg_key_nfacctd_pre_processing_checks);
  ("mpls_label_stack_encode_as_array", Some cfg_key_mpls_label_stack_encode_as_array);
  ("pmacctd_proc_name", Some cfg_key_proc_name);
  ("pmacctd_force_frag_handling", Some cfg_key_pmacctd_force_frag_handling);
  ("pmacctd_frag_buffer_size", Some cfg_key_pmacctd_frag_buffer_size);
  ("pmacctd_flow_buffer_size", Some cfg_key_pmacctd_flow_buffer_size);
  ("pmacctd_flow_buffer_buckets", Some cfg_key_pmacctd_flow_buffer_buckets);
  ("pmacctd_conntrack_buffer_size", Some cfg_key_pmacctd_conntrack_buffer_size);
  ("pmacctd_flow_lifetime", Some cfg_key_pmacctd_flow_lifetime);
  ("pmacctd_flow_tcp_lifetime", Some cfg_key_pmacctd_flow_tcp_lifetime);
  ("pmacctd_ext_sampling_rate", Some cfg_key_pmacctd_ext_sampling_rate);
  ("pmacctd_pipe_size", Some cfg_key_nfacctd_pipe_size); ("pmacctd_stitching", Some cfg_key_nfacctd_stitching);
  ("pmacctd_renormalize", Some cfg_key_sfacctd_renormalize); ("pmacctd_nonroot", Some cfg_key_pmacctd_nonroot);
  ("pmacctd_time_new", Some cfg_key_nfacctd_time_new); ("uacctd_proc_name", Some cfg_key_proc_name);
  ("uacctd_force_frag_handling", Some cfg_key_pmacctd_force_frag_handling);
  ("uacctd_frag_buffer_size", Some cfg_key_pmacctd_frag_buffer_size);
  ("uacctd_flow_buffer_size", Some cfg_key_pmacctd_flow_buffer_size);
  ("uacctd_flow_buffer_buckets", Some cfg_key_pmacctd_flow_buffer_buckets);
  ("uacctd_conntrack_buffer_size", Some cfg_key_pmacctd_conntrack_buffer_size);
  ("uacctd_flow_lifetime", Some cfg_key_pmacctd_flow_lifetime);
  ("uacctd_flow_tcp_lifetime", Some cfg_key_pmacctd_flow_tcp_lifetime);
  ("uacctd_ext_sampling_rate", Some cfg_key_pmacctd_ext_sampling_rate);
  ("uacctd_stitching", Some cfg_key_nfacctd_stitching);
  ("uacctd_renormalize", Some cfg_key_sfacctd_renormalize); ("uacctd_direction", Some cfg_key_pcap_direction);
  ("telemetry_daemon", Some cfg_key_telemetry_daemon);
  ("telemetry_daemon_port_tcp", Some cfg_key_telemetry_port_tcp);
  ("telemetry_daemon_port_udp", Some cfg_key_telemetry_port_udp);
  ("telemetry_daemon_ip", Some cfg_key_telemetry_ip);
  ("telemetry_daemon_interface", Some cfg_key_telemetry_interface);
  ("telemetry_daemon_ipv6_only", Some cfg_key_telemetry_ipv6_only);
  ("telemetry_daemon_udp_notif_port", Some cfg_key_telemetry_udp_notif_port);
  ("telemetry_daemon_udp_notif_ip", Some cfg_key_telemetry_udp_notif_ip);
  ("telemetry_daemon_udp_notif_interface", Some cfg_key_telemetry_udp_notif_interface);
  ("telemetry_daemon_udp_notif_ipv6_only", Some cfg_key_telemetry_udp_notif_ipv6_only);
  ("telemetry_daemon_udp_notif_nmsgs", Some cfg_key_telemetry_udp_notif_nmsgs);
  ("telemetry_daemon_udp_notif_rp_ebpf_prog", Some cfg_key_telemetry_udp_notif_rp_ebpf_prog);
  ("telemetry_daemon_grpc_collector_conf", Some cfg_key_telemetry_grpc_collector_conf);
  ("telemetry_daemon_decoder", Some cfg_key_telemetry_decoder);
  ("telemetry_daemon_max_peers", Some cfg_key_telemetry_max_peers);
  ("telemetry_daemon_peer_timeout", Some cfg_key_telemetry_peer_timeout);
  ("telemetry_daemon_tag_map", Some cfg_key_telemetry_tag_map);
  ("telemetry_daemon_allow_file", Some cfg_key_telemetry_allow_file);
  ("telemetry_daemon_pipe_size", Some cfg_key_telemetry_pipe_size);
  ("telemetry_daemon_ipprec", Some cfg_key_telemetry_ip_precedence);
  ("telemetry_daemon_msglog_output", Some cfg_key_telemetry_msglog_output);
  ("telemetry_daemon_msglog_file", Some cfg_key_telemetry_msglog_file);
  ("telemetry_daemon_msglog_amqp_host", Some cfg_key_telemetry_msglog_amqp_host);
  ("telemetry_daemon_msglog_amqp_vhost", Some cfg_key_telemetry_msglog_amqp_vhost);
  ("telemetry_daemon_msglog_amqp_user", Some cfg_key_telemetry_msglog_amqp_user);
  ("telemetry_daemon_msglog_amqp_passwd", Some cfg_key_telemetry_msglog_amqp_passwd);
  ("telemetry_daemon_msglog_amqp_exchange", Some cfg_key_telemetry_msglog_amqp_exchange);
  ("telemetry_daemon_msglog_amqp_exchange_type", Some cfg_key_telemetry_msglog_amqp_exchange_type);
  ("telemetry_daemon_msglog_amqp_routing_key", Some cfg_key_telemetry_msglog_amqp_routing_key);
  ("telemetry_daemon_msglog_amqp_routing_key_rr", Some cfg_key_telemetry_msglog_amqp_routing_key_rr);
  ("telemetry_daemon_msglog_amqp_persistent_msg", Some cfg_key_telemetry_msglog_amqp_persistent_msg);
  ("telemetry_daemon_msglog_amqp_frame_max", Some cfg_key_telemetry_msglog_amqp_frame_max);
  ("telemetry_daemon_msglog_amqp_heartbeat_interval", Some cfg_key_telemetry_msglog_amqp_heartbeat_interval);
  ("telemetry_daemon_msglog_amqp_retry", Some cfg_key_telemetry_msglog_amqp_retry);
  ("telemetry_daemon_msglog_kafka_broker_host", Some cfg_key_telemetry_msglog_kafka_broker_host)].

Definition dictionary_3 : list (string * option handler) := [
  ("telemetry_daemon_msglog_kafka_broker_port", Some cfg_key_telemetry_msglog_kafka_broker_port);
  ("telemetry_daemon_msglog_kafka_topic", Some cfg_key_telemetry_msglog_kafka_topic);
  ("telemetry_daemon_msglog_kafka_topic_rr", Some cfg_key_telemetry_msglog_kafka_topic_rr);
  ("telemetry_daemon_msglog_kafka_partition", Some cfg_key_telemetry_msglog_kafka_partition);
  ("telemetry_daemon_msglog_kafka_partition_key", Some cfg_key_telemetry_msglog_kafka_partition_key);
  ("telemetry_daemon_msglog_kafka_retry", Some cfg_key_telemetry_msglog_kafka_retry);
  ("telemetry_daemon_msglog_kafka_config_file", Some cfg_key_telemetry_msglog_kafka_config_file);
  ("telemetry_dump_output", Some cfg_key_telemetry_dump_output);
  ("telemetry_dump_file", Some cfg_key_telemetry_dump_file);
  ("telemetry_dump_latest_file", Some cfg_key_telemetry_dump_latest_file);
  ("telemetry_dump_refresh_time", Some cfg_key_telemetry_dump_refresh_time);
  ("telemetry_dump_time_slots", Some cfg_key_telemetry_dump_time_slots);
  ("telemetry_dump_amqp_host", Some cfg_key_telemetry_dump_amqp_host);
  ("telemetry_dump_amqp_vhost", Some cfg_key_telemetry_dump_amqp_vhost);
  ("telemetry_dump_amqp_user", Some cfg_key_telemetry_dump_amqp_user);
  ("telemetry_dump_amqp_passwd", Some cfg_key_telemetry_dump_amqp_passwd);
  ("telemetry_dump_amqp_exchange", Some cfg_key_telemetry_dump_amqp_exchange);
  ("telemetry_dump_amqp_exchange_type", Some cfg_key_telemetry_dump_amqp_exchange_type);
  ("telemetry_dump_amqp_routing_key", Some cfg_key_telemetry_dump_amqp_routing_key);
  ("telemetry_dump_amqp_routing_key_rr", Some cfg_key_telemetry_dump_amqp_routing_key_rr);
  ("telemetry_dump_amqp_persistent_msg", Some cfg_key_telemetry_dump_amqp_persistent_msg);
  ("telemetry_dump_amqp_frame_max", Some cfg_key_telemetry_dump_amqp_frame_max);
  ("telemetry_dump_amqp_heartbeat_interval", Some cfg_key_telemetry_dump_amqp_heartbeat_interval);
  ("telemetry_dump_kafka_broker_host", Some cfg_key_telemetry_dump_kafka_broker_host);
  ("telemetry_dump_kafka_broker_port", Some cfg_key_telemetry_dump_kafka_broker_port);
  ("telemetry_dump_kafka_topic", Some cfg_key_telemetry_dump_kafka_topic);
  ("telemetry_dump_kafka_topic_rr", Some cfg_key_telemetry_dump_kafka_topic_rr);
  ("telemetry_dump_kafka_partition", Some cfg_key_telemetry_dump_kafka_partition);
  ("telemetry_dump_kafka_partition_key", Some cfg_key_telemetry_dump_kafka_partition_key);
  ("telemetry_dump_kafka_config_file", Some cfg_key_telemetry_dump_kafka_config_file);
  ("telemetry_dump_workers", Some cfg_key_telemetry_dump_workers); ("maps_refresh", Some cfg_key_maps_refresh);
  ("maps_index", Some cfg_key_maps_index); ("maps_entries", Some cfg_key_maps_entries);
  ("maps_row_len", Some cfg_key_maps_row_len); ("pre_tag_map", Some cfg_key_pre_tag_map);
  ("pre_tag_map_dont_recirculate", Some cfg_key_pre_tag_map_dont_recirculate);
  ("pre_tag_filter", Some cfg_key_pre_tag_filter); ("pre_tag2_filter", Some cfg_key_pre_tag2_filter);
  ("pre_tag_label_filter", Some cfg_key_pre_tag_label_filter);
  ("pre_tag_label_encode_as_map", Some cfg_key_pre_tag_label_encode_as_map);
  ("post_tag", Some cfg_key_post_tag); ("post_tag2", Some cfg_key_post_tag2);
  ("sampling_rate", Some cfg_key_sampling_rate); ("sampling_map", Some cfg_key_sampling_map);
  ("sfacctd_proc_name", Some cfg_key_proc_name); ("sfacctd_port", Some cfg_key_nfacctd_port);
  ("sfacctd_ip", Some cfg_key_nfacctd_ip); ("sfacctd_interface", Some cfg_key_nfacctd_interface);
  ("sfacctd_rp_ebpf_prog", Some cfg_key_nfacctd_rp_ebpf_prog);
  ("sfacctd_allow_file", Some cfg_key_nfacctd_allow_file); ("sfacctd_as_new", Some cfg_key_nfacctd_as_new);
  ("sfacctd_as", Some cfg_key_nfacctd_as_new); ("sfacctd_net", Some cfg_key_nfacctd_net);
  ("sfacctd_peer_as", Some cfg_key_nfprobe_peer_as); ("sfacctd_nonroot", Some cfg_key_pmacctd_nonroot);
  ("sfacctd_time_new", Some cfg_key_nfacctd_time_new); ("sfacctd_pipe_size", Some cfg_key_nfacctd_pipe_size);
  ("sfacctd_renormalize", Some cfg_key_sfacctd_renormalize);
  ("sfacctd_disable_sanity_checks", Some cfg_key_nfacctd_disable_sanity_checks);
  ("sfacctd_mcast_groups", Some cfg_key_nfacctd_mcast_groups);
  ("sfacctd_stitching", Some cfg_key_nfacctd_stitching);
  ("sfacctd_ext_sampling_rate", Some cfg_key_pmacctd_ext_sampling_rate);
  ("sfacctd_counter_output", Some cfg_key_sfacctd_counter_output);
  ("sfacctd_counter_file", Some cfg_key_sfacctd_counter_file);
  ("sfacctd_counter_amqp_host", Some cfg_key_sfacctd_counter_amqp_host);
  ("sfacctd_counter_amqp_vhost", Some cfg_key_sfacctd_counter_amqp_vhost);
  ("sfacctd_counter_amqp_user", Some cfg_key_sfacctd_counter_amqp_user);
  ("sfacctd_counter_amqp_passwd", Some cfg_key_sfacctd_counter_amqp_passwd);
  ("sfacctd_counter_amqp_exchange", Some cfg_key_sfacctd_counter_amqp_exchange);
  ("sfacctd_counter_amqp_exchange_type", Some cfg_key_sfacctd_counter_amqp_exchange_type);
  ("sfacctd_counter_amqp_routing_key", Some cfg_key_sfacctd_counter_amqp_routing_key);
  ("sfacctd_counter_amqp_persistent_msg", Some cfg_key_sfacctd_counter_amqp_persistent_msg);
  ("sfacctd_counter_amqp_frame_max", Some cfg_key_sfacctd_counter_amqp_frame_max);
  ("sfacctd_counter_amqp_heartbeat_interval", Some cfg_key_sfacctd_counter_amqp_heartbeat_interval);
  ("sfacctd_counter_amqp_retry", Some cfg_key_sfacctd_counter_amqp_retry);
  ("sfacctd_counter_kafka_broker_host", Some cfg_key_sfacctd_counter_kafka_broker_host);
  ("sfacctd_counter_kafka_broker_port", Some cfg_key_sfacctd_counter_kafka_broker_port);
  ("sfacctd_counter_kafka_topic", Some cfg_key_sfacctd_counter_kafka_topic);
  ("sfacctd_counter_kafka_partition", Some cfg_key_sfacctd_counter_kafka_partition);
  ("sfacctd_counter_kafka_partition_key", Some cfg_key_sfacctd_counter_kafka_partition_key);
  ("sfacctd_counter_kafka_retry", Some cfg_key_sfacctd_counter_kafka_retry);
  ("sfacctd_counter_kafka_config_file", Some cfg_key_sfacctd_counter_kafka_config_file);
  ("sfacctd_ignore_exporter_address", Some cfg_key_nfacctd_ignore_exporter_address);
  ("sfacctd_kafka_broker_host", Some cfg_key_nfacctd_kafka_broker_host);
  ("sfacctd_kafka_broker_port", Some cfg_key_nfacctd_kafka_broker_port);
  ("sfacctd_kafka_topic", Some cfg_key_nfacctd_kafka_topic);
  ("sfacctd_kafka_config_file", Some cfg_key_nfacctd_kafka_config_file);
  ("sfacctd_zmq_address", Some cfg_key_nfacctd_zmq_address)].

Definition dictionary_4 : list (string * option handler) := [
  ("classifier_num_roots", Some cfg_key_classifier_ndpi_num_roots);
  ("classifier_max_flows", Some cfg_key_classifier_ndpi_max_flows);
  ("classifier_proto_guess", Some cfg_key_classifier_ndpi_proto_guess);
  ("classifier_idle_scan_period", Some cfg_key_classifier_ndpi_idle_scan_period);
  ("classifier_idle_max_time", Some cfg_key_classifier_ndpi_idle_max_time);
  ("classifier_idle_scan_budget", Some cfg_key_classifier_ndpi_idle_scan_budget);
  ("classifier_giveup_proto_tcp", Some cfg_key_classifier_ndpi_giveup_proto_tcp);
  ("classifier_giveup_proto_udp", Some cfg_key_classifier_ndpi_giveup_proto_udp);
  ("classifier_giveup_proto_other", Some cfg_key_classifier_ndpi_giveup_proto_other)].

Definition dictionary_5 : list (string * option handler) := [
  ("nfprobe_timeouts", Some cfg_key_nfprobe_timeouts); ("nfprobe_hoplimit", Some cfg_key_nfprobe_hoplimit);
  ("nfprobe_maxflows", Some cfg_key_nfprobe_maxflows); ("nfprobe_receiver", Some cfg_key_nfprobe_receiver);
  ("nfprobe_dtls", Some cfg_key_nfprobe_dtls);
  ("nfprobe_dtls_verify_cert", Some cfg_key_nfprobe_dtls_verify_cert);
  ("nfprobe_engine", Some cfg_key_nfprobe_engine); ("nfprobe_version", Some cfg_key_nfprobe_version);
  ("nfprobe_peer_as", Some cfg_key_nfprobe_peer_as); ("nfprobe_source_ip", Some cfg_key_nfprobe_source_ip);
  ("nfprobe_ipprec", Some cfg_key_nfprobe_ip_precedence); ("nfprobe_direction", Some cfg_key_nfprobe_direction);
  ("nfprobe_ifindex", Some cfg_key_nfprobe_ifindex); ("nfprobe_dont_cache", Some cfg_key_nfprobe_dont_cache);
  ("nfprobe_ifindex_override", Some cfg_key_nfprobe_ifindex_override);
  ("nfprobe_tstamp_usec", Some cfg_key_nfprobe_tstamp_usec);
  ("sfprobe_receiver", Some cfg_key_sfprobe_receiver); ("sfprobe_agentip", Some cfg_key_sfprobe_agentip);
  ("sfprobe_agentsubid", Some cfg_key_sfprobe_agentsubid); ("sfprobe_peer_as", Some cfg_key_nfprobe_peer_as);
  ("sfprobe_source_ip", Some cfg_key_nfprobe_source_ip); ("sfprobe_ipprec", Some cfg_key_nfprobe_ip_precedence);
  ("sfprobe_direction", Some cfg_key_nfprobe_direction); ("sfprobe_ifindex", Some cfg_key_nfprobe_ifindex);
  ("sfprobe_ifspeed", Some cfg_key_sfprobe_ifspeed);
  ("sfprobe_ifindex_override", Some cfg_key_nfprobe_ifindex_override);
  ("tee_receivers", Some cfg_key_tee_receivers); ("tee_source_ip", Some cfg_key_nfprobe_source_ip);
  ("tee_transparent", Some cfg_key_tee_transparent); ("tee_max_receivers", Some cfg_key_tee_max_receivers);
  ("tee_max_receiver_pools", Some cfg_key_tee_max_receiver_pools);
  ("tee_ipprec", Some cfg_key_nfprobe_ip_precedence); ("tee_pipe_size", Some cfg_key_tee_pipe_size);
  ("tee_kafka_config_file", Some cfg_key_tee_kafka_config_file); ("bgp_daemon", Some cfg_key_bgp_daemon);
  ("bgp_daemon_ip", Some cfg_key_bgp_daemon_ip); ("bgp_daemon_interface", Some cfg_key_bgp_daemon_interface);
  ("bgp_daemon_ipv6_only", Some cfg_key_bgp_daemon_ipv6_only); ("bgp_daemon_id", Some cfg_key_bgp_daemon_id);
  ("bgp_daemon_as", Some cfg_key_bgp_daemon_as); ("bgp_daemon_port", Some cfg_key_bgp_daemon_port);
  ("bgp_daemon_ha", Some cfg_key_bgp_bmp_daemon_ha);
  ("bgp_daemon_ha_cluster_name", Some cfg_key_bgp_bmp_daemon_ha_cluster_name);
  ("bgp_daemon_ha_cluster_id", Some cfg_key_bgp_bmp_daemon_ha_cluster_id);
  ("bgp_daemon_ha_queue_message_timeout", Some cfg_key_bgp_bmp_daemon_ha_queue_message_timeout);
  ("bgp_daemon_ha_queue_max_size", Some cfg_key_bgp_bmp_daemon_ha_queue_max_size);
  ("bgp_daemon_rp_ebpf_prog", Some cfg_key_bgp_daemon_rp_ebpf_prog);
  ("bgp_daemon_add_path_ignore", Some cfg_key_bgp_daemon_add_path_ignore);
  ("bgp_daemon_tag_map", Some cfg_key_bgp_daemon_tag_map);
  ("bgp_daemon_msglog_label_filter", Some cfg_key_bgp_daemon_msglog_label_filter);
  ("bgp_daemon_pipe_size", Some cfg_key_bgp_daemon_pipe_size);
  ("bgp_daemon_max_peers", Some cfg_key_bgp_daemon_max_peers);
  ("bgp_daemon_msglog_output", Some cfg_key_bgp_daemon_msglog_output);
  ("bgp_daemon_msglog_file", Some cfg_key_bgp_daemon_msglog_file);
  ("bgp_daemon_msglog_avro_schema_file", Some cfg_key_bgp_daemon_msglog_avro_schema_file);
  ("bgp_daemon_msglog_amqp_host", Some cfg_key_bgp_daemon_msglog_amqp_host);
  ("bgp_daemon_msglog_amqp_vhost", Some cfg_key_bgp_daemon_msglog_amqp_vhost);
  ("bgp_daemon_msglog_amqp_user", Some cfg_key_bgp_daemon_msglog_amqp_user);
  ("bgp_daemon_msglog_amqp_passwd", Some cfg_key_bgp_daemon_msglog_amqp_passwd);
  ("bgp_daemon_msglog_amqp_exchange", Some cfg_key_bgp_daemon_msglog_amqp_exchange);
  ("bgp_daemon_msglog_amqp_exchange_type", Some cfg_key_bgp_daemon_msglog_amqp_exchange_type);
  ("bgp_daemon_msglog_amqp_routing_key", Some cfg_key_bgp_daemon_msglog_amqp_routing_key);
  ("bgp_daemon_msglog_amqp_routing_key_rr", Some cfg_key_bgp_daemon_msglog_amqp_routing_key_rr);
  ("bgp_daemon_msglog_amqp_persistent_msg", Some cfg_key_bgp_daemon_msglog_amqp_persistent_msg);
  ("bgp_daemon_msglog_amqp_frame_max", Some cfg_key_bgp_daemon_msglog_amqp_frame_max);
  ("bgp_daemon_msglog_amqp_heartbeat_interval", Some cfg_key_bgp_daemon_msglog_amqp_heartbeat_interval);
  ("bgp_daemon_msglog_amqp_retry", Some cfg_key_bgp_daemon_msglog_amqp_retry);
  ("bgp_daemon_msglog_kafka_broker_host", Some cfg_key_bgp_daemon_msglog_kafka_broker_host);
  ("bgp_daemon_msglog_kafka_broker_port", Some cfg_key_bgp_daemon_msglog_kafka_broker_port);
  ("bgp_daemon_msglog_kafka_topic", Some cfg_key_bgp_daemon_msglog_kafka_topic);
  ("bgp_daemon_msglog_kafka_topic_rr", Some cfg_key_bgp_daemon_msglog_kafka_topic_rr);
  ("bgp_daemon_msglog_kafka_partition", Some cfg_key_bgp_daemon_msglog_kafka_partition);
  ("bgp_daemon_msglog_kafka_partition_key", Some cfg_key_bgp_daemon_msglog_kafka_partition_key);
  ("bgp_daemon_msglog_kafka_retry", Some cfg_key_bgp_daemon_msglog_kafka_retry);
  ("bgp_daemon_msglog_kafka_config_file", Some cfg_key_bgp_daemon_msglog_kafka_config_file);
  ("bgp_daemon_msglog_kafka_avro_schema_registry", Some cfg_key_bgp_daemon_msglog_kafka_avro_schema_registry);
  ("bgp_daemon_allow_file", Some cfg_key_bgp_daemon_allow_file);
  ("bgp_daemon_ipprec", Some cfg_key_bgp_daemon_ip_precedence);
  ("bgp_daemon_md5_file", Some cfg_key_bgp_daemon_md5_file);
  ("bgp_daemon_batch", Some cfg_key_bgp_daemon_batch);
  ("bgp_daemon_batch_interval", Some cfg_key_bgp_daemon_batch_interval);
  ("bgp_aspath_radius", Some cfg_key_bgp_daemon_aspath_radius);
  ("bgp_stdcomm_pattern", Some cfg_key_bgp_daemon_stdcomm_pattern);
  ("bgp_extcomm_pattern", Some cfg_key_bgp_daemon_extcomm_pattern);
  ("bgp_lrgcomm_pattern", Some cfg_key_bgp_daemon_lrgcomm_pattern);
  ("bgp_stdcomm_pattern_to_asn", Some cfg_key_bgp_daemon_stdcomm_pattern_to_asn);
  ("bgp_lrgcomm_pattern_to_asn", Some cfg_key_bgp_daemon_lrgcomm_pattern_to_asn);
  ("bgp_blackhole_stdcomm_list", Some cfg_key_bgp_blackhole_stdcomm_list);
  ("bgp_peer_as_skip_subas", Some cfg_key_bgp_daemon_peer_as_skip_subas);
  ("bgp_peer_src_as_map", Some cfg_key_bgp_daemon_peer_src_as_map);
  ("bgp_src_local_pref_map", Some cfg_key_bgp_daemon_src_local_pref_map);
  ("bgp_src_med_map", Some cfg_key_bgp_daemon_src_med_map);
  ("bgp_peer_src_as_type", Some cfg_key_bgp_daemon_peer_src_as_type);
  ("bgp_src_std_comm_type", Some cfg_key_bgp_daemon_src_std_comm_type);
  ("bgp_src_ext_comm_type", Some cfg_key_bgp_daemon_src_ext_comm_type);
  ("bgp_src_lrg_comm_type", Some cfg_key_bgp_daemon_src_lrg_comm_type);
  ("bgp_src_as_path_type", Some cfg_key_bgp_daemon_src_as_path_type);
  ("bgp_src_local_pref_type", Some cfg_key_bgp_daemon_src_local_pref_type);
  ("bgp_src_med_type", Some cfg_key_bgp_daemon_src_med_type);
  ("bgp_src_roa_type", Some cfg_key_bgp_daemon_src_roa_type);
  ("bgp_agent_map", Some cfg_key_bgp_daemon_to_xflow_agent_map);
  ("bgp_follow_default", Some cfg_key_bgp_daemon_follow_default);
  ("bgp_follow_nexthop", Some cfg_key_bgp_daemon_follow_nexthop);
  ("bgp_follow_nexthop_external", Some cfg_key_bgp_daemon_follow_nexthop_external);
  ("bgp_disable_router_id_check", Some cfg_key_bgp_daemon_disable_router_id_check);
  ("bgp_neighbors_file", Some cfg_key_bgp_daemon_neighbors_file);
  ("bgp_table_peer_buckets", Some cfg_key_bgp_daemon_table_peer_buckets);
  ("bgp_table_per_peer_buckets", Some cfg_key_bgp_daemon_table_per_peer_buckets);
  ("bgp_table_attr_hash_buckets", Some cfg_key_bgp_daemon_table_attr_hash_buckets);
  ("bgp_table_per_peer_hash", Some cfg_key_bgp_daemon_table_per_peer_hash);
  ("bgp_table_dump_output", Some cfg_key_bgp_daemon_table_dump_output);
  ("bgp_table_dump_file", Some cfg_key_bgp_daemon_table_dump_file);
  ("bgp_table_dump_latest_file", Some cfg_key_bgp_daemon_table_dump_latest_file);
  ("bgp_table_dump_avro_schema_file", Some cfg_key_bgp_daemon_table_dump_avro_schema_file);
  ("bgp_table_dump_refresh_time", Some cfg_key_bgp_daemon_table_dump_refresh_time);
  ("bgp_table_dump_time_slots", Some cfg_key_bgp_daemon_table_dump_time_slots);
  ("bgp_table_dump_amqp_host", Some cfg_key_bgp_daemon_table_dump_amqp_host);
  ("bgp_table_dump_amqp_vhost", Some cfg_key_bgp_daemon_table_dump_amqp_vhost);
  ("bgp_table_dump_amqp_user", Some cfg_key_bgp_daemon_table_dump_amqp_user);
  ("bgp_table_dump_amqp_passwd", Some cfg_key_bgp_daemon_table_dump_amqp_passwd);
  ("bgp_table_dump_amqp_exchange", Some cfg_key_bgp_daemon_table_dump_amqp_exchange);
  ("bgp_table_dump_amqp_exchange_type", Some cfg_key_bgp_daemon_table_dump_amqp_exchange_type);
  ("bgp_table_dump_amqp_routing_key", Some cfg_key_bgp_daemon_table_dump_amqp_routing_key);
  ("bgp_table_dump_amqp_routing_key_rr", Some cfg_key_bgp_daemon_table_dump_amqp_routing_key_rr);
  ("bgp_table_dump_amqp_persistent_msg", Some cfg_key_bgp_daemon_table_dump_amqp_persistent_msg);
  ("bgp_table_dump_amqp_frame_max", Some cfg_key_bgp_daemon_table_dump_amqp_frame_max);
  ("bgp_table_dump_amqp_heartbeat_interval", Some cfg_key_bgp_daemon_table_dump_amqp_heartbeat_interval);
  ("bgp_table_dump_kafka_broker_host", Some cfg_key_bgp_daemon_table_dump_kafka_broker_host);
  ("bgp_table_dump_kafka_broker_port", Some cfg_key_bgp_daemon_table_dump_kafka_broker_port);
  ("bgp_table_dump_kafka_topic", Some cfg_key_bgp_daemon_table_dump_kafka_topic);
  ("bgp_table_dump_kafka_topic_rr", Some cfg_key_bgp_daemon_table_dump_kafka_topic_rr);
  ("bgp_table_dump_kafka_partition", Some cfg_key_bgp_daemon_table_dump_kafka_partition);
  ("bgp_table_dump_kafka_partition_key", Some cfg_key_bgp_daemon_table_dump_kafka_partition_key);
  ("bgp_table_dump_kafka_config_file", Some cfg_key_bgp_daemon_table_dump_kafka_config_file);
  ("bgp_table_dump_kafka_avro_schema_registry", Some cfg_key_bgp_daemon_table_dump_kafka_avro_schema_registry);
  ("bgp_table_dump_workers", Some cfg_key_bgp_daemon_table_dump_workers);
  ("bgp_daemon_lg", Some cfg_key_bgp_lg); ("bgp_daemon_lg_ip", Some cfg_key_bgp_lg_ip);
  ("bgp_daemon_lg_port", Some cfg_key_bgp_lg_port); ("bgp_daemon_lg_threads", Some cfg_key_bgp_lg_threads)].

Definition dictionary_6 : list (string * option handler) := [
  ("bgp_daemon_lg_user", Some cfg_key_bgp_lg_user); ("bgp_daemon_lg_passwd", Some cfg_key_bgp_lg_passwd);
  ("bgp_daemon_xconnect_map", Some cfg_key_bgp_xconnect_map); ("bmp_daemon", Some cfg_key_bmp_daemon);
  ("bmp_daemon_ip", Some cfg_key_bmp_daemon_ip); ("bmp_daemon_interface", Some cfg_key_bmp_daemon_interface);
  ("bmp_daemon_ipv6_only", Some cfg_key_bmp_daemon_ipv6_only);
  ("bmp_daemon_port", Some cfg_key_bmp_daemon_port); ("bmp_daemon_ha", Some cfg_key_bgp_bmp_daemon_ha);
  ("bmp_daemon_ha_cluster_name", Some cfg_key_bgp_bmp_daemon_ha_cluster_name);
  ("bmp_daemon_ha_cluster_id", Some cfg_key_bgp_bmp_daemon_ha_cluster_id);
  ("bmp_daemon_ha_queue_message_timeout", Some cfg_key_bgp_bmp_daemon_ha_queue_message_timeout);
  ("bmp_daemon_ha_queue_max_size", Some cfg_key_bgp_bmp_daemon_ha_queue_max_size);
  ("bmp_daemon_rp_ebpf_prog", Some cfg_key_bmp_daemon_rp_ebpf_prog);
  ("bmp_daemon_tag_map", Some cfg_key_bmp_daemon_tag_map);
  ("bmp_daemon_set_pd", Some cfg_key_bmp_daemon_set_pd);
  ("bmp_daemon_msglog_label_filter", Some cfg_key_bmp_daemon_msglog_label_filter);
  ("bmp_daemon_pipe_size", Some cfg_key_bmp_daemon_pipe_size);
  ("bmp_daemon_max_peers", Some cfg_key_bmp_daemon_max_peers);
  ("bmp_daemon_allow_file", Some cfg_key_bmp_daemon_allow_file);
  ("bmp_daemon_ipprec", Some cfg_key_bmp_daemon_ip_precedence);
  ("bmp_daemon_batch", Some cfg_key_bmp_daemon_batch);
  ("bmp_daemon_batch_interval", Some cfg_key_bmp_daemon_batch_interval);
  ("bmp_agent_map", Some cfg_key_bgp_daemon_to_xflow_agent_map);
  ("bmp_daemon_msglog_output", Some cfg_key_bmp_daemon_msglog_output);
  ("bmp_daemon_msglog_file", Some cfg_key_bmp_daemon_msglog_file);
  ("bmp_daemon_msglog_avro_schema_file", Some cfg_key_bmp_daemon_msglog_avro_schema_file);
  ("bmp_daemon_msglog_amqp_host", Some cfg_key_bmp_daemon_msglog_amqp_host);
  ("bmp_daemon_msglog_amqp_vhost", Some cfg_key_bmp_daemon_msglog_amqp_vhost);
  ("bmp_daemon_msglog_amqp_user", Some cfg_key_bmp_daemon_msglog_amqp_user);
  ("bmp_daemon_msglog_amqp_passwd", Some cfg_key_bmp_daemon_msglog_amqp_passwd);
  ("bmp_daemon_msglog_amqp_exchange", Some cfg_key_bmp_daemon_msglog_amqp_exchange);
  ("bmp_daemon_msglog_amqp_exchange_type", Some cfg_key_bmp_daemon_msglog_amqp_exchange_type);
  ("bmp_daemon_msglog_amqp_routing_key", Some cfg_key_bmp_daemon_msglog_amqp_routing_key);
  ("bmp_daemon_msglog_amqp_routing_key_rr", Some cfg_key_bmp_daemon_msglog_amqp_routing_key_rr);
  ("bmp_daemon_msglog_amqp_persistent_msg", Some cfg_key_bmp_daemon_msglog_amqp_persistent_msg);
  ("bmp_daemon_msglog_amqp_frame_max", Some cfg_key_bmp_daemon_msglog_amqp_frame_max);
  ("bmp_daemon_msglog_amqp_heartbeat_interval", Some cfg_key_bmp_daemon_msglog_amqp_heartbeat_interval);
  ("bmp_daemon_msglog_amqp_retry", Some cfg_key_bmp_daemon_msglog_amqp_retry);
  ("bmp_daemon_msglog_kafka_broker_host", Some cfg_key_bmp_daemon_msglog_kafka_broker_host);
  ("bmp_daemon_msglog_kafka_broker_port", Some cfg_key_bmp_daemon_msglog_kafka_broker_port);
  ("bmp_daemon_msglog_kafka_topic", Some cfg_key_bmp_daemon_msglog_kafka_topic);
  ("bmp_daemon_msglog_kafka_topic_rr", Some cfg_key_bmp_daemon_msglog_kafka_topic_rr);
  ("bmp_daemon_msglog_kafka_partition", Some cfg_key_bmp_daemon_msglog_kafka_partition);
  ("bmp_daemon_msglog_kafka_partition_key", Some cfg_key_bmp_daemon_msglog_kafka_partition_key);
  ("bmp_daemon_msglog_kafka_retry", Some cfg_key_bmp_daemon_msglog_kafka_retry);
  ("bmp_daemon_msglog_kafka_config_file", Some cfg_key_bmp_daemon_msglog_kafka_config_file);
  ("bmp_daemon_msglog_kafka_avro_schema_registry", Some cfg_key_bmp_daemon_msglog_kafka_avro_schema_registry);
  ("bmp_table_peer_buckets", Some cfg_key_bmp_daemon_table_peer_buckets);
  ("bmp_table_per_peer_buckets", Some cfg_key_bmp_daemon_table_per_peer_buckets);
  ("bmp_table_attr_hash_buckets", Some cfg_key_bmp_daemon_table_attr_hash_buckets);
  ("bmp_table_per_peer_hash", Some cfg_key_bmp_daemon_table_per_peer_hash);
  ("bmp_dump_output", Some cfg_key_bmp_daemon_dump_output);
  ("bmp_dump_file", Some cfg_key_bmp_daemon_dump_file);
  ("bmp_dump_latest_file", Some cfg_key_bmp_daemon_dump_latest_file);
  ("bmp_dump_workers", Some cfg_key_bmp_daemon_dump_workers);
  ("bmp_dump_avro_schema_file", Some cfg_key_bmp_daemon_dump_avro_schema_file);
  ("bmp_dump_refresh_time", Some cfg_key_bmp_daemon_dump_refresh_time);
  ("bmp_dump_time_slots", Some cfg_key_bmp_daemon_dump_time_slots);
  ("bmp_dump_exclude_stats", Some cfg_key_bmp_daemon_dump_exclude_stats);
  ("bmp_dump_amqp_host", Some cfg_key_bmp_daemon_dump_amqp_host);
  ("bmp_dump_amqp_vhost", Some cfg_key_bmp_daemon_dump_amqp_vhost);
  ("bmp_dump_amqp_user", Some cfg_key_bmp_daemon_dump_amqp_user);
  ("bmp_dump_amqp_passwd", Some cfg_key_bmp_daemon_dump_amqp_passwd);
  ("bmp_dump_amqp_exchange", Some cfg_key_bmp_daemon_dump_amqp_exchange);
  ("bmp_dump_amqp_exchange_type", Some cfg_key_bmp_daemon_dump_amqp_exchange_type);
  ("bmp_dump_amqp_routing_key", Some cfg_key_bmp_daemon_dump_amqp_routing_key);
  ("bmp_dump_amqp_routing_key_rr", Some cfg_key_bmp_daemon_dump_amqp_routing_key_rr);
  ("bmp_dump_amqp_persistent_msg", Some cfg_key_bmp_daemon_dump_amqp_persistent_msg);
  ("bmp_dump_amqp_frame_max", Some cfg_key_bmp_daemon_dump_amqp_frame_max);
  ("bmp_dump_amqp_heartbeat_interval", Some cfg_key_bmp_daemon_dump_amqp_heartbeat_interval);
  ("bmp_dump_kafka_broker_host", Some cfg_key_bmp_daemon_dump_kafka_broker_host);
  ("bmp_dump_kafka_broker_port", Some cfg_key_bmp_daemon_dump_kafka_broker_port);
  ("bmp_dump_kafka_topic", Some cfg_key_bmp_daemon_dump_kafka_topic);
  ("bmp_dump_kafka_topic_rr", Some cfg_key_bmp_daemon_dump_kafka_topic_rr);
  ("bmp_dump_kafka_partition", Some cfg_key_bmp_daemon_dump_kafka_partition);
  ("bmp_dump_kafka_partition_key", Some cfg_key_bmp_daemon_dump_kafka_partition_key);
  ("bmp_dump_kafka_config_file", Some cfg_key_bmp_daemon_dump_kafka_config_file);
  ("bmp_dump_kafka_avro_schema_registry", Some cfg_key_bmp_daemon_dump_kafka_avro_schema_registry);
  ("bmp_daemon_parse_proxy_header", Some cfg_key_nfacctd_bmp_daemon_parse_proxy_header);
  ("rpki_roas_file", Some cfg_key_rpki_roas_file); ("rpki_rtr_cache", Some cfg_key_rpki_rtr_cache);
  ("rpki_rtr_cache_version", Some cfg_key_rpki_rtr_cache_version);
  ("rpki_rtr_cache_pipe_size", Some cfg_key_rpki_rtr_cache_pipe_size);
  ("rpki_rtr_cache_ipprec", Some cfg_key_rpki_rtr_cache_ip_precedence);
  ("flow_to_rd_map", Some cfg_key_nfacctd_flow_to_rd_map)].

Definition dictionary_7 : list (string * option handler) := [
  ("geoipv2_file", Some cfg_key_geoipv2_file)].

Definition dictionary_8 : list (string * option handler) := [
  ("uacctd_group", Some cfg_key_uacctd_group); ("uacctd_nl_size", Some cfg_key_uacctd_nl_size);
  ("uacctd_threshold", Some cfg_key_uacctd_threshold); ("tunnel_0", Some cfg_key_tunnel_0);
  ("tmp_asa_bi_flow", Some cfg_key_tmp_asa_bi_flow);
  ("tmp_bgp_lookup_compare_ports", Some cfg_key_tmp_bgp_lookup_compare_ports);
  ("tmp_bgp_daemon_route_refresh", Some cfg_key_tmp_bgp_daemon_route_refresh);
  ("tmp_bgp_daemon_origin_type_int", Some cfg_key_tmp_bgp_daemon_origin_type_int);
  ("tmp_telemetry_daemon_udp_notif_legacy", Some cfg_key_tmp_telemetry_daemon_udp_notif_legacy);
  ("tmp_telemetry_decode_cisco_v1_json_string", Some cfg_key_tmp_telemetry_decode_cisco_v1_json_string)].

Definition dictionary : list (string * option handler) :=
  dictionary_1 ++ dictionary_2 ++ dictionary_3 ++ (if WITH_NDPI then dictionary_4 else []) ++ dictionary_5 ++ dictionary_6 ++ (if WITH_GEOIPV2 then dictionary_7 else []) ++ dictionary_8.

(** ** [evaluate_configuration] *)

(** What is logged about a line. *)
Inductive diag :=
  | InvalidValue (line : Z)
  | UnknownSymbol (line : Z)
  | UnableToHandle (line : Z)
  | UnknownKey (line : Z).

(** The splitting of a line: key, name between brackets, value. *)
Definition split_line (line : list Z) : res (list Z * option (list Z) * list Z) :=
  '(key, value) ← deref (split_at 58 (* : *) line);
  match split_at 91 (* [ *) key with
  | Some (key, name) =>
      '(name, _) ← deref (split_at 93 (* ] *) name);
      Ok (key, Some name, value)
  | None => Ok (key, None, value)
  end.

Fixpoint find_key (key : list Z) (l : list (string * option handler)) : option (option handler) :=
  match l with
  | [] => None
  | (k, func) :: r => if streq key k then Some func else find_key key r
  end.

Definition evaluate_line (index : Z) (line : list Z) (s : daemon) : res (list diag * daemon) :=
  '(key, name, value) ← split_line line;
  match find_key key dictionary with
  | Some (Some func) =>
      '(ret, s) ← func name value s;
      Ok (if ret <? 0 then [InvalidValue index] else if ret =? 0 then [UnknownSymbol index] else [], s)
  | Some None => Ok ([UnableToHandle index], s)
  | None => Ok ([UnknownKey index], s)
  end.

Fixpoint evaluate_from (index : Z) (cfg : list (list Z)) (s : daemon) : res (list diag * daemon) :=
  match cfg with
  | [] => Ok ([], s)
  | line :: cfg =>
      '(d, s) ← (match line with [] => Ok ([], s) | _ => evaluate_line index line s end);
      '(ds, s) ← evaluate_from (index + 1) cfg s;
      Ok (d ++ ds, s)
  end.
Definition evaluate_configuration (cfg : list (list Z)) (s : daemon) : res (list diag * daemon) :=
  evaluate_from 1 cfg s.

(** ** [sanitize_cfg] *)

(** Comments and void lines are removed. *)
Definition blank_line (line : list Z) : list Z :=
  let line := if iscomment line then [] else line in
  if isblankline line then [] else line.

(** The brackets of the whole line, its NUL included. *)
Fixpoint check_brackets (line : list Z) (symbol got_first : Z) (got_first_colon : bool) : res unit :=
  match line with
  | [] =>
      if negb (symbol =? 0) && (got_first =? 0) then Err Exited else Ok tt
  | c :: line =>
      let '(symbol, got_first) :=
        if c =? 91 (* [ *) then (symbol + 1, got_first)
        else if c =? 93 (* ] *) then (symbol - 1, got_first + 1)
        else (symbol, got_first) in
      if (c =? 58 (* : *)) && negb got_first_colon && negb (symbol =? 0) then Err Exited
      else if (symbol <? 0) && (got_first =? 0) then Err Exited
      else if (1 <? symbol) && (got_first =? 0) then Err Exited
      else check_brackets line symbol got_first (got_first_colon || (c =? 58))
  end.

(** The spaces of the key are dropped but between brackets; what has been
    copied up to and with the first colon, and the value after it. *)
Fixpoint strip_key (line : list Z) (symbol : Z) : list Z * option (list Z) :=
  match line with
  | [] => ([], None)
  | c :: line =>
      if c =? 58 (* : *) then ([c], Some line)
      else
        let symbol := if c =? 91 then symbol + 1 else if c =? 93 then symbol - 1 else symbol in
        let '(key, value) := strip_key line symbol in
        ((if (symbol =? 0) && is_space c then key else c :: key), value)
  end.

Definition LOCALBUFLEN : Z := 10240.

(** The copy goes through [localbuf], NULs included: one from the line, one
    after it. [valueptr] is NULL when there is no colon. *)
Definition strip_line (line : list Z) : res (list Z) :=
  let '(key, value) := strip_key line 0 in
  let size := strlen key + strlen (default [] value) + 2 in
  if LOCALBUFLEN <? size then Err OutOfBounds
  else value ← deref value; Ok (key ++ trim_spaces value).

(** Every symbol must refer to a key; the loop is bounded by the number of
    lines, [rows]. *)
Fixpoint check_symbols (rows : nat) (line : list Z) (symbol key : Z) : res unit :=
  match rows with
  | O => Ok tt
  | S rows =>
      match line with
      | [] => Err OutOfBounds
      | c :: line =>
          let '(symbol, key) :=
            if c =? 91 then (symbol + 1, key)
            else if c =? 93 then (symbol - 1, key - 1)
            else (symbol, key) in
          if c =? 58 then Ok tt
          else if symbol =? 0
          then check_symbols rows line symbol (if is_alpha c then TRUE else key)
          else if key =? 0 then Err Exited
          else check_symbols rows line symbol key
      end
  end.

(** The key in lower case, but for what is between brackets. *)
Fixpoint lower_key (line : list Z) (symbol : Z) : list Z :=
  match line with
  | [] => []
  | c :: r =>
      let symbol := if c =? 91 then symbol + 1 else if c =? 93 then symbol - 1 else symbol in
      if c =? 58 then line
      else (if symbol =? 0 then tolower c else c) :: lower_key r symbol
  end.

Definition sanitize_line (rows : nat) (line : list Z) : res (list Z) :=
  let line := blank_line line in
  if bool_decide (line = []) then Ok [] else
  if negb (bool_decide (58 ∈ line)) then Err Exited else
  check_brackets line 0 0 false;;
  line ← strip_line line;
  check_symbols rows line 0 0;;
  if bool_decide (head line = Some 58) then Err Exited else
  Ok (lower_key line 0).

Fixpoint sanitize_lines (rows : nat) (cfg : list (list Z)) : res (list (list Z)) :=
  match cfg with
  | [] => Ok []
  | line :: cfg =>
      line ← sanitize_line rows line;
      cfg ← sanitize_lines rows cfg;
      Ok (line :: cfg)
  end.
Definition sanitize_cfg (cfg : list (list Z)) : res (list (list Z)) := sanitize_lines (length cfg) cfg.

(** ** The plugins *)

Definition plugin_types_list : list (Z * string) :=
  [(0, "core"); (1, "memory"); (2, "print"); (3, "nfprobe"); (4, "sfprobe")]
  ++ (if WITH_MYSQL then [(5, "mysql")] else [])
  ++ (if WITH_PGSQL then [(6, "pgsql")] else [])
  ++ (if WITH_SQLITE3 then [(7, "sqlite3")] else [])
  ++ (if WITH_RABBITMQ then [(9, "amqp")] else [])
  ++ (if WITH_KAFKA then [(10, "kafka")] else [])
  ++ [(8, "tee")].

(** The last entry that has the name. *)
Fixpoint find_type (type : list Z) (l : list (Z * string)) (found : option Z) : option Z :=
  match l with
  | [] => found
  | (id, t) :: l => find_type type l (if streq type t then Some id else found)
  end.

Fixpoint max_id (l : list plugin) (id : Z) : Z :=
  match l with
  | [] => id
  | p :: l => max_id l (if id <? pl_id p then pl_id p else id)
  end.

Definition create_plugin (name type : list Z) (s : daemon) : res (Z * daemon) :=
  match find_type type plugin_types_list None with
  | None => Ok (FALSE, s)
  | Some ptype =>
      let list := plugins_list s in
      let id := match list with [] => 0 | _ => max_id list 0 + 1 end in
      if existsb (fun p => bool_decide (name = pl_name p)) list then Ok (FALSE, s)
      else if SRVBUFLEN <? strlen name + 1 then Err OutOfBounds
      else Ok (TRUE, with_plugins (list ++ [mk_plugin (u8 id) name ∅ ptype type]) s)
  end.

(** [delete_plugin_by_id]: [linked] tells whether the walk has a plugin before
    this one to link the next one to; without one the walk goes on in the
    plugin it has just freed. *)
Fixpoint delete_plugin_from (id : Z) (linked : bool) (l : list plugin) (highest_id : Z) : res (Z * list plugin) :=
  match l with
  | [] => Ok (highest_id, [])
  | p :: r =>
      if pl_id p =? id
      then if linked then delete_plugin_from id true r highest_id else Err NullDeref
      else
        '(highest_id, r) ← delete_plugin_from id true r (if highest_id <? pl_id p then pl_id p else highest_id);
        Ok (highest_id, p :: r)
  end.
Definition delete_plugin_by_id (id : Z) (s : daemon) : res (Z * daemon) :=
  if id =? 0 then Ok (ERR, s)
  else '(highest_id, l) ← delete_plugin_from id false (plugins_list s) 0; Ok (highest_id, with_plugins l s).

Definition set_default_values (s : daemon) : daemon :=
  with_plugins (map (set_cfg (put "maps_refresh" TRUE ∘ put "promisc" TRUE)) (plugins_list s)) s.

Definition compose_default_plugin_name (outlen : Z) (type : list Z) : list Z :=
  cstr "default" ++ cstr "_" ++ take (Z.to_nat (outlen - 10)) type.

(** The first line with that key (no name), its index and its value; [key] is
    a buffer of [SRVBUFLEN]. *)
Fixpoint search_key (k : string) (cfg : list (list Z)) (index : nat) : res (option (nat * list Z)) :=
  match cfg with
  | [] => Ok None
  | line :: cfg =>
      match split_at 58 line with
      | Some ((_ :: _) as key, value) =>
          if SRVBUFLEN <? strlen key + 1 then Err OutOfBounds
          else if streq key k then Ok (Some (index, value))
          else search_key k cfg (S index)
      | _ => search_key k cfg (S index)
      end
  end.

Definition parse_core_process_name (cfg : list (list Z)) (ignore_names : bool) (s : daemon) : res daemon :=
  found ← search_key "core_proc_name" cfg 0;
  '(_, s) ← match found with
            | Some (_, value) =>
                if ignore_names then create_plugin (cstr "default") (cstr "core") s
                else create_plugin (strlcpy value SRVBUFLEN) (cstr "core") s
            | None => create_plugin (cstr "default") (cstr "core") s
            end;
  Ok s.

(** The index of the first [c] of a string. *)
Fixpoint index_of (c : Z) (s : list Z) : option nat :=
  match s with
  | [] => None
  | x :: s => if x =? c then Some O else option_map S (index_of c s)
  end.

(** Type and name of a token; [name] is what the buffer holds from the tokens
    before. *)
Definition split_token (token name : list Z) (default_name : bool) : list Z * list Z * bool :=
  match index_of 91 token, index_of 93 token with
  | Some start_name, Some end_name =>
      if bool_decide (start_name + 1 < end_name)%nat
      then (take start_name token, trim_spaces (take (end_name - start_name - 1) (drop (S start_name) token)), default_name)
      else (token, name, default_name)
  | _, _ => (token, name, true)
  end.

(** One round per comma; [name] and [default_name] live through the rounds.
    [name] is not initialised before the first one, and is then read only
    for a token that still has a bracket, which is no type. *)
Fixpoint plugins_loop (fuel : nat) (start name : list Z) (default_name ignore_names : bool) (num : Z) (s : daemon)
    : res (Z * daemon) :=
  match fuel with
  | O => Err OutOfFuel
  | S fuel =>
      let '(token, rest) := match split_at 44 (* , *) start with
                            | Some (token, rest) => (token, Some rest)
                            | None => (start, None)
                            end in
      '(num, name, default_name, s) ←
        match token with
        | [] => Ok (num, name, default_name, s)
        | _ =>
            if SRVBUFLEN <? strlen token + 1 then Err OutOfBounds else
            let '(token, name, default_name) := split_token token name default_name in
            let token := lower_string (trim_spaces token) in
            if streq token "core" then Err Exited else
            let name := if ignore_names || default_name then compose_default_plugin_name SRVBUFLEN token else name in
            '(created, s) ← create_plugin name token s;
            Ok (if negb (created =? 0) then num + 1 else num, name, default_name, s)
        end;
      match rest with
      | Some start => plugins_loop fuel start name default_name ignore_names num s
      | None => Ok (num, s)
      end
  end.

(** The number of plugins, and the lines without the one that named them. *)
Definition parse_plugin_names (cfg : list (list Z)) (ignore_names : bool) (s : daemon)
    : res (Z * list (list Z) * daemon) :=
  found ← search_key "plugins" cfg 0;
  match found with
  | None => Ok (0, cfg, s)
  | Some (index, value) =>
      if LOCALBUFLEN <? strlen value + 1 then Err OutOfBounds else
      '(num, s) ← plugins_loop (S (length value)) value [] false ignore_names 0 s;
      Ok (num, <[index := []]> cfg, s)
  end.

(** ** [parse_configuration_file] *)

(** What [stat] and [fopen] find. *)
Inductive file :=
  | Missing
  | NotRegular
  | Unreadable          (* [fopen] fails *)
  | Readable (content : list Z).

(** [fgets]: up to and with the newline, and at most [size - 1] characters. *)
Fixpoint fgets (size : nat) (content : list Z) : list Z * list Z :=
  match size, content with
  | S (S size as n), c :: content =>
      if c =? 10 then ([c], content)
      else let '(line, rest) := fgets n content in (c :: line, rest)
  | _, _ => ([], content)
  end.

(** The line [strcpy] takes from the buffer: up to a NUL. *)
Definition c_string (buf : list Z) : list Z :=
  match split_at 0 buf with Some (line, _) => line | None => buf end.

Fixpoint read_lines (fuel : nat) (rows : Z) (content : list Z) : list (list Z) :=
  match fuel, content with
  | S fuel, _ :: _ =>
      if rows =? LARGEBUFLEN then []
      else let '(line, content) := fgets (Z.to_nat LOCALBUFLEN) content in
           c_string line :: read_lines fuel (rows + 1) content
  | _, _ => []
  end.

(** The state, and [SUCCESS] or [ERR]; [cfg_cmdline] holds the lines the
    command line options were turned into. *)
Definition parse_configuration_file (filename : option file) (cfg_cmdline : list (list Z)) (s : daemon)
    : res (Z * list diag * daemon) :=
  match filename with
  | Some Missing | Some NotRegular => Ok (ERR, [], s)
  | Some Unreadable => Err NullDeref (* fclose (NULL) *)
  | _ =>
      let cfg := match filename with Some (Readable content) => read_lines (length content) 0 content | _ => [] end in
      let cmdlineflag := negb (bool_decide (is_Some filename)) in
      let cfg := cfg ++ take (Z.to_nat LARGEBUFLEN - length cfg) cfg_cmdline in
      cfg ← sanitize_cfg cfg;
      s ← parse_core_process_name cfg cmdlineflag s;
      '(num, cfg, s) ← parse_plugin_names cfg cmdlineflag s;
      s ← (if (num =? 0) && (acct_type <? ACCT_FWDPLANE_MAX)
           then '(_, s) ← create_plugin (cstr "default_memory") (cstr "memory") s; Ok s
           else Ok s);
      let s := set_default_values s in
      '(ds, s) ← evaluate_configuration cfg s;
      Ok (SUCCESS, ds, s)
  end.

End Cfg.

End Cfg.
