(* ===== verification/CfgKeysFacts.v ===== *)
(** * What each configuration key may do

    The specification of the keys: for every key of the dictionary, whether
    it is global, per plugin or tied to a name, and the members of [struct
    configuration] it writes ([keys_1] .. [keys_8]); for every numeric member
    the values its keys let through ([member_ranges]). The handlers are proved
    against it: what a handler does with a value is refuse it, end the daemon,
    or apply one update, which does not depend on the plugin's name nor on any
    other member, to the plugins of its scope. *)

From S2P Require Import Prelude.
From S2P Require Import BgpPrefix.
From S2P Require Import CfgData.
From S2P Require Import CfgHandlers.
From S2P Require Import Cfg.

Module CfgKeysFacts.
Import CfgData.
Import CfgHandlers.
Import Cfg.

(** ** Values *)

Definition member_ranges : list (string * (Z * Z)) := [
  ("nfacctd_disable_opt_scope_check", (- 2 ^ 31, 1)); ("nfacctd_disable_sanity_checks", (- 2 ^ 31, 1));
  ("nfacctd_ignore_exporter_address", (- 2 ^ 31, 1)); ("pcap_arista_trailer_flag_value", (- 2 ^ 31, 128));
  ("pcap_sf_replay", (-1, 2 ^ 31 - 1)); ("aggregate_unknown_etype", (0, 1)); ("amqp_persistent_msg", (0, 1));
  ("as_path_encode_as_array", (0, 1)); ("bgp_bmp_daemon_ha", (0, 1)); ("bgp_comms_encode_as_array", (0, 1));
  ("bgp_comms_num", (0, 1)); ("bgp_daemon", (0, 1)); ("bgp_daemon_add_path_ignore", (0, 1));
  ("bgp_daemon_follow_nexthop_external", (0, 1)); ("bgp_daemon_ipv6_only", (0, 1));
  ("bgp_daemon_msglog_amqp_persistent_msg", (0, 1)); ("bgp_daemon_peer_as_skip_subas", (0, 1));
  ("bgp_disable_router_id_check", (0, 1)); ("bgp_lg", (0, 1)); ("bgp_table_dump_amqp_persistent_msg", (0, 1));
  ("bgp_table_per_peer_hash", (0, 1)); ("bmp_daemon", (0, 1)); ("bmp_daemon_ipv6_only", (0, 1));
  ("bmp_daemon_msglog_amqp_persistent_msg", (0, 1)); ("bmp_daemon_parse_proxy_header", (0, 1));
  ("bmp_daemon_set_pd", (0, 1)); ("bmp_dump_amqp_persistent_msg", (0, 1)); ("bmp_dump_exclude_stats", (0, 1));
  ("bmp_table_per_peer_hash", (0, 1)); ("daemon", (0, 1)); ("debug", (0, 1)); ("debug_internal_msg", (0, 1));
  ("fwd_status_encode_as_string", (0, 1)); ("handle_fragments", (0, 1)); ("kafka_partition_dynamic", (0, 1));
  ("log_stderr_tstamp", (0, 1)); ("maps_index", (0, 1)); ("maps_refresh", (0, 1));
  ("mpls_label_stack_encode_as_array", (0, 1)); ("ndpi_proto_guess", (0, 1)); ("networks_file_filter", (0, 1));
  ("networks_file_no_lpm", (0, 1)); ("networks_no_mask_if_zero", (0, 1)); ("nfacctd_account_options", (0, 1));
  ("nfacctd_ipv6_only", (0, 1)); ("nfacctd_pre_processing_checks", (0, 1)); ("nfacctd_pro_rating", (0, 1));
  ("nfacctd_stitching", (0, 1)); ("nfprobe_dont_cache", (0, 1)); ("nfprobe_dtls", (0, 1));
  ("nfprobe_ifindex_override", (0, 1)); ("nfprobe_peer_as", (0, 1)); ("nfprobe_tstamp_usec", (0, 1));
  ("num_hosts", (0, 1)); ("num_protos", (0, 1)); ("pcap_if_wait", (0, 1)); ("pcap_sf_wait", (0, 1));
  ("pipe_zmq", (0, 1)); ("plugin_exit_any", (0, 1)); ("pmacctd_nonroot", (0, 1));
  ("pre_tag_map_dont_recirculate", (0, 1)); ("pretag_label_encode_as_map", (0, 1)); ("print_markers", (0, 1));
  ("print_output_file_append", (0, 1)); ("print_write_empty_file", (0, 1)); ("promisc", (0, 1));
  ("propagate_signals", (0, 1)); ("sfacctd_counter_amqp_persistent_msg", (0, 1));
  ("sfacctd_renormalize", (0, 1)); ("sql_dont_try_update", (0, 1)); ("sql_optimize_clauses", (0, 1));
  ("sql_preprocess_type", (0, 1)); ("sql_use_copy", (0, 1)); ("tcpflags_encode_as_array", (0, 1));
  ("tee_transparent", (0, 1)); ("telemetry_daemon", (0, 1)); ("telemetry_dump_amqp_persistent_msg", (0, 1));
  ("telemetry_ipv6_only", (0, 1)); ("telemetry_msglog_amqp_persistent_msg", (0, 1));
  ("telemetry_udp_notif_ipv6_only", (0, 1)); ("timestamps_rfc9557", (0, 1)); ("timestamps_secs", (0, 1));
  ("timestamps_since_epoch", (0, 1)); ("timestamps_utc", (0, 1)); ("tmp_asa_bi_flow", (0, 1));
  ("tmp_bgp_daemon_origin_type_int", (0, 1)); ("tmp_bgp_daemon_route_refresh", (0, 1));
  ("tmp_bgp_lookup_compare_ports", (0, 1)); ("tmp_telemetry_decode_cisco_v1_json_string", (0, 1));
  ("tmp_telemetry_udp_notif_legacy", (0, 1)); ("tos_encode_as_dscp", (0, 1)); ("use_ip_next_hop", (0, 1));
  ("dry_run", (0, 2)); ("pcap_ifindex", (0, 3)); ("bgp_daemon_peer_as_src_type", (0, 5));
  ("bgp_daemon_src_as_path_type", (0, 5)); ("bgp_daemon_src_ext_comm_type", (0, 5));
  ("bgp_daemon_src_local_pref_type", (0, 5)); ("bgp_daemon_src_lrg_comm_type", (0, 5));
  ("bgp_daemon_src_med_type", (0, 5)); ("bgp_daemon_src_roa_type", (0, 5));
  ("bgp_daemon_src_std_comm_type", (0, 5)); ("pipe_zmq_profile", (0, 5)); ("bgp_daemon_ipprec", (0, 7));
  ("bmp_daemon_ipprec", (0, 7)); ("nfprobe_ipprec", (0, 7)); ("rpki_rtr_cache_ipprec", (0, 7));
  ("telemetry_ipprec", (0, 7)); ("sql_history", (0, 32)); ("sql_trigger_time", (0, 32));
  ("files_umask", (0, 438)); ("uacctd_group", (0, 65535)); ("amqp_routing_key_rr", (0, 2 ^ 31 - 1));
  ("bgp_daemon_batch", (0, 2 ^ 31 - 1)); ("bgp_daemon_batch_interval", (0, 2 ^ 31 - 1));
  ("bgp_daemon_msglog_amqp_routing_key_rr", (0, 2 ^ 31 - 1));
  ("bgp_daemon_msglog_kafka_topic_rr", (0, 2 ^ 31 - 1));
  ("bgp_table_dump_amqp_routing_key_rr", (0, 2 ^ 31 - 1)); ("bgp_table_dump_kafka_topic_rr", (0, 2 ^ 31 - 1));
  ("bmp_daemon_batch", (0, 2 ^ 31 - 1)); ("bmp_daemon_batch_interval", (0, 2 ^ 31 - 1));
  ("bmp_daemon_msglog_amqp_routing_key_rr", (0, 2 ^ 31 - 1));
  ("bmp_daemon_msglog_kafka_topic_rr", (0, 2 ^ 31 - 1)); ("bmp_dump_amqp_routing_key_rr", (0, 2 ^ 31 - 1));
  ("bmp_dump_kafka_topic_rr", (0, 2 ^ 31 - 1)); ("num_memory_pools", (0, 2 ^ 31 - 1));
  ("pcap_sf_delay", (0, 2 ^ 31 - 1)); ("pipe_zmq_hwm", (0, 2 ^ 31 - 1));
  ("sfprobe_agentsubid", (0, 2 ^ 31 - 1)); ("sql_history_howmany", (0, 2 ^ 31 - 1));
  ("sql_history_offset", (0, 2 ^ 31 - 1)); ("sql_multi_values", (0, 2 ^ 31 - 1));
  ("sql_startup_delay", (0, 2 ^ 31 - 1)); ("sql_trigger_time_howmany", (0, 2 ^ 31 - 1));
  ("telemetry_dump_amqp_routing_key_rr", (0, 2 ^ 31 - 1)); ("telemetry_dump_kafka_topic_rr", (0, 2 ^ 31 - 1));
  ("telemetry_msglog_amqp_routing_key_rr", (0, 2 ^ 31 - 1));
  ("telemetry_msglog_kafka_topic_rr", (0, 2 ^ 31 - 1)); ("nfacctd_time_new", (1, 1)); ("nfacctd_time", (1, 2));
  ("nfprobe_ifindex_type", (1, 4)); ("nfprobe_direction", (1, 8)); ("print_output", (1, 64));
  ("dump_max_writers", (1, 99)); ("bgp_table_per_peer_buckets", (1, 128));
  ("bmp_table_per_peer_buckets", (1, 128)); ("nfprobe_hoplimit", (1, 255));
  ("bgp_table_peer_buckets", (1, 1000)); ("bmp_table_peer_buckets", (1, 1000));
  ("bgp_daemon_msglog_kafka_broker_port", (1, 65535)); ("bgp_daemon_port", (1, 65535));
  ("bgp_lg_port", (1, 65535)); ("bgp_table_dump_kafka_broker_port", (1, 65535));
  ("bmp_daemon_msglog_kafka_broker_port", (1, 65535)); ("bmp_daemon_port", (1, 65535));
  ("bmp_dump_kafka_broker_port", (1, 65535)); ("kafka_broker_port", (1, 65535));
  ("nfacctd_dtls_port", (1, 65535)); ("nfacctd_kafka_broker_port", (1, 65535)); ("nfacctd_port", (1, 65535));
  ("nfacctd_templates_port", (1, 65535)); ("sfacctd_counter_kafka_broker_port", (1, 65535));
  ("telemetry_dump_kafka_broker_port", (1, 65535)); ("telemetry_msglog_kafka_broker_port", (1, 65535));
  ("telemetry_port_tcp", (1, 65535)); ("telemetry_port_udp", (1, 65535));
  ("telemetry_udp_notif_port", (1, 65535)); ("bgp_table_dump_time_slots", (1, 86400));
  ("bmp_dump_time_slots", (1, 86400)); ("telemetry_dump_time_slots", (1, 86400));
  ("bgp_table_attr_hash_buckets", (1, 1000000)); ("bmp_table_attr_hash_buckets", (1, 1000000));
  ("amqp_avro_schema_refresh_time", (1, 2 ^ 31 - 1)); ("bgp_daemon_aspath_radius", (1, 2 ^ 31 - 1));
  ("bgp_daemon_max_peers", (1, 2 ^ 31 - 1)); ("bgp_daemon_msglog_amqp_retry", (1, 2 ^ 31 - 1));
  ("bgp_daemon_msglog_kafka_retry", (1, 2 ^ 31 - 1)); ("bgp_daemon_pipe_size", (1, 2 ^ 31 - 1));
  ("bgp_lg_threads", (1, 2 ^ 31 - 1)); ("bgp_table_dump_workers", (1, 2 ^ 31 - 1));
  ("bmp_daemon_max_peers", (1, 2 ^ 31 - 1)); ("bmp_daemon_msglog_amqp_retry", (1, 2 ^ 31 - 1));
  ("bmp_daemon_msglog_kafka_retry", (1, 2 ^ 31 - 1)); ("bmp_daemon_pipe_size", (1, 2 ^ 31 - 1));
  ("bmp_dump_workers", (1, 2 ^ 31 - 1)); ("buckets", (1, 2 ^ 31 - 1)); ("conntrack_bufsz", (1, 2 ^ 31 - 1));
  ("ext_sampling_rate", (1, 2 ^ 31 - 1)); ("flow_bufsz", (1, 2 ^ 31 - 1)); ("flow_hashsz", (1, 2 ^ 31 - 1));
  ("flow_lifetime", (1, 2 ^ 31 - 1)); ("flow_tcp_lifetime", (1, 2 ^ 31 - 1)); ("frag_bufsz", (1, 2 ^ 31 - 1));
  ("kafka_avro_schema_refresh_time", (1, 2 ^ 31 - 1)); ("maps_entries", (1, 2 ^ 31 - 1));
  ("maps_row_len", (1, 2 ^ 31 - 1)); ("memory_pool_size", (1, 2 ^ 31 - 1));
  ("ndpi_giveup_proto_other", (1, 2 ^ 31 - 1)); ("ndpi_giveup_proto_tcp", (1, 2 ^ 31 - 1));
  ("ndpi_giveup_proto_udp", (1, 2 ^ 31 - 1)); ("networks_cache_entries", (1, 2 ^ 31 - 1));
  ("networks_mask", (1, 2 ^ 31 - 1)); ("nfacctd_pipe_size", (1, 2 ^ 31 - 1));
  ("nfprobe_maxflows", (1, 2 ^ 31 - 1)); ("pipe_zmq_retry", (1, 2 ^ 31 - 1));
  ("print_cache_entries", (1, 2 ^ 31 - 1)); ("rpki_rtr_cache_pipe_size", (1, 2 ^ 31 - 1));
  ("sampling_rate", (1, 2 ^ 31 - 1)); ("sfacctd_counter_amqp_retry", (1, 2 ^ 31 - 1));
  ("sfacctd_counter_kafka_retry", (1, 2 ^ 31 - 1)); ("sql_cache_entries", (1, 2 ^ 31 - 1));
  ("sql_port", (1, 2 ^ 31 - 1)); ("sql_refresh_time", (1, 2 ^ 31 - 1)); ("sql_table_version", (1, 2 ^ 31 - 1));
  ("tee_max_receiver_pools", (1, 2 ^ 31 - 1)); ("tee_max_receivers", (1, 2 ^ 31 - 1));
  ("tee_pipe_size", (1, 2 ^ 31 - 1)); ("telemetry_dump_workers", (1, 2 ^ 31 - 1));
  ("telemetry_max_peers", (1, 2 ^ 31 - 1)); ("telemetry_msglog_amqp_retry", (1, 2 ^ 31 - 1));
  ("telemetry_msglog_kafka_retry", (1, 2 ^ 31 - 1)); ("telemetry_pipe_size", (1, 2 ^ 31 - 1));
  ("thread_stack", (1, 2 ^ 31 - 1)); ("amqp_frame_max", (1, 2 ^ 32 - 1));
  ("bgp_daemon_msglog_amqp_frame_max", (1, 2 ^ 32 - 1)); ("bgp_table_dump_amqp_frame_max", (1, 2 ^ 32 - 1));
  ("bmp_daemon_msglog_amqp_frame_max", (1, 2 ^ 32 - 1)); ("bmp_dump_amqp_frame_max", (1, 2 ^ 32 - 1));
  ("sfacctd_counter_amqp_frame_max", (1, 2 ^ 32 - 1)); ("telemetry_dump_amqp_frame_max", (1, 2 ^ 32 - 1));
  ("telemetry_msglog_amqp_frame_max", (1, 2 ^ 32 - 1)); ("pipe_size", (1, 2 ^ 64 - 1));
  ("post_tag", (1, 2 ^ 64 - 1)); ("post_tag2", (1, 2 ^ 64 - 1)); ("bgp_daemon_msglog_output", (4, 64));
  ("bgp_table_dump_output", (4, 64)); ("bmp_daemon_msglog_output", (4, 64)); ("bmp_dump_output", (4, 64));
  ("message_broker_output", (4, 64)); ("sfacctd_counter_output", (4, 64)); ("telemetry_dump_output", (4, 64));
  ("telemetry_msglog_output", (4, 64)); ("nfprobe_version", (5, 10));
  ("pcap_arista_trailer_offset", (8, 2 ^ 31 - 1)); ("bgp_table_dump_refresh_time", (60, 86400));
  ("bmp_dump_refresh_time", (60, 86400)); ("telemetry_dump_refresh_time", (60, 86400));
  ("telemetry_peer_timeout", (60, 2 ^ 31 - 1)); ("snaplen", (128, 2 ^ 31 - 1))].

Definition type_range (t : ctype) : Z * Z :=
  match t with
  | C_int => (- 2 ^ 31, 2 ^ 31 - 1)
  | C_u32 => (0, 2 ^ 32 - 1)
  | _ => (0, 2 ^ 64 - 1)
  end.
Definition is_num (t : ctype) : bool := match t with C_int | C_u32 | C_u64 => true | _ => false end.

Definition range (f : string) : Z * Z := default (type_range (field_type f)) (assoc f member_ranges).
Definition in_range (f : string) (n : Z) : Prop := fst (range f) <= n <= snd (range f).

(** A member holds a value of its type, within its range. *)
Definition fits (f : string) (v : cval) : Prop :=
  match v with
  | CInt n => is_num (field_type f) = true /\ in_range f n
  | CStr _ => field_type f = C_str
  | CTags t => field_type f = C_tags /\ (length t <= 96)%nat
               /\ Forall (fun '(neg, n, r) => (neg = 0 \/ neg = 1) /\ 0 <= n <= r /\ r < 2 ^ 64) t
  | CLabels t => field_type f = C_labels /\ (length t <= 96)%nat
  | CPrims l => field_type f = C_cpptrs /\ (length l <= 64)%nat
  | CPrefixes l => field_type f = C_prefixes /\ length l = 32%nat
  end.
Definition cfg_fits (c : conf) : Prop := map_Forall fits c.

(** ** Updates *)

(** [u] writes the members [M], looking at no other one, and keeps the values
    within their ranges. *)
Record upd_ok (M : list string) (u : conf -> conf) : Prop := {
  upd_frame : forall c f, f ∉ M -> u c !! f = c !! f;
  upd_local : forall c c', (forall f, f ∈ M -> c !! f = c' !! f) -> forall f, f ∈ M -> u c !! f = u c' !! f;
  upd_fits : forall c, cfg_fits c -> cfg_fits (u c)
}.

Lemma insert_ok f v : fits f v -> upd_ok [f] (fun c => <[f := v]> c).
Proof.
  intros H. split.
  - intros c g Hg. apply lookup_insert_ne. intros ->. apply Hg. constructor.
  - intros c c' _ g ->%list_elem_of_singleton. by rewrite !lookup_insert_eq.
  - intros c Hc. by apply map_Forall_insert_2.
Qed.

Lemma comp_ok M1 M2 u1 u2 : upd_ok M1 u1 -> upd_ok M2 u2 -> upd_ok (M1 ++ M2) (u1 ∘ u2).
Proof.
  intros H1 H2. split.
  - intros c f Hf. rewrite elem_of_app in Hf. unfold compose.
    rewrite (upd_frame _ _ H1), (upd_frame _ _ H2); tauto.
  - intros c c' Hc.
    assert (E : forall f, f ∈ M1 ++ M2 -> u2 c !! f = u2 c' !! f).
    { intros f Hf. destruct (decide (f ∈ M2)) as [|Hn].
      - apply (upd_local _ _ H2); [| done]. intros g Hg. apply Hc, elem_of_app. by right.
      - rewrite !(upd_frame _ _ H2) by done. by apply Hc. }
    intros f Hf. unfold compose. destruct (decide (f ∈ M1)).
    + apply (upd_local _ _ H1); [| done]. intros g Hg. apply E, elem_of_app. by left.
    + rewrite !(upd_frame _ _ H1) by done. by apply E.
  - intros c Hc. by apply (upd_fits _ _ H1), (upd_fits _ _ H2).
Qed.

Lemma comp_ok_eq M1 M2 M u1 u2 : upd_ok M1 u1 -> upd_ok M2 u2 -> M1 ++ M2 = M -> upd_ok M (u1 ∘ u2).
Proof. intros H1 H2 <-. by apply comp_ok. Qed.

Lemma upd_ok_perm M M' u : M ≡ₚ M' -> upd_ok M u -> upd_ok M' u.
Proof.
  intros HM H. split.
  - intros c f Hf. apply (upd_frame _ _ H). by rewrite HM.
  - intros c c' Hc f Hf. apply (upd_local _ _ H); [intros g Hg; apply Hc; by rewrite <- HM | by rewrite HM].
  - apply H.
Qed.

Lemma puts_ok f s : field_type f = C_str -> upd_ok [f] (puts f s).
Proof. intros H. by apply insert_ok. Qed.

Lemma convert_range t n : is_num t = true -> fst (type_range t) <= convert t n <= snd (type_range t).
Proof.
  intros H. destruct t; try discriminate H; cbn [convert type_range fst snd]; unfold s32, u32, u64, wrap;
    match goal with |- context [?x mod 2 ^ ?w] => pose proof (Z.mod_pos_bound x (2 ^ w) ltac:(lia)) end; lia.
Qed.

Lemma convert_small t n : is_num t = true -> fst (type_range t) <= n <= snd (type_range t) -> convert t n = n.
Proof.
  intros H. destruct t; try discriminate H; cbn [convert type_range fst snd]; unfold s32, u32, u64, wrap; intros Hn;
    rewrite Z.mod_small; lia.
Qed.

(** An integer member without a range of its own; and one with a range. *)
Lemma put_upd_ok f n : is_num (field_type f) = true -> assoc f member_ranges = None -> upd_ok [f] (put f n).
Proof.
  intros Ht Hr. apply insert_ok. split; [done |]. unfold in_range, range. rewrite Hr. by apply convert_range.
Qed.

Lemma put_in_range f n lo hi :
  is_num (field_type f) = true -> assoc f member_ranges = Some (lo, hi) ->
  fst (type_range (field_type f)) <= lo -> hi <= snd (type_range (field_type f)) ->
  lo <= n <= hi -> upd_ok [f] (put f n).
Proof.
  intros Ht Hr Hlo Hhi Hn. apply insert_ok. split; [done |]. unfold in_range, range. rewrite Hr.
  change (lo <= convert (field_type f) n <= hi). rewrite convert_small by (done || lia). lia.
Qed.

(** ** The contract of a handler *)

Inductive scope := Global | PerPlugin | NamedOnly.

Definition apply_scope (sc : scope) (name : option (list Z)) (u : conf -> conf) (s : daemon) : Z * daemon :=
  match sc with
  | Global => all u s
  | PerPlugin => by_name name u s
  | NamedOnly => named_only name u s
  end.

(** [Writes sc M]: as above. [Special sc M]: a key that is specified on its own.
    [Unhandled]: a key with no handler. *)
Inductive key_spec := Writes (sc : scope) (M : list string) | Special (sc : scope) (M : list string) | Unhandled.

(** What a handler does with a value, for any name and state: refuse it and
    change nothing, end the daemon, or update. *)
Inductive verdict := Refuses (answer : Z) | Stops (f : fault) | Updates (u : conf -> conf).

Definition run_verdict (sc : scope) (v : verdict) (name : option (list Z)) (s : daemon) : res (Z * daemon) :=
  match v with
  | Refuses answer => Ok (answer, s)
  | Stops f => Err f
  | Updates u => Ok (apply_scope sc name u s)
  end.

(** Fewer commas than there is room for custom primitives: the one table of
    the handlers that is not guarded. *)
Definition commas (value : list Z) : list Z := List.filter (fun c => c =? 44) value.
Definition few (value : list Z) : Prop := (length (commas value) < 64)%nat.

Definition verdict_ok (M : list string) (value : list Z) (v : verdict) : Prop :=
  match v with
  | Updates u => upd_ok M u
  | Stops f => few value -> f = Exited
  | Refuses _ => True
  end.

Definition writes (sc : scope) (M : list string) (h : handler) : Prop :=
  forall value, exists v, verdict_ok M value v /\ forall name s, h name value s = run_verdict sc v name s.

(** In any case a plugin stays the same plugin, and keeps a configuration that
    fits. *)
Definition same_plugin (p p' : plugin) : Prop :=
  pl_id p' = pl_id p /\ pl_name p' = pl_name p /\ pl_type p' = pl_type p /\ pl_type_string p' = pl_type_string p.
Definition keeps (p p' : plugin) : Prop := same_plugin p p' /\ (cfg_fits (pl_cfg p) -> cfg_fits (pl_cfg p')).

Definition tame (h : handler) : Prop :=
  forall name value s r s', h name value s = Ok (r, s') -> Forall2 keeps (plugins_list s) (plugins_list s').

(** Plugin [i] of the state is one that a line with that name and scope is
    about: every plugin, or the first one of the name. *)
Definition addressed (sc : scope) (name : option (list Z)) (l : list plugin) (i : nat) : Prop :=
  match sc, name with
  | Global, _ | PerPlugin, None => True
  | NamedOnly, None => False
  | _, Some n => exists p, l !! i = Some p /\ pl_name p = n
                  /\ forall j q, (j < i)%nat -> l !! j = Some q -> pl_name q <> n
  end.

Lemma first_named_spec n (u : conf -> Z * conf) l :
  forall i p, l !! i = Some p ->
  (snd (first_named n u l)) !! i
    = Some (if bool_decide (pl_name p = n /\ Forall (fun q => pl_name q <> n) (take i l)) then set_cfg (fun c => snd (u c)) p else p).
Proof.
  induction l as [|q l IH]; intros i p Hi; [done |]. simpl. case_bool_decide as Hn.
  - destruct (u (pl_cfg q)) as [k c] eqn:Eu. simpl. destruct i as [|i]; simpl in *.
    + injection Hi as <-. rewrite bool_decide_true by (split; [by rewrite Hn | constructor]). unfold set_cfg. by rewrite Eu.
    + rewrite bool_decide_false; [done |]. intros [_ Hf]. inversion Hf. congruence.
  - destruct (first_named n u l) as [k l'] eqn:E. simpl in *. destruct i as [|i]; simpl in *.
    + injection Hi as <-. rewrite bool_decide_false; [done |]. intros [? _]. congruence.
    + rewrite (IH i p Hi). case_bool_decide as H1; case_bool_decide as H2; try done.
      * destruct H2. destruct H1. split; [done |]. constructor; [congruence | done].
      * destruct H1. destruct H2 as [? Hf]. split; [done |]. by inversion Hf.
Qed.

Lemma first_named_length n (u : conf -> Z * conf) l : length (snd (first_named n u l)) = length l.
Proof.
  induction l as [|p l IH]; simpl; [done |]. case_bool_decide; [by destruct (u (pl_cfg p)) |].
  destruct (first_named n u l). simpl in *. by rewrite IH.
Qed.

Lemma first_of_name (l : list plugin) i p n :
  l !! i = Some p -> (pl_name p = n /\ Forall (fun q => pl_name q <> n) (take i l)) <->
  (exists p, l !! i = Some p /\ pl_name p = n /\ forall j q, (j < i)%nat -> l !! j = Some q -> pl_name q <> n).
Proof.
  intros Hi. split.
  - intros [Hn Hf]. exists p. split; [done |]. split; [done |]. intros j q Hj Hq.
    rewrite Forall_lookup in Hf. apply (Hf j). by rewrite lookup_take_lt.
  - intros (p' & Hp & Hn & Hf). rewrite Hi in Hp. injection Hp as <-. split; [done |].
    apply Forall_lookup. intros j q Hj. apply lookup_take_Some in Hj as [Hj ?]. by eapply Hf.
Qed.

Lemma addressed_or sc name l i p : l !! i = Some p -> addressed sc name l i \/ ~ addressed sc name l i.
Proof.
  intros Hi. destruct sc, name as [n|]; simpl; try tauto;
    destruct (decide (pl_name p = n /\ Forall (fun q => pl_name q <> n) (take i l))) as [Hd|Hd];
    rewrite (first_of_name _ i p n Hi) in Hd; tauto.
Qed.

(** What a line may change: the members [M] of the plugins it addresses; and
    the multicast groups, when it has no member. *)
Definition frame (sc : scope) (M : list string) (name : option (list Z)) (s s' : daemon) : Prop :=
  length (plugins_list s') = length (plugins_list s) /\
  (forall i p, plugins_list s !! i = Some p -> exists p', plugins_list s' !! i = Some p' /\ same_plugin p p' /\
     (forall f, f ∉ M -> pl_cfg p' !! f = pl_cfg p !! f) /\
     (~ addressed sc name (plugins_list s) i -> p' = p)) /\
  (M <> [] -> mcast_groups s' = mcast_groups s).

Lemma frame_same sc M name s : frame sc M name s s.
Proof. split; [done |]. split; [| done]. intros i p Hi. exists p. by repeat split. Qed.

(** An update of the plugin that is named. *)
Lemma frame_named M n (u : conf -> Z * conf) s : (forall c f, f ∉ M -> snd (u c) !! f = c !! f) ->
  frame NamedOnly M (Some n) s (snd (by_name_only n u s)) /\ frame PerPlugin M (Some n) s (snd (by_name_only n u s)).
Proof.
  intros Hu. assert (H : forall sc, sc = NamedOnly \/ sc = PerPlugin -> frame sc M (Some n) s (snd (by_name_only n u s))).
  { intros sc Hsc. unfold by_name_only. pose proof (first_named_spec n u (plugins_list s)) as Hf.
    pose proof (first_named_length n u (plugins_list s)) as Hl. destruct (first_named n u (plugins_list s)) as [k l]. simpl in *.
    split; [exact Hl |]. split; [| done]. intros i p Hi. specialize (Hf i p Hi). eexists. split; [exact Hf |].
    pose proof (first_of_name (plugins_list s) i p n Hi) as Hd.
    case_bool_decide as Hb; [| by repeat split]. split; [done |]. split; [intros f Hm; by apply Hu |].
    intros Hno. destruct Hno. destruct Hsc as [-> | ->]; by apply Hd. }
  split; apply H; [by left | by right].
Qed.

(** An update of every plugin. *)
Definition touched (M : list string) (p p' : plugin) : Prop := same_plugin p p' /\ forall f, f ∉ M -> pl_cfg p' !! f = pl_cfg p !! f.

Lemma frame_all M name s s' : Forall2 (touched M) (plugins_list s) (plugins_list s') -> mcast_groups s' = mcast_groups s ->
  frame Global M name s s'.
Proof.
  intros H Hm. split; [symmetry; by apply (Forall2_length _ _ _ H) |]. split; [| done]. intros i p Hi.
  destruct (Forall2_lookup_l _ _ _ _ _ H Hi) as (p' & Hp' & Hs & Hf). exists p'. split; [done |]. split; [done |]. split; [done |].
  intros Hno. by destruct Hno.
Qed.

Lemma touched_refl M p : touched M p p.
Proof. by split. Qed.
Lemma touched_set M u p : (forall f, f ∉ M -> u (pl_cfg p) !! f = pl_cfg p !! f) -> touched M p (set_cfg u p).
Proof. intros H. by split. Qed.
Lemma touched_list_refl M l : Forall2 (touched M) l l.
Proof. induction l; constructor; [apply touched_refl | done]. Qed.
Lemma touched_trans M l1 l2 l3 : Forall2 (touched M) l1 l2 -> Forall2 (touched M) l2 l3 -> Forall2 (touched M) l1 l3.
Proof.
  intros H12. revert l3. induction H12 as [|p1 p2 l1 l2 [H H'] H12 IH]; intros l3 H23; inversion H23 as [|? p3 ? l3' [G G']]; subst;
    constructor; [| by apply IH]. split; [unfold same_plugin in *; intuition congruence |]. intros f Hf. by rewrite G', H'.
Qed.

(** The keys that are specified on their own: what they touch. *)
Definition touches (sc : scope) (M : list string) (h : handler) : Prop :=
  forall name value s r s', h name value s = Ok (r, s') -> frame sc M name s s'.

Definition total (h : handler) : Prop := forall name value s, exists x, h name value s = Ok x.

Definition meets (h : option handler) (k : key_spec) : Prop :=
  match k, h with
  | Writes sc M, Some h => writes sc M h
  | Special sc M, Some h => touches sc M h /\ tame h /\ total h
  | Unhandled, None => True
  | _, _ => False
  end.

(** ** The keys *)

Definition keys_1 : list (string * key_spec) := [
  ("debug", Writes PerPlugin ["debug"]); ("debug_internal_msg", Writes PerPlugin ["debug_internal_msg"]);
  ("dry_run", Writes Global ["dry_run"]); ("syslog", Writes PerPlugin ["syslog"]);
  ("logfile", Writes Global ["logfile"]); ("log_stderr_tstamp", Writes Global ["log_stderr_tstamp"]);
  ("pidfile", Writes Global ["pidfile"]); ("daemonize", Writes Global ["daemon"]);
  ("aggregate", Writes PerPlugin ["what_to_count_3"; "what_to_count_2"; "what_to_count"; "cpptrs"]);
  ("aggregate_primitives", Writes Global ["aggregate_primitives"]);
  ("cluster_name", Writes Global ["cluster_name"]); ("cluster_id", Writes Global ["cluster_id"]);
  ("redis_host", Writes Global ["redis_host"]); ("redis_db", Writes Global ["redis_db"]);
  ("snaplen", Writes Global ["snaplen"]); ("propagate_signals", Writes Global ["propagate_signals"]);
  ("aggregate_filter", Writes NamedOnly ["a_filter"]);
  ("aggregate_unknown_etype", Writes Global ["aggregate_unknown_etype"]);
  ("dtls_path", Writes Global ["dtls_path"]); ("writer_id_string", Writes PerPlugin ["writer_id_string"]);
  ("promisc", Writes Global ["promisc"]); ("pcap_filter", Writes Global ["clbuf"]);
  ("pcap_protocol", Writes Global ["pcap_protocol"]); ("pcap_savefile", Writes Global ["pcap_savefile"]);
  ("pcap_savefile_wait", Writes Global ["pcap_sf_wait"]);
  ("pcap_savefile_delay", Writes Global ["pcap_sf_delay"]);
  ("pcap_savefile_replay", Writes Global ["pcap_sf_replay"]); ("pcap_interface", Writes Global ["pcap_if"]);
  ("pcap_interface_wait", Writes Global ["pcap_if_wait"]); ("pcap_direction", Writes Global ["pcap_direction"]);
  ("pcap_ifindex", Writes Global ["pcap_ifindex"]);
  ("pcap_interfaces_map", Writes Global ["pcap_interfaces_map"]);
  ("pcap_arista_trailer_offset", Writes Global ["pcap_arista_trailer_offset"]);
  ("pcap_arista_trailer_flag_value", Writes Global ["pcap_arista_trailer_flag_value"]);
  ("core_proc_name", Writes Global ["proc_name"]); ("proc_priority", Writes PerPlugin ["proc_priority"]);
  ("pmacctd_as", Writes Global ["nfacctd_as"]); ("uacctd_as", Writes Global ["nfacctd_as"]);
  ("pmacctd_net", Writes PerPlugin ["nfacctd_net"]); ("uacctd_net", Writes PerPlugin ["nfacctd_net"]);
  ("use_ip_next_hop", Writes Global ["use_ip_next_hop"]); ("thread_stack", Writes Global ["thread_stack"]);
  ("plugins", Unhandled); ("plugin_pipe_size", Writes PerPlugin ["pipe_size"]);
  ("plugin_buffer_size", Writes PerPlugin ["buffer_size"]); ("plugin_pipe_zmq", Writes PerPlugin ["pipe_zmq"]);
  ("plugin_pipe_zmq_retry", Writes PerPlugin ["pipe_zmq_retry"]); ("plugin_pipe_zmq_profile", Special PerPlugin ["buffer_size"; "pipe_zmq_profile"]);
  ("plugin_pipe_zmq_hwm", Writes PerPlugin ["pipe_zmq_hwm"]);
  ("plugin_exit_any", Writes Global ["plugin_exit_any"]); ("files_umask", Writes PerPlugin ["files_umask"]);
  ("files_uid", Writes PerPlugin ["files_uid"]); ("files_gid", Writes PerPlugin ["files_gid"]);
  ("networks_mask", Writes PerPlugin ["networks_mask"]); ("networks_file", Writes PerPlugin ["networks_file"]);
  ("networks_file_filter", Writes PerPlugin ["networks_file_filter"]);
  ("networks_file_no_lpm", Writes PerPlugin ["networks_file_no_lpm"]);
  ("networks_no_mask_if_zero", Writes PerPlugin ["networks_no_mask_if_zero"]);
  ("networks_cache_entries", Writes PerPlugin ["networks_cache_entries"]);
  ("ports_file", Writes PerPlugin ["ports_file"]); ("protos_file", Writes PerPlugin ["protos_file"]);
  ("tos_file", Writes PerPlugin ["tos_file"]); ("timestamps_rfc3339", Writes PerPlugin ["timestamps_rfc9557"]);
  ("timestamps_rfc9557", Writes PerPlugin ["timestamps_rfc9557"]);
  ("timestamps_utc", Writes PerPlugin ["timestamps_utc"]);
  ("timestamps_secs", Writes PerPlugin ["timestamps_secs"]);
  ("timestamps_since_epoch", Writes PerPlugin ["timestamps_since_epoch"]);
  ("tcpflags_encode_as_array", Writes PerPlugin ["tcpflags_encode_as_array"]);
  ("bgp_comms_encode_as_array", Writes PerPlugin ["bgp_comms_encode_as_array"]);
  ("bgp_comms_num", Writes PerPlugin ["bgp_comms_num"]);
  ("as_path_encode_as_array", Writes PerPlugin ["as_path_encode_as_array"]);
  ("fwd_status_encode_as_string", Writes PerPlugin ["fwd_status_encode_as_string"]);
  ("tos_encode_as_dscp", Writes PerPlugin ["tos_encode_as_dscp"]);
  ("imt_path", Writes PerPlugin ["imt_plugin_path"]); ("imt_buckets", Writes PerPlugin ["buckets"]);
  ("imt_mem_pools_number", Writes PerPlugin ["num_memory_pools"]);
  ("imt_mem_pools_size", Writes PerPlugin ["memory_pool_size"]); ("sql_db", Writes PerPlugin ["sql_db"]);
  ("sql_table", Writes PerPlugin ["sql_table"]); ("sql_table_schema", Writes PerPlugin ["sql_table_schema"]);
  ("sql_table_version", Writes PerPlugin ["sql_table_version"]);
  ("sql_table_type", Writes PerPlugin ["sql_table_type"]);
  ("sql_conn_ca_file", Writes PerPlugin ["sql_conn_ca_file"]); ("sql_host", Writes PerPlugin ["sql_host"]);
  ("sql_port", Writes PerPlugin ["sql_port"]); ("sql_data", Writes PerPlugin ["sql_data"]);
  ("sql_user", Writes PerPlugin ["sql_user"]); ("sql_passwd", Writes PerPlugin ["sql_passwd"]);
  ("sql_refresh_time", Writes PerPlugin ["sql_refresh_time"]);
  ("sql_startup_delay", Writes PerPlugin ["sql_startup_delay"]);
  ("sql_optimize_clauses", Writes PerPlugin ["sql_optimize_clauses"]);
  ("sql_history", Writes PerPlugin ["sql_history_howmany"; "sql_history"]);
  ("sql_history_offset", Writes PerPlugin ["sql_history_offset"]);
  ("sql_history_roundoff", Writes PerPlugin ["sql_history_roundoff"]);
  ("sql_backup_host", Writes PerPlugin ["sql_backup_host"]);
  ("sql_recovery_backup_host", Writes PerPlugin ["sql_backup_host"]);
  ("sql_delimiter", Writes PerPlugin ["sql_delimiter"]);
  ("sql_max_writers", Writes PerPlugin ["dump_max_writers"]);
  ("sql_trigger_exec", Writes PerPlugin ["sql_trigger_exec"]);
  ("sql_trigger_time", Writes PerPlugin ["sql_trigger_time_howmany"; "sql_trigger_time"]);
  ("sql_cache_entries", Writes PerPlugin ["sql_cache_entries"]);
  ("sql_dont_try_update", Writes PerPlugin ["sql_dont_try_update"]);
  ("sql_preprocess", Writes PerPlugin ["sql_preprocess"]);
  ("sql_preprocess_type", Writes PerPlugin ["sql_preprocess_type"]);
  ("sql_multi_values", Writes PerPlugin ["sql_multi_values"]);
  ("sql_locking_style", Writes PerPlugin ["sql_locking_style"]);
  ("sql_use_copy", Writes PerPlugin ["sql_use_copy"]); ("sql_num_protos", Writes PerPlugin ["num_protos"]);
  ("sql_num_hosts", Writes PerPlugin ["num_hosts"]);
  ("print_refresh_time", Writes PerPlugin ["sql_refresh_time"]);
  ("print_cache_entries", Writes PerPlugin ["print_cache_entries"]);
  ("print_markers", Writes PerPlugin ["print_markers"]); ("print_output", Writes PerPlugin ["print_output"]);
  ("print_output_file", Writes PerPlugin ["sql_table"]);
  ("print_output_file_append", Writes PerPlugin ["print_output_file_append"]);
  ("print_output_lock_file", Writes PerPlugin ["print_output_lock_file"]);
  ("print_output_separator", Writes PerPlugin ["print_output_separator"]);
  ("print_output_custom_lib", Writes PerPlugin ["print_output_custom_lib"]);
  ("print_output_custom_cfg_file", Writes PerPlugin ["print_output_custom_cfg_file"]);
  ("print_write_empty_file", Writes PerPlugin ["print_write_empty_file"]);
  ("print_latest_file", Writes PerPlugin ["print_latest_file"]);
  ("print_num_protos", Writes PerPlugin ["num_protos"]);
  ("print_trigger_exec", Writes PerPlugin ["sql_trigger_exec"]);
  ("print_history", Writes PerPlugin ["sql_history_howmany"; "sql_history"]);
  ("print_history_offset", Writes PerPlugin ["sql_history_offset"]);
  ("print_history_roundoff", Writes PerPlugin ["sql_history_roundoff"]);
  ("print_max_writers", Writes PerPlugin ["dump_max_writers"]);
  ("print_preprocess", Writes PerPlugin ["sql_preprocess"]);
  ("print_preprocess_type", Writes PerPlugin ["sql_preprocess_type"]);
  ("print_startup_delay", Writes PerPlugin ["sql_startup_delay"]);
  ("avro_buffer_size", Writes PerPlugin ["avro_buffer_size"]);
  ("avro_schema_output_file", Writes PerPlugin ["avro_schema_file"]);
  ("avro_schema_file", Writes PerPlugin ["avro_schema_file"]);
  ("amqp_refresh_time", Writes PerPlugin ["sql_refresh_time"]);
  ("amqp_history", Writes PerPlugin ["sql_history_howmany"; "sql_history"]);
  ("amqp_history_offset", Writes PerPlugin ["sql_history_offset"]);
  ("amqp_history_roundoff", Writes PerPlugin ["sql_history_roundoff"]);
  ("amqp_time_roundoff", Writes PerPlugin ["sql_history_roundoff"]);
  ("amqp_host", Writes PerPlugin ["sql_host"]); ("amqp_user", Writes PerPlugin ["sql_user"])].

Definition keys_2 : list (string * key_spec) := [
  ("amqp_passwd", Writes PerPlugin ["sql_passwd"]); ("amqp_exchange", Writes PerPlugin ["sql_db"]);
  ("amqp_exchange_type", Writes PerPlugin ["amqp_exchange_type"]);
  ("amqp_routing_key", Writes PerPlugin ["sql_table"]);
  ("amqp_routing_key_rr", Writes PerPlugin ["amqp_routing_key_rr"]);
  ("amqp_persistent_msg", Writes PerPlugin ["amqp_persistent_msg"]);
  ("amqp_frame_max", Writes PerPlugin ["amqp_frame_max"]);
  ("amqp_cache_entries", Writes PerPlugin ["print_cache_entries"]);
  ("amqp_max_writers", Writes PerPlugin ["dump_max_writers"]);
  ("amqp_preprocess", Writes PerPlugin ["sql_preprocess"]);
  ("amqp_preprocess_type", Writes PerPlugin ["sql_preprocess_type"]);
  ("amqp_startup_delay", Writes PerPlugin ["sql_startup_delay"]);
  ("amqp_heartbeat_interval", Writes PerPlugin ["amqp_heartbeat_interval"]);
  ("amqp_multi_values", Writes PerPlugin ["sql_multi_values"]);
  ("amqp_num_protos", Writes PerPlugin ["num_protos"]); ("amqp_vhost", Writes PerPlugin ["amqp_vhost"]);
  ("amqp_markers", Writes PerPlugin ["print_markers"]);
  ("amqp_output", Writes PerPlugin ["message_broker_output"]);
  ("amqp_avro_schema_routing_key", Writes PerPlugin ["amqp_avro_schema_routing_key"]);
  ("amqp_avro_schema_refresh_time", Writes PerPlugin ["amqp_avro_schema_refresh_time"]);
  ("amqp_trigger_exec", Writes PerPlugin ["sql_trigger_exec"]);
  ("kafka_refresh_time", Writes PerPlugin ["sql_refresh_time"]);
  ("kafka_history", Writes PerPlugin ["sql_history_howmany"; "sql_history"]);
  ("kafka_history_offset", Writes PerPlugin ["sql_history_offset"]);
  ("kafka_history_roundoff", Writes PerPlugin ["sql_history_roundoff"]);
  ("kafka_broker_host", Writes PerPlugin ["sql_host"]);
  ("kafka_broker_port", Writes PerPlugin ["kafka_broker_port"]);
  ("kafka_topic", Writes PerPlugin ["sql_table"]); ("kafka_topic_rr", Writes PerPlugin ["amqp_routing_key_rr"]);
  ("kafka_partition", Writes PerPlugin ["kafka_partition"]);
  ("kafka_partition_dynamic", Writes PerPlugin ["kafka_partition_dynamic"]);
  ("kafka_partition_key", Writes PerPlugin ["kafka_partition_keylen"; "kafka_partition_key"]);
  ("kafka_cache_entries", Writes PerPlugin ["print_cache_entries"]);
  ("kafka_max_writers", Writes PerPlugin ["dump_max_writers"]);
  ("kafka_preprocess", Writes PerPlugin ["sql_preprocess"]);
  ("kafka_preprocess_type", Writes PerPlugin ["sql_preprocess_type"]);
  ("kafka_startup_delay", Writes PerPlugin ["sql_startup_delay"]);
  ("kafka_multi_values", Writes PerPlugin ["sql_multi_values"]);
  ("kafka_num_protos", Writes PerPlugin ["num_protos"]); ("kafka_markers", Writes PerPlugin ["print_markers"]);
  ("kafka_output", Writes PerPlugin ["message_broker_output"]);
  ("kafka_avro_schema_registry", Writes PerPlugin ["kafka_avro_schema_registry"]);
  ("kafka_config_file", Writes PerPlugin ["kafka_config_file"]);
  ("kafka_trigger_exec", Writes PerPlugin ["sql_trigger_exec"]);
  ("nfacctd_proc_name", Writes Global ["proc_name"]); ("nfacctd_port", Writes Global ["nfacctd_port"]);
  ("nfacctd_ip", Writes Global ["nfacctd_ip"]); ("nfacctd_interface", Writes Global ["nfacctd_interface"]);
  ("nfacctd_ipv6_only", Writes Global ["nfacctd_ipv6_only"]);
  ("nfacctd_rp_ebpf_prog", Writes Global ["nfacctd_rp_ebpf_prog"]);
  ("nfacctd_allow_file", Writes Global ["nfacctd_allow_file"]);
  ("nfacctd_nonroot", Writes Global ["pmacctd_nonroot"]); ("nfacctd_time_secs", Writes Global ["nfacctd_time"]);
  ("nfacctd_time_new", Writes Global ["nfacctd_time_new"; "nfacctd_time"]);
  ("nfacctd_as_new", Writes Global ["nfacctd_as"]); ("nfacctd_as", Writes Global ["nfacctd_as"]);
  ("nfacctd_net", Writes PerPlugin ["nfacctd_net"]); ("nfacctd_mcast_groups", Special Global []);
  ("nfacctd_peer_as", Writes PerPlugin ["nfprobe_peer_as"]);
  ("nfacctd_pipe_size", Writes Global ["nfacctd_pipe_size"]);
  ("nfacctd_pro_rating", Writes PerPlugin ["nfacctd_pro_rating"]);
  ("nfacctd_templates_file", Writes Global ["nfacctd_templates_file"]);
  ("nfacctd_templates_receiver", Writes Global ["nfacctd_templates_receiver"]);
  ("nfacctd_templates_port", Writes Global ["nfacctd_templates_port"]);
  ("nfacctd_account_options", Writes Global ["nfacctd_account_options"]);
  ("nfacctd_stitching", Writes PerPlugin ["nfacctd_stitching"]);
  ("nfacctd_ext_sampling_rate", Writes Global ["ext_sampling_rate"]);
  ("nfacctd_renormalize", Writes Global ["sfacctd_renormalize"]);
  ("nfacctd_disable_sanity_checks", Writes Global ["nfacctd_disable_sanity_checks"]);
  ("nfacctd_disable_opt_scope_check", Writes Global ["nfacctd_disable_opt_scope_check"]);
  ("nfacctd_ignore_exporter_address", Writes Global ["nfacctd_ignore_exporter_address"]);
  ("nfacctd_kafka_broker_host", Writes Global ["nfacctd_kafka_broker_host"]);
  ("nfacctd_kafka_broker_port", Writes Global ["nfacctd_kafka_broker_port"]);
  ("nfacctd_kafka_topic", Writes Global ["nfacctd_kafka_topic"]);
  ("nfacctd_kafka_config_file", Writes Global ["nfacctd_kafka_config_file"]);
  ("nfacctd_zmq_address", Writes Global ["nfacctd_zmq_address"]);
  ("nfacctd_dtls_port", Writes Global ["nfacctd_dtls_port"]);
  ("nfacctd_pre_processing_checks", Writes Global ["nfacctd_pre_processing_checks"]);
  ("mpls_label_stack_encode_as_array", Writes PerPlugin ["mpls_label_stack_encode_as_array"]);
  ("pmacctd_proc_name", Writes Global ["proc_name"]);
  ("pmacctd_force_frag_handling", Writes Global ["handle_fragments"]);
  ("pmacctd_frag_buffer_size", Writes Global ["frag_bufsz"]);
  ("pmacctd_flow_buffer_size", Writes Global ["flow_bufsz"]);
  ("pmacctd_flow_buffer_buckets", Writes Global ["flow_hashsz"]);
  ("pmacctd_conntrack_buffer_size", Writes Global ["conntrack_bufsz"]);
  ("pmacctd_flow_lifetime", Writes Global ["flow_lifetime"]);
  ("pmacctd_flow_tcp_lifetime", Writes Global ["flow_tcp_lifetime"]);
  ("pmacctd_ext_sampling_rate", Writes Global ["ext_sampling_rate"]);
  ("pmacctd_pipe_size", Writes Global ["nfacctd_pipe_size"]);
  ("pmacctd_stitching", Writes PerPlugin ["nfacctd_stitching"]);
  ("pmacctd_renormalize", Writes Global ["sfacctd_renormalize"]);
  ("pmacctd_nonroot", Writes Global ["pmacctd_nonroot"]);
  ("pmacctd_time_new", Writes Global ["nfacctd_time_new"; "nfacctd_time"]);
  ("uacctd_proc_name", Writes Global ["proc_name"]);
  ("uacctd_force_frag_handling", Writes Global ["handle_fragments"]);
  ("uacctd_frag_buffer_size", Writes Global ["frag_bufsz"]);
  ("uacctd_flow_buffer_size", Writes Global ["flow_bufsz"]);
  ("uacctd_flow_buffer_buckets", Writes Global ["flow_hashsz"]);
  ("uacctd_conntrack_buffer_size", Writes Global ["conntrack_bufsz"]);
  ("uacctd_flow_lifetime", Writes Global ["flow_lifetime"]);
  ("uacctd_flow_tcp_lifetime", Writes Global ["flow_tcp_lifetime"]);
  ("uacctd_ext_sampling_rate", Writes Global ["ext_sampling_rate"]);
  ("uacctd_stitching", Writes PerPlugin ["nfacctd_stitching"]);
  ("uacctd_renormalize", Writes Global ["sfacctd_renormalize"]);
  ("uacctd_direction", Writes Global ["pcap_direction"]);
  ("telemetry_daemon", Writes Global ["telemetry_daemon"]);
  ("telemetry_daemon_port_tcp", Writes Global ["telemetry_port_tcp"]);
  ("telemetry_daemon_port_udp", Writes Global ["telemetry_port_udp"]);
  ("telemetry_daemon_ip", Writes Global ["telemetry_ip"]);
  ("telemetry_daemon_interface", Writes Global ["telemetry_interface"]);
  ("telemetry_daemon_ipv6_only", Writes Global ["telemetry_ipv6_only"]);
  ("telemetry_daemon_udp_notif_port", Writes Global ["telemetry_udp_notif_port"]);
  ("telemetry_daemon_udp_notif_ip", Writes Global ["telemetry_udp_notif_ip"]);
  ("telemetry_daemon_udp_notif_interface", Writes Global ["telemetry_udp_notif_interface"]);
  ("telemetry_daemon_udp_notif_ipv6_only", Writes Global ["telemetry_udp_notif_ipv6_only"]);
  ("telemetry_daemon_udp_notif_nmsgs", Writes Global ["telemetry_udp_notif_nmsgs"]);
  ("telemetry_daemon_udp_notif_rp_ebpf_prog", Writes Global ["telemetry_udp_notif_rp_ebpf_prog"]);
  ("telemetry_daemon_grpc_collector_conf", Writes Global ["telemetry_grpc_collector_conf"]);
  ("telemetry_daemon_decoder", Writes Global ["telemetry_decoder"]);
  ("telemetry_daemon_max_peers", Writes Global ["telemetry_max_peers"]);
  ("telemetry_daemon_peer_timeout", Writes Global ["telemetry_peer_timeout"]);
  ("telemetry_daemon_tag_map", Writes Global ["telemetry_tag_map"]);
  ("telemetry_daemon_allow_file", Writes Global ["telemetry_allow_file"]);
  ("telemetry_daemon_pipe_size", Writes Global ["telemetry_pipe_size"]);
  ("telemetry_daemon_ipprec", Writes Global ["telemetry_ipprec"]);
  ("telemetry_daemon_msglog_output", Writes Global ["telemetry_msglog_output"]);
  ("telemetry_daemon_msglog_file", Writes Global ["telemetry_msglog_file"]);
  ("telemetry_daemon_msglog_amqp_host", Writes Global ["telemetry_msglog_amqp_host"]);
  ("telemetry_daemon_msglog_amqp_vhost", Writes Global ["telemetry_msglog_amqp_vhost"]);
  ("telemetry_daemon_msglog_amqp_user", Writes Global ["telemetry_msglog_amqp_user"]);
  ("telemetry_daemon_msglog_amqp_passwd", Writes Global ["telemetry_msglog_amqp_passwd"]);
  ("telemetry_daemon_msglog_amqp_exchange", Writes Global ["telemetry_msglog_amqp_exchange"]);
  ("telemetry_daemon_msglog_amqp_exchange_type", Writes Global ["telemetry_msglog_amqp_exchange_type"]);
  ("telemetry_daemon_msglog_amqp_routing_key", Writes Global ["telemetry_msglog_amqp_routing_key"]);
  ("telemetry_daemon_msglog_amqp_routing_key_rr", Writes Global ["telemetry_msglog_amqp_routing_key_rr"]);
  ("telemetry_daemon_msglog_amqp_persistent_msg", Writes Global ["telemetry_msglog_amqp_persistent_msg"]);
  ("telemetry_daemon_msglog_amqp_frame_max", Writes Global ["telemetry_msglog_amqp_frame_max"]);
  ("telemetry_daemon_msglog_amqp_heartbeat_interval", Writes Global ["telemetry_msglog_amqp_heartbeat_interval"]);
  ("telemetry_daemon_msglog_amqp_retry", Writes Global ["telemetry_msglog_amqp_retry"]);
  ("telemetry_daemon_msglog_kafka_broker_host", Writes Global ["telemetry_msglog_kafka_broker_host"])].

Definition keys_3 : list (string * key_spec) := [
  ("telemetry_daemon_msglog_kafka_broker_port", Writes Global ["telemetry_msglog_kafka_broker_port"]);
  ("telemetry_daemon_msglog_kafka_topic", Writes Global ["telemetry_msglog_kafka_topic"]);
  ("telemetry_daemon_msglog_kafka_topic_rr", Writes Global ["telemetry_msglog_kafka_topic_rr"]);
  ("telemetry_daemon_msglog_kafka_partition", Writes Global ["telemetry_msglog_kafka_partition"]);
  ("telemetry_daemon_msglog_kafka_partition_key", Writes Global ["telemetry_msglog_kafka_partition_keylen"; "telemetry_msglog_kafka_partition_key"]);
  ("telemetry_daemon_msglog_kafka_retry", Writes Global ["telemetry_msglog_kafka_retry"]);
  ("telemetry_daemon_msglog_kafka_config_file", Writes Global ["telemetry_msglog_kafka_config_file"]);
  ("telemetry_dump_output", Writes Global ["telemetry_dump_output"]);
  ("telemetry_dump_file", Writes Global ["telemetry_dump_file"]);
  ("telemetry_dump_latest_file", Writes Global ["telemetry_dump_latest_file"]);
  ("telemetry_dump_refresh_time", Writes Global ["telemetry_dump_refresh_time"]);
  ("telemetry_dump_time_slots", Writes Global ["telemetry_dump_time_slots"]);
  ("telemetry_dump_amqp_host", Writes Global ["telemetry_dump_amqp_host"]);
  ("telemetry_dump_amqp_vhost", Writes Global ["telemetry_dump_amqp_vhost"]);
  ("telemetry_dump_amqp_user", Writes Global ["telemetry_dump_amqp_user"]);
  ("telemetry_dump_amqp_passwd", Writes Global ["telemetry_dump_amqp_passwd"]);
  ("telemetry_dump_amqp_exchange", Writes Global ["telemetry_dump_amqp_exchange"]);
  ("telemetry_dump_amqp_exchange_type", Writes Global ["telemetry_dump_amqp_exchange_type"]);
  ("telemetry_dump_amqp_routing_key", Writes Global ["telemetry_dump_amqp_routing_key"]);
  ("telemetry_dump_amqp_routing_key_rr", Writes Global ["telemetry_dump_amqp_routing_key_rr"]);
  ("telemetry_dump_amqp_persistent_msg", Writes Global ["telemetry_dump_amqp_persistent_msg"]);
  ("telemetry_dump_amqp_frame_max", Writes Global ["telemetry_dump_amqp_frame_max"]);
  ("telemetry_dump_amqp_heartbeat_interval", Writes Global ["telemetry_dump_amqp_heartbeat_interval"]);
  ("telemetry_dump_kafka_broker_host", Writes Global ["telemetry_dump_kafka_broker_host"]);
  ("telemetry_dump_kafka_broker_port", Writes Global ["telemetry_dump_kafka_broker_port"]);
  ("telemetry_dump_kafka_topic", Writes Global ["telemetry_dump_kafka_topic"]);
  ("telemetry_dump_kafka_topic_rr", Writes Global ["telemetry_dump_kafka_topic_rr"]);
  ("telemetry_dump_kafka_partition", Writes Global ["telemetry_dump_kafka_partition"]);
  ("telemetry_dump_kafka_partition_key", Writes Global ["telemetry_dump_kafka_partition_keylen"; "telemetry_dump_kafka_partition_key"]);
  ("telemetry_dump_kafka_config_file", Writes Global ["telemetry_dump_kafka_config_file"]);
  ("telemetry_dump_workers", Writes Global ["telemetry_dump_workers"]);
  ("maps_refresh", Writes Global ["maps_refresh"]); ("maps_index", Writes Global ["maps_index"]);
  ("maps_entries", Writes PerPlugin ["maps_entries"]); ("maps_row_len", Writes PerPlugin ["maps_row_len"]);
  ("pre_tag_map", Writes PerPlugin ["pre_tag_map"]);
  ("pre_tag_map_dont_recirculate", Writes Global ["pre_tag_map_dont_recirculate"]); ("pre_tag_filter", Special NamedOnly ["ptf"]);
  ("pre_tag2_filter", Special NamedOnly ["pt2f"]); ("pre_tag_label_filter", Special NamedOnly ["ptlf"]);
  ("pre_tag_label_encode_as_map", Writes PerPlugin ["pretag_label_encode_as_map"]);
  ("post_tag", Writes PerPlugin ["post_tag"]); ("post_tag2", Writes PerPlugin ["post_tag2"]);
  ("sampling_rate", Writes PerPlugin ["sampling_rate"]); ("sampling_map", Writes Global ["sampling_map"]);
  ("sfacctd_proc_name", Writes Global ["proc_name"]); ("sfacctd_port", Writes Global ["nfacctd_port"]);
  ("sfacctd_ip", Writes Global ["nfacctd_ip"]); ("sfacctd_interface", Writes Global ["nfacctd_interface"]);
  ("sfacctd_rp_ebpf_prog", Writes Global ["nfacctd_rp_ebpf_prog"]);
  ("sfacctd_allow_file", Writes Global ["nfacctd_allow_file"]);
  ("sfacctd_as_new", Writes Global ["nfacctd_as"]); ("sfacctd_as", Writes Global ["nfacctd_as"]);
  ("sfacctd_net", Writes PerPlugin ["nfacctd_net"]); ("sfacctd_peer_as", Writes PerPlugin ["nfprobe_peer_as"]);
  ("sfacctd_nonroot", Writes Global ["pmacctd_nonroot"]);
  ("sfacctd_time_new", Writes Global ["nfacctd_time_new"; "nfacctd_time"]);
  ("sfacctd_pipe_size", Writes Global ["nfacctd_pipe_size"]);
  ("sfacctd_renormalize", Writes Global ["sfacctd_renormalize"]);
  ("sfacctd_disable_sanity_checks", Writes Global ["nfacctd_disable_sanity_checks"]);
  ("sfacctd_mcast_groups", Special Global []); ("sfacctd_stitching", Writes PerPlugin ["nfacctd_stitching"]);
  ("sfacctd_ext_sampling_rate", Writes Global ["ext_sampling_rate"]);
  ("sfacctd_counter_output", Writes Global ["sfacctd_counter_output"]);
  ("sfacctd_counter_file", Writes Global ["sfacctd_counter_file"]);
  ("sfacctd_counter_amqp_host", Writes Global ["sfacctd_counter_amqp_host"]);
  ("sfacctd_counter_amqp_vhost", Writes Global ["sfacctd_counter_amqp_vhost"]);
  ("sfacctd_counter_amqp_user", Writes Global ["sfacctd_counter_amqp_user"]);
  ("sfacctd_counter_amqp_passwd", Writes Global ["sfacctd_counter_amqp_passwd"]);
  ("sfacctd_counter_amqp_exchange", Writes Global ["sfacctd_counter_amqp_exchange"]);
  ("sfacctd_counter_amqp_exchange_type", Writes Global ["sfacctd_counter_amqp_exchange_type"]);
  ("sfacctd_counter_amqp_routing_key", Writes Global ["sfacctd_counter_amqp_routing_key"]);
  ("sfacctd_counter_amqp_persistent_msg", Writes Global ["sfacctd_counter_amqp_persistent_msg"]);
  ("sfacctd_counter_amqp_frame_max", Writes Global ["sfacctd_counter_amqp_frame_max"]);
  ("sfacctd_counter_amqp_heartbeat_interval", Writes Global ["sfacctd_counter_amqp_heartbeat_interval"]);
  ("sfacctd_counter_amqp_retry", Writes Global ["sfacctd_counter_amqp_retry"]);
  ("sfacctd_counter_kafka_broker_host", Writes Global ["sfacctd_counter_kafka_broker_host"]);
  ("sfacctd_counter_kafka_broker_port", Writes Global ["sfacctd_counter_kafka_broker_port"]);
  ("sfacctd_counter_kafka_topic", Writes Global ["sfacctd_counter_kafka_topic"]);
  ("sfacctd_counter_kafka_partition", Writes Global ["sfacctd_counter_kafka_partition"]);
  ("sfacctd_counter_kafka_partition_key", Writes Global ["sfacctd_counter_kafka_partition_keylen"; "sfacctd_counter_kafka_partition_key"]);
  ("sfacctd_counter_kafka_retry", Writes Global ["sfacctd_counter_kafka_retry"]);
  ("sfacctd_counter_kafka_config_file", Writes Global ["sfacctd_counter_kafka_config_file"]);
  ("sfacctd_ignore_exporter_address", Writes Global ["nfacctd_ignore_exporter_address"]);
  ("sfacctd_kafka_broker_host", Writes Global ["nfacctd_kafka_broker_host"]);
  ("sfacctd_kafka_broker_port", Writes Global ["nfacctd_kafka_broker_port"]);
  ("sfacctd_kafka_topic", Writes Global ["nfacctd_kafka_topic"]);
  ("sfacctd_kafka_config_file", Writes Global ["nfacctd_kafka_config_file"]);
  ("sfacctd_zmq_address", Writes Global ["nfacctd_zmq_address"])].

Definition keys_4 : list (string * key_spec) := [
  ("classifier_num_roots", Writes Global ["classifier_table_num"]);
  ("classifier_max_flows", Writes Global ["ndpi_max_flows"]);
  ("classifier_proto_guess", Writes Global ["ndpi_proto_guess"]);
  ("classifier_idle_scan_period", Writes Global ["ndpi_idle_scan_period"]);
  ("classifier_idle_max_time", Writes Global ["ndpi_idle_max_time"]);
  ("classifier_idle_scan_budget", Writes Global ["ndpi_idle_scan_budget"]);
  ("classifier_giveup_proto_tcp", Writes Global ["ndpi_giveup_proto_tcp"]);
  ("classifier_giveup_proto_udp", Writes Global ["ndpi_giveup_proto_udp"]);
  ("classifier_giveup_proto_other", Writes Global ["ndpi_giveup_proto_other"])].

Definition keys_5 : list (string * key_spec) := [
  ("nfprobe_timeouts", Writes PerPlugin ["nfprobe_timeouts"]);
  ("nfprobe_hoplimit", Writes PerPlugin ["nfprobe_hoplimit"]);
  ("nfprobe_maxflows", Writes PerPlugin ["nfprobe_maxflows"]);
  ("nfprobe_receiver", Writes PerPlugin ["nfprobe_receiver"]);
  ("nfprobe_dtls", Writes PerPlugin ["nfprobe_dtls"]);
  ("nfprobe_dtls_verify_cert", Writes PerPlugin ["nfprobe_dtls_verify_cert"]);
  ("nfprobe_engine", Writes PerPlugin ["nfprobe_engine"]);
  ("nfprobe_version", Writes PerPlugin ["nfprobe_version"]);
  ("nfprobe_peer_as", Writes PerPlugin ["nfprobe_peer_as"]);
  ("nfprobe_source_ip", Writes PerPlugin ["nfprobe_source_ip"]);
  ("nfprobe_ipprec", Writes PerPlugin ["nfprobe_ipprec"]);
  ("nfprobe_direction", Writes NamedOnly ["nfprobe_direction"]);
  ("nfprobe_ifindex", Writes NamedOnly ["nfprobe_ifindex_type"; "nfprobe_ifindex"]);
  ("nfprobe_dont_cache", Writes PerPlugin ["nfprobe_dont_cache"]);
  ("nfprobe_ifindex_override", Writes PerPlugin ["nfprobe_ifindex_override"]);
  ("nfprobe_tstamp_usec", Writes PerPlugin ["nfprobe_tstamp_usec"]);
  ("sfprobe_receiver", Writes PerPlugin ["sfprobe_receiver"]);
  ("sfprobe_agentip", Writes PerPlugin ["sfprobe_agentip"]);
  ("sfprobe_agentsubid", Writes PerPlugin ["sfprobe_agentsubid"]);
  ("sfprobe_peer_as", Writes PerPlugin ["nfprobe_peer_as"]);
  ("sfprobe_source_ip", Writes PerPlugin ["nfprobe_source_ip"]);
  ("sfprobe_ipprec", Writes PerPlugin ["nfprobe_ipprec"]);
  ("sfprobe_direction", Writes NamedOnly ["nfprobe_direction"]);
  ("sfprobe_ifindex", Writes NamedOnly ["nfprobe_ifindex_type"; "nfprobe_ifindex"]);
  ("sfprobe_ifspeed", Writes PerPlugin ["sfprobe_ifspeed"]);
  ("sfprobe_ifindex_override", Writes PerPlugin ["nfprobe_ifindex_override"]);
  ("tee_receivers", Writes PerPlugin ["tee_receivers"]);
  ("tee_source_ip", Writes PerPlugin ["nfprobe_source_ip"]);
  ("tee_transparent", Writes PerPlugin ["tee_transparent"]);
  ("tee_max_receivers", Writes PerPlugin ["tee_max_receivers"]);
  ("tee_max_receiver_pools", Writes PerPlugin ["tee_max_receiver_pools"]);
  ("tee_ipprec", Writes PerPlugin ["nfprobe_ipprec"]); ("tee_pipe_size", Writes PerPlugin ["tee_pipe_size"]);
  ("tee_kafka_config_file", Writes PerPlugin ["tee_kafka_config_file"]);
  ("bgp_daemon", Writes Global ["bgp_daemon"]); ("bgp_daemon_ip", Writes Global ["bgp_daemon_ip"]);
  ("bgp_daemon_interface", Writes Global ["bgp_daemon_interface"]);
  ("bgp_daemon_ipv6_only", Writes Global ["bgp_daemon_ipv6_only"]);
  ("bgp_daemon_id", Writes Global ["bgp_daemon_id"]); ("bgp_daemon_as", Writes Global ["bgp_daemon_as"]);
  ("bgp_daemon_port", Writes Global ["bgp_daemon_port"]);
  ("bgp_daemon_ha", Writes Global ["bgp_bmp_daemon_ha"]);
  ("bgp_daemon_ha_cluster_name", Writes Global ["bgp_bmp_daemon_ha_cluster_name"]);
  ("bgp_daemon_ha_cluster_id", Writes Global ["bgp_bmp_daemon_ha_cluster_id"]);
  ("bgp_daemon_ha_queue_message_timeout", Writes Global ["bgp_bmp_daemon_ha_queue_message_timeout"]);
  ("bgp_daemon_ha_queue_max_size", Writes Global ["bgp_bmp_daemon_ha_queue_max_size"]);
  ("bgp_daemon_rp_ebpf_prog", Writes Global ["bgp_daemon_rp_ebpf_prog"]);
  ("bgp_daemon_add_path_ignore", Writes Global ["bgp_daemon_add_path_ignore"]);
  ("bgp_daemon_tag_map", Writes Global ["bgp_daemon_tag_map"]); ("bgp_daemon_msglog_label_filter", Special Global ["bgp_daemon_msglog_label_filter"]);
  ("bgp_daemon_pipe_size", Writes Global ["bgp_daemon_pipe_size"]);
  ("bgp_daemon_max_peers", Writes Global ["bgp_daemon_max_peers"]);
  ("bgp_daemon_msglog_output", Writes Global ["bgp_daemon_msglog_output"]);
  ("bgp_daemon_msglog_file", Writes Global ["bgp_daemon_msglog_file"]);
  ("bgp_daemon_msglog_avro_schema_file", Writes Global ["bgp_daemon_msglog_avro_schema_file"]);
  ("bgp_daemon_msglog_amqp_host", Writes Global ["bgp_daemon_msglog_amqp_host"]);
  ("bgp_daemon_msglog_amqp_vhost", Writes Global ["bgp_daemon_msglog_amqp_vhost"]);
  ("bgp_daemon_msglog_amqp_user", Writes Global ["bgp_daemon_msglog_amqp_user"]);
  ("bgp_daemon_msglog_amqp_passwd", Writes Global ["bgp_daemon_msglog_amqp_passwd"]);
  ("bgp_daemon_msglog_amqp_exchange", Writes Global ["bgp_daemon_msglog_amqp_exchange"]);
  ("bgp_daemon_msglog_amqp_exchange_type", Writes Global ["bgp_daemon_msglog_amqp_exchange_type"]);
  ("bgp_daemon_msglog_amqp_routing_key", Writes Global ["bgp_daemon_msglog_amqp_routing_key"]);
  ("bgp_daemon_msglog_amqp_routing_key_rr", Writes Global ["bgp_daemon_msglog_amqp_routing_key_rr"]);
  ("bgp_daemon_msglog_amqp_persistent_msg", Writes Global ["bgp_daemon_msglog_amqp_persistent_msg"]);
  ("bgp_daemon_msglog_amqp_frame_max", Writes Global ["bgp_daemon_msglog_amqp_frame_max"]);
  ("bgp_daemon_msglog_amqp_heartbeat_interval", Writes Global ["bgp_daemon_msglog_amqp_heartbeat_interval"]);
  ("bgp_daemon_msglog_amqp_retry", Writes Global ["bgp_daemon_msglog_amqp_retry"]);
  ("bgp_daemon_msglog_kafka_broker_host", Writes Global ["bgp_daemon_msglog_kafka_broker_host"]);
  ("bgp_daemon_msglog_kafka_broker_port", Writes Global ["bgp_daemon_msglog_kafka_broker_port"]);
  ("bgp_daemon_msglog_kafka_topic", Writes Global ["bgp_daemon_msglog_kafka_topic"]);
  ("bgp_daemon_msglog_kafka_topic_rr", Writes Global ["bgp_daemon_msglog_kafka_topic_rr"]);
  ("bgp_daemon_msglog_kafka_partition", Writes Global ["bgp_daemon_msglog_kafka_partition"]);
  ("bgp_daemon_msglog_kafka_partition_key", Writes Global ["bgp_daemon_msglog_kafka_partition_keylen"; "bgp_daemon_msglog_kafka_partition_key"]);
  ("bgp_daemon_msglog_kafka_retry", Writes Global ["bgp_daemon_msglog_kafka_retry"]);
  ("bgp_daemon_msglog_kafka_config_file", Writes Global ["bgp_daemon_msglog_kafka_config_file"]);
  ("bgp_daemon_msglog_kafka_avro_schema_registry", Writes Global ["bgp_daemon_msglog_kafka_avro_schema_registry"]);
  ("bgp_daemon_allow_file", Writes Global ["bgp_daemon_allow_file"]);
  ("bgp_daemon_ipprec", Writes Global ["bgp_daemon_ipprec"]);
  ("bgp_daemon_md5_file", Writes Global ["bgp_daemon_md5_file"]);
  ("bgp_daemon_batch", Writes Global ["bgp_daemon_batch"]);
  ("bgp_daemon_batch_interval", Writes Global ["bgp_daemon_batch_interval"]);
  ("bgp_aspath_radius", Writes Global ["bgp_daemon_aspath_radius"]);
  ("bgp_stdcomm_pattern", Writes Global ["bgp_daemon_stdcomm_pattern"]);
  ("bgp_extcomm_pattern", Writes Global ["bgp_daemon_extcomm_pattern"]);
  ("bgp_lrgcomm_pattern", Writes Global ["bgp_daemon_lrgcomm_pattern"]);
  ("bgp_stdcomm_pattern_to_asn", Writes Global ["bgp_daemon_stdcomm_pattern_to_asn"]);
  ("bgp_lrgcomm_pattern_to_asn", Writes Global ["bgp_daemon_lrgcomm_pattern_to_asn"]);
  ("bgp_blackhole_stdcomm_list", Writes Global ["bgp_blackhole_stdcomm_list"]);
  ("bgp_peer_as_skip_subas", Writes Global ["bgp_daemon_peer_as_skip_subas"]);
  ("bgp_peer_src_as_map", Writes Global ["bgp_daemon_peer_as_src_map"]);
  ("bgp_src_local_pref_map", Writes Global ["bgp_daemon_src_local_pref_map"]);
  ("bgp_src_med_map", Writes Global ["bgp_daemon_src_med_map"]);
  ("bgp_peer_src_as_type", Writes Global ["bgp_daemon_peer_as_src_type"]);
  ("bgp_src_std_comm_type", Writes Global ["bgp_daemon_src_std_comm_type"]);
  ("bgp_src_ext_comm_type", Writes Global ["bgp_daemon_src_ext_comm_type"]);
  ("bgp_src_lrg_comm_type", Writes Global ["bgp_daemon_src_lrg_comm_type"]);
  ("bgp_src_as_path_type", Writes Global ["bgp_daemon_src_as_path_type"]);
  ("bgp_src_local_pref_type", Writes Global ["bgp_daemon_src_local_pref_type"]);
  ("bgp_src_med_type", Writes Global ["bgp_daemon_src_med_type"]);
  ("bgp_src_roa_type", Writes Global ["bgp_daemon_src_roa_type"]);
  ("bgp_agent_map", Writes Global ["bgp_daemon_to_xflow_agent_map"]);
  ("bgp_follow_default", Writes Global ["bgp_daemon_follow_default"]); ("bgp_follow_nexthop", Special Global ["bgp_daemon_follow_nexthop"]);
  ("bgp_follow_nexthop_external", Writes Global ["bgp_daemon_follow_nexthop_external"]);
  ("bgp_disable_router_id_check", Writes Global ["bgp_disable_router_id_check"]);
  ("bgp_neighbors_file", Writes Global ["bgp_daemon_neighbors_file"]);
  ("bgp_table_peer_buckets", Writes Global ["bgp_table_peer_buckets"]);
  ("bgp_table_per_peer_buckets", Writes Global ["bgp_table_per_peer_buckets"]);
  ("bgp_table_attr_hash_buckets", Writes Global ["bgp_table_attr_hash_buckets"]);
  ("bgp_table_per_peer_hash", Writes Global ["bgp_table_per_peer_hash"]);
  ("bgp_table_dump_output", Writes Global ["bgp_table_dump_output"]);
  ("bgp_table_dump_file", Writes Global ["bgp_table_dump_file"]);
  ("bgp_table_dump_latest_file", Writes Global ["bgp_table_dump_latest_file"]);
  ("bgp_table_dump_avro_schema_file", Writes Global ["bgp_table_dump_avro_schema_file"]);
  ("bgp_table_dump_refresh_time", Writes Global ["bgp_table_dump_refresh_time"]);
  ("bgp_table_dump_time_slots", Writes Global ["bgp_table_dump_time_slots"]);
  ("bgp_table_dump_amqp_host", Writes Global ["bgp_table_dump_amqp_host"]);
  ("bgp_table_dump_amqp_vhost", Writes Global ["bgp_table_dump_amqp_vhost"]);
  ("bgp_table_dump_amqp_user", Writes Global ["bgp_table_dump_amqp_user"]);
  ("bgp_table_dump_amqp_passwd", Writes Global ["bgp_table_dump_amqp_passwd"]);
  ("bgp_table_dump_amqp_exchange", Writes Global ["bgp_table_dump_amqp_exchange"]);
  ("bgp_table_dump_amqp_exchange_type", Writes Global ["bgp_table_dump_amqp_exchange_type"]);
  ("bgp_table_dump_amqp_routing_key", Writes Global ["bgp_table_dump_amqp_routing_key"]);
  ("bgp_table_dump_amqp_routing_key_rr", Writes Global ["bgp_table_dump_amqp_routing_key_rr"]);
  ("bgp_table_dump_amqp_persistent_msg", Writes Global ["bgp_table_dump_amqp_persistent_msg"]);
  ("bgp_table_dump_amqp_frame_max", Writes Global ["bgp_table_dump_amqp_frame_max"]);
  ("bgp_table_dump_amqp_heartbeat_interval", Writes Global ["bgp_table_dump_amqp_heartbeat_interval"]);
  ("bgp_table_dump_kafka_broker_host", Writes Global ["bgp_table_dump_kafka_broker_host"]);
  ("bgp_table_dump_kafka_broker_port", Writes Global ["bgp_table_dump_kafka_broker_port"]);
  ("bgp_table_dump_kafka_topic", Writes Global ["bgp_table_dump_kafka_topic"]);
  ("bgp_table_dump_kafka_topic_rr", Writes Global ["bgp_table_dump_kafka_topic_rr"]);
  ("bgp_table_dump_kafka_partition", Writes Global ["bgp_table_dump_kafka_partition"]);
  ("bgp_table_dump_kafka_partition_key", Writes Global ["bgp_table_dump_kafka_partition_keylen"; "bgp_table_dump_kafka_partition_key"]);
  ("bgp_table_dump_kafka_config_file", Writes Global ["bgp_table_dump_kafka_config_file"]);
  ("bgp_table_dump_kafka_avro_schema_registry", Writes Global ["bgp_table_dump_kafka_avro_schema_registry"]);
  ("bgp_table_dump_workers", Writes Global ["bgp_table_dump_workers"]);
  ("bgp_daemon_lg", Writes Global ["bgp_lg"]); ("bgp_daemon_lg_ip", Writes Global ["bgp_lg_ip"]);
  ("bgp_daemon_lg_port", Writes Global ["bgp_lg_port"]);
  ("bgp_daemon_lg_threads", Writes Global ["bgp_lg_threads"])].

Definition keys_6 : list (string * key_spec) := [
  ("bgp_daemon_lg_user", Writes Global ["bgp_lg_user"]);
  ("bgp_daemon_lg_passwd", Writes Global ["bgp_lg_passwd"]);
  ("bgp_daemon_xconnect_map", Writes Global ["bgp_xconnect_map"]); ("bmp_daemon", Writes Global ["bmp_daemon"]);
  ("bmp_daemon_ip", Writes Global ["bmp_daemon_ip"]);
  ("bmp_daemon_interface", Writes Global ["bmp_daemon_interface"]);
  ("bmp_daemon_ipv6_only", Writes Global ["bmp_daemon_ipv6_only"]);
  ("bmp_daemon_port", Writes Global ["bmp_daemon_port"]);
  ("bmp_daemon_ha", Writes Global ["bgp_bmp_daemon_ha"]);
  ("bmp_daemon_ha_cluster_name", Writes Global ["bgp_bmp_daemon_ha_cluster_name"]);
  ("bmp_daemon_ha_cluster_id", Writes Global ["bgp_bmp_daemon_ha_cluster_id"]);
  ("bmp_daemon_ha_queue_message_timeout", Writes Global ["bgp_bmp_daemon_ha_queue_message_timeout"]);
  ("bmp_daemon_ha_queue_max_size", Writes Global ["bgp_bmp_daemon_ha_queue_max_size"]);
  ("bmp_daemon_rp_ebpf_prog", Writes Global ["bmp_daemon_rp_ebpf_prog"]);
  ("bmp_daemon_tag_map", Writes Global ["bmp_daemon_tag_map"]);
  ("bmp_daemon_set_pd", Writes Global ["bmp_daemon_set_pd"]); ("bmp_daemon_msglog_label_filter", Special Global ["bmp_daemon_msglog_label_filter"]);
  ("bmp_daemon_pipe_size", Writes Global ["bmp_daemon_pipe_size"]);
  ("bmp_daemon_max_peers", Writes Global ["bmp_daemon_max_peers"]);
  ("bmp_daemon_allow_file", Writes Global ["bmp_daemon_allow_file"]);
  ("bmp_daemon_ipprec", Writes Global ["bmp_daemon_ipprec"]);
  ("bmp_daemon_batch", Writes Global ["bmp_daemon_batch"]);
  ("bmp_daemon_batch_interval", Writes Global ["bmp_daemon_batch_interval"]);
  ("bmp_agent_map", Writes Global ["bgp_daemon_to_xflow_agent_map"]);
  ("bmp_daemon_msglog_output", Writes Global ["bmp_daemon_msglog_output"]);
  ("bmp_daemon_msglog_file", Writes Global ["bmp_daemon_msglog_file"]);
  ("bmp_daemon_msglog_avro_schema_file", Writes Global ["bmp_daemon_msglog_avro_schema_file"]);
  ("bmp_daemon_msglog_amqp_host", Writes Global ["bmp_daemon_msglog_amqp_host"]);
  ("bmp_daemon_msglog_amqp_vhost", Writes Global ["bmp_daemon_msglog_amqp_vhost"]);
  ("bmp_daemon_msglog_amqp_user", Writes Global ["bmp_daemon_msglog_amqp_user"]);
  ("bmp_daemon_msglog_amqp_passwd", Writes Global ["bmp_daemon_msglog_amqp_passwd"]);
  ("bmp_daemon_msglog_amqp_exchange", Writes Global ["bmp_daemon_msglog_amqp_exchange"]);
  ("bmp_daemon_msglog_amqp_exchange_type", Writes Global ["bmp_daemon_msglog_amqp_exchange_type"]);
  ("bmp_daemon_msglog_amqp_routing_key", Writes Global ["bmp_daemon_msglog_amqp_routing_key"]);
  ("bmp_daemon_msglog_amqp_routing_key_rr", Writes Global ["bmp_daemon_msglog_amqp_routing_key_rr"]);
  ("bmp_daemon_msglog_amqp_persistent_msg", Writes Global ["bmp_daemon_msglog_amqp_persistent_msg"]);
  ("bmp_daemon_msglog_amqp_frame_max", Writes Global ["bmp_daemon_msglog_amqp_frame_max"]);
  ("bmp_daemon_msglog_amqp_heartbeat_interval", Writes Global ["bmp_daemon_msglog_amqp_heartbeat_interval"]);
  ("bmp_daemon_msglog_amqp_retry", Writes Global ["bmp_daemon_msglog_amqp_retry"]);
  ("bmp_daemon_msglog_kafka_broker_host", Writes Global ["bmp_daemon_msglog_kafka_broker_host"]);
  ("bmp_daemon_msglog_kafka_broker_port", Writes Global ["bmp_daemon_msglog_kafka_broker_port"]);
  ("bmp_daemon_msglog_kafka_topic", Writes Global ["bmp_daemon_msglog_kafka_topic"]);
  ("bmp_daemon_msglog_kafka_topic_rr", Writes Global ["bmp_daemon_msglog_kafka_topic_rr"]);
  ("bmp_daemon_msglog_kafka_partition", Writes Global ["bmp_daemon_msglog_kafka_partition"]);
  ("bmp_daemon_msglog_kafka_partition_key", Writes Global ["bmp_daemon_msglog_kafka_partition_keylen"; "bmp_daemon_msglog_kafka_partition_key"]);
  ("bmp_daemon_msglog_kafka_retry", Writes Global ["bmp_daemon_msglog_kafka_retry"]);
  ("bmp_daemon_msglog_kafka_config_file", Writes Global ["bmp_daemon_msglog_kafka_config_file"]);
  ("bmp_daemon_msglog_kafka_avro_schema_registry", Writes Global ["bmp_daemon_msglog_kafka_avro_schema_registry"]);
  ("bmp_table_peer_buckets", Writes Global ["bmp_table_peer_buckets"]);
  ("bmp_table_per_peer_buckets", Writes Global ["bmp_table_per_peer_buckets"]);
  ("bmp_table_attr_hash_buckets", Writes Global ["bmp_table_attr_hash_buckets"]);
  ("bmp_table_per_peer_hash", Writes Global ["bmp_table_per_peer_hash"]);
  ("bmp_dump_output", Writes Global ["bmp_dump_output"]); ("bmp_dump_file", Writes Global ["bmp_dump_file"]);
  ("bmp_dump_latest_file", Writes Global ["bmp_dump_latest_file"]);
  ("bmp_dump_workers", Writes Global ["bmp_dump_workers"]);
  ("bmp_dump_avro_schema_file", Writes Global ["bmp_dump_avro_schema_file"]);
  ("bmp_dump_refresh_time", Writes Global ["bmp_dump_refresh_time"]);
  ("bmp_dump_time_slots", Writes Global ["bmp_dump_time_slots"]);
  ("bmp_dump_exclude_stats", Writes Global ["bmp_dump_exclude_stats"]);
  ("bmp_dump_amqp_host", Writes Global ["bmp_dump_amqp_host"]);
  ("bmp_dump_amqp_vhost", Writes Global ["bmp_dump_amqp_vhost"]);
  ("bmp_dump_amqp_user", Writes Global ["bmp_dump_amqp_user"]);
  ("bmp_dump_amqp_passwd", Writes Global ["bmp_dump_amqp_passwd"]);
  ("bmp_dump_amqp_exchange", Writes Global ["bmp_dump_amqp_exchange"]);
  ("bmp_dump_amqp_exchange_type", Writes Global ["bmp_dump_amqp_exchange_type"]);
  ("bmp_dump_amqp_routing_key", Writes Global ["bmp_dump_amqp_routing_key"]);
  ("bmp_dump_amqp_routing_key_rr", Writes Global ["bmp_dump_amqp_routing_key_rr"]);
  ("bmp_dump_amqp_persistent_msg", Writes Global ["bmp_dump_amqp_persistent_msg"]);
  ("bmp_dump_amqp_frame_max", Writes Global ["bmp_dump_amqp_frame_max"]);
  ("bmp_dump_amqp_heartbeat_interval", Writes Global ["bmp_dump_amqp_heartbeat_interval"]);
  ("bmp_dump_kafka_broker_host", Writes Global ["bmp_dump_kafka_broker_host"]);
  ("bmp_dump_kafka_broker_port", Writes Global ["bmp_dump_kafka_broker_port"]);
  ("bmp_dump_kafka_topic", Writes Global ["bmp_dump_kafka_topic"]);
  ("bmp_dump_kafka_topic_rr", Writes Global ["bmp_dump_kafka_topic_rr"]);
  ("bmp_dump_kafka_partition", Writes Global ["bmp_dump_kafka_partition"]);
  ("bmp_dump_kafka_partition_key", Writes Global ["bmp_dump_kafka_partition_keylen"; "bmp_dump_kafka_partition_key"]);
  ("bmp_dump_kafka_config_file", Writes Global ["bmp_dump_kafka_config_file"]);
  ("bmp_dump_kafka_avro_schema_registry", Writes Global ["bmp_dump_kafka_avro_schema_registry"]);
  ("bmp_daemon_parse_proxy_header", Writes Global ["bmp_daemon_parse_proxy_header"]);
  ("rpki_roas_file", Writes Global ["rpki_roas_file"]); ("rpki_rtr_cache", Writes Global ["rpki_rtr_cache"]);
  ("rpki_rtr_cache_version", Writes Global ["rpki_rtr_cache_version"]);
  ("rpki_rtr_cache_pipe_size", Writes Global ["rpki_rtr_cache_pipe_size"]);
  ("rpki_rtr_cache_ipprec", Writes Global ["rpki_rtr_cache_ipprec"]);
  ("flow_to_rd_map", Writes Global ["nfacctd_flow_to_rd_map"])].

Definition keys_7 : list (string * key_spec) := [
  ("geoipv2_file", Writes Global ["geoipv2_file"])].

Definition keys_8 : list (string * key_spec) := [
  ("uacctd_group", Writes Global ["uacctd_group"]); ("uacctd_nl_size", Writes Global ["uacctd_nl_size"]);
  ("uacctd_threshold", Writes Global ["uacctd_threshold"]); ("tunnel_0", Writes Global ["tunnel0"]);
  ("tmp_asa_bi_flow", Writes PerPlugin ["tmp_asa_bi_flow"]);
  ("tmp_bgp_lookup_compare_ports", Writes Global ["tmp_bgp_lookup_compare_ports"]);
  ("tmp_bgp_daemon_route_refresh", Writes Global ["tmp_bgp_daemon_route_refresh"]);
  ("tmp_bgp_daemon_origin_type_int", Writes Global ["tmp_bgp_daemon_origin_type_int"]);
  ("tmp_telemetry_daemon_udp_notif_legacy", Writes Global ["tmp_telemetry_udp_notif_legacy"]);
  ("tmp_telemetry_decode_cisco_v1_json_string", Writes Global ["tmp_telemetry_decode_cisco_v1_json_string"])].


(** ** The handlers meet their specification *)

Lemma atoi_range s : - 2 ^ 31 <= atoi s <= 2 ^ 31 - 1.
Proof. unfold atoi, s32, wrap. pose proof (Z.mod_pos_bound (strtol10 s + 2 ^ 31) (2 ^ 32) ltac:(lia)). lia. Qed.

Lemma digits_base_nonneg base acc s : 0 <= base -> 0 <= acc -> 0 <= digits_base base acc s.
Proof.
  intros Hb. revert acc. induction s as [|c s IH]; intros acc Ha; simpl; [done |].
  case_match; [| done]. apply IH. enough (0 <= digit_val c) by nia.
  unfold digit_val, is_digit, is_lower, is_upper. repeat case_match; lia.
Qed.

Lemma magnitude_nonneg base s : 0 <= base -> 0 <= magnitude base s.
Proof. intros H. unfold magnitude. repeat case_match; apply digits_base_nonneg; lia. Qed.

Lemma strtoul_range base s : 0 <= base -> 0 <= strtoul base s <= 2 ^ 64 - 1.
Proof.
  intros Hb. unfold strtoul. destruct (sign_of s) as [neg r]. pose proof (magnitude_nonneg base r Hb).
  case_match; [lia |].
  match goal with H : (_ <? _) = false |- _ => apply Z.ltb_ge in H end.
  destruct neg; [| lia]. unfold u64, wrap.
  pose proof (Z.mod_pos_bound (- magnitude base r) (2 ^ 64) ltac:(lia)). lia.
Qed.

Lemma s32_range n : - 2 ^ 31 <= s32 n <= 2 ^ 31 - 1.
Proof. unfold s32, wrap. pose proof (Z.mod_pos_bound (n + 2 ^ 31) (2 ^ 32) ltac:(lia)). lia. Qed.

Lemma u32_bounds n : 0 <= u32 n <= 2 ^ 32 - 1.
Proof. unfold u32, wrap. pose proof (Z.mod_pos_bound n (2 ^ 32) ltac:(lia)). lia. Qed.

Lemma truefalse_range s : parse_truefalse s < 0 \/ 0 <= parse_truefalse s <= 1.
Proof. unfold parse_truefalse, TRUE, FALSE, ERR. repeat case_match; lia. Qed.

Lemma truefalse_nonzero_range s :
  parse_truefalse_nonzero s = ERR \/ - 2 ^ 31 <= parse_truefalse_nonzero s <= 1.
Proof. unfold parse_truefalse_nonzero, TRUE, FALSE_NONZERO, ERR. repeat case_match; lia. Qed.

(** The three ways to meet [writes]. *)
Ltac refuses := first [exists (Refuses ERR); by split | exists (Refuses TRUE); by split].
Ltac stops := exists (Stops Exited); split; [done | done].
Ltac updates :=
  eexists (Updates _); split; cycle 1;
  [intros name s; cbn [run_verdict apply_scope]; reflexivity | cbn [verdict_ok]].

Section Keys.
Context {ho : host}.

Ltac bools :=
  repeat match goal with
  | H : (_ || _) = false |- _ => apply orb_false_elim in H; destruct H
  | H : (_ <=? _) = false |- _ => apply Z.leb_gt in H
  | H : (_ <? _) = false |- _ => apply Z.ltb_ge in H
  | H : (_ =? _) = false |- _ => apply Z.eqb_neq in H
  end.

(** What is known of the value that is stored. *)
Ltac value_range :=
  lazymatch goal with |- _ <= _ <= _ => idtac end; simplify_eq; unfold strtoull, MIN_REFRESH_TIME, MAX_REFRESH_TIME, DEFAULT_SNAPLEN in *; bools;
  repeat match goal with
  | |- context [atoi ?s] => lazymatch goal with _ : - 2 ^ 31 <= atoi s <= _ |- _ => fail | _ => pose proof (atoi_range s) end
  | |- context [s32 ?s] => lazymatch goal with _ : - 2 ^ 31 <= s32 s <= _ |- _ => fail | _ => pose proof (s32_range s) end
  | |- context [u32 ?s] => lazymatch goal with _ : 0 <= u32 s <= _ |- _ => fail | _ => pose proof (u32_bounds s) end
  | |- context [parse_truefalse ?s] =>
      lazymatch goal with _ : parse_truefalse s < 0 \/ _ |- _ => fail | _ => pose proof (truefalse_range s) end
  | |- context [parse_truefalse_nonzero ?s] =>
      lazymatch goal with _ : parse_truefalse_nonzero s = ERR \/ _ |- _ => fail | _ => pose proof (truefalse_nonzero_range s) end
  | |- context [strtoul ?b ?s] =>
      lazymatch goal with _ : 0 <= strtoul b s <= _ |- _ => fail | _ => pose proof (strtoul_range b s ltac:(lia)) end
  end;
  first [lia | solve [assert_fails (idtac; match goal with |- context [?v] => is_var v end); vm_compute; split; congruence]].

Ltac update_ok :=
  lazymatch goal with
  | |- upd_ok ?M (?u ∘ ?v) => eapply comp_ok_eq; [update_ok | update_ok | vm_compute; reflexivity]
  | |- upd_ok _ (puts _ _) => apply puts_ok; vm_compute; reflexivity
  | |- upd_ok _ (put _ _) =>
      first [ apply put_upd_ok; vm_compute; reflexivity
            | eapply put_in_range;
              [vm_compute; reflexivity | vm_compute; reflexivity | vm_compute; congruence | vm_compute; congruence | ] ]
  end.

Lemma parse_time_range v : 0 <= fst (parse_time v) <= 32 /\ 0 <= snd (parse_time v) <= 2 ^ 31 - 1.
Proof.
  unfold parse_time. destruct (span_digits v) as [ds r]. pose proof (atoi_range ds).
  assert (0 <= atoi ds / 60 <= atoi ds \/ atoi ds <= 0)
    by (destruct (Z.le_gt_cases (atoi ds) 0); [by right | left; split; [apply Z.div_pos | apply Z.div_le_upper_bound]; lia]).
  destruct (match r with [] => Some COUNT_SECONDLY | c :: _ => time_unit c end) as [mu|] eqn:E; [| simpl; lia].
  assert (0 <= mu <= 32).
  { destruct r as [|c r]; [injection E as <-; unfold COUNT_SECONDLY; lia |].
    unfold time_unit in E. repeat case_match; simplify_eq; vm_compute; split; congruence. }
  repeat case_match; simpl; change COUNT_MINUTELY with 2;
    repeat match goal with Hb : (_ <? _) = true |- _ => apply Z.ltb_lt in Hb end; lia.
Qed.

Lemma time_ok f g (t : Z * Z) :
  is_num (field_type f) = true -> is_num (field_type g) = true ->
  assoc f member_ranges = Some (0, 32) -> assoc g member_ranges = Some (0, 2 ^ 31 - 1) ->
  field_type f = C_int -> field_type g = C_int ->
  0 <= fst t <= 32 /\ 0 <= snd t <= 2 ^ 31 - 1 -> upd_ok [g; f] (put g (snd t) ∘ put f (fst t)).
Proof.
  intros Hf Hg Rf Rg Tf Tg [Ht1 Ht2]. apply (comp_ok [g] [f]);
    (eapply put_in_range; [done | done | | | done]; rewrite ?Tf, ?Tg; simpl; lia).
Qed.

Lemma cfg_key_sql_history_ok : writes PerPlugin ["sql_history_howmany"; "sql_history"] cfg_key_sql_history.
Proof.
  intros value. unfold cfg_key_sql_history. pose proof (parse_time_range value). destruct (parse_time value) as [t n].
  updates. by apply (time_ok _ _ (t, n)).
Qed.

Lemma cfg_key_sql_trigger_time_ok :
  writes PerPlugin ["sql_trigger_time_howmany"; "sql_trigger_time"] cfg_key_sql_trigger_time.
Proof.
  intros value. unfold cfg_key_sql_trigger_time. pose proof (parse_time_range value). destruct (parse_time value) as [t n].
  updates. by apply (time_ok _ _ (t, n)).
Qed.

Lemma count_vars_stops ptr num f : count_vars ptr num = Err f -> f = Exited.
Proof.
  revert num. induction ptr as [|c ptr IH]; intros num; simpl; [done |]. case_match; [| apply IH].
  destruct ptr; [congruence |]. case_bool_decide; [apply IH | congruence].
Qed.

Lemma cfg_key_sql_table_ok : writes PerPlugin ["sql_table"] cfg_key_sql_table.
Proof.
  intros value. unfold cfg_key_sql_table. destruct (count_vars value 0) as [num|f] eqn:E.
  - res_step. repeat case_match; [stops.. |]. updates. by apply puts_ok.
  - apply count_vars_stops in E as ->. stops.
Qed.

Lemma cfg_key_print_output_file_ok : writes PerPlugin ["sql_table"] cfg_key_print_output_file.
Proof.
  intros value. unfold cfg_key_print_output_file. destruct (count_vars value 0) as [num|f] eqn:E.
  - res_step. case_match; [stops |]. updates. by apply puts_ok.
  - apply count_vars_stops in E as ->. stops.
Qed.

(** The first of the two keys that sets the time wins. *)
Lemma when_unset_ok M (b : bool) u :
  "nfacctd_time" ∈ M -> upd_ok M u ->
  upd_ok M (fun c => if geti "nfacctd_time" c =? 0 then if b then u c else c else c).
Proof.
  intros HM H. split.
  - intros c f Hf. repeat case_match; try done. by apply (upd_frame _ _ H).
  - intros c c' Hc f Hf.
    assert (E : geti "nfacctd_time" c = geti "nfacctd_time" c') by (unfold geti; by rewrite Hc).
    rewrite E. repeat case_match; [by apply (upd_local _ _ H) | by apply Hc | by apply Hc].
  - intros c Hc. repeat case_match; try done. by apply (upd_fits _ _ H).
Qed.

Lemma upd_ok_incl M M' u : M ⊆ M' -> upd_ok M u -> upd_ok M' u.
Proof.
  intros HM H. split.
  - intros c f Hf. apply (upd_frame _ _ H). set_solver.
  - intros c c' Hc f Hf. destruct (decide (f ∈ M)) as [|Hn].
    + apply (upd_local _ _ H); [| done]. intros g Hg. apply Hc. set_solver.
    + rewrite !(upd_frame _ _ H) by done. by apply Hc.
  - apply H.
Qed.

Lemma cfg_key_nfacctd_time_secs_ok : writes Global ["nfacctd_time"] cfg_key_nfacctd_time_secs.
Proof.
  intros value. unfold cfg_key_nfacctd_time_secs. cbv zeta. case_match; [refuses |]. updates.
  apply when_unset_ok; [by left |]. update_ok. value_range.
Qed.

Lemma cfg_key_nfacctd_time_new_ok : writes Global ["nfacctd_time_new"; "nfacctd_time"] cfg_key_nfacctd_time_new.
Proof.
  intros value. unfold cfg_key_nfacctd_time_new. cbv zeta. case_match; [refuses |]. updates.
  apply (when_unset_ok _ _ (put "nfacctd_time_new" TRUE ∘ put "nfacctd_time" NF_TIME_NEW)); [right; by left |].
  update_ok; value_range.
Qed.

Lemma cfg_key_nfprobe_ifindex_ok : writes NamedOnly ["nfprobe_ifindex_type"; "nfprobe_ifindex"] cfg_key_nfprobe_ifindex.
Proof.
  intros value. unfold cfg_key_nfprobe_ifindex. cbv zeta.
  repeat (case_match; simplify_eq); try refuses; updates; update_ok; value_range.
Qed.

Lemma land_le a b : 0 <= b -> Z.land a b <= b.
Proof.
  intros Hb. enough (b - Z.land a b = Z.ldiff b (Z.land a b)) by (pose proof (Z.ldiff_nonneg b (Z.land a b)); lia).
  apply Z.sub_nocarry_ldiff. apply Z.bits_inj'. intros n Hn.
  rewrite Z.ldiff_spec, Z.land_spec, Z.bits_0. by destruct (Z.testbit a n), (Z.testbit b n).
Qed.

Lemma cfg_key_files_umask_ok : writes PerPlugin ["files_umask"] cfg_key_files_umask.
Proof.
  intros value. unfold cfg_key_files_umask. cbv zeta. case_match; [refuses |]. updates. update_ok.
  match goal with Hb : (_ <? _) = false |- _ => apply Z.ltb_ge in Hb end. assert (0 <= s32 (strtoul 8 value)) by lia.
  split; [by apply Z.land_nonneg; left |].
  by apply land_le.
Qed.

(** *** The aggregation primitives *)

Lemma aggregate_loop_prims toks : forall value cpptrs value' cpptrs',
  aggregate_loop toks value cpptrs = Ok (value', cpptrs') -> (length cpptrs <= 64)%nat -> (length cpptrs' <= 64)%nat.
Proof.
  induction toks as [|tok toks IH]; intros value cpptrs value' cpptrs'; cbn [aggregate_loop]; [by intros [= _ <-] |].
  destruct (aggregate_token tok) as [[input|]|].
  - destruct (cfg_set_aggregate value input) as [v|]; [rewrite bind_Ok; apply IH | done].
  - apply IH.
  - case_match; [done |]. intros Hl Hc. eapply IH; [exact Hl |]. rewrite length_app. simpl.
    match goal with Hb : negb _ = false |- _ => apply negb_false_iff, Z.ltb_lt in Hb end.
    unfold MAX_CUSTOM_PRIMITIVES in *. lia.
Qed.

Lemma tokens_loop_count fuel : forall s, (length (tokens_loop fuel 44 s) <= S (length (commas s)))%nat.
Proof.
  assert (Hx : forall s token rest, extract_token 44 s = Some (token, rest) ->
    rest = [] \/ (length (commas rest) < length (commas s))%nat).
  { induction s as [|c s IH]; intros token rest; cbn [extract_token]; [done |]. destruct (Z.eqb_spec c 44) as [->|Hc].
    - intros E. destruct (IH _ _ E); [by left | right; simpl; lia].
    - intros E. assert (E' : match split_at 44 (c :: s) with Some p => p | None => (c :: s, []) end = (token, rest)) by congruence.
      clear E. destruct (split_at 44 (c :: s)) as [[a b]|] eqn:Es; [| injection E' as _ <-; by left].
      injection E' as -> ->. right. clear IH Hc. revert token Es. generalize (c :: s) as l.
      induction l as [|x l IH]; intros a; simpl; [done |]. destruct (Z.eqb_spec x 44) as [->|Hx].
      + intros [= <- <-]. simpl. lia.
      + destruct (split_at 44 l) as [[a' b']|]; [| done]. intros [= <- <-]. by apply (IH a'). }
  induction fuel as [|fuel IH]; intros s; cbn [tokens_loop]; [simpl; lia |].
  destruct (extract_token 44 s) as [[token rest]|] eqn:E; [| simpl; lia]. simpl length.
  destruct (Hx _ _ _ E) as [->|H]; [destruct fuel; simpl; lia |]. specialize (IH rest). lia.
Qed.

Lemma tokens_count s : (length (tokens 44 s) <= S (length (commas s)))%nat.
Proof. apply tokens_loop_count. Qed.

Lemma commas_lower s : length (commas (lower_string s)) = length (commas s).
Proof.
  induction s as [|c s IH]; [done |]. simpl.
  assert ((tolower c =? 44) = (c =? 44)) as ->.
  { unfold tolower, is_upper. destruct (Z.leb_spec 65 c), (Z.leb_spec c 90); simpl; try done.
    rewrite (proj2 (Z.eqb_neq _ 44)), (proj2 (Z.eqb_neq c 44)) by lia. done. }
  case_match; simpl; by rewrite IH.
Qed.

Lemma commas_trim s : length (commas (trim_all_spaces s)) = length (commas s).
Proof.
  unfold trim_all_spaces. generalize false as q. induction s as [|c s IH]; intros q; [done |]. simpl.
  destruct (Z.eqb_spec c 44) as [->|Hc].
  - change (is_space 44) with false. simpl. by rewrite IH.
  - case_match; simpl; [apply IH |]. rewrite (proj2 (Z.eqb_neq c 44)) by done. apply IH.
Qed.

(** The registries of the primitives are the three of the array. *)
Lemma primitives_index : Forall (fun '(_, input) => Z.land (Z.shiftr input COUNT_REGISTRY_BITS) COUNT_INDEX_MASK < 4)
  (primitives ++ l2_primitives ++ [("", COUNT_INT_NDPI_CLASS); ("", COUNT_INT_CLASS)]).
Proof. repeat (constructor; [reflexivity |]). constructor. Qed.

Lemma primitive_of_in tok l input : primitive_of tok l = Some input -> exists k, (k, input) ∈ l.
Proof.
  induction l as [|[k i] l IH]; simpl; [done |]. case_match; [intros [= <-]; exists k; by left |].
  intros E. destruct (IH E) as [k' Hk]. exists k'. by right.
Qed.

Lemma aggregate_token_index tok input : aggregate_token tok = Some (Some input) ->
  Z.land (Z.shiftr input COUNT_REGISTRY_BITS) COUNT_INDEX_MASK < 4.
Proof.
  intros E. pose proof primitives_index as Hf. rewrite Forall_forall in Hf.
  enough (exists k, (k, input) ∈ primitives ++ l2_primitives ++ [("", COUNT_INT_NDPI_CLASS); ("", COUNT_INT_CLASS)]) as [k Hk]
    by exact (Hf _ Hk).
  setoid_rewrite elem_of_app. setoid_rewrite elem_of_app. unfold aggregate_token in E.
  repeat (case_match; simplify_eq); try (exists ""; right; right; by first [left | right; left]).
  - match goal with H : primitive_of _ _ = _ |- _ => apply primitive_of_in in H as [k Hk] end. exists k. by right; left.
  - destruct (primitive_of tok primitives) eqn:E2; [| done]. injection E as <-. apply primitive_of_in in E2 as [k Hk]. exists k. by left.
Qed.

Lemma cfg_set_aggregate_stops value input f :
  length value = 4%nat -> Z.land (Z.shiftr input COUNT_REGISTRY_BITS) COUNT_INDEX_MASK < 4 ->
  cfg_set_aggregate value input = Err f -> f = Exited.
Proof.
  intros Hl Hi. unfold cfg_set_aggregate, cfg_get_primitive_index_value. rewrite Hl.
  change (Z.of_nat 4) with 4. rewrite (proj2 (Z.ltb_lt _ 4)) by done. cbn [negb]. case_match; congruence.
Qed.

Lemma cfg_set_aggregate_length value input value' : cfg_set_aggregate value input = Ok value' -> length value' = length value.
Proof.
  unfold cfg_set_aggregate. destruct (cfg_get_primitive_index_value input) as [i v]. repeat case_match; try done.
  intros [= <-]. apply length_insert.
Qed.

Lemma aggregate_loop_stops toks f : forall value cpptrs,
  aggregate_loop toks value cpptrs = Err f -> length value = 4%nat -> (length cpptrs + length toks <= 64)%nat -> f = Exited.
Proof.
  induction toks as [|tok toks IH]; intros value cpptrs E Hv Hl; cbn [aggregate_loop] in E; [done |]. simpl in Hl.
  destruct (aggregate_token tok) as [[input|]|] eqn:Et.
  - destruct (cfg_set_aggregate value input) as [v|g] eqn:Es.
    + rewrite bind_Ok in E. apply (IH _ _ E); [| lia]. by rewrite (cfg_set_aggregate_length _ _ _ Es).
    + injection E as <-. eapply cfg_set_aggregate_stops; [exact Hv | by eapply aggregate_token_index | exact Es].
  - apply (IH _ _ E); [done | lia].
  - rewrite (proj2 (Z.ltb_lt _ _)) in E by (unfold MAX_CUSTOM_PRIMITIVES; lia). cbn [negb] in E.
    apply (IH _ _ E); [done |]. rewrite length_app. simpl. lia.
Qed.

Lemma cfg_key_aggregate_ok :
  writes PerPlugin ["what_to_count_3"; "what_to_count_2"; "what_to_count"; "cpptrs"] cfg_key_aggregate.
Proof.
  intros value. unfold cfg_key_aggregate. cbv zeta.
  destruct (aggregate_loop _ _ _) as [[v prims]|f] eqn:E.
  2: { exists (Stops f). split; [| done]. intros Hfew. apply aggregate_loop_stops in E; [done | done |].
       simpl length. pose proof (tokens_count (lower_string (trim_all_spaces value))) as Ht.
       rewrite commas_lower, commas_trim in Ht. unfold few in Hfew. lia. }
  res_step. updates.
  apply aggregate_loop_prims in E; [| simpl; lia].
  apply (upd_ok_perm (["cpptrs"; "what_to_count_3"; "what_to_count_2"; "what_to_count"])); [apply (Permutation_app_comm ["cpptrs"]) |].
  apply (comp_ok ["cpptrs"; "what_to_count_3"; "what_to_count_2"] ["what_to_count"]); [| update_ok].
  apply (comp_ok ["cpptrs"; "what_to_count_3"] ["what_to_count_2"]); [| update_ok].
  apply (comp_ok ["cpptrs"] ["what_to_count_3"]); [| update_ok].
  apply insert_ok. by split; [vm_compute |].
Qed.

(** *** The keys that are specified on their own *)

Lemma keeps_refl p : keeps p p.
Proof. by split. Qed.

Lemma keeps_list_refl l : Forall2 keeps l l.
Proof. induction l; constructor; [apply keeps_refl | done]. Qed.

Lemma keeps_set u p : (cfg_fits (pl_cfg p) -> cfg_fits (u (pl_cfg p))) -> keeps p (set_cfg u p).
Proof. intros Hu. by split. Qed.

Lemma first_named_keeps n u l k l' :
  (forall c, cfg_fits c -> cfg_fits (snd (u c))) -> first_named n u l = (k, l') -> Forall2 keeps l l'.
Proof.
  intros Hu. revert k l'. induction l as [|p l IH]; intros k l'; simpl; [by intros [= _ <-]; constructor |].
  case_bool_decide.
  - destruct (u (pl_cfg p)) as [k1 c] eqn:E. intros [= _ <-]. constructor; [| apply keeps_list_refl].
    apply (keeps_set (fun _ => c)). specialize (Hu (pl_cfg p)). by rewrite E in Hu.
  - destruct (first_named n u l) as [k1 l1] eqn:E. intros [= _ <-]. constructor; [apply keeps_refl | by eapply IH].
Qed.

Lemma by_name_only_keeps n u s : (forall c, cfg_fits c -> cfg_fits (snd (u c))) ->
  Forall2 keeps (plugins_list s) (plugins_list (snd (by_name_only n u s))).
Proof.
  intros Hu. unfold by_name_only. destruct (first_named n u (plugins_list s)) as [k l] eqn:E. simpl.
  by eapply first_named_keeps.
Qed.

Lemma named_only_with_keeps name u s : (forall c, cfg_fits c -> cfg_fits (snd (u c))) ->
  Forall2 keeps (plugins_list s) (plugins_list (snd (named_only_with name u s))).
Proof. intros Hu. destruct name; [by apply by_name_only_keeps | apply keeps_list_refl]. Qed.

Lemma apply_scope_keeps sc name u s : (forall c, cfg_fits c -> cfg_fits (u c)) ->
  Forall2 keeps (plugins_list s) (plugins_list (snd (apply_scope sc name u s))).
Proof.
  intros Hu.
  assert (Ha : Forall2 keeps (plugins_list s) (plugins_list (snd (all u s)))).
  { simpl. induction (plugins_list s); simpl; constructor; [by apply keeps_set, Hu | done]. }
  destruct sc, name; try exact Ha; try (by apply by_name_only_keeps). apply keeps_list_refl.
Qed.

Lemma writes_tame sc M h : writes sc M h -> tame h.
Proof.
  intros Hw name value s r s' E. destruct (Hw value) as (v & Hv & Hh). rewrite Hh in E.
  destruct v as [a|f|u]; simpl in E; [injection E as _ <-; apply keeps_list_refl | done |].
  injection E as E. pose proof (apply_scope_keeps sc name u s (upd_fits _ _ Hv)) as Hk. by rewrite E in Hk.
Qed.

Lemma keeps_app f v : fits f v -> forall c, cfg_fits c -> cfg_fits (<[f := v]> c).
Proof. intros Hv c Hc. by apply map_Forall_insert_2. Qed.

(** Tags: every entry is a range, and the table has room for them. *)
Lemma load_tags_loop_ok toks : forall changes table,
  changes = Z.of_nat (length table) -> (length table <= 96)%nat ->
  Forall (fun '(neg, n, r) => (neg = 0 \/ neg = 1) /\ 0 <= n <= r /\ r < 2 ^ 64) table ->
  fits "ptf" (CTags (snd (load_tags_loop toks changes table))).
Proof.
  induction toks as [|tok toks IH]; intros changes table Hc Hl Ht; cbn [load_tags_loop]; [by split; [vm_compute |] |].
  case_match eqn:Hb; [by split; [vm_compute |] |].
  apply negb_false_iff, Z.ltb_lt in Hb. change (MAX_PRETAG_MAP_ENTRIES / 4) with 96 in Hb.
  destruct (pt_check_neg tok) as [neg tok1] eqn:En.
  assert (neg = 0 \/ neg = 1) as Hneg.
  { unfold pt_check_neg, TRUE, FALSE in En. destruct tok as [|c tok]; [injection En; lia |].
    repeat (case_match; try (injection En; lia)). }
  destruct (pt_check_range tok1) as [tok2 range_ptr].
  pose proof (strtoul_range 10 tok2 ltac:(lia)). unfold strtoull. destruct range_ptr as [high|].
  - pose proof (strtoul_range 10 high ltac:(lia)). case_match eqn:Hr; [by split; [vm_compute |] |].
    apply Z.leb_gt in Hr. apply IH; [rewrite length_app; simpl; lia.. |].
    apply Forall_app. split; [done |]. apply Forall_singleton. lia.
  - apply IH; [rewrite length_app; simpl; lia.. |]. apply Forall_app. split; [done |]. apply Forall_singleton. lia.
Qed.

Lemma load_tags_ok value : fits "ptf" (CTags (snd (load_tags value))).
Proof. apply load_tags_loop_ok; [done | simpl; lia | constructor]. Qed.

Lemma load_labels_ok f value : field_type f = C_labels -> fits f (CLabels (snd (fst (load_labels value)))).
Proof.
  intros Hf. unfold load_labels. destruct (pt_check_neg _). simpl. split; [done |].
  rewrite length_map, length_take. change (Z.to_nat (MAX_PRETAG_MAP_ENTRIES / 4)) with 96%nat. lia.
Qed.

Lemma keeps_of l (x : Z * daemon) r s' :
  Ok x = Ok (r, s') -> Forall2 keeps l (plugins_list (snd x)) -> Forall2 keeps l (plugins_list s').
Proof. by intros [= ->]. Qed.

Lemma cfg_key_pre_tag_filter_tame : tame cfg_key_pre_tag_filter.
Proof.
  intros name value s r s' E. pose proof (load_tags_ok value). eapply keeps_of; [exact E |].
  apply named_only_with_keeps. intros c. destruct (load_tags value). by apply keeps_app.
Qed.

Lemma cfg_key_pre_tag2_filter_tame : tame cfg_key_pre_tag2_filter.
Proof.
  intros name value s r s' E. pose proof (load_tags_ok value) as Ht. eapply keeps_of; [exact E |].
  apply named_only_with_keeps. intros c. destruct (load_tags value). apply keeps_app. by destruct Ht.
Qed.

Lemma cfg_key_pre_tag_label_filter_tame : tame cfg_key_pre_tag_label_filter.
Proof.
  intros name value s r s' E. pose proof (load_labels_ok "ptlf" value eq_refl). eapply keeps_of; [exact E |].
  apply named_only_with_keeps. intros c. destruct (load_labels value) as [[ch tb] v]. by apply keeps_app.
Qed.

Lemma load_labels_all_keeps f l : field_type f = C_labels -> forall value changes,
  Forall2 keeps l (snd (load_labels_all f value changes l)).
Proof.
  intros Hf. induction l as [|p l IH]; intros value changes; cbn [load_labels_all]; [constructor |].
  pose proof (load_labels_ok f value Hf). destruct (load_labels value) as [[ch tb] v].
  specialize (IH v (ch + 1)). destruct (load_labels_all f v (ch + 1) l). simpl.
  constructor; [| done]. by apply keeps_set, keeps_app.
Qed.

Lemma cfg_key_bgp_daemon_msglog_label_filter_tame : tame cfg_key_bgp_daemon_msglog_label_filter.
Proof.
  intros name value s r s' E. unfold cfg_key_bgp_daemon_msglog_label_filter in E.
  pose proof (load_labels_all_keeps "bgp_daemon_msglog_label_filter" (plugins_list s) eq_refl value 0).
  destruct (load_labels_all _ _ _ _). by injection E as _ <-.
Qed.

Lemma cfg_key_bmp_daemon_msglog_label_filter_tame : tame cfg_key_bmp_daemon_msglog_label_filter.
Proof.
  intros name value s r s' E. unfold cfg_key_bmp_daemon_msglog_label_filter in E.
  pose proof (load_labels_all_keeps "bmp_daemon_msglog_label_filter" (plugins_list s) eq_refl value 0).
  destruct (load_labels_all _ _ _ _). by injection E as _ <-.
Qed.

Lemma cfg_key_nfacctd_mcast_groups_tame : tame cfg_key_nfacctd_mcast_groups.
Proof. intros name value s r s' [= _ <-]. apply keeps_list_refl. Qed.

Lemma prefixes_length c : cfg_fits c -> length (prefixes_of "bgp_daemon_follow_nexthop" c) = 32%nat.
Proof.
  intros Hc. unfold prefixes_of. destruct (c !! "bgp_daemon_follow_nexthop") as [v|] eqn:E; [| done].
  specialize (Hc _ _ E). destruct v; try done. by destruct Hc.
Qed.

Lemma follow_plugins_keeps tok idx l : forall valid, Forall2 keeps l (snd (follow_plugins tok idx valid l)).
Proof.
  induction l as [|p l IH]; intros valid; cbn [follow_plugins]; [constructor |].
  destruct (BgpPrefix.str2prefix _ _ _ _) as [v q].
  assert (keeps p (set_cfg (fun c => <["bgp_daemon_follow_nexthop" :=
    CPrefixes (<[Z.to_nat idx := q]> (prefixes_of "bgp_daemon_follow_nexthop" (pl_cfg p)))]> c) p)).
  { apply keeps_set. intros Hc. apply keeps_app; [| done]. split; [by vm_compute |].
    by rewrite length_insert, prefixes_length. }
  case_match; [constructor; [done | apply keeps_list_refl] |].
  specialize (IH v). destruct (follow_plugins tok idx v l). by constructor.
Qed.

Lemma same_plugin_trans p1 p2 p3 : same_plugin p1 p2 -> same_plugin p2 p3 -> same_plugin p1 p3.
Proof. unfold same_plugin. intuition congruence. Qed.

Lemma cfg_keeps_trans l1 l2 l3 : Forall2 keeps l1 l2 -> Forall2 keeps l2 l3 -> Forall2 keeps l1 l3.
Proof.
  intros H12. revert l3. induction H12 as [|p1 p2 l1 l2 [H H'] H12 IH]; intros l3 H23; inversion H23 as [|? p3 ? l3' [G G']]; subst;
    constructor; [| by apply IH]. split; [by eapply same_plugin_trans | auto].
Qed.

Lemma follow_loop_keeps toks : forall idx valid l, Forall2 keeps l (snd (follow_loop toks idx valid l)).
Proof.
  induction toks as [|tok toks IH]; intros idx valid l; cbn [follow_loop]; [apply keeps_list_refl |].
  case_match; [apply keeps_list_refl |]. pose proof (follow_plugins_keeps tok idx l valid) as Hp.
  destruct (follow_plugins tok idx valid l) as [v l']. by eapply cfg_keeps_trans.
Qed.

Lemma cfg_key_bgp_daemon_follow_nexthop_tame : tame cfg_key_bgp_daemon_follow_nexthop.
Proof.
  intros name value s r s' E. unfold cfg_key_bgp_daemon_follow_nexthop in E.
  pose proof (follow_loop_keeps (tokens 44 (trim_all_spaces value)) 0 0 (plugins_list s)).
  cbv zeta in E. destruct (follow_loop _ _ _ _). by injection E as _ <-.
Qed.

Lemma zmq_profile_ok value u : p_zmq_plugin_pipe_set_profile value = Some u -> upd_ok ["buffer_size"; "pipe_zmq_profile"] u.
Proof.
  unfold p_zmq_plugin_pipe_set_profile. cbv zeta. intros E.
  repeat case_match; simplify_eq; update_ok; value_range.
Qed.

Lemma cfg_key_plugin_pipe_zmq_profile_tame : tame cfg_key_plugin_pipe_zmq_profile.
Proof.
  intros name value s r s' E. unfold cfg_key_plugin_pipe_zmq_profile in E. cbv zeta in E.
  case_match; [injection E as _ <-; apply keeps_list_refl |].
  destruct (p_zmq_plugin_pipe_set_profile (lower_string value)) as [u|] eqn:Eu.
  - eapply keeps_of; [exact E |]. apply (apply_scope_keeps PerPlugin), (upd_fits _ _ (zmq_profile_ok _ _ Eu)).
  - case_match; injection E as _ <-; apply keeps_list_refl.
Qed.

Ltac head h := lazymatch h with ?f _ => head f | _ => h end.

(** None of them ends the daemon. *)
Ltac total_tac :=
  intros name value s; lazymatch goal with |- context [?h name value s] => let f := head h in unfold f end; cbv zeta;
  repeat case_match; by eexists.

(** What they touch. *)
Lemma frame_named_with M name u s : (forall c f, f ∉ M -> snd (u c) !! f = c !! f) -> frame NamedOnly M name s (snd (named_only_with name u s)).
Proof. intros Hu. destruct name as [n|]; [by apply frame_named | apply frame_same]. Qed.

Lemma insert_touches (f g : string) v (c : conf) : g ∉ [f] -> <[f := v]> c !! g = c !! g.
Proof. intros H. apply lookup_insert_ne. intros ->. apply H. constructor. Qed.

Lemma touches_of sc M name s (x : Z * daemon) r s' : Ok x = Ok (r, s') -> frame sc M name s (snd x) -> frame sc M name s s'.
Proof. by intros [= ->]. Qed.

Lemma cfg_key_pre_tag_filter_special : meets (Some cfg_key_pre_tag_filter) (Special NamedOnly ["ptf"]).
Proof.
  split; [| split; [apply cfg_key_pre_tag_filter_tame | total_tac]]. intros name value s r s' E. eapply touches_of; [exact E |].
  apply frame_named_with. intros c f. destruct (load_tags value). apply insert_touches.
Qed.

Lemma cfg_key_pre_tag2_filter_special : meets (Some cfg_key_pre_tag2_filter) (Special NamedOnly ["pt2f"]).
Proof.
  split; [| split; [apply cfg_key_pre_tag2_filter_tame | total_tac]]. intros name value s r s' E. eapply touches_of; [exact E |].
  apply frame_named_with. intros c f. destruct (load_tags value). apply insert_touches.
Qed.

Lemma cfg_key_pre_tag_label_filter_special : meets (Some cfg_key_pre_tag_label_filter) (Special NamedOnly ["ptlf"]).
Proof.
  split; [| split; [apply cfg_key_pre_tag_label_filter_tame | total_tac]]. intros name value s r s' E. eapply touches_of; [exact E |].
  apply frame_named_with. intros c f. destruct (load_labels value) as [[ch tb] v]. apply insert_touches.
Qed.

Lemma load_labels_all_touched f l : forall value changes, Forall2 (touched [f]) l (snd (load_labels_all f value changes l)).
Proof.
  induction l as [|p l IH]; intros value changes; cbn [load_labels_all]; [constructor |].
  destruct (load_labels value) as [[ch tb] v]. specialize (IH v (ch + 1)). destruct (load_labels_all f v (ch + 1) l). simpl.
  constructor; [| done]. apply touched_set. intros g. apply insert_touches.
Qed.

Lemma cfg_key_bgp_daemon_msglog_label_filter_special :
  meets (Some cfg_key_bgp_daemon_msglog_label_filter) (Special Global ["bgp_daemon_msglog_label_filter"]).
Proof.
  split; [| split; [apply cfg_key_bgp_daemon_msglog_label_filter_tame | total_tac]]. intros name value s r s' E.
  unfold cfg_key_bgp_daemon_msglog_label_filter in E.
  pose proof (load_labels_all_touched "bgp_daemon_msglog_label_filter" (plugins_list s) value 0) as H.
  destruct (load_labels_all _ _ _ _). injection E as _ <-. by apply frame_all.
Qed.

Lemma cfg_key_bmp_daemon_msglog_label_filter_special :
  meets (Some cfg_key_bmp_daemon_msglog_label_filter) (Special Global ["bmp_daemon_msglog_label_filter"]).
Proof.
  split; [| split; [apply cfg_key_bmp_daemon_msglog_label_filter_tame | total_tac]]. intros name value s r s' E.
  unfold cfg_key_bmp_daemon_msglog_label_filter in E.
  pose proof (load_labels_all_touched "bmp_daemon_msglog_label_filter" (plugins_list s) value 0) as H.
  destruct (load_labels_all _ _ _ _). injection E as _ <-. by apply frame_all.
Qed.

Lemma cfg_key_nfacctd_mcast_groups_special : meets (Some cfg_key_nfacctd_mcast_groups) (Special Global []).
Proof.
  split; [| split; [apply cfg_key_nfacctd_mcast_groups_tame | total_tac]]. intros name value s r s' [= _ <-].
  split; [done |]. split; [| done]. intros i p Hi. exists p. by repeat split.
Qed.

Lemma follow_plugins_touched tok idx l : forall valid, Forall2 (touched ["bgp_daemon_follow_nexthop"]) l (snd (follow_plugins tok idx valid l)).
Proof.
  induction l as [|p l IH]; intros valid; cbn [follow_plugins]; [constructor |].
  destruct (BgpPrefix.str2prefix _ _ _ _) as [v q].
  assert (touched ["bgp_daemon_follow_nexthop"] p (set_cfg (fun c => <["bgp_daemon_follow_nexthop" :=
    CPrefixes (<[Z.to_nat idx := q]> (prefixes_of "bgp_daemon_follow_nexthop" (pl_cfg p)))]> c) p)).
  { apply touched_set. intros f. apply insert_touches. }
  case_match; [constructor; [done | apply touched_list_refl] |].
  specialize (IH v). destruct (follow_plugins tok idx v l). by constructor.
Qed.

Lemma follow_loop_touched toks : forall idx valid l, Forall2 (touched ["bgp_daemon_follow_nexthop"]) l (snd (follow_loop toks idx valid l)).
Proof.
  induction toks as [|tok toks IH]; intros idx valid l; cbn [follow_loop]; [apply touched_list_refl |].
  case_match; [apply touched_list_refl |]. pose proof (follow_plugins_touched tok idx l valid) as Hp.
  destruct (follow_plugins tok idx valid l) as [v l']. by eapply touched_trans.
Qed.

Lemma cfg_key_bgp_daemon_follow_nexthop_special :
  meets (Some cfg_key_bgp_daemon_follow_nexthop) (Special Global ["bgp_daemon_follow_nexthop"]).
Proof.
  split; [| split; [apply cfg_key_bgp_daemon_follow_nexthop_tame | total_tac]]. intros name value s r s' E.
  unfold cfg_key_bgp_daemon_follow_nexthop in E.
  pose proof (follow_loop_touched (tokens 44 (trim_all_spaces value)) 0 0 (plugins_list s)) as H.
  cbv zeta in E. destruct (follow_loop _ _ _ _). injection E as _ <-. by apply frame_all.
Qed.

Lemma cfg_key_plugin_pipe_zmq_profile_special :
  meets (Some cfg_key_plugin_pipe_zmq_profile) (Special PerPlugin ["buffer_size"; "pipe_zmq_profile"]).
Proof.
  split; [| split; [apply cfg_key_plugin_pipe_zmq_profile_tame | total_tac]]. intros name value s r s' E.
  unfold cfg_key_plugin_pipe_zmq_profile in E. cbv zeta in E. case_match; [injection E as _ <-; apply frame_same |].
  destruct (p_zmq_plugin_pipe_set_profile (lower_string value)) as [u|] eqn:Eu.
  - eapply touches_of; [exact E |]. pose proof (upd_frame _ _ (zmq_profile_ok _ _ Eu)) as Hu. destruct name as [n|]; cbn [by_name].
    + by apply (frame_named _ n (fun c => (1, u c))).
    + apply (frame_all _ None); [| done]. simpl. induction (plugins_list s); constructor; [by apply touched_set, Hu | done].
  - case_match; injection E as _ <-; apply frame_same.
Qed.

Create HintDb cfg_keys.
#[local] Hint Resolve cfg_key_sql_history_ok cfg_key_sql_trigger_time_ok cfg_key_sql_table_ok
  cfg_key_print_output_file_ok cfg_key_nfacctd_time_secs_ok cfg_key_nfacctd_time_new_ok cfg_key_nfprobe_ifindex_ok
  cfg_key_files_umask_ok cfg_key_aggregate_ok cfg_key_pre_tag_filter_special cfg_key_pre_tag2_filter_special
  cfg_key_pre_tag_label_filter_special cfg_key_bgp_daemon_msglog_label_filter_special cfg_key_bmp_daemon_msglog_label_filter_special
  cfg_key_nfacctd_mcast_groups_special cfg_key_bgp_daemon_follow_nexthop_special cfg_key_plugin_pipe_zmq_profile_special : cfg_keys.


Ltac key_tac :=
  lazymatch goal with |- writes _ _ ?h => intros value; let f := head h in unfold f end; cbv beta zeta;
  repeat case_match;
  lazymatch goal with
  | |- context [all] => updates; update_ok
  | |- context [by_name] => updates; update_ok
  | |- context [named_only] => updates; update_ok
  | |- context [Exited] => stops
  | _ => refuses
  end.

Definition keys_ok (l : list (string * option handler)) (l' : list (string * key_spec)) : Prop :=
  Forall2 (fun '(k, h) '(k', spec) => k = k' /\ meets h spec) l l'.

Ltac keys_tac :=
  repeat (constructor; [split; [reflexivity |
    lazymatch goal with
    | |- meets _ (Special _ _) => solve [auto with cfg_keys nocore]
    | _ => cbn [meets]; first [exact I | solve [auto with cfg_keys nocore] | key_tac; value_range]
    end] |]);
  constructor.

Lemma keys_1_ok : keys_ok dictionary_1 keys_1.
Proof. keys_tac. Qed.

Lemma keys_2_ok : keys_ok dictionary_2 keys_2.
Proof. keys_tac. Qed.

Lemma keys_3_ok : keys_ok dictionary_3 keys_3.
Proof. keys_tac. Qed.

Lemma keys_4_ok : keys_ok dictionary_4 keys_4.
Proof. keys_tac. Qed.

Lemma keys_5_ok : keys_ok dictionary_5 keys_5.
Proof. keys_tac. Qed.

Lemma keys_6_ok : keys_ok dictionary_6 keys_6.
Proof. keys_tac. Qed.

Lemma keys_7_ok : keys_ok dictionary_7 keys_7.
Proof. keys_tac. Qed.

Lemma keys_8_ok : keys_ok dictionary_8 keys_8.
Proof. keys_tac. Qed.

End Keys.

End CfgKeysFacts.
