(* ===== verification/CfgFacts.v ===== *)
(** * What a configuration leaves behind

    The dictionary meets the specification of the keys, so that a line changes
    what its key may change and nothing else; keys that write different
    members commute; and whatever the text, the plugins have distinct names
    and the ids their places give them, and every member is of its type and
    within its range. *)

From S2P Require Import Prelude.
From S2P Require Import CfgData.
From S2P Require Import CfgHandlers.
From S2P Require Import Cfg.
From S2P Require Import CfgKeysFacts.

Module CfgFacts.
Import CfgData.
Import CfgHandlers.
Import Cfg.
Import CfgKeysFacts.

Section CfgFacts.
Context {ho : host}.

(** ** The dictionary *)

Definition key_specs : list (string * key_spec) :=
  keys_1 ++ keys_2 ++ keys_3 ++ (if WITH_NDPI then keys_4 else []) ++ keys_5 ++ keys_6
  ++ (if WITH_GEOIPV2 then keys_7 else []) ++ keys_8.

Fixpoint find_spec (key : list Z) (l : list (string * key_spec)) : option key_spec :=
  match l with
  | [] => None
  | (k, spec) :: r => if streq key k then Some spec else find_spec key r
  end.
Definition key_spec_of (key : list Z) : option key_spec := find_spec key key_specs.

Lemma dictionary_ok : keys_ok dictionary key_specs.
Proof.
  unfold keys_ok, dictionary, key_specs.
  repeat apply Forall2_app; try (case_match; [| constructor]);
    first [apply keys_1_ok | apply keys_2_ok | apply keys_3_ok | apply keys_4_ok
          | apply keys_5_ok | apply keys_6_ok | apply keys_7_ok | apply keys_8_ok].
Qed.

Lemma find_key_spec key func :
  find_key key dictionary = Some func -> exists spec, key_spec_of key = Some spec /\ meets func spec.
Proof.
  unfold key_spec_of. pose proof dictionary_ok as Hd. unfold keys_ok in Hd. revert Hd. generalize key_specs.
  induction dictionary as [|[k h] l IH]; intros l' Hd; inversion Hd as [|? [k' spec] ? l'' Hm Hd']; subst; simpl; [done |].
  destruct Hm as [<- Hm].
  case_match; [intros [= <-]; by exists spec |]. by apply IH.
Qed.

Lemma meets_tame h spec : meets (Some h) spec -> tame h.
Proof. destruct spec as [sc M|sc M|]; simpl; [apply writes_tame | by intros (_ & ? & _) | done]. Qed.

(** ** Lines *)

Lemma evaluate_line_keeps index line s d s' :
  evaluate_line index line s = Ok (d, s') -> Forall2 keeps (plugins_list s) (plugins_list s').
Proof.
  unfold evaluate_line. intros E. apply bind_Ok_inv in E as ([[key name] value] & _ & E).
  destruct (find_key key dictionary) as [[h|]|] eqn:Ek.
  - apply bind_Ok_inv in E as ([r s1] & Eh & [= _ <-]).
    destruct (find_key_spec _ _ Ek) as (spec & _ & Hm). by eapply meets_tame.
  - injection E as _ <-. apply keeps_list_refl.
  - injection E as _ <-. apply keeps_list_refl.
Qed.

Lemma evaluate_from_keeps cfg : forall index s ds s',
  evaluate_from index cfg s = Ok (ds, s') -> Forall2 keeps (plugins_list s) (plugins_list s').
Proof.
  induction cfg as [|line cfg IH]; intros index s ds s' E; cbn [evaluate_from] in E;
    [injection E as _ <-; apply keeps_list_refl |].
  apply bind_Ok_inv in E as ([d s1] & E1 & E). apply bind_Ok_inv in E as ([ds2 s2] & E2 & [= _ <-]).
  eapply cfg_keeps_trans; [| by eapply IH]. destruct line; [injection E1 as _ <-; apply keeps_list_refl |].
  by eapply evaluate_line_keeps.
Qed.

(** *** The frame of a line *)

Lemma apply_scope_spec sc name u s i p :
  plugins_list s !! i = Some p ->
  exists p', plugins_list (snd (apply_scope sc name u s)) !! i = Some p' /\
    (addressed sc name (plugins_list s) i -> p' = set_cfg u p) /\
    (~ addressed sc name (plugins_list s) i -> p' = p).
Proof.
  intros Hi.
  assert (Ha : exists p', plugins_list (snd (all u s)) !! i = Some p' /\ (True -> p' = set_cfg u p) /\ (~ True -> p' = p)).
  { exists (set_cfg u p). split; [| tauto]. simpl. change (map ?f ?l) with (f <$> l). by rewrite list_lookup_fmap, Hi. }
  assert (Hn : forall n, exists p', plugins_list (snd (by_name_only n (fun c => (1, u c)) s)) !! i = Some p' /\
    (addressed PerPlugin (Some n) (plugins_list s) i -> p' = set_cfg u p) /\
    (~ addressed PerPlugin (Some n) (plugins_list s) i -> p' = p)).
  { intros n. pose proof (first_named_spec n (fun c => (1, u c)) (plugins_list s) i p Hi) as Hf. unfold by_name_only.
    destruct (first_named n _ (plugins_list s)) as [k l]. simpl in *. eexists. split; [exact Hf |].
    pose proof (first_of_name (plugins_list s) i p n Hi) as Hd.
    case_bool_decide as Hb; split; intros H; try done; [by destruct H; apply Hd | by destruct Hb; apply Hd]. }
  destruct sc, name as [n|]; try exact Ha; try exact (Hn n).
  exists p. simpl. split; [done |]. split; [by intros [] | done].
Qed.

Lemma apply_scope_length sc name u s : length (plugins_list (snd (apply_scope sc name u s))) = length (plugins_list s).
Proof.
  assert (Hn : forall n, length (plugins_list (snd (by_name_only n (fun c => (1, u c)) s))) = length (plugins_list s)).
  { intros n. unfold by_name_only. destruct (first_named n _ _) as [k l'] eqn:E. simpl. revert k l' E.
    induction (plugins_list s) as [|p l IH]; intros k l'; simpl; [by intros [= _ <-] |].
    case_bool_decide; [by intros [= _ <-] |]. destruct (first_named n _ l) as [k1 l1]. intros [= _ <-]. simpl. by erewrite IH. }
  destruct sc, name as [n|]; simpl; try done; try apply length_map; apply Hn.
Qed.

Lemma apply_scope_mcast sc name u s : mcast_groups (snd (apply_scope sc name u s)) = mcast_groups s.
Proof. destruct sc, name; simpl; try done; unfold by_name_only; by destruct (first_named _ _ _). Qed.

(** The answer counts the plugins that are addressed. *)
Lemma apply_scope_answer sc name u u' s s' :
  map pl_name (plugins_list s') = map pl_name (plugins_list s) ->
  fst (apply_scope sc name u s') = fst (apply_scope sc name u' s).
Proof.
  intros Hm.
  assert (Hl : length (plugins_list s') = length (plugins_list s)) by (by rewrite <- (length_map pl_name), Hm, length_map).
  assert (Hn : forall n, fst (by_name_only n (fun c => (1, u c)) s') = fst (by_name_only n (fun c => (1, u' c)) s)).
  { intros n. unfold by_name_only.
    enough (fst (first_named n (fun c => (1, u c)) (plugins_list s')) = fst (first_named n (fun c => (1, u' c)) (plugins_list s))) as E
      by (by destruct (first_named n _ (plugins_list s')), (first_named n _ (plugins_list s))).
    clear Hl. revert Hm. generalize (plugins_list s). induction (plugins_list s') as [|p l IH]; intros [|p' l'] Hm; try done.
    injection Hm as Hp Hm. simpl. rewrite Hp. case_bool_decide; [done |]. specialize (IH _ Hm).
    by destruct (first_named n _ l), (first_named n _ l'). }
  destruct sc, name as [n|]; simpl; rewrite ?Hl; try done; apply Hn.
Qed.

Lemma apply_scope_names sc name u s :
  map pl_name (plugins_list (snd (apply_scope sc name u s))) = map pl_name (plugins_list s).
Proof.
  apply list_eq. intros i. change (map ?f ?l) with (f <$> l). rewrite !list_lookup_fmap.
  destruct (plugins_list s !! i) as [p|] eqn:Hi.
  - destruct (apply_scope_spec sc name u s i p Hi) as (p' & Hp' & H1 & H2). rewrite Hp'. simpl. f_equal.
    pose proof (addressed_or sc name (plugins_list s) i p Hi) as Hd.
    destruct Hd as [Hd|Hd]; [by rewrite (H1 Hd) | by rewrite (H2 Hd)].
  - apply lookup_ge_None in Hi. rewrite <- (apply_scope_length sc name u s) in Hi. by apply lookup_ge_None in Hi as ->.
Qed.

(** ** Lines of one key, and of two *)

(** What a line does when its key is specified: one verdict, on its scope,
    whatever the state; what is logged depends on the answer. *)
Lemma line_verdict line key name value sc M :
  split_line line = Ok (key, name, value) -> key_spec_of key = Some (Writes sc M) ->
  exists v logs, verdict_ok M value v /\
    (forall index r, logs index r = [InvalidValue index] -> r < 0) /\
    (forall index s, evaluate_line index line s = '(r, s') ← run_verdict sc v name s; Ok (logs index r, s')).
Proof.
  intros Hl Hk. destruct (find_key key dictionary) as [func|] eqn:Ef.
  - destruct (find_key_spec _ _ Ef) as (spec & Hs & Hm). rewrite Hk in Hs. injection Hs as <-.
    destruct func as [h|]; [| by destruct Hm]. destruct (Hm value) as (v & Hv & Hh).
    exists v, (fun index r => if r <? 0 then [InvalidValue index] else if r =? 0 then [UnknownSymbol index] else []).
    split; [done |]. split; [intros index r; repeat case_match; try done; by rewrite <- Z.ltb_lt |].
    intros index s. unfold evaluate_line. rewrite Hl, bind_Ok, Ef, Hh. by destruct (run_verdict sc v name s) as [[]|].
  - exists (Refuses 0), (fun index _ => [UnknownKey index]). split; [done |]. split; [done |].
    intros index s. unfold evaluate_line. by rewrite Hl, bind_Ok, Ef.
Qed.

Lemma answer_nonneg sc name u s : 0 <= fst (apply_scope sc name u s).
Proof.
  assert (Hn : forall n, 0 <= fst (by_name_only n (fun c => (1, u c)) s)).
  { intros n. unfold by_name_only. enough (0 <= fst (first_named n (fun c => (1, u c)) (plugins_list s)))
      by (by destruct (first_named n _ _)).
    induction (plugins_list s) as [|p l IH]; simpl; [done |]. case_bool_decide; [done |]. by destruct (first_named n _ l). }
  destruct sc, name as [n|]; simpl; try apply Hn; lia.
Qed.

(** What a line with that key may change: for a key with a handler, its scope
    and its members. *)
Definition may_change (key : list Z) : option (scope * list string) :=
  match key_spec_of key with
  | Some (Writes sc M) | Some (Special sc M) => Some (sc, M)
  | Some Unhandled | None => None
  end.

Lemma verdict_frame sc M name v value s r s' : verdict_ok M value v -> run_verdict sc v name s = Ok (r, s') -> frame sc M name s s'.
Proof.
  intros Hv Er. destruct v as [a|f|u]; simpl in Er; [injection Er as <- <-; apply frame_same | done | injection Er as Er].
  assert (s' = snd (apply_scope sc name u s)) as -> by (by rewrite Er).
  split; [apply apply_scope_length |]. split; [| intros _; apply apply_scope_mcast].
  intros i p Hi. destruct (apply_scope_spec sc name u s i p Hi) as (p' & Hp' & H1 & H2). exists p'. split; [done |].
  destruct (addressed_or sc name _ i p Hi) as [Ha|Ha].
  - rewrite (H1 Ha). split; [done |]. split; [| done]. intros f Hf. by apply (upd_frame _ _ Hv).
  - rewrite (H2 Ha). by repeat split.
Qed.

(** C26. A line of the configuration that is evaluated (and does not end the
    daemon) changes what its key is for and nothing else.  Every key with a handler has a scope and members in [key_specs], as
    the handlers have them (where CONFIG-KEYS says otherwise it is listed as a
    divergence).  No plugin is added, renamed or removed; a member that is not
    the key's keeps its value in every plugin; a plugin the line does not
    address (another name, or a later plugin of the same name) keeps its whole
    configuration; only the keys of the multicast groups, which have no member,
    change these.  A key that is unknown or has no handler changes nothing.  A
    value that is reported as invalid changes nothing either, except for the
    keys listed as special (filters of tags and labels, next hops, multicast
    groups, the ZeroMQ profile). *)
Theorem evaluate_line_frame index line key name value s d s' :
  split_line line = Ok (key, name, value) -> evaluate_line index line s = Ok (d, s') ->
  match may_change key with
  | Some (sc, M) => frame sc M name s s'
  | None => s' = s
  end /\
  (forall sc M, key_spec_of key = Some (Writes sc M) -> d = [InvalidValue index] -> s' = s).
Proof.
  intros Hl E. split.
  - unfold may_change. unfold evaluate_line in E. rewrite Hl, bind_Ok in E.
    assert (Hsame : s' = s -> match may_change key with Some (sc, M) => frame sc M name s s' | None => s' = s end).
    { intros ->. destruct (may_change key) as [[sc M]|]; [apply frame_same | done]. }
    unfold may_change in Hsame.
    destruct (find_key key dictionary) as [[h|]|] eqn:Ef; [| by injection E as _ <-; apply Hsame ..].
    clear Hsame. destruct (find_key_spec _ _ Ef) as (spec & -> & Hm). apply bind_Ok_inv in E as ([r s1] & Er & [= _ <-]).
    destruct spec as [sc M|sc M|]; cbn [meets] in Hm; [| by destruct Hm as (Ht & _); apply (Ht name value s r s1) | done].
    destruct (Hm value) as (v & Hv & Hh). rewrite Hh in Er. by apply (verdict_frame sc M name v value s r).
  - intros sc M Hk Hd. destruct (line_verdict _ _ _ _ _ _ Hl Hk) as (v & logs & Hv & Hlog & Hr). rewrite Hr in E.
    apply bind_Ok_inv in E as ([r s1] & Er & [= <- <-]). apply Hlog in Hd.
    destruct v as [a|f|u]; simpl in Er; [by injection Er as <- <- | done | injection Er as Er].
    pose proof (answer_nonneg sc name u s) as Hn. rewrite Er in Hn. simpl in Hn. lia.
Qed.

(** Updates of different members commute. *)
Lemma upd_comm M1 M2 u1 u2 c : upd_ok M1 u1 -> upd_ok M2 u2 -> M1 ## M2 -> u1 (u2 c) = u2 (u1 c).
Proof.
  intros H1 H2 Hd. apply map_eq. intros f. destruct (decide (f ∈ M1)) as [Hf|Hf].
  - rewrite (upd_frame _ _ H2 (u1 c) f) by set_solver. apply (upd_local _ _ H1); [| done].
    intros g Hg. apply (upd_frame _ _ H2). set_solver.
  - rewrite (upd_frame _ _ H1 (u2 c) f) by done. destruct (decide (f ∈ M2)) as [Hf2|Hf2].
    + apply (upd_local _ _ H2); [| done]. intros g Hg. symmetry. apply (upd_frame _ _ H1). set_solver.
    + by rewrite !(upd_frame _ _ H2), (upd_frame _ _ H1) by done.
Qed.

Lemma addressed_names sc name l l' i :
  map pl_name l' = map pl_name l -> addressed sc name l' i <-> addressed sc name l i.
Proof.
  assert (Hn : forall n (l l' : list plugin), map pl_name l' = map pl_name l ->
    (exists p, l' !! i = Some p /\ pl_name p = n /\ forall j q, (j < i)%nat -> l' !! j = Some q -> pl_name q <> n) ->
    exists p, l !! i = Some p /\ pl_name p = n /\ forall j q, (j < i)%nat -> l !! j = Some q -> pl_name q <> n).
  { intros n l1 l2 Hm (p & Hp & Hpn & Hq).
    assert (Hj : forall j, (pl_name <$> l2) !! j = (pl_name <$> l1) !! j) by (intros; by apply (f_equal (.!! j))).
    setoid_rewrite list_lookup_fmap in Hj. pose proof (Hj i) as Hi. rewrite Hp in Hi. simpl in Hi.
    destruct (l1 !! i) as [p1|]; [| done]. injection Hi as Hi. exists p1. split; [done |]. split; [congruence |].
    intros j q Hlt Hjq. specialize (Hj j). rewrite Hjq in Hj. destruct (l2 !! j) as [q2|] eqn:E2; [| done].
    injection Hj as Hj. rewrite <- Hj. by eapply Hq. }
  intros Hm. destruct sc, name as [n|]; simpl; try tauto; split; by apply Hn.
Qed.

Lemma apply_scope_comm sc1 sc2 n1 n2 M1 M2 u1 u2 s :
  upd_ok M1 u1 -> upd_ok M2 u2 -> M1 ## M2 ->
  snd (apply_scope sc2 n2 u2 (snd (apply_scope sc1 n1 u1 s))) = snd (apply_scope sc1 n1 u1 (snd (apply_scope sc2 n2 u2 s))).
Proof.
  intros H1 H2 Hd.
  set (s1 := snd (apply_scope sc1 n1 u1 s)). set (s2 := snd (apply_scope sc2 n2 u2 s)).
  assert (Heq : forall a b : daemon, plugins_list a = plugins_list b -> mcast_groups a = mcast_groups b -> a = b)
    by (intros [? ?] [? ?]; simpl; congruence).
  apply Heq; [| unfold s1, s2; by rewrite !apply_scope_mcast].
  apply list_eq. intros i. destruct (plugins_list s !! i) as [p|] eqn:Hi.
  - destruct (apply_scope_spec sc1 n1 u1 s i p Hi) as (p1 & Hp1 & A1 & B1).
    destruct (apply_scope_spec sc2 n2 u2 s i p Hi) as (p2 & Hp2 & A2 & B2).
    destruct (apply_scope_spec sc2 n2 u2 s1 i p1 Hp1) as (p12 & Hp12 & A12 & B12).
    destruct (apply_scope_spec sc1 n1 u1 s2 i p2 Hp2) as (p21 & Hp21 & A21 & B21).
    rewrite (addressed_names sc2 n2 (plugins_list s)) in A12, B12 by apply apply_scope_names.
    rewrite (addressed_names sc1 n1 (plugins_list s)) in A21, B21 by apply apply_scope_names.
    rewrite Hp12, Hp21. f_equal.
    destruct (addressed_or sc1 n1 _ i p Hi) as [Ha1|Ha1], (addressed_or sc2 n2 _ i p Hi) as [Ha2|Ha2];
      rewrite ?(A12 Ha2), ?(B12 Ha2), ?(A21 Ha1), ?(B21 Ha1), ?(A1 Ha1), ?(B1 Ha1), ?(A2 Ha2), ?(B2 Ha2); try done.
    unfold set_cfg. simpl. f_equal. symmetry. by eapply upd_comm.
  - rewrite !lookup_ge_None_2; [done | |]; unfold s1, s2; rewrite !apply_scope_length; by apply lookup_ge_None.
Qed.

Lemma evaluate_from_app index cfg1 cfg2 s :
  evaluate_from index (cfg1 ++ cfg2) s =
  '(ds1, s1) ← evaluate_from index cfg1 s;
  '(ds2, s2) ← evaluate_from (index + Z.of_nat (length cfg1)) cfg2 s1;
  Ok (ds1 ++ ds2, s2).
Proof.
  revert index s. induction cfg1 as [|line cfg1 IH]; intros index s; cbn [evaluate_from app length].
  - rewrite bind_Ok. replace (index + Z.of_nat 0) with index by lia.
    by destruct (evaluate_from index cfg2 s) as [[ds s2]|].
  - destruct (match line with [] => Ok ([], s) | _ => evaluate_line index line s end) as [[d s1]|]; [| done].
    rewrite !bind_Ok, IH. destruct (evaluate_from (index + 1) cfg1 s1) as [[ds1 s2]|]; [| done]. rewrite !bind_Ok.
    replace (index + 1 + Z.of_nat (length cfg1)) with (index + Z.of_nat (S (length cfg1))) by lia.
    destruct (evaluate_from _ cfg2 s2) as [[ds2 s3]|]; [| done]. rewrite !bind_Ok. by rewrite app_assoc.
Qed.

(** What a line does to the state does not depend on its number. *)
Lemma evaluate_line_index index index' line s d s' :
  evaluate_line index line s = Ok (d, s') -> exists d', evaluate_line index' line s = Ok (d', s').
Proof.
  unfold evaluate_line. intros E. apply bind_Ok_inv in E as ([[key name] value] & -> & E). rewrite bind_Ok.
  destruct (find_key key dictionary) as [[h|]|]; [| injection E as _ <-; by eexists..].
  apply bind_Ok_inv in E as ([r s1] & -> & [= _ <-]). rewrite bind_Ok. by eexists.
Qed.

Lemma evaluate_from_index cfg : forall index index' s ds s',
  evaluate_from index cfg s = Ok (ds, s') -> exists ds', evaluate_from index' cfg s = Ok (ds', s').
Proof.
  induction cfg as [|line cfg IH]; intros index index' s ds s' E; cbn [evaluate_from] in *; [injection E as _ <-; by eexists |].
  apply bind_Ok_inv in E as ([d s1] & E1 & E). apply bind_Ok_inv in E as ([ds2 s2] & E2 & [= _ <-]).
  apply (IH _ (index' + 1)) in E2 as (ds2' & E2).
  destruct line as [|c line].
  - injection E1 as _ <-. rewrite bind_Ok, E2, bind_Ok. by eexists.
  - apply (evaluate_line_index _ index') in E1 as (d' & ->). rewrite bind_Ok, E2, bind_Ok. by eexists.
Qed.

(** A verdict after another one whose members are different. *)
Lemma run_verdict_comm sc1 sc2 n1 n2 M1 M2 x1 x2 v1 v2 s r1 s1 r2 s2 :
  verdict_ok M1 x1 v1 -> verdict_ok M2 x2 v2 -> M1 ## M2 ->
  run_verdict sc1 v1 n1 s = Ok (r1, s1) -> run_verdict sc2 v2 n2 s1 = Ok (r2, s2) ->
  exists s1', run_verdict sc2 v2 n2 s = Ok (r2, s1') /\ run_verdict sc1 v1 n1 s1' = Ok (r1, s2).
Proof.
  intros H1 H2 Hd E1 E2. destruct v1 as [a1|f1|u1], v2 as [a2|f2|u2]; simpl in *; try done.
  1-2: injection E1 as <- <-; exists s2; by rewrite E2.
  - injection E2 as <- <-. exists s. by rewrite E1.
  - injection E1 as E1. injection E2 as E2.
    assert (s1 = snd (apply_scope sc1 n1 u1 s)) as -> by (by rewrite E1).
    assert (r1 = fst (apply_scope sc1 n1 u1 s)) as -> by (by rewrite E1).
    assert (s2 = snd (apply_scope sc2 n2 u2 (snd (apply_scope sc1 n1 u1 s)))) as -> by (by rewrite E2).
    assert (r2 = fst (apply_scope sc2 n2 u2 (snd (apply_scope sc1 n1 u1 s)))) as -> by (by rewrite E2).
    exists (snd (apply_scope sc2 n2 u2 s)). split; f_equal; rewrite (surjective_pairing (apply_scope _ _ _ _)); f_equal.
    + symmetry. apply apply_scope_answer, apply_scope_names.
    + apply apply_scope_answer, apply_scope_names.
    + symmetry. by eapply apply_scope_comm.
Qed.

Lemma split_line_nonempty line x : split_line line = Ok x -> exists c r, line = c :: r.
Proof. destruct line as [|c r]; [done | by exists c, r]. Qed.

(** The order of the lines of a configuration does not matter between keys
    that write different members: two neighbouring lines can be swapped,
    whatever is before and after them, and the plugins end up with the same
    configuration. *)
Theorem lines_commute index pre l1 l2 post k1 n1 v1 sc1 M1 k2 n2 v2 sc2 M2 s ds s' :
  split_line l1 = Ok (k1, n1, v1) -> key_spec_of k1 = Some (Writes sc1 M1) ->
  split_line l2 = Ok (k2, n2, v2) -> key_spec_of k2 = Some (Writes sc2 M2) ->
  M1 ## M2 ->
  evaluate_from index (pre ++ l1 :: l2 :: post) s = Ok (ds, s') ->
  exists ds', evaluate_from index (pre ++ l2 :: l1 :: post) s = Ok (ds', s').
Proof.
  intros S1 K1 S2 K2 Hd E. rewrite evaluate_from_app in E |- *.
  apply bind_Ok_inv in E as ([ds0 s0] & -> & E). rewrite bind_Ok. apply bind_Ok_inv in E as ([ds1 s1] & E & [= _ <-]).
  enough (exists ds', evaluate_from (index + Z.of_nat (length pre)) (l2 :: l1 :: post) s0 = Ok (ds', s1)) as [ds' ->]
    by (rewrite bind_Ok; by eexists).
  generalize dependent (index + Z.of_nat (length pre)). intros ix E. cbn [evaluate_from] in E |- *.
  destruct (split_line_nonempty _ _ S1) as (c1 & r1 & E1l), (split_line_nonempty _ _ S2) as (c2 & r2 & E2l).
  rewrite E1l, E2l in E |- *. rewrite <- E1l, <- E2l in E |- *.
  destruct (line_verdict _ _ _ _ _ _ S1 K1) as (w1 & logs1 & W1 & _ & R1).
  destruct (line_verdict _ _ _ _ _ _ S2 K2) as (w2 & logs2 & W2 & _ & R2).
  rewrite R1 in E. apply bind_Ok_inv in E as ([d sa] & Ea & E). apply bind_Ok_inv in Ea as ([ra sa'] & Ea & [= _ ->]).
  apply bind_Ok_inv in E as ([dd sd] & Eb & [= _ <-]). rewrite R2 in Eb.
  apply bind_Ok_inv in Eb as ([d2 sb] & Eb & Ec). apply bind_Ok_inv in Eb as ([rb sb'] & Eb & [= _ ->]).
  apply bind_Ok_inv in Ec as ([d3 sc] & Ec & [= _ <-]).
  destruct (run_verdict_comm _ _ _ _ _ _ _ _ _ _ _ _ _ _ _ W1 W2 Hd Ea Eb) as (sx & Ex & Ey).
  rewrite R2, Ex, !bind_Ok, R1, Ey, !bind_Ok.
  destruct (evaluate_from_index _ _ (ix + 1 + 1) _ _ _ Ec) as [d4 ->]. rewrite !bind_Ok. by eexists.
Qed.

(** ** The plugins *)

(** Names are distinct; the id of a plugin is its place in the list, as far as
    the 8 bits of an id go; the first plugin is the core process, and the only
    one of its type. *)
Record plugins_ok (l : list plugin) : Prop := {
  po_names : NoDup (map pl_name l);
  po_ids : forall i p, l !! i = Some p -> pl_id p = if bool_decide (i < 256)%nat then Z.of_nat i else 0;
  po_core : forall i p, l !! i = Some p -> pl_type p = 0 <-> i = 0%nat
}.

Lemma plugins_ok_nil : plugins_ok [].
Proof. split; [constructor | done | done]. Qed.

Lemma keeps_ok l l' : Forall2 keeps l l' -> plugins_ok l -> plugins_ok l'.
Proof.
  intros Hk [Hn Hi Hc].
  assert (Hl : forall i p', l' !! i = Some p' -> exists p, l !! i = Some p /\ same_plugin p p').
  { intros i p' Hp'. destruct (Forall2_lookup_r _ _ _ _ _ Hk Hp') as (p & Hp & Hs & _). by exists p. }
  split.
  - replace (map pl_name l') with (map pl_name l); [done |]. clear -Hk.
    induction Hk as [|p p' l l' [(_ & E & _) _] Hk IH]; [done |]. simpl. by rewrite IH, E.
  - intros i p' Hp'. destruct (Hl i p' Hp') as (p & Hp & (-> & _)). by apply Hi.
  - intros i p' Hp'. destruct (Hl i p' Hp') as (p & Hp & (_ & _ & -> & _)). by apply Hc.
Qed.

Lemma keeps_fits l l' : Forall2 keeps l l' -> Forall (fun p => cfg_fits (pl_cfg p)) l -> Forall (fun p => cfg_fits (pl_cfg p)) l'.
Proof. intros Hk. induction Hk as [|p p' l l' [_ H] Hk IH]; intros Hf; [constructor |]. inversion Hf. constructor; auto. Qed.

Lemma max_id_bounds l : forall id, (forall p, p ∈ l -> 0 <= pl_id p <= 255) -> 0 <= id <= 255 -> 
  0 <= max_id l id <= 255 /\ id <= max_id l id /\ (forall p, p ∈ l -> pl_id p <= max_id l id)
  /\ (max_id l id = id \/ exists p, p ∈ l /\ pl_id p = max_id l id).
Proof.
  induction l as [|q l IH]; intros id Hl Hid; simpl.
  - split; [done |]. split; [lia |]. split; [intros p Hp; by apply elem_of_nil in Hp | by left].
  - assert (Hq : 0 <= pl_id q <= 255) by (apply Hl; left).
    assert (Hl' : forall p, p ∈ l -> 0 <= pl_id p <= 255) by (intros; apply Hl; by right).
    destruct (IH (if id <? pl_id q then pl_id q else id) Hl' ltac:(case_match; lia)) as (H1 & H2 & H3 & H4).
    destruct (Z.ltb_spec id (pl_id q)); (split; [done |]); (split; [lia |]); split.
    + intros p [->|Hp]%elem_of_cons; [lia | by apply H3].
    + right. destruct H4 as [E|(p & Hp & E)]; [exists q; by split; [left |] | exists p; by split; [right |]].
    + intros p [->|Hp]%elem_of_cons; [lia | by apply H3].
    + destruct H4 as [E|(p & Hp & E)]; [by left | right; exists p; by split; [right |]].
Qed.

(** The id of the next plugin. *)
Lemma next_id l : plugins_ok l ->
  u8 (match l with [] => 0 | _ => max_id l 0 + 1 end) = if bool_decide (length l < 256)%nat then Z.of_nat (length l) else 0.
Proof.
  intros [_ Hi _]. destruct l as [|p0 l0]; [done |]. set (l := p0 :: l0) in *.
  assert (Hids : forall p, p ∈ l -> 0 <= pl_id p <= 255).
  { intros p [i Hp]%list_elem_of_lookup. rewrite (Hi i p Hp). case_bool_decide; lia. }
  destruct (max_id_bounds l 0 Hids ltac:(lia)) as (Hb & _ & Hmax & Hin).
  assert (Hlen : (0 < length l)%nat) by (simpl; lia).
  enough (max_id l 0 = Z.of_nat (Nat.min (length l - 1) 255)) as ->.
  { case_bool_decide; [rewrite Nat.min_l by lia | rewrite Nat.min_r by lia; done].
    unfold u8, wrap. rewrite Z.mod_small; lia. }
  apply Z.le_antisymm.
  - destruct Hin as [->|(p & [i Hp]%list_elem_of_lookup & <-)]; [lia |]. rewrite (Hi i p Hp).
    apply lookup_lt_Some in Hp. case_bool_decide; lia.
  - destruct (lookup_lt_is_Some_2 l (Nat.min (length l - 1) 255)) as [p Hp]; [lia |].
    pose proof (Hmax p (list_elem_of_lookup_2 _ _ _ Hp)) as Hle. rewrite (Hi _ _ Hp) in Hle.
    rewrite bool_decide_true in Hle by lia. lia.
Qed.

Lemma plugins_ok_snoc l p :
  plugins_ok l -> pl_name p ∉ map pl_name l ->
  pl_id p = (if bool_decide (length l < 256)%nat then Z.of_nat (length l) else 0) ->
  (pl_type p = 0 <-> l = []) -> plugins_ok (l ++ [p]).
Proof.
  intros [Hn Hi Hc] Hp Hid Ht. split.
  - rewrite map_app. apply NoDup_app. split; [done |]. split; [| apply NoDup_singleton].
    intros x Hx ->%list_elem_of_singleton. done.
  - intros i q [Hq|[Hl Hq]]%lookup_app_Some; [by apply Hi |].
    apply list_lookup_singleton_Some in Hq as [Hq <-]. assert (i = length l) as -> by lia. done.
  - intros i q [Hq|[Hl Hq]]%lookup_app_Some; [by apply Hc |].
    apply list_lookup_singleton_Some in Hq as [Hq <-]. rewrite Ht. assert (i = length l) as -> by lia.
    destruct l; [done |]. split; [done |]. simpl. lia.
Qed.

Lemma find_type_in type l : forall found id,
  find_type type l found = Some id -> found = Some id \/ exists t, (id, t) ∈ l /\ type = cstr t.
Proof.
  induction l as [|[id' t] l IH]; intros found id; simpl; [by left |]. intros E.
  destruct (IH _ _ E) as [Hf|(t' & Ht & ->)]; [| right; exists t'; by split; [right |]].
  unfold streq in Hf. case_bool_decide; [| by left]. injection Hf as <-. right. exists t. by split; [left |].
Qed.

Lemma plugin_types_core : Forall (fun '(id, t) => id = 0 -> t = "core") plugin_types_list.
Proof.
  unfold plugin_types_list. repeat apply Forall_app_2; try (case_match; [| constructor]);
    repeat constructor; intros E; (done || discriminate E).
Qed.

Lemma find_type_core type : find_type type plugin_types_list None = Some 0 -> type = cstr "core".
Proof.
  intros [|(t & Ht & ->)]%find_type_in; [done |]. f_equal.
  pose proof plugin_types_core as Hf. rewrite Forall_forall in Hf. by apply (Hf (0, t)).
Qed.

Lemma core_type : find_type (cstr "core") plugin_types_list None = Some 0.
Proof. unfold plugin_types_list. destruct WITH_MYSQL, WITH_PGSQL, WITH_SQLITE3, WITH_RABBITMQ, WITH_KAFKA; reflexivity. Qed.

(** The name of a new plugin is not one of the list. *)
Lemma name_free name (l : list plugin) :
  existsb (fun p => bool_decide (name = pl_name p)) l = false -> name ∉ map pl_name l.
Proof.
  induction l as [|p l IH]; simpl; [intros _ H; by apply elem_of_nil in H |].
  intros [Hp Hl]%orb_false_elim [->|Hin]%elem_of_cons; [by rewrite bool_decide_true in Hp | by apply IH].
Qed.

Definition fits_all (l : list plugin) : Prop := Forall (fun p => cfg_fits (pl_cfg p)) l.

Lemma create_plugin_ok name type s k s' :
  create_plugin name type s = Ok (k, s') ->
  plugins_ok (plugins_list s) -> fits_all (plugins_list s) ->
  (type = cstr "core" <-> plugins_list s = []) ->
  plugins_ok (plugins_list s') /\ fits_all (plugins_list s') /\
  ((k = FALSE /\ s' = s) \/
   (k = TRUE /\ exists p, plugins_list s' = plugins_list s ++ [p] /\ pl_name p = name /\ pl_cfg p = ∅ /\ pl_type_string p = type)).
Proof.
  unfold create_plugin. intros E Hok Hf Hc. destruct (find_type type plugin_types_list None) as [ptype|] eqn:Et;
    [| injection E as <- <-; by repeat (split; [done |]); left].
  cbv zeta in E. destruct (existsb _ _) eqn:Ex; [injection E as <- <-; by repeat (split; [done |]); left |].
  case_match; [done |]. injection E as <- <-. cbn [with_plugins plugins_list]. split; [| split].
  - apply plugins_ok_snoc; simpl; [done | by apply name_free | by apply next_id |]. rewrite <- Hc. split.
    + intros ->. by apply find_type_core.
    + intros ->. rewrite core_type in Et. by injection Et.
  - apply Forall_app. split; [done |]. by apply Forall_singleton, map_Forall_empty.
  - right. split; [done |]. by eexists.
Qed.

Lemma create_core s name k s' : plugins_list s = [] -> create_plugin name (cstr "core") s = Ok (k, s') ->
  plugins_ok (plugins_list s') /\ fits_all (plugins_list s') /\
  exists p, plugins_list s' = [p] /\ pl_name p = name.
Proof.
  intros Hs E. destruct (create_plugin_ok _ _ _ _ _ E) as (H1 & H2 & H3); rewrite ?Hs; [apply plugins_ok_nil | by apply Forall_nil_2 | done |].
  - split; [done |]. split; [done |]. destruct H3 as [[-> ->]|(_ & p & Hp & Hn & _)].
    + unfold create_plugin in E. rewrite core_type, Hs in E. simpl in E. by case_match.
    + exists p. by rewrite Hp, Hs.
Qed.

Lemma parse_core_process_name_ok cfg ign s s' :
  plugins_list s = [] -> parse_core_process_name cfg ign s = Ok s' ->
  plugins_ok (plugins_list s') /\ fits_all (plugins_list s') /\ exists p, plugins_list s' = [p].
Proof.
  intros Hs E. unfold parse_core_process_name in E. apply bind_Ok_inv in E as (found & _ & E).
  apply bind_Ok_inv in E as ([k s1] & E & [= <-]).
  destruct found as [[index value]|]; [destruct ign |];
    destruct (create_core _ _ _ _ Hs E) as (? & ? & p & ? & _); eauto.
Qed.

Lemma plugins_loop_ok ign fuel : forall start name dn num s num' s',
  plugins_loop fuel start name dn ign num s = Ok (num', s') ->
  plugins_ok (plugins_list s) -> fits_all (plugins_list s) -> plugins_list s <> [] ->
  plugins_ok (plugins_list s') /\ fits_all (plugins_list s') /\ plugins_list s `prefix_of` plugins_list s'.
Proof.
  induction fuel as [|fuel IH]; intros start name dn num s num' s' E Hok Hf Hne; [done |].
  cbn [plugins_loop] in E. destruct (match split_at 44 start with Some (t, r) => (t, Some r) | None => (start, None) end) as [token rest].
  apply bind_Ok_inv in E as ([[[num1 name1] dn1] s1] & E1 & E).
  enough (plugins_ok (plugins_list s1) /\ fits_all (plugins_list s1) /\ plugins_list s `prefix_of` plugins_list s1) as (H1 & H2 & H3).
  { destruct rest as [rest|]; [| by injection E as _ <-].
    destruct (IH _ _ _ _ _ _ _ E H1 H2) as (G1 & G2 & G3); [intros G; rewrite G in H3; by apply prefix_nil_inv in H3 |].
    split; [done |]. split; [done |]. by etrans. }
  destruct token as [|c token]; [injection E1 as _ _ _ <-; by split |].
  destruct (SRVBUFLEN <? strlen (c :: token) + 1); [done |]. destruct (split_token (c :: token) name dn) as [[token1 name2] dn2].
  cbv zeta in E1. destruct (streq (lower_string (trim_spaces token1)) "core") eqn:Hcore; [done |]. apply bind_Ok_inv in E1 as ([k s2] & E1 & [= _ _ _ <-]).
  destruct (create_plugin_ok _ _ _ _ _ E1 Hok Hf) as (H1 & H2 & H3).
  - unfold streq in Hcore. split; [intros Ht; by rewrite Ht, bool_decide_true in Hcore | done].
  - split; [done |]. split; [done |]. destruct H3 as [[_ ->]|(_ & p & -> & _)]; [done | by apply prefix_app_r].
Qed.

Lemma parse_plugin_names_ok cfg ign s num cfg' s' :
  parse_plugin_names cfg ign s = Ok (num, cfg', s') ->
  plugins_ok (plugins_list s) -> fits_all (plugins_list s) -> plugins_list s <> [] ->
  plugins_ok (plugins_list s') /\ fits_all (plugins_list s') /\ plugins_list s `prefix_of` plugins_list s'.
Proof.
  intros E Hok Hf Hne. unfold parse_plugin_names in E. apply bind_Ok_inv in E as ([[index value]|] & _ & E);
    [| injection E as _ _ <-; by split].
  case_match; [done |]. apply bind_Ok_inv in E as ([n s1] & E & [= _ _ <-]). by eapply plugins_loop_ok.
Qed.

Lemma set_default_keeps s : Forall2 keeps (plugins_list s) (plugins_list (set_default_values s)).
Proof.
  simpl. induction (plugins_list s) as [|p l IH]; simpl; constructor; [| done]. apply keeps_set. intros Hc.
  apply keeps_app; [split; [by vm_compute | vm_compute; split; congruence] |].
  apply keeps_app; [split; [by vm_compute | vm_compute; split; congruence] |]. done.
Qed.

(** C25. Whatever the configuration file and the command line say, when
    [parse_configuration_file] returns (bad lines may end the daemon instead),
    either it reports an error and has changed nothing, or what it leaves is
    well formed: plugins have distinct names, each has its place in the list as
    its id (up to 255), the first one and only the first one is the core
    process; and every member of every plugin's configuration holds a value of
    its C type, an integer within the range [member_ranges] has for the member
    (that of its type if it has none there), a filter or table no larger than
    its room.  These are the ranges the handlers enforce: 1..65535 for
    [bgp_daemon_port] but 1..2^31-1 for [sql_port], 60..86400 for
    [bgp_table_dump_refresh_time] but 1..2^31-1 for [sql_refresh_time], 0 or 1
    for most truth values but -2^31 (the code's FALSE_NONZERO) to 1 for three;
    where CONFIG-KEYS promises less ([amqp_frame_max],
    [rpki_rtr_cache_version]) it is listed as a divergence. *)
Theorem parse_configuration_file_ok filename cfg_cmdline s r ds s' :
  plugins_list s = [] ->
  parse_configuration_file filename cfg_cmdline s = Ok (r, ds, s') ->
  r = ERR /\ s' = s \/
  r = SUCCESS /\ plugins_list s' <> [] /\ plugins_ok (plugins_list s') /\ fits_all (plugins_list s').
Proof.
  intros Hs E.
  assert (Hrun : forall (cfg : list (list Z)) flag,
    (cfg ← sanitize_cfg cfg;
     s ← parse_core_process_name cfg flag s;
     '(num, cfg, s) ← parse_plugin_names cfg flag s;
     s ← (if (num =? 0) && (acct_type <? ACCT_FWDPLANE_MAX)
          then '(_, s) ← create_plugin (cstr "default_memory") (cstr "memory") s; Ok s else Ok s);
     let s := set_default_values s in
     '(ds, s) ← evaluate_configuration cfg s; Ok (SUCCESS, ds, s)) = Ok (r, ds, s') ->
    r = SUCCESS /\ plugins_list s' <> [] /\ plugins_ok (plugins_list s') /\ fits_all (plugins_list s')).
  { clear E. intros cfg flag E. apply bind_Ok_inv in E as (cfg1 & _ & E). apply bind_Ok_inv in E as (s1 & E1 & E).
    destruct (parse_core_process_name_ok _ _ _ _ Hs E1) as (O1 & F1 & p & L1).
    apply bind_Ok_inv in E as ([[num cfg2] s2] & E2 & E).
    destruct (parse_plugin_names_ok _ _ _ _ _ _ E2 O1 F1) as (O2 & F2 & L2); [by rewrite L1 |].
    assert (N2 : plugins_list s2 <> []) by (intros N; rewrite N, L1 in L2; by apply prefix_nil_inv in L2).
    apply bind_Ok_inv in E as (s3 & E3 & E).
    assert (plugins_ok (plugins_list s3) /\ fits_all (plugins_list s3) /\ plugins_list s3 <> []) as (O3 & F3 & N3).
    { case_match; [| by injection E3 as <-]. apply bind_Ok_inv in E3 as ([k s4] & E3 & [= <-]).
      destruct (create_plugin_ok _ _ _ _ _ E3 O2 F2) as (O3 & F3 & H3); [by split |].
      split; [done |]. split; [done |]. destruct H3 as [[_ ->]|(_ & q & -> & _)]; [done |]. by destruct (plugins_list s2). }
    cbv zeta in E. apply bind_Ok_inv in E as ([ds1 s5] & E4 & [= <- _ <-]). split; [done |].
    pose proof (cfg_keeps_trans _ _ _ (set_default_keeps s3) (evaluate_from_keeps _ _ _ _ _ E4)) as Hk.
    split; [| split; [by eapply keeps_ok | by eapply keeps_fits]].
    intros N. rewrite N in Hk. apply Forall2_nil_inv_r in Hk. done. }
  unfold parse_configuration_file in E.
  destruct filename as [[| | |content]|]; try (injection E as <- _ <-; by left); [done | right; by eapply Hrun | right; by eapply Hrun].
Qed.

End CfgFacts.

(** ** A build and a machine, for the examples *)

Definition ex_host : host := {|
  HAVE_L2 := true; WITH_NDPI := false; WITH_ZMQ := true; WITH_GEOIPV2 := false;
  WITH_MYSQL := false; WITH_PGSQL := true; WITH_SQLITE3 := false; WITH_RABBITMQ := false; WITH_KAFKA := true;
  PCAP_D_IN := 1; PCAP_D_OUT := 2;
  acct_type := 2;
  getpwnam := fun _ => None; getpwuid := fun uid => Some uid;
  getgrnam := fun _ => None; getgrgid := fun gid => Some gid;
  inet_aton := fun _ => None; inet_pton6 := fun _ => None
|}.

Definition ex_plugin (id : Z) (name type : string) (t : Z) : plugin := mk_plugin id (cstr name) ∅ t (cstr type).
Definition ex_daemon : daemon :=
  mk_daemon [ex_plugin 0 "default" "core" 0; ex_plugin 1 "a" "print" 2; ex_plugin 2 "b" "kafka" 10] [].

Definition state_of {A} (r : res (A * daemon)) : daemon := match r with Ok (_, s) => s | Err _ => ex_daemon end.

Lemma evaluate_line_frame_witness :
  let s' := state_of (evaluate_line (ho := ex_host) 1 (cstr "kafka_topic[b]:flows") ex_daemon) in
  length (plugins_list s') = 3%nat /\
  (exists p', plugins_list s' !! 1%nat = Some p' /\ pl_cfg p' = ∅) /\
  (exists p', plugins_list s' !! 2%nat = Some p' /\ pl_cfg p' !! "sql_table" = Some (CStr (cstr "flows"))).
Proof.
  destruct (evaluate_line_frame (ho := ex_host) 1 (cstr "kafka_topic[b]:flows") (cstr "kafka_topic") (Some (cstr "b")) (cstr "flows")
    ex_daemon [] (state_of (evaluate_line (ho := ex_host) 1 (cstr "kafka_topic[b]:flows") ex_daemon)))
    as [H _]; [vm_compute; reflexivity | vm_compute; reflexivity |].
  assert (E : may_change (ho := ex_host) (cstr "kafka_topic") = Some (PerPlugin, ["sql_table"])) by (vm_compute; reflexivity).
  rewrite E in H. destruct H as (Hl & Hp & _). cbv zeta. split; [exact Hl |]. split.
  - destruct (Hp 1%nat (ex_plugin 1 "a" "print" 2) eq_refl) as (p' & Hp' & _ & _ & Ha). exists p'. split; [exact Hp' |].
    rewrite Ha; [reflexivity |]. intros (p & Ep & Hn & _). injection Ep as <-. vm_compute in Hn. discriminate Hn.
  - eexists. split; vm_compute; reflexivity.
Defined.

Lemma lines_commute_witness :
  exists ds', evaluate_from (ho := ex_host) 1 ([] ++ cstr "print_output[a]:csv" :: cstr "logfile:/tmp/x" :: [cstr "debug:true"]) ex_daemon
    = Ok (ds', state_of (evaluate_from (ho := ex_host) 1 ([] ++ cstr "logfile:/tmp/x" :: cstr "print_output[a]:csv" :: [cstr "debug:true"]) ex_daemon)).
Proof.
  eapply (lines_commute (ho := ex_host) 1 [] (cstr "logfile:/tmp/x") (cstr "print_output[a]:csv") [cstr "debug:true"]
    (cstr "logfile") None (cstr "/tmp/x") Global ["logfile"]
    (cstr "print_output") (Some (cstr "a")) (cstr "csv") PerPlugin ["print_output"] ex_daemon []).
  - vm_compute; reflexivity.
  - vm_compute; reflexivity.
  - vm_compute; reflexivity.
  - vm_compute; reflexivity.
  - intros f ->%list_elem_of_singleton H%list_elem_of_singleton. discriminate H.
  - vm_compute; reflexivity.
Defined.

Definition ex_file : list Z :=
  cstr "plugins: print[a], kafka[b]" ++ [10] ++ cstr "! a comment" ++ [10] ++ [10]
  ++ cstr "BGP_daemon_port: 1790" ++ [10] ++ cstr "print_refresh_time [a]: 60 " ++ [10] ++ cstr "nfacctd_port: 70000" ++ [10].

Lemma parse_configuration_file_ok_witness :
  let r := parse_configuration_file (ho := ex_host) (Some (Readable ex_file)) [cstr "debug: true"] (mk_daemon [] []) in
  exists ds s', r = Ok (SUCCESS, ds, s') /\ plugins_ok (plugins_list s') /\ fits_all (plugins_list s').
Proof.
  set (r := parse_configuration_file (ho := ex_host) (Some (Readable ex_file)) [cstr "debug: true"] (mk_daemon [] [])).
  set (s' := match r with Ok (_, s) => s | Err _ => ex_daemon end).
  destruct (parse_configuration_file_ok (ho := ex_host) (Some (Readable ex_file)) [cstr "debug: true"] (mk_daemon [] [])
    SUCCESS [InvalidValue 6] s' eq_refl) as [[E _]|(_ & _ & H1 & H2)].
  - vm_compute. reflexivity.
  - discriminate E.
  - exists [InvalidValue 6], s'. split; [vm_compute; reflexivity | by split].
Defined.

End CfgFacts.
