(* ===== verification/CfgTextFacts.v ===== *)
(** * The text of a configuration

    From the text to the keys: a line that is written the usual way comes out
    of the syntax checks as its key, name and value; the command line has the
    last word over the file; reading a configuration ends, with a state or an
    exit, without an access outside its buffers, for lines that fit them. *)

From S2P Require Import Prelude.
From S2P Require Import BgpPrefix.
From S2P Require Import CfgData.
From S2P Require Import CfgHandlers.
From S2P Require Import Cfg.
From S2P Require Import CfgKeysFacts.
From S2P Require Import CfgFacts.

Module CfgTextFacts.
Import CfgData.
Import CfgHandlers.
Import Cfg.
Import CfgKeysFacts.
Import CfgFacts.

(** ** Strings *)

(** A character that means nothing to the syntax. *)
Definition plain (c : Z) : Prop := c <> 91 /\ c <> 93 /\ c <> 58.
Definition not_space (c : Z) : bool := negb (is_space c).

Lemma skip_spaces_pad p s : Forall (fun c => is_space c = true) p -> skip_spaces (p ++ s) = skip_spaces s.
Proof. intros Hp. induction Hp as [|c p Hc Hp IH]; [done |]. simpl. by rewrite Hc. Qed.

Lemma skip_spaces_suffix s : exists p, s = p ++ skip_spaces s /\ Forall (fun c => is_space c = true) p.
Proof.
  induction s as [|c s (p & E & Hp)]; simpl; [by exists [] |]. case_match eqn:Hc; [| by exists []].
  exists (c :: p). split; [by rewrite E at 1 | by constructor].
Qed.

Lemma skip_spaces_length s : (length (skip_spaces s) <= length s)%nat.
Proof. destruct (skip_spaces_suffix s) as (p & E & _). rewrite E at 2. rewrite length_app. lia. Qed.

Lemma trim_spaces_length s : (length (trim_spaces s) <= length s)%nat.
Proof.
  unfold trim_spaces. rewrite length_rev. etrans; [apply skip_spaces_length |]. rewrite length_rev. apply skip_spaces_length.
Qed.

(** A string that begins and ends with characters that are no spaces is not
    trimmed. *)
Definition trimmed (v : list Z) : Prop := skip_spaces v = v /\ skip_spaces (rev v) = rev v.

Lemma trim_spaces_trimmed p v q :
  trimmed v -> Forall (fun c => is_space c = true) p -> Forall (fun c => is_space c = true) q ->
  trim_spaces (p ++ v ++ q) = v.
Proof.
  intros [Hv Hr] Hp Hq. unfold trim_spaces. rewrite skip_spaces_pad by done.
  destruct v as [|c v]; simpl app.
  - assert (E : skip_spaces q = []) by (rewrite <- (app_nil_r q); by rewrite skip_spaces_pad). by rewrite E.
  - assert (is_space c = false) as Hc.
    { simpl in Hv. destruct (is_space c); [| done]. exfalso. pose proof (skip_spaces_length v) as Hl.
      rewrite Hv in Hl. simpl in Hl. lia. }
    simpl skip_spaces. rewrite Hc. change (c :: v ++ q) with ((c :: v) ++ q). rewrite rev_app_distr, skip_spaces_pad.
    + by rewrite Hr, rev_involutive.
    + by apply Forall_rev.
Qed.

(** ** The syntax checks, on text without brackets and colons *)

Lemma check_brackets_plain K line symbol got_first colon :
  Forall plain K -> 0 <= symbol <= 1 ->
  check_brackets (K ++ line) symbol got_first colon = check_brackets line symbol got_first colon.
Proof.
  intros HK Hs. induction HK as [|c K (H1 & H2 & H3) HK IH]; [done |]. simpl.
  rewrite (proj2 (Z.eqb_neq c 91)), (proj2 (Z.eqb_neq c 93)), (proj2 (Z.eqb_neq c 58)) by done. simpl.
  rewrite (proj2 (Z.ltb_ge symbol 0)), (proj2 (Z.ltb_ge 1 symbol)) by lia. simpl. by rewrite orb_false_r.
Qed.

(** After the colon, a bracket that was closed allows anything. *)
Lemma check_brackets_after line : forall symbol got_first, 1 <= got_first -> check_brackets line symbol got_first true = Ok tt.
Proof.
  induction line as [|c line IH]; intros symbol got_first Hg; simpl.
  - rewrite (proj2 (Z.eqb_neq got_first 0)) by lia. by rewrite andb_false_r.
  - destruct (c =? 91); [| destruct (c =? 93)]; rewrite andb_false_r; simpl;
      rewrite (proj2 (Z.eqb_neq _ 0)) by lia; rewrite !andb_false_r; apply IH; lia.
Qed.

(** The brackets of a value that no bracket was closed before: at most one
    opens before the first one that closes, and none when none closes. *)
Fixpoint weighted (opened : bool) (V : list Z) : bool :=
  match V with
  | [] => negb opened
  | c :: V => if c =? 93 (* ] *) then true else if c =? 91 (* [ *) then negb opened && weighted true V else weighted opened V
  end.

Lemma check_brackets_value V : forall opened,
  check_brackets V (if opened : bool then 1 else 0) 0 true = if weighted opened V then Ok tt else Err Exited.
Proof.
  induction V as [|c V IH]; intros opened; cbn [weighted]; [by destruct opened |]. cbn [check_brackets].
  destruct (Z.eqb_spec c 91) as [->|H91]; [| destruct (Z.eqb_spec c 93) as [->|H93]]; rewrite andb_false_r; cbn [andb orb].
  - destruct opened; [done | exact (IH true)].
  - destruct opened; by rewrite check_brackets_after.
  - rewrite <- IH. by destruct opened.
Qed.

Lemma strip_key_plain K line : Forall plain K ->
  strip_key (K ++ line) 0 = (List.filter not_space K ++ fst (strip_key line 0), snd (strip_key line 0)).
Proof.
  intros HK. induction HK as [|c K (H1 & H2 & H3) HK IH]; simpl; [by destruct (strip_key line 0) |].
  rewrite (proj2 (Z.eqb_neq c 91)), (proj2 (Z.eqb_neq c 93)), (proj2 (Z.eqb_neq c 58)), IH by done. simpl.
  unfold not_space. by destruct (is_space c).
Qed.

Lemma strip_key_inside n line : Forall plain n ->
  strip_key (n ++ line) 1 = (n ++ fst (strip_key line 1), snd (strip_key line 1)).
Proof.
  intros Hn. induction Hn as [|c n (H1 & H2 & H3) Hn IH]; simpl; [by destruct (strip_key line 1) |].
  by rewrite (proj2 (Z.eqb_neq c 91)), (proj2 (Z.eqb_neq c 93)), (proj2 (Z.eqb_neq c 58)), IH by done.
Qed.

Lemma check_symbols_plain K line key rows : Forall plain K -> key <> 0 ->
  check_symbols rows (K ++ line) 0 key = Ok tt \/
  exists rows' key', key' <> 0 /\ check_symbols rows (K ++ line) 0 key = check_symbols rows' line 0 key'.
Proof.
  intros HK. revert key rows. induction HK as [|c K (H1 & H2 & H3) HK IH]; intros key rows Hk; simpl app; [right; by exists rows, key |].
  destruct rows as [|rows]; [by left |]. simpl.
  rewrite (proj2 (Z.eqb_neq c 91)), (proj2 (Z.eqb_neq c 93)), (proj2 (Z.eqb_neq c 58)) by done. simpl.
  apply IH. by destruct (is_alpha c).
Qed.

Lemma check_symbols_inside n line key rows : Forall plain n -> key <> 0 ->
  check_symbols rows (n ++ line) 1 key = Ok tt \/
  exists rows', check_symbols rows (n ++ line) 1 key = check_symbols rows' line 1 key.
Proof.
  intros Hn Hk. revert rows. induction Hn as [|c n (H1 & H2 & H3) Hn IH]; intros rows; simpl app; [right; by exists rows |].
  destruct rows as [|rows]; [by left |]. simpl.
  rewrite (proj2 (Z.eqb_neq c 91)), (proj2 (Z.eqb_neq c 93)), (proj2 (Z.eqb_neq c 58)), (proj2 (Z.eqb_neq key 0)) by done. simpl.
  apply IH.
Qed.

Lemma lower_key_plain K line : Forall plain K -> lower_key (K ++ line) 0 = lower_string K ++ lower_key line 0.
Proof.
  intros HK. induction HK as [|c K (H1 & H2 & H3) HK IH]; [done |]. simpl.
  by rewrite (proj2 (Z.eqb_neq c 91)), (proj2 (Z.eqb_neq c 93)), (proj2 (Z.eqb_neq c 58)), IH by done.
Qed.

Lemma lower_key_inside n line : Forall plain n -> lower_key (n ++ line) 1 = n ++ lower_key line 1.
Proof.
  intros Hn. induction Hn as [|c n (H1 & H2 & H3) Hn IH]; [done |]. simpl.
  by rewrite (proj2 (Z.eqb_neq c 91)), (proj2 (Z.eqb_neq c 93)), (proj2 (Z.eqb_neq c 58)), IH by done.
Qed.

(** ** A line written the usual way *)

Definition bracketed (name : option (list Z)) : list Z :=
  match name with Some n => 91 :: n ++ [93] | None => [] end.

(** [K], spaces and capitals included, the name between brackets, more spaces,
    a colon, and the rest of the line. *)
Definition written (K : list Z) (name : option (list Z)) (pad V : list Z) : list Z :=
  K ++ bracketed name ++ pad ++ 58 :: V.

(** The key a text stands for: no spaces, no capitals. *)
Definition key_of (K : list Z) : list Z := lower_string (List.filter not_space K).

(** A value passes the check of the brackets: any, after a name in brackets. *)
Definition value_passes (name : option (list Z)) (V : list Z) : bool :=
  match name with Some _ => true | None => weighted false V end.

Record written_ok (K : list Z) (name : option (list Z)) (pad V : list Z) : Prop := {
  wo_key : Forall plain K;
  wo_first : exists c r, skip_spaces K = c :: r /\ is_alpha c = true;
  wo_name : match name with Some n => Forall plain n | None => True end;
  wo_pad : Forall (fun c => is_space c = true) pad;
  wo_size : strlen (written K name pad V) + 2 <= LOCALBUFLEN
}.

Lemma space_plain c : is_space c = true -> plain c.
Proof. intros H. repeat split; intros ->; done. Qed.

Lemma alpha_range c : is_alpha c = true -> 65 <= c <= 90 \/ 97 <= c <= 122.
Proof.
  unfold is_alpha, is_upper, is_lower. intros [[H1 H2]%andb_prop|[H1 H2]%andb_prop]%orb_prop; lia.
Qed.

Lemma alpha_not_space c : is_alpha c = true -> is_space c = false.
Proof.
  intros H%alpha_range. unfold is_space. destruct (Z.eqb_spec c 32), (Z.leb_spec 9 c), (Z.leb_spec c 13); simpl; (done || lia).
Qed.

Lemma filter_spaces p : Forall (fun c => is_space c = true) p -> List.filter not_space p = [].
Proof. intros Hp. induction Hp as [|c p Hc Hp IH]; [done |]. simpl. unfold not_space at 1. by rewrite Hc. Qed.

(** The key without its spaces still begins with a letter. *)
Lemma filter_first K c r : skip_spaces K = c :: r -> is_alpha c = true -> exists r', List.filter not_space K = c :: r'.
Proof.
  intros Hs Hc. destruct (skip_spaces_suffix K) as (p & E & Hp). rewrite E, List.filter_app, (filter_spaces p Hp), Hs. simpl.
  unfold not_space at 1. rewrite (alpha_not_space c Hc). by eexists.
Qed.

Lemma filter_plain K : Forall plain K -> Forall plain (List.filter not_space K).
Proof. intros HK. induction HK as [|c K Hc HK IH]; [constructor |]. simpl. case_match; [by constructor | done]. Qed.

Lemma filter_length (f : Z -> bool) K : (length (List.filter f K) <= length K)%nat.
Proof. induction K as [|c K IH]; simpl; [done |]. case_match; simpl; lia. Qed.

Lemma blank_line_written K name pad V : written_ok K name pad V -> blank_line (written K name pad V) = written K name pad V.
Proof.
  intros [HK (c & r & Hs & Hc) Hn Hp _]. unfold blank_line, written.
  destruct (skip_spaces_suffix K) as (p & E & Hpp). rewrite Hs in E.
  assert (iscomment (K ++ bracketed name ++ pad ++ 58 :: V) = false) as ->.
  { unfold iscomment. rewrite E, <- app_assoc, skip_spaces_pad by done. simpl. rewrite (alpha_not_space c Hc).
    apply alpha_range in Hc. destruct (Z.eqb_spec c 33), (Z.eqb_spec c 35); simpl; (done || lia). }
  assert (isblankline (K ++ bracketed name ++ pad ++ 58 :: V) = false) as ->; [| done].
  unfold isblankline. apply Z.eqb_neq. rewrite E, <- app_assoc. unfold strlen. rewrite List.filter_app, !length_app. simpl.
  rewrite (alpha_not_space c Hc). simpl.
  pose proof (filter_length is_space p). pose proof (filter_length is_space (r ++ bracketed name ++ pad ++ 58 :: V)) as Hr.
  rewrite !length_app in Hr. simpl in Hr. lia.
Qed.

Lemma written_brackets K name pad V : written_ok K name pad V ->
  check_brackets (written K name pad V) 0 0 false = if value_passes name V then Ok tt else Err Exited.
Proof.
  intros [HK _ Hn Hp _]. unfold written.
  assert (Hpad : Forall plain pad) by (eapply Forall_impl; [exact Hp | apply space_plain]).
  rewrite check_brackets_plain by (done || lia). destruct name as [n|]; simpl bracketed.
  - simpl. rewrite <- app_assoc. simpl. rewrite check_brackets_plain by (done || lia). simpl.
    rewrite check_brackets_plain by (done || lia). simpl. by apply check_brackets_after.
  - simpl. rewrite check_brackets_plain by (done || lia). simpl. by apply (check_brackets_value V false).
Qed.

Lemma strip_key_written K name pad V : written_ok K name pad V ->
  strip_key (written K name pad V) 0 = (List.filter not_space K ++ bracketed name ++ [58], Some V).
Proof.
  intros [HK _ Hn Hp _]. unfold written.
  assert (Hpad : Forall plain pad) by (eapply Forall_impl; [exact Hp | apply space_plain]).
  rewrite strip_key_plain by done. destruct name as [n|]; simpl bracketed.
  - simpl. rewrite <- app_assoc, strip_key_inside by done. simpl. rewrite strip_key_plain by done. simpl.
    by rewrite (filter_spaces pad Hp), <- app_assoc.
  - simpl. rewrite strip_key_plain by done. simpl. by rewrite (filter_spaces pad Hp).
Qed.

Lemma bracketed_length name : 0 <= strlen (bracketed name).
Proof. unfold strlen. lia. Qed.

Lemma strip_line_written K name pad V : written_ok K name pad V ->
  strip_line (written K name pad V) = Ok (List.filter not_space K ++ bracketed name ++ 58 :: trim_spaces V).
Proof.
  intros Hw. unfold strip_line. rewrite (strip_key_written _ _ _ _ Hw). cbn [default].
  destruct Hw as [HK _ Hn Hp Hs]. unfold written in Hs. pose proof (filter_length not_space K).
  unfold strlen in *. rewrite !length_app in *. simpl length in *.
  rewrite (proj2 (Z.ltb_ge _ _)) by lia. simpl. by rewrite <- !app_assoc.
Qed.

Lemma check_symbols_written rows K name V : Forall plain K -> (exists c r, K = c :: r /\ is_alpha c = true) ->
  match name with Some n => Forall plain n | None => True end ->
  check_symbols rows (K ++ bracketed name ++ 58 :: V) 0 0 = Ok tt.
Proof.
  intros HK (c & r & -> & Hc) Hn. destruct rows as [|rows]; [done |]. inversion HK as [|? ? (H1 & H2 & H3) Hr]; subst.
  simpl. rewrite (proj2 (Z.eqb_neq c 91)), (proj2 (Z.eqb_neq c 93)), (proj2 (Z.eqb_neq c 58)), Hc by done. simpl.
  destruct (check_symbols_plain r (bracketed name ++ 58 :: V) TRUE rows Hr) as [E|(rows' & key & Hk & E)]; [done | done |].
  rewrite E. destruct name as [n|]; simpl bracketed.
  - destruct rows' as [|rows']; [done |]. simpl. rewrite (proj2 (Z.eqb_neq key 0)), <- app_assoc by done.
    change (0 + 1) with 1. destruct (check_symbols_inside n ([93] ++ 58 :: V) key rows' Hn Hk) as [->|(rows2 & ->)]; [done |].
    destruct rows2 as [|rows2]; [done |]. simpl. by destruct rows2.
  - by destruct rows'.
Qed.

Lemma lower_key_written K name V : Forall plain K -> match name with Some n => Forall plain n | None => True end ->
  lower_key (K ++ bracketed name ++ 58 :: V) 0 = lower_string K ++ bracketed name ++ 58 :: V.
Proof.
  intros HK Hn. rewrite lower_key_plain by done. f_equal. destruct name as [n|]; [| done]. simpl. f_equal.
  rewrite <- !app_assoc, lower_key_inside by done. done.
Qed.

Lemma tolower_plain c : plain c -> plain (tolower c).
Proof.
  intros (H1 & H2 & H3). unfold tolower, is_upper. case_match eqn:E; [| done]. apply andb_prop in E as [E1 E2].
  repeat split; lia.
Qed.

Lemma lower_plain K : Forall plain K -> Forall plain (lower_string K).
Proof. intros HK. apply Forall_map. eapply Forall_impl; [exact HK | apply tolower_plain]. Qed.

Lemma plain_no c K : c = 91 \/ c = 93 \/ c = 58 -> Forall plain K -> ~ In c K.
Proof. intros Hc HK Hin. rewrite List.Forall_forall in HK. destruct (HK c Hin) as (? & ? & ?). lia. Qed.

Lemma split_line_written key name V : Forall plain key -> match name with Some n => Forall plain n | None => True end ->
  split_line (key ++ bracketed name ++ 58 :: V) = Ok (key, name, V).
Proof.
  intros HK Hn. unfold split_line.
  replace (key ++ bracketed name ++ 58 :: V) with ((key ++ bracketed name) ++ 58 :: V) by (by rewrite <- app_assoc).
  rewrite BgpPrefix.split_at_app.
  2: { rewrite in_app_iff. intros [Hin|Hin]; [by apply (plain_no 58 key) in Hin; auto |].
       destruct name as [n|]; [| done]. simpl in Hin. rewrite in_app_iff in Hin. simpl in Hin.
       destruct Hin as [|[Hin|[|]]]; [lia | by apply (plain_no 58 n) in Hin; auto | lia | done]. }
  cbn [deref]. rewrite bind_Ok. destruct name as [n|]; simpl bracketed.
  - rewrite BgpPrefix.split_at_app by (apply plain_no; auto).
    rewrite BgpPrefix.split_at_app by (apply plain_no; auto). done.
  - rewrite app_nil_r. enough (split_at 91 key = None) as -> by done.
    clear -HK. induction HK as [|c key (H1 & H2 & H3) HK IH]; [done |]. simpl. rewrite (proj2 (Z.eqb_neq c 91)) by done. by rewrite IH.
Qed.

Lemma sanitize_line_enters rows K name pad V : written_ok K name pad V ->
  sanitize_line rows (written K name pad V) =
    ((if value_passes name V then Ok tt else Err Exited);;
     line ← strip_line (written K name pad V);
     check_symbols rows line 0 0;;
     if bool_decide (head line = Some 58) then Err Exited else Ok (lower_key line 0)).
Proof.
  intros Hw. destruct (wo_first _ _ _ _ Hw) as (c & r & Hs & _). unfold sanitize_line. rewrite (blank_line_written _ _ _ _ Hw).
  rewrite (bool_decide_false (written K name pad V = [])).
  2: { unfold written. destruct K; [done | simpl; congruence]. }
  rewrite bool_decide_true; [| unfold written; rewrite !elem_of_app; right; right; right; left]. cbn [negb].
  by rewrite (written_brackets _ _ _ _ Hw).
Qed.

Lemma sanitize_line_written rows K name pad p v q :
  written_ok K name pad (p ++ v ++ q) -> value_passes name (p ++ v ++ q) = true -> trimmed v ->
  Forall (fun c => is_space c = true) p -> Forall (fun c => is_space c = true) q ->
  exists line, sanitize_line rows (written K name pad (p ++ v ++ q)) = Ok line /\
    line = key_of K ++ bracketed name ++ 58 :: v /\ split_line line = Ok (key_of K, name, v).
Proof.
  intros Hw Hpass Hv Hp Hq. pose proof (wo_key _ _ _ _ Hw) as HK. destruct (wo_first _ _ _ _ Hw) as (c & r & Hs & Hc).
  assert (Hn : match name with Some n => Forall plain n | None => True end) by exact (wo_name _ _ _ _ Hw).
  destruct (filter_first K c r Hs Hc) as [r' Hf]. pose proof (filter_plain K HK) as HfK.
  eexists. split; [| split; [reflexivity |]].
  - rewrite (sanitize_line_enters _ _ _ _ _ Hw), Hpass. cbn [mbind res_bind]. rewrite (strip_line_written _ _ _ _ Hw). cbn [mbind res_bind].
    rewrite trim_spaces_trimmed, check_symbols_written by eauto. cbn [mbind res_bind].
    rewrite bool_decide_false.
    + by rewrite lower_key_written.
    + rewrite Hf. simpl. intros [= ->]. done.
  - apply split_line_written; [| done]. by apply lower_plain.
Qed.

(** C28. A line that is written the usual way means what it says.  It has a key
    of any case and spacing that begins with a letter, an optional name between
    brackets (key and name without brackets and colons), any value, and fits
    the buffer of 10240.  If the brackets of the value pass, the line passes
    the syntax checks, and what comes out of them splits into the key in lower
    case without spaces, the name as it stands, and the value without the
    spaces around it; if they do not, the daemon exits.  After a name they
    always pass; without one at most one bracket may open before the first that
    closes, and none if none closes: [plugins: print[a]] passes and
    [sql_passwd: a[b] ends the daemon. *)
Theorem sanitize_line_roundtrip rows K name pad p v q :
  written_ok K name pad (p ++ v ++ q) -> trimmed v ->
  Forall (fun c => is_space c = true) p -> Forall (fun c => is_space c = true) q ->
  if value_passes name (p ++ v ++ q) then
    exists line, sanitize_line rows (written K name pad (p ++ v ++ q)) = Ok line /\
      line = key_of K ++ bracketed name ++ 58 :: v /\ split_line line = Ok (key_of K, name, v)
  else sanitize_line rows (written K name pad (p ++ v ++ q)) = Err Exited.
Proof.
  intros Hw Hv Hp Hq. destruct (value_passes name (p ++ v ++ q)) eqn:E; [by apply sanitize_line_written |].
  by rewrite (sanitize_line_enters _ _ _ _ _ Hw), E.
Qed.

(** ** The whole text *)

Section Text.
Context {ho : host}.

Lemma sanitize_lines_app rows cfg1 cfg2 cfg :
  sanitize_lines rows (cfg1 ++ cfg2) = Ok cfg ->
  exists c1 c2, cfg = c1 ++ c2 /\ sanitize_lines rows cfg1 = Ok c1 /\ sanitize_lines rows cfg2 = Ok c2.
Proof.
  revert cfg. induction cfg1 as [|line cfg1 IH]; intros cfg E; [by exists [], cfg |]. cbn [app sanitize_lines] in *.
  apply bind_Ok_inv in E as (l & El & E). apply bind_Ok_inv in E as (c & Ec & [= <-]).
  destruct (IH _ Ec) as (c1 & c2 & -> & E1 & E2). exists (l :: c1), c2. by rewrite El, bind_Ok, E1.
Qed.

Lemma search_key_at k cfg : forall index i value,
  search_key k cfg index = Ok (Some (i, value)) ->
  exists line key, cfg !! (i - index)%nat = Some line /\ (index <= i)%nat /\ split_at 58 line = Some (key, value) /\ key = cstr k.
Proof.
  induction cfg as [|line cfg IH]; intros index i value E; [done |]. cbn [search_key] in E.
  assert (Hnext : search_key k cfg (S index) = Ok (Some (i, value)) ->
    exists line0 key, (line :: cfg) !! (i - index)%nat = Some line0 /\ (index <= i)%nat
      /\ split_at 58 line0 = Some (key, value) /\ key = cstr k).
  { intros H. destruct (IH _ _ _ H) as (l0 & key & Hl & Hi & Hs). exists l0, key.
    replace (i - index)%nat with (S (i - S index)) by lia. split; [done |]. split; [lia | done]. }
  destruct (split_at 58 line) as [[[|c key] v]|] eqn:Es; [by apply Hnext | | by apply Hnext].
  destruct (SRVBUFLEN <? strlen (c :: key) + 1); [done |]. unfold streq in E. case_bool_decide as Hk; [| by apply Hnext].
  injection E as <- <-. exists line, (c :: key). rewrite Nat.sub_diag. by repeat split.
Qed.

(** The lines that are evaluated, and the state they are evaluated in. *)
Lemma parse_configuration_file_run filename cfg_cmdline s r ds s' :
  parse_configuration_file filename cfg_cmdline s = Ok (r, ds, s') ->
  r = ERR \/
  exists cfg0 cfg cfg2 s0,
    cfg0 = match filename with Some (Readable content) => read_lines (length content) 0 content | _ => [] end /\
    sanitize_cfg (cfg0 ++ take (Z.to_nat LARGEBUFLEN - length cfg0) cfg_cmdline) = Ok cfg /\
    (cfg2 = cfg \/ exists index line value, cfg !! index = Some line /\
       split_at 58 line = Some (cstr "plugins", value) /\ cfg2 = <[index := []]> cfg) /\
    evaluate_configuration cfg2 s0 = Ok (ds, s').
Proof.
  intros E. unfold parse_configuration_file in E.
  destruct filename as [[| | |content]|]; [by injection E as <- _ _; left | by injection E as <- _ _; left | done | right | right].
  all: cbv zeta in E; apply bind_Ok_inv in E as (cfg & Es & E); apply bind_Ok_inv in E as (s1 & _ & E);
    apply bind_Ok_inv in E as ([[num cfg2] s2] & E2 & E); apply bind_Ok_inv in E as (s3 & _ & E);
    apply bind_Ok_inv in E as ([ds1 s5] & E4 & [= _ <- <-]);
    eexists _, cfg, cfg2, (set_default_values s3); split; [reflexivity |]; split; [exact Es |]; split; [| exact E4];
    unfold parse_plugin_names in E2; apply bind_Ok_inv in E2 as ([[index value]|] & Ek & E2); [| injection E2 as _ <- _; by left];
    destruct (LOCALBUFLEN <? strlen value + 1); [done |]; apply bind_Ok_inv in E2 as ([n s4] & _ & [= _ <- _]); right;
    destruct (search_key_at _ _ _ _ _ Ek) as (line & key & Hl & _ & Hsp & ->); rewrite Nat.sub_0_r in Hl; by exists index, line, value.
Qed.

Lemma split_line_split_at line key value : split_line line = Ok (key, None, value) -> split_at 58 line = Some (key, value).
Proof.
  unfold split_line. intros E. apply bind_Ok_inv in E as ([k v] & Ed & E). apply deref_Ok in Ed. rewrite Ed.
  destruct (split_at 91 k) as [[? n]|]; [by apply bind_Ok_inv in E as ([] & _ & [=]) | by injection E as <- <-].
Qed.

Lemma find_key_app key l1 l2 :
  find_key key (l1 ++ l2) = match find_key key l1 with Some h => Some h | None => find_key key l2 end.
Proof. induction l1 as [|[k h] l1 IH]; [done |]. simpl. by destruct (streq key k). Qed.

Lemma plugins_unhandled h : find_key (cstr "plugins") dictionary <> Some (Some h).
Proof.
  unfold dictionary. rewrite find_key_app.
  assert (find_key (cstr "plugins") dictionary_1 = Some None) as -> by (vm_compute; reflexivity). done.
Qed.

(** The command line has the last word. The options given to a daemon are
    turned into lines placed after those of the file; whatever the file says
    and whatever the options before it, a last line whose key sets a member in
    every plugin leaves every plugin with the value it sets. The lines must
    all fit the array: of the command line, those after the 8224th are
    dropped. *)
Theorem cmdline_has_last_word filename cmd K pad p v q h u f w s r ds s' :
  written_ok K None pad (p ++ v ++ q) -> weighted false (p ++ v ++ q) = true -> trimmed v ->
  Forall (fun c => is_space c = true) p -> Forall (fun c => is_space c = true) q ->
  find_key (key_of K) dictionary = Some (Some h) ->
  (forall name s, h name v s = Ok (all u s)) -> (forall c, u c !! f = Some w) ->
  (match filename with Some (Readable content) => length (read_lines (length content) 0 content) | _ => 0 end
     + length cmd < Z.to_nat LARGEBUFLEN)%nat ->
  parse_configuration_file filename (cmd ++ [written K None pad (p ++ v ++ q)]) s = Ok (r, ds, s') ->
  r = ERR \/ Forall (fun p => pl_cfg p !! f = Some w) (plugins_list s').
Proof.
  intros Hw Hpass Hv Hp Hq Hk Hh Hu Hroom E.
  destruct (parse_configuration_file_run _ _ _ _ _ _ E) as [|(cfg0 & cfg & cfg2 & s0 & -> & Es & Hcfg2 & Ee)]; [by left | right].
  rewrite take_ge in Es.
  2: { rewrite length_app. cbn [length]. revert Hroom. generalize (Z.to_nat LARGEBUFLEN). intros n Hn.
       destruct filename as [[| | |content]|]; cbn [length] in *; lia. }
  rewrite app_assoc in Es. apply sanitize_lines_app in Es as (c1 & c2 & -> & _ & Es). cbn [sanitize_lines] in Es.
  match type of Es with context [sanitize_line ?rows _] =>
    destruct (sanitize_line_written rows K None pad p v q Hw Hpass Hv Hp Hq) as (line & El & Hline & Hsplit) end.
  rewrite El, bind_Ok in Es. injection Es as <-.
  assert (exists c0, cfg2 = c0 ++ [line]) as [c0 ->].
  { destruct Hcfg2 as [->|(index & l & value & Hl & Hs & ->)]; [by eexists |].
    apply lookup_app_Some in Hl as [Hl|[Hi Hl]].
    - exists (<[index := []]> c1). apply insert_app_l. by apply lookup_lt_Some in Hl.
    - apply list_lookup_singleton_Some in Hl as [_ <-]. apply split_line_split_at in Hsplit. rewrite Hsplit in Hs.
      injection Hs as Hkey _. rewrite Hkey in Hk. exfalso. revert Hk. apply plugins_unhandled. }
  unfold evaluate_configuration in Ee. rewrite evaluate_from_app in Ee. apply bind_Ok_inv in Ee as ([d1 s1] & _ & Ee).
  apply bind_Ok_inv in Ee as ([d2 s2] & Ee & [= _ <-]). cbn [evaluate_from] in Ee.
  destruct (split_line_nonempty _ _ Hsplit) as (c & r0 & Hc). rewrite Hc in Ee. rewrite <- Hc in Ee.
  unfold evaluate_line in Ee. rewrite Hsplit, bind_Ok, Hk, Hh, !bind_Ok in Ee. injection Ee as _ <-.
  simpl. apply Forall_map. apply Forall_forall. intros x _. apply Hu.
Qed.

(** ** Nothing but an answer or an exit *)

(** A line as it is read, before the syntax checks, that fits the buffers it
    goes through: [localbuf] for the whole line, [key] for what is before the
    colon, [token] and [name] for a list of plugins, the array of the custom
    primitives for the rest. A bracket that closes before one opens is
    refused here: [evaluate_configuration] would follow a NULL. *)
Record line_fits (line : list Z) : Prop := {
  lf_size : strlen line + 2 <= LOCALBUFLEN;
  lf_key : forall key value, split_at 58 line = Some (key, value) ->
             strlen key + 1 <= SRVBUFLEN /\
             (forall a b, split_at 91 key = Some (a, b) -> 93 ∉ a) /\
             (key_of key = cstr "plugins" -> strlen value + 1 <= SRVBUFLEN);
  lf_few : few line
}.

(** What comes out of the checks: nothing, or a key whose bracket closes. *)
Definition closed (key : list Z) : Prop := forall a b, split_at 91 key = Some (a, b) -> 93 ∈ b.

Definition clean (line : list Z) : Prop :=
  line = [] \/ exists key value, split_at 58 line = Some (key, value) /\ closed key /\
    strlen key + 1 <= SRVBUFLEN /\ strlen value + 1 <= LOCALBUFLEN /\
    (key = cstr "plugins" -> strlen value + 1 <= SRVBUFLEN) /\ few value.

(** [key'] is [key] without some of its spaces and capitals. *)
Inductive erases : list Z -> list Z -> Prop :=
  | erases_nil : erases [] []
  | erases_drop c key key' : is_space c = true -> erases key key' -> erases (c :: key) key'
  | erases_keep c key key' : erases key key' -> erases (c :: key) (c :: key')
  | erases_lower c key key' : erases key key' -> erases (c :: key) (tolower c :: key').

Lemma tolower_special c x : x = 91 \/ x = 93 \/ x = 58 \/ x = 44 -> tolower c = x <-> c = x.
Proof.
  intros Hx. unfold tolower, is_upper. destruct (Z.leb_spec 65 c), (Z.leb_spec c 90); simpl; lia.
Qed.

Lemma erases_length key key' : erases key key' -> (length key' <= length key)%nat.
Proof. induction 1; simpl; lia. Qed.

Lemma erases_in key key' x : x = 91 \/ x = 93 \/ x = 58 \/ x = 44 -> erases key key' -> x ∈ key' <-> x ∈ key.
Proof.
  intros Hx. induction 1 as [|c key key' Hc _ IH|c key key' _ IH|c key key' _ IH]; rewrite ?elem_of_cons, ?IH; try done.
  - split; [by right |]. intros [->|]; [| done]. exfalso. destruct Hx as [->|[->|[->| ->]]]; done.
  - split; (intros [E|]; [left | by right]); symmetry; symmetry in E; by apply (tolower_special c x Hx).
Qed.

Lemma erases_closed key key' : erases key key' -> closed key -> closed key'.
Proof.
  induction 1 as [|c key key' Hc He IH|c key key' He IH|c key key' He IH]; intros Hk; [done | | |].
  - apply IH. intros a b E. apply (Hk (c :: a) b). simpl. rewrite E.
    destruct (Z.eqb_spec c 91) as [->|]; [done | done].
  - intros a b E. simpl in E. destruct (Z.eqb_spec c 91) as [->|Hn].
    + injection E as <- <-. apply (erases_in key key'); [tauto | done |]. by apply (Hk [] key).
    + destruct (split_at 91 key') as [[a' b']|] eqn:E'; [| done]. injection E as <- <-. eapply IH; [| exact E'].
      intros a1 b1 E1. apply (Hk (c :: a1) b1). simpl. by rewrite (proj2 (Z.eqb_neq c 91)), E1.
  - intros a b E. simpl in E. destruct (Z.eqb_spec (tolower c) 91) as [Hc|Hn].
    + apply (tolower_special c 91) in Hc as ->; [| tauto]. injection E as <- <-.
      apply (erases_in key key'); [tauto | done |]. by apply (Hk [] key).
    + destruct (split_at 91 key') as [[a' b']|] eqn:E'; [| done]. injection E as <- <-. eapply IH; [| exact E'].
      intros a1 b1 E1. apply (Hk (c :: a1) b1). simpl. rewrite (proj2 (Z.eqb_neq c 91)), E1; [done |].
      intros ->. by apply Hn.
Qed.

Lemma split_at_inv c s a b : split_at c s = Some (a, b) -> s = a ++ c :: b /\ c ∉ a.
Proof.
  revert a. induction s as [|x s IH]; intros a; simpl; [done |]. destruct (Z.eqb_spec x c) as [->|Hx].
  - intros [= <- <-]. split; [done | apply not_elem_of_nil].
  - destruct (split_at c s) as [[a' b']|]; [| done]. intros [= <- <-]. destruct (IH a' eq_refl) as [-> Hn].
    split; [done |]. apply not_elem_of_cons. split; [congruence | done].
Qed.

Lemma split_at_app_in c a b : c ∉ a -> split_at c (a ++ c :: b) = Some (a, b).
Proof. intros H. apply BgpPrefix.split_at_app. by rewrite <- list_elem_of_In. Qed.

(** The steps of [sanitize_line] on a key and a value. *)
Lemma strip_key_erases key V : 58 ∉ key -> forall symbol,
  exists key', strip_key (key ++ 58 :: V) symbol = (key' ++ [58], Some V) /\ erases key key'.
Proof.
  induction key as [|c key IH]; intros Hn symbol; [by exists []; split; [| constructor] |].
  apply not_elem_of_cons in Hn as [Hc Hn]. simpl. rewrite (proj2 (Z.eqb_neq c 58)) by done.
  set (sy := if c =? 91 then symbol + 1 else if c =? 93 then symbol - 1 else symbol).
  destruct (IH Hn sy) as (key' & -> & He). destruct ((sy =? 0) && is_space c) eqn:Hd.
  - apply andb_prop in Hd as [_ Hd]. exists key'. by split; [| constructor].
  - exists (c :: key'). by split; [| constructor].
Qed.

Lemma lower_key_erases key V : 58 ∉ key -> forall symbol,
  exists key', lower_key (key ++ 58 :: V) symbol = key' ++ 58 :: V /\ erases key key'.
Proof.
  induction key as [|c key IH]; intros Hn symbol; [by exists []; split; [| constructor] |].
  apply not_elem_of_cons in Hn as [Hc Hn]. simpl. rewrite (proj2 (Z.eqb_neq c 58)) by done.
  set (sy := if c =? 91 then symbol + 1 else if c =? 93 then symbol - 1 else symbol).
  destruct (IH Hn sy) as (key' & -> & He). destruct (sy =? 0); eexists; (split; [rewrite app_comm_cons; reflexivity |]); by constructor.
Qed.

Lemma check_symbols_safe key V : 58 ∉ key -> forall rows symbol k,
  check_symbols rows (key ++ 58 :: V) symbol k = Ok tt \/ check_symbols rows (key ++ 58 :: V) symbol k = Err Exited.
Proof.
  induction key as [|c key IH]; intros Hn rows symbol k; (destruct rows as [|rows]; [by left |]); simpl.
  - by left.
  - apply not_elem_of_cons in Hn as [Hc Hn]. rewrite (proj2 (Z.eqb_neq c 58)) by done.
    destruct (c =? 91); [| destruct (c =? 93)]; repeat case_match; simplify_eq; try (by right); by apply IH.
Qed.

(** Brackets that are balanced before the colon, and do not close before they
    open, close. *)
Fixpoint balance (key : list Z) : Z :=
  match key with
  | [] => 0
  | c :: key => (if c =? 91 then 1 else if c =? 93 then -1 else 0) + balance key
  end.

Lemma check_brackets_balance key V : 58 ∉ key -> forall symbol got_first,
  check_brackets (key ++ 58 :: V) symbol got_first false = Ok tt -> symbol + balance key = 0.
Proof.
  induction key as [|c key IH]; intros Hn symbol got_first.
  - simpl. destruct (Z.eqb_spec symbol 0) as [->|]; [done |]. by simpl.
  - apply not_elem_of_cons in Hn as [Hc Hn]. simpl. rewrite (proj2 (Z.eqb_neq c 58)) by done. simpl.
    destruct (c =? 91); [| destruct (c =? 93)]; repeat case_match; try done; intros E; apply (IH Hn) in E; lia.
Qed.

Lemma balance_nonneg key : 93 ∉ key -> 0 <= balance key.
Proof.
  induction key as [|c key IH]; simpl; [done |]. intros [Hc Hn]%not_elem_of_cons. specialize (IH Hn).
  rewrite (proj2 (Z.eqb_neq c 93)) by done. destruct (c =? 91); lia.
Qed.

Lemma balance_app a b : balance (a ++ b) = balance a + balance b.
Proof. induction a as [|c a IH]; simpl; [done |]. rewrite IH. lia. Qed.

Lemma balanced_closed key : balance key = 0 -> (forall a b, split_at 91 key = Some (a, b) -> 93 ∉ a) -> closed key.
Proof.
  intros Hb Ha a b E. destruct (split_at_inv _ _ _ _ E) as [-> _]. pose proof (Ha a b E) as Hna.
  destruct (decide (93 ∈ b)) as [|Hnb]; [done |]. exfalso.
  rewrite balance_app in Hb. simpl in Hb. pose proof (balance_nonneg a Hna). pose proof (balance_nonneg b Hnb). lia.
Qed.

Lemma check_brackets_safe line : forall symbol got_first colon,
  check_brackets line symbol got_first colon = Ok tt \/ check_brackets line symbol got_first colon = Err Exited.
Proof.
  induction line as [|c line IH]; intros symbol got_first colon; simpl; [case_match; [by right | by left] |].
  destruct (c =? 91); [| destruct (c =? 93)]; repeat case_match; try (by right); apply IH.
Qed.

Lemma tolower_space c : is_space (tolower c) = is_space c.
Proof.
  unfold tolower, is_upper, is_space.
  destruct (Z.leb_spec 65 c), (Z.leb_spec c 90), (Z.eqb_spec c 32), (Z.leb_spec 9 c), (Z.leb_spec c 13),
    (Z.eqb_spec (c + 32) 32), (Z.leb_spec 9 (c + 32)), (Z.leb_spec (c + 32) 13); simpl; (done || lia).
Qed.

Lemma tolower_twice c : tolower (tolower c) = tolower c.
Proof.
  unfold tolower at 2 3, is_upper. destruct (Z.leb_spec 65 c), (Z.leb_spec c 90); simpl;
    unfold tolower, is_upper;
    repeat match goal with |- context [?a <=? ?b] => destruct (Z.leb_spec a b) end; simpl; lia.
Qed.

Lemma erases_key_of key key' : erases key key' -> key_of key' = key_of key.
Proof.
  unfold key_of. induction 1 as [|c key key' Hc _ IH|c key key' _ IH|c key key' _ IH]; simpl; [done | | |].
  - unfold not_space at 2. by rewrite Hc.
  - destruct (not_space c); simpl; by rewrite IH.
  - assert (not_space (tolower c) = not_space c) as -> by (unfold not_space; by rewrite tolower_space).
    destruct (not_space c); simpl; rewrite IH; [by rewrite tolower_twice | done].
Qed.

Lemma trim_spaces_inside s : exists p q, s = p ++ trim_spaces s ++ q.
Proof.
  unfold trim_spaces. destruct (skip_spaces_suffix s) as (p & E & _).
  destruct (skip_spaces_suffix (rev (skip_spaces s))) as (q & Eq & _). exists p, (rev q).
  rewrite <- rev_app_distr, <- Eq, rev_involutive. exact E.
Qed.

Lemma commas_app a b : commas (a ++ b) = commas a ++ commas b.
Proof. apply List.filter_app. Qed.

Lemma sanitize_line_clean rows line : line_fits line ->
  sanitize_line rows line = Err Exited \/ exists line', sanitize_line rows line = Ok line' /\ clean line'.
Proof.
  intros [Hsize Hkey Hfew]. unfold sanitize_line. cbv zeta.
  assert (blank_line line = [] \/ blank_line line = line) as [->| ->].
  { unfold blank_line. destruct (iscomment line); [by left |]. destruct (isblankline line); [by left | by right]. }
  { right. exists []. split; [done | by left]. }
  case_bool_decide as Hnil; [right; exists []; split; [done | by left] |].
  case_bool_decide as Hin; [cbn [negb] | by left].
  destruct (check_brackets_safe line 0 0 false) as [Hb|Hb]; rewrite Hb; [cbn [mbind res_bind] | by left].
  apply list_elem_of_split in Hin.
  assert (exists key V, split_at 58 line = Some (key, V)) as (key & V & Hs).
  { destruct (split_at 58 line) as [[key V]|] eqn:E; [by exists key, V |]. exfalso. destruct Hin as (l1 & l2 & ->).
    clear -E. induction l1 as [|c l1 IH]; simpl in E; [done |]. destruct (c =? 58); [done |].
    destruct (split_at 58 (l1 ++ 58 :: l2)) as [[]|]; [done | by apply IH]. }
  destruct (Hkey _ _ Hs) as (Hk1 & Hk2 & Hk3). destruct (split_at_inv _ _ _ _ Hs) as [-> Hn58].
  destruct (strip_key_erases key V Hn58 0) as (key1 & Hstrip & He1).
  pose proof (erases_length _ _ He1) as Hl1. assert (Hn1 : 58 ∉ key1) by (rewrite (erases_in key key1 58); tauto).
  unfold strip_line. rewrite Hstrip. cbn [default]. unfold strlen in Hsize. rewrite length_app in Hsize. simpl in Hsize.
  rewrite (proj2 (Z.ltb_ge _ _)) by (unfold strlen; rewrite length_app; simpl; lia). simpl deref. cbn [mbind res_bind].
  replace ((key1 ++ [58]) ++ trim_spaces V) with (key1 ++ 58 :: trim_spaces V) by (by rewrite <- app_assoc).
  destruct (check_symbols_safe key1 (trim_spaces V) Hn1 rows 0 0) as [-> | ->]; [cbn [mbind res_bind] | by left].
  case_bool_decide; [by left |]. right. eexists. split; [reflexivity |]. right.
  destruct (lower_key_erases key1 (trim_spaces V) Hn1 0) as (key2 & -> & He2).
  pose proof (erases_length _ _ He2) as Hl2. assert (Hn2 : 58 ∉ key2) by (rewrite (erases_in key1 key2 58); tauto).
  exists key2, (trim_spaces V). split; [by apply split_at_app_in |].
  apply check_brackets_balance in Hb; [| done]. pose proof (trim_spaces_length V) as Ht.
  split; [eapply erases_closed, erases_closed, balanced_closed; [done | done | lia | done] |].
  unfold strlen in *. split; [lia |]. split; [lia |]. split.
  - intros ->. apply erases_key_of in He1, He2. rewrite He1 in He2. symmetry in He2. specialize (Hk3 He2). lia.
  - unfold few in *. destruct (trim_spaces_inside V) as (p & q & Ev).
    rewrite Ev, commas_app in Hfew. change (commas (58 :: ?x)) with (commas x) in Hfew.
    rewrite !commas_app, !length_app in Hfew. lia.
Qed.

Lemma sanitize_lines_clean rows cfg : Forall line_fits cfg ->
  sanitize_lines rows cfg = Err Exited \/ exists cfg', sanitize_lines rows cfg = Ok cfg' /\ Forall clean cfg'.
Proof.
  intros Hf. induction Hf as [|line cfg Hl Hf IH]; [right; by exists [] |]. cbn [sanitize_lines].
  destruct (sanitize_line_clean rows line Hl) as [-> |(line' & -> & Hc)]; [by left | rewrite bind_Ok].
  destruct IH as [-> |(cfg' & -> & Hcs)]; [by left | right]. exists (line' :: cfg'). by split; [| constructor].
Qed.

Lemma search_key_clean k cfg : Forall clean cfg -> forall index,
  search_key k cfg index = Ok None \/
  exists i value, search_key k cfg index = Ok (Some (i, value)) /\ strlen value + 1 <= LOCALBUFLEN /\
    (k = "plugins" -> strlen value + 1 <= SRVBUFLEN).
Proof.
  intros Hf. induction Hf as [|line cfg Hl Hf IH]; intros index; [by left |]. cbn [search_key].
  destruct Hl as [->|(key & value & Hs & _ & Hk & Hv & Hp & _)]; [apply IH |]. rewrite Hs. destruct key as [|c key]; [apply IH |].
  rewrite (proj2 (Z.ltb_ge _ _)) by done. unfold streq. case_bool_decide as E; [| apply IH].
  right. exists index, value. split; [done |]. split; [done |]. intros ->. by apply Hp.
Qed.

Lemma create_plugin_safe name type s : strlen name + 1 <= SRVBUFLEN -> exists x, create_plugin name type s = Ok x.
Proof.
  intros Hn. unfold create_plugin. destruct (find_type _ _ _); [| by eexists]. cbv zeta. case_match; [by eexists |].
  rewrite (proj2 (Z.ltb_ge _ _)) by done. by eexists.
Qed.

Lemma compose_default_length type : strlen (compose_default_plugin_name SRVBUFLEN type) + 1 <= SRVBUFLEN.
Proof.
  unfold compose_default_plugin_name, strlen. rewrite !length_app, length_take.
  change (Z.to_nat (SRVBUFLEN - 10)) with 278%nat. change SRVBUFLEN with 288. cbn [length cstr map String.list_ascii_of_string]. lia.
Qed.

Lemma split_token_name token name dn :
  strlen token + 1 <= SRVBUFLEN -> strlen name + 1 <= SRVBUFLEN -> strlen (snd (fst (split_token token name dn))) + 1 <= SRVBUFLEN.
Proof.
  intros Ht Hn. unfold split_token. repeat case_match; try done. cbn [fst snd]. unfold strlen in *.
  match goal with |- context [trim_spaces ?x] => pose proof (trim_spaces_length x) as Hl end.
  rewrite length_take, length_drop in Hl. lia.
Qed.

Lemma plugins_loop_safe ign fuel : forall start name dn num s,
  (length start < fuel)%nat -> strlen start + 1 <= SRVBUFLEN -> strlen name + 1 <= SRVBUFLEN ->
  plugins_loop fuel start name dn ign num s = Err Exited \/ exists x, plugins_loop fuel start name dn ign num s = Ok x.
Proof.
  induction fuel as [|fuel IH]; intros start name dn num s Hfuel Hst Hn; [lia |]. cbn [plugins_loop].
  assert (Htok : exists token rest,
    (match split_at 44 start with Some (token, rest) => (token, Some rest) | None => (start, None) end) = (token, rest) /\
    strlen token + 1 <= SRVBUFLEN /\
    (forall r, rest = Some r -> (length r < length start)%nat)).
  { destruct (split_at 44 start) as [[token rest]|] eqn:E; [| exists start, None; by split].
    destruct (split_at_inv _ _ _ _ E) as [-> _]. exists token, (Some rest). split; [done |].
    unfold strlen in *. rewrite length_app in *. simpl length in *. split; [lia |]. intros r [= ->]. lia. }
  destruct Htok as (token & rest & -> & Htl & Hrest). cbv beta iota.
  assert (Hgo : forall num name dn s, strlen name + 1 <= SRVBUFLEN ->
    (match rest with Some start => plugins_loop fuel start name dn ign num s | None => Ok (num, s) end) = Err Exited \/
    exists x, (match rest with Some start => plugins_loop fuel start name dn ign num s | None => Ok (num, s) end) = Ok x).
  { intros num1 name1 dn1 s1 Hn1. destruct rest as [r|]; [| right; by eexists]. specialize (Hrest r eq_refl).
    apply IH; [lia | unfold strlen in *; lia | done]. }
  destruct token as [|c token]; [rewrite bind_Ok; by apply Hgo |].
  rewrite (proj2 (Z.ltb_ge _ _)) by done.
  pose proof (split_token_name (c :: token) name dn Htl Hn) as Hname.
  destruct (split_token (c :: token) name dn) as [[token1 name1] dn1]. cbn [fst snd] in Hname.
  destruct (streq (lower_string (trim_spaces token1)) "core"); [by left |].
  set (nm := if ign || dn1 then _ else name1).
  assert (Hnm : strlen nm + 1 <= SRVBUFLEN) by (unfold nm; destruct (ign || dn1); [apply compose_default_length | done]).
  destruct (create_plugin_safe nm (lower_string (trim_spaces token1)) s Hnm) as [[k s1] Ec].
  cbv zeta. rewrite Ec, !bind_Ok. by apply Hgo.
Qed.

Lemma handler_safe h spec value : meets (Some h) spec -> few value -> forall name s,
  h name value s = Err Exited \/ exists x, h name value s = Ok x.
Proof.
  intros Hm Hfew name s. destruct spec as [sc M| |]; [| right; apply Hm | done].
  destruct (Hm value) as (v & Hv & ->). destruct v as [a|f|u]; simpl; [right; by eexists | left; by rewrite Hv | right; by eexists].
Qed.

Lemma evaluate_line_safe index line s : clean line -> line <> [] ->
  evaluate_line index line s = Err Exited \/ exists x, evaluate_line index line s = Ok x.
Proof.
  intros [->|(key & value & Hs & Hc & _ & _ & _ & Hf)] Hne; [done |].
  unfold evaluate_line, split_line. rewrite Hs. cbn [deref]. rewrite bind_Ok.
  assert (Hgo : forall key name, 
    (match find_key key dictionary with
     | Some (Some func) =>
         '(ret, s0) ← func name value s;
         Ok (if ret <? 0 then [InvalidValue index] else if ret =? 0 then [UnknownSymbol index] else [], s0)
     | Some None => Ok ([UnableToHandle index], s)
     | None => Ok ([UnknownKey index], s)
     end) = Err Exited \/
    exists x, (match find_key key dictionary with
     | Some (Some func) =>
         '(ret, s0) ← func name value s;
         Ok (if ret <? 0 then [InvalidValue index] else if ret =? 0 then [UnknownSymbol index] else [], s0)
     | Some None => Ok ([UnableToHandle index], s)
     | None => Ok ([UnknownKey index], s)
     end) = Ok x).
  { intros key' name. destruct (find_key key' dictionary) as [[h|]|] eqn:Ek; [| right; by eexists..].
    destruct (find_key_spec _ _ Ek) as (spec & _ & Hm).
    destruct (handler_safe h spec value Hm Hf name s) as [-> |([r s1] & ->)]; [by left | right; by eexists]. }
  destruct (split_at 91 key) as [[k n]|] eqn:Ek; [| rewrite bind_Ok; apply Hgo].
  pose proof (Hc k n Ek) as Hin. destruct (split_at 93 n) as [[nm r]|] eqn:En.
  - cbn [deref]. rewrite !bind_Ok. apply Hgo.
  - exfalso. apply list_elem_of_split in Hin as (l1 & l2 & ->). clear -En.
    induction l1 as [|c l1 IH]; simpl in En; [done |]. destruct (c =? 93); [done |].
    destruct (split_at 93 (l1 ++ 93 :: l2)) as [[]|]; [done | by apply IH].
Qed.

Lemma evaluate_from_safe cfg : Forall clean cfg -> forall index s,
  evaluate_from index cfg s = Err Exited \/ exists x, evaluate_from index cfg s = Ok x.
Proof.
  intros Hf. induction Hf as [|line cfg Hl Hf IH]; intros index s; cbn [evaluate_from]; [right; by eexists |].
  assert ((match line with [] => Ok ([], s) | _ => evaluate_line index line s end) = Err Exited \/
    exists x, (match line with [] => Ok ([], s) | _ => evaluate_line index line s end) = Ok x) as [-> |([d s1] & ->)].
  { destruct line; [right; by eexists |]. by apply evaluate_line_safe. }
  - by left.
  - rewrite bind_Ok. destruct (IH (index + 1) s1) as [-> |([ds s2] & ->)]; [by left |]. rewrite bind_Ok. right. by eexists.
Qed.

(** C27. Reading a configuration ends: with a state and an answer, or with the
    daemon's own exit.  No fixed buffer is overrun, no NULL is followed and no
    loop runs away, if the file can be opened and each line, of the file and of
    the command line alike, fits what it goes through ([line_fits]): it has at
    most 10238 octets, its key at most 287, the list of plugins as many, there
    are fewer than 64 commas in it (the room for custom primitives), and in the
    key no bracket closes before the first that opens.  Lines that do not fit
    do overrun a buffer or follow a NULL; each way is listed as a finding. *)
Theorem parse_configuration_file_safe filename cfg_cmdline s :
  filename <> Some Unreadable ->
  Forall line_fits (match filename with Some (Readable content) => read_lines (length content) 0 content | _ => [] end) ->
  Forall line_fits cfg_cmdline ->
  parse_configuration_file filename cfg_cmdline s = Err Exited \/
  exists x, parse_configuration_file filename cfg_cmdline s = Ok x.
Proof.
  intros Hfile Hf Hc.
  assert (Hrun : forall cfg0 flag, Forall line_fits cfg0 ->
    let run := (cfg ← sanitize_cfg cfg0;
     s ← parse_core_process_name cfg flag s;
     '(num, cfg, s) ← parse_plugin_names cfg flag s;
     s ← (if (num =? 0) && (acct_type <? ACCT_FWDPLANE_MAX)
          then '(_, s) ← create_plugin (cstr "default_memory") (cstr "memory") s; Ok s else Ok s);
     let s := set_default_values s in
     '(ds, s) ← evaluate_configuration cfg s; Ok (SUCCESS, ds, s)) in
    run = Err Exited \/ exists x, run = Ok x).
  { intros cfg0 flag Hcfg run. unfold run. clear run. unfold sanitize_cfg.
    destruct (sanitize_lines_clean (length cfg0) cfg0 Hcfg) as [-> |(cfg & -> & Hcl)]; [by left |]. rewrite bind_Ok.
    assert (exists s1, parse_core_process_name cfg flag s = Ok s1) as [s1 ->].
    { unfold parse_core_process_name. assert (Hdef : forall s, exists x, create_plugin (cstr "default") (cstr "core") s = Ok x)
        by (intros; by apply create_plugin_safe).
      destruct (search_key_clean "core_proc_name" cfg Hcl 0) as [-> |(i & value & -> & _)]; rewrite bind_Ok.
      - destruct (Hdef s) as [[k s1] ->]. by eexists.
      - destruct flag; [destruct (Hdef s) as [[k s1] ->]; by eexists |].
        destruct (create_plugin_safe (strlcpy value SRVBUFLEN) (cstr "core") s) as [[k s1] ->]; [| by eexists].
        unfold strlcpy, strlen. rewrite length_take. change (Z.to_nat (SRVBUFLEN - 1)) with 287%nat. change SRVBUFLEN with 288. lia. }
    rewrite bind_Ok.
    assert (parse_plugin_names cfg flag s1 = Err Exited \/
      exists num cfg2 s2, parse_plugin_names cfg flag s1 = Ok (num, cfg2, s2) /\ Forall clean cfg2) as [-> |(num & cfg2 & s2 & -> & Hcl2)].
    { unfold parse_plugin_names. destruct (search_key_clean "plugins" cfg Hcl 0) as [-> |(i & value & -> & Hv & Hp)]; rewrite bind_Ok;
        [right; by eexists _, _, _ |]. rewrite (proj2 (Z.ltb_ge _ _)) by done.
      destruct (plugins_loop_safe flag (S (length value)) value [] false 0 s1) as [-> |([num s2] & ->)]; [lia | auto | done | by left |].
      right. eexists _, _, _. split; [done |]. apply Forall_insert; [done | by left]. }
    { by left. }
    rewrite bind_Ok.
    assert (exists s3, (if (num =? 0) && (acct_type <? ACCT_FWDPLANE_MAX)
      then '(_, s) ← create_plugin (cstr "default_memory") (cstr "memory") s2; Ok s else Ok s2) = Ok s3) as [s3 ->].
    { destruct ((num =? 0) && (acct_type <? ACCT_FWDPLANE_MAX)); [| by eexists]. destruct (create_plugin_safe (cstr "default_memory") (cstr "memory") s2) as [[k s3] ->]; [done | by eexists]. }
    rewrite bind_Ok. cbv zeta. unfold evaluate_configuration.
    destruct (evaluate_from_safe cfg2 Hcl2 1 (set_default_values s3)) as [-> |([ds s4] & ->)]; [by left |].
    rewrite bind_Ok. right. by eexists. }
  unfold parse_configuration_file.
  destruct filename as [[| | |content]|]; [right; by eexists | right; by eexists | done | |];
    apply Hrun, Forall_app; (split; [done | by apply Forall_take]).
Qed.

(** ** The list of plugins *)

(** [type[name], type[name], ...] *)
Definition item_text (i : list Z * list Z) : list Z := fst i ++ 91 :: snd i ++ [93].
Fixpoint items_text (items : list (list Z * list Z)) : list Z :=
  match items with
  | [] => []
  | [i] => item_text i
  | i :: items => item_text i ++ 44 :: 32 :: items_text items
  end.

(** A known type, in lower case, that is not the core's; a name that fits. *)
Definition word (s : list Z) : Prop := Forall (fun c => plain c /\ c <> 44) s /\ trimmed s /\ s <> [].
Record item_ok (i : list Z * list Z) : Prop := {
  io_type : word (fst i) /\ lower_string (fst i) = fst i /\ fst i <> cstr "core" /\
            exists id, find_type (fst i) plugin_types_list None = Some id;
  io_name : word (snd i);
  io_size : strlen (item_text i) + 2 <= SRVBUFLEN
}.

Definition listed (s : daemon) : list (list Z * list Z) := map (fun p => (pl_type_string p, pl_name p)) (plugins_list s).

Lemma create_plugin_fresh type name id s :
  find_type type plugin_types_list None = Some id -> name ∉ map pl_name (plugins_list s) -> strlen name + 1 <= SRVBUFLEN ->
  exists s', create_plugin name type s = Ok (TRUE, s') /\ listed s' = listed s ++ [(type, name)] /\
    map pl_name (plugins_list s') = map pl_name (plugins_list s) ++ [name].
Proof.
  intros Ht Hn Hs. unfold create_plugin. rewrite Ht. cbv zeta.
  assert (existsb (fun p => bool_decide (name = pl_name p)) (plugins_list s) = false) as ->.
  { induction (plugins_list s) as [|p l IH]; [done |]. simpl in *. apply not_elem_of_cons in Hn as [Hn1 Hn2].
    rewrite bool_decide_false by done. by apply IH. }
  rewrite (proj2 (Z.ltb_ge _ _)) by done. eexists. split; [reflexivity |]. unfold listed. simpl. by rewrite !map_app.
Qed.

Lemma word_no c s : c = 91 \/ c = 93 \/ c = 44 -> word s -> c ∉ s.
Proof. intros Hc [Hs _] Hin. rewrite Forall_forall in Hs. destruct (Hs c Hin) as [(? & ? & ?) ?]. lia. Qed.

Lemma index_of_app c a b : c ∉ a -> index_of c (a ++ c :: b) = Some (length a).
Proof.
  induction a as [|x a IH]; intros Hn; simpl; [by rewrite Z.eqb_refl |].
  apply not_elem_of_cons in Hn as [Hx Hn]. rewrite (proj2 (Z.eqb_neq x c)) by congruence. by rewrite IH.
Qed.

Lemma split_token_item pad i name dn : item_ok i -> Forall (fun c => is_space c = true) pad ->
  split_token (pad ++ item_text i) name dn = (pad ++ fst i, snd i, dn).
Proof.
  intros [(Ht & _) Hn _] Hp. destruct i as [type nm]. cbn [fst snd item_text] in *. unfold split_token, item_text. cbn [fst snd].
  assert (Hpad : forall c, c = 91 \/ c = 93 -> c ∉ pad).
  { intros c Hc Hin. rewrite Forall_forall in Hp. specialize (Hp c Hin). by destruct Hc as [-> | ->]. }
  replace (pad ++ type ++ 91 :: nm ++ [93]) with ((pad ++ type) ++ 91 :: nm ++ [93]) by (by rewrite <- app_assoc).
  rewrite index_of_app.
  2: { rewrite elem_of_app. intros [H|H]; [eapply Hpad; [| exact H]; tauto | eapply word_no; [| exact Ht | exact H]; tauto]. }
  replace ((pad ++ type) ++ 91 :: nm ++ [93]) with ((pad ++ type ++ 91 :: nm) ++ 93 :: []) by (by rewrite <- !app_assoc).
  rewrite index_of_app.
  2: { rewrite !elem_of_app, elem_of_cons. intros [H|[H|[H|H]]]; [eapply Hpad; [| exact H]; tauto | | done |];
       (eapply word_no; [| | exact H]; [tauto | done]). }
  destruct Hn as (Hn1 & Hn2 & Hn3).
  rewrite bool_decide_true by (rewrite !length_app; destruct nm; [done | simpl; lia]).
  replace ((pad ++ type ++ 91 :: nm) ++ [93]) with ((pad ++ type) ++ 91 :: nm ++ [93]) by (by rewrite <- !app_assoc).
  rewrite take_app_length.
  assert (drop (S (length (pad ++ type))) ((pad ++ type) ++ 91 :: nm ++ [93]) = nm ++ [93]) as ->
    by (replace (S (length (pad ++ type))) with (length (pad ++ type) + 1)%nat by lia; by rewrite drop_app_add).
  replace (length (pad ++ type ++ 91%Z :: nm) - length (pad ++ type) - 1)%nat with (length nm) by (rewrite !length_app; simpl; lia).
  rewrite take_app_length. pose proof (trim_spaces_trimmed [] nm [] Hn2) as Ht2. rewrite app_nil_r in Ht2. simpl in Ht2. by rewrite Ht2.
Qed.

Lemma item_no_comma pad i : item_ok i -> Forall (fun c => is_space c = true) pad -> 44 ∉ pad ++ item_text i.
Proof.
  intros [(Ht & _) Hn _] Hp. unfold item_text. rewrite !elem_of_app, elem_of_cons, elem_of_app, list_elem_of_singleton.
  intros [H|[H|[H|[H|H]]]]; try done.
  - rewrite Forall_forall in Hp. by specialize (Hp _ H).
  - eapply word_no; [| exact Ht | exact H]. tauto.
  - eapply word_no; [| exact Hn | exact H]. tauto.
Qed.

(** One round of the loop on an item, with or without a space before it. *)
Lemma plugins_loop_item fuel pad i rest name num s : item_ok i -> (pad = [] \/ pad = [32]) ->
  snd i ∉ map pl_name (plugins_list s) ->
  exists s1, listed s1 = listed s ++ [i] /\ map pl_name (plugins_list s1) = map pl_name (plugins_list s) ++ [snd i] /\
    plugins_loop (S fuel) (pad ++ item_text i ++ rest) name false false num s =
    match rest with
    | 44 :: start => plugins_loop fuel start (snd i) false false (num + 1) s1
    | [] => Ok (num + 1, s1)
    | _ => plugins_loop (S fuel) (pad ++ item_text i ++ rest) name false false num s
    end.
Proof.
  intros Hi Hpad Hfresh. assert (Hp : Forall (fun c => is_space c = true) pad) by (destruct Hpad as [-> | ->]; repeat constructor).
  pose proof Hi as [(Ht & Hlow & Hcore & id & Hid) Hn Hsize].
  destruct (create_plugin_fresh (fst i) (snd i) id s Hid Hfresh) as (s1 & Hc & Hl & Hm).
  { unfold item_text, strlen in *. rewrite !length_app in Hsize. simpl in Hsize. rewrite length_app in Hsize. lia. }
  exists s1. split; [by rewrite Hl; destruct i |]. split; [done |].
  assert (Hround : forall rest' : option (list Z),
    ('(num, name, default_name, s) ←
        match pad ++ item_text i with
        | [] => Ok (num, name, false, s)
        | _ =>
            if SRVBUFLEN <? strlen (pad ++ item_text i) + 1 then Err OutOfBounds else
            let '(token, name, default_name) := split_token (pad ++ item_text i) name false in
            let token := lower_string (trim_spaces token) in
            if streq token "core" then Err Exited else
            let name := if false || default_name then compose_default_plugin_name SRVBUFLEN token else name in
            '(created, s) ← create_plugin name token s;
            Ok (if negb (created =? 0) then num + 1 else num, name, default_name, s)
        end;
      match rest' with
      | Some start => plugins_loop fuel start name default_name false num s
      | None => Ok (num, s)
      end) = match rest' with
             | Some start => plugins_loop fuel start (snd i) false false (num + 1) s1
             | None => Ok (num + 1, s1)
             end).
  { intros rest'. destruct (pad ++ item_text i) as [|c token] eqn:Etok.
    { exfalso. unfold item_text in Etok. apply app_eq_nil in Etok as [_ E]. by apply app_eq_nil in E as [_ E]. }
    rewrite <- Etok.
    rewrite (proj2 (Z.ltb_ge _ _)) by (destruct Hpad as [-> | ->]; unfold strlen in *; rewrite ?length_app; simpl; lia).
    rewrite split_token_item by done. cbv zeta iota beta.
    destruct Ht as (Ht1 & Ht2 & Ht3). pose proof (trim_spaces_trimmed pad (fst i) [] Ht2 Hp) as Htr.
    rewrite app_nil_r in Htr. rewrite Htr, Hlow by constructor. unfold streq. rewrite bool_decide_false by done. cbn [orb].
    rewrite Hc, !bind_Ok. change (negb (TRUE =? 0)) with true. cbv iota. by destruct rest'. }
  destruct rest as [|c rest]; [| destruct (decide (c = 44)) as [->|Hne]].
  - rewrite app_nil_r. cbn [plugins_loop].
    assert (split_at 44 (pad ++ item_text i) = None) as ->.
    { destruct (split_at 44 _) as [[a b]|] eqn:E; [| done]. exfalso. apply split_at_inv in E as [E _].
      apply (item_no_comma pad i Hi Hp). rewrite E, elem_of_app. right. left. }
    exact (Hround None).
  - cbn [plugins_loop]. rewrite app_assoc, split_at_app_in by (by apply item_no_comma). exact (Hround (Some rest)).
  - destruct c as [|c|c]; try done. do 6 (destruct c as [c|c|]; try done).
Qed.

Lemma plugins_loop_items items : forall pad fuel name num s,
  items <> [] -> Forall item_ok items -> (pad = [] \/ pad = [32]) -> NoDup (map pl_name (plugins_list s) ++ map snd items) ->
  (length items <= fuel)%nat ->
  exists s', plugins_loop fuel (pad ++ items_text items) name false false num s = Ok (num + Z.of_nat (length items), s') /\
    listed s' = listed s ++ items.
Proof.
  induction items as [|i items IH]; intros pad fuel name num s Hne Hok Hpad Hnd Hfuel; [done |].
  inversion Hok as [|? ? Hi Hoks]; subst. destruct fuel as [|fuel]; [simpl in Hfuel; lia |].
  assert (Hfresh : snd i ∉ map pl_name (plugins_list s)).
  { intros Hin. apply NoDup_app in Hnd as (_ & Hd & _). apply (Hd _ Hin). left. }
  destruct items as [|i2 items].
  - destruct (plugins_loop_item fuel pad i [] name num s Hi Hpad Hfresh) as (s1 & Hl & _ & E). rewrite app_nil_r in E.
    exists s1. split; [exact E | exact Hl].
  - destruct (plugins_loop_item fuel pad i (44 :: 32 :: items_text (i2 :: items)) name num s Hi Hpad Hfresh) as (s1 & Hl & Hm & E).
    destruct (IH [32] fuel (snd i) (num + 1) s1) as (s' & E' & Hl'); [done | done | by right | | simpl in *; lia |].
    + rewrite Hm, <- app_assoc. exact Hnd.
    + exists s'. split; [| by rewrite Hl', Hl, <- app_assoc].
      change (items_text (i :: i2 :: items)) with (item_text i ++ 44 :: 32 :: items_text (i2 :: items)). rewrite E.
      change (32 :: items_text (i2 :: items)) with ([32] ++ items_text (i2 :: items)). rewrite E'. do 2 f_equal. simpl. lia.
Qed.

(** A list of plugins is read as it is written: from a line [plugins:
    type[name], type[name], ...] of known types and distinct new names, the
    plugins that are created are those, in that order, after the ones that
    were there. *)
Theorem parse_plugin_names_roundtrip items pre post s :
  items <> [] -> Forall item_ok items -> NoDup (map pl_name (plugins_list s) ++ map snd items) ->
  strlen (items_text items) + 1 <= LOCALBUFLEN ->
  search_key "plugins" pre 0 = Ok None ->
  exists s', parse_plugin_names (pre ++ (cstr "plugins:" ++ items_text items) :: post) false s
               = Ok (Z.of_nat (length items), pre ++ [] :: post, s') /\
    listed s' = listed s ++ items.
Proof.
  intros Hne Hok Hnd Hsize Hpre. unfold parse_plugin_names.
  assert (Hsk : forall cfg index line rest value, search_key "plugins" cfg index = Ok None ->
    split_at 58 line = Some (cstr "plugins", value) ->
    search_key "plugins" (cfg ++ line :: rest) index = Ok (Some ((index + length cfg)%nat, value))).
  { induction cfg as [|l cfg IH]; intros index line rest value H1 H2; simpl app.
    - cbn [search_key]. rewrite H2. simpl. by rewrite Nat.add_0_r.
    - cbn [search_key] in H1 |- *. destruct (split_at 58 l) as [[[|c key] v]|].
      + rewrite (IH (S index) line rest value) by done. do 3 f_equal. simpl. lia.
      + destruct (SRVBUFLEN <? strlen (c :: key) + 1); [done |]. destruct (streq (c :: key) "plugins"); [done |].
        rewrite (IH (S index) line rest value) by done. do 3 f_equal. simpl. lia.
      + rewrite (IH (S index) line rest value) by done. do 3 f_equal. simpl. lia. }
  rewrite (Hsk pre 0%nat _ post (items_text items) Hpre).
  2: { change (cstr "plugins:" ++ items_text items) with (cstr "plugins" ++ 58 :: items_text items).
       apply split_at_app_in. rewrite <- (bool_decide_spec (58 ∈ cstr "plugins")). by vm_compute. }
  rewrite bind_Ok, (proj2 (Z.ltb_ge _ _)) by done.
  assert (Hlen : (length items <= S (length (items_text items)))%nat).
  { clear. induction items as [|i [|i2 items] IH]; [simpl; lia | simpl; lia |].
    change (items_text (i :: i2 :: items)) with (item_text i ++ 44 :: 32 :: items_text (i2 :: items)).
    rewrite length_app. simpl length in *. lia. }
  destruct (plugins_loop_items items [] (S (length (items_text items))) [] 0 s Hne Hok (or_introl eq_refl) Hnd Hlen) as (s' & E & Hl).
  simpl app in E. rewrite E, bind_Ok. exists s'. split; [| done]. do 3 f_equal. 
  rewrite Nat.add_0_l. rewrite insert_app_r_alt, Nat.sub_diag by lia. done.
Qed.

(** ** Deleting a plugin *)

Lemma delete_plugin_from_spec id l : forall highest,
  delete_plugin_from id true l highest =
    Ok (max_id (List.filter (fun p => negb (pl_id p =? id)) l) highest, List.filter (fun p => negb (pl_id p =? id)) l).
Proof.
  induction l as [|p l IH]; intros highest; cbn [delete_plugin_from List.filter]; [done |].
  destruct (pl_id p =? id); cbn [negb]; [apply IH |]. rewrite IH, bind_Ok. done.
Qed.

(** Deleting a plugin by its id unlinks that plugin and no other: in a list
    as [create_plugin] builds it, the core process,
    whose id is 0, is refused, and the walk never goes through the plugin it
    has just freed; what is returned is the highest id that is left. *)
Theorem delete_plugin_by_id_spec id s :
  plugins_ok (plugins_list s) -> plugins_list s <> [] -> 0 <= id ->
  delete_plugin_by_id id s =
    (if id =? 0 then Ok (ERR, s)
     else let l := List.filter (fun p => negb (pl_id p =? id)) (plugins_list s) in Ok (max_id l 0, with_plugins l s)).
Proof.
  intros Hok Hne Hid. unfold delete_plugin_by_id. destruct (Z.eqb_spec id 0) as [->|Hn]; [done |].
  destruct (plugins_list s) as [|p l] eqn:E; [done |].
  assert (Hp : pl_id p = 0) by (rewrite (po_ids _ Hok 0%nat p eq_refl); done).
  cbn [delete_plugin_from List.filter]. rewrite Hp, (proj2 (Z.eqb_neq 0 id)) by done. cbn [negb].
  rewrite delete_plugin_from_spec, !bind_Ok. cbv zeta. simpl max_id. by rewrite Hp.
Qed.

End Text.


(** ** Instances *)

Lemma sanitize_line_roundtrip_witness : exists line,
  sanitize_line 3 (cstr "  Print_Refresh_Time [ my plugin ] :  60 ") = Ok line /\
  split_line line = Ok (cstr "print_refresh_time", Some (cstr " my plugin "), cstr "60").
Proof.
  destruct (sanitize_line_roundtrip 3 (cstr "  Print_Refresh_Time ") (Some (cstr " my plugin ")) [32] [32; 32] (cstr "60") [32])
    as (line & E & _ & S).
  - split.
    + vm_compute. repeat (constructor; [repeat split; discriminate |]). constructor.
    + exists 80, (cstr "rint_Refresh_Time "). split; vm_compute; reflexivity.
    + vm_compute. repeat (constructor; [repeat split; discriminate |]). constructor.
    + repeat constructor.
    + vm_compute. discriminate.
  - split; vm_compute; reflexivity.
  - repeat constructor.
  - repeat constructor.
  - exists line. split; [exact E | exact S].
Defined.

Lemma cmdline_has_last_word_witness :
  let r := parse_configuration_file (ho := ex_host) (Some (Readable (cstr "logfile: /tmp/a" ++ [10]))) ([cstr "debug: true"] ++ [cstr "logfile: /tmp/b"]) (mk_daemon [] []) in
  exists ds s', r = Ok (SUCCESS, ds, s') /\ Forall (fun p => pl_cfg p !! "logfile" = Some (CStr (cstr "/tmp/b"))) (plugins_list s').
Proof.
  set (r := parse_configuration_file (ho := ex_host) (Some (Readable (cstr "logfile: /tmp/a" ++ [10]))) ([cstr "debug: true"] ++ [cstr "logfile: /tmp/b"]) (mk_daemon [] [])).
  set (s' := match r with Ok (_, s) => s | Err _ => ex_daemon end).
  destruct (cmdline_has_last_word (ho := ex_host) (Some (Readable (cstr "logfile: /tmp/a" ++ [10]))) [cstr "debug: true"]
    (cstr "logfile") [] [32] (cstr "/tmp/b") [] cfg_key_logfile (puts "logfile" (cstr "/tmp/b")) "logfile" (CStr (cstr "/tmp/b"))
    (mk_daemon [] []) SUCCESS [] s') as [E|H].
  - split.
    + vm_compute. repeat (constructor; [repeat split; discriminate |]). constructor.
    + exists 108, (cstr "ogfile"). split; vm_compute; reflexivity.
    + exact I.
    + constructor.
    + vm_compute. discriminate.
  - vm_compute. reflexivity.
  - split; vm_compute; reflexivity.
  - repeat constructor.
  - constructor.
  - vm_compute. reflexivity.
  - reflexivity.
  - intros c. apply lookup_insert_eq.
  - apply Nat2Z.inj_lt. vm_compute. reflexivity.
  - vm_compute. reflexivity.
  - discriminate E.
  - exists [], s'. split; [vm_compute; reflexivity | exact H].
Defined.

Ltac fits_concretely :=
  split;
  [ vm_compute; discriminate
  | let E := fresh in intros ? ? E; vm_compute in E;
    first [ discriminate E
          | injection E as <- <-; split; [vm_compute; discriminate |]; split; [| vm_compute; discriminate];
            let F := fresh in intros ? ? F; vm_compute in F; first [discriminate F | injection F as <- <-];
            apply (bool_decide_unpack _); vm_compute; exact I ]
  | apply Nat2Z.inj_lt; vm_compute; reflexivity ].

Lemma parse_configuration_file_safe_witness :
  parse_configuration_file (ho := ex_host) (Some (Readable ex_file)) [cstr "debug: true"] (mk_daemon [] []) = Err Exited \/
  exists x, parse_configuration_file (ho := ex_host) (Some (Readable ex_file)) [cstr "debug: true"] (mk_daemon [] []) = Ok x.
Proof.
  apply (parse_configuration_file_safe (ho := ex_host) (Some (Readable ex_file)) [cstr "debug: true"] (mk_daemon [] [])); [discriminate | |].
  all: match goal with |- Forall _ ?l => let v := eval vm_compute in l in change (Forall line_fits v) end.
  all: repeat (apply Forall_cons; split; [fits_concretely |]); [.. | apply Forall_nil]; exact I.
Defined.

Definition ex_core : daemon := mk_daemon [ex_plugin 0 "default" "core" 0] [].

Definition ex_items : list (list Z * list Z) := [(cstr "print", cstr "a"); (cstr "kafka", cstr "b")].

Lemma ex_items_ok : Forall (item_ok (ho := ex_host)) ex_items.
Proof.
  repeat (constructor; [split | ]); try constructor.
  all: try (vm_compute; discriminate).
  all: repeat split; try (vm_compute; (reflexivity || discriminate)).
  all: try (eexists; vm_compute; reflexivity).
  all: vm_compute; repeat (constructor; [repeat split; discriminate |]); constructor.
Qed.

Lemma parse_plugin_names_roundtrip_witness : exists s',
  parse_plugin_names (ho := ex_host) ([cstr "debug:true"] ++ (cstr "plugins:" ++ cstr "print[a], kafka[b]") :: []) false ex_core
    = Ok (2, [cstr "debug:true"; []], s') /\ listed s' = [(cstr "core", cstr "default"); (cstr "print", cstr "a"); (cstr "kafka", cstr "b")].
Proof.
  destruct (parse_plugin_names_roundtrip (ho := ex_host) ex_items [cstr "debug:true"] [] ex_core) as (s' & E & L).
  - discriminate.
  - exact ex_items_ok.
  - apply (bool_decide_unpack _). vm_compute. exact I.
  - vm_compute. discriminate.
  - vm_compute. reflexivity.
  - exists s'. split; [exact E | exact L].
Defined.

Lemma delete_plugin_by_id_spec_witness :
  delete_plugin_by_id 1 ex_daemon = Ok (2, with_plugins [ex_plugin 0 "default" "core" 0; ex_plugin 2 "b" "kafka" 10] ex_daemon).
Proof.
  rewrite (delete_plugin_by_id_spec 1 ex_daemon); [vm_compute; reflexivity | | discriminate | lia].
  split.
  - apply (bool_decide_unpack _). vm_compute. exact I.
  - intros i p H. do 3 (destruct i as [|i]; [injection H as <-; vm_compute; reflexivity |]). discriminate H.
  - intros i p H. do 3 (destruct i as [|i]; [injection H as <-; simpl; split; (reflexivity || discriminate) |]). discriminate H.
Defined.

(** ** What the model shows *)

Section Findings.
#[local] Existing Instance ex_host.

(** A bracket that closes before it opens passes the checks, and
    [evaluate_configuration] writes through the NULL of its second [strchr]. *)
Lemma stray_bracket_crashes :
  parse_configuration_file (Some (Readable (cstr "a][: x" ++ [10]))) [] (mk_daemon [] []) = Err NullDeref.
Proof. vm_compute. reflexivity. Qed.

(** [fgets] fills 10239 characters; the copy of such a line ends with two
    NULs, the second one after [localbuf]. *)
Lemma longest_line_overflows :
  parse_configuration_file (Some (Readable (cstr "a:" ++ repeat 98 (Z.to_nat 10237)))) [] (mk_daemon [] []) = Err OutOfBounds.
Proof. vm_compute. reflexivity. Qed.

(** A key of 288 characters overruns [key] in [parse_core_process_name]. *)
Lemma long_key_overflows :
  parse_configuration_file (Some (Readable (repeat 97 288 ++ cstr ": x"))) [] (mk_daemon [] []) = Err OutOfBounds.
Proof. vm_compute. reflexivity. Qed.

(** A plugin without a name takes the name away from those after it. *)
Lemma default_name_sticks :
  map snd (listed (state_of (parse_configuration_file (Some (Readable (cstr "plugins: print, kafka[foo]"))) [] (mk_daemon [] []))))
  = [cstr "default"; cstr "default_print"; cstr "default_kafka"].
Proof. vm_compute. reflexivity. Qed.

(** The key [redis_passwd] has a handler and a manual entry, and is not in the
    dictionary. *)
Lemma redis_passwd_unknown :
  evaluate_line 1 (cstr "redis_passwd:secret") ex_daemon = Ok ([UnknownKey 1], ex_daemon).
Proof. vm_compute. reflexivity. Qed.

(** The labels of a filter are cut out of the text by the first plugin; the
    second one reads the first label only. *)
Lemma labels_lost :
  map (fun p => pl_cfg p !! "bgp_daemon_msglog_label_filter")
    (plugins_list (state_of (evaluate_line 1 (cstr "bgp_daemon_msglog_label_filter:a,b") ex_daemon)))
  = [Some (CLabels [(0, cstr "a"); (0, cstr "b")]); Some (CLabels [(0, cstr "a")]); Some (CLabels [(0, cstr "a")])].
Proof. vm_compute. reflexivity. Qed.

(** A size that is checked on 64 bits and stored in an [int]. *)
Lemma avro_buffer_size_zero :
  map (fun p => pl_cfg p !! "avro_buffer_size")
    (plugins_list (state_of (evaluate_line 1 (cstr "avro_buffer_size:4294967296") ex_daemon)))
  = [Some (CInt 0); Some (CInt 0); Some (CInt 0)].
Proof. vm_compute. reflexivity. Qed.

(** A negative value passes a check for [<= 0] on an unsigned integer. *)
Lemma frame_max_negative :
  pl_cfg <$> (plugins_list (state_of (evaluate_line 1 (cstr "amqp_frame_max[a]:-1") ex_daemon)) !! 1%nat)
  = Some (<["amqp_frame_max" := CInt 4294967295]> ∅).
Proof. vm_compute. reflexivity. Qed.

(** A port number is read modulo 2^32. *)
Lemma port_wraps :
  pl_cfg <$> (plugins_list (state_of (evaluate_line 1 (cstr "nfacctd_port:4294967396") ex_daemon)) !! 0%nat)
  = Some (<["nfacctd_port" := CInt 100]> ∅).
Proof. vm_compute. reflexivity. Qed.

(** The 65th custom primitive of [aggregate] is written after the array. *)
Lemma custom_primitives_overflow :
  evaluate_line 1 (cstr "aggregate:" ++ concat (map (fun i => [120; 48 + Z.of_nat i / 10; 48 + Z.of_nat i mod 10; 44]) (seq 0 65))) ex_daemon
  = Err OutOfBounds.
Proof. vm_compute. reflexivity. Qed.

(** Whether a name without a key is refused depends on the number of lines of
    the configuration. *)
Lemma symbol_check_short :
  sanitize_line 1 (cstr "1[x]: y") = Ok (cstr "1[x]:y") /\ sanitize_line 2 (cstr "1[x]: y") = Err Exited.
Proof. vm_compute. split; reflexivity. Qed.

End Findings.

(** The id of the 257th plugin is the core's. *)
Lemma plugin_id_wraps `{host} l : plugins_ok l -> length l = 256%nat -> u8 (match l with [] => 0 | _ => max_id l 0 + 1 end) = 0.
Proof. intros Hok Hl. rewrite next_id by done. by rewrite Hl. Qed.

End CfgTextFacts.
