(* ===== verification/PretagData.v ===== *)
(** * Data of the maps (pretag.h, addr.c)

    A map is a file of lines [key=value key=value ...]; a line becomes an
    entry: what it sets, the values its keys compare packets with, and the
    functions that compare them. This file holds the entries ([struct
    id_entry]), the packets they are matched against, and the addresses and
    masks of addr.c. *)

From S2P Require Import Prelude.
From S2P Require Import BgpPrefix.
From S2P Require Import CBuf.
From S2P Require Import BgpAttr.
From S2P Require Import NfTemplate.
From S2P Require Import CfgData.
From S2P Require Import CfgHandlers.

Module PretagData.
Import BgpPrefix(AF_INET, AF_INET6).
Import BgpAttr(host_addr, mk_ha, ha_family, ha_address, ha0, rd_t, mk_rd, rd_type, rd_body, rd0).
Import CfgData.
Import CfgHandlers.

(** ** Constants *)

Definition N_MAP_HANDLERS : nat := 8.
Definition N_MAP_SET_HANDLERS : nat := 4.
Definition MAX_LABEL_LEN : Z := 32.

Definition PRETAG_IN_IFACE : Z := 0x1.
Definition PRETAG_OUT_IFACE : Z := 0x2.
Definition PRETAG_NEXTHOP : Z := 0x4.
Definition PRETAG_BGP_NEXTHOP : Z := 0x8.
Definition PRETAG_ENGINE_TYPE : Z := 0x10.
Definition PRETAG_ENGINE_ID : Z := 0x20.
Definition PRETAG_FILTER : Z := 0x40.
Definition PRETAG_SF_AGENTID : Z := 0x100.
Definition PRETAG_DIRECTION : Z := 0x400.
Definition PRETAG_SRC_AS : Z := 0x800.
Definition PRETAG_DST_AS : Z := 0x1000.
Definition PRETAG_PEER_SRC_AS : Z := 0x2000.
Definition PRETAG_PEER_DST_AS : Z := 0x4000.
Definition PRETAG_SRC_LOCAL_PREF : Z := 0x8000.
Definition PRETAG_LOCAL_PREF : Z := 0x10000.
Definition PRETAG_SRC_STD_COMM : Z := 0x20000.
Definition PRETAG_STD_COMM : Z := 0x40000.
Definition PRETAG_MPLS_VPN_RD : Z := 0x80000.
Definition PRETAG_SAMPLE_TYPE : Z := 0x100000.
Definition PRETAG_SET_TOS : Z := 0x200000.
Definition PRETAG_LOOKUP_BGP_PORT : Z := 0x400000.
Definition PRETAG_SET_TAG : Z := 0x800000.
Definition PRETAG_SET_TAG2 : Z := 0x1000000.
Definition PRETAG_MPLS_LABEL_BOTTOM : Z := 0x2000000.
Definition PRETAG_FLOWSET_ID : Z := 0x4000000.
Definition PRETAG_SRC_MAC : Z := 0x8000000.
Definition PRETAG_DST_MAC : Z := 0x10000000.
Definition PRETAG_VLAN_ID : Z := 0x20000000.
Definition PRETAG_IP : Z := 0x40000000.
Definition PRETAG_SET_LABEL : Z := 0x80000000.
Definition PRETAG_CVLAN_ID : Z := 0x100000000.
Definition PRETAG_MPLS_VPN_ID : Z := 0x200000000.
Definition PRETAG_FWDSTATUS_ID : Z := 0x400000000.
Definition PRETAG_SRC_NET : Z := 0x800000000.
Definition PRETAG_DST_NET : Z := 0x1000000000.
Definition PRETAG_MPLS_PW_ID : Z := 0x2000000000.
Definition PRETAG_SRC_ROA : Z := 0x4000000000.
Definition PRETAG_DST_ROA : Z := 0x8000000000.
Definition PRETAG_IS_BI_FLOW : Z := 0x10000000000.
Definition PRETAG_IS_MULTICAST : Z := 0x20000000000.
Definition PRETAG_IS_NSEL : Z := 0x40000000000.
Definition PRETAG_IS_NEL : Z := 0x80000000000.
Definition PRETAG_IP_PROTO : Z := 0x200000000000.
Definition PRETAG_SRC_PORT : Z := 0x400000000000.
Definition PRETAG_DST_PORT : Z := 0x800000000000.
Definition PRETAG_MPLS_VPN_ID_IN : Z := 0x1000000000000.
Definition PRETAG_MPLS_VPN_ID_OUT : Z := 0x2000000000000.
Definition PRETAG_TCP_FLAGS : Z := 0x4000000000000.

Definition PRETAG_MAP_RCODE_ID : Z := 0x100.
Definition PRETAG_MAP_RCODE_ID2 : Z := 0x200.
Definition PRETAG_MAP_RCODE_SET_TOS : Z := 0x400.
Definition PRETAG_MAP_RCODE_JEQ : Z := 0x800.
Definition BTA_MAP_RCODE_ID_ID2 : Z := 0x1000.
Definition BTA_MAP_RCODE_LOOKUP_BGP_PORT : Z := 0x2000.
Definition BPAS_MAP_RCODE_BGP : Z := 0x4000.
Definition PRETAG_MAP_RCODE_LABEL : Z := 0x8000.

Definition PRETAG_FLAG_NEG : Z := 0x1.
Definition PRETAG_FLAG_JEQ : Z := 0x2.

Definition ACCT_PMBGP : Z := 101.
Definition ACCT_PMBMP : Z := 102.
Definition ACCT_PMTELE : Z := 201.
Definition MAP_BGP_PEER_AS_SRC : Z := 1000.
Definition MAP_BGP_TO_XFLOW_AGENT : Z := 1001.
Definition MAP_BGP_SRC_LOCAL_PREF : Z := 1002.
Definition MAP_BGP_SRC_MED : Z := 1003.
Definition MAP_FLOW_TO_RD : Z := 1004.
Definition MAP_SAMPLING : Z := 1005.

Definition PM_FTYPE_TRAFFIC : Z := 1.
Definition PM_FTYPE_IPV4 : Z := 2.
Definition PM_FTYPE_IPV6 : Z := 3.
Definition PM_FTYPE_MPLS_IPV4 : Z := 12.
Definition PM_FTYPE_MPLS_IPV6 : Z := 13.
Definition PM_FTYPE_TRAFFIC_MAX : Z := 99.
Definition NF9_FTYPE_EVENT : Z := 100.
Definition NF9_FTYPE_OPTION : Z := 200.

Definition RD_TYPE_AS : Z := 0.
Definition RD_TYPE_IP : Z := 1.
Definition RD_TYPE_AS4 : Z := 2.
Definition MAX_BGP_STD_COMMS : Z := 96.
Definition MAX_BGP_COMM_PATTERNS : nat := 16.
Definition ETH_ADDR_LEN : Z := 6.
Definition DEFAULT_SEP : list Z := cstr ",".

(** ** Addresses and masks (addr.c) *)

Record host_mask := mk_hm {
  hm_family : Z;
  hm_len : Z;
  hm_mask : list Z  (* 16 octets; an IPv4 mask is the first four *)
}.
Definition hm0 : host_mask := mk_hm 0 0 (replicate 16 0).

Definition and_bytes (a b : list Z) : list Z := zip_with Z.land a b.

Section Addr.
Context {ho : host}.

(** [str_to_addr]: an address of either family takes its part of the union. *)
Definition str_to_host (str : list Z) (a : host_addr) : Z * host_addr :=
  let '(family, bytes) := str_to_addr str in
  if family =? 0 then (0, a)
  else (family, mk_ha family (bytes ++ drop (length bytes) (ha_address a))).

(** [htonl ((index == 32) ? 0xffffffff : ~(0xffffffff >> index))] *)
Definition mask4 (index : Z) : list Z :=
  htonl (if index =? 32 then 0xffffffff else u32 (Z.lnot (Z.shiftr 0xffffffff index))).

(** The octet after the whole ones: [htonl] swaps the 32 bits of
    [~(0xffU >> index)], and the octet that is kept is the one that was the
    highest. *)
Definition mask6_rest (index : Z) : Z := byte_at (htonl (u32 (Z.lnot (Z.shiftr 0xff index)))) 0.

Definition mask6 (index : Z) (m : list Z) : list Z :=
  let whole := Z.to_nat (index / 8) in
  let m := replicate whole 0xff ++ drop whole m in
  if (index <? 128) && negb (index mod 8 =? 0) then <[whole := mask6_rest (index mod 8)]> m else m.

Definition str_to_addr_mask (str : list Z) (a : host_addr) (m : host_mask) : Z * host_addr * host_mask :=
  let '(str, mask) := match split_at 47 (* / *) str with Some (s, mask) => (s, Some mask) | None => (str, None) end in
  let '(family, a) := str_to_host str a in
  if family =? 0 then (0, a, m)
  else
    match mask with
    | Some mask =>
        let index := u32 (atoi mask) in
        if family =? AF_INET then
          if 32 <? index then (0, mk_ha 0 (ha_address a), mk_hm 0 (u8 index) (hm_mask m))
          else
            let m4 := mask4 index in
            (family, mk_ha family (and_bytes (take 4 (ha_address a)) m4 ++ drop 4 (ha_address a)),
             mk_hm family index (m4 ++ drop 4 (hm_mask m)))
        else
          if 128 <? index then (0, mk_ha 0 (ha_address a), mk_hm 0 (u8 index) (hm_mask m))
          else
            let m6 := mask6 index (hm_mask m) in
            (family, mk_ha family (and_bytes (ha_address a) m6), mk_hm family index m6)
    | None =>
        if family =? AF_INET then (family, a, mk_hm family 32 (replicate 4 0xff ++ drop 4 (hm_mask m)))
        else (family, a, mk_hm family 128 (replicate 16 0xff))
    end.

End Addr.

(** [host_addr_mask_cmp], and [host_addr_mask_sa_cmp] on the address of the
    [sockaddr]. *)
Definition host_addr_mask_cmp (a1 : host_addr) (m1 : host_mask) (a2 : host_addr) : Z :=
  if negb (ha_family a1 =? ha_family a2) || negb (ha_family a1 =? hm_family m1) then ERR
  else if ha_family a1 =? AF_INET then
    if bool_decide (and_bytes (take 4 (ha_address a2)) (take 4 (hm_mask m1)) = take 4 (ha_address a1)) then FALSE else TRUE
  else if ha_family a1 =? AF_INET6 then
    if bool_decide (and_bytes (ha_address a2) (hm_mask m1) = ha_address a1) then FALSE else TRUE
  else ERR.
Definition host_addr_mask_sa_cmp (a1 : host_addr) (m1 : host_mask) (sa : host_addr) : Z :=
  host_addr_mask_cmp a1 m1 sa.

(** [string_etheraddr]: one or two digits per octet; a failure leaves the
    octets that were read. *)
Definition xdigit (ch : Z) : option Z :=
  if is_digit ch then Some (ch - 48)
  else if (97 <=? ch) && (ch <=? 102) then Some (ch - 87) else None.

Fixpoint etheraddr_loop (n : nat) (cnt : nat) (asc addr : list Z) : Z * list Z :=
  match n with
  | O => (FALSE, addr)
  | S n =>
      let last := (n =? 0)%nat in
      match xdigit (tolower (byte_at asc 0)) with
      | None => (TRUE, addr)
      | Some number =>
          let ch := tolower (byte_at asc 1) in
          if (negb last && negb (ch =? 58 (* : *))) || (last && negb (ch =? 0) && negb (is_space ch)) then
            match xdigit ch with
            | None => (TRUE, addr)
            | Some low =>
                if negb last && negb (byte_at asc 2 =? 58) then (TRUE, addr)
                else etheraddr_loop n (S cnt) (drop 3 asc) (<[cnt := number * 16 + low]> addr)
            end
          else etheraddr_loop n (S cnt) (drop 2 asc) (<[cnt := number]> addr)
      end
  end.
Definition string_etheraddr (asc addr : list Z) : Z * list Z := etheraddr_loop 6 0 asc addr.

(** ** Labels (pt_label_t) *)

(** [val] is NULL or a buffer; [len] is what the code believes its length is. *)
Record pt_label := mk_label {
  lb_len : Z;
  lb_val : option (list Z)
}.
Definition label0 : pt_label := mk_label 0 None.

(** ** Entries (pretag.h) *)

(** The functions [func] and [set_func] point to: [F_x] is [x_handler]. *)
Inductive pretag_handler :=
  | F_pretag_dummy_ip | F_pretag_input | F_pretag_output | F_pretag_nexthop | F_pretag_bgp_nexthop
  | F_pretag_bgp_bgp_nexthop | F_pretag_engine_type | F_pretag_engine_id | F_pretag_flowset_id
  | F_pretag_filter | F_pretag_src_as | F_pretag_bgp_src_as | F_pretag_dst_as | F_pretag_bgp_dst_as
  | F_pretag_peer_src_as | F_pretag_peer_dst_as | F_pretag_src_local_pref | F_pretag_local_pref
  | F_pretag_src_roa | F_pretag_dst_roa | F_pretag_src_comms | F_pretag_comms | F_pretag_sample_type
  | F_pretag_is_bi_flow | F_pretag_is_nsel | F_pretag_is_nel | F_pretag_direction | F_pretag_mpls_vpn_id_in
  | F_pretag_mpls_vpn_id_out | F_pretag_mpls_vpn_rd | F_pretag_mpls_pw_id | F_pretag_src_mac
  | F_pretag_dst_mac | F_pretag_vlan_id | F_pretag_src_net | F_pretag_dst_net | F_pretag_ip_proto
  | F_pretag_src_port | F_pretag_dst_port | F_pretag_tcp_flags | F_pretag_is_multicast
  | F_pretag_fwd_status | F_pretag_cvlan_id | F_pretag_set_tos | F_BTA_lookup_bgp_port | F_pretag_id
  | F_pretag_id2 | F_pretag_label | F_SF_pretag_input | F_SF_pretag_output | F_SF_pretag_nexthop
  | F_SF_pretag_bgp_nexthop | F_SF_pretag_engine_id | F_SF_pretag_agent_id | F_SF_pretag_sample_type
  | F_SF_pretag_direction | F_SF_pretag_src_as | F_SF_pretag_dst_as | F_SF_pretag_src_mac
  | F_SF_pretag_dst_mac | F_SF_pretag_vlan_id | F_SF_pretag_cvlan_id | F_SF_pretag_mpls_pw_id
  | F_SF_pretag_src_net | F_SF_pretag_dst_net | F_SF_pretag_ip_proto | F_SF_pretag_src_port
  | F_SF_pretag_dst_port | F_SF_pretag_tcp_flags | F_SF_pretag_is_multicast | F_PM_pretag_src_as
  | F_PM_pretag_dst_as | F_PM_pretag_input | F_PM_pretag_output | F_PM_pretag_direction
  | F_BPAS_bgp_nexthop | F_BPAS_bgp_peer_dst_as | F_BITR_mpls_label_bottom | F_BITR_mpls_vpn_id
  | F_pretag_BGP_comms.
#[export] Instance pretag_handler_eq_dec : EqDecision pretag_handler.
Proof. solve_decision. Defined.

Inductive stack_handler := F_PT_stack_sum | F_PT_stack_logical_or.

(** A member of [struct id_entry_key]. *)
Inductive kval :=
  | KNum (neg n : Z)                                   (* pt_uint8_t, pt_uint16_t, pt_uint32_t *)
  | KAddr (neg : Z) (a : host_addr)                    (* pt_hostaddr_t *)
  | KNet (neg : Z) (a : host_addr) (m : host_mask)     (* pt_netaddr_t; [agent_ip] with [agent_mask] *)
  | KMac (neg : Z) (a : list Z)                        (* pt_etheraddr_t *)
  | KRd (neg : Z) (rd : rd_t)                          (* pt_rd_t *)
  | KComms (l : list (list Z))                         (* the patterns before the first NULL *)
  | KPort (n : Z)                                      (* s_uint16_t, once it is set *)
  | KFilter (program : list Z).

(** A key: the members that were written since it was zeroed. *)
Abbreviation entry_key := (gmap string kval).

Definition key_num (f : string) (k : entry_key) : Z * Z := match k !! f with Some (KNum neg n) => (neg, n) | _ => (0, 0) end.
Definition key_addr (f : string) (k : entry_key) : Z * host_addr := match k !! f with Some (KAddr neg a) => (neg, a) | _ => (0, ha0) end.
Definition key_net (f : string) (k : entry_key) : Z * host_addr * host_mask :=
  match k !! f with Some (KNet neg a m) => (neg, a, m) | _ => (0, ha0, hm0) end.
Definition key_mac (f : string) (k : entry_key) : Z * list Z :=
  match k !! f with Some (KMac neg a) => (neg, a) | _ => (0, replicate 6 0) end.
Definition key_rd (f : string) (k : entry_key) : Z * rd_t := match k !! f with Some (KRd neg rd) => (neg, rd) | _ => (0, rd0) end.
Definition key_comms (f : string) (k : entry_key) : list (list Z) := match k !! f with Some (KComms l) => l | _ => [] end.

(** The width of the member a number is stored in. *)
Definition key_width (f : string) : Z :=
  if bool_decide (f ∈ ["engine_type"; "is_bi_flow"; "is_nsel"; "is_nel"; "direction"; "src_roa"; "dst_roa";
                       "ip_proto"; "tcp_flags"; "is_multicast"; "fwd_status"]) then 8
  else if bool_decide (f ∈ ["flowset_id"; "vlan_id"; "cvlan_id"; "src_port"; "dst_port"]) then 16
  else 32.

(** [func] and [set_func] with their types: what comes before the first NULL. *)
Record id_entry := mk_entry {
  e_id : Z;
  e_id2 : Z;
  e_label : pt_label;
  e_flags : Z;
  e_pos : Z;
  e_set_tos : Z * Z;                         (* set, n *)
  e_key : entry_key;
  e_func : list (pretag_handler * Z);
  e_set_func : list (pretag_handler * Z);
  e_entry_label : option (list Z);
  e_jeq_label : option (list Z);
  e_jeq_ptr : option Z;                      (* the entry's place in the table *)
  e_ret : Z;
  e_stack : option stack_handler;
  e_last_matched : Z;
  e_id_inc : Z;
  e_id2_inc : Z
}.

Definition entry0 : id_entry :=
  mk_entry 0 0 label0 0 0 (0, 0) ∅ [] [] None None None 0 None 0 0 0.

Definition with_id (v : Z) (e : id_entry) : id_entry :=
  mk_entry v (e_id2 e) (e_label e) (e_flags e) (e_pos e) (e_set_tos e) (e_key e) (e_func e) (e_set_func e) (e_entry_label e) (e_jeq_label e) (e_jeq_ptr e) (e_ret e) (e_stack e) (e_last_matched e) (e_id_inc e) (e_id2_inc e).
Definition with_id2 (v : Z) (e : id_entry) : id_entry :=
  mk_entry (e_id e) v (e_label e) (e_flags e) (e_pos e) (e_set_tos e) (e_key e) (e_func e) (e_set_func e) (e_entry_label e) (e_jeq_label e) (e_jeq_ptr e) (e_ret e) (e_stack e) (e_last_matched e) (e_id_inc e) (e_id2_inc e).
Definition with_label (v : pt_label) (e : id_entry) : id_entry :=
  mk_entry (e_id e) (e_id2 e) v (e_flags e) (e_pos e) (e_set_tos e) (e_key e) (e_func e) (e_set_func e) (e_entry_label e) (e_jeq_label e) (e_jeq_ptr e) (e_ret e) (e_stack e) (e_last_matched e) (e_id_inc e) (e_id2_inc e).
Definition with_flags (v : Z) (e : id_entry) : id_entry :=
  mk_entry (e_id e) (e_id2 e) (e_label e) v (e_pos e) (e_set_tos e) (e_key e) (e_func e) (e_set_func e) (e_entry_label e) (e_jeq_label e) (e_jeq_ptr e) (e_ret e) (e_stack e) (e_last_matched e) (e_id_inc e) (e_id2_inc e).
Definition with_pos (v : Z) (e : id_entry) : id_entry :=
  mk_entry (e_id e) (e_id2 e) (e_label e) (e_flags e) v (e_set_tos e) (e_key e) (e_func e) (e_set_func e) (e_entry_label e) (e_jeq_label e) (e_jeq_ptr e) (e_ret e) (e_stack e) (e_last_matched e) (e_id_inc e) (e_id2_inc e).
Definition with_set_tos (v : Z * Z) (e : id_entry) : id_entry :=
  mk_entry (e_id e) (e_id2 e) (e_label e) (e_flags e) (e_pos e) v (e_key e) (e_func e) (e_set_func e) (e_entry_label e) (e_jeq_label e) (e_jeq_ptr e) (e_ret e) (e_stack e) (e_last_matched e) (e_id_inc e) (e_id2_inc e).
Definition with_key (v : entry_key) (e : id_entry) : id_entry :=
  mk_entry (e_id e) (e_id2 e) (e_label e) (e_flags e) (e_pos e) (e_set_tos e) v (e_func e) (e_set_func e) (e_entry_label e) (e_jeq_label e) (e_jeq_ptr e) (e_ret e) (e_stack e) (e_last_matched e) (e_id_inc e) (e_id2_inc e).
Definition with_func (v : list (pretag_handler * Z)) (e : id_entry) : id_entry :=
  mk_entry (e_id e) (e_id2 e) (e_label e) (e_flags e) (e_pos e) (e_set_tos e) (e_key e) v (e_set_func e) (e_entry_label e) (e_jeq_label e) (e_jeq_ptr e) (e_ret e) (e_stack e) (e_last_matched e) (e_id_inc e) (e_id2_inc e).
Definition with_set_func (v : list (pretag_handler * Z)) (e : id_entry) : id_entry :=
  mk_entry (e_id e) (e_id2 e) (e_label e) (e_flags e) (e_pos e) (e_set_tos e) (e_key e) (e_func e) v (e_entry_label e) (e_jeq_label e) (e_jeq_ptr e) (e_ret e) (e_stack e) (e_last_matched e) (e_id_inc e) (e_id2_inc e).
Definition with_entry_label (v : option (list Z)) (e : id_entry) : id_entry :=
  mk_entry (e_id e) (e_id2 e) (e_label e) (e_flags e) (e_pos e) (e_set_tos e) (e_key e) (e_func e) (e_set_func e) v (e_jeq_label e) (e_jeq_ptr e) (e_ret e) (e_stack e) (e_last_matched e) (e_id_inc e) (e_id2_inc e).
Definition with_jeq_label (v : option (list Z)) (e : id_entry) : id_entry :=
  mk_entry (e_id e) (e_id2 e) (e_label e) (e_flags e) (e_pos e) (e_set_tos e) (e_key e) (e_func e) (e_set_func e) (e_entry_label e) v (e_jeq_ptr e) (e_ret e) (e_stack e) (e_last_matched e) (e_id_inc e) (e_id2_inc e).
Definition with_jeq_ptr (v : option Z) (e : id_entry) : id_entry :=
  mk_entry (e_id e) (e_id2 e) (e_label e) (e_flags e) (e_pos e) (e_set_tos e) (e_key e) (e_func e) (e_set_func e) (e_entry_label e) (e_jeq_label e) v (e_ret e) (e_stack e) (e_last_matched e) (e_id_inc e) (e_id2_inc e).
Definition with_ret (v : Z) (e : id_entry) : id_entry :=
  mk_entry (e_id e) (e_id2 e) (e_label e) (e_flags e) (e_pos e) (e_set_tos e) (e_key e) (e_func e) (e_set_func e) (e_entry_label e) (e_jeq_label e) (e_jeq_ptr e) v (e_stack e) (e_last_matched e) (e_id_inc e) (e_id2_inc e).
Definition with_stack (v : option stack_handler) (e : id_entry) : id_entry :=
  mk_entry (e_id e) (e_id2 e) (e_label e) (e_flags e) (e_pos e) (e_set_tos e) (e_key e) (e_func e) (e_set_func e) (e_entry_label e) (e_jeq_label e) (e_jeq_ptr e) (e_ret e) v (e_last_matched e) (e_id_inc e) (e_id2_inc e).
Definition with_last_matched (v : Z) (e : id_entry) : id_entry :=
  mk_entry (e_id e) (e_id2 e) (e_label e) (e_flags e) (e_pos e) (e_set_tos e) (e_key e) (e_func e) (e_set_func e) (e_entry_label e) (e_jeq_label e) (e_jeq_ptr e) (e_ret e) (e_stack e) v (e_id_inc e) (e_id2_inc e).
Definition with_id_inc (v : Z) (e : id_entry) : id_entry :=
  mk_entry (e_id e) (e_id2 e) (e_label e) (e_flags e) (e_pos e) (e_set_tos e) (e_key e) (e_func e) (e_set_func e) (e_entry_label e) (e_jeq_label e) (e_jeq_ptr e) (e_ret e) (e_stack e) (e_last_matched e) v (e_id2_inc e).
Definition with_id2_inc (v : Z) (e : id_entry) : id_entry :=
  mk_entry (e_id e) (e_id2 e) (e_label e) (e_flags e) (e_pos e) (e_set_tos e) (e_key e) (e_func e) (e_set_func e) (e_entry_label e) (e_jeq_label e) (e_jeq_ptr e) (e_ret e) (e_stack e) (e_last_matched e) (e_id_inc e) v.

Definition set_key (f : string) (v : kval) (e : id_entry) : id_entry := with_key (<[f := v]> (e_key e)) e.
Definition set_num (f : string) (neg n : Z) (e : id_entry) : id_entry := set_key f (KNum neg (wrap (key_width f) n)) e.

(** ** Packets *)

(** The sFlow sample (sflow.h) the keys look at; addresses are octets. *)
Record sf_sample := mk_sample {
  inputPort : Z; outputPort : Z; ds_index : Z; agentSubId : Z;
  sf_src_as : Z; sf_dst_as : Z; in_vlan : Z; out_vlan : Z; sf_cvlan : Z; mpls_vll_vc_id : Z;
  gotIPV4 : bool; gotIPV6 : bool;
  dcd_srcIP : list Z; dcd_dstIP : list Z; ipsrc : list Z; ipdst : list Z;
  sf_nextHop : list Z; sf_bgp_nextHop : list Z;
  dcd_ipProtocol : Z; dcd_sport : Z; dcd_dport : Z; dcd_tcpFlags : Z;
  eth_src : list Z; eth_dst : list Z
}.

(** The route BGP has found ([struct bgp_info]) with its attributes. *)
Record path_attr := mk_path_attr {
  pa_mp_nexthop : host_addr;
  pa_nexthop : list Z;
  pa_aspath : option (Z * option (list Z));  (* [last_as], [str] *)
  pa_local_pref : Z;
  pa_community : option (list Z);            (* [str], when there is a community *)
  pa_lcommunity : option (list Z)
}.
Record path_info := mk_path_info {
  pi_attr : option path_attr;
  pi_rd : option rd_t                        (* of [attr_extra] *)
}.

(** [struct packet_ptrs], what the maps read of it. *)
Record packet := mk_packet {
  pk_agent : host_addr;            (* the [sockaddr] of f_agent, of the exporter when the options of
                                      NetFlow v9/IPFIX gave one, of the sample for sFlow *)
  pk_version : Z;                  (* of f_header *)
  pk_header : list Z;              (* f_header *)
  pk_data : option (list Z);       (* f_data of NetFlow, up to the end of the packet *)
  pk_tpl : option NfTemplate.template;        (* f_tpl *)
  pk_traffic_type : Z; pk_is_bi : Z;
  pk_sample : sf_sample;           (* f_data of sFlow *)
  pk_sample_type : Z;
  pk_ifindex_in : Z; pk_ifindex_out : Z; pk_direction : Z;
  pk_bgp_src : bool; pk_bgp_dst : bool;
  pk_src_info : option path_info; pk_dst_info : option path_info; pk_nexthop_info : option path_info;
  pk_lm_method_dst : Z; pk_bpas : Z; pk_blp : Z; pk_src_roa : Z; pk_dst_roa : Z;
  pk_capture : list Z              (* packet_ptr, what a filter looks at *)
}.

(** What the maps write to it. *)
Record marks := mk_marks {
  m_set_tos : Z * Z;
  m_lookup_bgp_port : option Z;
  m_label : pt_label;
  m_have_tag : Z; m_have_tag2 : Z; m_have_label : Z
}.
Definition marks0 : marks := mk_marks (0, 0) None label0 0 0 0.

(** ** What the maps read of the configuration and of the system *)

Class pt_env := {
  nfacctd_net : Z;
  nfacctd_as : Z;
  networks_file : bool;
  bgp_daemon : bool;
  pretag_label_encode_as_map : bool;
  pre_tag_map_dont_recirculate : bool;
  bgp_daemon_peer_as_src_type : Z;
  bgp_daemon_src_local_pref_type : Z;
  bgp_daemon_src_roa_type : Z;
  bgp_daemon_peer_as_skip_subas : bool;
  stdcomm_pattern_to_asn : option (list (list Z));
  lrgcomm_pattern_to_asn : option (list (list Z));
  maps_entries : Z;
  maps_row_len : Z;
  tee_plugins : bool;
  (* libpcap *)
  pcap_compile : list Z -> option (list Z);
  bpf_filter : list Z -> list Z -> bool;
  (* the lookups of networks_file *)
  search_pretag_src_as : packet -> Z;
  search_pretag_dst_as : packet -> Z;
  (* what the stack holds where a local is not initialised *)
  junk : Z
}.

End PretagData.
