(* ===== verification/PretagMaskFacts.v ===== *)
(** * Networks and masks of the maps

    Which addresses a network with a mask stands for (addr.c). *)

From S2P Require Import Prelude.
From S2P Require Import BgpPrefix.
From S2P Require Import BgpAttr.
From S2P Require Import CfgData.
From S2P Require Import CfgHandlers.
From S2P Require Import PretagData.

Module PretagMaskFacts.
Import BgpPrefix(AF_INET, AF_INET6).
Import BgpAttr(host_addr, mk_ha, ha_family, ha_address, ha0).
Import CfgData.
Import CfgHandlers.
Import PretagData.

(** ** Octets and their bits *)

Lemma bytes_by_bits a b : length a = length b -> bytes_ok a -> bytes_ok b ->
  a = b <-> forall i, 0 <= i < 8 * Z.of_nat (length a) -> bit_of a i = bit_of b i.
Proof.
  intros Hl Ha Hb. split; [by intros -> |]. intros H. apply list_eq_same_length with (length a); [done | done |].
  intros j x y Hj Hx Hy. apply u8_bits_eq; [exact (Forall_lookup_1 _ _ _ _ Ha Hx) | exact (Forall_lookup_1 _ _ _ _ Hb Hy) |]. intros k Hk.
  specialize (H (8 * Z.of_nat j + k) ltac:(lia)). unfold bit_of in H.
  replace ((8 * Z.of_nat j + k) / 8) with (Z.of_nat j) in H by (Z.div_mod_to_equations; lia).
  replace ((8 * Z.of_nat j + k) mod 8) with k in H by (Z.div_mod_to_equations; lia).
  unfold byte_at in H. rewrite Nat2Z.id, Hx, Hy in H. exact H.
Qed.

Lemma and_bit a m i : length a = length m -> bit_of (and_bytes a m) i = bit_of a i && bit_of m i.
Proof.
  intros Hl. unfold bit_of, byte_at, and_bytes. rewrite lookup_zip_with.
  destruct (a !! Z.to_nat (i / 8)) as [x |] eqn:Ex.
  - destruct (lookup_lt_is_Some_2 m (Z.to_nat (i / 8))) as [y Ey]; [rewrite <- Hl; by eapply lookup_lt_Some |].
    rewrite Ey. simpl. apply Z.land_spec.
  - simpl. by rewrite Z.bits_0.
Qed.
Lemma and_bytes_ok a m : bytes_ok a -> bytes_ok m -> bytes_ok (and_bytes a m).
Proof.
  intros Ha. revert m. induction Ha as [| x a Hx Ha IH]; intros m Hm; [constructor |]. destruct Hm as [| y m Hy Hm]; [constructor |].
  constructor; [apply in_u_land; [done | exact Hx] | by apply IH].
Qed.

(** Two addresses under a mask are the same when they agree where it has ones. *)
Lemma and_equal a b m : length a = length m -> length b = length m -> bytes_ok a -> bytes_ok b -> bytes_ok m ->
  and_bytes b m = and_bytes a m <-> forall i, 0 <= i < 8 * Z.of_nat (length m) -> bit_of m i = true -> bit_of b i = bit_of a i.
Proof.
  intros Hla Hlb Ha Hb Hm. rewrite bytes_by_bits by (try apply and_bytes_ok; try done; unfold and_bytes; rewrite !length_zip_with; lia).
  unfold and_bytes at 1. rewrite length_zip_with. replace (length b `min` length m)%nat with (length m) by lia. split.
  - intros H i Hi Hmi. specialize (H i Hi). rewrite !and_bit, Hmi, !andb_true_r in H by done. done.
  - intros H i Hi. rewrite !and_bit by done. destruct (bit_of m i) eqn:E; [| by rewrite !andb_false_r]. by rewrite (H i Hi E).
Qed.

(** ** The masks *)

Lemma mask4_bits n i : 0 <= n <= 32 -> 0 <= i < 32 -> bit_of (mask4 n) i = (i <? n).
Proof.
  intros Hn Hi.
  pose proof (range_by_compute (fun n => forallb (fun i => eqb (bit_of (mask4 n) i) (i <? n)) (map Z.of_nat (seq 0 32))) 33 eq_refl n ltac:(lia)) as H.
  apply eqb_prop, (range_by_compute _ 32 H i). lia.
Qed.
Lemma mask4_ok n : 0 <= n <= 32 -> length (mask4 n) = 4%nat /\ bytes_ok (mask4 n).
Proof. intros Hn. split; [done | apply htonl_bytes]. Qed.

(** The octet after the whole ones is all ones, or none. *)
Lemma mask6_bits n i : 0 <= n <= 128 -> 0 <= i < 128 -> bit_of (mask6 n (replicate 16 0%Z)) i = (i <? 8 * ((n + 7) / 8)).
Proof.
  intros Hn Hi.
  pose proof (range_by_compute (fun n => forallb (fun i => eqb (bit_of (mask6 n (replicate 16 0%Z)) i) (i <? 8 * ((n + 7) / 8)))
    (map Z.of_nat (seq 0 128))) 129 eq_refl n ltac:(lia)) as H.
  apply eqb_prop, (range_by_compute _ 128 H i). lia.
Qed.
Lemma mask6_ok n : 0 <= n <= 128 -> length (mask6 n (replicate 16 0%Z)) = 16%nat /\ bytes_ok (mask6 n (replicate 16 0%Z)).
Proof.
  intros Hn.
  pose proof (range_by_compute (fun n => (length (mask6 n (replicate 16 0%Z)) =? 16)%nat &&
    forallb (fun b => (0 <=? b) && (b <? 256)) (mask6 n (replicate 16 0%Z))) 129 eq_refl n ltac:(lia)) as H.
  apply andb_true_iff in H as [Hl%Nat.eqb_eq Hb]. split; [done |]. apply Forall_forall. intros b Hin%list_elem_of_In.
  apply (proj1 (forallb_forall _ _) Hb) in Hin. unfold in_u. lia.
Qed.

Section Masks.
Context {ho : host}.

(** C24. A network of IPv4 in a map, [address/n]: an address of IPv4 belongs to
    it exactly when its first [n] bits are those of the network. *)
Theorem ipv4_network_members str s mask bytes n a x rest :
  split_at 47 str = Some (s, mask) -> str_to_addr s = (AF_INET, bytes) -> u32 (atoi mask) = n -> n <= 32 ->
  length bytes = 4%nat -> bytes_ok bytes -> length (ha_address a) = 16%nat -> length x = 4%nat -> bytes_ok x ->
  let '(family, net, m) := str_to_addr_mask str a hm0 in
  family = AF_INET /\ hm_len m = n /\
  (host_addr_mask_cmp net m (mk_ha AF_INET (x ++ rest)) = 0 <-> forall i, 0 <= i < n -> bit_of x i = bit_of bytes i).
Proof.
  intros Hs Hb En Hn Hlb Hbo Hla Hlx Hx. unfold str_to_addr_mask, str_to_host. rewrite Hs, Hb. cbn [Z.eqb].
  change (AF_INET =? 0) with false. cbv iota. change (AF_INET =? 0) with false. change (AF_INET =? AF_INET) with true. cbv iota.
  rewrite En. rewrite (proj2 (Z.ltb_ge 32 n)) by lia. split; [done |]. split; [done |].
  assert (0 <= n) by (rewrite <- En; apply Z.mod_pos_bound; lia). destruct (mask4_ok n ltac:(lia)) as [Hlm Hmo].
  unfold host_addr_mask_cmp. cbn [ha_family hm_family ha_address hm_mask]. change (AF_INET =? AF_INET) with true. cbv [negb orb]. cbv iota.
  assert (E1 : take 4 (bytes ++ drop (length bytes) (ha_address a)) = bytes) by (by rewrite <- Hlb, take_app_length).
  assert (E2 : take 4 (and_bytes (take 4 (bytes ++ drop (length bytes) (ha_address a))) (mask4 n) ++ drop 4 (bytes ++ drop (length bytes) (ha_address a)))
               = and_bytes bytes (mask4 n)).
  { rewrite E1. apply take_app_length'. unfold and_bytes. rewrite length_zip_with. lia. }
  assert (E3 : take 4 (mask4 n ++ drop 4 (hm_mask hm0)) = mask4 n) by (by apply take_app_length').
  assert (E4 : take 4 (x ++ rest) = x) by (by apply take_app_length').
  rewrite E2, E3, E4. pose proof (and_equal bytes x (mask4 n) ltac:(lia) ltac:(lia) Hbo Hx Hmo) as Heq. rewrite Hlm in Heq.
  assert (Hiff : and_bytes x (mask4 n) = and_bytes bytes (mask4 n) <-> forall i, 0 <= i < n -> bit_of x i = bit_of bytes i).
  { rewrite Heq. split; intros Hi i Hin; [apply Hi; [lia |]; rewrite mask4_bits by lia; by apply Z.ltb_lt; lia |].
    intros Hm. rewrite mask4_bits in Hm by lia. apply Z.ltb_lt in Hm. apply Hi. lia. }
  rewrite <- Hiff. case_bool_decide; [done |]. split; [done |]. intros; contradiction.
Qed.

(** A network of IPv6 is taken to the next whole octet: with [n] bits an
    address belongs to it when it agrees in the first [8 * ((n + 7) / 8)]. *)
Lemma ipv6_network_members str s mask bytes n x :
  split_at 47 str = Some (s, mask) -> str_to_addr s = (AF_INET6, bytes) -> u32 (atoi mask) = n -> n <= 128 ->
  length bytes = 16%nat -> bytes_ok bytes -> length x = 16%nat -> bytes_ok x ->
  let '(family, net, m) := str_to_addr_mask str ha0 hm0 in
  family = AF_INET6 /\ hm_len m = n /\
  (host_addr_mask_cmp net m (mk_ha AF_INET6 x) = 0 <-> forall i, 0 <= i < 8 * ((n + 7) / 8) -> bit_of x i = bit_of bytes i).
Proof.
  intros Hs Hb En Hn Hlb Hbo Hlx Hx. unfold str_to_addr_mask, str_to_host. rewrite Hs, Hb.
  change (AF_INET6 =? 0) with false. cbv iota. change (AF_INET6 =? 0) with false. change (AF_INET6 =? AF_INET) with false. cbv iota.
  rewrite En. rewrite (proj2 (Z.ltb_ge 128 n)) by lia. split; [done |]. split; [done |].
  assert (0 <= n) by (rewrite <- En; apply Z.mod_pos_bound; lia).
  change (hm_mask hm0) with (replicate 16 0%Z). destruct (mask6_ok n ltac:(lia)) as [Hlm Hmo].
  unfold host_addr_mask_cmp. cbn [ha_family hm_family ha_address hm_mask]. change (AF_INET6 =? AF_INET6) with true.
  change (AF_INET6 =? AF_INET) with false. cbv [negb orb]. cbv iota.
  assert (bytes ++ drop (length bytes) (ha_address ha0) = bytes) as ->.
  { rewrite drop_ge, app_nil_r; [done |]. rewrite Hlb. by vm_compute. }
  pose proof (and_equal bytes x (mask6 n (replicate 16 0%Z)) ltac:(lia) ltac:(lia) Hbo Hx Hmo) as Heq. rewrite Hlm in Heq.
  assert (Hup : 8 * ((n + 7) / 8) <= 128) by (Z.div_mod_to_equations; lia).
  assert (Hiff : and_bytes x (mask6 n (replicate 16 0%Z)) = and_bytes bytes (mask6 n (replicate 16 0%Z)) <->
                 forall i, 0 <= i < 8 * ((n + 7) / 8) -> bit_of x i = bit_of bytes i).
  { rewrite Heq. split; intros Hi i Hin; [apply Hi; [lia |]; rewrite mask6_bits by lia; by apply Z.ltb_lt; lia |].
    intros Hm. rewrite mask6_bits in Hm by lia. apply Z.ltb_lt in Hm. apply Hi. lia. }
  rewrite <- Hiff. case_bool_decide; [done |]. split; [done |]. intros; contradiction.
Qed.

End Masks.

(** The network 10.1.0.0/12: its first twelve bits are those of 10.16.0.0. *)
Definition ex_host : host := {|
  HAVE_L2 := true; WITH_NDPI := false; WITH_ZMQ := false; WITH_GEOIPV2 := false;
  WITH_MYSQL := false; WITH_PGSQL := false; WITH_SQLITE3 := false; WITH_RABBITMQ := false; WITH_KAFKA := false;
  PCAP_D_IN := 1; PCAP_D_OUT := 2;
  acct_type := ACCT_NF;
  getpwnam := fun _ => None; getpwuid := fun _ => None; getgrnam := fun _ => None; getgrgid := fun _ => None;
  inet_aton := fun _ => Some [10; 31; 0; 0]; inet_pton6 := fun _ => None
|}.

Lemma ipv4_network_members_witness :
  let '(_, net, m) := str_to_addr_mask (ho := ex_host) (cstr "10.31.0.0/12") ha0 hm0 in
  host_addr_mask_cmp net m (mk_ha AF_INET ([10; 16; 3; 4] ++ [])) = 0.
Proof.
  pose proof (ipv4_network_members (ho := ex_host) (cstr "10.31.0.0/12") (cstr "10.31.0.0") (cstr "12") [10; 31; 0; 0] 12 ha0 [10; 16; 3; 4] []) as H.
  destruct (str_to_addr_mask (ho := ex_host) (cstr "10.31.0.0/12") ha0 hm0) as [[family net] m] eqn:E.
  destruct H as (_ & _ & H);
    [vm_compute; reflexivity | vm_compute; reflexivity | vm_compute; reflexivity | lia | reflexivity
    | repeat constructor; lia | reflexivity | reflexivity | repeat constructor; lia |].
  apply H. intros i Hi.
  pose proof (range_by_compute (fun i => eqb (bit_of [10; 16; 3; 4] i) (bit_of [10; 31; 0; 0] i)) 12 eq_refl i ltac:(lia)) as Hb.
  by apply eqb_prop.
Defined.

End PretagMaskFacts.
