(* ===== verification/PretagMap.v ===== *)
(** * The keys of a map (pretag_handlers.c)

    One definition per [*_map_*_handler]: it is given the value of its key and
    the entry of the line, stores the value, and appends to the entry the
    function that will compare packets with it, or set something in them. The
    answer is 0, or tells why the line is ignored. What is logged is left out. *)

From S2P Require Import Prelude.
From S2P Require Import BgpPrefix.
From S2P Require Import BgpAttr.
From S2P Require Import Rpki.
From S2P Require Import CfgData.
From S2P Require Import CfgHandlers.
From S2P Require Import PretagData.

Module PretagMap.
Import BgpPrefix(AF_INET, AF_INET6).
Import BgpAttr(host_addr, mk_ha, ha_family, ha_address, ha0, rd_t, mk_rd, rd_type, rd_body, rd0, le_u32).
Import CfgData.
Import CfgHandlers.
Import PretagData.

Definition E_NOTFOUND : Z := 2.

(** The entry of the line, and what else a key may write: the flags of the
    table, the requests of the caller ([struct plugin_requests]) and the two
    caches a key may turn off. *)
Record mstate := mk_mstate {
  ms_e : id_entry;
  ms_flags : Z;
  ms_load_tee : bool;          (* ptm_c.load_ptm_plugin == PLUGIN_ID_TEE *)
  ms_load_ptm_res : bool;
  ms_bpf_filter : bool;
  ms_sampling_map_caching : bool;
  ms_bta_map_caching : bool
}.

Definition upd (u : id_entry -> id_entry) (st : mstate) : mstate :=
  mk_mstate (u (ms_e st)) (ms_flags st) (ms_load_tee st) (ms_load_ptm_res st) (ms_bpf_filter st)
    (ms_sampling_map_caching st) (ms_bta_map_caching st).
Definition or_flags (f : Z) (st : mstate) : mstate :=
  mk_mstate (ms_e st) (Z.lor (ms_flags st) f) (ms_load_tee st) (ms_load_ptm_res st) (ms_bpf_filter st)
    (ms_sampling_map_caching st) (ms_bta_map_caching st).
Definition want_bpf_filter (st : mstate) : mstate :=
  mk_mstate (ms_e st) (ms_flags st) (ms_load_tee st) (ms_load_ptm_res st) true
    (ms_sampling_map_caching st) (ms_bta_map_caching st).

(** [if (req->ptm_c.load_ptm_plugin == PLUGIN_ID_TEE) req->ptm_c.load_ptm_res = TRUE;] *)
Definition tee (st : mstate) : mstate :=
  mk_mstate (ms_e st) (ms_flags st) (ms_load_tee st) (ms_load_ptm_res st || ms_load_tee st) (ms_bpf_filter st)
    (ms_sampling_map_caching st) (ms_bta_map_caching st).

(** The keys of a flow make the cached answer of two kinds of map useless. *)
Definition no_caching (map_type : Z) (st : mstate) : mstate :=
  mk_mstate (ms_e st) (ms_flags st) (ms_load_tee st) (ms_load_ptm_res st) (ms_bpf_filter st)
    (ms_sampling_map_caching st && negb (map_type =? MAP_SAMPLING))
    (ms_bta_map_caching st && negb (map_type =? MAP_BGP_TO_XFLOW_AGENT)).

(** [pt_check_neg (&value, &flags)]. *)
Definition check_neg (value : list Z) (st : mstate) : Z * list Z * mstate :=
  let '(neg, value) := pt_check_neg value in
  (neg, value, if neg =? TRUE then or_flags PRETAG_FLAG_NEG st else st).

Definition pt_set_jeq (st : mstate) : mstate := or_flags PRETAG_FLAG_JEQ st.

Definition all_digits (value : list Z) : bool := forallb is_digit value.

(** ** The lists of functions: arrays that end with a NULL *)

(** [e->func[x] = h; e->func_type[x] = T;] where [x] is the first NULL. *)
Definition push (h : pretag_handler) (T : Z) (st : mstate) : res mstate :=
  if (length (e_func (ms_e st)) <? N_MAP_HANDLERS)%nat
  then Ok (upd (fun e => with_func (e_func e ++ [(h, T)]) e) st) else Err OutOfBounds.
Definition push_set (h : pretag_handler) (T : Z) (st : mstate) : res mstate :=
  if (length (e_set_func (ms_e st)) <? N_MAP_SET_HANDLERS)%nat
  then Ok (upd (fun e => with_set_func (e_set_func e ++ [(h, T)]) e) st) else Err OutOfBounds.

(** [for (x = 0; e->func[x]; x++) if (e->func_type[x] == T) return TRUE;]: with
    a full array the walk reads after it. *)
Definition once (T : Z) (st : mstate) (k : res (Z * mstate)) : res (Z * mstate) :=
  if existsb (fun f => snd f =? T) (e_func (ms_e st)) then Ok (TRUE, st)
  else if (length (e_func (ms_e st)) <? N_MAP_HANDLERS)%nat then k else Err OutOfBounds.
Definition once_set (T : Z) (st : mstate) (k : res (Z * mstate)) : res (Z * mstate) :=
  if existsb (fun f => snd f =? T) (e_set_func (ms_e st)) then Ok (TRUE, st)
  else if (length (e_set_func (ms_e st)) <? N_MAP_SET_HANDLERS)%nat then k else Err OutOfBounds.

(** The function there is for this daemon, if any. *)
Definition add (h : option pretag_handler) (T : Z) (st : mstate) : res (Z * mstate) :=
  match h with
  | Some h => st ← push h T st; Ok (FALSE, st)
  | None => Ok (E_NOTFOUND, st)
  end.

(** [strtol (value, NULL, 16)]: the prefix is allowed. *)
Definition strtol16 (value : list Z) : Z :=
  let '(neg, r) := sign_of value in
  let r := match r with 48 :: x :: d :: _ => if (tolower x =? 120 (* x *)) && (digit_val d <? 16) then drop 2 r else r | _ => r end in
  let v := digits_base 16 0 r in
  Z.max (- 2 ^ 63) (Z.min (2 ^ 63 - 1) (if neg : bool then - v else v)).

(** [htons] of an [u_int16_t]. *)
Definition htons (n : Z) : Z := (u16 n mod 256) * 256 + u16 n / 256.

(** The text before and from the first ["++"] on. *)
Fixpoint cut_inc (value : list Z) : list Z * bool :=
  match value with
  | [] => ([], false)
  | 43 :: 43 :: _ => ([], true)
  | c :: r => let '(a, inc) := cut_inc r in (c :: a, inc)
  end.

Section Handlers.
Context {ho : host} {env : pt_env}.

Definition map_handler := list Z -> mstate -> Z -> res (Z * mstate).

Definition by_daemon (nf sf pm : option pretag_handler) : option pretag_handler :=
  if acct_type =? ACCT_NF then nf else if acct_type =? ACCT_SF then sf else if acct_type =? ACCT_PM then pm else None.

Definition has (value flag : Z) : bool := negb (Z.land value flag =? 0).

(** ** What a line sets *)

(** [bgp_str2rd]: the route distinguisher, a local that is zeroed first; the
    octets are those of [struct rd_as], [struct rd_ip], [struct rd_as4]. *)
Definition le16 (n : Z) : list Z := [u8 n; u8 (n / 256)].
Definition le32 (n : Z) : list Z := [u8 n; u8 (n / 2 ^ 8); u8 (n / 2 ^ 16); u8 (n / 2 ^ 24)].

Definition rd_first (type : Z) (token body : list Z) : list Z :=
  if type =? RD_TYPE_AS then le16 (strtoul 10 token) ++ drop 2 body
  else if type =? RD_TYPE_IP then
    let '(family, a) := str_to_addr token in if family =? AF_INET then a ++ drop 4 body else body
  else le32 (strtoul 10 token) ++ drop 4 body.
Definition rd_second (type : Z) (token body : list Z) : list Z :=
  if type =? RD_TYPE_AS then take 2 body ++ le32 (strtoul 10 token)
  else take 4 body ++ le16 (strtoul 10 token).

Definition bgp_str2rd (value : list Z) : option rd_t :=
  match tokens 58 (* : *) value with
  | [] => Some rd0
  | t :: r =>
      let type := u16 (strtoul 10 t) in
      if RD_TYPE_AS4 <? type then None
      else
        let body := match r with f :: _ => rd_first type f (replicate 6 0) | [] => replicate 6 0 end in
        let body := match r with _ :: g :: _ => rd_second type g body | _ => body end in
        Some (mk_rd type body)
  end.

(** The id of [PT_map_id_handler]: [id], [id2], the flags and whether it
    counts up; [None] when the value is refused. *)
Definition parse_id (value : list Z) (map_type : Z) : option (Z * Z * Z * bool) :=
  if (map_type =? MAP_BGP_TO_XFLOW_AGENT) && bool_decide (46 (* . *) ∈ value) then
    let '(family, a) := str_to_addr value in
    if family =? AF_INET then Some (le_u32 a 0, 0, FALSE, false) else None
  else if (map_type =? MAP_BGP_TO_XFLOW_AGENT) && bool_decide (58 (* : *) ∈ value) then
    let '(family, a) := str_to_addr value in
    if family =? AF_INET6
    then Some (le_u32 a 0 + 2 ^ 32 * le_u32 a 4, le_u32 a 8 + 2 ^ 32 * le_u32 a 12, BTA_MAP_RCODE_ID_ID2, false)
    else None
  else if (map_type =? MAP_FLOW_TO_RD) && bool_decide (58 ∈ value) then
    match bgp_str2rd value with
    | Some rd => Some (rd_type rd + 2 ^ 16 * (le_u32 (rd_body rd) 0 + 2 ^ 32 * (byte_at (rd_body rd) 4 + 256 * byte_at (rd_body rd) 5)), 0, FALSE, false)
    | None => Some (u64 junk, 0, FALSE, false)
    end
  else if ((map_type =? MAP_BGP_PEER_AS_SRC) || (map_type =? MAP_BGP_SRC_LOCAL_PREF) || (map_type =? MAP_BGP_SRC_MED))
          && starts value "bgp" then Some (0, 0, BPAS_MAP_RCODE_BGP, false)
  else
    let '(value, inc) := cut_inc value in
    if all_digits value then Some (strtoull 10 value, 0, FALSE, inc) else None.

(** The maps whose lines set a tag. *)
Definition sets_tag (map_type : Z) : bool :=
  (map_type =? ACCT_NF) || (map_type =? ACCT_SF) || (map_type =? ACCT_PM) || (map_type =? ACCT_PMBGP)
  || (map_type =? ACCT_PMBMP) || (map_type =? ACCT_PMTELE).

Definition PT_map_id_handler : map_handler := fun value st map_type =>
  let st := upd (fun e => with_flags FALSE (with_id 0 e)) st in
  match parse_id value map_type with
  | None => Ok (TRUE, st)
  | Some (j, z, flags, inc) =>
      let st := upd (fun e =>
        let e := with_flags flags (with_id j e) in
        let e := if z =? 0 then e else with_id2 z e in
        if inc : bool then with_id_inc TRUE e else e) st in
      if sets_tag map_type
      then once_set PRETAG_SET_TAG st (st ← push_set F_pretag_id PRETAG_SET_TAG st; Ok (FALSE, st))
      else Ok (FALSE, st)
  end.

Definition PT_map_id2_handler : map_handler := fun value st map_type =>
  let '(value, inc) := cut_inc value in
  if negb (all_digits value) then Ok (TRUE, st)
  else
    let st := upd (fun e =>
      let e := with_id2 (strtoull 10 value) e in if inc : bool then with_id2_inc TRUE e else e) st in
    if (map_type =? ACCT_NF) || (map_type =? ACCT_SF) || (map_type =? ACCT_PM)
    then once_set PRETAG_SET_TAG2 st (st ← push_set F_pretag_id2 PRETAG_SET_TAG2 st; Ok (FALSE, st))
    else Ok (FALSE, st).

(** The second [strtok_r] starts again from the token, so that what it finds
    is the key: only a token of separators is refused. *)
Definition label_refused (value : list Z) : bool :=
  existsb (fun token => bool_decide (Forall (fun c => c = 37 (* % *)) token)) (tokens 44 (* , *) value).

Definition PT_map_label_handler : map_handler := fun value st map_type =>
  if pretag_label_encode_as_map && label_refused value then Ok (TRUE, st)
  else
    let st := upd (with_label (mk_label (strlen value) (Some (value ++ [0])))) st in
    if sets_tag map_type
    then once_set PRETAG_SET_LABEL st (st ← push_set F_pretag_label PRETAG_SET_LABEL st; Ok (FALSE, st))
    else Ok (FALSE, st).

Definition PT_map_set_tos_handler : map_handler := fun value st map_type =>
  let st := upd (fun e => with_set_tos (TRUE, snd (e_set_tos e)) e) st in
  if negb (all_digits value) then Ok (TRUE, st)
  else
    let st := upd (with_set_tos (TRUE, u8 (strtoul 10 value))) st in
    once_set PRETAG_SET_TOS st
      (if acct_type =? ACCT_NF then st ← push_set F_pretag_set_tos PRETAG_SET_TOS st; Ok (FALSE, st) else Ok (E_NOTFOUND, st)).

Definition BTA_map_lookup_bgp_port_handler : map_handler := fun value st map_type =>
  let st := upd (fun e => match e_key e !! "lookup_bgp_port" with Some _ => e | None => set_key "lookup_bgp_port" (KPort 0) e end) st in
  if negb (all_digits value) then Ok (TRUE, st)
  else
    let st := upd (set_key "lookup_bgp_port" (KPort (u16 (strtoul 10 value)))) st in
    once_set PRETAG_LOOKUP_BGP_PORT st
      (if map_type =? MAP_BGP_TO_XFLOW_AGENT
       then st ← push_set F_BTA_lookup_bgp_port PRETAG_LOOKUP_BGP_PORT st; Ok (FALSE, st)
       else Ok (E_NOTFOUND, st)).

(** ** Jumps *)

(** A label of 31 characters at most. *)
Definition cut_label (value : list Z) : list Z := take (Z.to_nat (MAX_LABEL_LEN - 1)) value.

Definition PT_map_entry_label_handler : map_handler := fun value st _ =>
  Ok (FALSE, upd (with_entry_label (Some (cut_label value))) st).
Definition PT_map_jeq_handler : map_handler := fun value st _ =>
  Ok (FALSE, pt_set_jeq (upd (with_jeq_label (Some (cut_label value))) st)).
Definition PT_map_return_handler : map_handler := fun value st _ =>
  let v := parse_truefalse value in Ok (FALSE, if v <? 0 then st else upd (with_ret v) st).
Definition PT_map_stack_handler : map_handler := fun value st _ =>
  Ok (FALSE, upd (with_stack (if (byte_at value 0 =? 43 (* + *)) || starts value "sum" then Some F_PT_stack_sum
                              else if starts value "or" then Some F_PT_stack_logical_or else None)) st).

(** ** Addresses, interfaces, and what the exporter says *)

Definition PT_map_ip_handler : map_handler := fun value st _ =>
  let '(neg, a, m) := key_net "agent_ip" (e_key (ms_e st)) in
  let '(family, a, m) := str_to_addr_mask value a m in
  let st := upd (set_key "agent_ip" (KNet neg a m)) st in
  if family =? 0 then Ok (TRUE, st)
  else once PRETAG_IP st (add (Some F_pretag_dummy_ip) PRETAG_IP st).

(** A key that is a number of digits. *)
Definition number_key (f : string) (T : Z) (h : option pretag_handler) (value : list Z) (st : mstate) : res (Z * mstate) :=
  let '(neg, value, st) := check_neg value st in
  if negb (all_digits value) then Ok (TRUE, upd (set_num f neg (snd (key_num f (e_key (ms_e st))))) st)
  else
    let st := upd (set_num f neg (strtoul 10 value)) st in
    once T st (add h T st).

Definition PT_map_input_handler : map_handler := fun value st map_type =>
  number_key "input" PRETAG_IN_IFACE (by_daemon (Some F_pretag_input) (Some F_SF_pretag_input) (Some F_PM_pretag_input))
    value (tee (no_caching map_type st)).
Definition PT_map_output_handler : map_handler := fun value st map_type =>
  number_key "output" PRETAG_OUT_IFACE (by_daemon (Some F_pretag_output) (Some F_SF_pretag_output) (Some F_PM_pretag_output))
    value (tee (no_caching map_type st)).
Definition PT_map_engine_id_handler : map_handler := fun value st _ =>
  number_key "engine_id" PRETAG_ENGINE_ID (by_daemon (Some F_pretag_engine_id) (Some F_SF_pretag_engine_id) None) value st.

(** A key that is an address. *)
Definition addr_key (f : string) (value : list Z) (st : mstate) (k : mstate -> res (Z * mstate)) : res (Z * mstate) :=
  let '(neg, value, st) := check_neg value st in
  let '(family, a) := str_to_host value (snd (key_addr f (e_key (ms_e st)))) in
  let st := upd (set_key f (KAddr neg a)) st in
  if family =? 0 then Ok (TRUE, st) else k st.

Definition PT_map_nexthop_handler : map_handler := fun value st _ =>
  addr_key "nexthop" value st (fun st =>
    once PRETAG_NEXTHOP st (add (by_daemon (Some F_pretag_nexthop) (Some F_SF_pretag_nexthop) None) PRETAG_NEXTHOP st)).

(** Up to two functions: what BGP says, and what the flow says when BGP is not
    the only source. *)
Definition two_sources (T : Z) (bgp : option pretag_handler) (flow : option pretag_handler) (st : mstate) : res (Z * mstate) :=
  st ← (match bgp with Some h => push h T st | None => Ok st end);
  match flow, bgp with
  | Some h, _ => st ← push h T st; Ok (FALSE, st)
  | None, Some _ => Ok (FALSE, st)
  | None, None => Ok (TRUE, st)
  end.

Definition PT_map_bgp_nexthop_handler : map_handler := fun value st _ =>
  addr_key "bgp_nexthop" value (tee st) (fun st =>
    once PRETAG_BGP_NEXTHOP st
      (two_sources PRETAG_BGP_NEXTHOP
         (if has nfacctd_net NF_NET_BGP then Some F_pretag_bgp_bgp_nexthop else None)
         (if has nfacctd_net NF_NET_KEEP then by_daemon (Some F_pretag_bgp_nexthop) (Some F_SF_pretag_bgp_nexthop) None else None) st)).

(** [for (x = 0; e->func[x]; x++);] *)
Definition at_end (st : mstate) (k : res (Z * mstate)) : res (Z * mstate) :=
  if (length (e_func (ms_e st)) <? N_MAP_HANDLERS)%nat then k else Err OutOfBounds.

Definition BPAS_map_bgp_nexthop_handler : map_handler := fun value st _ =>
  addr_key "bgp_nexthop" value st (fun st =>
    at_end st (add (if bgp_daemon then Some F_BPAS_bgp_nexthop else None) PRETAG_BGP_NEXTHOP st)).

(** A key that is what [strtoul] or [atoi] makes of the value. *)
Definition num_key (f : string) (parse : list Z -> Z) (value : list Z) (st : mstate) : mstate :=
  let '(neg, value, st) := check_neg value st in upd (set_num f neg (parse value)) st.

Definition BPAS_map_bgp_peer_dst_as_handler : map_handler := fun value st _ =>
  let st := num_key "peer_dst_as" (strtoul 10) value st in
  at_end st (add (if bgp_daemon then Some F_BPAS_bgp_peer_dst_as else None) PRETAG_BGP_NEXTHOP st).
Definition BITR_map_mpls_label_bottom_handler : map_handler := fun value st _ =>
  let st := num_key "mpls_label_bottom" (strtoul 10) value st in
  at_end st (add (if acct_type =? ACCT_NF then Some F_BITR_mpls_label_bottom else None) PRETAG_MPLS_LABEL_BOTTOM st).

(** An identifier that is not 0. *)
Definition vpn_key (f : string) (T : Z) (h : pretag_handler) (value : list Z) (st : mstate) : res (Z * mstate) :=
  let st := num_key f (strtoul 10) value st in
  if snd (key_num f (e_key (ms_e st))) =? 0 then Ok (TRUE, st)
  else once T st (add (if acct_type =? ACCT_NF then Some h else None) T st).
Definition BITR_map_mpls_vpn_id_handler : map_handler := fun value st _ =>
  vpn_key "mpls_vpn_id" PRETAG_MPLS_VPN_ID F_BITR_mpls_vpn_id value st.
Definition PT_map_mpls_vpn_id_in_handler : map_handler := fun value st _ =>
  vpn_key "mpls_vpn_id_in" PRETAG_MPLS_VPN_ID_IN F_pretag_mpls_vpn_id_in value st.
Definition PT_map_mpls_vpn_id_out_handler : map_handler := fun value st _ =>
  vpn_key "mpls_vpn_id_out" PRETAG_MPLS_VPN_ID_OUT F_pretag_mpls_vpn_id_out value st.

Definition PT_map_engine_type_handler : map_handler := fun value st _ =>
  let '(neg, value, st) := check_neg value st in
  let old := snd (key_num "engine_type" (e_key (ms_e st))) in
  if negb (all_digits value) || (255 <? atoi value) then Ok (TRUE, upd (set_num "engine_type" neg old) st)
  else
    let st := upd (set_num "engine_type" neg (atoi value)) st in
    once PRETAG_ENGINE_TYPE st (add (by_daemon (Some F_pretag_engine_type) None None) PRETAG_ENGINE_TYPE st).

Definition PT_map_filter_handler : map_handler := fun value st map_type =>
  if (map_type =? MAP_BGP_TO_XFLOW_AGENT)
     && negb (starts value "ip" || starts value "ip6" || starts value "vlan and ip" || starts value "vlan and ip6")
  then Ok (TRUE, st)
  else
    match pcap_compile value with
    | None => Ok (TRUE, st)
    | Some program =>
        let st := upd (set_key "filter" (KFilter program)) st in
        once PRETAG_FILTER st (st ← push F_pretag_filter PRETAG_FILTER st; Ok (FALSE, want_bpf_filter st))
    end.

Definition PT_map_agent_id_handler : map_handler := fun value st _ =>
  let st := num_key "agent_id" atoi value st in
  once PRETAG_SF_AGENTID st (add (by_daemon None (Some F_SF_pretag_agent_id) None) PRETAG_SF_AGENTID st).
Definition PT_map_flowset_id_handler : map_handler := fun value st _ =>
  let st := num_key "flowset_id" (fun v => htons (atoi v)) value st in
  once PRETAG_FLOWSET_ID st (add (by_daemon (Some F_pretag_flowset_id) None None) PRETAG_FLOWSET_ID st).

(** [enterprise:format] of sFlow; [false] when it is refused. *)
Fixpoint sample_tokens (toks : list (list Z)) (x : nat) (n : Z) : Z * bool :=
  match toks with
  | [] => (n, true)
  | token :: toks =>
      let tmp := u32 (atoi token) in
      match x with
      | O => if 1048575 <? tmp then (n, false) else sample_tokens toks 1 (u32 (Z.shiftl tmp 12))
      | S O => if 4095 <? tmp then (n, false) else sample_tokens toks 2 (Z.lor n tmp)
      | _ => (n, false)
      end
  end.
(** The names of NetFlow: the first prefix that fits. *)
Definition sample_name (value : list Z) : option Z :=
  if starts value "flow-ipv4" then Some PM_FTYPE_IPV4
  else if starts value "flow-ipv6" then Some PM_FTYPE_IPV6
  else if starts value "flow" then Some PM_FTYPE_TRAFFIC
  else if starts value "flow-mpls-ipv4" then Some PM_FTYPE_MPLS_IPV4
  else if starts value "flow-mpls-ipv6" then Some PM_FTYPE_MPLS_IPV6
  else if starts value "event" then Some NF9_FTYPE_EVENT
  else if starts value "option" then Some NF9_FTYPE_OPTION
  else None.

Definition PT_map_sample_type_handler : map_handler := fun value st map_type =>
  let '(neg, value, st) := check_neg value st in
  let old := snd (key_num "sample_type" (e_key (ms_e st))) in
  let '(n, ok) :=
    if (map_type =? ACCT_SF) && bool_decide (58 ∈ value) then sample_tokens (tokens 58 value) 0 old
    else if map_type =? ACCT_NF then match sample_name value with Some n => (n, true) | None => (old, false) end
    else (old, false) in
  let st := upd (set_num "sample_type" neg n) st in
  if negb ok then Ok (TRUE, st)
  else once PRETAG_SAMPLE_TYPE st (add (by_daemon (Some F_pretag_sample_type) (Some F_SF_pretag_sample_type) None) PRETAG_SAMPLE_TYPE st).

(** Keys that are true or false; three of them do not say their type, and
    [func_type] stays 0. *)
Definition truefalse_key (f : string) (T : Z) (stored : Z) (h : option pretag_handler) (value : list Z) (st : mstate) : res (Z * mstate) :=
  let '(neg, value, st) := check_neg value st in
  let v := parse_truefalse value in
  if v <? 0 then Ok (ERR, upd (set_num f neg (snd (key_num f (e_key (ms_e st))))) st)
  else
    let st := upd (set_num f neg v) st in
    once T st (add h stored st).
Definition PT_map_is_bi_flow_handler : map_handler := fun value st _ =>
  truefalse_key "is_bi_flow" PRETAG_IS_BI_FLOW 0 (by_daemon (Some F_pretag_is_bi_flow) None None) value st.
Definition PT_map_is_nsel_handler : map_handler := fun value st _ =>
  truefalse_key "is_nsel" PRETAG_IS_NSEL 0 (by_daemon (Some F_pretag_is_nsel) None None) value st.
Definition PT_map_is_nel_handler : map_handler := fun value st _ =>
  truefalse_key "is_nel" PRETAG_IS_NEL 0 (by_daemon (Some F_pretag_is_nel) None None) value st.
Definition PT_map_is_multicast_handler : map_handler := fun value st _ =>
  truefalse_key "is_multicast" PRETAG_IS_MULTICAST PRETAG_IS_MULTICAST
    (by_daemon (Some F_pretag_is_multicast) (Some F_SF_pretag_is_multicast) None) value st.

Definition PT_map_direction_handler : map_handler := fun value st _ =>
  let st := num_key "direction" atoi value (tee st) in
  once PRETAG_DIRECTION st
    (add (by_daemon (Some F_pretag_direction) (Some F_SF_pretag_direction) (Some F_PM_pretag_direction)) PRETAG_DIRECTION st).

(** ** Autonomous systems, and what BGP knows *)

(** The functions of [src_as] and [dst_as] next to the one on BGP. *)
Definition as_key (f : string) (T : Z) (bgp pm nf sf : pretag_handler) (value : list Z) (st : mstate) : res (Z * mstate) :=
  let st := num_key f (strtoul 10) value st in
  once T st
    (let files := (has nfacctd_as NF_AS_NEW || (acct_type =? ACCT_PM)) && networks_file in
     two_sources T (if has nfacctd_as NF_AS_BGP then Some bgp else None)
       (if files then Some pm
        else if has nfacctd_as NF_AS_KEEP then by_daemon (Some nf) (Some sf) None else None)
       (if files then want_bpf_filter st else st)).
Definition PT_map_src_as_handler : map_handler := fun value st _ =>
  as_key "src_as" PRETAG_SRC_AS F_pretag_bgp_src_as F_PM_pretag_src_as F_pretag_src_as F_SF_pretag_src_as value st.
Definition PT_map_dst_as_handler : map_handler := fun value st _ =>
  as_key "dst_as" PRETAG_DST_AS F_pretag_bgp_dst_as F_PM_pretag_dst_as F_pretag_dst_as F_SF_pretag_dst_as value st.

(** The keys that only BGP answers. *)
Definition add_bgp (T : Z) (h : pretag_handler) (st : mstate) : res (Z * mstate) :=
  once T st (if has nfacctd_as NF_AS_BGP then st ← push h T st; Ok (FALSE, st) else Ok (TRUE, st)).

Definition PT_map_peer_src_as_handler : map_handler := fun value st _ =>
  add_bgp PRETAG_PEER_SRC_AS F_pretag_peer_src_as (num_key "peer_src_as" (strtoul 10) value st).
Definition PT_map_peer_dst_as_handler : map_handler := fun value st _ =>
  add_bgp PRETAG_PEER_DST_AS F_pretag_peer_dst_as (num_key "peer_dst_as" (strtoul 10) value st).
Definition PT_map_src_local_pref_handler : map_handler := fun value st _ =>
  add_bgp PRETAG_SRC_LOCAL_PREF F_pretag_src_local_pref (num_key "src_local_pref" (strtoul 10) value st).
Definition PT_map_local_pref_handler : map_handler := fun value st _ =>
  add_bgp PRETAG_LOCAL_PREF F_pretag_local_pref (num_key "local_pref" (strtoul 10) value st).
Definition PT_map_src_roa_handler : map_handler := fun value st _ =>
  add_bgp PRETAG_SRC_ROA F_pretag_src_roa (num_key "src_roa" Rpki.rpki_str2roa value st).
Definition PT_map_dst_roa_handler : map_handler := fun value st _ =>
  add_bgp PRETAG_DST_ROA F_pretag_dst_roa (num_key "dst_roa" Rpki.rpki_str2roa value st).

(** The patterns of communities: sixteen at most, 95 characters each. *)
Definition comm_patterns (value : list Z) : list (list Z) :=
  map (fun token => trim_spaces (strlcpy token MAX_BGP_STD_COMMS)) (take MAX_BGP_COMM_PATTERNS (tokens 44 (* , *) value)).
Definition PT_map_src_comms_handler : map_handler := fun value st _ =>
  let st := upd (set_key "src_comms" (KComms (comm_patterns value))) st in
  once PRETAG_SRC_STD_COMM st
    (if has nfacctd_as NF_AS_BGP && negb (bool_decide (comm_patterns value = []))
     then st ← push F_pretag_src_comms PRETAG_SRC_STD_COMM st; Ok (FALSE, st) else Ok (TRUE, st)).
Definition PT_map_comms_handler : map_handler := fun value st map_type =>
  let st := upd (set_key "comms" (KComms (comm_patterns value))) st in
  once PRETAG_STD_COMM st
    (if (map_type =? ACCT_PMBGP) || (map_type =? ACCT_PMBMP)
     then st ← push F_pretag_BGP_comms PRETAG_STD_COMM st; Ok (FALSE, st)
     else if has nfacctd_as NF_AS_BGP && negb (bool_decide (comm_patterns value = []))
     then st ← push F_pretag_comms PRETAG_STD_COMM st; Ok (FALSE, st) else Ok (TRUE, st)).

Definition PT_map_mpls_vpn_rd_handler : map_handler := fun value st _ =>
  let '(neg, value, st) := check_neg value st in
  let ret := bgp_str2rd value in
  let st := upd (set_key "mpls_vpn_rd" (KRd neg (default rd0 ret))) st in
  once PRETAG_MPLS_VPN_RD st
    (if bool_decide (is_Some ret) then st ← push F_pretag_mpls_vpn_rd PRETAG_MPLS_VPN_RD st; Ok (FALSE, st) else Ok (TRUE, st)).

(** ** Fields of the packet *)

Definition PT_map_mpls_pw_id_handler : map_handler := fun value st _ =>
  let st := num_key "mpls_pw_id" (strtoul 10) value st in
  once PRETAG_MPLS_PW_ID st (add (by_daemon (Some F_pretag_mpls_pw_id) (Some F_SF_pretag_mpls_pw_id) None) PRETAG_MPLS_PW_ID st).

Definition mac_key (f : string) (T : Z) (h : option pretag_handler) (value : list Z) (st : mstate) : res (Z * mstate) :=
  let '(neg, value, st) := check_neg value st in
  let '(failed, a) := string_etheraddr value (snd (key_mac f (e_key (ms_e st)))) in
  let st := upd (set_key f (KMac neg a)) st in
  if negb (failed =? 0) then Ok (TRUE, st) else once T st (add h T st).
Definition PT_map_src_mac_handler : map_handler := fun value st _ =>
  mac_key "src_mac" PRETAG_SRC_MAC (by_daemon (Some F_pretag_src_mac) (Some F_SF_pretag_src_mac) None) value (tee st).
Definition PT_map_dst_mac_handler : map_handler := fun value st _ =>
  mac_key "dst_mac" PRETAG_DST_MAC (by_daemon (Some F_pretag_dst_mac) (Some F_SF_pretag_dst_mac) None) value (tee st).

(** A number from 0 to [max]. *)
Definition range_key (f : string) (max T : Z) (h : option pretag_handler) (value : list Z) (st : mstate) : res (Z * mstate) :=
  let '(neg, value, st) := check_neg value st in
  let tmp := atoi value in
  if (tmp <? 0) || (max <? tmp) then Ok (TRUE, upd (set_num f neg (snd (key_num f (e_key (ms_e st))))) st)
  else
    let st := upd (set_num f neg tmp) st in
    once T st (add h T st).
Definition PT_map_vlan_id_handler : map_handler := fun value st _ =>
  range_key "vlan_id" 4096 PRETAG_VLAN_ID (by_daemon (Some F_pretag_vlan_id) (Some F_SF_pretag_vlan_id) None) value (tee st).
Definition PT_map_cvlan_id_handler : map_handler := fun value st _ =>
  range_key "cvlan_id" 4096 PRETAG_CVLAN_ID (by_daemon (Some F_pretag_cvlan_id) (Some F_SF_pretag_cvlan_id) None) value st.
Definition PT_map_fwd_status_handler : map_handler := fun value st _ =>
  range_key "fwd_status" 256 PRETAG_FWDSTATUS_ID (by_daemon (Some F_pretag_fwd_status) None None) value (tee st).

Definition net_key (f : string) (T : Z) (h : option pretag_handler) (value : list Z) (st : mstate) : res (Z * mstate) :=
  let '(neg, value, st) := check_neg value st in
  let '(_, a, m) := key_net f (e_key (ms_e st)) in
  let '(family, a, m) := str_to_addr_mask value a m in
  let st := upd (set_key f (KNet neg a m)) st in
  if family =? 0 then Ok (TRUE, st) else once T st (add h T st).
Definition PT_map_src_net_handler : map_handler := fun value st _ =>
  net_key "src_net" PRETAG_SRC_NET (by_daemon (Some F_pretag_src_net) (Some F_SF_pretag_src_net) None) value (tee st).
Definition PT_map_dst_net_handler : map_handler := fun value st _ =>
  net_key "dst_net" PRETAG_DST_NET (by_daemon (Some F_pretag_dst_net) (Some F_SF_pretag_dst_net) None) value (tee st).

Definition PT_map_ip_proto_handler : map_handler := fun value st _ =>
  let st := num_key "ip_proto" atoi value (tee st) in
  once PRETAG_IP_PROTO st (add (by_daemon (Some F_pretag_ip_proto) (Some F_SF_pretag_ip_proto) None) PRETAG_IP_PROTO st).
Definition PT_map_src_port_handler : map_handler := fun value st _ =>
  let st := num_key "src_port" atoi value (tee st) in
  once PRETAG_SRC_PORT st (add (by_daemon (Some F_pretag_src_port) (Some F_SF_pretag_src_port) None) PRETAG_SRC_PORT st).
Definition PT_map_dst_port_handler : map_handler := fun value st _ =>
  let st := num_key "dst_port" atoi value (tee st) in
  once PRETAG_DST_PORT st (add (by_daemon (Some F_pretag_dst_port) (Some F_SF_pretag_dst_port) None) PRETAG_DST_PORT st).
Definition PT_map_tcp_flags_handler : map_handler := fun value st _ =>
  let st := num_key "tcp_flags" strtol16 value (tee st) in
  once PRETAG_TCP_FLAGS st (add (by_daemon (Some F_pretag_tcp_flags) (Some F_SF_pretag_tcp_flags) None) PRETAG_TCP_FLAGS st).

(** ** The dictionaries (pretag-data.h) *)

Definition tag_map_dictionary : list (string * map_handler) := [
  ("id", PT_map_id_handler); ("id2", PT_map_id2_handler); ("ip", PT_map_ip_handler);
  ("in", PT_map_input_handler); ("out", PT_map_output_handler); ("engine_type", PT_map_engine_type_handler);
  ("engine_id", PT_map_engine_id_handler); ("source_id", PT_map_engine_id_handler);
  ("nexthop", PT_map_nexthop_handler); ("bgp_nexthop", PT_map_bgp_nexthop_handler);
  ("filter", PT_map_filter_handler); ("agent_id", PT_map_agent_id_handler);
  ("flowset_id", PT_map_flowset_id_handler); ("sample_type", PT_map_sample_type_handler);
  ("direction", PT_map_direction_handler); ("src_as", PT_map_src_as_handler);
  ("dst_as", PT_map_dst_as_handler); ("peer_src_as", PT_map_peer_src_as_handler);
  ("peer_dst_as", PT_map_peer_dst_as_handler); ("src_local_pref", PT_map_src_local_pref_handler);
  ("local_pref", PT_map_local_pref_handler); ("src_roa", PT_map_src_roa_handler);
  ("dst_roa", PT_map_dst_roa_handler); ("src_comms", PT_map_src_comms_handler);
  ("comms", PT_map_comms_handler); ("mpls_vpn_id_in", PT_map_mpls_vpn_id_in_handler);
  ("mpls_vpn_id_out", PT_map_mpls_vpn_id_out_handler); ("mpls_vpn_rd", PT_map_mpls_vpn_rd_handler);
  ("mpls_pw_id", PT_map_mpls_pw_id_handler); ("src_mac", PT_map_src_mac_handler);
  ("dst_mac", PT_map_dst_mac_handler); ("vlan", PT_map_vlan_id_handler); ("cvlan", PT_map_cvlan_id_handler);
  ("src_net", PT_map_src_net_handler); ("dst_net", PT_map_dst_net_handler);
  ("ip_proto", PT_map_ip_proto_handler); ("src_port", PT_map_src_port_handler);
  ("dst_port", PT_map_dst_port_handler); ("tcp_flags", PT_map_tcp_flags_handler);
  ("is_multicast", PT_map_is_multicast_handler); ("set_tag", PT_map_id_handler);
  ("set_tag2", PT_map_id2_handler); ("set_label", PT_map_label_handler); ("set_tos", PT_map_set_tos_handler);
  ("label", PT_map_entry_label_handler); ("jeq", PT_map_jeq_handler); ("return", PT_map_return_handler);
  ("stack", PT_map_stack_handler); ("fwd_status", PT_map_fwd_status_handler);
  ("is_bi_flow", PT_map_is_bi_flow_handler); ("is_nsel", PT_map_is_nsel_handler);
  ("is_nel", PT_map_is_nel_handler)].

Definition tag_map_tee_dictionary : list (string * map_handler) := [
  ("id", PT_map_id_handler); ("id2", PT_map_id2_handler); ("set_tag", PT_map_id_handler);
  ("set_tag2", PT_map_id2_handler); ("ip", PT_map_ip_handler); ("in", PT_map_input_handler);
  ("out", PT_map_output_handler); ("src_mac", PT_map_src_mac_handler); ("dst_mac", PT_map_dst_mac_handler);
  ("vlan", PT_map_vlan_id_handler); ("src_net", PT_map_src_net_handler); ("dst_net", PT_map_dst_net_handler);
  ("ip_proto", PT_map_ip_proto_handler); ("src_port", PT_map_src_port_handler);
  ("dst_port", PT_map_dst_port_handler); ("tcp_flags", PT_map_tcp_flags_handler);
  ("bgp_nexthop", PT_map_bgp_nexthop_handler); ("direction", PT_map_direction_handler);
  ("engine_type", PT_map_engine_type_handler); ("engine_id", PT_map_engine_id_handler);
  ("source_id", PT_map_engine_id_handler); ("agent_id", PT_map_agent_id_handler);
  ("label", PT_map_entry_label_handler); ("jeq", PT_map_jeq_handler); ("return", PT_map_return_handler);
  ("stack", PT_map_stack_handler)].

Definition tag_map_bgp_dictionary : list (string * map_handler) := [
  ("set_tag", PT_map_id_handler); ("ip", PT_map_ip_handler); ("comms", PT_map_comms_handler);
  ("set_label", PT_map_label_handler); ("label", PT_map_entry_label_handler); ("jeq", PT_map_jeq_handler)].

Definition tag_map_nonflow_dictionary : list (string * map_handler) := [
  ("set_tag", PT_map_id_handler); ("ip", PT_map_ip_handler); ("set_label", PT_map_label_handler)].

Definition bpas_map_dictionary : list (string * map_handler) := [
  ("id", PT_map_id_handler); ("ip", PT_map_ip_handler); ("in", PT_map_input_handler);
  ("out", PT_map_output_handler); ("bgp_nexthop", BPAS_map_bgp_nexthop_handler);
  ("peer_dst_as", BPAS_map_bgp_peer_dst_as_handler); ("src_mac", PT_map_src_mac_handler);
  ("vlan", PT_map_vlan_id_handler); ("src_net", PT_map_src_net_handler); ("dst_net", PT_map_dst_net_handler);
  ("filter", PT_map_filter_handler)].

Definition bta_map_dictionary : list (string * map_handler) := [
  ("id", PT_map_id_handler); ("bgp_ip", PT_map_id_handler); ("bgp_port", BTA_map_lookup_bgp_port_handler);
  ("bmp_ip", PT_map_id_handler); ("ip", PT_map_ip_handler); ("in", PT_map_input_handler);
  ("out", PT_map_output_handler); ("filter", PT_map_filter_handler)].

Definition sampling_map_dictionary : list (string * map_handler) := [
  ("id", PT_map_id_handler); ("ip", PT_map_ip_handler); ("in", PT_map_input_handler);
  ("out", PT_map_output_handler)].

Definition bitr_map_dictionary : list (string * map_handler) := [
  ("id", PT_map_id_handler); ("ip", PT_map_ip_handler); ("in", PT_map_input_handler);
  ("out", PT_map_output_handler); ("bgp_nexthop", PT_map_bgp_nexthop_handler);
  ("mpls_vpn_id", BITR_map_mpls_vpn_id_handler); ("mpls_label_bottom", BITR_map_mpls_label_bottom_handler)].

(** The dictionary of a map. *)
Definition dictionary_of (map_type : Z) : list (string * map_handler) :=
  if (map_type =? MAP_BGP_PEER_AS_SRC) || (map_type =? MAP_BGP_SRC_LOCAL_PREF) || (map_type =? MAP_BGP_SRC_MED)
  then bpas_map_dictionary
  else if map_type =? MAP_BGP_TO_XFLOW_AGENT then bta_map_dictionary
  else if map_type =? MAP_FLOW_TO_RD then bitr_map_dictionary
  else if map_type =? MAP_SAMPLING then sampling_map_dictionary
  else if (map_type =? ACCT_PMBGP) || (map_type =? ACCT_PMBMP) then tag_map_bgp_dictionary
  else if map_type =? ACCT_PMTELE then tag_map_nonflow_dictionary
  else if tee_plugins then tag_map_tee_dictionary else tag_map_dictionary.

Fixpoint find_map_key (key : list Z) (l : list (string * map_handler)) : option map_handler :=
  match l with
  | [] => None
  | (k, func) :: r => if streq key k then Some func else find_map_key key r
  end.

End Handlers.

End PretagMap.
