(* ===== verification/PretagMapFacts.v ===== *)
(** * What the keys of a map keep

    An entry under construction stays well formed whatever key is put to it:
    its arrays keep their bounds, the functions that compare and those that
    set stay apart, and the members of its key have the form their functions
    expect. *)

From S2P Require Import Prelude.
From S2P Require Import BgpPrefix.
From S2P Require Import CBuf.
From S2P Require Import BgpAttr.
From S2P Require Import CfgData.
From S2P Require Import CfgHandlers.
From S2P Require Import PretagData.
From S2P Require Import PretagMap.

Module PretagMapFacts.
Import BgpPrefix(AF_INET, AF_INET6).
Import BgpAttr(host_addr, mk_ha, ha_family, ha_address, ha0).
Import CBuf(no_nul).
Import CfgData.
Import CfgHandlers.
Import PretagData.
Import PretagMap.

(** ** Well-formed entries *)

(** The functions that compare; the others set something. *)
Definition compares (h : pretag_handler) : bool :=
  match h with
  | F_pretag_set_tos | F_BTA_lookup_bgp_port | F_pretag_id | F_pretag_id2 | F_pretag_label => false
  | _ => true
  end.

(** A function that sets something, under the type it is called by. *)
Definition sets (f : pretag_handler * Z) : Prop :=
  f = (F_pretag_set_tos, PRETAG_SET_TOS) \/ f = (F_BTA_lookup_bgp_port, PRETAG_LOOKUP_BGP_PORT) \/
  f = (F_pretag_id, PRETAG_SET_TAG) \/ f = (F_pretag_id2, PRETAG_SET_TAG2) \/ f = (F_pretag_label, PRETAG_SET_LABEL).

Definition bit (n : Z) : Prop := n = 0 \/ n = 1.

(** The negation of a member is a truth value. *)
Definition member_ok (v : kval) : Prop :=
  match v with
  | KNum neg _ | KAddr neg _ | KNet neg _ _ | KMac neg _ | KRd neg _ => bit neg
  | KComms _ | KPort _ | KFilter _ => True
  end.

#[export] Instance member_ok_dec v : Decision (member_ok v).
Proof. destruct v; simpl; unfold bit; apply _. Defined.

(** The agent: no family, IPv4 or IPv6. *)
Definition agent_ok (k : entry_key) : Prop :=
  match k !! "agent_ip" with
  | Some (KNet _ a _) => ha_family a = 0 \/ ha_family a = AF_INET \/ ha_family a = AF_INET6
  | Some _ => False
  | None => True
  end.

(** A label as a key leaves it: the text with its NUL, and its length. *)
Definition key_label (l : pt_label) : Prop :=
  l = label0 \/ exists text, no_nul text /\ l = mk_label (strlen text) (Some (text ++ [0])).

Record entry_ok (e : id_entry) : Prop := {
  ok_func : Forall (fun f => compares (fst f) = true) (e_func e);
  ok_func_len : (length (e_func e) <= N_MAP_HANDLERS)%nat;
  ok_set : Forall sets (e_set_func e);
  ok_set_len : (length (e_set_func e) <= N_MAP_SET_HANDLERS)%nat;
  ok_key : map_Forall (fun _ => member_ok) (e_key e);
  ok_agent : agent_ok (e_key e);
  ok_label : key_label (e_label e);
  ok_jeq : e_jeq_ptr e = None
}.

Lemma entry0_ok : entry_ok entry0.
Proof. split; simpl; try constructor; try done; lia. Qed.

(** Two entries that differ in what [entry_ok] does not look at. *)
Lemma entry_ok_same e e' :
  e_func e' = e_func e -> e_set_func e' = e_set_func e -> e_key e' = e_key e -> e_label e' = e_label e ->
  e_jeq_ptr e' = e_jeq_ptr e -> entry_ok e -> entry_ok e'.
Proof. intros E1 E2 E3 E4 E5 []. split; rewrite ?E1, ?E2, ?E3, ?E4, ?E5; done. Qed.

Lemma set_key_ok f v e : f <> "agent_ip" -> member_ok v -> entry_ok e -> entry_ok (set_key f v e).
Proof.
  intros Hf Hv []. split; simpl; try done.
  - by apply map_Forall_insert_2.
  - unfold agent_ok. by rewrite lookup_insert_ne.
Qed.

Lemma set_num_ok f neg n e : f <> "agent_ip" -> bit neg -> entry_ok e -> entry_ok (set_num f neg n e).
Proof. intros. by apply set_key_ok. Qed.

Lemma with_label_ok l e : key_label l -> entry_ok e -> entry_ok (with_label l e).
Proof. intros Hl []. by split. Qed.

Lemma check_neg_bit value : bit (fst (pt_check_neg value)).
Proof. unfold pt_check_neg, bit. repeat case_match; simpl; auto. Qed.

Lemma entry_net_bit f e : entry_ok e -> bit (fst (fst (key_net f (e_key e)))).
Proof.
  intros [_ _ _ _ Hk _ _ _]. unfold key_net. destruct (e_key e !! f) as [v |] eqn:E; [| by left].
  pose proof (Hk _ _ E) as Hv. destruct v; try by left. exact Hv.
Qed.

(** ** The combinators *)

Section Facts.
Context {ho : host} {env : pt_env}.

Definition st_ok (st : mstate) : Prop := entry_ok (ms_e st).
Definition post (r : res (Z * mstate)) : Prop := match r with Ok (_, st) => st_ok st | Err _ => True end.
Definition handler_ok (h : option pretag_handler) : Prop := match h with Some h => compares h = true | None => True end.

Lemma upd_ok u st : (entry_ok (ms_e st) -> entry_ok (u (ms_e st))) -> st_ok st -> st_ok (upd u st).
Proof. auto. Qed.
Lemma or_flags_ok f st : st_ok st -> st_ok (or_flags f st).
Proof. done. Qed.
Lemma tee_ok st : st_ok st -> st_ok (tee st).
Proof. done. Qed.
Lemma no_caching_ok T st : st_ok st -> st_ok (no_caching T st).
Proof. done. Qed.

Lemma push_ok h T st : compares h = true -> st_ok st -> match push h T st with Ok st => st_ok st | Err _ => True end.
Proof.
  intros Hh []. unfold push. destruct (length (e_func (ms_e st)) <? N_MAP_HANDLERS)%nat eqn:E; [| done].
  apply Nat.ltb_lt in E. split; simpl; try done.
  - apply Forall_app. split; [done |]. by constructor.
  - rewrite length_app. simpl. lia.
Qed.
Lemma push_set_ok h T st : sets (h, T) -> st_ok st -> match push_set h T st with Ok st => st_ok st | Err _ => True end.
Proof.
  intros Hh []. unfold push_set. destruct (length (e_set_func (ms_e st)) <? N_MAP_SET_HANDLERS)%nat eqn:E; [| done].
  apply Nat.ltb_lt in E. split; simpl; try done.
  - apply Forall_app. split; [done |]. by constructor.
  - rewrite length_app. simpl. lia.
Qed.

Lemma push_k_ok h T st k : compares h = true -> st_ok st -> (forall st, st_ok st -> post (k st)) -> post (st ← push h T st; k st).
Proof. intros Hh H Hk. pose proof (push_ok h T st Hh H). destruct (push h T st); [by apply Hk | done]. Qed.
Lemma push_set_k_ok h T st k : sets (h, T) -> st_ok st -> (forall st, st_ok st -> post (k st)) -> post (st ← push_set h T st; k st).
Proof. intros Hh H Hk. pose proof (push_set_ok h T st Hh H). destruct (push_set h T st); [by apply Hk | done]. Qed.

Lemma once_ok T st k : st_ok st -> post k -> post (once T st k).
Proof. intros H Hk. unfold once. by repeat case_match. Qed.
Lemma once_set_ok T st k : st_ok st -> post k -> post (once_set T st k).
Proof. intros H Hk. unfold once_set. by repeat case_match. Qed.
Lemma at_end_ok st k : post k -> post (at_end st k).
Proof. intros Hk. unfold at_end. by case_match. Qed.

Lemma map_add_ok h T st : handler_ok h -> st_ok st -> post (add h T st).
Proof. intros Hh H. unfold add. destruct h; [| done]. by apply push_k_ok. Qed.
Lemma by_daemon_ok a b c : handler_ok a -> handler_ok b -> handler_ok c -> handler_ok (by_daemon a b c).
Proof. unfold by_daemon. by repeat case_match. Qed.
Lemma if_handler_ok (b : bool) h h' : handler_ok h -> handler_ok h' -> handler_ok (if b then h else h').
Proof. by destruct b. Qed.
Lemma two_sources_ok T a b st : handler_ok a -> handler_ok b -> st_ok st -> post (two_sources T a b st).
Proof.
  intros Ha Hb H. unfold two_sources. destruct a as [a |], b as [b |]; cbn in *; try done.
  - apply push_k_ok; [done .. |]. intros st' H'. by apply push_k_ok.
  - by apply push_k_ok.
  - by apply push_k_ok.
Qed.

(** ** Keys by the form of their value *)

Lemma check_neg_ok value st neg value' st' :
  check_neg value st = (neg, value', st') -> st_ok st -> st_ok st' /\ bit neg.
Proof.
  unfold check_neg. pose proof (check_neg_bit value) as Hb. destruct (pt_check_neg value) as [n v].
  intros E H. simplify_eq. split; [by case_match | exact Hb].
Qed.

Lemma num_key_ok f parse value st : f <> "agent_ip" -> st_ok st -> st_ok (num_key f parse value st).
Proof.
  intros Hf H. unfold num_key. destruct (check_neg value st) as [[neg v] st'] eqn:E.
  destruct (check_neg_ok _ _ _ _ _ E H). by apply set_num_ok.
Qed.

Ltac neg_first :=
  match goal with |- context [check_neg ?v ?st] =>
    let E := fresh in destruct (check_neg v st) as [[? ?] ?] eqn:E;
    destruct (check_neg_ok _ _ _ _ _ E ltac:(eassumption)) end.

Lemma number_key_ok f T h value st : f <> "agent_ip" -> handler_ok h -> st_ok st -> post (number_key f T h value st).
Proof.
  intros Hf Hh H. unfold number_key. neg_first. case_match; [by apply set_num_ok |].
  apply once_ok; [| apply map_add_ok; [done |]]; by apply set_num_ok.
Qed.
Lemma addr_key_ok f value st k : f <> "agent_ip" -> (forall st, st_ok st -> post (k st)) -> st_ok st -> post (addr_key f value st k).
Proof.
  intros Hf Hk H. unfold addr_key. neg_first. destruct (str_to_host _ _) as [family a].
  case_match; [| apply Hk]; by apply set_key_ok.
Qed.
Lemma vpn_key_ok f T h value st : f <> "agent_ip" -> compares h = true -> st_ok st -> post (vpn_key f T h value st).
Proof.
  intros Hf Hh H. unfold vpn_key. pose proof (num_key_ok f (strtoul 10) value st Hf H).
  case_match; [done |]. apply once_ok; [done |]. apply map_add_ok; [by apply if_handler_ok | done].
Qed.
Lemma truefalse_key_ok f T s h value st : f <> "agent_ip" -> handler_ok h -> st_ok st -> post (truefalse_key f T s h value st).
Proof.
  intros Hf Hh H. unfold truefalse_key. neg_first. case_match; [by apply set_num_ok |].
  apply once_ok; [| apply map_add_ok; [done |]]; by apply set_num_ok.
Qed.
Lemma range_key_ok f max T h value st : f <> "agent_ip" -> handler_ok h -> st_ok st -> post (range_key f max T h value st).
Proof.
  intros Hf Hh H. unfold range_key. neg_first. case_match; [by apply set_num_ok |].
  apply once_ok; [| apply map_add_ok; [done |]]; by apply set_num_ok.
Qed.
Lemma mac_key_ok f T h value st : f <> "agent_ip" -> handler_ok h -> st_ok st -> post (mac_key f T h value st).
Proof.
  intros Hf Hh H. unfold mac_key. neg_first. destruct (string_etheraddr _ _) as [failed a].
  case_match; [by apply set_key_ok |]. apply once_ok; [| apply map_add_ok; [done |]]; by apply set_key_ok.
Qed.
Lemma net_key_ok f T h value st : f <> "agent_ip" -> handler_ok h -> st_ok st -> post (net_key f T h value st).
Proof.
  intros Hf Hh H. unfold net_key. neg_first. destruct (key_net _ _) as [[? a1] m1].
  destruct (str_to_addr_mask _ _ _) as [[family a2] m2].
  case_match; [by apply set_key_ok |]. apply once_ok; [| apply map_add_ok; [done |]]; by apply set_key_ok.
Qed.
Lemma as_key_ok f T bgp pm nf sf value st :
  f <> "agent_ip" -> compares bgp = true -> compares pm = true -> compares nf = true -> compares sf = true ->
  st_ok st -> post (as_key f T bgp pm nf sf value st).
Proof.
  intros Hf H1 H2 H3 H4 H. unfold as_key. pose proof (num_key_ok f (strtoul 10) value st Hf H).
  apply once_ok; [done |]. apply two_sources_ok; [by apply if_handler_ok | | by case_match].
  apply if_handler_ok; [done |]. apply if_handler_ok; [| done]. by apply by_daemon_ok.
Qed.
Lemma add_bgp_ok T h st : compares h = true -> st_ok st -> post (add_bgp T h st).
Proof. intros Hh H. unfold add_bgp. apply once_ok; [done |]. case_match; [by apply push_k_ok | done]. Qed.

(** ** The handlers *)

(** The family an address with a mask is read as. *)
Lemma str_to_addr_family str : fst (str_to_addr str) = 0 \/ fst (str_to_addr str) = AF_INET \/ fst (str_to_addr str) = AF_INET6.
Proof. unfold str_to_addr. repeat case_match; simpl; auto. Qed.
Lemma str_to_addr_mask_family str a m fam a' m' :
  str_to_addr_mask str a m = (fam, a', m') ->
  (ha_family a = 0 \/ ha_family a = AF_INET \/ ha_family a = AF_INET6) ->
  ha_family a' = 0 \/ ha_family a' = AF_INET \/ ha_family a' = AF_INET6.
Proof.
  intros E Ha. unfold str_to_addr_mask in E. destruct (match split_at 47 str with Some _ => _ | None => _ end) as [s mask].
  unfold str_to_host in E. pose proof (str_to_addr_family s) as Hf. destruct (str_to_addr s) as [family bytes]. simpl in Hf.
  destruct (family =? 0) eqn:E0; [simpl in E; by simplify_eq |]. simpl in E. rewrite E0 in E.
  destruct mask; repeat case_match; simplify_eq; simpl; auto.
Qed.

Lemma key_net_agent e : entry_ok e ->
  let a := snd (fst (key_net "agent_ip" (e_key e))) in ha_family a = 0 \/ ha_family a = AF_INET \/ ha_family a = AF_INET6.
Proof.
  intros [_ _ _ _ _ Ha _ _]. unfold key_net, agent_ok in *. destruct (e_key e !! "agent_ip") as [[] |]; simpl; auto.
Qed.
Lemma agent_set_ok neg a m e : bit neg -> (ha_family a = 0 \/ ha_family a = AF_INET \/ ha_family a = AF_INET6) ->
  entry_ok e -> entry_ok (set_key "agent_ip" (KNet neg a m) e).
Proof.
  intros Hn Ha []. split; simpl; try done.
  - by apply map_Forall_insert_2.
  - unfold agent_ok. by rewrite lookup_insert_eq.
Qed.

Definition keeps (h : map_handler) : Prop := forall value st map_type, no_nul value -> st_ok st -> post (h value st map_type).

Lemma PT_map_ip_keeps : keeps PT_map_ip_handler.
Proof.
  intros value st mt _ H. unfold PT_map_ip_handler.
  pose proof (entry_net_bit "agent_ip" _ H) as Hb. pose proof (key_net_agent _ H) as Ha.
  destruct (key_net "agent_ip" _) as [[neg a] m]. simpl in Hb, Ha.
  destruct (str_to_addr_mask value a m) as [[family a'] m'] eqn:E.
  pose proof (str_to_addr_mask_family _ _ _ _ _ _ E Ha) as Ha'.
  assert (st_ok (upd (set_key "agent_ip" (KNet neg a' m')) st)) by (apply upd_ok; [intros; by apply agent_set_ok | done]).
  case_match; [done |]. apply once_ok; [done |]. by apply map_add_ok.
Qed.

Lemma id_kept st u : (forall e, e_func (u e) = e_func e /\ e_set_func (u e) = e_set_func e /\ e_key (u e) = e_key e /\
    e_label (u e) = e_label e /\ e_jeq_ptr (u e) = e_jeq_ptr e) -> st_ok st -> st_ok (upd u st).
Proof. intros Hu H. destruct (Hu (ms_e st)) as (? & ? & ? & ? & ?). by apply (entry_ok_same (ms_e st)). Qed.

Ltac set_branch := match goal with |- context [if ?b then once_set _ _ _ else _] => destruct b end.

Lemma PT_map_id_keeps : keeps PT_map_id_handler.
Proof.
  intros value st mt _ H. unfold PT_map_id_handler.
  assert (H0 : st_ok (upd (fun e => with_flags FALSE (with_id 0 e)) st)) by (by apply id_kept).
  destruct (parse_id value mt) as [[[[j z] flags] inc] |]; [| done].
  match goal with |- context [upd ?u _] => assert (H1 : st_ok (upd u (upd (fun e => with_flags FALSE (with_id 0 e)) st))) end.
  { apply id_kept; [| done]. intros e. by destruct (z =? 0), inc. }
  set_branch; [| exact H1]. apply once_set_ok; [exact H1 |]. apply push_set_k_ok; [unfold sets; auto | exact H1 | done].
Qed.
Lemma PT_map_id2_keeps : keeps PT_map_id2_handler.
Proof.
  intros value st mt _ H. unfold PT_map_id2_handler. destruct (cut_inc value) as [v inc]. case_match; [done |].
  match goal with |- context [upd ?u _] => assert (H1 : st_ok (upd u st)) end.
  { apply id_kept; [| done]. intros e. by destruct inc. }
  set_branch; [| exact H1]. apply once_set_ok; [exact H1 |]. apply push_set_k_ok; [unfold sets; auto | exact H1 | done].
Qed.
Lemma PT_map_label_keeps : keeps PT_map_label_handler.
Proof.
  intros value st mt Hv H. unfold PT_map_label_handler. destruct (_ && _); [done |].
  assert (H1 : st_ok (upd (with_label (mk_label (strlen value) (Some (value ++ [0])))) st)).
  { apply upd_ok; [| done]. apply with_label_ok. right. by exists value. }
  set_branch; [| exact H1]. apply once_set_ok; [exact H1 |]. apply push_set_k_ok; [unfold sets; auto | exact H1 | done].
Qed.
Lemma PT_map_set_tos_keeps : keeps PT_map_set_tos_handler.
Proof.
  intros value st mt _ H. unfold PT_map_set_tos_handler.
  assert (H0 : st_ok (upd (fun e => with_set_tos (TRUE, snd (e_set_tos e)) e) st)) by (by apply id_kept).
  destruct (negb (all_digits value)); [done |].
  assert (H1 : forall v, st_ok (upd (with_set_tos v) (upd (fun e => with_set_tos (TRUE, snd (e_set_tos e)) e) st))) by (intros; by apply id_kept).
  apply once_set_ok; [apply H1 |]. destruct (_ =? _); [| apply H1]. apply push_set_k_ok; [unfold sets; auto | apply H1 | done].
Qed.
Lemma BTA_map_lookup_bgp_port_keeps : keeps BTA_map_lookup_bgp_port_handler.
Proof.
  intros value st mt _ H. unfold BTA_map_lookup_bgp_port_handler.
  match goal with |- context [upd ?u st] => assert (H0 : st_ok (upd u st)) end.
  { apply upd_ok; [| done]. intros He. case_match; [done |]. by apply set_key_ok. }
  destruct (negb (all_digits value)); [done |]. match goal with |- context [upd (set_key ?f ?v) ?s] => assert (H1 : st_ok (upd (set_key f v) s)) end.
  { apply upd_ok; [| done]. intros. by apply set_key_ok. }
  apply once_set_ok; [exact H1 |]. destruct (_ =? _); [| exact H1]. apply push_set_k_ok; [unfold sets; auto | exact H1 | done].
Qed.

Lemma PT_map_entry_label_keeps : keeps PT_map_entry_label_handler.
Proof. intros value st mt _ H. by apply id_kept. Qed.
Lemma PT_map_jeq_keeps : keeps PT_map_jeq_handler.
Proof. intros value st mt _ H. by apply or_flags_ok, id_kept. Qed.
Lemma PT_map_return_keeps : keeps PT_map_return_handler.
Proof. intros value st mt _ H. unfold PT_map_return_handler. cbv zeta. case_match; [done |]. by apply id_kept. Qed.
Lemma PT_map_stack_keeps : keeps PT_map_stack_handler.
Proof. intros value st mt _ H. by apply id_kept. Qed.

Lemma PT_map_filter_keeps : keeps PT_map_filter_handler.
Proof.
  intros value st mt _ H. unfold PT_map_filter_handler. case_match; [done |]. destruct (pcap_compile value) as [program |]; [| done].
  assert (H1 : st_ok (upd (set_key "filter" (KFilter program)) st)) by (apply upd_ok; [intros; by apply set_key_ok | done]).
  apply once_ok; [done |]. by apply push_k_ok.
Qed.
Lemma PT_map_engine_type_keeps : keeps PT_map_engine_type_handler.
Proof.
  intros value st mt _ H. unfold PT_map_engine_type_handler. neg_first. case_match; [by apply set_num_ok |].
  apply once_ok; [| apply map_add_ok; [by apply by_daemon_ok |]]; by apply set_num_ok.
Qed.
Lemma PT_map_sample_type_keeps : keeps PT_map_sample_type_handler.
Proof.
  intros value st mt _ H. unfold PT_map_sample_type_handler. neg_first.
  match goal with |- context [let '(n, ok) := ?x in _] => destruct x as [n ok] end.
  case_match; [by apply set_num_ok |]. apply once_ok; [| apply map_add_ok; [by apply by_daemon_ok |]]; by apply set_num_ok.
Qed.
Lemma PT_map_mpls_vpn_rd_keeps : keeps PT_map_mpls_vpn_rd_handler.
Proof.
  intros value st mt _ H. unfold PT_map_mpls_vpn_rd_handler. neg_first.
  apply once_ok; [by apply set_key_ok |]. case_match; [| by apply set_key_ok]. apply push_k_ok; [done | by apply set_key_ok | done].
Qed.
Lemma comms_ok f l st : f <> "agent_ip" -> st_ok st -> st_ok (upd (set_key f (KComms l)) st).
Proof. intros Hf H. apply upd_ok; [intros; by apply set_key_ok | done]. Qed.
Lemma PT_map_src_comms_keeps : keeps PT_map_src_comms_handler.
Proof.
  intros value st mt _ H. unfold PT_map_src_comms_handler. pose proof (comms_ok "src_comms" (comm_patterns value) st ltac:(done) H).
  apply once_ok; [done |]. case_match; [by apply push_k_ok | done].
Qed.
Lemma PT_map_comms_keeps : keeps PT_map_comms_handler.
Proof.
  intros value st mt _ H. unfold PT_map_comms_handler. pose proof (comms_ok "comms" (comm_patterns value) st ltac:(done) H).
  apply once_ok; [done |]. repeat case_match; by first [apply push_k_ok | idtac].
Qed.

(** The rest are made of the combinators. *)
Ltac solve_key H :=
  repeat first
    [ exact H | discriminate | exact I | exact eq_refl
    | apply number_key_ok | apply vpn_key_ok | apply truefalse_key_ok | apply range_key_ok | apply mac_key_ok | apply net_key_ok
    | apply as_key_ok | apply add_bgp_ok | apply num_key_ok | apply once_ok | apply at_end_ok | apply map_add_ok | apply two_sources_ok
    | apply by_daemon_ok | apply if_handler_ok
    | apply addr_key_ok; [| let st := fresh in let H := fresh in intros st H; solve_key H |] ].
Ltac keeps_tac :=
  first
    [ apply PT_map_ip_keeps | apply PT_map_id_keeps | apply PT_map_id2_keeps | apply PT_map_label_keeps | apply PT_map_set_tos_keeps
    | apply BTA_map_lookup_bgp_port_keeps | apply PT_map_entry_label_keeps | apply PT_map_jeq_keeps | apply PT_map_return_keeps
    | apply PT_map_stack_keeps | apply PT_map_filter_keeps | apply PT_map_engine_type_keeps | apply PT_map_sample_type_keeps
    | apply PT_map_mpls_vpn_rd_keeps | apply PT_map_src_comms_keeps | apply PT_map_comms_keeps
    | let H := fresh in intros ? ? ? _ H; match goal with |- post (?h _ _ _) => let g := eval red in h in change h with g end; cbv beta zeta; solve_key H ].

Definition dictionary_keeps (d : list (string * map_handler)) : Prop := Forall (fun kv => keeps (snd kv)) d.

Lemma tag_map_dictionary_keeps : dictionary_keeps tag_map_dictionary.
Proof. repeat (apply Forall_cons; split; [keeps_tac |]). apply Forall_nil_2. Qed.
Lemma tag_map_tee_dictionary_keeps : dictionary_keeps tag_map_tee_dictionary.
Proof. repeat (apply Forall_cons; split; [keeps_tac |]). apply Forall_nil_2. Qed.
Lemma tag_map_bgp_dictionary_keeps : dictionary_keeps tag_map_bgp_dictionary.
Proof. repeat (apply Forall_cons; split; [keeps_tac |]). apply Forall_nil_2. Qed.
Lemma tag_map_nonflow_dictionary_keeps : dictionary_keeps tag_map_nonflow_dictionary.
Proof. repeat (apply Forall_cons; split; [keeps_tac |]). apply Forall_nil_2. Qed.
Lemma bpas_map_dictionary_keeps : dictionary_keeps bpas_map_dictionary.
Proof. repeat (apply Forall_cons; split; [keeps_tac |]). apply Forall_nil_2. Qed.
Lemma bta_map_dictionary_keeps : dictionary_keeps bta_map_dictionary.
Proof. repeat (apply Forall_cons; split; [keeps_tac |]). apply Forall_nil_2. Qed.
Lemma sampling_map_dictionary_keeps : dictionary_keeps sampling_map_dictionary.
Proof. repeat (apply Forall_cons; split; [keeps_tac |]). apply Forall_nil_2. Qed.
Lemma bitr_map_dictionary_keeps : dictionary_keeps bitr_map_dictionary.
Proof. repeat (apply Forall_cons; split; [keeps_tac |]). apply Forall_nil_2. Qed.

Lemma find_map_key_keeps key d f : dictionary_keeps d -> find_map_key key d = Some f -> keeps f.
Proof.
  induction 1 as [| [k h] d Hk _ IH]; simpl; [done |]. case_match; [| done]. intros [= <-]. exact Hk.
Qed.
Lemma dictionary_of_keeps map_type : dictionary_keeps (dictionary_of map_type).
Proof.
  unfold dictionary_of. repeat case_match;
    first [apply tag_map_dictionary_keeps | apply tag_map_tee_dictionary_keeps | apply tag_map_bgp_dictionary_keeps
          | apply tag_map_nonflow_dictionary_keeps | apply bpas_map_dictionary_keeps | apply bta_map_dictionary_keeps
          | apply sampling_map_dictionary_keeps | apply bitr_map_dictionary_keeps].
Qed.

End Facts.

End PretagMapFacts.
