(* ===== verification/PretagMatch.v ===== *)
(** * Matching packets (pretag_handlers.c)

    One definition per function of [func]: [pretag_*] for NetFlow and IPFIX,
    [SF_*] for sFlow, [PM_*] for captured packets, [BPAS_*] and [BITR_*] for the
    maps of BGP. The answer is 0 when the packet agrees with the key, 1 when it
    does not, the other way round for a key that is negated; a function that
    sets something answers one of the codes [*_RCODE_*]. *)

From S2P Require Import Prelude.
From S2P Require Import BgpPrefix.
From S2P Require Import CBuf.
From S2P Require Import BgpAttr.
From S2P Require Import NfTemplate.
From S2P Require Import CfgData.
From S2P Require Import CfgHandlers.
From S2P Require Import PretagData.
From S2P Require Import PretagMap.

Module PretagMatch.
Import BgpPrefix(AF_INET, AF_INET6).
Import CBuf(malloc_buf, write_at, read_bytes, u8_at, be16_at, be32_at).
Import BgpAttr(host_addr, mk_ha, ha_family, ha_address, ha0, rd_t, mk_rd, rd_type, rd_body, rd0, le_u32).
Import NfTemplate(template, t_fld, t_template_id, o_slots, o_count, s_off, s_len, get, NF9_IPV4_SRC_ADDR, NF9_IPV6_SRC_ADDR).
Import CfgData.
Import CfgHandlers.
Import PretagData.
Import PretagMap(has, le16).

(** ** Constants (nfv9_template.h) *)

Definition NF9_L4_PROTOCOL : Z := 4.
Definition NF9_TCP_FLAGS : Z := 6.
Definition NF9_L4_SRC_PORT : Z := 7.
Definition NF9_INPUT_SNMP : Z := 10.
Definition NF9_L4_DST_PORT : Z := 11.
Definition NF9_IPV4_DST_ADDR : Z := 12.
Definition NF9_OUTPUT_SNMP : Z := 14.
Definition NF9_IPV4_NEXT_HOP : Z := 15.
Definition NF9_SRC_AS : Z := 16.
Definition NF9_DST_AS : Z := 17.
Definition NF9_BGP_IPV4_NEXT_HOP : Z := 18.
Definition NF9_IPV6_DST_ADDR : Z := 28.
Definition NF9_IPV4_SRC_PREFIX : Z := 44.
Definition NF9_IPV4_DST_PREFIX : Z := 45.
Definition NF9_MPLS_TOP_LABEL_ADDR : Z := 47.
Definition NF9_IN_SRC_MAC : Z := 56.
Definition NF9_IN_VLAN : Z := 58.
Definition NF9_DIRECTION : Z := 61.
Definition NF9_IPV6_NEXT_HOP : Z := 62.
Definition NF9_BGP_IPV6_NEXT_HOP : Z := 63.
Definition NF9_MPLS_LABEL_1 : Z := 70.
Definition NF9_IN_DST_MAC : Z := 80.
Definition NF9_FWD_STATUS : Z := 89.
Definition NF9_MPLS_TOP_LABEL_IPV6_ADDR : Z := 140.
Definition NF9_IPV6_DST_PREFIX : Z := 169.
Definition NF9_IPV6_SRC_PREFIX : Z := 170.
Definition NF9_NAT_EVENT : Z := 230.
Definition NF9_FW_EVENT : Z := 233.
Definition NF9_INGRESS_VRFID : Z := 234.
Definition NF9_EGRESS_VRFID : Z := 235.
Definition NF9_DOT1QVLANID : Z := 243.
Definition NF9_DOT1QCVLANID : Z := 245.
Definition NF9_PSEUDOWIREID : Z := 249.
Definition NF9_INPUT_PHYSINT : Z := 252.
Definition NF9_OUTPUT_PHYSINT : Z := 253.
Definition NF9_POST_DOT1QCVLANID : Z := 255.

(** [return (FALSE | neg)] when the packet agrees, [return (TRUE ^ neg)] when
    it does not. *)
Definition verdict (neg : Z) (agrees : bool) : Z := if agrees then Z.lor FALSE neg else Z.lxor TRUE neg.

(** ** The fields of a record *)

(** [tpl->fld[f].count] *)
Definition fld_count (tpl : template) (f : Z) : res Z := fld ← get (t_fld tpl) f; Ok (o_count fld).

(** [OTPL_LAST_LEN (f)]: of a field the template does not have it is [len[-1]],
    which is the last of [off]; [OTPL_LAST_OFS (f)] is then [off[-1]], the
    count of the field before. *)
Definition OTPL_LAST_LEN (tpl : template) (f : Z) : res Z :=
  fld ← get (t_fld tpl) f;
  if o_count fld =? 0 then s ← get (o_slots fld) 2; Ok (s_off s)
  else s ← get (o_slots fld) (o_count fld - 1); Ok (s_len s).
Definition OTPL_LAST_OFS (tpl : template) (f : Z) : res Z :=
  fld ← get (t_fld tpl) f;
  if o_count fld =? 0 then fld_count tpl (f - 1)
  else s ← get (o_slots fld) (o_count fld - 1); Ok (s_off s).

(** The octets of [OTPL_CP_LAST (target, f, length)] and [OTPL_CP_LAST_M]. *)
Definition OTPL_CP_LAST (tpl : template) (d : list Z) (f length : Z) : res (list Z) :=
  off ← OTPL_LAST_OFS tpl f; read_bytes d off length.
Definition OTPL_CP_LAST_M (tpl : template) (d : list Z) (f length : Z) : res (list Z) :=
  len ← OTPL_LAST_LEN tpl f; OTPL_CP_LAST tpl d f (Z.min len length).

(** [!OTPL_CMP_LAST (target, f)], and with a maximal length: the octets of
    [target] are those that may be read. *)
Definition cmp_len (tpl : template) (d target : list Z) (f len : Z) : res bool :=
  if len =? 0 then Ok true
  else
    b ← OTPL_CP_LAST tpl d f len;
    if strlen target <? len then Err OutOfBounds else Ok (bool_decide (take (Z.to_nat len) target = b)).
Definition OTPL_CMP_LAST (tpl : template) (d target : list Z) (f : Z) : res bool :=
  len ← OTPL_LAST_LEN tpl f; cmp_len tpl d target f len.
Definition OTPL_CMP_LAST_M (tpl : template) (d target : list Z) (f length : Z) : res bool :=
  len ← OTPL_LAST_LEN tpl f; cmp_len tpl d target f (Z.min len length).

(** What a local of [n] octets holds after the first ones were copied to it. *)
Definition local (n : nat) (init : Z) (b : list Z) : list Z := b ++ replicate (n - length b) init.
Definition ntoh (b : list Z) : Z := fold_left (fun acc c => acc * 256 + c) b 0.

(** [IS_MAC_MULTICAST] *)
Definition IS_MAC_MULTICAST (a : list Z) : bool := byte_at a 0 =? 1.

Section Match.
Context {ho : host} {env : pt_env}.

Definition matcher := packet -> id_entry -> res Z.

(** [if (!pptrs->f_data) return TRUE;] *)
Definition with_data (pk : packet) (k : list Z -> res Z) : res Z :=
  match pk_data pk with None => Ok TRUE | Some d => k d end.
(** [switch (hdr->version)] *)
Definition by_version (pk : packet) (v9 v5 other : res Z) : res Z :=
  if (pk_version pk =? 10) || (pk_version pk =? 9) then v9 else if pk_version pk =? 5 then v5 else other.
Definition with_tpl (pk : packet) (k : template -> res Z) : res Z := tpl ← deref (pk_tpl pk); k tpl.

(** ** NetFlow and IPFIX *)

Definition pretag_dummy_ip_handler : matcher := fun _ _ => Ok FALSE.

(** An interface: the SNMP index, on two or four octets, or the physical one. *)
Definition iface_match (f : string) (snmp phys v5off : Z) : matcher := fun pk e =>
  let '(neg, n) := key_num f (e_key e) in
  with_data pk (fun d =>
    by_version pk
      (with_tpl pk (fun tpl =>
         len ← OTPL_LAST_LEN tpl snmp;
         plen ← OTPL_LAST_LEN tpl phys;
         b ← (if len =? 2 then OTPL_CMP_LAST tpl d (drop 2 (htonl n)) snmp
              else if len =? 4 then OTPL_CMP_LAST tpl d (htonl n) snmp
              else if plen =? 4 then OTPL_CMP_LAST tpl d (htonl n) phys
              else Ok false);
         Ok (verdict neg b)))
      (v ← be16_at d v5off; Ok (verdict neg (u16 n =? v)))
      (Ok TRUE)).
Definition pretag_input_handler : matcher := iface_match "input" NF9_INPUT_SNMP NF9_INPUT_PHYSINT 12.
Definition pretag_output_handler : matcher := iface_match "output" NF9_OUTPUT_SNMP NF9_OUTPUT_PHYSINT 14.

(** The address of the key against [nexthop] of [struct struct_export_v5]. *)
Definition v5_nexthop (neg : Z) (a : host_addr) (d : list Z) : res Z :=
  b ← read_bytes d 8 4; Ok (verdict neg (bool_decide (take 4 (ha_address a) = b))).

Definition pretag_nexthop_handler : matcher := fun pk e =>
  let '(neg, a) := key_addr "nexthop" (e_key e) in
  with_data pk (fun d =>
    by_version pk
      (with_tpl pk (fun tpl =>
         b ← (if ha_family a =? AF_INET then OTPL_CMP_LAST tpl d (ha_address a) NF9_IPV4_NEXT_HOP
              else if ha_family a =? AF_INET6 then OTPL_CMP_LAST tpl d (ha_address a) NF9_IPV6_NEXT_HOP
              else Ok false);
         Ok (verdict neg b)))
      (v5_nexthop neg a d)
      (Ok TRUE)).

(** [evaluate_lm_method (pptrs, TRUE, bitmap, method)] (pkt_handlers.c) *)
Definition evaluate_lm_method (pk : packet) (bitmap method : Z) : bool :=
  (pk_lm_method_dst pk =? method) || negb (has bitmap NF_NET_FALLBACK).

(** The field that is there first, or none. *)
Definition cmp_first (tpl : template) (d target : list Z) (f1 f2 : Z) : res bool :=
  c1 ← fld_count tpl f1;
  if negb (c1 =? 0) then OTPL_CMP_LAST tpl d target f1
  else c2 ← fld_count tpl f2; if negb (c2 =? 0) then OTPL_CMP_LAST tpl d target f2 else Ok false.

(** For an IPv6 address it is the family of [key.nexthop] that is tested. *)
Definition pretag_bgp_nexthop_handler : matcher := fun pk e =>
  let '(neg, a) := key_addr "bgp_nexthop" (e_key e) in
  if e_last_matched e =? PRETAG_BGP_NEXTHOP then Ok FALSE
  else if negb (evaluate_lm_method pk nfacctd_net NF_NET_KEEP) then Ok TRUE
  else
    with_data pk (fun d =>
      by_version pk
        (with_tpl pk (fun tpl =>
           b ← (if ha_family a =? AF_INET then cmp_first tpl d (ha_address a) NF9_BGP_IPV4_NEXT_HOP NF9_MPLS_TOP_LABEL_ADDR
                else if ha_family (snd (key_addr "nexthop" (e_key e))) =? AF_INET6
                then cmp_first tpl d (ha_address a) NF9_BGP_IPV6_NEXT_HOP NF9_MPLS_TOP_LABEL_IPV6_ADDR
                else Ok false);
           Ok (verdict neg b)))
        (v5_nexthop neg a d)
        (Ok TRUE)).

(** The attributes of a route, when it is there. *)
Definition attr_of (node : bool) (info : option path_info) : option path_attr := if node then info ≫= pi_attr else None.

Definition pretag_bgp_bgp_nexthop_handler (pk : packet) (e : id_entry) : res (Z * id_entry) :=
  let '(neg, a) := key_addr "bgp_nexthop" (e_key e) in
  let info := match pk_nexthop_info pk with Some i => Some i | None => pk_dst_info pk end in
  let equal :=
    match (if evaluate_lm_method pk nfacctd_net NF_NET_BGP then attr_of (pk_bgp_dst pk) info else None) with
    | Some attr =>
        if ha_family (pa_mp_nexthop attr) =? AF_INET
        then bool_decide (take 4 (ha_address a) = take 4 (ha_address (pa_mp_nexthop attr)))
        else if ha_family (pa_mp_nexthop attr) =? AF_INET6
        then bool_decide (ha_address a = ha_address (pa_mp_nexthop attr))
        else bool_decide (take 4 (ha_address a) = pa_nexthop attr)
    | None => false
    end in
  if equal then Ok (Z.lor FALSE neg, with_last_matched PRETAG_BGP_NEXTHOP e)
  else if has nfacctd_net NF_NET_KEEP then Ok (FALSE, e)
  else Ok (Z.lxor TRUE neg, e).

Definition pretag_engine_type_handler : matcher := fun pk e =>
  let '(neg, n) := key_num "engine_type" (e_key e) in
  if pk_version pk =? 5 then v ← u8_at (pk_header pk) 20; Ok (verdict neg (n =? v)) else Ok TRUE.

Definition pretag_engine_id_handler : matcher := fun pk e =>
  let '(neg, n) := key_num "engine_id" (e_key e) in
  if pk_version pk =? 10 then v ← be32_at (pk_header pk) 12; Ok (verdict neg (n =? v))
  else if pk_version pk =? 9 then v ← be32_at (pk_header pk) 16; Ok (verdict neg (n =? v))
  else if pk_version pk =? 5 then v ← u8_at (pk_header pk) 21; Ok (verdict neg (n =? v))
  else Ok TRUE.

(** Both identifiers are as they came, in network order. *)
Definition pretag_flowset_id_handler : matcher := fun pk e =>
  let '(neg, n) := key_num "flowset_id" (e_key e) in
  match pk_tpl pk with
  | None => Ok TRUE
  | Some tpl =>
      by_version pk (Ok (verdict neg (n =? byte_at (t_template_id tpl) 0 + 256 * byte_at (t_template_id tpl) 1))) (Ok TRUE) (Ok TRUE)
  end.

Definition pretag_filter_handler : matcher := fun pk e =>
  let program := match e_key e !! "filter" with Some (KFilter p) => p | _ => [] end in
  Ok (if bpf_filter program (pk_capture pk) then FALSE else TRUE).

(** An autonomous system on two or four octets; 0 otherwise. *)
Definition as_match (f : string) (T fld v5off : Z) : matcher := fun pk e =>
  let '(neg, n) := key_num f (e_key e) in
  if e_last_matched e =? T then Ok FALSE
  else
    with_data pk (fun d =>
      asn32 ← by_version pk
        (with_tpl pk (fun tpl =>
           len ← OTPL_LAST_LEN tpl fld;
           if len =? 2 then ntoh <$> OTPL_CP_LAST tpl d fld 2
           else if len =? 4 then ntoh <$> OTPL_CP_LAST tpl d fld 4
           else Ok 0))
        (be16_at d v5off) (Ok 0);
      Ok (verdict neg (n =? asn32))).
Definition pretag_src_as_handler : matcher := as_match "src_as" PRETAG_SRC_AS NF9_SRC_AS 40.
Definition pretag_dst_as_handler : matcher := as_match "dst_as" PRETAG_DST_AS NF9_DST_AS 42.

(** ** What BGP knows *)

(** [evaluate_last_asn] of the path, 0 without one. *)
Definition last_asn (attr : option path_attr) : Z := match attr ≫= pa_aspath with Some (last_as, _) => last_as | None => 0 end.

Definition bgp_as_match (f : string) (T : Z) (attr : option path_attr) (e : id_entry) : res (Z * id_entry) :=
  let '(neg, n) := key_num f (e_key e) in
  if n =? last_asn attr then Ok (Z.lor FALSE neg, with_last_matched T e)
  else if has nfacctd_as NF_AS_KEEP then Ok (FALSE, e) else Ok (Z.lxor TRUE neg, e).
Definition pretag_bgp_src_as_handler (pk : packet) (e : id_entry) : res (Z * id_entry) :=
  bgp_as_match "src_as" PRETAG_SRC_AS (attr_of (pk_bgp_src pk) (pk_src_info pk)) e.
Definition pretag_bgp_dst_as_handler (pk : packet) (e : id_entry) : res (Z * id_entry) :=
  bgp_as_match "dst_as" PRETAG_DST_AS (attr_of (pk_bgp_dst pk) (pk_dst_info pk)) e.

(** [evaluate_first_asn (src)] (bgp_util.c): the text from [start] to the next
    space or bracket is a number; with [bgp_daemon_peer_as_skip_subas] the
    confederations are walked over. *)
Fixpoint word_end (src : list Z) : nat :=
  match src with
  | c :: r => if (c =? 32) || (c =? 41 (* ) *)) then O else S (word_end r)
  | [] => O
  end.
Fixpoint after_word (src : list Z) : nat :=
  match src with
  | c :: r => if (c =? 32) || (c =? 41) then S (after_word r) else O
  | [] => O
  end.
Fixpoint first_asn_loop (fuel : nat) (src : list Z) (start : nat) (iteration real_first_asn : Z) : res Z :=
  match fuel with
  | O => Err OutOfFuel
  | S fuel =>
      let text := drop start src in
      let idx := (start + word_end text)%nat in
      let word := take (word_end text) text in
      let sub_as := byte_at word 0 =? 40 (* ( *) in
      let asn := u32 (strtoul 10 (if sub_as then drop 1 word else word)) in
      let last := Ok (if negb (real_first_asn =? 0) && ((asn =? 0) || sub_as) then real_first_asn else asn) in
      if bgp_daemon_peer_as_skip_subas && sub_as then
        let idx := (idx + after_word (drop idx src))%nat in
        if negb (Z.of_nat idx =? strlen src - 1)
        then first_asn_loop fuel src idx (iteration + 1) (if iteration =? 0 then asn else real_first_asn)
        else last
      else last
  end.
Definition evaluate_first_asn (src : list Z) : res Z := first_asn_loop (S (S (length src))) src 0 0 0.

(** Its use: of the path's text, when there is one. *)
Definition first_asn (attr : option path_attr) : res Z :=
  match attr ≫= pa_aspath with Some (_, Some str) => evaluate_first_asn str | _ => Ok 0 end.

(** [strstr]: where the text goes on from the first occurrence. *)
Fixpoint strstr (haystack needle : list Z) : option (list Z) :=
  if starts_with needle haystack then Some haystack
  else match haystack with [] => None | _ :: r => strstr r needle end.

(** [evaluate_comm_patterns (dst, src, patterns, dstlen)] (bgp_util.c): the
    words of [src] that fit a pattern, a dot standing for any character. *)
Definition word_of (ptr : list Z) : list Z := match split_at 32 ptr with Some (w, _) => w | None => ptr end.

(** The candidate [ptr] and the pattern agree but for the dots. *)
Definition dots_fit (pattern word : list Z) : bool :=
  (strlen word =? strlen pattern) && forallb (fun '(p, c) => (p =? 46 (* . *)) || (p =? c)) (zip pattern word).

Definition find_word (pattern haystack : list Z) : res (option (list Z)) :=
  let head := match split_at 46 pattern with Some (h, _) => h | None => pattern end in
  match strstr haystack head with
  | None => Ok None
  | Some ptr =>
      if bool_decide (46 ∈ pattern) then
        if MAX_BGP_STD_COMMS <? strlen (word_of ptr) + 1 then Err OutOfBounds   (* local_ptr *)
        else Ok (if dots_fit pattern (word_of ptr) then Some ptr else None)
      else Ok (Some ptr)
  end.

(** All the words for one pattern; [true] when there is no room left. *)
Fixpoint pattern_loop (fuel : nat) (dst haystack pattern : list Z) (dstlen : Z) : res (list Z * bool) :=
  match fuel with
  | O => Err OutOfFuel
  | S fuel =>
      ptr ← find_word pattern haystack;
      let '(dst, rest) :=
        match ptr with
        | Some ptr =>
            let dst := if negb (strlen dst =? 0) && (strlen dst <? dstlen) then dst ++ [32] else dst in
            let w := take (Z.to_nat (dstlen - strlen dst)) (word_of ptr) in
            (dst ++ w, drop (length w) ptr)
        | None => (dst, haystack)
        end in
      if dstlen <=? strlen dst then Ok (take (Z.to_nat (dstlen - 2)) dst ++ [43 (* + *)], true)
      else if bool_decide (is_Some ptr) then pattern_loop fuel dst rest pattern dstlen
      else Ok (dst, false)
  end.

(** The patterns end with a NULL: sixteen of them leave no room for it. *)
Fixpoint patterns_loop (n : nat) (dst src : list Z) (patterns : list (list Z)) (dstlen : Z) : res (list Z) :=
  match patterns with
  | [] => if (MAX_BGP_COMM_PATTERNS <=? n)%nat then Err OutOfBounds else Ok dst
  | pattern :: patterns =>
      '(dst, full) ← pattern_loop (length src + Z.to_nat dstlen + 2) dst src pattern dstlen;
      if full : bool then Ok dst else patterns_loop (S n) dst src patterns dstlen
  end.
Definition evaluate_comm_patterns (src : list Z) (patterns : list (list Z)) (dstlen : Z) : res (list Z) :=
  patterns_loop 0 [] src patterns dstlen.

(** [copy_stdcomm_to_asn] and [copy_lrgcomm_to_asn] with [is_origin] false:
    the number before the colon, if there is one. *)
Definition copy_stdcomm_to_asn (stdcomm : list Z) (asn : Z) : Z :=
  match split_at 58 (* : *) stdcomm with
  | None => asn
  | Some (p1, _) => u32 (atoi (match split_at 44 (* , *) p1 with Some (p, _) => p | None => p1 end))
  end.
Definition copy_lrgcomm_to_asn (lrgcomm : list Z) (asn : Z) : Z :=
  match split_at 58 lrgcomm with None => asn | Some (p1, _) => u32 (strtoul 10 p1) end.

(** The first autonomous system; when it is 0, the one a community stands for. *)
Definition asn_or_pattern (attr : path_attr) (str : list Z) : res Z :=
  asn ← evaluate_first_asn str;
  asn ← match stdcomm_pattern_to_asn, pa_community attr with
        | Some patterns, Some comms =>
            if asn =? 0 then t ← evaluate_comm_patterns comms patterns MAX_BGP_STD_COMMS; Ok (copy_stdcomm_to_asn t asn) else Ok asn
        | _, _ => Ok asn
        end;
  match lrgcomm_pattern_to_asn, pa_lcommunity attr with
  | Some patterns, Some comms =>
      if asn =? 0 then t ← evaluate_comm_patterns comms patterns MAX_BGP_STD_COMMS; Ok (copy_lrgcomm_to_asn t asn) else Ok asn
  | _, _ => Ok asn
  end.
Definition community_asn (attr : option path_attr) : res Z :=
  match attr with
  | Some a => match pa_aspath a with Some (_, Some str) => asn_or_pattern a str | _ => Ok 0 end
  | None => Ok 0
  end.

Definition pretag_peer_src_as_handler : matcher := fun pk e =>
  let '(neg, n) := key_num "peer_src_as" (e_key e) in
  asn ← (if bgp_daemon_peer_as_src_type =? BGP_SRC_PRIMITIVES_MAP then Ok (pk_bpas pk)
         else if has bgp_daemon_peer_as_src_type BGP_SRC_PRIMITIVES_BGP then first_asn (attr_of (pk_bgp_src pk) (pk_src_info pk))
         else Ok 0);
  Ok (verdict neg (n =? asn)).
Definition pretag_peer_dst_as_handler : matcher := fun pk e =>
  let '(neg, n) := key_num "peer_dst_as" (e_key e) in
  asn ← first_asn (attr_of (pk_bgp_dst pk) (pk_dst_info pk)); Ok (verdict neg (n =? asn)).

Definition local_pref_of (attr : option path_attr) : Z := match attr with Some a => pa_local_pref a | None => 0 end.
Definition pretag_src_local_pref_handler : matcher := fun pk e =>
  let '(neg, n) := key_num "src_local_pref" (e_key e) in
  let local_pref :=
    if bgp_daemon_src_local_pref_type =? BGP_SRC_PRIMITIVES_MAP then pk_blp pk
    else if has bgp_daemon_src_local_pref_type BGP_SRC_PRIMITIVES_BGP then local_pref_of (attr_of (pk_bgp_src pk) (pk_src_info pk))
    else 0 in
  Ok (verdict neg (n =? local_pref)).
Definition pretag_local_pref_handler : matcher := fun pk e =>
  let '(neg, n) := key_num "local_pref" (e_key e) in
  Ok (verdict neg (n =? local_pref_of (attr_of (pk_bgp_dst pk) (pk_dst_info pk)))).

Definition pretag_src_roa_handler : matcher := fun pk e =>
  let '(neg, n) := key_num "src_roa" (e_key e) in
  Ok (verdict neg (n =? (if has bgp_daemon_src_roa_type BGP_SRC_PRIMITIVES_BGP && pk_bgp_src pk then pk_src_roa pk else 0))).
Definition pretag_dst_roa_handler : matcher := fun pk e =>
  let '(neg, n) := key_num "dst_roa" (e_key e) in
  Ok (verdict neg (n =? (if pk_bgp_dst pk then pk_dst_roa pk else 0))).

(** A community that fits one of the patterns. *)
Definition comms_match (patterns : list (list Z)) (attr : option path_attr) : res Z :=
  match attr ≫= pa_community with
  | Some str => t ← evaluate_comm_patterns str patterns MAX_BGP_STD_COMMS; Ok (if bool_decide (t = []) then TRUE else FALSE)
  | None => Ok TRUE
  end.
Definition pretag_src_comms_handler : matcher := fun pk e =>
  comms_match (key_comms "src_comms" (e_key e)) (attr_of (pk_bgp_src pk) (pk_src_info pk)).
Definition pretag_comms_handler : matcher := fun pk e =>
  comms_match (key_comms "comms" (e_key e)) (attr_of (pk_bgp_dst pk) (pk_dst_info pk)).
Definition pretag_BGP_comms_handler : matcher := fun pk e =>
  comms_match (key_comms "comms" (e_key e)) (pk_dst_info pk ≫= pi_attr).

Definition pretag_mpls_vpn_rd_handler : matcher := fun pk e =>
  let '(neg, rd) := key_rd "mpls_vpn_rd" (e_key e) in
  let equal := match (if pk_bgp_dst pk then pk_dst_info pk ≫= pi_rd else None) with
               | Some r => (rd_type rd =? rd_type r) && bool_decide (rd_body rd = rd_body r)
               | None => false
               end in
  Ok (verdict neg equal).

(** ** Other fields of a record *)

Definition pretag_sample_type_handler : matcher := fun pk e =>
  let '(neg, n) := key_num "sample_type" (e_key e) in
  let flow_type := pk_traffic_type pk in
  let flow_type := if (n =? PM_FTYPE_TRAFFIC) && (PM_FTYPE_TRAFFIC <=? flow_type) && (flow_type <=? PM_FTYPE_TRAFFIC_MAX)
                   then PM_FTYPE_TRAFFIC else flow_type in
  Ok (verdict neg (n =? flow_type)).
Definition pretag_is_bi_flow_handler : matcher := fun pk e =>
  let '(neg, n) := key_num "is_bi_flow" (e_key e) in Ok (verdict neg (n =? pk_is_bi pk)).

(** [(n && b) || (!n && !b)] *)
Definition same_truth (n : Z) (b : bool) : bool := Bool.eqb (negb (n =? 0)) b.

(** Whether the template has a field. *)
Definition event_match (f : string) (fld : Z) : matcher := fun pk e =>
  let '(neg, n) := key_num f (e_key e) in
  with_data pk (fun _ =>
    c ← by_version pk (with_tpl pk (fun tpl => fld_count tpl fld)) (Ok 0) (Ok 0);
    Ok (verdict neg (same_truth n (negb (c =? 0))))).
Definition pretag_is_nsel_handler : matcher := event_match "is_nsel" NF9_FW_EVENT.
Definition pretag_is_nel_handler : matcher := event_match "is_nel" NF9_NAT_EVENT.

Definition pretag_direction_handler : matcher := fun pk e =>
  let '(neg, n) := key_num "direction" (e_key e) in
  with_data pk (fun d =>
    by_version pk
      (with_tpl pk (fun tpl =>
         len ← OTPL_LAST_LEN tpl NF9_DIRECTION;
         direction ← (if len =? 1 then ntoh <$> OTPL_CP_LAST tpl d NF9_DIRECTION 1 else Ok 0);
         Ok (verdict neg (n =? direction))))
      (Ok TRUE) (Ok TRUE)).

(** [f_data] is not tested for NULL by the next three. *)
Definition opt_field (tpl : template) (d : option (list Z)) (f n : Z) (k : Z -> res Z) : res (option Z) :=
  c ← fld_count tpl f;
  if c =? 0 then Ok None
  else
    d ← deref d;
    b ← OTPL_CP_LAST_M tpl d f n;
    v ← k (ntoh (local (Z.to_nat n) 0 b)); Ok (Some v).
Definition vrf_match (f : string) (fld : Z) : matcher := fun pk e =>
  let '(neg, n) := key_num f (e_key e) in
  by_version pk
    (with_tpl pk (fun tpl => id ← opt_field tpl (pk_data pk) fld 4 Ok; Ok (verdict neg (n =? default 0 id))))
    (Ok (Z.lxor TRUE neg)) (Ok (Z.lxor TRUE neg)).
Definition pretag_mpls_vpn_id_in_handler : matcher := vrf_match "mpls_vpn_id_in" NF9_INGRESS_VRFID.
Definition pretag_mpls_vpn_id_out_handler : matcher := vrf_match "mpls_vpn_id_out" NF9_EGRESS_VRFID.

Definition pretag_mpls_pw_id_handler : matcher := fun pk e =>
  let '(neg, n) := key_num "mpls_pw_id" (e_key e) in
  by_version pk
    (with_tpl pk (fun tpl =>
       c ← fld_count tpl NF9_PSEUDOWIREID;
       id ← (if c =? 0 then Ok 0 else d ← deref (pk_data pk); ntoh <$> OTPL_CP_LAST tpl d NF9_PSEUDOWIREID 4);
       Ok (verdict neg (n =? id))))
    (Ok TRUE) (Ok TRUE).

Definition mac_match (f : string) (fld : Z) : matcher := fun pk e =>
  let '(neg, a) := key_mac f (e_key e) in
  with_data pk (fun d =>
    by_version pk
      (with_tpl pk (fun tpl =>
         c ← fld_count tpl fld;
         b ← (if c =? 0 then Ok false else OTPL_CMP_LAST_M tpl d a fld 6);
         Ok (verdict neg b)))
      (Ok TRUE) (Ok TRUE)).
Definition pretag_src_mac_handler : matcher := mac_match "src_mac" NF9_IN_SRC_MAC.
Definition pretag_dst_mac_handler : matcher := mac_match "dst_mac" NF9_IN_DST_MAC.

(** The first of two fields that the template has, as [n] octets of which the
    missing ones are [init]; [init] for all of them without a field. *)
Definition field_of (tpl : template) (d : list Z) (f1 f2 n init : Z) : res (list Z) :=
  c1 ← fld_count tpl f1;
  if negb (c1 =? 0) then b ← OTPL_CP_LAST_M tpl d f1 n; Ok (local (Z.to_nat n) init b)
  else
    c2 ← fld_count tpl f2;
    if negb (c2 =? 0) then b ← OTPL_CP_LAST_M tpl d f2 n; Ok (local (Z.to_nat n) init b)
    else Ok (local (Z.to_nat n) init []).

Definition vlan_match (f : string) (f1 f2 : Z) : matcher := fun pk e =>
  let '(neg, n) := key_num f (e_key e) in
  with_data pk (fun d =>
    by_version pk
      (with_tpl pk (fun tpl => b ← field_of tpl d f1 f2 2 0; Ok (verdict neg (n =? ntoh b))))
      (Ok TRUE) (Ok TRUE)).
Definition pretag_vlan_id_handler : matcher := vlan_match "vlan_id" NF9_IN_VLAN NF9_DOT1QVLANID.
Definition pretag_cvlan_id_handler : matcher := vlan_match "cvlan_id" NF9_DOT1QCVLANID NF9_POST_DOT1QCVLANID.

(** The address a record holds: an IPv6 field has the last word, and without
    any field the local is as it was found. *)
Definition put_addr (tpl : template) (d : list Z) (f1 f2 n family : Z) (addr : host_addr) : res host_addr :=
  let copy f := b ← OTPL_CP_LAST_M tpl d f n; Ok (mk_ha family (b ++ drop (length b) (ha_address addr))) in
  c1 ← fld_count tpl f1;
  if negb (c1 =? 0) then copy f1
  else c2 ← fld_count tpl f2; if negb (c2 =? 0) then copy f2 else Ok addr.

Definition addr_junk : host_addr := mk_ha (u8 junk) (replicate 16 (u8 junk)).

Definition net_match (f : string) (v4 v4p v6 v6p v5off : Z) : matcher := fun pk e =>
  let '(neg, a, m) := key_net f (e_key e) in
  let answer addr := Ok (verdict neg (host_addr_mask_cmp a m addr =? 0)) in
  with_data pk (fun d =>
    by_version pk
      (with_tpl pk (fun tpl =>
         addr ← put_addr tpl d v4 v4p 4 AF_INET addr_junk;
         addr ← put_addr tpl d v6 v6p 16 AF_INET6 addr;
         answer addr))
      (b ← read_bytes d v5off 4; answer (mk_ha AF_INET (b ++ drop 4 (ha_address addr_junk))))
      (Ok TRUE)).
Definition pretag_src_net_handler : matcher :=
  net_match "src_net" NF9_IPV4_SRC_ADDR NF9_IPV4_SRC_PREFIX NF9_IPV6_SRC_ADDR NF9_IPV6_SRC_PREFIX 0.
Definition pretag_dst_net_handler : matcher :=
  net_match "dst_net" NF9_IPV4_DST_ADDR NF9_IPV4_DST_PREFIX NF9_IPV6_DST_ADDR NF9_IPV6_DST_PREFIX 4.

(** A field of [n] octets, or the one of NetFlow v5. *)
Definition num_match (f : string) (fld n init v5off : Z) : matcher := fun pk e =>
  let '(neg, k) := key_num f (e_key e) in
  with_data pk (fun d =>
    by_version pk
      (with_tpl pk (fun tpl => b ← field_of tpl d fld fld n init; Ok (verdict neg (k =? ntoh b))))
      (b ← read_bytes d v5off n; Ok (verdict neg (k =? ntoh b)))
      (Ok TRUE)).
Definition pretag_ip_proto_handler : matcher := num_match "ip_proto" NF9_L4_PROTOCOL 1 0 38.
Definition pretag_src_port_handler : matcher := num_match "src_port" NF9_L4_SRC_PORT 2 (u8 junk) 32.
Definition pretag_dst_port_handler : matcher := num_match "dst_port" NF9_L4_DST_PORT 2 (u8 junk) 34.
Definition pretag_tcp_flags_handler : matcher := num_match "tcp_flags" NF9_TCP_FLAGS 1 (u8 junk) 37.

Definition pretag_is_multicast_handler : matcher := fun pk e =>
  let '(neg, n) := key_num "is_multicast" (e_key e) in
  with_data pk (fun d =>
    multicast ← (if (pk_version pk =? 10) || (pk_version pk =? 9) then
                   tpl ← deref (pk_tpl pk);
                   c ← fld_count tpl NF9_IN_DST_MAC;
                   if c =? 0 then Ok false else IS_MAC_MULTICAST <$> OTPL_CP_LAST tpl d NF9_IN_DST_MAC 1
                 else Ok false);
    Ok (verdict neg (same_truth n multicast))).

(** A status of which only the two highest bits are given stands for all that
    share them. *)
Definition pretag_fwd_status_handler : matcher := fun pk e =>
  let '(neg, n) := key_num "fwd_status" (e_key e) in
  with_data pk (fun d =>
    by_version pk
      (with_tpl pk (fun tpl =>
         len ← OTPL_LAST_LEN tpl NF9_FWD_STATUS;
         if negb (len =? 1) then Ok TRUE
         else
           fwd_status ← ntoh <$> OTPL_CP_LAST_M tpl d NF9_FWD_STATUS 1;
           let comp := Z.land n 0xC0 in
           Ok (verdict neg (if comp =? n then comp =? Z.land fwd_status 0xC0 else n =? fwd_status))))
      (Ok TRUE) (Ok TRUE)).

(** ** sFlow *)

Definition SF_num (f : string) (field : packet -> Z) : matcher := fun pk e =>
  let '(neg, n) := key_num f (e_key e) in Ok (verdict neg (n =? field pk)).
Definition SF_pretag_input_handler : matcher := SF_num "input" (inputPort ∘ pk_sample).
Definition SF_pretag_output_handler : matcher := SF_num "output" (outputPort ∘ pk_sample).
Definition SF_pretag_engine_id_handler : matcher := SF_num "engine_id" (ds_index ∘ pk_sample).
Definition SF_pretag_agent_id_handler : matcher := SF_num "agent_id" (agentSubId ∘ pk_sample).
Definition SF_pretag_sample_type_handler : matcher := SF_num "sample_type" pk_sample_type.
Definition SF_pretag_cvlan_id_handler : matcher := SF_num "cvlan_id" (sf_cvlan ∘ pk_sample).
Definition SF_pretag_mpls_pw_id_handler : matcher := SF_num "mpls_pw_id" (mpls_vll_vc_id ∘ pk_sample).
Definition SF_pretag_ip_proto_handler : matcher := SF_num "ip_proto" (dcd_ipProtocol ∘ pk_sample).
Definition SF_pretag_src_port_handler : matcher := SF_num "src_port" (dcd_sport ∘ pk_sample).
Definition SF_pretag_dst_port_handler : matcher := SF_num "dst_port" (dcd_dport ∘ pk_sample).
Definition SF_pretag_tcp_flags_handler : matcher := SF_num "tcp_flags" (dcd_tcpFlags ∘ pk_sample).

Definition SF_addr_equal (a : host_addr) (addr : list Z) : bool :=
  if ha_family a =? AF_INET then bool_decide (take 4 (ha_address a) = take 4 addr)
  else if ha_family a =? AF_INET6 then bool_decide (ha_address a = addr) else false.
Definition SF_pretag_nexthop_handler : matcher := fun pk e =>
  let '(neg, a) := key_addr "nexthop" (e_key e) in Ok (verdict neg (SF_addr_equal a (sf_nextHop (pk_sample pk)))).
Definition SF_pretag_bgp_nexthop_handler : matcher := fun pk e =>
  let '(neg, a) := key_addr "bgp_nexthop" (e_key e) in
  if e_last_matched e =? PRETAG_BGP_NEXTHOP then Ok FALSE
  else if negb (evaluate_lm_method pk nfacctd_net NF_NET_KEEP) then Ok TRUE
  else Ok (verdict neg (SF_addr_equal a (sf_bgp_nextHop (pk_sample pk)))).

Definition SF_pretag_direction_handler : matcher := fun pk e =>
  let '(neg, n) := key_num "direction" (e_key e) in
  let s := pk_sample pk in
  Ok (verdict neg (((inputPort s =? ds_index s) && (n =? 0)) || ((outputPort s =? ds_index s) && (n =? 1)))).

Definition SF_as_match (f : string) (node : packet -> bool) (field : packet -> Z) : matcher := fun pk e =>
  if has nfacctd_as NF_AS_BGP && node pk then Ok FALSE else SF_num f field pk e.
Definition SF_pretag_src_as_handler : matcher := SF_as_match "src_as" pk_bgp_src (sf_src_as ∘ pk_sample).
Definition SF_pretag_dst_as_handler : matcher := SF_as_match "dst_as" pk_bgp_dst (sf_dst_as ∘ pk_sample).

Definition SF_mac (f : string) (field : sf_sample -> list Z) : matcher := fun pk e =>
  let '(neg, a) := key_mac f (e_key e) in Ok (verdict neg (bool_decide (a = field (pk_sample pk)))).
Definition SF_pretag_src_mac_handler : matcher := SF_mac "src_mac" eth_src.
Definition SF_pretag_dst_mac_handler : matcher := SF_mac "dst_mac" eth_dst.

Definition SF_pretag_vlan_id_handler : matcher := fun pk e =>
  let '(neg, n) := key_num "vlan_id" (e_key e) in
  Ok (verdict neg ((n =? in_vlan (pk_sample pk)) || (n =? out_vlan (pk_sample pk)))).

Definition SF_net (f : string) (v4 v6 : sf_sample -> list Z) : matcher := fun pk e =>
  let '(neg, a, m) := key_net f (e_key e) in
  let s := pk_sample pk in
  let addr := if gotIPV4 s then mk_ha AF_INET (v4 s ++ drop 4 (ha_address addr_junk))
              else if gotIPV6 s then mk_ha AF_INET6 (v6 s) else addr_junk in
  Ok (verdict neg (host_addr_mask_cmp a m addr =? 0)).
Definition SF_pretag_src_net_handler : matcher := SF_net "src_net" dcd_srcIP ipsrc.
Definition SF_pretag_dst_net_handler : matcher := SF_net "dst_net" dcd_dstIP ipdst.

Definition SF_pretag_is_multicast_handler : matcher := fun pk e =>
  let '(neg, n) := key_num "is_multicast" (e_key e) in
  Ok (verdict neg (same_truth n (IS_MAC_MULTICAST (eth_dst (pk_sample pk))))).

(** ** Captured packets *)

Definition PM_pretag_src_as_handler : matcher := SF_num "src_as" search_pretag_src_as.
Definition PM_pretag_dst_as_handler : matcher := SF_num "dst_as" search_pretag_dst_as.
Definition PM_pretag_input_handler : matcher := SF_num "input" pk_ifindex_in.
Definition PM_pretag_output_handler : matcher := SF_num "output" pk_ifindex_out.
Definition PM_pretag_direction_handler : matcher := SF_num "direction" pk_direction.

(** ** The maps of BGP *)

(** For an IPv6 address it is the family of [key.nexthop] that is tested. *)
Definition BPAS_bgp_nexthop_handler : matcher := fun pk e =>
  let '(neg, a) := key_addr "bgp_nexthop" (e_key e) in
  let equal :=
    match attr_of (pk_bgp_src pk) (pk_src_info pk) with
    | Some attr =>
        if ha_family a =? AF_INET then
          if ha_family (pa_mp_nexthop attr) =? AF_INET
          then bool_decide (take 4 (ha_address a) = take 4 (ha_address (pa_mp_nexthop attr)))
          else bool_decide (take 4 (ha_address a) = pa_nexthop attr)
        else if ha_family (snd (key_addr "nexthop" (e_key e))) =? AF_INET6
        then bool_decide (ha_address a = ha_address (pa_mp_nexthop attr)) else false
    | None => false
    end in
  Ok (verdict neg equal).
Definition BPAS_bgp_peer_dst_as_handler : matcher := fun pk e =>
  let '(neg, n) := key_num "peer_dst_as" (e_key e) in
  asn ← community_asn (attr_of (pk_bgp_src pk) (pk_src_info pk)); Ok (verdict neg (n =? asn)).

(** The labels NF9_MPLS_LABEL_1 to 9: the one at the bottom of the stack. *)
Definition check_bosbit (b : list Z) : bool := negb (Z.land (byte_at b 2) 1 =? 0).
Definition decode_mpls_label (b : list Z) : Z := Z.shiftr (Z.land (ntohl (take 3 b ++ [0])) 0xfffff000) 12.
Fixpoint label_loop (n : nat) (label_idx : Z) (tpl : template) (d : option (list Z)) (k : Z) : res bool :=
  match n with
  | O => Ok false
  | S n =>
      fld ← get (t_fld tpl) label_idx;
      s ← get (o_slots fld) 0;
      if s_len s =? 3 then
        d' ← deref d;
        b ← read_bytes d' (s_off s) 3;
        if check_bosbit b && (k =? decode_mpls_label b) then Ok true else label_loop n (label_idx + 1) tpl d k
      else label_loop n (label_idx + 1) tpl d k
  end.
Definition BITR_mpls_label_bottom_handler : matcher := fun pk e =>
  let '(neg, n) := key_num "mpls_label_bottom" (e_key e) in
  by_version pk
    (with_tpl pk (fun tpl => b ← label_loop 9 NF9_MPLS_LABEL_1 tpl (pk_data pk) n; Ok (verdict neg b)))
    (Ok (Z.lxor TRUE neg)) (Ok (Z.lxor TRUE neg)).

Definition BITR_mpls_vpn_id_handler : matcher := fun pk e =>
  let '(neg, n) := key_num "mpls_vpn_id" (e_key e) in
  by_version pk
    (with_tpl pk (fun tpl =>
       i ← opt_field tpl (pk_data pk) NF9_INGRESS_VRFID 4 Ok;
       if bool_decide (i = Some n) then Ok (verdict neg true)
       else o ← opt_field tpl (pk_data pk) NF9_EGRESS_VRFID 4 Ok; Ok (verdict neg (bool_decide (o = Some n)))))
    (Ok (Z.lxor TRUE neg)) (Ok (Z.lxor TRUE neg)).

End Match.

End PretagMatch.
