(* ===== verification/Pretag.v ===== *)
(** * Pre-tagging (pretag.c, and the lookups of its callers)

    Labels, the evaluation of an entry, the reading of a map into its table
    and the lookup of a packet in it. The index ([maps_index]) is not used. *)

From S2P Require Import Prelude.
From S2P Require Import BgpPrefix.
From S2P Require Import CBuf.
From S2P Require Import BgpAttr.
From S2P Require Import NfTemplate.
From S2P Require Import CfgData.
From S2P Require Import CfgHandlers.
From S2P Require Import Cfg.
From S2P Require Import PretagData.
From S2P Require Import PretagMap.
From S2P Require Import PretagMatch.

Module Pretag.
Import BgpPrefix(AF_INET, AF_INET6).
Import CBuf(malloc_buf, write_at).
Import BgpAttr(host_addr, mk_ha, ha_family, ha_address, ha0).
Import NfTemplate(get).
Import CfgData.
Import CfgHandlers.
Import Cfg(file, Missing, NotRegular, Unreadable, Readable, fgets).
Import PretagData.
Import PretagMap.
Import PretagMatch.

(** ** Labels *)

Definition pretag_malloc_label (len : Z) : pt_label := mk_label len (Some (malloc_buf len)).

(** At most [n] characters of a string that may have no NUL by then. *)
Fixpoint chars (n : nat) (src : list Z) : res (list Z) :=
  match n with
  | O => Ok []
  | S n => match src with [] => Err OutOfBounds | c :: r => if c =? 0 then Ok [] else (c ::.) <$> chars n r end
  end.
Definition strncpy (dst src : list Z) (n : Z) : res (list Z) :=
  s ← chars (Z.to_nat n) src; write_at dst 0 (s ++ replicate (Z.to_nat n - length s) 0).
Definition strcpy (dst src : list Z) : res (list Z) := s ← CBuf.c_string src; write_at dst 0 (s ++ [0]).
Definition strcat (dst s : list Z) : res (list Z) := d ← CBuf.c_string dst; write_at dst (strlen d) (s ++ [0]).
Definition strncat (dst src : list Z) (n : Z) : res (list Z) := s ← chars (Z.to_nat n) src; strcat dst s.

Definition pretag_realloc_label (label : pt_label) (old_len add_len : Z) : res pt_label :=
  val ← deref (lb_val label);
  local_val ← strcpy (replicate (Z.to_nat (old_len + add_len)) 0) val;
  Ok (mk_label (old_len + add_len) (Some local_val)).

Definition pretag_copy_label (dst src : pt_label) : res (Z * pt_label) :=
  match lb_val dst with
  | Some _ => Ok (ERR, dst)
  | None =>
      if lb_len src =? 0 then Ok (SUCCESS, dst)
      else
        let dst := pretag_malloc_label (lb_len src + 1) in
        val ← deref (lb_val dst);
        src_val ← deref (lb_val src);
        val ← strncpy val src_val (lb_len src);
        last ← CBuf.u8_at val (lb_len src - 1);
        if last =? 0 then Ok (SUCCESS, mk_label (lb_len src) (Some val))
        else val ← write_at val (lb_len dst - 1) [0]; Ok (SUCCESS, mk_label (lb_len dst) (Some val))
  end.

(** What is left of the source is the third component. *)
Definition pretag_move_label (dst src : pt_label) : Z * pt_label * pt_label :=
  match lb_val dst with
  | Some _ => (ERR, dst, src)
  | None => if lb_len src =? 0 then (SUCCESS, dst, src) else (SUCCESS, src, label0)
  end.

Definition pretag_append_label (dst src : pt_label) : res (Z * pt_label) :=
  match lb_val dst with
  | None => Ok (ERR, dst)
  | Some _ =>
      if lb_len src =? 0 then Ok (SUCCESS, dst)
      else
        dst ← pretag_realloc_label dst (lb_len dst) (lb_len src + 1 + 1);
        val ← deref (lb_val dst);
        val ← strcat val DEFAULT_SEP;
        src_val ← deref (lb_val src);
        val ← strncat val src_val (lb_len src);
        val ← write_at val (lb_len dst - 1) [0];
        Ok (SUCCESS, mk_label (lb_len dst) (Some val))
  end.

Definition pretag_free_label (label : pt_label) : pt_label :=
  match lb_val label with Some _ => label0 | None => label end.

(** ** The state of a lookup *)

(** What is written to the packet, the tag, the second one when its pointer is not NULL, and
    what was handed to the plugins on the way ([exec_plugins]). *)
Record pstate := mk_ps {
  ps_marks : marks;
  ps_tag : Z;
  ps_tag2 : option Z;
  ps_sent : list (marks * Z * option Z)
}.
Definition ps0 : pstate := mk_ps marks0 0 (Some 0) [].

Definition set_marks (v : marks) (s : pstate) : pstate := mk_ps v (ps_tag s) (ps_tag2 s) (ps_sent s).
Definition mark_tos (v : Z * Z) (m : marks) : marks :=
  mk_marks v (m_lookup_bgp_port m) (m_label m) (m_have_tag m) (m_have_tag2 m) (m_have_label m).
Definition mark_port (v : option Z) (m : marks) : marks :=
  mk_marks (m_set_tos m) v (m_label m) (m_have_tag m) (m_have_tag2 m) (m_have_label m).
Definition mark_label (v : pt_label) (have : Z) (m : marks) : marks :=
  mk_marks (m_set_tos m) (m_lookup_bgp_port m) v (m_have_tag m) (m_have_tag2 m) have.
Definition mark_tags (have have2 : Z) (m : marks) : marks :=
  mk_marks (m_set_tos m) (m_lookup_bgp_port m) (m_label m) have have2 (m_have_label m).

Definition PT_stack_sum (tag pre : Z) : Z := u64 (tag + pre).
Definition PT_stack_logical_or (tag pre : Z) : Z := Z.lor tag pre.
Definition stack_func (f : option stack_handler) (id pre : Z) : Z :=
  match f with
  | Some F_PT_stack_sum => PT_stack_sum id pre
  | Some F_PT_stack_logical_or => PT_stack_logical_or id pre
  | None => id
  end.

(** The table ([struct id_table]); [t_timestamp] is 0 before the first load. *)
Record id_table := mk_table {
  t_type : Z;
  t_num : Z;
  t_ipv4_num : Z;
  t_ipv6_num : Z;
  t_e : list id_entry;
  t_flags : Z;
  t_timestamp : Z
}.
Definition table0 : id_table := mk_table 0 0 0 0 [] 0 0.
Definition with_e (v : list id_entry) (t : id_table) : id_table :=
  mk_table (t_type t) (t_num t) (t_ipv4_num t) (t_ipv6_num t) v (t_flags t) (t_timestamp t).

Section Pretag.
Context {ho : host} {env : pt_env}.

Definition pretag_init_vars (m : marks) (t : id_table) : marks :=
  let m := if t_type t =? ACCT_NF then mark_tos (0, 0) m else m in
  let m := if t_type t =? MAP_BGP_TO_XFLOW_AGENT then mark_port None m else m in
  match lb_val (m_label m) with Some _ => mark_label (pretag_free_label (m_label m)) FALSE m | None => m end.

(** ** The functions that set something *)

Definition pretag_set_tos_handler (e : id_entry) (m : marks) : Z * marks := (PRETAG_MAP_RCODE_SET_TOS, mark_tos (e_set_tos e) m).
Definition BTA_lookup_bgp_port_handler (e : id_entry) (m : marks) : Z * marks :=
  (BTA_MAP_RCODE_LOOKUP_BGP_PORT,
   mark_port (match e_key e !! "lookup_bgp_port" with Some (KPort n) => Some n | _ => None end) m).

(** The code, the tag and the entry. *)
Definition pretag_id_handler (pk : packet) (e : id_entry) : res (Z * Z * id_entry) :=
  tid ← (if (e_id e =? 0) && (e_flags e =? BPAS_MAP_RCODE_BGP)
         then community_asn (attr_of (pk_bgp_src pk) (pk_src_info pk)) else Ok (e_id e));
  let e := if negb (e_id_inc e =? 0) then with_id (u64 (e_id e + 1)) e else e in
  Ok (if e_flags e =? BTA_MAP_RCODE_ID_ID2 then BTA_MAP_RCODE_ID_ID2 else PRETAG_MAP_RCODE_ID, tid, e).
Definition pretag_id2_handler (e : id_entry) : Z * Z * id_entry :=
  (PRETAG_MAP_RCODE_ID2, e_id2 e, if negb (e_id2_inc e =? 0) then with_id2 (u64 (e_id2 e + 1)) e else e).
Definition pretag_label_handler (out_label : pt_label) (e : id_entry) : res (Z * pt_label) :=
  '(_, out_label) ← pretag_copy_label out_label (e_label e); Ok (PRETAG_MAP_RCODE_LABEL, out_label).

(** ** Calling a function of the list *)

(** The functions that only compare. *)
Definition compare_func (h : pretag_handler) : option matcher :=
  match h with
  | F_pretag_dummy_ip => Some pretag_dummy_ip_handler | F_pretag_input => Some pretag_input_handler
  | F_pretag_output => Some pretag_output_handler | F_pretag_nexthop => Some pretag_nexthop_handler
  | F_pretag_bgp_nexthop => Some pretag_bgp_nexthop_handler | F_pretag_engine_type => Some pretag_engine_type_handler
  | F_pretag_engine_id => Some pretag_engine_id_handler | F_pretag_flowset_id => Some pretag_flowset_id_handler
  | F_pretag_filter => Some pretag_filter_handler | F_pretag_src_as => Some pretag_src_as_handler
  | F_pretag_dst_as => Some pretag_dst_as_handler | F_pretag_peer_src_as => Some pretag_peer_src_as_handler
  | F_pretag_peer_dst_as => Some pretag_peer_dst_as_handler | F_pretag_src_local_pref => Some pretag_src_local_pref_handler
  | F_pretag_local_pref => Some pretag_local_pref_handler | F_pretag_src_roa => Some pretag_src_roa_handler
  | F_pretag_dst_roa => Some pretag_dst_roa_handler | F_pretag_src_comms => Some pretag_src_comms_handler
  | F_pretag_comms => Some pretag_comms_handler | F_pretag_BGP_comms => Some pretag_BGP_comms_handler
  | F_pretag_sample_type => Some pretag_sample_type_handler | F_pretag_is_bi_flow => Some pretag_is_bi_flow_handler
  | F_pretag_is_nsel => Some pretag_is_nsel_handler | F_pretag_is_nel => Some pretag_is_nel_handler
  | F_pretag_direction => Some pretag_direction_handler | F_pretag_mpls_vpn_id_in => Some pretag_mpls_vpn_id_in_handler
  | F_pretag_mpls_vpn_id_out => Some pretag_mpls_vpn_id_out_handler | F_pretag_mpls_vpn_rd => Some pretag_mpls_vpn_rd_handler
  | F_pretag_mpls_pw_id => Some pretag_mpls_pw_id_handler | F_pretag_src_mac => Some pretag_src_mac_handler
  | F_pretag_dst_mac => Some pretag_dst_mac_handler | F_pretag_vlan_id => Some pretag_vlan_id_handler
  | F_pretag_cvlan_id => Some pretag_cvlan_id_handler | F_pretag_src_net => Some pretag_src_net_handler
  | F_pretag_dst_net => Some pretag_dst_net_handler | F_pretag_ip_proto => Some pretag_ip_proto_handler
  | F_pretag_src_port => Some pretag_src_port_handler | F_pretag_dst_port => Some pretag_dst_port_handler
  | F_pretag_tcp_flags => Some pretag_tcp_flags_handler | F_pretag_is_multicast => Some pretag_is_multicast_handler
  | F_pretag_fwd_status => Some pretag_fwd_status_handler | F_SF_pretag_input => Some SF_pretag_input_handler
  | F_SF_pretag_output => Some SF_pretag_output_handler | F_SF_pretag_nexthop => Some SF_pretag_nexthop_handler
  | F_SF_pretag_bgp_nexthop => Some SF_pretag_bgp_nexthop_handler | F_SF_pretag_engine_id => Some SF_pretag_engine_id_handler
  | F_SF_pretag_agent_id => Some SF_pretag_agent_id_handler | F_SF_pretag_sample_type => Some SF_pretag_sample_type_handler
  | F_SF_pretag_direction => Some SF_pretag_direction_handler | F_SF_pretag_src_as => Some SF_pretag_src_as_handler
  | F_SF_pretag_dst_as => Some SF_pretag_dst_as_handler | F_SF_pretag_src_mac => Some SF_pretag_src_mac_handler
  | F_SF_pretag_dst_mac => Some SF_pretag_dst_mac_handler | F_SF_pretag_vlan_id => Some SF_pretag_vlan_id_handler
  | F_SF_pretag_cvlan_id => Some SF_pretag_cvlan_id_handler | F_SF_pretag_mpls_pw_id => Some SF_pretag_mpls_pw_id_handler
  | F_SF_pretag_src_net => Some SF_pretag_src_net_handler | F_SF_pretag_dst_net => Some SF_pretag_dst_net_handler
  | F_SF_pretag_ip_proto => Some SF_pretag_ip_proto_handler | F_SF_pretag_src_port => Some SF_pretag_src_port_handler
  | F_SF_pretag_dst_port => Some SF_pretag_dst_port_handler | F_SF_pretag_tcp_flags => Some SF_pretag_tcp_flags_handler
  | F_SF_pretag_is_multicast => Some SF_pretag_is_multicast_handler | F_PM_pretag_src_as => Some PM_pretag_src_as_handler
  | F_PM_pretag_dst_as => Some PM_pretag_dst_as_handler | F_PM_pretag_input => Some PM_pretag_input_handler
  | F_PM_pretag_output => Some PM_pretag_output_handler | F_PM_pretag_direction => Some PM_pretag_direction_handler
  | F_BPAS_bgp_nexthop => Some BPAS_bgp_nexthop_handler | F_BPAS_bgp_peer_dst_as => Some BPAS_bgp_peer_dst_as_handler
  | F_BITR_mpls_label_bottom => Some BITR_mpls_label_bottom_handler | F_BITR_mpls_vpn_id => Some BITR_mpls_vpn_id_handler
  | _ => None
  end.

(** The functions that compare with BGP and note that they agreed. *)
Definition note_func (h : pretag_handler) : option (packet -> id_entry -> res (Z * id_entry)) :=
  match h with
  | F_pretag_bgp_bgp_nexthop => Some pretag_bgp_bgp_nexthop_handler
  | F_pretag_bgp_src_as => Some pretag_bgp_src_as_handler
  | F_pretag_bgp_dst_as => Some pretag_bgp_dst_as_handler
  | _ => None
  end.

(** The locals of [pretag_entry_process] that its functions write to, with
    the entry and the packet. *)
Record locals := mk_locals {
  lo_id : Z;
  lo_label : pt_label;
  lo_e : id_entry;
  lo_marks : marks
}.
Definition lo_with_e (e : id_entry) (l : locals) : locals := mk_locals (lo_id l) (lo_label l) e (lo_marks l).

(** The call of [e->func[j]] with [&id] or [label_local]: the type of the
    function decides which of the two it gets, and only [pretag_label_handler] can do
    with a label. *)
Definition run_func (pk : packet) (f : pretag_handler * Z) (l : locals) : res (Z * locals) :=
  let '(h, T) := f in
  let e := lo_e l in
  match h with
  | F_pretag_set_tos => let '(ret, m) := pretag_set_tos_handler e (lo_marks l) in Ok (ret, mk_locals (lo_id l) (lo_label l) e m)
  | F_BTA_lookup_bgp_port => let '(ret, m) := BTA_lookup_bgp_port_handler e (lo_marks l) in Ok (ret, mk_locals (lo_id l) (lo_label l) e m)
  | F_pretag_id =>
      if T =? PRETAG_SET_LABEL then Err OutOfBounds
      else '(ret, id, e) ← pretag_id_handler pk e; Ok (ret, mk_locals id (lo_label l) e (lo_marks l))
  | F_pretag_id2 =>
      if T =? PRETAG_SET_LABEL then Err OutOfBounds
      else let '(ret, id, e) := pretag_id2_handler e in Ok (ret, mk_locals id (lo_label l) e (lo_marks l))
  | F_pretag_label =>
      if T =? PRETAG_SET_LABEL
      then '(ret, label) ← pretag_label_handler (lo_label l) e; Ok (ret, mk_locals (lo_id l) label e (lo_marks l))
      else Err OutOfBounds
  | _ =>
      match compare_func h, note_func h with
      | Some m, _ => ret ← m pk e; Ok (ret, l)
      | None, Some m => '(ret, e) ← m pk e; Ok (ret, lo_with_e e l)
      | None, None => Err NullDeref
      end
  end.

(** The loop over the functions: up to the NULL, which a full array does not
    have. *)
Fixpoint run_funcs (pk : packet) (funcs : list (pretag_handler * Z)) (j : nat) (stop : Z) (l : locals) : res (Z * locals) :=
  match funcs with
  | [] => if (N_MAP_HANDLERS <=? j)%nat then Err OutOfBounds else Ok (stop, l)
  | f :: funcs =>
      '(ret, l) ← run_func pk f l;
      let stop := if TRUE <? ret then Z.lor stop ret else ret in
      if (ret =? 0) || (TRUE <? ret) then run_funcs pk funcs (S j) stop l else Ok (stop, l)
  end.

(** What an entry that agrees writes to the packet. *)
Definition assign (e : id_entry) (stop : Z) (l : locals) (s : pstate) : res pstate :=
  let m := lo_marks l in
  if has stop PRETAG_MAP_RCODE_ID then
    Ok (mk_ps (mark_tags TRUE (m_have_tag2 m) m) (stack_func (e_stack e) (lo_id l) (ps_tag s)) (ps_tag2 s) (ps_sent s))
  else if has stop PRETAG_MAP_RCODE_ID2 then
    tag2 ← deref (ps_tag2 s);
    Ok (mk_ps (mark_tags (m_have_tag m) TRUE m) (ps_tag s) (Some (stack_func (e_stack e) (lo_id l) tag2)) (ps_sent s))
  else if has stop PRETAG_MAP_RCODE_LABEL then
    '(_, label) ← (if negb (lb_len (m_label m) =? 0) then pretag_append_label (m_label m) (lo_label l)
                   else pretag_copy_label (m_label m) (lo_label l));
    Ok (set_marks (mark_label label TRUE m) s)
  else if stop =? BTA_MAP_RCODE_ID_ID2 then
    _ ← deref (ps_tag2 s);
    Ok (mk_ps (mark_tags TRUE TRUE m) (lo_id l) (Some (e_id2 e)) (ps_sent s))
  else Ok (set_marks m s).

(** [jeq] with [return]: the packet goes to the plugins and starts afresh. *)
Definition send_and_reset (s : pstate) : res pstate :=
  _ ← deref (ps_tag2 s);
  let m := ps_marks s in
  let m' := mark_tags FALSE FALSE (mark_label (pretag_free_label (m_label m)) FALSE m) in
  Ok (mk_ps m' 0 (Some 0) (ps_sent s ++ [(m, ps_tag s, ps_tag2 s)])).

Definition pretag_entry_process (e : id_entry) (pk : packet) (s : pstate) : res (Z * id_entry * pstate) :=
  let e := with_last_matched FALSE e in
  '(stop, l) ← run_funcs pk (e_func e) 0 0 (mk_locals 0 label0 e (ps_marks s));
  let e := lo_e l in
  if (stop =? 0) || (TRUE <? stop) then
    s ← assign e stop l s;
    match e_jeq_ptr e with
    | Some _ =>
        s ← (if negb (e_ret e =? 0) then send_and_reset s else Ok s);
        Ok (Z.lor stop PRETAG_MAP_RCODE_JEQ, e, s)
    | None => Ok (stop, e, s)
    end
  else Ok (stop, e, set_marks (lo_marks l) s).

(** ** Looking up a packet *)

(** The tags are zeroed, and there is none in the packet. *)
Definition init_find (t : id_table) (s : pstate) : pstate :=
  mk_ps (mark_tags FALSE FALSE (pretag_init_vars (ps_marks s) t)) 0 ((fun _ => 0) <$> ps_tag2 s) (ps_sent s).

(** The walk over the entries: [agrees] is the test of the agent; an entry
    that matched ends the walk or sends it to another one. *)
Fixpoint find_loop (fuel : nat) (agrees : id_entry -> bool) (pk : packet) (es : list id_entry) (x last ret : Z) (s : pstate)
    : res (Z * list id_entry * pstate) :=
  match fuel with
  | O => Err OutOfFuel
  | S fuel =>
      if last <=? x then Ok (ret, es, s)
      else
        e ← get es x;
        if agrees e then
          '(ret, e, s) ← pretag_entry_process e pk s;
          let es := <[Z.to_nat x := e]> es in
          if (ret =? 0) || (TRUE <? ret) then
            if has ret PRETAG_MAP_RCODE_JEQ then
              ptr ← deref (e_jeq_ptr e);
              target ← get es ptr;
              find_loop fuel agrees pk es (e_pos target) last ret s
            else Ok (ret, es, s)
          else find_loop fuel agrees pk es (x + 1) last ret s
        else find_loop fuel agrees pk es (x + 1) last ret s
  end.

Definition agent_agrees (sa : host_addr) (e : id_entry) : bool :=
  let '(_, a, m) := key_net "agent_ip" (e_key e) in host_addr_mask_sa_cmp a m sa =? 0.

(** [begin] and [end]. *)
Definition range_of (family : Z) (t : id_table) : Z * Z :=
  if family =? AF_INET then (0, t_ipv4_num t)
  else if family =? AF_INET6 then (t_num t - t_ipv6_num t, t_num t) else (0, 0).

Definition find_id (agrees : id_entry -> bool) (range : Z * Z) (t : id_table) (pk : packet) (s : pstate) : res (Z * id_table * pstate) :=
  '(ret, es, s) ← find_loop (S (length (t_e t))) agrees pk (t_e t) (fst range) (snd range) 0 (init_find t s);
  Ok (ret, with_e es t, s).

(** The lookup of NetFlow, of sFlow and of BGP: the entries whose [ip] fits the
    agent. *)
Definition NF_find_id (t : id_table) (pk : packet) (s : pstate) : res (Z * id_table * pstate) :=
  find_id (agent_agrees (pk_agent pk)) (range_of (ha_family (pk_agent pk)) t) t pk s.
Definition SF_find_id (t : id_table) (pk : packet) (s : pstate) : res (Z * id_table * pstate) :=
  find_id (agent_agrees (pk_agent pk)) (range_of (ha_family (pk_agent pk)) t) t pk s.
Definition bgp_tag_find (t : id_table) (pk : packet) (s : pstate) : res (Z * id_table * pstate) :=
  find_id (agent_agrees (pk_agent pk)) (range_of (ha_family (pk_agent pk)) t) t pk s.

(** Captured packets: all the entries. *)
Definition PM_find_id (t : id_table) (pk : packet) (s : pstate) : res (Z * id_table * pstate) :=
  find_id (fun _ => true) (0, t_ipv4_num t) t pk s.

(** ** The agent of BGP, with the cache of the exporter (util.c) *)

Record xflow_status_map_cache := mk_cache {
  mc_tag : Z;
  mc_tag2 : Z;
  mc_port : option Z;
  mc_ret : Z;
  mc_stamp : Z * Z
}.

Definition timeval_cmp (a b : Z * Z) : Z :=
  if fst b <? fst a then 1
  else if fst a <? fst b then -1
  else if snd b <? snd a then 1
  else if snd a <? snd b then -1 else 0.

Definition ETHERTYPE_IP : Z := 0x0800.
Definition ETHERTYPE_IPV6 : Z := 0x86DD.

(** [find] is [find_id_func]; [xsmc] the cache for the packet's protocol, when
    the map may be cached; [now] what [gettimeofday] answers. The address
    family of the agent comes first. *)
Definition BTA_find_id (find : option (id_table -> packet -> pstate -> res (Z * id_table * pstate)))
    (caching : bool) (xsmc : option xflow_status_map_cache) (reload_map_tstamp now : Z * Z)
    (t : id_table) (pk : packet) (s : pstate)
    : res (Z * Z * id_table * option xflow_status_map_cache * pstate) :=
  let xsmc := if caching then xsmc else None in
  let cached := match xsmc with Some c => 0 <? timeval_cmp (mc_stamp c) reload_map_tstamp | None => false end in
  '(ret, t, xsmc, s) ←
    match xsmc, cached with
    | Some c, true =>
        _ ← deref (ps_tag2 s);
        Ok (mc_ret c, t, xsmc, mk_ps (mark_port (mc_port c) (ps_marks s)) (mc_tag c) (Some (mc_tag2 c)) (ps_sent s))
    | _, _ =>
        match find with
        | None => Ok (0, t, xsmc, s)
        | Some find =>
            '(ret, t, s) ← find t pk s;
            match xsmc with
            | None => Ok (ret, t, None, s)
            | Some _ =>
                tag2 ← deref (ps_tag2 s);
                Ok (ret, t, Some (mk_cache (ps_tag s) tag2 (m_lookup_bgp_port (ps_marks s)) ret now), s)
            end
        end
    end;
  let bta_af := if has ret PRETAG_MAP_RCODE_ID then ETHERTYPE_IP
                else if has ret BTA_MAP_RCODE_ID_ID2 then ETHERTYPE_IPV6 else 0 in
  Ok (ret, bta_af, t, xsmc, s).

End Pretag.

End Pretag.
