(* ===== verification/PretagFacts.v ===== *)
(** * Labels and entries

    Copying and appending labels never leaves a buffer, and joins their texts;
    the functions that compare answer a truth value; an entry sets its tag
    exactly when all of them agree. *)

From S2P Require Import Prelude.
From S2P Require Import BgpPrefix.
From S2P Require Import CBuf.
From S2P Require Import BgpAttr.
From S2P Require Import NfTemplate.
From S2P Require Import CfgData.
From S2P Require Import CfgHandlers.
From S2P Require Import PretagData.
From S2P Require Import PretagMap.
From S2P Require Import PretagMapFacts.
From S2P Require Import PretagMatch.
From S2P Require Import Pretag.

Module PretagFacts.
Import CBuf(no_nul, write_at, read_bytes, malloc_buf, c_string_app, strlen_app, strlen_nonneg).
Import CfgData.
Import CfgHandlers.
Import PretagData.
Import PretagMap.
Import PretagMapFacts(compares, sets, bit, member_ok).
Import PretagMatch.
Import Pretag.

(** ** Labels *)

(** The label holds this text: its buffer begins with it and a NUL, and its
    length is that of the text or of a part of the buffer that has the NUL. *)
Definition label_text (l : pt_label) (text : list Z) : Prop :=
  no_nul text /\
  exists r, lb_val l = Some (text ++ 0 :: r) /\
    (lb_len l = strlen text \/ strlen text < lb_len l <= strlen (text ++ 0 :: r)).

Lemma chars_text n text r : no_nul text -> chars n (text ++ 0 :: r) = Ok (take n text).
Proof.
  intros H. revert n. induction H as [| c text Hc _ IH]; intros [| n]; simpl; try done.
  rewrite (proj2 (Z.eqb_neq c 0) Hc). by rewrite IH.
Qed.

(** Writing over the start of a buffer, and at a place in it. *)
Lemma write_start buf b : strlen b <= strlen buf -> write_at buf 0 b = Ok (b ++ drop (length b) buf).
Proof.
  intros H. unfold write_at. rewrite (proj2 (Z.leb_le (0 + strlen b) _)) by lia. done.
Qed.
Lemma write_after a c r b : strlen b = strlen c -> write_at (a ++ c ++ r) (strlen a) b = Ok (a ++ b ++ r).
Proof.
  intros H. unfold write_at. pose proof (strlen_nonneg a). pose proof (strlen_nonneg r).
  rewrite (proj2 (Z.leb_le 0 _)) by lia. rewrite (proj2 (Z.leb_le _ _)) by (rewrite !strlen_app; lia). cbn [andb].
  do 2 f_equal. { unfold strlen. by rewrite Nat2Z.id, take_app_length. }
  f_equal. assert (length b = length c) as -> by (unfold strlen in H; lia).
  rewrite app_assoc. replace (Z.to_nat (strlen a) + length c)%nat with (length (a ++ c)) by (rewrite length_app; unfold strlen; lia).
  apply drop_app_length.
Qed.

(** A text is put before a NUL. *)
Lemma write_string buf s : strlen s < strlen buf -> exists r, write_at buf 0 (s ++ [0]) = Ok (s ++ 0 :: r) /\ strlen (s ++ 0 :: r) = strlen buf.
Proof.
  intros H. rewrite write_start by (rewrite strlen_app; unfold strlen in *; simpl; lia).
  eexists. rewrite <- app_assoc. split; [done |].
  unfold strlen in *. rewrite !length_app. cbn [length app]. rewrite length_drop, ?length_app. cbn [length]. lia.
Qed.

Lemma strcat_text text r s : no_nul text -> strlen s <= strlen r ->
  exists r', strcat (text ++ 0 :: r) s = Ok ((text ++ s) ++ 0 :: r') /\ strlen ((text ++ s) ++ 0 :: r') = strlen (text ++ 0 :: r).
Proof.
  intros Ht Hs. unfold strcat. rewrite c_string_app by done. rewrite bind_Ok.
  assert (0 :: r = take (S (length s)) (0 :: r) ++ drop (S (length s)) (0 :: r)) as E by (by rewrite take_drop).
  rewrite E, write_after.
  - eexists. rewrite <- app_assoc. simpl. rewrite <- !app_assoc. split; [done |].
    rewrite !strlen_app. unfold strlen in *. simpl. rewrite length_app, length_take, length_drop. simpl. lia.
  - rewrite strlen_app. unfold strlen in *. rewrite length_take. simpl. lia.
Qed.

Lemma chars_source l text : label_text l text -> exists val, lb_val l = Some val /\ chars (Z.to_nat (lb_len l)) val = Ok text.
Proof.
  intros (Hn & r & Hv & Hl). eexists. split; [done |]. rewrite chars_text by done. f_equal. apply take_ge.
  unfold strlen in *. lia.
Qed.

Lemma label_text_len l text : label_text l text -> strlen text <= lb_len l.
Proof. intros (_ & r & _ & Hl). lia. Qed.

(** A label that is there. *)
Definition full_label (l : pt_label) (text : list Z) : Prop := label_text l text /\ lb_len l <> 0.

Lemma copy_label_text dst src text :
  lb_val dst = None -> full_label src text -> exists l, pretag_copy_label dst src = Ok (SUCCESS, l) /\ full_label l text.
Proof.
  intros Hd [Hs Hl]. pose proof (label_text_len _ _ Hs). pose proof (strlen_nonneg text).
  destruct (chars_source _ _ Hs) as (val & Hv & Hc). unfold pretag_copy_label. rewrite Hd, (proj2 (Z.eqb_neq _ _) Hl).
  cbn [pretag_malloc_label lb_val lb_len deref]. rewrite !bind_Ok, Hv. cbn [deref]. rewrite bind_Ok. unfold strncpy. rewrite Hc, bind_Ok.
  set (k := Z.to_nat (lb_len src)). assert (Hk : (length text <= k)%nat) by (unfold k, strlen in *; lia).
  assert (Hm : strlen (malloc_buf (lb_len src + 1)) = lb_len src + 1) by (apply CBuf.malloc_length; lia).
  assert (Hp : strlen (text ++ replicate (k - length text) 0) = lb_len src).
  { rewrite strlen_app. unfold strlen. rewrite length_replicate. unfold k, strlen in *. lia. }
  rewrite write_start by lia. rewrite bind_Ok.
  assert (drop (length (text ++ replicate (k - length text) 0)) (malloc_buf (lb_len src + 1)) = [255]) as ->.
  { unfold malloc_buf. rewrite drop_replicate. unfold strlen in Hp. replace (Z.to_nat (lb_len src + 1) - _)%nat with 1%nat by lia. done. }
  destruct Hs as (Hn & r & Hv' & [E | E]).
  - (* the NUL was not counted *)
    replace (k - length text)%nat with 0%nat in * by (unfold k, strlen in *; lia). simpl. rewrite app_nil_r in *.
    destruct (exists_last (l := text)) as (text' & c & ->). { intros ->. unfold strlen in E. simpl in E. lia. }
    pose proof Hn as Hn0. apply Forall_app in Hn as [Hn' Hc']. inversion Hc' as [| ? ? Hc0]; subst.
    assert (CBuf.u8_at ((text' ++ [c]) ++ [255]) (lb_len src - 1) = Ok c) as ->.
    { apply (CBuf.u8_read _ _ _ [255]). exists text', []. rewrite strlen_app in E. unfold strlen at 2 in E. simpl in E.
      rewrite <- app_assoc. simpl. split; [done | lia]. }
    rewrite bind_Ok, (proj2 (Z.eqb_neq c 0) Hc0).
    replace (lb_len src + 1 - 1) with (strlen (text' ++ [c])) by lia.
    pose proof (write_after (text' ++ [c]) [255] [] [0] eq_refl) as Hw. rewrite app_nil_r in Hw. rewrite Hw, bind_Ok.
    eexists. split; [done |]. split; [| cbn [lb_len]; lia]. split; [done |]. exists []. simpl. split; [done |]. right. rewrite strlen_app in E.
    rewrite !strlen_app. change (strlen [0]) with 1. lia.
  - assert (exists m, (k - length text)%nat = S m) as [m Em] by (exists (k - length text - 1)%nat; unfold k, strlen in *; lia).
    rewrite Em, replicate_S_end in *.
    assert (CBuf.u8_at ((text ++ replicate m 0 ++ [0]) ++ [255]) (lb_len src - 1) = Ok 0) as ->.
    { apply (CBuf.u8_read _ _ _ [255]). exists (text ++ replicate m 0), []. rewrite <- !app_assoc. simpl. split; [done |].
      rewrite !strlen_app in *. change (strlen [0]) with 1 in Hp. lia. }
    rewrite bind_Ok. eexists. split; [done |]. split; [| done]. split; [done |]. exists (replicate m 0 ++ [255]). simpl.
    rewrite <- replicate_S_end. simpl. rewrite <- app_assoc. simpl. split; [done |]. right.
    rewrite !strlen_app in *. change (strlen (0 :: replicate m 0 ++ [255])) with (Z.of_nat (S (length (replicate m 0 ++ [255])))).
    change (strlen [0]) with 1 in Hp. unfold strlen in *. rewrite length_app, length_replicate in *. simpl. lia.
Qed.

(** A NUL over the last byte leaves the text. *)
Lemma write_last buf text r total :
  buf = text ++ 0 :: r -> strlen buf = total -> strlen text <= total - 1 ->
  exists r', write_at buf (total - 1) [0] = Ok (text ++ 0 :: r') /\ strlen (text ++ 0 :: r') = total.
Proof.
  intros -> Ht Hl. destruct (exists_last (l := 0 :: r)) as (init & c & E); [done |]. rewrite E in *.
  rewrite !strlen_app in Ht. change (strlen [c]) with 1 in Ht.
  replace (total - 1) with (strlen (text ++ init)) by (rewrite strlen_app; lia).
  pose proof (write_after (text ++ init) [c] [] [0] eq_refl) as Hw. rewrite app_nil_r, <- !app_assoc in Hw. rewrite Hw.
  destruct init as [| x init]; simpl in E; injection E as <- E'.
  - exists []. split; [done |]. rewrite !strlen_app in *. unfold strlen in *. simpl in *. lia.
  - exists (init ++ [0]). simpl. split; [done |]. rewrite strlen_app. unfold strlen in *. simpl in *. rewrite length_app in *. simpl. lia.
Qed.

Lemma append_label_text dst src t1 t2 :
  label_text dst t1 -> full_label src t2 ->
  exists l, pretag_append_label dst src = Ok (SUCCESS, l) /\ full_label l (t1 ++ DEFAULT_SEP ++ t2).
Proof.
  intros Hd [Hs Hl]. pose proof (label_text_len _ _ Hs). pose proof (label_text_len _ _ Hd).
  pose proof (strlen_nonneg t1). pose proof (strlen_nonneg t2). destruct (chars_source _ _ Hs) as (val & Hv & Hc).
  destruct Hd as (Hn1 & r1 & Hv1 & _). pose proof Hs as (Hn2 & _).
  unfold pretag_append_label. rewrite Hv1, (proj2 (Z.eqb_neq _ _) Hl). unfold pretag_realloc_label. rewrite Hv1. cbn [deref].
  rewrite bind_Ok. unfold strcpy. rewrite c_string_app by done. rewrite bind_Ok.
  set (total := lb_len dst + (lb_len src + 1 + 1)).
  assert (Ht : strlen (replicate (Z.to_nat total) 0) = total) by (unfold strlen, total; rewrite length_replicate; lia).
  destruct (write_string (replicate (Z.to_nat total) 0) t1) as (r2 & -> & Hr2); [unfold total in *; lia |].
  rewrite !bind_Ok. cbn [lb_val lb_len deref]. rewrite bind_Ok.
  destruct (strcat_text t1 r2 DEFAULT_SEP) as (r3 & -> & Hr3); [done | |].
  { rewrite Ht, strlen_app in Hr2. change (strlen (0 :: r2)) with (Z.of_nat (S (length r2))) in Hr2. change (strlen DEFAULT_SEP) with 1.
    unfold strlen, total in *. lia. }
  rewrite bind_Ok, Hv. cbn [deref]. rewrite bind_Ok. unfold strncat. rewrite Hc, bind_Ok.
  assert (Hn3 : no_nul (t1 ++ DEFAULT_SEP)) by (apply Forall_app; split; [done |]; by repeat constructor).
  destruct (strcat_text (t1 ++ DEFAULT_SEP) r3 t2) as (r4 & -> & Hr4); [done | |].
  { rewrite Hr2, Ht, !strlen_app in Hr3. change (strlen (0 :: r3)) with (Z.of_nat (S (length r3))) in Hr3.
    change (strlen DEFAULT_SEP) with 1 in Hr3. unfold strlen, total in *. lia. }
  rewrite bind_Ok. assert (Hl4 : strlen (((t1 ++ DEFAULT_SEP) ++ t2) ++ 0 :: r4) = total) by congruence.
  rewrite <- (app_assoc t1 DEFAULT_SEP t2) in *. set (text := t1 ++ DEFAULT_SEP ++ t2) in *.
  assert (Hlt : strlen text <= total - 1).
  { unfold text, total. rewrite !strlen_app. change (strlen DEFAULT_SEP) with 1. lia. }
  destruct (write_last (text ++ 0 :: r4) text r4 total) as (r5 & -> & Hr5); [done | done | done |].
  rewrite bind_Ok. eexists. split; [done |]. split; [| cbn [lb_len]; pose proof (strlen_nonneg text); lia]. split.
  - unfold text. apply Forall_app. split; [done |]. apply Forall_app. split; [by repeat constructor | done].
  - exists r5. cbn [lb_val lb_len]. split; [done |]. right. lia.
Qed.

(** ** The functions that compare *)

Section Compare.
Context {ho : host} {env : pt_env}.

(** One of them, and the entry afterwards. *)
Definition compare (pk : packet) (h : pretag_handler) (e : id_entry) : res (Z * id_entry) :=
  match compare_func h, note_func h with
  | Some m, _ => ret ← m pk e; Ok (ret, e)
  | None, Some m => m pk e
  | None, None => Err NullDeref
  end.

(** All of them, up to the first that does not agree. *)
Fixpoint compare_all (pk : packet) (fs : list (pretag_handler * Z)) (e : id_entry) : res (Z * id_entry) :=
  match fs with
  | [] => Ok (0, e)
  | f :: fs => '(ret, e) ← compare pk (fst f) e; if ret =? 0 then compare_all pk fs e else Ok (ret, e)
  end.

Definition bit_res (r : res Z) : Prop := match r with Ok v => bit v | Err _ => True end.
Definition key_ok (e : id_entry) : Prop := map_Forall (fun _ => member_ok) (e_key e).

Lemma verdict_bit neg b : bit neg -> bit_res (Ok (verdict neg b)).
Proof. intros [-> | ->]; destruct b; cbv; auto. Qed.
Lemma const_bit v : bit v -> bit_res (Ok v).
Proof. done. Qed.
Lemma xor_bit neg : bit neg -> bit_res (Ok (Z.lxor TRUE neg)).
Proof. intros [-> | ->]; cbv; auto. Qed.
Lemma bind_bit {A} (m : res A) k : (forall a, bit_res (k a)) -> bit_res (m ≫= k).
Proof. intros H. destruct m; simpl; [apply H | done]. Qed.
Lemma if_bit (b : bool) r r' : bit_res r -> bit_res r' -> bit_res (if b then r else r').
Proof. by destruct b. Qed.
Lemma with_data_bit pk k : (forall d, bit_res (k d)) -> bit_res (with_data pk k).
Proof. intros H. unfold with_data. destruct (pk_data pk); [apply H | by right]. Qed.
Lemma by_version_bit pk a b c : bit_res a -> bit_res b -> bit_res c -> bit_res (by_version pk a b c).
Proof. intros. unfold by_version. by repeat apply if_bit. Qed.
Lemma with_tpl_bit pk k : (forall t, bit_res (k t)) -> bit_res (with_tpl pk k).
Proof. intros H. unfold with_tpl. by apply bind_bit. Qed.

Lemma member_bit f e v : key_ok e -> e_key e !! f = Some v -> member_ok v.
Proof. intros H E. exact (H _ _ E). Qed.
Lemma key_num_bit f e : key_ok e -> bit (fst (key_num f (e_key e))).
Proof. intros H. unfold key_num. destruct (e_key e !! f) as [[] |] eqn:E; try by left. exact (member_bit _ _ _ H E). Qed.
Lemma key_addr_bit f e : key_ok e -> bit (fst (key_addr f (e_key e))).
Proof. intros H. unfold key_addr. destruct (e_key e !! f) as [[] |] eqn:E; try by left. exact (member_bit _ _ _ H E). Qed.
Lemma key_mac_bit f e : key_ok e -> bit (fst (key_mac f (e_key e))).
Proof. intros H. unfold key_mac. destruct (e_key e !! f) as [[] |] eqn:E; try by left. exact (member_bit _ _ _ H E). Qed.
Lemma key_rd_bit f e : key_ok e -> bit (fst (key_rd f (e_key e))).
Proof. intros H. unfold key_rd. destruct (e_key e !! f) as [[] |] eqn:E; try by left. exact (member_bit _ _ _ H E). Qed.
Lemma key_net_bit f e : key_ok e -> bit (fst (fst (key_net f (e_key e)))).
Proof. intros H. unfold key_net. destruct (e_key e !! f) as [[] |] eqn:E; try by left. exact (member_bit _ _ _ H E). Qed.

Ltac open_key :=
  match goal with
  | H : key_ok ?e |- context [key_num ?f (e_key ?e)] =>
      let Hb := fresh in pose proof (key_num_bit f e H) as Hb; destruct (key_num f (e_key e)) as [? ?]; cbn [fst] in Hb
  | H : key_ok ?e |- context [key_mac ?f (e_key ?e)] =>
      let Hb := fresh in pose proof (key_mac_bit f e H) as Hb; destruct (key_mac f (e_key e)) as [? ?]; cbn [fst] in Hb
  | H : key_ok ?e |- context [key_rd ?f (e_key ?e)] =>
      let Hb := fresh in pose proof (key_rd_bit f e H) as Hb; destruct (key_rd f (e_key e)) as [? ?]; cbn [fst] in Hb
  | H : key_ok ?e |- context [let '(_, _) := key_addr ?f (e_key ?e) in _] =>
      let Hb := fresh in pose proof (key_addr_bit f e H) as Hb; destruct (key_addr f (e_key e)) as [? ?]; cbn [fst] in Hb
  | H : key_ok ?e |- context [key_net ?f (e_key ?e)] =>
      let Hb := fresh in pose proof (key_net_bit f e H) as Hb; destruct (key_net f (e_key e)) as [[? ?] ?]; cbn [fst] in Hb
  end.
Ltac bits :=
  repeat first
    [ assumption | exact I
    | apply verdict_bit; assumption | apply xor_bit; assumption
    | apply const_bit; first [by left | by right]
    | apply if_bit | apply with_data_bit; intros | apply by_version_bit | apply with_tpl_bit; intros
    | apply bind_bit; intros ].
Ltac matcher_bit :=
  intros ? ? ?;
  match goal with |- bit_res (?m ?pk ?e) => let g := eval red in m in change (bit_res (g pk e)) end; cbv beta zeta;
  try open_key; cbv beta zeta; bits.

(** The generic ones first. *)
Lemma iface_match_bit f a b c pk e : key_ok e -> bit_res (iface_match f a b c pk e).
Proof. intros H. unfold iface_match. open_key. bits. Qed.
Lemma as_match_bit f a b c pk e : key_ok e -> bit_res (as_match f a b c pk e).
Proof. intros H. unfold as_match. open_key. bits. Qed.
Lemma event_match_bit f a pk e : key_ok e -> bit_res (event_match f a pk e).
Proof. intros H. unfold event_match. open_key. bits. Qed.
Lemma vrf_match_bit f a pk e : key_ok e -> bit_res (vrf_match f a pk e).
Proof. intros H. unfold vrf_match. open_key. bits. Qed.
Lemma mac_match_bit f a pk e : key_ok e -> bit_res (mac_match f a pk e).
Proof. intros H. unfold mac_match. open_key. bits. Qed.
Lemma vlan_match_bit f a b pk e : key_ok e -> bit_res (vlan_match f a b pk e).
Proof. intros H. unfold vlan_match. open_key. bits. Qed.
Lemma net_match_bit f a b c d o pk e : key_ok e -> bit_res (net_match f a b c d o pk e).
Proof. intros H. unfold net_match. open_key. bits. Qed.
Lemma num_match_bit f a b c d pk e : key_ok e -> bit_res (num_match f a b c d pk e).
Proof. intros H. unfold num_match. open_key. bits. Qed.
Lemma SF_num_bit f fld pk e : key_ok e -> bit_res (SF_num f fld pk e).
Proof. intros H. unfold SF_num. open_key. bits. Qed.
Lemma SF_as_match_bit f n fld pk e : key_ok e -> bit_res (SF_as_match f n fld pk e).
Proof. intros H. unfold SF_as_match. apply if_bit; [by left | by apply SF_num_bit]. Qed.
Lemma SF_mac_bit f fld pk e : key_ok e -> bit_res (SF_mac f fld pk e).
Proof. intros H. unfold SF_mac. open_key. bits. Qed.
Lemma SF_net_bit f a b pk e : key_ok e -> bit_res (SF_net f a b pk e).
Proof. intros H. unfold SF_net. open_key. bits. Qed.
Lemma comms_match_bit l a : bit_res (comms_match l a).
Proof. unfold comms_match. destruct (a ≫= pa_community); [| by right]. apply bind_bit. intros t. case_match; [by right | by left]. Qed.
Lemma v5_nexthop_bit neg a d : bit neg -> bit_res (v5_nexthop neg a d).
Proof. intros H. unfold v5_nexthop. bits. Qed.
Lemma flowset_bit pk e : key_ok e -> bit_res (pretag_flowset_id_handler pk e).
Proof. intros H. unfold pretag_flowset_id_handler. open_key. destruct (pk_tpl pk); bits. Qed.
Lemma filter_bit pk e : key_ok e -> bit_res (pretag_filter_handler pk e).
Proof. intros H. unfold pretag_filter_handler. case_match; [by left | by right]. Qed.

Lemma compare_func_bit h m pk e : compare_func h = Some m -> key_ok e -> bit_res (m pk e).
Proof.
  intros E. revert pk e.
  destruct h; simpl in E; try discriminate; injection E as <-; intros pk e H;
    first [ by left | by apply flowset_bit | by apply filter_bit
          | match goal with |- bit_res (?m ?pk ?e) => let g := eval red in m in change (bit_res (g pk e)) end; cbv beta zeta;
            first [ apply iface_match_bit; exact H | apply as_match_bit; exact H | apply event_match_bit; exact H
                  | apply vrf_match_bit; exact H | apply mac_match_bit; exact H | apply vlan_match_bit; exact H
                  | apply net_match_bit; exact H | apply num_match_bit; exact H | apply SF_num_bit; exact H
                  | apply SF_as_match_bit; exact H | apply SF_mac_bit; exact H | apply SF_net_bit; exact H
                  | apply comms_match_bit
                  | open_key; cbv beta zeta; repeat first [progress bits | apply v5_nexthop_bit] ] ].
Qed.

(** What an evaluation may change in an entry. *)
Definition same_but_ids (e e' : id_entry) : Prop := exists i i2 m, e' = with_id i (with_id2 i2 (with_last_matched m e)).

Lemma same_refl e : same_but_ids e e.
Proof. exists (e_id e), (e_id2 e), (e_last_matched e). by destruct e. Qed.
Lemma same_trans e1 e2 e3 : same_but_ids e1 e2 -> same_but_ids e2 e3 -> same_but_ids e1 e3.
Proof. intros (i & i2 & m & ->) (j & j2 & n & ->). by exists j, j2, n. Qed.
Lemma same_matched m e : same_but_ids e (with_last_matched m e).
Proof. exists (e_id e), (e_id2 e), m. by destruct e. Qed.
Lemma same_id i e : same_but_ids e (with_id i e).
Proof. exists i, (e_id2 e), (e_last_matched e). by destruct e. Qed.
Lemma same_id2 i e : same_but_ids e (with_id2 i e).
Proof. exists (e_id e), i, (e_last_matched e). by destruct e. Qed.

(** Comparing only notes what matched last. *)
Definition noted (e e' : id_entry) : Prop := e' = e \/ exists m, e' = with_last_matched m e.
Lemma noted_trans e1 e2 e3 : noted e1 e2 -> noted e2 e3 -> noted e1 e3.
Proof. intros [-> | [m ->]] [-> | [n ->]]; [by left | right; by exists n | right; by exists m | right; by exists n]. Qed.
Lemma noted_same e e' : noted e e' -> same_but_ids e e'.
Proof. intros [-> | [m ->]]; [apply same_refl | apply same_matched]. Qed.
Lemma noted_key e e' : noted e e' -> e_key e' = e_key e.
Proof. by intros [-> | [m ->]]. Qed.

Lemma bgp_as_match_noted f T attr e r e' : key_ok e -> bgp_as_match f T attr e = Ok (r, e') -> bit r /\ noted e e'.
Proof.
  intros H. unfold bgp_as_match. open_key. repeat case_match; intros [= <- <-]; (split; [| first [by left | right; by eexists]]).
  - by apply (verdict_bit _ true).
  - by left.
  - by apply xor_bit.
Qed.
Lemma note_func_noted h m pk e r e' : note_func h = Some m -> key_ok e -> m pk e = Ok (r, e') -> bit r /\ noted e e'.
Proof.
  intros E H. destruct h; simpl in E; try discriminate; injection E as <-; [| by apply bgp_as_match_noted ..].
  unfold pretag_bgp_bgp_nexthop_handler. open_key. cbv zeta.
  match goal with |- context [if ?b then Ok (Z.lor _ _, _) else _] => destruct b end.
  - intros [= <- <-]. split; [by apply (verdict_bit _ true) | right; by eexists].
  - case_match; intros [= <- <-]; (split; [| by left]); [by left | by apply xor_bit].
Qed.

(** Comparing answers a truth value. *)
Lemma compare_noted pk h e r e' : key_ok e -> compare pk h e = Ok (r, e') -> bit r /\ noted e e'.
Proof.
  intros H. unfold compare. destruct (compare_func h) as [m |] eqn:E.
  - pose proof (compare_func_bit h m pk e E H) as Hb. destruct (m pk e); [| done]. intros [= <- <-]. split; [done | by left].
  - destruct (note_func h) as [m |] eqn:E'; [| done]. by apply (note_func_noted h).
Qed.
Lemma compare_all_noted pk fs e r e' : key_ok e -> compare_all pk fs e = Ok (r, e') -> bit r /\ noted e e'.
Proof.
  revert e. induction fs as [| f fs IH]; intros e H; simpl.
  - intros [= <- <-]. split; by left.
  - destruct (compare pk (fst f) e) as [[r1 e1] |] eqn:E; [rewrite bind_Ok | done].
    destruct (compare_noted _ _ _ _ _ H E) as [Hb Hn]. case_match.
    + intros E1. destruct (IH e1) as [Hb' Hn']; [unfold key_ok; by rewrite (noted_key _ _ Hn) | done |].
      split; [done | by apply (noted_trans _ e1)].
    + intros [= <- <-]. done.
Qed.

(** ** The loop over the functions *)

Lemma run_func_compare pk h T l : compares h = true ->
  run_func pk (h, T) l = ('(r, e) ← compare pk h (lo_e l); Ok (r, lo_with_e e l)).
Proof.
  intros H. assert (lo_with_e (lo_e l) l = l) as Hl by (by destruct l).
  unfold compare, run_func. destruct h; try discriminate H; cbv beta iota zeta delta [compare_func note_func];
    match goal with |- context [mbind _ (?m pk (lo_e l))] => destruct (m pk (lo_e l)) as [x |]; [| done] end;
    rewrite !bind_Ok; rewrite ?Hl; by try destruct x.
Qed.

Lemma run_compare pk cmps ss j l r e' :
  Forall (fun f => compares (fst f) = true) cmps -> compare_all pk cmps (lo_e l) = Ok (r, e') -> bit r ->
  run_funcs pk (cmps ++ ss) j 0 l =
    if r =? 0 then run_funcs pk ss (j + length cmps) 0 (lo_with_e e' l) else Ok (r, lo_with_e e' l).
Proof.
  intros Hc. revert j l. induction Hc as [| [h T] cmps Hh _ IH]; intros j l E Hr; cbn [compare_all fst length app run_funcs] in E |- *.
  - injection E as <- <-. rewrite Nat.add_0_r. by destruct l.
  - rewrite run_func_compare by done. destruct (compare pk h (lo_e l)) as [[r1 e1] |] eqn:E1; [| done].
    rewrite !bind_Ok in *. destruct (r1 =? 0) eqn:E0.
    + apply Z.eqb_eq in E0 as ->. transitivity (run_funcs pk (cmps ++ ss) (S j) 0 (lo_with_e e1 l)); [reflexivity |].
      rewrite (IH (S j) (lo_with_e e1 l)) by done. by rewrite Nat.add_succ_comm.
    + injection E as -> ->. rewrite E0. destruct Hr as [-> | ->]; [done |]. done.
Qed.

Lemma run_compare_fault pk cmps ss j l er :
  Forall (fun f => compares (fst f) = true) cmps -> compare_all pk cmps (lo_e l) = Err er -> run_funcs pk (cmps ++ ss) j 0 l = Err er.
Proof.
  intros Hc. revert j l. induction Hc as [| [h T] cmps Hh _ IH]; intros j l E; cbn [compare_all fst app run_funcs] in E |- *; [done |].
  rewrite run_func_compare by done. destruct (compare pk h (lo_e l)) as [[r1 e1] | er1] eqn:E1; [| by injection E as ->].
  rewrite bind_Ok in E. rewrite !bind_Ok. destruct (r1 =? 0) eqn:E0; [| done]. apply Z.eqb_eq in E0 as ->.
  exact (IH (S j) (lo_with_e e1 l) E).
Qed.

(** The functions that set something; [pretag_id_handler] may be put last
    without a type. *)
Definition set_func (f : pretag_handler * Z) : Prop := sets f \/ f = (F_pretag_id, 0).
#[export] Instance set_func_dec f : Decision (set_func f).
Proof. unfold set_func, sets. apply _. Defined.

(** Their code and what they write, as functions of the entry. *)
Definition set_code (flags : Z) (h : pretag_handler) : Z :=
  match h with
  | F_pretag_set_tos => PRETAG_MAP_RCODE_SET_TOS
  | F_BTA_lookup_bgp_port => BTA_MAP_RCODE_LOOKUP_BGP_PORT
  | F_pretag_id => if flags =? BTA_MAP_RCODE_ID_ID2 then BTA_MAP_RCODE_ID_ID2 else PRETAG_MAP_RCODE_ID
  | F_pretag_id2 => PRETAG_MAP_RCODE_ID2
  | F_pretag_label => PRETAG_MAP_RCODE_LABEL
  | _ => 0
  end.
Definition set_step (l : locals) (f : pretag_handler * Z) : locals :=
  let e := lo_e l in
  match fst f with
  | F_pretag_set_tos => mk_locals (lo_id l) (lo_label l) e (snd (pretag_set_tos_handler e (lo_marks l)))
  | F_BTA_lookup_bgp_port => mk_locals (lo_id l) (lo_label l) e (snd (BTA_lookup_bgp_port_handler e (lo_marks l)))
  | F_pretag_id => mk_locals (e_id e) (lo_label l) (if negb (e_id_inc e =? 0) then with_id (u64 (e_id e + 1)) e else e) (lo_marks l)
  | F_pretag_id2 => mk_locals (e_id2 e) (lo_label l) (if negb (e_id2_inc e =? 0) then with_id2 (u64 (e_id2 e + 1)) e else e) (lo_marks l)
  | F_pretag_label =>
      mk_locals (lo_id l) (match pretag_copy_label (lo_label l) (e_label e) with Ok (_, x) => x | Err _ => lo_label l end) e (lo_marks l)
  | _ => l
  end.

(** A label that can be copied. *)
Definition label_ok (l : pt_label) : Prop := (lb_val l = None /\ lb_len l = 0) \/ exists text, label_text l text.

Lemma label_ok_copy dst src : lb_val dst = None -> label_ok dst -> label_ok src ->
  exists r l, pretag_copy_label dst src = Ok (r, l) /\ label_ok l.
Proof.
  intros Hd Hdo Hs. destruct (decide (lb_len src = 0)) as [E0 | E0].
  - unfold pretag_copy_label. rewrite Hd, E0. simpl. eauto.
  - destruct Hs as [[_ ?] | [text Ht]]; [done |].
    destruct (copy_label_text dst src text Hd (conj Ht E0)) as (l & -> & Hl & _). do 2 eexists. split; [done |]. right. by exists text.
Qed.
Lemma copy_label_total dst src : label_ok dst -> label_ok src -> exists r l, pretag_copy_label dst src = Ok (r, l) /\ label_ok l.
Proof.
  intros Hd Hs. destruct (lb_val dst) eqn:E; [| by apply label_ok_copy].
  unfold pretag_copy_label. rewrite E. eauto.
Qed.
Lemma append_label_total dst src : label_ok dst -> label_ok src -> exists r l, pretag_append_label dst src = Ok (r, l) /\ label_ok l.
Proof.
  intros Hd Hs. destruct (lb_val dst) as [val |] eqn:E; [| unfold pretag_append_label; rewrite E; eauto].
  destruct (decide (lb_len src = 0)) as [E0 | E0]; [unfold pretag_append_label; rewrite E, E0; simpl; eauto |].
  destruct Hd as [[? _] | [t1 H1]]; [congruence |]. destruct Hs as [[_ ?] | [t2 H2]]; [done |].
  destruct (append_label_text dst src t1 t2 H1 (conj H2 E0)) as (l & -> & Hl & _). do 2 eexists. split; [done |]. right. by eexists.
Qed.

(** A function that sets something: never a fault. *)
Lemma run_func_set pk f l :
  set_func f -> (e_id (lo_e l) =? 0) && (e_flags (lo_e l) =? BPAS_MAP_RCODE_BGP) = false ->
  label_ok (e_label (lo_e l)) -> label_ok (lo_label l) ->
  run_func pk f l = Ok (set_code (e_flags (lo_e l)) (fst f), set_step l f) /\ label_ok (lo_label (set_step l f)).
Proof.
  intros Hf Hb He Hl. destruct Hf as [[-> | [-> | [-> | [-> | ->]]]] | ->]; simpl; try done.
  - unfold pretag_id_handler. rewrite Hb, bind_Ok. unfold set_step. simpl. by destruct (e_id_inc (lo_e l) =? 0).
  - unfold pretag_label_handler. unfold set_step. simpl. by destruct (copy_label_total _ _ Hl He) as (r & x & -> & Hx).
  - unfold pretag_id_handler. rewrite Hb, bind_Ok. unfold set_step. simpl. by destruct (e_id_inc (lo_e l) =? 0).
Qed.

Lemma set_step_same l f : same_but_ids (lo_e l) (lo_e (set_step l f)).
Proof.
  unfold set_step. destruct (fst f); simpl; try apply same_refl; case_match; simpl; try apply same_refl; [apply same_id | apply same_id2].
Qed.
Lemma set_steps_same l ss : same_but_ids (lo_e l) (lo_e (fold_left set_step ss l)).
Proof.
  revert l. induction ss as [| f ss IH]; intros l; simpl; [apply same_refl |].
  by apply (same_trans _ (lo_e (set_step l f))); [apply set_step_same |].
Qed.

Definition set_codes (flags : Z) (ss : list (pretag_handler * Z)) (stop : Z) : Z :=
  fold_left (fun s f => Z.lor s (set_code flags (fst f))) ss stop.

Lemma set_code_many flags f : set_func f -> TRUE < set_code flags (fst f) /\ Z.testbit (set_code flags (fst f)) 0 = false.
Proof.
  intros [[-> | [-> | [-> | [-> | ->]]]] | ->]; simpl; try (split; [by vm_compute | done]);
    destruct (flags =? BTA_MAP_RCODE_ID_ID2); (split; [by vm_compute | done]).
Qed.
(** The codes together are 0 or more than 1. *)
Lemma set_codes_many flags ss stop : Forall set_func ss -> 0 <= stop -> Z.testbit stop 0 = false ->
  (set_codes flags ss stop =? 0) || (TRUE <? set_codes flags ss stop) = true.
Proof.
  intros H. revert stop. induction H as [| f ss Hf _ IH]; intros stop H0 Hb; simpl.
  - destruct (Z.eqb_spec stop 0); [done |]. apply Z.ltb_lt. assert (stop <> 1) by (intros ->; done). change TRUE with 1. lia.
  - destruct (set_code_many flags f Hf) as [H1 H2]. change TRUE with 1 in H1. apply IH; [apply Z.lor_nonneg; lia |].
    by rewrite Z.lor_spec, Hb, H2.
Qed.
Lemma has_lor a b f : has (Z.lor a b) f = has a f || has b f.
Proof.
  unfold has. rewrite Z.land_lor_distr_l. rewrite <- negb_andb. f_equal.
  apply eq_iff_eq_true. rewrite andb_true_iff, !Z.eqb_eq. apply Z.lor_eq_0_iff.
Qed.
Lemma has_codes flags ss stop f : has (set_codes flags ss stop) f = has stop f || existsb (fun g => has (set_code flags (fst g)) f) ss.
Proof.
  revert stop. induction ss as [| g ss IH]; intros stop; simpl; [by rewrite orb_false_r |].
  unfold set_codes in *. simpl. by rewrite IH, has_lor, orb_assoc.
Qed.

Lemma run_sets pk ss j stop l :
  Forall set_func ss -> (j + length ss < N_MAP_HANDLERS)%nat -> e_flags (lo_e l) <> BPAS_MAP_RCODE_BGP ->
  label_ok (e_label (lo_e l)) -> label_ok (lo_label l) ->
  run_funcs pk ss j stop l = Ok (set_codes (e_flags (lo_e l)) ss stop, fold_left set_step ss l) /\
  label_ok (lo_label (fold_left set_step ss l)).
Proof.
  intros H. revert j stop l. induction H as [| f ss Hf _ IH]; intros j stop l Hj Hb He Hl; cbn [run_funcs fold_left length] in *.
  - rewrite (proj2 (Nat.leb_gt _ _)) by lia. done.
  - assert ((e_id (lo_e l) =? 0) && (e_flags (lo_e l) =? BPAS_MAP_RCODE_BGP) = false) as Hb'
      by (rewrite (proj2 (Z.eqb_neq _ _) Hb); apply andb_false_r).
    destruct (run_func_set pk f l Hf Hb' He Hl) as [-> Hl']. rewrite bind_Ok.
    destruct (set_code_many (e_flags (lo_e l)) f Hf) as [H1 _]. rewrite (proj2 (Z.ltb_lt _ _) H1), orb_true_r.
    destruct (set_step_same l f) as (i & i2 & m & E). assert (e_flags (lo_e (set_step l f)) = e_flags (lo_e l)) as Ef by (by rewrite E).
    destruct (IH (S j) (Z.lor stop (set_code (e_flags (lo_e l)) (fst f))) (set_step l f)) as [-> Hl'']; [lia | by rewrite Ef | by rewrite E | done |].
    split; [| done]. by rewrite Ef.
Qed.

(** When they fill the array. *)
Lemma run_sets_full pk ss j stop l :
  Forall set_func ss -> (j + length ss = N_MAP_HANDLERS)%nat -> e_flags (lo_e l) <> BPAS_MAP_RCODE_BGP ->
  label_ok (e_label (lo_e l)) -> label_ok (lo_label l) -> run_funcs pk ss j stop l = Err OutOfBounds.
Proof.
  intros H. revert j stop l. induction H as [| f ss Hf _ IH]; intros j stop l Hj Hb He Hl; cbn [run_funcs length] in *.
  - by rewrite (proj2 (Nat.leb_le _ _)) by lia.
  - assert ((e_id (lo_e l) =? 0) && (e_flags (lo_e l) =? BPAS_MAP_RCODE_BGP) = false) as Hb'
      by (rewrite (proj2 (Z.eqb_neq _ _) Hb); apply andb_false_r).
    destruct (run_func_set pk f l Hf Hb' He Hl) as [-> Hl']. rewrite bind_Ok.
    destruct (set_code_many (e_flags (lo_e l)) f Hf) as [H1 _]. rewrite (proj2 (Z.ltb_lt _ _) H1), orb_true_r.
    destruct (set_step_same l f) as (i & i2 & m & E). apply IH; [lia | by rewrite E | by rewrite E | done].
Qed.

(** ** Entries *)

(** The functions of an entry are those that compare and then those that
    set. *)
Record entry_wf (e : id_entry) (cmps ss : list (pretag_handler * Z)) : Prop := {
  wf_func : e_func e = cmps ++ ss;
  wf_cmps : Forall (fun f => compares (fst f) = true) cmps;
  wf_sets : Forall set_func ss;
  wf_len : (length (e_func e) <= N_MAP_HANDLERS)%nat;
  wf_key : key_ok e;
  wf_label : label_ok (e_label e)
}.

(** An array that is not full has its NULL. *)
Definition roomy (e : id_entry) : Prop := (length (e_func e) < N_MAP_HANDLERS)%nat.
#[export] Instance roomy_dec e : Decision (roomy e).
Proof. unfold roomy. apply _. Defined.

Lemma entry_wf_same e e' cmps ss : same_but_ids e e' -> entry_wf e cmps ss -> entry_wf e' cmps ss.
Proof. intros (i & i2 & m & ->) []. by split. Qed.

(** The answer of all the keys, from a fresh start. *)
Definition keys_answer (pk : packet) (cmps : list (pretag_handler * Z)) (e : id_entry) : res (Z * id_entry) :=
  compare_all pk cmps (with_last_matched FALSE e).

Definition final_locals (ss : list (pretag_handler * Z)) (e' : id_entry) (s : pstate) : locals :=
  fold_left set_step ss (mk_locals 0 label0 e' (ps_marks s)).

Lemma process_differs pk e s cmps ss e' : entry_wf e cmps ss -> keys_answer pk cmps e = Ok (1, e') ->
  pretag_entry_process e pk s = Ok (1, e', s).
Proof.
  intros [Hf Hc _ _ _ _] E. unfold pretag_entry_process. simpl. rewrite Hf.
  rewrite (run_compare pk cmps ss 0 (mk_locals 0 label0 (with_last_matched FALSE e) (ps_marks s)) 1 e' Hc E) by (by right).
  simpl. by destruct s.
Qed.

Lemma process_faults pk e s cmps ss er : entry_wf e cmps ss -> keys_answer pk cmps e = Err er -> pretag_entry_process e pk s = Err er.
Proof.
  intros [Hf Hc _ _ _ _] E. unfold pretag_entry_process. simpl. rewrite Hf.
  by rewrite (run_compare_fault pk cmps ss 0 (mk_locals 0 label0 (with_last_matched FALSE e) (ps_marks s)) er Hc E).
Qed.

(** A full array of functions has no NULL: with eight of them that agree the
    loop reads after the array. *)
Lemma process_overruns pk e s cmps ss e1 :
  entry_wf e cmps ss -> ~ roomy e -> e_flags e <> BPAS_MAP_RCODE_BGP ->
  keys_answer pk cmps e = Ok (0, e1) -> pretag_entry_process e pk s = Err OutOfBounds.
Proof.
  intros [Hf Hc Hs Hlen Hk Hl] Hfull Hb E. unfold pretag_entry_process. simpl. unfold roomy in Hfull. rewrite Hf in *.
  rewrite (run_compare pk cmps ss 0 (mk_locals 0 label0 (with_last_matched FALSE e) (ps_marks s)) 0 e1 Hc E) by (by left).
  destruct (compare_all_noted pk cmps (with_last_matched FALSE e) 0 e1 Hk E) as [_ Hn].
  rewrite run_sets_full; [done | done | rewrite length_app in *; lia | | | by left];
    by destruct Hn as [-> | [m ->]].
Qed.

Lemma process_agrees pk e s cmps ss e' : entry_wf e cmps ss -> roomy e -> e_flags e <> BPAS_MAP_RCODE_BGP -> keys_answer pk cmps e = Ok (0, e') ->
  let l := final_locals ss e' s in let stop := set_codes (e_flags e) ss 0 in
  label_ok (lo_label l) /\ same_but_ids e (lo_e l) /\
  pretag_entry_process e pk s =
    (s ← assign (lo_e l) stop l s;
     match e_jeq_ptr e with
     | Some _ => s ← (if negb (e_ret e =? 0) then send_and_reset s else Ok s); Ok (Z.lor stop PRETAG_MAP_RCODE_JEQ, lo_e l, s)
     | None => Ok (stop, lo_e l, s)
     end).
Proof.
  intros [Hf Hc Hs _ Hk Hl] Hr Hb E. cbv zeta. unfold roomy in Hr.
  assert (Hk' : key_ok (with_last_matched FALSE e)) by exact Hk.
  destruct (compare_all_noted _ _ _ _ _ Hk' E) as [_ Hn].
  assert (Hsame : same_but_ids e e').
  { apply (same_trans _ (with_last_matched FALSE e)); [apply same_matched | by apply noted_same]. }
  unfold pretag_entry_process. simpl. rewrite Hf.
  rewrite (run_compare pk cmps ss 0 (mk_locals 0 label0 (with_last_matched FALSE e) (ps_marks s)) 0 e' Hc E) by (by left).
  destruct Hsame as (i & i2 & m & Ee). assert (Efl : e_flags e' = e_flags e) by (by rewrite Ee).
  destruct (run_sets pk ss (0 + length cmps) 0 (mk_locals 0 label0 e' (ps_marks s))) as [R Hlab].
  - done.
  - rewrite Hf, length_app in Hr. lia.
  - simpl. by rewrite Efl.
  - simpl. by rewrite Ee.
  - by left.
  - unfold lo_with_e. simpl Z.eqb. cbv iota. cbn [lo_id lo_label lo_e lo_marks] in *. rewrite R, bind_Ok. rewrite Efl.
    rewrite (set_codes_many (e_flags e) ss 0 Hs) by done. fold (final_locals ss e' s).
    pose proof (set_steps_same (mk_locals 0 label0 e' (ps_marks s)) ss) as Hst. fold (final_locals ss e' s) in Hst, Hlab. simpl in Hst.
    assert (same_but_ids e (lo_e (final_locals ss e' s))) as Hs2 by (apply (same_trans _ e'); [by exists i, i2, m | done]).
    split; [done |]. split; [done |]. destruct Hs2 as (? & ? & ? & ->). done.
Qed.

(** The locals after the functions that set: the marks keep their label, the
    tag is that of the entry when no second tag is set. *)
Lemma final_label_kept l ss : m_label (lo_marks (fold_left set_step ss l)) = m_label (lo_marks l).
Proof.
  revert l. induction ss as [| f ss IH]; intros l; simpl; [done |]. rewrite IH. unfold set_step. by destruct (fst f).
Qed.
Lemma final_id_none l ss : F_pretag_id ∉ ss.*1 -> F_pretag_id2 ∉ ss.*1 ->
  lo_id (fold_left set_step ss l) = lo_id l /\ e_id (lo_e (fold_left set_step ss l)) = e_id (lo_e l).
Proof.
  revert l. induction ss as [| [h T] ss IH]; intros l; simpl; [done |]. rewrite !not_elem_of_cons. intros [H1 H1'] [H2 H2'].
  destruct (IH (set_step l (h, T)) H1' H2') as [-> ->]. unfold set_step. simpl. by destruct h.
Qed.
Definition next_id (e : id_entry) : Z := if negb (e_id_inc e =? 0) then u64 (e_id e + 1) else e_id e.
Lemma final_id l ss : F_pretag_id ∈ ss.*1 -> NoDup ss.*1 -> F_pretag_id2 ∉ ss.*1 ->
  lo_id (fold_left set_step ss l) = e_id (lo_e l) /\ e_id (lo_e (fold_left set_step ss l)) = next_id (lo_e l).
Proof.
  revert l. induction ss as [| [h T] ss IH]; intros l; simpl; [by rewrite elem_of_nil |].
  rewrite elem_of_cons, NoDup_cons, not_elem_of_cons. intros H [Hn Hd] [H2 H2'].
  destruct (decide (h = F_pretag_id)) as [-> | Hh].
  - destruct (final_id_none (set_step l (F_pretag_id, T)) ss Hn H2') as [-> ->]. unfold set_step, next_id. simpl. by case_match.
  - destruct H as [H | H]; [congruence |]. destruct (IH (set_step l (h, T)) H Hd H2') as [-> ->].
    unfold set_step, next_id. simpl. by destruct h.
Qed.
(** The label of the entry is copied once, and kept. *)
Lemma label_kept l ss text : full_label (lo_label l) text -> full_label (lo_label (fold_left set_step ss l)) text.
Proof.
  revert l. induction ss as [| f ss IH]; intros l Hl; simpl; [done |]. apply IH. unfold set_step. destruct (fst f); try exact Hl.
  simpl. destruct Hl as ((Hn & r & E & H) & H0). unfold pretag_copy_label. rewrite E. split; [| done]. split; [done |]. by exists r.
Qed.
Lemma label_copied l T text : lo_label l = label0 -> full_label (e_label (lo_e l)) text ->
  full_label (lo_label (set_step l (F_pretag_label, T))) text.
Proof.
  intros Hl He. unfold set_step. simpl.
  by destruct (copy_label_text (lo_label l) (e_label (lo_e l)) text) as (x & -> & Hx); [rewrite Hl | ..].
Qed.
Lemma final_copy l ss text : F_pretag_label ∈ ss.*1 -> lo_label l = label0 ->
  full_label (e_label (lo_e l)) text -> full_label (lo_label (fold_left set_step ss l)) text.
Proof.
  revert l. induction ss as [| [h T] ss IH]; intros l Hin Hl He; simpl in *; [by apply elem_of_nil in Hin |].
  destruct (decide (h = F_pretag_label)) as [-> | Hh]; [by apply label_kept, label_copied |].
  apply elem_of_cons in Hin as [? | Hin]; [congruence |]. destruct (set_step_same l (h, T)) as (i & i2 & m & E).
  apply IH; [done | | by rewrite E]. unfold set_step. by destruct h.
Qed.

End Compare.

End PretagFacts.
