(* ===== verification/PretagLoad.v ===== *)
(** * Reading a map (load_id_file in pretag.c)

    The text of the file is cut into lines, a line into its keys; each key's
    handler works on the entry of the line, which is taken when the line has
    what its kind of map requires. Then the entries of IPv4 and of IPv6 are put
    apart and the jumps are resolved. *)

From S2P Require Import Prelude.
From S2P Require Import BgpPrefix.
From S2P Require Import CBuf.
From S2P Require Import BgpAttr.
From S2P Require Import NfTemplate.
From S2P Require Import CfgData.
From S2P Require Import CfgHandlers.
From S2P Require Import Cfg.
From S2P Require Import PretagData.
From S2P Require Import PretagMap.
From S2P Require Import Pretag.

Module PretagLoad.
Import BgpPrefix(AF_INET, AF_INET6).
Import BgpAttr(host_addr, mk_ha, ha_family, ha_address, ha0).
Import CfgData.
Import CfgHandlers.
Import Cfg(file, Missing, NotRegular, Unreadable, Readable, fgets, c_string).
Import PretagData.
Import PretagMap.
Import Pretag.

Definition MAX_PRETAG_MAP_ENTRIES : Z := 384.

(** ** The text of a line (util.c) *)

(** [isalpha], [isdigit] or [ispunct]: what has a graph. *)
Definition in_word (c : Z) : bool := (33 <=? c) && (c <=? 126).

Definition toggle (quotes : bool) (c : Z) : bool := if c =? 39 (* quote *) then negb quotes else quotes.

(** The first space after a word becomes a bar. *)
Fixpoint bars (word quotes : bool) (buf : list Z) : list Z :=
  match buf with
  | [] => []
  | c :: r =>
      let quotes := toggle quotes c in
      let word := word || in_word c in
      if is_space c && word && negb quotes then 124 (* | *) :: bars false quotes r else c :: bars word quotes r
  end.

(** From the end, the bars before any word are cut; the first character of
    the line is not looked at. *)
Fixpoint cut_bars (rbuf : list Z) : list Z :=
  match rbuf with
  | c :: r => if bool_decide (r = []) then rbuf
              else if c =? 124 then 0 :: cut_bars r
              else if in_word c then rbuf else c :: cut_bars r
  | [] => []
  end.
Definition mark_columns (buf : list Z) : list Z := c_string (rev (cut_bars (rev (bars false false buf)))).

Definition strip_quotes (buf : list Z) : list Z := List.filter (fun c => negb (c =? 39)) buf.

(** [TRUE] when the character is there. *)
Definition check_not_valid_char (buf : list Z) (c : Z) : bool := bool_decide (c ∈ buf).

(** ** The keys of a line *)

Section Load.
Context {ho : host} {env : pt_env}.

(** One key and its value: 0, or the error of the handler. *)
Definition apply_key (map_type : Z) (key value : list Z) (st : mstate) : res (Z * mstate) :=
  match find_map_key key (dictionary_of map_type) with
  | None => Ok (E_NOTFOUND, st)
  | Some func => func value st map_type
  end.

Definition slice (buf : list Z) (start x : nat) : list Z := take (x - start) (drop start buf).

(** The first '=' ends the key. *)
Definition end_of_key (buf : list Z) (x start : nat) (key : option (list Z)) : option (list Z) * nat * nat :=
  match key with
  | None => if byte_at buf (Z.of_nat x) =? 61 then (Some (slice buf start x), S x, S x) else (None, x, start)
  | Some k => (Some k, x, start)
  end.

(** The loop over the characters of [buf], which ends with its NUL: [start] is
    where the current word begins. *)
Fixpoint keys_loop (fuel : nat) (map_type : Z) (buf : list Z) (x start : nat) (key : option (list Z)) (st : mstate) : res (Z * mstate) :=
  match fuel with
  | O => Err OutOfFuel
  | S fuel =>
      if (length buf <=? x)%nat then Ok (FALSE, st)
      else if (byte_at buf (Z.of_nat x) =? 61 (* = *)) && (start =? x)%nat then keys_loop fuel map_type buf (S x) start key st
      else
        let '(key, x, start) := end_of_key buf x start key in
        if (byte_at buf (Z.of_nat x) =? 124 (* | *)) || (byte_at buf (Z.of_nat x) =? 0) then
          if (start =? x)%nat then keys_loop fuel map_type buf (S x) start key st
          else
            match key with
            | None => Ok (TRUE, st)
            | Some key =>
                let value := slice buf start x in
                '(err, st) ← apply_key map_type key value st;
                if err =? 0 then keys_loop fuel map_type buf (S (S x)) (S x) None st else Ok (err, st)
            end
        else keys_loop fuel map_type buf (S x) start key st
  end.
Definition parse_keys (map_type : Z) (line : list Z) (st : mstate) : res (Z * mstate) :=
  keys_loop (S (S (length line))) map_type (line ++ [0]) 0 0 None st.

(** ** Taking the entry of a line *)

Definition agent_family (e : id_entry) : Z := let '(_, a, _) := key_net "agent_ip" (e_key e) in ha_family a.
Definition with_agent (family : Z) (e : id_entry) : id_entry :=
  let '(neg, a, m) := key_net "agent_ip" (e_key e) in
  set_key "agent_ip" (KNet neg (mk_ha family (ha_address a)) (mk_hm family (hm_len m) (hm_mask m))) e.
Definition any_agent (family : Z) (e : id_entry) : id_entry :=
  set_key "agent_ip" (KNet 0 (mk_ha family (replicate 16 0)) (mk_hm family 0 (replicate 16 0))) e.

(** [for (j = 0; func[j]; j++);] and what follows it: both arrays have to end
    with a NULL, and there must be room. *)
Definition with_set_funcs (e : id_entry) : res id_entry :=
  if (N_MAP_HANDLERS <=? length (e_func e))%nat || (N_MAP_SET_HANDLERS <=? length (e_set_func e))%nat then Err OutOfBounds
  else if (N_MAP_HANDLERS <? length (e_func e) + length (e_set_func e))%nat then Err OutOfBounds
  else Ok (with_func (e_func e ++ e_set_func e) e).
(** [func[j] = pretag_id_handler]; its type stays 0. *)
Definition with_last_id (e : id_entry) : res id_entry :=
  if (N_MAP_HANDLERS <=? length (e_func e))%nat then Err OutOfBounds
  else Ok (with_func (e_func e ++ [(F_pretag_id, 0)]) e).

(** [set_tag], [set_tag2] and [set_label] exclude each other only all three. *)
Definition three_sets (e : id_entry) : bool :=
  negb (e_id e =? 0) && negb (e_id2 e =? 0) && negb (lb_len (e_label e) =? 0).

(** A line without [ip] stands for every exporter of IPv4 and, with its own
    copy of the label, of IPv6. *)
Definition recirculated (e : id_entry) : res id_entry :=
  let e6 := with_agent AF_INET6 e in
  match lb_val (e_label e) with
  | None => Ok e6
  | Some _ => '(_, label) ← pretag_copy_label label0 (e_label e); Ok (with_label label e6)
  end.

(** The entries a line adds; [room] is how many the table takes. *)
Definition accept_tag (e : id_entry) (room : Z) : res (list id_entry) :=
  if negb (agent_family e =? 0) then e ← with_set_funcs e; Ok [e]
  else
    let e := any_agent AF_INET e in
    e4 ← with_set_funcs e;
    if pre_tag_map_dont_recirculate || (room <=? 1) then Ok [e4]
    else e6 ← recirculated e; e6 ← with_set_funcs e6; Ok [e4; e6].

Definition accept (map_type : Z) (err : Z) (e : id_entry) (room : Z) : res (list id_entry) :=
  let no_err := err =? 0 in
  let ip := negb (agent_family e =? 0) in
  if (map_type =? ACCT_NF) || (map_type =? ACCT_SF) || (map_type =? ACCT_PMBGP) || (map_type =? ACCT_PMBMP)
     || (map_type =? ACCT_PMTELE) then
    if three_sets e then Ok [] else if no_err then accept_tag e room else Ok []
  else if map_type =? ACCT_PM then
    if three_sets e then Ok [] else if ip then Ok []
    else if no_err then
      e ← with_set_funcs e;
      let '(neg, a, m) := key_net "agent_ip" (e_key e) in
      Ok [set_key "agent_ip" (KNet neg (mk_ha AF_INET (ha_address a)) m) e]
    else Ok []
  else if (map_type =? MAP_BGP_PEER_AS_SRC) || (map_type =? MAP_BGP_SRC_LOCAL_PREF) || (map_type =? MAP_BGP_SRC_MED) then
    if no_err && (negb (e_id e =? 0) || negb (e_flags e =? 0)) && ip then e ← with_last_id e; Ok [e] else Ok []
  else if map_type =? MAP_BGP_TO_XFLOW_AGENT then
    if no_err && (negb (e_id e =? 0) || negb (e_id2 e =? 0)) && ip
    then e ← with_set_funcs e; e ← with_last_id e; Ok [e] else Ok []
  else if map_type =? MAP_FLOW_TO_RD then
    if no_err && ip then e ← with_last_id e; Ok [e] else Ok []
  else if map_type =? MAP_SAMPLING then
    if no_err && negb (e_id e =? 0) && ip then e ← with_last_id e; Ok [e] else Ok []
  else Ok [].

(** ** The lines *)

(** [err], the entry and the rest of the state after a line; a line that is
    blank, a comment, too long, or has a bar adds nothing. *)
Definition skipped (line : list Z) (map_row_len : Z) : bool :=
  iscomment line || isblankline line
  || ((strlen line =? map_row_len - 1) && negb (bool_decide (10 (* newline *) ∈ line)))
  || check_not_valid_char line 124.

Definition load_line (map_type map_entries map_row_len : Z) (line : list Z) (st : mstate) (tmp : list id_entry)
    : res (mstate * list id_entry) :=
  if skipped line map_row_len then Ok (st, tmp)
  else
    let line := strip_quotes (trim_all_spaces (mark_columns line)) in
    '(err, st) ← parse_keys map_type line (upd (fun _ => entry0) st);
    es ← accept map_type err (ms_e st) (map_entries - Z.of_nat (length tmp));
    Ok (st, tmp ++ es).

Fixpoint load_lines (fuel : nat) (map_type map_entries map_row_len : Z) (content : list Z) (st : mstate) (tmp : list id_entry)
    : res (mstate * list id_entry) :=
  match fuel with
  | O => Err OutOfFuel
  | S fuel =>
      match content with
      | [] => Ok (st, tmp)
      | _ =>
          if map_entries <=? Z.of_nat (length tmp) then Ok (st, tmp)
          else
            let '(line, content) := fgets (Z.to_nat map_row_len) content in
            '(st, tmp) ← load_line map_type map_entries map_row_len (c_string line) st tmp;
            load_lines fuel map_type map_entries map_row_len content st tmp
      end
  end.

(** ** The table *)

Fixpoint set_positions (x : Z) (l : list id_entry) : list id_entry :=
  match l with [] => [] | e :: r => with_pos x e :: set_positions (x + 1) r end.

(** A label names the first entry of its family that has it. *)
Fixpoint find_label (label : list Z) (l : list id_entry) : option Z :=
  match l with
  | [] => None
  | e :: r => if bool_decide (e_entry_label e = Some label) then Some (e_pos e) else find_label label r
  end.

(** Only jumps forward are resolved, and "next" only between IPv4 entries. *)
Definition forward (labels : list id_entry) (label : list Z) (e : id_entry) : option Z :=
  match find_label label labels with
  | Some idx => if e_pos e <? idx then Some idx else None
  | None => None
  end.
Definition resolve_v4 (v4 : list id_entry) (e : id_entry) : id_entry :=
  match e_jeq_label e with
  | None => e
  | Some label =>
      with_jeq_ptr (if streq label "next" then if e_pos e <? Z.of_nat (length v4) - 1 then Some (e_pos e + 1) else None
                    else forward v4 label e) e
  end.
Definition resolve_v6 (v6 : list id_entry) (e : id_entry) : id_entry :=
  match e_jeq_label e with None => e | Some label => with_jeq_ptr (forward v6 label e) e end.

Definition of_family (family : Z) (tmp : list id_entry) : list id_entry := List.filter (fun e => agent_family e =? family) tmp.

Definition build_table (map_type flags mtime : Z) (tmp : list id_entry) : id_table :=
  let v4 := set_positions 0 (of_family AF_INET tmp) in
  let v6 := set_positions (Z.of_nat (length v4)) (of_family AF_INET6 tmp) in
  mk_table map_type (Z.of_nat (length tmp)) (Z.of_nat (length v4)) (Z.of_nat (length v6))
    (map (resolve_v4 v4) v4 ++ map (resolve_v6 v6) v6) flags mtime.

(** [req->map_entries] comes before [maps_entries]. *)
Definition or_default (req conf dflt : Z) : Z := if negb (req =? 0) then req else if negb (conf =? 0) then conf else dflt.

(** The table, and what the keys asked of the caller. A file that cannot be
    opened leaves the old table, if there is one; a directory is opened, but
    [fgets] fails and [feof] never comes true. *)
Definition load_id_file (map_type : Z) (filename : option file) (mtime req_map_entries req_map_row_len : Z) (st : mstate) (t : id_table)
    : res (id_table * mstate) :=
  match filename with
  | None => Ok (t, st)
  | Some (Readable content) =>
      let map_entries := or_default req_map_entries maps_entries MAX_PRETAG_MAP_ENTRIES in
      let map_row_len := or_default req_map_row_len maps_row_len SRVBUFLEN in
      let st := mk_mstate (ms_e st) 0 (ms_load_tee st) (ms_load_ptm_res st) (ms_bpf_filter st)
                  (ms_sampling_map_caching st) (ms_bta_map_caching st) in
      '(st, tmp) ← load_lines (S (length content)) map_type map_entries map_row_len content st [];
      Ok (build_table map_type (ms_flags st) mtime tmp, st)
  | Some NotRegular => Err OutOfFuel
  | Some _ =>
      if negb (t_timestamp t =? 0)
      then Ok (mk_table (t_type t) (t_num t) (t_ipv4_num t) (t_ipv6_num t) (t_e t) (t_flags t) mtime, st)
      else Err Exited
  end.
Definition load_pre_tag_map (map_type : Z) (filename : option file) (mtime map_entries map_row_len : Z) (st : mstate) (t : id_table)
    : res (id_table * mstate) := load_id_file map_type filename mtime map_entries map_row_len st t.

End Load.

End PretagLoad.
