(* ===== verification/PretagFindFacts.v ===== *)
(** * Entries and lookups

    What an entry does to a packet, and that a lookup in a well-formed table
    ends with the first entry that fits, from there along its jumps. *)

From S2P Require Import Prelude.
From S2P Require Import BgpPrefix.
From S2P Require Import CBuf.
From S2P Require Import BgpAttr.
From S2P Require Import NfTemplate.
From S2P Require Import CfgData.
From S2P Require Import CfgHandlers.
From S2P Require Import Cfg.
From S2P Require Import PretagData.
From S2P Require Import PretagMap.
From S2P Require Import PretagMapFacts.
From S2P Require Import PretagMatch.
From S2P Require Import Pretag.
From S2P Require Import PretagFacts.
From S2P Require Import PretagLoad.

Module PretagFindFacts.
Import BgpPrefix(AF_INET, AF_INET6).
Import BgpAttr(host_addr, mk_ha, ha_family, ha_address, ha0).
Import NfTemplate(get).
Import CfgData.
Import CfgHandlers.
Import PretagData.
Import PretagMap.
Import PretagMapFacts(compares, sets, bit, member_ok).
Import PretagMatch.
Import Pretag.
Import PretagFacts.
Import PretagLoad(load_id_file).

Section Find.
Context {ho : host} {env : pt_env}.

(** ** Entries *)

Lemma existsb_code flags (ss : list (pretag_handler * Z)) h f : h ∈ ss.*1 -> has (set_code flags h) f = true ->
  existsb (fun g => has (set_code flags (fst g)) f) ss = true.
Proof.
  intros H E. apply list_elem_of_fmap in H as (g & -> & Hg). apply existsb_exists. exists g. split; [by apply list_elem_of_In | done].
Qed.

(** The code of a match has the bit of a jump only when there is one. *)
Lemma codes_no_jump flags ss : has (set_codes flags ss 0) PRETAG_MAP_RCODE_JEQ = false.
Proof.
  rewrite has_codes. simpl. induction ss as [| [h T] ss IH]; simpl; [done |]. rewrite IH, orb_false_r.
  destruct h; simpl; try done. by destruct (_ =? _).
Qed.

(** With a jump the code is more than 1. *)
Lemma jump_many stop : 0 <= stop ->
  (Z.lor stop PRETAG_MAP_RCODE_JEQ =? 0) || (TRUE <? Z.lor stop PRETAG_MAP_RCODE_JEQ) = true.
Proof.
  intros H. apply orb_true_iff. right. apply Z.ltb_lt. change TRUE with 1. set (v := Z.lor stop PRETAG_MAP_RCODE_JEQ).
  assert (Z.testbit v 11 = true) as Ht by (unfold v; rewrite Z.lor_spec; apply orb_true_r).
  assert (0 <= v) by (by apply Z.lor_nonneg). destruct (Z.le_gt_cases v 1) as [Hle | Hgt]; [| done].
  assert (v = 0 \/ v = 1) as [-> | ->] by lia; done.
Qed.

(** ** Totality of an evaluation *)

(** The packet under a lookup: there is a place for the second tag, and the
    label can be copied and appended to. *)
Definition state_ok (s : pstate) : Prop := is_Some (ps_tag2 s) /\ label_ok (m_label (ps_marks s)).

Lemma assign_total e stop l s :
  state_ok s -> label_ok (lo_label l) -> label_ok (m_label (lo_marks l)) -> exists s', assign e stop l s = Ok s' /\ state_ok s'.
Proof.
  intros [[tag2 E2] _] Hl Hm. unfold assign. rewrite E2. simpl deref.
  case_match; [eexists; split; [done |]; split; [by eexists | done] |].
  case_match; [eexists; split; [done |]; split; [by eexists | done] |].
  case_match; [case_match | case_match].
  - destruct (append_label_total _ _ Hm Hl) as (r & x & -> & Hx). rewrite bind_Ok. eexists. split; [done |]. split; [by eexists | done].
  - destruct (copy_label_total _ _ Hm Hl) as (r & x & -> & Hx). rewrite bind_Ok. eexists. split; [done |]. split; [by eexists | done].
  - eexists. split; [done |]. split; [by eexists | done].
  - eexists. split; [done |]. split; [by eexists | done].
Qed.

Lemma label0_ok : label_ok label0.
Proof. by left. Qed.
Lemma free_label_ok l : label_ok l -> label_ok (pretag_free_label l).
Proof. intros H. unfold pretag_free_label. case_match; [apply label0_ok | done]. Qed.
Lemma send_and_reset_total s : state_ok s -> exists s', send_and_reset s = Ok s' /\ state_ok s'.
Proof.
  intros [[tag2 E2] H]. unfold send_and_reset. rewrite E2. cbn [deref]. rewrite bind_Ok. eexists. split; [done |].
  split; [by eexists |]. simpl. by apply free_label_ok.
Qed.

(** Evaluating the entry faults: a key cannot be compared with the packet, or
    they all agree and the array of functions is full. *)
Definition faults (pk : packet) (e : id_entry) (er : fault) : Prop :=
  exists cmps ss, entry_wf e cmps ss /\
    (keys_answer pk cmps e = Err er \/ (er = OutOfBounds /\ ~ roomy e /\ exists e', keys_answer pk cmps e = Ok (0, e'))).

Lemma process_total pk e s cmps ss r e1 : entry_wf e cmps ss -> e_flags e <> BPAS_MAP_RCODE_BGP -> state_ok s ->
  keys_answer pk cmps e = Ok (r, e1) -> (r = 0 -> roomy e) ->
  exists ret e' s', bit r /\
    pretag_entry_process e pk s = Ok (ret, e', s') /\ same_but_ids e e' /\ state_ok s' /\
    ((ret =? 0) || (TRUE <? ret) = (r =? 0)) /\
    (r = 0 -> has ret PRETAG_MAP_RCODE_JEQ = bool_decide (is_Some (e_jeq_ptr e))) /\ (r = 1 -> s' = s).
Proof.
  intros Hwf Hb Hs E Hr.
  destruct (compare_all_noted pk cmps (with_last_matched FALSE e) r e1 (wf_key _ _ _ Hwf) E) as [Hbit Hn].
  destruct Hbit as [-> | ->].
  - destruct (process_agrees pk e s cmps ss e1 Hwf (Hr eq_refl) Hb E) as (Hl & Hsame & ->).
    destruct (assign_total (lo_e (final_locals ss e1 s)) (set_codes (e_flags e) ss 0) (final_locals ss e1 s) s Hs Hl) as (s1 & -> & Hs1).
    { unfold final_locals. rewrite final_label_kept. apply Hs. }
    rewrite bind_Ok. pose proof (codes_no_jump (e_flags e) ss) as Hno.
    pose proof (set_codes_many (e_flags e) ss 0 (wf_sets _ _ _ Hwf) ltac:(done) ltac:(done)) as Hmany.
    destruct (e_jeq_ptr e) as [p |] eqn:Ej.
    + assert (exists s2, (if negb (e_ret e =? 0) then send_and_reset s1 else Ok s1) = Ok s2 /\ state_ok s2) as (s2 & -> & Hs2).
      { case_match; [by apply send_and_reset_total | by exists s1]. }
      rewrite bind_Ok. do 3 eexists. split; [by left |]. split; [done |]. split; [done |]. split; [done |].
      split; [| split; [| done]].
      * apply jump_many. apply orb_true_iff in Hmany as [?%Z.eqb_eq | ?%Z.ltb_lt]; change TRUE with 1 in *; lia.
      * intros _. rewrite has_lor. rewrite bool_decide_eq_true_2 by (by eexists). apply orb_true_r.
    + do 3 eexists. split; [by left |]. split; [done |]. split; [done |]. split; [done |]. split; [done |].
      split; [| done]. intros _. rewrite Hno. symmetry. apply bool_decide_eq_false_2. by intros [? ?].
  - do 3 eexists. split; [by right |]. split; [by apply (process_differs pk e s cmps ss e1) |].
    split; [| done]. apply (same_trans _ (with_last_matched FALSE e)); [apply same_matched | by apply noted_same].
Qed.

(** ** Tables *)

(** The entries of IPv4 come first, each knows its place, and jumps go forward
    within the family. *)
Definition family_end (t : id_table) (i : Z) : Z := if i <? t_ipv4_num t then t_ipv4_num t else t_num t.

Record table_wf (t : id_table) : Prop := {
  tw_num : t_num t = Z.of_nat (length (t_e t));
  tw_split : t_ipv4_num t + t_ipv6_num t = t_num t /\ 0 <= t_ipv4_num t /\ 0 <= t_ipv6_num t;
  tw_entry : forall i e, t_e t !! i = Some e ->
    (exists cmps ss, entry_wf e cmps ss) /\
    e_pos e = Z.of_nat i /\
    ha_family (snd (fst (key_net "agent_ip" (e_key e)))) = (if Z.of_nat i <? t_ipv4_num t then AF_INET else AF_INET6) /\
    (forall p, e_jeq_ptr e = Some p -> Z.of_nat i < p < family_end t (Z.of_nat i))
}.

(** What the walk relies on: places, and jumps up to [last]. *)
Definition walkable (es : list id_entry) (first last : Z) : Prop :=
  0 <= first /\ last <= Z.of_nat (length es) /\
  forall i e, es !! i = Some e -> e_pos e = Z.of_nat i /\
    (first <= Z.of_nat i < last -> forall p, e_jeq_ptr e = Some p -> Z.of_nat i < p < last).

Lemma walkable_insert es first last x e e' :
  es !! x = Some e -> same_but_ids e e' -> walkable es first last -> walkable (<[x := e']> es) first last.
Proof.
  intros Hx (i1 & i2 & m & ->) (H0 & Hl & H). split; [done |]. rewrite length_insert. split; [done |].
  intros i e1 Hi. destruct (decide (i = x)) as [-> | Hne].
  - rewrite list_lookup_insert_eq in Hi by (by eapply lookup_lt_Some). injection Hi as <-. simpl. by apply H.
  - rewrite list_lookup_insert_ne in Hi by done. by apply H.
Qed.

(** ** The specification of a lookup *)

(** The entry fits the packet: the agent is the one it names, and all its keys
    agree. *)
Definition fits (agrees : id_entry -> bool) (pk : packet) (e : id_entry) : Prop :=
  agrees e = true /\ exists cmps ss e', entry_wf e cmps ss /\ keys_answer pk cmps e = Ok (0, e').
Definition misses (agrees : id_entry -> bool) (pk : packet) (e : id_entry) : Prop :=
  agrees e = false \/ exists cmps ss e', entry_wf e cmps ss /\ keys_answer pk cmps e = Ok (1, e').

(** From [x] on the first entry that fits is evaluated; if it has a jump, the
    lookup goes on from its target. *)
Inductive lookup_path (agrees : id_entry -> bool) (pk : packet) (es : list id_entry) (last : Z)
    : Z -> pstate -> list Z -> pstate -> Prop :=
  | path_end x s :
      (forall i e, x <= Z.of_nat i < last -> es !! i = Some e -> misses agrees pk e) ->
      lookup_path agrees pk es last x s [] s
  | path_stop x i e ret e' s s' :
      x <= Z.of_nat i < last -> es !! i = Some e -> fits agrees pk e ->
      (forall j e, x <= Z.of_nat j < Z.of_nat i -> es !! j = Some e -> misses agrees pk e) ->
      pretag_entry_process e pk s = Ok (ret, e', s') -> e_jeq_ptr e = None ->
      lookup_path agrees pk es last x s [Z.of_nat i] s'
  | path_jump x i e p ret e' s s1 visited s' :
      x <= Z.of_nat i < last -> es !! i = Some e -> fits agrees pk e ->
      (forall j e, x <= Z.of_nat j < Z.of_nat i -> es !! j = Some e -> misses agrees pk e) ->
      pretag_entry_process e pk s = Ok (ret, e', s1) -> e_jeq_ptr e = Some p ->
      lookup_path agrees pk es last p s1 visited s' ->
      lookup_path agrees pk es last x s (Z.of_nat i :: visited) s'.

(** The lookup comes to an entry whose evaluation faults. *)
Inductive lookup_fault (agrees : id_entry -> bool) (pk : packet) (es : list id_entry) (last : Z) : Z -> pstate -> fault -> Prop :=
  | fault_here x i e s er :
      x <= Z.of_nat i < last -> es !! i = Some e -> agrees e = true -> faults pk e er ->
      (forall j e, x <= Z.of_nat j < Z.of_nat i -> es !! j = Some e -> misses agrees pk e) ->
      lookup_fault agrees pk es last x s er
  | fault_jump x i e p ret e' s s1 er :
      x <= Z.of_nat i < last -> es !! i = Some e -> fits agrees pk e ->
      (forall j e, x <= Z.of_nat j < Z.of_nat i -> es !! j = Some e -> misses agrees pk e) ->
      pretag_entry_process e pk s = Ok (ret, e', s1) -> e_jeq_ptr e = Some p ->
      lookup_fault agrees pk es last p s1 er ->
      lookup_fault agrees pk es last x s er.

(** An entry that misses may be left out. *)
Lemma misses_after agrees pk (es : list id_entry) x e (P : nat -> Prop) :
  0 <= x -> es !! Z.to_nat x = Some e -> misses agrees pk e ->
  (forall i e, P i -> x + 1 <= Z.of_nat i -> es !! i = Some e -> misses agrees pk e) ->
  forall i e, P i -> x <= Z.of_nat i -> es !! i = Some e -> misses agrees pk e.
Proof.
  intros H0 Hx Hm HP i e1 Hi Hle E. destruct (decide (Z.of_nat i = x)) as [Ei | Ei]; [| by apply (HP i); [| lia |]].
  replace i with (Z.to_nat x) in E by lia. by simplify_eq.
Qed.

Lemma fault_skip agrees pk es last x e s er :
  0 <= x -> es !! Z.to_nat x = Some e -> misses agrees pk e ->
  lookup_fault agrees pk es last (x + 1) s er -> lookup_fault agrees pk es last x s er.
Proof.
  intros H0 Hx Hm H.
  assert (Hbefore : forall i, (forall j e, x + 1 <= Z.of_nat j < Z.of_nat i -> es !! j = Some e -> misses agrees pk e) ->
            forall j e, x <= Z.of_nat j < Z.of_nat i -> es !! j = Some e -> misses agrees pk e).
  { intros i Hi j e1 Hj. apply (misses_after agrees pk es x e (fun j => Z.of_nat j < Z.of_nat i)); try done; try lia.
    intros j' ? ? ?. by apply Hi. }
  inversion H; subst; [eapply fault_here | eapply fault_jump]; eauto; lia.
Qed.


Lemma path_skip agrees pk es last x e s visited s' :
  0 <= x -> es !! Z.to_nat x = Some e -> misses agrees pk e ->
  lookup_path agrees pk es last (x + 1) s visited s' -> lookup_path agrees pk es last x s visited s'.
Proof.
  intros H0 Hx Hm H. pose proof (fun P => misses_after agrees pk es x e P H0 Hx Hm) as Hfirst.
  inversion H; subst.
  - apply path_end. intros i e1 Hi. apply (Hfirst (fun i => Z.of_nat i < last)); [| lia | lia]. intros. by apply (H1 i0); [lia |].
  - eapply path_stop; eauto; [lia |]. intros j e1 Hj. apply (Hfirst (fun j => Z.of_nat j < Z.of_nat i)); [| lia | lia].
    intros j' ? ? ? ?. by apply (H4 j'); [lia |].
  - eapply path_jump; eauto; [lia |]. intros j e1 Hj. apply (Hfirst (fun j => Z.of_nat j < Z.of_nat i)); [| lia | lia].
    intros j' ? ? ? ?. by apply (H4 j'); [lia |].
Qed.

Lemma same_insert es x e e' : es !! x = Some e -> same_but_ids e e' -> Forall2 same_but_ids es (<[x := e']> es).
Proof.
  intros Hx Hs. apply Forall2_same_length_lookup. split; [by rewrite length_insert |]. intros i a b Ha Hb.
  destruct (decide (i = x)) as [-> | Hne].
  - rewrite list_lookup_insert_eq in Hb by (by eapply lookup_lt_Some). by simplify_eq.
  - rewrite list_lookup_insert_ne in Hb by done. simplify_eq. apply same_refl.
Qed.
Lemma same_all_refl es : Forall2 same_but_ids es es.
Proof. induction es; constructor; [apply same_refl | done]. Qed.
Lemma same_all_trans a b c : Forall2 same_but_ids a b -> Forall2 same_but_ids b c -> Forall2 same_but_ids a c.
Proof.
  intros H. revert c. induction H as [| x y a b Hxy _ IH]; intros c Hc; inversion Hc; subst; constructor; [by eapply same_trans | by apply IH].
Qed.

(** What the rest of the walk does, before an entry that misses and after one
    that jumps. *)
Definition walked agrees pk es0 last x s (es : list id_entry) (r : res (Z * list id_entry * pstate)) : Prop :=
  match r with
  | Ok (_, es', s') => (exists visited, lookup_path agrees pk es0 last x s visited s') /\ state_ok s' /\ Forall2 same_but_ids es es'
  | Err er => lookup_fault agrees pk es0 last x s er
  end.

Lemma find_skip agrees pk es0 last x e s es es1 r :
  0 <= x -> es0 !! Z.to_nat x = Some e -> misses agrees pk e -> Forall2 same_but_ids es es1 ->
  walked agrees pk es0 last (x + 1) s es1 r -> walked agrees pk es0 last x s es r.
Proof.
  intros H0 Hx Hm Hsm. destruct r as [[[ret' es'] s'] | er]; cbn [walked].
  - intros ([v Hp] & Hs & Hsm'). split; [exists v; by apply (path_skip _ _ _ _ x e) |]. split; [done |]. by eapply same_all_trans.
  - by apply (fault_skip _ _ _ _ x e).
Qed.

Lemma find_jump agrees pk es0 last x e p s s1 es es1 ret e' r :
  0 <= x < last -> es0 !! Z.to_nat x = Some e -> fits agrees pk e -> Forall2 same_but_ids es es1 ->
  pretag_entry_process e pk s = Ok (ret, e', s1) -> e_jeq_ptr e = Some p ->
  walked agrees pk es0 last p s1 es1 r -> walked agrees pk es0 last x s es r.
Proof.
  intros H0 Hx Hfit Hsm Ep Ej. assert (Hnone : forall j e, x <= Z.of_nat j < Z.of_nat (Z.to_nat x) -> es0 !! j = Some e -> misses agrees pk e) by lia.
  destruct r as [[[ret' es'] s'] | er]; cbn [walked].
  - intros ([v Hp] & Hs & Hsm'). split; [| split; [done | by eapply same_all_trans]].
    exists (Z.of_nat (Z.to_nat x) :: v). apply (path_jump _ _ _ _ x (Z.to_nat x) e p ret e' s s1); try done; lia.
  - intros Hf. apply (fault_jump _ _ _ _ x (Z.to_nat x) e p ret e' s s1); try done; lia.
Qed.

(** The walk ends, and follows the specification. *)
Lemma find_loop_path agrees pk es0 first last fuel es x ret s :
  walkable es first last -> first <= x -> (Z.to_nat (last - x) < fuel)%nat ->
  (forall i, x <= Z.of_nat i -> es !! i = es0 !! i) ->
  (forall i e, x <= Z.of_nat i < last -> es0 !! i = Some e -> (exists cmps ss, entry_wf e cmps ss) /\ e_flags e <> BPAS_MAP_RCODE_BGP) ->
  state_ok s ->
  walked agrees pk es0 last x s es (find_loop fuel agrees pk es x last ret s).
Proof.
  revert es x ret s. induction fuel as [| fuel IH]; intros es x ret s Hw Hx Hf Hes Hent0 Hs; [lia |]. cbn [find_loop].
  destruct (Z.leb_spec last x) as [Hle | Hlt].
  { split; [exists []; apply path_end; lia |]. split; [done | apply same_all_refl]. }
  pose proof Hw as (H0 & Hlen & Hent).
  destruct (lookup_lt_is_Some_2 es (Z.to_nat x)) as [e He]; [lia |].
  assert (He0 : es0 !! Z.to_nat x = Some e) by (rewrite <- Hes by lia; done).
  assert (get es x = Ok e) as -> by (unfold get; rewrite (proj2 (Z.leb_le _ _)) by lia; by rewrite He). rewrite bind_Ok.
  destruct (agrees e) eqn:Ea.
  2: { apply (find_skip agrees pk es0 last x e s es es); [lia | done | by left | apply same_all_refl |]. apply IH; try done; try lia.
       - intros i Hi. apply Hes. lia.
       - intros i e1 Hi. apply Hent0. lia. }
  destruct (Hent0 (Z.to_nat x) e) as [(cmps & ss & Hwf) Hb]; [lia | done |].
  destruct (keys_answer pk cmps e) as [[r e1] | er] eqn:Ek.
  2: { rewrite (process_faults pk e s cmps ss er Hwf Ek). apply (fault_here _ _ _ _ x (Z.to_nat x) e); try done; try lia.
       exists cmps, ss. split; [done | by left]. }
  destruct (decide (r = 0 /\ ~ roomy e)) as [[-> Hroom] | Hroom].
  { rewrite (process_overruns pk e s cmps ss e1 Hwf Hroom Hb Ek). apply (fault_here _ _ _ _ x (Z.to_nat x) e); try done; try lia.
    exists cmps, ss. split; [done |]. right. split; [done |]. split; [done | by exists e1]. }
  destruct (process_total pk e s cmps ss r e1 Hwf Hb Hs Ek) as (ret1 & e' & s1 & Hbit & Ep & Hsame & Hs1 & Hcode & Hjump & Hkeep).
  { intros ->. destruct (decide (roomy e)); [done | by destruct Hroom]. }
  rewrite Ep, bind_Ok, Hcode. cbv zeta. set (es1 := <[Z.to_nat x := e']> es).
  assert (Hw1 : walkable es1 first last) by (by apply (walkable_insert es first last _ e)).
  assert (Hes1 : forall i, x + 1 <= Z.of_nat i -> es1 !! i = es0 !! i).
  { intros i Hi. unfold es1. rewrite list_lookup_insert_ne by lia. apply Hes. lia. }
  assert (Hsm1 : Forall2 same_but_ids es es1) by (by apply (same_insert es _ e)).
  destruct Hbit as [-> | ->]; cbn [Z.eqb].
  - assert (Hfit : fits agrees pk e) by (split; [done | by exists cmps, ss, e1]).
    assert (Hej : e_jeq_ptr e' = e_jeq_ptr e) by (destruct Hsame as (? & ? & ? & ->); done).
    rewrite (Hjump eq_refl), Hej. destruct (e_jeq_ptr e) as [p |] eqn:Ej.
    + rewrite bool_decide_eq_true_2 by (by eexists). cbn [deref]. rewrite bind_Ok.
      destruct (Hent (Z.to_nat x) e He) as [_ Hf2]. specialize (Hf2 ltac:(lia) p Ej).
      destruct (lookup_lt_is_Some_2 es1 (Z.to_nat p)) as [t Ht]; [unfold es1; rewrite length_insert; lia |].
      assert (get es1 p = Ok t) as -> by (unfold get; rewrite (proj2 (Z.leb_le _ _)) by lia; by rewrite Ht). rewrite bind_Ok.
      pose proof Hw1 as (H01 & Hlen1 & Hent1). destruct (Hent1 _ _ Ht) as [-> _]. rewrite Z2Nat.id by lia.
      apply (find_jump agrees pk es0 last x e p s s1 es es1 ret1 e'); try done; try lia. apply IH; try done; try lia.
      * intros i Hi. apply Hes1. lia.
      * intros i e2 Hi. apply Hent0. lia.
    + rewrite bool_decide_eq_false_2 by (by intros [? ?]). split; [| done]. exists [Z.of_nat (Z.to_nat x)].
      apply (path_stop _ _ _ _ x (Z.to_nat x) e ret1 e' s s1); try done; lia.
  - rewrite (Hkeep eq_refl). apply (find_skip agrees pk es0 last x e s es es1); [lia | done | right; by exists cmps, ss, e1 | done |].
    apply IH; try done; try lia. intros i e2 Hi. apply Hent0. lia.
Qed.

(** ** Lookups in a table *)

Lemma init_find_ok t s : state_ok s -> state_ok (init_find t s).
Proof.
  intros [[v E] Hl]. split; [unfold init_find; rewrite E; by eexists |]. simpl. unfold pretag_init_vars.
  repeat case_match; simpl in *; try done; by apply free_label_ok.
Qed.

Lemma table_wf_same t es : table_wf t -> Forall2 same_but_ids (t_e t) es -> table_wf (with_e es t).
Proof.
  intros [Hn Hsp He] Hs. split; simpl; [by rewrite <- (Forall2_length _ _ _ Hs) | done |].
  intros i e' Hi. destruct (Forall2_lookup_r _ _ _ _ _ Hs Hi) as (e & Hie & Hsame).
  destruct (He i e Hie) as ((cmps & ss & Hwf) & Hpos & Hfam & Hj). split.
  { exists cmps, ss. by apply (entry_wf_same e). }
  destruct Hsame as (? & ? & ? & ->). done.
Qed.

(** The part of the table for a family. *)
Lemma range_walkable t first last :
  table_wf t -> (first, last) = (0, t_ipv4_num t) \/ (first, last) = (t_ipv4_num t, t_num t) \/ (first, last) = (0, 0) ->
  walkable (t_e t) first last.
Proof.
  intros [Hn (Hsum & H4 & H6) He] Hr.
  assert (0 <= first /\ last <= t_num t) as [Hf Hl] by (destruct Hr as [Hr | [Hr | Hr]]; injection Hr as -> ->; lia).
  split; [done |]. split; [lia |]. intros i e Hi. destruct (He i e Hi) as (_ & Hp & _ & Hj). split; [done |].
  intros Hi' p Ep. specialize (Hj p Ep). unfold family_end in Hj.
  destruct (Z.ltb_spec (Z.of_nat i) (t_ipv4_num t)); destruct Hr as [Hr | [Hr | Hr]]; injection Hr as -> ->; lia.
Qed.
Lemma range_of_cases family t : table_wf t ->
  range_of family t = (0, t_ipv4_num t) \/ range_of family t = (t_ipv4_num t, t_num t) \/ range_of family t = (0, 0).
Proof.
  intros [_ (Hsum & _) _]. unfold range_of. repeat case_match; [by left | right; left; f_equal; lia | by right; right].
Qed.

Lemma find_id_path agrees first last t pk s :
  table_wf t -> (first, last) = (0, t_ipv4_num t) \/ (first, last) = (t_ipv4_num t, t_num t) \/ (first, last) = (0, 0) ->
  (forall e, e ∈ t_e t -> e_flags e <> BPAS_MAP_RCODE_BGP) -> state_ok s ->
  match find_id agrees (first, last) t pk s with
  | Ok (_, t', s') => (exists visited, lookup_path agrees pk (t_e t) last first (init_find t s) visited s') /\ table_wf t' /\ state_ok s'
  | Err er => lookup_fault agrees pk (t_e t) last first (init_find t s) er
  end.
Proof.
  intros Ht Hr Hb Hs. pose proof (range_walkable t first last Ht Hr) as Hw. pose proof Hw as (H0 & Hl & _).
  assert (Hent : forall i e, first <= Z.of_nat i < last -> t_e t !! i = Some e -> (exists cmps ss, entry_wf e cmps ss) /\ e_flags e <> BPAS_MAP_RCODE_BGP).
  { intros i e _ Hi. split; [by apply (tw_entry _ Ht i e Hi) | apply Hb; by eapply list_elem_of_lookup_2]. }
  pose proof (find_loop_path agrees pk (t_e t) first last (S (length (t_e t))) (t_e t) first 0 (init_find t s) Hw (Z.le_refl _)
    ltac:(lia) (fun _ _ => eq_refl) Hent (init_find_ok t s Hs)) as H.
  unfold find_id. simpl fst. simpl snd. destruct (find_loop _ _ _ _ _ _ _ _) as [[[ret es] s'] | er]; cbn [walked] in H; [| exact H].
  rewrite bind_Ok. destruct H as (Hp & Hs' & Hsm). split; [done |]. split; [by apply table_wf_same | done].
Qed.

(** ** What a match writes *)

(** C21. An entry with set_tag but without set_tag2 (with both, one value takes
    the place of the other), without [return], in a map of tags (no flags of a
    map of agents), which sets each thing at most once, evaluated on any
    packet.  When a key does not agree nothing is written.  When all do, the
    tag is the entry's, stacked on the tag there was, the second tag and the
    label stay, and the answer has the jump's bit exactly when the entry has a
    jump.  It faults in two cases: a key cannot be compared with the packet
    (the fault is that of the comparison), or all agree and the entry has
    eight functions, with no room for the NULL that ends them. *)
Theorem entry_sets_tag pk e s cmps ss :
  entry_wf e cmps ss -> e_flags e = FALSE -> e_ret e = 0 ->
  F_pretag_id ∈ ss.*1 -> NoDup ss.*1 -> F_pretag_id2 ∉ ss.*1 ->
  match keys_answer pk cmps e with
  | Err er => pretag_entry_process e pk s = Err er
  | Ok (r, _) =>
      if r =? 0 then
        if decide (roomy e) then
          exists ret e' s', pretag_entry_process e pk s = Ok (ret, e', s') /\
            ps_tag s' = stack_func (e_stack e) (e_id e) (ps_tag s) /\ ps_tag2 s' = ps_tag2 s /\
            m_have_tag (ps_marks s') = TRUE /\ m_label (ps_marks s') = m_label (ps_marks s) /\
            e_id e' = next_id e /\ has ret PRETAG_MAP_RCODE_ID = true /\
            has ret PRETAG_MAP_RCODE_JEQ = bool_decide (is_Some (e_jeq_ptr e))
        else pretag_entry_process e pk s = Err OutOfBounds
      else r = 1 /\ exists e', pretag_entry_process e pk s = Ok (1, e', s)
  end.
Proof.
  intros Hwf Hfl Hret Hin Hnd Hno.
  destruct (keys_answer pk cmps e) as [[r e1] | er] eqn:E; [| by apply (process_faults pk e s cmps ss)].
  destruct (compare_all_noted pk cmps (with_last_matched FALSE e) r e1 (wf_key _ _ _ Hwf) E) as [[-> | ->] Hn]; cbn [Z.eqb].
  2: { split; [done |]. exists e1. by apply (process_differs pk e s cmps ss e1). }
  destruct (decide (roomy e)) as [Hr | Hr]; [| by apply (process_overruns pk e s cmps ss e1); [| | rewrite Hfl |]].
  destruct (process_agrees pk e s cmps ss e1 Hwf Hr) as (_ & Hsame & ->); [by rewrite Hfl | done |].
  assert (Hid : has (set_codes (e_flags e) ss 0) PRETAG_MAP_RCODE_ID = true).
  { rewrite has_codes, (existsb_code _ _ F_pretag_id); [done | done | by rewrite Hfl]. }
  unfold assign. rewrite Hid, bind_Ok. unfold final_locals in *.
  destruct (final_id (mk_locals 0 label0 e1 (ps_marks s)) ss Hin Hnd Hno) as [Hlid Heid]. cbn [lo_e] in Hlid, Heid.
  assert (e_id e1 = e_id e /\ next_id e1 = next_id e) as [E1 E2] by (destruct Hn as [-> | [m ->]]; done).
  assert (e_stack (lo_e (fold_left set_step ss (mk_locals 0 label0 e1 (ps_marks s)))) = e_stack e) as -> by (by destruct Hsame as (? & ? & ? & ->)).
  rewrite Hlid, E1. pose proof (codes_no_jump (e_flags e) ss) as Hnj. rewrite Hret.
  destruct (e_jeq_ptr e) as [p |]; cbn [negb Z.eqb]; [rewrite bind_Ok |]; do 3 eexists; (split; [done |]);
    cbn [ps_tag ps_tag2 ps_marks mark_tags m_have_tag m_label]; rewrite final_label_kept, Heid, ?has_lor, Hid, ?Hnj, E2;
    by rewrite ?bool_decide_eq_true_2 by (by eexists); rewrite ?bool_decide_eq_false_2 by (by intros [? ?]).
Qed.

(** C22. An entry with set_label but with neither set_tag nor set_tag2 (which
    the code lets take its place), without [return], in a map of tags, with a
    label that is not empty, evaluated on a packet that has no label or a
    proper one.  When a key does not agree nothing is written.  When all do, no
    buffer is left and the label of the packet becomes the entry's, or its own
    with a comma and the entry's after it.  It faults in two cases: a key
    cannot be compared with the packet, or all agree and the entry has eight
    functions, with no room for the NULL that ends them. *)
Theorem entry_joins_label pk e s cmps ss text before :
  entry_wf e cmps ss -> e_flags e = FALSE -> e_ret e = 0 ->
  F_pretag_label ∈ ss.*1 -> F_pretag_id ∉ ss.*1 -> F_pretag_id2 ∉ ss.*1 ->
  full_label (e_label e) text -> m_label (ps_marks s) = label0 \/ full_label (m_label (ps_marks s)) before ->
  match keys_answer pk cmps e with
  | Err er => pretag_entry_process e pk s = Err er
  | Ok (r, _) =>
      if r =? 0 then
        if decide (roomy e) then
          exists ret e' s', pretag_entry_process e pk s = Ok (ret, e', s') /\ m_have_label (ps_marks s') = TRUE /\
            full_label (m_label (ps_marks s')) (if lb_len (m_label (ps_marks s)) =? 0 then text else before ++ DEFAULT_SEP ++ text) /\
            ps_tag s' = ps_tag s
        else pretag_entry_process e pk s = Err OutOfBounds
      else r = 1 /\ exists e', pretag_entry_process e pk s = Ok (1, e', s)
  end.
Proof.
  intros Hwf Hfl Hret Hin Hno1 Hno2 Hlab Hm.
  destruct (keys_answer pk cmps e) as [[r e1] | er] eqn:E; [| by apply (process_faults pk e s cmps ss)].
  destruct (compare_all_noted pk cmps (with_last_matched FALSE e) r e1 (wf_key _ _ _ Hwf) E) as [[-> | ->] Hn]; cbn [Z.eqb].
  2: { split; [done |]. exists e1. by apply (process_differs pk e s cmps ss e1). }
  destruct (decide (roomy e)) as [Hr | Hr]; [| by apply (process_overruns pk e s cmps ss e1); [| | rewrite Hfl |]].
  destruct (process_agrees pk e s cmps ss e1 Hwf Hr) as (_ & _ & ->); [by rewrite Hfl | done |].
  assert (He1 : e_label e1 = e_label e) by (destruct Hn as [-> | [m ->]]; done).
  assert (Hno : forall h f, h ∉ ss.*1 -> (forall g, g <> h -> has (set_code (e_flags e) g) f = false) ->
            has (set_codes (e_flags e) ss 0) f = false).
  { intros h f Hh Hg. rewrite has_codes. simpl. apply not_true_is_false. intros (g & Hg1 & Hg2)%existsb_exists.
    rewrite Hg in Hg2; [done |]. intros Eh. subst h. apply Hh, list_elem_of_fmap. exists g. split; [done | by apply list_elem_of_In]. }
  unfold assign.
  rewrite (Hno F_pretag_id PRETAG_MAP_RCODE_ID Hno1) by (intros g Hg; rewrite Hfl; by destruct g).
  rewrite (Hno F_pretag_id2 PRETAG_MAP_RCODE_ID2 Hno2) by (intros g Hg; rewrite Hfl; by destruct g).
  rewrite (has_codes (e_flags e) ss 0 PRETAG_MAP_RCODE_LABEL), (existsb_code _ _ F_pretag_label) by done. cbn [orb].
  rewrite orb_true_r. unfold final_locals. rewrite final_label_kept. cbn [lo_marks].
  pose proof (final_copy (mk_locals 0 label0 e1 (ps_marks s)) ss text Hin eq_refl) as Hc. cbn [lo_e] in Hc. rewrite He1 in Hc.
  specialize (Hc Hlab). set (l := fold_left set_step ss _) in *. rewrite Hret. cbn [Z.eqb negb].
  destruct Hm as [Hm | Hm].
  - rewrite Hm. cbn [lb_len label0 Z.eqb negb].
    destruct (copy_label_text label0 (lo_label l) text eq_refl Hc) as (x & -> & Hx). rewrite !bind_Ok.
    destruct (e_jeq_ptr e); rewrite ?bind_Ok; by do 3 eexists.
  - destruct Hm as [Hm Hm0]. rewrite (proj2 (Z.eqb_neq _ _) Hm0). cbn [negb].
    destruct (append_label_text (m_label (ps_marks s)) (lo_label l) before text Hm Hc) as (x & -> & Hx). rewrite !bind_Ok.
    destruct (e_jeq_ptr e); rewrite ?bind_Ok; by do 3 eexists.
Qed.

(** The port of a BGP agent keeps its address out when that is of IPv6: the
    codes of the two functions together are none of those that set a tag. *)
Lemma bgp_port_loses_ipv6_agent pk e s cmps e1 :
  entry_wf e cmps [(F_BTA_lookup_bgp_port, PRETAG_LOOKUP_BGP_PORT); (F_pretag_id, 0)] -> roomy e ->
  e_flags e = BTA_MAP_RCODE_ID_ID2 -> e_jeq_ptr e = None -> keys_answer pk cmps e = Ok (0, e1) ->
  exists ret e' s', pretag_entry_process e pk s = Ok (ret, e', s') /\
    has ret BTA_MAP_RCODE_ID_ID2 = true /\ ps_tag s' = ps_tag s /\ ps_tag2 s' = ps_tag2 s /\
    m_have_tag (ps_marks s') = m_have_tag (ps_marks s).
Proof.
  intros Hwf Hr Hfl Hj E. destruct (process_agrees pk e s cmps _ e1 Hwf Hr) as (_ & _ & ->); [by rewrite Hfl | done |].
  rewrite Hfl, Hj. do 3 eexists. split; [reflexivity |]. done.
Qed.

(** A full array of functions has no NULL: with eight of them that agree the
    loop reads after the array. *)
Lemma full_array_overrun pk e s cmps ss e1 :
  entry_wf e cmps ss -> length (e_func e) = N_MAP_HANDLERS -> e_flags e <> BPAS_MAP_RCODE_BGP ->
  keys_answer pk cmps e = Ok (0, e1) -> pretag_entry_process e pk s = Err OutOfBounds.
Proof. intros Hwf Hfull. apply (process_overruns pk e s cmps ss e1 Hwf). unfold roomy. lia. Qed.

End Find.

(** ** An example *)

(** A collector of NetFlow, with the numbers of an address read as they are. *)
Definition parse_quad (s : list Z) : option (list Z) :=
  match map atoi (tokens 46 (* . *) s) with [a; b; c; d] => Some [a; b; c; d] | _ => None end.
Definition ex_host : host := {|
  HAVE_L2 := true; WITH_NDPI := false; WITH_ZMQ := false; WITH_GEOIPV2 := false;
  WITH_MYSQL := false; WITH_PGSQL := false; WITH_SQLITE3 := false; WITH_RABBITMQ := false; WITH_KAFKA := false;
  PCAP_D_IN := 1; PCAP_D_OUT := 2;
  acct_type := ACCT_NF;
  getpwnam := fun _ => None; getpwuid := fun _ => None; getgrnam := fun _ => None; getgrgid := fun _ => None;
  inet_aton := parse_quad; inet_pton6 := fun _ => None
|}.
Definition ex_env : pt_env := {|
  nfacctd_net := 0; nfacctd_as := 0; networks_file := false; bgp_daemon := false;
  pretag_label_encode_as_map := false; pre_tag_map_dont_recirculate := false;
  bgp_daemon_peer_as_src_type := 0; bgp_daemon_src_local_pref_type := 0; bgp_daemon_src_roa_type := 0;
  bgp_daemon_peer_as_skip_subas := false; stdcomm_pattern_to_asn := None; lrgcomm_pattern_to_asn := None;
  maps_entries := 0; maps_row_len := 0; tee_plugins := false;
  pcap_compile := fun _ => None; bpf_filter := fun _ _ => false;
  search_pretag_src_as := fun _ => 0; search_pretag_dst_as := fun _ => 0; junk := 0
|}.

(** A map, and its table. *)
Definition ex_text (lines : list string) : list Z := concat (map (fun l => cstr l ++ [10]) lines).
Definition ex_start : mstate := mk_mstate entry0 0 false false false true true.
Definition ex_run (lines : list string) : res (id_table * mstate) :=
  load_id_file (ho := ex_host) (env := ex_env) ACCT_NF (Some (Cfg.Readable (ex_text lines))) 1 0 0 ex_start table0.
Definition ex_load (lines : list string) : id_table * mstate :=
  match ex_run lines with Ok x => x | Err _ => (table0, ex_start) end.
Definition ex_lines : list string := ["set_tag=10 ip=10.0.0.1 in=5 jeq=more"; "set_tag=20 ip=10.0.0.0/8 label=more stack=sum"].
Definition ex_table : id_table := fst (ex_load ex_lines).
Definition ex_labels : id_table := fst (ex_load ["set_label=edge in=5 jeq=more ip=10.0.0.1"; "set_label=paris label=more ip=10.0.0.1"]).
Definition ex_e (t : id_table) (i : nat) : id_entry := default entry0 (t_e t !! i).
Definition split_funcs (e : id_entry) : list (pretag_handler * Z) * list (pretag_handler * Z) :=
  (List.filter (fun f => compares (fst f)) (e_func e), List.filter (fun f => negb (compares (fst f))) (e_func e)).

(** A NetFlow v5 record from interface 5 of the exporter 10.0.0.1. *)
Definition ex_packet : packet :=
  mk_packet (mk_ha AF_INET ([10; 0; 0; 1] ++ replicate 12 0)) 5 (replicate 24 0) (Some (replicate 13 0 ++ [5] ++ replicate 34 0)) None 1 0
    (mk_sample 0 0 0 0 0 0 0 0 0 0 false false [] [] [] [] [] [] 0 0 0 0 [] []) 0 0 0 0 false false None None None 0 0 0 0 0 [].

Lemma split_wf e : Forall set_func (snd (split_funcs e)) -> e_func e = fst (split_funcs e) ++ snd (split_funcs e) ->
  (length (e_func e) <= N_MAP_HANDLERS)%nat -> key_ok e -> label_ok (e_label e) ->
  entry_wf e (fst (split_funcs e)) (snd (split_funcs e)).
Proof.
  intros Hs Hf Hl Hk Hlab. split; try done. apply Forall_forall. intros f Hin%list_elem_of_In. simpl in Hin.
  by apply List.filter_In in Hin as [_ ?].
Qed.

Definition answer_of (t : id_table) (i : nat) : Z * id_entry :=
  match keys_answer (env := ex_env) ex_packet (fst (split_funcs (ex_e t i))) (ex_e t i) with
  | Ok x => x | Err _ => (0, entry0)
  end.
#[local] Existing Instance PretagMapFacts.member_ok_dec.
Ltac ex_wf := apply split_wf;
  [apply (bool_decide_unpack _); vm_compute; exact I | vm_compute; reflexivity | apply Nat.leb_le; vm_compute; reflexivity
  | unfold key_ok; apply (bool_decide_unpack _); vm_compute; exact I |].

Lemma ex_tag_wf : entry_wf (ex_e ex_table 0) (fst (split_funcs (ex_e ex_table 0))) (snd (split_funcs (ex_e ex_table 0))).
Proof. ex_wf. left. split; vm_compute; reflexivity. Qed.
Lemma ex_sum_wf : entry_wf (ex_e ex_table 1) (fst (split_funcs (ex_e ex_table 1))) (snd (split_funcs (ex_e ex_table 1))).
Proof. ex_wf. left. split; vm_compute; reflexivity. Qed.
Lemma ex_label_wf : entry_wf (ex_e ex_labels 1) (fst (split_funcs (ex_e ex_labels 1))) (snd (split_funcs (ex_e ex_labels 1))).
Proof.
  ex_wf. right. exists (cstr "paris"). split; [apply (bool_decide_unpack _); vm_compute; exact I |]. exists [].
  split; [vm_compute; reflexivity | left; vm_compute; reflexivity].
Qed.

(** All keys agree, and there is room. *)
Lemma agreed (a : res (Z * id_entry)) e1 e (F : fault -> Prop) (P Q : Prop) (N : Z -> Prop) :
  a = Ok (0, e1) -> roomy e ->
  match a with Err er => F er | Ok (r, _) => if r =? 0 then if decide (roomy e) then P else Q else N r end -> P.
Proof. intros -> Hr. cbn [Z.eqb]. by rewrite decide_True. Qed.
Lemma ex_tag_agrees : keys_answer (env := ex_env) ex_packet (fst (split_funcs (ex_e ex_table 0))) (ex_e ex_table 0) = Ok (0, snd (answer_of ex_table 0)).
Proof. vm_compute. reflexivity. Qed.
Lemma ex_label_agrees : keys_answer (env := ex_env) ex_packet (fst (split_funcs (ex_e ex_labels 1))) (ex_e ex_labels 1) = Ok (0, snd (answer_of ex_labels 1)).
Proof. vm_compute. reflexivity. Qed.
Lemma ex_tag_roomy : roomy (ex_e ex_table 0).
Proof. apply Nat.ltb_lt. vm_compute. reflexivity. Qed.
Lemma ex_label_roomy : roomy (ex_e ex_labels 1).
Proof. apply Nat.ltb_lt. vm_compute. reflexivity. Qed.

Lemma entry_sets_tag_witness :
  exists ret e' s', pretag_entry_process (env := ex_env) (ex_e ex_table 0) ex_packet ps0 = Ok (ret, e', s') /\
    ps_tag s' = 10 /\ has ret PRETAG_MAP_RCODE_JEQ = true.
Proof.
  pose proof (entry_sets_tag (env := ex_env) ex_packet (ex_e ex_table 0) ps0 _ _ ex_tag_wf
    ltac:(vm_compute; reflexivity) ltac:(vm_compute; reflexivity) ltac:(apply (bool_decide_unpack _); vm_compute; exact I)
    ltac:(apply (bool_decide_unpack _); vm_compute; exact I) ltac:(apply (bool_decide_unpack _); vm_compute; exact I)) as H.
  apply (agreed _ _ _ _ _ _ _ ex_tag_agrees ex_tag_roomy) in H. destruct H as (ret & e' & s' & Ep & Ht & _ & _ & _ & _ & _ & Hj).
  exists ret, e', s'. split; [exact Ep |].
  split; [rewrite Ht; vm_compute; reflexivity |]. rewrite Hj. vm_compute. reflexivity.
Defined.

(** The label of the packet before: that of the first line. *)
Definition ex_labelled : pstate := set_marks (mark_label (mk_label 5 (Some (cstr "edge" ++ [0]))) TRUE marks0) ps0.

Lemma entry_joins_label_witness :
  exists ret e' s', pretag_entry_process (env := ex_env) (ex_e ex_labels 1) ex_packet ex_labelled = Ok (ret, e', s') /\
    full_label (m_label (ps_marks s')) (cstr "edge,paris").
Proof.
  unshelve epose proof (entry_joins_label (env := ex_env) ex_packet (ex_e ex_labels 1) ex_labelled _ _
    (cstr "paris") (cstr "edge") ex_label_wf
    ltac:(vm_compute; reflexivity) ltac:(vm_compute; reflexivity) ltac:(apply (bool_decide_unpack _); vm_compute; exact I)
    ltac:(apply (bool_decide_unpack _); vm_compute; exact I) ltac:(apply (bool_decide_unpack _); vm_compute; exact I) _ _) as H.
  - split; [| vm_compute; discriminate]. split; [apply (bool_decide_unpack _); vm_compute; exact I |]. exists [].
    split; [vm_compute; reflexivity | left; vm_compute; reflexivity].
  - right. split; [| vm_compute; discriminate]. split; [apply (bool_decide_unpack _); vm_compute; exact I |]. exists [].
    split; [vm_compute; reflexivity | right; vm_compute; split; [reflexivity | discriminate]].
  - apply (agreed _ _ _ _ _ _ _ ex_label_agrees ex_label_roomy) in H. destruct H as (ret & e' & s' & Ep & _ & Hl & _). exists ret, e', s'. split; [exact Ep | exact Hl].
Defined.

End PretagFindFacts.
