(* ===== verification/PretagLoadFacts.v ===== *)
(** * Reading a map

    A map that is read is a well-formed table, whatever the file holds; a line
    of words is read key by key. *)

From S2P Require Import Prelude.
From S2P Require Import BgpPrefix.
From S2P Require Import CBuf.
From S2P Require Import BgpAttr.
From S2P Require Import NfTemplate.
From S2P Require Import CfgData.
From S2P Require Import CfgHandlers.
From S2P Require Import Cfg.
From S2P Require Import PretagData.
From S2P Require Import PretagMap.
From S2P Require Import PretagMapFacts.
From S2P Require Import PretagMatch.
From S2P Require Import Pretag.
From S2P Require Import PretagFacts.
From S2P Require Import PretagLoad.
From S2P Require Import PretagFindFacts.

Module PretagLoadFacts.
Import BgpPrefix(AF_INET, AF_INET6).
Import BgpAttr(host_addr, mk_ha, ha_family, ha_address, ha0).
Import CBuf(no_nul).
Import CfgData.
Import CfgHandlers.
Import Cfg(file, Missing, NotRegular, Unreadable, Readable, fgets, c_string).
Import PretagData.
Import PretagMap.
Import PretagMapFacts.
Import Pretag.
Import PretagFacts(label_text, full_label, label_ok, set_func, entry_wf, wf_func, wf_cmps, wf_sets, wf_len, wf_key, wf_label, key_ok,
  copy_label_text, copy_label_total).
Import PretagLoad.
Import PretagMatch.
Import PretagFindFacts.

(** ** The text of a line has no NUL *)

Lemma no_nul_filter (f : Z -> bool) s : no_nul s -> no_nul (List.filter f s).
Proof. intros H. apply Forall_forall. intros c [Hc _]%list_elem_of_In%List.filter_In. apply (proj1 (Forall_forall _ _) H). by apply list_elem_of_In. Qed.
Lemma c_string_no_nul buf : no_nul (c_string buf).
Proof.
  unfold c_string. destruct (split_at 0 buf) as [[line rest] |] eqn:E.
  - revert line rest E. induction buf as [| c buf IH]; intros line rest; simpl; [done |].
    destruct (Z.eqb_spec c 0); [intros [= <- <-]; constructor |]. destruct (split_at 0 buf) as [[a b] |]; [| done].
    intros [= <- <-]. constructor; [done | by eapply IH].
  - revert E. induction buf as [| c buf IH]; simpl; [constructor |]. destruct (Z.eqb_spec c 0); [done |].
    destruct (split_at 0 buf) as [[a b] |]; [done |]. intros _. constructor; [done | by apply IH].
Qed.
Lemma trim_no_nul q buf : no_nul buf -> no_nul (trim_all_from q buf).
Proof.
  intros H. revert q. induction H as [| c buf Hc _ IH]; intros q; simpl; [constructor |].
  case_match; [apply IH | constructor; [done | apply IH]].
Qed.
Lemma line_no_nul line : no_nul (strip_quotes (trim_all_spaces (mark_columns line))).
Proof. apply no_nul_filter, trim_no_nul, c_string_no_nul. Qed.

Lemma slice_no_nul line start x : no_nul line -> (x <= length line)%nat -> no_nul (slice (line ++ [0]) start x).
Proof.
  intros H Hx. unfold slice. destruct (decide (start <= x)%nat) as [Hs | Hs].
  - rewrite take_drop_commute. apply Forall_drop. rewrite take_app_le by lia. by apply Forall_take.
  - replace (x - start)%nat with 0%nat by lia. constructor.
Qed.

Section LoadFacts.
Context {ho : host} {env : pt_env}.

(** ** Keys *)

Lemma apply_key_ok map_type key value st : no_nul value -> st_ok st -> post (apply_key map_type key value st).
Proof.
  intros Hv H. unfold apply_key. destruct (find_map_key key (dictionary_of map_type)) as [f |] eqn:E; [| done].
  by apply (find_map_key_keeps key _ f (dictionary_of_keeps map_type) E).
Qed.

Lemma byte_in line x : (x <= length line)%nat -> byte_at (line ++ [0]) (Z.of_nat x) = 61 -> (S x <= length line)%nat.
Proof.
  intros Hx E. destruct (decide (x = length line)) as [-> | Hne]; [| lia].
  unfold byte_at in E. rewrite Nat2Z.id, lookup_app_r, Nat.sub_diag in E by lia. done.
Qed.

Lemma keys_loop_ok fuel map_type line x start key st :
  no_nul line -> st_ok st -> post (keys_loop fuel map_type (line ++ [0]) x start key st).
Proof.
  intros Hl. revert x start key st. induction fuel as [| fuel IH]; intros x start key st H; [done |]. cbn [keys_loop].
  case_match eqn:Ex; [done |]. apply Nat.leb_gt in Ex. rewrite length_app in Ex. cbn [length] in Ex.
  case_match; [by apply IH |].
  assert (Hp : (snd (fst (end_of_key (line ++ [0%Z]) x start key)) <= length line)%nat).
  { unfold end_of_key. destruct key; simpl; [lia |]. case_match eqn:E; simpl; [| lia]. apply Z.eqb_eq in E. apply byte_in; [lia | done]. }
  destruct (end_of_key (line ++ [0]) x start key) as [[key' x'] start'].
  simpl in Hp. case_match; [| by apply IH]. case_match; [by apply IH |]. destruct key' as [key' |]; [| done]. cbv zeta.
  pose proof (apply_key_ok map_type key' (slice (line ++ [0]) start' x') st (slice_no_nul _ _ _ Hl Hp) H) as Hk.
  destruct (apply_key _ _ _ _) as [[err st'] |]; [| done]. rewrite bind_Ok. case_match; [by apply IH | done].
Qed.

(** ** The entries a line adds *)

(** An entry of a table before jumps are resolved. *)
Record loaded (e : id_entry) : Prop := {
  ld_wf : exists cmps ss, entry_wf e cmps ss;
  ld_family : agent_family e = AF_INET \/ agent_family e = AF_INET6;
  ld_jeq : e_jeq_ptr e = None
}.

Lemma key_label_ok l : key_label l -> label_ok l.
Proof.
  intros [-> | (text & Hn & ->)]; [by left |]. right. exists text. split; [done |]. exists []. split; [done |]. by left.
Qed.

Definition is_loaded (r : res (list id_entry)) (room : Z) : Prop :=
  match r with Ok l => Forall loaded l /\ (0 < room -> Z.of_nat (length l) <= room) | Err _ => True end.

(** The entry as far as its keys are concerned. *)
Record half_loaded (e : id_entry) : Prop := {
  hl_func : Forall (fun f => compares (fst f) = true) (e_func e);
  hl_set : Forall sets (e_set_func e);
  hl_key : key_ok e;
  hl_label : label_ok (e_label e);
  hl_jeq : e_jeq_ptr e = None
}.
Lemma entry_ok_half e : entry_ok e -> half_loaded e.
Proof. intros []. split; try done. by apply key_label_ok. Qed.

Lemma with_set_funcs_ok e e' : half_loaded e -> with_set_funcs e = Ok e' ->
  (exists cmps ss, entry_wf e' cmps ss) /\ e_jeq_ptr e' = None /\ e_key e' = e_key e.
Proof.
  intros []. unfold with_set_funcs. case_match; [done |]. case_match eqn:Hl; [done |]. intros [= <-]. apply Nat.ltb_ge in Hl.
  split; [| done]. exists (e_func e), (e_set_func e). split; simpl; try done.
  - eapply Forall_impl; [done |]. intros f Hf. by left.
  - by rewrite length_app.
Qed.
Lemma with_last_id_ok e e' cmps ss : entry_wf e cmps ss -> with_last_id e = Ok e' ->
  entry_wf e' cmps (ss ++ [(F_pretag_id, 0)]) /\ e_jeq_ptr e' = e_jeq_ptr e /\ e_key e' = e_key e.
Proof.
  intros [Hf Hc Hs Hl Hk Hlab]. unfold with_last_id. case_match eqn:Hr; [done |]. intros [= <-]. apply Nat.leb_gt in Hr.
  split; [| done]. split; simpl; try done.
  - by rewrite Hf, app_assoc.
  - apply Forall_app. split; [done |]. constructor; [by right | constructor].
  - rewrite length_app. simpl. lia.
Qed.
Lemma half_wf e : half_loaded e -> (length (e_func e) <= N_MAP_HANDLERS)%nat -> entry_wf e (e_func e) [].
Proof. intros [] Hl. split; try done. by rewrite app_nil_r. Qed.

Lemma set_agent_half a m e : half_loaded e -> half_loaded (set_key "agent_ip" (KNet 0 a m) e).
Proof. intros []. split; simpl; try done. apply map_Forall_insert_2; [by left | done]. Qed.
Lemma agent_family_set neg a m e : agent_family (set_key "agent_ip" (KNet neg a m) e) = ha_family a.
Proof. unfold agent_family, key_net. simpl. by rewrite lookup_insert_eq. Qed.
Lemma agent_family_key e e' : e_key e' = e_key e -> agent_family e' = agent_family e.
Proof. intros E. unfold agent_family. by rewrite E. Qed.
Lemma entry_ok_family e : entry_ok e -> agent_family e <> 0 -> agent_family e = AF_INET \/ agent_family e = AF_INET6.
Proof.
  intros [_ _ _ _ _ Ha _ _] H. unfold agent_family, key_net, agent_ok in *. destruct (e_key e !! "agent_ip") as [[] |]; simpl in *; tauto.
Qed.

Lemma one_loaded e room : (exists cmps ss, entry_wf e cmps ss) -> agent_family e = AF_INET \/ agent_family e = AF_INET6 ->
  e_jeq_ptr e = None -> is_loaded (Ok [e]) room.
Proof. intros. split; [constructor; [by split | constructor] |]. simpl. lia. Qed.

(** Wrapping the two ways a function list is closed. *)
Lemma set_funcs_loaded e room : half_loaded e -> agent_family e = AF_INET \/ agent_family e = AF_INET6 ->
  is_loaded (e ← with_set_funcs e; Ok [e]) room.
Proof.
  intros H Hf. destruct (with_set_funcs e) as [e' |] eqn:E; [rewrite bind_Ok | done].
  destruct (with_set_funcs_ok _ _ H E) as (Hwf & Hj & Hk). apply one_loaded; [done | by rewrite (agent_family_key e) | done].
Qed.
Lemma last_id_loaded e room : entry_ok e -> agent_family e <> 0 -> is_loaded (e ← with_last_id e; Ok [e]) room.
Proof.
  intros H Hf. destruct (with_last_id e) as [e' |] eqn:E; [rewrite bind_Ok | done].
  destruct (with_last_id_ok _ _ _ _ (half_wf e (entry_ok_half e H) (ok_func_len e H)) E) as (Hwf & Hj & Hk).
  apply one_loaded; [by eauto | rewrite (agent_family_key e) by done; by apply entry_ok_family | by rewrite Hj; destruct H].
Qed.

Lemma recirculated_ok e e6 : half_loaded e -> recirculated (any_agent AF_INET e) = Ok e6 ->
  half_loaded e6 /\ agent_family e6 = AF_INET6.
Proof.
  intros H. unfold recirculated, with_agent, any_agent. unfold key_net. simpl. rewrite lookup_insert_eq. simpl.
  match goal with |- context [Ok ?x] => assert (H6 : half_loaded x) by (by apply set_agent_half, set_agent_half) end.
  destruct (lb_val (e_label e)) eqn:El; [| intros [= <-]; split; [done | apply agent_family_set]].
  destruct (copy_label_total label0 (e_label e)) as (r & lab & -> & Hl); [by left | apply H |]. intros [= <-].
  split; [destruct H6; by split | apply (agent_family_set 0)].
Qed.

Lemma accept_tag_ok e room : entry_ok e -> 0 < room -> is_loaded (accept_tag e room) room.
Proof.
  intros H Hr. pose proof (entry_ok_half e H) as Hh. unfold accept_tag. case_match eqn:Ef.
  - apply set_funcs_loaded; [done |]. apply entry_ok_family; [done |]. by apply Z.eqb_neq, negb_true_iff.
  - destruct (with_set_funcs (any_agent AF_INET e)) as [e4 |] eqn:E4; [rewrite bind_Ok | done].
    destruct (with_set_funcs_ok _ _ (set_agent_half _ _ _ Hh) E4) as (Hwf & Hj & Hk).
    assert (Hf4 : agent_family e4 = AF_INET) by (rewrite (agent_family_key _ _ Hk); apply agent_family_set).
    case_match eqn:Hroom; [apply one_loaded; auto |].
    destruct (recirculated (any_agent AF_INET e)) as [e6 |] eqn:E6; [rewrite bind_Ok | done].
    destruct (recirculated_ok _ _ Hh E6) as [Hh6 Hf6].
    destruct (with_set_funcs e6) as [e6' |] eqn:E6'; [rewrite bind_Ok | done].
    destruct (with_set_funcs_ok _ _ Hh6 E6') as (Hwf6 & Hj6 & Hk6). apply orb_false_iff in Hroom as [_ Hroom%Z.leb_gt].
    split; [| simpl; lia]. constructor; [by split; auto |]. constructor; [| constructor].
    split; [done | right; by rewrite (agent_family_key _ _ Hk6) | done].
Qed.

Lemma none_loaded room : is_loaded (Ok []) room.
Proof. split; [constructor | simpl; lia]. Qed.

Lemma accept_ok map_type err e room : entry_ok e -> 0 < room -> is_loaded (accept map_type err e room) room.
Proof.
  intros H Hr. pose proof (entry_ok_half e H) as Hh. unfold accept.
  assert (Hfam : forall b, b && negb (agent_family e =? 0) = true -> agent_family e <> 0).
  { intros b [_ Hb]%andb_true_iff. by apply Z.eqb_neq, negb_true_iff. }
  repeat match goal with |- is_loaded (if ?b then _ else _) _ => destruct b eqn:? end;
    try apply none_loaded; try (by apply accept_tag_ok); try (apply last_id_loaded; [done | by eapply Hfam]).
  - destruct (with_set_funcs e) as [e' |] eqn:E; [rewrite bind_Ok | done].
    destruct (with_set_funcs_ok _ _ Hh E) as ((cmps & ss & Hwf) & Hj & Hk).
    pose proof (PretagMapFacts.entry_net_bit "agent_ip" e H) as Hb. rewrite <- Hk in Hb.
    destruct (key_net "agent_ip" (e_key e')) as [[neg a] m]. simpl in Hb.
    apply one_loaded; [| left; apply agent_family_set | done]. exists cmps, ss. destruct Hwf. split; simpl; try done.
    by apply map_Forall_insert_2.
  - destruct (with_set_funcs e) as [e' |] eqn:E; [rewrite bind_Ok | done].
    destruct (with_set_funcs_ok _ _ Hh E) as ((cmps & ss & Hwf) & Hj & Hk).
    destruct (with_last_id e') as [e'' |] eqn:E'; [rewrite bind_Ok | done].
    destruct (with_last_id_ok _ _ _ _ Hwf E') as (Hwf' & Hj' & Hk').
    apply one_loaded; [by eauto | | congruence]. rewrite (agent_family_key e) by congruence. apply entry_ok_family; [done |]. by eapply Hfam.
Qed.

(** ** The lines *)

Lemma load_line_ok map_type map_entries map_row_len line st tmp st' tmp' :
  Forall loaded tmp -> Z.of_nat (length tmp) < map_entries ->
  load_line map_type map_entries map_row_len line st tmp = Ok (st', tmp') ->
  Forall loaded tmp' /\ Z.of_nat (length tmp') <= map_entries.
Proof.
  intros Ht Hl. unfold load_line. case_match; [intros [= <- <-]; split; [done | lia] |].
  assert (Hp : post (parse_keys map_type (strip_quotes (trim_all_spaces (mark_columns line))) (upd (fun _ => entry0) st))).
  { apply keys_loop_ok; [apply line_no_nul | apply entry0_ok]. }
  destruct (parse_keys _ _ _) as [[err st1] |]; [rewrite bind_Ok | done].
  pose proof (accept_ok map_type err (ms_e st1) (map_entries - Z.of_nat (length tmp)) Hp ltac:(lia)) as Ha.
  destruct (accept _ _ _ _) as [es |]; [rewrite bind_Ok | done]. intros [= <- <-]. destruct Ha as [Ha Hn].
  rewrite length_app. split; [by apply Forall_app | lia].
Qed.

Lemma load_lines_ok fuel map_type map_entries map_row_len content st tmp st' tmp' :
  Forall loaded tmp -> Z.of_nat (length tmp) <= Z.max 0 map_entries ->
  load_lines fuel map_type map_entries map_row_len content st tmp = Ok (st', tmp') ->
  Forall loaded tmp' /\ Z.of_nat (length tmp') <= Z.max 0 map_entries.
Proof.
  revert content st tmp. induction fuel as [| fuel IH]; intros content st tmp Ht Hl; [done |]. cbn [load_lines].
  destruct content as [| c content]; [by intros [= <- <-] |]. case_match eqn:El; [by intros [= <- <-] |]. apply Z.leb_gt in El.
  destruct (fgets _ _) as [line rest]. destruct (load_line _ _ _ _ _ _) as [[st1 tmp1] |] eqn:E; [rewrite bind_Ok | done].
  destruct (load_line_ok _ _ _ _ _ _ _ _ Ht El E). apply IH; [done | lia].
Qed.

(** ** The table *)

Lemma set_positions_lookup x l i : set_positions x l !! i = with_pos (x + Z.of_nat i) <$> l !! i.
Proof.
  revert x i. induction l as [| e l IH]; intros x [| i]; simpl; try done; [by rewrite Z.add_0_r |].
  rewrite IH. do 2 f_equal. lia.
Qed.
Lemma set_positions_length x l : length (set_positions x l) = length l.
Proof. revert x. induction l as [| e l IH]; intros x; simpl; [done |]. by rewrite IH. Qed.

Lemma find_label_in label l p : find_label label l = Some p -> exists i e, l !! i = Some e /\ e_pos e = p.
Proof.
  induction l as [| e l IH]; simpl; [done |]. case_match; [intros [= <-]; by exists 0%nat, e |].
  intros (i & e' & Hi & Hp)%IH. by exists (S i), e'.
Qed.
(** The labels of a family are the places of its entries. *)
Lemma forward_range x l label e p : forward (set_positions x l) label e = Some p -> e_pos e < p < x + Z.of_nat (length l).
Proof.
  unfold forward. destruct (find_label label (set_positions x l)) as [idx |] eqn:E; [| done].
  destruct (Z.ltb_spec (e_pos e) idx); [| done]. intros [= <-].
  destruct (find_label_in _ _ _ E) as (i & e' & Hi & Hp). rewrite set_positions_lookup in Hi.
  destruct (l !! i) as [e0 |] eqn:E0; [| done]. simpl in Hi. injection Hi as <-. simpl in Hp. apply lookup_lt_Some in E0. lia.
Qed.

Definition entry_in_place (i last : Z) (family : Z) (e : id_entry) : Prop :=
  (exists cmps ss, entry_wf e cmps ss) /\ e_pos e = i /\ ha_family (snd (fst (key_net "agent_ip" (e_key e)))) = family /\
  (forall p, e_jeq_ptr e = Some p -> i < p < last).

Lemma agent_family_net e : ha_family (snd (fst (key_net "agent_ip" (e_key e)))) = agent_family e.
Proof. unfold agent_family. by destruct (key_net "agent_ip" (e_key e)) as [[? a] ?]. Qed.

Lemma resolved_in_place i last ptr e : loaded e -> (forall p, ptr = Some p -> i < p < last) ->
  entry_in_place i last (agent_family e) (with_jeq_ptr ptr (with_pos i e)).
Proof.
  intros [(cmps & ss & []) _ _] Hp. split; [by exists cmps, ss |]. split; [done |]. split; [by rewrite <- agent_family_net | done].
Qed.
Lemma unresolved_in_place i last e : loaded e -> entry_in_place i last (agent_family e) (with_pos i e).
Proof.
  intros [(cmps & ss & []) _ Hj]. split; [by exists cmps, ss |]. split; [done |]. split; [by rewrite <- agent_family_net |].
  intros p. simpl. by rewrite Hj.
Qed.

Lemma of_family_lookup family tmp i e : Forall loaded tmp -> of_family family tmp !! i = Some e -> loaded e /\ agent_family e = family.
Proof.
  intros H Hi. apply list_elem_of_lookup_2, list_elem_of_In, List.filter_In in Hi as [Hi Hf].
  split; [apply (proj1 (Forall_forall _ _) H); by apply list_elem_of_In | by apply Z.eqb_eq].
Qed.
Lemma of_family_length tmp : Forall loaded tmp ->
  (length (of_family AF_INET tmp) + length (of_family AF_INET6 tmp) = length tmp)%nat.
Proof.
  induction 1 as [| e tmp [_ Hf _] _ IH]; [done |]. unfold of_family in *. simpl. by destruct Hf as [-> | ->]; simpl; lia.
Qed.

(** The entries after the third stage, family by family. *)
Lemma v4_in_place tmp i e : Forall loaded tmp ->
  let v4 := set_positions 0 (of_family AF_INET tmp) in
  map (resolve_v4 v4) v4 !! i = Some e -> entry_in_place (Z.of_nat i) (Z.of_nat (length v4)) AF_INET e.
Proof.
  intros Ht v4 Hi. rewrite list_lookup_fmap in Hi. unfold v4 at 2 in Hi. rewrite set_positions_lookup in Hi.
  destruct (of_family AF_INET tmp !! i) as [e0 |] eqn:E0; [| done]. simpl in Hi. injection Hi as <-.
  destruct (of_family_lookup _ _ _ _ Ht E0) as [Hl Hf]. rewrite <- Hf. unfold resolve_v4.
  destruct (e_jeq_label _) as [label |]; [apply resolved_in_place; [done |] | by apply unresolved_in_place].
  intros p. case_match.
  - case_match eqn:El; [| done]. apply Z.ltb_lt in El. simpl in *. intros [= <-]. lia.
  - intros Hp%forward_range. simpl in Hp. unfold v4. rewrite set_positions_length. lia.
Qed.
Lemma v6_in_place tmp x i e : Forall loaded tmp ->
  let v6 := set_positions x (of_family AF_INET6 tmp) in
  map (resolve_v6 v6) v6 !! i = Some e -> entry_in_place (x + Z.of_nat i) (x + Z.of_nat (length v6)) AF_INET6 e.
Proof.
  intros Ht v6 Hi. rewrite list_lookup_fmap in Hi. unfold v6 at 2 in Hi. rewrite set_positions_lookup in Hi.
  destruct (of_family AF_INET6 tmp !! i) as [e0 |] eqn:E0; [| done]. simpl in Hi. injection Hi as <-.
  destruct (of_family_lookup _ _ _ _ Ht E0) as [Hl Hf]. rewrite <- Hf. unfold resolve_v6.
  destruct (e_jeq_label _) as [label |]; [apply resolved_in_place; [done |] | by apply unresolved_in_place].
  intros p Hp%forward_range. simpl in Hp. unfold v6. rewrite set_positions_length. lia.
Qed.

Lemma build_table_wf map_type flags mtime tmp : Forall loaded tmp -> table_wf (build_table map_type flags mtime tmp).
Proof.
  intros Ht. pose proof (of_family_length tmp Ht) as Hlen. unfold build_table.
  set (v4 := set_positions 0 (of_family AF_INET tmp)). set (v6 := set_positions _ (of_family AF_INET6 tmp)).
  assert (H4 : length v4 = length (of_family AF_INET tmp)) by apply set_positions_length.
  assert (H6 : length v6 = length (of_family AF_INET6 tmp)) by apply set_positions_length.
  split; cbn [t_num t_e t_ipv4_num t_ipv6_num].
  - rewrite length_app, !length_map. lia.
  - lia.
  - intros i e Hi. unfold family_end. cbn [t_num t_ipv4_num].
    assert (entry_in_place (Z.of_nat i) (if Z.of_nat i <? Z.of_nat (length v4) then Z.of_nat (length v4) else Z.of_nat (length tmp))
              (if Z.of_nat i <? Z.of_nat (length v4) then AF_INET else AF_INET6) e) as Hp; [| exact Hp].
    destruct (Z.ltb_spec (Z.of_nat i) (Z.of_nat (length v4))) as [Hlt | Hge].
    + rewrite lookup_app_l in Hi by (rewrite length_map; lia). by apply (v4_in_place tmp).
    + rewrite lookup_app_r in Hi by (rewrite length_map; lia). rewrite length_map in Hi.
      pose proof (v6_in_place tmp (Z.of_nat (length v4)) (i - length v4) e Ht Hi) as Hp. fold v6 in Hp.
      replace (Z.of_nat (length v4) + Z.of_nat (i - length v4)) with (Z.of_nat i) in Hp by lia.
      replace (Z.of_nat (length v4) + Z.of_nat (length v6)) with (Z.of_nat (length tmp)) in Hp by lia. exact Hp.
Qed.

(** What is read comes from loaded entries. *)
Lemma load_id_file_built map_type content mtime entries row_len st t t' st' :
  load_id_file map_type (Some (Readable content)) mtime entries row_len st t = Ok (t', st') ->
  exists tmp, Forall loaded tmp /\ t' = build_table map_type (ms_flags st') mtime tmp /\
    Z.of_nat (length tmp) <= Z.max 0 (or_default entries maps_entries MAX_PRETAG_MAP_ENTRIES).
Proof.
  unfold load_id_file. cbv zeta.
  destruct (load_lines _ _ _ _ _ _ _) as [[st1 tmp] |] eqn:E; [rewrite bind_Ok | done]. intros [= <- <-].
  destruct (load_lines_ok _ _ _ _ _ _ _ _ _ (Forall_nil_2 _) ltac:(simpl; lia) E) as [Ht Hl]. by exists tmp.
Qed.

(** C20. Whatever a map's file holds, what is read is a well-formed table: the
    entries of IPv4 before those of IPv6, each knowing its place, the functions
    that compare before those that set and within the array, every jump forward
    and within its family, and no more entries than were asked for. *)
Theorem load_id_file_table map_type content mtime entries row_len st t t' st' :
  load_id_file map_type (Some (Readable content)) mtime entries row_len st t = Ok (t', st') ->
  table_wf t' /\ t_type t' = map_type /\
  t_num t' <= Z.max 0 (or_default entries maps_entries MAX_PRETAG_MAP_ENTRIES).
Proof.
  intros E. destruct (load_id_file_built _ _ _ _ _ _ _ _ _ E) as (tmp & Ht & -> & Hl).
  split; [by apply build_table_wf |]. split; [done | exact Hl].
Qed.

(** ** Lookups in a table that was read *)

(** C19. Looking a NetFlow packet up in a well-formed table, of any map but one
    of BGP peer ASes, ends and does what the specification says: of the
    entries of the exporter's family that name it, the first whose keys all
    agree is evaluated, and from its jump on the next one; the table is still
    well formed.  The only other outcome is a fault, and then this path comes
    to an entry that names the exporter and whose keys cannot be compared with
    the packet, or all agree while it has eight functions, with no room for
    the NULL that ends them. *)
Theorem NF_find_id_first_match t pk s :
  table_wf t -> state_ok s -> (forall e, e ∈ t_e t -> e_flags e <> BPAS_MAP_RCODE_BGP) ->
  let '(first, last) := range_of (ha_family (pk_agent pk)) t in
  match NF_find_id t pk s with
  | Ok (_, t', s') =>
      (exists visited, lookup_path (agent_agrees (pk_agent pk)) pk (t_e t) last first (init_find t s) visited s') /\ table_wf t' /\ state_ok s'
  | Err er => lookup_fault (agent_agrees (pk_agent pk)) pk (t_e t) last first (init_find t s) er
  end.
Proof.
  intros Ht Hs Hb. unfold NF_find_id. pose proof (range_of_cases (ha_family (pk_agent pk)) t Ht) as Hr.
  destruct (range_of _ t) as [first last]. by apply find_id_path.
Qed.

End LoadFacts.
(** ** Examples *)

Lemma load_id_file_table_witness : table_wf ex_table /\ t_num ex_table <= 384.
Proof.
  destruct (load_id_file_table (ho := ex_host) (env := ex_env) ACCT_NF (ex_text ex_lines) 1 0 0 ex_start table0 ex_table (snd (ex_load ex_lines)))
    as (Hw & _ & Hn); [vm_compute; reflexivity |].
  split; [exact Hw | exact Hn].
Defined.

Lemma ex_map_wf : table_wf ex_table.
Proof.
  destruct (load_id_file_built (ho := ex_host) (env := ex_env) ACCT_NF (ex_text ex_lines) 1 0 0 ex_start table0 ex_table (snd (ex_load ex_lines)))
    as (tmp & Ht & -> & _); [vm_compute; reflexivity | by apply build_table_wf].
Qed.

Lemma NF_find_id_first_match_witness :
  exists ret t' s' visited, NF_find_id (env := ex_env) ex_table ex_packet ps0 = Ok (ret, t', s') /\
    lookup_path (env := ex_env) (agent_agrees (pk_agent ex_packet)) ex_packet (t_e ex_table) 2 0 (init_find ex_table ps0) visited s'.
Proof.
  pose proof (NF_find_id_first_match (env := ex_env) ex_table ex_packet ps0 ex_map_wf) as H.
  destruct (NF_find_id (env := ex_env) ex_table ex_packet ps0) as [[[ret t'] s'] | er] eqn:E; [| vm_compute in E; discriminate E].
  exists ret, t', s'. destruct H as [[visited Hp] _].
  - split; [vm_compute; eexists; reflexivity | left; split; reflexivity].
  - assert (t_e ex_table = [ex_e ex_table 0; ex_e ex_table 1]) as -> by (vm_compute; reflexivity).
    intros e [-> | [-> | []%elem_of_nil]%elem_of_cons]%elem_of_cons; vm_compute; discriminate.
  - exists visited. split; [reflexivity | exact Hp].
Defined.

End PretagLoadFacts.
