(* ===== verification/PretagLineFacts.v ===== *)
(** * A line of a map, read key by key

    A line of words [key=value] with a space between them is read as its keys
    in order, each given its value, up to the first error. *)

From S2P Require Import Prelude.
From S2P Require Import CfgData.
From S2P Require Import CfgHandlers.
From S2P Require Import Cfg.
From S2P Require Import PretagData.
From S2P Require Import PretagMap.
From S2P Require Import Pretag.
From S2P Require Import PretagLoad.
From S2P Require Import PretagFindFacts.

Module PretagLineFacts.
Import CfgData.
Import CfgHandlers.
Import Cfg(c_string).
Import PretagData.
Import PretagMap.
Import PretagLoad.

Import PretagFindFacts(ex_host, ex_env, ex_start).

(** ** Words *)

(** The characters of a word: no space, no quote, no bar. *)
Definition word_char (c : Z) : Prop := in_word c = true /\ c <> 39 /\ c <> 124.
Definition is_key (k : list Z) : Prop := k <> [] /\ Forall (fun c => word_char c /\ c <> 61) k.
Definition is_value (v : list Z) : Prop := v <> [] /\ Forall word_char v.

Definition assignment (kv : list Z * list Z) : list Z := fst kv ++ 61 :: snd kv.
Definition is_assignment (kv : list Z * list Z) : Prop := is_key (fst kv) /\ is_value (snd kv).

Fixpoint join (sep : Z) (words : list (list Z)) : list Z :=
  match words with
  | [] => []
  | w :: [] => w
  | w :: r => w ++ sep :: join sep r
  end.

Lemma word_char_range c : word_char c -> 33 <= c <= 126 /\ c <> 39 /\ c <> 124 /\ is_space c = false.
Proof. intros (H & H1 & H2). unfold in_word in H. unfold is_space. lia. Qed.

Lemma assignment_words kv : is_assignment kv -> Forall word_char (assignment kv) /\ assignment kv <> [].
Proof.
  intros [[Hk Hkc] [Hv Hvc]]. split.
  - apply Forall_app. split; [by eapply Forall_impl; [done |]; intros c [? _] |]. constructor; [by vm_compute | done].
  - unfold assignment. by destruct (fst kv).
Qed.

Lemma line_byte_app a b j : byte_at (a ++ b) (Z.of_nat (length a + j)) = byte_at b (Z.of_nat j).
Proof. unfold byte_at. rewrite !Nat2Z.id. rewrite lookup_app_r by lia. do 2 f_equal. lia. Qed.
Lemma byte_here a b : byte_at (a ++ b) (Z.of_nat (length a)) = byte_at b 0.
Proof. rewrite <- (Nat.add_0_r (length a)), line_byte_app. done. Qed.
Lemma slice_here a w b : slice (a ++ w ++ b) (length a) (length a + length w) = w.
Proof. unfold slice. rewrite drop_app_length. replace (length a + length w - length a)%nat with (length w) by lia. apply take_app_length. Qed.

(** ** The columns *)

Lemma bars_word word w r : Forall word_char w -> w <> [] -> bars word false (w ++ r) = w ++ bars true false r.
Proof.
  intros H. revert word. induction H as [| c w Hc Hw IH]; intros word Hne; [done |]. simpl.
  destruct (word_char_range c Hc) as (Hr & H39 & _ & Hs). unfold toggle. rewrite (proj2 (Z.eqb_neq c 39) H39), Hs. cbn [andb].
  rewrite (proj1 Hc), orb_true_r. f_equal. destruct w as [| d w]; [done |]. by apply IH.
Qed.
Lemma join_cons sep w w' words : join sep (w :: w' :: words) = w ++ sep :: join sep (w' :: words).
Proof. done. Qed.
Lemma bars_join words : Forall (fun w => Forall word_char w /\ w <> []) words ->
  bars false false (join 32 words ++ [10]) = match words with [] => [10] | _ => join 124 words ++ [124] end.
Proof.
  induction 1 as [| w words [Hw Hne] H IH]; [done |]. destruct words as [| w' words].
  - simpl. rewrite bars_word by done. done.
  - rewrite !join_cons. rewrite <- app_assoc, bars_word by done. cbn [app].
    change (bars true false (32 :: join 32 (w' :: words) ++ [10])) with (124 :: bars false false (join 32 (w' :: words) ++ [10])).
    rewrite IH. by rewrite <- app_assoc.
Qed.

Lemma join_chars (P : Z -> Prop) sep words : P sep -> Forall (Forall P) words -> Forall P (join sep words).
Proof.
  intros Hs. induction 1 as [| w words Hw H IH]; [constructor |]. destruct words; [done |]. rewrite join_cons.
  apply Forall_app. split; [done |]. by constructor.
Qed.
Lemma join_last sep words : words <> [] -> Forall (fun w => Forall word_char w /\ w <> []) words ->
  exists init c, join sep words = init ++ [c] /\ word_char c.
Proof.
  intros Hne. induction 1 as [| w words [Hw Hn] H IH]; [done |]. destruct words as [| w' words].
  - destruct (exists_last Hn) as (init & c & ->). exists init, c. split; [done |]. apply Forall_app in Hw as [_ Hc]. by inversion Hc.
  - destruct IH as (init & c & E & Hc); [done |]. exists (w ++ sep :: init), c. split; [| done]. rewrite join_cons, E. by rewrite <- app_assoc.
Qed.

Lemma c_string_cut s : Forall (fun c => c <> 0) s -> c_string (s ++ [0]) = s.
Proof.
  intros H. unfold c_string. assert (split_at 0 (s ++ [0]) = Some (s, [])) as ->; [| done].
  induction H as [| c s Hc _ IH]; simpl; [done |]. rewrite (proj2 (Z.eqb_neq c 0) Hc). by rewrite IH.
Qed.
Lemma trim_id s : Forall (fun c => is_space c = false) s -> trim_all_spaces s = s.
Proof.
  intros H. unfold trim_all_spaces. generalize false. induction H as [| c s Hc _ IH]; intros q; simpl; [done |].
  rewrite Hc. simpl. by rewrite IH.
Qed.
Lemma strip_id s : Forall (fun c => c <> 39) s -> strip_quotes s = s.
Proof.
  induction 1 as [| c s Hc _ IH]; [done |]. unfold strip_quotes in *. simpl. rewrite (proj2 (Z.eqb_neq c 39) Hc). simpl. by rewrite IH.
Qed.

(** The spaces between words become bars, and the newline goes. *)
Lemma columns_of_words words : words <> [] -> Forall (fun w => Forall word_char w /\ w <> []) words ->
  strip_quotes (trim_all_spaces (mark_columns (join 32 words ++ [10]))) = join 124 words.
Proof.
  intros Hne H. unfold mark_columns.
  assert (bars false false (join 32 words ++ [10]) = join 124 words ++ [124]) as -> by (rewrite bars_join by done; by destruct words).
  destruct (join_last 124 words Hne H) as (init & c & E & Hc). rewrite rev_app_distr. rewrite E at 1. rewrite rev_app_distr. cbn [rev app].
  assert (cut_bars (124 :: c :: rev init) = 0 :: c :: rev init) as ->.
  { cbn [cut_bars]. rewrite bool_decide_eq_false_2 by done. change (124 =? 124) with true. cbn [cut_bars]. f_equal.
    destruct (word_char_range c Hc) as (_ & _ & H124 & _). case_match; [done |]. rewrite (proj2 (Z.eqb_neq c 124) H124). by rewrite (proj1 Hc). }
  cbn [rev]. rewrite rev_involutive, <- E.
  assert (Hch : forall P : Z -> Prop, P 124 -> (forall c, word_char c -> P c) -> Forall P (join 124 words)).
  { intros P HP HW. apply join_chars; [done |]. eapply Forall_impl; [done |]. intros w [Hw _]. by eapply Forall_impl. }
  rewrite c_string_cut, trim_id, strip_id; [done | ..].
  - apply Hch; [done |]. intros d Hd. by destruct (word_char_range d Hd) as (_ & ? & _).
  - apply Hch; [done |]. intros d Hd. by destruct (word_char_range d Hd) as (_ & _ & _ & ?).
  - apply Hch; [done |]. intros d Hd. destruct (word_char_range d Hd) as (? & _). lia.
Qed.

(** ** The keys *)

Section Keys.
Context {ho : host} {env : pt_env}.

(** The specification: the keys one after the other, up to the first error. *)
Fixpoint apply_all (map_type : Z) (kvs : list (list Z * list Z)) (st : mstate) : res (Z * mstate) :=
  match kvs with
  | [] => Ok (FALSE, st)
  | kv :: kvs =>
      '(err, st) ← apply_key map_type (fst kv) (snd kv) st;
      if err =? 0 then apply_all map_type kvs st else Ok (err, st)
  end.

(** From this place the loop has this result, with any fuel that reaches the
    end of the buffer. *)
Definition runs (map_type : Z) (buf : list Z) (x start : nat) (key : option (list Z)) (st : mstate) (r : res (Z * mstate)) : Prop :=
  forall fuel, (length buf - x < fuel)%nat -> keys_loop fuel map_type buf x start key st = r.

Lemma runs_end map_type buf x start key st : (length buf <= x)%nat -> runs map_type buf x start key st (Ok (FALSE, st)).
Proof. intros H [| fuel] Hf; [lia |]. cbn [keys_loop]. by rewrite (proj2 (Nat.leb_le _ _) H). Qed.

(** A character that is neither a bar nor the NUL is walked over; before the
    key has ended it is not '=' either. *)
Lemma runs_next map_type buf x start key st r :
  (x < length buf)%nat -> byte_at buf (Z.of_nat x) <> 124 -> byte_at buf (Z.of_nat x) <> 0 ->
  byte_at buf (Z.of_nat x) <> 61 \/ is_Some key ->
  runs map_type buf (S x) start key st r -> runs map_type buf x start key st r.
Proof.
  intros Hx H124 H0 Hk H [| fuel] Hf; [lia |]. cbn [keys_loop]. rewrite (proj2 (Nat.leb_gt _ _) Hx).
  destruct ((byte_at buf (Z.of_nat x) =? 61) && (start =? x)%nat); [apply H; lia |].
  assert (end_of_key buf x start key = (key, x, start)) as ->.
  { unfold end_of_key. destruct key; [done |]. destruct Hk as [Hk | [? ?]]; [by rewrite (proj2 (Z.eqb_neq _ _) Hk) | done]. }
  rewrite (proj2 (Z.eqb_neq _ _) H124), (proj2 (Z.eqb_neq _ _) H0). apply H. lia.
Qed.

(** Characters in a row. *)
Lemma runs_over map_type pre w post start key st r :
  Forall (fun c => c <> 124 /\ c <> 0 /\ (c <> 61 \/ is_Some key)) w ->
  runs map_type (pre ++ w ++ post) (length pre + length w) start key st r ->
  runs map_type (pre ++ w ++ post) (length pre) start key st r.
Proof.
  intros H. revert pre. induction H as [| c w (H1 & H2 & H3) _ IH]; intros pre Hr; [by rewrite Nat.add_0_r in Hr |].
  assert (Hb : byte_at (pre ++ (c :: w) ++ post) (Z.of_nat (length pre)) = c) by (by rewrite byte_here).
  apply runs_next; rewrite ?Hb; [rewrite length_app; simpl; lia | done .. |].
  specialize (IH (pre ++ [c])). rewrite length_app, <- !app_assoc in IH. cbn [length app] in IH |- *.
  rewrite Nat.add_1_r in IH. apply IH. cbn [length app] in Hr. by rewrite <- Nat.add_succ_comm in Hr.
Qed.

(** The '=' after the key, with the first character of the value. *)
Lemma runs_key map_type pre k v0 post st r :
  k <> [] -> word_char v0 ->
  runs map_type (pre ++ (k ++ [61; v0]) ++ post) (length pre + length k + 2) (S (length pre + length k)) (Some k) st r ->
  runs map_type (pre ++ (k ++ [61; v0]) ++ post) (length pre + length k) (length pre) None st r.
Proof.
  intros Hk Hv Hr [| fuel] Hf; [lia |]. cbn [keys_loop].
  set (buf := pre ++ (k ++ [61; v0]) ++ post) in *. set (x := (length pre + length k)%nat) in *.
  assert (Hlen : (S (S x) <= length buf)%nat) by (unfold buf, x; rewrite !length_app; simpl; lia).
  rewrite (proj2 (Nat.leb_gt _ _)) by lia.
  assert (Hx : byte_at buf (Z.of_nat x) = 61).
  { unfold buf, x. rewrite line_byte_app. rewrite <- app_assoc. rewrite <- (Nat.add_0_r (length k)), line_byte_app. done. }
  assert (Hx' : byte_at buf (Z.of_nat (S x)) = v0).
  { unfold buf, x. rewrite <- Nat.add_succ_r, line_byte_app, <- app_assoc, <- Nat.add_1_r, line_byte_app. done. }
  assert (Hk0 : (length k <> 0)%nat) by (by destruct k).
  rewrite Hx, (proj2 (Nat.eqb_neq (length pre) x)) by (unfold x; lia). change (61 =? 61) with true. cbn [andb].
  unfold end_of_key. rewrite Hx. change (61 =? 61) with true. cbv iota.
  assert (slice buf (length pre) x = k) as ->.
  { unfold buf, x. rewrite <- app_assoc. by rewrite slice_here. }
  rewrite Hx'. destruct (word_char_range v0 Hv) as (Hr1 & _ & H124 & _).
  rewrite (proj2 (Z.eqb_neq v0 124) H124), (proj2 (Z.eqb_neq v0 0)) by lia. cbn [orb].
  replace (S (S x)) with (x + 2)%nat by lia. apply Hr. lia.
Qed.

(** The end of the value. *)
Lemma runs_value map_type pre v c post k st r :
  v <> [] -> c = 124 \/ c = 0 ->
  (forall st', apply_key map_type k v st = Ok (0, st') -> runs map_type (pre ++ v ++ c :: post) (length pre + length v + 2) (length pre + length v + 1) None st' r) ->
  (forall err st', err <> 0 -> apply_key map_type k v st = Ok (err, st') -> r = Ok (err, st')) ->
  (forall f, apply_key map_type k v st = Err f -> r = Err f) ->
  runs map_type (pre ++ v ++ c :: post) (length pre + length v) (length pre) (Some k) st r.
Proof.
  intros Hv Hc Hok Herr Hf0 [| fuel] Hf; [lia |]. cbn [keys_loop].
  set (buf := pre ++ v ++ c :: post) in *. set (x := (length pre + length v)%nat) in *.
  assert (Hlen : (x < length buf)%nat) by (unfold buf, x; rewrite !length_app; simpl; lia).
  rewrite (proj2 (Nat.leb_gt _ _)) by lia.
  assert (Hx : byte_at buf (Z.of_nat x) = c) by (unfold buf, x; by rewrite line_byte_app, byte_here).
  assert (length v <> 0)%nat by (by destruct v).
  rewrite Hx. rewrite (proj2 (Nat.eqb_neq (length pre) x)) by (unfold x; lia). rewrite andb_false_r. unfold end_of_key.
  rewrite (proj2 (Nat.eqb_neq (length pre) x)) by (unfold x; lia). rewrite Hx.
  assert ((c =? 124) || (c =? 0) = true) as -> by (by destruct Hc as [-> | ->]).
  assert (slice buf (length pre) x = v) as -> by apply slice_here.
  destruct (apply_key map_type k v st) as [[err st'] | f] eqn:E; [| symmetry; by apply Hf0].
  rewrite bind_Ok. destruct (Z.eqb_spec err 0) as [-> | Hne]; [| symmetry; by apply Herr].
  replace (S (S x)) with (x + 2)%nat by lia. replace (S x) with (x + 1)%nat by lia. apply Hok; [done | lia].
Qed.

(** One assignment: the key's first character may be skipped over. *)
Lemma runs_assignment map_type pre kv c post st r (skip : bool) :
  is_assignment kv -> c = 124 \/ c = 0 ->
  let buf := pre ++ assignment kv ++ c :: post in let stop := (length pre + length (assignment kv))%nat in
  (forall st', apply_key map_type (fst kv) (snd kv) st = Ok (0, st') -> runs map_type buf (stop + 2) (stop + 1) None st' r) ->
  (forall err st', err <> 0 -> apply_key map_type (fst kv) (snd kv) st = Ok (err, st') -> r = Ok (err, st')) ->
  (forall f, apply_key map_type (fst kv) (snd kv) st = Err f -> r = Err f) ->
  runs map_type buf (if skip then S (length pre) else length pre) (length pre) None st r.
Proof.
  intros [[Hk Hkc] [Hv Hvc]] Hc buf stop Hok Herr Hf. destruct kv as [k v]. simpl in *.
  destruct v as [| v0 v]; [done |]. inversion Hvc as [| ? ? Hv0 Hvc']; subst.
  assert (Hfull : runs map_type buf (length pre + length k) (length pre) None st r).
  { pose proof (runs_key map_type pre k v0 (v ++ c :: post) st r Hk Hv0) as Hkey.
    replace (pre ++ (k ++ [61; v0]) ++ v ++ c :: post) with buf in Hkey by (unfold buf, assignment; simpl; by rewrite <- !app_assoc).
    apply Hkey. pose proof (runs_value map_type (pre ++ k ++ [61]) (v0 :: v) c post k st r ltac:(done) Hc) as Hval.
    replace ((pre ++ k ++ [61]) ++ (v0 :: v) ++ c :: post) with buf in Hval by (unfold buf, assignment; simpl; rewrite <- !app_assoc; simpl; done).
    assert (Hl : length (pre ++ k ++ [61]) = S (length pre + length k)) by (rewrite !length_app; simpl; lia). rewrite Hl in Hval.
    assert (Hst : (S (length pre + length k) + length (v0 :: v) = stop)%nat) by (unfold stop, assignment; rewrite length_app; simpl; lia).
    rewrite Hst in Hval. specialize (Hval Hok Herr Hf).
    pose proof (runs_over map_type (pre ++ k ++ [61; v0]) v (c :: post) (S (length pre + length k)) (Some k) st r) as Hov.
    replace ((pre ++ k ++ [61; v0]) ++ v ++ c :: post) with buf in Hov by (unfold buf, assignment; simpl; rewrite <- !app_assoc; simpl; done).
    assert (Hl2 : length (pre ++ k ++ [61; v0]) = (length pre + length k + 2)%nat) by (rewrite !length_app; simpl; lia). rewrite Hl2 in Hov.
    apply Hov; [| by replace (length pre + length k + 2 + length v)%nat with stop by (rewrite <- Hst; simpl; lia)].
    eapply Forall_impl; [exact Hvc' |]. intros d Hd. destruct (word_char_range d Hd) as (? & _ & ? & _). split; [done |]. split; [lia | right; by eexists]. }
  assert (Hkc' : Forall (fun d => d <> 124 /\ d <> 0 /\ (d <> 61 \/ is_Some (@None (list Z)))) k).
  { eapply Forall_impl; [exact Hkc |]. intros d [Hd ?]. destruct (word_char_range d Hd) as (? & _ & ? & _). split; [done |]. split; [lia | by left]. }
  destruct skip.
  - destruct k as [| k0 k]; [done |]. inversion Hkc'; subst.
    pose proof (runs_over map_type (pre ++ [k0]) k ((61 :: v0 :: v) ++ c :: post) (length pre) None st r) as Hov.
    replace ((pre ++ [k0]) ++ k ++ (61 :: v0 :: v) ++ c :: post) with buf in Hov by (unfold buf, assignment; simpl; rewrite <- !app_assoc; simpl; done).
    rewrite length_app in Hov. cbn [length] in Hov. rewrite Nat.add_1_r in Hov. apply Hov; [done |].
    cbn [length] in Hfull. by rewrite Nat.add_succ_comm.
  - pose proof (runs_over map_type pre k ((61 :: v0 :: v) ++ c :: post) (length pre) None st r) as Hov.
    replace (pre ++ k ++ (61 :: v0 :: v) ++ c :: post) with buf in Hov by (unfold buf, assignment; simpl; rewrite <- !app_assoc; simpl; done).
    by apply Hov.
Qed.

Lemma runs_all map_type kvs pre st (skip : bool) :
  kvs <> [] -> Forall is_assignment kvs ->
  runs map_type (pre ++ join 124 (map assignment kvs) ++ [0]) (if skip then S (length pre) else length pre) (length pre) None st
    (apply_all map_type kvs st).
Proof.
  intros Hne H. revert pre st skip Hne. induction H as [| kv kvs Hkv H IH]; intros pre st skip Hne; [done |].
  assert (Herr : forall err st', err <> 0 -> apply_key map_type (fst kv) (snd kv) st = Ok (err, st') ->
            apply_all map_type (kv :: kvs) st = Ok (err, st')).
  { intros err st' He E. cbn [apply_all]. rewrite E, bind_Ok. by rewrite (proj2 (Z.eqb_neq _ _) He). }
  assert (Hfault : forall f, apply_key map_type (fst kv) (snd kv) st = Err f -> apply_all map_type (kv :: kvs) st = Err f).
  { intros f E. cbn [apply_all]. by rewrite E. }
  assert (Hok : forall st', apply_key map_type (fst kv) (snd kv) st = Ok (0, st') -> apply_all map_type (kv :: kvs) st = apply_all map_type kvs st').
  { intros st' E. cbn [apply_all]. by rewrite E, bind_Ok. }
  destruct kvs as [| kv' kvs].
  - cbn [map join]. apply (runs_assignment map_type pre kv 0 [] st _ skip Hkv); [by right | | exact Herr | exact Hfault].
    intros st' E. rewrite (Hok st' E). apply runs_end. rewrite !length_app. simpl. lia.
  - cbn [map]. rewrite join_cons, <- app_assoc. cbn [app].
    apply (runs_assignment map_type pre kv 124 _ st _ skip Hkv); [by left | | exact Herr | exact Hfault].
    intros st' E. rewrite (Hok st' E). specialize (IH (pre ++ assignment kv ++ [124]) st' true ltac:(done)).
    rewrite <- !app_assoc in IH. cbn [app map] in IH. rewrite !length_app in IH. cbn [length] in IH.
    by replace (length pre + length (assignment kv) + 2)%nat with (S (length pre + (length (assignment kv) + 1))) by lia;
      replace (length pre + length (assignment kv) + 1)%nat with (length pre + (length (assignment kv) + 1))%nat by lia.
Qed.

(** The text of a line: its assignments with a space between them. *)
Definition line_of (kvs : list (list Z * list Z)) : list Z := join 32 (map assignment kvs) ++ [10].

Lemma parse_line_of map_type kvs st : kvs <> [] -> Forall is_assignment kvs ->
  parse_keys map_type (strip_quotes (trim_all_spaces (mark_columns (line_of kvs)))) st = apply_all map_type kvs st.
Proof.
  intros Hne H. unfold line_of. rewrite columns_of_words.
  - unfold parse_keys. apply (runs_all map_type kvs [] st false Hne H). cbn [app]. rewrite length_app. simpl. lia.
  - by destruct kvs.
  - apply Forall_map. eapply Forall_impl; [done |]. apply assignment_words.
Qed.

(** A line that begins as a comment does not. *)
Definition starts_a_line (kvs : list (list Z * list Z)) : Prop :=
  match kvs with (33 :: _, _) :: _ | (35 :: _, _) :: _ => False | _ => True end.

Lemma line_of_kept kvs map_row_len : kvs <> [] -> Forall is_assignment kvs -> starts_a_line kvs -> skipped (line_of kvs) map_row_len = false.
Proof.
  intros Hne H Hs. unfold skipped. assert (Hw : Forall (fun w => Forall word_char w /\ w <> []) (map assignment kvs)).
  { apply Forall_map. eapply Forall_impl; [done |]. apply assignment_words. }
  assert (Hfirst : exists c r, line_of kvs = c :: r /\ word_char c /\ c <> 33 /\ c <> 35).
  { destruct kvs as [| [k v] kvs]; [done |]. inversion H as [| ? ? [[Hk Hkc] _] _]; subst. simpl in Hk, Hkc. destruct k as [| c k]; [done |].
    inversion Hkc as [| ? ? [Hc _] _]; subst. exists c, (tail (line_of ((c :: k, v) :: kvs))). split; [| split; [done |]].
    - unfold line_of. cbn [map]. by destruct (map assignment kvs).
    - simpl in Hs. split; intros ->; exact Hs. }
  destruct Hfirst as (c & r & E & Hc & H33 & H35). destruct (word_char_range c Hc) as (Hr & _ & H124 & Hsp).
  assert (iscomment (line_of kvs) = false) as ->.
  { unfold iscomment. rewrite E. cbn [skip_spaces]. rewrite Hsp. rewrite (proj2 (Z.eqb_neq c 33) H33). by apply Z.eqb_neq. }
  assert (isblankline (line_of kvs) = false) as ->.
  { unfold isblankline. rewrite E. cbn [List.filter]. rewrite Hsp. apply Z.eqb_neq. unfold strlen. cbn [length].
    pose proof (List.filter_length_le is_space r). lia. }
  assert (bool_decide (10 ∈ line_of kvs) = true) as ->.
  { apply bool_decide_eq_true_2. unfold line_of. apply elem_of_app. right. by constructor. }
  rewrite andb_false_r. unfold check_not_valid_char. apply bool_decide_eq_false_2. unfold line_of.
  rewrite elem_of_app, list_elem_of_singleton. intros [Hin | ?]; [| done].
  assert (Forall (fun c => c <> 124) (join 32 (map assignment kvs))) as Hf.
  { apply join_chars; [done |]. eapply Forall_impl; [done |]. intros w [Hww _]. eapply Forall_impl; [done |]. intros d Hd. by destruct (word_char_range d Hd) as (_ & _ & ? & _). }
  by apply (proj1 (Forall_forall _ _) Hf _ Hin).
Qed.

(** C23. A line of assignments, printed with a space between them, is read back
    as these assignments: each key is handled with its value, in order, up to
    the first that is refused, and the entry that results is taken or not by
    the rules of the map. *)
Theorem load_line_assignments map_type map_entries map_row_len kvs st tmp :
  kvs <> [] -> Forall is_assignment kvs -> starts_a_line kvs ->
  load_line map_type map_entries map_row_len (line_of kvs) st tmp =
    ('(err, st) ← apply_all map_type kvs (upd (fun _ => entry0) st);
     es ← accept map_type err (ms_e st) (map_entries - Z.of_nat (length tmp));
     Ok (st, tmp ++ es)).
Proof.
  intros Hne H Hs. unfold load_line. rewrite line_of_kept by done. by rewrite parse_line_of.
Qed.

End Keys.

(** A line with an agent, an interface and a tag. *)
Definition ex_assignments : list (list Z * list Z) := [(cstr "set_tag", cstr "10"); (cstr "ip", cstr "10.0.0.1"); (cstr "in", cstr "5")].

Lemma load_line_assignments_witness :
  line_of ex_assignments = cstr "set_tag=10 ip=10.0.0.1 in=5" ++ [10] /\
  exists st e, load_line (ho := ex_host) (env := ex_env) ACCT_NF 384 288 (line_of ex_assignments) ex_start [] = Ok (st, [e]) /\ e_id e = 10.
Proof.
  split; [vm_compute; reflexivity |].
  rewrite (load_line_assignments (ho := ex_host) (env := ex_env) ACCT_NF 384 288 ex_assignments ex_start []);
    [| discriminate | | vm_compute; exact I].
  - do 2 eexists. split; [vm_compute; reflexivity | reflexivity].
  - repeat constructor; first [discriminate | vm_compute; reflexivity].
Defined.

End PretagLineFacts.
