(* ===== verification/Imt.v ===== *)
(** * The in-memory table (acct.c, memory.c, imt_plugin.c)

    The memory plugin counts packets in a table of buckets: the first element
    of each is in the table, the others are chained to it and are carved from
    pools of memory that are mapped when they are needed. *)

From S2P Require Import Prelude.

Module Imt.

(** ** What the compiler and the system decide *)

(** Sizes and offsets of structures, and whether a mapping is granted, by its
    number and its size. *)
Class imt_host := {
  sizeof_acc : Z;
  pp_size : nat;
  pb_size : nat;
  pn_size : nat;
  pm_size : nat;
  pt_size : nat;
  prim_field : string -> nat * nat; (* offset and size of a member of struct pkt_primitives *)
  map_shared_ok : nat -> Z -> bool
}.

Definition NUM_MEMORY_POOLS : Z := 16.
Definition MEMORY_POOL_SIZE : Z := 8192.
Definition MAX_HOSTS : Z := 32771.

(** ** The primitives of a packet (network.h) *)

(** A structure whose bytes are compared, hashed and copied as a whole is the
    list of its bytes. *)
Record pkt_data := mk_data {
  primitives : list Z;
  pkt_len : Z;
  pkt_num : Z;
  flo_num : Z;
  flow_type : Z;
  tcp_flags : Z;
  tunnel_tcp_flags : Z
}.

(** struct pkt_legacy_bgp_primitives: its eight arrays, in order. *)
Definition lbgp : Type := list (list Z).

(** struct cache_legacy_bgp_primitives: eight pointers. *)
Definition cache_lbgp : Type := list (option (list Z)).

(** struct pkt_vlen_hdr_primitives: [tot_len], and the bytes of the structure
    with the [tot_len] that follow it. *)
Record vlen_prims := mk_vlen {
  tot_len : Z;
  v_bytes : list Z
}.

Definition PvhdrSz : Z := 4.

Record primitives_ptrs := mk_pp {
  data : pkt_data;
  pbgp : option (list Z);
  plbgp : option lbgp;
  pnat : option (list Z);
  pmpls : option (list Z);
  ptun : option (list Z);
  pcust : option (list Z);
  pvlen : option vlen_prims
}.

(** What the plugin uses of the configuration. *)
Record imt_config := mk_cfg {
  buckets : Z;
  num_memory_pools : Z;
  memory_pool_size : Z;
  what_to_count : Z;
  what_to_count_2 : Z;
  what_to_count_3 : Z;
  pc_size : nat  (* config.cpptrs.len *)
}.

(** ** Hashing (crc32.h) *)

Definition cache_crc32 (buf : list Z) : Z :=
  fold_left (fun hash b => u32 (u32 (u32 (Z.shiftl hash 5) + hash) + b)) buf 5381.

Definition xor_crc (buf : option (list Z)) (hash : Z) : Z :=
  match buf with Some b => Z.lxor hash (cache_crc32 b) | None => hash end.

Definition hash_of (cfg : imt_config) (p : primitives_ptrs) : Z :=
  let hash := cache_crc32 (primitives (data p)) in
  let hash := xor_crc (pbgp p) hash in
  let hash := xor_crc (option_map (@concat Z) (plbgp p)) hash in
  let hash := xor_crc (pnat p) hash in
  let hash := xor_crc (pmpls p) hash in
  let hash := xor_crc (ptun p) hash in
  if (pc_size cfg =? 0)%nat then hash else xor_crc (pcust p) hash.

(** ** The BGP strings that are kept (bgp_lookup.c) *)

Definition MAX_BGP_STD_COMMS : nat := 96.
Definition MAX_BGP_EXT_COMMS : nat := 96.
Definition MAX_BGP_LRG_COMMS : nat := 96.
Definition MAX_BGP_ASPATH : nat := 128.

Definition lbgp_sizes : list nat :=
  [MAX_BGP_STD_COMMS; MAX_BGP_EXT_COMMS; MAX_BGP_LRG_COMMS; MAX_BGP_ASPATH;
   MAX_BGP_STD_COMMS; MAX_BGP_EXT_COMMS; MAX_BGP_LRG_COMMS; MAX_BGP_ASPATH].

Definition COUNT_STD_COMM : Z := 0x4000000.
Definition COUNT_EXT_COMM : Z := 0x8000000.
Definition COUNT_AS_PATH : Z := 0x10000000.
Definition COUNT_SRC_AS_PATH : Z := 0x1000000000.
Definition COUNT_SRC_STD_COMM : Z := 0x2000000000.
Definition COUNT_SRC_EXT_COMM : Z := 0x4000000000.
Definition COUNT_LRG_COMM : Z := 0x40000.
Definition COUNT_SRC_LRG_COMM : Z := 0x80000.

Definition has (flags f : Z) : bool := negb (Z.land flags f =? 0).

(** The tests of pkt_to_cache_legacy_bgp_primitives, in the order of the
    arrays. *)
Definition lbgp_counted (w w2 : Z) : list bool :=
  [has w COUNT_STD_COMM; has w COUNT_EXT_COMM; has w2 COUNT_LRG_COMM; has w COUNT_AS_PATH;
   has w COUNT_SRC_STD_COMM; has w COUNT_SRC_EXT_COMM; has w2 COUNT_SRC_LRG_COMM; has w COUNT_SRC_AS_PATH].

Definition pkt_to_cache_legacy_bgp_primitives (p : lbgp) (w w2 : Z) : cache_lbgp :=
  zip_with (fun (b : bool) s => if b then Some s else None) (lbgp_counted w w2) p.

Definition cache_to_pkt_legacy_bgp_primitives (c : cache_lbgp) : lbgp :=
  zip_with (fun size s => default (replicate size 0) s) lbgp_sizes c.

(** ** Variable-length primitives (util.c) *)

Definition vlen_prims_copy (src : vlen_prims) : vlen_prims := src.

Definition vlen_prims_cmp (src dst : vlen_prims) : Z :=
  if negb (tot_len src =? tot_len dst) then tot_len src - tot_len dst
  else memcmp (v_bytes src) (v_bytes dst).

(** ** Elements (imt_plugin.h) *)

(** An address in mapped memory: the number of the mapping, and an offset. *)
Definition loc : Type := nat * Z.

(** The buffers an element points to are its own, so each is part of it. *)
Record acc := mk_acc {
  a_primitives : list Z;
  bytes_counter : Z;
  packet_counter : Z;
  flow_counter : Z;
  a_flow_type : Z;
  a_tcp_flags : Z;
  a_tunnel_tcp_flags : Z;
  signature : Z;
  reset_flag : bool;
  rstamp : Z;
  a_pbgp : option (list Z);
  clbgp : option cache_lbgp;
  a_pnat : option (list Z);
  a_pmpls : option (list Z);
  a_ptun : option (list Z);
  a_pcust : option (list Z);
  a_pvlen : option vlen_prims;
  next : option loc
}.

(** Memory that was zeroed. *)
Definition acc0 `{imt_host} : acc :=
  mk_acc (replicate pp_size 0) 0 0 0 0 0 0 0 false 0 None None None None None None None None.

Definition with_next (n : option loc) (e : acc) : acc :=
  mk_acc (a_primitives e) (bytes_counter e) (packet_counter e) (flow_counter e) (a_flow_type e) (a_tcp_flags e) (a_tunnel_tcp_flags e)
    (signature e) (reset_flag e) (rstamp e) (a_pbgp e) (clbgp e) (a_pnat e) (a_pmpls e) (a_ptun e) (a_pcust e) (a_pvlen e) n.

Definition with_counters (bytes packets flows ftype flags tflags : Z) (e : acc) : acc :=
  mk_acc (a_primitives e) bytes packets flows ftype flags tflags
    (signature e) (reset_flag e) (rstamp e) (a_pbgp e) (clbgp e) (a_pnat e) (a_pmpls e) (a_ptun e) (a_pcust e) (a_pvlen e) (next e).

Definition with_reset (flag : bool) (stamp : Z) (e : acc) : acc :=
  mk_acc (a_primitives e) (bytes_counter e) (packet_counter e) (flow_counter e) (a_flow_type e) (a_tcp_flags e) (a_tunnel_tcp_flags e)
    (signature e) flag stamp (a_pbgp e) (clbgp e) (a_pnat e) (a_pmpls e) (a_ptun e) (a_pcust e) (a_pvlen e) (next e).

Definition set_reset_flag (e : acc) : acc := with_reset true (rstamp e) e.

(** [flow_counter] is not reset. *)
Definition reset_counters (cycle_stamp : Z) (e : acc) : acc :=
  with_reset false cycle_stamp (with_counters 0 0 (flow_counter e) 0 0 0 e).

Section Acct.
Context {ho : imt_host}.
Variable cfg : imt_config.

(** ** Comparing (compare_accounting_structure) *)

Definition cmp_part (p e : option (list Z)) : Z :=
  match p, e with Some p, Some e => memcmp e p | _, _ => 0 end.

Definition compare_accounting_structure (e : acc) (p : primitives_ptrs) : Z :=
  let res_data := memcmp (a_primitives e) (primitives (data p)) in
  let res_bgp := cmp_part (pbgp p) (a_pbgp e) in
  let res_lbgp :=
    match plbgp p with
    | None => 0
    | Some s => match clbgp e with
                | Some c => memcmp (concat (cache_to_pkt_legacy_bgp_primitives c)) (concat s)
                | None => 1
                end
    end in
  let res_nat := cmp_part (pnat p) (a_pnat e) in
  let res_mpls := cmp_part (pmpls p) (a_pmpls e) in
  let res_tun := cmp_part (ptun p) (a_ptun e) in
  let res_cust := cmp_part (pcust p) (a_pcust e) in
  let res_vlen := match pvlen p, a_pvlen e with Some v, Some w => vlen_prims_cmp w v | _, _ => 0 end in
  fold_left Z.lor [res_bgp; res_lbgp; res_nat; res_mpls; res_tun; res_cust; res_vlen] res_data.

(** What an element is given of a packet: its primitives, its signature, and
    copies of the structures there are. *)
Definition fill (hash : Z) (p : primitives_ptrs) (flag : bool) (e : acc) : acc :=
  mk_acc (primitives (data p)) (bytes_counter e) (packet_counter e) (flow_counter e) (a_flow_type e) (a_tcp_flags e) (a_tunnel_tcp_flags e)
    hash flag (rstamp e) (pbgp p)
    (option_map (fun s => pkt_to_cache_legacy_bgp_primitives s (what_to_count cfg) (what_to_count_2 cfg)) (plbgp p))
    (pnat p) (pmpls p) (ptun p) (pcust p) (option_map vlen_prims_copy (pvlen p)) (next e).

(** The counters of a packet added to those of an element. *)
Definition account (d : pkt_data) (e : acc) : acc :=
  with_counters (u64 (bytes_counter e + pkt_len d)) (u64 (packet_counter e + pkt_num d)) (u64 (flow_counter e + flo_num d))
    (flow_type d) (Z.lor (a_tcp_flags e) (tcp_flags d)) (Z.lor (a_tunnel_tcp_flags e) (tunnel_tcp_flags d)) e.

(** An element that the packet is of. *)
Definition account_match (cycle_stamp : Z) (d : pkt_data) (e : acc) : acc :=
  account d (if reset_flag e then reset_counters cycle_stamp e else e).

(** An element with nothing in its counters, taken for the packet. *)
Definition account_reuse (hash : Z) (p : primitives_ptrs) (e : acc) : acc := account (data p) (fill hash p false e).

(** An element fresh from a pool. *)
Definition account_new (hash : Z) (p : primitives_ptrs) (e : acc) : acc :=
  let d := data p in
  let e := fill hash p (reset_flag e) e in
  with_next None
    (with_counters (u64 (bytes_counter e + pkt_len d)) (u64 (packet_counter e + pkt_num d)) (u64 (flow_counter e + flo_num d))
       (flow_type d) (tcp_flags d) (tunnel_tcp_flags d) e).

(** ** Memory and pools (memory.c) *)

Record memory_pool_desc := mk_pool {
  id : Z;
  base_ptr : option loc;
  ptr : option loc;
  space_left : Z;
  len : Z;
  p_next : option nat
}.

Definition pool0 : memory_pool_desc := mk_pool 0 None None 0 0 None.

(** The variables of the plugin. A descriptor is known by its place in [mpd];
    descriptors beyond the table are mapped one by one. *)
Record imt := mk_imt {
  mem : gmap loc acc;             (* what was written since the memory was zeroed *)
  segments : list Z;              (* the sizes of the mappings *)
  mpd : list memory_pool_desc;
  current_pool : option nat;
  table : option loc;             (* a *)
  lru_elem_ptr : list (option loc);
  no_more_space : bool;
  cycle_stamp : Z;
  table_reset_stamp : Z
}.

Definition with_mem (m : gmap loc acc) (s : imt) : imt :=
  mk_imt m (segments s) (mpd s) (current_pool s) (table s) (lru_elem_ptr s) (no_more_space s) (cycle_stamp s) (table_reset_stamp s).
Definition with_pools (seg : list Z) (d : list memory_pool_desc) (s : imt) : imt :=
  mk_imt (mem s) seg d (current_pool s) (table s) (lru_elem_ptr s) (no_more_space s) (cycle_stamp s) (table_reset_stamp s).
Definition with_current (c : option nat) (s : imt) : imt :=
  mk_imt (mem s) (segments s) (mpd s) c (table s) (lru_elem_ptr s) (no_more_space s) (cycle_stamp s) (table_reset_stamp s).
Definition with_table (a : option loc) (s : imt) : imt :=
  mk_imt (mem s) (segments s) (mpd s) (current_pool s) a (lru_elem_ptr s) (no_more_space s) (cycle_stamp s) (table_reset_stamp s).
Definition with_lru (l : list (option loc)) (s : imt) : imt :=
  mk_imt (mem s) (segments s) (mpd s) (current_pool s) (table s) l (no_more_space s) (cycle_stamp s) (table_reset_stamp s).
Definition with_full (b : bool) (s : imt) : imt :=
  mk_imt (mem s) (segments s) (mpd s) (current_pool s) (table s) (lru_elem_ptr s) b (cycle_stamp s) (table_reset_stamp s).
Definition with_stamps (c t : Z) (s : imt) : imt :=
  mk_imt (mem s) (segments s) (mpd s) (current_pool s) (table s) (lru_elem_ptr s) (no_more_space s) c t.

(** An element can be at [l]: within its mapping, and where elements are. *)
Definition valid (s : imt) (l : loc) : bool :=
  match segments s !! fst l with
  | Some size => (0 <=? snd l) && (snd l + sizeof_acc <=? size) && (snd l mod sizeof_acc =? 0)
  | None => false
  end.

Definition read (s : imt) (l : loc) : res acc :=
  if valid s l then Ok (default acc0 (mem s !! l)) else Err OutOfBounds.

Definition write (l : loc) (e : acc) (s : imt) : res imt :=
  if valid s l then Ok (with_mem (<[l := e]> (mem s)) s) else Err OutOfBounds.

Definition shift (l : loc) (n : Z) : loc := (fst l, snd l + n).

(** [memset(base_ptr, 0, len)]; a size that is negative is beyond any
    mapping. *)
Definition zero (base : option loc) (n : Z) (s : imt) : res imt :=
  if n =? 0 then Ok s
  else
    b ← deref base;
    size ← deref (segments s !! fst b);
    if (0 <=? snd b) && (0 <=? n) && (snd b + n <=? size)
    then Ok (with_mem (filter (fun '(l, _) => fst l <> fst b \/ snd l < snd b \/ snd b + n <= snd l) (mem s)) s)
    else Err OutOfBounds.

Definition get_pool (s : imt) (i : nat) : res memory_pool_desc :=
  match mpd s !! i with Some d => Ok d | None => Err OutOfBounds end.

Definition set_pool (i : nat) (d : memory_pool_desc) (s : imt) : imt := with_pools (segments s) (<[i := d]> (mpd s)) s.

Definition init_memory_pool_table (s : imt) : imt :=
  let n := if negb (num_memory_pools cfg =? 0) then num_memory_pools cfg else NUM_MEMORY_POOLS in
  with_current (Some 0%nat) (with_pools (segments s ++ [0]) (replicate (Z.to_nat (n + 1)) pool0) s).

(** The descriptors are zeroed one after the other, all but the last. *)
Fixpoint clear_pools (fuel : nat) (i : nat) (s : imt) : res imt :=
  match fuel with
  | O => Err OutOfFuel
  | S fuel =>
      d ← get_pool s i;
      s ← zero (base_ptr d) (len d) s;
      match p_next d with
      | None => Ok s
      | Some j => clear_pools fuel j (set_pool i (mk_pool 0 (base_ptr d) (ptr d) (space_left d) (len d) (p_next d)) s)
      end
  end.

Definition clear_memory_pool_table (s : imt) : res imt :=
  s ← clear_pools (S (length (mpd s))) 0 s;
  Ok (with_current (Some 0%nat) s).

(** [map_shared(0, size, ...)]: the number of the mapping. *)
Definition map_shared (size : Z) (s : imt) : option (nat * imt) :=
  let n := length (segments s) in
  if map_shared_ok n size then Some (n, with_pools (segments s ++ [size]) (mpd s) s) else None.

(** A descriptor that is in use, rewound. *)
Definition rewind_pool (i : nat) (new_id size : Z) (d : memory_pool_desc) (s : imt) : res (option nat * imt) :=
  s ← zero (base_ptr d) size s;
  Ok (Some i, set_pool i (mk_pool new_id (base_ptr d) (base_ptr d) size (len d) (p_next d)) s).

(** Where a new descriptor is: within the table, or mapped on its own. *)
Definition new_pool_desc (new_id : Z) (s : imt) : option (nat * imt) :=
  if negb (num_memory_pools cfg =? 0) then
    if num_memory_pools cfg <? new_id then None else Some (Z.to_nat (new_id - 1), s)
  else if NUM_MEMORY_POOLS <? new_id then
    match map_shared 1024 s with
    | None => None
    | Some (_, s) => Some (length (mpd s), with_pools (segments s) (mpd s ++ [pool0]) s)
    end
  else Some (Z.to_nat (new_id - 1), s).

Definition set_next (i : nat) (n : option nat) (s : imt) : res imt :=
  d ← get_pool s i;
  Ok (set_pool i (mk_pool (id d) (base_ptr d) (ptr d) (space_left d) (len d) n) s).

Definition allocate_pool (c : nat) (cur : memory_pool_desc) (size : Z) (s : imt) : res (option nat * imt) :=
  let new_id := id cur + 1 in
  match new_pool_desc new_id s with
  | None => Ok (None, s)
  | Some (i, s) =>
      s ← (if id cur =? 0 then Ok s else set_next c (Some i) s);
      match map_shared size s with
      | None => Ok (None, s)
      | Some (seg, s) =>
          d ← get_pool s i;
          Ok (Some i, set_pool i (mk_pool new_id (Some (seg, 0)) (Some (seg, 0)) size size (p_next d)) s)
      end
  end.

Definition request_memory_pool (size : Z) (s : imt) : res (option nat * imt) :=
  c ← deref (current_pool s);
  cur ← get_pool s c;
  match p_next cur with
  | None => allocate_pool c cur size s
  | Some n =>
      if id cur =? 0 then
        if size <=? len cur then rewind_pool c 1 size cur s
        else allocate_pool c (mk_pool 1 (base_ptr cur) (ptr cur) (space_left cur) (len cur) (p_next cur))
               size (set_pool c (mk_pool 1 (base_ptr cur) (ptr cur) (space_left cur) (len cur) (p_next cur)) s)
      else
        d ← get_pool s n;
        if size <=? len d then rewind_pool n (id cur + 1) size d s
        else allocate_pool c cur size
               (set_pool n (mk_pool (id cur + 1) (base_ptr d) (ptr d) (space_left d) (len d) (p_next d)) s)
  end.

(** ** The table (acct.c) *)

Definition bucket_of (hash : Z) : Z := hash mod u32 (buckets cfg).

(** The first element of a bucket. *)
Definition head (pos : Z) (s : imt) : res loc := a ← deref (table s); Ok (shift a (pos * sizeof_acc)).

Definition matches (hash : Z) (p : primitives_ptrs) (e : acc) : bool :=
  (signature e =? hash) && (compare_accounting_structure e p =? 0).

(** Chains are made of elements that were written. *)
Definition chain_fuel (s : imt) : nat := S (S (size (mem s))).

Fixpoint search_loop (fuel : nat) (hash : Z) (p : primitives_ptrs) (elem_acc : option loc) (s : imt) : res (option loc) :=
  match fuel with
  | O => Err OutOfFuel
  | S fuel =>
      match elem_acc with
      | None => Ok None
      | Some l => e ← read s l; if matches hash p e then Ok (Some l) else search_loop fuel hash p (next e) s
      end
  end.

Definition search_accounting_structure (p : primitives_ptrs) (s : imt) : res (option loc) :=
  let hash := hash_of cfg p in
  l ← head (bucket_of hash) s;
  search_loop (chain_fuel s) hash p (Some l) s.

Definition set_lru (pos : Z) (l : loc) (s : imt) : imt := with_lru (<[Z.to_nat pos := Some l]> (lru_elem_ptr s)) s.

(** The room of one element, from the current pool. *)
Definition carve (c : nat) (s : imt) : res (loc * imt) :=
  d ← get_pool s c;
  l ← deref (ptr d);
  Ok (l, set_pool c (mk_pool (id d) (base_ptr d) (Some (shift l sizeof_acc)) (s32 (space_left d - sizeof_acc)) (len d) (p_next d)) s).

Definition append_element (hash pos : Z) (p : primitives_ptrs) (last : loc) (s : imt) : res imt :=
  if no_more_space s then Ok s
  else
    c ← deref (current_pool s);
    cur ← get_pool s c;
    '(c, s) ← (if sizeof_acc <=? u64 (space_left cur) then Ok (Some c, s) else request_memory_pool (memory_pool_size cfg) s);
    match c with
    | None => Ok (with_full true (with_current None s))
    | Some c =>
        '(l, s) ← carve c (with_current (Some c) s);
        e ← read s last;
        s ← write last (with_next (Some l) e) s;
        e ← read s l;
        s ← write l (account_new hash p e) s;
        Ok (set_lru pos l s)
    end.

(** The second stage: along the chain. *)
Fixpoint insert_loop (fuel : nat) (hash pos : Z) (p : primitives_ptrs) (l : loc) (s : imt) : res imt :=
  match fuel with
  | O => Err OutOfFuel
  | S fuel =>
      e ← read s l;
      if matches hash p e then s' ← write l (account_match (cycle_stamp s) (data p) e) s; Ok (set_lru pos l s')
      else if (bytes_counter e =? 0) && (packet_counter e =? 0) then
        s ← write l (account_reuse hash p e) s; Ok (set_lru pos l s)
      else
        match next e with
        | Some n => insert_loop fuel hash pos p n s
        | None => append_element hash pos p l s
        end
  end.

Definition insert_accounting_structure (p : primitives_ptrs) (s : imt) : res imt :=
  let hash := hash_of cfg p in
  let pos := bucket_of hash in
  lru ← match lru_elem_ptr s !! Z.to_nat pos with Some x => Ok x | None => Err OutOfBounds end;
  hit ← match lru with
        | None => Ok None
        | Some l => e ← read s l; Ok (if matches hash p e then Some (l, e) else None)
        end;
  match hit with
  | Some (l, e) => write l (account_match (cycle_stamp s) (data p) e) s
  | None => l ← head pos s; insert_loop (chain_fuel s) hash pos p l s
  end.

End Acct.
End Imt.
