(* ===== verification/ImtServer.v ===== *)
(** * The memory plugin and its queries (imt_plugin.c, server.c)

    What the plugin does with a buffer of packets, how it starts and how it is
    cleared, and how a client's query is answered from the table. *)

From S2P Require Import Prelude.
From S2P Require Import CBuf.
From S2P Require Import CfgData.
From S2P Require Import Imt.

Module ImtServer.
Import CfgData(LARGEBUFLEN).
Import Imt.

(** ** What the compiler decides *)

(** Members of the other structures, and the options of the build. *)
Class server_host := {
  s_field : string -> string -> nat * nat; (* structure, member: offset and size *)
  PdataSz : Z;
  sizeof_query_header : Z;
  sizeof_bucket_desc : Z;
  HAVE_L2 : bool;
  WITH_GEOIP : bool;  (* or WITH_GEOIPV2 *)
  WITH_NDPI : bool
}.

(** ** Masking an element (mask_elem) *)

Definition COUNT_SRC_MAC : Z := 0x40.
Definition COUNT_DST_MAC : Z := 0x80.
Definition COUNT_VLAN : Z := 0x800.
Definition COUNT_OUT_VLAN : Z := 0x80000000000.
Definition COUNT_COS : Z := 0x400000000000.
Definition COUNT_ETHERTYPE : Z := 0x800000000000.
Definition COUNT_IN_CVLAN : Z := 0x8.
Definition COUNT_OUT_CVLAN : Z := 0x10.
Definition COUNT_SRC_HOST : Z := 0x1.
Definition COUNT_DST_HOST : Z := 0x2.
Definition COUNT_SRC_NET : Z := 0x100.
Definition COUNT_DST_NET : Z := 0x200.
Definition COUNT_SRC_NMASK : Z := 0x100000000000.
Definition COUNT_DST_NMASK : Z := 0x200000000000.
Definition COUNT_SRC_AS : Z := 0x4000.
Definition COUNT_DST_AS : Z := 0x8000.
Definition COUNT_SRC_PORT : Z := 0x8.
Definition COUNT_DST_PORT : Z := 0x10.
Definition COUNT_IP_TOS : Z := 0x1000.
Definition COUNT_IP_PROTO : Z := 0x20.
Definition COUNT_IN_IFACE : Z := 0x40000000000.
Definition COUNT_OUT_IFACE : Z := 0x80000000000.
Definition COUNT_TAG : Z := 0x400.
Definition COUNT_TAG2 : Z := 0x800000000.
Definition COUNT_CLASS : Z := 0x400000.
Definition COUNT_EXPORT_PROTO_SEQNO : Z := 0x10000.
Definition COUNT_EXPORT_PROTO_VERSION : Z := 0x20000.
Definition COUNT_EXPORT_PROTO_SYSID : Z := 0x8.
Definition COUNT_SAMPLING_RATE : Z := 0x1.
Definition COUNT_SAMPLING_DIRECTION : Z := 0x20000000.
Definition COUNT_SRC_HOST_COUNTRY : Z := 0x2.
Definition COUNT_DST_HOST_COUNTRY : Z := 0x4.
Definition COUNT_SRC_HOST_POCODE : Z := 0x100000.
Definition COUNT_DST_HOST_POCODE : Z := 0x200000.
Definition COUNT_SRC_HOST_COORDS : Z := 0x8000000.
Definition COUNT_DST_HOST_COORDS : Z := 0x10000000.
Definition COUNT_NDPI_CLASS : Z := 0x4000000.
Definition COUNT_LOCAL_PREF : Z := 0x20000000.
Definition COUNT_SRC_LOCAL_PREF : Z := 0x8000000000.
Definition COUNT_MED : Z := 0x40000000.
Definition COUNT_SRC_MED : Z := 0x10000000000.
Definition COUNT_DST_ROA : Z := 0x100000000.
Definition COUNT_SRC_ROA : Z := 0x80000000.
Definition COUNT_PEER_SRC_AS : Z := 0x80000000.
Definition COUNT_PEER_DST_AS : Z := 0x100000000.
Definition COUNT_PEER_SRC_IP : Z := 0x200000000.
Definition COUNT_PEER_DST_IP : Z := 0x400000000.
Definition COUNT_MPLS_VPN_RD : Z := 0x20000000000.
Definition COUNT_MPLS_PW_ID : Z := 0x40000000.
Definition COUNT_POST_NAT_SRC_HOST : Z := 0x10.
Definition COUNT_POST_NAT_DST_HOST : Z := 0x20.
Definition COUNT_POST_NAT_SRC_PORT : Z := 0x40.
Definition COUNT_POST_NAT_DST_PORT : Z := 0x80.
Definition COUNT_NAT_EVENT : Z := 0x100.
Definition COUNT_FW_EVENT : Z := 0x20000000000.
Definition COUNT_FWD_STATUS : Z := 0x8000000000.
Definition COUNT_TIMESTAMP_START : Z := 0x200.
Definition COUNT_TIMESTAMP_END : Z := 0x400.
Definition COUNT_TIMESTAMP_ARRIVAL : Z := 0x800.
Definition COUNT_EXPORT_PROTO_TIME : Z := 0x4000000000.
Definition COUNT_MPLS_LABEL_TOP : Z := 0x1000.
Definition COUNT_MPLS_LABEL_BOTTOM : Z := 0x2000.
Definition COUNT_TUNNEL_SRC_MAC : Z := 0x400000000.
Definition COUNT_TUNNEL_DST_MAC : Z := 0x800000000.
Definition COUNT_TUNNEL_SRC_HOST : Z := 0x400000.
Definition COUNT_TUNNEL_DST_HOST : Z := 0x800000.
Definition COUNT_TUNNEL_IP_PROTO : Z := 0x1000000.
Definition COUNT_TUNNEL_IP_TOS : Z := 0x2000000.
Definition COUNT_TUNNEL_SRC_PORT : Z := 0x1000000000.
Definition COUNT_TUNNEL_DST_PORT : Z := 0x2000000000.
Definition COUNT_VXLAN : Z := 0x200000000.
Definition COUNT_NVGRE : Z := 0x20.

(** A member that is copied: the word of the request with its flag, the member
    that is written and the one that is read. *)
Record mask_row := mk_row {
  r_word : Z;
  r_flag : Z;
  r_dst : string;
  r_src : string
}.

Definition mask_d1_l2 : list mask_row :=
  [mk_row 1 COUNT_SRC_MAC "eth_shost" "eth_shost";
   mk_row 1 COUNT_DST_MAC "eth_dhost" "eth_dhost";
   mk_row 1 COUNT_VLAN "vlan_id" "vlan_id";
   mk_row 2 COUNT_OUT_VLAN "out_vlan_id" "out_vlan_id";
   mk_row 1 COUNT_COS "cos" "cos";
   mk_row 1 COUNT_ETHERTYPE "etype" "etype"].

Definition mask_d6_l2 : list mask_row :=
  [mk_row 3 COUNT_IN_CVLAN "cvlan_id" "cvlan_id";
   mk_row 3 COUNT_OUT_CVLAN "out_cvlan_id" "out_cvlan_id"].

Definition mask_d1 : list mask_row :=
  [mk_row 1 COUNT_SRC_HOST "src_ip" "src_ip";
   mk_row 1 COUNT_DST_HOST "dst_ip" "dst_ip";
   mk_row 1 COUNT_SRC_NET "src_net" "src_net";
   mk_row 1 COUNT_DST_NET "dst_net" "dst_net";
   mk_row 1 COUNT_SRC_NMASK "src_nmask" "src_nmask";
   mk_row 1 COUNT_DST_NMASK "dst_nmask" "dst_nmask";
   mk_row 1 COUNT_SRC_AS "src_as" "src_as";
   mk_row 1 COUNT_DST_AS "dst_as" "dst_as";
   mk_row 1 COUNT_SRC_PORT "src_port" "src_port";
   mk_row 1 COUNT_DST_PORT "dst_port" "dst_port";
   mk_row 1 COUNT_IP_TOS "tos" "tos";
   mk_row 1 COUNT_IP_PROTO "proto" "proto";
   mk_row 1 COUNT_IN_IFACE "ifindex_in" "ifindex_in";
   mk_row 1 COUNT_OUT_IFACE "ifindex_out" "ifindex_out";
   mk_row 1 COUNT_TAG "tag" "tag";
   mk_row 1 COUNT_TAG2 "tag2" "tag2";
   mk_row 1 COUNT_CLASS "class" "class";
   mk_row 2 COUNT_EXPORT_PROTO_SEQNO "export_proto_seqno" "export_proto_seqno";
   mk_row 2 COUNT_EXPORT_PROTO_VERSION "export_proto_version" "export_proto_version";
   mk_row 2 COUNT_EXPORT_PROTO_SYSID "export_proto_sysid" "export_proto_sysid";
   mk_row 2 COUNT_SAMPLING_RATE "sampling_rate" "sampling_rate";
   mk_row 2 COUNT_SAMPLING_DIRECTION "sampling_direction" "sampling_direction"].

Definition mask_d1_geoip : list mask_row :=
  [mk_row 2 COUNT_SRC_HOST_COUNTRY "src_ip_country" "src_ip_country";
   mk_row 2 COUNT_DST_HOST_COUNTRY "dst_ip_country" "dst_ip_country";
   mk_row 2 COUNT_SRC_HOST_POCODE "src_ip_pocode" "src_ip_pocode";
   mk_row 2 COUNT_DST_HOST_POCODE "dst_ip_pocode" "dst_ip_pocode";
   mk_row 2 COUNT_SRC_HOST_COORDS "src_ip_lat" "src_ip_lat";
   mk_row 2 COUNT_SRC_HOST_COORDS "src_ip_lon" "src_ip_lon";
   mk_row 2 COUNT_DST_HOST_COORDS "dst_ip_lat" "dst_ip_lat";
   mk_row 2 COUNT_DST_HOST_COORDS "dst_ip_lon" "dst_ip_lon"].

Definition mask_d1_ndpi : list mask_row :=
  [mk_row 2 COUNT_NDPI_CLASS "ndpi_class" "ndpi_class"].

Definition mask_d2 : list mask_row :=
  [mk_row 1 COUNT_LOCAL_PREF "local_pref" "local_pref";
   mk_row 1 COUNT_SRC_LOCAL_PREF "src_local_pref" "src_local_pref";
   mk_row 1 COUNT_MED "med" "med";
   mk_row 1 COUNT_SRC_MED "src_med" "src_med";
   mk_row 2 COUNT_DST_ROA "dst_roa" "dst_roa";
   mk_row 2 COUNT_SRC_ROA "src_roa" "src_roa";
   mk_row 1 COUNT_PEER_SRC_AS "peer_src_as" "peer_src_as";
   mk_row 1 COUNT_PEER_DST_AS "peer_dst_as" "peer_dst_as";
   mk_row 1 COUNT_PEER_SRC_IP "peer_src_ip" "peer_src_ip";
   mk_row 1 COUNT_PEER_DST_IP "peer_dst_ip" "peer_dst_ip";
   mk_row 1 COUNT_MPLS_VPN_RD "mpls_vpn_rd" "mpls_vpn_rd";
   mk_row 2 COUNT_MPLS_PW_ID "mpls_pw_id" "mpls_pw_id"].

Definition mask_d3 : list mask_row :=
  [mk_row 2 COUNT_POST_NAT_SRC_HOST "post_nat_src_ip" "post_nat_src_ip";
   mk_row 2 COUNT_POST_NAT_DST_HOST "post_nat_src_ip" "post_nat_dst_ip";
   mk_row 2 COUNT_POST_NAT_SRC_PORT "post_nat_src_port" "post_nat_src_port";
   mk_row 2 COUNT_POST_NAT_DST_PORT "post_nat_dst_port" "post_nat_dst_port";
   mk_row 2 COUNT_NAT_EVENT "nat_event" "nat_event";
   mk_row 2 COUNT_FW_EVENT "fw_event" "fw_event";
   mk_row 2 COUNT_FWD_STATUS "fwd_status" "fwd_status";
   mk_row 2 COUNT_TIMESTAMP_START "timestamp_start" "timestamp_start";
   mk_row 2 COUNT_TIMESTAMP_END "timestamp_end" "timestamp_end";
   mk_row 2 COUNT_TIMESTAMP_ARRIVAL "timestamp_arrival" "timestamp_arrival";
   mk_row 2 COUNT_EXPORT_PROTO_TIME "timestamp_export" "timestamp_export"].

Definition mask_d4 : list mask_row :=
  [mk_row 2 COUNT_MPLS_LABEL_TOP "mpls_label_top" "mpls_label_top";
   mk_row 2 COUNT_MPLS_LABEL_BOTTOM "mpls_label_bottom" "mpls_label_bottom"].

Definition mask_d6 : list mask_row :=
  [mk_row 2 COUNT_TUNNEL_SRC_MAC "tunnel_eth_shost" "tunnel_eth_shost";
   mk_row 2 COUNT_TUNNEL_DST_MAC "tunnel_eth_dhost" "tunnel_eth_dhost";
   mk_row 2 COUNT_TUNNEL_SRC_HOST "tunnel_src_ip" "tunnel_src_ip";
   mk_row 2 COUNT_TUNNEL_DST_HOST "tunnel_src_ip" "tunnel_dst_ip";
   mk_row 2 COUNT_TUNNEL_IP_PROTO "tunnel_proto" "tunnel_proto";
   mk_row 2 COUNT_TUNNEL_IP_TOS "tunnel_tos" "tunnel_tos";
   mk_row 2 COUNT_TUNNEL_SRC_PORT "tunnel_src_port" "tunnel_src_port";
   mk_row 2 COUNT_TUNNEL_DST_PORT "tunnel_dst_port" "tunnel_dst_port";
   mk_row 2 COUNT_VXLAN "tunnel_id" "tunnel_id";
   mk_row 3 COUNT_NVGRE "nvgre_tunnel_id" "nvgre_tunnel_id"].

Section Plugin.
Context {ho : imt_host} {so : server_host}.

(** ** Members of a structure *)

(** [memcpy] out of and into a member. *)
Definition get_bytes (f : nat * nat) (s : list Z) : list Z := take (snd f) (drop (fst f) s).
Definition set_bytes (f : nat * nat) (v s : list Z) : list Z :=
  take (fst f) s ++ take (snd f) v ++ drop (fst f + length (take (snd f) v)) s.

Definition zeros (n : nat) : list Z := replicate n 0.

(** A number in the order of the host, which is little-endian. *)
Fixpoint le_value (b : list Z) : Z := match b with [] => 0 | x :: r => x + 256 * le_value r end.
Fixpoint le_bytes (n : nat) (v : Z) : list Z := match n with O => [] | S n => (v mod 256) :: le_bytes n (v / 256) end.

Definition set_primitives (b : list Z) (d : pkt_data) : pkt_data :=
  mk_data b (pkt_len d) (pkt_num d) (flo_num d) (flow_type d) (tcp_flags d) (tunnel_tcp_flags d).

Definition with_data (d : pkt_data) (p : primitives_ptrs) : primitives_ptrs :=
  mk_pp d (pbgp p) (plbgp p) (pnat p) (pmpls p) (ptun p) (pcust p) (pvlen p).

(** ** Inserting (imt_plugin.c) *)

Section Insert.
Variable cfg : imt_config.

(** sum_host_insert, sum_port_insert, sum_as_insert and sum_mac_insert: once
    for the source, and once for the destination in its place. *)
Definition sum_insert (src dst : string) (p : primitives_ptrs) (s : imt) : res imt :=
  let b := primitives (data p) in
  let tmp := get_bytes (prim_field dst) b in
  let b := set_bytes (prim_field dst) (zeros (snd (prim_field dst))) b in
  s ← insert_accounting_structure cfg (with_data (set_primitives b (data p)) p) s;
  let b := set_bytes (prim_field src) tmp b in
  insert_accounting_structure cfg (with_data (set_primitives b (data p)) p) s.

Definition sum_host_insert := sum_insert "src_ip" "dst_ip".
Definition sum_port_insert := sum_insert "src_port" "dst_port".
Definition sum_as_insert := sum_insert "src_as" "dst_as".
Definition sum_mac_insert := sum_insert "eth_shost" "eth_dhost".

Definition COUNT_SUM_HOST : Z := 0x4.
Definition COUNT_SUM_NET : Z := 0x10000.
Definition COUNT_SUM_AS : Z := 0x20000.
Definition COUNT_SUM_PORT : Z := 0x40000.
Definition COUNT_SUM_MAC : Z := 0x200000.

Definition imt_insert_func : primitives_ptrs -> imt -> res imt :=
  let w := what_to_count cfg in
  if has w (Z.lor COUNT_SUM_HOST COUNT_SUM_NET) then sum_host_insert
  else if has w COUNT_SUM_PORT then sum_port_insert
  else if has w COUNT_SUM_AS then sum_as_insert
  else if HAVE_L2 && has w COUNT_SUM_MAC then sum_mac_insert
  else insert_accounting_structure cfg.

(** ** A buffer of packets *)

(** Which structures come with a packet: the offsets that are not zero. *)
Record extra_primitives := mk_extras {
  off_pkt_bgp_primitives : Z;
  off_pkt_lbgp_primitives : Z;
  off_pkt_nat_primitives : Z;
  off_pkt_mpls_primitives : Z;
  off_pkt_tun_primitives : Z;
  off_custom_primitives : Z;
  off_pkt_vlen_hdr_primitives : Z
}.

(** The files that say which ports, protocols and types of service are told
    apart, and the functions that look networks up. *)
Record imt_files := mk_files {
  ports_file : option (Z -> bool);
  protos_file : option (Z -> bool);
  tos_file : option (Z -> bool);
  net_funcs : list (list Z * list Z -> list Z * list Z)  (* on primitives and pbgp *)
}.

Definition PM_L4_PORT_OTHERS : Z := 0.
Definition PM_IP_PROTO_OTHERS : Z := 255.
Definition PM_IP_TOS_OTHERS : Z := 255.

Definition others (table : option (Z -> bool)) (f : string) (other : Z) (b : list Z) : list Z :=
  match table with
  | None => b
  | Some known =>
      if known (le_value (get_bytes (prim_field f) b)) then b
      else set_bytes (prim_field f) (le_bytes (snd (prim_field f)) other) b
  end.

Definition empty_lbgp : lbgp := map zeros lbgp_sizes.
Definition empty_vlen : vlen_prims := mk_vlen 0 (zeros 4).

(** One packet of the buffer. [empty_pbgp] is shared by all of those that have
    no BGP structure, and the functions on networks may write to it. *)
Definition imt_packet (x : extra_primitives) (files : imt_files) (r : primitives_ptrs) (st : list Z * imt) : res (list Z * imt) :=
  let '(empty_pbgp, s) := st in
  let has_bgp := negb (off_pkt_bgp_primitives x =? 0) in
  bgp ← (if has_bgp then deref (pbgp r) else Ok empty_pbgp);
  lb ← (if negb (off_pkt_lbgp_primitives x =? 0) then deref (plbgp r) else Ok empty_lbgp);
  nat_ ← (if negb (off_pkt_nat_primitives x =? 0) then deref (pnat r) else Ok (zeros pn_size));
  mpls ← (if negb (off_pkt_mpls_primitives x =? 0) then deref (pmpls r) else Ok (zeros pm_size));
  tun ← (if negb (off_pkt_tun_primitives x =? 0) then deref (ptun r) else Ok (zeros pt_size));
  cust ← (if negb (off_custom_primitives x =? 0) then deref (pcust r) else if (pc_size cfg <=? 1)%nat then Ok (take (pc_size cfg) [0]) else Err OutOfBounds);
  vlen ← (if negb (off_pkt_vlen_hdr_primitives x =? 0) then deref (pvlen r) else Ok empty_vlen);
  let '(b, bgp) := fold_left (fun y f => f y) (net_funcs files) (primitives (data r), bgp) in
  let b := others (ports_file files) "dst_port" PM_L4_PORT_OTHERS (others (ports_file files) "src_port" PM_L4_PORT_OTHERS b) in
  let b := others (protos_file files) "proto" PM_IP_PROTO_OTHERS b in
  let b := others (tos_file files) "tos" PM_IP_TOS_OTHERS b in
  let p := mk_pp (set_primitives b (data r)) (Some bgp) (Some lb) (Some nat_) (Some mpls) (Some tun) (Some cust) (Some vlen) in
  s ← imt_insert_func p s;
  Ok (if has_bgp then empty_pbgp else bgp, s).

Fixpoint imt_packets (x : extra_primitives) (files : imt_files) (rs : list primitives_ptrs) (st : list Z * imt) : res (list Z * imt) :=
  match rs with
  | [] => Ok st
  | r :: rs => st ← imt_packet x files r st; imt_packets x files rs st
  end.

(** ** Starting and clearing *)

(** The size of the table: a size_t that is passed as an int. *)
Definition table_size : Z := s32 (u64 (buckets cfg * sizeof_acc)).

Definition request_or_exit (size : Z) (s : imt) : res imt :=
  '(c, s) ← request_memory_pool cfg size s;
  match c with None => Err Exited | Some c => Ok (with_current (Some c) s) end.

Definition current_base (s : imt) : res (option loc) := c ← deref (current_pool s); d ← get_pool s c; Ok (base_ptr d).

Definition imt_start (s : imt) : res imt :=
  let s := with_full false s in
  let s := init_memory_pool_table cfg s in
  s ← request_or_exit table_size s;
  a ← current_base s;
  let s := with_lru (replicate (Z.to_nat (buckets cfg)) None) (with_table a s) in
  s ← request_or_exit (memory_pool_size cfg) s;
  Ok (with_stamps (cycle_stamp s) 0 s).

(** The loop over the elements of the table that the plugin and the server
    share: [following] is the element of the chain that is next. *)
Fixpoint table_walk {A} (fuel : nat) (body : loc -> acc -> A -> imt -> res (A * imt))
    (idx : Z) (elem : loc) (following : option loc) (x : A) (s : imt) : res (A * imt) :=
  match fuel with
  | O => Err OutOfFuel
  | S fuel =>
      if u32 (buckets cfg) <=? idx then Ok (x, s)
      else
        let l := match following with Some l => l | None => elem end in
        e ← read s l;
        '(x, s) ← body l e x s;
        e ← read s l;
        match next e with
        | Some n => table_walk fuel body idx elem (Some n) x s
        | None => table_walk fuel body (idx + 1) (shift elem sizeof_acc) None x s
        end
  end.

Definition walk_fuel (s : imt) : nat := S (Z.to_nat (u32 (buckets cfg)) + S (size (mem s))).

Definition walk_table {A} (body : loc -> acc -> A -> imt -> res (A * imt)) (x : A) (s : imt) : res (A * imt) :=
  a ← deref (table s);
  table_walk (walk_fuel s) body 0 a None x s.

Definition without_extras (e : acc) : acc :=
  mk_acc (a_primitives e) (bytes_counter e) (packet_counter e) (flow_counter e) (a_flow_type e) (a_tcp_flags e) (a_tunnel_tcp_flags e)
    (signature e) (reset_flag e) (rstamp e) None None None None None None None (next e).

Definition free_extra_allocs (s : imt) : res imt :=
  '(_, s) ← walk_table (fun l e (_ : unit) s => s ← write l (without_extras e) s; Ok (tt, s)) tt s;
  Ok s.

(** What the loop of the plugin does when it was asked to erase the table. *)
Definition imt_clear (s : imt) : res imt :=
  s ← free_extra_allocs s;
  s ← clear_memory_pool_table s;
  s ← request_or_exit table_size s;
  a ← current_base s;
  s ← request_or_exit (memory_pool_size cfg) (with_table a s);
  let s := with_full false s in
  Ok (with_stamps (cycle_stamp s) (cycle_stamp s) s).

(** ** The reply (server.c) *)

Inductive item :=
  | IHeader
  | IAcc (e : acc)
  | IBgp (b : list Z)
  | ILbgp (b : lbgp)
  | INat (b : list Z)
  | IMpls (b : list Z)
  | ITun (b : list Z)
  | ICust (b : list Z)
  | IVlen (v : vlen_prims)
  | IPointer  (* the bytes from the address of a pointer on *)
  | IBucket (num howmany : Z)
  | ICounters (pkt_len pkt_num flo_num entries : Z)
  | IStamp (t : Z).

(** The buffer holds items one after the other, [packed] bytes of them. *)
Record reply_buffer := mk_rb {
  rb_items : list item;
  packed : Z;
  rb_len : Z;
  sent : list (list item)
}.

Definition enQueue_elem (it : item) (size tot_size : Z) (rb : reply_buffer) : res reply_buffer :=
  if packed rb + tot_size <? rb_len rb then
    if packed rb + size <=? LARGEBUFLEN
    then Ok (mk_rb (rb_items rb ++ [it]) (packed rb + size) (rb_len rb) (sent rb))
    else Err OutOfBounds
  else if size <=? LARGEBUFLEN
    then Ok (mk_rb [it] size LARGEBUFLEN (sent rb ++ [rb_items rb]))
    else Err OutOfBounds.

(** [if (rb.packed) send(...)] *)
Definition flush (rb : reply_buffer) : list (list item) := if packed rb =? 0 then sent rb else sent rb ++ [rb_items rb].

Definition rb0 : reply_buffer := mk_rb [IHeader] sizeof_query_header (LARGEBUFLEN - sizeof_query_header) [].

Definition test_zero_elem (e : acc) : bool := negb (negb (a_flow_type e =? 0) && negb (reset_flag e)).

(** An element and the structures that come with it. *)
Section Reply.
Variable x : extra_primitives.
Variable datasize : Z.

Definition PlbgpSz : Z := 832.

Definition enqueue_part (off : Z) (it : option item) (size : Z) (rb : reply_buffer) : res reply_buffer :=
  match it with
  | Some it => if off =? 0 then Ok rb else enQueue_elem it size (datasize - off) rb
  | None => Ok rb
  end.

Definition enqueue_acc (e : acc) (rb : reply_buffer) : res reply_buffer :=
  rb ← enQueue_elem (IAcc e) PdataSz datasize rb;
  rb ← enqueue_part (off_pkt_bgp_primitives x) (option_map IBgp (a_pbgp e)) (Z.of_nat pb_size) rb;
  rb ← enqueue_part (off_pkt_lbgp_primitives x)
         (option_map (fun c => ILbgp (cache_to_pkt_legacy_bgp_primitives c)) (clbgp e)) PlbgpSz rb;
  rb ← enqueue_part (off_pkt_nat_primitives x) (option_map INat (a_pnat e)) (Z.of_nat pn_size) rb;
  rb ← enqueue_part (off_pkt_mpls_primitives x) (option_map IMpls (a_pmpls e)) (Z.of_nat pm_size) rb;
  rb ← enqueue_part (off_pkt_tun_primitives x) (option_map ITun (a_ptun e)) (Z.of_nat pt_size) rb;
  rb ← enqueue_part (off_custom_primitives x) (option_map ICust (a_pcust e)) (Z.of_nat (pc_size cfg)) rb;
  enqueue_part (off_pkt_vlen_hdr_primitives x) (option_map IVlen (a_pvlen e))
    (match a_pvlen e with Some v => PvhdrSz + tot_len v | None => 0 end) rb.

(** What a counter query is told of a key that has no counters. Of the custom
    primitives it is not dummy_pcust that is sent but what is at
    [&dummy_pcust]. *)
Definition dummy_acc : acc := acc0.

Definition enqueue_dummy (rb : reply_buffer) : res reply_buffer :=
  rb ← enQueue_elem (IAcc dummy_acc) PdataSz datasize rb;
  rb ← enqueue_part (off_pkt_bgp_primitives x) (Some (IBgp (zeros pb_size))) (Z.of_nat pb_size) rb;
  rb ← enqueue_part (off_pkt_lbgp_primitives x) (Some (ILbgp empty_lbgp)) PlbgpSz rb;
  rb ← enqueue_part (off_pkt_nat_primitives x) (Some (INat (zeros pn_size))) (Z.of_nat pn_size) rb;
  rb ← enqueue_part (off_pkt_mpls_primitives x) (Some (IMpls (zeros pm_size))) (Z.of_nat pm_size) rb;
  rb ← enqueue_part (off_pkt_tun_primitives x) (Some (ITun (zeros pt_size))) (Z.of_nat pt_size) rb;
  rb ← enqueue_part (off_custom_primitives x) (Some IPointer) (Z.of_nat (pc_size cfg)) rb;
  enqueue_part (off_pkt_vlen_hdr_primitives x) (Some (IVlen empty_vlen)) PvhdrSz rb.

(** ** WANT_STATS and WANT_STATUS *)

Definition stats_body (l : loc) (e : acc) (rb : reply_buffer) (s : imt) : res (reply_buffer * imt) :=
  if test_zero_elem e then Ok (rb, s) else rb ← enqueue_acc e rb; Ok (rb, s).

Definition want_stats (s : imt) : res (list (list item)) :=
  '(rb, _) ← walk_table stats_body rb0 s;
  Ok (flush rb).

(** The elements of a bucket that are in use: an unsigned short. *)
Fixpoint count_chain (fuel : nat) (l : loc) (howmany : Z) (s : imt) : res Z :=
  match fuel with
  | O => Err OutOfFuel
  | S fuel =>
      e ← read s l;
      let howmany := if test_zero_elem e then howmany else u16 (howmany + 1) in
      match next e with Some n => count_chain fuel n howmany s | None => Ok howmany end
  end.

Fixpoint status_loop (n : nat) (idx : Z) (elem : loc) (rb : reply_buffer) (s : imt) : res reply_buffer :=
  match n with
  | O => Ok rb
  | S n =>
      k ← count_chain (chain_fuel s) elem 0 s;
      rb ← enQueue_elem (IBucket idx k) sizeof_bucket_desc sizeof_bucket_desc rb;
      status_loop n (idx + 1) (shift elem sizeof_acc) rb s
  end.

Definition want_status (s : imt) : res (list (list item)) :=
  a ← deref (table s);
  rb ← status_loop (Z.to_nat (u32 (buckets cfg))) 0 a rb0 s;
  Ok (flush rb).

(** ** WANT_MATCH and WANT_COUNTER *)

(** struct query_entry. The two pointers a client may write into it, pcust
    and pvlen, are NULL here: the plugin follows them. *)
Record query_entry := mk_query {
  q_what_to_count : Z;
  q_what_to_count_2 : Z;
  q_what_to_count_3 : Z;
  q_data : list Z;
  q_pbgp : list Z;
  q_plbgp : lbgp;
  q_pnat : list Z;
  q_pmpls : list Z;
  q_ptun : list Z
}.

Definition query_prims (q : query_entry) : primitives_ptrs :=
  mk_pp (mk_data (q_data q) 0 0 0 0 0 0) (Some (q_pbgp q)) (Some (q_plbgp q)) (Some (q_pnat q)) (Some (q_pmpls q)) (Some (q_ptun q)) None None.

Definition WANT_COUNTER : Z := 0x8.
Definition WANT_MATCH : Z := 0x10.
Definition WANT_RESET : Z := 0x20.

(** A query on the aggregation that the table is of. *)
Definition exact_query (type : Z) (forked : bool) (q : query_entry) (rb : reply_buffer) (s : imt) : res (reply_buffer * imt) :=
  l ← search_accounting_structure cfg (query_prims q) s;
  match l with
  | None => rb ← (if has type WANT_COUNTER then enqueue_dummy rb else Ok rb); Ok (rb, s)
  | Some l =>
      e ← read s l;
      if test_zero_elem e then rb ← (if has type WANT_COUNTER then enqueue_dummy rb else Ok rb); Ok (rb, s)
      else
        rb ← enqueue_acc e rb;
        if has type WANT_RESET then
          s ← write l (if forked then set_reset_flag e else reset_counters (cycle_stamp s) e) s; Ok (rb, s)
        else Ok (rb, s)
  end.

(** The members of a structure [s] that a request asks for, copied to [d]. *)
Definition mask_struct (field : string -> nat * nat) (w w2 w3 : Z) (s : list Z) (rows : list mask_row) (d : list Z) : list Z :=
  fold_left (fun d r =>
    let word := if r_word r =? 1 then w else if r_word r =? 2 then w2 else w3 in
    if has word (r_flag r)
    then set_bytes (field (r_dst r)) (take (snd (field (r_dst r))) (drop (fst (field (r_src r))) s)) d
    else d) rows d.

(** [strlcpy] of an array into a zeroed one of its size. *)
Fixpoint text_of (s : list Z) : list Z := match s with [] => [] | c :: r => if c =? 0 then [] else c :: text_of r end.
Definition strlcpy_array (s : list Z) : list Z :=
  let t := take (length s - 1) (text_of s) in t ++ zeros (length s - length t).

(** Without a flag, the copy stays zeroed. *)
Definition mask_lbgp (w w2 : Z) (s : lbgp) : lbgp :=
  zip_with (fun (b : bool) s => if b then strlcpy_array s else zeros (length s)) (lbgp_counted w w2) s.

Definition build_rows (b : bool) (rows : list mask_row) : list mask_row := if b then rows else [].

Record masked := mk_masked {
  k_data : list Z;
  k_pbgp : list Z;
  k_plbgp : lbgp;
  k_pnat : list Z;
  k_pmpls : list Z;
  k_ptun : list Z
}.

(** A structure that is read without a test of its pointer only when a flag
    asks for it; one whose structure the table does not have stays zeroed. *)
Definition mask_part (sname : string) (n : nat) (off w w2 w3 : Z) (s : option (list Z)) (rows : list mask_row) (d : list Z) : list Z :=
  match s with
  | Some s => if off =? 0 then d else mask_struct (s_field sname) w w2 w3 s rows d
  | None => d
  end.

Definition mask_elem (src : acc) (w w2 w3 : Z) : res masked :=
  let prims := mask_struct prim_field w w2 w3 (a_primitives src) in
  let d1 := prims (build_rows HAVE_L2 mask_d1_l2 ++ mask_d1 ++ build_rows WITH_GEOIP mask_d1_geoip ++ build_rows WITH_NDPI mask_d1_ndpi)
              (zeros pp_size) in
  d6 ← (if HAVE_L2 && (has w3 COUNT_IN_CVLAN || has w3 COUNT_OUT_CVLAN) then
          s6 ← deref (a_ptun src);
          Ok (mask_struct (s_field "pkt_tunnel_primitives") w w2 w3 s6 mask_d6_l2 (zeros pt_size))
        else Ok (zeros pt_size));
  let d2 := mask_part "pkt_bgp_primitives" pb_size (off_pkt_bgp_primitives x) w w2 w3 (a_pbgp src) mask_d2 (zeros pb_size) in
  d5 ← (if off_pkt_lbgp_primitives x =? 0 then Ok empty_lbgp
        else match clbgp src with
             | Some c => Ok (mask_lbgp w w2 (cache_to_pkt_legacy_bgp_primitives c))
             | None => Err OutOfBounds (* the structure on the stack that was never written *)
             end);
  let d3 := mask_part "pkt_nat_primitives" pn_size (off_pkt_nat_primitives x) w w2 w3 (a_pnat src) mask_d3 (zeros pn_size) in
  let d4 := mask_part "pkt_mpls_primitives" pm_size (off_pkt_mpls_primitives x) w w2 w3 (a_pmpls src) mask_d4 (zeros pm_size) in
  let d6 := mask_part "pkt_tunnel_primitives" pt_size (off_pkt_tun_primitives x) w w2 w3 (a_ptun src) mask_d6 d6 in
  Ok (mk_masked d1 d2 d5 d3 d4 d6).

Definition query_agrees (q : query_entry) (m : masked) : bool :=
  (memcmp (k_data m) (q_data q) =? 0) && (memcmp (k_pbgp m) (q_pbgp q) =? 0) && (memcmp (concat (k_plbgp m)) (concat (q_plbgp q)) =? 0) &&
  (memcmp (k_pnat m) (q_pnat q) =? 0) && (memcmp (k_pmpls m) (q_pmpls q) =? 0) && (memcmp (k_ptun m) (q_ptun q) =? 0).

(** The counters of the elements that agree, and how many there are. *)
Record counters := mk_counters {
  c_len : Z;
  c_num : Z;
  c_flo : Z;
  c_entries : Z
}.

Definition Accumulate_Counters (e : acc) (b : counters) : counters :=
  mk_counters (u64 (c_len b + bytes_counter e)) (u64 (c_num b + packet_counter e)) (u64 (c_flo b + flow_counter e)) (c_entries b + 1).

Definition masked_body (type : Z) (q : query_entry) (l : loc) (e : acc) (st : reply_buffer * counters) (s : imt)
    : res (reply_buffer * counters * imt) :=
  if test_zero_elem e then Ok (st, s)
  else
    m ← mask_elem e (q_what_to_count q) (q_what_to_count_2 q) (q_what_to_count_3 q);
    if query_agrees q m then
      let '(rb, sum) := st in
      st ← (if has type WANT_COUNTER then Ok (rb, Accumulate_Counters e sum) else rb ← enqueue_acc e rb; Ok (rb, sum));
      s ← (if has type WANT_RESET then write l (set_reset_flag e) s else Ok s);
      Ok (st, s)
    else Ok (st, s).

Definition masked_query (type : Z) (q : query_entry) (rb : reply_buffer) (s : imt) : res (reply_buffer * imt) :=
  '(rb, sum, s) ← walk_table (masked_body type q) (rb, mk_counters 0 0 0 0) s;
  rb ← (if has type WANT_COUNTER then enQueue_elem (ICounters (c_len sum) (c_num sum) (c_flo sum) (c_entries sum)) PdataSz PdataSz rb else Ok rb);
  Ok (rb, s).

Definition one_query (type : Z) (forked : bool) (q : query_entry) (rb : reply_buffer) (s : imt) : res (reply_buffer * imt) :=
  if (q_what_to_count q =? what_to_count cfg) && (q_what_to_count_2 q =? what_to_count_2 cfg) && (q_what_to_count_3 q =? what_to_count_3 cfg)
  then exact_query type forked q rb s
  else masked_query type q rb s.

Fixpoint queries (type : Z) (forked : bool) (qs : list query_entry) (rb : reply_buffer) (s : imt) : res (reply_buffer * imt) :=
  match qs with
  | [] => Ok (rb, s)
  | q :: qs => '(rb, s) ← one_query type forked q rb s; queries type forked qs rb s
  end.

Definition WANT_STATS : Z := 0x1.
Definition WANT_STATUS : Z := 0x4.
Definition WANT_CLASS_TABLE : Z := 0x40.
Definition WANT_CUSTOM_PRIMITIVES_TABLE : Z := 0x200.
Definition WANT_ERASE_LAST_TSTAMP : Z := 0x400.

(** What is sent, and the table afterwards. The tables of classes and of
    custom primitives are not the memory table's. *)
Definition process_query_data (type : Z) (qs : list query_entry) (forked : bool) (s : imt) : res (list (list item) * imt) :=
  if has type WANT_STATS then out ← want_stats s; Ok (out, s)
  else if has type WANT_STATUS then out ← want_status s; Ok (out, s)
  else if has type WANT_MATCH || has type WANT_COUNTER then '(rb, s) ← queries type forked qs rb0 s; Ok (flush rb, s)
  else if has type WANT_CLASS_TABLE || has type WANT_CUSTOM_PRIMITIVES_TABLE then Ok ([], s)
  else if has type WANT_ERASE_LAST_TSTAMP then
    rb ← enQueue_elem (IStamp (table_reset_stamp s)) 16 16 rb0;
    Ok (flush rb, s)
  else Ok ([], s).

(** What the loop of the plugin does with a request: the query, then, when it
    asked for that, the erasure. A query is answered by a child process unless
    it is short or locks the table; [lock] is set by the first query that does
    so, and stays. A child works on the same mappings. *)
Definition WANT_ERASE : Z := 0x2.
Definition WANT_LOCK_OP : Z := 0x100.

Definition imt_request (type : Z) (qs : list query_entry) (lock : bool) (s : imt) : res (list (list item) * bool * imt) :=
  let request := if has type WANT_RESET then Z.lxor type WANT_RESET else type in
  let locked := has request WANT_LOCK_OP in
  let lock := lock || locked in
  let request := if locked then Z.lxor request WANT_LOCK_OP else request in
  if has request WANT_ERASE then
    let request := Z.lxor request WANT_ERASE in
    '(out, s) ← (if request =? 0 then Ok ([], s) else process_query_data type qs false s);
    s ← imt_clear s;
    Ok (out, lock, s)
  else
    let here := ((request =? WANT_COUNTER) || (request =? WANT_MATCH)) &&
                match qs with [q] => q_what_to_count q =? what_to_count cfg | _ => false end in
    '(out, s) ← process_query_data type qs (negb (here || (request =? WANT_CLASS_TABLE) || lock)) s;
    Ok (out, lock, s).

End Reply.
End Insert.

(** The configuration the plugin starts with. *)
Definition imt_defaults (c : imt_config) : imt_config :=
  mk_cfg (if buckets c =? 0 then MAX_HOSTS else buckets c)
    (if num_memory_pools c =? 0 then NUM_MEMORY_POOLS else num_memory_pools c)
    (if (memory_pool_size c =? 0) || (u64 (memory_pool_size c) <? sizeof_acc) then MEMORY_POOL_SIZE else memory_pool_size c)
    (what_to_count c) (what_to_count_2 c) (what_to_count_3 c) (pc_size c).

Definition COUNT_MPLS_LABEL_STACK : Z := 0x10000000000.

(** No variable-length primitives in this plugin. *)
Definition imt_plugin (c : imt_config) (x : extra_primitives) (s : imt) : res imt :=
  if negb (off_pkt_vlen_hdr_primitives x =? 0) || has (what_to_count_2 c) COUNT_MPLS_LABEL_STACK then Err Exited
  else imt_start (imt_defaults c) s.

End Plugin.
End ImtServer.
