(* ===== verification/ImtFacts.v ===== *)
(** * The in-memory table: keys, chains and pools

    What two packets have in common when they are counted together, what a
    well-formed table is, and what a pool gives. *)

From S2P Require Import Prelude.
From S2P Require Import Imt.

Module ImtFacts.
Import Imt.

#[export] Instance vlen_prims_eq_dec : EqDecision vlen_prims.
Proof. solve_decision. Defined.
#[export] Instance pkt_data_eq_dec : EqDecision pkt_data.
Proof. solve_decision. Defined.
#[export] Instance primitives_ptrs_eq_dec : EqDecision primitives_ptrs.
Proof. solve_decision. Defined.

(** ** Keys *)

(** A packet without its counters. *)
Definition key_of (p : primitives_ptrs) : primitives_ptrs :=
  mk_pp (mk_data (primitives (data p)) 0 0 0 0 0 0) (pbgp p) (plbgp p) (pnat p) (pmpls p) (ptun p) (pcust p) (pvlen p).

(** What an element counts; an element of zeroed memory counts nothing. *)
Definition key_at (e : acc) : option primitives_ptrs :=
  match clbgp e with
  | None => None
  | Some c => Some (mk_pp (mk_data (a_primitives e) 0 0 0 0 0 0) (a_pbgp e) (Some (cache_to_pkt_legacy_bgp_primitives c))
                      (a_pnat e) (a_pmpls e) (a_ptun e) (a_pcust e) (a_pvlen e))
  end.

Section Keys.
Context {ho : imt_host}.
Variable cfg : imt_config.

Definition sized (n : nat) (b : option (list Z)) : Prop := exists l, b = Some l /\ length l = n.

(** The strings of BGP that are not counted are empty. *)
Definition lbgp_plain (s : lbgp) : Prop :=
  Forall2 (fun a n => length a = n) s lbgp_sizes /\
  cache_to_pkt_legacy_bgp_primitives (pkt_to_cache_legacy_bgp_primitives s (what_to_count cfg) (what_to_count_2 cfg)) = s.

(** A packet as the plugin makes it: every structure there is, of its size. *)
Record full (p : primitives_ptrs) : Prop := {
  fp_prims : length (primitives (data p)) = pp_size;
  fp_bgp : sized pb_size (pbgp p);
  fp_lbgp : exists s, plbgp p = Some s /\ lbgp_plain s;
  fp_nat : sized pn_size (pnat p);
  fp_mpls : sized pm_size (pmpls p);
  fp_tun : sized pt_size (ptun p);
  fp_cust : sized (pc_size cfg) (pcust p);
  fp_vlen : exists v, pvlen p = Some v /\ Z.of_nat (length (v_bytes v)) = tot_len v + PvhdrSz
}.

(** An element that counts the packets of [q]. *)
Definition counts (e : acc) (q : primitives_ptrs) : Prop :=
  full q /\ key_at e = Some (key_of q) /\ signature e = hash_of cfg q.

Lemma hash_of_key p q : key_of p = key_of q -> hash_of cfg p = hash_of cfg q.
Proof. intros E. change (hash_of cfg (key_of p) = hash_of cfg (key_of q)). by rewrite E. Qed.

Lemma lors_0 l z : fold_left Z.lor l z = 0 <-> z = 0 /\ Forall (fun x => x = 0) l.
Proof.
  revert z. induction l as [|x l IH]; intros z; simpl; [split; [by split | by intros [-> _]] |].
  rewrite IH, Z.lor_eq_0_iff, Forall_cons. tauto.
Qed.

Lemma cmp_part_0 n a b : sized n a -> sized n b -> cmp_part a b = 0 <-> b = a.
Proof.
  intros (x & -> & Hx) (y & -> & Hy). unfold cmp_part. rewrite memcmp_0 by congruence. split; [by intros -> | by intros [= ->]].
Qed.

Lemma concat_sized (s t : lbgp) ns :
  Forall2 (fun a n => length a = n) s ns -> Forall2 (fun a n => length a = n) t ns ->
  length (concat s) = length (concat t) /\ (concat s = concat t -> s = t).
Proof.
  intros Hs. revert t. induction Hs as [|a n s ns Ha Hs IH]; intros t Ht; inversion Ht as [|b m t' ns' Hb Ht']; subst; [done |].
  simpl. rewrite !length_app. destruct (IH _ Ht') as [Hl He]. split; [lia |].
  intros [-> Hc]%app_inj_1; [| congruence]. by rewrite (He Hc).
Qed.

Lemma lbgp_cmp_0 (s t : lbgp) : lbgp_plain s -> lbgp_plain t -> memcmp (concat s) (concat t) = 0 <-> s = t.
Proof.
  intros [Hs _] [Ht _]. destruct (concat_sized s t _ Hs Ht) as [Hl He]. rewrite memcmp_0 by done. split; [done | by intros ->].
Qed.

Lemma vlen_cmp_0 v w :
  Z.of_nat (length (v_bytes v)) = tot_len v + PvhdrSz -> Z.of_nat (length (v_bytes w)) = tot_len w + PvhdrSz ->
  vlen_prims_cmp v w = 0 <-> v = w.
Proof.
  intros Hv Hw. unfold vlen_prims_cmp. destruct (Z.eqb_spec (tot_len v) (tot_len w)) as [E|E]; cbn [negb].
  - rewrite memcmp_0 by lia. destruct v, w; cbn in *. subst. split; [by intros -> | by intros [= ->]].
  - split; [lia | by intros ->].
Qed.

(** Comparing an element with a packet decides whether the packet is one of
    those the element counts. *)
Lemma compare_counts e p q : full p -> counts e q -> compare_accounting_structure e p = 0 <-> key_of p = key_of q.
Proof.
  intros Hp (Hq & Hk & _). unfold key_at in Hk. destruct (clbgp e) as [c |] eqn:Ec; [| done].
  destruct (fp_lbgp _ Hp) as (s & Es & Hs), (fp_lbgp _ Hq) as (t & Et & Ht).
  destruct (fp_vlen _ Hp) as (v & Ev & Hv), (fp_vlen _ Hq) as (w & Ew & Hw).
  injection Hk as E1 E2 E3 E4 E5 E6 E7 E8.
  unfold compare_accounting_structure. rewrite lors_0, !Forall_cons, Ec, Es, Ev, E8, Ew.
  rewrite Et in E3. injection E3 as ->.
  rewrite E1, E2, E4, E5, E6, E7.
  rewrite (cmp_part_0 pb_size) by apply Hp || apply Hq. rewrite (cmp_part_0 pn_size) by apply Hp || apply Hq.
  rewrite (cmp_part_0 pm_size) by apply Hp || apply Hq. rewrite (cmp_part_0 pt_size) by apply Hp || apply Hq.
  rewrite (cmp_part_0 (pc_size cfg)) by apply Hp || apply Hq.
  rewrite lbgp_cmp_0, vlen_cmp_0, memcmp_0 by (done || by rewrite (fp_prims _ Hp), (fp_prims _ Hq)).
  unfold key_of. rewrite Es, Et, Ev, Ew. split.
  - intros (-> & -> & -> & -> & -> & -> & -> & -> & _). done.
  - intros [= -> -> -> -> -> -> -> ->]. repeat split; constructor.
Qed.

(** An element of zeroed memory is like no packet. *)
Lemma compare_fresh e p : full p -> clbgp e = None -> compare_accounting_structure e p <> 0.
Proof.
  intros Hp Ec. destruct (fp_lbgp _ Hp) as (s & Es & _). unfold compare_accounting_structure.
  rewrite lors_0, !Forall_cons, Es, Ec. intros (_ & _ & H & _). discriminate.
Qed.

Lemma matches_counts e p q : full p -> counts e q -> matches (hash_of cfg p) p e = true <-> key_of p = key_of q.
Proof.
  intros Hp He. unfold matches. rewrite andb_true_iff, !Z.eqb_eq, (compare_counts e p q Hp He).
  destruct He as (_ & _ & ->). split; [by intros [] |]. intros E. split; [| done]. symmetry. by apply hash_of_key.
Qed.

Lemma matches_fresh e p : full p -> clbgp e = None -> matches (hash_of cfg p) p e = false.
Proof. intros Hp He. unfold matches. apply andb_false_iff. right. by apply Z.eqb_neq, compare_fresh. Qed.

(** ** Elements of a bucket *)

Definition idle (e : acc) : bool := (bytes_counter e =? 0) && (packet_counter e =? 0).

(** Of zeroed memory and without counters, or counting packets of the
    bucket. *)
Definition elem_ok (pos : Z) (e : acc) : Prop :=
  (clbgp e = None /\ idle e = true) \/ exists q, counts e q /\ bucket_of cfg (hash_of cfg q) = pos.

Lemma elem_ok_matches pos e p : full p -> elem_ok pos e -> matches (hash_of cfg p) p e = true ->
  counts e p /\ bucket_of cfg (hash_of cfg p) = pos.
Proof.
  intros Hp [[Hf _] | (q & Hq & Hpos)] Hm; [by rewrite matches_fresh in Hm |].
  apply (matches_counts e p q Hp Hq) in Hm as E. rewrite (hash_of_key p q E). split; [| done].
  destruct Hq as (_ & Hk & Hs). split; [done |]. rewrite (hash_of_key p q E). split; [by rewrite E | done].
Qed.

Lemma fill_counts p flag e : full p -> counts (fill cfg (hash_of cfg p) p flag e) p.
Proof.
  intros Hp. split; [done |]. split; [| done]. destruct (fp_lbgp _ Hp) as (s & Es & [_ Hs]).
  unfold key_at, fill, key_of. cbn [clbgp a_primitives a_pbgp a_pnat a_pmpls a_ptun a_pcust a_pvlen].
  rewrite Es. cbn [option_map]. rewrite Hs. by destruct (pvlen p).
Qed.

(** Counting changes neither what an element counts nor its place. *)
Lemma same_counts e e' q : key_at e' = key_at e -> signature e' = signature e -> counts e q -> counts e' q.
Proof. intros Hk Hs (H1 & H2 & H3). split; [done |]. by rewrite Hk, Hs. Qed.

Lemma account_match_counts c d e q : counts e q -> counts (account_match c d e) q.
Proof. apply same_counts; unfold account_match; by destruct (reset_flag e). Qed.

Lemma account_reuse_counts p e : full p -> counts (account_reuse cfg (hash_of cfg p) p e) p.
Proof. intros Hp. by eapply same_counts, (fill_counts p false e Hp). Qed.

Lemma account_new_counts p e : full p -> counts (account_new cfg (hash_of cfg p) p e) p.
Proof. intros Hp. by eapply same_counts, (fill_counts p (reset_flag e) e Hp). Qed.

(** ** Chains *)

Definition at_loc (m : gmap loc acc) (l : loc) : acc := default acc0 (m !! l).

(** From [l], the elements [r] follow, and there is no other. *)
Fixpoint linked (m : gmap loc acc) (l : loc) (r : list loc) : Prop :=
  match r with
  | [] => next (at_loc m l) = None
  | l' :: r => next (at_loc m l) = Some l' /\ linked m l' r
  end.

Lemma linked_same m m' l r : (forall x, x ∈ l :: r -> next (at_loc m' x) = next (at_loc m x)) -> linked m l r -> linked m' l r.
Proof.
  revert l. induction r as [|l' r IH]; intros l H; simpl; [by rewrite H by left |].
  intros [H1 H2]. rewrite H by left. split; [done |]. apply IH; [| done]. intros x Hx. apply H. by right.
Qed.

Lemma linked_append m m' l r last new :
  linked m l r -> NoDup (l :: r) -> list.last (l :: r) = Some last ->
  next (at_loc m' last) = Some new -> next (at_loc m' new) = None ->
  (forall x, x ∈ l :: r -> x <> last -> next (at_loc m' x) = next (at_loc m x)) -> linked m' l (r ++ [new]).
Proof.
  revert l. induction r as [|l' r IH]; intros l Hl Hnd Hlast Hn1 Hn2 Hsame; simpl.
  - by injection Hlast as ->.
  - destruct Hl as [Hnext Hl]. apply NoDup_cons in Hnd as [Hnin Hnd].
    assert (Hlast' : list.last (l' :: r) = Some last) by done.
    assert (last ∈ l' :: r) by by apply last_Some_elem_of.
    rewrite Hsame; [| by left | by intros ->]. split; [done |].
    apply IH; try done. intros x Hx. apply Hsame. by right.
Qed.

(** What follows an element of a chain. *)
Lemma linked_next m h r pre l post : linked m h r -> h :: r = pre ++ l :: post -> next (at_loc m l) = list.head post.
Proof.
  revert h pre. induction r as [|a r IH]; intros h [|b pre] Hl Hc; simplify_eq/=; [done | by destruct pre | by destruct Hl |].
  destruct Hl as [_ Hl]. by eapply (IH a pre).
Qed.

Definition chain_head (base : loc) (i : nat) : loc := shift base (Z.of_nat i * sizeof_acc).

(** A well-formed table: for each bucket, what follows its first element. *)
Record table_ok (s : imt) (base : loc) (chains : list (list loc)) : Prop := {
  tk_table : table s = Some base;
  tk_len : Z.of_nat (length chains) = buckets cfg;
  tk_linked : forall i r, chains !! i = Some r -> linked (mem s) (chain_head base i) r;
  tk_nodup : forall i r, chains !! i = Some r -> NoDup (chain_head base i :: r);
  tk_apart : forall i j r r' l, chains !! i = Some r -> chains !! j = Some r' ->
    l ∈ chain_head base i :: r -> l ∈ chain_head base j :: r' -> i = j;
  tk_valid : forall i r l, chains !! i = Some r -> l ∈ chain_head base i :: r -> valid s l = true;
  tk_live : forall l, is_Some (mem s !! l) -> exists i r, chains !! i = Some r /\ l ∈ chain_head base i :: r;
  tk_elem : forall i r l, chains !! i = Some r -> l ∈ chain_head base i :: r -> elem_ok (Z.of_nat i) (at_loc (mem s) l);
  tk_tail : forall i r l, chains !! i = Some r -> l ∈ r -> is_Some (mem s !! l) /\ clbgp (at_loc (mem s) l) <> None;
  tk_fresh : forall i r, chains !! i = Some r -> clbgp (at_loc (mem s) (chain_head base i)) = None -> r = [];
  tk_lru_len : length (lru_elem_ptr s) = length chains;
  tk_lru : forall i l, lru_elem_ptr s !! i = Some (Some l) -> valid s l = true
}.

Lemma read_ok s l : valid s l = true -> read s l = Ok (at_loc (mem s) l).
Proof. intros H. unfold read. by rewrite H. Qed.

Lemma write_ok l e s : valid s l = true -> write l e s = Ok (with_mem (<[l := e]> (mem s)) s).
Proof. intros H. unfold write. by rewrite H. Qed.

Lemma valid_same s s' l : segments s' = segments s -> valid s' l = valid s l.
Proof. intros H. unfold valid. by rewrite H. Qed.

Lemma at_insert m l e : at_loc (<[l := e]> m) l = e.
Proof. unfold at_loc. by rewrite lookup_insert_eq. Qed.

Lemma at_insert_ne m l l' e : l <> l' -> at_loc (<[l := e]> m) l' = at_loc m l'.
Proof. intros H. unfold at_loc. by rewrite lookup_insert_ne. Qed.

(** An element that is overwritten in its chain. *)
Lemma table_ok_update s base chains i r l e :
  table_ok s base chains -> chains !! i = Some r -> l ∈ chain_head base i :: r ->
  next e = next (at_loc (mem s) l) -> (clbgp e = None -> clbgp (at_loc (mem s) l) = None) -> elem_ok (Z.of_nat i) e ->
  table_ok (with_mem (<[l := e]> (mem s)) s) base chains.
Proof.
  intros [T1 T2 T3 T4 T5 T6 T7 T8 T9 T10 T11 T12] Hi Hl Hn Hc He.
  assert (Hnext : forall x, next (at_loc (<[l := e]> (mem s)) x) = next (at_loc (mem s) x)).
  { intros x. destruct (decide (l = x)) as [<- |]; [by rewrite at_insert | by rewrite at_insert_ne]. }
  constructor; try done; cbn [mem with_mem].
  - intros j r' Hj. apply (linked_same (mem s)); [done | by apply T3].
  - intros x. destruct (decide (l = x)) as [<- |]; [intros _; by exists i, r |]. rewrite lookup_insert_ne by done. apply T7.
  - intros j r' x Hj Hx. destruct (decide (l = x)) as [<- |]; [| rewrite at_insert_ne by done; by eapply T8].
    rewrite at_insert. by rewrite (T5 _ _ _ _ _ Hj Hi Hx Hl).
  - intros j r' x Hj Hx. destruct (T9 j r' x Hj Hx) as [Hm Hcl]. destruct (decide (l = x)) as [<- |].
    + rewrite at_insert, lookup_insert_eq. split; [by eexists |]. intros H. by apply Hcl, Hc.
    + by rewrite at_insert_ne, lookup_insert_ne.
  - intros j r' Hj. destruct (decide (l = chain_head base j)) as [E | Hne]; [| rewrite at_insert_ne by done; by apply T10].
    rewrite <- E, at_insert. intros H. apply (T10 j r' Hj). rewrite <- E. by apply Hc.
Qed.

(** A chain is not changed by what is outside of the memory of elements. *)
Lemma table_ok_same s s' base chains :
  table_ok s base chains -> mem s' = mem s -> table s' = table s -> lru_elem_ptr s' = lru_elem_ptr s ->
  (forall l, valid s l = true -> valid s' l = true) -> table_ok s' base chains.
Proof.
  intros [T1 T2 T3 T4 T5 T6 T7 T8 T9 T10 T11 T12] Em Et El Hv. constructor; rewrite ?Em, ?Et, ?El; try done.
  - intros i r l Hi Hl. by eapply Hv, T6.
  - intros i l Hi. by eapply Hv, T12.
Qed.

Lemma set_lru_ok s base chains pos l :
  table_ok s base chains -> valid s l = true -> table_ok (set_lru pos l s) base chains.
Proof.
  intros [T1 T2 T3 T4 T5 T6 T7 T8 T9 T10 T11 T12] Hl. constructor; try done; cbn [lru_elem_ptr set_lru with_lru].
  - by rewrite length_insert.
  - intros i x. rewrite list_lookup_insert_Some. intros [(_ & [= <-] & _) | [_ Hi]]; [done | by eapply T12].
Qed.

(** A new element at the end of a chain. *)
Lemma table_ok_append s s' base chains i r last l new :
  table_ok s base chains -> chains !! i = Some r -> list.last (chain_head base i :: r) = Some last ->
  clbgp (at_loc (mem s) last) <> None ->
  (forall j r', chains !! j = Some r' -> l ∉ chain_head base j :: r') ->
  next new = None -> clbgp new <> None -> elem_ok (Z.of_nat i) new ->
  mem s' = <[l := new]> (<[last := with_next (Some l) (at_loc (mem s) last)]> (mem s)) ->
  table s' = table s -> lru_elem_ptr s' = lru_elem_ptr s ->
  (forall x, valid s x = true -> valid s' x = true) -> valid s' l = true ->
  table_ok s' base (<[i := r ++ [l]]> chains).
Proof.
  intros [T1 T2 T3 T4 T5 T6 T7 T8 T9 T10 T11 T12] Hi Hlast Hused Hnew Hn Hc He Em Et El Hv Hvl.
  pose proof (last_Some_elem_of _ _ Hlast) as Hin. pose proof (lookup_lt_Some _ _ _ Hi) as Hlt.
  assert (Hll : l <> last) by (intros ->; by apply (Hnew i r Hi)).
  assert (Hat_l : at_loc (mem s') l = new) by (rewrite Em; apply at_insert).
  assert (Hat_last : at_loc (mem s') last = with_next (Some l) (at_loc (mem s) last)) by (rewrite Em, at_insert_ne by done; apply at_insert).
  assert (Hat : forall x, x <> l -> x <> last -> at_loc (mem s') x = at_loc (mem s) x) by (intros x ? ?; rewrite Em, !at_insert_ne; done).
  assert (Hlook : forall j r', <[i := r ++ [l]]> chains !! j = Some r' ->
            (j = i /\ r' = r ++ [l]) \/ (j <> i /\ chains !! j = Some r')).
  { intros j r'. rewrite list_lookup_insert_Some. intros [(-> & <- & _) | [? ?]]; [by left | by right]. }
  assert (Hmem : forall j r' x, <[i := r ++ [l]]> chains !! j = Some r' -> x ∈ chain_head base j :: r' ->
            (j = i /\ x = l) \/ exists r0, chains !! j = Some r0 /\ x ∈ chain_head base j :: r0).
  { intros j r' x Hj Hx. destruct (Hlook j r' Hj) as [[-> ->] | [_ Hj']]; [| right; by exists r'].
    rewrite app_comm_cons, elem_of_app, list_elem_of_singleton in Hx. destruct Hx as [Hx | ->]; [right; by exists r | by left]. }
  constructor.
  - by rewrite Et.
  - by rewrite length_insert.
  - intros j r' Hj. destruct (Hlook j r' Hj) as [[-> ->] | [Hne Hj']].
    + apply (linked_append (mem s) _ _ _ last l); [by apply T3 | by apply T4 | done | by rewrite Hat_last | by rewrite Hat_l |].
      intros x Hx Hxl. rewrite Hat; [done | | done]. intros E. apply (Hnew i r Hi). by rewrite <- E.
    + apply (linked_same (mem s)); [| by apply T3]. intros x Hx. rewrite Hat; [done | |].
      * intros ->. by apply (Hnew j r' Hj').
      * intros ->. by apply Hne, (T5 _ _ _ _ last Hj' Hi).
  - intros j r' Hj. destruct (Hlook j r' Hj) as [[-> ->] | [Hne Hj']]; [| by apply T4].
    rewrite app_comm_cons. apply NoDup_app. split; [by apply T4 |]. split; [| apply NoDup_singleton].
    intros x Hx ->%list_elem_of_singleton. by apply (Hnew i r Hi).
  - intros j k r' r'' x Hj Hk Hx Hy.
    destruct (Hmem j r' x Hj Hx) as [[-> E] | (a & Ha & Hxa)], (Hmem k r'' x Hk Hy) as [[-> E'] | (b & Hb & Hxb)];
      [done | rewrite E in Hxb; by destruct (Hnew k b Hb) | rewrite E' in Hxa; by destruct (Hnew j a Ha) | by eapply T5].
  - intros j r' x Hj Hx. destruct (Hmem j r' x Hj Hx) as [[_ ->] | (a & Ha & Hxa)]; [done |]. by eapply Hv, T6.
  - intros x. rewrite Em. destruct (decide (x = l)) as [-> | Hxl].
    + intros _. exists i, (r ++ [l]). rewrite list_lookup_insert_eq by done. split; [done |].
      rewrite app_comm_cons. apply elem_of_app. right. by constructor.
    + assert (Hex : (exists j r', chains !! j = Some r' /\ x ∈ chain_head base j :: r') ->
                exists j r', <[i := r ++ [l]]> chains !! j = Some r' /\ x ∈ chain_head base j :: r').
      { intros (j & r' & Hj & Hx). destruct (decide (j = i)) as [-> | Hne].
        - exists i, (r ++ [l]). rewrite list_lookup_insert_eq by done. split; [done |].
          rewrite Hi in Hj. injection Hj as <-. rewrite app_comm_cons. apply elem_of_app. by left.
        - exists j, r'. by rewrite list_lookup_insert_ne. }
      rewrite lookup_insert_ne by done. destruct (decide (x = last)) as [-> | Hxs]; [intros _; apply Hex; by exists i, r |].
      rewrite lookup_insert_ne by done. intros Hs. by apply Hex, T7.
  - intros j r' x Hj Hx. destruct (Hmem j r' x Hj Hx) as [[-> ->] | (a & Ha & Hxa)]; [by rewrite Hat_l |].
    destruct (decide (x = last)) as [-> | Hxs].
    + rewrite Hat_last. pose proof (T8 j a last Ha Hxa) as [[? _] | (q & Hq & Hb)]; [done |]. right. exists q. split; [| done].
      by apply (same_counts _ _ _ (eq_refl) eq_refl) in Hq.
    + rewrite Hat; [by eapply T8 | | done]. intros ->. by apply (Hnew j a Ha).
  - intros j r' x Hj Hx.
    assert (Hor : x = l \/ (x <> l /\ exists a, chains !! j = Some a /\ x ∈ a)).
    { destruct (Hlook j r' Hj) as [[-> ->] | [_ Hj']].
      - rewrite elem_of_app, list_elem_of_singleton in Hx. destruct Hx as [Hx | ->]; [right | by left].
        split; [| by exists r]. intros ->. apply (Hnew i r Hi). by right.
      - right. split; [| by exists r']. intros ->. apply (Hnew j r' Hj'). by right. }
    destruct Hor as [-> | (Hxl & a & Ha & Hxa)]; [rewrite Hat_l, Em, lookup_insert_eq; split; [by eexists | done] |].
    destruct (T9 j a x Ha Hxa) as [Hs Hcl]. rewrite Em at 1. rewrite lookup_insert_ne by done. destruct (decide (x = last)) as [-> | Hxs].
    + rewrite Hat_last, lookup_insert_eq. split; [by eexists | done].
    + by rewrite Hat, lookup_insert_ne.
  - intros j r' Hj. destruct (Hlook j r' Hj) as [[-> ->] | [Hne Hj']].
    + intros H. exfalso. assert (Hh : chain_head base i <> l) by (intros E; apply (Hnew i r Hi); rewrite E; left).
      destruct (decide (chain_head base i = last)) as [E | Hhl]; [rewrite E, Hat_last in H; done |].
      rewrite Hat in H by done. rewrite (T10 i r Hi H) in Hlast. by injection Hlast.
    + rewrite Hat; [by apply T10 | |].
      * intros E. apply (Hnew j r' Hj'). rewrite E. left.
      * intros E. apply Hne. apply (T5 _ _ _ _ last Hj' Hi); [rewrite <- E; left | done].
  - by rewrite El, length_insert.
  - rewrite El. intros j x Hj. by eapply Hv, T12.
Qed.

End Keys.
End ImtFacts.
