(* ===== verification/ImtPoolFacts.v ===== *)
(** * The in-memory table: pools

    The descriptors that are registered, the pool elements are carved from,
    and what asking for another one gives. *)

From S2P Require Import Prelude.
From S2P Require Import Imt.
From S2P Require Import ImtFacts.

Module ImtPoolFacts.
Import Imt.
Import ImtFacts.

Section Pools.
Context {ho : imt_host}.
Variable cfg : imt_config.

(** What the configuration has to be for the sizes to be those of the memory
    that is asked for: the size of the table is passed as an int. *)
Record sizes_ok : Prop := {
  so_acc : 0 < sizeof_acc;
  so_buckets : 0 < buckets cfg < 2 ^ 31;
  so_table : buckets cfg * sizeof_acc < 2 ^ 31;
  so_pools : 0 < num_memory_pools cfg;
  so_pool : sizeof_acc <= memory_pool_size cfg < 2 ^ 31
}.

Definition pool_len (j : nat) : Z := match j with O => buckets cfg * sizeof_acc | S _ => memory_pool_size cfg end.

(** A descriptor with its memory, or one whose memory was refused. *)
Definition backed (s : imt) (k j : nat) (d : memory_pool_desc) : Prop :=
  (exists n, base_ptr d = Some (n, 0) /\ len d = pool_len j /\ segments s !! n = Some (pool_len j)) \/
  (S j = k /\ base_ptr d = None /\ len d = 0).

(** The first [k] descriptors are chained, each with memory of its own. *)
Record registered (s : imt) (k : nat) : Prop := {
  rg_k : (2 <= k)%nat /\ Z.of_nat k <= num_memory_pools cfg;
  rg_len : length (mpd s) = Z.to_nat (num_memory_pools cfg + 1);
  rg_desc : forall j, (j < k)%nat -> exists d, mpd s !! j = Some d /\
    p_next d = (if decide (S j < k)%nat then Some (S j) else None) /\ backed s k j d;
  rg_rest : forall j, (k <= j)%nat -> (j < length (mpd s))%nat -> mpd s !! j = Some pool0;
  rg_apart : forall i j d d' b, mpd s !! i = Some d -> mpd s !! j = Some d' -> base_ptr d = Some b -> base_ptr d' = Some b -> i = j;
  rg_first : exists d b, mpd s !! 1%nat = Some d /\ base_ptr d = Some b
}.

Definition based (s : imt) (j : nat) (b : nat) : Prop := exists d, mpd s !! j = Some d /\ base_ptr d = Some (b, 0).

(** The pool in use: [n] elements were carved from it; those that are live are
    below, and none is in a later pool. *)
Record current_ok (s : imt) (live : loc -> Prop) (c : nat) (n : Z) : Prop := {
  cu_current : current_pool s = Some c;
  cu_pos : (0 < c)%nat;
  cu_n : 0 <= n;
  cu_fits : n * sizeof_acc <= memory_pool_size cfg;
  cu_desc : exists b nx, mpd s !! c = Some (mk_pool (Z.of_nat c + 1) (Some (b, 0)) (Some (b, n * sizeof_acc))
                                  (memory_pool_size cfg - n * sizeof_acc) (memory_pool_size cfg) nx) /\
    segments s !! b = Some (memory_pool_size cfg) /\ forall l, live l -> fst l = b -> snd l < n * sizeof_acc;
  cu_later : forall j b l, (c < j)%nat -> based s j b -> live l -> fst l <> b
}.

(** The rest of the state. *)
Definition frame (s s' : imt) : Prop :=
  table s' = table s /\ lru_elem_ptr s' = lru_elem_ptr s /\ no_more_space s' = no_more_space s /\
  cycle_stamp s' = cycle_stamp s /\ table_reset_stamp s' = table_reset_stamp s.

(** Memory that was given stays, and so do the bases of descriptors. *)
Definition grows (s s' : imt) : Prop :=
  (exists ext, segments s' = segments s ++ ext) /\ forall j b, based s j b -> based s' j b.

Lemma grows_valid s s' l : grows s s' -> valid s l = true -> valid s' l = true.
Proof.
  intros [(ext & E) _]. unfold valid. rewrite E. destruct (segments s !! fst l) eqn:Es; [| done].
  by rewrite (lookup_app_l_Some _ _ _ _ Es).
Qed.

Lemma valid_segment s l : valid s l = true -> exists size, segments s !! fst l = Some size /\ 0 <= snd l /\ snd l + sizeof_acc <= size.
Proof. unfold valid. destruct (segments s !! fst l) as [size |]; [| done]. intros H. exists size. split; [done | lia]. Qed.

(** A new pool is nobody's. *)
Definition handed (s : imt) (live : loc -> Prop) (c : nat) : Prop :=
  (0 < c)%nat /\ exists b nx, mpd s !! c = Some (mk_pool (Z.of_nat c + 1) (Some (b, 0)) (Some (b, 0)) (memory_pool_size cfg) (memory_pool_size cfg) nx) /\
    segments s !! b = Some (memory_pool_size cfg) /\ (forall l, live l -> fst l <> b) /\
    forall j b' l, (c < j)%nat -> based s j b' -> live l -> fst l <> b'.

Lemma handed_current s live c : sizes_ok -> handed s live c -> current_ok (with_current (Some c) s) live c 0.
Proof.
  intros Hs (Hc & b & nx & Hd & Hb & Hl & Hj). constructor; try done; [pose proof (so_pool Hs); pose proof (so_acc Hs); lia |].
  exists b, nx. change (0 * sizeof_acc) with 0. rewrite Z.sub_0_r. split; [exact Hd |]. split; [exact Hb |].
  intros l Hlive <-. by destruct (Hl l).
Qed.

Lemma with_mem_same s : with_mem (mem s) s = s.
Proof. by destruct s. Qed.

(** Zeroing memory that no element was written to. *)
Lemma zero_untouched s b n : segments s !! b = Some n -> 0 <= n -> (forall l, is_Some (mem s !! l) -> fst l <> b) ->
  zero (Some (b, 0)) n s = Ok s.
Proof.
  intros Hb Hn Hf. unfold zero. destruct (Z.eqb_spec n 0) as [_|_]; [done |]. cbn [deref]. rewrite bind_Ok. cbn [fst snd]. rewrite Hb.
  cbn [deref]. rewrite bind_Ok, (proj2 (Z.leb_le 0 0)), (proj2 (Z.leb_le 0 n)), (proj2 (Z.leb_le (0 + n) n)) by lia.
  cbn [andb]. rewrite map_filter_id; [by rewrite with_mem_same |]. intros [i o] e He. left. by apply (Hf (i, o)).
Qed.

Lemma set_pool_lookup i j d d0 s : mpd s !! i = Some d0 ->
  mpd (set_pool i d s) !! j = if decide (j = i) then Some d else mpd s !! j.
Proof.
  intros Hi. cbn. destruct (decide (j = i)) as [-> | H]; [| by rewrite list_lookup_insert_ne].
  apply list_lookup_insert_eq. by eapply lookup_lt_Some.
Qed.

Lemma get_pool_ok s i d : mpd s !! i = Some d -> get_pool s i = Ok d.
Proof. intros H. unfold get_pool. by rewrite H. Qed.

Lemma frame_trans s s' s'' : frame s s' -> frame s' s'' -> frame s s''.
Proof. intros (? & ? & ? & ? & ?) (? & ? & ? & ? & ?). repeat split; congruence. Qed.

(** A descriptor that is replaced, with the same memory and the same link. *)
Lemma registered_update s k i d d' :
  registered s k -> mpd s !! i = Some d -> (i < k)%nat ->
  base_ptr d' = base_ptr d -> len d' = len d -> p_next d' = p_next d -> registered (set_pool i d' s) k.
Proof.
  intros [R1 R2 R3 R4 R5 R6] Hi Hik Hb Hl Hn.
  assert (Hlook : forall j e, mpd (set_pool i d' s) !! j = Some e ->
            exists e0, mpd s !! j = Some e0 /\ base_ptr e = base_ptr e0).
  { intros j e. rewrite (set_pool_lookup _ _ _ _ _ Hi). case_decide as E; [intros [= <-]; subst j; by exists d | by exists e]. }
  constructor; [done | cbn; by rewrite length_insert | | | |].
  - intros j Hj. rewrite (set_pool_lookup _ _ _ _ _ Hi). case_decide as E; [subst j |].
    + destruct (R3 i Hj) as (e & He & Hne & Hbe). rewrite Hi in He. injection He as <-. exists d'. split; [done |].
      split; [congruence |]. unfold backed in *. cbn. rewrite Hb, Hl. exact Hbe.
    + destruct (R3 j Hj) as (e & He & Hne & Hbe). exists e. by split.
  - intros j Hkj Hj. rewrite (set_pool_lookup _ _ _ _ _ Hi). rewrite decide_False by lia. apply R4; [done |].
    cbn in Hj. by rewrite length_insert in Hj.
  - intros j j' e e' b He He' Hbe Hbe'. destruct (Hlook _ _ He) as (f & Hf & E), (Hlook _ _ He') as (f' & Hf' & E').
    apply (R5 _ _ _ _ b Hf Hf'); congruence.
  - destruct R6 as (e & b & He & Hbe). destruct (decide (i = 1%nat)) as [-> | Hne].
    + exists d', b. rewrite (set_pool_lookup _ _ _ _ _ Hi), decide_True by done. split; [done |]. rewrite Hi in He. injection He as <-. congruence.
    + exists e, b. rewrite (set_pool_lookup _ _ _ _ _ Hi), decide_False by done. done.
Qed.

Lemma grows_update s i d d' : mpd s !! i = Some d -> base_ptr d' = base_ptr d -> grows s (set_pool i d' s).
Proof.
  intros Hi Hb. split; [exists []; cbn; by rewrite app_nil_r |]. intros j b (e & He & Hbe).
  unfold based. rewrite (set_pool_lookup _ _ _ _ _ Hi). case_decide as E; [| by exists e].
  subst j. exists d'. rewrite Hi in He. injection He as <-. by rewrite Hb.
Qed.

Lemma grows_trans s s' s'' : grows s s' -> grows s' s'' -> grows s s''.
Proof.
  intros [(x & E) H] [(y & E') H']. split; [exists (x ++ y); rewrite E', E; by rewrite app_assoc |].
  intros j b Hj. by apply H', H.
Qed.

(** The memory of the bases of later descriptors, when one is replaced. *)
Lemma based_update s i d d' j b : mpd s !! i = Some d -> base_ptr d' = base_ptr d -> based (set_pool i d' s) j b -> based s j b.
Proof.
  intros Hi Hb (e & He & Hbe). rewrite (set_pool_lookup _ _ _ _ _ Hi) in He. case_decide as E; [| by exists e].
  subst j. injection He as <-. exists d. by rewrite <- Hb.
Qed.

(** The next descriptor is chained, its memory still to come. *)
Lemma registered_extend s k c d d' :
  registered s k -> mpd s !! c = Some d -> S c = k -> Z.of_nat (S k) <= num_memory_pools cfg ->
  base_ptr d' = base_ptr d -> base_ptr d <> None -> len d' = len d -> p_next d' = Some k -> registered (set_pool c d' s) (S k).
Proof.
  intros [R1 R2 R3 R4 R5 R6] Hc Hck Hnum Hb Hbase Hl Hn. subst k.
  assert (Hpool0 : mpd s !! S c = Some pool0) by (apply R4; [lia | rewrite R2; lia]).
  constructor; [lia | cbn; by rewrite length_insert | | | |].
  - intros j Hj. rewrite (set_pool_lookup _ _ _ _ _ Hc). case_decide as E.
    + subst j. exists d'. split; [done |]. rewrite decide_True by lia. split; [done |].
      destruct (R3 c ltac:(lia)) as (e & He & _ & Hbe). rewrite Hc in He. injection He as <-.
      unfold backed in *. cbn. rewrite Hb, Hl. destruct Hbe as [Hbe | (_ & Hbe & _)]; [by left | by destruct Hbase].
    + destruct (decide (j = S c)) as [-> | Hne].
      * exists pool0. split; [done |]. rewrite decide_False by lia. split; [done | by right].
      * destruct (R3 j ltac:(lia)) as (e & He & Hne' & Hbe). exists e. split; [done |].
        rewrite Hne'. rewrite !decide_True by lia. split; [done |].
        destruct Hbe as [Hbe | (? & _)]; [by left | lia].
  - intros j Hkj Hj. rewrite (set_pool_lookup _ _ _ _ _ Hc), decide_False by lia. apply R4; [lia |].
    cbn in Hj. by rewrite length_insert in Hj.
  - assert (Hlook : forall j e, mpd (set_pool c d' s) !! j = Some e -> exists e0, mpd s !! j = Some e0 /\ base_ptr e = base_ptr e0).
    { intros j e. rewrite (set_pool_lookup _ _ _ _ _ Hc). case_decide as E; [intros [= <-]; subst j; by exists d | by exists e]. }
    intros j j' e e' b He He' Hbe Hbe'. destruct (Hlook _ _ He) as (f & Hf & E), (Hlook _ _ He') as (f' & Hf' & E').
    apply (R5 _ _ _ _ b Hf Hf'); congruence.
  - destruct R6 as (e & b & He & Hbe). destruct (decide (c = 1%nat)) as [-> | Hne].
    + exists d', b. rewrite (set_pool_lookup _ _ _ _ _ Hc), decide_True by done. split; [done |]. rewrite Hc in He. injection He as <-. congruence.
    + exists e, b. rewrite (set_pool_lookup _ _ _ _ _ Hc), decide_False by done. done.
Qed.

(** The last descriptor is given its memory. *)
Lemma registered_alloc s i d idn size :
  registered s (S i) -> mpd s !! i = Some d -> base_ptr d = None -> size = pool_len i ->
  let b := length (segments s) in
  registered (set_pool i (mk_pool idn (Some (b, 0)) (Some (b, 0)) size size (p_next d)) (with_pools (segments s ++ [size]) (mpd s) s)) (S i).
Proof.
  intros [R1 R2 R3 R4 R5 R6] Hi Hb Hsize b. set (d' := mk_pool _ _ _ _ _ _). set (s' := with_pools _ _ s).
  assert (Hi' : mpd s' !! i = Some d) by done.
  assert (Hold : forall j e x, mpd s !! j = Some e -> base_ptr e = Some x -> j <> i -> fst x <> b /\ (j < S i)%nat).
  { intros j e x He Hx Hne. pose proof (lookup_lt_Some _ _ _ He) as Hlt.
    destruct (decide (j < S i)%nat) as [Hji | Hji]; [| rewrite R4 in He by lia; injection He as <-; done].
    split; [| done]. destruct (R3 j Hji) as (f & Hf & _ & [(n & Hn & _ & Hseg) | (Hlast & _)]); [| by injection Hlast].
    rewrite Hf in He. injection He as ->. rewrite Hx in Hn. injection Hn as ->. cbn. apply lookup_lt_Some in Hseg. unfold b. lia. }
  constructor; [done | cbn; by rewrite length_insert | | | |].
  - intros j Hj. rewrite (set_pool_lookup _ _ _ _ _ Hi'). destruct (R3 j Hj) as (e & He & Hn & Hbe). destruct (decide (j = i)) as [E | E].
    + subst j. exists d'. split; [done |]. rewrite Hi in He. injection He as <-. split; [done |]. left. exists b.
      split; [done |]. split; [done |]. cbn. unfold b. rewrite lookup_app_r, Nat.sub_diag by done. by rewrite <- Hsize.
    + exists e. split; [done |]. split; [done |]. destruct Hbe as [(n & H1 & H2 & H3) | Hbe]; [left | by right].
      exists n. split; [done |]. split; [done |]. cbn. by apply lookup_app_l_Some.
  - intros j Hkj Hj. rewrite (set_pool_lookup _ _ _ _ _ Hi'), decide_False by lia. apply R4; [done |]. cbn in Hj. by rewrite length_insert in Hj.
  - intros j j' e e' x. rewrite !(set_pool_lookup _ _ _ _ _ Hi'). case_decide as E; case_decide as E'; intros He He' Hx Hx'.
    + by subst.
    + injection He as <-. injection Hx as <-. by destruct (Hold _ _ _ He' Hx' E').
    + injection He' as <-. injection Hx' as <-. by destruct (Hold _ _ _ He Hx E).
    + by apply (R5 _ _ _ _ x He He').
  - destruct R6 as (e & x & He & Hx). exists e, x. rewrite (set_pool_lookup _ _ _ _ _ Hi'), decide_False; [done |].
    intros <-. rewrite Hi in He. injection He as <-. congruence.
Qed.

(** What asking for a pool may give: another state of the pools, and either
    nothing or a pool that is nobody's. *)
Definition pool_given (s : imt) (live : loc -> Prop) (r : res (option nat * imt)) : Prop :=
  exists o s', r = Ok (o, s') /\ mem s' = mem s /\ frame s s' /\ grows s s' /\ (exists k, registered s' k) /\
    (o = None \/ exists c, o = Some c /\ handed s' live c).

Lemma frame_refl s : frame s s.
Proof. by repeat split. Qed.

Lemma grows_refl s : grows s s.
Proof. split; [exists []; by rewrite app_nil_r | done]. Qed.

Lemma map_pool s live i d :
  registered s (S i) -> (0 < i)%nat -> mpd s !! i = Some d -> base_ptr d = None -> (forall l, live l -> valid s l = true) ->
  pool_given s live
    match map_shared (memory_pool_size cfg) s with
    | None => Ok (None, s)
    | Some (seg, s) =>
        d ← get_pool s i;
        Ok (Some i, set_pool i (mk_pool (Z.of_nat i + 1) (Some (seg, 0)) (Some (seg, 0)) (memory_pool_size cfg) (memory_pool_size cfg) (p_next d)) s)
    end.
Proof.
  intros R Hi Hd Hb Hlive. unfold map_shared. destruct (map_shared_ok _ _).
  2: { exists None, s. split; [done |]. split; [done |]. split; [by repeat split |]. split; [apply grows_refl |]. split; [by eexists | by left]. }
  set (s1 := with_pools _ _ s). rewrite (get_pool_ok s1 i d Hd), bind_Ok. do 2 eexists. split; [done |]. split; [done |].
  split; [by repeat split |].
  assert (Hsize : memory_pool_size cfg = pool_len i) by (by destruct i; [lia |]).
  assert (Hd1 : mpd s1 !! i = Some d) by done.
  pose proof (registered_alloc s i d (Z.of_nat i + 1) _ R Hd Hb Hsize) as R'. cbv zeta in R'. fold s1 in R'.
  split; [| split; [by eexists |]].
  - split; [by eexists |]. intros j b (e & He & Hbe). exists e. rewrite (set_pool_lookup _ _ _ _ _ Hd1), decide_False; [done |].
    intros ->. rewrite Hd in He. injection He as <-. congruence.
  - right. exists i. split; [done |]. split; [done |]. exists (length (segments s)), (p_next d).
    rewrite (set_pool_lookup _ _ _ _ _ Hd1), decide_True by done. split; [done |].
    split; [cbn; by rewrite lookup_app_r, Nat.sub_diag |]. split.
    + intros l (size & Hl & _)%Hlive%valid_segment E. rewrite E in Hl. apply lookup_lt_Some in Hl. lia.
    + intros j b' l Hj (e & He & Hbe). rewrite (set_pool_lookup _ _ _ _ _ Hd1), decide_False in He by lia.
      pose proof (lookup_lt_Some _ _ _ He). change (mpd s1) with (mpd s) in He. rewrite (rg_rest _ _ R) in He by (done || lia). injection He as <-. done.
Qed.

Lemma new_pool_desc_in i s : 0 < num_memory_pools cfg ->
  new_pool_desc cfg (Z.of_nat i + 1) s = if num_memory_pools cfg <? Z.of_nat i + 1 then None else Some (i, s).
Proof.
  intros Hn. unfold new_pool_desc. rewrite (proj2 (Z.eqb_neq _ 0)) by lia. cbn [negb].
  by replace (Z.to_nat (Z.of_nat i + 1 - 1)) with i by lia.
Qed.

Lemma pool_given_trans s s1 live r :
  mem s1 = mem s -> frame s s1 -> grows s s1 -> pool_given s1 live r -> pool_given s live r.
Proof.
  intros Hm Hf Hg (o & s' & -> & Hm' & Hf' & Hg' & H). exists o, s'. split; [done |]. split; [congruence |].
  split; [by eapply frame_trans |]. split; [by eapply grows_trans | done].
Qed.

Lemma allocate_given s live k c cur :
  0 < num_memory_pools cfg -> registered s k -> mpd s !! c = Some cur -> id cur = Z.of_nat c + 1 -> (c < k)%nat -> base_ptr cur <> None ->
  (S c = k \/ (S (S c) = k /\ exists d, mpd s !! S c = Some d /\ base_ptr d = None)) ->
  (forall l, live l -> valid s l = true) ->
  pool_given s live (allocate_pool cfg c cur (memory_pool_size cfg) s).
Proof.
  intros Hnum R Hc Hid Hck Hbase Hcase Hlive. unfold allocate_pool. cbv zeta.
  replace (id cur + 1) with (Z.of_nat (S c) + 1) by lia. rewrite new_pool_desc_in by done.
  destruct (Z.ltb_spec (num_memory_pools cfg) (Z.of_nat (S c) + 1)) as [Hfull | Hroom].
  { exists None, s. split; [done |]. split; [done |]. split; [by repeat split |]. split; [apply grows_refl |]. split; [by eexists | by left]. }
  rewrite (proj2 (Z.eqb_neq (id cur) 0)) by lia. unfold set_next. rewrite (get_pool_ok _ _ _ Hc), !bind_Ok.
  set (d' := mk_pool _ _ _ _ _ _). set (s1 := set_pool c d' s).
  assert (Hg : grows s s1) by by apply (grows_update s c cur d').
  assert (Hlive1 : forall l, live l -> valid s1 l = true) by (intros l Hl; by apply (grows_valid s s1), Hlive).
  assert (Hne : S c <> c) by lia.
  apply (pool_given_trans s s1); [done | by repeat split | done |].
  destruct Hcase as [Hk | (Hk & d & Hd & Hb)].
  - apply (map_pool s1 live (S c) pool0); [| lia | | done | done].
    + rewrite Hk. apply (registered_extend s k c cur d'); try done; [lia | cbn; by rewrite Hk].
    + unfold s1. rewrite (set_pool_lookup _ _ _ _ _ Hc), decide_False by done. apply R; [lia |]. rewrite (rg_len _ _ R). lia.
  - apply (map_pool s1 live (S c) d); [| lia | | done | done].
    + rewrite Hk. apply (registered_update s k c cur d'); try done.
      destruct (rg_desc _ _ R c Hck) as (e & He & Hn & _). rewrite Hc in He. injection He as <-. rewrite Hn, decide_True by lia. done.
    + unfold s1. by rewrite (set_pool_lookup _ _ _ _ _ Hc), decide_False.
Qed.

(** Asking for another pool when the current one is used up. *)
Lemma request_given s live k c n :
  sizes_ok -> registered s k -> current_ok s live c n ->
  (forall l, is_Some (mem s !! l) -> live l) -> (forall l, live l -> valid s l = true) ->
  pool_given s live (request_memory_pool cfg (memory_pool_size cfg) s).
Proof.
  intros Hs R [Hc Hpos Hn Hfit (b & nx & Hd & Hseg & Hbelow) Hlater] Hmem Hlive. pose proof (so_pool Hs). pose proof (so_acc Hs).
  set (cur := mk_pool _ _ _ _ _ _) in Hd.
  assert (Hck : (c < k)%nat).
  { destruct (decide (c < k)%nat) as [| Hge]; [done |]. rewrite (rg_rest _ _ R) in Hd by (apply lookup_lt_Some in Hd; lia). discriminate. }
  unfold request_memory_pool. rewrite Hc. cbn [deref]. rewrite bind_Ok, (get_pool_ok _ _ _ Hd), bind_Ok.
  destruct (rg_desc _ _ R c Hck) as (e & He & Hnx & _). rewrite Hd in He. injection He as <-. rewrite Hnx.
  destruct (decide (S c < k)%nat) as [Hnext | Hlast].
  2: { apply (allocate_given s live k c cur); try done; [apply Hs | left; lia]. }
  cbn [id cur]. rewrite (proj2 (Z.eqb_neq _ 0)) by lia.
  destruct (rg_desc _ _ R (S c) Hnext) as (d & Hd1 & Hn1 & Hb1). rewrite (get_pool_ok _ _ _ Hd1), bind_Ok.
  destruct Hb1 as [(b1 & Hb1 & Hl1 & Hs1) | (Hk & Hb1 & Hl1)]; rewrite Hl1.
  - cbn [pool_len]. rewrite (proj2 (Z.leb_le _ _)) by done. unfold rewind_pool. rewrite Hb1, (zero_untouched s b1).
    2: done. 2: lia. 2: { intros l Hl. apply (Hlater (S c) b1 l); [lia | by exists d | by apply Hmem]. }
    rewrite bind_Ok. do 2 eexists. split; [done |]. split; [done |]. split; [by repeat split |].
    split; [by apply (grows_update s (S c) d) |]. split; [exists k; by apply (registered_update s k (S c) d) |].
    right. exists (S c). split; [done |]. split; [lia |]. exists b1, (p_next d).
    rewrite (set_pool_lookup _ _ _ _ _ Hd1), decide_True by done. split; [cbn [id cur]; rewrite ?Hl1; cbn [pool_len]; do 2 f_equal; lia |].
    split; [done |]. split; [intros l Hl; apply (Hlater (S c) b1 l); [lia | by exists d | done] |].
    intros j b' l Hj Hbj Hl. apply (Hlater j b' l); [lia | by apply (based_update s (S c) d _ _ _ Hd1) in Hbj | done].
  - rewrite (proj2 (Z.leb_gt _ _)) by lia. set (d1 := mk_pool _ _ _ _ _ _). set (s1 := set_pool (S c) d1 s).
    assert (Hg : grows s s1) by by apply (grows_update s (S c) d d1).
    apply (pool_given_trans s s1); [done | by repeat split | done |].
    assert (Hc1 : mpd s1 !! c = Some cur) by (unfold s1; rewrite (set_pool_lookup _ _ _ _ _ Hd1), decide_False by lia; done).
    apply (allocate_given s1 live k c cur); try done; [apply Hs | by apply (registered_update s k (S c) d d1) | right].
    split; [done |]. exists d1. unfold s1. by rewrite (set_pool_lookup _ _ _ _ _ Hd1), decide_True.
Qed.

End Pools.
End ImtPoolFacts.
