(* ===== verification/ImtInsertFacts.v ===== *)
(** * The in-memory table: insertion

    What inserting a packet does to the table, and that the table counts every
    packet under its key. *)

From S2P Require Import Prelude.
From S2P Require Import Imt.
From S2P Require Import ImtFacts.
From S2P Require Import ImtPoolFacts.

Module ImtInsertFacts.
Import Imt.
Import ImtFacts.
Import ImtPoolFacts.

Section Insert.
Context {ho : imt_host}.
Variable cfg : imt_config.

(** ** Along a chain *)

Definition passed (hash : Z) (p : primitives_ptrs) (s : imt) (x : loc) : Prop :=
  matches hash p (at_loc (mem s) x) = false /\ idle (at_loc (mem s) x) = false.

(** Where the second stage ends: at an element of the packet, at one without
    counters, or at the end of the chain. *)
Lemma insert_loop_cases s base chains i r hash pos p fuel pre l post :
  table_ok cfg s base chains -> chains !! i = Some r -> chain_head base i :: r = pre ++ l :: post ->
  (forall x, x ∈ pre -> passed hash p s x) -> (length post < fuel)%nat ->
  let chain := chain_head base i :: r in
  (exists x, x ∈ chain /\ matches hash p (at_loc (mem s) x) = true /\
     insert_loop cfg fuel hash pos p l s =
     Ok (set_lru pos x (with_mem (<[x := account_match (cycle_stamp s) (data p) (at_loc (mem s) x)]> (mem s)) s))) \/
  (exists x, x ∈ chain /\ matches hash p (at_loc (mem s) x) = false /\ idle (at_loc (mem s) x) = true /\
     insert_loop cfg fuel hash pos p l s =
     Ok (set_lru pos x (with_mem (<[x := account_reuse cfg hash p (at_loc (mem s) x)]> (mem s)) s))) \/
  (exists x, list.last chain = Some x /\ (forall y, y ∈ chain -> passed hash p s y) /\
     insert_loop cfg fuel hash pos p l s = append_element cfg hash pos p x s).
Proof.
  intros T Hi. revert pre l fuel. induction post as [|n post IH]; intros pre l fuel Hc Hpre Hf chain;
    (destruct fuel as [|fuel]; [simpl in Hf; lia |]);
    assert (Hin : l ∈ chain) by (unfold chain; rewrite Hc; apply elem_of_app; right; left);
    pose proof (tk_valid _ _ _ _ T i r l Hi Hin) as Hv; cbn [insert_loop]; rewrite (read_ok _ _ Hv), bind_Ok;
    (destruct (matches hash p (at_loc (mem s) l)) eqn:Em; [left; exists l; split; [done |]; split; [done |]; by rewrite write_ok, bind_Ok |]);
    fold (idle (at_loc (mem s) l));
    (destruct (idle (at_loc (mem s) l)) eqn:Ei; [right; left; exists l; do 3 (split; [done |]); by rewrite write_ok, bind_Ok |]).
  - pose proof (linked_next _ _ _ _ _ _ (tk_linked _ _ _ _ T i r Hi) Hc) as Hn.
    rewrite Hn. right. right. exists l. split; [unfold chain; rewrite Hc; by rewrite last_snoc |]. split; [| done].
    intros y. unfold chain. rewrite Hc, elem_of_app, list_elem_of_singleton. intros [Hy | ->]; [by apply Hpre | done].
  - pose proof (linked_next _ _ _ _ _ _ (tk_linked _ _ _ _ T i r Hi) Hc) as Hn.
    rewrite Hn. apply (IH (pre ++ [l])); [by rewrite <- app_assoc | | simpl in Hf; lia].
    intros x. rewrite elem_of_app, list_elem_of_singleton. intros [Hx | ->]; [by apply Hpre | done].
Qed.

(** There is fuel for a chain: what follows its first element was written. *)
Lemma chain_length s base chains i r : table_ok cfg s base chains -> chains !! i = Some r -> (S (length r) < chain_fuel s)%nat.
Proof.
  intros T Hi. unfold chain_fuel. enough (length r <= size (mem s))%nat by lia.
  pose proof (tk_nodup _ _ _ _ T i r Hi) as [_ Hnd]%NoDup_cons. rewrite <- size_dom, <- (size_list_to_set (C:=gset loc) r Hnd).
  apply subseteq_size. intros l Hl%elem_of_list_to_set. apply elem_of_dom. by apply (tk_tail _ _ _ _ T i r l Hi Hl).
Qed.

(** ** A new element *)

Definition live (base : loc) (chains : list (list loc)) (l : loc) : Prop := exists i r, chains !! i = Some r /\ l ∈ chain_head base i :: r.

(** The room of one element. *)
Lemma carve_ok s alive k c n :
  sizes_ok cfg -> registered cfg s k -> current_ok cfg s alive c n -> (n + 1) * sizeof_acc <= memory_pool_size cfg ->
  exists l s', carve c s = Ok (l, s') /\ mem s' = mem s /\ frame s s' /\ grows s s' /\ registered cfg s' k /\
    valid s' l = true /\ ~ alive l /\ current_ok cfg s' (fun x => alive x \/ x = l) c (n + 1) /\
    (exists j, based s' j (fst l)).
Proof.
  intros Hs R [Hc Hpos Hn Hfit (b & nx & Hd & Hseg & Hbelow) Hlater] Hroom. pose proof (so_acc _ Hs). pose proof (so_pool _ Hs).
  set (cur := mk_pool _ _ _ _ _ _) in Hd.
  assert (Hck : (c < k)%nat).
  { destruct (decide (c < k)%nat) as [| Hge]; [done |]. rewrite (rg_rest _ _ _ R) in Hd by (apply lookup_lt_Some in Hd; lia). discriminate. }
  unfold carve. rewrite (get_pool_ok _ _ _ Hd), bind_Ok. cbn [ptr cur deref]. rewrite bind_Ok. do 2 eexists. split; [done |].
  set (l := (b, n * sizeof_acc)). set (d' := mk_pool _ _ _ _ _ _).
  assert (Hnl : ~ alive l) by (intros Hl; pose proof (Hbelow l Hl eq_refl) as Hb; cbn in Hb; lia).
  split; [done |]. split; [by repeat split |]. split; [by apply (grows_update s c cur) |].
  split; [by apply (registered_update cfg s k c cur) |]. split.
  { unfold valid, l. cbn [fst snd segments set_pool with_pools]. rewrite Hseg.
    rewrite (proj2 (Z.leb_le 0 _)), (proj2 (Z.leb_le _ (memory_pool_size cfg))), Z.mod_mul by lia. done. }
  split; [done |]. split.
  - constructor; try done; try lia.
    + exists b, nx. rewrite (set_pool_lookup _ _ _ _ _ Hd), decide_True by done. split; [| split; [done |]].
      * do 2 f_equal; [unfold shift; cbn; do 3 f_equal; lia |]. unfold d', cur, s32, wrap. cbn [space_left].
        rewrite Z.mod_small by lia. lia.
      * intros x [Hx | ->] Hf; [pose proof (Hbelow x Hx Hf); lia | cbn; lia].
    + intros j b' x Hj Hb [Hx | ->]; apply (based_update s c cur d' j b' Hd eq_refl) in Hb; [by apply (Hlater j b') |].
      cbn. intros <-. destruct Hb as (e & He & Hbe). pose proof (rg_apart _ _ _ R c j _ _ _ Hd He eq_refl Hbe). lia.
  - exists c, d'. by rewrite (set_pool_lookup _ _ _ _ _ Hd), decide_True.
Qed.

(** A well-formed state of the plugin. *)
Definition imt_shape (s : imt) (base : loc) (chains : list (list loc)) : Prop :=
  table_ok cfg s base chains /\ (exists k, registered cfg s k) /\ (exists b, base = (b, 0) /\ based s 0 b) /\
  (forall l, live base chains l -> exists j, based s j (fst l)) /\
  (no_more_space s = false -> exists c n, current_ok cfg s (live base chains) c n).

Definition imt_ok (s : imt) : Prop := exists base chains, imt_shape s base chains.

Lemma live_mem s base chains l : table_ok cfg s base chains -> is_Some (mem s !! l) -> live base chains l.
Proof. intros T. apply T. Qed.

Lemma live_valid s base chains l : table_ok cfg s base chains -> live base chains l -> valid s l = true.
Proof. intros T (i & r & Hi & Hl). by apply (tk_valid _ _ _ _ T i r l). Qed.

(** The pool a new element is carved from, or none. *)
Lemma pool_for_element s base chains c n cur :
  sizes_ok cfg -> imt_shape s base chains -> current_ok cfg s (live base chains) c n -> mpd s !! c = Some cur ->
  exists o s', (if sizeof_acc <=? u64 (space_left cur) then Ok (Some c, s) else request_memory_pool cfg (memory_pool_size cfg) s) = Ok (o, s') /\
    mem s' = mem s /\ frame s s' /\ grows s s' /\ (exists k, registered cfg s' k) /\
    (o = None \/ exists c' n', o = Some c' /\ current_ok cfg (with_current (Some c') s') (live base chains) c' n' /\
       (n' + 1) * sizeof_acc <= memory_pool_size cfg).
Proof.
  intros Hs (T & (k & R) & _ & _ & _) Hcur Hd. pose proof (so_acc _ Hs). pose proof (so_pool _ Hs).
  pose proof Hcur as [Hc Hpos Hn Hfit (b & nx & Hd' & _) _]. rewrite Hd in Hd'. injection Hd' as ->. cbn [space_left].
  assert (u64 (memory_pool_size cfg - n * sizeof_acc) = memory_pool_size cfg - n * sizeof_acc) as ->.
  { unfold u64, wrap. apply Z.mod_small. lia. }
  destruct (Z.leb_spec sizeof_acc (memory_pool_size cfg - n * sizeof_acc)).
  - exists (Some c), s. split; [done |]. split; [done |]. split; [by repeat split |]. split; [apply grows_refl |]. split; [by exists k |].
    right. exists c, n. split; [done |]. split; [| lia]. destruct s; cbn in *; by subst.
  - destruct (request_given cfg s (live base chains) k c n Hs R Hcur) as (o & s' & E & Hm & Hf & Hg & HR & Ho).
    { intros l. by apply live_mem. }
    { intros l. by apply (live_valid s). }
    exists o, s'. rewrite E. do 5 (split; [done |]). destruct Ho as [-> | (c' & -> & Hh)]; [by left | right].
    exists c', 0. split; [done |]. split; [by apply handed_current | lia].
Qed.

(** What the pools are does not depend on the elements. *)
Lemma registered_same s s' k : mpd s' = mpd s -> segments s' = segments s -> registered cfg s k -> registered cfg s' k.
Proof. intros E1 E2 [R1 R2 R3 R4 R5 R6]. constructor; rewrite ?E1; try done. unfold backed. by rewrite E2. Qed.

Lemma current_same s s' (alive alive' : loc -> Prop) c n :
  mpd s' = mpd s -> segments s' = segments s -> current_pool s' = current_pool s -> (forall l, alive' l -> alive l) ->
  current_ok cfg s alive c n -> current_ok cfg s' alive' c n.
Proof.
  intros E1 E2 E3 Hl [H1 H2 H3 H4 (b & nx & Hd & Hs & Hb) H6]. constructor; try done; [congruence | |].
  - exists b, nx. rewrite E1, E2. split; [done |]. split; [done |]. intros l Ha. by apply Hb, Hl.
  - intros j b' l Hj Hbj Ha. apply (H6 j b'); [done | | by apply Hl]. unfold based in *. by rewrite <- E1.
Qed.

Lemma shape_same s s' base chains :
  table_ok cfg s' base chains -> mpd s' = mpd s -> segments s' = segments s -> current_pool s' = current_pool s ->
  no_more_space s' = no_more_space s -> imt_shape s base chains -> imt_shape s' base chains.
Proof.
  intros T E1 E2 E3 E4 (_ & (k & R) & (b & -> & Hb) & Hl & Hc). split; [done |]. split; [exists k; by apply (registered_same s) |].
  unfold based in *. rewrite E1, E4. split; [by exists b |]. split; [done |].
  intros Hn. destruct (Hc Hn) as (c & n & Hcur). exists c, n. by apply (current_same s s' (live (b, 0) chains)).
Qed.

(** An element of the chain is overwritten, and remembered. *)
Lemma shape_update s base chains i r pos l e :
  imt_shape s base chains -> chains !! i = Some r -> l ∈ chain_head base i :: r ->
  next e = next (at_loc (mem s) l) -> (clbgp e = None -> clbgp (at_loc (mem s) l) = None) -> elem_ok cfg (Z.of_nat i) e ->
  imt_shape (with_mem (<[l := e]> (mem s)) s) base chains /\
  imt_shape (set_lru pos l (with_mem (<[l := e]> (mem s)) s)) base chains.
Proof.
  intros Hs Hi Hl Hn Hc He. pose proof (proj1 Hs) as T. pose proof (table_ok_update cfg s base chains i r l e T Hi Hl Hn Hc He) as T'.
  pose proof (tk_valid _ _ _ _ T i r l Hi Hl) as Hv.
  split; (apply (shape_same s); [| done | done | done | done | done]); [done |]. by apply set_lru_ok.
Qed.

Lemma live_append base chains i r l x : chains !! i = Some r -> live base (<[i := r ++ [l]]> chains) x -> live base chains x \/ x = l.
Proof.
  intros Hi (j & r' & Hj & Hx). apply list_lookup_insert_Some in Hj as [(-> & <- & _) | [_ Hj]]; [| left; by exists j, r'].
  rewrite app_comm_cons, elem_of_app, list_elem_of_singleton in Hx. destruct Hx as [Hx | ->]; [left; by exists j, r | by right].
Qed.

Lemma append_ok s base chains i r last p :
  sizes_ok cfg -> imt_shape s base chains -> chains !! i = Some r -> list.last (chain_head base i :: r) = Some last ->
  idle (at_loc (mem s) last) = false -> full cfg p -> bucket_of cfg (hash_of cfg p) = Z.of_nat i ->
  exists s', append_element cfg (hash_of cfg p) (Z.of_nat i) p last s = Ok s' /\ imt_ok s' /\ cycle_stamp s' = cycle_stamp s /\
    ((mem s' = mem s /\ no_more_space s' = true) \/
     exists l, mem s !! l = None /\ l <> last /\ no_more_space s = false /\
       mem s' = <[l := account_new cfg (hash_of cfg p) p acc0]> (<[last := with_next (Some l) (at_loc (mem s) last)]> (mem s))).
Proof.
  intros Hs Hsh Hi Hlast Hidle Hp Hb. pose proof Hsh as (T & (k & R) & (b & Eb & Hb0) & Hbk & Hcur).
  unfold append_element. destruct (no_more_space s) eqn:Efull.
  { exists s. split; [done |]. split; [by exists base, chains |]. split; [done | by left]. }
  destruct (Hcur eq_refl) as (c & n & Hc). pose proof Hc as [Ec _ _ _ (b1 & nx & Hd & _) _].
  rewrite Ec. cbn [deref]. rewrite bind_Ok, (get_pool_ok _ _ _ Hd), bind_Ok.
  destruct (pool_for_element s base chains c n _ Hs Hsh Hc Hd) as (o & s1 & E & Hm1 & Hf1 & Hg1 & (k1 & R1) & Ho).
  rewrite E, bind_Ok. cbv beta. assert (Hv1 : forall x, valid s x = true -> valid s1 x = true) by (intros x; by apply grows_valid).
  destruct Hf1 as (F1 & F2 & F3 & F4 & _). destruct Ho as [-> | (c' & n' & -> & Hc' & Hroom)].
  { eexists. split; [done |]. split; [| split; [done | by left]]. exists base, chains. split.
    { apply (table_ok_same cfg s); try done. }
    split; [by exists k1; apply (registered_same s1) |]. split; [exists b; split; [done |]; by apply Hg1 |]. split; [| done].
    intros l Hl. destruct (Hbk l Hl) as (j & Hj). exists j. by apply Hg1. }
  destruct (carve_ok (with_current (Some c') s1) (live base chains) k1 c' n') as (l & s2 & E2 & Hm2 & Hf2 & Hg2 & R2 & Hvl & Hnl & Hc2 & Hbl);
    [done | by apply (registered_same s1) | done | done |].
  rewrite E2, bind_Ok. cbv beta.
  assert (Hv2 : forall x, valid s x = true -> valid s2 x = true).
  { intros x Hx. apply (grows_valid (with_current (Some c') s1)); [done |]. by apply Hv1. }
  assert (Hm : mem s2 = mem s) by (rewrite Hm2; exact Hm1). destruct Hf2 as (G1 & G2 & G3 & G4 & _).
  pose proof (last_Some_elem_of _ _ Hlast) as Hin. pose proof (tk_valid _ _ _ _ T i r last Hi Hin) as Hvlast.
  assert (Hll : l <> last) by (intros ->; apply Hnl; by exists i, r).
  assert (Hnone : mem s !! l = None) by (apply eq_None_not_Some; intros H; apply Hnl; by apply (live_mem s)).
  rewrite (read_ok _ _ (Hv2 _ Hvlast)), bind_Ok, (write_ok _ _ _ (Hv2 _ Hvlast)), bind_Ok, Hm.
  set (s3 := with_mem _ s2). assert (Hvl3 : valid s3 l = true) by done.
  rewrite (read_ok _ _ Hvl3), bind_Ok, (write_ok _ _ _ Hvl3), bind_Ok.
  assert (at_loc (mem s3) l = acc0) as -> by (cbn [s3 mem with_mem]; rewrite at_insert_ne by done; unfold at_loc; by rewrite Hnone).
  set (e := account_new _ _ _ _). set (s4 := with_mem _ s3).
  eexists. split; [done |]. assert (Hused : clbgp (at_loc (mem s) last) <> None).
  { destruct (tk_elem _ _ _ _ T i r last Hi Hin) as [[_ ?] | (q & (_ & Hk & _) & _)]; [congruence |]. intros Hn. unfold key_at in Hk. by rewrite Hn in Hk. }
  pose proof (account_new_counts cfg p acc0 Hp) as He. fold e in He.
  assert (T4 : table_ok cfg s4 base (<[i := r ++ [l]]> chains)).
  { apply (table_ok_append cfg s s4 base chains i r last l e); try done.
    - intros j r' Hj Hx. apply Hnl. by exists j, r'.
    - destruct He as (_ & Hk & _). intros Hn. unfold key_at in Hk. by rewrite Hn in Hk.
    - right. by exists p.
    - cbn [s4 table with_mem s3]. rewrite G1. exact F1.
    - cbn [s4 lru_elem_ptr with_mem s3]. rewrite G2. exact F2. }
  assert (Hbase2 : forall j x, based s j x -> based s2 j x) by (intros j x Hj; apply Hg2; by apply Hg1).
  split; [| split; [cbn; rewrite G4; exact F4 | right; exists l; do 2 (split; [done |]); split; [done | done]]].
  exists base, (<[i := r ++ [l]]> chains). split; [by apply set_lru_ok |].
  split; [exists k1; by apply (registered_same s2) |]. split; [exists b; split; [done |]; by apply Hbase2 |]. split.
  - intros x Hx. apply (live_append _ _ _ _ _ _ Hi) in Hx as [Hx | ->]; [| by apply Hbl].
    destruct (Hbk x Hx) as (j & Hj). exists j. by apply Hbase2.
  - intros _. exists c', (n' + 1). apply (current_same s2 _ (fun x => live base chains x \/ x = l)); try done.
    intros x. by apply live_append.
Qed.

(** ** Insertion *)

(** What an insertion does to the elements. *)
Inductive inserted (s : imt) (p : primitives_ptrs) (s' : imt) : Prop :=
  | inserted_match l :
      counts cfg (at_loc (mem s) l) p ->
      mem s' = <[l := account_match (cycle_stamp s) (data p) (at_loc (mem s) l)]> (mem s) -> inserted s p s'
  | inserted_reuse l :
      idle (at_loc (mem s) l) = true -> key_at (at_loc (mem s) l) <> Some (key_of p) ->
      (key_at (at_loc (mem s) l) = None -> forall x, key_at (at_loc (mem s) x) <> Some (key_of p)) ->
      mem s' = <[l := account_reuse cfg (hash_of cfg p) p (at_loc (mem s) l)]> (mem s) -> inserted s p s'
  | inserted_new l last :
      mem s !! l = None -> l <> last -> (forall x, key_at (at_loc (mem s) x) <> Some (key_of p)) ->
      mem s' = <[l := account_new cfg (hash_of cfg p) p acc0]> (<[last := with_next (Some l) (at_loc (mem s) last)]> (mem s)) -> inserted s p s'
  | inserted_nowhere : mem s' = mem s -> no_more_space s' = true -> inserted s p s'.

Lemma key_at_acc0 : key_at acc0 = None.
Proof. done. Qed.

(** An element that counts the packets of a key is in the chain of its
    bucket. *)
Lemma key_in_chain s base chains p x :
  table_ok cfg s base chains -> full cfg p -> key_at (at_loc (mem s) x) = Some (key_of p) ->
  exists i r, chains !! i = Some r /\ x ∈ chain_head base i :: r /\ Z.of_nat i = bucket_of cfg (hash_of cfg p) /\
    counts cfg (at_loc (mem s) x) p /\ matches (hash_of cfg p) p (at_loc (mem s) x) = true.
Proof.
  intros T Hp Hk. assert (Hs : is_Some (mem s !! x)).
  { destruct (mem s !! x) eqn:E; [by eexists |]. unfold at_loc in Hk. rewrite E in Hk. discriminate. }
  destruct (tk_live _ _ _ _ T x Hs) as (i & r & Hi & Hx). exists i, r. split; [done |]. split; [done |].
  destruct (tk_elem _ _ _ _ T i r x Hi Hx) as [[Hc _] | (q & Hq & Hb)]; [unfold key_at in Hk; by rewrite Hc in Hk |].
  pose proof Hq as (_ & Hkq & Hsig). assert (E : key_of p = key_of q) by congruence.
  split; [by rewrite (hash_of_key cfg p q E) |]. split.
  - split; [done |]. split; [done |]. by rewrite (hash_of_key cfg p q E).
  - by apply (matches_counts cfg _ p q Hp Hq).
Qed.

Lemma matches_key s base chains p x :
  table_ok cfg s base chains -> full cfg p -> matches (hash_of cfg p) p (at_loc (mem s) x) = true ->
  key_at (at_loc (mem s) x) = Some (key_of p).
Proof.
  intros T Hp Hm. destruct (mem s !! x) as [e |] eqn:E.
  - destruct (tk_live _ _ _ _ T x) as (i & r & Hi & Hx); [by eexists |].
    pose proof (tk_elem _ _ _ _ T i r x Hi Hx) as He. by destruct (elem_ok_matches cfg _ _ _ Hp He Hm) as [(_ & ? & _) _].
  - unfold at_loc in Hm. rewrite E in Hm. by rewrite matches_fresh in Hm.
Qed.

Lemma bucket_range h : sizes_ok cfg -> 0 <= bucket_of cfg h < buckets cfg.
Proof.
  intros Hs. pose proof (so_buckets _ Hs). unfold bucket_of. assert (u32 (buckets cfg) = buckets cfg) as -> by (apply u32_small; unfold in_u; lia).
  apply Z.mod_pos_bound. lia.
Qed.

(** The element that was used last is the packet's, or nothing is done. *)
Lemma lru_stage s base chains p :
  sizes_ok cfg -> table_ok cfg s base chains ->
  exists lru, lru_elem_ptr s !! Z.to_nat (bucket_of cfg (hash_of cfg p)) = Some lru /\
    (forall l, lru = Some l -> valid s l = true) /\ exists r, chains !! Z.to_nat (bucket_of cfg (hash_of cfg p)) = Some r.
Proof.
  intros Hs T. pose proof (bucket_range (hash_of cfg p) Hs) as Hb. pose proof (tk_len _ _ _ _ T) as Hl.
  destruct (lookup_lt_is_Some_2 chains (Z.to_nat (bucket_of cfg (hash_of cfg p)))) as [r Hr]; [lia |].
  destruct (lookup_lt_is_Some_2 (lru_elem_ptr s) (Z.to_nat (bucket_of cfg (hash_of cfg p)))) as [lru Hlru]; [rewrite (tk_lru_len _ _ _ _ T); lia |].
  exists lru. split; [done |]. split; [| by exists r]. intros l ->. by apply (tk_lru _ _ _ _ T) in Hlru.
Qed.

(** Counting a packet at the element that is the packet's keeps the table, with
    or without the note that the element was used last. *)
Lemma update_ok s base chains p l :
  imt_shape s base chains -> full cfg p -> matches (hash_of cfg p) p (at_loc (mem s) l) = true ->
  valid s l = true /\ counts cfg (at_loc (mem s) l) p /\
  (forall q, imt_ok (with_mem (<[l := account_match (cycle_stamp s) (data p) (at_loc (mem s) l)]> (mem s)) s) /\
             imt_ok (set_lru q l (with_mem (<[l := account_match (cycle_stamp s) (data p) (at_loc (mem s) l)]> (mem s)) s))).
Proof.
  intros Hsh Hp Hm. pose proof (proj1 Hsh) as T. pose proof (matches_key s base chains p l T Hp Hm) as Hk.
  destruct (key_in_chain s base chains p l T Hp Hk) as (j & r' & Hj & Hl & Hpj & Hcount & _).
  split; [by apply (tk_valid _ _ _ _ T j r' l) |]. split; [done |]. intros q.
  destruct (shape_update s base chains j r' q l (account_match (cycle_stamp s) (data p) (at_loc (mem s) l)) Hsh Hj Hl) as [H1 H2].
  - unfold account_match. by destruct (reset_flag _).
  - unfold account_match. by destruct (reset_flag _).
  - right. exists p. split; [by apply account_match_counts | done].
  - by split; exists base, chains.
Qed.

(** Inserting a packet ends well, whatever the table holds. *)
Lemma insert_table_ok s p : sizes_ok cfg -> imt_ok s -> full cfg p ->
  exists s', insert_accounting_structure cfg p s = Ok s' /\ imt_ok s' /\ inserted s p s' /\
    (no_more_space s = true -> no_more_space s' = true).
Proof.
  intros Hs (base & chains & Hsh) Hp. pose proof (proj1 Hsh) as T. set (hash := hash_of cfg p). set (pos := bucket_of cfg hash).
  destruct (lru_stage s base chains p Hs T) as (lru & Elru & Hlru & r & Hi). fold hash pos in Elru, Hi.
  pose proof (bucket_range hash Hs) as Hpos. fold pos in Hpos. set (i := Z.to_nat pos) in *.
  assert (Hpi : Z.of_nat i = pos) by (unfold i; lia).
  pose proof (fun l => update_ok s base chains p l Hsh Hp) as Hupd. fold hash in Hupd.
  unfold insert_accounting_structure. cbv zeta. fold hash pos i. rewrite Elru, bind_Ok.
  destruct (match lru with Some l => matches hash p (at_loc (mem s) l) | None => false end) eqn:Ehit.
  { destruct lru as [l |]; [| done]. rewrite (read_ok _ _ (Hlru l eq_refl)), !bind_Ok, Ehit. destruct (Hupd l Ehit) as (Hv & Hc & Hok).
    rewrite write_ok by done. eexists. split; [done |]. split; [by apply (Hok 0) |]. split; [| done]. by apply (inserted_match _ _ _ l). }
  assert ((hit ← match lru with None => Ok None | Some l => e ← read s l; Ok (if matches hash p e then Some (l, e) else None) end;
           match hit with
           | Some (l, e) => write l (account_match (cycle_stamp s) (data p) e) s
           | None => l ← head pos s; insert_loop cfg (chain_fuel s) hash pos p l s
           end) = insert_loop cfg (chain_fuel s) hash pos p (chain_head base i) s) as ->.
  { assert (Hhead : head pos s = Ok (chain_head base i)) by (unfold head, chain_head; rewrite (tk_table _ _ _ _ T); cbn [deref]; by rewrite bind_Ok, Hpi).
    destruct lru as [l |]; [rewrite (read_ok _ _ (Hlru l eq_refl)), !bind_Ok, Ehit |]; by rewrite ?bind_Ok, Hhead, bind_Ok. }
  pose proof (chain_length s base chains i r T Hi) as Hfuel.
  destruct (insert_loop_cases s base chains i r hash pos p (chain_fuel s) [] (chain_head base i) r T Hi eq_refl) as [H | [H | H]]; [by intros x ?%elem_of_nil | lia | | |].
  - destruct H as (x & Hx & Hm & ->). destruct (Hupd x Hm) as (Hv & Hc & Hok). eexists. split; [done |]. split; [by apply Hok |].
    split; [| done]. by apply (inserted_match _ _ _ x).
  - destruct H as (x & Hx & Hm & Hidle & ->). eexists. split; [done |]. set (e := at_loc (mem s) x) in *.
    assert (Hnk : key_at e <> Some (key_of p)).
    { intros Hk. destruct (key_in_chain s base chains p x T Hp Hk) as (_ & _ & _ & _ & _ & _ & Hm'). fold hash e in Hm'. congruence. }
    destruct (shape_update s base chains i r pos x (account_reuse cfg hash p e) Hsh Hi Hx) as [_ Hok]; [done | | |].
    + intros Hn. destruct (account_reuse_counts cfg p e Hp) as (_ & Hk & _). unfold key_at in Hk. fold hash in Hk. by rewrite Hn in Hk.
    + right. exists p. split; [by apply account_reuse_counts | done].
    + split; [by exists base, chains |]. split; [| done]. apply (inserted_reuse _ _ _ x); try done. intros Hnone y Hy.
      destruct (key_in_chain s base chains p y T Hp Hy) as (j & r' & Hj & Hyj & Hpj & _). fold hash pos in Hpj.
      assert (j = i) as -> by lia. rewrite Hi in Hj. injection Hj as <-.
      assert (Hc : clbgp e = None) by (unfold e; revert Hnone; unfold key_at; by destruct (clbgp _)).
      apply elem_of_cons in Hx as [Ex | Hx]; [subst x | by destruct (tk_tail _ _ _ _ T i r x Hi Hx)].
      rewrite (tk_fresh _ _ _ _ T i r Hi Hc) in Hyj. apply list_elem_of_singleton in Hyj as ->. by apply Hnk.
  - destruct H as (x & Hlast & Hall & ->). rewrite <- Hpi.
    destruct (append_ok s base chains i r x p Hs Hsh Hi Hlast) as (s' & Es & Hok & _ & Hcase); try done.
    { by apply Hall, last_Some_elem_of. }
    fold hash in Es. rewrite Es.
    exists s'. split; [done |]. split; [done |]. destruct Hcase as [[Hm Hfull] | (l & Hl & Hne & Hnf & Hm)].
    + split; [by apply inserted_nowhere | done].
    + assert (Hnk : forall y, key_at (at_loc (mem s) y) <> Some (key_of p)).
      { intros y Hy. destruct (key_in_chain s base chains p y T Hp Hy) as (j & r' & Hj & Hyj & Hpj & _ & Hm'). fold hash pos in Hpj, Hm'.
        assert (j = i) as -> by lia. rewrite Hi in Hj. injection Hj as <-. destruct (Hall y Hyj) as [Hno _]. congruence. }
      split; [by apply (inserted_new _ _ _ l x) | congruence].
Qed.

End Insert.
End ImtInsertFacts.
