(* ===== verification/ImtCountFacts.v ===== *)
(** * The in-memory table: what is counted

    The totals of a key, over all the elements that count it, and the theorems
    that every packet is counted once and under its key. *)

From S2P Require Import Prelude.
From S2P Require Import Imt.
From S2P Require Import ImtFacts.
From S2P Require Import ImtPoolFacts.
From S2P Require Import ImtInsertFacts.

Module ImtCountFacts.
Import Imt.
Import ImtFacts.
Import ImtPoolFacts.
Import ImtInsertFacts.

(** ** Totals *)

(** What an element has for a key; counters that the next packet resets are
    nothing. *)
Definition weight (f : acc -> Z) (k : primitives_ptrs) (e : acc) : Z :=
  if decide (key_at e = Some k) then if reset_flag e then 0 else f e else 0.

(** The sum over the table. *)
Definition total (f : acc -> Z) (k : primitives_ptrs) (s : imt) : Z := msum (weight f k) (mem s).

(** What a packet has for a key. *)
Definition amount (f : pkt_data -> Z) (k : primitives_ptrs) (p : primitives_ptrs) : Z :=
  if decide (key_of p = k) then f (data p) else 0.

Section Count.
Context {ho : imt_host}.
Variable cfg : imt_config.

(** A counter that packets add to: bytes or packets. *)
Record adds (f : acc -> Z) (d : pkt_data -> Z) : Prop := {
  ad_match : forall c x e, f (account_match c x e) = u64 ((if reset_flag e then 0 else f e) + d x);
  ad_reuse : forall h p e, f (account_reuse cfg h p e) = u64 (f e + d (data p));
  ad_new : forall h p, f (account_new cfg h p acc0) = u64 (0 + d (data p));
  ad_next : forall n e, f (with_next n e) = f e;
  ad_idle : forall e, idle e = true -> f e = 0
}.

Lemma adds_bytes : adds bytes_counter pkt_len.
Proof.
  constructor; try done.
  - intros c x e. unfold account_match. by destruct (reset_flag e).
  - intros e H. unfold idle in H. lia.
Qed.

Lemma adds_packets : adds packet_counter pkt_num.
Proof.
  constructor; try done.
  - intros c x e. unfold account_match. by destruct (reset_flag e).
  - intros e H. unfold idle in H. lia.
Qed.

Lemma u64_replace a b m : u64 (a - b + u64 (b + m)) = u64 (a + m).
Proof. unfold u64, wrap. rewrite Z.add_mod_idemp_r by lia. f_equal. lia. Qed.

Lemma at_key_weight f k m l : at_key (weight f k) m l = weight f k (at_loc m l).
Proof. unfold at_key, at_loc. by destruct (m !! l). Qed.

Lemma weight_key f k e : key_at e <> Some k -> weight f k e = 0.
Proof. intros H. unfold weight. by rewrite decide_False. Qed.

(** An insertion adds the packet to the total of its key, and to no other. *)
Lemma inserted_total s p s' :
  full cfg p -> inserted cfg s p s' ->
  mem s' = mem s /\ no_more_space s' = true \/
  forall f d k, adds f d -> u64 (total f k s') = u64 (total f k s + amount d k p).
Proof.
  intros Hp [l Hc Hm | l Hidle Hk Hno Hm | l last Hl Hne Hno Hm | Hm Hfull]; [right | right | right | by left];
    intros f d k [A1 A2 A3 A4 A5]; unfold total, amount; rewrite Hm, !msum_update, ?at_key_weight.
  - pose proof (account_match_counts cfg (cycle_stamp s) (data p) (at_loc (mem s) l) p Hc) as (_ & Hk' & _). destruct Hc as (_ & Hk & _).
    assert (reset_flag (account_match (cycle_stamp s) (data p) (at_loc (mem s) l)) = false) as Hr.
    { unfold account_match. by destruct (reset_flag (at_loc (mem s) l)) eqn:E. }
    unfold weight at 2 3. rewrite Hk, Hk', Hr, A1. destruct (decide (key_of p = k)) as [-> | Hne].
    + rewrite !decide_True by done. apply u64_replace.
    + rewrite !decide_False by congruence. f_equal. lia.
  - pose proof (account_reuse_counts cfg p (at_loc (mem s) l) Hp) as (_ & Hk' & _).
    assert (weight f k (at_loc (mem s) l) = 0) as -> by (unfold weight; rewrite A5 by done; by repeat case_match).
    unfold weight at 2. rewrite Hk', A2, A5 by done. cbn [reset_flag account_reuse account with_counters fill].
    destruct (decide (key_of p = k)) as [-> | Hne].
    + rewrite decide_True by done. apply u64_replace.
    + rewrite decide_False by congruence. f_equal. lia.
  - pose proof (account_new_counts cfg p acc0 Hp) as (_ & Hk' & _).
    rewrite at_insert_ne by done.
    assert (weight f k (with_next (Some l) (at_loc (mem s) last)) = weight f k (at_loc (mem s) last)) as ->.
    { unfold weight. by rewrite A4. }
    assert (weight f k (at_loc (mem s) l) = 0) as -> by (unfold at_loc; rewrite Hl; by apply weight_key).
    unfold weight at 4. rewrite Hk', A3. cbn [reset_flag account_new with_next with_counters fill acc0].
    destruct (decide (key_of p = k)) as [-> | Hne'].
    + rewrite decide_True by done. rewrite u64_replace. f_equal. lia.
    + rewrite decide_False by congruence. f_equal. lia.
Qed.

(** C12. Inserting a packet into a well-formed table ends, and leaves it well
    formed. The packet's bytes and packets are added to the totals of its key
    and to those of no other, unless there was no more room for a new element,
    and then no element has changed. *)
Theorem insert_accounting_structure_counts s p :
  sizes_ok cfg -> imt_ok cfg s -> full cfg p ->
  exists s', insert_accounting_structure cfg p s = Ok s' /\ imt_ok cfg s' /\
    (mem s' = mem s /\ no_more_space s' = true \/
     forall k, u64 (total bytes_counter k s') = u64 (total bytes_counter k s + amount pkt_len k p) /\
               u64 (total packet_counter k s') = u64 (total packet_counter k s + amount pkt_num k p)).
Proof.
  intros Hs Hok Hp. destruct (insert_table_ok cfg s p Hs Hok Hp) as (s' & E & Hok' & Hi & _). exists s'. split; [done |]. split; [done |].
  destruct (inserted_total s p s' Hp Hi) as [H | H]; [by left | right].
  intros k. split; apply H; [exact adds_bytes | exact adds_packets].
Qed.

(** ** Many packets *)

Fixpoint insert_all (ps : list primitives_ptrs) (s : imt) : res imt :=
  match ps with
  | [] => Ok s
  | p :: ps => s ← insert_accounting_structure cfg p s; insert_all ps s
  end.

(** The sum of a counter over the packets of a key. *)
Definition amounts (f : pkt_data -> Z) (k : primitives_ptrs) (ps : list primitives_ptrs) : Z :=
  fold_right (fun p n => amount f k p + n) 0 ps.

Lemma insert_all_ok ps s :
  sizes_ok cfg -> imt_ok cfg s -> Forall (full cfg) ps ->
  exists s', insert_all ps s = Ok s' /\ imt_ok cfg s' /\
    (no_more_space s' = false ->
     no_more_space s = false /\ forall f d k, adds f d -> u64 (total f k s') = u64 (total f k s + amounts d k ps)).
Proof.
  intros Hs. revert s. induction ps as [|p ps IH]; intros s Hok Hps; cbn [insert_all amounts fold_right].
  - exists s. split; [done |]. split; [done |]. intros Hn. split; [done |]. intros f d k _. f_equal. lia.
  - apply Forall_cons in Hps as [Hp Hps]. destruct (insert_table_ok cfg s p Hs Hok Hp) as (s1 & -> & Hok1 & Hi & Hfull).
    rewrite bind_Ok. destruct (IH s1 Hok1 Hps) as (s' & -> & Hok' & Hsum). exists s'. split; [done |]. split; [done |].
    intros Hn. destruct (Hsum Hn) as [Hn1 Hf]. split; [destruct (no_more_space s); [by rewrite Hfull in Hn1 | done] |].
    intros f d k Hadd. rewrite (Hf f d k Hadd). destruct (inserted_total s p s1 Hp Hi) as [[_ ?] | H]; [congruence |].
    unfold u64, wrap in *. pose proof (H f d k Hadd) as E. rewrite <- (Z.add_mod_idemp_l (total f k s1)) by lia. rewrite E.
    rewrite Z.add_mod_idemp_l by lia. f_equal. fold (amounts d k ps). lia.
Qed.

(** ** One element for a key *)

(** Every element that counts packets has some. *)
Definition busy (s : imt) : Prop := forall l e, mem s !! l = Some e -> key_at e <> None -> idle e = false.

(** No key has two elements. *)
Definition distinct (s : imt) : Prop :=
  forall l l' k, key_at (at_loc (mem s) l) = Some k -> key_at (at_loc (mem s) l') = Some k -> l = l'.

(** A packet that is not empty, and that the counters of an element have room
    for. *)
Definition countable (s : imt) (p : primitives_ptrs) : Prop :=
  (0 < pkt_num (data p) < 2 ^ 64) /\
  (forall l e, mem s !! l = Some e -> 0 <= packet_counter e /\ packet_counter e + pkt_num (data p) < 2 ^ 64).

Lemma not_idle e : 0 < packet_counter e -> idle e = false.
Proof. intros H. unfold idle. rewrite (proj2 (Z.eqb_neq (packet_counter e) 0)) by lia. apply andb_false_r. Qed.

(** The first element of an update keeps keys apart and elements busy. *)
Lemma keys_update (m : gmap loc acc) l e (k : primitives_ptrs) :
  key_at e = Some k -> (forall x, x <> l -> key_at (at_loc m x) <> Some k) ->
  (forall x y j, key_at (at_loc m x) = Some j -> key_at (at_loc m y) = Some j -> x = y) ->
  forall x y j, key_at (at_loc (<[l := e]> m) x) = Some j -> key_at (at_loc (<[l := e]> m) y) = Some j -> x = y.
Proof.
  intros He Hno Hd x y j. destruct (decide (l = x)) as [<- |], (decide (l = y)) as [<- |]; rewrite ?at_insert, ?at_insert_ne by done; [done | | | by apply Hd].
  - rewrite He. intros [= <-] Hy. by destruct (Hno y).
  - intros Hx. rewrite He. intros [= <-]. by destruct (Hno x).
Qed.

Lemma busy_update (m : gmap loc acc) l e :
  idle e = false -> (forall x e, m !! x = Some e -> key_at e <> None -> idle e = false) ->
  forall x y, <[l := e]> m !! x = Some y -> key_at y <> None -> idle y = false.
Proof. intros He Hm x y. rewrite lookup_insert_Some. intros [[_ <-] | [_ Hx]]; [done | by apply (Hm x)]. Qed.

(** C13. Keys are kept apart by counting.  In a well-formed table in which every element
    that has a key has bytes or packets ([busy]) and no key has two elements
    ([distinct]), counting a packet as the plugin makes it ([full]: with every
    structure, of its size), that is not empty and for which no
    packet counter has to wrap, keeps both, and no element is taken over by another
    key.  Both hold of an empty table, so they last as long as packets are
    counted; a client that resets the counters of an element ends the first,
    and another key may then take the element. *)
Theorem insert_keeps_keys_apart s p s' :
  sizes_ok cfg -> imt_ok cfg s -> full cfg p -> busy s -> distinct s -> countable s p ->
  insert_accounting_structure cfg p s = Ok s' ->
  busy s' /\ distinct s' /\
  forall l, key_at (at_loc (mem s) l) <> None -> key_at (at_loc (mem s') l) = key_at (at_loc (mem s) l).
Proof.
  intros Hs Hok Hp Hb Hd [Hn Hroom] E. destruct (insert_table_ok cfg s p Hs Hok Hp) as (s1 & E1 & _ & Hi & _).
  rewrite E in E1. injection E1 as <-.
  assert (Hsome : forall l, key_at (at_loc (mem s) l) <> None -> mem s !! l = Some (at_loc (mem s) l)).
  { intros l. unfold at_loc. by destruct (mem s !! l). }
  unfold distinct, busy in *. destruct Hi as [l Hc Hm | l Hidle Hk Hno Hm | l last Hl Hne Hno Hm | Hm _]; [| | | by rewrite Hm]; rewrite Hm.
  - pose proof (account_match_counts cfg (cycle_stamp s) (data p) (at_loc (mem s) l) p Hc) as (_ & Hk' & _). pose proof Hc as (_ & Hk & _).
    pose proof (Hsome l ltac:(by rewrite Hk)) as Hl. destruct (Hroom l _ Hl) as [Hr1 Hr2].
    split; [apply busy_update; [| done] |].
    + apply not_idle. rewrite (ad_match _ _ (adds_packets)). unfold u64, wrap. rewrite Z.mod_small; [| destruct (reset_flag _); lia].
      destruct (reset_flag _); lia.
    + split; [apply (keys_update _ _ _ (key_of p)); [done | | done] |].
      * intros x Hx Hkx. by apply Hx, (Hd _ _ _ Hkx Hk).
      * intros x Hx. destruct (decide (l = x)) as [<- |]; [by rewrite at_insert, Hk, Hk' | by rewrite at_insert_ne].
  - pose proof (account_reuse_counts cfg p (at_loc (mem s) l) Hp) as (_ & Hk' & _).
    assert (Hnone : key_at (at_loc (mem s) l) = None).
    { destruct (key_at (at_loc (mem s) l)) as [k |] eqn:Ek; [| done]. pose proof (Hsome l ltac:(by rewrite Ek)) as Hl.
      rewrite (Hb l _ Hl) in Hidle; [done | by rewrite Ek]. }
    split; [apply busy_update; [| done] |].
    + apply not_idle. rewrite (ad_reuse _ _ adds_packets), (ad_idle _ _ adds_packets) by done. unfold u64, wrap. rewrite Z.mod_small; lia.
    + split; [apply (keys_update _ _ _ (key_of p)); [done | | done] |].
      * intros x _. by apply Hno.
      * intros x Hx. rewrite at_insert_ne; [done |]. intros <-. by rewrite Hnone in Hx.
  - pose proof (account_new_counts cfg p acc0 Hp) as (_ & Hk' & _). set (m1 := <[last := _]> (mem s)).
    assert (Hsame : forall x, key_at (at_loc m1 x) = key_at (at_loc (mem s) x)).
    { intros x. unfold m1. destruct (decide (last = x)) as [<- |]; [by rewrite at_insert | by rewrite at_insert_ne]. }
    split; [apply busy_update; [| intros x e] |].
    + apply not_idle. rewrite (ad_new _ _ adds_packets). unfold u64, wrap. rewrite Z.mod_small; lia.
    + unfold m1. rewrite lookup_insert_Some. intros [[<- <-] | [_ Hx]] Hkx; [| by apply (Hb x)].
      exact (Hb last (at_loc (mem s) last) (Hsome last Hkx) Hkx).
    + split; [apply (keys_update _ _ _ (key_of p)); [done | |] |].
      * intros x _. rewrite Hsame. apply Hno.
      * intros x y j. rewrite !Hsame. apply Hd.
      * intros x Hx. rewrite at_insert_ne; [apply Hsame |]. intros <-. unfold at_loc in Hx. by rewrite Hl in Hx.
Qed.


(** ** Looking a key up *)

Lemma search_loop_cases s base chains i r hash p fuel pre l post :
  table_ok cfg s base chains -> chains !! i = Some r -> chain_head base i :: r = pre ++ l :: post ->
  (forall x, x ∈ pre -> matches hash p (at_loc (mem s) x) = false) -> (S (length post) < fuel)%nat ->
  (exists x, matches hash p (at_loc (mem s) x) = true /\ search_loop fuel hash p (Some l) s = Ok (Some x)) \/
  ((forall x, x ∈ chain_head base i :: r -> matches hash p (at_loc (mem s) x) = false) /\ search_loop fuel hash p (Some l) s = Ok None).
Proof.
  intros T Hi. revert pre l fuel. induction post as [|n post IH]; intros pre l fuel Hc Hpre Hf;
    (destruct fuel as [|fuel]; [lia |]);
    assert (Hin : l ∈ chain_head base i :: r) by (rewrite Hc; apply elem_of_app; right; left);
    pose proof (tk_valid _ _ _ _ T i r l Hi Hin) as Hv; cbn [search_loop]; rewrite (read_ok _ _ Hv), bind_Ok;
    (destruct (matches hash p (at_loc (mem s) l)) eqn:Em; [left; by exists l |]);
    pose proof (linked_next _ _ _ _ _ _ (tk_linked _ _ _ _ T i r Hi) Hc) as Hn; rewrite Hn.
  - right. split; [| by destruct fuel; [simpl in Hf; lia |]]. intros x. rewrite Hc, elem_of_app, list_elem_of_singleton.
    intros [Hx | ->]; [by apply Hpre | done].
  - apply (IH (pre ++ [l])); [by rewrite <- app_assoc | | simpl in Hf; lia].
    intros x. rewrite elem_of_app, list_elem_of_singleton. intros [Hx | ->]; [by apply Hpre | done].
Qed.

(** When no key has two elements, the total of a key is what its element
    has. *)
Lemma total_distinct f s l k : distinct s -> key_at (at_loc (mem s) l) = Some k ->
  total f k s = if reset_flag (at_loc (mem s) l) then 0 else f (at_loc (mem s) l).
Proof.
  intros Hd Hk. unfold total. rewrite (msum_remove _ (mem s) l), at_key_weight, msum_zero.
  - unfold weight. rewrite decide_True by done. lia.
  - intros x e [Hne Hx]%lookup_delete_Some. apply weight_key. intros He. apply Hne. symmetry. apply (Hd x l k); [| done].
    unfold at_loc. by rewrite Hx.
Qed.

Lemma total_none f s k : (forall x, key_at (at_loc (mem s) x) <> Some k) -> total f k s = 0.
Proof. intros H. unfold total. apply msum_zero. intros x e Hx. apply weight_key. specialize (H x). unfold at_loc in H. by rewrite Hx in H. Qed.

End Count.
End ImtCountFacts.
