(* ===== verification/ImtServerFacts.v ===== *)
(** * The memory plugin: starting, clearing and answering

    The table is well formed when the plugin has started and after it was
    cleared; a walk over the table visits each element once; what a client is
    told is what the table holds. *)

From S2P Require Import Prelude.
From S2P Require Import CfgData.
From S2P Require Import Imt.
From S2P Require Import ImtServer.
From S2P Require Import ImtFacts.
From S2P Require Import ImtPoolFacts.
From S2P Require Import ImtInsertFacts.
From S2P Require Import ImtCountFacts.

Module ImtServerFacts.
Import CfgData(LARGEBUFLEN).
Import Imt.
Import ImtServer.
Import ImtFacts.
Import ImtPoolFacts.
Import ImtInsertFacts.
Import ImtCountFacts.

Section Server.
Context {ho : imt_host} {so : server_host}.
Variable cfg : imt_config.

(** ** An empty table *)

Lemma table_size_ok : sizes_ok cfg -> table_size cfg = buckets cfg * sizeof_acc.
Proof.
  intros Hs. pose proof (so_acc _ Hs). pose proof (so_buckets _ Hs). pose proof (so_table _ Hs).
  unfold table_size, u64, s32, wrap. rewrite (Z.mod_small (buckets cfg * sizeof_acc)) by nia. rewrite Z.mod_small by nia. lia.
Qed.

Lemma chain_head_inj b i j : 0 < sizeof_acc -> chain_head (b, 0) i = chain_head (b, 0) j -> i = j.
Proof. intros Ha [= E]. nia. Qed.

(** Zeroed memory of the size of the table is a table of empty chains. *)
Lemma empty_table_ok s b :
  sizes_ok cfg -> mem s = ∅ -> table s = Some (b, 0) -> segments s !! b = Some (buckets cfg * sizeof_acc) ->
  Z.of_nat (length (lru_elem_ptr s)) = buckets cfg -> (forall i l, lru_elem_ptr s !! i = Some (Some l) -> valid s l = true) ->
  table_ok cfg s (b, 0) (replicate (Z.to_nat (buckets cfg)) []).
Proof.
  intros Hs Hm Ht Hseg Hlen Hlru. pose proof (so_acc _ Hs). pose proof (so_buckets _ Hs).
  assert (Hat : forall l, at_loc (mem s) l = acc0) by (intros l; unfold at_loc; by rewrite Hm).
  constructor; try done.
  - rewrite length_replicate. lia.
  - intros i r [-> _]%lookup_replicate. cbn [linked]. by rewrite Hat.
  - intros i r [-> _]%lookup_replicate. apply NoDup_singleton.
  - intros i j r r' l [-> _]%lookup_replicate [-> _]%lookup_replicate ->%list_elem_of_singleton Hl%list_elem_of_singleton.
    by eapply chain_head_inj.
  - intros i r l [-> Hi]%lookup_replicate ->%list_elem_of_singleton. unfold valid, chain_head, shift. cbn [fst snd]. rewrite Hseg.
    rewrite (proj2 (Z.leb_le 0 _)), (proj2 (Z.leb_le _ (buckets cfg * sizeof_acc))), Z.add_0_l, Z.mod_mul by nia. done.
  - intros l. rewrite Hm. by intros [? ?].
  - intros i r l _ _. rewrite Hat. by left.
  - intros i r l [-> _]%lookup_replicate ?%elem_of_nil. done.
  - by intros i r [-> _]%lookup_replicate.
  - rewrite length_replicate. lia.
Qed.

Lemma live_empty b n l : live (b, 0) (replicate n []) l -> fst l = b.
Proof. intros (i & r & [-> _]%lookup_replicate & ->%list_elem_of_singleton). done. Qed.

(** With the table in the first pool and the second in use, the plugin is
    ready. *)
Lemma empty_shape s b k :
  sizes_ok cfg -> mem s = ∅ -> table s = Some (b, 0) -> segments s !! b = Some (buckets cfg * sizeof_acc) ->
  Z.of_nat (length (lru_elem_ptr s)) = buckets cfg -> (forall i l, lru_elem_ptr s !! i = Some (Some l) -> valid s l = true) ->
  registered cfg s k -> based s 0 b -> current_pool s = Some 1%nat ->
  (exists b' nx, mpd s !! 1%nat = Some (mk_pool 2 (Some (b', 0)) (Some (b', 0)) (memory_pool_size cfg) (memory_pool_size cfg) nx) /\
    segments s !! b' = Some (memory_pool_size cfg)) -> imt_ok cfg s.
Proof.
  intros Hs Hm Ht Hseg Hlen Hlru R Hb Hc (b' & nx & Hd & Hseg'). pose proof (so_pool _ Hs). pose proof (so_acc _ Hs).
  assert (Hapart : forall j x, (0 < j)%nat -> based s j x -> x <> b).
  { intros j x Hj (d & Hd' & Hbd) ->. destruct Hb as (d0 & Hd0 & Hbd0). pose proof (rg_apart _ _ _ R _ _ _ _ _ Hd' Hd0 Hbd Hbd0). lia. }
  exists (b, 0), (replicate (Z.to_nat (buckets cfg)) []). split; [by apply empty_table_ok |]. split; [by exists k |].
  split; [by exists b |]. split; [intros l <-%live_empty; by exists 0%nat |]. intros _. exists 1%nat, 0.
  constructor; [done | lia | lia | lia | |].
  - exists b', nx. rewrite Z.mul_0_l, Z.sub_0_r. split; [done |]. split; [done |]. intros l Hl%live_empty Hl'. exfalso.
    apply (Hapart 1%nat b'); [lia | by eexists | congruence].
  - intros j x l Hj Hbj Hl%live_empty E. apply (Hapart j x); [lia | done | congruence].
Qed.

(** ** Starting *)

Lemma request_fresh size s c cur :
  current_pool s = Some c -> mpd s !! c = Some cur -> p_next cur = None -> request_memory_pool cfg size s = allocate_pool cfg c cur size s.
Proof. intros Hc Hd Hn. unfold request_memory_pool. rewrite Hc. cbn [deref]. by rewrite bind_Ok, (get_pool_ok _ _ _ Hd), bind_Ok, Hn. Qed.

Lemma request_first size s s' :
  0 < num_memory_pools cfg -> current_pool s = Some 0%nat -> mpd s !! 0%nat = Some pool0 -> request_or_exit cfg size s = Ok s' ->
  let b := length (segments s) in
  s' = with_current (Some 0%nat) (set_pool 0 (mk_pool 1 (Some (b, 0)) (Some (b, 0)) size size None) (with_pools (segments s ++ [size]) (mpd s) s)).
Proof.
  intros Hp Hc Hd. unfold request_or_exit. rewrite (request_fresh size s _ _ Hc Hd eq_refl). unfold allocate_pool. cbv zeta.
  change (id pool0 + 1) with (Z.of_nat 0 + 1). rewrite new_pool_desc_in by done. rewrite (proj2 (Z.ltb_ge _ _)) by lia.
  change (id pool0 =? 0) with true. cbv iota. rewrite bind_Ok. unfold map_shared. destruct (map_shared_ok _ _); [| done].
  rewrite (get_pool_ok _ 0 pool0) by done. rewrite !bind_Ok. by intros [= <-].
Qed.

Lemma request_second size s s' d :
  0 < num_memory_pools cfg -> current_pool s = Some 0%nat -> mpd s !! 0%nat = Some d -> id d = 1 -> p_next d = None ->
  mpd s !! 1%nat = Some pool0 -> request_or_exit cfg size s = Ok s' ->
  2 <= num_memory_pools cfg /\ let b := length (segments s) in
  let d0 := mk_pool 1 (base_ptr d) (ptr d) (space_left d) (len d) (Some 1%nat) in
  s' = with_current (Some 1%nat) (with_pools (segments s ++ [size])
         (<[1%nat := mk_pool 2 (Some (b, 0)) (Some (b, 0)) size size None]> (<[0%nat := d0]> (mpd s))) s).
Proof.
  intros Hp Hc Hd Hid Hn H1. unfold request_or_exit. rewrite (request_fresh size s _ _ Hc Hd Hn). unfold allocate_pool. cbv zeta.
  rewrite Hid. change (1 + 1) with (Z.of_nat 1 + 1). rewrite new_pool_desc_in by done.
  destruct (Z.ltb_spec (num_memory_pools cfg) (Z.of_nat 1 + 1)); [done |]. change (1 =? 0) with false. cbv iota.
  unfold set_next. rewrite (get_pool_ok _ _ _ Hd), !bind_Ok. unfold map_shared. destruct (map_shared_ok _ _); [| done].
  rewrite (get_pool_ok _ 1 pool0). 2: { cbn. by rewrite list_lookup_insert_ne. }
  rewrite !bind_Ok, Hid. intros [= <-]. split; [lia | done].
Qed.

(** Two registered descriptors, for the table and for elements. *)
Lemma registered_two s b b' n :
  2 <= num_memory_pools cfg -> b <> b' -> segments s !! b = Some (buckets cfg * sizeof_acc) -> segments s !! b' = Some (memory_pool_size cfg) ->
  mpd s = <[1%nat := mk_pool 2 (Some (b', 0)) (Some (b', 0)) (memory_pool_size cfg) (memory_pool_size cfg) None]>
    (<[0%nat := mk_pool 1 (Some (b, 0)) (Some (b, 0)) (buckets cfg * sizeof_acc) (buckets cfg * sizeof_acc) (Some 1%nat)]> (replicate n pool0)) ->
  n = Z.to_nat (num_memory_pools cfg + 1) -> registered cfg s 2.
Proof.
  intros Hn Hb Hs Hs' Hm En.
  assert (Hlook : forall j d, mpd s !! j = Some d ->
            (j = 0%nat /\ base_ptr d = Some (b, 0)) \/ (j = 1%nat /\ base_ptr d = Some (b', 0)) \/ d = pool0).
  { intros j d. rewrite Hm, !list_lookup_insert_Some, lookup_replicate.
    intros [(-> & <- & _) | (_ & [(-> & <- & _) | (_ & -> & _)])]; auto. }
  constructor.
  - lia.
  - by rewrite Hm, !length_insert, length_replicate.
  - intros [|[|j]] Hj; [| | lia]; rewrite Hm.
    + rewrite list_lookup_insert_ne, list_lookup_insert_eq by (rewrite ?length_insert, ?length_replicate; lia). eexists. split; [done |]. split; [done |].
      left. by exists b.
    + rewrite list_lookup_insert_eq by (rewrite length_insert, length_replicate; lia). eexists. split; [done |]. split; [done |].
      left. by exists b'.
  - intros j Hj Hl. rewrite Hm, !list_lookup_insert_ne by lia. apply lookup_replicate. split; [done |].
    by rewrite Hm, !length_insert, length_replicate in Hl.
  - intros i j d d' x Hi Hj Hx Hx'. destruct (Hlook _ _ Hi) as [[-> E] | [[-> E] | ->]], (Hlook _ _ Hj) as [[-> E'] | [[-> E'] | ->]]; try done; congruence.
  - eexists _, _. rewrite Hm, list_lookup_insert_eq by (rewrite length_insert, length_replicate; lia). done.
Qed.

Lemma imt_start_ok s s' : sizes_ok cfg -> mem s = ∅ -> imt_start cfg s = Ok s' -> imt_ok cfg s' /\ mem s' = ∅ /\ no_more_space s' = false.
Proof.
  intros Hs Hm. pose proof (so_pools _ Hs) as Hp. pose proof (so_buckets _ Hs). unfold imt_start. cbv zeta. set (s0 := init_memory_pool_table _ _).
  assert (EP : mpd s0 = replicate (Z.to_nat (num_memory_pools cfg + 1)) pool0).
  { unfold s0, init_memory_pool_table. cbn. by rewrite (proj2 (Z.eqb_neq _ 0)) by lia. }
  assert (H0 : forall j, (j < Z.to_nat (num_memory_pools cfg + 1))%nat -> mpd s0 !! j = Some pool0) by (intros j Hj; by rewrite EP; apply lookup_replicate).
  rewrite table_size_ok by done. intros (s1 & E1 & E)%bind_Ok_inv.
  apply (request_first _ s0) in E1; [| done | done | apply H0; lia]. cbv zeta in E1. set (b := length (segments s0)) in *.
  set (d := mk_pool 1 _ _ _ _ _) in E1.
  assert (Hd : mpd s1 !! 0%nat = Some d) by (rewrite E1; apply list_lookup_insert_eq; cbn [mpd with_pools]; rewrite EP, length_replicate; lia).
  unfold current_base in E. rewrite E1 in E at 1. cbn [current_pool with_current deref] in E. rewrite bind_Ok, (get_pool_ok _ _ _ Hd), !bind_Ok in E.
  apply bind_Ok_inv in E as (s2 & E2 & [= <-]).
  apply (request_second _ _ _ d) in E2 as [Hnum E2]; try done; [| by rewrite E1 |].
  2: { rewrite E1. cbn. rewrite list_lookup_insert_ne by done. apply H0. lia. }
  cbv zeta in E2. set (b2 := length _) in E2.
  assert (Hseg : segments s2 = segments s0 ++ [buckets cfg * sizeof_acc; memory_pool_size cfg]) by (rewrite E2, E1; cbn; by rewrite <- app_assoc).
  assert (Eb2 : b2 = S b) by (unfold b2; rewrite E1; cbn; rewrite length_app; simpl; unfold b; lia).
  assert (Hs1 : segments s2 !! b = Some (buckets cfg * sizeof_acc)) by (rewrite Hseg, lookup_app_r, Nat.sub_diag; done).
  assert (Hs2 : segments s2 !! b2 = Some (memory_pool_size cfg)) by (rewrite Hseg, Eb2, lookup_app_r by (unfold b; lia); by replace (S b - length (segments s0))%nat with 1%nat by (unfold b; lia)).
  assert (Hmpd : mpd s2 = <[1%nat := mk_pool 2 (Some (b2, 0)) (Some (b2, 0)) (memory_pool_size cfg) (memory_pool_size cfg) None]>
    (<[0%nat := mk_pool 1 (Some (b, 0)) (Some (b, 0)) (buckets cfg * sizeof_acc) (buckets cfg * sizeof_acc) (Some 1%nat)]>
       (replicate (Z.to_nat (num_memory_pools cfg + 1)) pool0))).
  { rewrite E2, E1. cbn [mpd with_current with_pools with_lru with_table set_pool]. rewrite EP. by rewrite list_insert_insert_eq. }
  assert (Hm2 : mem s2 = ∅) by (rewrite E2, E1; exact Hm). split; [| split; [exact Hm2 | rewrite E2, E1; done]].
  assert (Hlt : (1 < Z.to_nat (num_memory_pools cfg + 1))%nat) by lia.
  apply (empty_shape _ b 2); try done.
  - rewrite E2, E1. done.
  - rewrite E2, E1. cbn. rewrite length_replicate. lia.
  - intros i l. rewrite E2, E1. cbn. by intros [? _]%lookup_replicate.
  - apply (registered_same cfg s2); [done | done |]. by apply (registered_two s2 b b2 (Z.to_nat (num_memory_pools cfg + 1))); [| lia | | | |].
  - exists (mk_pool 1 (Some (b, 0)) (Some (b, 0)) (buckets cfg * sizeof_acc) (buckets cfg * sizeof_acc) (Some 1%nat)). split; [| done].
    change (mpd s2 !! 0%nat = Some (mk_pool 1 (Some (b, 0)) (Some (b, 0)) (buckets cfg * sizeof_acc) (buckets cfg * sizeof_acc) (Some 1%nat))).
    rewrite Hmpd, list_lookup_insert_ne, list_lookup_insert_eq by (rewrite ?length_replicate; lia). done.
  - rewrite E2. done.
  - exists b2, None. split; [| done]. change (mpd s2 !! 1%nat = Some (mk_pool 2 (Some (b2, 0)) (Some (b2, 0)) (memory_pool_size cfg) (memory_pool_size cfg) None)).
    rewrite Hmpd, list_lookup_insert_eq by (rewrite length_insert, length_replicate; lia). done.
Qed.

(** C11. From the start of the plugin on, packets are inserted without a fault,
    and as long as there was room for them, every key has the bytes and the
    packets of all the packets of the key, and of no others. *)
Theorem imt_counts_every_packet s0 s ps :
  sizes_ok cfg -> mem s0 = ∅ -> imt_start cfg s0 = Ok s -> Forall (full cfg) ps ->
  exists s', insert_all cfg ps s = Ok s' /\ imt_ok cfg s' /\
    (no_more_space s' = false ->
     forall k, u64 (total bytes_counter k s') = u64 (amounts pkt_len k ps) /\ u64 (total packet_counter k s') = u64 (amounts pkt_num k ps)).
Proof.
  intros Hs Hm E Hps. destruct (imt_start_ok s0 s Hs Hm E) as (Hok & Hm' & _).
  destruct (insert_all_ok cfg ps s Hs Hok Hps) as (s' & E' & Hok' & Hsum). exists s'. split; [done |]. split; [done |].
  intros Hn k. destruct (Hsum Hn) as [_ Hf].
  assert (H0 : forall f, total f k s = 0) by (intros f; unfold total; by rewrite Hm', msum_empty).
  rewrite (Hf _ _ k (adds_bytes cfg)), (Hf _ _ k (adds_packets cfg)), !H0. done.
Qed.


(** ** Walking over the table *)

(** The elements of the buckets from the [i]th on. *)
Fixpoint cells (base : loc) (i : nat) (chains : list (list loc)) : list loc :=
  match chains with
  | [] => []
  | r :: cs => (chain_head base i :: r) ++ cells base (S i) cs
  end.

Lemma elem_of_cells base i chains l :
  l ∈ cells base i chains <-> exists j r, chains !! j = Some r /\ l ∈ chain_head base (i + j) :: r.
Proof.
  revert i. induction chains as [|r cs IH]; intros i; cbn [cells].
  - rewrite elem_of_nil. split; [done |]. by intros (j & r & Hj & _).
  - rewrite elem_of_app, IH. split.
    + intros [H | (j & r' & Hj & H)]; [exists 0%nat, r; by rewrite Nat.add_0_r | exists (S j), r'; by rewrite <- plus_n_Sm].
    + intros ([|j] & r' & Hj & H); [left; rewrite Nat.add_0_r in H; by injection Hj as -> | right; exists j, r'; by rewrite <- plus_n_Sm in H].
Qed.

Lemma cells_nodup base i chains :
  (forall j r, chains !! j = Some r -> NoDup (chain_head base (i + j) :: r)) ->
  (forall j k r r' l, chains !! j = Some r -> chains !! k = Some r' ->
     l ∈ chain_head base (i + j) :: r -> l ∈ chain_head base (i + k) :: r' -> j = k) -> NoDup (cells base i chains).
Proof.
  revert i. induction chains as [|r cs IH]; intros i Hn Ha; cbn [cells]; [constructor |]. apply NoDup_app. split; [| split].
  - specialize (Hn 0%nat r eq_refl). by rewrite Nat.add_0_r in Hn.
  - intros l Hl (j & r' & Hj & Hl')%elem_of_cells. specialize (Ha 0%nat (S j) r r' l eq_refl Hj). rewrite Nat.add_0_r, <- plus_n_Sm in Ha.
    by specialize (Ha Hl Hl').
  - apply IH.
    + intros j r' Hj. specialize (Hn (S j) r' Hj). by rewrite <- plus_n_Sm in Hn.
    + intros j k r1 r2 l Hj Hk H1 H2. specialize (Ha (S j) (S k) r1 r2 l Hj Hk). rewrite <- !plus_n_Sm in Ha. by injection (Ha H1 H2).
Qed.

Lemma tails_sublist base i chains : concat chains `sublist_of` cells base i chains.
Proof. revert i. induction chains as [|r cs IH]; intros i; [constructor |]. simpl. constructor. by apply sublist_app. Qed.

Lemma cells_length base i chains : length (cells base i chains) = (length chains + length (concat chains))%nat.
Proof. revert i. induction chains as [|r cs IH]; intros i; [done |]. simpl. rewrite !length_app, IH. lia. Qed.

Lemma table_cells s base chains : u32 (buckets cfg) = buckets cfg -> table_ok cfg s base chains ->
  NoDup (cells base 0 chains) /\ (length (cells base 0 chains) < walk_fuel cfg s)%nat /\ forall l, is_Some (mem s !! l) -> l ∈ cells base 0 chains.
Proof.
  intros Hb T. assert (Hnd : NoDup (cells base 0 chains)).
  { apply cells_nodup; [intros j r; apply (tk_nodup _ _ _ _ T) | intros j k r r' l; apply (tk_apart _ _ _ _ T)]. }
  split; [done |]. split.
  - rewrite cells_length. pose proof (sublist_NoDup _ _ Hnd (tails_sublist base 0 chains)) as Hc.
    assert (length (concat chains) <= size (mem s))%nat.
    { rewrite <- size_dom, <- (size_list_to_set (C:=gset loc) _ Hc). apply subseteq_size.
      intros l Hl%elem_of_list_to_set%list_elem_of_In%in_concat. destruct Hl as (r & Hr & Hl).
      apply list_elem_of_In in Hr, Hl. apply list_elem_of_lookup in Hr as [i Hi]. apply elem_of_dom. by apply (tk_tail _ _ _ _ T i r l Hi Hl). }
    pose proof (tk_len _ _ _ _ T) as Hlen. unfold walk_fuel.
    rewrite Hb. lia.
  - intros l Hl. destruct (tk_live _ _ _ _ T l Hl) as (i & r & Hi & Hl'). apply elem_of_cells. by exists i, r.
Qed.

(** The same walk, element by element. *)
Fixpoint visit {A} (body : loc -> acc -> A -> imt -> res (A * imt)) (ls : list loc) (x : A) (s : imt) : res (A * imt) :=
  match ls with
  | [] => Ok (x, s)
  | l :: ls => e ← read s l; '(x, s) ← body l e x s; visit body ls x s
  end.

(** What is done to an element moves none. *)
Definition keeps {A} (body : loc -> acc -> A -> imt -> res (A * imt)) : Prop :=
  forall l x s x' s', body l (at_loc (mem s) l) x s = Ok (x', s') ->
    segments s' = segments s /\ forall y, next (at_loc (mem s') y) = next (at_loc (mem s) y).

Lemma chain_head_S base i : shift (chain_head base i) sizeof_acc = chain_head base (S i).
Proof. unfold chain_head, shift. cbn [fst snd]. f_equal. rewrite Nat2Z.inj_succ; ring. Qed.

Definition walkable (s : imt) (base : loc) (i : nat) (cs : list (list loc)) : Prop :=
  forall j r, cs !! j = Some r -> linked (mem s) (chain_head base (i + j)) r /\ forall y, y ∈ chain_head base (i + j) :: r -> valid s y = true.

Lemma walk_visit {A} (body : loc -> acc -> A -> imt -> res (A * imt)) base fuel i l r cs fol x s :
  keeps body -> l = match fol with Some l' => l' | None => chain_head base i end ->
  linked (mem s) l r -> (forall y, y ∈ l :: r -> valid s y = true) -> walkable s base (S i) cs ->
  Z.of_nat (S i + length cs) = u32 (buckets cfg) -> (length ((l :: r) ++ cells base (S i) cs) < fuel)%nat ->
  table_walk cfg fuel body (Z.of_nat i) (chain_head base i) fol x s = visit body ((l :: r) ++ cells base (S i) cs) x s.
Proof.
  intros Hk. revert i l r cs fol x s. induction fuel as [|fuel IH]; intros i l r cs fol x s El Hl Hv Hcs Hlen Hf; [lia |].
  cbn [table_walk app visit]. rewrite (proj2 (Z.leb_gt (u32 (buckets cfg)) (Z.of_nat i))) by lia. rewrite <- El, (read_ok _ _ (Hv l ltac:(left))), !bind_Ok.
  destruct (body l (at_loc (mem s) l) x s) as [[x' s'] |] eqn:Eb; [| done]. rewrite !bind_Ok. cbv beta.
  destruct (Hk _ _ _ _ _ Eb) as [Hseg Hnext].
  assert (Hv' : forall y, valid s y = true -> valid s' y = true) by (intros y Hy; by rewrite (valid_same s)).
  rewrite (read_ok _ _ (Hv' _ (Hv l ltac:(left)))), bind_Ok, Hnext.
  assert (Hcs' : walkable s' base (S i) cs).
  { intros j r' Hj. destruct (Hcs j r' Hj) as [H1 H2]. split; [by apply (linked_same (mem s)) | intros y Hy; by apply Hv', H2]. }
  destruct r as [|n r]; cbn [linked] in Hl.
  - rewrite Hl, chain_head_S. cbn [app] in *. replace (Z.of_nat i + 1) with (Z.of_nat (S i)) by lia. destruct cs as [|r cs]; cbn [cells].
    + destruct fuel; [simpl in Hf; lia |]. cbn [table_walk]. simpl in Hlen. by rewrite (proj2 (Z.leb_le (u32 (buckets cfg)) (Z.of_nat (S i)))) by lia.
    + destruct (Hcs' 0%nat r eq_refl) as [H1 H2]. rewrite Nat.add_0_r in H1, H2.
      apply IH; [done | done | done | | simpl in *; lia | simpl in *; lia].
      intros j r' Hj. specialize (Hcs' (S j) r' Hj). by rewrite <- plus_n_Sm in Hcs'.
  - destruct Hl as [-> Hl]. apply IH; [done | | | done | done | simpl in *; lia].
    + apply (linked_same (mem s)); [intros y _; apply Hnext | done].
    + intros y Hy. apply Hv', Hv. by right.
Qed.

(** The walk over a well-formed table visits each element once. *)
Lemma walk_table_visit {A} (body : loc -> acc -> A -> imt -> res (A * imt)) s base chains x :
  sizes_ok cfg -> table_ok cfg s base chains -> keeps body -> walk_table cfg body x s = visit body (cells base 0 chains) x s.
Proof.
  intros Hs T Hk. pose proof (so_buckets _ Hs). assert (Hb : u32 (buckets cfg) = buckets cfg) by (apply u32_small; unfold in_u; lia).
  destruct (table_cells s base chains Hb T) as (_ & Hf & _). pose proof (tk_len _ _ _ _ T) as Hl.
  unfold walk_table. rewrite (tk_table _ _ _ _ T). cbn [deref]. rewrite bind_Ok. destruct chains as [|r cs]; [simpl in Hl; lia |].
  replace base with (chain_head base 0) at 1 by (unfold chain_head, shift; destruct base as [a b]; cbn [fst snd]; f_equal; lia).
  apply (walk_visit body base (walk_fuel cfg s) 0 (chain_head base 0) r cs None x s); try done.
  - by apply (tk_linked _ _ _ _ T 0%nat r).
  - intros y. by apply (tk_valid _ _ _ _ T 0%nat r).
  - intros j r' Hj. split; [by apply (tk_linked _ _ _ _ T (S j) r') | intros y; by apply (tk_valid _ _ _ _ T (S j) r')].
  - simpl in *. lia.
Qed.

(** ** Clearing *)

(** The buffers of every element are freed; nothing else changes. *)
Lemma free_extra_allocs_ok s base chains :
  sizes_ok cfg -> table_ok cfg s base chains ->
  exists m, free_extra_allocs cfg s = Ok (with_mem m s) /\ forall l, is_Some (m !! l) -> l ∈ cells base 0 chains.
Proof.
  intros Hs T. pose proof (so_buckets _ Hs). assert (Hb : u32 (buckets cfg) = buckets cfg) by (apply u32_small; unfold in_u; lia).
  destruct (table_cells s base chains Hb T) as (_ & _ & Hdom).
  unfold free_extra_allocs. rewrite (walk_table_visit _ s base chains tt Hs T).
  - assert (Hv : forall l, l ∈ cells base 0 chains -> valid s l = true).
    { intros l (i & r & Hi & Hl)%elem_of_cells. by apply (tk_valid _ _ _ _ T i r l). }
    enough (Hgen : forall ls m, (forall l, l ∈ ls -> l ∈ cells base 0 chains) -> (forall l, is_Some (m !! l) -> l ∈ cells base 0 chains) ->
      exists m', visit (fun l e (_ : unit) s => s ← write l (without_extras e) s; Ok (tt, s)) ls tt (with_mem m s) = Ok (tt, with_mem m' s) /\
        forall l, is_Some (m' !! l) -> l ∈ cells base 0 chains).
    { destruct (Hgen (cells base 0 chains) (mem s)) as (m' & E & Hm'); [done | done |]. rewrite with_mem_same in E. exists m'. by rewrite E, bind_Ok. }
    induction ls as [|l ls IH]; intros m Hls Hm; cbn [visit]; [by exists m |].
    assert (Hvl : valid (with_mem m s) l = true) by (apply Hv, Hls; left).
    rewrite (read_ok _ _ Hvl), bind_Ok, (write_ok _ _ _ Hvl), !bind_Ok. apply IH; [intros y Hy; apply Hls; by right |].
    intros y. cbn [mem with_mem]. rewrite lookup_insert_is_Some. intros [-> | [_ Hy]]; [apply Hls; left | by apply Hm].
  - intros l [] s1 [] s2 E. unfold write in E. destruct (valid s1 l); [| done]. rewrite bind_Ok in E. injection E as <-. split; [done |].
    intros y. cbn [mem with_mem]. destruct (decide (l = y)) as [<- |]; [by rewrite at_insert | by rewrite at_insert_ne].
Qed.

(** Zeroing the memory of a descriptor. *)
Lemma zero_pool s b n : segments s !! b = Some n -> 0 <= n ->
  zero (Some (b, 0)) n s = Ok (with_mem (filter (fun '(l, _) => fst l <> b \/ snd l < 0 \/ 0 + n <= snd l) (mem s)) s) \/
  (n = 0 /\ zero (Some (b, 0)) n s = Ok s).
Proof.
  intros Hb Hn. unfold zero. destruct (decide (n = 0)) as [->|]; [by right | left]. rewrite (proj2 (Z.eqb_neq n 0)) by done.
  cbn [deref]. rewrite bind_Ok. cbn [fst snd]. rewrite Hb. cbn [deref].
  by rewrite bind_Ok, (proj2 (Z.leb_le 0 0)), (proj2 (Z.leb_le 0 n)), (proj2 (Z.leb_le (0 + n) n)) by lia.
Qed.

(** What is left to zero from the [i]th descriptor on. *)
Definition left_from (s : imt) (i : nat) : Prop :=
  forall l, is_Some (mem s !! l) -> valid s l = true /\ exists j, (i <= j)%nat /\ based s j (fst l).

Lemma based_in s k j b : registered cfg s k -> based s j b -> (j < k)%nat.
Proof.
  intros R (d & Hd & Hb). destruct (decide (j < k)%nat) as [| Hge]; [done |].
  pose proof (lookup_lt_Some _ _ _ Hd). rewrite (rg_rest _ _ _ R) in Hd by lia. by injection Hd as <-.
Qed.

(** One descriptor is zeroed. *)
Lemma zero_step s k i d :
  sizes_ok cfg -> registered cfg s k -> (i < k)%nat -> mpd s !! i = Some d -> left_from s i ->
  exists m, zero (base_ptr d) (len d) s = Ok (with_mem m s) /\ left_from (with_mem m s) (S i).
Proof.
  intros Hs R Hi Hd Hleft. pose proof (so_acc _ Hs). pose proof (so_buckets _ Hs). pose proof (so_pool _ Hs).
  destruct (rg_desc _ _ _ R i Hi) as (e & He & _ & Hb). rewrite Hd in He. injection He as <-.
  assert (Hnext : forall m, (forall l, is_Some (m !! l) -> is_Some (mem s !! l) /\ ~ based s i (fst l)) -> left_from (with_mem m s) (S i)).
  { intros m Hm l Hl. destruct (Hm l Hl) as [Hl' Hno]. destruct (Hleft l Hl') as (Hv & j & Hj & Hbj). split; [done |].
    exists j. split; [| done]. destruct (decide (j = i)) as [-> |]; [done | lia]. }
  destruct Hb as [(n & Eb & El & Hseg) | (_ & Eb & El)].
  - rewrite Eb, El. assert (Hn : 0 < pool_len cfg i) by (destruct i; cbn [pool_len]; [nia | lia]).
    destruct (zero_pool s n (pool_len cfg i) Hseg ltac:(lia)) as [-> | [? _]]; [| lia].
    eexists. split; [done |]. apply Hnext. intros l [e [Hl Hout]%map_lookup_filter_Some]. split; [by eexists |].
    intros (d' & Hd' & Hb'). rewrite Hd in Hd'. injection Hd' as <-. rewrite Eb in Hb'. injection Hb' as ->.
    destruct (Hleft l ltac:(by eexists)) as (Hv & _). destruct (valid_segment _ _ Hv) as (size & Hsz & Hz1 & Hz2). rewrite Hseg in Hsz. injection Hsz as <-. lia.
  - rewrite Eb, El. exists (mem s). rewrite with_mem_same. split; [done |]. rewrite <- (with_mem_same s) at 1. apply Hnext. intros l Hl. split; [done |].
    intros (d' & Hd' & Hb'). rewrite Hd in Hd'. injection Hd' as <-. congruence.
Qed.

(** All of them are, and the descriptors but the last are free again. *)
Lemma clear_pools_ok s k fuel i :
  sizes_ok cfg -> registered cfg s k -> (i < k)%nat -> (k - i <= fuel)%nat -> left_from s i ->
  exists s', clear_pools fuel i s = Ok s' /\ mem s' = ∅ /\ registered cfg s' k /\ frame s s' /\ segments s' = segments s /\
    (forall j b, based s j b -> based s' j b) /\
    forall j d, mpd s !! j = Some d -> (j < i)%nat \/ (S j < k)%nat -> exists d', mpd s' !! j = Some d' /\
      base_ptr d' = base_ptr d /\ len d' = len d /\ p_next d' = p_next d /\ id d' = if decide (i <= j)%nat then 0 else id d.
Proof.
  intros Hs. revert s i. induction fuel as [|fuel IH]; intros s i R Hi Hf Hleft; [lia |]. cbn [clear_pools].
  destruct (rg_desc _ _ _ R i Hi) as (d & Hd & Hn & _). rewrite (get_pool_ok _ _ _ Hd), bind_Ok.
  destruct (zero_step s k i d Hs R Hi Hd Hleft) as (m & -> & Hleft'). rewrite bind_Ok, Hn.
  set (s1 := with_mem m s). assert (R1 : registered cfg s1 k) by (by apply (registered_same cfg s)).
  destruct (decide (S i < k)%nat) as [Hnext | Hlast].
  - set (d' := mk_pool 0 _ _ _ _ _). set (s2 := set_pool i d' s1). assert (Hd1 : mpd s1 !! i = Some d) by done.
    assert (R2 : registered cfg s2 k) by (by apply (registered_update cfg s1 k i d d')).
    assert (Hg : grows s1 s2) by (by apply (grows_update s1 i d d')).
    destruct (IH s2 (S i) R2 Hnext ltac:(lia)) as (s' & E & Hm & R' & F & Hseg & Hb & Hid).
    { intros l Hl. destruct (Hleft' l Hl) as (Hv & j & Hj & Hbj). split; [done |]. exists j. split; [done |]. by apply Hg. }
    exists s'. split; [done |]. split; [done |]. split; [done |]. split; [done |]. split; [done |].
    split; [intros j b Hj; by apply Hb, Hg |]. intros j e He Hj. destruct (decide (j = i)) as [-> | Hne].
    + rewrite Hd in He. injection He as <-. destruct (Hid i d') as (d2 & H1 & H2 & H3 & H4 & H5).
      { unfold s2. by rewrite (set_pool_lookup _ _ _ _ _ Hd1), decide_True. }
      { left. lia. }
      exists d2. rewrite decide_False in H5 by lia. rewrite decide_True by done. cbn in H2, H3, H4, H5. by rewrite H2, H3, H4, H5.
    + destruct (Hid j e) as (d2 & H1 & H2 & H3 & H4 & H5).
      { unfold s2. by rewrite (set_pool_lookup _ _ _ _ _ Hd1), decide_False. }
      { destruct Hj as [Hj | Hj]; [left; lia | by right]. }
      exists d2. repeat (split; [done |]). rewrite H5. case_decide; case_decide; try lia; done.
  - exists s1. split; [done |]. split.
    { apply map_eq. intros l. rewrite lookup_empty. apply eq_None_not_Some. intros Hl. destruct (Hleft' l Hl) as (_ & j & Hj & Hbj).
      apply (based_in s1 k j) in Hbj; [lia | done]. }
    split; [done |]. split; [by repeat split |]. split; [done |]. split; [done |]. intros j e He Hj. exists e. repeat (split; [done |]).
    rewrite decide_False by lia. done.
Qed.


Lemma zero_empty s b n size : mem s = ∅ -> segments s !! b = Some size -> 0 <= n <= size -> zero (Some (b, 0)) n s = Ok s.
Proof.
  intros Hm Hb Hn. unfold zero. destruct (decide (n = 0)) as [->|]; [done |]. rewrite (proj2 (Z.eqb_neq n 0)) by done.
  cbn [deref]. rewrite bind_Ok. cbn [fst snd]. rewrite Hb. cbn [deref].
  rewrite bind_Ok, (proj2 (Z.leb_le 0 0)), (proj2 (Z.leb_le 0 n)), (proj2 (Z.leb_le (0 + n) size)) by lia. cbn [andb].
  rewrite Hm, map_filter_empty, <- Hm. by rewrite with_mem_same.
Qed.

(** C16. Clearing the table always succeeds: what was mapped is used again, and
    the plugin is left with a well-formed and empty table, with room. *)
Theorem imt_clear_empties s :
  sizes_ok cfg -> imt_ok cfg s ->
  exists s', imt_clear cfg s = Ok s' /\ imt_ok cfg s' /\ mem s' = ∅ /\ no_more_space s' = false /\ segments s' = segments s /\
    table s' = table s.
Proof.
  intros Hs (base & chains & T & (k & R) & (b & -> & Hb) & Hbk & _). pose proof (so_pool _ Hs). pose proof (so_acc _ Hs).
  pose proof (so_buckets _ Hs). unfold imt_clear.
  destruct (free_extra_allocs_ok s (b, 0) chains Hs T) as (m & -> & Hm). rewrite bind_Ok. set (s1 := with_mem m s).
  assert (R1 : registered cfg s1 k) by (by apply (registered_same cfg s)). destruct (rg_k _ _ _ R1) as [Hk2 Hkn].
  unfold clear_memory_pool_table.
  destruct (clear_pools_ok s1 k (S (length (mpd s1))) 0 Hs R1) as (s2 & -> & Hm2 & R2 & F2 & Hseg2 & Hb2 & Hid2); [lia | rewrite (rg_len _ _ _ R1); lia | |].
  { intros l (i & r & Hi & Hl)%Hm%elem_of_cells. split; [by apply (tk_valid _ _ _ _ T i r l) |].
    destruct (Hbk l) as (j & Hj); [by exists i, r |]. exists j. split; [lia | done]. }
  rewrite !bind_Ok. destruct F2 as (F21 & F22 & F23 & F24 & F25).
  (* the first two descriptors *)
  destruct (rg_desc _ _ _ R1 0%nat) as (d0 & Hd0 & Hn0 & Hbk0); [lia |]. rewrite decide_True in Hn0 by lia.
  destruct (Hid2 0%nat d0 Hd0) as (d0' & Hd0' & Eb0 & El0 & En0 & Ei0); [right; lia |]. rewrite decide_True in Ei0 by lia.
  destruct Hbk0 as [(n0 & Hbase0 & Hlen0 & Hseg0) | (? & _)]; [| lia].
  assert (n0 = b) as ->. { destruct Hb as (d & Hd & Hbd). change (mpd s1 !! 0%nat) with (mpd s !! 0%nat) in Hd0. rewrite Hd0 in Hd. injection Hd as <-. congruence. }
  destruct (rg_desc _ _ _ R2 1%nat) as (d1 & Hd1 & Hn1 & Hbk1); [lia |].
  destruct Hbk1 as [(b1 & Hbase1 & Hlen1 & Hseg1) | (_ & Hno & _)].
  2: { destruct (rg_first _ _ _ R2) as (e & x & He & Hx). rewrite Hd1 in He. injection He as <-. congruence. }
  assert (Hb1 : b1 <> b).
  { intros ->. pose proof (rg_apart _ _ _ R2 _ _ _ _ _ Hd1 Hd0' Hbase1 (eq_trans Eb0 Hbase0)). done. }
  set (P0 := mk_pool 1 (Some (b, 0)) (Some (b, 0)) (buckets cfg * sizeof_acc) (buckets cfg * sizeof_acc) (Some 1%nat)).
  set (P1 := mk_pool 2 (Some (b1, 0)) (Some (b1, 0)) (memory_pool_size cfg) (memory_pool_size cfg) (p_next d1)).
  assert (Hseg02 : segments s2 !! b = Some (buckets cfg * sizeof_acc)) by (by rewrite Hseg2).
  (* the table *)
  assert (E1 : request_or_exit cfg (table_size cfg) (with_current (Some 0%nat) s2) = Ok (with_current (Some 0%nat) (set_pool 0 P0 s2))).
  { rewrite table_size_ok by done. unfold request_or_exit, request_memory_pool. cbn [current_pool with_current deref].
    rewrite bind_Ok, (get_pool_ok (with_current (Some 0%nat) s2) 0 d0' Hd0'), bind_Ok, En0, Hn0, Ei0, El0, Hlen0. cbn [Z.eqb pool_len]. rewrite Z.leb_refl. unfold rewind_pool.
    rewrite Eb0, Hbase0, (zero_empty (with_current (Some 0%nat) s2) b _ (buckets cfg * sizeof_acc)), !bind_Ok by (done || nia). by rewrite El0, Hlen0, En0, Hn0. }
  rewrite E1, bind_Ok. set (s3 := with_current (Some 0%nat) (set_pool 0 P0 s2)).
  assert (Hp0 : mpd s3 !! 0%nat = Some P0) by (apply list_lookup_insert_eq; by eapply lookup_lt_Some).
  assert (Hp1 : mpd s3 !! 1%nat = Some d1) by (cbn; by rewrite list_lookup_insert_ne).
  unfold current_base. cbn [current_pool with_current deref s3]. rewrite bind_Ok. fold s3. rewrite (get_pool_ok _ _ _ Hp0), !bind_Ok. cbn [base_ptr P0].
  (* the first pool of elements *)
  set (s4 := with_table (Some (b, 0)) s3).
  assert (E2 : request_or_exit cfg (memory_pool_size cfg) s4 = Ok (with_current (Some 1%nat) (set_pool 1 P1 s4))).
  { unfold request_or_exit, request_memory_pool. cbn [current_pool with_current with_table s4 s3 deref]. fold s3. fold s4.
    rewrite bind_Ok, (get_pool_ok s4 0 P0 Hp0), bind_Ok. cbn [p_next P0 id Z.eqb]. rewrite (get_pool_ok s4 1 d1 Hp1), bind_Ok, Hlen1.
    cbn [pool_len]. rewrite Z.leb_refl. unfold rewind_pool. rewrite Hbase1, (zero_empty s4 b1 _ (memory_pool_size cfg)), !bind_Ok by (done || lia).
    by rewrite Hlen1. }
  rewrite E2, bind_Ok. eexists. split; [done |]. assert (Ht : table s = Some (b, 0)) by apply T.
  split; [| repeat split; [done | exact Hseg2 | by rewrite Ht]].
  assert (R4 : registered cfg (set_pool 1 P1 s4) k).
  { apply (registered_update cfg s4 k 1 d1 P1); [| done | lia | done | by rewrite Hlen1 | done].
    apply (registered_same cfg (set_pool 0 P0 s2)); [done | done |].
    apply (registered_update cfg s2 k 0 d0' P0); [done | done | lia | by rewrite Eb0 | by rewrite El0, Hlen0 | by rewrite En0, Hn0]. }
  apply (empty_shape _ b k); try done.
  - change (Z.of_nat (length (lru_elem_ptr s2)) = buckets cfg). rewrite F22. cbn. rewrite (tk_lru_len _ _ _ _ T). apply T.
  - intros i l Hl. change (lru_elem_ptr s2 !! i = Some (Some l)) in Hl. rewrite F22 in Hl. pose proof (tk_lru _ _ _ _ T i l Hl) as Hv.
    by rewrite (valid_same s) by exact Hseg2.
  - by apply (registered_same cfg (set_pool 1 P1 s4)).
  - exists P0. split; [| done]. cbn. rewrite list_lookup_insert_ne by done. exact Hp0.
  - exists b1, (p_next d1). split; [| done]. apply list_lookup_insert_eq. by eapply lookup_lt_Some.
Qed.

(** ** Replies *)

(** A part of an element that is sent: it fits the room the format has for it,
    and a buffer. *)
Definition part_fits (datasize off size : Z) : Prop := off = 0 \/ (0 < size <= datasize - off /\ size <= LARGEBUFLEN).

Record layout_ok (x : extra_primitives) (datasize : Z) : Prop := {
  lo_header : 0 < sizeof_query_header <= LARGEBUFLEN;
  lo_data : 0 < PdataSz <= datasize /\ PdataSz <= LARGEBUFLEN;
  lo_bgp : part_fits datasize (off_pkt_bgp_primitives x) (Z.of_nat pb_size);
  lo_lbgp : part_fits datasize (off_pkt_lbgp_primitives x) PlbgpSz;
  lo_nat : part_fits datasize (off_pkt_nat_primitives x) (Z.of_nat pn_size);
  lo_mpls : part_fits datasize (off_pkt_mpls_primitives x) (Z.of_nat pm_size);
  lo_tun : part_fits datasize (off_pkt_tun_primitives x) (Z.of_nat pt_size);
  lo_cust : part_fits datasize (off_custom_primitives x) (Z.of_nat (pc_size cfg));
  lo_vlen : off_pkt_vlen_hdr_primitives x = 0
}.

(** What was put in a buffer so far, sent or not. *)
Definition stream (rb : reply_buffer) : list item := concat (sent rb) ++ rb_items rb.

Definition rb_ok (rb : reply_buffer) : Prop := 0 < packed rb /\ rb_len rb <= LARGEBUFLEN.

(** An item goes into the stream, and none leaves it. *)
Definition queued (r : res reply_buffer) (rb : reply_buffer) (its : list item) : Prop :=
  exists rb', r = Ok rb' /\ rb_ok rb' /\ stream rb' = stream rb ++ its.

Lemma enQueue_elem_queued it size tot_size rb :
  rb_ok rb -> 0 < size <= tot_size -> size <= LARGEBUFLEN -> queued (enQueue_elem it size tot_size rb) rb [it].
Proof.
  intros [Hp Hl] Hs Hb. unfold enQueue_elem. destruct (Z.ltb_spec (packed rb + tot_size) (rb_len rb)).
  - rewrite (proj2 (Z.leb_le _ _)) by lia. eexists. split; [done |]. split; [split; cbn; lia |]. unfold stream. cbn. by rewrite app_assoc.
  - rewrite (proj2 (Z.leb_le _ _)) by lia. eexists. split; [done |]. split; [split; cbn; lia |]. unfold stream. cbn.
    by rewrite concat_app, concat_cons, concat_nil, app_nil_r.
Qed.

Lemma queued_bind r rb its k its' :
  queued r rb its -> (forall rb', rb_ok rb' -> queued (k rb') rb' its') -> queued (r ≫= k) rb (its ++ its').
Proof.
  intros (rb1 & -> & H1 & E1) Hk. rewrite bind_Ok. destruct (Hk rb1 H1) as (rb2 & -> & H2 & E2). exists rb2. split; [done |]. split; [done |].
  by rewrite E2, E1, app_assoc.
Qed.

(** The item of a part, when the format has it. *)
Definition part_items (off : Z) (it : option item) : list item := if off =? 0 then [] else match it with Some it => [it] | None => [] end.

Lemma enqueue_part_queued datasize off it size rb :
  rb_ok rb -> part_fits datasize off size -> queued (enqueue_part datasize off it size rb) rb (part_items off it).
Proof.
  intros Hr Hf. unfold enqueue_part, part_items. destruct it as [it |].
  - destruct (Z.eqb_spec off 0) as [-> | Hoff]; [exists rb; by rewrite app_nil_r |]. destruct Hf as [? | [Hs Hb]]; [done |].
    apply enQueue_elem_queued; [done | lia | done].
  - destruct (off =? 0); exists rb; by rewrite app_nil_r.
Qed.

Definition acc_items (x : extra_primitives) (e : acc) : list item :=
  [IAcc e] ++ part_items (off_pkt_bgp_primitives x) (option_map IBgp (a_pbgp e)) ++
  part_items (off_pkt_lbgp_primitives x) (option_map (fun c => ILbgp (cache_to_pkt_legacy_bgp_primitives c)) (clbgp e)) ++
  part_items (off_pkt_nat_primitives x) (option_map INat (a_pnat e)) ++
  part_items (off_pkt_mpls_primitives x) (option_map IMpls (a_pmpls e)) ++
  part_items (off_pkt_tun_primitives x) (option_map ITun (a_ptun e)) ++
  part_items (off_custom_primitives x) (option_map ICust (a_pcust e)).

Lemma enqueue_acc_queued x datasize e rb :
  layout_ok x datasize -> rb_ok rb -> queued (enqueue_acc cfg x datasize e rb) rb (acc_items x e).
Proof.
  intros L Hr. destruct (lo_data _ _ L). unfold enqueue_acc, acc_items.
  repeat (apply queued_bind; [first [apply enQueue_elem_queued; [done | lia | lia] | apply enqueue_part_queued; [done | apply L]] | clear rb Hr; intros rb Hr]).
  rewrite <- (app_nil_r (part_items (off_custom_primitives x) _)). apply queued_bind; [apply enqueue_part_queued; [done | apply L] |].
  clear rb Hr. intros rb Hr. pose proof (enqueue_part_queued datasize (off_pkt_vlen_hdr_primitives x) (option_map IVlen (a_pvlen e))
    (match a_pvlen e with Some v => PvhdrSz + tot_len v | None => 0 end) rb Hr) as Hlast.
  rewrite (lo_vlen _ _ L) in *. apply Hlast. by left.
Qed.

(** What is reported of an element. *)
Definition reported (x : extra_primitives) (e : acc) : list item := if test_zero_elem e then [] else acc_items x e.

Lemma visit_stats x datasize s ls rb :
  layout_ok x datasize -> rb_ok rb -> (forall l, l ∈ ls -> valid s l = true) ->
  exists rb', visit (stats_body cfg x datasize) ls rb s = Ok (rb', s) /\ rb_ok rb' /\
    stream rb' = stream rb ++ concat (map (fun l => reported x (at_loc (mem s) l)) ls).
Proof.
  intros L. revert rb. induction ls as [|l ls IH]; intros rb Hr Hv; cbn [visit map concat]; [exists rb; by rewrite app_nil_r |].
  rewrite (read_ok _ _ (Hv l ltac:(left))), bind_Ok. unfold reported at 1.
  assert (stats_body cfg x datasize l (at_loc (mem s) l) rb s =
          if test_zero_elem (at_loc (mem s) l) then Ok (rb, s) else rb ← enqueue_acc cfg x datasize (at_loc (mem s) l) rb; Ok (rb, s)) as -> by done.
  assert (Hv' : forall y, y ∈ ls -> valid s y = true) by (intros y Hy; apply Hv; by right).
  destruct (test_zero_elem (at_loc (mem s) l)); [rewrite bind_Ok; by apply IH |].
  destruct (enqueue_acc_queued x datasize (at_loc (mem s) l) rb L Hr) as (rb1 & -> & Hr1 & E1). rewrite !bind_Ok.
  destruct (IH rb1 Hr1 Hv') as (rb' & -> & Hr' & E'). exists rb'. split; [done |]. split; [done |]. by rewrite E', E1, app_assoc.
Qed.

(** C15. A client that asks for the table is told of every element that is in
    use exactly once, with all its parts, whatever the size of the table; no
    buffer is overrun. *)
Theorem want_stats_lists_table s x datasize :
  sizes_ok cfg -> imt_ok cfg s -> layout_ok x datasize ->
  exists out ls, want_stats cfg x datasize s = Ok out /\ NoDup ls /\ (forall l, is_Some (mem s !! l) -> l ∈ ls) /\
    concat out = IHeader :: concat (map (fun l => reported x (at_loc (mem s) l)) ls).
Proof.
  intros Hs (base & chains & T & _) L. pose proof (so_buckets _ Hs).
  assert (Hb : u32 (buckets cfg) = buckets cfg) by (apply u32_small; unfold in_u; lia).
  destruct (table_cells s base chains Hb T) as (Hnd & _ & Hall). destruct (lo_header _ _ L).
  unfold want_stats. rewrite (walk_table_visit _ s base chains rb0 Hs T).
  - destruct (visit_stats x datasize s (cells base 0 chains) rb0 L) as (rb & -> & [Hp _] & E).
    + split; cbn; lia.
    + intros l (i & r & Hi & Hl)%elem_of_cells. by apply (tk_valid _ _ _ _ T i r l).
    + rewrite bind_Ok. exists (flush rb), (cells base 0 chains). split; [done |]. split; [done |]. split; [done |].
      unfold flush. rewrite (proj2 (Z.eqb_neq _ _)) by lia. rewrite concat_app, concat_cons, concat_nil, app_nil_r. exact E.
  - intros l y s1 y' s2 E. unfold stats_body in E. destruct (test_zero_elem _); [by injection E as <- <- |].
    apply bind_Ok_inv in E as (rb & _ & [= <- <-]). done.
Qed.

(** ** A query about one aggregate *)

(** A query with structures of their sizes. *)
Record wf_query (q : query_entry) : Prop := {
  wq_data : length (q_data q) = pp_size;
  wq_bgp : length (q_pbgp q) = pb_size;
  wq_lbgp : Forall2 (fun a n => length a = n) (q_plbgp q) lbgp_sizes;
  wq_nat : length (q_pnat q) = pn_size;
  wq_mpls : length (q_pmpls q) = pm_size;
  wq_tun : length (q_ptun q) = pt_size
}.

(** What a query says of a key: all but its custom and variable-length
    primitives. *)
Definition asked_of (k : primitives_ptrs) : primitives_ptrs :=
  mk_pp (data k) (pbgp k) (plbgp k) (pnat k) (pmpls k) (ptun k) None None.

Lemma cmp_part_query n a b : length a = n -> sized n b -> cmp_part (Some a) b = 0 <-> b = Some a.
Proof. intros Ha Hb. apply (cmp_part_0 n); [by exists a | done]. Qed.

Lemma compare_query e q k : wf_query q -> counts cfg e k ->
  compare_accounting_structure e (query_prims q) = 0 <-> asked_of (key_of k) = key_of (query_prims q).
Proof.
  intros Hq (Hf & Hk & _). unfold key_at in Hk. destruct (clbgp e) as [c |] eqn:Ec; [| done].
  destruct (fp_lbgp _ _ Hf) as (t & Et & [Ht _]). injection Hk as E1 E2 E3 E4 E5 E6 E7 E8.
  unfold compare_accounting_structure, query_prims. rewrite lors_0, !Forall_cons, Ec. cbn [data primitives pbgp plbgp pnat pmpls ptun pcust pvlen].
  rewrite Et in E3. injection E3 as ->. rewrite E1, E2, E4, E5, E6. unfold asked_of, key_of. cbn [data primitives pbgp plbgp pnat pmpls ptun pcust pvlen].
  rewrite (cmp_part_query pb_size), (cmp_part_query pn_size), (cmp_part_query pm_size), (cmp_part_query pt_size) by (apply Hq || apply Hf).
  destruct (concat_sized t (q_plbgp q) _ Ht (wq_lbgp _ Hq)) as [Hl Hc].
  rewrite !memcmp_0 by (done || by rewrite (fp_prims _ _ Hf), (wq_data _ Hq)). rewrite Et. split.
  - intros (-> & -> & Hs & -> & -> & -> & _). by rewrite (Hc Hs).
  - intros [= -> -> -> -> -> ->]. repeat split; constructor.
Qed.

Lemma hash_query k q : asked_of (key_of k) = key_of (query_prims q) -> pc_size cfg = 0%nat -> hash_of cfg k = hash_of cfg (query_prims q).
Proof. intros E H. change (hash_of cfg (key_of k) = hash_of cfg (key_of (query_prims q))). rewrite <- E. unfold hash_of. by rewrite H. Qed.

(** An element with a key is in a chain, where it counts packets of the key. *)
Lemma element_in_chain s base chains x k : table_ok cfg s base chains -> key_at (at_loc (mem s) x) = Some k ->
  exists i r p, chains !! i = Some r /\ x ∈ chain_head base i :: r /\ counts cfg (at_loc (mem s) x) p /\ key_of p = k /\
    bucket_of cfg (hash_of cfg p) = Z.of_nat i.
Proof.
  intros T Hk. assert (Hs : is_Some (mem s !! x)).
  { destruct (mem s !! x) eqn:E; [by eexists |]. unfold at_loc in Hk. rewrite E in Hk. discriminate. }
  destruct (tk_live _ _ _ _ T x Hs) as (i & r & Hi & Hx).
  destruct (tk_elem _ _ _ _ T i r x Hi Hx) as [[Hc _] | (p & Hp & Hb)]; [unfold key_at in Hk; by rewrite Hc in Hk |].
  exists i, r, p. pose proof Hp as (_ & Hkp & _). split_and!; [done | done | done | congruence | done].
Qed.

Lemma matches_has_key h q s x : matches h (query_prims q) (at_loc (mem s) x) = true -> exists k, key_at (at_loc (mem s) x) = Some k.
Proof.
  unfold matches, key_at. destruct (clbgp _) as [c |] eqn:Ec; [by eexists |].
  intros [_ H%Z.eqb_eq]%andb_true_iff. unfold compare_accounting_structure in H. rewrite lors_0, !Forall_cons, Ec in H.
  destruct H as (_ & _ & H & _). discriminate.
Qed.

(** C14. A client's query about one aggregate, of structures of their sizes.  In a well-formed table it ends,
    without a fault.  An element that is found has a key that agrees with the
    query on everything a query holds, and, when no key has two elements, it
    has all that was counted for that key (nothing, if it is marked for a
    reset).  When nothing is found and no custom primitives are configured, no
    element has such a key and nothing was counted for one.  A query names
    neither custom nor variable-length primitives: with the former an element
    is found by accident of the hash only, and of the keys that differ in the
    latter the first of the chain is found. *)
Theorem search_accounting_structure_finds s q :
  sizes_ok cfg -> imt_ok cfg s -> wf_query q ->
  exists o, search_accounting_structure cfg (query_prims q) s = Ok o /\
    match o with
    | Some l => exists k, key_at (at_loc (mem s) l) = Some k /\ asked_of k = key_of (query_prims q) /\
        (distinct s -> forall f, total f k s = if reset_flag (at_loc (mem s) l) then 0 else f (at_loc (mem s) l))
    | None => pc_size cfg = 0%nat -> forall k, asked_of k = key_of (query_prims q) ->
        (forall x, key_at (at_loc (mem s) x) <> Some k) /\ forall f, total f k s = 0
    end.
Proof.
  intros Hs (base & chains & T & _) Hq. set (p := query_prims q). set (hash := hash_of cfg p).
  destruct (lru_stage cfg s base chains p Hs T) as (_ & _ & _ & r & Hi). fold hash in Hi.
  pose proof (bucket_range cfg hash Hs) as Hb. set (i := Z.to_nat (bucket_of cfg hash)) in *.
  unfold search_accounting_structure. cbv zeta. fold hash. unfold head. rewrite (tk_table _ _ _ _ T). cbn [deref]. rewrite !bind_Ok.
  replace (shift base (bucket_of cfg hash * sizeof_acc)) with (chain_head base i) by (unfold chain_head, i; by rewrite Z2Nat.id by lia).
  pose proof (chain_length cfg s base chains i r T Hi) as Hfuel.
  destruct (search_loop_cases cfg s base chains i r hash p (chain_fuel s) [] (chain_head base i) r T Hi eq_refl) as [(x & Hm & ->) | [Hno ->]];
    [by intros x ?%elem_of_nil | done | |].
  - exists (Some x). split; [done |]. destruct (matches_has_key _ _ _ _ Hm) as [k Hk]. exists k. split; [done |]. split.
    + destruct (element_in_chain s base chains x k T Hk) as (_ & _ & p' & _ & _ & Hc & <- & _).
      apply andb_true_iff in Hm as [_ Hm%Z.eqb_eq]. by apply (compare_query _ q p' Hq Hc).
    + intros Hd f. by apply total_distinct.
  - exists None. split; [done |]. intros Hpc k Hk.
    assert (Hnone : forall x, key_at (at_loc (mem s) x) <> Some k); [| split; [done | intros f; by apply total_none]].
    intros x Hx. destruct (element_in_chain s base chains x k T Hx) as (j & r' & p' & Hj & Hin & Hc & <- & Hbk).
    pose proof (hash_query p' q Hk Hpc) as Hh. fold p hash in Hh. rewrite Hh in Hbk.
    assert (j = i) as -> by (unfold i; lia). rewrite Hi in Hj. injection Hj as <-. specialize (Hno x Hin).
    unfold matches in Hno. pose proof (proj2 (compare_query _ q p' Hq Hc) Hk) as Hz. fold p in Hz. rewrite Hz in Hno.
    destruct Hc as (_ & _ & Hsig). by rewrite Hsig, Hh, !Z.eqb_refl in Hno.
Qed.

End Server.
End ImtServerFacts.
