(* ===== verification/ImtExamples.v ===== *)
(** * The in-memory table: a small one

    A table of two buckets, with pools of two elements each, on which the
    theorems are applied; and what goes wrong. *)

From S2P Require Import Prelude.
From S2P Require Import CfgData.
From S2P Require Import Imt.
From S2P Require Import ImtServer.
From S2P Require Import ImtFacts.
From S2P Require Import ImtPoolFacts.
From S2P Require Import ImtInsertFacts.
From S2P Require Import ImtCountFacts.
From S2P Require Import ImtServerFacts.

Module ImtExamples.
Import Imt.
Import ImtServer.
Import ImtFacts.
Import ImtPoolFacts.
Import ImtInsertFacts.
Import ImtCountFacts.
Import ImtServerFacts.

#[local] Instance ex_imt_host : imt_host := {
  sizeof_acc := 64; pp_size := 2; pb_size := 1; pn_size := 1; pm_size := 1; pt_size := 1;
  prim_field := fun f => if String.eqb f "src_ip" then (0, 1)%nat else (1, 1)%nat;
  map_shared_ok := fun _ _ => true
}.

#[local] Instance ex_server_host : server_host := {
  s_field := fun _ _ => (0, 1)%nat; PdataSz := 40; sizeof_query_header := 100; sizeof_bucket_desc := 8;
  HAVE_L2 := true; WITH_GEOIP := false; WITH_NDPI := false
}.

Definition ex_cfg : imt_config := mk_cfg 2 3 128 0 0 0 0.

Definition ex_extras : extra_primitives := mk_extras 40 41 0 0 0 0 0.

(** A packet from [a] to [b]. *)
Definition ex_packet (a b len num : Z) : primitives_ptrs :=
  mk_pp (mk_data [a; b] len num 1 1 2 0) (Some [0]) (Some empty_lbgp) (Some [0]) (Some [0]) (Some [0]) (Some []) (Some empty_vlen).

Definition imt_init : imt := mk_imt ∅ [] [] None None [] false 0 0.

Definition the_state (r : res imt) : imt := match r with Ok s => s | Err _ => imt_init end.

Definition ex_start : imt := the_state (imt_start ex_cfg imt_init).
Definition ex_one : imt := the_state (insert_accounting_structure ex_cfg (ex_packet 10 20 100 1) ex_start).

Lemma ex_sizes : sizes_ok ex_cfg.
Proof. constructor; cbn; lia. Qed.

Lemma ex_full a b len num : full ex_cfg (ex_packet a b len num).
Proof.
  constructor; [done | by eexists | | by eexists | by eexists | by eexists | by eexists | by exists empty_vlen].
  exists empty_lbgp. split; [done |]. split; [repeat constructor | by vm_compute].
Qed.

Lemma Ok_same {A} (r : res A) a b : r = Ok a -> r = Ok b -> a = b.
Proof. intros -> [= E]. exact E. Qed.

Lemma ex_start_runs : imt_start ex_cfg imt_init = Ok ex_start.
Proof. vm_compute. reflexivity. Qed.

Lemma ex_start_ok : imt_ok ex_cfg ex_start /\ mem ex_start = ∅ /\ no_more_space ex_start = false.
Proof. apply (imt_start_ok ex_cfg imt_init); [exact ex_sizes | done | exact ex_start_runs]. Qed.

Lemma ex_one_runs : insert_accounting_structure ex_cfg (ex_packet 10 20 100 1) ex_start = Ok ex_one.
Proof. vm_compute. reflexivity. Qed.

Lemma ex_one_ok : imt_ok ex_cfg ex_one.
Proof.
  destruct (insert_table_ok ex_cfg ex_start (ex_packet 10 20 100 1) ex_sizes (proj1 ex_start_ok) (ex_full _ _ _ _)) as (s & E & H & _).
  pose proof (Ok_same _ _ _ ex_one_runs E) as Es. by rewrite Es.
Qed.

Lemma empty_distinct s : mem s = ∅ -> busy s /\ distinct s.
Proof. intros Hm. unfold busy, distinct, at_loc. rewrite Hm. split; [intros l e; by rewrite lookup_empty | intros l l' k; by rewrite !lookup_empty]. Qed.

(** A table with one element has no key twice. *)
Lemma single_distinct s l e : mem s = <[l := e]> ∅ -> distinct s.
Proof.
  intros Hm x y k. unfold at_loc. rewrite Hm. destruct (decide (l = x)) as [<- |], (decide (l = y)) as [<- |];
    rewrite ?lookup_insert_eq, ?lookup_insert_ne, ?lookup_empty by done; done.
Qed.

Lemma ex_one_distinct : distinct ex_one.
Proof. apply (single_distinct _ (1%nat, bucket_of ex_cfg (hash_of ex_cfg (ex_packet 10 20 100 1)) * 64) (account_reuse ex_cfg (hash_of ex_cfg (ex_packet 10 20 100 1)) (ex_packet 10 20 100 1) acc0)). vm_compute. reflexivity. Qed.

Lemma ex_layout : layout_ok ex_cfg ex_extras 900.
Proof. constructor; cbn; unfold part_fits, CfgData.LARGEBUFLEN; try (by left); vm_compute; intuition discriminate. Qed.

Lemma insert_accounting_structure_counts_witness :
  exists s', insert_accounting_structure ex_cfg (ex_packet 10 30 50 2) ex_one = Ok s' /\ imt_ok ex_cfg s' /\
    (mem s' = mem ex_one /\ no_more_space s' = true \/
     forall k, u64 (total bytes_counter k s') = u64 (total bytes_counter k ex_one + amount pkt_len k (ex_packet 10 30 50 2)) /\
               u64 (total packet_counter k s') = u64 (total packet_counter k ex_one + amount pkt_num k (ex_packet 10 30 50 2))).
Proof. exact (insert_accounting_structure_counts ex_cfg ex_one (ex_packet 10 30 50 2) ex_sizes ex_one_ok (ex_full _ _ _ _)). Defined.

Lemma insert_keeps_keys_apart_witness :
  insert_accounting_structure ex_cfg (ex_packet 10 20 100 1) ex_start = Ok ex_one /\ busy ex_one /\ distinct ex_one.
Proof.
  split; [exact ex_one_runs |].
  destruct (insert_keeps_keys_apart ex_cfg ex_start (ex_packet 10 20 100 1) ex_one ex_sizes (proj1 ex_start_ok) (ex_full _ _ _ _)) as (H1 & H2 & _).
  - apply empty_distinct, ex_start_ok.
  - apply empty_distinct, ex_start_ok.
  - split; [cbn; lia |]. intros l e. rewrite (proj1 (proj2 ex_start_ok)). by rewrite lookup_empty.
  - exact ex_one_runs.
  - exact (conj H1 H2).
Defined.

(** A query about the packets from [a] to [b]. *)
Definition ex_query (a b : Z) : query_entry := mk_query 3 0 0 [a; b] [0] empty_lbgp [0] [0] [0].

Lemma ex_query_ok a b : wf_query (ex_query a b).
Proof. constructor; try done. repeat constructor. Qed.

Lemma search_accounting_structure_finds_witness :
  exists l k, search_accounting_structure ex_cfg (query_prims (ex_query 10 20)) ex_one = Ok (Some l) /\
    key_at (at_loc (mem ex_one) l) = Some k /\ total bytes_counter k ex_one = 100.
Proof.
  destruct (search_accounting_structure_finds ex_cfg ex_one (ex_query 10 20) ex_sizes ex_one_ok (ex_query_ok _ _)) as ([l |] & E & H).
  - destruct H as (k & Hk & _ & Ht). exists l, k. split; [exact E |]. split; [exact Hk |]. rewrite (Ht ex_one_distinct bytes_counter).
    clear - E. vm_compute in E. injection E as <-. vm_compute. reflexivity.
  - vm_compute in E. discriminate E.
Defined.

Lemma imt_counts_every_packet_witness :
  exists s', insert_all ex_cfg [ex_packet 10 20 100 1; ex_packet 20 10 60 1; ex_packet 10 20 40 1] ex_start = Ok s' /\ imt_ok ex_cfg s'.
Proof.
  destruct (imt_counts_every_packet ex_cfg imt_init ex_start [ex_packet 10 20 100 1; ex_packet 20 10 60 1; ex_packet 10 20 40 1]
    ex_sizes eq_refl ex_start_runs) as (s' & E & H & _).
  - repeat apply Forall_cons_2; [apply ex_full .. | apply Forall_nil_2].
  - exact (ex_intro _ s' (conj E H)).
Defined.

Lemma imt_clear_empties_witness : exists s', imt_clear ex_cfg ex_one = Ok s' /\ mem s' = ∅ /\ segments s' = segments ex_one.
Proof.
  destruct (imt_clear_empties ex_cfg ex_one ex_sizes ex_one_ok) as (s' & E & _ & H & _ & Hseg & _).
  exact (ex_intro _ s' (conj E (conj H Hseg))).
Defined.

Lemma want_stats_lists_table_witness :
  exists out ls, want_stats ex_cfg ex_extras 900 ex_one = Ok out /\ NoDup ls /\
    concat out = IHeader :: concat (map (fun l => reported ex_extras (at_loc (mem ex_one) l)) ls).
Proof.
  destruct (want_stats_lists_table ex_cfg ex_one ex_extras 900 ex_sizes ex_one_ok ex_layout) as (out & ls & E & Hnd & _ & H).
  exact (ex_intro _ out (ex_intro _ ls (conj E (conj Hnd H)))).
Defined.

(** ** What goes wrong *)

(** The flows of an element are kept when its counters are reset, and go to
    whatever is counted next. *)
Lemma flows_survive_reset c d e :
  flow_counter (account_match c d (set_reset_flag e)) = u64 (flow_counter e + flo_num d) /\
  bytes_counter (account_match c d (set_reset_flag e)) = u64 (0 + pkt_len d).
Proof. done. Qed.

(** A flow without packets and bytes is counted for the next key of its
    bucket. *)
Definition ex_empty_flow : imt := the_state (insert_accounting_structure ex_cfg (ex_packet 10 20 0 0) ex_start).
Definition ex_taken : imt := the_state (insert_accounting_structure ex_cfg (ex_packet 10 22 100 1) ex_empty_flow).

Lemma empty_flow_taken :
  map (fun '(_, e) => (a_primitives e, bytes_counter e, flow_counter e)) (map_to_list (mem ex_taken)) = [([10; 22], 100, 2)].
Proof. vm_compute. reflexivity. Qed.

(** With a custom primitive configured a query, which has none, does not have
    the hash of the packets it is about. *)
Definition ex_cust_cfg : imt_config := mk_cfg 2 3 128 0 0 0 1.
Definition ex_cust_one : res imt :=
  s ← imt_start ex_cust_cfg imt_init;
  insert_accounting_structure ex_cust_cfg
    (mk_pp (mk_data [10; 20] 100 1 1 1 2 0) (Some [0]) (Some empty_lbgp) (Some [0]) (Some [0]) (Some [0]) (Some [7]) (Some empty_vlen)) s.

Lemma custom_primitives_not_found :
  match ex_cust_one with
  | Ok s => (size (mem s) =? 1)%nat = true /\ search_accounting_structure ex_cust_cfg (query_prims (ex_query 10 20)) s = Ok None
  | Err _ => False
  end.
Proof. vm_compute. split; reflexivity. Qed.

(** The size of a large table wraps: what is mapped is smaller than the table. *)
Lemma table_size_wraps : table_size (mk_cfg 67108865 3 128 0 0 0 0) = 64.
Proof. vm_compute. reflexivity. Qed.

End ImtExamples.
