(* ===== verification/NetAggr.v ===== *)
(** * The networks table (net_aggr.c, net_aggr.h)

    The file of networks is read twice, as IPv4 and as IPv6. Its rows are
    sorted and laid out so that the networks inside a network form a table of
    their own; an address is looked up by binary search, from table to table,
    behind a cache of addresses. What the two address families share is written
    once over [net_family], what a word of an address is; the definitions at the
    end of a section are the functions of the code. *)

From S2P Require Import Prelude.
From S2P Require Import BgpPrefix.
From S2P Require Import Jhash.
From S2P Require Import BgpAttr.
From S2P Require Import CfgData.
From S2P Require Import CfgHandlers.
From S2P Require Import Cfg.
From S2P Require Import PretagData.

Module NetAggr.
Import Jhash.
Import BgpAttr(host_addr, mk_ha, ha_family, ha_address, ha0, le_u32).
Import CfgData.
Import Cfg(fgets, c_string).
Import PretagData(str_to_host).

Definition NETWORKS_CACHE_ENTRIES : Z := 99991.
Definition NETWORKS6_CACHE_ENTRIES : Z := 32771.
Definition NETWORKS_CACHE_DEPTH : Z := 128.
Definition NF_AS_KEEP : Z := 0x00000001.
Definition NF_NET_KEEP : Z := 0x00000001.

(** ** Addresses of the two families *)

(** Host words: what a network, a mask and the key of the cache are, with the
    comparisons the code makes word by word. *)
Class net_family (K : Type) := {
  k_zero : K;
  k_cmp : K -> K -> comparison;
  k_and : K -> K -> K;
  k_addr : list Z -> K;   (* the octets of an address as the host loads them *)
  k_host : list Z -> K;   (* ... in host order *)
  k_hash : K -> Z;        (* of a key of the cache *)
  k_mask : Z -> K;        (* the mask of a length *)
  k_bits : Z;             (* the longest mask *)
  k_stops : bool          (* building the hierarchy stops at the first network outside *)
}.
Arguments k_bits K {_}.
Arguments k_stops K {_}.

Definition mask_of (index : Z) : Z :=
  if index =? 32 then 0xffffffff else u32 (Z.lnot (Z.shiftr 0xffffffff index)).

#[export] Instance inet : net_family Z := {
  k_zero := 0;
  k_cmp := Z.compare;
  k_and := Z.land;
  k_addr a := le_u32 a 0;
  k_host a := ntohl (take 4 a);
  k_hash key := key;
  k_mask := mask_of;
  k_bits := 32;
  k_stops := true
}.

(** The chunks are compared from the first one. *)
Fixpoint chunks_cmp (a b : list Z) : comparison :=
  match a, b with
  | x :: a, y :: b => match x ?= y with Eq => chunks_cmp a b | c => c end
  | _, _ => Eq
  end.

(** [for (j = 0; j < 4 && index >= 32; j++, index -= 32) mask[j] = 0xffffffffU;
    if (j < 4 && index) mask[j] = ~(0xffffffffU >> index);] *)
Fixpoint mask_words (n : nat) (index : Z) : list Z :=
  match n with
  | O => []
  | S n => if 32 <=? index then 0xffffffff :: mask_words n (index - 32)
           else (if index =? 0 then 0 else u32 (Z.lnot (Z.shiftr 0xffffffff index))) :: replicate n 0
  end.

Definition chunks_of (load : list Z -> Z) (a : list Z) : list Z :=
  map (fun j => load (take 4 (drop (4 * j) a))) (seq 0 4).

Definition networks_cache_hash6 (key : list Z) : Z :=
  let a := u32 (default 0 (key !! 0%nat) + JHASH_GOLDEN_RATIO) in
  let b := u32 (default 0 (key !! 1%nat) + JHASH_GOLDEN_RATIO) in
  let c := u32 (default 0 (key !! 2%nat) + 140281) in
  let '(_, _, c) := jhash_mix a b c in c.

#[export] Instance inet6 : net_family (list Z) := {
  k_zero := replicate 4 0;
  k_cmp := chunks_cmp;
  k_and a b := zip_with Z.land a b;
  k_addr := chunks_of (fun w => le_u32 w 0);
  k_host := chunks_of ntohl;
  k_hash := networks_cache_hash6;
  k_mask := mask_words 4;
  k_bits := 128;
  k_stops := false
}.

(** ** The table *)

(** [childs]: the table of the networks inside this one, its first entry and
    how many there are, in the same array. *)
Record net_entry (K : Type) := mk_net {
  net : K;
  mask : K;
  masknum : Z;
  peer_as : Z;
  as_ : Z;
  nh : host_addr;
  childs_table : option (nat * Z)
}.
Arguments mk_net {K}. Arguments net {K}. Arguments mask {K}. Arguments masknum {K}.
Arguments peer_as {K}. Arguments as_ {K}. Arguments nh {K}. Arguments childs_table {K}.

Definition with_childs {K} (v : option (nat * Z)) (e : net_entry K) : net_entry K :=
  mk_net (net e) (mask e) (masknum e) (peer_as e) (as_ e) (nh e) v.
Definition with_ases {K} (p a : Z) (e : net_entry K) : net_entry K :=
  mk_net (net e) (mask e) (masknum e) p a (nh e) (childs_table e).
Definition with_nh {K} (v : host_addr) (e : net_entry K) : net_entry K :=
  mk_net (net e) (mask e) (masknum e) (peer_as e) (as_ e) v (childs_table e).

Definition get {A} (l : list A) (i : Z) : res A :=
  if i <? 0 then Err OutOfBounds else match l !! Z.to_nat i with Some x => Ok x | None => Err OutOfBounds end.
Definition set {A} (l : list A) (i : Z) (x : A) : res (list A) :=
  _ ← get l i; Ok (<[Z.to_nat i := x]> l).

Section Table.
Context {K : Type} {F : net_family K}.

Definition zero_entry : net_entry K := mk_net k_zero k_zero 0 0 0 ha0 None.
(** "dummy & broken on purpose" *)
Definition dummy_entry : net_entry K := mk_net k_zero k_zero 255 0 0 ha0 None.

(** *** Sorting *)

(** Whether [merge] takes the element of the first half. *)
Definition merge_first (x y : net_entry K) : bool :=
  match k_cmp (net x) (net y) with
  | Lt => true
  | Eq => match k_cmp (mask x) (mask y) with Gt => false | _ => true end
  | Gt => false
  end.

Fixpoint merge_halves (v1 : list (net_entry K)) : list (net_entry K) -> list (net_entry K) :=
  fix pick v2 :=
    match v1, v2 with
    | x :: v1', y :: v2' => if merge_first x y then x :: merge_halves v1' v2 else y :: pick v2'
    | [], _ => v2
    | _, [] => v1
    end.

Definition merge_table (table : list (net_entry K)) (start middle end_ : nat) : list (net_entry K) :=
  let v1 := take (middle - start) (drop start table) in
  let v2 := take (end_ - middle) (drop middle table) in
  take start table ++ merge_halves v1 v2 ++ drop end_ table.

(** The halves are smaller than the whole: [end_ - start] rounds are enough. *)
Fixpoint sort_loop (fuel : nat) (table : list (net_entry K)) (start end_ : nat) : list (net_entry K) :=
  match fuel with
  | O => table
  | S fuel =>
      if (start =? end_)%nat || (S start =? end_)%nat then table
      else
        let middle := ((start + end_) / 2)%nat in
        let table := sort_loop fuel table start middle in
        let table := sort_loop fuel table middle end_ in
        merge_table table start middle end_
  end.
Definition sort_table (table : list (net_entry K)) (start end_ : nat) : list (net_entry K) :=
  sort_loop (end_ - start) table start end_.

Definition same_net (x y : net_entry K) : bool :=
  match k_cmp (net x) (net y), k_cmp (mask x) (mask y) with Eq, Eq => true | _, _ => false end.

(** Of equal neighbours the last one stays; what is left of the array is the
    first [num] entries. *)
Fixpoint dedupe (table : list (net_entry K)) : list (net_entry K) :=
  match table with
  | x :: r => match r with
              | y :: _ => if same_net x y then dedupe r else x :: dedupe r
              | [] => [x]
              end
  | [] => []
  end.

(** *** The hierarchy *)

Definition covers (e : net_entry K) (n : K) : bool :=
  match k_cmp (k_and n (mask e)) (net e) with Eq => true | _ => false end.

(** The entries after [e]: the level of those inside it is raised, and they
    are counted. *)
Fixpoint inside (e : net_entry K) (rest : list (net_entry K)) (levels : list Z) : list Z * Z :=
  match rest, levels with
  | x :: rest, l :: levels' =>
      if covers e (net x) then let '(ls, n) := inside e rest levels' in (u8 (l + 1) :: ls, u32 (n + 1))
      else if k_stops K then (levels, 0) else let '(ls, n) := inside e rest levels' in (l :: ls, n)
  | _, _ => (levels, 0)
  end.

(** Level and number of networks inside, entry by entry. *)
Fixpoint hierarchy (table : list (net_entry K)) (levels : list Z) : list (Z * Z) :=
  match table, levels with
  | e :: rest, l :: levels => let '(ls, n) := inside e rest levels in (l, n) :: hierarchy rest ls
  | _, _ => []
  end.

Fixpoint direct_childs (level : Z) (levels : list Z) : Z :=
  match levels with
  | x :: r => if level =? x then 0 else (if level =? x - 1 then 1 else 0) + direct_childs level r
  | [] => 0
  end.

(** "each parent has to know only the number of its directly attached childs" *)
Fixpoint adjust_childs (mdt : list (Z * Z)) : list (Z * Z) :=
  match mdt with
  | (l, _) :: r => (l, direct_childs l (map fst r)) :: adjust_childs r
  | [] => []
  end.

Definition metadata (table : list (net_entry K)) : list (Z * Z) :=
  adjust_childs (hierarchy table (replicate (length table) 0)).

Definition roots (mdt : list (Z * Z)) : Z :=
  Z.of_nat (length (List.filter (fun m => fst m =? 0) mdt)).

(** *** The final table *)

(** [prev]: where the entry of each level was put; its first eight words are
    cleared, the others have no value before they are written. *)
Record layout := mk_layout {
  lt_table : list (net_entry K);
  lt_current : Z;
  lt_next : Z;
  lt_prev : list (option Z);
  lt_last : Z * Z  (* level and children of the entry before *)
}.

(** Where the next entry goes. [None]: the networks are nested too deep. *)
Definition place (level : Z) (s : layout) : res (option layout) :=
  let '(plevel, pchilds) := lt_last s in
  if level =? plevel then
    Ok (Some (mk_layout (lt_table s) (lt_current s + 1) (lt_next s) (lt_prev s) (lt_last s)))
  else if plevel <? level then
    if NETWORKS_CACHE_DEPTH <? level then Ok None
    else
      e ← get (lt_table s) (lt_current s);
      table ← set (lt_table s) (lt_current s) (with_childs (Some (Z.to_nat (lt_next s), pchilds)) e);
      prev ← set (lt_prev s) plevel (Some (lt_current s));
      Ok (Some (mk_layout table (lt_next s) (lt_next s + pchilds) prev (lt_last s)))
  else
    p ← get (lt_prev s) level;
    match p with
    | Some c => Ok (Some (mk_layout (lt_table s) (c + 1) (lt_next s) (lt_prev s) (lt_last s)))
    | None => Err OutOfBounds
    end.

Definition fill (e : net_entry K) (m : Z * Z) (s : layout) : res layout :=
  table ← set (lt_table s) (lt_current s) e;
  Ok (mk_layout table (lt_current s) (lt_next s) (lt_prev s) m).

(** Whether all the entries were placed, and what was laid out. *)
Fixpoint build_loop (rows : list (net_entry K * (Z * Z))) (s : layout) : res (bool * layout) :=
  match rows with
  | [] => Ok (true, s)
  | (e, m) :: rows =>
      s' ← place (fst m) s;
      match s' with
      | None => Ok (false, s)
      | Some s => s ← fill e m s; build_loop rows s
      end
  end.

Definition prev0 : list (option Z) := replicate 8 (Some 0) ++ replicate 120 None.

(** [table]: the array that was cleared for the final table. *)
Definition build_table (table tmpt : list (net_entry K)) (mdt : list (Z * Z)) : res (bool * list (net_entry K)) :=
  match tmpt, mdt with
  | e :: tmpt, m :: mdt' =>
      s ← fill e m (mk_layout table 0 (roots mdt) prev0 (0, 0));
      '(b, s) ← build_loop (zip tmpt mdt') s;
      Ok (b, lt_table s)
  | _, _ => Ok (true, table)
  end.

Definition default_route (num : nat) (table : list (net_entry K)) : bool :=
  existsb (fun e => match k_cmp (mask e) k_zero with Eq => true | _ => false end) (take num table).

(** ** The cache *)

(** [struct networks_cache], the half of one family: [None] before it is
    allocated. A result is the entry it points to: the entries of a table do
    not change while they are in the cache. *)
Record net_cache := mk_cache {
  cache : option (list (K * option (net_entry K)));
  cache_num : Z
}.

Definition cache_slot (nc : net_cache) (key : K) : res (list (K * option (net_entry K)) * Z) :=
  if cache_num nc =? 0 then Err NullDeref  (* a division by zero *)
  else l ← deref (cache nc); Ok (l, k_hash key mod cache_num nc).

Definition networks_cache_insert_k (nc : net_cache) (key : K) (result : net_entry K) : res net_cache :=
  '(l, i) ← cache_slot nc key;
  l ← set l i (key, Some result);
  Ok (mk_cache (Some l) (cache_num nc)).

Definition networks_cache_search_k (nc : net_cache) (key : K) : res (option (net_entry K)) :=
  '(l, i) ← cache_slot nc key;
  p ← get l i;
  Ok (match k_cmp (fst p) key with Eq => snd p | _ => None end).

(** ** Binary search *)

(** [search] is [binsearch]: the cache, then the table; [search_table] is its
    loop over the entries between [low] and [high] of the table that starts at
    [base]. A round or a step to the table of a network uses up one unit. *)
Section Search.
Context (array : list (net_entry K)).

Definition cached (nc : net_cache) (a : list Z) (search : res (option (net_entry K) * net_cache)) :
    res (option (net_entry K) * net_cache) :=
  r ← networks_cache_search_k nc (k_addr a);
  match r with
  | Some r => Ok (if masknum r =? 255 then None else Some r, nc)
  | None => search
  end.

Fixpoint search_table (fuel : nat) (base : nat) (low high : Z) (a : list Z) (nc : net_cache) :
    res (option (net_entry K) * net_cache) :=
  match fuel with
  | O => Err OutOfFuel
  | S fuel =>
      if low <=? high then
        let mid := (low + high) / 2 in
        e ← get array (Z.of_nat base + mid);
        match k_cmp (k_and (k_host a) (mask e)) (net e) with
        | Lt => search_table fuel base low (mid - 1) a nc
        | Gt => search_table fuel base (mid + 1) high a nc
        | Eq =>
            match childs_table e with
            | Some (childs, num) =>
                '(ret, nc) ← cached nc a (search_table fuel childs 0 (num - 1) a nc);
                match ret with
                | None => nc ← networks_cache_insert_k nc (k_addr a) e; Ok (Some e, nc)
                | Some _ => Ok (ret, nc)
                end
            | None => nc ← networks_cache_insert_k nc (k_addr a) e; Ok (Some e, nc)
            end
        end
      else nc ← networks_cache_insert_k nc (k_addr a) dummy_entry; Ok (None, nc)
  end.

End Search.

(** [struct networks_table], the half of one family. *)
Record net_half := mk_half {
  table : option (list (net_entry K));
  num : Z
}.
Definition half0 : net_half := mk_half None 0.

Definition binsearch_k (nt : net_half) (nc : net_cache) (a : list Z) : res (option (net_entry K) * net_cache) :=
  let array := default [] (table nt) in
  cached nc a (search_table array (S (2 * length array)) 0 0 (num nt - 1) a nc).

End Table.
Arguments layout : clear implicits. Arguments net_cache : clear implicits. Arguments net_half : clear implicits.

(** The functions of each family. *)
Definition merge (table : list (net_entry Z)) := merge_table table.
Definition merge6 (table : list (net_entry (list Z))) := merge_table table.
Definition merge_sort (table : list (net_entry Z)) := sort_table table.
Definition merge_sort6 (table : list (net_entry (list Z))) := sort_table table.
Definition networks_cache_insert : net_cache Z -> _ := networks_cache_insert_k.
Definition networks_cache_insert6 : net_cache (list Z) -> _ := networks_cache_insert_k.
Definition networks_cache_search : net_cache Z -> _ := networks_cache_search_k.
Definition networks_cache_search6 : net_cache (list Z) -> _ := networks_cache_search_k.
Definition binsearch : net_half Z -> _ := binsearch_k.
Definition binsearch6 : net_half (list Z) -> _ := binsearch_k.

(** ** Reading the file *)

Section Rows.
Context {ho : host} {K : Type} {F : net_family K}.

(** What reads an address of the family, as its octets in network order. *)
Context (to_addr : list Z -> option (list Z)).

Fixpoint lines_loop (fuel : nat) (content : list Z) : list (list Z) :=
  match fuel, content with
  | S fuel, _ :: _ => let '(line, content) := fgets (Z.to_nat SRVBUFLEN) content in c_string line :: lines_loop fuel content
  | _, _ => []
  end.
(** The rows of the file; a row takes at least one character. *)
Definition lines (content : list Z) : list (list Z) :=
  List.filter (fun l => negb (iscomment l)) (lines_loop (length content) content).

Definition fields (buf : list Z) : nat := length (List.filter (fun c => c =? 44) buf).

(** [TRUE]: blank, a comment after all, or without a slash. The buffer has lost
    its spaces. *)
Definition sanitize_buf (buf : list Z) : bool * list Z :=
  let buf := trim_all_spaces buf in
  (forallb is_space buf || match buf with 33 :: _ => true | _ => false end, buf).
Definition sanitize_buf_net (buf : list Z) : bool * list Z :=
  let '(bad, buf) := sanitize_buf buf in
  (bad || negb (bool_decide (47 ∈ buf)), buf).

(** The text up to the next comma and what follows; the fields were counted. *)
Definition comma (buf : list Z) : list Z * list Z := match split_at 44 buf with Some p => p | None => (buf, []) end.

(** The fields before the network: something that is skipped, the next hop, the
    AS numbers. [e] is the entry of the temporary table, as the row before it
    may have left it. *)
Definition row_nh (n : nat) (buf : list Z) (e : net_entry K) : list Z * net_entry K :=
  if (2 <=? n)%nat then let '(f, buf) := comma buf in (buf, with_nh (snd (str_to_host f (nh e))) e)
  else (buf, with_nh ha0 e).
Definition row_as (n : nat) (buf : list Z) (e : net_entry K) : list Z * net_entry K :=
  if (1 <=? n)%nat then
    let '(f, buf) := comma buf in
    match split_at 95 (* _ *) f with
    | Some (p, a) => (buf, with_ases (u32 (strtoul 10 p)) (u32 (strtoul 10 a)) e)
    | None => (buf, with_ases 0 (u32 (strtoul 10 f)) e)
    end
  else (buf, with_ases 0 0 e).

(** A network and its mask; [None] when the row is no network. *)
Definition row_net (net_ mask_ : list Z) (e : net_entry K) : option (net_entry K) :=
  a ← to_addr net_;
  if forallb is_digit mask_ then
    let index := u32 (atoi mask_) in
    if k_bits K <? index then None
    else Some (mk_net (k_and (k_host a) (k_mask index)) (k_mask index) index (peer_as e) (as_ e) (nh e) (childs_table e))
  else None.

(** One row: whether an entry was completed, and the entry as the row left
    it. *)
Definition row (buf : list Z) (e : net_entry K) : bool * net_entry K :=
  let n := fields buf in
  let buf := if (3 <=? n)%nat then snd (comma buf) else buf in
  let '(buf, e) := row_nh n buf e in
  let '(buf, e) := row_as n buf e in
  let '(bad, buf) := sanitize_buf_net buf in
  if bad then (false, e)
  else
    let '(net_, mask_) := match split_at 47 buf with Some p => p | None => (buf, []) end in
    match row_net net_ mask_ e with
    | Some e => (true, e)
    | None => (false, zero_entry)
    end.

(** The entries of the rows, and the one that was last begun and not
    completed. *)
Fixpoint rows (ls : list (list Z)) (e : net_entry K) : list (net_entry K) * net_entry K :=
  match ls with
  | [] => ([], e)
  | l :: ls =>
      let '(done, e) := row l e in
      if done then let '(es, last) := rows ls zero_entry in (e :: es, last) else rows ls e
  end.

End Rows.

(** ** Loading *)

(** The members of the configuration the functions use. *)
Record net_config := mk_nconf {
  nfacctd_net : Z;
  nfacctd_as : Z;
  networks_file_filter : bool;
  networks_file_no_lpm : bool;
  networks_no_mask_if_zero : bool;
  networks_cache_entries : Z;
  networks_mask : Z;
  what_to_count : Z
}.

Definition has (v f : Z) : bool := negb (Z.land v f =? 0).

(** What the system answers: the content and the time of the file, and whether
    the calls that can fail succeed. *)
Record system := mk_sys {
  fopen : option (list Z);
  st_mtime : Z;
  freopen_ok : bool;
  malloc_table : bool;
  malloc_tmp : bool;
  malloc_mdt : bool;
  malloc_cache : bool
}.

Record networks_table := mk_nt {
  nt4 : net_half Z;
  nt6 : net_half (list Z);
  maskbits : list Z;
  timestamp : Z
}.
Record networks_cache := mk_nc {
  nc4 : net_cache Z;
  nc6 : net_cache (list Z)
}.
(** The globals of net_aggr.c. *)
Record networks := mk_nets {
  nt : networks_table;
  nc : networks_cache;
  default_route_in_networks4_table : bool;
  default_route_in_networks6_table : bool
}.

Definition nt0 : networks_table := mk_nt half0 half0 (replicate 4 0) 0.
Definition nc0 : networks_cache := mk_nc (mk_cache None 0) (mk_cache None 0).
Definition networks0 : networks := mk_nets nt0 nc0 false false.

Section Load.
Context {ho : host} (cfg : net_config) (sys : system).

Section Half.
Context {K : Type} {F : net_family K} (to_addr : list Z -> option (list Z)) (entries : Z).

(** How the load of one family ends: the half of the table and of the cache it
    leaves and whether there is a default route; or [handle_error], with the
    half it leaves. *)
Inductive loaded :=
  | Loaded (h : net_half K) (c : net_cache K) (d : bool)
  | HandleError (h : net_half K) (d : bool).

(** The entries to sort: when there is none, the one the last row began (a
    "zeroed single-row table"), unless the file is a filter. *)
Definition temporary_table (content : list Z) : list (net_entry K) :=
  let '(es, last) := rows to_addr (lines content) zero_entry in
  match es with
  | [] => if networks_file_filter cfg then [] else [last]
  | _ => es
  end.

Definition create_cache (c : net_cache K) : option (net_cache K) :=
  match cache c with
  | Some _ => Some (mk_cache (Some (replicate (Z.to_nat (cache_num c)) (k_zero, None))) (cache_num c))
  | None =>
      let n := if networks_cache_entries cfg =? 0 then entries else u32 (networks_cache_entries cfg) in
      if malloc_cache sys then Some (mk_cache (Some (replicate (Z.to_nat n) (k_zero, None))) n) else None
  end.

Definition load_file (content : list Z) (c : net_cache K) : res loaded :=
  let ls := lines content in
  let fake_row := (length ls =? 0)%nat in
  let count := Nat.max 1 (length ls) in
  if negb (freopen_ok sys) || negb (malloc_table sys) then Ok (HandleError half0 false)
  else
    let cleared := replicate count zero_entry in
    if negb (malloc_tmp sys) then Ok (HandleError (mk_half (Some cleared) 0) false)
    else
      let tmp := temporary_table content in
      let tmp := dedupe (sort_table tmp 0 (length tmp)) in
      if negb (malloc_mdt sys) then Ok (HandleError (mk_half (Some cleared) 0) false)
      else
        let mdt := metadata tmp in
        '(b, final) ← build_table cleared tmp mdt;
        if negb b then Ok (HandleError (mk_half (Some final) (roots mdt)) false)
        else
          let d := negb fake_row && default_route (length tmp) final in
          match create_cache c with
          | None => Ok (HandleError (mk_half (Some final) (roots mdt)) d)
          | Some c => Ok (Loaded (mk_half (Some final) (roots mdt)) c d)
          end.

End Half.
Arguments loaded : clear implicits.

Definition keep : bool := has (nfacctd_net cfg) NF_NET_KEEP && has (nfacctd_as cfg) NF_AS_KEEP.
Definition mtime : Z := match fopen sys with Some _ => st_mtime sys | None => 0 end.

(** The table without the half that is loaded anew. *)
Definition without4 (t : networks_table) : networks_table :=
  if num (nt4 t) =? 0 then t else mk_nt half0 (nt6 t) (maskbits t) 0.
Definition without6 (t : networks_table) : networks_table :=
  if num (nt6 t) =? 0 then t else mk_nt (nt4 t) half0 (maskbits t) 0.

(** [handle_error]: the whole table is replaced by the copy, which has the half
    of one family. *)
Definition handle_error4 (bkt : net_half Z) (s : networks) : res networks :=
  if num bkt =? 0 then Err Exited
  else match table (nt4 (nt s)) with
       | None => Ok (mk_nets (mk_nt bkt half0 (replicate 4 0) mtime) (nc s)
                       (default_route_in_networks4_table s) (default_route_in_networks6_table s))
       | Some _ => Ok s
       end.
Definition handle_error6 (bkt : net_half (list Z)) (s : networks) : res networks :=
  if num bkt =? 0 then Err Exited
  else match table (nt6 (nt s)) with
       | None => Ok (mk_nets (mk_nt half0 bkt (replicate 4 0) mtime) (nc s)
                       (default_route_in_networks4_table s) (default_route_in_networks6_table s))
       | Some _ => Ok s
       end.

Definition load_networks4 (filename : bool) (s : networks) : res networks :=
  let bkt := nt4 (nt s) in
  let t := without4 (nt s) in
  let s := mk_nets t (nc s) false (default_route_in_networks6_table s) in
  if negb filename then Ok s
  else
    match fopen sys with
    | None => if keep then handle_error4 bkt s else Ok s
    | Some content =>
        r ← load_file inet_aton NETWORKS_CACHE_ENTRIES content (nc4 (nc s));
        match r with
        | Loaded h c d =>
            Ok (mk_nets (mk_nt h (nt6 t) (maskbits t) mtime) (mk_nc c (nc6 (nc s))) d (default_route_in_networks6_table s))
        | HandleError h d =>
            let h := match table h with None => nt4 t | Some _ => h end in
            handle_error4 bkt (mk_nets (mk_nt h (nt6 t) (maskbits t) (timestamp t)) (nc s) d (default_route_in_networks6_table s))
        end
    end.

Definition load_networks6 (filename : bool) (s : networks) : res networks :=
  let bkt := nt6 (nt s) in
  let t := without6 (nt s) in
  let s := mk_nets t (nc s) (default_route_in_networks4_table s) false in
  if negb filename then Ok s
  else
    match fopen sys with
    | None => if keep then Err Exited else Ok s
    | Some content =>
        r ← load_file inet_pton6 NETWORKS6_CACHE_ENTRIES content (nc6 (nc s));
        match r with
        | Loaded h c d =>
            Ok (mk_nets (mk_nt (nt4 t) h (maskbits t) mtime) (mk_nc (nc4 (nc s)) c) (default_route_in_networks4_table s) d)
        | HandleError h d =>
            let h := match table h with None => nt6 t | Some _ => h end in
            handle_error6 bkt (mk_nets (mk_nt (nt4 t) h (maskbits t) (timestamp t)) (nc s) (default_route_in_networks4_table s) d)
        end
    end.

Definition load_networks (filename : bool) (s : networks) : res networks :=
  s ← load_networks4 filename s; load_networks6 filename s.

End Load.

End NetAggr.
