(* ===== verification/NetFuncs.v ===== *)
(** * Network functions (net_aggr.c)

    What the networks table does to a packet: [set_net_funcs] picks the
    functions the configuration calls for, in order, and the plugins run them on
    the primitives of every packet. *)

From S2P Require Import Prelude.
From S2P Require Import BgpPrefix.
From S2P Require Import BgpAttr.
From S2P Require Import PretagData.
From S2P Require Import NetAggr.

Module NetFuncs.
Import BgpPrefix(AF_INET, AF_INET6).
Import BgpAttr(host_addr, mk_ha, ha_family, ha_address, ha0).
Import PretagData(and_bytes).
Import NetAggr.

Definition NET_FUNCS_N : nat := 32.
Definition COUNT_SRC_HOST : Z := 0x1.
Definition COUNT_DST_HOST : Z := 0x2.
Definition COUNT_SUM_HOST : Z := 0x4.
Definition COUNT_SRC_NET : Z := 0x100.
Definition COUNT_DST_NET : Z := 0x200.
Definition COUNT_SRC_AS : Z := 0x4000.
Definition COUNT_DST_AS : Z := 0x8000.
Definition COUNT_SUM_NET : Z := 0x10000.
Definition COUNT_SUM_AS : Z := 0x20000.
Definition COUNT_PEER_SRC_AS : Z := 0x80000000.
Definition COUNT_PEER_DST_AS : Z := 0x100000000.
Definition COUNT_PEER_DST_IP : Z := 0x400000000.
Definition COUNT_SRC_NMASK : Z := 0x100000000000.
Definition COUNT_DST_NMASK : Z := 0x200000000000.
Definition NF_AS_NEW : Z := 0x00000002.
Definition NF_AS_FALLBACK : Z := 0x80000000.
Definition NF_NET_NEW : Z := 0x00000002.
Definition NF_NET_STATIC : Z := 0x00000008.
Definition NF_NET_FALLBACK : Z := 0x80000000.

(** ** What the functions work on *)

(** One end of the traffic: the members of [struct pkt_primitives] the
    functions read and write. *)
Record side := mk_side {
  ip : host_addr;
  net_ : host_addr;
  nmask : Z;
  sas : Z
}.
Record pkt_primitives := mk_prims {
  src : side;
  dst : side
}.
Record pkt_bgp_primitives := mk_bgp {
  peer_src_as : Z;
  peer_dst_as : Z;
  peer_dst_ip : host_addr
}.

(** [entry] points to an entry of the family's table. *)
Inductive found := In4 (e : net_entry Z) | In6 (e : net_entry (list Z)).
Record networks_file_data := mk_nfd {
  zero_src_nmask : bool;
  zero_dst_nmask : bool;
  family : Z;
  entry : option found
}.
Definition nfd0 : networks_file_data := mk_nfd false false 0 None.

Record net_state := mk_ns {
  tables : networks;
  prims : pkt_primitives;
  pbgp : option pkt_bgp_primitives;
  nfd : networks_file_data
}.

Definition found_masknum (e : found) : Z := match e with In4 e => masknum e | In6 e => masknum e end.
Definition found_as (e : found) : Z := match e with In4 e => as_ e | In6 e => as_ e end.
Definition found_peer_as (e : found) : Z := match e with In4 e => peer_as e | In6 e => peer_as e end.
Definition found_nh (e : found) : host_addr := match e with In4 e => nh e | In6 e => nh e end.

(** The pointer of [nfd] is read as the family says. *)
Definition entry_of (d : networks_file_data) : option found :=
  if (family d =? AF_INET) || (family d =? AF_INET6) then entry d else None.

(** ** The functions *)

Inductive end_ := Src | Dst.

Definition side_of (x : end_) (p : pkt_primitives) : side := match x with Src => src p | Dst => dst p end.
Definition on_side (x : end_) (f : side -> side) (p : pkt_primitives) : pkt_primitives :=
  match x with Src => mk_prims (f (src p)) (dst p) | Dst => mk_prims (src p) (f (dst p)) end.
Definition with_ip (v : host_addr) (s : side) : side := mk_side v (net_ s) (nmask s) (sas s).
Definition with_net (v : host_addr) (s : side) : side := mk_side (ip s) v (nmask s) (sas s).
Definition with_nmask (v : Z) (s : side) : side := mk_side (ip s) (net_ s) v (sas s).
Definition with_as (v : Z) (s : side) : side := mk_side (ip s) (net_ s) (nmask s) v.

(** The octets of four words in host order. *)
Definition octets (words : list Z) : list Z := concat (map htonl words).

(** The address under a mask: an IPv4 address takes the first word. *)
Definition masked (maskbits : list Z) (s : side) : side :=
  let a := ha_address (ip s) in
  if ha_family (ip s) =? AF_INET then
    with_net (mk_ha AF_INET (and_bytes (take 4 a) (take 4 (octets maskbits)) ++ drop 4 (ha_address (net_ s)))) s
  else if ha_family (ip s) =? AF_INET6 then with_net (mk_ha AF_INET6 (and_bytes a (octets maskbits))) s
  else s.

Section Funcs.
Context (cfg : net_config).

Definition mask_ipaddr (s : side) : side :=
  let m := if networks_no_mask_if_zero cfg && (nmask s =? 0) then 128 else nmask s in
  masked (mask_words 4 m) s.
Definition mask_static_ipaddr (t : networks_table) (s : side) : side := masked (maskbits t) s.

Definition search_ip (x : end_) (s : net_state) : res net_state :=
  let a := ip (side_of x (prims s)) in
  let g := tables s in
  let d := nfd s in
  let found_ family e := mk_nfd (zero_src_nmask d) (zero_dst_nmask d) family e in
  if ha_family a =? AF_INET then
    '(r, c) ← binsearch (nt4 (nt g)) (nc4 (nc g)) (ha_address a);
    Ok (mk_ns (mk_nets (nt g) (mk_nc c (nc6 (nc g))) (default_route_in_networks4_table g) (default_route_in_networks6_table g))
          (prims s) (pbgp s) (found_ AF_INET (option_map In4 r)))
  else if ha_family a =? AF_INET6 then
    '(r, c) ← binsearch6 (nt6 (nt g)) (nc6 (nc g)) (ha_address a);
    Ok (mk_ns (mk_nets (nt g) (mk_nc (nc4 (nc g)) c) (default_route_in_networks4_table g) (default_route_in_networks6_table g))
          (prims s) (pbgp s) (found_ AF_INET6 (option_map In6 r)))
  else Ok (mk_ns g (prims s) (pbgp s) (found_ 0 None)).

(** A host that is in no network is hidden when the file is a filter; an entry
    whose network starts with a zero word counts as none. *)
Definition search_host (g : networks) (d : networks_file_data) (s : side) : side :=
  let hide n := if networks_file_filter cfg
                then with_ip (mk_ha (ha_family (ip s)) (replicate n 0 ++ drop n (ha_address (ip s)))) s else s in
  if family d =? AF_INET then
    match entry d with
    | Some (In4 e) => if (net e =? 0) && negb (default_route_in_networks4_table g) then hide 4%nat else s
    | _ => hide 4%nat
    end
  else if family d =? AF_INET6 then
    match entry d with
    | Some (In6 e) => if (default 0 (net e !! 0%nat) =? 0) && negb (default_route_in_networks6_table g) then hide 16%nat else s
    | _ => hide 16%nat
    end
  else s.

Definition default_route_of (g : networks) (d : networks_file_data) : bool :=
  if family d =? AF_INET then default_route_in_networks4_table g
  else if family d =? AF_INET6 then default_route_in_networks6_table g else false.

(** Whether the mask gives way to a filter, and the mask. *)
Definition nmask_of (g : networks) (d : networks_file_data) (old : Z) : bool * Z :=
  let mask := match entry_of d with Some e => found_masknum e | None => 0 end in
  if negb (has (nfacctd_net cfg) NF_NET_FALLBACK) then (false, mask)
  else
    let m := if networks_file_no_lpm cfg then if mask =? 0 then old else mask
             else if old <? mask then mask else old in
    if networks_file_filter cfg && (mask =? 0) && negb (default_route_of g d) then (true, 0) else (false, m).

(** Whether what the entry says is taken: always, or, when the networks file is
    a fallback, if its mask is good enough. *)
Definition taken (fallback : bool) (d : networks_file_data) (old_nmask : Z) : bool :=
  let mask := match entry_of d with Some e => found_masknum e | None => 0 end in
  negb fallback || (if networks_file_no_lpm cfg then negb (mask =? 0) else old_nmask <=? mask).

Definition search_as (d : networks_file_data) (s : side) : side :=
  if taken (has (nfacctd_as cfg) NF_AS_FALLBACK) d (nmask s)
  then with_as (match entry_of d with Some e => found_as e | None => 0 end) s else s.

Definition search_peer_as (x : end_) (s : net_state) : net_state :=
  let d := nfd s in
  let as_ := match entry_of d with Some e => found_peer_as e | None => 0 end in
  match pbgp s with
  | Some b =>
      if taken (has (nfacctd_as cfg) NF_AS_FALLBACK) d (nmask (side_of x (prims s))) then
        mk_ns (tables s) (prims s)
          (Some (match x with
                 | Src => mk_bgp as_ (peer_dst_as b) (peer_dst_ip b)
                 | Dst => mk_bgp (peer_src_as b) as_ (peer_dst_ip b)
                 end)) d
      else s
  | None => s
  end.

(** [nh] has no value when the family is neither: [junk] is what the stack
    holds. *)
Definition search_peer_dst_ip (junk : host_addr) (s : net_state) : net_state :=
  let d := nfd s in
  let nh := if (family d =? AF_INET) || (family d =? AF_INET6)
            then match entry d with Some e => found_nh e | None => ha0 end else junk in
  match pbgp s with
  | Some b =>
      if taken (has (nfacctd_net cfg) NF_NET_FALLBACK) d (nmask (dst (prims s)))
      then mk_ns (tables s) (prims s) (Some (mk_bgp (peer_src_as b) (peer_dst_as b) nh)) d else s
  | None => s
  end.

(** The pointers [net_funcs] holds. *)
Inductive net_func :=
  | mask_static_src_ipaddr | mask_static_dst_ipaddr | copy_src_mask | copy_dst_mask
  | init_net_funcs
  | search_src_ip | search_src_host | search_src_nmask | search_src_as | search_peer_src_as
  | mask_src_ipaddr | clear_src_net | clear_src_host | clear_src_nmask
  | search_dst_ip | search_dst_host | search_dst_nmask | search_dst_as | search_peer_dst_as | search_peer_dst_ip_f
  | mask_dst_ipaddr | clear_dst_net | clear_dst_host | clear_dst_nmask.

Definition on_prims (f : pkt_primitives -> pkt_primitives) (s : net_state) : res net_state :=
  Ok (mk_ns (tables s) (f (prims s)) (pbgp s) (nfd s)).

Definition search_nmask (x : end_) (s : net_state) : res net_state :=
  let '(z, m) := nmask_of (tables s) (nfd s) (nmask (side_of x (prims s))) in
  let d := nfd s in
  Ok (mk_ns (tables s) (on_side x (with_nmask m) (prims s)) (pbgp s)
        (mk_nfd (match x with Src => zero_src_nmask d || z | Dst => zero_src_nmask d end)
           (match x with Src => zero_dst_nmask d | Dst => zero_dst_nmask d || z end) (family d) (entry d))).

Definition run_func (junk : host_addr) (f : net_func) (s : net_state) : res net_state :=
  let t := nt (tables s) in
  match f with
  | mask_static_src_ipaddr => on_prims (on_side Src (mask_static_ipaddr t)) s
  | mask_static_dst_ipaddr => on_prims (on_side Dst (mask_static_ipaddr t)) s
  | copy_src_mask => on_prims (on_side Src (with_nmask (u8 (networks_mask cfg)))) s
  | copy_dst_mask => on_prims (on_side Dst (with_nmask (u8 (networks_mask cfg)))) s
  | init_net_funcs => Ok (mk_ns (tables s) (prims s) (pbgp s) nfd0)
  | search_src_ip => search_ip Src s
  | search_dst_ip => search_ip Dst s
  | search_src_host => on_prims (on_side Src (search_host (tables s) (nfd s))) s
  | search_dst_host => on_prims (on_side Dst (search_host (tables s) (nfd s))) s
  | search_src_nmask => search_nmask Src s
  | search_dst_nmask => search_nmask Dst s
  | search_src_as => on_prims (on_side Src (search_as (nfd s))) s
  | search_dst_as => on_prims (on_side Dst (search_as (nfd s))) s
  | search_peer_src_as => Ok (search_peer_as Src s)
  | search_peer_dst_as => Ok (search_peer_as Dst s)
  | search_peer_dst_ip_f => Ok (search_peer_dst_ip junk s)
  | mask_src_ipaddr => on_prims (on_side Src mask_ipaddr) s
  | mask_dst_ipaddr => on_prims (on_side Dst mask_ipaddr) s
  | clear_src_net => on_prims (on_side Src (with_net ha0)) s
  | clear_dst_net => on_prims (on_side Dst (with_net ha0)) s
  | clear_src_host => on_prims (on_side Src (with_ip ha0)) s
  | clear_dst_host => on_prims (on_side Dst (with_ip ha0)) s
  | clear_src_nmask => on_prims (on_side Src (with_nmask 0)) s
  | clear_dst_nmask => on_prims (on_side Dst (with_nmask 0)) s
  end.

(** The loop of the plugins: up to the first pointer that is NULL. *)
Fixpoint run_net_funcs (junk : host_addr) (fs : list net_func) (s : net_state) : res net_state :=
  match fs with
  | [] => Ok s
  | f :: fs => s ← run_func junk f s; run_net_funcs junk fs s
  end.

(** ** Which functions are run *)

Definition counts (f : Z) : bool := has (what_to_count cfg) f.
Definition when (b : bool) (f : net_func) : list net_func := if b then [f] else [].

Definition static_mask : bool := has (nfacctd_net cfg) NF_NET_STATIC && negb (networks_mask cfg =? 0).

Definition static_funcs : list net_func :=
  if static_mask then
    when (counts (Z.lor COUNT_SRC_NET COUNT_SUM_NET)) mask_static_src_ipaddr ++
    when (counts (Z.lor COUNT_DST_NET COUNT_SUM_NET)) mask_static_dst_ipaddr ++
    when (counts COUNT_SRC_NMASK) copy_src_mask ++
    when (counts COUNT_DST_NMASK) copy_dst_mask
  else [].

(** [flags]: what makes the network stay. *)
Definition net_step (flags : Z) (keep clear : net_func) : list net_func := [if counts flags then keep else clear].

Definition table_funcs : list net_func :=
  [init_net_funcs; search_src_ip] ++
  when (counts (Z.lor COUNT_SRC_HOST COUNT_SUM_HOST)) search_src_host ++
  when (has (nfacctd_net cfg) NF_NET_NEW) search_src_nmask ++
  when (has (nfacctd_as cfg) NF_AS_NEW && counts (Z.lor COUNT_SRC_AS COUNT_SUM_AS)) search_src_as ++
  when (has (nfacctd_as cfg) NF_AS_NEW && counts COUNT_PEER_SRC_AS) search_peer_src_as ++
  net_step (Z.lor COUNT_SRC_NET COUNT_SUM_NET) mask_src_ipaddr clear_src_net ++
  when (negb (counts (Z.lor COUNT_SRC_HOST COUNT_SUM_HOST))) clear_src_host ++
  when (negb (counts COUNT_SRC_NMASK)) clear_src_nmask ++
  [search_dst_ip] ++
  when (counts (Z.lor COUNT_DST_HOST COUNT_SUM_HOST)) search_dst_host ++
  when (has (nfacctd_net cfg) NF_NET_NEW) search_dst_nmask ++
  when (has (nfacctd_as cfg) NF_AS_NEW && counts (Z.lor COUNT_DST_AS COUNT_SUM_AS)) search_dst_as ++
  when (has (nfacctd_as cfg) NF_AS_NEW && counts COUNT_PEER_DST_AS) search_peer_dst_as ++
  when (has (nfacctd_net cfg) NF_NET_NEW && counts COUNT_PEER_DST_IP) search_peer_dst_ip_f ++
  net_step (Z.lor COUNT_DST_NET COUNT_SUM_NET) mask_dst_ipaddr clear_dst_net ++
  when (negb (counts (Z.lor COUNT_DST_HOST COUNT_SUM_HOST))) clear_dst_host ++
  when (negb (counts COUNT_DST_NMASK)) clear_dst_nmask.

(** No table: masks and clean-up. *)
Definition exit_lane : list net_func :=
  net_step (Z.lor COUNT_SRC_NET COUNT_SUM_NET) mask_src_ipaddr clear_src_net ++
  when (negb (counts (Z.lor COUNT_SRC_HOST COUNT_SUM_HOST))) clear_src_host ++
  net_step COUNT_DST_NET mask_dst_ipaddr clear_dst_net ++
  when (negb (counts (Z.lor COUNT_DST_HOST COUNT_SUM_HOST))) clear_dst_host ++
  when (negb (counts COUNT_SRC_NMASK)) clear_src_nmask ++
  when (negb (counts COUNT_DST_NMASK)) clear_dst_nmask.

Definition set_net_funcs (t : networks_table) : res (list net_func * networks_table) :=
  let t := if static_mask then mk_nt (nt4 t) (nt6 t) (mask_words 4 (networks_mask cfg)) (timestamp t) else t in
  let fs := static_funcs ++ (if (num (nt4 t) =? 0) && (num (nt6 t) =? 0) then exit_lane else table_funcs) in
  _ ← c_assert (length fs <? NET_FUNCS_N)%nat;
  Ok (fs, t).

End Funcs.

(** ** The AS of an address, for the maps *)

(** [l3_proto]: of the family, or neither; [addr]: the address the IP header
    has. *)
Definition search_pretag_as (g : networks) (l3 : Z) (addr : list Z) : res (Z * networks_cache) :=
  if l3 =? AF_INET then
    '(r, c) ← binsearch (nt4 (nt g)) (nc4 (nc g)) addr;
    Ok (match r with Some e => as_ e | None => 0 end, mk_nc c (nc6 (nc g)))
  else if l3 =? AF_INET6 then
    '(r, c) ← binsearch6 (nt6 (nt g)) (nc6 (nc g)) addr;
    Ok (match r with Some e => as_ e | None => 0 end, mk_nc (nc4 (nc g)) c)
  else Ok (0, nc g).

End NetFuncs.
