(* ===== verification/NetKeyFacts.v ===== *)
(** * Networks as intervals

    The words of an address are a number, a network with its mask an interval of
    numbers; of two networks one is inside the other or they are apart. The
    class [net_family_ok] is what both families promise; everything after it is
    proved once. *)

From S2P Require Import Prelude.
From S2P Require Import BgpAttr.
From S2P Require Import NetAggr.

Module NetKeyFacts.
Import BgpAttr(le_u32, le_u16).
Import NetAggr.

(** An address in the union of [struct host_addr]. *)
Definition addr_ok (a : list Z) : Prop := length a = 16%nat /\ bytes_ok a.

Class net_family_ok (K : Type) {F : net_family K} := {
  k_val : K -> Z;
  k_ok : K -> Prop;
  k_bits_range : 0 < k_bits K <= 128;
  k_zero_ok : k_ok k_zero /\ k_val k_zero = 0;
  k_val_range a : k_ok a -> 0 <= k_val a < 2 ^ k_bits K;
  k_cmp_val a b : k_ok a -> k_ok b -> k_cmp a b = (k_val a ?= k_val b);
  k_val_inj a b : k_ok a -> k_ok b -> k_val a = k_val b -> a = b;
  k_and_val a b : k_ok a -> k_ok b -> k_ok (k_and a b) /\ k_val (k_and a b) = Z.land (k_val a) (k_val b);
  k_mask_val i : 0 <= i <= k_bits K -> k_ok (k_mask i) /\ k_val (k_mask i) = 2 ^ k_bits K - 2 ^ (k_bits K - i);
  k_addr_ok a : addr_ok a -> k_ok (k_addr a) /\ k_ok (k_host a);
  k_addr_host a b : addr_ok a -> addr_ok b -> k_addr a = k_addr b -> k_host a = k_host b
}.

(** ** The two families *)

Lemma byte_at_u8 a i : bytes_ok a -> in_u 8 (byte_at a i).
Proof.
  intros H. unfold byte_at. destruct (a !! Z.to_nat i) as [x |] eqn:E; [| done]. by eapply Forall_lookup_1 in E.
Qed.

Lemma ntohl_u32 a : bytes_ok a -> in_u 32 (ntohl a).
Proof.
  intros H. pose proof (byte_at_u8 a 0 H). pose proof (byte_at_u8 a 1 H). pose proof (byte_at_u8 a 2 H). pose proof (byte_at_u8 a 3 H).
  unfold in_u, ntohl, be32 in *. change (2 ^ 8) with 256 in *. change (2 ^ 32) with 4294967296. lia.
Qed.

Lemma le_word_range a : bytes_ok a -> in_u 32 (le_u32 a 0).
Proof.
  intros H. pose proof (byte_at_u8 a 0 H). pose proof (byte_at_u8 a 1 H). pose proof (byte_at_u8 a 2 H). pose proof (byte_at_u8 a 3 H).
  change (in_u 32 (byte_at a 0 + 256 * byte_at a 1 + 65536 * (byte_at a 2 + 256 * byte_at a 3))).
  unfold in_u in *. change (2 ^ 8) with 256 in *. change (2 ^ 32) with 4294967296. lia.
Qed.

(** The octets in one order tell those in the other. *)
Lemma le_u32_ntohl a b : bytes_ok a -> bytes_ok b -> le_u32 a 0 = le_u32 b 0 -> ntohl a = ntohl b.
Proof.
  intros Ha Hb. pose proof (byte_at_u8 a 0 Ha). pose proof (byte_at_u8 a 1 Ha). pose proof (byte_at_u8 a 2 Ha). pose proof (byte_at_u8 a 3 Ha).
  pose proof (byte_at_u8 b 0 Hb). pose proof (byte_at_u8 b 1 Hb). pose proof (byte_at_u8 b 2 Hb). pose proof (byte_at_u8 b 3 Hb).
  change (byte_at a 0 + 256 * byte_at a 1 + 65536 * (byte_at a 2 + 256 * byte_at a 3) =
    byte_at b 0 + 256 * byte_at b 1 + 65536 * (byte_at b 2 + 256 * byte_at b 3) -> ntohl a = ntohl b).
  unfold in_u, ntohl, be32 in *. change (2 ^ 8) with 256 in *. intros E.
  assert (byte_at a 0 = byte_at b 0) by lia. assert (byte_at a 1 = byte_at b 1) by lia. assert (byte_at a 2 = byte_at b 2) by lia. lia.
Qed.

Lemma byte_at_take n a i : (Z.to_nat i < n)%nat -> byte_at (take n a) i = byte_at a i.
Proof. intros H. unfold byte_at. by rewrite lookup_take_lt. Qed.

Lemma le_u32_take a : le_u32 (take 4 a) 0 = le_u32 a 0.
Proof. unfold le_u32, le_u16. by rewrite !byte_at_take by (cbn; lia). Qed.

Lemma bytes_take_drop n m a : bytes_ok a -> bytes_ok (take n (drop m a)).
Proof. intros H. by apply Forall_take, Forall_drop. Qed.

(** A statement about every length of a mask is checked length by length. *)
Lemma upto_spec (n : nat) (P : Z -> bool) i : forallb (fun j => P (Z.of_nat j)) (seq 0 (S n)) = true -> 0 <= i <= Z.of_nat n -> P i = true.
Proof.
  intros H Hi. rewrite forallb_forall in H. specialize (H (Z.to_nat i)). rewrite Z2Nat.id in H by lia. apply H, in_seq. lia.
Qed.

#[export] Instance inet_ok : net_family_ok Z.
Proof.
  refine {| k_val := fun x => x; k_ok := in_u 32 |}.
  - done.
  - done.
  - done.
  - done.
  - done.
  - intros a b Ha Hb. cbn. split; [by apply in_u_land | done].
  - intros i Hi. assert (H : in_u 32 (mask_of i) /\ mask_of i = 2 ^ 32 - 2 ^ (32 - i)); [| done].
    pose proof (upto_spec 32 (fun i => (0 <=? mask_of i) && (mask_of i <? 2 ^ 32) && (mask_of i =? 2 ^ 32 - 2 ^ (32 - i))) i eq_refl Hi) as E.
    apply andb_prop in E as [E E3]. apply andb_prop in E as [E1 E2]. split; [split; [by apply Z.leb_le | by apply Z.ltb_lt] | by apply Z.eqb_eq].
  - intros a [Hl Ha]. split; [by apply le_word_range |]. apply ntohl_u32. by apply (bytes_take_drop 4 0).
  - intros a b [_ Ha] [_ Hb] E. apply le_u32_ntohl; [by apply (bytes_take_drop 4 0) | by apply (bytes_take_drop 4 0) |].
    by rewrite !le_u32_take.
Defined.

(** Four words as one number. *)
Definition val6 (w : list Z) : Z := fold_left (fun v x => v * 2 ^ 32 + x) w 0.
Definition words_ok (w : list Z) : Prop := length w = 4%nat /\ Forall (in_u 32) w.

Lemma testbit_chunks a b n : 0 <= n -> in_u 32 b ->
  Z.testbit (a * 2 ^ 32 + b) n = if n <? 32 then Z.testbit b n else Z.testbit a (n - 32).
Proof.
  intros Hn [Hb1 Hb2]. destruct (Z.ltb_spec n 32).
  - rewrite <- (Z.mod_pow2_bits_low _ 32 n) by lia. f_equal. rewrite Z.add_comm, Z_mod_plus_full. by apply Z.mod_small.
  - replace n with ((n - 32) + 32) at 1 by lia. rewrite <- Z.div_pow2_bits by lia. f_equal.
    rewrite Z.div_add_l by lia. rewrite Z.div_small; lia.
Qed.

Lemma land_chunks a b c d : 0 <= a -> 0 <= c -> in_u 32 b -> in_u 32 d ->
  Z.land (a * 2 ^ 32 + b) (c * 2 ^ 32 + d) = Z.land a c * 2 ^ 32 + Z.land b d /\ in_u 32 (Z.land b d).
Proof.
  intros Ha Hc Hb Hd. assert (Hbd : in_u 32 (Z.land b d)) by by apply in_u_land.
  split; [| done]. apply Z.bits_inj'. intros n Hn. rewrite Z.land_spec, !testbit_chunks, !Z.land_spec by done.
  destruct (n <? 32); by rewrite ?Z.land_spec.
Qed.

Lemma words4 w : words_ok w -> exists a b c d, w = [a; b; c; d] /\ in_u 32 a /\ in_u 32 b /\ in_u 32 c /\ in_u 32 d.
Proof.
  intros [Hl H]. do 4 (destruct w as [| ? w]; [done |]). destruct w; [| done]. rewrite !Forall_cons in H. destruct H as (? & ? & ? & ? & _). by do 4 eexists.
Qed.

Lemma chunks_cmp_lex a b v w : in_u 32 a -> in_u 32 b -> (v * 2 ^ 32 + a ?= w * 2 ^ 32 + b) = match v ?= w with Eq => a ?= b | c => c end.
Proof.
  unfold in_u. intros Ha Hb. destruct (Z.compare_spec v w) as [-> | H | H].
  - rewrite Z.add_compare_mono_l. done.
  - apply Z.compare_lt_iff. nia.
  - apply Z.compare_gt_iff. nia.
Qed.

Lemma ntohl_words_ok a load : (forall w, bytes_ok w -> in_u 32 (load w)) -> addr_ok a -> words_ok (chunks_of load a).
Proof.
  intros Hl [_ Ha]. split; [done |]. unfold chunks_of. apply Forall_map, Forall_true. intros j. by apply Hl, bytes_take_drop.
Qed.

#[export] Instance inet6_ok : net_family_ok (list Z).
Proof.
  refine {| k_val := val6; k_ok := words_ok |}.
  - done.
  - split; [| done]. split; [done |]. by repeat constructor.
  - intros w (a & b & c & d & -> & Ha & Hb & Hc & Hd)%words4. unfold in_u in *. cbn -[Z.pow Z.mul Z.add].
    change (2 ^ 32) with 4294967296 in *. change (2 ^ 128) with 340282366920938463463374607431768211456. lia.
  - intros x y (a & b & c & d & -> & Ha & Hb & Hc & Hd)%words4 (a' & b' & c' & d' & -> & Ha' & Hb' & Hc' & Hd')%words4.
    unfold val6. cbn -[Z.pow Z.mul Z.add Z.compare]. rewrite !chunks_cmp_lex by done. rewrite Z.compare_refl.
    by destruct (a ?= a'), (b ?= b'), (c ?= c'), (d ?= d').
  - intros x y (a & b & c & d & -> & Ha & Hb & Hc & Hd)%words4 (a' & b' & c' & d' & -> & Ha' & Hb' & Hc' & Hd')%words4.
    unfold val6, in_u in *. cbn -[Z.pow Z.mul Z.add]. change (2 ^ 32) with 4294967296 in *. intros E.
    assert (a = a' /\ b = b' /\ c = c' /\ d = d') as (-> & -> & -> & ->) by lia. done.
  - intros x y (a & b & c & d & -> & Ha & Hb & Hc & Hd)%words4 (a' & b' & c' & d' & -> & Ha' & Hb' & Hc' & Hd')%words4.
    pose proof (land_chunks 0 a 0 a' ltac:(lia) ltac:(lia) Ha Ha') as [_ H1].
    pose proof (land_chunks 0 b 0 b' ltac:(lia) ltac:(lia) Hb Hb') as [_ H2].
    pose proof (land_chunks 0 c 0 c' ltac:(lia) ltac:(lia) Hc Hc') as [_ H3].
    pose proof (land_chunks 0 d 0 d' ltac:(lia) ltac:(lia) Hd Hd') as [_ H4].
    split; [split; [done |]; cbn [k_and inet6 zip_with]; by rewrite !Forall_cons |]. unfold val6. cbn -[Z.pow Z.mul Z.add].
    unfold in_u in *.
    rewrite (fun H H' => proj1 (land_chunks _ d _ d' H H' Hd Hd')) by nia. rewrite (fun H H' => proj1 (land_chunks _ c _ c' H H' Hc Hc')) by nia.
    rewrite (fun H H' => proj1 (land_chunks _ b _ b' H H' Hb Hb')) by nia. done.
  - intros i Hi. assert (H : words_ok (mask_words 4 i) /\ val6 (mask_words 4 i) = 2 ^ 128 - 2 ^ (128 - i)); [| done].
    pose proof (upto_spec 128 (fun i => forallb (fun x => (0 <=? x) && (x <? 2 ^ 32)) (mask_words 4 i) && (length (mask_words 4 i) =? 4)%nat &&
      (val6 (mask_words 4 i) =? 2 ^ 128 - 2 ^ (128 - i))) i ltac:(vm_compute; reflexivity) Hi) as E.
    apply andb_prop in E as [E E3]. apply andb_prop in E as [E1 E2]. split; [| by apply Z.eqb_eq].
    split; [by apply Nat.eqb_eq |]. apply Forall_forall. intros x Hx. rewrite forallb_forall in E1.
    specialize (E1 x). unfold in_u. rewrite <- list_elem_of_In in E1. specialize (E1 Hx). lia.
  - intros a Ha. split; (apply ntohl_words_ok; [| done]); [apply le_word_range | apply ntohl_u32].
  - intros a b [_ Ha] [_ Hb] E. cbn in E |- *. injection E as E1 E2 E3 E4.
    f_equal; [| f_equal; [| f_equal; [| f_equal]]]; apply le_u32_ntohl; try (by apply bytes_take_drop);
      by first [apply (bytes_take_drop 4 0) | exact E1 | exact E2 | exact E3 | exact E4].
Defined.

(** ** Intervals *)

(** What the mask leaves of a number. *)
Lemma land_mask w k x : 0 <= k <= w -> 0 <= x < 2 ^ w -> Z.land x (2 ^ w - 2 ^ k) = x - x mod 2 ^ k.
Proof.
  intros Hk Hx. assert (2 ^ w - 2 ^ k = Z.shiftl (Z.ones (w - k)) k) as ->.
  { rewrite Z.shiftl_mul_pow2, Z.ones_equiv by lia. rewrite Z.mul_pred_l, <- Z.pow_add_r by lia. f_equal. f_equal. lia. }
  pose proof (Z.pow_pos_nonneg 2 k ltac:(lia) ltac:(lia)) as Hp. pose proof (Z.div_mod x (2 ^ k) ltac:(lia)) as Hdm.
  assert (0 <= x / 2 ^ k < 2 ^ (w - k)) as Hq.
  { split; [apply Z.div_pos; lia |]. apply Z.div_lt_upper_bound; [lia |]. rewrite <- Z.pow_add_r by lia. replace (k + (w - k)) with w by lia. lia. }
  transitivity (Z.shiftl (x / 2 ^ k) k); [| rewrite Z.shiftl_mul_pow2; lia].
  apply Z.bits_inj'. intros n Hn. rewrite Z.land_spec, !Z.shiftl_spec by lia. destruct (Z.ltb_spec n k).
  - rewrite !(Z.testbit_neg_r _ (n - k)) by lia. apply andb_false_r.
  - rewrite Z.div_pow2_bits by lia. replace (n - k + k) with n by lia. destruct (Z.ltb_spec (n - k) (w - k)).
    + rewrite Z.ones_spec_low by lia. apply andb_true_r.
    + rewrite Z.ones_spec_high, andb_false_r by lia. symmetry. destruct (Z.eq_dec x 0) as [-> |]; [apply Z.testbit_0_l |].
      apply Z.bits_above_log2; [lia |]. apply Z.log2_lt_pow2; [lia |]. apply Z.lt_le_trans with (2 ^ w); [lia |].
      apply Z.pow_le_mono_r; lia.
Qed.

Section Entries.
Context {K : Type} {F : net_family K} {L : net_family_ok K}.

Definition size (e : net_entry K) : Z := 2 ^ (k_bits K - masknum e).
Definition lo (e : net_entry K) : Z := k_val (net e).
Definition hi (e : net_entry K) : Z := lo e + size e.

(** An entry of the temporary table: a network under its mask. *)
Record entry_ok (e : net_entry K) : Prop := mk_entry_ok {
  eo_net : k_ok (net e);
  eo_len : 0 <= masknum e <= k_bits K;
  eo_mask : mask e = k_mask (masknum e);
  eo_under : (size e | lo e);
  eo_leaf : childs_table e = None
}.

Lemma size_pos e : entry_ok e -> 0 < size e.
Proof. intros H. pose proof (eo_len _ H). unfold size. apply Z.pow_pos_nonneg; lia. Qed.

Lemma and_mask_val n m : k_ok n -> 0 <= m <= k_bits K ->
  k_ok (k_and n (k_mask m)) /\ k_val (k_and n (k_mask m)) = k_val n - k_val n mod 2 ^ (k_bits K - m).
Proof.
  intros Hn Hm. destruct (k_mask_val m Hm) as [Hok Hv]. destruct (k_and_val n (k_mask m) Hn Hok) as [Ha Hav].
  split; [done |]. rewrite Hav, Hv. apply land_mask; [lia | by apply k_val_range].
Qed.

Lemma multiple_cmp s v q : 0 < s ->
  match v - v mod s ?= q * s with Lt => v < q * s | Eq => q * s <= v < q * s + s | Gt => q * s + s <= v end.
Proof.
  intros Hs. pose proof (Z.div_mod v s ltac:(lia)) as Hd. pose proof (Z.mod_pos_bound v s Hs) as Hm.
  replace (v - v mod s) with (v / s * s) by lia. set (p := v / s) in *. set (r := v mod s) in *. clearbody p r. subst v.
  destruct (Z.compare_spec (p * s) (q * s)) as [E | E | E]; [lia | |].
  - assert (p < q) by nia. nia.
  - assert (q < p) by nia. nia.
Qed.

(** How the masked number compares to the network tells where the number is. *)
Lemma masked_cmp e n : entry_ok e -> k_ok n ->
  match k_cmp (k_and n (mask e)) (net e) with Lt => k_val n < lo e | Eq => lo e <= k_val n < hi e | Gt => hi e <= k_val n end.
Proof.
  intros He Hn. pose proof (size_pos e He) as Hs. pose proof (eo_under _ He) as [q Hq]. rewrite (eo_mask _ He).
  destruct (and_mask_val n (masknum e) Hn (eo_len _ He)) as [Hok Hv]. rewrite k_cmp_val, Hv by (done || apply He).
  unfold hi. fold (size e). fold (lo e). rewrite Hq. by apply multiple_cmp.
Qed.

Lemma covers_spec e n : entry_ok e -> k_ok n -> covers e n = true <-> lo e <= k_val n < hi e.
Proof.
  intros He Hn. pose proof (masked_cmp e n He Hn) as H. pose proof (size_pos e He). unfold covers, hi in *.
  destruct (k_cmp _ _); split; (done || lia).
Qed.

(** The order of the sort: by network, then by mask. *)
Definition before (x y : net_entry K) : Prop := lo x < lo y \/ (lo x = lo y /\ masknum x < masknum y).
Definition same (x y : net_entry K) : Prop := lo x = lo y /\ masknum x = masknum y.

Lemma size_divide x y : entry_ok x -> entry_ok y -> masknum x <= masknum y -> (size y | size x).
Proof.
  intros Hx Hy H. pose proof (eo_len _ Hx). pose proof (eo_len _ Hy). exists (2 ^ (masknum y - masknum x)). unfold size.
  rewrite <- Z.pow_add_r by lia. f_equal. lia.
Qed.

Lemma between s p q : 0 < s -> p * s < q * s -> q * s < p * s + s -> False.
Proof. intros. assert (p < q) by nia. assert (q < p + 1) by nia. lia. Qed.

Lemma multiple_le s t p q : 0 < s -> 0 < t -> q * s < p * (t * s) + t * s -> q * s + s <= p * (t * s) + t * s.
Proof. intros. assert (q < p * t + t) by nia. nia. Qed.

(** A later network that starts inside a network is inside it, and its mask is
    longer. *)
Lemma inside_before x y : entry_ok x -> entry_ok y -> before x y -> lo y < hi x -> masknum x < masknum y /\ hi y <= hi x.
Proof.
  intros Hx Hy Hb Hin. pose proof (size_pos x Hx) as Sx. pose proof (size_pos y Hy) as Sy. pose proof (eo_under _ Hx) as [qx Hqx].
  pose proof (eo_under _ Hy) as [qy Hqy]. assert (Hm : masknum x < masknum y).
  { destruct Hb as [Hlt | [_ Hm]]; [| done]. destruct (Z.lt_ge_cases (masknum x) (masknum y)) as [| Hge]; [done | exfalso].
    destruct (size_divide y x Hy Hx Hge) as [q Hq]. unfold hi in Hin. apply (between (size x) qx (qy * q)); lia. }
  split; [done |]. destruct (size_divide x y Hx Hy ltac:(lia)) as [q Hq]. unfold hi in *.
  assert (0 < q) by nia. rewrite Hqx, Hqy, Hq. rewrite Hqx, Hqy, Hq in Hin. by apply multiple_le.
Qed.

Lemma same_eq x y : entry_ok x -> entry_ok y -> same x y -> net x = net y /\ mask x = mask y.
Proof. intros Hx Hy [H1 H2]. split; [apply k_val_inj; [apply Hx | apply Hy | done] | by rewrite (eo_mask _ Hx), (eo_mask _ Hy), H2]. Qed.

(** Two networks that have an address in common and masks of one length are
    the same. *)
Lemma cover_same x y n : entry_ok x -> entry_ok y -> k_ok n -> covers x n = true -> covers y n = true -> masknum x = masknum y -> same x y.
Proof.
  intros Hx Hy Hn Cx%covers_spec Cy%covers_spec Hm; try done. split; [| done]. assert (E : size x = size y) by (unfold size; by rewrite Hm).
  pose proof (size_pos x Hx). pose proof (eo_under _ Hx) as [qx Hqx]. pose proof (eo_under _ Hy) as [qy Hqy].
  unfold hi in *. rewrite <- E in *. assert (qx = qy) by nia. congruence.
Qed.

Lemma mask_cmp x y : entry_ok x -> entry_ok y -> k_cmp (mask x) (mask y) = (masknum x ?= masknum y).
Proof.
  intros Hx Hy. pose proof (eo_len _ Hx). pose proof (eo_len _ Hy).
  destruct (k_mask_val (masknum x)) as [Ox Vx]; [done |]. destruct (k_mask_val (masknum y)) as [Oy Vy]; [done |].
  rewrite (eo_mask _ Hx), (eo_mask _ Hy), k_cmp_val, Vx, Vy by done.
  destruct (Z.compare_spec (masknum x) (masknum y)) as [E | E | E].
  - rewrite E. apply Z.compare_refl.
  - apply Z.compare_lt_iff. pose proof (Z.pow_lt_mono_r 2 (k_bits K - masknum y) (k_bits K - masknum x)). lia.
  - apply Z.compare_gt_iff. pose proof (Z.pow_lt_mono_r 2 (k_bits K - masknum x) (k_bits K - masknum y)). lia.
Qed.

Lemma merge_first_spec x y : entry_ok x -> entry_ok y -> merge_first x y = false <-> before y x.
Proof.
  intros Hx Hy. unfold merge_first, before. rewrite mask_cmp, k_cmp_val by (done || apply Hx || apply Hy). fold (lo x) (lo y).
  destruct (Z.compare_spec (lo x) (lo y)); [destruct (Z.compare_spec (masknum x) (masknum y)) | |]; split; (done || lia).
Qed.

Lemma same_net_spec x y : entry_ok x -> entry_ok y -> same_net x y = true <-> same x y.
Proof.
  intros Hx Hy. unfold same_net, same. rewrite mask_cmp, k_cmp_val by (done || apply Hx || apply Hy). fold (lo x) (lo y).
  destruct (Z.compare_spec (lo x) (lo y)), (Z.compare_spec (masknum x) (masknum y)); split; (done || lia).
Qed.

End Entries.

End NetKeyFacts.
