(* ===== verification/NetSortFacts.v ===== *)
(** * The order of the networks table

    [merge_sort] is a stable sort by network and mask, and of the rows with one
    network and one mask [remove_dupes] leaves the last. *)

From S2P Require Import Prelude.
From S2P Require Import NetAggr.
From S2P Require Import NetKeyFacts.

Module NetSortFacts.
Import NetAggr.
Import NetKeyFacts.

Section Sort.
Context {K : Type} {F : net_family K} {L : net_family_ok K}.

Definition upto (x y : net_entry K) : Prop := ~ before y x.

(** The rows of one network and one mask. *)
Definition of_key (n m : Z) (e : net_entry K) : bool := (lo e =? n) && (masknum e =? m).

Lemma of_key_same x y : of_key (lo x) (masknum x) y = true <-> same x y.
Proof. unfold of_key, same. lia. Qed.

Lemma of_key_self x : of_key (lo x) (masknum x) x = true.
Proof. by apply of_key_same. Qed.

(** ** Merging *)

Lemma merge_halves_nil_r v1 : merge_halves v1 [] = v1.
Proof. by destruct v1. Qed.

Lemma merge_halves_cons (x : net_entry K) v1 y v2 :
  merge_halves (x :: v1) (y :: v2) = if merge_first x y then x :: merge_halves v1 (y :: v2) else y :: merge_halves (x :: v1) v2.
Proof. done. Qed.

Lemma merge_perm v1 v2 : merge_halves v1 v2 ≡ₚ v1 ++ v2.
Proof.
  revert v2. induction v1 as [| x v1 IH1]; intros v2; [by destruct v2 |]. induction v2 as [| y v2 IH2].
  - by rewrite merge_halves_nil_r, app_nil_r.
  - rewrite merge_halves_cons. destruct (merge_first x y); [by rewrite IH1 |]. rewrite IH2. by rewrite <- Permutation_middle.
Qed.

(** ** The temporary table's rows *)

Lemma upto_trans x y z : upto x y -> upto y z -> upto x z.
Proof. unfold upto, before. lia. Qed.

Lemma merge_sorted v1 v2 : Forall entry_ok v1 -> Forall entry_ok v2 ->
  StronglySorted upto v1 -> StronglySorted upto v2 -> StronglySorted upto (merge_halves v1 v2).
Proof.
  revert v2. induction v1 as [| x v1 IH1]; intros v2 O1 O2 S1 S2; [by destruct v2 |]. induction v2 as [| y v2 IH2]; [by rewrite merge_halves_nil_r |].
  rewrite merge_halves_cons. apply Forall_cons in O1 as [Ox O1], O2 as [Oy O2].
  apply StronglySorted_inv in S1 as [S1 Hx], S2 as [S2 Hy].
  destruct (merge_first x y) eqn:E; constructor.
  - apply IH1; [done | by constructor | done | by constructor].
  - rewrite merge_perm. apply Forall_app. split; [done |]. assert (Hxy : upto x y).
    { intros Hb. apply merge_first_spec in Hb; [congruence | done | done]. }
    constructor; [done |]. eapply Forall_impl; [exact Hy |]. intros z. by apply upto_trans.
  - by apply IH2.
  - rewrite merge_perm. apply merge_first_spec in E; [| done | done]. assert (Hyx : upto y x) by (unfold upto, before in *; lia).
    apply Forall_app. split; [| done]. constructor; [done |]. eapply Forall_impl; [exact Hx |]. intros z. by apply upto_trans.
Qed.

Lemma filter_none (P : net_entry K -> bool) l : Forall (fun x => P x = false) l -> List.filter P l = [].
Proof. induction 1 as [| x l E _ IH]; [done |]. cbn. by rewrite E. Qed.

Lemma merge_stable n m v1 v2 : Forall entry_ok v1 -> Forall entry_ok v2 -> StronglySorted upto v1 ->
  List.filter (of_key n m) (merge_halves v1 v2) = List.filter (of_key n m) v1 ++ List.filter (of_key n m) v2.
Proof.
  revert v2. induction v1 as [| x v1 IH1]; intros v2 O1 O2 S1; [by destruct v2 |].
  induction v2 as [| y v2 IH2]; [by rewrite merge_halves_nil_r, app_nil_r |]. rewrite merge_halves_cons.
  pose proof O1 as O1'. apply Forall_cons in O1' as [Ox Ov1]. apply Forall_cons in O2 as [Oy O2].
  pose proof S1 as S1'. apply StronglySorted_inv in S1' as [Sv1 Hx]. destruct (merge_first x y) eqn:E.
  - cbn [List.filter]. rewrite IH1 by (done || by constructor). by destruct (of_key n m x).
  - cbn [List.filter] in *. rewrite IH2 by done. destruct (of_key n m y) eqn:Ey; [| done].
    apply merge_first_spec in E; [| done | done]. assert (Hn : Forall (fun z => of_key n m z = false) (x :: v1)).
    { assert (Hz : forall z, upto x z -> of_key n m z = false) by (intros z; unfold of_key, upto, before in *; lia).
      constructor; [apply Hz; unfold upto, before; lia |]. eapply Forall_impl; [exact Hx | done]. }
    pose proof (filter_none _ _ Hn) as Hf. cbn [List.filter] in Hf. by rewrite Hf.
Qed.

(** ** Sorting *)

(** [r] is the rows of [seg], sorted, rows of one key in the order they had. *)
Definition sorted_of (seg r : list (net_entry K)) : Prop :=
  r ≡ₚ seg /\ StronglySorted upto r /\ forall n m, List.filter (of_key n m) r = List.filter (of_key n m) seg.

Lemma sorted_of_merge s1 s2 r1 r2 : Forall entry_ok s1 -> Forall entry_ok s2 ->
  sorted_of s1 r1 -> sorted_of s2 r2 -> sorted_of (s1 ++ s2) (merge_halves r1 r2).
Proof.
  intros O1 O2 (P1 & S1 & F1) (P2 & S2 & F2). assert (Or1 : Forall entry_ok r1) by by rewrite P1.
  assert (Or2 : Forall entry_ok r2) by by rewrite P2. split; [by rewrite merge_perm, P1, P2 |].
  split; [by apply merge_sorted |]. intros n m. rewrite merge_stable, F1, F2 by done. by rewrite List.filter_app.
Qed.

Lemma merge_table_app (a r1 r2 b : list (net_entry K)) :
  merge_table (a ++ r1 ++ r2 ++ b) (length a) (length a + length r1) (length a + length r1 + length r2) = a ++ merge_halves r1 r2 ++ b.
Proof.
  unfold merge_table. rewrite take_app_length, drop_app_length.
  replace (length a + length r1 - length a)%nat with (length r1) by lia.
  replace (length a + length r1 + length r2 - (length a + length r1))%nat with (length r2) by lia.
  rewrite take_app_length. rewrite (app_assoc a r1), <- (length_app a r1), drop_app_length, take_app_length.
  rewrite (app_assoc (a ++ r1) r2), <- length_app, drop_app_length. done.
Qed.

Lemma sort_loop_spec fuel a seg b : (length seg <= fuel)%nat -> Forall entry_ok seg ->
  exists r, sort_loop fuel (a ++ seg ++ b) (length a) (length a + length seg) = a ++ r ++ b /\ sorted_of seg r.
Proof.
  revert a seg b. induction fuel as [| fuel IH]; intros a seg b Hf Ho; cbn [sort_loop].
  - exists seg. split; [done |]. destruct seg; [| cbn in Hf; lia]. by repeat split; try constructor.
  - set (s := length a). destruct ((s =? s + length seg)%nat || (S s =? s + length seg)%nat) eqn:E.
    + exists seg. split; [done |]. split; [done |]. split; [| done].
      destruct seg as [| x [| y seg]]; [constructor | by repeat constructor |]. exfalso. cbn [length] in E.
      apply orb_prop in E as [E%Nat.eqb_eq | E%Nat.eqb_eq]; lia.
    + apply orb_false_elim in E as [N1%Nat.eqb_neq N2%Nat.eqb_neq]. set (mid := ((s + (s + length seg)) / 2)%nat). assert (Hm : (s < mid < s + length seg)%nat).
      { unfold mid. pose proof (Nat.div_mod (s + (s + length seg)) 2). pose proof (Nat.mod_upper_bound (s + (s + length seg)) 2). lia. }
      set (k := (mid - s)%nat). assert (Hmid : mid = (s + k)%nat) by (unfold k; lia).
      set (s1 := take k seg). set (s2 := drop k seg). assert (Hs : seg = s1 ++ s2) by (symmetry; apply take_drop).
      assert (L1 : length s1 = k) by (unfold s1; rewrite length_take; unfold k; lia).
      assert (L2 : length s2 = (length seg - k)%nat) by (unfold s2; by rewrite length_drop).
      rewrite Hs in Ho. apply Forall_app in Ho as [Ho1 Ho2].
      destruct (IH a s1 (s2 ++ b) ltac:(unfold k in *; lia) Ho1) as (r1 & E1 & H1).
      pose proof (Permutation_length (proj1 H1)) as Lr1.
      destruct (IH (a ++ r1) s2 b ltac:(unfold k in *; lia) Ho2) as (r2 & E2 & H2).
      pose proof (Permutation_length (proj1 H2)) as Lr2. exists (merge_halves r1 r2). split; [| rewrite Hs; by apply sorted_of_merge].
      replace (a ++ seg ++ b) with (a ++ s1 ++ s2 ++ b) by (rewrite Hs, <- app_assoc; done).
      rewrite Hmid, <- L1. fold s in E1. rewrite E1. rewrite length_app, <- app_assoc, Lr1 in E2.
      replace (s + length seg)%nat with (length a + length s1 + length s2)%nat by (unfold s; lia). unfold s. rewrite E2.
      rewrite <- !app_assoc. rewrite <- Lr1, <- Lr2. apply merge_table_app.
Qed.

(** [merge_sort] sorts, and keeps the order of equal rows. *)
Lemma sort_table_spec l : Forall entry_ok l -> sorted_of l (sort_table l 0 (length l)).
Proof.
  intros Ho. unfold sort_table. rewrite Nat.sub_0_r.
  destruct (sort_loop_spec (length l) [] l [] (le_n _) Ho) as (r & E & H). cbn in E. rewrite !app_nil_r in E. by rewrite E.
Qed.

(** ** Duplicates *)

Lemma last_filter_cons (P : net_entry K -> bool) x l : last (List.filter P (x :: l)) =
  match last (List.filter P l) with Some y => Some y | None => if P x then Some x else None end.
Proof.
  cbn. destruct (P x); [| by destruct (last _)]. rewrite last_cons. by destruct (last (List.filter P l)).
Qed.

Lemma dedupe_subset l x : x ∈ dedupe l -> x ∈ l.
Proof.
  induction l as [| y l IH]; [done |]. destruct l as [| z l]; [done |]. change (dedupe (y :: z :: l)) with
    (if same_net y z then dedupe (z :: l) else y :: dedupe (z :: l)).
  destruct (same_net y z); [by right; apply IH |]. rewrite elem_of_cons. intros [-> | H]; [by left | right; by apply IH].
Qed.

(** What remains is in strict order, and is the last row of its key. *)
Lemma dedupe_spec l : Forall entry_ok l -> StronglySorted upto l ->
  StronglySorted before (dedupe l) /\ forall n m x, last (List.filter (of_key n m) l) = Some x <-> x ∈ dedupe l /\ of_key n m x = true.
Proof.
  induction l as [| x l IH]; intros Ho Hs; [split; [constructor |]; intros n m x; split; [done | by intros [?%elem_of_nil _]] |].
  apply Forall_cons in Ho as [Hx Ho]. apply StronglySorted_inv in Hs as [Hs Hle]. destruct (IH Ho Hs) as [IHs IHm]. clear IH.
  destruct l as [| y l].
  - split; [by repeat constructor |]. intros n m z. cbn. rewrite list_elem_of_singleton.
    destruct (of_key n m x) eqn:E; cbn; split; intros H; try done; [injection H as ->; done | by destruct H as [-> _] | by destruct H as [-> H]; congruence].
  - change (dedupe (x :: y :: l)) with (if same_net x y then dedupe (y :: l) else x :: dedupe (y :: l)).
    apply Forall_cons in Hle as [Hxy Hle]. pose proof Ho as Ho'. apply Forall_cons in Ho' as [Hy Ho'].
    destruct (same_net x y) eqn:E.
    + apply same_net_spec in E; [| done | done]. split; [done |]. intros n m z. rewrite <- IHm, last_filter_cons.
      destruct (last (List.filter (of_key n m) (y :: l))) as [w |] eqn:El; [done |].
      destruct (of_key n m x) eqn:Ex; [exfalso | done]. assert (Ey : of_key n m y = true) by (unfold of_key, same in *; lia).
      rewrite last_filter_cons, Ey in El. by destruct (last _).
    + assert (Hb : before x y).
      { destruct (same_net_spec x y Hx Hy) as [_ Hsame]. unfold upto, before, same in *.
        destruct (Z.eq_dec (lo x) (lo y)), (Z.eq_dec (masknum x) (masknum y)); try lia. rewrite Hsame in E by done. done. }
      apply StronglySorted_inv in Hs as [_ Hyl].
      assert (Hall : Forall (before x) (y :: l)).
      { constructor; [done |]. eapply Forall_impl; [exact Hyl |]. intros z. unfold upto, before in *. lia. }
      split. { constructor; [done |]. apply Forall_forall. intros z Hz%dedupe_subset. rewrite Forall_forall in Hall. by apply Hall. }
      intros n m z. rewrite last_filter_cons, elem_of_cons. destruct (of_key n m x) eqn:Ex.
      * assert (Hn : List.filter (of_key n m) (y :: l) = []).
        { apply filter_none. eapply Forall_impl; [exact Hall |]. intros w. unfold before, of_key in *. lia. }
        rewrite Hn. cbn. split; [intros [= ->]; by split; [left |] |]. intros [[-> | Hz] Hk]; [done |]. exfalso.
        assert (Hl : last (List.filter (of_key n m) (y :: l)) = Some z) by by apply IHm. by rewrite Hn in Hl.
      * transitivity (last (List.filter (of_key n m) (y :: l)) = Some z); [by destruct (last _) |].
        rewrite IHm. split; [intros [? ?]; split; [by right | done] |]. intros [[-> | ?] ?]; [congruence | done].
Qed.

End Sort.

End NetSortFacts.
