(* ===== verification/NetTreeFacts.v ===== *)
(** * Networks inside networks

    A sorted table is the flattening of a forest whose nodes are networks and
    whose children are the networks inside them. The levels and the counters of
    children [load_networks] computes are those of the forest, and the array it
    fills holds the forest: the children of a node side by side. *)

From S2P Require Import Prelude.
From S2P Require Import NetAggr.
From S2P Require Import NetKeyFacts.

Module NetTreeFacts.
Import NetAggr.
Import NetKeyFacts.

Section Forest.
Context {K : Type} {F : net_family K} {L : net_family_ok K}.

Inductive forest :=
  | Nil
  | Node (e : net_entry K) (inner after : forest).

Fixpoint flatten (f : forest) : list (net_entry K) :=
  match f with Nil => [] | Node e i a => e :: flatten i ++ flatten a end.
Fixpoint count (f : forest) : nat := match f with Nil => 0 | Node _ _ a => S (count a) end.
Fixpoint nodes (f : forest) : nat := match f with Nil => 0 | Node _ i a => S (nodes i + nodes a) end.
(** The nodes that are not roots. *)
Fixpoint below (f : forest) : nat := match f with Nil => 0 | Node _ i a => nodes i + below a end.

Lemma nodes_split f : nodes f = (count f + below f)%nat.
Proof. induction f; cbn; lia. Qed.

Lemma length_flatten f : length (flatten f) = nodes f.
Proof. induction f; cbn; [done |]. rewrite length_app. lia. Qed.

(** The roots lie one after the other between [l] and [h] and have masks of
    length [m] at least; what is inside a root has a longer mask. *)
Fixpoint wf (m l h : Z) (f : forest) : Prop :=
  match f with
  | Nil => True
  | Node e i a => entry_ok e /\ m <= masknum e /\ l <= lo e /\ hi e <= h /\ wf (masknum e + 1) (lo e) (hi e) i /\ wf m (hi e) h a
  end.

Definition in_range (m l h : Z) (x : net_entry K) : Prop := entry_ok x /\ m <= masknum x /\ l <= lo x /\ hi x <= h.

Lemma wf_range f : forall m l h, wf m l h f -> Forall (in_range m l h) (flatten f).
Proof.
  induction f as [| e i IHi a IHa]; intros m l h; [constructor |]. intros (He & Hm & Hl & Hh & Hi & Ha). cbn.
  assert (lo e < hi e) by (pose proof (size_pos e He); unfold hi; lia). constructor; [done |]. apply Forall_app. split.
  - eapply Forall_impl; [exact (IHi _ _ _ Hi) |]. intros x (? & ? & ? & ?). split_and!; (done || lia).
  - eapply Forall_impl; [exact (IHa _ _ _ Ha) |]. intros x (? & ? & ? & ?). split_and!; (done || lia).
Qed.

Lemma split_sorted (h : Z) (l : list (net_entry K)) : StronglySorted before l ->
  exists l1 l2, l = l1 ++ l2 /\ Forall (fun x => lo x < h) l1 /\ Forall (fun x => h <= lo x) l2.
Proof.
  induction 1 as [| x l Hs (l1 & l2 & -> & H1 & H2) Hx]; [by exists [], [] |]. destruct (Z.lt_ge_cases (lo x) h).
  - exists (x :: l1), l2. by split_and!; try constructor.
  - exists [], (x :: l1 ++ l2). repeat split; [done |]. constructor; [done |]. eapply Forall_impl; [exact Hx |].
    intros y. unfold before. cbn. lia.
Qed.

(** Every sorted table without duplicates comes from a forest. *)
Lemma forest_exists n : forall l m a b, (length l <= n)%nat -> StronglySorted before l -> Forall (in_range m a b) l ->
  exists f, flatten f = l /\ wf m a b f.
Proof.
  induction n as [| n IH]; intros l m a b Hn Hs Hr.
  { exists Nil. destruct l; [done | cbn in Hn; lia]. }
  destruct l as [| e l]; [by exists Nil |]. apply StronglySorted_inv in Hs as [Hs He].
  apply Forall_cons in Hr as [(Oe & Hm & Ha & Hb) Hr]. destruct (split_sorted (hi e) l Hs) as (l1 & l2 & -> & H1 & H2).
  cbn in Hn. rewrite length_app in Hn. apply StronglySorted_app in Hs as (_ & S1 & S2). apply Forall_app in He as [He1 He2], Hr as [Hr1 Hr2].
  destruct (IH l1 (masknum e + 1) (lo e) (hi e)) as (fi & Ei & Wi); [lia | done | |].
  { rewrite !Forall_forall in *. intros x Hx. destruct (Hr1 x Hx) as (Ox & _ & _ & _). specialize (He1 x Hx). specialize (H1 x Hx).
    destruct (inside_before e x Oe Ox He1 H1). unfold in_range, before in *. split_and!; (done || lia). }
  destruct (IH l2 m (hi e) b) as (fa & Ea & Wa); [lia | done | |].
  { rewrite !Forall_forall in *. intros x Hx. destruct (Hr2 x Hx) as (Ox & ? & ? & ?). specialize (H2 x Hx). by split_and!. }
  exists (Node e fi fa). split; [cbn; by rewrite Ei, Ea |]. by split_and!.
Qed.

(** ** Levels and children *)

Fixpoint meta (lv : Z) (f : forest) : list (Z * Z) :=
  match f with Nil => [] | Node e i a => (lv, Z.of_nat (count i)) :: meta (lv + 1) i ++ meta lv a end.

Lemma length_meta f : forall lv, length (meta lv f) = nodes f.
Proof. induction f; intros; cbn; [done |]. rewrite length_app. auto. Qed.

Lemma inside_app e l1 l2 lv ms : Forall (fun x => covers e (net x) = true) l1 -> Forall (fun x => covers e (net x) = false) l2 ->
  fst (inside e (l1 ++ l2) (replicate (length l1) lv ++ ms)) = replicate (length l1) (u8 (lv + 1)) ++ ms.
Proof.
  intros H1 H2. induction H1 as [| x l1 Hx _ IH]; cbn [app length replicate inside].
  - revert ms. induction H2 as [| y l2 Hy _ IH]; intros [| z ms]; cbn; try done. rewrite Hy. destruct (k_stops K); [done |].
    specialize (IH ms). destruct (inside e l2 ms). cbn in *. by rewrite IH.
  - rewrite Hx. destruct (inside e (l1 ++ l2) _). cbn in *. by rewrite IH.
Qed.

(** Step 4a computes the levels. *)
Lemma hierarchy_levels f : forall m l h lv l2 ms, wf m l h f -> 0 <= lv <= m -> Forall (fun x => entry_ok x /\ h <= lo x) l2 ->
  map fst (hierarchy (flatten f ++ l2) (replicate (nodes f) lv ++ ms)) = map fst (meta lv f) ++ map fst (hierarchy l2 ms).
Proof.
  induction f as [| e i IHi a IHa]; intros m l h lv l2 ms Hw Hlv H2; [done |]. destruct Hw as (He & Hm & Hl & Hh & Hi & Ha).
  pose proof (eo_len _ He) as Hlen. pose proof (k_bits_range (K := K)) as Hbits. pose proof (wf_range _ _ _ _ Hi) as Ri. pose proof (wf_range _ _ _ _ Ha) as Ra.
  cbn [flatten nodes replicate app]. rewrite <- app_assoc, replicate_add, <- app_assoc. cbn [hierarchy].
  pose proof (inside_app e (flatten i) (flatten a ++ l2) lv (replicate (nodes a) lv ++ ms)) as Hin. rewrite length_flatten in Hin.
  destruct (inside e _ _) as [ls n]. cbn [fst] in Hin. cbn [map fst]. rewrite Hin.
  - unfold u8. rewrite (wrap_small 8 (lv + 1)) by (unfold in_u; lia). rewrite (IHi (masknum e + 1) (lo e) (hi e)); [| done | lia |].
    + rewrite (IHa m (hi e) h); [| done | lia | done]. cbn [meta map fst app]. by rewrite map_app, <- app_assoc.
    + apply Forall_app. split.
      * eapply Forall_impl; [exact Ra |]. by intros x (? & ? & ? & ?).
      * eapply Forall_impl; [exact H2 |]. intros x [? ?]. split; [done | lia].
  - eapply Forall_impl; [exact Ri |]. intros x (Ox & ? & ? & Hx). apply covers_spec; [done | apply Ox |].
    pose proof (size_pos x Ox). unfold hi in Hx |- *. fold (lo x). lia.
  - assert (Hno : forall x, entry_ok x -> hi e <= lo x -> covers e (net x) = false).
    { intros x Ox Hx. apply not_true_is_false. intros Hc%covers_spec; [| done | apply Ox]. fold (lo x) in Hc. lia. }
    apply Forall_app. split.
    + eapply Forall_impl; [exact Ra |]. intros x (? & ? & ? & ?). by apply Hno.
    + eapply Forall_impl; [exact H2 |]. intros x [? ?]. apply Hno; [done | lia].
Qed.

(** Nothing after the children of a node is counted as its child. *)
Definition no_childs (lv : Z) (rest : list (Z * Z)) : Prop := forall k, lv <= k -> direct_childs k (map fst rest) = 0.

Lemma no_childs_meta f : forall lv rest, no_childs lv rest -> no_childs lv (meta lv f ++ rest).
Proof.
  induction f as [| e i IHi a IHa]; intros lv rest Hr; [done |]. intros k Hk. cbn [meta app map fst direct_childs].
  destruct (k =? lv) eqn:E; [done |]. replace (k =? lv - 1) with false by lia. rewrite Z.add_0_l, <- app_assoc.
  apply IHi; [| lia]. intros j Hj. apply IHa; [done | lia].
Qed.

Lemma direct_childs_meta f : forall lv rest, direct_childs lv (map fst (meta (lv + 1) f ++ rest)) = Z.of_nat (count f) + direct_childs lv (map fst rest).
Proof.
  assert (Hdeep : forall g lv k rest, lv < k -> direct_childs lv (map fst (meta (k + 1) g ++ rest)) = direct_childs lv (map fst rest)).
  { intros g. induction g as [| e i IHi a IHa]; intros lv k rest Hk; [done |]. cbn [meta app map fst direct_childs].
    replace (lv =? k + 1) with false by lia. replace (lv =? k + 1 - 1) with false by lia.
    rewrite Z.add_0_l, <- app_assoc, IHi by lia. by apply IHa. }
  induction f as [| e i IHi a IHa]; intros lv rest; [done |]. cbn [meta app map fst direct_childs count].
  replace (lv =? lv + 1) with false by lia. replace (lv =? lv + 1 - 1) with true by lia.
  rewrite <- app_assoc, Hdeep by lia. rewrite IHa. lia.
Qed.

(** Step 4c only looks at the levels, and leaves the number of children. *)
Lemma adjust_fst m1 m2 : map fst m1 = map fst m2 -> adjust_childs m1 = adjust_childs m2.
Proof.
  revert m2. induction m1 as [| [l n] m1 IH]; intros [| [l' n'] m2]; try done. cbn. intros [= -> E]. by rewrite E, (IH m2).
Qed.

Lemma adjust_meta f : forall lv rest, no_childs lv rest -> adjust_childs (meta lv f ++ rest) = meta lv f ++ adjust_childs rest.
Proof.
  induction f as [| e i IHi a IHa]; intros lv rest Hr; [done |]. cbn [meta app adjust_childs]. rewrite <- !app_assoc.
  pose proof (no_childs_meta a lv rest Hr) as Hn. rewrite direct_childs_meta, Hn, Z.add_0_r by lia. f_equal.
  rewrite IHi; [| intros k Hk; apply Hn; lia]. by rewrite IHa.
Qed.

(** The metadata of a sorted table. *)
Lemma metadata_meta f m l h : wf m l h f -> 0 <= m -> metadata (flatten f) = meta 0 f.
Proof.
  intros Hw Hm. unfold metadata. rewrite length_flatten. pose proof (hierarchy_levels f m l h 0 [] [] Hw ltac:(lia) ltac:(constructor)) as E.
  rewrite !app_nil_r in E. rewrite (adjust_fst _ (meta 0 f)) by done. pose proof (adjust_meta f 0 []) as A.
  rewrite !app_nil_r in A. by apply A.
Qed.

Lemma roots_meta f : roots (meta 0 f) = Z.of_nat (count f).
Proof.
  assert (Hdeep : forall g lv, 0 < lv -> List.filter (fun m : Z * Z => fst m =? 0) (meta lv g) = []).
  { intros g. induction g as [| e i IHi a IHa]; intros lv Hlv; [done |]. cbn [meta List.filter fst].
    replace (lv =? 0) with false by lia. by rewrite List.filter_app, IHi, IHa by lia. }
  unfold roots. f_equal. induction f as [| e i IHi a IHa]; [done |]. cbn [meta List.filter fst Z.eqb length count].
  rewrite List.filter_app, (Hdeep i) by lia. cbn. by rewrite IHa.
Qed.

(** ** The array *)

(** The array holds the forest: its roots from [c] on, what is inside them from
    [n] on. *)
Fixpoint rep (arr : list (net_entry K)) (c n : nat) (f : forest) : Prop :=
  match f with
  | Nil => True
  | Node e i a =>
      arr !! c = Some (with_childs (match i with Nil => None | _ => Some (n, Z.of_nat (count i)) end) e) /\
      rep arr n (n + count i) i /\ rep arr (S c) (n + nodes i) a
  end.

Definition same_on (P : nat -> Prop) (a b : list (net_entry K)) : Prop := forall j, P j -> b !! j = a !! j.

Lemma rep_frame f : forall a b c n,
  same_on (fun j => (c <= j < c + count f)%nat \/ (n <= j < n + below f)%nat) a b -> rep a c n f -> rep b c n f.
Proof.
  induction f as [| e i IHi x IHx]; intros a b c n Hs; [done |]. cbn [rep count below] in *. intros (H0 & Hi & Hx).
  pose proof (nodes_split i) as Ni. split; [rewrite Hs by lia; done |]. split.
  - apply (IHi a); [| done]. intros j Hj. apply Hs. lia.
  - apply (IHx a); [| done]. intros j Hj. apply Hs. lia.
Qed.

Lemma entry_get_ok {A} (l : list A) (i : nat) x : l !! i = Some x -> get l (Z.of_nat i) = Ok x.
Proof. intros H. unfold get. rewrite (proj2 (Z.ltb_ge _ _)) by lia. by rewrite Nat2Z.id, H. Qed.

Lemma entry_set_ok {A} (l : list A) (i : nat) x : (i < length l)%nat -> set l (Z.of_nat i) x = Ok (<[i := x]> l).
Proof.
  intros H. destruct (lookup_lt_is_Some_2 l i H) as [y Hy]. unfold set. by rewrite (entry_get_ok _ _ y Hy), bind_Ok, Nat2Z.id.
Qed.

(** After the nodes of level [lv] up to slot [c]. *)
Definition after_level (lv c : nat) (s : layout K) : Prop :=
  (fst (lt_last s) = Z.of_nat lv /\ lt_current s = Z.of_nat c) \/
  (Z.of_nat lv < fst (lt_last s) /\ lt_prev s !! lv = Some (Some (Z.of_nat c))).

Lemma after_place lv c s : after_level lv c s ->
  place (Z.of_nat lv) s = Ok (Some (mk_layout (lt_table s) (Z.of_nat (S c)) (lt_next s) (lt_prev s) (lt_last s))).
Proof.
  intros H. unfold place. destruct s as [tb cur nxt prev [pl pc]]. unfold after_level in H. cbn [lt_last lt_table lt_current lt_next lt_prev fst] in *.
  destruct H as [[-> ->] | [H Hp]].
  - rewrite Z.eqb_refl. by replace (Z.of_nat c + 1) with (Z.of_nat (S c)) by lia.
  - replace (Z.of_nat lv =? pl) with false by lia. replace (pl <? Z.of_nat lv) with false by lia.
    rewrite (entry_get_ok _ _ _ Hp), bind_Ok. by replace (Z.of_nat c + 1) with (Z.of_nat (S c)) by lia.
Qed.

(** The loop from where the first row has its place. *)
Definition placed (rows : list (net_entry K * (Z * Z))) (s : layout K) : res (bool * layout K) :=
  match rows with [] => Ok (true, s) | (e, m) :: rows => s ← fill e m s; build_loop rows s end.

Lemma build_placed e m rows s s1 : place (fst m) s = Ok (Some s1) -> build_loop ((e, m) :: rows) s = placed ((e, m) :: rows) s1.
Proof. intros E. cbn [build_loop placed]. by rewrite E. Qed.

(** What laying out a forest at slot [c] leaves. *)
Record laid (lv c n : nat) (f : forest) (s1 s' : layout K) : Prop := mk_laid {
  ld_rep : rep (lt_table s') c n f;
  ld_next : lt_next s' = Z.of_nat (n + below f);
  ld_len : length (lt_table s') = length (lt_table s1);
  ld_prev_len : length (lt_prev s') = 128%nat;
  ld_same : same_on (fun j => ~ (c <= j < c + count f)%nat /\ ~ (n <= j < n + below f)%nat) (lt_table s1) (lt_table s');
  ld_prev : forall j, (j < lv)%nat -> lt_prev s' !! j = lt_prev s1 !! j;
  ld_after : after_level lv (c + count f - 1) s'
}.

(** [s1] has place for the roots of [f] from [c] on, and for the rest from [n]
    on. *)
Record ready (c n : nat) (f : forest) (s1 : layout K) : Prop := mk_ready {
  rd_current : lt_current s1 = Z.of_nat c;
  rd_next : lt_next s1 = Z.of_nat n;
  rd_room : (c + count f <= n)%nat;
  rd_len : (n + below f <= length (lt_table s1))%nat;
  rd_prev : length (lt_prev s1) = 128%nat
}.

(** The rows of a forest are laid out, whatever follows. *)
Definition lays (f : forest) : Prop :=
  forall m l h lv c n s1 rest, wf m l h f -> Z.of_nat lv <= m -> ready c n f s1 -> f <> Nil ->
  exists s', placed (zip (flatten f) (meta (Z.of_nat lv) f) ++ rest) s1 = build_loop rest s' /\ laid lv c n f s1 s'.

Lemma zip_node e i a lv : zip (flatten (Node e i a)) (meta lv (Node e i a)) =
  (e, (lv, Z.of_nat (count i))) :: zip (flatten i) (meta (lv + 1) i) ++ zip (flatten a) (meta lv a).
Proof.
  rewrite <- zip_with_app by (by rewrite length_flatten, length_meta). done.
Qed.

Lemma with_childs_leaf e : entry_ok e -> with_childs None e = e.
Proof. intros H. pose proof (eo_leaf _ H) as E. destruct e. cbn in *. by rewrite E. Qed.

(** The first child of a node is put at [next]. *)
Lemma lay_inner e i lv c n s rest :
  lays i -> entry_ok e -> wf (masknum e + 1) (lo e) (hi e) i -> Z.of_nat lv <= masknum e ->
  lt_current s = Z.of_nat c -> lt_next s = Z.of_nat n -> lt_last s = (Z.of_nat lv, Z.of_nat (count i)) ->
  (c < n)%nat -> (n + nodes i <= length (lt_table s))%nat -> length (lt_prev s) = 128%nat -> lt_table s !! c = Some (with_childs None e) ->
  exists s', build_loop (zip (flatten i) (meta (Z.of_nat lv + 1) i) ++ rest) s = build_loop rest s' /\
    rep (lt_table s') n (n + count i) i /\
    lt_table s' !! c = Some (with_childs (match i with Nil => None | _ => Some (n, Z.of_nat (count i)) end) e) /\
    lt_next s' = Z.of_nat (n + nodes i) /\ length (lt_table s') = length (lt_table s) /\ length (lt_prev s') = 128%nat /\
    same_on (fun j => j <> c /\ ~ (n <= j < n + nodes i)%nat) (lt_table s) (lt_table s') /\
    (forall j, (j < lv)%nat -> lt_prev s' !! j = lt_prev s !! j) /\ after_level lv c s'.
Proof.
  intros IH He Hw Hlv Hc Hn Hlast Hcn Hlen Hp Hat. destruct i as [| ei ii ai].
  { exists s. cbn [nodes count] in *. rewrite !Nat.add_0_r. do 6 (split; [done |]). split; [by intros j _ |]. split; [done |]. left. by rewrite Hlast. }
  assert (Hd : Z.of_nat lv + 1 <= 128). { destruct Hw as (Oi & Hm & _). pose proof (eo_len _ Oi). pose proof (k_bits_range (K := K)). lia. }
  set (i := Node ei ii ai) in *. pose proof (nodes_split i) as Ni. assert (Hi : i <> Nil) by done.
  set (s1 := mk_layout (<[c := with_childs (Some (n, Z.of_nat (count i))) e]> (lt_table s)) (Z.of_nat n) (Z.of_nat (n + count i))
               (<[lv := Some (Z.of_nat c)]> (lt_prev s)) (lt_last s)).
  assert (Hplace : place (Z.of_nat lv + 1) s = Ok (Some s1)).
  { unfold place. rewrite Hlast. replace (Z.of_nat lv + 1 =? Z.of_nat lv) with false by lia. replace (Z.of_nat lv <? Z.of_nat lv + 1) with true by lia.
    unfold NETWORKS_CACHE_DEPTH. replace (128 <? Z.of_nat lv + 1) with false by lia. rewrite Hc, (entry_get_ok _ _ _ Hat), bind_Ok.
    rewrite (entry_set_ok (lt_table s)), bind_Ok by lia. rewrite (entry_set_ok (lt_prev s)), bind_Ok by lia. unfold s1. rewrite Hn, Hlast, Nat2Z.id, Nat2Z.inj_add. by destruct e. }
  destruct (IH (masknum e + 1) (lo e) (hi e) (S lv) n (n + count i)%nat s1 rest Hw) as (s' & E & D); [lia | | done |].
  { constructor; cbn [s1 lt_table lt_current lt_next lt_prev]; rewrite ?length_insert; (done || lia). }
  replace (Z.of_nat (S lv)) with (Z.of_nat lv + 1) in E by lia. exists s'. split.
  { rewrite <- E. unfold i. rewrite zip_node. by apply build_placed. }
  destruct D as [D1 D2 D3 D4 D5 D6 D7]. cbn [s1 lt_table lt_prev] in *. rewrite length_insert in D3.
  split; [done |]. split. { rewrite D5 by lia. rewrite list_lookup_insert_eq; [done | by eapply lookup_lt_Some]. }
  split; [rewrite D2; f_equal; lia |]. do 2 (split; [done |]). split.
  { intros j [Hj1 Hj2]. rewrite D5 by lia. by rewrite list_lookup_insert_ne. }
  split. { intros j Hj. rewrite D6 by lia. by rewrite list_lookup_insert_ne by lia. }
  right. split; [destruct D7 as [[-> _] | [? _]]; lia |]. rewrite D6 by lia. rewrite list_lookup_insert_eq by lia. done.
Qed.

Lemma lays_all f : lays f.
Proof.
  induction f as [| e i IHi a IHa]; [by intros m l h lv c n s1 rest _ _ _ ? |].
  intros m l h lv c n s1 rest (He & Hm & Hl & Hh & Hi & Ha) Hlv [Rc Rn Rr Rl Rp] _. cbn [count below] in Rr, Rl.
  rewrite zip_node. cbn [app]. rewrite <- app_assoc.
  cbn [placed]. unfold fill. rewrite Rc, entry_set_ok, bind_Ok by lia.
  set (s2 := mk_layout (<[c := e]> (lt_table s1)) (Z.of_nat c) (lt_next s1) (lt_prev s1) (Z.of_nat lv, Z.of_nat (count i))).
  destruct (lay_inner e i lv c n s2 (zip (flatten a) (meta (Z.of_nat lv) a) ++ rest) IHi He Hi) as
    (s3 & E3 & P1 & P2 & P3 & P4 & P5 & P6 & P7 & P8); try done; [lia | lia | cbn; rewrite length_insert; lia | |].
  { cbn. rewrite list_lookup_insert_eq by lia. by rewrite with_childs_leaf. }
  cbn [s2 lt_table lt_prev] in P4, P6, P7. rewrite length_insert in P4. rewrite bind_Ok. fold s2. rewrite E3.
  assert (Hsame3 : same_on (fun j => ~ (c <= j < c + S (count a))%nat /\ ~ (n <= j < n + (nodes i + below a))%nat) (lt_table s1) (lt_table s3)).
  { intros j [Hj1 Hj2]. rewrite P6 by lia. by rewrite list_lookup_insert_ne by lia. }
  assert (Hcase : a = Nil \/ a <> Nil) by (destruct a; [by left | by right]). destruct Hcase as [-> | Hne].
  { exists s3. split; [done |]. cbn [count below] in *. constructor; try done; cbn [rep count below].
    - rewrite P3. f_equal. lia.
    - by replace (c + 1 - 1)%nat with c by lia. }
  pose proof (after_place lv c s3 P8) as Hplace. set (s4 := mk_layout _ _ _ _ _) in Hplace.
  destruct (IHa m (hi e) h lv (S c) (n + nodes i)%nat s4 rest Ha Hlv) as (s' & E' & [D1 D2 D3 D4 D5 D6 D7]); [| done |].
  { constructor; cbn; try done; lia. }
  cbn [s4 lt_table lt_prev] in *. exists s'. split.
  { rewrite <- E'. destruct a as [| ea ia aa]; [done |]. rewrite zip_node. by apply build_placed. }
  constructor; cbn [rep count below].
  - split; [rewrite D5 by lia; exact P2 |]. split; [| done]. apply (rep_frame i (lt_table s3)); [| done].
    intros j Hj. apply D5. pose proof (nodes_split i). lia.
  - rewrite D2. f_equal. lia.
  - by rewrite D3.
  - done.
  - intros j Hj. rewrite D5 by lia. apply Hsame3. lia.
  - intros j Hj. rewrite D6 by done. by apply P7.
  - by replace (c + S (count a) - 1)%nat with (S c + count a - 1)%nat by lia.
Qed.

(** Step 5: the array is filled, and nothing goes wrong. *)
Lemma build_table_spec f m l h cleared : wf m l h f -> 0 <= m -> (nodes f <= length cleared)%nat ->
  exists arr, build_table cleared (flatten f) (meta 0 f) = Ok (true, arr) /\ rep arr 0 (count f) f /\ length arr = length cleared.
Proof.
  intros Hw Hm Hlen. destruct f as [| e i a]; [by exists cleared |]. set (f := Node e i a) in *.
  set (s1 := mk_layout cleared 0 (Z.of_nat (count f)) prev0 (0, 0)). pose proof (nodes_split f) as Nf.
  destruct (lays_all f m l h 0%nat 0%nat (count f) s1 [] Hw Hm) as (s' & E & [D1 _ D3 _ _ _ _]); [| done |].
  { constructor; cbn [s1 lt_table lt_current lt_next lt_prev]; (done || lia). }
  exists (lt_table s'). split; [| split; [done | by rewrite D3]]. rewrite app_nil_r in E.
  assert (Hp : build_table cleared (flatten f) (meta 0 f) = '(b, s) ← placed (zip (flatten f) (meta 0 f)) s1; Ok (b, lt_table s)).
  { unfold f at 3 4. rewrite zip_node, <- zip_with_app by (by rewrite length_flatten, length_meta). unfold build_table, f. cbn [flatten meta placed].
    change ((0, Z.of_nat (count i)) :: meta (0 + 1) i ++ meta 0 a) with (meta 0 f). rewrite roots_meta. fold s1. by destruct (fill e _ s1). }
  change (Z.of_nat 0) with 0 in E. by rewrite Hp, E.
Qed.

End Forest.
Arguments forest : clear implicits.

End NetTreeFacts.
