(* ===== verification/NetSearchFacts.v ===== *)
(** * Lookups in the networks table

    Binary search from table to table finds the longest network that covers an
    address, and the cache in front of it never changes an answer. *)

From S2P Require Import Prelude.
From S2P Require Import NetAggr.
From S2P Require Import NetKeyFacts.
From S2P Require Import NetSortFacts.
From S2P Require Import NetTreeFacts.

Module NetSearchFacts.
Import NetAggr.
Import NetKeyFacts.
Import NetSortFacts.
Import NetTreeFacts.

Section Search.
Context {K : Type} {F : net_family K} {L : net_family_ok K}.

(** ** The reference: the longest match among the rows of the file *)

Definition better (n : K) (best : option (net_entry K)) (e : net_entry K) : option (net_entry K) :=
  if covers e n then
    match best with
    | Some b => if masknum e <? masknum b then best else Some e
    | None => Some e
    end
  else best.

(** Of the rows that cover [n] the one with the longest mask; of several the
    last one of the file. *)
Definition longest_match (rows : list (net_entry K)) (n : K) : option (net_entry K) := fold_left (better n) rows None.

(** The rows that cover [n] with a mask of length [m]. *)
Definition covering (n : K) (m : Z) (e : net_entry K) : bool := covers e n && (masknum e =? m).

Definition is_longest (rows : list (net_entry K)) (n : K) (best : option (net_entry K)) : Prop :=
  match best with
  | Some r => last (List.filter (covering n (masknum r)) rows) = Some r /\ forall x, x ∈ rows -> covers x n = true -> masknum x <= masknum r
  | None => forall x, x ∈ rows -> covers x n = false
  end.

Lemma last_filter_snoc (P : net_entry K -> bool) l x :
  last (List.filter P (l ++ [x])) = if P x then Some x else last (List.filter P l).
Proof. rewrite List.filter_app. cbn. destruct (P x); [apply last_snoc | by rewrite app_nil_r]. Qed.

Lemma longest_match_spec rows n : is_longest rows n (longest_match rows n).
Proof.
  unfold longest_match. induction rows as [| e rows IH] using rev_ind; [by intros x ?%elem_of_nil |].
  rewrite fold_left_app. cbn [fold_left]. set (best := fold_left (better n) rows None) in *. unfold better. destruct (covers e n) eqn:Ec.
  - assert (Hnew : (forall x, x ∈ rows -> covers x n = true -> masknum x <= masknum e) -> is_longest (rows ++ [e]) n (Some e)).
    { intros H. split.
      - rewrite last_filter_snoc. unfold covering. by rewrite Ec, Z.eqb_refl.
      - intros x [Hx | ->%list_elem_of_singleton]%elem_of_app Hc; [by apply H | lia]. }
    destruct best as [b |]; cbn [is_longest] in IH.
    + destruct IH as [Hl Hm]. destruct (Z.ltb_spec (masknum e) (masknum b)).
      * split.
        -- rewrite last_filter_snoc. unfold covering at 1. replace (masknum e =? masknum b) with false by lia. by rewrite andb_false_r.
        -- intros x [Hx | ->%list_elem_of_singleton]%elem_of_app Hc; [by apply Hm | lia].
      * apply Hnew. intros x Hx Hc. specialize (Hm x Hx Hc). lia.
    + apply Hnew. intros x Hx Hc. rewrite IH in Hc by done. done.
  - destruct best as [b |]; cbn [is_longest] in *.
    + destruct IH as [Hl Hm]. split; [rewrite last_filter_snoc; unfold covering at 1; by rewrite Ec |].
      intros x [Hx | ->%list_elem_of_singleton]%elem_of_app Hc; [by apply Hm | congruence].
    + intros x [Hx | ->%list_elem_of_singleton]%elem_of_app; [by apply IH | done].
Qed.

Lemma last_filter_in (P : net_entry K -> bool) l x : last (List.filter P l) = Some x -> x ∈ l /\ P x = true.
Proof.
  intros H. assert (Hx : x ∈ List.filter P l) by by apply last_Some_elem_of. rewrite list_elem_of_In in Hx.
  apply filter_In in Hx as [Hx HP]. by rewrite list_elem_of_In.
Qed.

Lemma is_longest_unique rows n b c : is_longest rows n b -> is_longest rows n c -> b = c.
Proof.
  assert (Hin : forall r, is_longest rows n (Some r) -> r ∈ rows /\ covers r n = true).
  { intros r [[Hr HP]%last_filter_in _]. unfold covering in HP. split; [done |]. by apply andb_prop in HP as [HP _]. }
  intros Hb Hc. destruct b as [b |], c as [c |]; try done.
  - destruct (Hin b Hb) as [Rb Cb], (Hin c Hc) as [Rc Cc]. destruct Hb as [Lb Mb], Hc as [Lc Mc].
    pose proof (Mb c Rc Cc). pose proof (Mc b Rb Cb). replace (masknum c) with (masknum b) in Lc by lia. congruence.
  - destruct (Hin b Hb) as [Rb Cb]. rewrite (Hc b Rb) in Cb. done.
  - destruct (Hin c Hc) as [Rc Cc]. rewrite (Hb c Rc) in Cc. done.
Qed.

(** ** The longest match in a forest *)

Fixpoint find (f : forest K) (n : K) : option (net_entry K) :=
  match f with
  | Nil => None
  | Node e i a => if covers e n then Some (default e (find i n)) else find a n
  end.

Lemma not_in_range m l h e n : in_range m l h e -> k_ok n -> (k_val n < l \/ h <= k_val n) -> covers e n = false.
Proof.
  intros (He & _ & Hl & Hh) Hn Hout. apply not_true_is_false. intros Hc%covers_spec; try done. lia.
Qed.

Lemma find_spec f n : forall m l h, wf m l h f -> k_ok n ->
  match find f n with
  | Some r => r ∈ flatten f /\ covers r n = true /\ forall x, x ∈ flatten f -> covers x n = true -> masknum x <= masknum r
  | None => forall x, x ∈ flatten f -> covers x n = false
  end.
Proof.
  induction f as [| e i IHi a IHa]; intros m l h Hw Hn; [by intros x ?%elem_of_nil |]. destruct Hw as (He & Hm & Hl & Hh & Hi & Ha).
  pose proof (wf_range _ _ _ _ Hi) as Ri. pose proof (wf_range _ _ _ _ Ha) as Ra. rewrite Forall_forall in Ri, Ra.
  cbn [find flatten]. destruct (covers e n) eqn:Ec.
  - assert (Hin : lo e <= k_val n < hi e) by by apply covers_spec.
    assert (Hafter : forall x, x ∈ flatten a -> covers x n = false) by (intros x Hx; eapply not_in_range; [by apply Ra | done | lia]).
    specialize (IHi _ _ _ Hi Hn). destruct (find i n) as [r |]; cbn [from_option id].
    + destruct IHi as (Hr & Hc & Hmax). split; [right; apply elem_of_app; by left |]. split; [done |].
      intros x Hx Hcx. rewrite elem_of_cons, elem_of_app in Hx. destruct Hx as [-> | [Hx | Hx]].
      * destruct (Ri r Hr) as (_ & ? & _). lia.
      * by apply Hmax.
      * rewrite Hafter in Hcx by done. done.
    + split; [by left |]. split; [done |]. intros x Hx Hcx. rewrite elem_of_cons, elem_of_app in Hx.
      destruct Hx as [-> | [Hx | Hx]]; [lia | rewrite IHi in Hcx by done; done | rewrite Hafter in Hcx by done; done].
  - assert (Hin : forall x, x ∈ flatten i -> covers x n = false).
    { intros x Hx. eapply not_in_range; [by apply Ri | done |]. destruct (Z.lt_ge_cases (k_val n) (lo e)); [lia |].
      destruct (Z.lt_ge_cases (k_val n) (hi e)); [| lia]. assert (covers e n = true) by by apply covers_spec. congruence. }
    specialize (IHa _ _ _ Ha Hn). destruct (find a n) as [r |].
    + destruct IHa as (Hr & Hc & Hmax). split; [right; apply elem_of_app; by right |]. split; [done |].
      intros x Hx Hcx. rewrite elem_of_cons, elem_of_app in Hx. destruct Hx as [-> | [Hx | Hx]]; [congruence | | by apply Hmax].
      rewrite Hin in Hcx by done. done.
    + intros x Hx. rewrite elem_of_cons, elem_of_app in Hx. destruct Hx as [-> | [Hx | Hx]]; [done | by apply Hin | by apply IHa].
Qed.

(** The forest of the sorted rows answers what the rows of the file say. *)
Lemma find_longest rows f m l h n : Forall entry_ok rows -> wf m l h f -> k_ok n ->
  flatten f = dedupe (sort_table rows 0 (length rows)) -> find f n = longest_match rows n.
Proof.
  intros Ho Hw Hn Hf. pose proof (sort_table_spec rows Ho) as (Hp & Hs & Hk). set (sorted := sort_table _ _ _) in *.
  assert (Hos : Forall entry_ok sorted) by by rewrite Hp. destruct (dedupe_spec sorted Hos Hs) as [_ Hlast]. rewrite <- Hf in Hlast.
  apply (is_longest_unique rows n); [| apply longest_match_spec]. rewrite Forall_forall in Ho.
  (* every row is in the forest under its key *)
  assert (Hrow : forall x, x ∈ rows -> covers x n = true -> exists y, y ∈ flatten f /\ covers y n = true /\ masknum y = masknum x).
  { intros x Hx Hc. destruct (last (List.filter (of_key (lo x) (masknum x)) sorted)) as [y |] eqn:E.
    - pose proof (last_filter_in _ _ _ E) as [Hy Hyk%of_key_same]. apply Hlast in E as [Hfy _]. exists y. split; [done |].
      rewrite Hp in Hy. destruct (same_eq x y (Ho x Hx) (Ho y Hy) Hyk) as [En Em]. unfold covers in *. rewrite <- En, <- Em. split; [done | by destruct Hyk].
    - exfalso. apply last_None in E. rewrite Hk in E. assert (Hin : x ∈ List.filter (of_key (lo x) (masknum x)) rows).
      { rewrite list_elem_of_In, filter_In, <- list_elem_of_In. split; [done | apply of_key_self]. }
      rewrite E in Hin. by apply elem_of_nil in Hin. }
  pose proof (find_spec f n m l h Hw Hn) as H. destruct (find f n) as [r |]; cbn [is_longest].
  - destruct H as (Hr & Hc & Hmax). assert (Hkey : last (List.filter (of_key (lo r) (masknum r)) sorted) = Some r).
    { apply Hlast. split; [done | apply of_key_self]. }
    split.
    + rewrite Hk in Hkey. rewrite <- Hkey. f_equal. apply filter_ext_in. intros x Hx. rewrite <- list_elem_of_In in Hx.
      pose proof (wf_range _ _ _ _ Hw) as Hall. rewrite Forall_forall in Hall. destruct (Hall r Hr) as (Or & _).
      unfold covering, of_key. destruct (covers x n) eqn:Ex; cbn [andb].
      * destruct (masknum x =? masknum r) eqn:Em; [| by rewrite andb_false_r].
        destruct (cover_same x r n (Ho x Hx) Or Hn Ex Hc ltac:(lia)) as [El _]. by rewrite El, Z.eqb_refl.
      * symmetry. apply not_true_is_false. intros Hsame. assert (Hxr : same x r) by (unfold same; lia).
        destruct (same_eq x r (Ho x Hx) Or Hxr) as [En Em]. unfold covers in *. rewrite En, Em in Ex. congruence.
    + intros x Hx Hcx. destruct (Hrow x Hx Hcx) as (y & Hy & Hcy & <-). by apply Hmax.
  - intros x Hx. apply not_true_is_false. intros Hc. destruct (Hrow x Hx Hc) as (y & Hy & Hcy & _). rewrite H in Hcy by done. done.
Qed.

(** ** Roots *)

Fixpoint root (f : forest K) (k n : nat) : option (net_entry K * forest K * nat) :=
  match f, k with
  | Nil, _ => None
  | Node e i _, O => Some (e, i, n)
  | Node _ i a, S k => root a k (n + nodes i)
  end.

Lemma root_exists f : forall k n, (k < count f)%nat -> exists r, root f k n = Some r.
Proof.
  induction f as [| e i _ a IH]; intros k n Hk; cbn in *; [lia |]. destruct k as [| k]; [by eexists |]. apply IH. lia.
Qed.

Lemma root_none f : forall k n, (count f <= k)%nat -> root f k n = None.
Proof.
  induction f as [| e i _ a IH]; intros k n Hk; [done |]. destruct k; cbn in *; [lia |]. apply IH. lia.
Qed.

(** What is known of a root. *)
Lemma root_spec f : forall m l h arr c n k e i n', wf m l h f -> rep arr c n f -> root f k n = Some (e, i, n') ->
  arr !! (c + k)%nat = Some (with_childs (match i with Nil => None | _ => Some (n', Z.of_nat (count i)) end) e) /\
  rep arr n' (n' + count i) i /\ entry_ok e /\ wf (masknum e + 1) (lo e) (hi e) i /\ (nodes i <= below f)%nat /\ l <= lo e /\
  (forall v, covers e v = true -> k_ok v -> find f v = Some (default e (find i v))).
Proof.
  induction f as [| e0 i0 _ a IH]; intros m l h arr c n k e i n' Hw Hrep Hr; [done |].
  destruct Hw as (He & Hm & Hl & Hh & Hi & Ha), Hrep as (R0 & Ri & Ra).
  destruct k as [| k]; cbn [root] in Hr.
  - injection Hr as <- <- <-. rewrite Nat.add_0_r. cbn [below find]. split_and!; try done; [lia |]. intros v Hc _. by rewrite Hc.
  - destruct (IH m (hi e0) h arr (S c) (n + nodes i0)%nat k e i n' Ha Ra Hr) as (H1 & H2 & H3 & H4 & H5 & H6 & H7).
    replace (c + S k)%nat with (S c + k)%nat by lia. cbn [below find]. assert (lo e0 < hi e0) by (pose proof (size_pos e0 He); unfold hi; lia).
    split_and!; try done; [lia | lia |]. intros v Hc Hv. assert (Hno : covers e0 v = false).
    { apply not_true_is_false. intros Hc0%covers_spec; [| done | done]. apply covers_spec in Hc; [lia | done | done]. }
    rewrite Hno. by apply H7.
Qed.

Lemma root_order f : forall m l h n j k ej ij nj ek ik nk, wf m l h f -> (j < k)%nat ->
  root f j n = Some (ej, ij, nj) -> root f k n = Some (ek, ik, nk) -> hi ej <= lo ek.
Proof.
  assert (Hlo : forall g m l h n k e i n', wf m l h g -> root g k n = Some (e, i, n') -> l <= lo e).
  { intros g. induction g as [| e0 i0 _ a IH]; intros m l h n k e i n' Hw Hr; [done |]. destruct Hw as (He & Hm & Hl & Hh & Hi & Ha).
    destruct k; cbn in Hr; [by injection Hr as <- <- <- |]. apply IH with (1 := Ha) in Hr. pose proof (size_pos e0 He). unfold hi in Hr. lia. }
  induction f as [| e0 i0 _ a IH]; intros m l h n j k ej ij nj ek ik nk Hw Hjk Hj Hk; [done |].
  destruct Hw as (He & Hm & Hl & Hh & Hi & Ha).
  destruct k as [| k]; [lia |]. cbn [root] in Hk. destruct j as [| j]; cbn [root] in Hj.
  - injection Hj as <- <- <-. by apply Hlo with (1 := Ha) in Hk.
  - apply (IH m (hi e0) h (n + nodes i0)%nat j k ej ij nj ek ik nk); (done || lia).
Qed.

Lemma find_no_root f n : forall b, (forall k e i x, root f k b = Some (e, i, x) -> covers e n = false) -> find f n = None.
Proof.
  induction f as [| e i _ a IH]; intros b H; [done |]. cbn [find]. rewrite (H 0%nat e i b eq_refl). apply (IH (b + nodes i)%nat).
  intros k e' i' x Hr. by apply (H (S k) e' i' x).
Qed.

(** ** The cache *)

Definition cache_wf (nc : net_cache K) : Prop :=
  exists l, cache nc = Some l /\ 0 < cache_num nc /\ length l = Z.to_nat (cache_num nc).

Definition slot (nc : net_cache K) (key : K) : nat := Z.to_nat (k_hash key mod cache_num nc).

(** The cache after an answer for [key]. *)
Definition put (nc : net_cache K) (key : K) (r : option (net_entry K)) : net_cache K :=
  mk_cache (option_map (fun l => <[slot nc key := (key, Some (default dummy_entry r))]> l) (cache nc)) (cache_num nc).

Lemma cache_slot_ok nc key : cache_wf nc -> exists l, cache nc = Some l /\ cache_slot nc key = Ok (l, Z.of_nat (slot nc key)) /\ (slot nc key < length l)%nat.
Proof.
  intros (l & El & Hn & Hl). exists l. unfold cache_slot, slot. rewrite El. replace (cache_num nc =? 0) with false by lia.
  pose proof (Z.mod_pos_bound (k_hash key) (cache_num nc) Hn). cbn. rewrite Z2Nat.id by lia. split; [done |]. split; [done | lia].
Qed.

Lemma insert_put nc key r : cache_wf nc -> networks_cache_insert_k nc key (default dummy_entry r) = Ok (put nc key r) /\ cache_wf (put nc key r).
Proof.
  intros H. destruct (cache_slot_ok nc key H) as (l & El & E & Hs). unfold networks_cache_insert_k. rewrite E, bind_Ok, entry_set_ok, bind_Ok by done.
  unfold put. rewrite El. cbn. split; [done |]. destruct H as (l' & El' & Hn & Hl'). rewrite El in El'. injection El' as <-.
  eexists. split; [done |]. by rewrite length_insert.
Qed.

Lemma put_put nc key r1 r2 : put (put nc key r1) key r2 = put nc key r2.
Proof. unfold put, slot. cbn. f_equal. destruct (cache nc); [| done]. cbn. by rewrite list_insert_insert_eq. Qed.

Definition strip (e : net_entry K) : net_entry K := with_childs None e.

(** What the cache holds for an address is the answer of the table. *)
Definition cache_ok (f : forest K) (nc : net_cache K) : Prop :=
  cache_wf nc /\ forall l j key r, cache nc = Some l -> l !! j = Some (key, Some r) ->
    k_ok key /\ forall a, addr_ok a -> k_addr a = key ->
      if masknum r =? 255 then find f (k_host a) = None else find f (k_host a) = Some (strip r).

Lemma cache_ok_put f nc a r : cache_ok f nc -> addr_ok a ->
  option_map strip r = find f (k_host a) -> (forall e, r = Some e -> masknum e <> 255) -> cache_ok f (put nc (k_addr a) r).
Proof.
  intros [Hw Hc] Ha Hr Hm. split; [by apply insert_put |]. intros l j key x. destruct Hw as (l0 & El & _). unfold put. rewrite El. cbn.
  intros [= <-] [(<- & [= <- <-] & _) | [_ Hj]]%list_lookup_insert_Some; [| by apply (Hc l0 j)]. split; [by apply k_addr_ok |].
  intros b Hb E. rewrite (k_addr_host b a Hb Ha E), <- Hr. destruct r as [e |]; cbn; [| done].
  specialize (Hm e eq_refl). by replace (masknum e =? 255) with false by lia.
Qed.

Lemma cache_search_ok f nc a : cache_ok f nc -> addr_ok a -> exists r, networks_cache_search_k nc (k_addr a) = Ok r /\
  forall e, r = Some e -> if masknum e =? 255 then find f (k_host a) = None else find f (k_host a) = Some (strip e).
Proof.
  intros [Hw Hc] Ha. destruct (cache_slot_ok nc (k_addr a) Hw) as (l & El & E & Hs). unfold networks_cache_search_k. rewrite E, bind_Ok.
  destruct (lookup_lt_is_Some_2 l _ Hs) as [[key x] Hx]. rewrite (entry_get_ok _ _ _ Hx), bind_Ok. eexists. split; [done |].
  intros e He. cbn [fst snd] in He. destruct (k_cmp key (k_addr a)) eqn:Ek; try done. subst x.
  destruct (Hc l _ key e El Hx) as [Hkey Hans]. destruct (k_addr_ok a Ha) as [Hka _]. apply Hans; [done |].
  apply k_val_inj; [done | done |]. rewrite k_cmp_val in Ek by done. by apply Z.compare_eq in Ek.
Qed.

(** ** Binary search *)

Definition reached (f : forest K) (a : list Z) (nc : net_cache K) (res : res (option (net_entry K) * net_cache K)) : Prop :=
  exists r, res = Ok (r, put nc (k_addr a) r) /\ option_map strip r = find f (k_host a) /\ (forall e, r = Some e -> masknum e <> 255).

Lemma search_step e i nc a m l h arr (fuel n : nat) :
  entry_ok e -> wf m l h i -> cache_wf nc -> networks_cache_search_k nc (k_addr a) = Ok None ->
  (i <> Nil -> reached i a nc (search_table arr fuel n 0 (Z.of_nat (count i) - 1) a nc)) ->
  exists r, (let e' := with_childs (match i with Nil => None | _ => Some (n, Z.of_nat (count i)) end) e in
             match childs_table e' with
             | Some (childs, num) =>
                 '(ret, nc) ← cached nc a (search_table arr fuel childs 0 (num - 1) a nc);
                 match ret with
                 | None => nc ← networks_cache_insert_k nc (k_addr a) e'; Ok (Some e', nc)
                 | Some _ => Ok (ret, nc)
                 end
             | None => nc ← networks_cache_insert_k nc (k_addr a) e'; Ok (Some e', nc)
             end) = Ok (Some r, put nc (k_addr a) (Some r)) /\
            strip r = default e (find i (k_host a)) /\ masknum r <> 255.
Proof.
  intros He Hw Hc Hmiss IH. pose proof (eo_len _ He) as Hlen. pose proof (k_bits_range (K := K)) as Hb. cbv zeta. set (e' := with_childs _ e).
  assert (Hs : strip e' = e) by (unfold strip, e'; rewrite <- (with_childs_leaf e He) at 2; done).
  assert (Hm' : masknum e' <> 255) by (change (masknum e') with (masknum e); lia).
  pose proof (insert_put nc (k_addr a) (Some e') Hc) as [Hi _]. cbn [from_option id] in Hi.
  assert (Hcase : i = Nil \/ i <> Nil) by (destruct i; [by left | by right]). destruct Hcase as [-> | Hne].
  { exists e'. cbn [e' childs_table with_childs]. fold e'. by rewrite Hi. }
  assert (childs_table e' = Some (n, Z.of_nat (count i))) as -> by by destruct i. destruct (IH Hne) as (r & Er & Hr & Hrm).
  unfold cached. rewrite Hmiss, bind_Ok, Er, bind_Ok. destruct r as [r |].
  - exists r. cbn in Hr. rewrite <- Hr. split; [done |]. split; [done | by apply Hrm].
  - destruct (insert_put nc (k_addr a) None Hc) as [_ Hc']. destruct (insert_put _ (k_addr a) (Some e') Hc') as [Hi' _]. cbn [from_option id] in Hi'.
    exists e'. rewrite Hi', bind_Ok, put_put. cbn in Hr. by rewrite <- Hr.
Qed.

Lemma search_table_ok fuel : forall f m l h arr base n low high a nc,
  wf m l h f -> rep arr base n f -> addr_ok a -> cache_wf nc -> networks_cache_search_k nc (k_addr a) = Ok None ->
  0 <= low -> high < Z.of_nat (count f) ->
  (forall k e i x, root f k n = Some (e, i, x) -> Z.of_nat k < low -> hi e <= k_val (k_host a)) ->
  (forall k e i x, root f k n = Some (e, i, x) -> high < Z.of_nat k -> k_val (k_host a) < lo e) ->
  (Z.to_nat (high - low + 1) + 1 + 2 * below f <= fuel)%nat ->
  reached f a nc (search_table arr fuel base low high a nc).
Proof.
  induction fuel as [| fuel IH]; intros f m l h arr base n low high a nc Hw Hr Ha Hc Hmiss Hlow Hhigh Hbelow Habove Hfuel; [lia |].
  destruct (k_addr_ok a Ha) as [_ Hn]. cbn [search_table]. destruct (Z.leb_spec low high) as [Hle | Hgt].
  - set (mid := (low + high) / 2). assert (Hmid : low <= mid <= high) by (unfold mid; pose proof (Z.div_mod (low + high) 2); pose proof (Z.mod_pos_bound (low + high) 2); lia).
    set (k := Z.to_nat mid). assert (Hk : Z.of_nat k = mid) by (unfold k; lia).
    destruct (root_exists f k n ltac:(lia)) as [[[e i] n'] Hroot].
    destruct (root_spec f m l h arr base n k e i n' Hw Hr Hroot) as (Hat & Hri & He & Hwi & Hni & _ & Hfind).
    replace (Z.of_nat base + mid) with (Z.of_nat (base + k)) by lia. rewrite (entry_get_ok _ _ _ Hat), bind_Ok. cbn [mask net with_childs].
    pose proof (masked_cmp e (k_host a) He Hn) as Hcmp. pose proof (size_pos e He) as Hsz.  destruct (k_cmp (k_and (k_host a) (mask e)) (net e)) eqn:Ec.
    + assert (Hcov : covers e (k_host a) = true) by (unfold covers; by rewrite Ec).
      destruct (search_step e i nc a _ _ _ arr fuel n' He Hwi Hc Hmiss) as (r & E & Hs & Hm).
      { intros _. apply (IH i (masknum e + 1) (lo e) (hi e) arr n' (n' + count i)%nat); try done; [lia | | |].
        - intros. lia.
        - intros j ej ij xj Hj Hlt. rewrite root_none in Hj by lia. done.
        - pose proof (nodes_split i). lia. }
      cbv zeta in E. exists (Some r). split; [exact E |]. split; [cbn; by rewrite Hs, (Hfind (k_host a) Hcov Hn) |]. by intros e' [= <-].
    + apply (IH f m l h arr base n); try done; [lia | |].
      * intros j ej ij xj Hj Hlt. destruct (decide (j = k)) as [-> |]; [rewrite Hroot in Hj; by injection Hj as <- <- <- |].
        pose proof (root_order f m l h n k j e i n' ej ij xj Hw ltac:(lia) Hroot Hj). unfold hi in *. lia.
      * lia.
    + apply (IH f m l h arr base n); try done; [lia | |].
      * intros j ej ij xj Hj Hlt. destruct (decide (j = k)) as [-> |]; [rewrite Hroot in Hj; by injection Hj as <- <- <- |].
        destruct (root_spec f m l h arr base n j ej ij xj Hw Hr Hj) as (_ & _ & Hej & _). pose proof (size_pos ej Hej).
        pose proof (root_order f m l h n j k ej ij xj e i n' Hw ltac:(lia) Hj Hroot). unfold hi in *. lia.
      * lia.
  - destruct (insert_put nc (k_addr a) None Hc) as [Hi _]. cbn [from_option id] in Hi. exists None. rewrite Hi, bind_Ok. split; [done |].
    split; [| done]. symmetry. apply (find_no_root f (k_host a) n). intros k e i x Hk.
    destruct (root_spec f m l h arr base n k e i x Hw Hr Hk) as (_ & _ & He & _). apply not_true_is_false. intros Hcov%covers_spec; [| done | done].
    destruct (Z.lt_ge_cases (Z.of_nat k) low) as [Hlt | Hge]; [specialize (Hbelow k e i x Hk Hlt); lia |].
    specialize (Habove k e i x Hk ltac:(lia)). lia.
Qed.

(** A table that holds a forest. *)
Definition holds (t : net_half K) (f : forest K) : Prop :=
  exists arr, table t = Some arr /\ num t = Z.of_nat (count f) /\ rep arr 0 (count f) f /\ (nodes f <= length arr)%nat.

Lemma binsearch_ok t f m l h nc a : holds t f -> wf m l h f -> cache_ok f nc -> addr_ok a ->
  exists r nc', binsearch_k t nc a = Ok (r, nc') /\ option_map strip r = find f (k_host a) /\ cache_ok f nc'.
Proof.
  intros (arr & Ht & Hnum & Hr & Hlen) Hw Hc Ha. unfold binsearch_k, cached. rewrite Ht, Hnum. cbn [from_option id].
  destruct (cache_search_ok f nc a Hc Ha) as (r & Hs & Hans). rewrite Hs, bind_Ok. destruct r as [e |].
  { specialize (Hans e eq_refl). destruct (masknum e =? 255); (eexists _, nc; split; [done |]; split; [cbn; by rewrite Hans | done]). }
  destruct (search_table_ok (S (2 * length arr)) f m l h arr 0 (count f) 0 (Z.of_nat (count f) - 1) a nc) as (r & E & Hfound & Hm);
    try done; [apply Hc | lia | intros; lia | | pose proof (nodes_split f); lia |].
  { intros k e i x Hk Hlt. assert (Hno : root f k (count f) = None) by (apply root_none; lia). congruence. }
  exists r, (put nc (k_addr a) r). split; [done |]. split; [done |]. by apply cache_ok_put.
Qed.

End Search.

End NetSearchFacts.
