(* ===== verification/NetLoadFacts.v ===== *)
(** * Loading the networks file

    From the text of the file to the answers: the rows that are read are
    networks under their masks, the table they become holds a forest, and every
    lookup afterwards is the longest match among the rows. *)

From S2P Require Import Prelude.
From S2P Require Import BgpAttr.
From S2P Require Import CfgData.
From S2P Require Import PretagData.
From S2P Require Import NetAggr.
From S2P Require Import NetKeyFacts.
From S2P Require Import NetSortFacts.
From S2P Require Import NetTreeFacts.
From S2P Require Import NetSearchFacts.

Module NetLoadFacts.
Import CfgData(host, inet_aton, inet_pton6).
Import NetAggr.
Import NetKeyFacts.
Import NetSortFacts.
Import NetTreeFacts.
Import NetSearchFacts.

Section Half.
Context {ho : host} {K : Type} {F : net_family K} {L : net_family_ok K}.

(** ** Rows *)

(** An entry no network was read into. *)
Definition blank (e : net_entry K) : Prop := net e = k_zero /\ mask e = k_zero /\ masknum e = 0 /\ childs_table e = None.

Lemma blank_ok e : blank e -> entry_ok e.
Proof.
  intros (Hn & Hm & Hl & Hc). pose proof (k_bits_range (K := K)) as Hb. destruct k_zero_ok as [Z0 Zv]. constructor.
  - by rewrite Hn.
  - rewrite Hl. lia.
  - rewrite Hl, Hm. destruct (k_mask_val (K := K) 0) as [Mo Mv]; [lia |]. apply k_val_inj; [done | done |]. rewrite Mv, Zv, Z.sub_0_r. lia.
  - unfold lo. rewrite Hn, Zv. apply Z.divide_0_r.
  - done.
Qed.

Lemma zero_blank : blank zero_entry.
Proof. done. Qed.

Context (to_addr : list Z -> option (list Z)).

(** What the address parser returns is an address of the family. *)
Definition reads : Prop := forall s b, to_addr s = Some b -> k_ok (k_host b).

Lemma u32_nonneg x : 0 <= u32 x.
Proof. unfold u32, wrap. apply Z.mod_pos_bound. lia. Qed.

Lemma row_net_ok n m e e' : reads -> blank e -> row_net to_addr n m e = Some e' -> entry_ok e'.
Proof.
  intros Hr (_ & _ & _ & Hc). unfold row_net. destruct (to_addr n) as [a |] eqn:Ea; [| done]. cbn [mbind option_bind].
  destruct (forallb is_digit m); [| done]. destruct (Z.ltb_spec (k_bits K) (u32 (atoi m))) as [| Hi]; [done |]. intros [= <-].
  specialize (Hr n a Ea). pose proof (u32_nonneg (atoi m)) as H0. destruct (and_mask_val (k_host a) (u32 (atoi m)) Hr ltac:(lia)) as [Ho Hv].
  constructor; cbn [net mask masknum childs_table]; try done. unfold lo, size. cbn [net masknum]. rewrite Hv.
  set (p := 2 ^ (k_bits K - u32 (atoi m))). assert (0 < p) by (apply Z.pow_pos_nonneg; lia).
  exists (k_val (k_host a) / p). pose proof (Z.div_mod (k_val (k_host a)) p ltac:(lia)). lia.
Qed.

Lemma row_ok l e : reads -> blank e -> if fst (row to_addr l e) then entry_ok (snd (row to_addr l e)) else blank (snd (row to_addr l e)).
Proof.
  intros Hr Hb. unfold row. set (buf := if (3 <=? fields l)%nat then _ else _). clearbody buf.
  assert (H1 : blank (snd (row_nh (fields l) buf e))).
  { unfold row_nh. destruct (2 <=? fields l)%nat; [| done]. by destruct (comma buf). }
  destruct (row_nh (fields l) buf e) as [buf1 e1]. cbn [snd] in H1.
  assert (H2 : blank (snd (row_as (fields l) buf1 e1))).
  { unfold row_as. destruct (1 <=? fields l)%nat; [| done]. destruct (comma buf1) as [f b]. by destruct (split_at 95 f) as [[p a] |]. }
  destruct (row_as (fields l) buf1 e1) as [buf2 e2]. cbn [snd] in H2. destruct (sanitize_buf_net buf2) as [[] buf3]; [done |].
  destruct (match split_at 47 buf3 with Some p => p | None => (buf3, []) end) as [n m].
  destruct (row_net to_addr n m e2) as [e' |] eqn:E; [by apply row_net_ok in E | done].
Qed.

Lemma rows_ok ls : forall e, reads -> blank e -> Forall entry_ok (fst (rows to_addr ls e)) /\ blank (snd (rows to_addr ls e)) /\
  (length (fst (rows to_addr ls e)) <= length ls)%nat.
Proof.
  induction ls as [| l ls IH]; intros e Hr Hb; [by split_and! |]. cbn [rows]. pose proof (row_ok l e Hr Hb) as H.
  destruct (row to_addr l e) as [d e']. cbn [fst snd] in H. destruct d.
  - destruct (IH zero_entry Hr zero_blank) as (H1 & H2 & H3). destruct (rows to_addr ls zero_entry) as [es last]. cbn in *.
    split_and!; [by constructor | done | lia].
  - destruct (IH e' Hr H) as (H1 & H2 & H3). split_and!; (done || cbn [length]; lia).
Qed.

Context (cfg : net_config) (sys : system).

Lemma temporary_table_ok content : reads -> Forall entry_ok (temporary_table cfg to_addr content) /\
  (length (temporary_table cfg to_addr content) <= Nat.max 1 (length (lines content)))%nat.
Proof.
  intros Hr. unfold temporary_table. destruct (rows_ok (lines content) zero_entry Hr zero_blank) as (H1 & H2 & H3).
  destruct (rows to_addr (lines content) zero_entry) as [[| x es] last]; cbn [fst snd] in *.
  - destruct (networks_file_filter cfg); split; (done || cbn; lia || idtac). constructor; [by apply blank_ok | done].
  - split; [done | lia].
Qed.

(** ** The table of a file *)

Lemma dedupe_length (l : list (net_entry K)) : (length (dedupe l) <= length l)%nat.
Proof.
  induction l as [| x l IH]; [done |]. destruct l as [| y l]; [done |].
  change (dedupe (x :: y :: l)) with (if same_net x y then dedupe (y :: l) else x :: dedupe (y :: l)). destruct (same_net x y); cbn [length] in *; lia.
Qed.

(** The slots of a forest's array hold its nodes. *)
Lemma rep_slots f : forall (arr : list (net_entry K)) c n, rep arr c n f ->
  (forall x, x ∈ flatten f -> exists j ch, ((c <= j < c + count f)%nat \/ (n <= j < n + below f)%nat) /\ arr !! j = Some (with_childs ch x)) /\
  (forall j, (c <= j < c + count f)%nat \/ (n <= j < n + below f)%nat -> exists x ch, x ∈ flatten f /\ arr !! j = Some (with_childs ch x)).
Proof.
  induction f as [| e i IHi a IHa]; intros arr c n Hr; [split; [by intros x ?%elem_of_nil | cbn; lia] |]. destruct Hr as (H0 & Hi & Ha).
  destruct (IHi _ _ _ Hi) as [Fi Bi], (IHa _ _ _ Ha) as [Fa Ba]. pose proof (nodes_split i). cbn [flatten count below] in *. split.
  - intros x Hx. rewrite elem_of_cons, elem_of_app in Hx. destruct Hx as [-> | [Hx | Hx]].
    + exists c. eexists. split; [lia | done].
    + destruct (Fi x Hx) as (j & ch & Hj & E). exists j, ch. split; [lia | done].
    + destruct (Fa x Hx) as (j & ch & Hj & E). exists j, ch. split; [lia | done].
  - intros j Hj. destruct (decide (j = c)) as [-> |]; [eexists e, _; split; [by left | done] |].
    assert (Hcase : ((n <= j < n + count i)%nat \/ (n + count i <= j < n + count i + below i)%nat) \/
                    ((S c <= j < S c + count a)%nat \/ (n + nodes i <= j < n + nodes i + below a)%nat)) by lia.
    destruct Hcase as [Hin | Hin]; [destruct (Bi j Hin) as (x & ch & Hx & E) | destruct (Ba j Hin) as (x & ch & Hx & E)];
      exists x, ch; (split; [right; apply elem_of_app; by (left + right) | done]).
Qed.

Lemma zero_mask e : entry_ok e -> match k_cmp (mask e) k_zero with Eq => true | _ => false end = (masknum e =? 0).
Proof.
  intros He. pose proof (mask_cmp e zero_entry He (blank_ok _ zero_blank)) as H. cbn [mask masknum zero_entry] in H. rewrite H.
  destruct (Z.compare_spec (masknum e) 0); symmetry; [by apply Z.eqb_eq | apply Z.eqb_neq; lia | apply Z.eqb_neq; lia].
Qed.

Lemma default_route_rep f m l h (arr : list (net_entry K)) : wf m l h f -> rep arr 0 (count f) f ->
  default_route (nodes f) arr = existsb (fun e => masknum e =? 0) (flatten f).
Proof.
  intros Hw Hr. destruct (rep_slots f arr _ _ Hr) as [Hfw Hbw]. pose proof (nodes_split f). pose proof (wf_range _ _ _ _ Hw) as Hall.
  rewrite Forall_forall in Hall. apply eq_true_iff_eq. unfold default_route. rewrite !existsb_exists. split.
  - intros (y & Hy & Hm). rewrite <- list_elem_of_In, list_elem_of_lookup in Hy. destruct Hy as [j Hj]. apply lookup_take_Some in Hj as [Hj Hlt].
    destruct (Hbw j ltac:(lia)) as (x & ch & Hx & E). rewrite Hj in E. injection E as ->. exists x. rewrite <- list_elem_of_In. split; [done |].
    destruct (Hall x Hx) as (Ox & _). rewrite <- (zero_mask x Ox). done.
  - intros (x & Hx & Hm). rewrite <- list_elem_of_In in Hx. destruct (Hfw x Hx) as (j & ch & Hj & E). exists (with_childs ch x).
    rewrite <- list_elem_of_In, list_elem_of_lookup. split; [exists j; apply lookup_take_Some; split; [done | lia] |].
    destruct (Hall x Hx) as (Ox & _). rewrite <- (zero_mask x Ox) in Hm. done.
Qed.

Lemma default_route_rows rows : Forall entry_ok rows ->
  existsb (fun e => masknum e =? 0) (dedupe (sort_table rows 0 (length rows))) = existsb (fun e => masknum e =? 0) rows.
Proof.
  intros Ho. destruct (sort_table_spec rows Ho) as (Hp & Hs & Hk). set (sorted := sort_table _ _ _) in *.
  assert (Hos : Forall entry_ok sorted) by by rewrite Hp. destruct (dedupe_spec sorted Hos Hs) as [_ Hlast].
  apply eq_true_iff_eq. rewrite !existsb_exists. split; intros (x & Hx & Hm); rewrite <- list_elem_of_In in Hx.
  - exists x. rewrite <- list_elem_of_In, <- Hp. split; [by apply dedupe_subset | done].
  - destruct (last (List.filter (of_key (lo x) (masknum x)) sorted)) as [y |] eqn:E.
    + pose proof (last_filter_in _ _ _ E) as [_ [_ Hxy]%of_key_same]. apply Hlast in E as [Hy _]. exists y. rewrite <- list_elem_of_In. split; [done | lia].
    + exfalso. apply last_None in E. assert (Hin : x ∈ List.filter (of_key (lo x) (masknum x)) sorted).
      { rewrite list_elem_of_In, filter_In, <- list_elem_of_In, Hp. split; [done | apply of_key_self]. }
      rewrite E in Hin. by apply elem_of_nil in Hin.
Qed.

(** ** The cache of a load *)

Definition cache_ready (c : net_cache K) : Prop := cache c = None \/ cache_wf c.

Lemma create_cache_ok entries c : malloc_cache sys = true -> 0 < entries -> 0 <= networks_cache_entries cfg < 2 ^ 32 -> cache_ready c ->
  exists c', create_cache cfg sys entries c = Some c' /\ forall f, cache_ok f c'.
Proof.
  intros Hm He Hn Hc.
  assert (Hfresh : forall n f, 0 < n -> cache_ok f (mk_cache (Some (replicate (Z.to_nat n) (k_zero, None))) n)).
  { intros n f Hpos. split; [eexists; split; [done |]; by rewrite length_replicate |]. intros l j key r [= <-] Hj.
    apply lookup_replicate in Hj as [Hj _]. done. }
  unfold create_cache. destruct Hc as [-> | (l & -> & Hpos & Hl)].
  - rewrite Hm. eexists. split; [done |]. intros f. apply Hfresh. destruct (Z.eqb_spec (networks_cache_entries cfg) 0); [done |].
    rewrite u32_small by lia. lia.
  - eexists. split; [done |]. intros f. by apply Hfresh.
Qed.

(** ** A load *)

(** The calls of the system succeed. *)
Definition calls_succeed : Prop :=
  freopen_ok sys = true /\ malloc_table sys = true /\ malloc_tmp sys = true /\ malloc_mdt sys = true /\ malloc_cache sys = true.

Lemma load_file_ok entries content c :
  calls_succeed -> reads -> 0 < entries -> 0 <= networks_cache_entries cfg < 2 ^ 32 -> cache_ready c ->
  let tmp := temporary_table cfg to_addr content in
  exists t c' f, load_file cfg sys to_addr entries content c =
      Ok (Loaded t c' (negb (length (lines content) =? 0)%nat && existsb (fun e => masknum e =? 0) tmp)) /\
    holds t f /\ wf 0 0 (2 ^ k_bits K) f /\ flatten f = dedupe (sort_table tmp 0 (length tmp)) /\ cache_ok f c'.
Proof.
  intros (S1 & S2 & S3 & S4 & S5) Hr He Hn Hc tmp. destruct (temporary_table_ok content Hr) as [Ho Hlen]. fold tmp in Ho, Hlen.
  destruct (sort_table_spec tmp Ho) as (Hp & Hs & _). pose proof (Permutation_length Hp) as Hpl. set (sorted := sort_table tmp 0 (length tmp)) in *.
  assert (Hos : Forall entry_ok sorted) by by rewrite Hp. destruct (dedupe_spec sorted Hos Hs) as [Hsd _]. pose proof (dedupe_length sorted) as Hdl.
  assert (Hrange : Forall (in_range 0 0 (2 ^ k_bits K)) (dedupe sorted)).
  { apply Forall_forall. intros x Hx%dedupe_subset. rewrite Forall_forall in Hos. pose proof (Hos x Hx) as Ox. pose proof (eo_len _ Ox).
    pose proof (k_val_range _ (eo_net _ Ox)). fold (lo x) in *. split_and!; [done | lia | lia |]. pose proof (eo_under _ Ox) as [q Hq].
    assert (Hd : 2 ^ k_bits K = 2 ^ masknum x * size x) by (unfold size; rewrite <- Z.pow_add_r by lia; f_equal; lia).
    pose proof (size_pos x Ox). unfold hi. rewrite Hd in *.
    assert (q < 2 ^ masknum x) by nia. nia. }
  destruct (forest_exists (length (dedupe sorted)) (dedupe sorted) 0 0 (2 ^ k_bits K) (le_n _) Hsd Hrange) as (f & Hf & Hw).
  destruct (create_cache_ok entries c S5 He Hn Hc) as (c' & Ec & Hcok).
  pose proof (length_flatten f) as Hfl. rewrite Hf in Hfl. set (cleared := replicate (Nat.max 1 (length (lines content))) zero_entry).
  assert (Hcl : length cleared = Nat.max 1 (length (lines content))) by apply length_replicate.
  destruct (build_table_spec f 0 0 (2 ^ k_bits K) cleared Hw ltac:(lia) ltac:(lia)) as (arr & Eb & Hrep & Harr).
  exists (mk_half (Some arr) (Z.of_nat (count f))), c', f. split; [| split; [| done]].
  - unfold load_file. rewrite S1, S2, S3, S4. cbn [negb orb]. fold tmp sorted cleared. rewrite <- Hf, (metadata_meta f 0 0 (2 ^ k_bits K) Hw ltac:(lia)).
    rewrite Eb, bind_Ok, Ec, roots_meta. cbn [negb]. do 3 f_equal. f_equal. rewrite length_flatten.
    rewrite (default_route_rep f 0 0 (2 ^ k_bits K) arr Hw Hrep), Hf. by apply default_route_rows.
  - exists arr. split_and!; try done. lia.
Qed.

(** A table and a cache that answer with the longest match among [rows]. *)
Definition serves (t : net_half K) (c : net_cache K) (rows : list (net_entry K)) : Prop :=
  Forall entry_ok rows /\ exists f, holds t f /\ wf 0 0 (2 ^ k_bits K) f /\ flatten f = dedupe (sort_table rows 0 (length rows)) /\ cache_ok f c.

Lemma serves_search t c rows a : serves t c rows -> addr_ok a ->
  exists r c', binsearch_k t c a = Ok (r, c') /\ option_map strip r = longest_match rows (k_host a) /\ serves t c' rows.
Proof.
  intros (Ho & f & Ht & Hw & Hf & Hc) Ha. destruct (binsearch_ok t f _ _ _ c a Ht Hw Hc Ha) as (r & c' & E & Hr & Hc').
  exists r, c'. split; [done |]. split; [| split; [done | by exists f]]. rewrite Hr.
  apply (find_longest _ f 0 0 (2 ^ k_bits K)); [done | done | by apply k_addr_ok | done].
Qed.

Lemma serves_num t c rows : serves t c rows -> rows <> [] -> num t <> 0.
Proof.
  intros (Ho & f & (arr & _ & Hn & _) & _ & Hf & _) Hne. rewrite Hn. destruct f as [| e i a]; [exfalso | cbn; lia].
  destruct (sort_table_spec rows Ho) as (Hp & Hs & _). assert (Hd : forall l, l <> [] -> dedupe (K := K) l <> []).
  { intros l. induction l as [| x l IH]; [done |]. destruct l as [| y l]; [done |].
    change (dedupe (x :: y :: l)) with (if same_net x y then dedupe (y :: l) else x :: dedupe (y :: l)). intros _. destruct (same_net x y); [by apply IH | done]. }
  apply (Hd (sort_table rows 0 (length rows))); [| done]. intros E. rewrite E in Hp. apply Permutation_nil_l in Hp. congruence.
Qed.

Lemma load_file_serves entries content c :
  calls_succeed -> reads -> 0 < entries -> 0 <= networks_cache_entries cfg < 2 ^ 32 -> cache_ready c ->
  exists t c', load_file cfg sys to_addr entries content c =
      Ok (Loaded t c' (negb (length (lines content) =? 0)%nat && existsb (fun e => masknum e =? 0) (temporary_table cfg to_addr content))) /\
    serves t c' (temporary_table cfg to_addr content).
Proof.
  intros Hs Hr He Hn Hc. destruct (load_file_ok entries content c Hs Hr He Hn Hc) as (t & c' & f & E & Ht & Hw & Hf & Hok).
  exists t, c'. split; [exact E |]. split; [by apply temporary_table_ok | by exists f].
Qed.

(** A sequence of lookups. *)
Fixpoint lookups (t : net_half K) (c : net_cache K) (addrs : list (list Z)) : res (list (option (net_entry K))) :=
  match addrs with
  | [] => Ok []
  | a :: addrs => '(r, c) ← binsearch_k t c a; rs ← lookups t c addrs; Ok (r :: rs)
  end.

Lemma serves_lookups t rows addrs : Forall addr_ok addrs -> forall c, serves t c rows ->
  exists rs, lookups t c addrs = Ok rs /\ map (option_map strip) rs = map (fun a => longest_match rows (k_host a)) addrs.
Proof.
  intros Ha. induction Ha as [| a addrs Ha _ IH]; intros c Hc; [by exists [] |]. cbn [lookups map].
  destruct (serves_search t c rows a Hc Ha) as (r & c' & -> & Hr & Hc'). destruct (IH c' Hc') as (rs & E & Hrs).
  rewrite bind_Ok, E. exists (r :: rs). split; [done |]. cbn [map]. by rewrite Hr, Hrs.
Qed.

End Half.

End NetLoadFacts.
