(* ===== verification/NetFuncsFacts.v ===== *)
(** * What the network functions make of a packet

    The functions [set_net_funcs] picks are run one after the other on each end
    of the traffic; together they leave what the configuration counts and the
    longest match says. *)

From S2P Require Import Prelude.
From S2P Require Import BgpPrefix.
From S2P Require Import BgpAttr.
From S2P Require Import PretagData.
From S2P Require Import NetAggr.
From S2P Require Import NetFuncs.
From S2P Require Import NetKeyFacts.
From S2P Require Import NetSearchFacts.
From S2P Require Import NetLoadFacts.

Module NetFuncsFacts.
Import BgpPrefix(AF_INET, AF_INET6).
Import BgpAttr(host_addr, mk_ha, ha_family, ha_address, ha0).
Import PretagData(and_bytes).
Import NetAggr.
Import NetFuncs.
Import NetKeyFacts.
Import NetSearchFacts.
Import NetLoadFacts.

(** ** Masks *)

(** The first [n] bits of a string of octets: how many of the octet [j] are
    kept, and the octet. *)
Definition kept (n j : Z) : Z := Z.max 0 (Z.min 8 (n - 8 * j)).
Definition first_bits (n : Z) (l : list Z) : list Z :=
  imap (fun j b => b - b mod 2 ^ (8 - kept n (Z.of_nat j))) l.

(** The mask of a length has its first bits set. *)
Lemma mask_octet m j : 0 <= m <= 128 -> (j < 16)%nat -> octets (mask_words 4 m) !! j = Some (2 ^ 8 - 2 ^ (8 - kept m (Z.of_nat j))).
Proof.
  intros Hm Hj.
  set (check := fun m => forallb (fun j : nat => match octets (mask_words 4 m) !! j with
    | Some x => x =? 2 ^ 8 - 2 ^ (8 - kept m (Z.of_nat j)) | None => false end) (seq 0 16)).
  pose proof (upto_spec 128 check m ltac:(vm_compute; reflexivity) Hm) as H. unfold check in H. rewrite forallb_forall in H.
  specialize (H j ltac:(apply in_seq; lia)).
  destruct (octets (mask_words 4 m) !! j) as [x |]; [| done]. by apply Z.eqb_eq in H as ->.
Qed.

Lemma first_bits_mask n m a : 0 <= m <= 128 -> addr_ok a -> (n <= 16)%nat ->
  and_bytes (take n a) (take n (octets (mask_words 4 m))) = first_bits m (take n a).
Proof.
  intros Hm [Hl Hb] Hn. apply list_eq. intros j. unfold and_bytes, first_bits. rewrite lookup_zip_with, list_lookup_imap.
  destruct (take n a !! j) as [x |] eqn:E; [| done]. apply lookup_take_Some in E as [E Hj]. pose proof (Forall_lookup_1 _ _ _ _ Hb E) as Hx.
  rewrite lookup_take_lt, mask_octet by lia. cbn. f_equal. apply land_mask; [unfold kept; lia | done].
Qed.

Section Run.
Context (cfg : net_config).

(** The network of an address under a mask of length [m]. *)
Definition network_of (m : Z) (s : side) : host_addr :=
  let n := if networks_no_mask_if_zero cfg && (m =? 0) then 128 else m in
  if ha_family (ip s) =? AF_INET then mk_ha AF_INET (first_bits n (take 4 (ha_address (ip s))) ++ drop 4 (ha_address (net_ s)))
  else if ha_family (ip s) =? AF_INET6 then mk_ha AF_INET6 (first_bits n (ha_address (ip s)))
  else net_ s.

(** [mask_src_ipaddr] and [mask_dst_ipaddr] keep the first bits of the address
    and clear the others. *)
Lemma mask_ipaddr_network m s : addr_ok (ha_address (ip s)) -> 0 <= m <= 128 -> net_ (mask_ipaddr cfg (with_nmask m s)) = network_of m s.
Proof.
  intros Ha Hm. unfold mask_ipaddr, network_of. cbn [nmask with_nmask]. set (n := if _ && _ then 128 else m).
  assert (Hn : 0 <= n <= 128) by (unfold n; destruct (_ && _); lia). unfold masked. cbn [ip net_ with_nmask].
  destruct (ha_family (ip s) =? AF_INET); cbn [net_ with_net]; [by rewrite (first_bits_mask 4) by (done || lia) |].
  destruct (ha_family (ip s) =? AF_INET6); [| done]. cbn [net_ with_net]. f_equal.
  pose proof (first_bits_mask 16 n (ha_address (ip s)) Hn Ha ltac:(lia)) as H. destruct Ha as [Hl _].
  rewrite (take_ge (ha_address (ip s))) in H by lia. rewrite <- H. f_equal. symmetry. apply take_ge.
  apply not_lt. intros Hlt. apply lookup_lt_is_Some_2 in Hlt as [x Hx].
  assert (Hz : forallb (fun m => (length (octets (mask_words 4 (Z.of_nat m))) =? 16)%nat) (seq 0 129) = true) by (vm_compute; reflexivity).
  rewrite forallb_forall in Hz. specialize (Hz (Z.to_nat n) ltac:(apply in_seq; lia)). rewrite Z2Nat.id in Hz by lia. apply Nat.eqb_eq in Hz.
  apply lookup_lt_Some in Hx. lia.
Qed.

(** ** Running functions *)

Lemma run_app junk fs gs s : run_net_funcs cfg junk (fs ++ gs) s = s' ← run_net_funcs cfg junk fs s; run_net_funcs cfg junk gs s'.
Proof. revert s. induction fs as [| f fs IH]; intros s; [done |]. cbn [app run_net_funcs]. destruct (run_func cfg junk f s); [| done]. apply IH. Qed.

Lemma run_when junk b f gs s s1 : run_func cfg junk f s = Ok s1 ->
  run_net_funcs cfg junk (when b f ++ gs) s = run_net_funcs cfg junk gs (if b then s1 else s).
Proof. intros E. destruct b; [| done]. cbn [when app run_net_funcs]. by rewrite E. Qed.

Lemma run_cons junk f gs s s1 : run_func cfg junk f s = Ok s1 -> run_net_funcs cfg junk (f :: gs) s = run_net_funcs cfg junk gs s1.
Proof. intros E. cbn [run_net_funcs]. by rewrite E. Qed.

(** ** What is left of one end *)

Definition host_flag (x : end_) : Z := match x with Src => Z.lor COUNT_SRC_HOST COUNT_SUM_HOST | Dst => Z.lor COUNT_DST_HOST COUNT_SUM_HOST end.
Definition net_flag (x : end_) : Z := match x with Src => Z.lor COUNT_SRC_NET COUNT_SUM_NET | Dst => Z.lor COUNT_DST_NET COUNT_SUM_NET end.
Definition nmask_flag (x : end_) : Z := match x with Src => COUNT_SRC_NMASK | Dst => COUNT_DST_NMASK end.
Definition as_flag (x : end_) : Z := match x with Src => Z.lor COUNT_SRC_AS COUNT_SUM_AS | Dst => Z.lor COUNT_DST_AS COUNT_SUM_AS end.

(** The mask and the AS of what was found. *)
Definition mask_found (o : option found) : Z := match o with Some e => found_masknum e | None => 0 end.
Definition as_found (o : option found) : Z := match o with Some e => found_as e | None => 0 end.

Definition aggregated (x : end_) (o : option found) (s : side) : side :=
  let m := mask_found o in
  mk_side (if counts cfg (host_flag x) then ip s else ha0)
    (if counts cfg (net_flag x) then network_of m s else ha0)
    (if counts cfg (nmask_flag x) then m else 0)
    (if has (nfacctd_as cfg) NF_AS_NEW && counts cfg (as_flag x) &&
        (negb (has (nfacctd_as cfg) NF_AS_FALLBACK) || negb (networks_file_no_lpm cfg) || negb (m =? 0))
     then as_found o else sas s).

(** The networks file tells the masks; it neither filters nor falls back. *)
Record plain : Prop := mk_plain {
  pl_new : has (nfacctd_net cfg) NF_NET_NEW = true;
  pl_fallback : has (nfacctd_net cfg) NF_NET_FALLBACK = false;
  pl_static : has (nfacctd_net cfg) NF_NET_STATIC = false;
  pl_filter : networks_file_filter cfg = false
}.

(** The functions of one end, as the code lists them. *)
Definition side_search (x : end_) := match x with Src => search_src_ip | Dst => search_dst_ip end.
Definition side_host (x : end_) := match x with Src => search_src_host | Dst => search_dst_host end.
Definition side_nmask (x : end_) := match x with Src => search_src_nmask | Dst => search_dst_nmask end.
Definition side_as (x : end_) := match x with Src => search_src_as | Dst => search_dst_as end.
Definition side_mask (x : end_) := match x with Src => mask_src_ipaddr | Dst => mask_dst_ipaddr end.
Definition side_clear_net (x : end_) := match x with Src => clear_src_net | Dst => clear_dst_net end.
Definition side_clear_host (x : end_) := match x with Src => clear_src_host | Dst => clear_dst_host end.
Definition side_clear_nmask (x : end_) := match x with Src => clear_src_nmask | Dst => clear_dst_nmask end.
Definition side_peers (x : end_) : list net_func := match x with
  | Src => when (has (nfacctd_as cfg) NF_AS_NEW && counts cfg COUNT_PEER_SRC_AS) search_peer_src_as
  | Dst => when (has (nfacctd_as cfg) NF_AS_NEW && counts cfg COUNT_PEER_DST_AS) search_peer_dst_as ++
           when (has (nfacctd_net cfg) NF_NET_NEW && counts cfg COUNT_PEER_DST_IP) search_peer_dst_ip_f
  end.

Definition side_funcs (x : end_) : list net_func :=
  [side_search x] ++
  when (counts cfg (host_flag x)) (side_host x) ++
  when (has (nfacctd_net cfg) NF_NET_NEW) (side_nmask x) ++
  when (has (nfacctd_as cfg) NF_AS_NEW && counts cfg (as_flag x)) (side_as x) ++
  side_peers x ++
  net_step cfg (net_flag x) (side_mask x) (side_clear_net x) ++
  when (negb (counts cfg (host_flag x))) (side_clear_host x) ++
  when (negb (counts cfg (nmask_flag x))) (side_clear_nmask x).

Lemma table_funcs_sides : table_funcs cfg = init_net_funcs :: side_funcs Src ++ side_funcs Dst.
Proof. unfold table_funcs, side_funcs, side_peers. cbn [side_search side_host side_nmask side_as side_mask side_clear_net side_clear_host side_clear_nmask host_flag net_flag nmask_flag as_flag]. cbn [app]. by rewrite <- !app_assoc. Qed.

(** The functions that look for the peers change nothing but the peers. *)
Lemma run_peers junk x gs s : exists b, run_net_funcs cfg junk (side_peers x ++ gs) s = run_net_funcs cfg junk gs (mk_ns (tables s) (prims s) b (nfd s)).
Proof.
  assert (Hp : forall y s, exists b, search_peer_as cfg y s = mk_ns (tables s) (prims s) b (nfd s)).
  { intros y [t p [b |] d]; cbn; [destruct (taken _ _ _ _) |]; by eexists. }
  assert (Hi : forall s, exists b, search_peer_dst_ip cfg junk s = mk_ns (tables s) (prims s) b (nfd s)).
  { intros [t p [b |] d]; cbn; [destruct (taken _ _ _ _) |]; by eexists. }
  assert (Hs : forall s, s = mk_ns (tables s) (prims s) (pbgp s) (nfd s)) by by intros [].
  assert (Ha : forall y f b gs s, run_func cfg junk f s = Ok (search_peer_as cfg y s) ->
    exists c, run_net_funcs cfg junk (when b f ++ gs) s = run_net_funcs cfg junk gs (mk_ns (tables s) (prims s) c (nfd s))).
  { intros y f b hs t E. rewrite (run_when junk _ _ _ _ _ E). destruct b; [destruct (Hp y t) as [c ->]; by exists c | exists (pbgp t); by rewrite <- Hs]. }
  assert (Hip : forall b gs s, exists c, run_net_funcs cfg junk (when b search_peer_dst_ip_f ++ gs) s =
    run_net_funcs cfg junk gs (mk_ns (tables s) (prims s) c (nfd s))).
  { intros b hs t. rewrite (run_when junk b search_peer_dst_ip_f hs t (search_peer_dst_ip cfg junk t) eq_refl).
    destruct b; [destruct (Hi t) as [c ->]; by exists c | exists (pbgp t); by rewrite <- Hs]. }
  destruct x; cbn [side_peers]; [by apply (Ha Src) |]. rewrite <- app_assoc.
  destruct (Ha Dst search_peer_dst_as (has (nfacctd_as cfg) NF_AS_NEW && counts cfg COUNT_PEER_DST_AS)
    (when (has (nfacctd_net cfg) NF_NET_NEW && counts cfg COUNT_PEER_DST_IP) search_peer_dst_ip_f ++ gs) s eq_refl) as [b ->].
  destruct (Hip (has (nfacctd_net cfg) NF_NET_NEW && counts cfg COUNT_PEER_DST_IP) gs (mk_ns (tables s) (prims s) b (nfd s))) as [c ->]. by exists c.
Qed.

Definition other (x : end_) : end_ := match x with Src => Dst | Dst => Src end.

(** One end after its functions, when the search is over. *)
Lemma run_side junk x o s s1 gs : plain ->
  addr_ok (ha_address (ip (side_of x (prims s)))) -> 0 <= mask_found o <= 128 ->
  run_func cfg junk (side_search x) s = Ok s1 -> prims s1 = prims s -> entry_of (nfd s1) = o ->
  exists b d, run_net_funcs cfg junk (side_funcs x ++ gs) s =
    run_net_funcs cfg junk gs (mk_ns (tables s1) (on_side x (aggregated x o) (prims s)) b d).
Proof.
  intros [Pn Pf Ps Pl] Haddr Hrange Es Hp Ho. unfold side_funcs. rewrite <- !app_assoc. cbn [app]. rewrite (run_cons junk _ _ _ _ Es). clear Es.
  assert (Hhost : forall g d v, search_host cfg g d v = v).
  { intros g d v. unfold search_host. rewrite Pl. destruct (family d =? AF_INET); [| destruct (family d =? AF_INET6); [| done]];
      (destruct (entry d) as [[e | e] |]; [| | done]); try done; by destruct (_ && _). }
  destruct s1 as [t p b0 d0]. cbn [prims nfd] in Hp, Ho. subst p.
  assert (E1 : run_func cfg junk (side_host x) (mk_ns t (prims s) b0 d0) = Ok (mk_ns t (prims s) b0 d0)).
  { destruct x; cbn; unfold on_prims, on_side; cbn; rewrite Hhost; by destruct (prims s). }
  rewrite (run_when junk _ _ _ _ _ E1). replace (if counts cfg (host_flag x) then _ else _) with (mk_ns t (prims s) b0 d0) by by destruct (counts cfg (host_flag x)).
  rewrite Pn. cbn [when app]. set (m := mask_found o).
  set (p2 := on_side x (with_nmask m) (prims s)).
  assert (E2 : exists d2, run_func cfg junk (side_nmask x) (mk_ns t (prims s) b0 d0) = Ok (mk_ns t p2 b0 d2) /\ entry_of d2 = o).
  { assert (E : nmask_of cfg t d0 (nmask (side_of x (prims s))) = (false, m)) by (unfold nmask_of; rewrite Pf, Ho; done).
    destruct x; cbn [side_nmask run_func]; unfold search_nmask; cbn [tables nfd prims pbgp]; rewrite E; eexists; (split; [done | exact Ho]). }
  destruct E2 as (d2 & E2 & Ho2). rewrite (run_cons junk _ _ _ _ E2).
  set (as_on := negb (has (nfacctd_as cfg) NF_AS_FALLBACK) || negb (networks_file_no_lpm cfg) || negb (m =? 0)).
  assert (Htaken : forall v, nmask v = m -> search_as cfg d2 v = if as_on then with_as (as_found o) v else v).
  { intros v Hv. unfold search_as, taken. rewrite Ho2, Hv. fold (mask_found o) (as_found o) m. unfold as_on.
    destruct (has _ NF_AS_FALLBACK), (networks_file_no_lpm cfg); cbn [negb orb]; [by destruct (m =? 0) | by rewrite Z.leb_refl | done | done]. }
  set (p3 := on_side x (fun v => search_as cfg d2 (with_nmask m v)) (prims s)).
  assert (E3 : run_func cfg junk (side_as x) (mk_ns t p2 b0 d2) = Ok (mk_ns t p3 b0 d2)) by by destruct x.
  rewrite (run_when junk _ _ _ _ _ E3). set (as_run := has (nfacctd_as cfg) NF_AS_NEW && counts cfg (as_flag x)).
  destruct (run_peers junk x (net_step cfg (net_flag x) (side_mask x) (side_clear_net x) ++ when (negb (counts cfg (host_flag x))) (side_clear_host x) ++
    when (negb (counts cfg (nmask_flag x))) (side_clear_nmask x) ++ gs) (if as_run then mk_ns t p3 b0 d2 else mk_ns t p2 b0 d2)) as [b3 ->].
  exists b3, d2. set (v := if as_run && as_on then with_as (as_found o) else id).
  assert (Hv : mk_ns (tables (if as_run then mk_ns t p3 b0 d2 else mk_ns t p2 b0 d2)) (prims (if as_run then mk_ns t p3 b0 d2 else mk_ns t p2 b0 d2)) b3
    (nfd (if as_run then mk_ns t p3 b0 d2 else mk_ns t p2 b0 d2)) = mk_ns t (on_side x (fun w => v (with_nmask m w)) (prims s)) b3 d2).
  { unfold v, p2, p3. destruct as_run; cbn [andb tables prims nfd]; [| by destruct x].
    destruct x; cbn [on_side]; rewrite Htaken by done; by destruct as_on. }
  rewrite Hv. clear Hv E3 E2 E1. unfold net_step. cbn [app].
  set (p4 := on_side x (fun w => (if counts cfg (net_flag x) then mask_ipaddr cfg else with_net ha0) (v (with_nmask m w))) (prims s)).
  assert (E4 : run_func cfg junk (if counts cfg (net_flag x) then side_mask x else side_clear_net x)
    (mk_ns t (on_side x (fun w => v (with_nmask m w)) (prims s)) b3 d2) = Ok (mk_ns t p4 b3 d2)) by (unfold p4; destruct (counts cfg (net_flag x)); by destruct x).
  rewrite (run_cons junk _ _ _ _ E4). clear E4.
  assert (E5 : forall p, run_func cfg junk (side_clear_host x) (mk_ns t p b3 d2) = Ok (mk_ns t (on_side x (with_ip ha0) p) b3 d2)) by by destruct x.
  rewrite (run_when junk _ _ _ _ _ (E5 _)). replace (if negb _ then _ else _) with
    (mk_ns t (if counts cfg (host_flag x) then p4 else on_side x (with_ip ha0) p4) b3 d2) by by destruct (counts cfg (host_flag x)).
  assert (E6 : forall p, run_func cfg junk (side_clear_nmask x) (mk_ns t p b3 d2) = Ok (mk_ns t (on_side x (with_nmask 0) p) b3 d2)) by by destruct x.
  rewrite (run_when junk _ _ _ _ _ (E6 _)). f_equal.
  assert (Hmask : forall w : side, mask_ipaddr cfg w = with_net (net_ (mask_ipaddr cfg w)) w).
  { intros w. unfold mask_ipaddr, masked. destruct (_ =? AF_INET); [done |]. destruct (_ =? AF_INET6); [done |]. by destruct w. }
  assert (Hnet : forall w, net_ (mask_ipaddr cfg (v (with_nmask m w))) = net_ (mask_ipaddr cfg (with_nmask m w))).
  { intros w. unfold v, mask_ipaddr, masked. destruct (as_run && as_on); [| done]. cbn [ip net_ nmask with_as with_nmask].
    destruct (_ =? AF_INET); [done |]. by destruct (_ =? AF_INET6). }
  unfold p4. clear p4. unfold aggregated. fold m as_on as_run.
  assert (Hside : forall w, (if counts cfg (net_flag x) then mask_ipaddr cfg else with_net ha0) (v (with_nmask m w)) =
    mk_side (ip w) (if counts cfg (net_flag x) then net_ (mask_ipaddr cfg (with_nmask m w)) else ha0) m (if as_run && as_on then as_found o else sas w)).
  { intros w. destruct (counts cfg (net_flag x)); [rewrite Hmask, Hnet |]; unfold v; by destruct (as_run && as_on). }
  generalize (counts cfg (host_flag x)), (counts cfg (nmask_flag x)). intros [] [].
  all: pose proof (mask_ipaddr_network m _ Haddr Hrange) as Hn; destruct x; cbn [negb on_side src dst side_of] in Hn |- *;
    rewrite !Hside, Hn; reflexivity.
Qed.

End Run.

End NetFuncsFacts.
