(* ===== verification/NetFacts.v ===== *)
(** * What the networks file does to traffic

    The claims on the networks table: lookups after a load, the default routes,
    what the network functions make of a packet, and what goes wrong. *)

From S2P Require Import Prelude.
From S2P Require Import BgpPrefix.
From S2P Require Import BgpAttr.
From S2P Require Import CfgData.
From S2P Require Import PretagData.
From S2P Require Import NetAggr.
From S2P Require Import NetFuncs.
From S2P Require Import NetKeyFacts.
From S2P Require Import NetSearchFacts.
From S2P Require Import NetLoadFacts.
From S2P Require Import NetFuncsFacts.

Module NetFacts.
Import BgpPrefix(AF_INET, AF_INET6).
Import BgpAttr(host_addr, mk_ha, ha_family, ha_address, ha0).
Import CfgData(host, inet_aton, inet_pton6).
Import NetAggr.
Import NetFuncs.
Import NetKeyFacts.
Import NetSearchFacts.
Import NetLoadFacts.
Import NetFuncsFacts.

Section Loaded.
Context {ho : host}.

(** What the C library's parsers return: the octets of an address. *)
Definition parsers_ok : Prop :=
  (forall s b, inet_aton s = Some b -> length b = 4%nat /\ bytes_ok b) /\ (forall s b, inet_pton6 s = Some b -> addr_ok b).

Lemma reads4 : parsers_ok -> reads (K := Z) inet_aton.
Proof. intros [H _] s b E. apply H in E as [_ Hb]. apply ntohl_u32. by apply (bytes_take_drop 4 0). Qed.
Lemma reads6 : parsers_ok -> reads (K := list Z) inet_pton6.
Proof. intros [_ H] s b E%H. by apply k_addr_ok. Qed.

(** The circumstances of a load that succeeds. *)
Record loads (cfg : net_config) (sys : system) (content : list Z) (s : networks) : Prop := mk_loads {
  lo_file : fopen sys = Some content;
  lo_calls : calls_succeed sys;
  lo_parsers : parsers_ok;
  lo_entries : 0 <= networks_cache_entries cfg < 2 ^ 32;
  lo_cache4 : cache_ready (nc4 (nc s));
  lo_cache6 : cache_ready (nc6 (nc s))
}.

Definition rows4 (cfg : net_config) (content : list Z) : list (net_entry Z) := temporary_table cfg inet_aton content.
Definition rows6 (cfg : net_config) (content : list Z) : list (net_entry (list Z)) := temporary_table cfg inet_pton6 content.

(** What the file answers for an address: of the rows that are networks of the
    family the longest match.  When there is none and the file is no filter,
    every address is answered by the entry the code puts in their place, whose
    network and mask are empty. *)
Definition file_answer {K} {F : net_family K} (cfg : net_config) (to_addr : list Z -> option (list Z)) (content : list Z) (n : K) :
    option (net_entry K) :=
  match rows to_addr (lines content) zero_entry with
  | ([], stand_in) => if networks_file_filter cfg then None else Some stand_in
  | (networks, _) => longest_match networks n
  end.

Lemma covers_blank {K} {F : net_family K} {L : net_family_ok K} (e : net_entry K) n : blank e -> k_ok n -> covers e n = true.
Proof.
  intros (Hn & Hm & _) Hk. unfold covers. rewrite Hn, Hm. destruct (k_zero_ok (K := K)) as [Z0 Zv].
  destruct (k_and_val n k_zero Hk Z0) as [Ha Hv]. by rewrite (k_cmp_val _ _ Ha Z0), Hv, Zv, Z.land_0_r.
Qed.

Lemma table_answer {K} {F : net_family K} {L : net_family_ok K} cfg to_addr content (n : K) : reads to_addr -> k_ok n ->
  longest_match (temporary_table cfg to_addr content) n = file_answer cfg to_addr content n.
Proof.
  intros Hr Hn. unfold temporary_table, file_answer. destruct (rows_ok to_addr (lines content) zero_entry Hr zero_blank) as (_ & Hb & _).
  destruct (rows to_addr (lines content) zero_entry) as [[| x es] last]; [| done]. destruct (networks_file_filter cfg); [done |].
  unfold longest_match. cbn [fold_left]. unfold better. by rewrite (covers_blank last n Hb Hn).
Qed.

Lemma table_answers {K} {F : net_family K} {L : net_family_ok K} cfg to_addr content addrs : reads (K := K) to_addr -> Forall addr_ok addrs ->
  map (fun a => longest_match (temporary_table cfg to_addr content) (k_host a : K)) addrs =
  map (fun a => file_answer cfg to_addr content (k_host a)) addrs.
Proof. intros Hr Ha. apply map_ext_Forall. apply (Forall_impl _ _ _ Ha). intros a Hok. by apply table_answer, k_addr_ok. Qed.

Definition has_default {K} (content : list Z) (rows : list (net_entry K)) : bool :=
  negb (length (lines content) =? 0)%nat && existsb (fun e => masknum e =? 0) rows.

Lemma load_networks_serves cfg sys content s : loads cfg sys content s ->
  exists s', load_networks cfg sys true s = Ok s' /\
    serves (nt4 (nt s')) (nc4 (nc s')) (rows4 cfg content) /\ serves (nt6 (nt s')) (nc6 (nc s')) (rows6 cfg content) /\
    default_route_in_networks4_table s' = has_default content (rows4 cfg content) /\
    default_route_in_networks6_table s' = has_default content (rows6 cfg content).
Proof.
  intros [Hf Hc Hp He H4 H6]. unfold load_networks, load_networks4. rewrite Hf. cbn [negb]. unfold NETWORKS_CACHE_ENTRIES, NETWORKS6_CACHE_ENTRIES.
  destruct (load_file_serves inet_aton cfg sys 99991 content (nc4 (nc s)) Hc (reads4 Hp) eq_refl He H4) as (t4 & c4 & E4 & S4).
  cbn [nc]. rewrite E4, !bind_Ok. unfold load_networks6. rewrite Hf. cbn [negb nc nc6 nt].
  destruct (load_file_serves inet_pton6 cfg sys 32771 content (nc6 (nc s)) Hc (reads6 Hp) eq_refl He H6) as (t6 & c6 & E6 & S6).
  unfold NETWORKS6_CACHE_ENTRIES. rewrite E6, bind_Ok. eexists. split; [done |]. cbn. split; [| by split].
  unfold without6. cbn. by destruct (num _ =? 0).
Qed.

(** C17. Lookups after a load.  When a networks file was loaded (it could be
    opened, memory was granted), whatever was loaded before, every sequence of
    lookups, of IPv4 and of IPv6 addresses, through the cache that the lookups
    share and by binary search from table to table, gives for each address the
    row of the file with the longest mask among those that cover it, the last
    of them when there are several, and nothing when none does.  The rows are
    those the file has as networks of the family; when it has none of a family
    (an IPv6 lookup after a file of IPv4 networks) and is no filter, every
    address gets the entry that stands in their place. *)
Theorem load_networks_longest_match cfg sys content s : loads cfg sys content s ->
  exists s', load_networks cfg sys true s = Ok s' /\ forall addrs, Forall addr_ok addrs ->
    (exists rs, lookups (nt4 (nt s')) (nc4 (nc s')) addrs = Ok rs /\
       map (option_map strip) rs = map (fun a => file_answer cfg inet_aton content (k_host a : Z)) addrs) /\
    (exists rs, lookups (nt6 (nt s')) (nc6 (nc s')) addrs = Ok rs /\
       map (option_map strip) rs = map (fun a => file_answer cfg inet_pton6 content (k_host a : list Z)) addrs).
Proof.
  intros H. pose proof (lo_parsers _ _ _ _ H) as Hp. destruct (load_networks_serves cfg sys content s H) as (s' & E & S4 & S6 & _).
  exists s'. split; [done |]. intros addrs Ha.
  rewrite <- (table_answers cfg _ content addrs (reads4 Hp) Ha), <- (table_answers cfg _ content addrs (reads6 Hp) Ha).
  split; by apply serves_lookups.
Qed.

(** After a load the flags for the default routes tell whether the table of the
    family has a network with an empty mask: a row of the file, or the single
    entry that stands for rows of which none is a network. *)
Theorem load_networks_default_route cfg sys content s : loads cfg sys content s ->
  exists s', load_networks cfg sys true s = Ok s' /\
    default_route_in_networks4_table s' = has_default content (rows4 cfg content) /\
    default_route_in_networks6_table s' = has_default content (rows6 cfg content).
Proof.
  intros H. destruct (load_networks_serves cfg sys content s H) as (s' & E & _ & _ & D4 & D6). by exists s'.
Qed.

(** ** The network functions *)

(** What the file says of an address. *)
Definition row_for (cfg : net_config) (content : list Z) (a : host_addr) : option found :=
  if ha_family a =? AF_INET then option_map In4 (file_answer cfg inet_aton content (k_host (ha_address a)))
  else if ha_family a =? AF_INET6 then option_map In6 (file_answer cfg inet_pton6 content (k_host (ha_address a)))
  else None.

(** What the sorted rows say, those that stand for none among them. *)
Definition row_among (cfg : net_config) (content : list Z) (a : host_addr) : option found :=
  if ha_family a =? AF_INET then option_map In4 (longest_match (rows4 cfg content) (k_host (ha_address a)))
  else if ha_family a =? AF_INET6 then option_map In6 (longest_match (rows6 cfg content) (k_host (ha_address a)))
  else None.

Lemma row_among_for cfg content a : parsers_ok -> addr_ok (ha_address a) -> row_among cfg content a = row_for cfg content a.
Proof.
  intros Hp Ha. unfold row_among, row_for, rows4, rows6.
  rewrite (table_answer cfg inet_aton content (k_host (ha_address a)) (reads4 Hp)) by by apply k_addr_ok.
  by rewrite (table_answer cfg inet_pton6 content (k_host (ha_address a)) (reads6 Hp)) by by apply k_addr_ok.
Qed.

Definition serving (cfg : net_config) (content : list Z) (g : networks) : Prop :=
  serves (nt4 (nt g)) (nc4 (nc g)) (rows4 cfg content) /\ serves (nt6 (nt g)) (nc6 (nc g)) (rows6 cfg content).

Lemma found_strip {K} (F : net_entry K -> found) (Z4 : forall e, found_masknum (F e) = masknum e /\ found_as (F e) = as_ e)
    (r l : option (net_entry K)) :
  option_map strip r = l ->
  mask_found (option_map F r) = mask_found (option_map F l) /\ as_found (option_map F r) = as_found (option_map F l).
Proof.
  intros <-. destruct r as [e |]; [| done]. cbn. destruct (Z4 e) as [-> ->], (Z4 (strip e)) as [-> ->]. done.
Qed.

Lemma search_serving cfg content junk x s : serving cfg content (tables s) -> addr_ok (ha_address (ip (side_of x (prims s)))) ->
  exists s1, run_func cfg junk (side_search x) s = Ok s1 /\ prims s1 = prims s /\ serving cfg content (tables s1) /\
    mask_found (entry_of (nfd s1)) = mask_found (row_among cfg content (ip (side_of x (prims s)))) /\
    as_found (entry_of (nfd s1)) = as_found (row_among cfg content (ip (side_of x (prims s)))).
Proof.
  intros [S4 S6] Ha. assert (E : run_func cfg junk (side_search x) s = search_ip x s) by by destruct x. rewrite E. clear E.
  unfold search_ip, row_among. set (a := ip (side_of x (prims s))) in *. destruct (Z.eqb_spec (ha_family a) AF_INET) as [E4 | N4].
  - destruct (serves_search _ _ _ (ha_address a) S4 Ha) as (r & c & E & Hr & S4'). unfold binsearch. rewrite E, bind_Ok.
    eexists. split; [done |]. split; [done |]. split; [done |]. by apply (found_strip In4).
  - destruct (Z.eqb_spec (ha_family a) AF_INET6) as [E6 | N6].
    + destruct (serves_search _ _ _ (ha_address a) S6 Ha) as (r & c & E & Hr & S6'). unfold binsearch6. rewrite E, bind_Ok.
      eexists. split; [done |]. split; [done |]. split; [done |]. by apply (found_strip In6).
    + eexists. by split.
Qed.

Lemma aggregated_same cfg x o o' s : mask_found o = mask_found o' -> as_found o = as_found o' -> aggregated cfg x o s = aggregated cfg x o' s.
Proof. intros Hm Ha. unfold aggregated. by rewrite Hm, Ha. Qed.

Lemma longest_match_range {K} {F : net_family K} {L : net_family_ok K} rows n (e : net_entry K) :
  Forall entry_ok rows -> longest_match rows n = Some e -> 0 <= masknum e <= 128.
Proof.
  intros Ho E. pose proof (longest_match_spec rows n) as H. rewrite E in H. destruct H as [[Hin _]%last_filter_in _].
  rewrite Forall_forall in Ho. pose proof (eo_len _ (Ho e Hin)). pose proof (k_bits_range (K := K)). lia.
Qed.

Lemma row_among_range cfg content g a : serving cfg content g -> 0 <= mask_found (row_among cfg content a) <= 128.
Proof.
  intros [[O4 _] [O6 _]]. unfold row_among. destruct (_ =? AF_INET); [| destruct (_ =? AF_INET6); [| cbn; lia]].
  - destruct (longest_match _ _) as [e |] eqn:E; [| cbn; lia]. by apply longest_match_range in E.
  - destruct (longest_match _ _) as [e |] eqn:E; [| cbn; lia]. by apply longest_match_range in E.
Qed.

(** One end of the traffic goes through its functions. *)
Lemma side_serving cfg content junk x s gs : plain cfg -> serving cfg content (tables s) -> addr_ok (ha_address (ip (side_of x (prims s)))) ->
  exists g b d, serving cfg content g /\ run_net_funcs cfg junk (side_funcs cfg x ++ gs) s =
    run_net_funcs cfg junk gs (mk_ns g (on_side x (aggregated cfg x (row_among cfg content (ip (side_of x (prims s))))) (prims s)) b d).
Proof.
  intros Hp Hs Ha. destruct (search_serving cfg content junk x s Hs Ha) as (s1 & E & Hprims & Hs1 & Hm & Has).
  pose proof (row_among_range cfg content _ (ip (side_of x (prims s))) Hs) as Hr. rewrite <- Hm in Hr.
  destruct (run_side cfg junk x (entry_of (nfd s1)) s s1 gs Hp Ha Hr E Hprims eq_refl) as (b & d & ->).
  exists (tables s1), b, d. split; [done |]. destruct x; cbn [on_side side_of] in *; by rewrite (aggregated_same _ _ _ _ _ Hm Has).
Qed.

Lemma rows_not_empty cfg content : networks_file_filter cfg = false -> rows4 cfg content <> [].
Proof. intros E. unfold rows4, temporary_table. rewrite E. by destruct (rows inet_aton (lines content) zero_entry) as [[| x es] last]. Qed.

(** C18. What traffic is turned into, when the networks file tells the masks
    ([plain]: networks are taken from the file, without fallback, without a
    static mask, and the file is no filter) and was loaded.  The functions that
    are picked treat every packet the same, whatever was looked up before it.
    Host, network and mask of each end stay if the configuration counts them
    and are zeroed if it does not: the mask is that of the file's answer for
    the end's address (0 if there is none), the network is the address under
    that mask, or the whole address where [networks_no_mask_if_zero] says so
    (an address of neither family keeps the network it had).  The AS becomes
    that of the answer when ASes are taken from the file and the configuration
    counts it, except that with a fallback for the AS and
    [networks_file_no_lpm] an empty mask leaves it; otherwise, counted or not, the packet's
    AS stays what it was. *)
Theorem net_funcs_aggregate cfg sys content s : loads cfg sys content s -> plain cfg ->
  exists g fs, load_networks cfg sys true s = Ok g /\ set_net_funcs cfg (nt g) = Ok (fs, nt g) /\
  forall junk p b d, addr_ok (ha_address (ip (src p))) -> addr_ok (ha_address (ip (dst p))) ->
  exists s', run_net_funcs cfg junk fs (mk_ns g p b d) = Ok s' /\
    prims s' = mk_prims (aggregated cfg Src (row_for cfg content (ip (src p))) (src p))
                        (aggregated cfg Dst (row_for cfg content (ip (dst p))) (dst p)).
Proof.
  intros H Hp. pose proof (lo_parsers _ _ _ _ H) as Hpars. destruct (load_networks_serves cfg sys content s H) as (g & E & S4 & S6 & _). exists g, (table_funcs cfg).
  split; [exact E |]. split.
  - unfold set_net_funcs, static_funcs, static_mask. rewrite (pl_static _ Hp). cbn [andb app].
    assert (Hnum : num (nt4 (nt g)) <> 0) by (apply (serves_num _ _ _ S4), rows_not_empty, Hp). apply Z.eqb_neq in Hnum. rewrite Hnum. cbn [andb].
    assert (Hlen : (length (table_funcs cfg) <? NET_FUNCS_N)%nat = true).
    { assert (Hw : forall b f, (length (when b f) <= 1)%nat) by (intros [] ?; cbn; lia). apply Nat.ltb_lt. unfold table_funcs, net_step, NET_FUNCS_N.
      rewrite !length_app. cbn [length]. repeat match goal with |- context [length (when ?b ?f)] => pose proof (Hw b f); generalize dependent (length (when b f)); intros end. lia. }
    by rewrite Hlen.
  - intros junk p b d Hsrc Hdst. rewrite <- (row_among_for cfg content _ Hpars Hsrc), <- (row_among_for cfg content _ Hpars Hdst). rewrite table_funcs_sides. cbn [app]. rewrite (run_cons cfg junk init_net_funcs _ _ _ eq_refl).
    destruct (side_serving cfg content junk Src (mk_ns g p b nfd0) (side_funcs cfg Dst) Hp ltac:(by split) Hsrc) as (g1 & b1 & d1 & Hs1 & E1).
    cbn [tables prims pbgp] in E1 |- *. rewrite E1.
    rewrite <- (app_nil_r (side_funcs cfg Dst)).
    destruct (side_serving cfg content junk Dst (mk_ns g1 (on_side Src (aggregated cfg Src (row_among cfg content (ip (src p)))) p) b1 d1) [] Hp Hs1 Hdst)
      as (g2 & b2 & d2 & _ & E2).
    cbn [tables prims side_of dst on_side src] in E2 |- *. rewrite E2. eexists. split; [done |]. done.
Qed.

End Loaded.

End NetFacts.
