(* ===== verification/NetExamples.v ===== *)
(** * The networks file: witnesses and findings

    A file with networks inside a network, rows of both families and a row given
    twice; what the claims say of it; and what the code does that it does not
    mean to. *)

From S2P Require Import Prelude.
From S2P Require Import BgpPrefix.
From S2P Require Import BgpAttr.
From S2P Require Import CfgData.
From S2P Require Import NetAggr.
From S2P Require Import NetFuncs.
From S2P Require Import NetKeyFacts.
From S2P Require Import NetSearchFacts.
From S2P Require Import NetLoadFacts.
From S2P Require Import NetFuncsFacts.
From S2P Require Import NetFacts.

Module NetExamples.
Import BgpPrefix(AF_INET, AF_INET6).
Import BgpAttr(host_addr, mk_ha, ha_family, ha_address, ha0).
Import CfgData.
Import NetAggr.
Import NetFuncs.
Import NetKeyFacts.
Import NetSearchFacts.
Import NetLoadFacts.
Import NetFuncsFacts.
Import NetFacts.

(** Parsers that know the addresses of the example. *)
Definition ex_aton (s : list Z) : option (list Z) :=
  if streq s "10.0.0.0" then Some [10; 0; 0; 0]
  else if streq s "10.1.0.0" then Some [10; 1; 0; 0]
  else if streq s "10.1.2.0" then Some [10; 1; 2; 0]
  else if streq s "192.168.0.0" then Some [192; 168; 0; 0]
  else None.
Definition ex_pton6 (s : list Z) : option (list Z) :=
  if streq s "2001:db8::" then Some ([0x20; 1; 0x0d; 0xb8] ++ replicate 12 0)
  else if streq s "::1" then Some (replicate 15 0 ++ [1])
  else None.

Definition ex_net_host : host := {|
  HAVE_L2 := true; WITH_NDPI := false; WITH_ZMQ := false; WITH_GEOIPV2 := false;
  WITH_MYSQL := false; WITH_PGSQL := false; WITH_SQLITE3 := false; WITH_RABBITMQ := false; WITH_KAFKA := false;
  PCAP_D_IN := 1; PCAP_D_OUT := 2; acct_type := 1;
  getpwnam := fun _ => None; getpwuid := fun _ => None; getgrnam := fun _ => None; getgrgid := fun _ => None;
  inet_aton := ex_aton; inet_pton6 := ex_pton6
|}.
#[local] Existing Instance ex_net_host.

Lemma ex_parsers : parsers_ok.
Proof.
  split; intros s b; cbn; unfold ex_aton, ex_pton6; repeat case_match; intros [= <-]; (split; [done |]);
    repeat (apply Forall_cons; split; [done |]); done.
Qed.

Definition line_of (s : string) : list Z := cstr s ++ [10].
Definition ex_file : list Z := concat (map line_of
  ["! networks"; "65001,10.1.2.0/24"; "65000,10.0.0.0/8"; "64512_65002,10.1.0.0/16"; "65003,2001:db8::/32"; "65009,10.1.2.0/24"]%string).

Definition ex_conf (net_ as_ wtc : Z) (filter : bool) : net_config := mk_nconf net_ as_ filter false false 7 0 wtc.
Definition ex_cfg : net_config := ex_conf NF_NET_NEW NF_AS_NEW 0x30000000c300 false.
Definition ex_sys (content : list Z) : system := mk_sys (Some content) 1000 true true true true true.

Lemma ex_loads cfg content : 0 <= networks_cache_entries cfg < 2 ^ 32 -> loads cfg (ex_sys content) content networks0.
Proof.
  intros H. constructor; [done | by repeat split | apply ex_parsers | done | by left | by left].
Qed.

Definition v4 (a b c d : Z) : list Z := [a; b; c; d] ++ replicate 12 0.
Definition v6_db8 : list Z := [0x20; 1; 0x0d; 0xb8] ++ replicate 11 0 ++ [9].
Definition ex_addrs : list (list Z) := [v4 10 1 2 3; v4 10 1 9 9; v4 10 200 0 1; v4 11 0 0 0; v4 10 1 2 3; v6_db8].

Lemma addr_ok_bytes a : (length a =? 16)%nat && forallb (fun b => (0 <=? b) && (b <? 256)) a = true -> addr_ok a.
Proof.
  intros [H1 H2]%andb_prop. split; [by apply Nat.eqb_eq |]. apply Forall_forall. intros x Hx.
  rewrite forallb_forall in H2. rewrite list_elem_of_In in Hx. specialize (H2 x Hx). apply andb_prop in H2 as [Ha%Z.leb_le Hb%Z.ltb_lt].
  by split.
Qed.

Lemma ex_addrs_ok : Forall addr_ok ex_addrs.
Proof. repeat (apply Forall_cons; split; [apply addr_ok_bytes; reflexivity |]). constructor. Qed.

(** What the rows answer for the addresses: of the row given twice the last. *)
Example ex_answers : map (fun a => option_map as_ (file_answer ex_cfg inet_aton ex_file (k_host a : Z))) ex_addrs =
  [Some 65009; Some 65002; Some 65000; None; Some 65009; None].
Proof. vm_compute. reflexivity. Qed.

Lemma load_networks_longest_match_witness :
  loads ex_cfg (ex_sys ex_file) ex_file networks0 /\ Forall addr_ok ex_addrs /\
  exists s', load_networks ex_cfg (ex_sys ex_file) true networks0 = Ok s' /\ forall addrs, Forall addr_ok addrs ->
    (exists rs, lookups (nt4 (nt s')) (nc4 (nc s')) addrs = Ok rs /\
       map (option_map strip) rs = map (fun a => file_answer ex_cfg inet_aton ex_file (k_host a : Z)) addrs) /\
    (exists rs, lookups (nt6 (nt s')) (nc6 (nc s')) addrs = Ok rs /\
       map (option_map strip) rs = map (fun a => file_answer ex_cfg inet_pton6 ex_file (k_host a : list Z)) addrs).
Proof.
  assert (H : loads ex_cfg (ex_sys ex_file) ex_file networks0) by (apply ex_loads; cbn; lia).
  exact (conj H (conj ex_addrs_ok (load_networks_longest_match ex_cfg (ex_sys ex_file) ex_file networks0 H))).
Defined.

Lemma load_networks_default_route_witness :
  loads ex_cfg (ex_sys ex_file) ex_file networks0 /\ has_default ex_file (rows4 ex_cfg ex_file) = false /\
  exists s', load_networks ex_cfg (ex_sys ex_file) true networks0 = Ok s' /\
    default_route_in_networks4_table s' = has_default ex_file (rows4 ex_cfg ex_file) /\
    default_route_in_networks6_table s' = has_default ex_file (rows6 ex_cfg ex_file).
Proof.
  assert (H : loads ex_cfg (ex_sys ex_file) ex_file networks0) by (apply ex_loads; cbn; lia).
  split; [exact H |]. split; [vm_compute; reflexivity |].
  exact (load_networks_default_route ex_cfg (ex_sys ex_file) ex_file networks0 H).
Defined.

Definition ex_prims : pkt_primitives :=
  mk_prims (mk_side (mk_ha AF_INET (v4 10 1 9 9)) ha0 0 1) (mk_side (mk_ha AF_INET6 v6_db8) ha0 0 2).

(** The packet of the example: networks, masks and ASes of both ends are
    counted, hosts are not. *)
Example ex_aggregated : aggregated ex_cfg Src (row_for ex_cfg ex_file (ip (src ex_prims))) (src ex_prims) =
  mk_side ha0 (mk_ha AF_INET (v4 10 1 0 0)) 16 65002.
Proof. vm_compute. reflexivity. Qed.

Lemma net_funcs_aggregate_witness :
  loads ex_cfg (ex_sys ex_file) ex_file networks0 /\ plain ex_cfg /\
  exists g fs, load_networks ex_cfg (ex_sys ex_file) true networks0 = Ok g /\ set_net_funcs ex_cfg (nt g) = Ok (fs, nt g) /\
  forall junk p b d, addr_ok (ha_address (ip (src p))) -> addr_ok (ha_address (ip (dst p))) ->
  exists s', run_net_funcs ex_cfg junk fs (mk_ns g p b d) = Ok s' /\
    prims s' = mk_prims (aggregated ex_cfg Src (row_for ex_cfg ex_file (ip (src p))) (src p))
                        (aggregated ex_cfg Dst (row_for ex_cfg ex_file (ip (dst p))) (dst p)).
Proof.
  assert (H : loads ex_cfg (ex_sys ex_file) ex_file networks0) by (apply ex_loads; cbn; lia).
  assert (P : plain ex_cfg) by (constructor; reflexivity).
  exact (conj H (conj P (net_funcs_aggregate ex_cfg (ex_sys ex_file) ex_file networks0 H P))).
Defined.

(** ** Findings *)

(** When a reload of the IPv4 half fails, the copy that is rolled back has no
    IPv6 half: the IPv6 table is lost with it. *)
Lemma rollback_loses_ipv6 cfg sys content s :
  fopen sys = Some content -> freopen_ok sys = false -> num (nt4 (nt s)) <> 0 ->
  exists s', load_networks4 cfg sys true s = Ok s' /\ nt4 (nt s') = nt4 (nt s) /\ nt6 (nt s') = half0.
Proof.
  intros Hf Hr Hn. unfold load_networks4. rewrite Hf. unfold load_file. rewrite Hr. cbn [negb orb]. rewrite bind_Ok.
  unfold handle_error4. apply Z.eqb_neq in Hn. cbn [table half0]. rewrite Hn. unfold without4. rewrite Hn. cbn. by eexists.
Qed.

(** A file that is gone is rolled back for IPv4 and ends the process for
    IPv6. *)
Lemma missing_file_exits cfg sys s : fopen sys = None -> keep cfg = true -> load_networks cfg sys true s = Err Exited.
Proof.
  intros Hf Hk. unfold load_networks, load_networks4, load_networks6. rewrite Hf, Hk. cbn [negb].
  unfold handle_error4. destruct (num _ =? 0); [done |]. by destruct (table _).
Qed.

(** A row without a slash leaves its AS behind: when no row is a network, every
    address is of that AS. *)
Example bad_row_is_default : option_map as_ (longest_match (rows4 ex_cfg (line_of "65000,10.0.0.0")) (k_host (v4 8 8 8 8))) = Some 65000.
Proof. vm_compute. reflexivity. Qed.

(** After a file of IPv4 networks every IPv6 address finds the entry that stands
    for the IPv6 networks there are none of; the last rows, which are no IPv6
    networks, left it no AS. *)
Example no_networks6 : option_map (fun e => (masknum e, as_ e)) (file_answer ex_cfg inet_pton6 (line_of "65000,10.0.0.0/8") (k_host v6_db8 : list Z)) =
  Some (0, 0).
Proof. vm_compute. reflexivity. Qed.

(** A mask that is missing, or that does not fit an [int], is taken. *)
Example empty_mask : map (fun e => (masknum e, net e)) (rows4 ex_cfg (line_of "10.0.0.0/")) = [(0, 0)].
Proof. vm_compute. reflexivity. Qed.
Example wrapped_mask : map masknum (rows4 ex_cfg (line_of "10.0.0.0/4294967304")) = [8].
Proof. vm_compute. reflexivity. Qed.

(** With a filter, a host in a network that starts with a zero word is hidden
    although the file lists the network. *)
Definition filter_cfg : net_config := ex_conf NF_NET_NEW NF_AS_NEW 0x1 true.
Definition loopback : list Z := replicate 15 0 ++ [1].
Lemma listed_host_hidden :
  option_map masknum (longest_match (rows6 filter_cfg (line_of "::1/128")) (k_host loopback)) = Some 128 /\
  match load_networks filter_cfg (ex_sys (line_of "::1/128")) true networks0 with
  | Ok g =>
      match run_net_funcs filter_cfg ha0 [init_net_funcs; search_src_ip; search_src_host]
              (mk_ns g (mk_prims (mk_side (mk_ha AF_INET6 loopback) ha0 0 0) (mk_side ha0 ha0 0 0)) None nfd0) with
      | Ok s => ip (src (prims s)) = mk_ha AF_INET6 (replicate 16 0)
      | Err _ => False
      end
  | Err _ => False
  end.
Proof. vm_compute. by split. Qed.

(** Without a table, a summed network keeps the source's network and clears the
    destination's. *)
Lemma sum_net_clears_dst : exists fs, set_net_funcs (ex_conf 0 0 COUNT_SUM_NET false) nt0 = Ok (fs, nt0) /\
  mask_src_ipaddr ∈ fs /\ clear_dst_net ∈ fs /\ mask_dst_ipaddr ∉ fs.
Proof.
  exists [mask_src_ipaddr; clear_src_host; clear_dst_net; clear_dst_host; clear_src_nmask; clear_dst_nmask].
  split; [reflexivity |]. split_and!; [set_solver | set_solver |].
  intros H. repeat (apply elem_of_cons in H as [H | H]; [done |]). by apply elem_of_nil in H.
Qed.

(** The next hop of a packet that is of neither family is what the stack
    holds. *)
Lemma peer_dst_ip_junk junk t p b d :
  has (nfacctd_net ex_cfg) NF_NET_FALLBACK = false -> (family d =? AF_INET) || (family d =? AF_INET6) = false ->
  exists b', pbgp (search_peer_dst_ip ex_cfg junk (mk_ns t p (Some b) d)) = Some b' /\ peer_dst_ip b' = junk.
Proof. intros Hf Hd. unfold search_peer_dst_ip, taken. cbn [nfd]. rewrite Hd, Hf. by eexists. Qed.

End NetExamples.
